(* ===== verification/_CoqProject ===== *)
-Q . S2P
Prelude.v
DList.v
BtList.v
BtSkbuff.v
H5State.v
H5Codec.v
H5Tx.v
H5Recv.v
H5Roundtrip.v
H5Link.v
SwdmxList.v
SwdmxTs.v
SwdmxCsa.v
SwdmxCsaKey.v
SwdmxDesc.v
SwdmxSec.v
SwdmxDemux.v
SwdmxPipe.v
RingBuffer.v
PhydmMath.v
IspMath.v
WifiReorder.v
WifiAes.v
WifiAead.v
Mem.v
WifiCcmp.v
WifiIe.v
WifiAttr.v
WifiElems.v
WifiRsn.v
WifiWep.v
WifiTkip.v
WifiFrag.v
WifiXmit.v
WifiMsdu.v
WifiRx.v
