(* ===== verification/Prelude.v ===== *)
(** * The software of the unionpi_tiger board

    A board support package: the Bluetooth vendor library, the Wi-Fi driver (rtl88x2cs),
    the media drivers with a software demultiplexer, and the image signal processor
    driver. Most of it programs registers, fills tables or glues kernel frameworks
    together. This library models the parts with logic of their own, whose behaviour the
    source alone decides, and proves what they are there for. Paths are below
    [src/unionpi_tiger/]; definitions keep the names of the functions they model.

    ** The Bluetooth library ([hardware/bt/src])

    [bt_list.c] is an intrusive list, [bt_skbuff.c] has packet buffers and queues made of
    it, and [hci_h5.c] is the three-wire UART transport (H5): frames in SLIP coding with
    checksums, sequence numbers, a sliding window with cumulative acknowledgement and
    go-back-N, and link establishment.
    - [DList]: the heap of linked nodes, the representation predicate [dlist], and the
      interface [DListOps] that a list package discharges; [BtList] discharges it.
    - [BtSkbuff]: [Rtb] (one buffer), [RtbQueue] (a queue refines a sequence of buffers).
    - [H5State]: the control block [rtk_h5] with its queues as lists of packets, the
      outcomes of the coming allocations, and the trace of calls to UART, timers and
      stack. [H5Codec]: the wire format, [H5Tx]: the sender, [H5Recv]: the byte-driven
      parser and delivery, [H5Link]: link establishment, service calls, timers and
      threads as one transition system.
    - Theorems: every reachable state of the whole transport satisfies its invariant and
      the parser never reads through a null buffer; a frame that was built is received as
      what it was built from, in one piece or byte by byte, after any noise, and a damaged
      one is dropped; the sender respects the window, an acknowledgement removes exactly
      the packets it covers, and retransmission puts them back in order; reliable data
      leaves first in first out; the link follows its state machine.

    ** The software demultiplexer
    ([kernel/drivers/media/drivers/stream_input/parser/demux/sw_demux])

    A stream of bytes is cut into packets by [swdmx_ts_parser.c], which calls the
    descrambler ([swdmx_descrambler.c] with DVB-CSA2, AES-ECB or AES-CBC), which calls the
    demultiplexer ([swdmx_demux.c]), which gives packets and reassembled sections to
    filters.
    - [SwdmxList]: the list of the source and the callback lists, over [DListOps].
      [SwdmxTs]: parser and CRC, with the interface [TsCallbacks] for what a callback does
      to its consumer. [SwdmxSec]: section reassembly and matching. [SwdmxDemux]: filters
      and PID filters. [SwdmxCsa], [SwdmxCsaKey]: the scrambling algorithm and its key
      schedule. [SwdmxDesc]: channels and algorithms. [SwdmxPipe]: the three composed.
    - Theorems: no operation in any state it can reach uses freed memory; filters get
      exactly the packets and sections they asked for; sections cut into packets come back
      whole; CRC and filter match compute their references; descrambling inverts
      scrambling; and through the whole pipeline a scrambled stream gives its consumers
      what the clear one gives them.
    - [RingBuffer] is the ring buffer of the CI driver
      ([stream_input/parser/dvb_ci/cimax/dvb_ringbuffer.c]): it refines a queue of bytes,
      and a queue of packets.

    ** The Wi-Fi driver ([kernel/drivers/rtl88x2cs])

    - [WifiReorder]: A-MPDU receive reordering ([core/rtw_recv.c] and the places that reset
      its window). It refines a receiver with unbounded sequence numbers, hands frames on
      in order, and never leaves a frame behind.
    - [WifiAes], [WifiAead], [WifiCcmp]: [core/crypto]. The table-driven AES is the AES of
      the standard; the modes are proved over the interface [BlockCipher]; CCMP and GCMP
      over the interface [suite], in explicit memory: what is sealed in place is opened in
      place, other tags are refused, and no access leaves a buffer.
    - [Mem]: buffers with bounds, the results [Fault] and [Diverge], and the predicate
      [gives] of what a result satisfies; [WifiCcmp] and the following files use it.
    - [WifiIe], [WifiAttr], [WifiElems], [WifiRsn]: [core/rtw_ieee80211.c], the information
      elements of management frames. Elements are written, found, replaced and removed
      ([WifiIe]); WPS, P2P and WFD elements have attributes inside ([WifiAttr]); one parser
      finds all elements of a frame ([WifiElems]); RSN and WPA elements list cipher suites
      ([WifiRsn]). On well-formed frames each operation does to the list of elements what
      its name says; on any bytes the parsers stay inside of the frame and end, or the
      lemmas show where they do not: an attribute whose length wraps to nothing is searched
      forever.
    - [WifiWep], [WifiTkip]: [core/rtw_security.c]. RC4, CRC-32 and WEP; Michael, the key
      mixing and TKIP. The check values are those of the standards, the key of a frame
      determines its sender and number, what is encrypted is decrypted, and what is accepted
      ends in its check value.
    - [WifiFrag], [WifiXmit], [WifiMsdu]: what carries packets in frames ([core/rtw_recv.c],
      [core/rtw_xmit.c], [os_dep/linux]). [WifiFrag] has the queues of fragments, duplicates
      and packet numbers: reassembly joins exactly the fragments that belong together, no
      frame is lost, and group frames are not replayed. [WifiXmit] makes frames of packets
      (the LLC header, fragments, Michael, A-MSDU), and [WifiMsdu] makes packets of frames:
      a packet under TKIP arrives as it was sent, and an A-MSDU is taken apart into its
      packets and ends on any bytes.
    - [WifiRx]: the way of a data frame in a station, from its header to the port
      ([core/rtw_recv.c], [core/rtw_security.c]): the checks of the header, duplicates,
      the refusal of plain text, cipher and key, decryption, reassembly and the port of
      IEEE 802.1X. What is accepted is what its header says, no plain text gets in but
      EAPOL, nothing is accepted twice, a closed port lets EAPOL pass and nothing else, and
      a packet under CCMP arrives and a forged one does not.
    - [PhydmMath]: [hal/phydm/phydm_math_lib.c].

    ** The image signal processor ([kernel/drivers/isp])

    - [IspMath]: [acamera_math.c]: square roots, logarithms, powers of two and table
      interpolation in fixed point, against what they approximate.

    ** Conventions

    This file holds what the others share: C integers as [Z] with the wrap of their type
    written out ([u8] to [u64], [s32], [s64]), bit operations in [c_scope], the writes
    [blit] and the reads [window] of an array, reachability, and tactics. An access the C
    language does not define (null, freed, or outside of an array) has no result: [None],
    or [Fault] where the null pointer is a result of its own ([Mem]). Outcomes of allocation are
    arguments or a list in the state. What is outside the repository is a parameter: the
    AES of the kernel crypto library in [SwdmxDesc], [rtw_malloc] in [WifiCcmp], the UART
    and the timers in [H5State].

    Fuel: the loops over input consume it, and take its length ([ctr_loop], [omac_blocks],
    the parsers, [amsdu_loop]); the loops over fragments take their number or the length of
    the packet; the retransmission and sending loops take the number of packets; a
    theorem about each shows a result, so the fuel is enough. The search for attributes
    takes any fuel: with more than the length of the element it ends where it ends at all.

    ** Not modelled

    Register programming, microcode and firmware, calibration and chip tables, and the glue
    to kernel frameworks (cfg80211, V4L2, HDF, device files), where the behaviour is that of
    hardware or of code outside of the repository. Concurrency inside of an operation: an
    operation runs under its lock and is one step; the threads interleave whole operations.
    The station management of the Wi-Fi driver with its handling of management frames, the
    access point and mesh modes, and the state machines of the image pipeline have logic of
    their own and are not modelled: they interleave timers, command threads and the chip. The bit-sliced
    variant of the scrambling algorithm is not called by the descrambler. *)

From Stdlib Require Export ZArith Lia.
From stdpp Require Export base option list numbers gmap.

#[export] Set Default Goal Selector "!".
#[global] Open Scope Z_scope.

(** * Machine-width integers

    A C integer of width [w] is a [Z]; an operation that may leave the range
    is followed by the wrap of its type. *)

Definition u8 (x : Z) : Z := x mod 2 ^ 8.
Definition u16 (x : Z) : Z := x mod 2 ^ 16.
Definition u32 (x : Z) : Z := x mod 2 ^ 32.
Definition u64 (x : Z) : Z := x mod 2 ^ 64.

(** Two's complement reading of the low 32 (64) bits. *)
Definition s32 (x : Z) : Z := (x + 2 ^ 31) mod 2 ^ 32 - 2 ^ 31.
Definition s64 (x : Z) : Z := (x + 2 ^ 63) mod 2 ^ 64 - 2 ^ 63.

(** Bitwise complement of an unsigned value of width 8. *)
Definition not8 (x : Z) : Z := u8 (Z.lnot x).

Definition is_byte (x : Z) : Prop := 0 <= x < 256.
Abbreviation bytes := (Forall is_byte).

#[export] Instance is_byte_dec x : Decision (is_byte x).
Proof. unfold is_byte. apply _. Defined.

Declare Scope c_scope.
Delimit Scope c_scope with C.
Notation "x .& y" := (Z.land x y) (at level 40, left associativity) : c_scope.
Notation "x .| y" := (Z.lor x y) (at level 41, left associativity) : c_scope.
Notation "x .^ y" := (Z.lxor x y) (at level 41, left associativity) : c_scope.
Notation "x .<< y" := (Z.shiftl x y) (at level 39, left associativity) : c_scope.
Notation "x .>> y" := (Z.shiftr x y) (at level 39, left associativity) : c_scope.
#[global] Open Scope c_scope.

(** Truth value of a C expression. *)
Definition truthy (x : Z) : bool := negb (x =? 0).
Definition b2z (b : bool) : Z := if b then 1 else 0.

(** Reading a [const] array at an index the caller keeps in range; the default
    is never observed there. *)
Definition tbl (t : list Z) (i : Z) : Z := default 0 (t !! Z.to_nat i).

(** * Width lemmas *)

Create HintDb width.
Create Rewrite HintDb nowrap.

Lemma u8_range x : is_byte (u8 x).
Proof. unfold u8, is_byte. pose proof (Z.mod_pos_bound x (2 ^ 8)). lia. Qed.
Lemma u16_range x : 0 <= u16 x < 65536.
Proof. unfold u16. pose proof (Z.mod_pos_bound x (2 ^ 16)). lia. Qed.
Lemma u32_range x : 0 <= u32 x < 4294967296.
Proof. unfold u32. pose proof (Z.mod_pos_bound x (2 ^ 32)). lia. Qed.
Lemma u8_small x : is_byte x -> u8 x = x.
Proof. unfold u8, is_byte. intros. apply Z.mod_small. lia. Qed.
Lemma u16_small x : 0 <= x < 65536 -> u16 x = x.
Proof. unfold u16. intros. apply Z.mod_small. lia. Qed.
Lemma u32_small x : 0 <= x < 4294967296 -> u32 x = x.
Proof. unfold u32. intros. apply Z.mod_small. lia. Qed.
Lemma u64_small x : 0 <= x < 18446744073709551616 -> u64 x = x.
Proof. unfold u64. intros. apply Z.mod_small. lia. Qed.
Lemma s32_small x : -2147483648 <= x < 2147483648 -> s32 x = x.
Proof.
  unfold s32. intros. rewrite Z.mod_small; lia.
Qed.
Lemma s64_small x : -9223372036854775808 <= x < 9223372036854775808 -> s64 x = x.
Proof. unfold s64. intros. rewrite Z.mod_small; lia. Qed.

#[export] Hint Resolve u8_range u16_range u32_range : width.
#[export] Hint Rewrite u8_small u16_small u32_small u64_small s32_small s64_small
  using (unfold is_byte in *; lia) : nowrap.

(** Discards the wraps whose argument is already in range. *)
Ltac nowrap := autorewrite with nowrap in *.

(** * Finite case analysis on machine values

    A boolean property of a byte is proved by evaluating it on the 256
    bytes. *)

Definition byte_range : list Z := seqZ 0 256.

Lemma byte_cases (P : Z -> bool) :
  forallb P byte_range = true -> forall x, is_byte x -> P x = true.
Proof.
  intros H x Hx. rewrite forallb_forall in H. apply H.
  rewrite <- list_elem_of_In. apply elem_of_seqZ. unfold is_byte in Hx. lia.
Qed.

Lemma byte_cases2 (P : Z -> Z -> bool) :
  forallb (fun x => forallb (P x) byte_range) byte_range = true ->
  forall x y, is_byte x -> is_byte y -> P x y = true.
Proof.
  intros H x y Hx Hy.
  exact (byte_cases (P x) (byte_cases (fun x => forallb (P x) byte_range) H x Hx) y Hy).
Qed.

Lemma range_cases (n : Z) (P : Z -> bool) :
  forallb P (seqZ 0 n) = true -> forall x, 0 <= x < n -> P x = true.
Proof.
  intros H x Hx. rewrite forallb_forall in H. apply H.
  rewrite <- list_elem_of_In. apply elem_of_seqZ. lia.
Qed.

(** * Bit lemmas *)

Lemma land_7_mod8 x : x .& 7 = x mod 8.
Proof. change 7 with (Z.ones 3). now rewrite Z.land_ones. Qed.
Lemma land_255_u8 x : x .& 255 = u8 x.
Proof. change 255 with (Z.ones 8). now rewrite Z.land_ones. Qed.
Lemma land_15_mod x : x .& 15 = x mod 16.
Proof. change 15 with (Z.ones 4). now rewrite Z.land_ones. Qed.

Lemma land_bit v k : 0 <= k -> truthy (v .& 2 ^ k) = Z.testbit v k.
Proof.
  intros Hk. unfold truthy. destruct (Z.testbit v k) eqn:E.
  - apply negb_true_iff, Z.eqb_neq. intros H. apply (f_equal (fun x => Z.testbit x k)) in H.
    rewrite Z.land_spec, E, Z.pow2_bits_true, Z.bits_0 in H by lia. done.
  - apply negb_false_iff, Z.eqb_eq. apply Z.bits_inj'. intros n Hn.
    rewrite Z.land_spec, Z.bits_0, Z.pow2_bits_eqb by lia.
    destruct (Z.eqb_spec k n) as [->|]; [by rewrite E|by rewrite andb_false_r].
Qed.

Lemma lxor_byte a b : is_byte a -> is_byte b -> is_byte (a .^ b).
Proof.
  unfold is_byte. intros Ha Hb.
  assert (H0 : 0 <= a .^ b) by (apply Z.lxor_nonneg; lia). split; [done|].
  destruct (Z.eq_dec (a .^ b) 0) as [->|N]; [lia|]. apply (Z.log2_lt_pow2 _ 8); [lia|].
  pose proof (Z.log2_lxor a b ltac:(lia) ltac:(lia)).
  assert (L : forall x, 0 <= x < 256 -> Z.log2 x < 8).
  { intros x Hx. destruct (Z.eq_dec x 0) as [->|]; [reflexivity|]. apply Z.log2_lt_pow2; lia. }
  pose proof (L a Ha). pose proof (L b Hb). lia.
Qed.

(** * Lists *)

Lemma take_app_len {A} (l k : list A) n : n = length l -> take n (l ++ k) = l.
Proof. intros ->. apply take_app_length. Qed.
Lemma drop_app_len {A} (l k : list A) n : n = length l -> drop n (l ++ k) = k.
Proof. intros ->. apply drop_app_length. Qed.

(** Writing the list [bs] over [l] from position [i]: the C library's
    [memcpy] into an array; bytes past the end of the array are not stored. *)
Definition blit {A} (i : nat) (bs l : list A) : list A :=
  take i l ++ take (length l - i) bs ++ drop (i + length bs) l.

Lemma length_blit {A} i (bs l : list A) :
  (i <= length l)%nat -> length (blit i bs l) = length l.
Proof. intros. unfold blit. rewrite !length_app, !length_take, length_drop. lia. Qed.

Lemma blit_fit {A} i (bs l : list A) :
  (i + length bs <= length l)%nat ->
  blit i bs l = take i l ++ bs ++ drop (i + length bs) l.
Proof. intros. unfold blit. rewrite (take_ge bs); [done | lia]. Qed.

Lemma blit_nil {A} i (l : list A) : (i <= length l)%nat -> blit i [] l = l.
Proof.
  intros. rewrite blit_fit by (simpl; lia). simpl. rewrite Nat.add_0_r. apply take_drop.
Qed.

(** The window [[i, i+n)] of a list. *)
Definition window {A} (i n : nat) (l : list A) : list A := take n (drop i l).

Lemma length_window {A} i n (l : list A) :
  (i + n <= length l)%nat -> length (window i n l) = n.
Proof. intros. unfold window. rewrite length_take, length_drop. lia. Qed.

Lemma window_blit_end {A} i n (bs l : list A) :
  (i + n + length bs <= length l)%nat ->
  window i (n + length bs) (blit (i + n) bs l) = window i n l ++ bs.
Proof.
  intros. unfold window. rewrite blit_fit by lia.
  rewrite drop_app_le by (rewrite length_take; lia).
  rewrite app_assoc, take_app_len.
  - f_equal. rewrite skipn_firstn_comm. f_equal. lia.
  - rewrite length_app, length_drop, length_take. lia.
Qed.

Lemma window_take {A} i n m (l : list A) :
  (m <= n)%nat -> window i m l = take m (window i n l).
Proof. intros. unfold window. rewrite take_take. f_equal. lia. Qed.

Lemma window_drop {A} i n m (l : list A) :
  (m <= n)%nat -> window (i + m) (n - m) l = drop m (window i n l).
Proof.
  intros. unfold window. rewrite skipn_firstn_comm, drop_drop. done.
Qed.

Lemma bytes_window i n l : bytes l -> bytes (window i n l).
Proof. intros. unfold window. by apply Forall_take, Forall_drop. Qed.

Lemma bytes_blit i bs l : bytes bs -> bytes l -> bytes (blit i bs l).
Proof.
  intros. unfold blit.
  apply Forall_app; split; [by apply Forall_take|].
  apply Forall_app; split; [by apply Forall_take|by apply Forall_drop].
Qed.

(** Overwriting inside an array, by index. *)
Lemma lookup_blit {A} i (bs l : list A) j :
  (i + length bs <= length l)%nat ->
  blit i bs l !! j = if decide (i <= j < i + length bs)%nat then bs !! (j - i)%nat else l !! j.
Proof.
  intros H. rewrite blit_fit by done.
  assert (Ht : length (take i l) = i) by (rewrite length_take; lia).
  case_decide as D.
  - rewrite lookup_app_r, Ht, lookup_app_l by lia. done.
  - destruct (decide (j < i)%nat).
    + rewrite lookup_app_l, lookup_take_lt by lia. done.
    + rewrite lookup_app_r, Ht, lookup_app_r, lookup_drop by lia. f_equal. lia.
Qed.

Lemma lookup_window {A} i n (l : list A) j :
  window i n l !! j = if decide (j < n)%nat then l !! (i + j)%nat else None.
Proof.
  unfold window. case_decide.
  - by rewrite lookup_take_lt, lookup_drop by lia.
  - by rewrite lookup_take_ge by lia.
Qed.

Lemma blit_blit {A} i (bs cs l : list A) :
  length bs = length cs -> (i + length bs <= length l)%nat -> blit i bs (blit i cs l) = blit i bs l.
Proof.
  intros E H. apply list_eq. intros j.
  rewrite !lookup_blit by (rewrite ?length_blit; lia). repeat case_decide; (done || lia).
Qed.

Lemma blit_comm {A} i j (bs cs l : list A) :
  (i + length bs <= j)%nat -> (j + length cs <= length l)%nat ->
  blit i bs (blit j cs l) = blit j cs (blit i bs l).
Proof.
  intros E H. apply list_eq. intros k.
  rewrite !lookup_blit by (rewrite ?length_blit; lia). repeat case_decide; (done || lia).
Qed.

Lemma blit_window {A} i n (l : list A) : (i + n <= length l)%nat -> blit i (window i n l) l = l.
Proof.
  intros H. apply list_eq. intros j. rewrite lookup_blit by (rewrite length_window; lia).
  rewrite length_window, lookup_window by lia. repeat case_decide; try lia; [|done]. f_equal. lia.
Qed.

Lemma window_blit {A} i (bs l : list A) :
  (i + length bs <= length l)%nat -> window i (length bs) (blit i bs l) = bs.
Proof.
  intros H. apply list_eq. intros j. rewrite lookup_window. case_decide.
  - rewrite lookup_blit by done. case_decide; [|lia]. f_equal. lia.
  - symmetry. apply lookup_ge_None. lia.
Qed.

Lemma window_blit_other {A} i n j (bs l : list A) :
  (j + length bs <= length l)%nat -> (j + length bs <= i \/ i + n <= j)%nat ->
  window i n (blit j bs l) = window i n l.
Proof.
  intros H D. apply list_eq. intros k. rewrite !lookup_window. case_decide; [|done].
  rewrite lookup_blit by done. case_decide; [lia|done].
Qed.

Lemma tbl_blit i (bs l : list Z) k :
  (i + length bs <= length l)%nat -> 0 <= k -> (k < Z.of_nat i \/ Z.of_nat (i + length bs) <= k) ->
  tbl (blit i bs l) k = tbl l k.
Proof. intros H Hk D. unfold tbl. rewrite lookup_blit by done. case_decide; [lia|done]. Qed.

Lemma tbl_take l n i : 0 <= i < Z.of_nat n -> tbl (take n l) i = tbl l i.
Proof. intros. unfold tbl. rewrite lookup_take_lt by lia. done. Qed.

Lemma tbl_byte p i : bytes p -> is_byte (tbl p i).
Proof.
  intros B. unfold tbl. destruct (p !! Z.to_nat i) eqn:E; simpl; [|unfold is_byte; lia].
  rewrite Forall_lookup in B. eauto.
Qed.

(** * Transition systems *)

Section Reachability.
Context {S : Type} (init : S -> Prop) (step : S -> S -> Prop).

Inductive reachable : S -> Prop :=
| reach_init s : init s -> reachable s
| reach_step s s' : reachable s -> step s s' -> reachable s'.

Lemma reachable_inv (I : S -> Prop) :
  (forall s, init s -> I s) -> (forall s s', I s -> step s s' -> I s') ->
  forall s, reachable s -> I s.
Proof. intros H0 H1 s H. induction H; eauto. Qed.
End Reachability.

(** * Tactics of the development *)

(** Splits the boolean tests of the goal and of the hypotheses. *)
Ltac bdestruct :=
  repeat match goal with
  | |- context [Z.eqb ?a ?b] => destruct (Z.eqb_spec a b)
  | |- context [Z.ltb ?a ?b] => destruct (Z.ltb_spec a b)
  | |- context [Z.leb ?a ?b] => destruct (Z.leb_spec a b)
  | H : context [Z.eqb ?a ?b] |- _ => destruct (Z.eqb_spec a b)
  | H : context [Z.ltb ?a ?b] |- _ => destruct (Z.ltb_spec a b)
  | H : context [Z.leb ?a ?b] |- _ => destruct (Z.leb_spec a b)
  end.

(** Destructs the leading conjunctions of the context. *)
Ltac dand := repeat match goal with H : _ /\ _ |- _ => destruct H end.
