(* ===== verification/DList.v ===== *)
(** Circular doubly linked lists in a heap.  Both list packages of the
    repository ([bt_list.c] of the Bluetooth library and the [SWDMX_List] of
    the software demultiplexer) keep intrusive circular lists; their nodes live
    in the same heap model, and their operations are proved against the
    representation predicate [dlist] and the interface [DListOps] below. *)

From S2P Require Import Prelude.

(** Addresses of list nodes. *)
Abbreviation loc := positive.

(** The link part of a structure that embeds a list entry. *)
Record node := mk_node { Next : loc; Prev : loc }.
Abbreviation heap := (gmap loc node).

(** A load or a store through a pointer that is not an allocated node is
    undefined behaviour: [None]. *)
Definition load_next (h : heap) (a : loc) : option loc := Next <$> h !! a.
Definition load_prev (h : heap) (a : loc) : option loc := Prev <$> h !! a.
Definition store_next (a v : loc) (h : heap) : option heap :=
  n ← h !! a; Some (<[a := mk_node v (Prev n)]> h).
Definition store_prev (a v : loc) (h : heap) : option heap :=
  n ← h !! a; Some (<[a := mk_node (Next n) v]> h).

(** * Representation *)

(** Consecutive nodes of a path point at each other. *)
Fixpoint linked (h : heap) (p : list loc) : Prop :=
  match p with
  | a :: ((b :: _) as q) => load_next h a = Some b /\ load_prev h b = Some a /\ linked h q
  | _ => True
  end.

#[global] Arguments linked : simpl nomatch.

(** [hd] is the header of a circular list whose entries are [l], in order. *)
Definition dlist (h : heap) (hd : loc) (l : list loc) : Prop :=
  NoDup (hd :: l) /\ linked h (hd :: l ++ [hd]).

(** Only the nodes of [s] changed. *)
Definition frame (s : list loc) (h h' : heap) : Prop := forall a, a ∉ s -> h' !! a = h !! a.

Lemma frame_trans s h1 h2 h3 : frame s h1 h2 -> frame s h2 h3 -> frame s h1 h3.
Proof. unfold frame. intros H1 H2 a Ha. rewrite H2, H1; auto. Qed.

Lemma frame_weaken s s' h h' : s ⊆ s' -> frame s h h' -> frame s' h h'.
Proof. unfold frame. intros Hs H a Ha. apply H. set_solver. Qed.

Lemma linked_app h p x q :
  linked h (p ++ x :: q) <-> linked h (p ++ [x]) /\ linked h (x :: q).
Proof.
  induction p as [|a [|b p] IH]; simpl in *.
  - tauto.
  - destruct q; simpl; tauto.
  - tauto.
Qed.

Lemma linked_cons h a b q :
  linked h (a :: b :: q) <-> load_next h a = Some b /\ load_prev h b = Some a /\ linked h (b :: q).
Proof. done. Qed.

(** A path survives a change of the heap that keeps the next pointers of all
    its nodes but the last and the previous pointers of all but the first. *)
Lemma linked_frame h h' a q z :
  (forall x, x ∈ a :: q -> load_next h' x = load_next h x) ->
  (forall x, x ∈ q ++ [z] -> load_prev h' x = load_prev h x) ->
  linked h (a :: q ++ [z]) -> linked h' (a :: q ++ [z]).
Proof.
  revert a. induction q as [|b q IH]; intros a Hn Hp; simpl.
  - intros (H1 & H2 & _). rewrite Hn, Hp by set_solver. auto.
  - intros (H1 & H2 & H3). rewrite Hn, Hp by set_solver.
    repeat split; [done..|]. apply IH; [set_solver..|done].
Qed.

(** Pointers after a store. *)
Lemma store_next_spec a v h :
  is_Some (h !! a) ->
  exists h', store_next a v h = Some h' /\
    (forall b, load_next h' b = if decide (b = a) then Some v else load_next h b) /\
    (forall b, load_prev h' b = load_prev h b) /\ frame [a] h h'.
Proof.
  intros [n Hn]. unfold store_next, load_next, load_prev. rewrite Hn. simpl.
  eexists. split; [done|]. split; [|split].
  - intros b. case_decide; subst; by simplify_map_eq.
  - intros b. destruct (decide (b = a)); subst; by simplify_map_eq.
  - intros b Hb. rewrite lookup_insert_ne; [done|set_solver].
Qed.

Lemma store_prev_spec a v h :
  is_Some (h !! a) ->
  exists h', store_prev a v h = Some h' /\
    (forall b, load_prev h' b = if decide (b = a) then Some v else load_prev h b) /\
    (forall b, load_next h' b = load_next h b) /\ frame [a] h h'.
Proof.
  intros [n Hn]. unfold store_prev, load_next, load_prev. rewrite Hn. simpl.
  eexists. split; [done|]. split; [|split].
  - intros b. case_decide; subst; by simplify_map_eq.
  - intros b. destruct (decide (b = a)); subst; by simplify_map_eq.
  - intros b Hb. rewrite lookup_insert_ne; [done|set_solver].
Qed.

Lemma alive_next h a : is_Some (h !! a) <-> is_Some (load_next h a).
Proof. unfold load_next. by rewrite fmap_is_Some. Qed.
Lemma alive_prev h a : is_Some (h !! a) <-> is_Some (load_prev h a).
Proof. unfold load_prev. by rewrite fmap_is_Some. Qed.

(** * Insertion and removal, for any order of the stores *)

(** [h'] is [h] with [x] linked in between [p] and [n]. *)
Definition spliced (h h' : heap) (p x n : loc) : Prop :=
  (forall b, load_next h' b =
     if decide (b = p) then Some x else if decide (b = x) then Some n else load_next h b) /\
  (forall b, load_prev h' b =
     if decide (b = n) then Some x else if decide (b = x) then Some p else load_prev h b).

(** [h'] is [h] with the node between [p] and [n] unlinked; the links of the
    removed node [x] are not constrained. *)
Definition unspliced (h h' : heap) (p x n : loc) : Prop :=
  (forall b, b <> x -> load_next h' b = if decide (b = p) then Some n else load_next h b) /\
  (forall b, b <> x -> load_prev h' b = if decide (b = n) then Some p else load_prev h b).

(** The neighbours of the gap between [l1] and [l2]. *)
Definition before (hd : loc) (l1 : list loc) : loc := default hd (last l1).
Definition after (hd : loc) (l2 : list loc) : loc := default hd (head l2).

Lemma before_snoc hd l p : before hd (l ++ [p]) = p.
Proof. unfold before. by rewrite last_snoc. Qed.

Lemma split_path hd l1 l2 :
  exists P Q, hd :: l1 = P ++ [before hd l1] /\ l2 ++ [hd] = after hd l2 :: Q.
Proof.
  destruct l1 as [|p l1] using rev_ind; destruct l2 as [|n l2].
  - by exists [], [].
  - by exists [], (l2 ++ [hd]).
  - exists (hd :: l1), []. by rewrite before_snoc.
  - exists (hd :: l1), (l2 ++ [hd]). by rewrite before_snoc.
Qed.

Lemma linked_left h h' hd l1 :
  (forall x, x ∈ hd :: l1 -> x <> before hd l1 -> load_next h' x = load_next h x) ->
  (forall x, x ∈ l1 -> load_prev h' x = load_prev h x) ->
  NoDup (hd :: l1) -> linked h (hd :: l1) -> linked h' (hd :: l1).
Proof.
  intros Hn Hp Hd. destruct l1 as [|p l1] using rev_ind; [done|].
  rewrite before_snoc in Hn. apply linked_frame; [|done].
  rewrite app_comm_cons in Hd. apply NoDup_app in Hd as (_ & Hd & _).
  intros x Hx. apply Hn; [set_solver|]. intros ->. apply (Hd p); set_solver.
Qed.

Lemma linked_right h h' hd l2 :
  (forall x, x ∈ l2 -> load_next h' x = load_next h x) ->
  (forall x, x ∈ l2 ++ [hd] -> x <> after hd l2 -> load_prev h' x = load_prev h x) ->
  NoDup (l2 ++ [hd]) -> linked h (l2 ++ [hd]) -> linked h' (l2 ++ [hd]).
Proof.
  intros Hn Hp Hd. destruct l2 as [|n l2]; [done|]. simpl in *.
  apply linked_frame; [done|]. apply NoDup_cons in Hd as [Hd _].
  intros x Hx. apply Hp; [set_solver|]. unfold after. simpl. intros ->. done.
Qed.

Lemma NoDup_ring (hd : loc) l : NoDup (hd :: l) -> NoDup (l ++ [hd]).
Proof. intros H. rewrite (Permutation_app_comm l [hd]). done. Qed.

(** The side conditions about membership in the two halves of a ring. *)
Lemma ring_halves hd l1 l2 :
  NoDup (hd :: l1 ++ l2) ->
  NoDup (hd :: l1) /\ NoDup (l2 ++ [hd]) /\
  (forall x, x ∈ l1 -> x <> after hd l2) /\ (forall x, x ∈ l2 -> x <> before hd l1) /\
  before hd l1 ∈ hd :: l1 /\ after hd l2 ∈ hd :: l2.
Proof.
  intros Hd. pose proof Hd as Hd'. apply NoDup_cons in Hd as [H0 Hd].
  apply NoDup_app in Hd as (H1 & H2 & H3).
  assert (Hb : before hd l1 ∈ hd :: l1).
  { unfold before. destruct (last l1) eqn:E; simpl; [|set_solver].
    apply last_Some_elem_of in E. set_solver. }
  assert (Ha : after hd l2 ∈ hd :: l2).
  { destruct l2; unfold after; simpl; set_solver. }
  repeat split; [| | | |done|done].
  - apply NoDup_cons. set_solver.
  - apply NoDup_ring, NoDup_cons. set_solver.
  - intros x Hx ->. apply elem_of_cons in Ha as [Ha|Ha]; [|set_solver].
    rewrite Ha in Hx. set_solver.
  - intros x Hx ->. apply elem_of_cons in Hb as [Hb|Hb]; [|set_solver].
    rewrite Hb in Hx. set_solver.
Qed.

Lemma splice_dlist h h' hd l1 l2 x :
  dlist h hd (l1 ++ l2) -> x ∉ hd :: l1 ++ l2 ->
  spliced h h' (before hd l1) x (after hd l2) -> dlist h' hd (l1 ++ x :: l2).
Proof.
  intros [Hd Hl] Hx [Hn Hp].
  destruct (ring_halves _ _ _ Hd) as (D1 & D2 & N1 & N2 & B & A).
  split.
  { rewrite <- (Permutation_middle l1 l2 x), Permutation_swap. apply NoDup_cons. set_solver. }
  rewrite <- app_assoc in Hl |- *. rewrite <- (app_comm_cons l2 [hd] x).
  destruct (split_path hd l1 l2) as (P & Q & E1 & E2).
  rewrite (app_comm_cons l1 _ hd) in Hl. rewrite (app_comm_cons l1 _ hd).
  rewrite E1, E2 in Hl |- *. rewrite <- app_assoc in Hl |- *.
  apply linked_app in Hl as [L1 L2]. apply linked_cons in L2 as (_ & _ & L2).
  rewrite <- E1 in L1. rewrite <- E2 in L2.
  apply linked_app. rewrite <- E1. split.
  { revert L1. apply linked_left; [| |done]; intros y Hy.
    - intros Hyp. rewrite Hn. rewrite !decide_False; [done|set_solver..].
    - rewrite Hp. rewrite !decide_False; [done|set_solver|auto]. }
  cbn [app]. rewrite !linked_cons, <- E2. rewrite !Hn, !Hp.
  rewrite (decide_True (P := before hd l1 = before hd l1)) by done.
  rewrite (decide_True (P := after hd l2 = after hd l2)) by done.
  rewrite (decide_False (P := x = before hd l1)) by (intros ->; set_solver).
  rewrite (decide_False (P := x = after hd l2)) by (intros ->; set_solver).
  rewrite !(decide_True (P := x = x)) by done. repeat split; [].
  revert L2. apply linked_right; [| |done]; intros y Hy.
  - rewrite Hn. rewrite !decide_False; [done|set_solver|auto].
  - intros Hya. rewrite Hp. rewrite !decide_False; [done|set_solver..].
Qed.

Lemma unsplice_dlist h h' hd l1 l2 x :
  dlist h hd (l1 ++ x :: l2) ->
  unspliced h h' (before hd l1) x (after hd l2) -> dlist h' hd (l1 ++ l2).
Proof.
  intros [Hd Hl] [Hn Hp].
  assert (Hd' : NoDup (hd :: l1 ++ l2) /\ x ∉ hd :: l1 ++ l2).
  { rewrite <- (Permutation_middle l1 l2 x), Permutation_swap in Hd.
    apply NoDup_cons in Hd. tauto. }
  destruct Hd' as [Hd' Hx].
  destruct (ring_halves _ _ _ Hd') as (D1 & D2 & N1 & N2 & B & A).
  split; [done|].
  rewrite <- app_assoc in Hl |- *. rewrite <- (app_comm_cons l2 [hd] x) in Hl.
  destruct (split_path hd l1 l2) as (P & Q & E1 & E2).
  rewrite (app_comm_cons l1 _ hd) in Hl. rewrite (app_comm_cons l1 _ hd).
  rewrite E1, E2 in Hl |- *. rewrite <- app_assoc in Hl |- *.
  apply linked_app in Hl as [L1 L2]. apply linked_cons in L2 as (_ & _ & L2).
  apply linked_cons in L2 as (_ & _ & L2).
  rewrite <- E1 in L1. rewrite <- E2 in L2.
  apply linked_app. rewrite <- E1. split.
  { revert L1. apply linked_left; [| |done]; intros y Hy.
    - intros Hyp. rewrite Hn by set_solver. by rewrite decide_False.
    - rewrite Hp by set_solver. rewrite decide_False by auto. done. }
  cbn [app]. rewrite !linked_cons, <- E2. rewrite Hn, Hp by (intros <-; set_solver).
  rewrite !decide_True by done. repeat split; [].
  revert L2. apply linked_right; [| |done]; intros y Hy.
  - rewrite Hn by set_solver. rewrite decide_False by auto. done.
  - intros Hya. rewrite Hp by set_solver. by rewrite decide_False.
Qed.

(** The pointers of a represented list. *)
Lemma dlist_next h hd l1 x l2 : dlist h hd (l1 ++ x :: l2) -> load_next h x = Some (after hd l2).
Proof.
  intros [_ Hl]. rewrite <- app_assoc in Hl.
  apply (linked_app h (hd :: l1) x (l2 ++ [hd])) in Hl as [_ Hl].
  destruct l2; by apply linked_cons in Hl as (Hl & _).
Qed.

Lemma dlist_link_before h hd l y q :
  linked h (hd :: l ++ y :: q) -> load_prev h y = Some (before hd l).
Proof.
  intros Hl. destruct l as [|p l] using rev_ind; [by apply linked_cons in Hl as (_ & Hl & _)|].
  rewrite before_snoc, <- app_assoc in *.
  apply (linked_app h (hd :: l) p (y :: q)) in Hl as [_ Hl].
  by apply linked_cons in Hl as (_ & Hl & _).
Qed.

Lemma dlist_prev h hd l1 x l2 : dlist h hd (l1 ++ x :: l2) -> load_prev h x = Some (before hd l1).
Proof. intros [_ Hl]. rewrite <- app_assoc in Hl. by eapply dlist_link_before. Qed.

Lemma dlist_first h hd l : dlist h hd l -> load_next h hd = Some (after hd l).
Proof. intros [_ Hl]. destruct l; by apply linked_cons in Hl as (Hl & _). Qed.

Lemma dlist_last h hd l : dlist h hd l -> load_prev h hd = Some (before hd l).
Proof. intros [_ Hl]. by eapply dlist_link_before. Qed.

Lemma dlist_alive h hd l x : dlist h hd l -> x ∈ hd :: l -> is_Some (h !! x).
Proof.
  intros H Hx. apply alive_next. apply elem_of_cons in Hx as [->|Hx].
  - rewrite (dlist_first _ _ _ H). eauto.
  - apply list_elem_of_split in Hx as (l1 & l2 & ->). erewrite dlist_next by done. eauto.
Qed.

(** A list that shares no node with the changed ones is still represented. *)
Lemma dlist_frame s h h' hd l :
  frame s h h' -> (forall x, x ∈ hd :: l -> x ∉ s) -> dlist h hd l -> dlist h' hd l.
Proof.
  intros Hf Hs [Hd Hl]. split; [done|]. revert Hl. apply linked_frame; intros x Hx.
  - unfold load_next. rewrite Hf; [done|auto].
  - unfold load_prev. rewrite Hf; [done|apply Hs; set_solver].
Qed.

(** * Tactics for sequences of stores *)

(** Runs the next store of the goal on a heap whose node is allocated. *)
Ltac do_store :=
  match goal with
  | |- context [store_next ?a ?v ?h] =>
      let h' := fresh "h" in let E := fresh "E" in
      let N := fresh "N" in let P := fresh "P" in let F := fresh "F" in
      destruct (store_next_spec a v h) as (h' & E & N & P & F); [|rewrite E; simpl]
  | |- context [store_prev ?a ?v ?h] =>
      let h' := fresh "h" in let E := fresh "E" in
      let N := fresh "N" in let P := fresh "P" in let F := fresh "F" in
      destruct (store_prev_spec a v h) as (h' & E & P & N & F); [|rewrite E; simpl]
  end.

(** Closes an allocation side condition after earlier stores. *)
Ltac alive :=
  rewrite ?alive_next in *;
  repeat match goal with N : forall b, load_next ?h b = _ |- context [load_next ?h _] => rewrite N end;
  repeat case_decide; subst; eauto; congruence.

(** * Traversal *)

(** The nodes a [for (i = hd->next; i != hd; i = i->next)] loop visits, with a
    bound on the number of iterations. *)
Fixpoint walk (fuel : nat) (h : heap) (hd i : loc) : option (list loc) :=
  if decide (i = hd) then Some [] else
  match fuel with
  | O => None
  | S fuel => n ← load_next h i; r ← walk fuel h hd n; Some (i :: r)
  end.

Definition list_entries (fuel : nat) (h : heap) (hd : loc) : option (list loc) :=
  i ← load_next h hd; walk fuel h hd i.

Lemma list_entries_dlist h hd l fuel :
  dlist h hd l -> (length l <= fuel)%nat -> list_entries fuel h hd = Some l.
Proof.
  intros H Hf. unfold list_entries. rewrite (dlist_first _ _ _ H). simpl.
  cut (forall l2 l1 f, l = l1 ++ l2 -> (length l2 <= f)%nat -> walk f h hd (after hd l2) = Some l2).
  { intros K. apply (K l []); [done|lia]. }
  intros l2. induction l2 as [|x l2 IH]; intros l1 f -> Hl; simpl.
  - unfold after. simpl. destruct f; simpl; by rewrite decide_True.
  - simpl in Hl. destruct f as [|f]; [lia|]. unfold after at 1. simpl.
    rewrite decide_False.
    + rewrite (dlist_next _ _ _ _ _ H). simpl.
      rewrite (IH (l1 ++ [x]) f); [done|by rewrite <- app_assoc|lia].
    + destruct H as [Hd _]. apply NoDup_cons in Hd as [Hd _]. set_solver.
Qed.

(** * The interface of a list package

    What the queue and callback-list code relies on; [BtList] and [SwdmxList]
    discharge it. *)

Class DListOps := {
  dl_init : loc -> heap -> option heap;
  dl_append : loc -> loc -> heap -> option heap;  (* header, new entry *)
  dl_remove : loc -> heap -> option heap
}.

Class DListLaws `(O : DListOps) := {
  dl_init_ok h hd : is_Some (h !! hd) ->
    exists h', dl_init hd h = Some h' /\ dlist h' hd [] /\ frame [hd] h h';
  dl_append_ok h hd l x : dlist h hd l -> x ∉ hd :: l -> is_Some (h !! x) ->
    exists h', dl_append hd x h = Some h' /\ dlist h' hd (l ++ [x]) /\ frame (x :: hd :: l) h h';
  dl_remove_ok h hd l1 x l2 : dlist h hd (l1 ++ x :: l2) ->
    exists h', dl_remove x h = Some h' /\ dlist h' hd (l1 ++ l2) /\
      frame (hd :: l1 ++ x :: l2) h h'
}.
