(* ===== verification/BtList.v ===== *)
(** [hardware/bt/src/bt_list.c]: the intrusive circular list of the Bluetooth
    library, and the proof that it implements [DListOps]. *)

From S2P Require Import Prelude DList.

(** [ListHead->Next = ListHead; ListHead->Prev = ListHead] *)
Definition ListInitializeHeader (ListHead : loc) (h : heap) : option heap :=
  h1 ← store_next ListHead ListHead h;
  store_prev ListHead ListHead h1.

Definition ListIsEmpty (ListHead : loc) (h : heap) : option bool :=
  n ← load_next h ListHead; Some (bool_decide (n = ListHead)).

Definition ListAdd (New Prev Next : loc) (h : heap) : option heap :=
  h1 ← store_prev Next New h;
  h2 ← store_next New Next h1;
  h3 ← store_prev New Prev h2;
  store_next Prev New h3.

Definition ListAddToHead (ListNew ListHead : loc) (h : heap) : option heap :=
  n ← load_next h ListHead;
  ListAdd ListNew ListHead n h.

Definition ListAddToTail (ListNew ListHead : loc) (h : heap) : option heap :=
  p ← load_prev h ListHead;
  ListAdd ListNew p ListHead h.

(** The inner option is the C result, [None] for the null pointer. *)
Definition ListGetTop (ListHead : loc) (h : heap) : option (option loc) :=
  e ← ListIsEmpty ListHead h;
  if e : bool then Some None else n ← load_next h ListHead; Some (Some n).

Definition ListGetTail (ListHead : loc) (h : heap) : option (option loc) :=
  e ← ListIsEmpty ListHead h;
  if e : bool then Some None else p ← load_prev h ListHead; Some (Some p).

Definition ListDeleteNode (ListToDelete : loc) (h : heap) : option heap :=
  n ← load_next h ListToDelete;
  p ← load_prev h ListToDelete;
  h1 ← store_prev n p h;
  p ← load_prev h1 ListToDelete;
  n ← load_next h1 ListToDelete;
  h2 ← store_next p n h1;
  h3 ← store_prev ListToDelete ListToDelete h2;
  store_next ListToDelete ListToDelete h3.

(** * Effect on the links *)

Lemma ListAdd_spliced h New P N :
  is_Some (h !! New) -> is_Some (h !! P) -> is_Some (h !! N) -> New <> P -> New <> N ->
  exists h', ListAdd New P N h = Some h' /\ spliced h h' P New N /\ frame [New; P; N] h h'.
Proof.
  intros A1 A2 A3 D1 D2. unfold ListAdd.
  do 4 (do_store; [alive|]).
  eexists. split; [done|]. split; [split; intros b|].
  - rewrite N3, N2, N1, N0. repeat case_decide; subst; done.
  - rewrite P3, P2, P1, P0. repeat case_decide; subst; done.
  - intros b Hb. rewrite F2, F1, F0, F by set_solver. done.
Qed.

(** Insertion at any position of a represented list, in between the
    neighbours the caller passes. *)
Lemma ListAdd_dlist h hd l1 l2 x :
  dlist h hd (l1 ++ l2) -> x ∉ hd :: l1 ++ l2 -> is_Some (h !! x) ->
  exists h', ListAdd x (before hd l1) (after hd l2) h = Some h' /\
    dlist h' hd (l1 ++ x :: l2) /\ frame [x; before hd l1; after hd l2] h h'.
Proof.
  intros H Hx A. destruct (ring_halves _ _ _ (proj1 H)) as (_ & _ & _ & _ & B & F).
  destruct (ListAdd_spliced h x (before hd l1) (after hd l2)) as (h' & E & S & Fr); [done| | | | |].
  - apply (dlist_alive _ _ _ _ H). set_solver.
  - apply (dlist_alive _ _ _ _ H). set_solver.
  - intros ->. set_solver.
  - intros ->. set_solver.
  - exists h'. split; [done|]. split; [|done]. by eapply splice_dlist.
Qed.

Lemma ListInitializeHeader_dlist h hd :
  is_Some (h !! hd) ->
  exists h', ListInitializeHeader hd h = Some h' /\ dlist h' hd [] /\ frame [hd] h h'.
Proof.
  intros A. unfold ListInitializeHeader. do_store; [done|]. do_store; [alive|].
  eexists. split; [done|]. split.
  - split; [by apply NoDup_singleton|]. apply linked_cons.
    rewrite N0, N, P0, !decide_True by done. done.
  - eapply frame_trans; eauto.
Qed.

(** C-level guarantees of the package. *)
Lemma ListIsEmpty_dlist h hd l :
  dlist h hd l -> ListIsEmpty hd h = Some (bool_decide (l = [])).
Proof.
  intros H. unfold ListIsEmpty. rewrite (dlist_first _ _ _ H). simpl. f_equal.
  apply bool_decide_ext. destruct l as [|x l]; [done|]. unfold after; simpl.
  destruct H as [Hd _]. apply NoDup_cons in Hd as [Hd _]. split; [intros ->; set_solver|done].
Qed.

(** [ListAddToHead] and [ListAddToTail] link a fresh node in at the front and
    at the back of a well-formed list, keep the other nodes in order, and store
    nowhere else in the heap. *)
Theorem bt_list_insert h hd l x :
  dlist h hd l -> x ∉ hd :: l -> is_Some (h !! x) ->
  (exists h', ListAddToHead x hd h = Some h' /\ dlist h' hd (x :: l) /\ frame (x :: hd :: l) h h') /\
  (exists h', ListAddToTail x hd h = Some h' /\ dlist h' hd (l ++ [x]) /\ frame (x :: hd :: l) h h').
Proof.
  intros H Hx A. destruct (ring_halves hd [] l (proj1 H)) as (_ & _ & _ & _ & _ & F1).
  destruct (ring_halves hd l []) as (_ & _ & _ & _ & F2 & _); [rewrite app_nil_r; apply H|].
  split.
  - destruct (ListAdd_dlist h hd [] l x) as (h' & E & D & F); [done..|].
    exists h'. unfold ListAddToHead. rewrite (dlist_first _ _ _ H). simpl. repeat split; [done|apply D..|].
    eapply frame_weaken; [|done]. unfold before. simpl. set_solver.
  - destruct (ListAdd_dlist h hd l [] x) as (h' & E & D & F); [by rewrite ?app_nil_r..|].
    exists h'. unfold ListAddToTail. rewrite (dlist_last _ _ _ H). simpl. repeat split; [done|apply D..|].
    eapply frame_weaken; [|done]. unfold after. simpl. set_solver.
Qed.

Lemma ListDeleteNode_dlist h hd l1 x l2 :
  dlist h hd (l1 ++ x :: l2) ->
  exists h', ListDeleteNode x h = Some h' /\ dlist h' hd (l1 ++ l2) /\ dlist h' x [] /\
    frame (hd :: l1 ++ x :: l2) h h'.
Proof.
  intros H. pose proof (proj1 H) as Hd.
  rewrite <- (Permutation_middle l1 l2 x), Permutation_swap in Hd.
  apply NoDup_cons in Hd as [Hx Hd].
  destruct (ring_halves _ _ _ Hd) as (_ & _ & _ & _ & B & A).
  assert (Bx : before hd l1 <> x) by (intros <-; set_solver).
  assert (Ax : after hd l2 <> x) by (intros <-; set_solver).
  pose proof (dlist_next _ _ _ _ _ H) as En. pose proof (dlist_prev _ _ _ _ _ H) as Ep.
  unfold ListDeleteNode. rewrite En, Ep. simpl.
  do_store; [apply (dlist_alive _ _ _ _ H); set_solver|].
  rewrite N, P, En, decide_False, Ep by done. simpl.
  do_store; [apply alive_next; rewrite N; apply alive_next, (dlist_alive _ _ _ _ H); set_solver|].
  do_store; [apply alive_next; rewrite N0, decide_False, N, En by done; eauto|].
  do_store; [apply alive_next; rewrite N1, N0, decide_False, N, En by done; eauto|].
  eexists. split; [done|]. split; [|split].
  - eapply unsplice_dlist; [done|]. split; intros b Hb.
    + by rewrite N2, decide_False, N1, N0, N by done.
    + by rewrite P2, P1, decide_False, P0, P by done.
  - split; [apply NoDup_singleton|]. apply linked_cons.
    rewrite N2, P2, P1, !decide_True by done. done.
  - intros b Hb. rewrite F2, F1, F0, F by set_solver. done.
Qed.

#[export] Instance BtListOps : DListOps := {|
  dl_init := ListInitializeHeader;
  dl_append hd x := ListAddToTail x hd;
  dl_remove := ListDeleteNode
|}.

#[export] Instance BtListLaws : DListLaws BtListOps.
Proof.
  split; simpl; intros.
  - by apply ListInitializeHeader_dlist.
  - edestruct ListAdd_dlist with (l1 := l) (l2 := @nil loc) as (h' & E & D & F).
    1-3: rewrite ?app_nil_r; eassumption.
    unfold ListAddToTail. erewrite dlist_last by done. simpl. exists h'. repeat split; [done|apply D..|].
    eapply frame_weaken; [|done]. unfold after.
    destruct (ring_halves hd l []) as (_ & _ & _ & _ & F2 & _); [rewrite app_nil_r; apply H|].
    set_solver.
  - destruct (ListDeleteNode_dlist _ _ _ _ _ H) as (h' & ? & ? & _ & ?). eauto.
Qed.

(** * A list of one node beside a free one *)

Definition heap_ex : heap := {[1%positive := mk_node 2 2; 2%positive := mk_node 1 1; 3%positive := mk_node 3 3]}.

Lemma heap_ex_list : dlist heap_ex 1 [2%positive].
Proof. split; [by apply (bool_decide_unpack _)|]. by repeat split. Qed.

Lemma bt_list_insert_witness :
  (exists h', ListAddToHead 3 1 heap_ex = Some h' /\ dlist h' 1 [3; 2]%positive /\ frame [3; 1; 2]%positive heap_ex h') /\
  (exists h', ListAddToTail 3 1 heap_ex = Some h' /\ dlist h' 1 [2; 3]%positive /\ frame [3; 1; 2]%positive heap_ex h').
Proof.
  apply (bt_list_insert heap_ex 1 [2%positive] 3); [exact heap_ex_list| |].
  - by apply (bool_decide_unpack _).
  - by eexists.
Defined.
