(* ===== verification/BtSkbuff.v ===== *)
(** [hardware/bt/src/bt_skbuff.c]: the packet buffer [RTK_BUFFER] and the
    packet queue [RTB_QUEUE_HEAD].

    A buffer is its allocated memory block and the pointers into it, kept as
    offsets from [Head].  A queue is a header of a [bt_list] in the heap and its
    length counter.  [Module Rtb] holds the buffer, [Module RtbQueue] the queue. *)

From S2P Require Import Prelude DList BtList.

Module RtbQueue.

(** The queue structure; the mutex and the unused [Id] are left out: every
    operation below is the critical section of its function. *)
Record RTB_QUEUE_HEAD := mk_queue { List : loc; QueueLen : Z }.

Definition RtbQueueIsEmpty (q : RTB_QUEUE_HEAD) : bool :=
  if 0 <? QueueLen q then false else true.

(** [alloc] is the outcome of [malloc], the address and the indeterminate links
    of the block, and [mutex_ret] the result of [pthread_mutex_init]. *)
Definition RtbQueueInit (alloc : option (loc * node)) (mutex_ret : Z) (h : heap)
    : option (option RTB_QUEUE_HEAD * heap) :=
  match alloc with
  | None => Some (None, h)
  | Some (a, junk) =>
      let h := <[a := junk]> h in
      if mutex_ret =? 0
      then h1 ← ListInitializeHeader a h; Some (Some (mk_queue a 0), h1)
      else Some (None, delete a h)
  end.

Definition RtbQueueTail (q : RTB_QUEUE_HEAD) (rtb : loc) (h : heap)
    : option (RTB_QUEUE_HEAD * heap) :=
  h1 ← ListAddToTail rtb (List q) h;
  Some (mk_queue (List q) (u32 (QueueLen q + 1)), h1).

Definition RtbQueueHead (q : RTB_QUEUE_HEAD) (rtb : loc) (h : heap)
    : option (RTB_QUEUE_HEAD * heap) :=
  h1 ← ListAddToHead rtb (List q) h;
  Some (mk_queue (List q) (u32 (QueueLen q + 1)), h1).

Definition RtbInsertBefore (q : RTB_QUEUE_HEAD) (old new : loc) (h : heap)
    : option (RTB_QUEUE_HEAD * heap) :=
  p ← load_prev h old;
  h1 ← ListAdd new p old h;
  Some (mk_queue (List q) (u32 (QueueLen q + 1)), h1).

Definition RtbNodeIsLast (q : RTB_QUEUE_HEAD) (rtb : loc) (h : heap) : option bool :=
  pBuf ← load_prev h (List q);
  Some (if decide (pBuf = rtb) then true else false).

Definition RtbQueueNextNode (q : RTB_QUEUE_HEAD) (rtb : loc) (h : heap) : option (option loc) :=
  pBuf ← load_prev h (List q);
  if decide (pBuf = rtb) then Some None
  else n ← load_next h rtb; Some (Some n).

Definition RtbRemoveNode (q : RTB_QUEUE_HEAD) (rtb : loc) (h : heap)
    : option (RTB_QUEUE_HEAD * heap) :=
  h1 ← ListDeleteNode rtb h;
  Some (mk_queue (List q) (u32 (QueueLen q - 1)), h1).

Definition RtbTopQueue (q : RTB_QUEUE_HEAD) (h : heap) : option (option loc) :=
  if RtbQueueIsEmpty q then Some None
  else n ← load_next h (List q); Some (Some n).

Definition RtbDequeueTail (q : RTB_QUEUE_HEAD) (h : heap)
    : option (option loc * RTB_QUEUE_HEAD * heap) :=
  if RtbQueueIsEmpty q then Some (None, q, h)
  else
    rtb ← load_prev h (List q);
    '(q1, h1) ← RtbRemoveNode q rtb h;
    Some (Some rtb, q1, h1).

Definition RtbDequeueHead (q : RTB_QUEUE_HEAD) (h : heap)
    : option (option loc * RTB_QUEUE_HEAD * heap) :=
  if RtbQueueIsEmpty q then Some (None, q, h)
  else
    rtb ← load_next h (List q);
    '(q1, h1) ← RtbRemoveNode q rtb h;
    Some (Some rtb, q1, h1).

Definition RtbGetQueueLen (q : RTB_QUEUE_HEAD) : Z := QueueLen q.

(** [while (!RtbQueueIsEmpty) { remove the first node; free it }]; the fuel is
    the length counter, which each iteration decrements. *)
Fixpoint RtbEmptyQueue_loop (fuel : nat) (q : RTB_QUEUE_HEAD) (h : heap)
    : option (RTB_QUEUE_HEAD * heap) :=
  if RtbQueueIsEmpty q then Some (q, h)
  else match fuel with
  | O => None
  | S fuel =>
      rtb ← load_next h (List q);
      '(q1, h1) ← RtbRemoveNode q rtb h;
      RtbEmptyQueue_loop fuel q1 (delete rtb h1)
  end.

Definition RtbEmptyQueue (q : RTB_QUEUE_HEAD) (h : heap) : option (RTB_QUEUE_HEAD * heap) :=
  RtbEmptyQueue_loop (Z.to_nat (QueueLen q)) q h.

Definition RtbQueueFree (q : option RTB_QUEUE_HEAD) (h : heap) : option heap :=
  match q with
  | None => Some h
  | Some q => '(q1, h1) ← RtbEmptyQueue q h; Some (delete (List q1) h1)
  end.

Definition RtbCheckQueueLen (q : RTB_QUEUE_HEAD) (Len : Z) : bool :=
  if QueueLen q <? Len then true else false.

(** * The queue as a list of buffers *)

Definition rep (h : heap) (q : RTB_QUEUE_HEAD) (l : list loc) : Prop :=
  dlist h (List q) l /\ QueueLen q = Z.of_nat (length l) /\ Z.of_nat (length l) < 2 ^ 32.

Lemma rep_empty h q l : rep h q l -> RtbQueueIsEmpty q = bool_decide (l = []).
Proof.
  intros (_ & E & _). unfold RtbQueueIsEmpty. rewrite E.
  destruct l; [done|]. simpl length. rewrite bool_decide_eq_false_2 by done.
  destruct (Z.ltb_spec 0 (Z.of_nat (S (length l)))); [done|lia].
Qed.

Lemma RtbRemoveNode_rep h q l1 x l2 :
  rep h q (l1 ++ x :: l2) ->
  exists q' h', RtbRemoveNode q x h = Some (q', h') /\ rep h' q' (l1 ++ l2) /\
    List q' = List q /\ dlist h' x [] /\ frame (List q :: l1 ++ x :: l2) h h'.
Proof.
  intros (D & E & B). destruct (ListDeleteNode_dlist _ _ _ _ _ D) as (h' & R & D' & D0 & F).
  unfold RtbRemoveNode. rewrite R. simpl. do 2 eexists. split; [done|]. simpl.
  rewrite length_app in *. simpl in *. repeat split; try done; try apply D'; try apply D0.
  - simpl. rewrite length_app. rewrite E. rewrite u32_small by lia. lia.
  - rewrite length_app. lia.
Qed.

Lemma enqueue_rep h' hd n (l l' : list loc) :
  QueueLen (mk_queue hd n) = Z.of_nat (length l) -> length l' = S (length l) ->
  Z.of_nat (length l) + 1 < 2 ^ 32 -> dlist h' hd l' -> rep h' (mk_queue hd (u32 (n + 1))) l'.
Proof.
  simpl. intros E L B D. split; [done|]. simpl. rewrite L, E, u32_small by lia. lia.
Qed.

(** The three insertions of [bt_skbuff.c] refine the list operations: adding
    at the tail, at the head, and before a queued buffer, with the counter kept
    equal to the number of queued buffers. *)
Theorem rtb_enqueue h q l x :
  rep h q l -> x ∉ List q :: l -> is_Some (h !! x) -> Z.of_nat (length l) + 1 < 2 ^ 32 ->
  (exists q' h', RtbQueueTail q x h = Some (q', h') /\ rep h' q' (l ++ [x])) /\
  (exists q' h', RtbQueueHead q x h = Some (q', h') /\ rep h' q' (x :: l)) /\
  (forall l1 old l2, l = l1 ++ old :: l2 ->
   exists q' h', RtbInsertBefore q old x h = Some (q', h') /\ rep h' q' (l1 ++ x :: old :: l2)).
Proof.
  intros (D & E & _) Hx A B. destruct q as [hd n]. simpl in *. repeat split.
  - destruct (dl_append_ok h hd l x) as (h' & R & D' & _); [done..|]. simpl in R.
    unfold RtbQueueTail. simpl. rewrite R. simpl. do 2 eexists. split; [done|].
    apply (enqueue_rep h' hd n l); [done| |done..]. rewrite length_app. simpl. lia.
  - destruct (ListAdd_dlist h hd [] l x) as (h' & R & D' & _); [done..|].
    unfold RtbQueueHead, ListAddToHead. simpl. rewrite (dlist_first _ _ _ D). simpl.
    unfold before in R. simpl in R. rewrite R. simpl. do 2 eexists. split; [done|].
    by apply (enqueue_rep h' hd n l).
  - intros l1 old l2 ->. destruct (ListAdd_dlist h hd l1 (old :: l2) x) as (h' & R & D' & _); [done..|].
    unfold RtbInsertBefore. rewrite (dlist_prev _ _ _ _ _ D). simpl.
    unfold after in R. simpl in R. rewrite R. simpl. do 2 eexists. split; [done|].
    apply (enqueue_rep h' hd n (l1 ++ old :: l2)); [done| |done..]. rewrite !length_app. simpl. lia.
Qed.

(** Dequeuing is FIFO at the head and LIFO at the tail: an empty queue
    gives the null pointer and is unchanged, a non-empty one gives its first
    (last) buffer, unlinked, and keeps the others in order. *)
Theorem rtb_dequeue h q l :
  rep h q l ->
  (l = [] -> RtbDequeueHead q h = Some (None, q, h) /\ RtbDequeueTail q h = Some (None, q, h)) /\
  (forall x l', l = x :: l' -> exists q' h',
     RtbDequeueHead q h = Some (Some x, q', h') /\ rep h' q' l' /\ dlist h' x []) /\
  (forall x l', l = l' ++ [x] -> exists q' h',
     RtbDequeueTail q h = Some (Some x, q', h') /\ rep h' q' l' /\ dlist h' x []).
Proof.
  intros H. pose proof (rep_empty _ _ _ H) as Em. unfold RtbDequeueHead, RtbDequeueTail.
  repeat split; intros; subst; rewrite Em.
  - done.
  - done.
  - rewrite bool_decide_eq_false_2, (dlist_first _ _ _ (proj1 H)) by done. simpl.
    unfold after. simpl.
    destruct (RtbRemoveNode_rep h q [] x l' H) as (q' & h' & R & H' & _ & D & _).
    rewrite R. simpl. eauto 6.
  - rewrite bool_decide_eq_false_2, (dlist_last _ _ _ (proj1 H)) by (by destruct l'). simpl.
    rewrite before_snoc.
    destruct (RtbRemoveNode_rep h q l' x [] H) as (q' & h' & R & H' & _ & D & _).
    rewrite R, app_nil_r in *. simpl. eauto 6.
Qed.

(** Scanning a queue with [RtbTopQueue] and [RtbQueueNextNode] visits its
    buffers in order and stops after the last one. *)
Theorem rtb_scan h q l :
  rep h q l ->
  RtbTopQueue q h = Some (head l) /\
  (forall l1 x l2, l = l1 ++ x :: l2 ->
     RtbQueueNextNode q x h = Some (head l2) /\
     RtbNodeIsLast q x h = Some (bool_decide (l2 = []))).
Proof.
  intros H. pose proof (rep_empty _ _ _ H) as Em. destruct H as (D & _ & _). split.
  - unfold RtbTopQueue. rewrite Em. destruct l as [|x l]; [done|].
    rewrite bool_decide_eq_false_2, (dlist_first _ _ _ D) by done. done.
  - intros l1 x l2 ->. unfold RtbQueueNextNode, RtbNodeIsLast.
    rewrite (dlist_last _ _ _ D). simpl.
    destruct l2 as [|z l2 _] using rev_ind.
    + rewrite before_snoc, !decide_True by done. done.
    + replace (l1 ++ x :: l2 ++ [z]) with ((l1 ++ x :: l2) ++ [z]) in * by (by rewrite <- app_assoc).
      rewrite before_snoc.
      assert (z <> x).
      { intros ->. pose proof (proj1 D) as N. apply NoDup_cons in N as [_ N].
        apply NoDup_app in N as (_ & N & _). apply (N x); set_solver. }
      rewrite !decide_False by done. rewrite bool_decide_eq_false_2 by (by destruct l2).
      split; [|done]. rewrite <- app_assoc in D. simpl in D.
      rewrite (dlist_next _ _ _ _ _ D). by destruct l2.
Qed.

Lemma frame_delete (x : loc) (h : heap) : frame [x] h (delete x h).
Proof. intros a Ha. rewrite lookup_delete_ne; [done|set_solver]. Qed.

Lemma RtbEmptyQueue_loop_spec l : forall fuel h q,
  rep h q l -> (length l <= fuel)%nat ->
  exists q' h', RtbEmptyQueue_loop fuel q h = Some (q', h') /\ rep h' q' [] /\
    List q' = List q /\ (forall x, x ∈ l -> h' !! x = None) /\ frame (List q :: l) h h'.
Proof.
  induction l as [|x l IH]; intros fuel h q H Hf; pose proof (rep_empty _ _ _ H) as Em.
  - exists q, h. destruct fuel; simpl; rewrite Em, bool_decide_eq_true_2 by done;
      repeat split; try apply H; set_solver.
  - simpl in Hf. destruct fuel as [|fuel]; [lia|]. simpl.
    rewrite Em, bool_decide_eq_false_2, (dlist_first _ _ _ (proj1 H)) by done. simpl.
    destruct (RtbRemoveNode_rep h q [] x l H) as (q1 & h1 & R & H1 & Eq & _ & F1).
    unfold after. simpl. rewrite R. simpl in *.
    assert (Hx : x ∉ List q :: l).
    { pose proof (proj1 (proj1 H)) as N. apply NoDup_cons in N as [N0 N].
      apply NoDup_cons in N as [N1 _]. set_solver. }
    destruct (IH fuel (delete x h1) q1) as (q2 & h2 & R2 & H2 & Eq2 & Hd & F2); [|lia|].
    + destruct H1 as (D1 & L1). split; [|done].
      eapply dlist_frame; [apply (frame_delete x)|rewrite Eq; set_solver|done].
    + exists q2, h2. rewrite Eq in *. repeat split; try done; try apply H2.
      * intros y Hy. apply elem_of_cons in Hy as [->|Hy]; [|auto].
        rewrite F2 by done. by rewrite lookup_delete_eq.
      * intros y Hy. rewrite F2, (frame_delete x h1), F1 by set_solver. done.
Qed.

(** [RtbEmptyQueue] terminates: the loop ends within [QueueLen] iterations
    with an empty queue, every buffer that was queued is freed, and no other
    block is touched. *)
Theorem rtb_empty_queue h q l :
  rep h q l ->
  exists q' h', RtbEmptyQueue q h = Some (q', h') /\ rep h' q' [] /\
    (forall x, x ∈ l -> h' !! x = None) /\ frame (List q :: l) h h'.
Proof.
  intros H. destruct (RtbEmptyQueue_loop_spec l (Z.to_nat (QueueLen q)) h q) as
    (q' & h' & R & H' & _ & F & F'); [done| |eauto 6].
  destruct H as (_ & E & _). rewrite E. lia.
Qed.

(** * A queue of two buffers beside a free one *)

Definition queue_heap : heap :=
  {[1%positive := mk_node 2 3; 2%positive := mk_node 3 1; 3%positive := mk_node 1 2; 4%positive := mk_node 4 4]}.
Definition queue_ex : RTB_QUEUE_HEAD := mk_queue 1 2.

Lemma queue_ex_rep : rep queue_heap queue_ex [2; 3]%positive.
Proof. split; [split; [by apply (bool_decide_unpack _)|by repeat split]|done]. Qed.

Lemma rtb_enqueue_witness :
  exists q' h', RtbInsertBefore queue_ex 3 4 queue_heap = Some (q', h') /\ rep h' q' [2; 4; 3]%positive.
Proof.
  destruct (rtb_enqueue queue_heap queue_ex [2; 3]%positive 4 queue_ex_rep) as (_ & _ & H).
  - by apply (bool_decide_unpack _).
  - by eexists.
  - done.
  - exact (H [2%positive] 3%positive [] eq_refl).
Defined.

Lemma rtb_dequeue_witness :
  exists q' h', RtbDequeueHead queue_ex queue_heap = Some (Some 2%positive, q', h') /\
    rep h' q' [3%positive] /\ dlist h' 2 [].
Proof.
  destruct (rtb_dequeue queue_heap queue_ex [2; 3]%positive queue_ex_rep) as (_ & H & _).
  exact (H 2%positive [3%positive] eq_refl).
Defined.

Lemma rtb_scan_witness :
  RtbTopQueue queue_ex queue_heap = Some (Some 2%positive) /\
  RtbQueueNextNode queue_ex 2 queue_heap = Some (Some 3%positive).
Proof.
  destruct (rtb_scan queue_heap queue_ex [2; 3]%positive queue_ex_rep) as (H1 & H2).
  split; [exact H1|]. exact (proj1 (H2 [] 2%positive [3%positive] eq_refl)).
Defined.

Lemma rtb_empty_queue_witness :
  exists q' h', RtbEmptyQueue queue_ex queue_heap = Some (q', h') /\ rep h' q' [] /\
    (forall x, x ∈ [2; 3]%positive -> h' !! x = None) /\ frame [1; 2; 3]%positive queue_heap h'.
Proof. exact (rtb_empty_queue queue_heap queue_ex [2; 3]%positive queue_ex_rep). Defined.
End RtbQueue.

Module Rtb.

(** What a call of [malloc] gives: the null pointer, or a block whose bytes are
    indeterminate, described by a function of the offset. *)
Abbreviation malloc_result := (option (Z -> Z)).

Definition block (junk : Z -> Z) (n : Z) : list Z := (fun i => u8 (junk i)) <$> seqZ 0 n.

(** [Data], [End_] and [Tail] are offsets from [Head], whose block is [Mem].
    [PacketType] and [Handle] are the fields of the control context. *)
Record RTK_BUFFER := mk_rtb {
  Mem : list Z; Data : Z; End_ : Z; Tail : Z;
  Length : Z; HeadRoom : Z; RefCount : Z; PacketType : Z; Handle : Z
}.

Definition DEFAULT_HEADER_SIZE := 8 + 4.
Definition RTB_ALIGN := 4.
Definition RTB_DATA_ALIGN (n : Z) : Z := u32 (n + (RTB_ALIGN - 1)) .& u32 (Z.lnot (RTB_ALIGN - 1)).

Definition RtbAllocate (m1 m2 : malloc_result) (len headroom : Z) : option RTK_BUFFER :=
  match m1 with
  | None => None
  | Some j =>
      let BufferLen :=
        RTB_DATA_ALIGN (if truthy headroom then u32 (len + headroom)
                        else u32 (len + DEFAULT_HEADER_SIZE)) in
      match m2 with
      | None => None
      | Some junk =>
          let hr := if truthy headroom then headroom else DEFAULT_HEADER_SIZE in
          Some {| Mem := block junk BufferLen; Data := hr; End_ := hr; Tail := hr + len;
                  Length := 0; HeadRoom := hr; RefCount := 1;
                  PacketType := u8 (j 0); Handle := u16 (j 1) |}
      end
  end.

(** The pointer operations return the C result (an offset, or [None] for the
    null pointer) and the updated buffer. *)
Definition RtbAddHead (b : RTK_BUFFER) (n : Z) : option Z * RTK_BUFFER :=
  if n <=? u32 (Data b - 0) then
    let b' := {| Mem := Mem b; Data := Data b - n; End_ := End_ b; Tail := Tail b;
                 Length := u32 (Length b + n); HeadRoom := u32 (HeadRoom b - n);
                 RefCount := RefCount b; PacketType := PacketType b; Handle := Handle b |} in
    (Some (Data b'), b')
  else (None, b).

Definition RtbRemoveHead (b : RTK_BUFFER) (n : Z) : bool * RTK_BUFFER :=
  if n <=? Length b then
    (true, {| Mem := Mem b; Data := Data b + n; End_ := End_ b; Tail := Tail b;
              Length := u32 (Length b - n); HeadRoom := u32 (HeadRoom b + n);
              RefCount := RefCount b; PacketType := PacketType b; Handle := Handle b |})
  else (false, b).

Definition RtbAddTail (b : RTK_BUFFER) (n : Z) : option Z * RTK_BUFFER :=
  if n <=? u32 (Tail b - End_ b) then
    (Some (End_ b),
     {| Mem := Mem b; Data := Data b; End_ := End_ b + n; Tail := Tail b;
        Length := u32 (Length b + n); HeadRoom := HeadRoom b;
        RefCount := RefCount b; PacketType := PacketType b; Handle := Handle b |})
  else (None, b).

Definition RtbRemoveTail (b : RTK_BUFFER) (n : Z) : bool * RTK_BUFFER :=
  if n <=? u32 (End_ b - Data b) then
    (true, {| Mem := Mem b; Data := Data b; End_ := End_ b - n; Tail := Tail b;
              Length := u32 (Length b - n); HeadRoom := HeadRoom b;
              RefCount := RefCount b; PacketType := PacketType b; Handle := Handle b |})
  else (false, b).

(** Memory access through a pointer into the block. *)
Definition mem_get (b : RTK_BUFFER) (p : Z) : Z := default 0 (Mem b !! Z.to_nat p).
Definition mem_put (p : Z) (bs : list Z) (b : RTK_BUFFER) : RTK_BUFFER :=
  {| Mem := blit (Z.to_nat p) bs (Mem b); Data := Data b; End_ := End_ b; Tail := Tail b;
     Length := Length b; HeadRoom := HeadRoom b; RefCount := RefCount b;
     PacketType := PacketType b; Handle := Handle b |}.

(** The bounds-checked copy of C's Annex K: more bytes than the destination
    bound is an error that clears the destination, and a null destination is an
    error that stores nothing. *)
Definition memcpy_s (dst : option Z) (dmax : Z) (src : list Z) (b : RTK_BUFFER) : RTK_BUFFER :=
  match dst with
  | None => b
  | Some p =>
      if Z.of_nat (length src) <=? dmax then mem_put p src b
      else mem_put p (replicate (Z.to_nat dmax) 0) b
  end.

(** [data[0 .. Length)], the bytes the buffer holds. *)
Definition rtb_data (b : RTK_BUFFER) : list Z :=
  window (Z.to_nat (Data b)) (Z.to_nat (Length b)) (Mem b).

Definition set_Length (n : Z) (b : RTK_BUFFER) : RTK_BUFFER :=
  {| Mem := Mem b; Data := Data b; End_ := End_ b; Tail := Tail b; Length := n;
     HeadRoom := HeadRoom b; RefCount := RefCount b; PacketType := PacketType b;
     Handle := Handle b |}.

Definition RtbCloneBuffer (m1 m2 : malloc_result) (p : option RTK_BUFFER) : option RTK_BUFFER :=
  match p with
  | None => None
  | Some b =>
      match RtbAllocate m1 m2 (Length b) 0 with
      | None => None
      | Some new =>
          let new := memcpy_s (Some (Data new)) (Length new) (rtb_data b) new in
          Some (set_Length (Length b) new)
      end
  end.

(** * Well-formedness *)

Definition wf (b : RTK_BUFFER) : Prop :=
  0 <= Data b <= End_ b /\ End_ b <= Tail b <= Z.of_nat (length (Mem b)) /\
  Z.of_nat (length (Mem b)) < 2 ^ 32 /\
  Length b = End_ b - Data b /\ HeadRoom b = Data b /\ bytes (Mem b).

(** Bytes that can still be added at the tail. *)
Definition room (b : RTK_BUFFER) : Z := Tail b - End_ b.

Lemma length_block junk n : 0 <= n -> Z.of_nat (length (block junk n)) = n.
Proof. intros. unfold block. rewrite length_fmap, length_seqZ. lia. Qed.

Lemma bytes_block junk n : bytes (block junk n).
Proof. apply Forall_fmap, Forall_true. intros. apply u8_range. Qed.

Lemma align_spec n : 0 <= n < 2 ^ 32 - 3 -> n <= RTB_DATA_ALIGN n <= n + 3 /\ RTB_DATA_ALIGN n mod 4 = 0.
Proof.
  intros. unfold RTB_DATA_ALIGN, RTB_ALIGN. rewrite u32_small by lia.
  assert (E : (n + (4 - 1)) .& u32 (Z.lnot (4 - 1)) = (n + 3) / 4 * 4).
  { replace (u32 (Z.lnot (4 - 1))) with (Z.ldiff (Z.ones 32) (Z.ones 2)) by reflexivity.
    rewrite <- (Z.shiftl_mul_pow2 _ 2), <- (Z.shiftr_div_pow2 _ 2) by lia.
    replace (4 - 1) with 3 by lia. rewrite <- (Z.ldiff_ones_r (n + 3) 2) by lia.
    rewrite Z.ldiff_land, Z.land_assoc, Z.land_ones, Z.mod_small by lia.
    rewrite <- Z.ldiff_land. done. }
  rewrite E. pose proof (Z.div_mod (n + 3) 4). pose proof (Z.mod_pos_bound (n + 3) 4).
  rewrite Z.mod_mul; lia.
Qed.

Lemma length_rtb_data b : wf b -> Z.of_nat (length (rtb_data b)) = Length b.
Proof.
  intros (? & ? & ? & E & _). unfold rtb_data. rewrite length_window; lia.
Qed.

Lemma bytes_rtb_data b : wf b -> bytes (rtb_data b).
Proof. intros (_ & _ & _ & _ & _ & B). by apply bytes_window. Qed.

(** * The pointer operations on well-formed buffers *)

Lemma RtbAllocate_ok j junk len hr b :
  0 <= len -> 0 <= hr -> len + hr + DEFAULT_HEADER_SIZE < 2 ^ 32 - 3 ->
  RtbAllocate (Some j) (Some junk) len hr = Some b ->
  wf b /\ rtb_data b = [] /\ room b = len /\
  HeadRoom b = (if truthy hr then hr else DEFAULT_HEADER_SIZE).
Proof.
  unfold RtbAllocate, DEFAULT_HEADER_SIZE. intros Hl Hh Hs [= <-].
  set (r := if truthy hr then hr else 8 + 4).
  replace (if truthy hr then u32 (len + hr) else u32 (len + (8 + 4))) with (len + r)
    by (unfold r; destruct (truthy hr); rewrite u32_small; lia).
  assert (0 <= r <= hr + 12) by (unfold r; destruct (truthy hr); lia).
  destruct (align_spec (len + r)) as [A _]; [lia|].
  pose proof (length_block junk (RTB_DATA_ALIGN (len + r))) as L.
  unfold wf, rtb_data, room; simpl.
  repeat split; try lia; try apply bytes_block; done.
Qed.

Lemma RtbAddTail_ok b n :
  wf b -> 0 <= n ->
  RtbAddTail b n =
    if n <=? room b then
      (Some (End_ b),
       mk_rtb (Mem b) (Data b) (End_ b + n) (Tail b) (Length b + n) (HeadRoom b)
         (RefCount b) (PacketType b) (Handle b))
    else (None, b).
Proof.
  intros (? & ? & ? & ? & ? & ?) Hn. unfold RtbAddTail, room. rewrite (u32_small (Tail b - End_ b)) by lia.
  destruct (Z.leb_spec n (Tail b - End_ b)); [|done]. rewrite u32_small by lia. done.
Qed.

Lemma RtbRemoveHead_ok b n :
  wf b -> 0 <= n ->
  RtbRemoveHead b n =
    if n <=? Length b then
      (true, mk_rtb (Mem b) (Data b + n) (End_ b) (Tail b) (Length b - n) (HeadRoom b + n)
         (RefCount b) (PacketType b) (Handle b))
    else (false, b).
Proof.
  intros (? & ? & ? & ? & ? & ?) Hn. unfold RtbRemoveHead.
  destruct (Z.leb_spec n (Length b)); [|done]. rewrite !u32_small by lia. done.
Qed.

Lemma RtbRemoveTail_ok b n :
  wf b -> 0 <= n ->
  RtbRemoveTail b n =
    if n <=? Length b then
      (true, mk_rtb (Mem b) (Data b) (End_ b - n) (Tail b) (Length b - n) (HeadRoom b)
         (RefCount b) (PacketType b) (Handle b))
    else (false, b).
Proof.
  intros (? & ? & ? & E & ? & ?) Hn. unfold RtbRemoveTail.
  rewrite (u32_small (End_ b - Data b)), <- E by lia.
  destruct (Z.leb_spec n (Length b)); [|done]. rewrite !u32_small by lia. done.
Qed.

Lemma RtbAddHead_ok b n :
  wf b -> 0 <= n ->
  RtbAddHead b n =
    if n <=? HeadRoom b then
      (Some (Data b - n),
       mk_rtb (Mem b) (Data b - n) (End_ b) (Tail b) (Length b + n) (HeadRoom b - n)
         (RefCount b) (PacketType b) (Handle b))
    else (None, b).
Proof.
  intros (? & ? & ? & ? & Hr & ?) Hn. unfold RtbAddHead.
  rewrite (u32_small (Data b - 0)), Z.sub_0_r, Hr by lia.
  destruct (Z.leb_spec n (Data b)); [|done]. rewrite !u32_small by lia. done.
Qed.

(** The usual idiom of the callers: reserve at the tail, then copy. *)
Definition put_bytes (bs : list Z) (b : RTK_BUFFER) : RTK_BUFFER :=
  let '(p, b1) := RtbAddTail b (Z.of_nat (length bs)) in
  memcpy_s p (Z.of_nat (length bs)) bs b1.

Lemma put_bytes_ok b bs :
  wf b -> bytes bs -> Z.of_nat (length bs) <= room b ->
  wf (put_bytes bs b) /\ rtb_data (put_bytes bs b) = rtb_data b ++ bs /\
  room (put_bytes bs b) = room b - Z.of_nat (length bs) /\
  HeadRoom (put_bytes bs b) = HeadRoom b /\ PacketType (put_bytes bs b) = PacketType b.
Proof.
  intros W B R. unfold put_bytes. rewrite RtbAddTail_ok by (done || lia).
  destruct (Z.leb_spec (Z.of_nat (length bs)) (room b)); [|lia].
  unfold memcpy_s. rewrite Z.leb_refl. destruct W as (W1 & W2 & W3 & W4 & W5 & W6).
  unfold room in *. unfold wf, rtb_data, mem_put; simpl.
  assert (L : length (blit (Z.to_nat (End_ b)) bs (Mem b)) = length (Mem b))
    by (apply length_blit; lia).
  rewrite L. repeat split; try lia.
  - by apply bytes_blit.
  - replace (Z.to_nat (Length b + Z.of_nat (length bs))) with (Z.to_nat (Length b) + length bs)%nat by lia.
    replace (Z.to_nat (End_ b)) with (Z.to_nat (Data b) + Z.to_nat (Length b))%nat by lia.
    apply window_blit_end. lia.
Qed.

Lemma put_bytes_full b bs :
  wf b -> room b < Z.of_nat (length bs) -> put_bytes bs b = b.
Proof.
  intros W R. unfold put_bytes. rewrite RtbAddTail_ok by (done || lia).
  destruct (Z.leb_spec (Z.of_nat (length bs)) (room b)); [lia|]. done.
Qed.

Lemma RtbRemoveHead_data b n :
  wf b -> 0 <= n <= Length b ->
  let b' := (RtbRemoveHead b n).2 in
  wf b' /\ rtb_data b' = drop (Z.to_nat n) (rtb_data b) /\ room b' = room b /\
  PacketType b' = PacketType b.
Proof.
  intros W Hn. rewrite RtbRemoveHead_ok by (done || lia).
  destruct (Z.leb_spec n (Length b)); [|lia]. destruct W as (W1 & W2 & W3 & W4 & W5 & W6).
  unfold wf, rtb_data, room; simpl. repeat split; try lia; [done|].
  rewrite Z2Nat.inj_add, Z2Nat.inj_sub by lia. apply window_drop. lia.
Qed.

Lemma RtbRemoveTail_data b n :
  wf b -> 0 <= n <= Length b ->
  let b' := (RtbRemoveTail b n).2 in
  wf b' /\ rtb_data b' = take (Z.to_nat (Length b - n)) (rtb_data b) /\ room b' = room b + n /\
  PacketType b' = PacketType b.
Proof.
  intros W Hn. rewrite RtbRemoveTail_ok by (done || lia).
  destruct (Z.leb_spec n (Length b)); [|lia]. destruct W as (W1 & W2 & W3 & W4 & W5 & W6).
  unfold wf, rtb_data, room; simpl. repeat split; try lia; [done|].
  apply window_take. lia.
Qed.

(** The pointer operations keep a buffer well-formed and move exactly the
    bytes they say: [RtbAddTail] with the copy that follows appends, a full
    buffer is left alone, [RtbRemoveHead] drops from the front, [RtbRemoveTail]
    from the back, and [RtbAddHead] undoes [RtbRemoveHead]. *)
Theorem rtb_pointer_ops b :
  wf b ->
  (forall bs, bytes bs ->
     wf (put_bytes bs b) /\
     rtb_data (put_bytes bs b) =
       if Z.of_nat (length bs) <=? room b then rtb_data b ++ bs else rtb_data b) /\
  (forall n, 0 <= n <= Length b ->
     exists b1 b2, RtbRemoveHead b n = (true, b1) /\ wf b1 /\
       rtb_data b1 = drop (Z.to_nat n) (rtb_data b) /\
       RtbRemoveTail b n = (true, b2) /\ wf b2 /\
       rtb_data b2 = take (Z.to_nat (Length b - n)) (rtb_data b) /\
       RtbAddHead b1 n = (Some (Data b), b)) /\
  (forall n, Length b < n ->
     RtbRemoveHead b n = (false, b) /\ RtbRemoveTail b n = (false, b)).
Proof.
  intros W. split; [|split].
  - intros bs B. destruct (Z.leb_spec (Z.of_nat (length bs)) (room b)).
    + destruct (put_bytes_ok b bs W B) as (? & ? & _); [lia|]. done.
    + by rewrite put_bytes_full.
  - intros n Hn. exists (RtbRemoveHead b n).2, (RtbRemoveTail b n).2.
    destruct (RtbRemoveHead_data b n W Hn) as (W1 & D1 & _).
    destruct (RtbRemoveTail_data b n W Hn) as (W2 & D2 & _).
    rewrite RtbRemoveHead_ok, RtbRemoveTail_ok in * by (done || lia).
    rewrite (proj2 (Z.leb_le n (Length b))) in * by lia. simpl in *.
    repeat split; try done; try apply W1; try apply W2.
    rewrite RtbAddHead_ok by (done || lia). simpl.
    destruct W as (? & ? & ? & ? & ? & ?). rewrite (proj2 (Z.leb_le n (HeadRoom b + n))) by lia.
    rewrite !Z.add_simpl_r, Z.sub_add. destruct b; done.
  - intros n Hn. destruct W as (W1 & W2 & W3 & W4 & W5 & W6).
    unfold RtbRemoveHead, RtbRemoveTail. rewrite (u32_small (End_ b - Data b)) by lia.
    rewrite !(proj2 (Z.leb_gt _ _)) by lia. done.
Qed.

(** [RtbAllocate] gives either the null pointer, exactly when one of its two
    [malloc] calls fails, or an empty well-formed buffer with room for the
    requested length and a 4-byte aligned block. *)
Theorem rtb_allocate m1 m2 len hr :
  0 <= len -> 0 <= hr -> len + hr + DEFAULT_HEADER_SIZE < 2 ^ 32 - 3 ->
  match RtbAllocate m1 m2 len hr with
  | None => m1 = None \/ m2 = None
  | Some b => wf b /\ rtb_data b = [] /\ room b = len /\
      HeadRoom b = (if truthy hr then hr else DEFAULT_HEADER_SIZE) /\
      Z.of_nat (length (Mem b)) mod 4 = 0
  end.
Proof.
  intros Hl Hh Hs. destruct m1 as [j|]; [|by left]. destruct m2 as [junk|]; [|by right].
  destruct (RtbAllocate (Some j) (Some junk) len hr) as [b|] eqn:E; [|done].
  destruct (RtbAllocate_ok j junk len hr b Hl Hh Hs E) as (W & D & R & H).
  repeat split; try apply W; try done.
  unfold RtbAllocate in E. injection E as <-. simpl. unfold DEFAULT_HEADER_SIZE in *.
  destruct (align_spec (if truthy hr then u32 (len + hr) else u32 (len + (8 + 4)))) as [A1 A2].
  { destruct (truthy hr); rewrite u32_small; lia. }
  rewrite length_block; [done|]. destruct (truthy hr); rewrite u32_small in *; lia.
Qed.

(** [RtbCloneBuffer] does not copy the packet: the bound it passes to
    [memcpy_s] is the length of the fresh buffer, which is zero, so the clone of
    a non-empty buffer holds the indeterminate bytes of its new block, whatever
    the original holds, and its end pointer still says it is empty. *)
Theorem rtb_clone_drops_data j junk b :
  wf b -> 0 < Length b < 2 ^ 31 ->
  exists c, RtbCloneBuffer (Some j) (Some junk) (Some b) = Some c /\
    Length c = Length b /\ End_ c = Data c /\
    rtb_data c = (fun i => u8 (junk (DEFAULT_HEADER_SIZE + i))) <$> seqZ 0 (Length b).
Proof.
  intros W HL. unfold RtbCloneBuffer.
  destruct (RtbAllocate (Some j) (Some junk) (Length b) 0) as [n|] eqn:E; [|done].
  destruct (RtbAllocate_ok j junk (Length b) 0 n) as (Wn & _ & _ & _); [unfold DEFAULT_HEADER_SIZE; lia..|done|].
  eexists. split; [done|]. unfold RtbAllocate, DEFAULT_HEADER_SIZE in E.
  injection E as <-. unfold memcpy_s; simpl.
  rewrite length_rtb_data by done. rewrite (proj2 (Z.leb_gt (Length b) 0)) by lia.
  simpl. repeat split. unfold rtb_data, mem_put; simpl. change (truthy 0) with false. simpl.
  destruct Wn as (_ & Wt & _). simpl in Wt. change (truthy 0) with false in Wt. simpl in Wt.
  rewrite blit_nil by lia.
  unfold window, block. rewrite <- fmap_drop, <- fmap_take.
  set (m := RTB_DATA_ALIGN (u32 (Length b + (8 + 4)))) in *.
  assert (12 + Length b <= m).
  { unfold m. rewrite u32_small by lia. destruct (align_spec (Length b + (8 + 4))); lia. }
  apply list_eq. intros i. rewrite !list_lookup_fmap.
  destruct (decide (Z.of_nat i < Length b)).
  - rewrite lookup_take_lt, lookup_drop by lia.
    rewrite !lookup_seqZ_lt by lia. simpl. do 3 f_equal. unfold DEFAULT_HEADER_SIZE. lia.
  - rewrite lookup_take_ge by lia. rewrite lookup_seqZ_ge by lia. done.
Qed.

(** * Buffers up to the indeterminate bytes of their blocks

    Two buffers are equivalent when the protocol cannot tell them apart: the
    same bytes, room, headroom and packet type, whatever the rest of the block
    holds. *)

#[export] Instance rtb_equiv : Equiv RTK_BUFFER := fun b1 b2 =>
  wf b1 /\ wf b2 /\ rtb_data b1 = rtb_data b2 /\ room b1 = room b2 /\
  HeadRoom b1 = HeadRoom b2 /\ PacketType b1 = PacketType b2.

#[export] Instance rtb_per : RelationClasses.PER (≡@{RTK_BUFFER}).
Proof.
  split.
  - intros x y (? & ? & ? & ? & ? & ?). unfold equiv, rtb_equiv. split_and!; congruence.
  - intros x y z (? & ? & ? & ? & ? & ?) (? & ? & ? & ? & ? & ?).
    unfold equiv, rtb_equiv. split_and!; congruence.
Qed.

#[export] Instance put_bytes_proper bs : Proper ((≡) ==> (≡)) (if decide (bytes bs) then put_bytes bs else id).
Proof.
  intros x y H. case_decide as B; [|done]. destruct H as (W1 & W2 & D & R & H & P).
  destruct (decide (Z.of_nat (length bs) <= room x)).
  - destruct (put_bytes_ok x bs W1 B) as (? & E1 & ? & ? & ?); [done|].
    destruct (put_bytes_ok y bs W2 B) as (? & E2 & ? & ? & ?); [lia|].
    unfold equiv, rtb_equiv. split_and!; try tauto; try congruence.
  - rewrite !put_bytes_full by (done || lia). unfold equiv, rtb_equiv. tauto.
Qed.

#[export] Instance Length_proper : Proper ((≡) ==> (=)) Length.
Proof.
  intros x y (W1 & W2 & D & _). rewrite <- (length_rtb_data x), <- (length_rtb_data y), D by done. done.
Qed.

#[export] Instance RtbRemoveHead_proper n : Proper ((≡) ==> (≡)) (fun b => (RtbRemoveHead b (Z.abs n)).2).
Proof.
  intros x y E. pose proof (Length_proper x y E) as L. destruct E as (W1 & W2 & D & R & H & P).
  destruct (decide (Z.abs n <= Length x)).
  - destruct (RtbRemoveHead_data x (Z.abs n) W1) as (V1 & D1 & R1 & P1); [lia|].
    destruct (RtbRemoveHead_data y (Z.abs n) W2) as (V2 & D2 & R2 & P2); [lia|].
    simpl in *. unfold equiv, rtb_equiv. split_and!; try tauto; try congruence.
    destruct V1 as (? & ? & ? & ? & -> & ?), V2 as (? & ? & ? & ? & -> & ?).
    rewrite !RtbRemoveHead_ok by (done || lia). rewrite !(proj2 (Z.leb_le _ _)) by lia. simpl.
    destruct W1 as (? & ? & ? & ? & <- & ?), W2 as (? & ? & ? & ? & <- & ?). lia.
  - rewrite !RtbRemoveHead_ok by (done || lia). rewrite !(proj2 (Z.leb_gt _ _)) by lia.
    unfold equiv, rtb_equiv. tauto.
Qed.

(** * A buffer of two bytes with room for two more *)

Definition rtb_ex : RTK_BUFFER :=
  {| Mem := [0; 0; 0; 0; 0; 0; 0; 0; 0; 0; 0; 0; 17; 34; 0; 0]; Data := 12; End_ := 14; Tail := 16;
     Length := 2; HeadRoom := 12; RefCount := 1; PacketType := 4; Handle := 0 |}.

Lemma rtb_ex_wf : wf rtb_ex.
Proof. unfold wf; simpl. split_and!; try lia; try done. by repeat apply Forall_cons_2. Qed.

Lemma rtb_pointer_ops_witness :
  rtb_data (put_bytes [51; 68] rtb_ex) = [17; 34; 51; 68] /\
  rtb_data (RtbRemoveHead rtb_ex 1).2 = [34].
Proof.
  destruct (rtb_pointer_ops rtb_ex rtb_ex_wf) as (H1 & H2 & _). split.
  - rewrite (proj2 (H1 [51; 68] ltac:(by repeat apply Forall_cons_2))). reflexivity.
  - destruct (H2 1 ltac:(simpl; lia)) as (b1 & b2 & -> & _ & D & _). exact D.
Defined.

Lemma rtb_allocate_witness :
  match RtbAllocate (Some (fun _ => 0)) (Some (fun _ => 0)) 5 0 with
  | None => False
  | Some b => room b = 5
  end.
Proof.
  pose proof (rtb_allocate (Some (fun _ => 0)) (Some (fun _ => 0)) 5 0 ltac:(lia) ltac:(lia)
    ltac:(unfold DEFAULT_HEADER_SIZE; lia)) as H.
  destruct (RtbAllocate _ _ 5 0); [apply H|]. by destruct H.
Defined.

Lemma rtb_clone_drops_data_witness :
  exists c, RtbCloneBuffer (Some (fun _ => 0)) (Some (fun _ => 0)) (Some rtb_ex) = Some c /\
    rtb_data rtb_ex = [17; 34] /\ rtb_data c = [0; 0].
Proof.
  destruct (rtb_clone_drops_data (fun _ => 0) (fun _ => 0) rtb_ex rtb_ex_wf ltac:(simpl; lia))
    as (c & E & _ & _ & D).
  exists c. split; [exact E|]. split; [reflexivity|exact D].
Defined.

#[global] Arguments RtbAllocate : simpl never.
#[global] Arguments RtbAddHead : simpl never.
#[global] Arguments RtbRemoveHead : simpl never.
#[global] Arguments RtbAddTail : simpl never.
#[global] Arguments RtbRemoveTail : simpl never.
#[global] Arguments put_bytes : simpl never.
End Rtb.
