(* ===== verification/H5State.v ===== *)
(** [hardware/bt/src/hci_h5.c]: the state of the three-wire UART (H5) transport.

    [tHCI_H5_CB] has the fields of the control block [rtk_h5] that the protocol
    reads or writes, the file-level variables it shares with its threads and callers,
    and two ghost fields: [mallocs], the outcomes of the coming calls of
    [malloc] (they succeed with zeroed blocks once the list is used up), and
    [trace], the calls to the outside (UART, timers, callbacks) in order. *)

From S2P Require Import Prelude BtSkbuff.
Export Rtb.

Abbreviation sk_buff := RTK_BUFFER.

(** Packet types and constants of the file header. *)
Definition H5_RELIABLE_PKT := 1.
Definition H5_UNRELIABLE_PKT := 0.
Definition H5_ACK_PKT := 0.
Definition HCI_COMMAND_PKT := 1.
Definition HCI_ACLDATA_PKT := 2.
Definition HCI_SCODATA_PKT := 3.
Definition HCI_EVENT_PKT := 4.
Definition H5_VDRSPEC_PKT := 14.
Definition H5_LINK_CTL_PKT := 15.

Inductive tH5_RX_STATE :=
  H5_W4_PKT_DELIMITER | H5_W4_PKT_START | H5_W4_HDR | H5_W4_DATA | H5_W4_CRC.
Inductive tH5_RX_ESC_STATE := H5_ESCSTATE_NOESC | H5_ESCSTATE_ESC.
Inductive tH5_LINK_STATE := H5_UNINITIALIZED | H5_INITIALIZED | H5_ACTIVE.

#[export] Instance rx_state_eq_dec : EqDecision tH5_RX_STATE.
Proof. solve_decision. Defined.
#[export] Instance link_state_eq_dec : EqDecision tH5_LINK_STATE.
Proof. solve_decision. Defined.

Inductive h5_timer :=
  timer_data_retrans | timer_sync_retrans | timer_conf_retrans |
  timer_wait_ct_baudrate_ready | timer_h5_hw_init_ready.

(** [struct itimerspec], as seconds and nanoseconds. *)
Record itimerspec := mk_itval {
  value_sec : Z; value_nsec : Z; interval_sec : Z; interval_nsec : Z
}.

Inductive h5_event :=
  | EvTransmit (frame : list Z)            (* h5_int_transmit_data_cb *)
  | EvRawData (bs : list Z)                (* userial_recv_rawdata_hook *)
  | EvDataReady (pkt_type len : Z)         (* h5_data_ready_cb *)
  | EvSetTime (t : h5_timer) (itval : itimerspec)   (* timer_settime *)
  | EvDeleteTimer (t : h5_timer).                   (* timer_delete *)

Record tHCI_H5_CB := mk_h5 {
  sliding_window_size : Z;
  oof_flow_control : Z;
  dic_type : Z;
  unack : list sk_buff;
  rel : list sk_buff;
  unrel : list sk_buff;
  recv_data : list sk_buff;
  rxseq_txack : Z;
  rxack : Z;
  use_crc : Z;
  is_txack_req : Z;
  msgq_txseq : Z;
  message_crc : Z;
  rx_count : Z;
  rx_state : tH5_RX_STATE;
  rx_esc_state : tH5_RX_ESC_STATE;
  link_estab_state : tH5_LINK_STATE;
  rx_skb : option sk_buff;
  data_skb : option sk_buff;
  internal_skb : option sk_buff;
  data_retrans_count : Z;
  sync_retrans_count : Z;
  conf_retrans_count : Z;
  cleanuping : Z;
  h5_init_datatrans_flag : Z;
  num_hci_cmd_pkts : Z;
  h5_ready_events : Z;
  h5_retransfer_running : Z;
  h5_data_ready_running : Z;
  mallocs : list malloc_result;
  trace : list h5_event
}.

(** * Field updates *)

Definition set_sliding_window_size (v : Z) (h : tHCI_H5_CB) : tHCI_H5_CB :=
  mk_h5 v (oof_flow_control h) (dic_type h) (unack h) (rel h) (unrel h) (recv_data h)
    (rxseq_txack h) (rxack h) (use_crc h) (is_txack_req h) (msgq_txseq h) (message_crc h)
    (rx_count h) (rx_state h) (rx_esc_state h) (link_estab_state h) (rx_skb h) (data_skb h)
    (internal_skb h) (data_retrans_count h) (sync_retrans_count h) (conf_retrans_count h)
    (cleanuping h) (h5_init_datatrans_flag h) (num_hci_cmd_pkts h) (h5_ready_events h)
    (h5_retransfer_running h) (h5_data_ready_running h) (mallocs h) (trace h).
Definition set_oof_flow_control (v : Z) (h : tHCI_H5_CB) : tHCI_H5_CB :=
  mk_h5 (sliding_window_size h) v (dic_type h) (unack h) (rel h) (unrel h) (recv_data h)
    (rxseq_txack h) (rxack h) (use_crc h) (is_txack_req h) (msgq_txseq h) (message_crc h)
    (rx_count h) (rx_state h) (rx_esc_state h) (link_estab_state h) (rx_skb h) (data_skb h)
    (internal_skb h) (data_retrans_count h) (sync_retrans_count h) (conf_retrans_count h)
    (cleanuping h) (h5_init_datatrans_flag h) (num_hci_cmd_pkts h) (h5_ready_events h)
    (h5_retransfer_running h) (h5_data_ready_running h) (mallocs h) (trace h).
Definition set_dic_type (v : Z) (h : tHCI_H5_CB) : tHCI_H5_CB :=
  mk_h5 (sliding_window_size h) (oof_flow_control h) v (unack h) (rel h) (unrel h) (recv_data h)
    (rxseq_txack h) (rxack h) (use_crc h) (is_txack_req h) (msgq_txseq h) (message_crc h)
    (rx_count h) (rx_state h) (rx_esc_state h) (link_estab_state h) (rx_skb h) (data_skb h)
    (internal_skb h) (data_retrans_count h) (sync_retrans_count h) (conf_retrans_count h)
    (cleanuping h) (h5_init_datatrans_flag h) (num_hci_cmd_pkts h) (h5_ready_events h)
    (h5_retransfer_running h) (h5_data_ready_running h) (mallocs h) (trace h).
Definition set_unack (v : list sk_buff) (h : tHCI_H5_CB) : tHCI_H5_CB :=
  mk_h5 (sliding_window_size h) (oof_flow_control h) (dic_type h) v (rel h) (unrel h) (recv_data
    h) (rxseq_txack h) (rxack h) (use_crc h) (is_txack_req h) (msgq_txseq h) (message_crc h)
    (rx_count h) (rx_state h) (rx_esc_state h) (link_estab_state h) (rx_skb h) (data_skb h)
    (internal_skb h) (data_retrans_count h) (sync_retrans_count h) (conf_retrans_count h)
    (cleanuping h) (h5_init_datatrans_flag h) (num_hci_cmd_pkts h) (h5_ready_events h)
    (h5_retransfer_running h) (h5_data_ready_running h) (mallocs h) (trace h).
Definition set_rel (v : list sk_buff) (h : tHCI_H5_CB) : tHCI_H5_CB :=
  mk_h5 (sliding_window_size h) (oof_flow_control h) (dic_type h) (unack h) v (unrel h)
    (recv_data h) (rxseq_txack h) (rxack h) (use_crc h) (is_txack_req h) (msgq_txseq h)
    (message_crc h) (rx_count h) (rx_state h) (rx_esc_state h) (link_estab_state h) (rx_skb h)
    (data_skb h) (internal_skb h) (data_retrans_count h) (sync_retrans_count h)
    (conf_retrans_count h) (cleanuping h) (h5_init_datatrans_flag h) (num_hci_cmd_pkts h)
    (h5_ready_events h) (h5_retransfer_running h) (h5_data_ready_running h) (mallocs h) (trace
    h).
Definition set_unrel (v : list sk_buff) (h : tHCI_H5_CB) : tHCI_H5_CB :=
  mk_h5 (sliding_window_size h) (oof_flow_control h) (dic_type h) (unack h) (rel h) v (recv_data
    h) (rxseq_txack h) (rxack h) (use_crc h) (is_txack_req h) (msgq_txseq h) (message_crc h)
    (rx_count h) (rx_state h) (rx_esc_state h) (link_estab_state h) (rx_skb h) (data_skb h)
    (internal_skb h) (data_retrans_count h) (sync_retrans_count h) (conf_retrans_count h)
    (cleanuping h) (h5_init_datatrans_flag h) (num_hci_cmd_pkts h) (h5_ready_events h)
    (h5_retransfer_running h) (h5_data_ready_running h) (mallocs h) (trace h).
Definition set_recv_data (v : list sk_buff) (h : tHCI_H5_CB) : tHCI_H5_CB :=
  mk_h5 (sliding_window_size h) (oof_flow_control h) (dic_type h) (unack h) (rel h) (unrel h) v
    (rxseq_txack h) (rxack h) (use_crc h) (is_txack_req h) (msgq_txseq h) (message_crc h)
    (rx_count h) (rx_state h) (rx_esc_state h) (link_estab_state h) (rx_skb h) (data_skb h)
    (internal_skb h) (data_retrans_count h) (sync_retrans_count h) (conf_retrans_count h)
    (cleanuping h) (h5_init_datatrans_flag h) (num_hci_cmd_pkts h) (h5_ready_events h)
    (h5_retransfer_running h) (h5_data_ready_running h) (mallocs h) (trace h).
Definition set_rxseq_txack (v : Z) (h : tHCI_H5_CB) : tHCI_H5_CB :=
  mk_h5 (sliding_window_size h) (oof_flow_control h) (dic_type h) (unack h) (rel h) (unrel h)
    (recv_data h) v (rxack h) (use_crc h) (is_txack_req h) (msgq_txseq h) (message_crc h)
    (rx_count h) (rx_state h) (rx_esc_state h) (link_estab_state h) (rx_skb h) (data_skb h)
    (internal_skb h) (data_retrans_count h) (sync_retrans_count h) (conf_retrans_count h)
    (cleanuping h) (h5_init_datatrans_flag h) (num_hci_cmd_pkts h) (h5_ready_events h)
    (h5_retransfer_running h) (h5_data_ready_running h) (mallocs h) (trace h).
Definition set_rxack (v : Z) (h : tHCI_H5_CB) : tHCI_H5_CB :=
  mk_h5 (sliding_window_size h) (oof_flow_control h) (dic_type h) (unack h) (rel h) (unrel h)
    (recv_data h) (rxseq_txack h) v (use_crc h) (is_txack_req h) (msgq_txseq h) (message_crc h)
    (rx_count h) (rx_state h) (rx_esc_state h) (link_estab_state h) (rx_skb h) (data_skb h)
    (internal_skb h) (data_retrans_count h) (sync_retrans_count h) (conf_retrans_count h)
    (cleanuping h) (h5_init_datatrans_flag h) (num_hci_cmd_pkts h) (h5_ready_events h)
    (h5_retransfer_running h) (h5_data_ready_running h) (mallocs h) (trace h).
Definition set_use_crc (v : Z) (h : tHCI_H5_CB) : tHCI_H5_CB :=
  mk_h5 (sliding_window_size h) (oof_flow_control h) (dic_type h) (unack h) (rel h) (unrel h)
    (recv_data h) (rxseq_txack h) (rxack h) v (is_txack_req h) (msgq_txseq h) (message_crc h)
    (rx_count h) (rx_state h) (rx_esc_state h) (link_estab_state h) (rx_skb h) (data_skb h)
    (internal_skb h) (data_retrans_count h) (sync_retrans_count h) (conf_retrans_count h)
    (cleanuping h) (h5_init_datatrans_flag h) (num_hci_cmd_pkts h) (h5_ready_events h)
    (h5_retransfer_running h) (h5_data_ready_running h) (mallocs h) (trace h).
Definition set_is_txack_req (v : Z) (h : tHCI_H5_CB) : tHCI_H5_CB :=
  mk_h5 (sliding_window_size h) (oof_flow_control h) (dic_type h) (unack h) (rel h) (unrel h)
    (recv_data h) (rxseq_txack h) (rxack h) (use_crc h) v (msgq_txseq h) (message_crc h)
    (rx_count h) (rx_state h) (rx_esc_state h) (link_estab_state h) (rx_skb h) (data_skb h)
    (internal_skb h) (data_retrans_count h) (sync_retrans_count h) (conf_retrans_count h)
    (cleanuping h) (h5_init_datatrans_flag h) (num_hci_cmd_pkts h) (h5_ready_events h)
    (h5_retransfer_running h) (h5_data_ready_running h) (mallocs h) (trace h).
Definition set_msgq_txseq (v : Z) (h : tHCI_H5_CB) : tHCI_H5_CB :=
  mk_h5 (sliding_window_size h) (oof_flow_control h) (dic_type h) (unack h) (rel h) (unrel h)
    (recv_data h) (rxseq_txack h) (rxack h) (use_crc h) (is_txack_req h) v (message_crc h)
    (rx_count h) (rx_state h) (rx_esc_state h) (link_estab_state h) (rx_skb h) (data_skb h)
    (internal_skb h) (data_retrans_count h) (sync_retrans_count h) (conf_retrans_count h)
    (cleanuping h) (h5_init_datatrans_flag h) (num_hci_cmd_pkts h) (h5_ready_events h)
    (h5_retransfer_running h) (h5_data_ready_running h) (mallocs h) (trace h).
Definition set_message_crc (v : Z) (h : tHCI_H5_CB) : tHCI_H5_CB :=
  mk_h5 (sliding_window_size h) (oof_flow_control h) (dic_type h) (unack h) (rel h) (unrel h)
    (recv_data h) (rxseq_txack h) (rxack h) (use_crc h) (is_txack_req h) (msgq_txseq h) v
    (rx_count h) (rx_state h) (rx_esc_state h) (link_estab_state h) (rx_skb h) (data_skb h)
    (internal_skb h) (data_retrans_count h) (sync_retrans_count h) (conf_retrans_count h)
    (cleanuping h) (h5_init_datatrans_flag h) (num_hci_cmd_pkts h) (h5_ready_events h)
    (h5_retransfer_running h) (h5_data_ready_running h) (mallocs h) (trace h).
Definition set_rx_count (v : Z) (h : tHCI_H5_CB) : tHCI_H5_CB :=
  mk_h5 (sliding_window_size h) (oof_flow_control h) (dic_type h) (unack h) (rel h) (unrel h)
    (recv_data h) (rxseq_txack h) (rxack h) (use_crc h) (is_txack_req h) (msgq_txseq h)
    (message_crc h) v (rx_state h) (rx_esc_state h) (link_estab_state h) (rx_skb h) (data_skb h)
    (internal_skb h) (data_retrans_count h) (sync_retrans_count h) (conf_retrans_count h)
    (cleanuping h) (h5_init_datatrans_flag h) (num_hci_cmd_pkts h) (h5_ready_events h)
    (h5_retransfer_running h) (h5_data_ready_running h) (mallocs h) (trace h).
Definition set_rx_state (v : tH5_RX_STATE) (h : tHCI_H5_CB) : tHCI_H5_CB :=
  mk_h5 (sliding_window_size h) (oof_flow_control h) (dic_type h) (unack h) (rel h) (unrel h)
    (recv_data h) (rxseq_txack h) (rxack h) (use_crc h) (is_txack_req h) (msgq_txseq h)
    (message_crc h) (rx_count h) v (rx_esc_state h) (link_estab_state h) (rx_skb h) (data_skb h)
    (internal_skb h) (data_retrans_count h) (sync_retrans_count h) (conf_retrans_count h)
    (cleanuping h) (h5_init_datatrans_flag h) (num_hci_cmd_pkts h) (h5_ready_events h)
    (h5_retransfer_running h) (h5_data_ready_running h) (mallocs h) (trace h).
Definition set_rx_esc_state (v : tH5_RX_ESC_STATE) (h : tHCI_H5_CB) : tHCI_H5_CB :=
  mk_h5 (sliding_window_size h) (oof_flow_control h) (dic_type h) (unack h) (rel h) (unrel h)
    (recv_data h) (rxseq_txack h) (rxack h) (use_crc h) (is_txack_req h) (msgq_txseq h)
    (message_crc h) (rx_count h) (rx_state h) v (link_estab_state h) (rx_skb h) (data_skb h)
    (internal_skb h) (data_retrans_count h) (sync_retrans_count h) (conf_retrans_count h)
    (cleanuping h) (h5_init_datatrans_flag h) (num_hci_cmd_pkts h) (h5_ready_events h)
    (h5_retransfer_running h) (h5_data_ready_running h) (mallocs h) (trace h).
Definition set_link_estab_state (v : tH5_LINK_STATE) (h : tHCI_H5_CB) : tHCI_H5_CB :=
  mk_h5 (sliding_window_size h) (oof_flow_control h) (dic_type h) (unack h) (rel h) (unrel h)
    (recv_data h) (rxseq_txack h) (rxack h) (use_crc h) (is_txack_req h) (msgq_txseq h)
    (message_crc h) (rx_count h) (rx_state h) (rx_esc_state h) v (rx_skb h) (data_skb h)
    (internal_skb h) (data_retrans_count h) (sync_retrans_count h) (conf_retrans_count h)
    (cleanuping h) (h5_init_datatrans_flag h) (num_hci_cmd_pkts h) (h5_ready_events h)
    (h5_retransfer_running h) (h5_data_ready_running h) (mallocs h) (trace h).
Definition set_rx_skb (v : option sk_buff) (h : tHCI_H5_CB) : tHCI_H5_CB :=
  mk_h5 (sliding_window_size h) (oof_flow_control h) (dic_type h) (unack h) (rel h) (unrel h)
    (recv_data h) (rxseq_txack h) (rxack h) (use_crc h) (is_txack_req h) (msgq_txseq h)
    (message_crc h) (rx_count h) (rx_state h) (rx_esc_state h) (link_estab_state h) v (data_skb
    h) (internal_skb h) (data_retrans_count h) (sync_retrans_count h) (conf_retrans_count h)
    (cleanuping h) (h5_init_datatrans_flag h) (num_hci_cmd_pkts h) (h5_ready_events h)
    (h5_retransfer_running h) (h5_data_ready_running h) (mallocs h) (trace h).
Definition set_data_skb (v : option sk_buff) (h : tHCI_H5_CB) : tHCI_H5_CB :=
  mk_h5 (sliding_window_size h) (oof_flow_control h) (dic_type h) (unack h) (rel h) (unrel h)
    (recv_data h) (rxseq_txack h) (rxack h) (use_crc h) (is_txack_req h) (msgq_txseq h)
    (message_crc h) (rx_count h) (rx_state h) (rx_esc_state h) (link_estab_state h) (rx_skb h) v
    (internal_skb h) (data_retrans_count h) (sync_retrans_count h) (conf_retrans_count h)
    (cleanuping h) (h5_init_datatrans_flag h) (num_hci_cmd_pkts h) (h5_ready_events h)
    (h5_retransfer_running h) (h5_data_ready_running h) (mallocs h) (trace h).
Definition set_internal_skb (v : option sk_buff) (h : tHCI_H5_CB) : tHCI_H5_CB :=
  mk_h5 (sliding_window_size h) (oof_flow_control h) (dic_type h) (unack h) (rel h) (unrel h)
    (recv_data h) (rxseq_txack h) (rxack h) (use_crc h) (is_txack_req h) (msgq_txseq h)
    (message_crc h) (rx_count h) (rx_state h) (rx_esc_state h) (link_estab_state h) (rx_skb h)
    (data_skb h) v (data_retrans_count h) (sync_retrans_count h) (conf_retrans_count h)
    (cleanuping h) (h5_init_datatrans_flag h) (num_hci_cmd_pkts h) (h5_ready_events h)
    (h5_retransfer_running h) (h5_data_ready_running h) (mallocs h) (trace h).
Definition set_data_retrans_count (v : Z) (h : tHCI_H5_CB) : tHCI_H5_CB :=
  mk_h5 (sliding_window_size h) (oof_flow_control h) (dic_type h) (unack h) (rel h) (unrel h)
    (recv_data h) (rxseq_txack h) (rxack h) (use_crc h) (is_txack_req h) (msgq_txseq h)
    (message_crc h) (rx_count h) (rx_state h) (rx_esc_state h) (link_estab_state h) (rx_skb h)
    (data_skb h) (internal_skb h) v (sync_retrans_count h) (conf_retrans_count h) (cleanuping h)
    (h5_init_datatrans_flag h) (num_hci_cmd_pkts h) (h5_ready_events h) (h5_retransfer_running
    h) (h5_data_ready_running h) (mallocs h) (trace h).
Definition set_sync_retrans_count (v : Z) (h : tHCI_H5_CB) : tHCI_H5_CB :=
  mk_h5 (sliding_window_size h) (oof_flow_control h) (dic_type h) (unack h) (rel h) (unrel h)
    (recv_data h) (rxseq_txack h) (rxack h) (use_crc h) (is_txack_req h) (msgq_txseq h)
    (message_crc h) (rx_count h) (rx_state h) (rx_esc_state h) (link_estab_state h) (rx_skb h)
    (data_skb h) (internal_skb h) (data_retrans_count h) v (conf_retrans_count h) (cleanuping h)
    (h5_init_datatrans_flag h) (num_hci_cmd_pkts h) (h5_ready_events h) (h5_retransfer_running
    h) (h5_data_ready_running h) (mallocs h) (trace h).
Definition set_conf_retrans_count (v : Z) (h : tHCI_H5_CB) : tHCI_H5_CB :=
  mk_h5 (sliding_window_size h) (oof_flow_control h) (dic_type h) (unack h) (rel h) (unrel h)
    (recv_data h) (rxseq_txack h) (rxack h) (use_crc h) (is_txack_req h) (msgq_txseq h)
    (message_crc h) (rx_count h) (rx_state h) (rx_esc_state h) (link_estab_state h) (rx_skb h)
    (data_skb h) (internal_skb h) (data_retrans_count h) (sync_retrans_count h) v (cleanuping h)
    (h5_init_datatrans_flag h) (num_hci_cmd_pkts h) (h5_ready_events h) (h5_retransfer_running
    h) (h5_data_ready_running h) (mallocs h) (trace h).
Definition set_cleanuping (v : Z) (h : tHCI_H5_CB) : tHCI_H5_CB :=
  mk_h5 (sliding_window_size h) (oof_flow_control h) (dic_type h) (unack h) (rel h) (unrel h)
    (recv_data h) (rxseq_txack h) (rxack h) (use_crc h) (is_txack_req h) (msgq_txseq h)
    (message_crc h) (rx_count h) (rx_state h) (rx_esc_state h) (link_estab_state h) (rx_skb h)
    (data_skb h) (internal_skb h) (data_retrans_count h) (sync_retrans_count h)
    (conf_retrans_count h) v (h5_init_datatrans_flag h) (num_hci_cmd_pkts h) (h5_ready_events h)
    (h5_retransfer_running h) (h5_data_ready_running h) (mallocs h) (trace h).
Definition set_h5_init_datatrans_flag (v : Z) (h : tHCI_H5_CB) : tHCI_H5_CB :=
  mk_h5 (sliding_window_size h) (oof_flow_control h) (dic_type h) (unack h) (rel h) (unrel h)
    (recv_data h) (rxseq_txack h) (rxack h) (use_crc h) (is_txack_req h) (msgq_txseq h)
    (message_crc h) (rx_count h) (rx_state h) (rx_esc_state h) (link_estab_state h) (rx_skb h)
    (data_skb h) (internal_skb h) (data_retrans_count h) (sync_retrans_count h)
    (conf_retrans_count h) (cleanuping h) v (num_hci_cmd_pkts h) (h5_ready_events h)
    (h5_retransfer_running h) (h5_data_ready_running h) (mallocs h) (trace h).
Definition set_num_hci_cmd_pkts (v : Z) (h : tHCI_H5_CB) : tHCI_H5_CB :=
  mk_h5 (sliding_window_size h) (oof_flow_control h) (dic_type h) (unack h) (rel h) (unrel h)
    (recv_data h) (rxseq_txack h) (rxack h) (use_crc h) (is_txack_req h) (msgq_txseq h)
    (message_crc h) (rx_count h) (rx_state h) (rx_esc_state h) (link_estab_state h) (rx_skb h)
    (data_skb h) (internal_skb h) (data_retrans_count h) (sync_retrans_count h)
    (conf_retrans_count h) (cleanuping h) (h5_init_datatrans_flag h) v (h5_ready_events h)
    (h5_retransfer_running h) (h5_data_ready_running h) (mallocs h) (trace h).
Definition set_h5_ready_events (v : Z) (h : tHCI_H5_CB) : tHCI_H5_CB :=
  mk_h5 (sliding_window_size h) (oof_flow_control h) (dic_type h) (unack h) (rel h) (unrel h)
    (recv_data h) (rxseq_txack h) (rxack h) (use_crc h) (is_txack_req h) (msgq_txseq h)
    (message_crc h) (rx_count h) (rx_state h) (rx_esc_state h) (link_estab_state h) (rx_skb h)
    (data_skb h) (internal_skb h) (data_retrans_count h) (sync_retrans_count h)
    (conf_retrans_count h) (cleanuping h) (h5_init_datatrans_flag h) (num_hci_cmd_pkts h) v
    (h5_retransfer_running h) (h5_data_ready_running h) (mallocs h) (trace h).
Definition set_h5_retransfer_running (v : Z) (h : tHCI_H5_CB) : tHCI_H5_CB :=
  mk_h5 (sliding_window_size h) (oof_flow_control h) (dic_type h) (unack h) (rel h) (unrel h)
    (recv_data h) (rxseq_txack h) (rxack h) (use_crc h) (is_txack_req h) (msgq_txseq h)
    (message_crc h) (rx_count h) (rx_state h) (rx_esc_state h) (link_estab_state h) (rx_skb h)
    (data_skb h) (internal_skb h) (data_retrans_count h) (sync_retrans_count h)
    (conf_retrans_count h) (cleanuping h) (h5_init_datatrans_flag h) (num_hci_cmd_pkts h)
    (h5_ready_events h) v (h5_data_ready_running h) (mallocs h) (trace h).
Definition set_h5_data_ready_running (v : Z) (h : tHCI_H5_CB) : tHCI_H5_CB :=
  mk_h5 (sliding_window_size h) (oof_flow_control h) (dic_type h) (unack h) (rel h) (unrel h)
    (recv_data h) (rxseq_txack h) (rxack h) (use_crc h) (is_txack_req h) (msgq_txseq h)
    (message_crc h) (rx_count h) (rx_state h) (rx_esc_state h) (link_estab_state h) (rx_skb h)
    (data_skb h) (internal_skb h) (data_retrans_count h) (sync_retrans_count h)
    (conf_retrans_count h) (cleanuping h) (h5_init_datatrans_flag h) (num_hci_cmd_pkts h)
    (h5_ready_events h) (h5_retransfer_running h) v (mallocs h) (trace h).
Definition set_mallocs (v : list malloc_result) (h : tHCI_H5_CB) : tHCI_H5_CB :=
  mk_h5 (sliding_window_size h) (oof_flow_control h) (dic_type h) (unack h) (rel h) (unrel h)
    (recv_data h) (rxseq_txack h) (rxack h) (use_crc h) (is_txack_req h) (msgq_txseq h)
    (message_crc h) (rx_count h) (rx_state h) (rx_esc_state h) (link_estab_state h) (rx_skb h)
    (data_skb h) (internal_skb h) (data_retrans_count h) (sync_retrans_count h)
    (conf_retrans_count h) (cleanuping h) (h5_init_datatrans_flag h) (num_hci_cmd_pkts h)
    (h5_ready_events h) (h5_retransfer_running h) (h5_data_ready_running h) v (trace h).
Definition set_trace (v : list h5_event) (h : tHCI_H5_CB) : tHCI_H5_CB :=
  mk_h5 (sliding_window_size h) (oof_flow_control h) (dic_type h) (unack h) (rel h) (unrel h)
    (recv_data h) (rxseq_txack h) (rxack h) (use_crc h) (is_txack_req h) (msgq_txseq h)
    (message_crc h) (rx_count h) (rx_state h) (rx_esc_state h) (link_estab_state h) (rx_skb h)
    (data_skb h) (internal_skb h) (data_retrans_count h) (sync_retrans_count h)
    (conf_retrans_count h) (cleanuping h) (h5_init_datatrans_flag h) (num_hci_cmd_pkts h)
    (h5_ready_events h) (h5_retransfer_running h) (h5_data_ready_running h) (mallocs h) v.

Definition emit (e : h5_event) (h : tHCI_H5_CB) : tHCI_H5_CB := set_trace (trace h ++ [e]) h.

(** * Initialisation *)

(** [hci_h5_int_init]: the control block after [memset], with its queues; the
    queue allocations and the creation of the threads succeed. *)
Definition hci_h5_int_init (ms : list malloc_result) : tHCI_H5_CB :=
  {| sliding_window_size := 0; oof_flow_control := 0; dic_type := 0;
     unack := []; rel := []; unrel := []; recv_data := [];
     rxseq_txack := 0; rxack := 0; use_crc := 0; is_txack_req := 0; msgq_txseq := 0;
     message_crc := 0; rx_count := 0;
     rx_state := H5_W4_PKT_DELIMITER; rx_esc_state := H5_ESCSTATE_NOESC;
     link_estab_state := H5_UNINITIALIZED;
     rx_skb := None; data_skb := None; internal_skb := None;
     data_retrans_count := 0; sync_retrans_count := 0; conf_retrans_count := 0;
     cleanuping := 0; h5_init_datatrans_flag := 1; num_hci_cmd_pkts := 1; h5_ready_events := 0;
     h5_retransfer_running := 1; h5_data_ready_running := 1; mallocs := ms; trace := [] |}.

(** * Buffers *)

Definition malloc (h : tHCI_H5_CB) : malloc_result * tHCI_H5_CB :=
  match mallocs h with
  | [] => (Some (fun _ => 0), h)
  | m :: ms => (m, set_mallocs ms h)
  end.

Definition skb_alloc (len : Z) (h : tHCI_H5_CB) : option sk_buff * tHCI_H5_CB :=
  let '(m1, h) := malloc h in
  match m1 with
  | None => (RtbAllocate m1 None len 0, h)
  | Some _ => let '(m2, h) := malloc h in (RtbAllocate m1 m2 len 0, h)
  end.

Definition skb_get_data (skb : sk_buff) : list Z := rtb_data skb.
Definition skb_get_data_length (skb : sk_buff) : Z := Length skb.
Definition skb_put (skb : sk_buff) (len : Z) : option Z * sk_buff := RtbAddTail skb len.
Definition skb_trim (skb : sk_buff) (len : Z) : sk_buff :=
  (RtbRemoveTail skb (u32 (skb_get_data_length skb - len))).2.
Definition skb_pull (skb : sk_buff) (len : Z) : sk_buff := (RtbRemoveHead skb len).2.
Definition skb_get_pkt_type (skb : sk_buff) : Z := PacketType skb.
Definition skb_set_pkt_type (skb : sk_buff) (t : Z) : sk_buff :=
  mk_rtb (Mem skb) (Data skb) (End_ skb) (Tail skb) (Length skb) (HeadRoom skb)
    (RefCount skb) (u8 t) (Handle skb).

(** [memcpy_s(skb_put(skb, n), n, bs, n)] *)
Definition skb_put_copy (bs : list Z) (skb : sk_buff) : sk_buff :=
  let '(p, skb) := skb_put skb (Z.of_nat (length bs)) in
  memcpy_s p (Z.of_nat (length bs)) bs skb.

(** The byte at [skb_get_data(skb)[i]], read from memory whatever [Length] is. *)
Definition skb_byte (skb : sk_buff) (i : Z) : Z := mem_get skb (Data skb + i).

Definition skb_alloc_and_init (PktType : Z) (data : list Z) (h : tHCI_H5_CB)
    : option sk_buff * tHCI_H5_CB :=
  let '(skb, h) := skb_alloc (Z.of_nat (length data)) h in
  match skb with
  | None => (None, h)
  | Some skb => (Some (skb_set_pkt_type (skb_put_copy data skb) PktType), h)
  end.

(** Queues at the level their refinement ([BtSkbuff.RtbQueue]) justifies: the
    list of the queued buffers. *)
Definition skb_queue_head (q : list sk_buff) (skb : sk_buff) : list sk_buff := skb :: q.
Definition skb_queue_tail (q : list sk_buff) (skb : sk_buff) : list sk_buff := q ++ [skb].
Definition skb_dequeue_head (q : list sk_buff) : option sk_buff * list sk_buff :=
  match q with [] => (None, []) | skb :: q => (Some skb, q) end.
Definition skb_dequeue_tail (q : list sk_buff) : option sk_buff * list sk_buff :=
  match last q with None => (None, q) | Some skb => (Some skb, removelast q) end.
Definition skb_queue_get_length (q : list sk_buff) : Z := Z.of_nat (length q).

(** * Facts about buffers used by the protocol proofs *)

Lemma skb_put_copy_put bs skb : skb_put_copy bs skb = put_bytes bs skb.
Proof. done. Qed.

Lemma skb_set_pkt_type_ok skb t :
  wf skb -> wf (skb_set_pkt_type skb t) /\ rtb_data (skb_set_pkt_type skb t) = rtb_data skb /\
  room (skb_set_pkt_type skb t) = room skb /\ PacketType (skb_set_pkt_type skb t) = u8 t.
Proof. done. Qed.

Lemma skb_byte_data skb i :
  wf skb -> 0 <= i < Length skb -> rtb_data skb !! Z.to_nat i = Some (skb_byte skb i).
Proof.
  intros (? & ? & ? & E & _) Hi. unfold rtb_data, skb_byte, mem_get, window.
  rewrite lookup_take_lt, lookup_drop by lia.
  replace (Z.to_nat (Data skb) + Z.to_nat i)%nat with (Z.to_nat (Data skb + i)) by lia.
  destruct (Mem skb !! Z.to_nat (Data skb + i)) eqn:L; [done|].
  apply lookup_ge_None in L. lia.
Qed.

(** An allocation either fails or gives an empty buffer of the requested room;
    only the allocator's state changes. *)
Lemma skb_alloc_ok len h :
  0 <= len < 2 ^ 31 ->
  exists ms, (skb_alloc len h).2 = set_mallocs ms h /\
    (mallocs h = [] -> ms = [] /\ is_Some (skb_alloc len h).1) /\
    (forall skb, (skb_alloc len h).1 = Some skb -> wf skb /\ rtb_data skb = [] /\ room skb = len).
Proof.
  intros Hl. unfold skb_alloc, malloc.
  assert (Id : h = set_mallocs (mallocs h) h) by (by destruct h).
  assert (R : forall j junk skb, RtbAllocate (Some j) (Some junk) len 0 = Some skb ->
    wf skb /\ rtb_data skb = [] /\ room skb = len).
  { intros j junk skb E. destruct (RtbAllocate_ok j junk len 0 skb) as (? & ? & ? & _);
      [unfold DEFAULT_HEADER_SIZE; lia..|done|done]. }
  destruct (mallocs h) as [|[j|] ms] eqn:E; simpl.
  - rewrite E. exists []. split_and!; [done| |intros; by eapply R].
    intros _. split; [done|]. unfold RtbAllocate. eauto.
  - destruct ms as [|m ms]; simpl; [exists []|exists ms]; (split_and!; [done..|]);
      intros skb Hs; [by eapply R|]. destruct m; [by eapply R|done].
  - exists ms. split_and!; done.
Qed.

Lemma skb_alloc_and_init_ok t data h :
  bytes data -> Z.of_nat (length data) < 2 ^ 31 ->
  exists ms, (skb_alloc_and_init t data h).2 = set_mallocs ms h /\
    (mallocs h = [] -> ms = [] /\ is_Some (skb_alloc_and_init t data h).1) /\
    (forall skb, (skb_alloc_and_init t data h).1 = Some skb ->
       wf skb /\ rtb_data skb = data /\ PacketType skb = u8 t).
Proof.
  intros B Hl. destruct (skb_alloc_ok (Z.of_nat (length data)) h) as (ms & E & N & S); [lia|].
  unfold skb_alloc_and_init. destruct (skb_alloc (Z.of_nat (length data)) h) as [[skb|] h1]; simpl in *.
  - exists ms. split_and!; [done|intros; split; [by apply N|eauto]|].
    intros skb' [= <-]. destruct (S skb) as (W & D & R); [done|].
    rewrite skb_put_copy_put. destruct (put_bytes_ok skb data W B) as (W' & D' & _); [lia|].
    rewrite D in D'. split_and!; done.
  - exists ms. split_and!; [done| |done]. intros. by apply N.
Qed.
