(* ===== verification/H5Codec.v ===== *)
(** [hardware/bt/src/hci_h5.c], the wire format of the H5 transport: the CRC, the
    SLIP escape coding, the packet header, and [h5_prepare_pkt], which builds a
    frame.  The decoding state machine is in [H5Recv]. *)

From S2P Require Import Prelude BtSkbuff H5State.

(** * Header fields *)

Definition H5_HDR_SEQ (hdr : list Z) : Z := tbl hdr 0 .& 7.
Definition H5_HDR_ACK (hdr : list Z) : Z := (tbl hdr 0 .>> 3) .& 7.
Definition H5_HDR_CRC (hdr : list Z) : Z := (tbl hdr 0 .>> 6) .& 1.
Definition H5_HDR_RELIABLE (hdr : list Z) : Z := (tbl hdr 0 .>> 7) .& 1.
Definition H5_HDR_PKT_TYPE (hdr : list Z) : Z := tbl hdr 1 .& 15.
Definition H5_HDR_LEN (hdr : list Z) : Z := ((tbl hdr 1 .>> 4) .& 255) + (tbl hdr 2 .<< 4).
Definition H5_HDR_SIZE := 4.

(** * CRC *)

Definition byte_rev_table : list Z :=
  [0; 128; 64; 192; 32; 160; 96; 224; 16; 144; 80; 208; 48; 176; 112; 240; 8; 136; 72; 200;
   40; 168; 104; 232; 24; 152; 88; 216; 56; 184; 120; 248; 4; 132; 68; 196; 36; 164; 100;
   228; 20; 148; 84; 212; 52; 180; 116; 244; 12; 140; 76; 204; 44; 172; 108; 236; 28; 156;
   92; 220; 60; 188; 124; 252; 2; 130; 66; 194; 34; 162; 98; 226; 18; 146; 82; 210; 50; 178;
   114; 242; 10; 138; 74; 202; 42; 170; 106; 234; 26; 154; 90; 218; 58; 186; 122; 250; 6;
   134; 70; 198; 38; 166; 102; 230; 22; 150; 86; 214; 54; 182; 118; 246; 14; 142; 78; 206;
   46; 174; 110; 238; 30; 158; 94; 222; 62; 190; 126; 254; 1; 129; 65; 193; 33; 161; 97;
   225; 17; 145; 81; 209; 49; 177; 113; 241; 9; 137; 73; 201; 41; 169; 105; 233; 25; 153;
   89; 217; 57; 185; 121; 249; 5; 133; 69; 197; 37; 165; 101; 229; 21; 149; 85; 213; 53;
   181; 117; 245; 13; 141; 77; 205; 45; 173; 109; 237; 29; 157; 93; 221; 61; 189; 125; 253;
   3; 131; 67; 195; 35; 163; 99; 227; 19; 147; 83; 211; 51; 179; 115; 243; 11; 139; 75; 203;
   43; 171; 107; 235; 27; 155; 91; 219; 59; 187; 123; 251; 7; 135; 71; 199; 39; 167; 103;
   231; 23; 151; 87; 215; 55; 183; 119; 247; 15; 143; 79; 207; 47; 175; 111; 239; 31; 159;
   95; 223; 63; 191; 127; 255].

Definition bit_rev8 (b : Z) : Z := tbl byte_rev_table b.
Definition bit_rev16 (x : Z) : Z := u16 ((bit_rev8 (x .& 255) .<< 8) .| bit_rev8 (u8 (x .>> 8))).

Definition crc_table : list Z :=
  [0; 4225; 8450; 12675; 16900; 21125; 25350; 29575; 33800; 38025; 42250; 46475; 50700;
   54925; 59150; 63375].

(** [H5_CRC_INIT] *)
Definition H5_CRC_INIT : Z := 65535.

Definition h5_crc_update (crc d : Z) : Z :=
  let reg := crc in
  let reg := (reg .>> 4) .^ tbl crc_table ((reg .^ d) .& 15) in
  (reg .>> 4) .^ tbl crc_table ((reg .^ (d .>> 4)) .& 15).

(** [data[1] + (data[0] << 8)] for the last two bytes of the buffer. *)
Definition h5_get_crc (rx_skb : sk_buff) : Z :=
  let data := Data rx_skb + skb_get_data_length rx_skb - 2 in
  u16 (mem_get rx_skb (data + 1) + (mem_get rx_skb data .<< 8)).

(** * SLIP *)

Definition h5_slip_msgdelim (skb : sk_buff) : sk_buff := skb_put_copy [192] skb.

(** The escape sequence of a byte; [oof] is [rtk_h5.oof_flow_control]. *)
Definition slip_code (oof b : Z) : list Z :=
  if b =? 192 then [219; 220]
  else if b =? 219 then [219; 221]
  else if b =? 17 then (if truthy oof then [219; 222] else [b])
  else if b =? 19 then (if truthy oof then [219; 223] else [b])
  else [b].

Definition h5_slip_one_byte (oof : Z) (skb : sk_buff) (unencode_form : Z) : sk_buff :=
  skb_put_copy (slip_code oof unencode_form) skb.

(** * Frames *)

(** The reliability the packet type asks for; [None] for an unknown type. *)
Definition pkt_rel (pkt_type : Z) : option Z :=
  if decide (pkt_type ∈ [HCI_ACLDATA_PKT; HCI_COMMAND_PKT; HCI_EVENT_PKT]) then Some H5_RELIABLE_PKT
  else if decide (pkt_type ∈ [H5_ACK_PKT; H5_VDRSPEC_PKT; H5_LINK_CTL_PKT; HCI_SCODATA_PKT])
  then Some H5_UNRELIABLE_PKT
  else None.

(** One iteration of the header and payload loops. *)
Definition put_one (use_crc oof : Z) (st : sk_buff * Z) (b : Z) : sk_buff * Z :=
  let '(nskb, crc) := st in
  (h5_slip_one_byte oof nskb b, if truthy use_crc then h5_crc_update crc b else crc).

(** The CRC at the end of the frame. *)
Definition put_crc (oof : Z) (nskb : sk_buff) (crc : Z) : sk_buff :=
  let crc := bit_rev16 crc in
  h5_slip_one_byte oof (h5_slip_one_byte oof nskb (u8 ((crc .>> 8) .& 255))) (u8 (crc .& 255)).

Definition h5_prepare_pkt (h5 : tHCI_H5_CB) (data : list Z) (len pkt_type : Z)
    : option sk_buff * tHCI_H5_CB :=
  match pkt_rel pkt_type with
  | None => (None, h5)
  | Some rel =>
      let '(nskb, h5) := skb_alloc ((len + 6) * 2 + 2) h5 in
      match nskb with
      | None => (None, h5)
      | Some nskb =>
          let nskb := h5_slip_msgdelim nskb in
          let hdr0 := u8 (rxseq_txack h5 .<< 3) in
          let h5 := set_is_txack_req 0 h5 in
          let '(hdr0, h5) :=
            if rel =? H5_RELIABLE_PKT then
              (u8 (hdr0 .| (128 + msgq_txseq h5)),
               set_msgq_txseq (u8 (msgq_txseq h5 + 1) .& 7) h5)
            else (hdr0, h5) in
          let hdr0 := if truthy (use_crc h5) then u8 (hdr0 .| 64) else hdr0 in
          let hdr1 := u8 (((len .<< 4) .& 255) .| pkt_type) in
          let hdr2 := u8 (len .>> 4) in
          let hdr3 := not8 (hdr0 + hdr1 + hdr2) in
          let oof := oof_flow_control h5 in
          let st := foldl (put_one (use_crc h5) oof) (nskb, H5_CRC_INIT) [hdr0; hdr1; hdr2; hdr3] in
          let '(nskb, crc) := foldl (put_one (use_crc h5) oof) st (tbl data <$> seqZ 0 len) in
          let nskb := if truthy (use_crc h5) then put_crc oof nskb crc else nskb in
          (Some (h5_slip_msgdelim nskb), h5)
      end
  end.

(** * CRC: the table-driven update is the bit-serial CRC-16/CCITT *)

(** One step of the reflected polynomial [x^16 + x^12 + x^5 + 1]. *)
Definition crc_bit (r : Z) : Z := (r .>> 1) .^ (if Z.odd r then 33800 else 0).
Definition crc_byte (crc d : Z) : Z := Nat.iter 8 crc_bit (crc .^ d).

Lemma crc_bit_shift a b k : 0 <= k -> crc_bit (a .^ (b .<< (k + 1))) = crc_bit a .^ (b .<< k).
Proof.
  intros Hk. unfold crc_bit.
  assert (O : Z.odd (a .^ (b .<< (k + 1))) = Z.odd a).
  { rewrite <- !Z.bit0_odd, Z.lxor_spec, Z.shiftl_spec_low by lia. apply xorb_false_r. }
  rewrite O, Z.shiftr_lxor. rewrite (Z.shiftr_shiftl_l b) by lia.
  replace (k + 1 - 1) with k by lia. rewrite !Z.lxor_assoc. f_equal. apply Z.lxor_comm.
Qed.

Lemma split_nibble x : 0 <= x -> x = (x .& 15) .^ ((x .>> 4) .<< 4).
Proof.
  intros Hx. apply Z.bits_inj'. intros n Hn. rewrite Z.lxor_spec, Z.land_spec, Z.shiftl_spec by lia.
  change 15 with (Z.ones 4). rewrite Z.testbit_ones_nonneg by lia.
  destruct (Z.ltb_spec n 4).
  - rewrite (Z.testbit_neg_r _ (n - 4)), andb_true_r, xorb_false_r by lia. done.
  - rewrite Z.shiftr_spec, andb_false_r by lia. simpl. f_equal. lia.
Qed.

Lemma crc_nibble x : 0 <= x -> Nat.iter 4 crc_bit x = (x .>> 4) .^ tbl crc_table (x .& 15).
Proof.
  intros Hx. rewrite (split_nibble x Hx) at 1.
  assert (E : forall a b, Nat.iter 4 crc_bit (a .^ (b .<< 4)) = Nat.iter 4 crc_bit a .^ b).
  { intros a b. simpl. change 4 with (3 + 1). rewrite crc_bit_shift by lia.
    change 3 with (2 + 1). rewrite crc_bit_shift by lia. change 2 with (1 + 1).
    rewrite crc_bit_shift by lia. change 1 with (0 + 1) at 1. rewrite crc_bit_shift by lia.
    rewrite Z.shiftl_0_r. done. }
  assert (T : Nat.iter 4 crc_bit (x .& 15) = tbl crc_table (x .& 15)).
  { assert (R : 0 <= x .& 15 < 16) by (rewrite land_15_mod; apply Z.mod_pos_bound; lia).
    revert R. generalize (x .& 15). intros y Hy.
    apply Z.eqb_eq. revert y Hy. apply range_cases. vm_compute. reflexivity. }
  rewrite E, T. apply Z.lxor_comm.
Qed.

Lemma lxor_nonneg a b : 0 <= a -> 0 <= b -> 0 <= a .^ b.
Proof. intros. rewrite Z.lxor_nonneg. lia. Qed.

Lemma crc_table_range i : 0 <= i < 16 -> 0 <= tbl crc_table i < 65536.
Proof.
  intros Hi. cut ((0 <=? tbl crc_table i) && (tbl crc_table i <? 65536) = true); [lia|].
  revert i Hi. apply range_cases. vm_compute. reflexivity.
Qed.

Lemma nibble_range x : 0 <= x .& 15 < 16.
Proof. rewrite land_15_mod. apply Z.mod_pos_bound. lia. Qed.

(** The two-nibble table update computes the bit-serial CRC of the byte. *)
Theorem h5_crc_update_bitwise crc d :
  0 <= crc -> is_byte d -> h5_crc_update crc d = crc_byte crc d.
Proof.
  intros Hc Hd. unfold h5_crc_update, crc_byte. unfold is_byte in Hd.
  change 8%nat with (4 + 4)%nat. rewrite Nat.iter_add.
  rewrite (crc_nibble (crc .^ d)) by (apply lxor_nonneg; lia).
  set (t := tbl crc_table ((crc .^ d) .& 15)).
  assert (0 <= t) by (apply crc_table_range, nibble_range).
  set (r := (crc .>> 4) .^ t).
  assert (E : ((crc .^ d) .>> 4) .^ t = r .^ (d .>> 4)).
  { unfold r. rewrite Z.shiftr_lxor, !Z.lxor_assoc. f_equal. apply Z.lxor_comm. }
  rewrite E, crc_nibble.
  - rewrite (Z.shiftr_lxor r), Z.shiftr_shiftr by lia.
    replace (d .>> (4 + 4)) with 0; [by rewrite Z.lxor_0_r|].
    rewrite Z.shiftr_div_pow2 by lia. symmetry. apply Z.div_small. lia.
  - repeat apply lxor_nonneg; try done; apply Z.shiftr_nonneg; lia.
Qed.

Lemma lxor_lt a b n : 0 <= n -> 0 <= a < 2 ^ n -> 0 <= b < 2 ^ n -> 0 <= a .^ b < 2 ^ n.
Proof.
  intros Hn Ha Hb. split; [apply lxor_nonneg; lia|].
  destruct (Z.eq_dec (a .^ b) 0) as [->|Hz]; [lia|].
  apply Z.log2_lt_pow2; [pose proof (lxor_nonneg a b); lia|].
  eapply Z.le_lt_trans; [apply Z.log2_lxor; lia|].
  destruct (Z.eq_dec a 0) as [->|], (Z.eq_dec b 0) as [->|]; simpl.
  - done.
  - apply Z.max_lub_lt; [destruct (Z.eq_dec n 0); subst; simpl in *; lia|apply Z.log2_lt_pow2; lia].
  - apply Z.max_lub_lt; [apply Z.log2_lt_pow2; lia|destruct (Z.eq_dec n 0); subst; simpl in *; lia].
  - apply Z.max_lub_lt; apply Z.log2_lt_pow2; lia.
Qed.

Lemma h5_crc_update_range crc d : 0 <= crc < 65536 -> 0 <= h5_crc_update crc d < 65536.
Proof.
  intros Hc. unfold h5_crc_update.
  assert (S : forall r, 0 <= r < 65536 -> 0 <= r .>> 4 < 65536).
  { intros r Hr. rewrite Z.shiftr_div_pow2 by lia. pose proof (Z.div_pos r (2 ^ 4)).
    pose proof (Z.div_le_upper_bound r (2 ^ 4) r). lia. }
  change 65536 with (2 ^ 16) in *.
  repeat (apply lxor_lt; [lia| |apply crc_table_range, nibble_range]; apply S). done.
Qed.

Lemma crc_fold_range bs crc :
  0 <= crc < 65536 -> 0 <= foldl h5_crc_update crc bs < 65536.
Proof. revert crc. induction bs; simpl; intros; [done|]. by apply IHbs, h5_crc_update_range. Qed.

(** * Bit reversal *)

Lemma bit_rev8_range b : is_byte b -> is_byte (bit_rev8 b).
Proof.
  intros H. cut ((0 <=? bit_rev8 b) && (bit_rev8 b <? 256) = true); [unfold is_byte; lia|].
  revert b H. apply byte_cases. vm_compute. reflexivity.
Qed.

Lemma bit_rev8_testbit b i :
  is_byte b -> 0 <= i < 8 -> Z.testbit (bit_rev8 b) i = Z.testbit b (7 - i).
Proof.
  intros Hb Hi. apply eqb_prop. revert i Hi. apply range_cases. revert b Hb.
  apply byte_cases. vm_compute. reflexivity.
Qed.

Lemma byte_bits_high b i : is_byte b -> 8 <= i -> Z.testbit b i = false.
Proof.
  intros Hb Hi. rewrite <- (u8_small b Hb). unfold u8. apply Z.mod_pow2_bits_high. lia.
Qed.

Lemma u8_shiftr8 x : 0 <= x < 65536 -> u8 (x .>> 8) = x .>> 8.
Proof.
  intros. apply u8_small. unfold is_byte. rewrite Z.shiftr_div_pow2 by lia.
  split; [apply Z.div_pos; lia|apply Z.div_lt_upper_bound; lia].
Qed.

(** [bit_rev16] reverses the 16 bits of its argument, so it is its own
    inverse: the CRC survives the reversal at the sender and at the receiver. *)
Theorem bit_rev16_reverses x :
  0 <= x < 65536 ->
  0 <= bit_rev16 x < 65536 /\
  (forall i, 0 <= i < 16 -> Z.testbit (bit_rev16 x) i = Z.testbit x (15 - i)) /\
  bit_rev16 (bit_rev16 x) = x.
Proof.
  assert (T : forall x, 0 <= x < 65536 ->
    forall i, 0 <= i < 16 -> Z.testbit (bit_rev16 x) i = Z.testbit x (15 - i)).
  { clear x. intros x Hx i Hi. unfold bit_rev16, u16. rewrite Z.mod_pow2_bits_low by lia.
    rewrite Z.lor_spec, land_255_u8, u8_shiftr8, Z.shiftl_spec by lia.
    assert (B : is_byte (x .>> 8)) by (rewrite <- u8_shiftr8 by lia; apply u8_range).
    destruct (Z.lt_ge_cases i 8).
    - rewrite Z.testbit_neg_r by lia. simpl. rewrite bit_rev8_testbit by (done || lia).
      rewrite Z.shiftr_spec by lia. f_equal. lia.
    - rewrite (byte_bits_high (bit_rev8 (x .>> 8))) by (by apply bit_rev8_range || lia).
      rewrite orb_false_r, bit_rev8_testbit by (apply u8_range || lia).
      unfold u8. rewrite Z.mod_pow2_bits_low by lia. f_equal. lia. }
  assert (R : forall y, 0 <= bit_rev16 y < 65536) by (intros; apply u16_range).
  intros Hx. split; [done|]. split; [by apply T|].
  apply Z.bits_inj'. intros n Hn. destruct (Z.lt_ge_cases n 16).
  - rewrite !T by (done || lia). f_equal. lia.
  - assert (H16 : forall y, 0 <= y < 65536 -> Z.testbit y n = false).
    { intros y Hy. rewrite <- (u16_small y Hy). apply Z.mod_pow2_bits_high. lia. }
    rewrite !H16; done.
Qed.

(** * The escape code *)

(** The escaped form of a byte string. *)
Definition slip_all (oof : Z) (bs : list Z) : list Z := concat (slip_code oof <$> bs).

Lemma slip_all_app oof a b : slip_all oof (a ++ b) = slip_all oof a ++ slip_all oof b.
Proof. unfold slip_all. rewrite fmap_app. apply concat_app. Qed.

Lemma slip_all_cons oof b bs : slip_all oof (b :: bs) = slip_code oof b ++ slip_all oof bs.
Proof. done. Qed.

Lemma slip_code_ok oof b :
  is_byte b -> bytes (slip_code oof b) /\ (192 ∉ slip_code oof b) /\
  (1 <= length (slip_code oof b) <= 2)%nat.
Proof.
  unfold slip_code, is_byte. intros Hb. bdestruct; try destruct (truthy oof);
    (split_and!; [repeat constructor; lia|set_solver by lia|simpl; lia..]).
Qed.

Lemma slip_all_bytes oof bs : bytes bs -> bytes (slip_all oof bs) /\ (192 ∉ slip_all oof bs).
Proof.
  induction 1 as [|b bs Hb _ [IH1 IH2]]; [by split; [|set_solver]|].
  rewrite slip_all_cons. destruct (slip_code_ok oof b Hb) as (? & ? & _).
  split; [by apply Forall_app|set_solver].
Qed.

Lemma slip_all_length oof bs :
  bytes bs -> (length bs <= length (slip_all oof bs) <= 2 * length bs)%nat.
Proof.
  induction 1 as [|b bs Hb _ IH]; [simpl; lia|].
  rewrite slip_all_cons, length_app. simpl. destruct (slip_code_ok oof b Hb) as (_ & _ & ?). lia.
Qed.

(** * Building a frame *)

(** [skb'] is [skb] with [bs] added at its tail. *)
Definition appended (skb skb' : sk_buff) (bs : list Z) : Prop :=
  wf skb' /\ rtb_data skb' = rtb_data skb ++ bs /\
  room skb' = room skb - Z.of_nat (length bs).

Lemma appended_trans s1 s2 s3 a b :
  appended s1 s2 a -> appended s2 s3 b -> appended s1 s3 (a ++ b).
Proof.
  intros (_ & D1 & R1) (W & D2 & R2). split_and!; [done| |].
  - by rewrite D2, D1, app_assoc.
  - rewrite length_app. lia.
Qed.

Lemma skb_put_copy_ok skb bs :
  wf skb -> bytes bs -> Z.of_nat (length bs) <= room skb ->
  appended skb (skb_put_copy bs skb) bs.
Proof.
  intros W B R. rewrite skb_put_copy_put.
  destruct (put_bytes_ok skb bs W B R) as (? & ? & ? & _). done.
Qed.

Lemma h5_slip_one_byte_ok oof skb b :
  wf skb -> is_byte b -> 2 <= room skb ->
  appended skb (h5_slip_one_byte oof skb b) (slip_code oof b).
Proof.
  intros W B R. destruct (slip_code_ok oof b B) as (? & _ & ?). apply skb_put_copy_ok; [done..|lia].
Qed.

Definition crc_of (bs : list Z) (crc : Z) : Z := foldl h5_crc_update crc bs.

Lemma put_one_fold uc oof bs skb crc :
  wf skb -> bytes bs -> 2 * Z.of_nat (length bs) <= room skb ->
  let '(skb', crc') := foldl (put_one uc oof) (skb, crc) bs in
  appended skb skb' (slip_all oof bs) /\ crc' = if truthy uc then crc_of bs crc else crc.
Proof.
  intros W B. revert skb crc W. induction B as [|b bs Hb Hbs IH]; intros skb crc W R; simpl in *.
  - split; [|by destruct (truthy uc)]. split_and!; [done|by rewrite app_nil_r|simpl; lia].
  - pose proof (h5_slip_one_byte_ok oof skb b W Hb) as A.
    destruct A as (W1 & D1 & R1); [lia|].
    pose proof (slip_code_ok oof b Hb) as (_ & _ & L).
    specialize (IH (h5_slip_one_byte oof skb b) (if truthy uc then h5_crc_update crc b else crc) W1).
    destruct (foldl _ _ bs) as [skb' crc']. destruct IH as [A C]; [lia|].
    split; [by eapply appended_trans|]. rewrite C. by destruct (truthy uc).
Qed.

(** The header the sender writes. *)
Definition tx_hdr (h5 : tHCI_H5_CB) (rel len pkt_type : Z) : list Z :=
  let hdr0 := u8 (rxseq_txack h5 .<< 3) in
  let hdr0 := if rel =? H5_RELIABLE_PKT then u8 (hdr0 .| (128 + msgq_txseq h5)) else hdr0 in
  let hdr0 := if truthy (use_crc h5) then u8 (hdr0 .| 64) else hdr0 in
  let hdr1 := u8 (((len .<< 4) .& 255) .| pkt_type) in
  let hdr2 := u8 (len .>> 4) in
  [hdr0; hdr1; hdr2; not8 (hdr0 + hdr1 + hdr2)].

(** The trailer: the bit-reversed CRC of what precedes, when the link uses it. *)
Definition tx_crc (uc : Z) (bs : list Z) : list Z :=
  if truthy uc then
    let crc := bit_rev16 (crc_of bs H5_CRC_INIT) in [u8 ((crc .>> 8) .& 255); u8 (crc .& 255)]
  else [].

(** The bytes of the frame before they are escaped. *)
Definition tx_body (h5 : tHCI_H5_CB) (rel pkt_type : Z) (data : list Z) : list Z :=
  let m := tx_hdr h5 rel (Z.of_nat (length data)) pkt_type ++ data in m ++ tx_crc (use_crc h5) m.

(** The control block after a frame was built. *)
Definition tx_next (rel : Z) (h5 : tHCI_H5_CB) : tHCI_H5_CB :=
  let h5 := set_is_txack_req 0 h5 in
  if rel =? H5_RELIABLE_PKT then set_msgq_txseq (u8 (msgq_txseq h5 + 1) .& 7) h5 else h5.

Lemma tx_hdr_bytes h5 rel len t : bytes (tx_hdr h5 rel len t).
Proof.
  unfold tx_hdr, not8. apply Forall_cons; split; [|repeat constructor; apply u8_range].
  destruct (truthy _), (_ =? _); apply u8_range.
Qed.

Lemma tx_crc_bytes uc bs : bytes (tx_crc uc bs).
Proof. unfold tx_crc. destruct (truthy uc); repeat constructor; apply u8_range. Qed.

Lemma tx_body_bytes h5 rel t data : bytes data -> bytes (tx_body h5 rel t data).
Proof.
  intros. unfold tx_body. apply Forall_app; split; [|apply tx_crc_bytes].
  apply Forall_app; split; [apply tx_hdr_bytes|done].
Qed.

Lemma pkt_rel_cases t rel : pkt_rel t = Some rel ->
  (rel = H5_RELIABLE_PKT \/ rel = H5_UNRELIABLE_PKT) /\ 0 <= t < 16.
Proof.
  unfold pkt_rel, HCI_ACLDATA_PKT, HCI_COMMAND_PKT, HCI_EVENT_PKT, H5_ACK_PKT, H5_VDRSPEC_PKT,
    H5_LINK_CTL_PKT, HCI_SCODATA_PKT. intros H.
  repeat case_decide; simplify_eq; (split; [auto|]);
    repeat match goal with H : _ ∈ _ :: _ |- _ => apply elem_of_cons in H as [->|H]; [lia|] end;
    set_solver.
Qed.

Lemma fmap_tbl_seqZ data : tbl data <$> seqZ 0 (Z.of_nat (length data)) = data.
Proof.
  apply list_eq. intros i. rewrite list_lookup_fmap. destruct (decide (i < length data)%nat).
  - rewrite lookup_seqZ_lt by lia. simpl. unfold tbl. rewrite Z.add_0_l, Nat2Z.id.
    destruct (data !! i) eqn:E; [done|]. apply lookup_ge_None in E. lia.
  - rewrite lookup_seqZ_ge by lia. symmetry. apply lookup_ge_None. lia.
Qed.

Lemma put_crc_ok oof skb crc :
  wf skb -> 4 <= room skb ->
  let c := bit_rev16 crc in
  appended skb (put_crc oof skb crc) (slip_all oof [u8 ((c .>> 8) .& 255); u8 (c .& 255)]).
Proof.
  intros W R c. unfold put_crc. fold c. rewrite !slip_all_cons. unfold slip_all; simpl.
  destruct (slip_code_ok oof (u8 ((c .>> 8) .& 255)) (u8_range _)) as (_ & _ & ?).
  destruct (h5_slip_one_byte_ok oof skb (u8 ((c .>> 8) .& 255)) W (u8_range _)) as (W3 & D3 & R3);
    [lia|].
  rewrite app_nil_r. eapply appended_trans; [split_and!; done|].
  apply h5_slip_one_byte_ok; [done|apply u8_range|lia].
Qed.

(** The writes of [h5_prepare_pkt] into the buffer it allocated. *)
Definition put_frame (uc oof : Z) (hdr data : list Z) (nskb : sk_buff) : sk_buff :=
  let '(nskb, crc) :=
    foldl (put_one uc oof) (h5_slip_msgdelim nskb, H5_CRC_INIT) (hdr ++ data) in
  h5_slip_msgdelim (if truthy uc then put_crc oof nskb crc else nskb).

Lemma put_frame_ok uc oof hdr data skb :
  wf skb -> rtb_data skb = [] -> bytes (hdr ++ data) ->
  2 * Z.of_nat (length (hdr ++ data)) + 6 <= room skb ->
  wf (put_frame uc oof hdr data skb) /\
  rtb_data (put_frame uc oof hdr data skb) =
    192 :: slip_all oof ((hdr ++ data) ++ tx_crc uc (hdr ++ data)) ++ [192].
Proof.
  intros W D B R. set (m := hdr ++ data) in *.
  assert (Bd : bytes [192]) by (by repeat constructor).
  assert (A0 : appended skb (h5_slip_msgdelim skb) [192]) by (apply skb_put_copy_ok; simpl; done || lia).
  destruct A0 as (W0 & D0 & R0). rewrite D in D0. simpl in R0. unfold put_frame. fold m.
  pose proof (put_one_fold uc oof m _ H5_CRC_INIT W0 B) as F.
  destruct (foldl _ _ m) as [nskb crc]. destruct F as [(W1 & D1 & R1) C]; [lia|].
  pose proof (slip_all_length oof m B) as Ls.
  set (n2 := if truthy uc then _ else nskb).
  assert (A2 : appended nskb n2 (slip_all oof (tx_crc uc m))).
  { unfold n2, tx_crc. destruct (truthy uc); [subst crc; apply put_crc_ok; [done|lia]|].
    split_and!; [done|by rewrite app_nil_r|simpl; lia]. }
  destruct A2 as (W2 & D2 & R2).
  assert (Lc : (length (slip_all oof (tx_crc uc m)) <= 4)%nat).
  { pose proof (slip_all_length oof _ (tx_crc_bytes uc m)).
    assert (length (tx_crc uc m) <= 2)%nat by (unfold tx_crc; destruct (truthy uc); simpl; lia). lia. }
  destruct (skb_put_copy_ok n2 [192] W2 Bd) as (W3 & D3 & _); [simpl; lia|].
  split; [done|]. unfold h5_slip_msgdelim at 1. rewrite D3, D2, D1, D0, slip_all_app, <- !app_assoc.
  done.
Qed.

Lemma h5_prepare_pkt_unfold h5 data t rel :
  pkt_rel t = Some rel ->
  let len := Z.of_nat (length data) in
  h5_prepare_pkt h5 data len t =
    match skb_alloc ((len + 6) * 2 + 2) h5 with
    | (None, h5') => (None, h5')
    | (Some nskb, h5') =>
        (Some (put_frame (use_crc h5') (oof_flow_control h5') (tx_hdr h5' rel len t) data nskb),
         tx_next rel h5')
    end.
Proof.
  intros Hr len. unfold h5_prepare_pkt. rewrite Hr. destruct (skb_alloc _ h5) as [[skb|] h1]; [|done].
  unfold len. rewrite fmap_tbl_seqZ. fold len. unfold tx_next, put_frame, tx_hdr.
  rewrite foldl_app. destruct (rel =? H5_RELIABLE_PKT); by destruct (foldl _ _ data).
Qed.

(** What a call of [h5_prepare_pkt] does to its buffer and to the control block. *)
Lemma h5_prepare_pkt_ok h5 data t rel :
  pkt_rel t = Some rel -> bytes data -> Z.of_nat (length data) <= 4095 ->
  exists ms,
    (mallocs h5 = [] -> ms = []) /\
    match h5_prepare_pkt h5 data (Z.of_nat (length data)) t with
    | (None, h5') => h5' = set_mallocs ms h5 /\ mallocs h5 <> []
    | (Some nskb, h5') =>
        h5' = tx_next rel (set_mallocs ms h5) /\ wf nskb /\
        rtb_data nskb =
          192 :: slip_all (oof_flow_control h5) (tx_body h5 rel t data) ++ [192]
    end.
Proof.
  intros Hr B L. destruct (skb_alloc_ok ((Z.of_nat (length data) + 6) * 2 + 2) h5) as (ms & E & N & S);
    [lia|].
  exists ms. split; [by intros; apply N|]. rewrite (h5_prepare_pkt_unfold _ _ _ _ Hr).
  destruct (skb_alloc _ h5) as [[skb|] h1]; simpl in E, N, S; subst h1.
  2: { split; [done|]. intros M. destruct (N M) as [_ [? ?]]. congruence. }
  destruct (S skb) as (W & D & R); [done|]. split; [done|].
  apply put_frame_ok; [done..| |].
  - apply Forall_app; split; [apply tx_hdr_bytes|done].
  - rewrite length_app, R. simpl. lia.
Qed.

(** The header reads back as the sender meant it, and its checksum is the one
    the receiver computes. *)
Definition hdr_ok (h5 : tHCI_H5_CB) (rel len t : Z) (hdr : list Z) : Prop :=
  H5_HDR_SEQ hdr = (if rel =? H5_RELIABLE_PKT then msgq_txseq h5 else 0) /\
  H5_HDR_ACK hdr = rxseq_txack h5 /\
  H5_HDR_CRC hdr = b2z (truthy (use_crc h5)) /\
  H5_HDR_RELIABLE hdr = rel /\
  H5_HDR_PKT_TYPE hdr = t /\
  H5_HDR_LEN hdr = len /\
  tbl hdr 3 = 255 .& not8 (tbl hdr 0 + tbl hdr 1 + tbl hdr 2).

Definition hdr0_check (ack seq rel : Z) (crc : bool) : bool :=
  let h := u8 (ack .<< 3) in
  let h := if rel =? H5_RELIABLE_PKT then u8 (h .| (128 + seq)) else h in
  let h := if crc then u8 (h .| 64) else h in
  (h .& 7 =? (if rel =? H5_RELIABLE_PKT then seq else 0)) && ((h .>> 3) .& 7 =? ack) &&
  ((h .>> 6) .& 1 =? b2z crc) && ((h .>> 7) .& 1 =? rel).

Lemma hdr0_fields ack seq rel crc :
  0 <= ack < 8 -> 0 <= seq < 8 -> 0 <= rel < 2 -> hdr0_check ack seq rel crc = true.
Proof.
  intros Ha Hs Hr. revert ack Ha. apply range_cases. revert seq Hs.
  apply (range_cases 8 (fun seq => forallb (fun a => hdr0_check a seq rel crc) (seqZ 0 8))).
  revert rel Hr.
  apply (range_cases 2 (fun rel => forallb (fun seq =>
    forallb (fun a => hdr0_check a seq rel crc) (seqZ 0 8)) (seqZ 0 8))).
  destruct crc; vm_compute; reflexivity.
Qed.

Definition hdr12_check (len t : Z) : bool :=
  let h1 := u8 (((len .<< 4) .& 255) .| t) in
  (h1 .& 15 =? t) && (((h1 .>> 4) .& 255) + (u8 (len .>> 4) .<< 4) =? len).

Lemma hdr1_fields n t :
  0 <= n < 16 -> 0 <= t < 16 ->
  (u8 ((n .<< 4) .| t) .& 15 =? t) && ((u8 ((n .<< 4) .| t) .>> 4) .& 255 =? n) = true.
Proof.
  intros Hn Ht. revert n Hn. apply range_cases. revert t Ht.
  apply (range_cases 16 (fun t => forallb (fun n =>
    (u8 ((n .<< 4) .| t) .& 15 =? t) && ((u8 ((n .<< 4) .| t) .>> 4) .& 255 =? n)) (seqZ 0 16))).
  vm_compute. reflexivity.
Qed.

Lemma hdr12_fields len t : 0 <= len < 4096 -> 0 <= t < 16 -> hdr12_check len t = true.
Proof.
  intros Hl Ht. unfold hdr12_check.
  pose proof (Z.mod_pos_bound len 16 ltac:(lia)) as Hm. pose proof (Z.div_mod len 16 ltac:(lia)) as Hd.
  assert (E : (len .<< 4) .& 255 = (len mod 16) .<< 4).
  { rewrite land_255_u8. unfold u8. rewrite !Z.shiftl_mul_pow2 by lia. change (2 ^ 8) with (16 * 2 ^ 4).
    by rewrite Z.mul_mod_distr_r by lia. }
  rewrite E. pose proof (hdr1_fields _ _ Hm Ht) as F. rewrite andb_true_iff, !Z.eqb_eq in F.
  destruct F as [F1 F2]. rewrite F1, F2, Z.eqb_refl. apply Z.eqb_eq.
  rewrite (Z.shiftr_div_pow2 len) by lia. change (2 ^ 4) with 16.
  rewrite u8_small by (unfold is_byte; split; [apply Z.div_pos|apply Z.div_lt_upper_bound]; lia).
  rewrite Z.shiftl_mul_pow2 by lia. lia.
Qed.

Lemma land_255_not8 x : 255 .& not8 x = not8 x.
Proof. rewrite Z.land_comm, land_255_u8. apply u8_small, u8_range. Qed.

Lemma tx_hdr_ok h5 rel len t :
  0 <= rxseq_txack h5 < 8 -> 0 <= msgq_txseq h5 < 8 -> 0 <= len < 4096 ->
  pkt_rel t = Some rel -> hdr_ok h5 rel len t (tx_hdr h5 rel len t).
Proof.
  intros Ha Hs Hl Hr. destruct (pkt_rel_cases t rel Hr) as [Cr Ct].
  assert (Rr : 0 <= rel < 2) by (unfold H5_RELIABLE_PKT, H5_UNRELIABLE_PKT in Cr; lia).
  pose proof (hdr0_fields _ _ _ (truthy (use_crc h5)) Ha Hs Rr) as F.
  pose proof (hdr12_fields _ _ Hl Ct) as G.
  unfold hdr0_check in F. unfold hdr12_check in G.
  rewrite !andb_true_iff, !Z.eqb_eq in F. rewrite !andb_true_iff, !Z.eqb_eq in G.
  destruct F as [[[? ?] ?] ?], G as [? ?].
  unfold hdr_ok. split_and!; try done. unfold tx_hdr, tbl; simpl.
  by rewrite land_255_not8.
Qed.

(** [h5_prepare_pkt] refuses an unknown packet type without touching the
    transport, gives up only when the allocation fails, and otherwise builds
    between two delimiters the escaped header, payload and CRC; the frame holds
    no other delimiter and always fits the buffer, its header decodes to the
    sequence number, acknowledgement, type and length the sender meant, and the
    sequence number advances modulo 8 exactly for reliable packets. *)
Theorem prepare_pkt_frame h5 data t :
  bytes data -> Z.of_nat (length data) <= 4095 ->
  0 <= rxseq_txack h5 < 8 -> 0 <= msgq_txseq h5 < 8 ->
  match h5_prepare_pkt h5 data (Z.of_nat (length data)) t, pkt_rel t with
  | (None, h5'), None => h5' = h5
  | (Some _, _), None => False
  | (None, h5'), Some _ => mallocs h5 <> [] /\ exists ms, h5' = set_mallocs ms h5
  | (Some nskb, h5'), Some rel =>
      let hdr := tx_hdr h5 rel (Z.of_nat (length data)) t in
      let body := (hdr ++ data) ++ tx_crc (use_crc h5) (hdr ++ data) in
      rtb_data nskb = 192 :: slip_all (oof_flow_control h5) body ++ [192] /\
      (192 ∉ slip_all (oof_flow_control h5) body) /\
      hdr_ok h5 rel (Z.of_nat (length data)) t hdr /\
      is_txack_req h5' = 0 /\
      msgq_txseq h5' = (msgq_txseq h5 + rel) mod 8 /\
      (exists ms, h5' = set_mallocs ms (tx_next rel h5))
  end.
Proof.
  intros B L Ha Hs. destruct (pkt_rel t) as [rel|] eqn:Hr.
  2: { unfold h5_prepare_pkt. by rewrite Hr. }
  destruct (h5_prepare_pkt_ok h5 data t rel Hr B L) as (ms & _ & P).
  destruct (h5_prepare_pkt h5 data _ t) as [[nskb|] h5'].
  2: { destruct P as [-> M]. split; [done|]. by exists ms. }
  destruct P as (-> & W & D). split_and!.
  - exact D.
  - apply (slip_all_bytes _ (tx_body h5 rel t data)). by apply tx_body_bytes.
  - apply tx_hdr_ok; [done..|lia|done].
  - unfold tx_next. by destruct (rel =? H5_RELIABLE_PKT).
  - destruct (pkt_rel_cases t rel Hr) as [[->| ->] _]; unfold tx_next; simpl.
    + rewrite land_7_mod8, u8_small by (unfold is_byte; lia). done.
    + rewrite Z.add_0_r, Z.mod_small; done.
  - exists ms. unfold tx_next. by destruct (rel =? H5_RELIABLE_PKT).
Qed.

(** * Instances *)

Lemma h5_crc_update_bitwise_witness : h5_crc_update 65535 1 = crc_byte 65535 1.
Proof. apply (h5_crc_update_bitwise 65535 1); [lia|done]. Defined.

Lemma bit_rev16_reverses_witness : bit_rev16 1 = 32768 /\ bit_rev16 (bit_rev16 1) = 1.
Proof. split; [reflexivity|]. apply (bit_rev16_reverses 1). lia. Defined.

Lemma prepare_pkt_frame_witness :
  exists nskb h', h5_prepare_pkt (hci_h5_int_init []) [192; 17] 2 HCI_ACLDATA_PKT = (Some nskb, h') /\
    msgq_txseq h' = 1 /\
    rtb_data nskb = 192 :: slip_all 0 [128; 34; 0; 93; 192; 17] ++ [192].
Proof.
  pose proof (prepare_pkt_frame (hci_h5_int_init []) [192; 17] HCI_ACLDATA_PKT
    ltac:(by repeat apply Forall_cons_2) ltac:(simpl; lia) ltac:(simpl; lia) ltac:(simpl; lia)) as H.
  change (Z.of_nat (length [192; 17])) with 2 in H.
  destruct (h5_prepare_pkt _ _ 2 _) as [[nskb|] h'].
  - exists nskb, h'. destruct H as (D & _ & _ & _ & S & _). split; [done|]. split; [exact S|exact D].
  - by destruct H as [H _].
Defined.

#[global] Arguments h5_crc_update : simpl never.
#[global] Arguments h5_prepare_pkt : simpl never.
#[global] Arguments bit_rev16 : simpl never.
