(* ===== verification/H5Tx.v ===== *)
(** [hardware/bt/src/hci_h5.c], the sending side: the timers, the queues of
    packets, the sliding window, cumulative acknowledgement and go-back-N
    retransmission. *)

From S2P Require Import Prelude BtSkbuff H5State H5Codec.

(** * Timers *)

Definition OsStartTimer (t : h5_timer) (msec mode : Z) (h : tHCI_H5_CB) : tHCI_H5_CB :=
  let sec := Z.quot msec 1000 in
  let nsec := Z.rem msec 1000 * 1000000 in
  emit (EvSetTime t (if mode =? 1 then mk_itval sec nsec sec nsec else mk_itval sec nsec 0 0)) h.
Definition OsStopTimer (t : h5_timer) (h : tHCI_H5_CB) : tHCI_H5_CB := OsStartTimer t 0 0 h.

Definition DATA_RETRANS_TIMEOUT_VALUE := 100.
Definition BT_INIT_DATA_RETRANS_TIMEOUT_VALUE := 20.
Definition DATA_RETRANS_COUNT := 40.
Definition BT_INIT_DATA_RETRANS_COUNT := 200.

Definition h5_start_data_retrans_timer (h : tHCI_H5_CB) : tHCI_H5_CB :=
  if h5_init_datatrans_flag h =? 0
  then OsStartTimer timer_data_retrans DATA_RETRANS_TIMEOUT_VALUE 0 h
  else OsStartTimer timer_data_retrans BT_INIT_DATA_RETRANS_TIMEOUT_VALUE 0 h.
Definition h5_stop_data_retrans_timer : tHCI_H5_CB -> tHCI_H5_CB := OsStopTimer timer_data_retrans.

(** * Queues of packets *)

Definition h5_enqueue (skb : sk_buff) (h : tHCI_H5_CB) : tHCI_H5_CB :=
  if 4095 <? skb_get_data_length skb then h
  else if decide (skb_get_pkt_type skb ∈ [HCI_ACLDATA_PKT; HCI_COMMAND_PKT])
  then set_rel (skb_queue_tail (rel h) skb) h
  else if decide (skb_get_pkt_type skb ∈ [H5_LINK_CTL_PKT; H5_ACK_PKT; H5_VDRSPEC_PKT; HCI_SCODATA_PKT])
  then set_unrel (skb_queue_tail (unrel h) skb) h
  else h.

(** [h5_prepare_pkt(&rtk_h5, skb_get_data(skb), skb_get_data_length(skb), skb_get_pkt_type(skb))] *)
Definition prepare_skb (skb : sk_buff) (h : tHCI_H5_CB) : option sk_buff * tHCI_H5_CB :=
  h5_prepare_pkt h (skb_get_data skb) (skb_get_data_length skb) (skb_get_pkt_type skb).

(** The last step of [h5_dequeue]: an empty acknowledgement, when one is due. *)
Definition dequeue_ack (h : tHCI_H5_CB) : option sk_buff * tHCI_H5_CB :=
  if truthy (is_txack_req h) then h5_prepare_pkt h [] 0 H5_ACK_PKT else (None, h).

(** The second step: a reliable packet, when the window has room. *)
Definition dequeue_rel (h : tHCI_H5_CB) : option sk_buff * tHCI_H5_CB :=
  if skb_queue_get_length (unack h) <? sliding_window_size h then
    match skb_dequeue_head (rel h) with
    | (Some skb, q) =>
        let '(nskb, h) := prepare_skb skb (set_rel q h) in
        match nskb with
        | Some _ =>
            (nskb, h5_start_data_retrans_timer (set_unack (skb_queue_tail (unack h) skb) h))
        | None => dequeue_ack (set_rel (skb_queue_head (rel h) skb) h)
        end
    | (None, _) => dequeue_ack h
    end
  else dequeue_ack h.

Definition h5_dequeue (h : tHCI_H5_CB) : option sk_buff * tHCI_H5_CB :=
  match skb_dequeue_head (unrel h) with
  | (Some skb, q) =>
      let '(nskb, h) := prepare_skb skb (set_unrel q h) in
      match nskb with
      | Some _ => (nskb, h)
      | None => dequeue_rel (set_unrel (skb_queue_head (unrel h) skb) h)
      end
  | (None, _) => dequeue_rel h
  end.

(** The loop of [h5_wake_up]; its result, the count of the last write, is not
    used by any caller. *)
Fixpoint wake_loop (fuel : nat) (h : tHCI_H5_CB) : tHCI_H5_CB :=
  match fuel with
  | O => h
  | S fuel =>
      match h5_dequeue h with
      | (None, h) => h
      | (Some skb, h) => wake_loop fuel (emit (EvTransmit (skb_get_data skb)) h)
      end
  end.

(** Every frame sent takes a packet off a queue or settles the pending
    acknowledgement. *)
Definition wake_measure (h : tHCI_H5_CB) : nat :=
  length (unrel h) + length (rel h) + (if truthy (is_txack_req h) then 1 else 0).

Definition h5_wake_up (h : tHCI_H5_CB) : tHCI_H5_CB := wake_loop (S (wake_measure h)) h.

(** * Acknowledgement *)

(** The loop that looks for the acknowledged sequence number from the newest
    packet down; the count of packets below it is what is left. *)
Fixpoint ack_scan (pkts_to_be_removed : nat) (rxack seqno : Z) : nat * Z :=
  match pkts_to_be_removed with
  | O => (O, seqno)
  | S n => if rxack =? seqno then (S n, seqno) else ack_scan n rxack ((seqno - 1) .& 7)
  end.

(** The removal loop; [i] packets are gone already. *)
Fixpoint ack_remove (i n : nat) (q : list sk_buff) : list sk_buff :=
  match q with
  | [] => []
  | skb :: q' => if (n <=? i)%nat then q else ack_remove (S i) n q'
  end.

Definition h5_remove_acked_pkt (h : tHCI_H5_CB) : tHCI_H5_CB :=
  let '(pkts_to_be_removed, _) := ack_scan (length (unack h)) (rxack h) (msgq_txseq h) in
  let h := set_unack (ack_remove 0 pkts_to_be_removed (unack h)) h in
  if skb_queue_get_length (unack h) =? 0
  then set_data_retrans_count 0 (h5_stop_data_retrans_timer h) else h.

(** * Retransmission *)

(** [while ((skb = skb_dequeue_tail(unack)) != NULL)]: the queue gets shorter
    at every round. *)
Fixpoint requeue_loop (fuel : nat) (h : tHCI_H5_CB) : tHCI_H5_CB :=
  match fuel with
  | O => h
  | S fuel =>
      match skb_dequeue_tail (unack h) with
      | (None, _) => h
      | (Some skb, q) =>
          let h := set_unack q h in
          let h := set_msgq_txseq ((msgq_txseq h - 1) .& 7) h in
          requeue_loop fuel (set_rel (skb_queue_head (rel h) skb) h)
      end
  end.

(** [rtkbt_h5_send_hw_error]: a log event and a hardware-error event for the
    host stack. *)
Definition host_log_str : list Z :=
  [104; 111; 115; 116; 32; 115; 116; 97; 99; 107; 58; 32; 104; 53; 32; 115; 101; 110; 100; 32;
   101; 114; 114; 111; 114].
Definition HCIT_TYPE_EVENT := 4.
Definition HCI_VSE_SUBCODE_DEBUG_INFO_SUB_EVT := 87.
Definition HCI_HARDWARE_ERROR_EVT := 16.

Definition rtkbt_h5_send_hw_error (h : tHCI_H5_CB) : tHCI_H5_CB :=
  let len := Z.of_nat (length host_log_str) + 2 in
  let h := emit (EvRawData ([HCIT_TYPE_EVENT; HCI_VSE_SUBCODE_DEBUG_INFO_SUB_EVT; len; 1]
                            ++ host_log_str ++ [0])) h in
  emit (EvRawData [HCIT_TYPE_EVENT; HCI_HARDWARE_ERROR_EVT; 1; 251]) h.

(** One round of [data_retransfer_thread] on [H5_EVENT_RX]. *)
Definition retransfer (h : tHCI_H5_CB) : tHCI_H5_CB :=
  let data_retrans_counts :=
    if h5_init_datatrans_flag h =? 0 then DATA_RETRANS_COUNT else BT_INIT_DATA_RETRANS_COUNT in
  if data_retrans_count h <? data_retrans_counts then
    let h := requeue_loop (length (unack h)) h in
    h5_wake_up (set_data_retrans_count (u32 (data_retrans_count h + 1)) h)
  else rtkbt_h5_send_hw_error h.

(** * Termination of the sending loop *)

(** The run of the loop: it ends when [h5_dequeue] has nothing to send. *)
Inductive drains : tHCI_H5_CB -> tHCI_H5_CB -> Prop :=
| drains_stop h h' : h5_dequeue h = (None, h') -> drains h h'
| drains_step h h1 h' skb :
    h5_dequeue h = (Some skb, h1) -> drains (emit (EvTransmit (skb_get_data skb)) h1) h' ->
    drains h h'.

Lemma skb_alloc_state len h : exists ms, (skb_alloc len h).2 = set_mallocs ms h.
Proof.
  unfold skb_alloc, malloc. destruct (mallocs h) as [|[j|] ms] eqn:E; simpl.
  - rewrite E. exists []. destruct h; simpl in *; by subst.
  - destruct ms as [|m ms]; simpl; eauto.
  - eauto.
Qed.

(** The part of the control block a call of [h5_prepare_pkt] may change. *)
Lemma h5_prepare_pkt_state h d l t :
  match h5_prepare_pkt h d l t with
  | (None, h') => exists ms, h' = set_mallocs ms h
  | (Some _, h') => exists ms sq, h' = set_mallocs ms (set_msgq_txseq sq (set_is_txack_req 0 h))
  end.
Proof.
  unfold h5_prepare_pkt. destruct (pkt_rel t) as [r|].
  2: { exists (mallocs h). by destruct h. }
  destruct (skb_alloc_state ((l + 6) * 2 + 2) h) as [ms E].
  destruct (skb_alloc _ h) as [[skb|] h1]; simpl in E; subst h1; [|eauto].
  destruct (r =? H5_RELIABLE_PKT).
  - destruct (foldl _ _ (tbl d <$> seqZ 0 l)). eauto.
  - destruct (foldl _ _ (tbl d <$> seqZ 0 l)). exists ms, (msgq_txseq h). by destruct h.
Qed.

Lemma dequeue_ack_measure h :
  match dequeue_ack h with
  | (None, h') => True
  | (Some _, h') => (wake_measure h' < wake_measure h)%nat
  end.
Proof.
  unfold dequeue_ack, wake_measure. destruct (truthy (is_txack_req h)) eqn:E; [|done].
  pose proof (h5_prepare_pkt_state h [] 0 H5_ACK_PKT) as P.
  destruct (h5_prepare_pkt h [] 0 H5_ACK_PKT) as [[?|] h']; [|done].
  destruct P as (ms & sq & ->). simpl. lia.
Qed.

Lemma dequeue_rel_measure h :
  match dequeue_rel h with
  | (None, h') => True
  | (Some _, h') => (wake_measure h' < wake_measure h)%nat
  end.
Proof.
  unfold dequeue_rel. destruct (_ <? _); [|apply dequeue_ack_measure].
  destruct (rel h) as [|skb q] eqn:Eq; simpl; [apply dequeue_ack_measure|].
  unfold prepare_skb.
  pose proof (h5_prepare_pkt_state (set_rel q h) (skb_get_data skb) (skb_get_data_length skb)
    (skb_get_pkt_type skb)) as P.
  destruct (h5_prepare_pkt _ _ _ _) as [[n|] h1].
  - destruct P as (ms & sq & ->). unfold h5_start_data_retrans_timer, OsStartTimer, wake_measure.
    simpl. destruct (_ =? 0); simpl; rewrite Eq; simpl; destruct (truthy _); lia.
  - destruct P as (ms & ->). simpl.
    pose proof (dequeue_ack_measure (set_rel (skb :: q) (set_mallocs ms (set_rel q h)))) as M.
    unfold skb_queue_head. destruct (dequeue_ack _) as [[?|] ?]; [|done].
    unfold wake_measure in *. simpl in *. rewrite Eq. simpl. lia.
Qed.

Lemma h5_dequeue_measure h :
  match h5_dequeue h with
  | (None, h') => True
  | (Some _, h') => (wake_measure h' < wake_measure h)%nat
  end.
Proof.
  unfold h5_dequeue. destruct (unrel h) as [|skb q] eqn:Eq; simpl; [apply dequeue_rel_measure|].
  unfold prepare_skb.
  pose proof (h5_prepare_pkt_state (set_unrel q h) (skb_get_data skb) (skb_get_data_length skb)
    (skb_get_pkt_type skb)) as P.
  destruct (h5_prepare_pkt _ _ _ _) as [[n|] h1].
  - destruct P as (ms & sq & ->). unfold wake_measure. simpl. rewrite Eq. simpl. destruct (truthy _); lia.
  - destruct P as (ms & ->). simpl.
    pose proof (dequeue_rel_measure (set_unrel (skb :: q) (set_mallocs ms (set_unrel q h)))) as M.
    unfold skb_queue_head. destruct (dequeue_rel _) as [[?|] ?]; [|done].
    unfold wake_measure in *. simpl in *. rewrite Eq. simpl. lia.
Qed.

Lemma wake_loop_drains fuel h : (wake_measure h < fuel)%nat -> drains h (wake_loop fuel h).
Proof.
  revert h. induction fuel as [|fuel IH]; intros h Hf; [lia|]. simpl.
  pose proof (h5_dequeue_measure h) as M.
  destruct (h5_dequeue h) as [[skb|] h1] eqn:E; [|by apply drains_stop].
  eapply drains_step; [done|]. apply IH. unfold emit, wake_measure in *. simpl. lia.
Qed.

Lemma drains_det h h1 : drains h h1 -> forall h2, drains h h2 -> h1 = h2.
Proof.
  induction 1 as [h1 h2 E|h1 h1' h2 skb E _ IH]; intros h3 H3;
    inversion H3 as [? ? E'|? ? ? ? E' H4]; subst; rewrite E in E'; simplify_eq; eauto.
Qed.

Lemma h5_wake_up_drains h h' : drains h h' -> h5_wake_up h = h'.
Proof. apply drains_det, wake_loop_drains. lia. Qed.

(** The loop of [h5_wake_up] always ends: whatever the queues, the window
    and the outcomes of the allocations, it reaches a call of [h5_dequeue] that
    returns no packet, and more fuel would not change its result. *)
Theorem wake_up_terminates h :
  drains h (h5_wake_up h) /\
  (forall fuel, (wake_measure h < fuel)%nat -> wake_loop fuel h = h5_wake_up h).
Proof.
  split; [|intros fuel Hf; eapply drains_det]; apply wake_loop_drains; unfold wake_measure in *; lia.
Qed.

(** * The sending invariant *)

(** A queued packet: well-formed, short enough for a header, of a known type. *)
Definition pkt_ok (rl : Z) (skb : sk_buff) : Prop :=
  wf skb /\ Length skb <= 4095 /\ pkt_rel (PacketType skb) = Some rl.

Record tx_inv (h : tHCI_H5_CB) : Prop := {
  tx_rel : Forall (pkt_ok H5_RELIABLE_PKT) (rel h);
  tx_unack : Forall (pkt_ok H5_RELIABLE_PKT) (unack h);
  tx_unrel : Forall (pkt_ok H5_UNRELIABLE_PKT) (unrel h);
  tx_outstanding : Z.of_nat (length (unack h)) <= 7;
  tx_window : 0 <= sliding_window_size h <= 7;
  tx_seq : 0 <= msgq_txseq h < 8;
  tx_ack : 0 <= rxseq_txack h < 8
}.

(** The frame that carries a packet in the current state. *)
Definition frame (h : tHCI_H5_CB) (rl t : Z) (data : list Z) : list Z :=
  192 :: slip_all (oof_flow_control h) (tx_body h rl t data) ++ [192].

Lemma prepare_skb_ok rl skb h :
  pkt_ok rl skb ->
  exists ms, (mallocs h = [] -> ms = []) /\
    match prepare_skb skb h with
    | (None, h') => h' = set_mallocs ms h /\ mallocs h <> []
    | (Some n, h') =>
        h' = tx_next rl (set_mallocs ms h) /\ wf n /\
        rtb_data n = frame h rl (PacketType skb) (rtb_data skb)
    end.
Proof.
  intros (W & L & R). unfold prepare_skb, skb_get_data_length, skb_get_data, skb_get_pkt_type.
  pose proof (length_rtb_data skb W) as E. rewrite <- E.
  apply h5_prepare_pkt_ok; [done|by apply bytes_rtb_data|lia].
Qed.

Lemma prepare_ack_ok h :
  exists ms, (mallocs h = [] -> ms = []) /\
    match h5_prepare_pkt h [] 0 H5_ACK_PKT with
    | (None, h') => h' = set_mallocs ms h /\ mallocs h <> []
    | (Some n, h') =>
        h' = tx_next H5_UNRELIABLE_PKT (set_mallocs ms h) /\ wf n /\
        rtb_data n = frame h H5_UNRELIABLE_PKT H5_ACK_PKT []
    end.
Proof. apply (h5_prepare_pkt_ok h [] H5_ACK_PKT H5_UNRELIABLE_PKT); done. Qed.

Lemma set_mallocs_id h : set_mallocs (mallocs h) h = h.
Proof. by destruct h. Qed.

Lemma set_mallocs_nil h : mallocs h = [] -> set_mallocs [] h = h.
Proof. intros <-. apply set_mallocs_id. Qed.

Lemma next_seq_range x : 0 <= u8 x .& 7 < 8.
Proof. rewrite land_7_mod8. apply Z.mod_pos_bound. lia. Qed.

(** The transport invariant survives a change of the fields it does not read
    and a step of the sequence number. *)
Lemma tx_next_inv rl h : tx_inv h -> tx_inv (tx_next rl h).
Proof.
  intros []. unfold tx_next. destruct (rl =? H5_RELIABLE_PKT); constructor; simpl; try done.
  apply next_seq_range.
Qed.

Lemma start_timer_state h :
  exists e, h5_start_data_retrans_timer h = emit e h.
Proof. unfold h5_start_data_retrans_timer, OsStartTimer. destruct (_ =? 0); eauto. Qed.

Lemma dequeue_ack_inv h : tx_inv h -> tx_inv (dequeue_ack h).2.
Proof.
  intros I. unfold dequeue_ack. destruct (truthy _); [|done].
  destruct (prepare_ack_ok h) as (ms & _ & P). destruct (h5_prepare_pkt h [] 0 H5_ACK_PKT) as [[n|] h'].
  - destruct P as [-> _]. apply tx_next_inv. by destruct I.
  - destruct P as [-> _]. by destruct I.
Qed.

Lemma dequeue_rel_inv h : tx_inv h -> tx_inv (dequeue_rel h).2.
Proof.
  intros I. unfold dequeue_rel.
  destruct (Z.ltb_spec (skb_queue_get_length (unack h)) (sliding_window_size h)) as [Hw|];
    [|by apply dequeue_ack_inv].
  destruct (rel h) as [|skb q] eqn:Eq; simpl; [by apply dequeue_ack_inv|].
  pose proof (tx_rel h I) as F. rewrite Eq in F. apply Forall_cons in F as [F1 F2].
  destruct (prepare_skb_ok _ skb (set_rel q h) F1) as (ms & _ & P).
  destruct (prepare_skb skb (set_rel q h)) as [[n|] h1].
  - destruct P as [-> _]. destruct (start_timer_state
      (set_unack (skb_queue_tail (unack (tx_next H5_RELIABLE_PKT (set_mallocs ms (set_rel q h)))) skb)
         (tx_next H5_RELIABLE_PKT (set_mallocs ms (set_rel q h))))) as [e ->].
    unfold skb_queue_get_length in Hw. destruct I. constructor; simpl; try done.
    + by apply Forall_app; split; [|constructor].
    + unfold skb_queue_tail. rewrite length_app. simpl. lia.
    + apply next_seq_range.
  - destruct P as [-> _]. apply dequeue_ack_inv. destruct I. constructor; simpl; try done.
    by constructor.
Qed.

Lemma h5_dequeue_inv h : tx_inv h -> tx_inv (h5_dequeue h).2.
Proof.
  intros I. unfold h5_dequeue. destruct (unrel h) as [|skb q] eqn:Eq; simpl; [by apply dequeue_rel_inv|].
  pose proof (tx_unrel h I) as F. rewrite Eq in F. apply Forall_cons in F as [F1 F2].
  destruct (prepare_skb_ok _ skb (set_unrel q h) F1) as (ms & _ & P).
  destruct (prepare_skb skb (set_unrel q h)) as [[n|] h1].
  - destruct P as [-> _]. apply tx_next_inv. destruct I. by constructor.
  - destruct P as [-> _]. apply dequeue_rel_inv. destruct I. constructor; simpl; try done.
    by constructor.
Qed.

Lemma wake_loop_inv fuel h : tx_inv h -> tx_inv (wake_loop fuel h).
Proof.
  revert h. induction fuel as [|fuel IH]; intros h I; [done|]. simpl.
  pose proof (h5_dequeue_inv h I). destruct (h5_dequeue h) as [[skb|] h1]; [|done].
  apply IH. simpl in *. by destruct H.
Qed.

Lemma h5_wake_up_inv h : tx_inv h -> tx_inv (h5_wake_up h).
Proof. apply wake_loop_inv. Qed.

Lemma h5_enqueue_inv skb h : tx_inv h -> wf skb -> tx_inv (h5_enqueue skb h).
Proof.
  intros I W. unfold h5_enqueue, skb_get_data_length, skb_get_pkt_type.
  destruct (Z.ltb_spec 4095 (Length skb)); [done|].
  assert (T : forall ts rl, Forall (fun t => pkt_rel t = Some rl) ts -> PacketType skb ∈ ts ->
    Forall (pkt_ok rl) [skb]).
  { intros ts rl Ht E. apply Forall_singleton. rewrite Forall_forall in Ht. split_and!; auto. }
  repeat case_decide; [| |done];
    (destruct I; constructor; simpl; try done; apply Forall_app; split; [done|];
     eapply T; [|done]; by repeat constructor).
Qed.

(** * What a call of [h5_wake_up] sends *)

Definition timer_ev (h : tHCI_H5_CB) : h5_event :=
  EvSetTime timer_data_retrans
    (mk_itval 0 (if h5_init_datatrans_flag h =? 0 then 100000000 else 20000000) 0 0).

(** The frame of an unreliable packet. *)
Definition unrel_ev (h : tHCI_H5_CB) (skb : sk_buff) : h5_event :=
  EvTransmit (frame h H5_UNRELIABLE_PKT (PacketType skb) (rtb_data skb)).

(** The [i]th reliable packet sent: its timer is started, and its frame bears
    the sequence number [i] steps further. *)
Definition rel_ev (h : tHCI_H5_CB) (i : nat) (skb : sk_buff) : list h5_event :=
  [timer_ev h;
   EvTransmit (frame (set_msgq_txseq ((msgq_txseq h + Z.of_nat i) mod 8) h)
                 H5_RELIABLE_PKT (PacketType skb) (rtb_data skb))].

(** How many reliable packets the window admits. *)
Definition sendable (h : tHCI_H5_CB) : nat :=
  Z.to_nat (sliding_window_size h - Z.of_nat (length (unack h))) `min` length (rel h).

Definition ack_ev (h : tHCI_H5_CB) : list h5_event :=
  if truthy (is_txack_req h) && bool_decide (unrel h = []) && (sendable h =? 0)%nat
  then [EvTransmit (frame h H5_UNRELIABLE_PKT H5_ACK_PKT [])] else [].

Definition after_wake (h : tHCI_H5_CB) : tHCI_H5_CB :=
  let n := sendable h in
  set_trace (trace h ++ (unrel_ev h <$> unrel h) ++ concat (imap (rel_ev h) (take n (rel h))) ++ ack_ev h)
    (set_unrel [] (set_rel (drop n (rel h)) (set_unack (unack h ++ take n (rel h))
      (set_msgq_txseq ((msgq_txseq h + Z.of_nat n) mod 8) (set_is_txack_req 0 h))))).

Lemma prepare_ack_sends h :
  mallocs h = [] ->
  exists n, h5_prepare_pkt h [] 0 H5_ACK_PKT = (Some n, set_is_txack_req 0 h) /\
    rtb_data n = frame h H5_UNRELIABLE_PKT H5_ACK_PKT [].
Proof.
  intros M. destruct (prepare_ack_ok h) as (ms & N & P). rewrite (N M), set_mallocs_nil in P by done.
  destruct (h5_prepare_pkt h [] 0 H5_ACK_PKT) as [[n|] h']; [|by destruct P].
  destruct P as (-> & _ & ?). eauto.
Qed.

Lemma prepare_skb_sends rl skb h :
  mallocs h = [] -> pkt_ok rl skb ->
  exists n, prepare_skb skb h = (Some n, tx_next rl h) /\
    rtb_data n = frame h rl (PacketType skb) (rtb_data skb).
Proof.
  intros M K. destruct (prepare_skb_ok rl skb h K) as (ms & N & P).
  rewrite (N M), set_mallocs_nil in P by done.
  destruct (prepare_skb skb h) as [[n|] h']; [|by destruct P]. destruct P as (-> & _ & ?). eauto.
Qed.

Lemma truthy_false x : truthy x = false -> x = 0.
Proof. unfold truthy. bdestruct; done. Qed.

(** Nothing to send but an acknowledgement. *)
Lemma drains_ack h :
  tx_inv h -> mallocs h = [] -> unrel h = [] -> sendable h = 0%nat -> drains h (after_wake h).
Proof.
  intros I M U S.
  assert (D : forall h1, unrel h1 = [] -> sendable h1 = 0%nat -> h5_dequeue h1 = dequeue_ack h1).
  { clear. intros h U S. unfold h5_dequeue, dequeue_rel. rewrite U. simpl. unfold sendable in S.
    unfold skb_queue_get_length. bdestruct; [|done]. destruct (rel h); [done|]. simpl in S. lia. }
  assert (T : after_wake h = set_trace (trace h ++ ack_ev h) (set_is_txack_req 0 h)).
  { unfold after_wake. rewrite S, U. simpl. rewrite app_nil_r, Z.add_0_r, Z.mod_small by apply I.
    destruct h; simpl in *; by subst. }
  rewrite T. unfold ack_ev. rewrite U, S, bool_decide_true by done.
  destruct (truthy (is_txack_req h)) eqn:E; simpl.
  - destruct (prepare_ack_sends h M) as (n & P & F).
    eapply drains_step.
    + rewrite D by done. unfold dequeue_ack. rewrite E. exact P.
    + apply drains_stop. rewrite D; [|done|done]. unfold dequeue_ack, skb_get_data. by rewrite F.
  - rewrite app_nil_r. apply drains_stop. rewrite D by done. unfold dequeue_ack. rewrite E.
    f_equal. apply truthy_false in E. destruct h; simpl in *; by subst.
Qed.

(** The state after one reliable packet is on the wire. *)
Definition sent_rel (skb : sk_buff) (q : list sk_buff) (h : tHCI_H5_CB) : tHCI_H5_CB :=
  set_trace (trace h ++ rel_ev h 0 skb)
    (set_rel q (set_unack (unack h ++ [skb])
      (set_msgq_txseq ((msgq_txseq h + 1) mod 8) (set_is_txack_req 0 h)))).

Lemma dequeue_rel_sends h skb q :
  tx_inv h -> mallocs h = [] -> rel h = skb :: q -> unrel h = [] -> (0 < sendable h)%nat ->
  exists n h1, h5_dequeue h = (Some n, h1) /\
    emit (EvTransmit (skb_get_data n)) h1 = sent_rel skb q h.
Proof.
  intros I M R U S. unfold sendable in S. pose proof (tx_rel h I) as F. rewrite R in F.
  apply Forall_cons in F as [F _].
  destruct (prepare_skb_sends _ skb (set_rel q h) M F) as (n & P & D).
  unfold h5_dequeue, dequeue_rel. rewrite U, R. simpl. unfold skb_queue_get_length.
  bdestruct; [|lia]. rewrite P. do 2 eexists. split; [done|].
  unfold skb_get_data. rewrite D.
  unfold sent_rel, rel_ev, h5_start_data_retrans_timer, timer_ev, OsStartTimer, tx_next, emit. simpl.
  rewrite land_7_mod8, u8_small by (pose proof (tx_seq h I); unfold is_byte; lia).
  rewrite Z.add_0_r, (Z.mod_small (msgq_txseq h)) by apply I.
  destruct (h5_init_datatrans_flag h =? 0); simpl; rewrite <- app_assoc; done.
Qed.

Lemma sent_rel_inv skb q h :
  tx_inv h -> rel h = skb :: q -> (0 < sendable h)%nat -> tx_inv (sent_rel skb q h).
Proof.
  intros [] R S. rewrite R in *. apply Forall_cons in tx_rel0 as [? ?].
  unfold sendable in S. constructor; simpl; try done.
  - by apply Forall_app; split; [|constructor].
  - rewrite length_app. simpl. lia.
  - apply Z.mod_pos_bound. lia.
Qed.

Lemma sent_rel_after skb q h :
  tx_inv h -> rel h = skb :: q -> unrel h = [] -> (0 < sendable h)%nat ->
  sendable (sent_rel skb q h) = pred (sendable h) /\
  after_wake (sent_rel skb q h) = after_wake h.
Proof.
  intros I R U Hs.
  assert (N : sendable (sent_rel skb q h) = pred (sendable h)).
  { unfold sendable in *. simpl. rewrite R, length_app in *. simpl in *. lia. }
  split; [done|]. unfold after_wake. rewrite N.
  destruct (sendable h) as [|n] eqn:E; [lia|]. simpl. rewrite R, U. simpl.
  rewrite <- !app_assoc. simpl.
  assert (A : ack_ev (sent_rel skb q h) = [] /\ ack_ev h = []).
  { unfold ack_ev. rewrite E. simpl. by rewrite !andb_false_r. }
  destruct A as [-> ->]. rewrite !app_nil_r.
  replace (imap (rel_ev (sent_rel skb q h)) (take n q)) with (imap (rel_ev h ∘ S) (take n q)).
  - replace (((msgq_txseq h + 1) mod 8 + Z.of_nat n) mod 8) with ((msgq_txseq h + Z.of_nat (S n)) mod 8)
      by (rewrite Z.add_mod_idemp_l by lia; f_equal; lia). done.
  - apply imap_ext. intros i x _. unfold rel_ev. simpl. do 3 f_equal.
    rewrite Z.add_mod_idemp_l by lia.
    replace (msgq_txseq h + 1 + Z.of_nat i) with (msgq_txseq h + Z.of_nat (S i)) by lia. done.
Qed.

Lemma drains_rel n h :
  sendable h = n -> tx_inv h -> mallocs h = [] -> unrel h = [] -> drains h (after_wake h).
Proof.
  revert h. induction n as [|n IH]; intros h S I M U; [by apply drains_ack|].
  destruct (rel h) as [|skb q] eqn:R; [unfold sendable in S; rewrite R in S; simpl in S; lia|].
  destruct (dequeue_rel_sends h skb q) as (m & h1 & D & E); [done..|lia|].
  destruct (sent_rel_after skb q h) as [N A]; [done..|lia|].
  eapply drains_step; [exact D|]. rewrite E, <- A. apply IH; [lia| |done|done].
  apply sent_rel_inv; [done..|lia].
Qed.

Lemma drains_after h : tx_inv h -> mallocs h = [] -> drains h (after_wake h).
Proof.
  remember (unrel h) as l eqn:E. revert h E. induction l as [|skb q IH]; intros h E I M.
  { by eapply drains_rel. }
  pose proof (tx_unrel h I) as F. rewrite <- E in F. apply Forall_cons in F as [F F2].
  destruct (prepare_skb_sends _ skb (set_unrel q h) M F) as (n & P & D).
  eapply drains_step.
  { unfold h5_dequeue. rewrite <- E. simpl. by rewrite P. }
  unfold skb_get_data. rewrite D.
  set (h1 := emit _ _). assert (A : after_wake h = after_wake h1); [|rewrite A; apply IH; [done| |done]].
  - unfold after_wake, h1, ack_ev, sendable. rewrite <- E. simpl.
    rewrite <- (app_assoc (trace h)). rewrite !andb_false_r. done.
  - unfold h1. destruct I. by constructor.
Qed.

(** C14: With memory available, [h5_wake_up] first sends every unreliable packet
    in order, then as many reliable packets as the window admits, in order and
    under consecutive sequence numbers, each with its retransmission timer
    started, and an empty acknowledgement exactly when one was due and nothing
    else carried it; the packets sent reliably wait in [unack]. *)
Theorem wake_up_sends h :
  tx_inv h -> mallocs h = [] -> h5_wake_up h = after_wake h.
Proof. intros. by apply h5_wake_up_drains, drains_after. Qed.

(** * Cumulative acknowledgement *)

Lemma ack_remove_drop i n q : ack_remove i n q = drop (n - i) q.
Proof.
  revert i. induction q as [|skb q IH]; intros i; simpl; [by rewrite drop_nil|].
  destruct (Nat.leb_spec n i).
  - replace (n - i)%nat with 0%nat by lia. done.
  - rewrite IH. replace (n - i)%nat with (S (n - S i)) by lia. done.
Qed.

(** The scan stops after as many steps as the acknowledged number is behind the
    next one, if that many packets are outstanding. *)
Lemma ack_scan_ok n ack seqno :
  0 <= ack < 8 -> 0 <= seqno < 8 -> (n <= 7)%nat ->
  let j := Z.to_nat ((seqno - ack) mod 8) in
  (ack_scan n ack seqno).1 = (n - j)%nat.
Proof.
  intros Ha. revert seqno. induction n as [|n IH]; intros seqno Hs Hn; [done|]. simpl.
  destruct (Z.eqb_spec ack seqno) as [->|Hne].
  - rewrite Z.sub_diag. done.
  - assert (Hm : 0 <= (seqno - 1) .& 7 < 8) by (rewrite land_7_mod8; apply Z.mod_pos_bound; lia).
    rewrite IH by (done || lia). rewrite land_7_mod8, Zminus_mod_idemp_l.
    assert (E : (seqno - ack) mod 8 = (seqno - 1 - ack) mod 8 + 1).
    { destruct (Z_lt_le_dec seqno ack).
      - rewrite <- (Z_mod_plus (seqno - ack) 1), <- (Z_mod_plus (seqno - 1 - ack) 1) by lia.
        rewrite !Z.mod_small; lia.
      - rewrite !Z.mod_small; lia. }
    rewrite E. pose proof (Z.mod_pos_bound (seqno - 1 - ack) 8). lia.
Qed.

Lemma h5_remove_acked_pkt_eq h :
  tx_inv h -> 0 <= rxack h < 8 ->
  let j := Z.to_nat ((msgq_txseq h - rxack h) mod 8) in
  let q := drop (length (unack h) - j) (unack h) in
  h5_remove_acked_pkt h =
    if decide (q = [])
    then set_data_retrans_count 0 (h5_stop_data_retrans_timer (set_unack q h)) else set_unack q h.
Proof.
  intros I Ha j q. unfold h5_remove_acked_pkt.
  pose proof (ack_scan_ok (length (unack h)) (rxack h) (msgq_txseq h) Ha) as E.
  destruct (ack_scan _ _ _) as [n s]. simpl in E. rewrite E by (apply I || (pose proof (tx_outstanding h I); lia)).
  rewrite ack_remove_drop, Nat.sub_0_r. fold j. fold q. simpl. unfold skb_queue_get_length.
  case_decide as D; [by rewrite D|]. destruct (Z.eqb_spec (Z.of_nat (length q)) 0); [|done].
  destruct q; [done|]. simpl in *. lia.
Qed.

Lemma h5_remove_acked_pkt_inv h : tx_inv h -> 0 <= rxack h < 8 -> tx_inv (h5_remove_acked_pkt h).
Proof.
  intros I Ha. rewrite h5_remove_acked_pkt_eq by done. destruct I.
  case_decide; constructor; simpl; try done; try (by apply Forall_drop); rewrite length_drop; lia.
Qed.

(** [h5_remove_acked_pkt] takes a cumulative acknowledgement: of the packets
    outstanding, exactly the [j] sent since the acknowledged number remain,
    [j] being the distance modulo 8 to the next sequence number; an
    acknowledgement of a packet that is not outstanding removes nothing; and
    the retransmission timer is stopped and its counter reset exactly when
    nothing is left unacknowledged. *)
Theorem remove_acked_cumulative h :
  tx_inv h -> 0 <= rxack h < 8 ->
  let j := Z.to_nat ((msgq_txseq h - rxack h) mod 8) in
  let h' := h5_remove_acked_pkt h in
  (exists acked, unack h = acked ++ unack h' /\
     length (unack h') = (j `min` length (unack h))%nat) /\
  ((length (unack h) < j)%nat -> unack h' = unack h) /\
  (unack h' = [] -> data_retrans_count h' = 0 /\
     trace h' = trace h ++ [EvSetTime timer_data_retrans (mk_itval 0 0 0 0)]) /\
  (unack h' <> [] -> h' = set_unack (unack h') h).
Proof.
  intros I Ha j h'. unfold h'. rewrite h5_remove_acked_pkt_eq by done. fold j.
  set (q := drop _ _).
  assert (U : unack (if decide (q = []) then
      set_data_retrans_count 0 (h5_stop_data_retrans_timer (set_unack q h)) else set_unack q h) = q)
    by by case_decide.
  rewrite U. split_and!.
  - exists (take (length (unack h) - j) (unack h)). unfold q. split; [by rewrite take_drop|].
    rewrite length_drop. lia.
  - intros L. unfold q. replace (length (unack h) - j)%nat with 0%nat by lia. done.
  - intros E. rewrite decide_True by done. done.
  - intros E. by rewrite decide_False.
Qed.

(** * Go-back-N *)

Lemma requeue_loop_eq n h :
  n = length (unack h) -> 0 <= msgq_txseq h < 8 ->
  requeue_loop n h =
    set_unack [] (set_rel (unack h ++ rel h)
      (set_msgq_txseq ((msgq_txseq h - Z.of_nat n) mod 8) h)).
Proof.
  revert h. induction n as [|n IH]; intros h E Hs.
  - destruct (unack h) eqn:U; [|done]. simpl. rewrite Z.sub_0_r, Z.mod_small by done.
    destruct h; simpl in *; by subst.
  - assert (exists q skb, unack h = q ++ [skb]) as (q & skb & U).
    { destruct (unack h) as [|a l] using rev_ind; [done|eauto]. }
    cbn [requeue_loop]. unfold skb_dequeue_tail. rewrite U, last_snoc, removelast_last.
    rewrite U, length_app in E. simpl in E. rewrite land_7_mod8. rewrite IH; simpl; [|lia|apply Z.mod_pos_bound; lia].
    rewrite Zminus_mod_idemp_l. rewrite <- app_assoc. simpl.
    replace (msgq_txseq h - 1 - Z.of_nat n) with (msgq_txseq h - Z.of_nat (S n)) by lia. done.
Qed.

Lemma requeue_loop_inv h : tx_inv h -> tx_inv (requeue_loop (length (unack h)) h).
Proof.
  intros []. rewrite requeue_loop_eq by done. constructor; simpl; try done; try lia.
  - by apply Forall_app.
  - apply Z.mod_pos_bound. lia.
Qed.

Lemma retransfer_inv h : tx_inv h -> tx_inv (retransfer h).
Proof.
  intros I. unfold retransfer. destruct (_ <? _).
  - apply h5_wake_up_inv. pose proof (requeue_loop_inv h I) as []. by constructor.
  - destruct I. by constructor.
Qed.

(** C37: A retransmission round goes back to the oldest unacknowledged packet:
    once the retry limit is not reached and memory is available, with a window
    that holds what is outstanding, every outstanding packet is sent again, in
    order, under the sequence number it had, before any new one, and is
    outstanding again. *)
Theorem retransfer_go_back_n h :
  tx_inv h -> mallocs h = [] -> unrel h = [] ->
  Z.of_nat (length (unack h)) <= sliding_window_size h ->
  data_retrans_count h < (if h5_init_datatrans_flag h =? 0 then DATA_RETRANS_COUNT
                          else BT_INIT_DATA_RETRANS_COUNT) ->
  let seq0 := (msgq_txseq h - Z.of_nat (length (unack h))) mod 8 in
  exists new rest,
    rel h = new ++ rest /\
    unack (retransfer h) = unack h ++ new /\ rel (retransfer h) = rest /\
    msgq_txseq (retransfer h) = (msgq_txseq h + Z.of_nat (length new)) mod 8 /\
    exists ack,
      trace (retransfer h) =
        trace h ++ concat (imap (rel_ev (set_msgq_txseq seq0 h)) (unack h ++ new)) ++ ack /\
      (unack h <> [] -> ack = []).
Proof.
  intros I M U W C seq0. unfold retransfer. rewrite (proj2 (Z.ltb_lt _ _) C).
  pose proof (requeue_loop_inv h I) as I1.
  rewrite requeue_loop_eq in * by (done || apply I). fold seq0 in I1 |- *.
  set (h1 := set_data_retrans_count _ _).
  assert (I2 : tx_inv h1) by (destruct I1; by constructor).
  rewrite (h5_wake_up_drains h1 (after_wake h1)) by (by apply drains_after).
  set (w := Z.to_nat (sliding_window_size h)).
  set (k := (w - length (unack h))%nat).
  assert (S1 : sendable h1 = (w `min` (length (unack h) + length (rel h)))%nat).
  { unfold sendable, h1. simpl. rewrite length_app. lia. }
  assert (T : take (sendable h1) (unack h ++ rel h) = unack h ++ take k (rel h)
    /\ drop (sendable h1) (unack h ++ rel h) = drop k (rel h)).
  { rewrite S1. rewrite take_app_ge, drop_app_ge by lia.
    replace (w `min` (length (unack h) + length (rel h)) - length (unack h))%nat
      with (k `min` length (rel h))%nat by lia.
    destruct (Nat.min_spec k (length (rel h))) as [[? ->]|[? ->]]; [done|].
    rewrite !take_ge, !drop_ge by lia. done. }
  destruct T as [T1 T2].
  exists (take k (rel h)), (drop k (rel h)). unfold after_wake. simpl. rewrite T1, T2, U. simpl.
  split_and!; [by rewrite take_drop|done|done| |].
  - unfold seq0. rewrite Z.add_mod_idemp_l, S1, length_take by lia. f_equal. lia.
  - exists (ack_ev h1). split; [done|]. intros Hne. unfold ack_ev. rewrite S1.
    replace (_ =? 0)%nat with false; [by rewrite andb_false_r|]. symmetry. apply Nat.eqb_neq.
    destruct (unack h); [done|]. simpl in *. lia.
Qed.

(** * Instances: an open window and one reliable packet *)

Definition acl_ex : sk_buff := skb_set_pkt_type rtb_ex HCI_ACLDATA_PKT.

(** The packet is waiting. *)
Definition tx_ex : tHCI_H5_CB := set_sliding_window_size 4 (set_rel [acl_ex] (hci_h5_int_init [])).
(** The packet is outstanding. *)
Definition tx_sent_ex : tHCI_H5_CB :=
  set_sliding_window_size 4 (set_msgq_txseq 1 (set_unack [acl_ex] (hci_h5_int_init []))).

Lemma acl_ex_ok : pkt_ok H5_RELIABLE_PKT acl_ex.
Proof. split; [apply rtb_ex_wf|]. split; [simpl; lia|done]. Qed.

Lemma tx_ex_inv : tx_inv tx_ex.
Proof. pose proof acl_ex_ok. constructor; simpl; try lia; by repeat constructor. Qed.

Lemma tx_sent_ex_inv : tx_inv tx_sent_ex.
Proof. pose proof acl_ex_ok. constructor; simpl; try lia; by repeat constructor. Qed.

Lemma wake_up_terminates_witness : wake_loop 5 tx_ex = h5_wake_up tx_ex.
Proof. apply (wake_up_terminates tx_ex). unfold wake_measure; simpl. lia. Defined.

Lemma wake_up_sends_witness :
  unack (h5_wake_up tx_ex) = [acl_ex] /\ rel (h5_wake_up tx_ex) = [] /\ msgq_txseq (h5_wake_up tx_ex) = 1.
Proof. rewrite (wake_up_sends tx_ex tx_ex_inv eq_refl). split_and!; reflexivity. Defined.

Lemma remove_acked_cumulative_witness :
  unack (h5_remove_acked_pkt (set_rxack 1 tx_sent_ex)) = [] /\
  data_retrans_count (h5_remove_acked_pkt (set_rxack 1 tx_sent_ex)) = 0.
Proof.
  assert (I : tx_inv (set_rxack 1 tx_sent_ex)) by (destruct tx_sent_ex_inv; by constructor).
  destruct (remove_acked_cumulative (set_rxack 1 tx_sent_ex) I ltac:(simpl; lia)) as (_ & _ & H & _).
  split; [reflexivity|]. exact (proj1 (H eq_refl)).
Defined.

Lemma retransfer_go_back_n_witness :
  unack (retransfer tx_sent_ex) = [acl_ex] /\ msgq_txseq (retransfer tx_sent_ex) = 1.
Proof.
  destruct (retransfer_go_back_n tx_sent_ex tx_sent_ex_inv eq_refl eq_refl ltac:(simpl; lia)
    ltac:(simpl; unfold BT_INIT_DATA_RETRANS_COUNT; lia)) as (new & rest & R & U & _ & S & _).
  simpl in R. symmetry in R. apply app_eq_nil in R as [-> ->]. split; [exact U|exact S].
Defined.
