(* ===== verification/H5Recv.v ===== *)
(** [hardware/bt/src/hci_h5.c], the receiving side: link establishment
    ([h5_process_ctl_pkts]), delivery of a complete packet
    ([h5_complete_rx_pkt]) and the byte-driven frame parser ([h5_recv]).

    A read through the receive buffer pointer when it is null is the absence of
    a result ([None]); [h5_recv_safe] shows it does not happen. *)

From S2P Require Import Prelude BtSkbuff H5State H5Codec H5Tx.

(** * Link control packets *)

Definition h5sync : list Z := [1; 126].
Definition h5syncresp : list Z := [2; 125].
Definition h5conf : list Z := [3; 252; 20].
Definition h5confresp : list Z := [4; 123].

Definition send_ctl (payload : list Z) (h : tHCI_H5_CB) : tHCI_H5_CB :=
  let '(skb, h) := skb_alloc_and_init H5_LINK_CTL_PKT payload h in
  match skb with None => h | Some skb => h5_wake_up (h5_enqueue skb h) end.

Definition hci_h5_send_sync_req : tHCI_H5_CB -> tHCI_H5_CB := send_ctl h5sync.
Definition hci_h5_send_sync_resp : tHCI_H5_CB -> tHCI_H5_CB := send_ctl h5syncresp.
Definition hci_h5_send_conf_req : tHCI_H5_CB -> tHCI_H5_CB := send_ctl h5conf.
Definition hci_h5_send_conf_resp : tHCI_H5_CB -> tHCI_H5_CB := send_ctl h5confresp.

Definition rtk_notify_hw_h5_init_result (status : Z) (h : tHCI_H5_CB) : tHCI_H5_CB :=
  let '(rx_skb, h) := skb_alloc_and_init HCI_EVENT_PKT [14; 4; 3; 238; 252; status] h in
  match rx_skb with
  | None => h
  | Some rx_skb => set_recv_data (skb_queue_tail (recv_data h) rx_skb) h
  end.

Definition SYNC_RETRANS_TIMEOUT_VALUE := 10.
Definition CONF_RETRANS_TIMEOUT_VALUE := 20.
Definition WAIT_CT_BAUDRATE_READY_TIMEOUT_VALUE := 5.
Definition h5_start_sync_retrans_timer := OsStartTimer timer_sync_retrans SYNC_RETRANS_TIMEOUT_VALUE 1.
Definition h5_stop_sync_retrans_timer := OsStopTimer timer_sync_retrans.
Definition h5_start_conf_retrans_timer := OsStartTimer timer_conf_retrans CONF_RETRANS_TIMEOUT_VALUE 1.
Definition h5_stop_conf_retrans_timer := OsStopTimer timer_conf_retrans.
Definition h5_start_wait_controller_baudrate_ready_timer :=
  OsStartTimer timer_wait_ct_baudrate_ready WAIT_CT_BAUDRATE_READY_TIMEOUT_VALUE 0.

Definition H5_CFG_SLID_WIN (cfg : Z) : Z := cfg .& 7.
Definition H5_CFG_OOF_CNTRL (cfg : Z) : Z := (cfg .>> 3) .& 1.
Definition H5_CFG_DIC_TYPE (cfg : Z) : Z := (cfg .>> 4) .& 1.

(** [!memcmp(skb_get_data(skb), pat, 2)] *)
Definition starts_with (skb : sk_buff) (pat : list Z) : bool :=
  (skb_byte skb 0 =? tbl pat 0) && (skb_byte skb 1 =? tbl pat 1).

(** The three states of [h5_process_ctl_pkts]. *)
Definition ctl_uninitialized (skb : sk_buff) (h : tHCI_H5_CB) : tHCI_H5_CB :=
  if starts_with skb h5sync then hci_h5_send_sync_resp h
  else if starts_with skb h5syncresp then
    let h := set_sync_retrans_count 0 (h5_stop_sync_retrans_timer h) in
    let h := set_link_estab_state H5_INITIALIZED h in
    h5_start_conf_retrans_timer (hci_h5_send_conf_req h)
  else h.

Definition ctl_initialized (skb : sk_buff) (h : tHCI_H5_CB) : tHCI_H5_CB :=
  if starts_with skb h5sync then hci_h5_send_sync_resp h
  else if starts_with skb h5conf then hci_h5_send_conf_resp h
  else if starts_with skb h5confresp then
    let h := set_conf_retrans_count 0 (h5_stop_conf_retrans_timer h) in
    let h := set_link_estab_state H5_ACTIVE h in
    let cfg := skb_byte skb 2 in
    let h := set_sliding_window_size (H5_CFG_SLID_WIN cfg) h in
    let h := set_oof_flow_control (H5_CFG_OOF_CNTRL cfg) h in
    let h := set_dic_type (H5_CFG_DIC_TYPE cfg) h in
    let h := if truthy (dic_type h) then set_use_crc 1 h else h in
    rtk_notify_hw_h5_init_result 0 h
  else h.

Definition ctl_active (skb : sk_buff) (h : tHCI_H5_CB) : tHCI_H5_CB :=
  if starts_with skb h5sync then
    let h := hci_h5_send_sync_resp (rtkbt_h5_send_hw_error h) in
    let h := set_link_estab_state H5_UNINITIALIZED h in
    h5_start_sync_retrans_timer (hci_h5_send_sync_req h)
  else if starts_with skb h5conf then hci_h5_send_conf_resp h
  else h.

Definition h5_process_ctl_pkts (h : tHCI_H5_CB) : option tHCI_H5_CB :=
  skb ← rx_skb h;
  Some (match link_estab_state h with
        | H5_UNINITIALIZED => ctl_uninitialized skb h
        | H5_INITIALIZED => ctl_initialized skb h
        | H5_ACTIVE => ctl_active skb h
        end).

(** * Delivery of a complete packet *)

Definition HCI_COMMAND_COMPLETE_EVT := 14.
Definition HCI_VSC_UPDATE_BAUDRATE := 64535.

(** The result is [intercepted]. *)
Definition hci_recv_frame (skb : sk_buff) (pkt_type : Z) (h : tHCI_H5_CB) : bool * tHCI_H5_CB :=
  if pkt_type =? HCI_EVENT_PKT then
    let event_code := skb_byte skb 0 in
    if event_code =? HCI_COMMAND_COMPLETE_EVT then
      let h := set_num_hci_cmd_pkts (skb_byte skb 2) h in
      let opcode := u16 (skb_byte skb 3 + (skb_byte skb 4 .<< 8)) in
      if opcode =? HCI_VSC_UPDATE_BAUDRATE then
        (true, h5_start_wait_controller_baudrate_ready_timer (set_internal_skb (Some skb) h))
      else (false, h)
    else (false, h)
  else (false, h).

Definition pass_up (pkt_type : Z) : bool :=
  bool_decide (pkt_type ∈ [HCI_ACLDATA_PKT; HCI_EVENT_PKT; HCI_SCODATA_PKT; HCI_COMMAND_PKT]).

(** The first bytes of the packet, read through the buffer pointer. *)
Definition rx_hdr (skb : sk_buff) : list Z :=
  [skb_byte skb 0; skb_byte skb 1; skb_byte skb 2; skb_byte skb 3].

(** The bookkeeping of a received reliable packet. *)
Definition note_reliable (hdr : list Z) (h : tHCI_H5_CB) : tHCI_H5_CB :=
  if truthy (H5_HDR_RELIABLE hdr) then
    h5_wake_up (set_is_txack_req 1 (set_rxseq_txack (u8 (H5_HDR_SEQ hdr + 1) mod 8) h))
  else h.

(** The packet without its header goes to the stack's queue unless it is
    intercepted; [malloc] is the message buffer the source fills and frees. *)
Definition deliver (skb : sk_buff) (pkt_type : Z) (h : tHCI_H5_CB) : tHCI_H5_CB :=
  let skb := skb_set_pkt_type (skb_pull skb H5_HDR_SIZE) pkt_type in
  let '(_, h) := malloc h in
  let '(status, h) := hci_recv_frame skb pkt_type h in
  if status then h else set_recv_data (skb_queue_tail (recv_data h) skb) h.

(** A link control packet is handled with its header removed. *)
Definition handle_ctl (skb : sk_buff) (pkt_type : Z) (h : tHCI_H5_CB) : option tHCI_H5_CB :=
  if pkt_type =? H5_LINK_CTL_PKT
  then h5_process_ctl_pkts (set_rx_skb (Some (skb_pull skb H5_HDR_SIZE)) h)
  else Some h.

(** The result is the packet type, as the source returns it. *)
Definition h5_complete_rx_pkt (h : tHCI_H5_CB) : option (Z * tHCI_H5_CB) :=
  skb ← rx_skb h;
  let hdr := rx_hdr skb in
  let h := set_rxack (H5_HDR_ACK hdr) (note_reliable hdr h) in
  let pkt_type := H5_HDR_PKT_TYPE hdr in
  let h := h5_remove_acked_pkt h in
  h ← handle_ctl skb pkt_type h;
  let h := if pass_up pkt_type then deliver skb pkt_type h else h in
  Some (pkt_type, set_rx_skb None (set_rx_state H5_W4_PKT_DELIMITER h)).

(** * The parser *)

(** One unescaped byte into the receive buffer. *)
Definition rx_put (skb : sk_buff) (b : Z) (h : tHCI_H5_CB) : tHCI_H5_CB :=
  let skb := skb_put_copy [b] skb in
  let h := set_rx_skb (Some skb) h in
  let h := if truthy (H5_HDR_CRC (rx_hdr skb)) && negb (bool_decide (rx_state h = H5_W4_CRC))
           then set_message_crc (h5_crc_update (message_crc h) b) h else h in
  set_rx_count (u32 (rx_count h - 1)) h.

(** The byte an escape sequence stands for. *)
Definition unescape (b : Z) : option Z :=
  if b =? 220 then Some 192 else if b =? 221 then Some 219
  else if b =? 222 then Some 17 else if b =? 223 then Some 19 else None.

Definition h5_unslip_one_byte (b : Z) (h : tHCI_H5_CB) : option tHCI_H5_CB :=
  skb ← rx_skb h;
  Some (match rx_esc_state h with
        | H5_ESCSTATE_NOESC =>
            if b =? 219 then set_rx_esc_state H5_ESCSTATE_ESC h else rx_put skb b h
        | H5_ESCSTATE_ESC =>
            match unescape b with
            | Some c => set_rx_esc_state H5_ESCSTATE_NOESC (rx_put skb c h)
            | None => set_rx_count 0 (set_rx_state H5_W4_PKT_DELIMITER (set_rx_skb None h))
            end
        end).

(** What one round of the parser's loop does with the current byte: it takes
    the byte, goes on with the same byte (a packet may have been completed), or
    returns from the function. *)
Inductive rx_round :=
| Take (h : tHCI_H5_CB)
| Again (h : tHCI_H5_CB) (complete : bool)
| Return (h : tHCI_H5_CB).

(** The idiom of the parser's error paths: [skb_free], then a state. *)
Definition drop_rx (st : tH5_RX_STATE) (h : tHCI_H5_CB) : tHCI_H5_CB :=
  set_rx_count 0 (set_rx_state st (set_rx_skb None h)).

Definition complete_round (h : tHCI_H5_CB) : option rx_round :=
  r ← h5_complete_rx_pkt h; Some (Again r.2 true).

Definition round_hdr (h : tHCI_H5_CB) : option rx_round :=
  skb ← rx_skb h;
  let hdr := rx_hdr skb in
  Some
    (if negb ((255 .& not8 (tbl hdr 0 + tbl hdr 1 + tbl hdr 2)) =? tbl hdr 3)
     then Again (drop_rx H5_W4_PKT_DELIMITER h) false
     else if truthy (H5_HDR_RELIABLE hdr) && negb (H5_HDR_SEQ hdr =? rxseq_txack h)
     then Again (drop_rx H5_W4_PKT_DELIMITER (h5_wake_up (set_is_txack_req 1 h))) false
     else Again (set_rx_count (H5_HDR_LEN hdr) (set_rx_state H5_W4_DATA h)) false).

Definition round_data (h : tHCI_H5_CB) : option rx_round :=
  skb ← rx_skb h;
  if truthy (H5_HDR_CRC (rx_hdr skb))
  then Some (Again (set_rx_count 2 (set_rx_state H5_W4_CRC h)) false)
  else complete_round h.

Definition round_crc (h : tHCI_H5_CB) : option rx_round :=
  skb ← rx_skb h;
  if negb (bit_rev16 (message_crc h) =? h5_get_crc skb)
  then Some (Again (drop_rx H5_W4_PKT_DELIMITER h) false)
  else complete_round (set_rx_skb (Some (skb_trim skb (u32 (skb_get_data_length skb - 2)))) h).

Definition round_start (b : Z) (h : tHCI_H5_CB) : rx_round :=
  if b =? 192 then Take h
  else
    let h := set_rx_count 4 (set_rx_state H5_W4_HDR h) in
    let h := set_message_crc H5_CRC_INIT (set_rx_esc_state H5_ESCSTATE_NOESC h) in
    let '(skb, h) := skb_alloc 4101 h in
    let h := set_rx_skb skb h in
    match skb with
    | None => Return (set_rx_count 0 (set_rx_state H5_W4_PKT_DELIMITER h))
    | Some _ => Again h false
    end.

Definition recv_round (b : Z) (h : tHCI_H5_CB) : option rx_round :=
  if truthy (rx_count h) then
    if b =? 192 then Some (Take (drop_rx H5_W4_PKT_START h))
    else h ← h5_unslip_one_byte b h; Some (Take h)
  else
    match rx_state h with
    | H5_W4_HDR => round_hdr h
    | H5_W4_DATA => round_data h
    | H5_W4_CRC => round_crc h
    | H5_W4_PKT_DELIMITER =>
        Some (Take (if b =? 192 then set_rx_state H5_W4_PKT_START h else h))
    | H5_W4_PKT_START => Some (round_start b h)
    end.

(** The loop; no byte takes more than three rounds. *)
Fixpoint recv_loop (fuel : nat) (data : list Z) (complete : bool) (h : tHCI_H5_CB)
    : option (bool * tHCI_H5_CB) :=
  match data, fuel with
  | [], _ => Some (complete, h)
  | _, O => None
  | b :: data', S fuel =>
      r ← recv_round b h;
      match r with
      | Take h => recv_loop fuel data' complete h
      | Again h c => recv_loop fuel data (complete || c) h
      | Return h => Some (false, h)
      end
  end.

Definition h5_recv (data : list Z) (h : tHCI_H5_CB) : option (bool * tHCI_H5_CB) :=
  recv_loop (3 * length data) data false h.

(** * What the sending side leaves alone *)

(** The control block without what the sending side writes. *)
Definition rx_view (h : tHCI_H5_CB) : tHCI_H5_CB :=
  set_unack [] (set_rel [] (set_unrel [] (set_is_txack_req 0 (set_msgq_txseq 0 (set_mallocs []
    (set_trace [] (set_data_retrans_count 0 h))))))).

Lemma prepare_view h d l t : rx_view (h5_prepare_pkt h d l t).2 = rx_view h.
Proof.
  pose proof (h5_prepare_pkt_state h d l t) as P.
  destruct (h5_prepare_pkt h d l t) as [[?|] h']; [destruct P as (? & ? & ->)|destruct P as (? & ->)]; done.
Qed.

Lemma dequeue_ack_view h : rx_view (dequeue_ack h).2 = rx_view h.
Proof. unfold dequeue_ack. destruct (truthy _); [apply prepare_view|done]. Qed.

Lemma dequeue_rel_view h : rx_view (dequeue_rel h).2 = rx_view h.
Proof.
  unfold dequeue_rel. destruct (_ <? _); [|apply dequeue_ack_view].
  destruct (rel h) as [|skb q]; simpl; [apply dequeue_ack_view|]. unfold prepare_skb.
  pose proof (prepare_view (set_rel q h) (skb_get_data skb) (skb_get_data_length skb)
    (skb_get_pkt_type skb)) as V.
  destruct (h5_prepare_pkt _ _ _ _) as [[?|] h1]; simpl in *.
  - etrans; [|exact V]. destruct (start_timer_state (set_unack (skb_queue_tail (unack h1) skb) h1)) as [e ->].
    done.
  - rewrite dequeue_ack_view. exact V.
Qed.

Lemma h5_dequeue_view h : rx_view (h5_dequeue h).2 = rx_view h.
Proof.
  unfold h5_dequeue. destruct (unrel h) as [|skb q]; simpl; [apply dequeue_rel_view|].
  unfold prepare_skb.
  pose proof (prepare_view (set_unrel q h) (skb_get_data skb) (skb_get_data_length skb)
    (skb_get_pkt_type skb)) as V.
  destruct (h5_prepare_pkt _ _ _ _) as [[?|] h1]; simpl in *; [exact V|].
  rewrite dequeue_rel_view. exact V.
Qed.

Lemma wake_loop_view fuel h : rx_view (wake_loop fuel h) = rx_view h.
Proof.
  revert h. induction fuel as [|fuel IH]; intros h; [done|]. simpl.
  pose proof (h5_dequeue_view h) as V. destruct (h5_dequeue h) as [[skb|] h1]; simpl in V; [|done].
  by rewrite IH.
Qed.

Lemma h5_wake_up_view h : rx_view (h5_wake_up h) = rx_view h.
Proof. apply wake_loop_view. Qed.

Lemma h5_enqueue_view skb h : rx_view (h5_enqueue skb h) = rx_view h.
Proof. unfold h5_enqueue. repeat case_match; done. Qed.

Lemma alloc_init_view t data h : rx_view (skb_alloc_and_init t data h).2 = rx_view h.
Proof.
  unfold skb_alloc_and_init. destruct (skb_alloc_state (Z.of_nat (length data)) h) as [ms E].
  destruct (skb_alloc _ h) as [[?|] h1]; simpl in *; by subst.
Qed.

Lemma send_ctl_view p h : rx_view (send_ctl p h) = rx_view h.
Proof.
  unfold send_ctl. pose proof (alloc_init_view H5_LINK_CTL_PKT p h) as V.
  destruct (skb_alloc_and_init _ _ _) as [[?|] h1]; simpl in V; [|done].
  by rewrite h5_wake_up_view, h5_enqueue_view.
Qed.

Lemma remove_acked_view h : rx_view (h5_remove_acked_pkt h) = rx_view h.
Proof. unfold h5_remove_acked_pkt. destruct (ack_scan _ _ _). by destruct (_ =? 0). Qed.

Create Rewrite HintDb rxview.
#[export] Hint Rewrite h5_wake_up_view h5_enqueue_view send_ctl_view remove_acked_view : rxview.

(** * The invariant *)

(** The receive buffer: 4101 bytes, the longest frame, less what it holds. *)
Definition rx_buf (skb : sk_buff) : Prop := wf skb /\ room skb = 4101 - Length skb.

Definition rx_inv (h : tHCI_H5_CB) : Prop :=
  match rx_state h with
  | H5_W4_PKT_DELIMITER | H5_W4_PKT_START => rx_count h = 0 /\ rx_skb h = None
  | H5_W4_HDR =>
      0 <= rx_count h /\ exists skb, rx_skb h = Some skb /\ rx_buf skb /\ Length skb + rx_count h = 4
  | H5_W4_DATA =>
      0 <= rx_count h /\ exists skb, rx_skb h = Some skb /\ rx_buf skb /\ 4 <= Length skb /\
        Length skb + rx_count h = 4 + H5_HDR_LEN (rx_hdr skb)
  | H5_W4_CRC =>
      0 <= rx_count h <= 2 /\ exists skb, rx_skb h = Some skb /\ rx_buf skb /\ 4 <= Length skb /\
        Length skb + rx_count h = 6 + H5_HDR_LEN (rx_hdr skb)
  end.

Record h5_inv (h : tHCI_H5_CB) : Prop := {
  inv_tx : tx_inv h;
  inv_rx : rx_inv h;
  inv_rxack : 0 <= rxack h < 8;
  inv_recv : Forall wf (recv_data h);
  inv_data : from_option wf True (data_skb h);
  inv_internal : from_option wf True (internal_skb h)
}.

(** The part of the invariant outside the parser. *)
Definition h5_inv0 (h : tHCI_H5_CB) : Prop :=
  tx_inv h /\ 0 <= rxack h < 8 /\ Forall wf (recv_data h) /\
  from_option wf True (data_skb h) /\ from_option wf True (internal_skb h).

Lemma h5_inv_split h : h5_inv h <-> h5_inv0 h /\ rx_inv h.
Proof.
  split; [intros []; unfold h5_inv0; tauto|]. intros [(? & ? & ? & ? & ?) ?]. by constructor.
Qed.

Lemma rx_inv_view h h' : rx_view h' = rx_view h -> rx_inv h -> rx_inv h'.
Proof.
  intros V. pose proof (f_equal rx_state V) as E1. pose proof (f_equal rx_count V) as E2.
  pose proof (f_equal rx_skb V) as E3. simpl in *. unfold rx_inv. by rewrite E1, E2, E3.
Qed.

Lemma h5_inv0_view h h' : rx_view h' = rx_view h -> tx_inv h' -> h5_inv0 h -> h5_inv0 h'.
Proof.
  intros V T (_ & A & R & D & I). unfold h5_inv0.
  pose proof (f_equal rxack V) as E1. pose proof (f_equal recv_data V) as E2.
  pose proof (f_equal data_skb V) as E3. pose proof (f_equal internal_skb V) as E4.
  simpl in *. rewrite E1, E2, E3, E4. tauto.
Qed.

Lemma h5_wake_up_inv0 h : h5_inv0 h -> h5_inv0 (h5_wake_up h).
Proof.
  intros I. apply (h5_inv0_view h); [apply h5_wake_up_view| |done]. apply h5_wake_up_inv, I.
Qed.

Lemma tx_inv_mallocs ms h : tx_inv h -> tx_inv (set_mallocs ms h).
Proof. intros []. by constructor. Qed.

Lemma send_ctl_inv0 p h :
  bytes p -> (length p <= 4095)%nat -> h5_inv0 h -> h5_inv0 (send_ctl p h).
Proof.
  intros B L I. apply (h5_inv0_view h); [apply send_ctl_view| |done]. unfold send_ctl.
  destruct (skb_alloc_and_init_ok H5_LINK_CTL_PKT p h) as (ms & E & _ & S); [done|lia|].
  destruct (skb_alloc_and_init _ _ _) as [[skb|] h1]; simpl in *; subst h1; [|apply tx_inv_mallocs, I].
  destruct (S skb) as (W & _ & _); [done|].
  apply h5_wake_up_inv, h5_enqueue_inv; [apply tx_inv_mallocs, I|done].
Qed.

Lemma notify_inv0 status h :
  is_byte status -> h5_inv0 h -> h5_inv0 (rtk_notify_hw_h5_init_result status h).
Proof.
  intros B I. unfold rtk_notify_hw_h5_init_result.
  destruct (skb_alloc_and_init_ok HCI_EVENT_PKT [14; 4; 3; 238; 252; status] h) as (ms & E & _ & S);
    [by repeat apply Forall_cons_2|simpl; lia|].
  destruct (skb_alloc_and_init _ _ _) as [[skb|] h1]; simpl in *; subst h1.
  - destruct (S skb) as (W & _ & _); [done|]. destruct I as (T & A & R & D & J).
    refine (conj _ (conj A (conj _ (conj D J)))); [by destruct T|].
    apply Forall_app; split; [done|by constructor].
  - destruct I as (T & ?). split; [by apply tx_inv_mallocs|done].
Qed.

Create HintDb h5inv.
#[export] Hint Resolve send_ctl_inv0 h5_wake_up_inv0 notify_inv0 : h5inv.

(** Updates of fields the invariant does not read. *)
Ltac inv0_set :=
  let T := fresh in let A := fresh in let R := fresh in
  intros (T & A & R); refine (conj _ (conj A R)); destruct T; by constructor.

Lemma inv0_emit e h : h5_inv0 h -> h5_inv0 (emit e h).
Proof. inv0_set. Qed.
Lemma inv0_link_estab_state v h : h5_inv0 h -> h5_inv0 (set_link_estab_state v h).
Proof. inv0_set. Qed.
Lemma inv0_sync_retrans_count v h : h5_inv0 h -> h5_inv0 (set_sync_retrans_count v h).
Proof. inv0_set. Qed.
Lemma inv0_conf_retrans_count v h : h5_inv0 h -> h5_inv0 (set_conf_retrans_count v h).
Proof. inv0_set. Qed.
Lemma inv0_data_retrans_count v h : h5_inv0 h -> h5_inv0 (set_data_retrans_count v h).
Proof. inv0_set. Qed.
Lemma inv0_oof_flow_control v h : h5_inv0 h -> h5_inv0 (set_oof_flow_control v h).
Proof. inv0_set. Qed.
Lemma inv0_dic_type v h : h5_inv0 h -> h5_inv0 (set_dic_type v h).
Proof. inv0_set. Qed.
Lemma inv0_use_crc v h : h5_inv0 h -> h5_inv0 (set_use_crc v h).
Proof. inv0_set. Qed.
Lemma inv0_num_hci_cmd_pkts v h : h5_inv0 h -> h5_inv0 (set_num_hci_cmd_pkts v h).
Proof. inv0_set. Qed.
Lemma inv0_is_txack_req v h : h5_inv0 h -> h5_inv0 (set_is_txack_req v h).
Proof. inv0_set. Qed.
Lemma inv0_message_crc v h : h5_inv0 h -> h5_inv0 (set_message_crc v h).
Proof. inv0_set. Qed.
Lemma inv0_rx_count v h : h5_inv0 h -> h5_inv0 (set_rx_count v h).
Proof. inv0_set. Qed.
Lemma inv0_rx_state v h : h5_inv0 h -> h5_inv0 (set_rx_state v h).
Proof. inv0_set. Qed.
Lemma inv0_rx_esc_state v h : h5_inv0 h -> h5_inv0 (set_rx_esc_state v h).
Proof. inv0_set. Qed.
Lemma inv0_rx_skb v h : h5_inv0 h -> h5_inv0 (set_rx_skb v h).
Proof. inv0_set. Qed.
Lemma inv0_mallocs v h : h5_inv0 h -> h5_inv0 (set_mallocs v h).
Proof. inv0_set. Qed.
Lemma inv0_cleanuping v h : h5_inv0 h -> h5_inv0 (set_cleanuping v h).
Proof. inv0_set. Qed.
Lemma inv0_h5_init_datatrans_flag v h : h5_inv0 h -> h5_inv0 (set_h5_init_datatrans_flag v h).
Proof. inv0_set. Qed.
Lemma inv0_h5_ready_events v h : h5_inv0 h -> h5_inv0 (set_h5_ready_events v h).
Proof. inv0_set. Qed.

#[export] Hint Resolve inv0_emit inv0_link_estab_state
  inv0_sync_retrans_count
  inv0_conf_retrans_count
  inv0_data_retrans_count
  inv0_oof_flow_control
  inv0_dic_type
  inv0_use_crc
  inv0_num_hci_cmd_pkts
  inv0_is_txack_req
  inv0_message_crc
  inv0_rx_count
  inv0_rx_state
  inv0_rx_esc_state
  inv0_rx_skb
  inv0_mallocs
  inv0_cleanuping
  inv0_h5_init_datatrans_flag
  inv0_h5_ready_events : h5inv.

Lemma land_7_range x : 0 <= x .& 7 <= 7.
Proof. rewrite land_7_mod8. pose proof (Z.mod_pos_bound x 8). lia. Qed.

Lemma land_7_lt x : 0 <= x .& 7 < 8.
Proof. rewrite land_7_mod8. apply Z.mod_pos_bound. lia. Qed.

Lemma ctl_bytes : bytes h5sync /\ bytes h5syncresp /\ bytes h5conf /\ bytes h5confresp.
Proof. by split_and!; repeat apply Forall_cons_2. Qed.

Lemma send_sync_req_inv0 h : h5_inv0 h -> h5_inv0 (hci_h5_send_sync_req h).
Proof. apply send_ctl_inv0; [apply ctl_bytes|simpl; lia]. Qed.
Lemma send_sync_resp_inv0 h : h5_inv0 h -> h5_inv0 (hci_h5_send_sync_resp h).
Proof. apply send_ctl_inv0; [apply ctl_bytes|simpl; lia]. Qed.
Lemma send_conf_req_inv0 h : h5_inv0 h -> h5_inv0 (hci_h5_send_conf_req h).
Proof. apply send_ctl_inv0; [apply ctl_bytes|simpl; lia]. Qed.
Lemma send_conf_resp_inv0 h : h5_inv0 h -> h5_inv0 (hci_h5_send_conf_resp h).
Proof. apply send_ctl_inv0; [apply ctl_bytes|simpl; lia]. Qed.

Lemma start_sync_retrans_inv0 h : h5_inv0 h -> h5_inv0 (h5_start_sync_retrans_timer h).
Proof. apply inv0_emit. Qed.
Lemma stop_sync_retrans_inv0 h : h5_inv0 h -> h5_inv0 (h5_stop_sync_retrans_timer h).
Proof. apply inv0_emit. Qed.
Lemma start_conf_retrans_inv0 h : h5_inv0 h -> h5_inv0 (h5_start_conf_retrans_timer h).
Proof. apply inv0_emit. Qed.
Lemma stop_conf_retrans_inv0 h : h5_inv0 h -> h5_inv0 (h5_stop_conf_retrans_timer h).
Proof. apply inv0_emit. Qed.
Lemma start_wait_controller_baudrate_ready_inv0 h : h5_inv0 h -> h5_inv0 (h5_start_wait_controller_baudrate_ready_timer h).
Proof. apply inv0_emit. Qed.
Lemma send_hw_error_inv0 h : h5_inv0 h -> h5_inv0 (rtkbt_h5_send_hw_error h).
Proof. intros. by do 2 apply inv0_emit. Qed.

Lemma inv0_window cfg h : h5_inv0 h -> h5_inv0 (set_sliding_window_size (H5_CFG_SLID_WIN cfg) h).
Proof.
  intros (T & A & R). refine (conj _ (conj A R)). pose proof (land_7_range cfg). destruct T. by constructor.
Qed.

#[export] Hint Resolve send_sync_req_inv0 send_sync_resp_inv0 send_conf_req_inv0 send_conf_resp_inv0
  start_sync_retrans_inv0 stop_sync_retrans_inv0 start_conf_retrans_inv0
  stop_conf_retrans_inv0 start_wait_controller_baudrate_ready_inv0
  send_hw_error_inv0 inv0_window : h5inv.

Lemma ctl_inv0 skb h :
  h5_inv0 h -> h5_inv0 (ctl_uninitialized skb h) /\ h5_inv0 (ctl_initialized skb h) /\
  h5_inv0 (ctl_active skb h).
Proof.
  intros I. split_and!.
  - unfold ctl_uninitialized. destruct (starts_with skb h5sync); [by auto with h5inv|].
    destruct (starts_with skb h5syncresp); [auto 20 with h5inv|done].
  - unfold ctl_initialized. destruct (starts_with skb h5sync); [by auto with h5inv|].
    destruct (starts_with skb h5conf); [by auto with h5inv|]. destruct (starts_with skb h5confresp); [|done].
    apply notify_inv0; [done|]. destruct (truthy _); auto 20 with h5inv.
  - unfold ctl_active. destruct (starts_with skb h5sync); [auto 20 with h5inv|].
    destruct (starts_with skb h5conf); [by auto with h5inv|done].
Qed.

Lemma notify_rx_count status h : rx_count (rtk_notify_hw_h5_init_result status h) = rx_count h.
Proof.
  unfold rtk_notify_hw_h5_init_result.
  pose proof (f_equal rx_count (alloc_init_view HCI_EVENT_PKT [14; 4; 3; 238; 252; status] h)) as V.
  by destruct (skb_alloc_and_init _ _ _) as [[?|] ?].
Qed.

Lemma view_rx_count h h' : rx_view h' = rx_view h -> rx_count h' = rx_count h.
Proof. intros V. exact (f_equal rx_count V). Qed.

Lemma send_ctl_rx_count p h : rx_count (send_ctl p h) = rx_count h.
Proof. apply view_rx_count, send_ctl_view. Qed.

Lemma OsStartTimer_rx_count t msec mode h : rx_count (OsStartTimer t msec mode h) = rx_count h.
Proof. done. Qed.
Lemma set_link_rx_count v h : rx_count (set_link_estab_state v h) = rx_count h.
Proof. done. Qed.

Lemma ctl_rx_count skb h :
  rx_count (ctl_uninitialized skb h) = rx_count h /\ rx_count (ctl_initialized skb h) = rx_count h /\
  rx_count (ctl_active skb h) = rx_count h.
Proof.
  assert (P : forall p h, rx_count (send_ctl p h) = rx_count h) by apply send_ctl_rx_count.
  split_and!.
  - unfold ctl_uninitialized. destruct (starts_with _ _); [apply P|]. destruct (starts_with _ _); [|done].
    etrans; [apply (OsStartTimer_rx_count _ _ _)|]. etrans; [apply (P h5conf)|done].
  - unfold ctl_initialized. do 2 (destruct (starts_with _ _); [apply P|]). destruct (starts_with _ _); [|done].
    rewrite notify_rx_count. by destruct (truthy _).
  - unfold ctl_active. destruct (starts_with _ _).
    + etrans; [apply (OsStartTimer_rx_count _ _ _)|]. etrans; [apply (P h5sync)|].
      etrans; [apply set_link_rx_count|]. etrans; [apply (P h5syncresp)|done].
    + destruct (starts_with _ _); [apply P|done].
Qed.

(** * Headers *)

Lemma rx_hdr_data skb : wf skb -> 4 <= Length skb -> rx_hdr skb = take 4 (rtb_data skb).
Proof.
  intros W L. pose proof (length_rtb_data skb W) as E.
  pose proof (fun i => skb_byte_data skb i W) as B.
  destruct (rtb_data skb) as [|b0 [|b1 [|b2 [|b3 l]]]]; simpl in E; try lia.
  pose proof (B 0 ltac:(lia)) as [= E0]. pose proof (B 1 ltac:(lia)) as [= E1].
  pose proof (B 2 ltac:(lia)) as [= E2]. pose proof (B 3 ltac:(lia)) as [= E3].
  unfold rx_hdr. rewrite <- E0, <- E1, <- E2, <- E3. done.
Qed.

Lemma rx_hdr_bytes skb : wf skb -> bytes (rx_hdr skb).
Proof.
  intros (_ & _ & _ & _ & _ & B). unfold rx_hdr, skb_byte, mem_get.
  assert (M : forall i, is_byte (default 0 (Mem skb !! i))).
  { intros i. destruct (Mem skb !! i) eqn:E; simpl; [|unfold is_byte; lia].
    rewrite Forall_lookup in B. eauto. }
  repeat apply Forall_cons_2; done.
Qed.

Lemma hdr_len_range a b c d : bytes [a; b; c; d] -> 0 <= H5_HDR_LEN [a; b; c; d] <= 4095.
Proof.
  intros B. apply Forall_cons in B as [_ B]. apply Forall_cons in B as [Hb B].
  apply Forall_cons in B as [Hc _]. unfold H5_HDR_LEN, tbl. simpl. unfold is_byte in *.
  rewrite land_255_u8, Z.shiftl_mul_pow2, Z.shiftr_div_pow2 by lia.
  assert (0 <= b / 2 ^ 4 < 16) by (split; [apply Z.div_pos|apply Z.div_lt_upper_bound]; lia).
  rewrite u8_small by (unfold is_byte; lia). lia.
Qed.

Lemma rx_hdr_len skb : wf skb -> 0 <= H5_HDR_LEN (rx_hdr skb) <= 4095.
Proof. intros W. by apply hdr_len_range, rx_hdr_bytes. Qed.

(** * Delivery keeps the invariant *)

Lemma note_reliable_inv0 hdr h : h5_inv0 h -> h5_inv0 (note_reliable hdr h).
Proof.
  intros I. unfold note_reliable. destruct (truthy _); [|done]. apply h5_wake_up_inv0.
  destruct I as (T & A & R). refine (conj _ (conj A R)). destruct T. constructor; simpl; try done.
  apply Z.mod_pos_bound. lia.
Qed.

Lemma note_reliable_rx_count hdr h : rx_count (note_reliable hdr h) = rx_count h.
Proof.
  unfold note_reliable. destruct (truthy _); [|done].
  etrans; [apply view_rx_count, h5_wake_up_view|done].
Qed.

Lemma hci_recv_frame_inv0 skb t h :
  wf skb -> h5_inv0 h ->
  h5_inv0 (hci_recv_frame skb t h).2 /\ rx_count (hci_recv_frame skb t h).2 = rx_count h.
Proof.
  intros W I. unfold hci_recv_frame. repeat (destruct (_ =? _); [|by split; simpl; auto with h5inv]).
  split; [|done]. destruct I as (T & A & R & D & _). refine (conj _ (conj A (conj R (conj D W)))).
  destruct T. by constructor.
Qed.

Lemma deliver_inv0 skb t h :
  wf skb -> 4 <= Length skb -> h5_inv0 h ->
  h5_inv0 (deliver skb t h) /\ rx_count (deliver skb t h) = rx_count h.
Proof.
  intros W L I. unfold deliver. set (sk := skb_set_pkt_type _ _).
  assert (Ws : wf sk).
  { destruct (RtbRemoveHead_data skb H5_HDR_SIZE W) as (Wp & _); [unfold H5_HDR_SIZE; lia|]. done. }
  destruct (malloc h) as [m hm] eqn:Em.
  assert (Im : h5_inv0 hm /\ rx_count hm = rx_count h).
  { unfold malloc in Em. destruct (mallocs h); simplify_eq; [done|]. split; auto with h5inv. }
  destruct Im as [Im Cm]. destruct (hci_recv_frame_inv0 sk t hm Ws Im) as [J K].
  destruct (hci_recv_frame _ _ hm) as [[|] hr]; simpl in *; [split; [done|congruence]|].
  split; [|simpl; congruence]. destruct J as (T & A & R & D). refine (conj _ (conj A (conj _ D))).
  - destruct T. by constructor.
  - apply Forall_app; split; [done|by constructor].
Qed.

Lemma handle_ctl_inv0 skb t h :
  h5_inv0 h -> exists h', handle_ctl skb t h = Some h' /\ h5_inv0 h' /\ rx_count h' = rx_count h.
Proof.
  intros I. unfold handle_ctl. destruct (_ =? _); [|by exists h]. unfold h5_process_ctl_pkts. simpl.
  eexists. split; [done|]. set (h3 := set_rx_skb _ h).
  assert (I3 : h5_inv0 h3) by (unfold h3; auto with h5inv).
  destruct (ctl_inv0 (skb_pull skb H5_HDR_SIZE) h3 I3) as (? & ? & ?).
  destruct (ctl_rx_count (skb_pull skb H5_HDR_SIZE) h3) as (? & ? & ?).
  destruct (link_estab_state h); split; done.
Qed.

Lemma ack_inv0 hdr h :
  h5_inv0 h ->
  let h' := h5_remove_acked_pkt (set_rxack (H5_HDR_ACK hdr) (note_reliable hdr h)) in
  h5_inv0 h' /\ rx_count h' = rx_count h.
Proof.
  intros I h'. pose proof (note_reliable_rx_count hdr h) as C.
  destruct (note_reliable_inv0 hdr h I) as (T & _ & R).
  subst h'. generalize dependent (note_reliable hdr h). intros g C T R. split.
  - assert (J : h5_inv0 (set_rxack (H5_HDR_ACK hdr) g)).
    { refine (conj _ (conj _ R)); [by destruct T|]. apply land_7_lt. }
    eapply h5_inv0_view; [apply remove_acked_view| |exact J]. apply h5_remove_acked_pkt_inv; apply J.
  - etrans; [apply view_rx_count, remove_acked_view|done].
Qed.

Lemma h5_complete_rx_pkt_inv h skb :
  h5_inv0 h -> rx_skb h = Some skb -> wf skb -> 4 <= Length skb -> rx_count h = 0 ->
  exists t h', h5_complete_rx_pkt h = Some (t, h') /\ h5_inv h' /\ rx_state h' = H5_W4_PKT_DELIMITER.
Proof.
  intros I E W L C. unfold h5_complete_rx_pkt. rewrite E. simpl.
  destruct (ack_inv0 (rx_hdr skb) h I) as [I1 C1]. simpl in C1.
  generalize dependent (h5_remove_acked_pkt (set_rxack (H5_HDR_ACK (rx_hdr skb)) (note_reliable (rx_hdr skb) h))).
  intros h1 I1 C1.
  destruct (handle_ctl_inv0 skb (H5_HDR_PKT_TYPE (rx_hdr skb)) h1 I1) as (h2 & -> & I2 & C2). simpl.
  do 2 eexists. split; [done|]. split; [|done].
  destruct (deliver_inv0 skb (H5_HDR_PKT_TYPE (rx_hdr skb)) h2 W L I2) as [I3 C3].
  apply h5_inv_split. destruct (pass_up _); (split; [auto with h5inv|split; simpl; congruence]).
Qed.

(** * The parser keeps the invariant and never stalls *)

Lemma rx_hdr_len_byte skb : wf skb -> H5_HDR_LEN (rx_hdr skb) <= 4095.
Proof. intros W. apply (rx_hdr_len skb W). Qed.

(** A byte put in the receive buffer. *)
Lemma rx_buf_put skb b :
  rx_buf skb -> is_byte b -> Length skb < 4101 ->
  let skb' := skb_put_copy [b] skb in
  rx_buf skb' /\ Length skb' = Length skb + 1 /\ rtb_data skb' = rtb_data skb ++ [b] /\
  (4 <= Length skb -> rx_hdr skb' = rx_hdr skb).
Proof.
  intros [W R] B L skb'.
  destruct (skb_put_copy_ok skb [b] W) as (W' & D & R'); [by constructor|simpl; lia|].
  fold skb' in W', D, R'. simpl in R'.
  assert (Len : Length skb' = Length skb + 1).
  { rewrite <- (length_rtb_data skb'), <- (length_rtb_data skb), D, length_app by done. simpl. lia. }
  split; [split; [done|lia]|]. do 2 (split; [done|]). intros L4. rewrite !rx_hdr_data by (done || lia). rewrite D.
  apply take_app_le. pose proof (length_rtb_data skb W). lia.
Qed.

(** While a frame is being read there is a buffer, and it has room. *)
Lemma rx_inv_buf h :
  rx_inv h -> 0 < rx_count h ->
  exists skb, rx_skb h = Some skb /\ rx_buf skb /\ Length skb + rx_count h <= 4101 /\ rx_count h < 4102.
Proof.
  unfold rx_inv. intros I C.
  destruct (rx_state h); try (destruct I as [? ?]; lia);
    destruct I as (? & skb & E & K & I); exists skb;
    pose proof (rx_hdr_len_byte skb (proj1 K)); destruct K as [Wk Rk];
    pose proof (length_rtb_data skb Wk); (split; [done|]); (split; [done|lia]).
Qed.

Lemma rx_put_inv skb b h :
  h5_inv h -> rx_skb h = Some skb -> 0 < rx_count h -> is_byte b -> h5_inv (rx_put skb b h).
Proof.
  intros I E C B. apply h5_inv_split in I as [I0 Ir]. apply h5_inv_split. split.
  { unfold rx_put. destruct (_ && _); auto with h5inv. }
  destruct (rx_inv_buf h Ir C) as (skb0 & E0 & K & L & L2). rewrite E in E0. simplify_eq.
  destruct (rx_buf_put skb0 b K B) as (K' & Len & D & Hh); [lia|].
  unfold rx_inv in *. unfold rx_put.
  set (skb' := skb_put_copy [b] skb0) in *. set (h1 := set_rx_skb (Some skb') h).
  set (h2 := if _ && _ then _ else h1).
  assert (V : rx_state h2 = rx_state h /\ rx_count h2 = rx_count h /\ rx_skb h2 = Some skb')
    by (unfold h2; by destruct (_ && _)).
  destruct V as (V1 & V2 & V3). simpl. rewrite V1, V2, V3, u32_small by lia.
  destruct (rx_state h); try (destruct I; lia); destruct Ir as (? & skb & E1 & _ & Ir);
    rewrite E in E1; simplify_eq; (split; [lia|]); exists skb'; (split; [done|]); (split; [done|]).
  - lia.
  - destruct Ir. rewrite Hh by lia. lia.
  - destruct Ir. rewrite Hh by lia. lia.
Qed.

Lemma unescape_byte b c : unescape b = Some c -> is_byte c.
Proof. unfold unescape. intros. repeat case_match; simplify_eq; unfold is_byte; lia. Qed.

Lemma rx_esc_inv v h : h5_inv h -> h5_inv (set_rx_esc_state v h).
Proof. rewrite !h5_inv_split. intros [? ?]. split; [auto with h5inv|done]. Qed.

Lemma drop_rx_inv st h :
  st = H5_W4_PKT_DELIMITER \/ st = H5_W4_PKT_START -> h5_inv0 h -> h5_inv (drop_rx st h).
Proof.
  intros S I. apply h5_inv_split. unfold drop_rx. split; [auto with h5inv|].
  by destruct S as [-> | ->].
Qed.

Lemma h5_unslip_inv b h :
  h5_inv h -> 0 < rx_count h -> is_byte b ->
  exists h', h5_unslip_one_byte b h = Some h' /\ h5_inv h'.
Proof.
  intros I C B. destruct (rx_inv_buf h (inv_rx h I) C) as (skb & E & _). unfold h5_unslip_one_byte.
  rewrite E. simpl. eexists. split; [done|]. destruct (rx_esc_state h).
  - destruct (b =? 219); [by apply rx_esc_inv|by apply rx_put_inv].
  - destruct (unescape b) eqn:U.
    + apply rx_esc_inv, rx_put_inv; [done..|by eapply unescape_byte].
    + apply (drop_rx_inv H5_W4_PKT_DELIMITER); [by left|]. by apply h5_inv_split in I as [? _].
Qed.

(** Rounds left before the current byte is taken. *)
Definition rx_rank (h : tHCI_H5_CB) : nat :=
  if truthy (rx_count h) then 0
  else match rx_state h with
       | H5_W4_PKT_DELIMITER => 0
       | H5_W4_HDR => 2
       | _ => 1
       end.

(** The outcome of a round is sound. *)
Definition round_ok (h : tHCI_H5_CB) (r : option rx_round) : Prop :=
  match r with
  | Some (Take h') | Some (Return h') => h5_inv h'
  | Some (Again h' _) => h5_inv h' /\ (rx_rank h' < rx_rank h)%nat
  | None => False
  end.

#[global] Arguments round_ok : simpl never.

Lemma rank_eq h st : rx_count h = 0 -> rx_state h = st ->
  rx_rank h = match st with H5_W4_PKT_DELIMITER => 0 | H5_W4_HDR => 2 | _ => 1 end%nat.
Proof. intros C <-. unfold rx_rank. rewrite C. done. Qed.

Lemma drop_round_ok h h0 c : h5_inv0 h0 -> (0 < rx_rank h)%nat ->
  round_ok h (Some (Again (drop_rx H5_W4_PKT_DELIMITER h0) c)).
Proof. intros I R. split; [by apply drop_rx_inv; [left|]|]. done. Qed.

Lemma complete_round_ok h h0 skb :
  h5_inv0 h0 -> rx_skb h0 = Some skb -> wf skb -> 4 <= Length skb -> rx_count h0 = 0 ->
  (0 < rx_rank h)%nat -> round_ok h (complete_round h0).
Proof.
  intros I E W L C R. destruct (h5_complete_rx_pkt_inv h0 skb I E W L C) as (t & h' & F & I' & S').
  unfold complete_round. rewrite F. simpl. split; [done|]. unfold rx_rank at 1. rewrite S'.
  by destruct (truthy _).
Qed.

Lemma round_hdr_ok h : h5_inv h -> rx_state h = H5_W4_HDR -> rx_count h = 0 -> round_ok h (round_hdr h).
Proof.
  intros I S C. apply h5_inv_split in I as [I0 Ir]. unfold rx_inv in Ir. rewrite S in Ir.
  destruct Ir as (_ & skb & E & K & L). assert (R : rx_rank h = 2%nat) by (by rewrite (rank_eq h _ C S)).
  unfold round_hdr. rewrite E. simpl.
  destruct (negb _); [apply drop_round_ok; [done|lia]|].
  destruct (_ && _); [apply drop_round_ok; [auto with h5inv|lia]|].
  pose proof (rx_hdr_len skb (proj1 K)) as Hl. split.
  - apply h5_inv_split. split; [auto with h5inv|]. unfold rx_inv; simpl.
    split; [lia|]. exists skb. split; [done|]. split; [done|]. lia.
  - unfold rx_rank at 1. simpl. destruct (truthy _); lia.
Qed.

Lemma round_data_ok h : h5_inv h -> rx_state h = H5_W4_DATA -> rx_count h = 0 -> round_ok h (round_data h).
Proof.
  intros I S C. apply h5_inv_split in I as [I0 Ir]. unfold rx_inv in Ir. rewrite S in Ir.
  destruct Ir as (_ & skb & E & K & L4 & L). assert (R : rx_rank h = 1%nat) by (by rewrite (rank_eq h _ C S)).
  unfold round_data. rewrite E. simpl. destruct (truthy _).
  - split.
    + apply h5_inv_split. split; [auto with h5inv|]. unfold rx_inv; simpl.
      split; [lia|]. exists skb. split; [done|]. split; [done|]. lia.
    + unfold rx_rank at 1. simpl. lia.
  - eapply complete_round_ok; [exact I0|exact E|apply K|exact L4|exact C|lia].
Qed.

Lemma skb_trim_ok skb n :
  wf skb -> 0 <= n <= Length skb ->
  let s := skb_trim skb (u32 (skb_get_data_length skb - n)) in
  wf s /\ Length s = Length skb - n /\ rtb_data s = take (Z.to_nat (Length skb - n)) (rtb_data skb) /\
  PacketType s = PacketType skb.
Proof.
  intros W Hn. unfold skb_trim, skb_get_data_length. pose proof W as (? & ? & ? & ? & ? & ?).
  rewrite (u32_small (Length skb - n)) by lia. rewrite u32_small by lia.
  replace (Length skb - (Length skb - n)) with n by lia.
  destruct (RtbRemoveTail_data skb n W Hn) as (W' & D & _ & P). simpl in *.
  split; [done|]. split; [|done].
  rewrite <- (length_rtb_data _ W'), D, length_take. pose proof (length_rtb_data skb W). lia.
Qed.

Lemma round_crc_ok h : h5_inv h -> rx_state h = H5_W4_CRC -> rx_count h = 0 -> round_ok h (round_crc h).
Proof.
  intros I S C. apply h5_inv_split in I as [I0 Ir]. unfold rx_inv in Ir. rewrite S in Ir.
  destruct Ir as (_ & skb & E & K & L4 & L). assert (R : rx_rank h = 1%nat) by (by rewrite (rank_eq h _ C S)).
  unfold round_crc. rewrite E. simpl. destruct (negb _); [apply drop_round_ok; [done|lia]|].
  pose proof (rx_hdr_len skb (proj1 K)).
  destruct (skb_trim_ok skb 2 (proj1 K)) as (W' & L' & _); [lia|].
  eapply complete_round_ok; [by apply inv0_rx_skb|done|exact W'|lia|exact C|lia].
Qed.

Lemma round_start_ok b h :
  h5_inv h -> rx_state h = H5_W4_PKT_START -> rx_count h = 0 -> round_ok h (Some (round_start b h)).
Proof.
  intros I S C. assert (R : rx_rank h = 1%nat) by (by rewrite (rank_eq h _ C S)).
  unfold round_start. destruct (b =? 192); [done|].
  apply h5_inv_split in I as [I0 _].
  set (h1 := set_message_crc _ _). assert (I1 : h5_inv0 h1) by (unfold h1; auto with h5inv).
  destruct (skb_alloc_ok 4101 h1) as (ms & E & _ & A); [lia|].
  destruct (skb_alloc 4101 h1) as [[skb|] h2]; simpl in E, A; subst h2.
  - destruct (A skb) as (W & D & Rm); [done|].
    assert (L0 : Length skb = 0) by (by rewrite <- (length_rtb_data skb W), D).
    split; [|unfold rx_rank at 1; simpl; lia]. apply h5_inv_split. split; [auto with h5inv|].
    unfold rx_inv; simpl. split; [lia|]. exists skb. split; [done|]. split; [split; [done|lia]|lia].
  - apply h5_inv_split. split; [auto with h5inv|done].
Qed.

Lemma recv_round_ok b h : h5_inv h -> is_byte b -> round_ok h (recv_round b h).
Proof.
  intros I B. unfold recv_round. pose proof (inv_rx h I) as Ir.
  destruct (truthy (rx_count h)) eqn:T.
  - assert (0 < rx_count h).
    { assert (rx_count h <> 0) by (intros Z; rewrite Z in T; done).
      unfold rx_inv in Ir. destruct (rx_state h); destruct Ir as [? _]; lia. }
    destruct (b =? 192).
    + apply drop_rx_inv; [by right|]. by apply h5_inv_split in I as [? _].
    + destruct (h5_unslip_inv b h) as (h' & -> & I'); done.
  - apply truthy_false in T. destruct (rx_state h) eqn:S.
    + destruct (b =? 192); [|done]. apply h5_inv_split in I as [I0 _]. apply h5_inv_split.
      split; [auto with h5inv|]. unfold rx_inv in *. rewrite S in Ir. done.
    + by apply round_start_ok.
    + by apply round_hdr_ok.
    + by apply round_data_ok.
    + by apply round_crc_ok.
Qed.

(** The runs of the parser's loop. *)
Inductive recv_run : list Z -> bool -> tHCI_H5_CB -> bool -> tHCI_H5_CB -> Prop :=
| run_end c h : recv_run [] c h c h
| run_take b bs c h h1 c' h' :
    recv_round b h = Some (Take h1) -> recv_run bs c h1 c' h' -> recv_run (b :: bs) c h c' h'
| run_again b bs c h h1 k c' h' :
    recv_round b h = Some (Again h1 k) -> recv_run (b :: bs) (c || k) h1 c' h' ->
    recv_run (b :: bs) c h c' h'
| run_return b bs c h h1 :
    recv_round b h = Some (Return h1) -> recv_run (b :: bs) c h false h1.

Lemma rx_rank_bound h : (rx_rank h <= 2)%nat.
Proof. unfold rx_rank. destruct (truthy _), (rx_state h); lia. Qed.

Lemma recv_loop_safe fuel data c h :
  h5_inv h -> bytes data ->
  (match data with [] => 0 | _ => rx_rank h + 1 + 3 * (length data - 1) end <= fuel)%nat ->
  exists c' h', recv_loop fuel data c h = Some (c', h') /\ h5_inv h' /\ recv_run data c h c' h'.
Proof.
  revert data c h. induction fuel as [|fuel IH]; intros data c h I B F.
  - destruct data; [|simpl in F; lia]. exists c, h. split_and!; [done|done|constructor].
  - destruct data as [|b bs]; [exists c, h; split_and!; [done|done|constructor]|].
    apply Forall_cons in B as [Bb Bs]. pose proof (recv_round_ok b h I Bb) as R. cbn [recv_loop].
    destruct (recv_round b h) as [[h1|h1 k|h1]|] eqn:E; unfold round_ok in R; simpl; [| | |done].
    + destruct (IH bs c h1 R Bs) as (c' & h' & L & I' & N).
      { pose proof (rx_rank_bound h1). destruct bs; simpl in *; lia. }
      exists c', h'. split_and!; [done|done|by eapply run_take].
    + destruct R as [I1 Rk]. destruct (IH (b :: bs) (c || k) h1 I1) as (c' & h' & L & I' & N);
        [by constructor|simpl in *; lia|].
      exists c', h'. split_and!; [done|done|by eapply run_again].
    + exists false, h1. split_and!; [done|done|by apply run_return].
Qed.

Lemma recv_run_det data c h c1 h1 :
  recv_run data c h c1 h1 -> forall c2 h2, recv_run data c h c2 h2 -> c1 = c2 /\ h1 = h2.
Proof.
  induction 1 as [c h|b bs c h h1 c' h' E _ IH|b bs c h h1 k c' h' E _ IH|b bs c h h1 E];
    intros c2 h2 H2; inversion H2; subst; try done; simplify_eq; eauto.
Qed.

Lemma h5_recv_run data h c h' :
  h5_inv h -> bytes data -> recv_run data false h c h' -> h5_recv data h = Some (c, h').
Proof.
  intros I B R. destruct (recv_loop_safe (3 * length data) data false h I B) as (c2 & h2 & E & _ & R2).
  - pose proof (rx_rank_bound h). destruct data; simpl; lia.
  - destruct (recv_run_det _ _ _ _ _ R _ _ R2) as [-> ->]. exact E.
Qed.

(** C7: Whatever bytes the controller sends, in whatever state the link is, the
    frame parser returns: it never reads through a null buffer pointer, takes
    each byte within three rounds, never writes past the 4101 bytes of the
    receive buffer, and leaves both the parser and the sending side in a state
    the next call can rely on. *)
Theorem h5_recv_safe data h :
  h5_inv h -> bytes data ->
  exists c h', h5_recv data h = Some (c, h') /\ h5_inv h' /\ recv_run data false h c h' /\
    match rx_skb h' with
    | None => rx_count h' = 0
    | Some skb => wf skb /\ Length skb + rx_count h' <= 4101 /\ room skb = 4101 - Length skb
    end.
Proof.
  intros I B. destruct (recv_loop_safe (3 * length data) data false h I B) as (c & h' & E & I' & R).
  { pose proof (rx_rank_bound h). destruct data; simpl; lia. }
  exists c, h'. split; [done|]. split; [done|]. split; [done|].
  pose proof (inv_rx h' I') as Ir. unfold rx_inv in Ir.
  destruct (rx_state h'); [destruct Ir as [? ->]; done..| | |];
    destruct Ir as (? & skb & -> & [W Rm] & Ir); pose proof (rx_hdr_len skb W);
    (split; [done|]); (split; [lia|done]).
Qed.

(** * Instances *)

Lemma h5_inv_init ms : h5_inv (hci_h5_int_init ms).
Proof.
  apply h5_inv_split. split; [|done].
  refine (conj _ (conj _ (conj _ (conj Logic.I Logic.I))));
    [constructor; simpl; done || lia|simpl; lia|constructor].
Qed.

Lemma h5_recv_safe_witness :
  exists c h', h5_recv [192; 1; 219; 7] (hci_h5_int_init []) = Some (c, h') /\ h5_inv h'.
Proof.
  destruct (h5_recv_safe [192; 1; 219; 7] (hci_h5_int_init []) (h5_inv_init [])
    ltac:(by repeat apply Forall_cons_2)) as (c & h' & E & I & _).
  exists c, h'. split; [exact E|exact I].
Defined.
