(* ===== verification/H5Roundtrip.v ===== *)
(** [hardware/bt/src/hci_h5.c]: frames built by [h5_prepare_pkt] are parsed back
    by [h5_recv]; frames that are damaged, out of order or cut short are not
    delivered. *)

From S2P Require Import Prelude BtSkbuff H5State H5Codec H5Tx H5Recv.

(** * Feeding bytes to the parser *)

(** [h'] is the state after the bytes [bs], once more bytes follow. *)
Definition feeds (h : tHCI_H5_CB) (bs : list Z) (h' : tHCI_H5_CB) : Prop :=
  forall rest c c' h'', rest <> [] -> recv_run rest c h' c' h'' -> recv_run (bs ++ rest) c h c' h''.

Lemma app_not_nil {A} (a b : list A) : b <> [] -> a ++ b <> [].
Proof. by destruct a. Qed.

Lemma feeds_nil h : feeds h [] h.
Proof. by intros rest c c' h''. Qed.

Lemma feeds_app h a h1 b h2 : feeds h a h1 -> feeds h1 b h2 -> feeds h (a ++ b) h2.
Proof.
  intros F1 F2 rest c c' h'' N R. rewrite <- app_assoc. apply F1; [by apply app_not_nil|]. by apply F2.
Qed.

Lemma feeds_take h b h' : recv_round b h = Some (Take h') -> feeds h [b] h'.
Proof. intros E rest c c' h'' N R. by eapply run_take. Qed.

(** A round that does not depend on the byte it looks at. *)
Definition skips (h : tHCI_H5_CB) (k : bool) (h' : tHCI_H5_CB) : Prop :=
  forall b, recv_round b h = Some (Again h' k).

Lemma skips_run h k h' l c c' h'' :
  skips h k h' -> l <> [] -> recv_run l (c || k) h' c' h'' -> recv_run l c h c' h''.
Proof. intros S N R. destruct l as [|b l]; [done|]. by eapply run_again. Qed.

Lemma skips_feeds h h' bs h'' : skips h false h' -> feeds h' bs h'' -> feeds h bs h''.
Proof.
  intros S F rest c c' h3 N R. eapply skips_run; [done|by apply app_not_nil|].
  rewrite orb_false_r. by apply F.
Qed.

Lemma rx_round_put h b skb :
  truthy (rx_count h) = true -> rx_skb h = Some skb -> rx_esc_state h = H5_ESCSTATE_NOESC ->
  b <> 192 -> b <> 219 -> recv_round b h = Some (Take (rx_put skb b h)).
Proof.
  intros C E N H1 H2. unfold recv_round, h5_unslip_one_byte. rewrite C, E. simpl. rewrite N.
  bdestruct; done.
Qed.

Lemma rx_round_esc h skb :
  truthy (rx_count h) = true -> rx_skb h = Some skb -> rx_esc_state h = H5_ESCSTATE_NOESC ->
  recv_round 219 h = Some (Take (set_rx_esc_state H5_ESCSTATE_ESC h)).
Proof.
  intros C E N. unfold recv_round, h5_unslip_one_byte. rewrite C, E. simpl. by rewrite N.
Qed.

Lemma rx_round_unesc h x b skb :
  truthy (rx_count h) = true -> rx_skb h = Some skb -> rx_esc_state h = H5_ESCSTATE_ESC ->
  x <> 192 -> unescape x = Some b ->
  recv_round x h = Some (Take (set_rx_esc_state H5_ESCSTATE_NOESC (rx_put skb b h))).
Proof.
  intros C E N H1 H2. unfold recv_round, h5_unslip_one_byte. rewrite C, E. simpl. rewrite N, H2.
  bdestruct; done.
Qed.

Lemma rx_put_esc skb b h :
  rx_esc_state h = H5_ESCSTATE_NOESC ->
  set_rx_esc_state H5_ESCSTATE_NOESC (rx_put skb b (set_rx_esc_state H5_ESCSTATE_ESC h)) = rx_put skb b h.
Proof. intros E. unfold rx_put. simpl. destruct (_ && _); destruct h; simpl in *; by subst. Qed.

(** The escaped form of a byte puts the byte in the buffer. *)
Lemma feeds_code oof b h skb :
  is_byte b -> truthy (rx_count h) = true -> rx_skb h = Some skb ->
  rx_esc_state h = H5_ESCSTATE_NOESC -> feeds h (slip_code oof b) (rx_put skb b h).
Proof.
  intros B C E N.
  assert (Esc : forall x, x <> 192 -> unescape x = Some b -> feeds h [219; x] (rx_put skb b h)).
  { intros x Hx U. rewrite <- (rx_put_esc skb b h N).
    apply (feeds_app h [219] (set_rx_esc_state H5_ESCSTATE_ESC h) [x]);
      apply feeds_take; [by eapply rx_round_esc|by apply rx_round_unesc]. }
  assert (Raw : b <> 192 -> b <> 219 -> feeds h [b] (rx_put skb b h)).
  { intros. by apply feeds_take, rx_round_put. }
  unfold slip_code. bdestruct; subst; try destruct (truthy oof); auto; apply Esc; done.
Qed.

(** * Feeding a run of bytes *)

(** The state in the middle of a frame. *)
Definition rx_mid (h : tHCI_H5_CB) (skb : sk_buff) (crc count : Z) : tHCI_H5_CB :=
  set_rx_count count (set_message_crc crc (set_rx_skb (Some skb) h)).

(** The CRC after [bs]: the frame's first byte [x] says whether there is one. *)
Definition rx_crc (x : Z) (st : tH5_RX_STATE) (bs : list Z) (crc : Z) : Z :=
  if truthy ((x .>> 6) .& 1) && negb (bool_decide (st = H5_W4_CRC)) then crc_of bs crc else crc.

Lemma head_lookup {A} (l : list A) x : head l = Some x -> l !! 0%nat = Some x.
Proof. by destruct l. Qed.

Lemma feeds_bytes oof x bs h skb :
  bytes bs -> rx_skb h = Some skb -> rx_buf skb -> rx_esc_state h = H5_ESCSTATE_NOESC ->
  Length skb + Z.of_nat (length bs) <= 4101 -> Z.of_nat (length bs) <= rx_count h < 4102 ->
  head (rtb_data skb ++ bs) = Some x ->
  exists skb', rx_buf skb' /\ rtb_data skb' = rtb_data skb ++ bs /\
    feeds h (slip_all oof bs)
      (rx_mid h skb' (rx_crc x (rx_state h) bs (message_crc h)) (rx_count h - Z.of_nat (length bs))).
Proof.
  intros B. revert h skb. induction B as [|b bs Hb _ IH]; intros h skb E K N L C X.
  - exists skb. split; [done|]. split; [by rewrite app_nil_r|].
    replace (rx_mid _ _ _ _) with h; [apply feeds_nil|].
    unfold rx_mid, rx_crc. simpl. rewrite Z.sub_0_r. destruct (_ && _); destruct h; simpl in *; by subst.
  - cbn [length] in *.
    destruct (rx_buf_put skb b K Hb) as (K1 & L1 & D1 & _); [lia|].
    set (skb1 := skb_put_copy [b] skb) in *.
    assert (X1 : skb_byte skb1 0 = x).
    { pose proof (skb_byte_data skb1 0 (proj1 K1)) as S. destruct K as [W _].
      pose proof (length_rtb_data skb W). rewrite D1 in S.
      assert (head (rtb_data skb ++ [b]) = Some x) as Y by (by destruct (rtb_data skb)).
      apply head_lookup in Y. change (Z.to_nat 0) with 0%nat in S. rewrite Y in S.
      assert (Some x = Some (skb_byte skb1 0)) as Z by (apply S; lia). congruence. }
    assert (F1 : feeds h (slip_code oof b) (rx_put skb b h)).
    { apply feeds_code; [done| |done|done]. unfold truthy. bdestruct; lia || done. }
    assert (M : rx_put skb b h = rx_mid h skb1 (rx_crc x (rx_state h) [b] (message_crc h)) (rx_count h - 1)).
    { unfold rx_put, rx_mid, rx_crc. fold skb1. simpl. unfold H5_HDR_CRC, rx_hdr, tbl. simpl. rewrite X1.
      destruct (_ && _); simpl; rewrite u32_small by lia; destruct h; done. }
    rewrite M in F1. set (h1 := rx_mid h skb1 _ _) in *.
    destruct (IH h1 skb1) as (skb' & K' & D' & F'); [done..|lia|simpl; lia| |].
    { rewrite D1, <- app_assoc. exact X. }
    exists skb'. split; [done|]. split; [by rewrite D', D1, <- app_assoc|].
    rewrite slip_all_cons. eapply feeds_app; [exact F1|].
    replace (rx_mid h skb' _ _) with (rx_mid h1 skb' (rx_crc x (rx_state h1) bs (message_crc h1))
      (rx_count h1 - Z.of_nat (length bs))); [done|].
    unfold h1, rx_mid, rx_crc. cbn -[Z.of_nat Z.sub].
    replace (rx_count h - Z.of_nat (S (length bs))) with (rx_count h - 1 - Z.of_nat (length bs)) by lia.
    by destruct (_ && _).
Qed.

(** * Parsing a frame *)

(** The control block without the parser's own fields. *)
Definition rx_blank (h : tHCI_H5_CB) : tHCI_H5_CB :=
  set_rx_skb None (set_rx_count 0 (set_rx_state H5_W4_PKT_DELIMITER
    (set_rx_esc_state H5_ESCSTATE_NOESC (set_message_crc 0 h)))).

(** The parser is between frames. *)
Definition rx_idle (h : tHCI_H5_CB) : Prop :=
  rx_state h = H5_W4_PKT_DELIMITER \/ rx_state h = H5_W4_PKT_START.

(** A header the parser accepts. *)
Definition hdr_accepted (h : tHCI_H5_CB) (hdr : list Z) : Prop :=
  tbl hdr 3 = 255 .& not8 (tbl hdr 0 + tbl hdr 1 + tbl hdr 2) /\
  (H5_HDR_RELIABLE hdr <> 0 -> H5_HDR_SEQ hdr = rxseq_txack h).

Lemma idle_count h : h5_inv h -> rx_idle h -> rx_count h = 0.
Proof.
  intros I [S|S]; pose proof (inv_rx h I) as Ir; unfold rx_inv in Ir; rewrite S in Ir; by destruct Ir.
Qed.

(** The delimiter between frames. *)
Lemma feeds_delim h :
  h5_inv h -> rx_idle h -> feeds h [192] (set_rx_state H5_W4_PKT_START h).
Proof.
  intros I S. pose proof (idle_count h I S) as C. apply feeds_take. unfold recv_round. rewrite C. simpl.
  destruct S as [S|S]; rewrite S; [done|]. unfold round_start. simpl. do 2 f_equal. destruct h. simpl in *. by subst.
Qed.

(** The start of a frame: a fresh buffer, four header bytes to come. *)
Definition rx_begun (h : tHCI_H5_CB) (skb : sk_buff) : tHCI_H5_CB :=
  set_rx_skb (Some skb) (set_message_crc H5_CRC_INIT (set_rx_esc_state H5_ESCSTATE_NOESC
    (set_rx_count 4 (set_rx_state H5_W4_HDR h)))).

Lemma feeds_start h :
  mallocs h = [] -> rx_count h = 0 -> rx_state h = H5_W4_PKT_START ->
  exists skb, rx_buf skb /\ rtb_data skb = [] /\
    forall b bs h', b <> 192 -> feeds (rx_begun h skb) (b :: bs) h' -> feeds h (b :: bs) h'.
Proof.
  intros M C S.
  set (h1 := set_message_crc H5_CRC_INIT (set_rx_esc_state H5_ESCSTATE_NOESC
    (set_rx_count 4 (set_rx_state H5_W4_HDR h)))).
  destruct (skb_alloc_ok 4101 h1) as (ms & E & N & A); [lia|].
  destruct (N M) as [-> [skb Es]]. destruct (A skb Es) as (W & D & R).
  assert (L0 : Length skb = 0) by (by rewrite <- (length_rtb_data skb W), D).
  exists skb. split; [split; [done|lia]|]. split; [done|].
  intros b bs h' Hb F rest c c' h'' Nr Rn. eapply run_again with (k := false).
  - unfold recv_round. rewrite C. simpl. rewrite S. unfold round_start.
    rewrite (proj2 (Z.eqb_neq b 192)) by done. fold h1.
    rewrite (surjective_pairing (skb_alloc 4101 h1)), Es, E. by rewrite (set_mallocs_nil h1 M).
  - rewrite orb_false_r. by apply F.
Qed.

(** The header is accepted: the payload is next. *)
Lemma skips_hdr h skb hdr :
  rx_count h = 0 -> rx_state h = H5_W4_HDR -> rx_skb h = Some skb -> rx_buf skb ->
  rtb_data skb = hdr -> length hdr = 4%nat -> hdr_accepted h hdr ->
  skips h false (set_rx_count (H5_HDR_LEN hdr) (set_rx_state H5_W4_DATA h)).
Proof.
  intros C S E [W _] D L [K1 K2] b. unfold recv_round. rewrite C. simpl. rewrite S.
  unfold round_hdr. rewrite E. simpl. pose proof (length_rtb_data skb W) as Ls. rewrite D, L in Ls.
  rewrite rx_hdr_data, D by (done || lia). rewrite take_ge by lia.
  rewrite K1, Z.eqb_refl. simpl. unfold truthy.
  destruct (Z.eqb_spec (H5_HDR_RELIABLE hdr) 0); [done|]. simpl. rewrite K2, Z.eqb_refl by done. done.
Qed.

(** The payload is complete and a CRC follows. *)
Lemma skips_to_crc h skb :
  rx_count h = 0 -> rx_state h = H5_W4_DATA -> rx_skb h = Some skb ->
  H5_HDR_CRC (rx_hdr skb) = 1 -> skips h false (set_rx_count 2 (set_rx_state H5_W4_CRC h)).
Proof.
  intros C S E H b. unfold recv_round. rewrite C. simpl. rewrite S. unfold round_data. rewrite E. simpl.
  by rewrite H.
Qed.

(** The state with the four bytes of the header in the buffer. *)
Definition rx_header (h : tHCI_H5_CB) (skb : sk_buff) (crc : Z) : tHCI_H5_CB :=
  rx_mid (rx_begun h skb) skb crc 0.

Lemma feeds_header oof h hdr :
  mallocs h = [] -> rx_count h = 0 -> rx_state h = H5_W4_PKT_START ->
  bytes hdr -> length hdr = 4%nat ->
  exists skb, rx_buf skb /\ rtb_data skb = hdr /\
    feeds h (slip_all oof hdr) (rx_header h skb (rx_crc (tbl hdr 0) H5_W4_HDR hdr H5_CRC_INIT)).
Proof.
  intros M C S B L4. destruct (feeds_start h M C S) as (s0 & K0 & D0 & F0).
  destruct (feeds_bytes oof (tbl hdr 0) hdr (rx_begun h s0) s0) as (s1 & K1 & D1 & F1);
    [done..| | | |].
  { rewrite <- (length_rtb_data s0), D0, L4 by apply K0. simpl. lia. }
  { simpl. lia. }
  { rewrite D0. by destruct hdr. }
  rewrite D0 in D1. exists s1. split; [done|]. split; [done|].
  destruct (slip_all_bytes oof hdr B) as [_ Nh]. pose proof (slip_all_length oof hdr B) as Ls.
  destruct (slip_all oof hdr) as [|b0 l0]; [simpl in Ls; lia|]. apply F0; [set_solver|].
  simpl rx_count in F1. rewrite L4 in F1. exact F1.
Qed.

(** The state with header and payload in the buffer. *)
Definition rx_read (h : tHCI_H5_CB) (skb : sk_buff) (crc : Z) : tHCI_H5_CB :=
  set_rx_count 0 (set_rx_state H5_W4_DATA (rx_header h skb crc)).

Lemma feeds_payload oof h hdr data :
  mallocs h = [] -> rx_count h = 0 -> rx_state h = H5_W4_PKT_START ->
  bytes (hdr ++ data) -> length hdr = 4%nat -> hdr_accepted h hdr ->
  H5_HDR_LEN hdr = Z.of_nat (length data) -> Z.of_nat (length data) <= 4095 ->
  exists skb, rx_buf skb /\ rtb_data skb = hdr ++ data /\
    feeds h (slip_all oof (hdr ++ data))
      (rx_read h skb (rx_crc (tbl hdr 0) H5_W4_DATA (hdr ++ data) H5_CRC_INIT)).
Proof.
  intros M C S B L4 A Hl Hd. apply Forall_app in B as [Bh Bd].
  destruct (feeds_header oof h hdr M C S Bh L4) as (s1 & K1 & D1 & F1).
  set (h1 := rx_header h s1 _) in F1.
  assert (Sk : skips h1 false (set_rx_count (H5_HDR_LEN hdr) (set_rx_state H5_W4_DATA h1))).
  { by apply (skips_hdr h1 s1 hdr). }
  destruct (feeds_bytes oof (tbl hdr 0) data
    (set_rx_count (H5_HDR_LEN hdr) (set_rx_state H5_W4_DATA h1)) s1) as (s2 & K2 & D2 & F2);
    [done..| | | |].
  { rewrite <- (length_rtb_data s1), D1, L4 by apply K1. lia. }
  { simpl. lia. }
  { rewrite D1. by destruct hdr. }
  rewrite D1 in D2. exists s2. split; [done|]. split; [done|].
  rewrite slip_all_app. eapply feeds_app; [exact F1|]. eapply skips_feeds; [exact Sk|].
  match type of F2 with feeds _ _ ?g => replace g with
    (rx_read h s2 (rx_crc (tbl hdr 0) H5_W4_DATA (hdr ++ data) H5_CRC_INIT)) in F2; [done|] end.
  unfold rx_read, h1, rx_header, rx_mid, rx_begun, rx_crc, crc_of. cbn -[Z.of_nat Z.sub].
  rewrite Hl, Z.sub_diag, !bool_decide_false by done. simpl. rewrite andb_true_r, foldl_app.
  destruct (truthy _); done.
Qed.

(** * The CRC of a frame *)

Lemma get_crc_data skb m hi lo :
  wf skb -> rtb_data skb = m ++ [hi; lo] -> h5_get_crc skb = u16 (lo + (hi .<< 8)).
Proof.
  intros W D. pose proof (length_rtb_data skb W) as L. rewrite D, length_app in L. simpl in L.
  pose proof (skb_byte_data skb (Length skb - 2) W ltac:(lia)) as B1.
  pose proof (skb_byte_data skb (Length skb - 1) W ltac:(lia)) as B2.
  rewrite D in B1, B2. replace (Z.to_nat (Length skb - 2)) with (length m) in B1 by lia.
  replace (Z.to_nat (Length skb - 1)) with (length m + 1)%nat in B2 by lia.
  rewrite lookup_app_r, Nat.sub_diag in B1 by lia.
  rewrite lookup_app_r, Nat.add_comm, Nat.add_sub in B2 by lia. simpl in B1, B2.
  unfold h5_get_crc, skb_get_data_length, skb_byte in *.
  replace (Data skb + Length skb - 2 + 1) with (Data skb + (Length skb - 1)) by lia.
  rewrite <- Z.add_sub_assoc. congruence.
Qed.

(** The two bytes of a 16-bit value put it together again. *)
Lemma split16 c : 0 <= c < 65536 -> u16 (u8 (c .& 255) + (u8 ((c .>> 8) .& 255) .<< 8)) = c.
Proof.
  intros Hc. rewrite !land_255_u8, !(u8_small (u8 _)) by apply u8_range.
  rewrite u8_shiftr8, Z.shiftl_mul_pow2, Z.shiftr_div_pow2 by lia. unfold u8.
  pose proof (Z.div_mod c (2 ^ 8)). rewrite u16_small; lia.
Qed.

(** A payload and its CRC pass the receiver's check. *)
Lemma crc_accepted skb m uc :
  wf skb -> truthy uc = true -> rtb_data skb = m ++ tx_crc uc m ->
  bit_rev16 (crc_of m H5_CRC_INIT) = h5_get_crc skb.
Proof.
  intros W U D. unfold tx_crc in D. rewrite U in D. rewrite (get_crc_data _ _ _ _ W D).
  symmetry. apply split16. apply u16_range.
Qed.

(** * A whole frame *)

(** The state in which [h5_complete_rx_pkt] is called on a frame. *)
Definition rx_ready (h hr : tHCI_H5_CB) (m : list Z) : Prop :=
  exists skb, rx_skb hr = Some skb /\ wf skb /\ rtb_data skb = m /\ rx_count hr = 0 /\
    rx_blank hr = rx_blank h.

Lemma inv0_blank h h' : rx_blank h' = rx_blank h -> h5_inv0 h -> h5_inv0 h'.
Proof.
  intros B I. assert (J : h5_inv0 (rx_blank h')) by (rewrite B; unfold rx_blank; auto 10 with h5inv).
  destruct J as (T & R). split; [by destruct T|exact R].
Qed.

(** Completing the packet and the closing delimiter. *)
Lemma ready_run h hr m :
  rx_ready h hr m -> h5_inv0 h -> 4 <= Z.of_nat (length m) ->
  exists t hc, h5_complete_rx_pkt hr = Some (t, hc) /\ h5_inv hc /\
    forall hr0, (forall b, recv_round b hr0 = complete_round hr) ->
      recv_run [192] false hr0 true (set_rx_state H5_W4_PKT_START hc).
Proof.
  intros (skb & E & W & D & C & Bl) I L.
  destruct (h5_complete_rx_pkt_inv hr skb) as (t & hc & Ec & Ic & Sc);
    [by eapply inv0_blank|done|done|rewrite <- (length_rtb_data skb W), D; lia|done|].
  exists t, hc. split; [done|]. split; [done|]. intros hr0 R.
  eapply run_again with (k := true); [rewrite R; unfold complete_round; by rewrite Ec|].
  pose proof (idle_count hc Ic (or_introl Sc)) as Cc.
  eapply run_take; [cbn [snd]; unfold recv_round; rewrite Cc; simpl; rewrite Sc; done|]. apply run_end.
Qed.


(** The parser reads payload and CRC and calls [h5_complete_rx_pkt]. *)
Lemma feeds_frame oof h hdr data uc :
  mallocs h = [] -> rx_count h = 0 -> rx_state h = H5_W4_PKT_START ->
  bytes (hdr ++ data) -> length hdr = 4%nat -> hdr_accepted h hdr ->
  H5_HDR_LEN hdr = Z.of_nat (length data) -> Z.of_nat (length data) <= 4095 ->
  H5_HDR_CRC hdr = b2z (truthy uc) ->
  let m := hdr ++ data in
  exists h1 hr, feeds h (slip_all oof (m ++ tx_crc uc m)) h1 /\
    rx_ready h hr m /\ (forall b, recv_round b h1 = complete_round hr).
Proof.
  intros M C S B L4 A Hl Hd Hc m.
  destruct (feeds_payload oof h hdr data M C S B L4 A Hl Hd) as (skb & K & D & F). fold m in D, F.
  pose proof (length_rtb_data skb (proj1 K)) as Ls. rewrite D in Ls. unfold m in Ls.
  rewrite length_app, L4 in Ls.
  assert (Rh : rx_hdr skb = hdr).
  { rewrite rx_hdr_data, D by (apply K || lia). unfold m. by apply take_app_len. }
  assert (Hx : forall l, head (m ++ l) = Some (tbl hdr 0)) by (unfold m; by destruct hdr).
  set (crc := rx_crc (tbl hdr 0) H5_W4_DATA m H5_CRC_INIT) in F. set (h1 := rx_read h skb crc) in F.
  unfold tx_crc. destruct (truthy uc) eqn:U; simpl in Hc.
  - set (h2 := set_rx_count 2 (set_rx_state H5_W4_CRC h1)).
    assert (Sk : skips h1 false h2) by (apply (skips_to_crc h1 skb); rewrite ?Rh; done).
    pose proof (tx_crc_bytes uc m) as Bc. unfold tx_crc in Bc. rewrite U in Bc. simpl in Bc.
    match type of Bc with Forall _ ?t => set (tr := t) in * end.
    destruct (feeds_bytes oof (tbl hdr 0) tr h2 skb) as (s2 & K2 & D2 & F2); [done..| | | |].
    { simpl. lia. } { simpl. lia. } { rewrite D. apply Hx. }
    match type of F2 with feeds _ _ ?g => set (h3 := g) in * end.
    destruct (skb_trim_ok s2 2 (proj1 K2)) as (Wt & _ & Dt & _).
    { rewrite <- (length_rtb_data s2), D2, D, length_app by apply K2. unfold m. rewrite length_app. simpl. lia. }
    exists h3, (set_rx_skb (Some (skb_trim s2 (u32 (skb_get_data_length s2 - 2)))) h3). split_and!.
    + rewrite slip_all_app. eapply feeds_app; [exact F|]. by eapply skips_feeds.
    + eexists. split; [done|]. split; [done|]. split; [|done]. rewrite Dt, D2, D.
      apply take_app_len. rewrite <- (length_rtb_data s2), D2, D, length_app by apply K2. simpl. lia.
    + intros b. unfold recv_round, round_crc, h3. simpl.
      replace (rx_crc _ _ _ _) with (crc_of m H5_CRC_INIT).
      * rewrite (crc_accepted s2 m uc), Z.eqb_refl; [done|apply K2|done|]. unfold tx_crc. rewrite U. by rewrite D2, D.
      * unfold rx_crc. simpl. rewrite andb_false_r. unfold h1, crc, rx_crc. simpl.
        unfold H5_HDR_CRC in Hc. by rewrite Hc.
  - exists h1, h1. rewrite app_nil_r. split_and!; [done| |].
    + exists skb. split; [done|]. by split; [apply K|].
    + intros b. unfold recv_round. simpl. unfold round_data. simpl. by rewrite Rh, Hc.
Qed.

Lemma frame_run oof h hdr data uc :
  h5_inv h -> mallocs h = [] -> rx_idle h ->
  bytes (hdr ++ data) -> length hdr = 4%nat -> hdr_accepted h hdr ->
  H5_HDR_LEN hdr = Z.of_nat (length data) -> Z.of_nat (length data) <= 4095 ->
  H5_HDR_CRC hdr = b2z (truthy uc) ->
  let m := hdr ++ data in
  exists hr t hc, rx_ready h hr m /\ h5_complete_rx_pkt hr = Some (t, hc) /\ h5_inv hc /\
    h5_recv (192 :: slip_all oof (m ++ tx_crc uc m) ++ [192]) h =
      Some (true, set_rx_state H5_W4_PKT_START hc).
Proof.
  intros I M Id B L4 A Hl Hd Hc m. pose proof (idle_count h I Id) as C.
  set (h0 := set_rx_state H5_W4_PKT_START h).
  destruct (feeds_frame oof h0 hdr data uc M C eq_refl B L4 A Hl Hd Hc) as (h1 & hr & F & Rd & Rn).
  fold m in F, Rd. pose proof (proj1 (proj1 (h5_inv_split h) I)) as I0.
  assert (I0' : h5_inv0 h0) by (unfold h0; auto with h5inv).
  assert (Lm : 4 <= Z.of_nat (length m)) by (unfold m; rewrite length_app, L4; lia).
  destruct (ready_run h0 hr m Rd I0' Lm) as (t & hc & Ec & Ic & Rc).
  exists hr, t, hc. split_and!; [exact Rd|done|done|].
  apply h5_recv_run; [done| |].
  - constructor; [done|]. apply Forall_app; split; [|by repeat constructor].
    apply slip_all_bytes, Forall_app; split; [done|apply tx_crc_bytes].
  - apply (feeds_delim h I Id); [by apply app_not_nil|]. apply F; [done|]. by apply Rc.
Qed.

(** * What a delivered packet changes *)

(** An event that is long enough to be looked at and is not the reply to the
    baud-rate command, the one packet the transport keeps for itself. *)
Definition not_baudrate_reply (t : Z) (data : list Z) : Prop :=
  t = HCI_EVENT_PKT ->
  match data with
  | [] => False
  | e :: rest =>
      e = HCI_COMMAND_COMPLETE_EVT ->
      match rest with
      | _ :: _ :: lo :: hi :: _ => u16 (lo + (hi .<< 8)) <> HCI_VSC_UPDATE_BAUDRATE
      | _ => False
      end
  end.

Lemma skb_byte_nth skb i x :
  wf skb -> rtb_data skb !! Z.to_nat i = Some x -> 0 <= i -> skb_byte skb i = x.
Proof.
  intros W E Hi. pose proof (lookup_lt_Some _ _ _ E). pose proof (length_rtb_data skb W).
  pose proof (skb_byte_data skb i W) as S. rewrite E in S.
  assert (Some x = Some (skb_byte skb i)) as F by (apply S; lia). congruence.
Qed.

Lemma hci_recv_frame_passes skb t h :
  wf skb -> not_baudrate_reply t (rtb_data skb) ->
  exists v, hci_recv_frame skb t h = (false, set_num_hci_cmd_pkts v h).
Proof.
  intros W N. unfold hci_recv_frame. assert (Id : h = set_num_hci_cmd_pkts (num_hci_cmd_pkts h) h) by (by destruct h).
  destruct (Z.eqb_spec t HCI_EVENT_PKT) as [Et|]; [|eexists; by rewrite <- Id].
  specialize (N Et). destruct (rtb_data skb) as [|e rest] eqn:D; [done|].
  rewrite (skb_byte_nth skb 0 e) by (done || by rewrite D).
  destruct (Z.eqb_spec e HCI_COMMAND_COMPLETE_EVT) as [Ee|]; [|eexists; by rewrite <- Id].
  specialize (N Ee). destruct rest as [|a [|b [|lo [|hi rest]]]]; try done.
  rewrite (skb_byte_nth skb 3 lo), (skb_byte_nth skb 4 hi) by (done || by rewrite D).
  destruct (Z.eqb_spec (u16 (lo + (hi .<< 8))) HCI_VSC_UPDATE_BAUDRATE); [done|eauto].
Qed.

(** The acknowledgement part of [h5_complete_rx_pkt]. *)
Lemma ack_part hdr h :
  let h' := h5_remove_acked_pkt (set_rxack (H5_HDR_ACK hdr) (note_reliable hdr h)) in
  recv_data h' = recv_data h /\ rxack h' = H5_HDR_ACK hdr /\
  rxseq_txack h' = (if truthy (H5_HDR_RELIABLE hdr) then u8 (H5_HDR_SEQ hdr + 1) mod 8 else rxseq_txack h) /\
  rx_skb h' = rx_skb h.
Proof.
  intros h'. subst h'. set (g := note_reliable hdr h).
  pose proof (remove_acked_view (set_rxack (H5_HDR_ACK hdr) g)) as V.
  assert (G : recv_data g = recv_data h /\ rx_skb g = rx_skb h /\
    rxseq_txack g = (if truthy (H5_HDR_RELIABLE hdr) then u8 (H5_HDR_SEQ hdr + 1) mod 8 else rxseq_txack h)).
  { unfold g, note_reliable. destruct (truthy _); [|done]. set (g1 := set_is_txack_req _ _).
    pose proof (h5_wake_up_view g1) as W.
    split_and!; [exact (f_equal recv_data W)|exact (f_equal rx_skb W)|exact (f_equal rxseq_txack W)]. }
  destruct G as (G1 & G2 & G3). generalize dependent g. intros g V G1 G2 G3.
  split_and!; [rewrite <- G1; exact (f_equal recv_data V)|exact (f_equal rxack V)|
    rewrite <- G3; exact (f_equal rxseq_txack V)|rewrite <- G2; exact (f_equal rx_skb V)].
Qed.

Lemma complete_delivers h t hc hdr data skb :
  rx_skb h = Some skb -> wf skb -> rtb_data skb = hdr ++ data -> length hdr = 4%nat ->
  h5_complete_rx_pkt h = Some (t, hc) ->
  pass_up (H5_HDR_PKT_TYPE hdr) = true -> not_baudrate_reply (H5_HDR_PKT_TYPE hdr) data ->
  t = H5_HDR_PKT_TYPE hdr /\
  (exists pkt, recv_data hc = recv_data h ++ [pkt] /\ wf pkt /\ rtb_data pkt = data /\
     PacketType pkt = u8 (H5_HDR_PKT_TYPE hdr)) /\
  rxack hc = H5_HDR_ACK hdr /\
  rxseq_txack hc =
    (if truthy (H5_HDR_RELIABLE hdr) then u8 (H5_HDR_SEQ hdr + 1) mod 8 else rxseq_txack h).
Proof.
  intros E W D L Ec P N. pose proof (length_rtb_data skb W) as Ls. rewrite D, length_app, L in Ls.
  assert (Rh : rx_hdr skb = hdr) by (rewrite rx_hdr_data, D by (done || lia); by apply take_app_len).
  unfold h5_complete_rx_pkt in Ec. rewrite E in Ec. simpl in Ec. rewrite Rh in Ec.
  destruct (ack_part hdr h) as (A1 & A2 & A3 & _). simpl in A1, A2, A3.
  generalize dependent (h5_remove_acked_pkt (set_rxack (H5_HDR_ACK hdr) (note_reliable hdr h))).
  intros h1 Ec A1 A2 A3. unfold handle_ctl in Ec.
  destruct (Z.eqb_spec (H5_HDR_PKT_TYPE hdr) H5_LINK_CTL_PKT) as [F|_]; [by rewrite F in P|].
  simpl in Ec. rewrite P in Ec. unfold deliver in Ec.
  destruct (RtbRemoveHead_data skb H5_HDR_SIZE W) as (Wp & Dp & _); [unfold H5_HDR_SIZE; lia|].
  set (pkt := skb_set_pkt_type (skb_pull skb H5_HDR_SIZE) (H5_HDR_PKT_TYPE hdr)) in *.
  assert (Wk : wf pkt) by done. assert (Dk : rtb_data pkt = data).
  { etrans; [exact Dp|]. rewrite D. by apply drop_app_len. }
  destruct (malloc h1) as [mr hm] eqn:Em.
  assert (Hm : recv_data hm = recv_data h1 /\ rxack hm = rxack h1 /\ rxseq_txack hm = rxseq_txack h1).
  { unfold malloc in Em. by destruct (mallocs h1); simplify_eq. }
  destruct Hm as (M1 & M2 & M3).
  destruct (hci_recv_frame_passes pkt (H5_HDR_PKT_TYPE hdr) hm Wk) as [v Ev]; [by rewrite Dk|].
  rewrite Ev in Ec. injection Ec as <- <-. simpl. split; [done|]. split; [|split; congruence].
  exists pkt. unfold skb_queue_tail. split; [congruence|]. done.
Qed.

(** C1: Round trip: a frame that the peer builds with [h5_prepare_pkt] for a data
    packet, carrying the sequence number the receiver expects when it is
    reliable, is delivered by [h5_recv] exactly once, with its type and with
    the payload unchanged whatever bytes had to be escaped and whether or not
    the link uses a CRC; the expected sequence number then advances, and the
    peer's acknowledgement is recorded. *)
Theorem frame_roundtrip peer p' nskb h data t rl :
  h5_inv h -> mallocs h = [] -> rx_idle h ->
  bytes data -> Z.of_nat (length data) <= 4095 ->
  0 <= rxseq_txack peer < 8 -> 0 <= msgq_txseq peer < 8 ->
  pkt_rel t = Some rl -> pass_up t = true -> not_baudrate_reply t data ->
  (rl = H5_RELIABLE_PKT -> msgq_txseq peer = rxseq_txack h) ->
  h5_prepare_pkt peer data (Z.of_nat (length data)) t = (Some nskb, p') ->
  exists h' pkt,
    h5_recv (skb_get_data nskb) h = Some (true, h') /\ h5_inv h' /\
    recv_data h' = recv_data h ++ [pkt] /\ rtb_data pkt = data /\ PacketType pkt = t /\
    rxseq_txack h' = (if rl =? H5_RELIABLE_PKT then (msgq_txseq peer + 1) mod 8 else rxseq_txack h) /\
    rxack h' = rxseq_txack peer.
Proof.
  intros I M Id B L Ha Hs Hr P N Sq E.
  destruct (h5_prepare_pkt_ok peer data t rl Hr B L) as (ms & _ & F). rewrite E in F.
  destruct F as (_ & _ & D).
  destruct (tx_hdr_ok peer rl (Z.of_nat (length data)) t Ha Hs) as (K1 & K2 & K3 & K4 & K5 & K6 & K7);
    [lia|done|].
  set (hdr := tx_hdr peer rl (Z.of_nat (length data)) t) in *.
  destruct (pkt_rel_cases t rl Hr) as [Cr Ct].
  destruct (frame_run (oof_flow_control peer) h hdr data (use_crc peer)) as (hr & t' & hc & Rd & Ec & Ic & R);
    [done..| |done| |done|done|done|].
  { apply Forall_app; split; [apply tx_hdr_bytes|done]. }
  { split; [done|]. rewrite K4, K1. intros Hn. destruct Cr as [->| ->]; [|done]. by apply Sq. }
  destruct Rd as (skb & Es & Ws & Ds & Cs & Bs).
  destruct (complete_delivers hr t' hc hdr data skb Es Ws Ds) as (-> & (pkt & Dr & Wp & Dp & Tp) & Ak & Rs);
    [done|done|by rewrite K5|by rewrite K5|].
  rewrite K5, u8_small in Tp by (unfold is_byte; lia).
  pose proof (f_equal recv_data Bs) as B1. pose proof (f_equal rxseq_txack Bs) as B2. simpl in B1, B2.
  exists (set_rx_state H5_W4_PKT_START hc), pkt. unfold skb_get_data. rewrite D.
  split; [exact R|]. split; [|simpl; split_and!; [congruence|done|done| |congruence]].
  - apply h5_inv_split in Ic as [I0 Ir]. apply h5_inv_split. split; [auto with h5inv|].
    destruct (h5_complete_rx_pkt_inv hr skb) as (? & ? & E2 & I2 & S2); [| |done| | |].
    { eapply inv0_blank; [exact Bs|]. by apply h5_inv_split in I as [? _]. }
    { done. } { rewrite <- (length_rtb_data skb Ws), Ds, length_app. simpl. lia. } { done. }
    rewrite Ec in E2. simplify_eq. unfold rx_inv in *. rewrite S2 in Ir. done.
  - rewrite Rs, K1, K4, B2. destruct Cr as [->| ->]; [|done]. simpl.
    rewrite u8_small by (unfold is_byte; lia). done.
Qed.

(** * Frames that are not delivered *)

Lemma after_wake_blank h : rx_blank (after_wake h) = after_wake (rx_blank h).
Proof. done. Qed.

Lemma wake_up_blank h :
  tx_inv h -> mallocs h = [] -> rx_blank (h5_wake_up h) = h5_wake_up (rx_blank h).
Proof.
  intros I M. rewrite (h5_wake_up_drains h (after_wake h)) by (by apply drains_after).
  rewrite (h5_wake_up_drains (rx_blank h) (after_wake (rx_blank h))); [done|].
  apply drains_after; [destruct I; by constructor|done].
Qed.

(** A frame dropped at its header: the round that drops it, then the byte. *)
Lemma drop_run oof h hdr b hd :
  h5_inv h -> rx_idle h -> bytes hdr -> is_byte b -> b <> 192 ->
  (exists h1, feeds (set_rx_state H5_W4_PKT_START h) (slip_all oof hdr) h1 /\
     skips h1 false (drop_rx H5_W4_PKT_DELIMITER hd)) ->
  h5_recv (192 :: slip_all oof hdr ++ [b]) h = Some (false, drop_rx H5_W4_PKT_DELIMITER hd).
Proof.
  intros I Id B Bb Nb (h1 & F & Sk). apply h5_recv_run; [done| |].
  - constructor; [done|]. apply Forall_app; split; [by apply slip_all_bytes|by constructor].
  - apply (feeds_delim h I Id); [by apply app_not_nil|]. apply F; [done|].
    eapply skips_run; [exact Sk|done|]. eapply run_take; [|apply run_end].
    unfold recv_round. simpl. by rewrite (proj2 (Z.eqb_neq b 192)).
Qed.

(** A frame whose header checksum is wrong, or a reliable frame out of
    sequence, is dropped as soon as its header is read: nothing is delivered,
    no acknowledgement number is taken from it, the expected sequence number
    stays, and the parser is back to looking for a delimiter.  Out of sequence,
    the only effect is that of [h5_wake_up] with an acknowledgement due. *)
Theorem recv_rejects_header oof h hdr b :
  h5_inv h -> mallocs h = [] -> rx_idle h -> bytes hdr -> length hdr = 4%nat ->
  is_byte b -> b <> 192 -> ~ hdr_accepted h hdr ->
  exists h',
    h5_recv (192 :: slip_all oof hdr ++ [b]) h = Some (false, h') /\
    rx_state h' = H5_W4_PKT_DELIMITER /\ rx_skb h' = None /\ rx_count h' = 0 /\
    recv_data h' = recv_data h /\ rxack h' = rxack h /\ rxseq_txack h' = rxseq_txack h /\
    rx_blank h' =
      if tbl hdr 3 =? 255 .& not8 (tbl hdr 0 + tbl hdr 1 + tbl hdr 2)
      then h5_wake_up (rx_blank (set_is_txack_req 1 h)) else rx_blank h.
Proof.
  intros I M Id B L4 Bb Nb A. pose proof (idle_count h I Id) as C.
  set (h0 := set_rx_state H5_W4_PKT_START h).
  destruct (feeds_header oof h0 hdr M C eq_refl B L4) as (skb & K & D & F).
  set (h1 := rx_header _ _ _) in F. pose proof (length_rtb_data skb (proj1 K)) as Ls. rewrite D, L4 in Ls.
  assert (Rh : rx_hdr skb = hdr) by (rewrite rx_hdr_data, D by (apply K || lia); by rewrite take_ge by lia).
  set (hd := if tbl hdr 3 =? 255 .& not8 (tbl hdr 0 + tbl hdr 1 + tbl hdr 2)
             then h5_wake_up (set_is_txack_req 1 h1) else h1).
  assert (Sk : skips h1 false (drop_rx H5_W4_PKT_DELIMITER hd)).
  { intros x. unfold recv_round. simpl. unfold round_hdr. simpl. rewrite Rh. unfold hd. rewrite Z.eqb_sym.
    destruct (Z.eqb_spec (tbl hdr 3) (255 .& not8 (tbl hdr 0 + tbl hdr 1 + tbl hdr 2))) as [E|]; [|done].
    simpl. destruct (_ && _) eqn:Bd; [done|]. destruct A. split; [done|]. intros Hr.
    unfold truthy in Bd. rewrite (proj2 (Z.eqb_neq _ 0) Hr) in Bd. simpl in Bd.
    apply negb_false_iff, Z.eqb_eq in Bd. exact Bd. }
  exists (drop_rx H5_W4_PKT_DELIMITER hd). split; [apply drop_run; eauto|].
  assert (I1 : tx_inv (set_is_txack_req 1 h1)) by (destruct (inv_tx h I); by constructor).
  do 3 (split; [done|]). unfold drop_rx. simpl. unfold hd. pose proof (h5_wake_up_view (set_is_txack_req 1 h1)) as V.
  destruct (_ =? _); [|done].
  split; [exact (f_equal recv_data V)|]. split; [exact (f_equal rxack V)|].
  split; [exact (f_equal rxseq_txack V)|]. exact (wake_up_blank _ I1 M).
Qed.

(** A frame whose CRC does not match its header and payload is dropped and
    delivers nothing: no queue, counter or sequence number changes. *)
Theorem recv_rejects_crc oof h hdr data hi lo :
  h5_inv h -> mallocs h = [] -> rx_idle h ->
  bytes (hdr ++ data) -> length hdr = 4%nat -> hdr_accepted h hdr ->
  H5_HDR_LEN hdr = Z.of_nat (length data) -> Z.of_nat (length data) <= 4095 ->
  H5_HDR_CRC hdr = 1 -> is_byte hi -> is_byte lo ->
  lo + (hi .<< 8) <> bit_rev16 (foldl h5_crc_update H5_CRC_INIT (hdr ++ data)) ->
  exists h',
    h5_recv (192 :: slip_all oof (hdr ++ data ++ [hi; lo]) ++ [192]) h = Some (false, h') /\
    rx_state h' = H5_W4_PKT_START /\ rx_skb h' = None /\ rx_blank h' = rx_blank h.
Proof.
  intros I M Id B L4 A Hl Hd Hc Bh Bl Ne. pose proof (idle_count h I Id) as C.
  set (h0 := set_rx_state H5_W4_PKT_START h). set (m := hdr ++ data) in *.
  destruct (feeds_payload oof h0 hdr data M C eq_refl B L4 A Hl Hd) as (skb & K & D & F). fold m in D, F.
  pose proof (length_rtb_data skb (proj1 K)) as Ls. rewrite D in Ls. unfold m in Ls. rewrite length_app, L4 in Ls.
  set (h1 := rx_read h0 skb _) in F. set (h2 := set_rx_count 2 (set_rx_state H5_W4_CRC h1)).
  assert (Rh : rx_hdr skb = hdr).
  { rewrite rx_hdr_data, D by (apply K || lia). unfold m. by apply take_app_len. }
  assert (Sk : skips h1 false h2) by (apply (skips_to_crc h1 skb); rewrite ?Rh; done).
  destruct (feeds_bytes oof (tbl hdr 0) [hi; lo] h2 skb) as (s2 & K2 & D2 & F2);
    [by repeat apply Forall_cons_2|done..|simpl; lia|simpl; lia|rewrite D; unfold m; by destruct hdr|].
  match type of F2 with feeds _ _ ?g => set (h3 := g) in * end. rewrite D in D2.
  assert (Sd : skips h3 false (drop_rx H5_W4_PKT_DELIMITER h3)).
  { intros b. unfold recv_round, round_crc, h3. simpl. rewrite (get_crc_data s2 m hi lo) by (apply K2 || done).
    unfold rx_crc. simpl. rewrite andb_false_r. unfold h1, rx_crc. simpl.
    unfold H5_HDR_CRC in Hc. rewrite Hc. simpl.
    rewrite (proj2 (Z.eqb_neq _ _)); [done|]. unfold is_byte in *.
    rewrite Z.shiftl_mul_pow2, u16_small in * by lia. exact (not_eq_sym Ne). }
  exists (set_rx_state H5_W4_PKT_START (drop_rx H5_W4_PKT_DELIMITER h3)). split; [|done].
  rewrite app_assoc. fold m. apply h5_recv_run; [done| |].
  - constructor; [done|]. apply Forall_app; split; [|by repeat constructor].
    apply slip_all_bytes, Forall_app; split; [done|by repeat apply Forall_cons_2].
  - apply (feeds_delim h I Id); [by apply app_not_nil|]. rewrite slip_all_app, <- app_assoc.
    apply F; [by apply app_not_nil|]. eapply skips_run; [exact Sk|by apply app_not_nil|].
    apply F2; [done|]. eapply skips_run; [exact Sd|done|]. eapply run_take; [done|]. apply run_end.
Qed.

(** * Instances: two transports just initialised *)

Lemma init_idle : rx_idle (hci_h5_int_init []).
Proof. by left. Qed.

Definition payload_ex : list Z := [192; 219; 1].

Lemma frame_roundtrip_witness :
  exists nskb p' h' pkt,
    h5_prepare_pkt (hci_h5_int_init []) payload_ex (Z.of_nat (length payload_ex)) HCI_ACLDATA_PKT = (Some nskb, p') /\
    h5_recv (skb_get_data nskb) (hci_h5_int_init []) = Some (true, h') /\
    recv_data h' = [pkt] /\ rtb_data pkt = payload_ex /\ rxseq_txack h' = 1.
Proof.
  pose proof (fun p' nskb => frame_roundtrip (hci_h5_int_init []) p' nskb (hci_h5_int_init []) payload_ex
    HCI_ACLDATA_PKT H5_RELIABLE_PKT (h5_inv_init []) eq_refl init_idle) as H.
  assert (B : bytes payload_ex) by (by repeat apply Forall_cons_2).
  assert (L : Z.of_nat (length payload_ex) <= 4095) by (simpl; lia).
  assert (R : 0 <= 0 < 8) by lia.
  assert (N : not_baudrate_reply HCI_ACLDATA_PKT payload_ex) by done.
  specialize (fun p' nskb => H p' nskb B L R R eq_refl eq_refl N (fun _ => eq_refl)).
  destruct (h5_prepare_pkt _ _ _ _) as [[nskb|] p'] eqn:E; [|by vm_compute in E].
  destruct (H p' nskb eq_refl) as (h' & pkt & Rv & _ & D & Bd & _ & S & _).
  exists nskb, p', h', pkt. split; [done|]. split; [exact Rv|]. split; [exact D|]. split; [exact Bd|exact S].
Defined.

Lemma recv_rejects_header_witness :
  exists h', h5_recv (192 :: slip_all 0 [0; 0; 0; 0] ++ [5]) (hci_h5_int_init []) = Some (false, h') /\
    recv_data h' = [].
Proof.
  destruct (recv_rejects_header 0 (hci_h5_int_init []) [0; 0; 0; 0] 5 (h5_inv_init []) eq_refl init_idle
    ltac:(by repeat apply Forall_cons_2) eq_refl ltac:(done) ltac:(lia) ltac:(by intros [[=] _]))
    as (h' & E & _ & _ & _ & D & _).
  exists h'. split; [exact E|exact D].
Defined.

Lemma recv_rejects_crc_witness :
  exists h', h5_recv (192 :: slip_all 0 ([64; 18; 0; 173] ++ [7] ++ [0; 0]) ++ [192]) (hci_h5_int_init []) =
    Some (false, h') /\ rx_skb h' = None.
Proof.
  destruct (recv_rejects_crc 0 (hci_h5_int_init []) [64; 18; 0; 173] [7] 0 0 (h5_inv_init []) eq_refl init_idle
    ltac:(by repeat apply Forall_cons_2) eq_refl ltac:(split; [reflexivity|done]) eq_refl ltac:(simpl; lia)
    eq_refl ltac:(done) ltac:(done) ltac:(by vm_compute)) as (h' & E & _ & N & _).
  exists h'. split; [exact E|exact N].
Defined.
