(* ===== verification/H5Link.v ===== *)
(** [hardware/bt/src/hci_h5.c], the service interface, the timers and the threads
    of the transport, and the transition system they form around the control
    block. *)

From S2P Require Import Prelude BtSkbuff H5State H5Codec H5Tx H5Recv.

(** * Threads *)

Definition H5_EVENT_RX := 1.
Definition H5_EVENT_EXIT := 512.

Definition h5_retransfer_signal_event (event : Z) (h : tHCI_H5_CB) : tHCI_H5_CB :=
  set_h5_ready_events (u16 (h5_ready_events h .| event)) h.

(** One round of the loop of [data_retransfer_thread]; the flag says whether the
    thread goes on.  With no event pending the thread waits: [None]. *)
Definition data_retransfer_thread (h : tHCI_H5_CB) : option (bool * tHCI_H5_CB) :=
  if h5_ready_events h =? 0 then None
  else
    let events := h5_ready_events h in
    let h := set_h5_ready_events 0 h in
    if truthy (events .& H5_EVENT_RX) then Some (true, retransfer h)
    else if truthy (events .& H5_EVENT_EXIT) then Some (false, h)
    else Some (true, h).

(** One round of the loop of [data_ready_cb_thread]. *)
Definition data_ready_cb_thread (h : tHCI_H5_CB) : option tHCI_H5_CB :=
  if truthy (h5_data_ready_running h) then
    match skb_dequeue_head (recv_data h) with
    | (Some skb, q) =>
        let h := set_data_skb (Some skb) (set_recv_data q h) in
        Some (emit (EvDataReady (skb_get_pkt_type skb) (skb_get_data_length skb)) h)
    | (None, _) => None
    end
  else None.

(** * Timeouts *)

Definition SYNC_RETRANS_COUNT := 350.
Definition CONF_RETRANS_COUNT := 350.
Definition H5_HW_INIT_READY_TIMEOUT_VALUE := 4000.
Definition h5_start_hw_init_ready_timer := OsStartTimer timer_h5_hw_init_ready H5_HW_INIT_READY_TIMEOUT_VALUE 0.
Definition h5_stop_hw_init_ready_timer := OsStopTimer timer_h5_hw_init_ready.

Definition h5_retransfer_timeout_handler (h : tHCI_H5_CB) : tHCI_H5_CB :=
  if truthy (cleanuping h) then h else h5_retransfer_signal_event H5_EVENT_RX h.

Definition h5_sync_retrans_timeout_handler (h : tHCI_H5_CB) : tHCI_H5_CB :=
  if truthy (cleanuping h) then h
  else if sync_retrans_count h <? SYNC_RETRANS_COUNT then
    let h := hci_h5_send_sync_req h in set_sync_retrans_count (u32 (sync_retrans_count h + 1)) h
  else
    let h := match link_estab_state h with
             | H5_UNINITIALIZED => rtk_notify_hw_h5_init_result 3 h | _ => h end in
    h5_stop_sync_retrans_timer h.

Definition h5_conf_retrans_timeout_handler (h : tHCI_H5_CB) : tHCI_H5_CB :=
  if truthy (cleanuping h) then h
  else if conf_retrans_count h <? CONF_RETRANS_COUNT then
    let h := hci_h5_send_conf_req h in set_conf_retrans_count (u32 (conf_retrans_count h + 1)) h
  else
    let h := match link_estab_state h with
             | H5_ACTIVE => h | _ => rtk_notify_hw_h5_init_result 3 h end in
    h5_stop_conf_retrans_timer h.

(** [None]: a null buffer is put on the queue. *)
Definition h5_wait_controller_baudrate_ready_timeout_handler (h : tHCI_H5_CB) : option tHCI_H5_CB :=
  if truthy (cleanuping h) then Some (set_internal_skb None h)
  else
    skb ← internal_skb h;
    Some (set_internal_skb None (set_recv_data (skb_queue_tail (recv_data h) skb) h)).

(** * Service interface *)

Definition hci_h5_cleanup (h : tHCI_H5_CB) : tHCI_H5_CB :=
  let h := set_cleanuping 1 h in
  let h := foldl (fun h t => emit (EvDeleteTimer t) h) h
    [timer_data_retrans; timer_sync_retrans; timer_conf_retrans; timer_wait_ct_baudrate_ready;
     timer_h5_hw_init_ready] in
  let h := if truthy (h5_data_ready_running h) then set_h5_data_ready_running 0 h else h in
  let h := if truthy (h5_retransfer_running h)
           then h5_retransfer_signal_event H5_EVENT_EXIT (set_h5_retransfer_running 0 h) else h in
  set_internal_skb None (set_unrel [] (set_rel [] (set_unack [] h))).

Definition hci_h5_receive_msg (data : list Z) (h : tHCI_H5_CB) : option (bool * tHCI_H5_CB) :=
  h5_recv data h.

(** The result is the number of bytes read, [(size_t)-1] without a packet, and
    the bytes stored in the caller's buffer. *)
Definition hci_h5_int_read_data (max_size : Z) (h : tHCI_H5_CB) : Z * list Z * tHCI_H5_CB :=
  match data_skb h with
  | None => (u64 (-1), [], h)
  | Some skb =>
      let data_len := skb_get_data_length skb in
      if data_len <=? max_size then (data_len, skb_get_data skb, set_data_skb None h)
      else (max_size, take (Z.to_nat max_size) (skb_get_data skb),
            set_data_skb (Some (skb_pull skb (u32 max_size))) h)
  end.

Definition DATA_TYPE_COMMAND := 1.

Definition hci_h5_send_cmd (type : Z) (data : list Z) (h : tHCI_H5_CB) : Z * tHCI_H5_CB :=
  if negb (type =? DATA_TYPE_COMMAND) then (u16 (-1), h)
  else
    let '(skb, h) := skb_alloc_and_init type data h in
    match skb with
    | None => (u16 (-1), h)
    | Some skb =>
        let h := h5_enqueue skb h in
        let h := set_num_hci_cmd_pkts (s32 (num_hci_cmd_pkts h - 1)) h in
        let opcode := u16 (tbl data 0 + (tbl data 1 .<< 8)) in
        let h := if opcode =? 3075 then h5_stop_hw_init_ready_timer h else h in
        (Z.of_nat (length data), h5_wake_up h)
    end.

Definition hci_h5_send_acl_data (type : Z) (data : list Z) (h : tHCI_H5_CB) : Z * tHCI_H5_CB :=
  let '(skb, h) := skb_alloc_and_init type data h in
  match skb with
  | None => (u16 (-1), h)
  | Some skb => (Z.of_nat (length data), h5_wake_up (h5_enqueue skb h))
  end.

Definition hci_h5_send_sco_data (type : Z) (data : list Z) (h : tHCI_H5_CB) : Z * tHCI_H5_CB :=
  let '(skb, h) := skb_alloc_and_init type data h in
  match skb with
  | None => (u16 (-1), h)
  | Some skb => (Z.of_nat (length data), h5_wake_up (h5_enqueue skb h))
  end.

Definition HCI_VSC_H5_INIT := 64750.

Definition hci_h5_send_sync_cmd (opcode : Z) (h : tHCI_H5_CB) : bool * tHCI_H5_CB :=
  match link_estab_state h with
  | H5_UNINITIALIZED =>
      if opcode =? HCI_VSC_H5_INIT then
        (true, h5_start_sync_retrans_timer (hci_h5_send_sync_req (h5_start_hw_init_ready_timer h)))
      else (true, h)
  | H5_INITIALIZED => (true, h)
  | H5_ACTIVE => (false, h)
  end.

(** * The transport as a transition system

    A step is one call from outside: bytes from the UART, a packet or a request
    from the stack, a timeout, a round of a thread. *)

Inductive h5_step : tHCI_H5_CB -> tHCI_H5_CB -> Prop :=
| step_receive data c h h' :
    bytes data -> hci_h5_receive_msg data h = Some (c, h') -> h5_step h h'
| step_send_cmd t data h :
    bytes data -> Z.of_nat (length data) < 65536 -> h5_step h (hci_h5_send_cmd t data h).2
| step_send_acl t data h :
    bytes data -> Z.of_nat (length data) < 65536 -> h5_step h (hci_h5_send_acl_data t data h).2
| step_send_sco t data h :
    bytes data -> Z.of_nat (length data) < 65536 -> h5_step h (hci_h5_send_sco_data t data h).2
| step_send_sync op h : h5_step h (hci_h5_send_sync_cmd op h).2
| step_read n h : 0 <= n -> h5_step h (hci_h5_int_read_data n h).2
| step_data_ready h h' : data_ready_cb_thread h = Some h' -> h5_step h h'
| step_retransfer b h h' : data_retransfer_thread h = Some (b, h') -> h5_step h h'
| step_data_timeout h : h5_step h (h5_retransfer_timeout_handler h)
| step_sync_timeout h : h5_step h (h5_sync_retrans_timeout_handler h)
| step_conf_timeout h : h5_step h (h5_conf_retrans_timeout_handler h)
| step_baud_timeout h h' :
    h5_wait_controller_baudrate_ready_timeout_handler h = Some h' -> h5_step h h'
| step_datatrans_flag v h : h5_step h (set_h5_init_datatrans_flag v h)
| step_cleanup h : h5_step h (hci_h5_cleanup h).

Definition h5_init (h : tHCI_H5_CB) : Prop := exists ms, h = hci_h5_int_init ms.

Definition h5_reachable : tHCI_H5_CB -> Prop := reachable h5_init h5_step.

(** * The invariant of the transport *)

(** Operations of the sending side keep the invariant. *)
Lemma h5_inv_tx h h' : rx_view h' = rx_view h -> tx_inv h' -> h5_inv h -> h5_inv h'.
Proof.
  intros V T I. apply h5_inv_split in I as [I0 Ir]. apply h5_inv_split.
  split; [by eapply h5_inv0_view|by eapply rx_inv_view].
Qed.

(** Updates of fields neither the parser nor the sender depends on. *)
Ltac inv_set :=
  let I := fresh in intros I; apply h5_inv_split in I as [I ?]; apply h5_inv_split;
  split; [inv0_set_hyp I|done]
with inv0_set_hyp I :=
  let T := fresh in let R := fresh in
  destruct I as (T & R); split; [destruct T; by constructor|exact R].

Lemma inv_emit e h : h5_inv h -> h5_inv (emit e h).
Proof. inv_set. Qed.
Lemma inv_start_sync h : h5_inv h -> h5_inv (h5_start_sync_retrans_timer h).
Proof. apply inv_emit. Qed.
Lemma inv_start_hw_init h : h5_inv h -> h5_inv (h5_start_hw_init_ready_timer h).
Proof. apply inv_emit. Qed.
Lemma inv_stop_hw_init h : h5_inv h -> h5_inv (h5_stop_hw_init_ready_timer h).
Proof. apply inv_emit. Qed.
Lemma inv_stop_sync h : h5_inv h -> h5_inv (h5_stop_sync_retrans_timer h).
Proof. apply inv_emit. Qed.
Lemma inv_stop_conf h : h5_inv h -> h5_inv (h5_stop_conf_retrans_timer h).
Proof. apply inv_emit. Qed.
Lemma inv_sync_count v h : h5_inv h -> h5_inv (set_sync_retrans_count v h).
Proof. inv_set. Qed.
Lemma inv_conf_count v h : h5_inv h -> h5_inv (set_conf_retrans_count v h).
Proof. inv_set. Qed.
Lemma inv_num_cmd v h : h5_inv h -> h5_inv (set_num_hci_cmd_pkts v h).
Proof. inv_set. Qed.
Lemma inv_events v h : h5_inv h -> h5_inv (set_h5_ready_events v h).
Proof. inv_set. Qed.
Lemma inv_flag v h : h5_inv h -> h5_inv (set_h5_init_datatrans_flag v h).
Proof. inv_set. Qed.

Lemma inv_cleanuping v h : h5_inv h -> h5_inv (set_cleanuping v h).
Proof. inv_set. Qed.
Lemma inv_ready_running v h : h5_inv h -> h5_inv (set_h5_data_ready_running v h).
Proof. inv_set. Qed.
Lemma inv_retransfer_running v h : h5_inv h -> h5_inv (set_h5_retransfer_running v h).
Proof. inv_set. Qed.
Lemma inv_no_internal h : h5_inv h -> h5_inv (set_internal_skb None h).
Proof.
  intros [T R A D1 D2 _]. constructor; [|exact R|done|done|done|done]. destruct T. by constructor.
Qed.
Lemma inv_no_packets h : h5_inv h -> h5_inv (set_unrel [] (set_rel [] (set_unack [] h))).
Proof.
  intros [T R A D1 D2 D3]. constructor; [|exact R|done|done|done|done].
  destruct T. constructor; simpl; done || lia.
Qed.

Lemma inv_wake_up h : h5_inv h -> h5_inv (h5_wake_up h).
Proof. intros I. eapply h5_inv_tx; [apply h5_wake_up_view|apply h5_wake_up_inv, I|done]. Qed.

Lemma inv_enqueue skb h : wf skb -> h5_inv h -> h5_inv (h5_enqueue skb h).
Proof. intros W I. eapply h5_inv_tx; [apply h5_enqueue_view|apply h5_enqueue_inv; [apply I|done]|done]. Qed.

Lemma inv_mallocs ms h : h5_inv h -> h5_inv (set_mallocs ms h).
Proof. inv_set. Qed.

Lemma inv_alloc_init t data h :
  bytes data -> Z.of_nat (length data) < 65536 -> h5_inv h ->
  let r := skb_alloc_and_init t data h in
  h5_inv r.2 /\ (forall skb, r.1 = Some skb -> wf skb).
Proof.
  intros B L I. destruct (skb_alloc_and_init_ok t data h B) as (ms & E & _ & S); [lia|].
  simpl. rewrite E. split; [by apply inv_mallocs|]. intros skb Es. by apply S.
Qed.

Lemma inv_send_ctl p h : bytes p -> (length p <= 4095)%nat -> h5_inv h -> h5_inv (send_ctl p h).
Proof.
  intros B L I. unfold send_ctl. destruct (inv_alloc_init H5_LINK_CTL_PKT p h B) as [J W]; [lia|done|].
  destruct (skb_alloc_and_init _ _ _) as [[skb|] h1]; [|done].
  apply inv_wake_up, inv_enqueue; [by apply W|done].
Qed.

Lemma inv_notify status h :
  is_byte status -> h5_inv h -> h5_inv (rtk_notify_hw_h5_init_result status h).
Proof.
  intros B I. apply h5_inv_split in I as [I0 Ir]. apply h5_inv_split. split; [by apply notify_inv0|].
  unfold rtk_notify_hw_h5_init_result. pose proof (alloc_init_view HCI_EVENT_PKT [14; 4; 3; 238; 252; status] h) as V.
  destruct (skb_alloc_and_init _ _ _) as [[skb|] h1]; simpl in V; [|by eapply rx_inv_view].
  exact (rx_inv_view h h1 V Ir).
Qed.

Lemma send_sync_req_inv h : h5_inv h -> h5_inv (hci_h5_send_sync_req h).
Proof. apply inv_send_ctl; [apply ctl_bytes|simpl; lia]. Qed.
Lemma send_conf_req_inv h : h5_inv h -> h5_inv (hci_h5_send_conf_req h).
Proof. apply inv_send_ctl; [apply ctl_bytes|simpl; lia]. Qed.

Lemma requeue_view n h : rx_view (requeue_loop n h) = rx_view h.
Proof.
  revert h. induction n as [|n IH]; intros h; [done|].
  cbn [requeue_loop]. destruct (skb_dequeue_tail (unack h)) as [[skb|] q]; [|done]. by rewrite IH.
Qed.

Lemma retransfer_view h : rx_view (retransfer h) = rx_view h.
Proof.
  unfold retransfer. destruct (_ <? _); [|done]. rewrite h5_wake_up_view.
  exact (requeue_view (length (unack h)) h).
Qed.

Lemma inv_read n h : 0 <= n -> h5_inv h -> h5_inv (hci_h5_int_read_data n h).2.
Proof.
  intros Hn I. unfold hci_h5_int_read_data. pose proof (inv_data h I) as D.
  destruct (data_skb h) as [skb|]; [|done]. simpl in D.
  apply h5_inv_split in I as [(T & A & R & _ & J) Ir]. apply h5_inv_split.
  unfold skb_get_data_length. destruct (Z.leb_spec (Length skb) n); simpl.
  - split; [|done]. refine (conj _ (conj A (conj R (conj Logic.I J)))). destruct T. by constructor.
  - split; [|done]. pose proof D as (? & ? & ? & ? & ? & ?). rewrite u32_small by lia.
    destruct (RtbRemoveHead_data skb n D) as (W & _); [lia|].
    refine (conj _ (conj A (conj R (conj W J)))). destruct T. by constructor.
Qed.

Lemma inv_send_cmd t data h :
  bytes data -> Z.of_nat (length data) < 65536 -> h5_inv h -> h5_inv (hci_h5_send_cmd t data h).2.
Proof.
  intros B L I. unfold hci_h5_send_cmd. destruct (negb _); [done|].
  destruct (inv_alloc_init t data h B L I) as [J W].
  destruct (skb_alloc_and_init t data h) as [[skb|] h1]; [|done]. simpl in *.
  apply inv_wake_up. pose proof (inv_enqueue skb h1 (W skb eq_refl) J) as E.
  destruct (_ =? 3075); [apply inv_stop_hw_init|]; by apply inv_num_cmd.
Qed.

Lemma inv_send_acl t data h :
  bytes data -> Z.of_nat (length data) < 65536 -> h5_inv h -> h5_inv (hci_h5_send_acl_data t data h).2.
Proof.
  intros B L I. unfold hci_h5_send_acl_data. destruct (inv_alloc_init t data h B L I) as [J W].
  destruct (skb_alloc_and_init t data h) as [[skb|] h1]; [|done]. apply inv_wake_up, inv_enqueue; [by apply W|done].
Qed.

Lemma inv_data_ready h h' : data_ready_cb_thread h = Some h' -> h5_inv h -> h5_inv h'.
Proof.
  unfold data_ready_cb_thread. intros E I. destruct (truthy _); [|done].
  pose proof (inv_recv h I) as R. destruct (recv_data h) as [|skb q] eqn:Q; simpl in E; [done|].
  injection E as <-. apply Forall_cons in R as [W R]. apply h5_inv_split in I as [(T & A & _ & _ & J) Ir].
  apply h5_inv_split. split; [|done]. refine (conj _ (conj A (conj R (conj W J)))). destruct T. by constructor.
Qed.

Lemma inv_retransfer_thread b h h' :
  data_retransfer_thread h = Some (b, h') -> h5_inv h -> h5_inv h'.
Proof.
  unfold data_retransfer_thread. intros E I. destruct (_ =? 0); [done|].
  pose proof (inv_events 0 h I) as J. repeat destruct (truthy _); simplify_eq; try done.
  eapply h5_inv_tx; [apply retransfer_view|apply retransfer_inv, J|done].
Qed.

Lemma inv_baud_timeout h h' :
  h5_wait_controller_baudrate_ready_timeout_handler h = Some h' -> h5_inv h -> h5_inv h'.
Proof.
  unfold h5_wait_controller_baudrate_ready_timeout_handler. intros E I.
  pose proof (inv_internal h I) as W. apply h5_inv_split in I as [(T & A & R & D & _) Ir]. apply h5_inv_split.
  destruct (truthy _).
  - injection E as <-. split; [|done]. refine (conj _ (conj A (conj R (conj D Logic.I)))). destruct T. by constructor.
  - destruct (internal_skb h) as [skb|]; [|done]. injection E as <-. split; [|done].
    refine (conj _ (conj A (conj _ (conj D Logic.I)))); [destruct T; by constructor|].
    apply Forall_app; split; [done|by constructor].
Qed.

Lemma inv_sync_timeout h : h5_inv h -> h5_inv (h5_sync_retrans_timeout_handler h).
Proof.
  intros I. unfold h5_sync_retrans_timeout_handler. destruct (truthy _); [done|]. destruct (_ <? _).
  - by apply inv_sync_count, send_sync_req_inv.
  - apply inv_stop_sync. destruct (link_estab_state h); [by apply inv_notify|done|done].
Qed.

Lemma inv_conf_timeout h : h5_inv h -> h5_inv (h5_conf_retrans_timeout_handler h).
Proof.
  intros I. unfold h5_conf_retrans_timeout_handler. destruct (truthy _); [done|]. destruct (_ <? _).
  - by apply inv_conf_count, send_conf_req_inv.
  - apply inv_stop_conf. destruct (link_estab_state h); [by apply inv_notify|by apply inv_notify|done].
Qed.

Lemma inv_send_sync op h : h5_inv h -> h5_inv (hci_h5_send_sync_cmd op h).2.
Proof.
  intros I. destruct (hci_h5_send_sync_cmd op h) as [r h'] eqn:E. simpl.
  unfold hci_h5_send_sync_cmd in E. destruct (link_estab_state h); [|by simplify_eq..].
  destruct (_ =? _); injection E as <- <-; [|done].
  by apply inv_start_sync, send_sync_req_inv, inv_start_hw_init.
Qed.

Lemma inv_cleanup h : h5_inv h -> h5_inv (hci_h5_cleanup h).
Proof.
  intros I. unfold hci_h5_cleanup. apply inv_no_internal, inv_no_packets.
  set (h1 := foldl _ _ _).
  assert (I1 : h5_inv h1) by (unfold h1; cbn [foldl]; do 5 apply inv_emit; by apply inv_cleanuping).
  set (h2 := if truthy (h5_data_ready_running h1) then _ else h1).
  assert (I2 : h5_inv h2) by (unfold h2; destruct (truthy _); [by apply inv_ready_running|done]).
  clearbody h2. destruct (truthy _); [|done]. by apply inv_events, inv_retransfer_running.
Qed.

Lemma h5_step_inv h h' : h5_inv h -> h5_step h h' -> h5_inv h'.
Proof.
  intros I H. destruct H.
  - destruct (recv_loop_safe (3 * length data) data false h I) as (c2 & h2 & E & J & _); [done| |].
    { pose proof (rx_rank_bound h). destruct data; simpl; lia. }
    unfold hci_h5_receive_msg, h5_recv in *. congruence.
  - by apply inv_send_cmd.
  - by apply inv_send_acl.
  - by apply inv_send_acl.
  - by apply inv_send_sync.
  - by apply inv_read.
  - by eapply inv_data_ready.
  - by eapply inv_retransfer_thread.
  - unfold h5_retransfer_timeout_handler. destruct (truthy _); [done|]. by apply inv_events.
  - by apply inv_sync_timeout.
  - by apply inv_conf_timeout.
  - by eapply inv_baud_timeout.
  - by apply inv_flag.
  - by apply inv_cleanup.
Qed.

(** C5: Whatever the order in which bytes arrive, packets are sent or read,
    timers fire and threads run, from initialisation on: at most seven packets
    are outstanding, the sequence and acknowledgement numbers stay within
    three bits, the queues hold only well-formed packets of their kind, and the
    parser's state and its buffer agree. *)
Theorem h5_reachable_inv h :
  h5_reachable h ->
  h5_inv h /\ (length (unack h) <= 7)%nat /\ sliding_window_size h <= 7.
Proof.
  intros R. assert (I : h5_inv h).
  { revert h R. apply reachable_inv.
    - intros h [ms ->]. apply h5_inv_init.
    - intros. by eapply h5_step_inv. }
  split; [done|]. pose proof (tx_outstanding h (inv_tx h I)). pose proof (tx_window h (inv_tx h I)). lia.
Qed.

(** * Link establishment as a state machine *)

Inductive ctl_msg := SyncReq | SyncResp | ConfReq | ConfResp | OtherMsg.

(** The message a control packet carries, told by its first two bytes. *)
Definition ctl_class (skb : sk_buff) : ctl_msg :=
  if starts_with skb h5sync then SyncReq
  else if starts_with skb h5syncresp then SyncResp
  else if starts_with skb h5conf then ConfReq
  else if starts_with skb h5confresp then ConfResp
  else OtherMsg.

(** The specification: the handshake of the three-wire transport layer. *)
Definition link_next (st : tH5_LINK_STATE) (m : ctl_msg) : tH5_LINK_STATE :=
  match st, m with
  | H5_UNINITIALIZED, SyncResp => H5_INITIALIZED
  | H5_INITIALIZED, ConfResp => H5_ACTIVE
  | H5_ACTIVE, SyncReq => H5_UNINITIALIZED
  | st, _ => st
  end.

(** What the peer's configuration byte sets. *)
Definition link_cfg (st : tH5_LINK_STATE) (m : ctl_msg) (cfg : Z) (h : tHCI_H5_CB) : Z * Z * Z :=
  match st, m with
  | H5_INITIALIZED, ConfResp =>
      (cfg .& 7, (cfg .>> 3) .& 1, if truthy ((cfg .>> 4) .& 1) then 1 else use_crc h)
  | _, _ => (sliding_window_size h, oof_flow_control h, use_crc h)
  end.

(** The link fields of the control block. *)
Definition link_part (h : tHCI_H5_CB) : tH5_LINK_STATE * (Z * Z * Z) :=
  (link_estab_state h, (sliding_window_size h, oof_flow_control h, use_crc h)).

Lemma link_part_view h h' : rx_view h' = rx_view h -> link_part h' = link_part h.
Proof. intros V. exact (f_equal link_part V). Qed.

Lemma send_ctl_link p h : link_part (send_ctl p h) = link_part h.
Proof. apply link_part_view, send_ctl_view. Qed.

Lemma timer_link t a b h : link_part (OsStartTimer t a b h) = link_part h.
Proof. done. Qed.

Lemma notify_link s h : link_part (rtk_notify_hw_h5_init_result s h) = link_part h.
Proof.
  unfold rtk_notify_hw_h5_init_result.
  pose proof (link_part_view _ _ (alloc_init_view HCI_EVENT_PKT [14; 4; 3; 238; 252; s] h)) as V.
  by destruct (skb_alloc_and_init _ _ _) as [[?|] ?].
Qed.

Lemma starts_with_excl skb p q :
  starts_with skb p = true -> tbl p 0 <> tbl q 0 -> starts_with skb q = false.
Proof.
  unfold starts_with. intros [E _]%andb_true_iff N. apply Z.eqb_eq in E. rewrite E.
  by rewrite (proj2 (Z.eqb_neq _ _) N).
Qed.

Lemma ctl_uninitialized_link skb h :
  link_part (ctl_uninitialized skb h) =
    if starts_with skb h5sync then link_part h
    else if starts_with skb h5syncresp then (H5_INITIALIZED, (link_part h).2) else link_part h.
Proof.
  unfold ctl_uninitialized. destruct (starts_with skb h5sync); [apply send_ctl_link|].
  destruct (starts_with skb h5syncresp); [|done]. etrans; [apply timer_link|].
  etrans; [apply send_ctl_link|done].
Qed.

Lemma ctl_initialized_link skb h :
  link_part (ctl_initialized skb h) =
    if starts_with skb h5sync then link_part h
    else if starts_with skb h5conf then link_part h
    else if starts_with skb h5confresp
    then (H5_ACTIVE, link_cfg H5_INITIALIZED ConfResp (skb_byte skb 2) h) else link_part h.
Proof.
  unfold ctl_initialized. do 2 (destruct (starts_with skb _); [apply send_ctl_link|]).
  destruct (starts_with skb h5confresp); [|done]. rewrite notify_link. simpl.
  unfold H5_CFG_DIC_TYPE. by destruct (truthy _).
Qed.

Lemma ctl_active_link skb h :
  link_part (ctl_active skb h) =
    if starts_with skb h5sync then (H5_UNINITIALIZED, (link_part h).2) else link_part h.
Proof.
  unfold ctl_active. destruct (starts_with skb h5sync).
  - etrans; [apply timer_link|]. etrans; [apply send_ctl_link|].
    assert (S : forall v g, link_part (set_link_estab_state v g) = (v, (link_part g).2)) by done.
    rewrite S. f_equal. etrans; [apply (f_equal snd (send_ctl_link _ _))|done].
  - destruct (starts_with skb h5conf); [apply send_ctl_link|done].
Qed.


(** * No reliable packet is lost, duplicated or reordered *)

(** The reliable packets in flight or waiting, oldest first. *)
Definition pending (h : tHCI_H5_CB) : list sk_buff := unack h ++ rel h.

Lemma dequeue_ack_pending h : pending (dequeue_ack h).2 = pending h.
Proof.
  unfold dequeue_ack. destruct (truthy _); [|done].
  pose proof (h5_prepare_pkt_state h [] 0 H5_ACK_PKT) as P.
  destruct (h5_prepare_pkt _ _ _ _) as [[?|] ?]; [destruct P as (? & ? & ->)|destruct P as (? & ->)]; done.
Qed.

Lemma dequeue_rel_pending h : pending (dequeue_rel h).2 = pending h.
Proof.
  unfold dequeue_rel. destruct (_ <? _); [|apply dequeue_ack_pending].
  destruct (rel h) as [|skb q] eqn:R; simpl; [apply dequeue_ack_pending|]. unfold prepare_skb.
  pose proof (h5_prepare_pkt_state (set_rel q h) (skb_get_data skb) (skb_get_data_length skb)
    (skb_get_pkt_type skb)) as P.
  destruct (h5_prepare_pkt _ _ _ _) as [[n|] h1].
  - destruct P as (ms & sq & ->). simpl.
    match goal with |- context [h5_start_data_retrans_timer ?g] => destruct (start_timer_state g) as [e ->] end.
    unfold pending, skb_queue_tail. simpl. by rewrite R, <- app_assoc.
  - destruct P as (ms & ->). simpl. rewrite dequeue_ack_pending. unfold pending, skb_queue_head. simpl. by rewrite R.
Qed.

Lemma h5_dequeue_pending h : pending (h5_dequeue h).2 = pending h.
Proof.
  unfold h5_dequeue. destruct (unrel h) as [|skb q]; simpl; [apply dequeue_rel_pending|]. unfold prepare_skb.
  pose proof (h5_prepare_pkt_state (set_unrel q h) (skb_get_data skb) (skb_get_data_length skb)
    (skb_get_pkt_type skb)) as P.
  destruct (h5_prepare_pkt _ _ _ _) as [[n|] h1].
  - by destruct P as (ms & sq & ->).
  - destruct P as (ms & ->). by rewrite dequeue_rel_pending.
Qed.

Lemma h5_wake_up_pending h : pending (h5_wake_up h) = pending h.
Proof.
  unfold h5_wake_up. generalize (S (wake_measure h)). intros n. revert h.
  induction n as [|n IH]; intros h; [done|]. simpl. pose proof (h5_dequeue_pending h) as P.
  destruct (h5_dequeue h) as [[skb|] h1]; [|done]. rewrite IH. exact P.
Qed.


(** * Reading a packet in pieces *)

(** Successive calls of [hci_h5_int_read_data]: the bytes they store. *)
Fixpoint read_all (sizes : list Z) (h : tHCI_H5_CB) : list Z * tHCI_H5_CB :=
  match sizes with
  | [] => ([], h)
  | n :: sizes =>
      let '(_, bs, h) := hci_h5_int_read_data n h in
      let '(rest, h) := read_all sizes h in (bs ++ rest, h)
  end.

Definition sum (ns : list Z) : Z := foldr Z.add 0 ns.

Lemma read_all_none ns h : data_skb h = None -> read_all ns h = ([], h).
Proof. intros E. induction ns as [|n ns IH]; [done|]. simpl. unfold hci_h5_int_read_data. by rewrite E, IH. Qed.

Lemma read_step h skb n :
  data_skb h = Some skb -> wf skb -> 0 <= n ->
  if n <? Length skb
  then exists skb', hci_h5_int_read_data n h = (n, take (Z.to_nat n) (rtb_data skb), set_data_skb (Some skb') h) /\
    wf skb' /\ rtb_data skb' = drop (Z.to_nat n) (rtb_data skb)
  else hci_h5_int_read_data n h = (Length skb, rtb_data skb, set_data_skb None h).
Proof.
  intros E W Hn. unfold hci_h5_int_read_data, skb_get_data_length, skb_get_data. rewrite E.
  destruct (Z.ltb_spec n (Length skb)); [rewrite (proj2 (Z.leb_gt _ _)) by lia|by rewrite (proj2 (Z.leb_le _ _)) by lia].
  pose proof W as (? & ? & ? & ? & ? & ?). rewrite u32_small by lia.
  destruct (RtbRemoveHead_data skb n W) as (W' & D & _); [lia|]. eexists. split; [done|]. by split.
Qed.

(** A packet is read in any number of pieces without losing or repeating a
    byte: the calls together store the first bytes of the packet, in order, up
    to the sum of the sizes asked for; what is left stays for the next call, and
    the packet is released exactly when its last byte is read. *)
Theorem read_data_chunks ns h skb :
  data_skb h = Some skb -> wf skb -> 0 < Length skb -> Forall (fun n => 0 <= n) ns ->
  let '(bs, h') := read_all ns h in
  bs = take (Z.to_nat (sum ns)) (rtb_data skb) /\
  match data_skb h' with
  | None => Length skb <= sum ns
  | Some rest => rtb_data rest = drop (Z.to_nat (sum ns)) (rtb_data skb) /\ sum ns < Length skb
  end.
Proof.
  intros E W L F. revert h skb E W L. induction F as [|n ns Hn Fn IH]; intros h skb E W L; simpl.
  { rewrite E. simpl. split; [done|]. split; [by rewrite drop_0|done]. }
  assert (Hs : 0 <= sum ns).
  { clear -Fn. induction Fn as [|a l Ha _ IHl]; simpl; [lia|]. unfold sum in *. lia. }
  pose proof (length_rtb_data skb W) as Ls. fold (sum ns). pose proof (read_step h skb n E W Hn) as R.
  destruct (Z.ltb_spec n (Length skb)) as [Hlt|Hge].
  - destruct R as (skb' & -> & W' & D').
    pose proof (length_rtb_data skb' W') as Ls'. rewrite D', length_drop in Ls'.
    specialize (IH (set_data_skb (Some skb') h) skb' eq_refl W' ltac:(lia)).
    destruct (read_all ns _) as [bs h']. destruct IH as [-> IH]. rewrite D' in IH |- *. split.
    + rewrite Z2Nat.inj_add by lia. by rewrite take_take_drop.
    + destruct (data_skb h'); [|lia]. destruct IH as [Dr ?]. split; [|lia].
      rewrite Dr, drop_drop, Z2Nat.inj_add by lia. done.
  - rewrite R, read_all_none by done. rewrite app_nil_r. simpl. split; [|lia]. rewrite take_ge; [done|lia].
Qed.

(** * Instances *)

Lemma h5_reachable_inv_witness : h5_inv (hci_h5_int_init []).
Proof. exact (proj1 (h5_reachable_inv _ (reach_init _ _ _ (ex_intro _ [] eq_refl)))). Defined.

(** A configuration response with window 4 and CRC, header removed. *)
Definition conf_resp_skb : sk_buff :=
  {| Mem := [0; 0; 0; 0; 0; 0; 0; 0; 0; 0; 0; 0; 4; 123; 20; 0]; Data := 12; End_ := 15; Tail := 16;
     Length := 3; HeadRoom := 12; RefCount := 1; PacketType := 15; Handle := 0 |}.



Lemma read_data_chunks_witness :
  read_all [1; 5] (set_data_skb (Some rtb_ex) (hci_h5_int_init [])) = ([17; 34], hci_h5_int_init []) /\
  (read_all [1; 5] (set_data_skb (Some rtb_ex) (hci_h5_int_init []))).1 = take 6 (rtb_data rtb_ex).
Proof.
  split; [reflexivity|].
  pose proof (read_data_chunks [1; 5] (set_data_skb (Some rtb_ex) (hci_h5_int_init [])) rtb_ex eq_refl
    rtb_ex_wf ltac:(simpl; lia) ltac:(repeat constructor; lia)) as H.
  destruct (read_all _ _) as [bs h']. exact (proj1 H).
Defined.
