(* ===== verification/SwdmxList.v ===== *)
(** [swdemux_internal.h] and [swdmx_cb_list.c] of the software demultiplexer: its
    intrusive list, proved to implement [DListOps], and the callback lists built
    on it, proved against that interface. *)

From S2P Require Import Prelude DList.

Definition swdmx_is_valid_pid (pid : Z) : bool := pid <=? 8191.

(** * The list *)

Definition swdmx_list_is_empty (l : loc) (h : heap) : option bool :=
  n ← load_next h l; Some (bool_decide (n = l)).

Definition swdmx_list_init (n : loc) (h : heap) : option heap :=
  h ← store_prev n n h;
  store_next n n h.

Definition swdmx_list_append (l n : loc) (h : heap) : option heap :=
  p ← load_prev h l;
  h ← store_prev n p h;
  h ← store_next n l h;
  p ← load_prev h l;
  h ← store_next p n h;
  store_prev l n h.

Definition swdmx_list_remove (n : loc) (h : heap) : option heap :=
  p ← load_prev h n;
  x ← load_next h n;
  h ← store_next p x h;
  x ← load_next h n;
  p ← load_prev h n;
  store_prev x p h.

Lemma swdmx_append_spliced h l p n :
  load_prev h l = Some p -> is_Some (h !! n) -> is_Some (h !! p) -> is_Some (h !! l) ->
  n <> p -> n <> l ->
  exists h', swdmx_list_append l n h = Some h' /\ spliced h h' p n l /\ frame [n; p; l] h h'.
Proof.
  intros E A1 A2 A3 D1 D2. unfold swdmx_list_append. rewrite E. simpl.
  do 2 (do_store; [alive|]). rewrite P0, P, decide_False, E by done. simpl.
  do 2 (do_store; [alive|]).
  eexists. split; [done|]. split; [split; intros b|].
  - rewrite N2, N1, N0, N. repeat case_decide; subst; done.
  - rewrite P2, P1, P0, P. repeat case_decide; subst; done.
  - intros b Hb. rewrite F2, F1, F0, F by set_solver. done.
Qed.

Lemma swdmx_append_dlist h hd l x :
  dlist h hd l -> x ∉ hd :: l -> is_Some (h !! x) ->
  exists h', swdmx_list_append hd x h = Some h' /\ dlist h' hd (l ++ [x]) /\ frame (x :: hd :: l) h h'.
Proof.
  intros H Hx A. destruct (ring_halves hd l []) as (_ & _ & _ & _ & B & _);
    [rewrite app_nil_r; apply H|].
  destruct (swdmx_append_spliced h hd (before hd l) x) as (h' & E & S & F);
    [by apply dlist_last|done|apply (dlist_alive _ _ _ _ H); set_solver..|set_solver|set_solver|].
  exists h'. split; [done|]. split; [|eapply frame_weaken; [|done]; set_solver].
  apply (splice_dlist h h' hd l [] x); [by rewrite app_nil_r..|done].
Qed.

Lemma swdmx_remove_dlist h hd l1 x l2 :
  dlist h hd (l1 ++ x :: l2) ->
  exists h', swdmx_list_remove x h = Some h' /\ dlist h' hd (l1 ++ l2) /\
    load_next h' x = load_next h x /\ frame (hd :: l1 ++ x :: l2) h h'.
Proof.
  intros H. pose proof (proj1 H) as Hd.
  rewrite <- (Permutation_middle l1 l2 x), Permutation_swap in Hd.
  apply NoDup_cons in Hd as [Hx Hd].
  destruct (ring_halves _ _ _ Hd) as (_ & _ & _ & _ & B & A).
  assert (Bx : before hd l1 <> x) by (intros <-; set_solver).
  assert (Ax : after hd l2 <> x) by (intros <-; set_solver).
  pose proof (dlist_next _ _ _ _ _ H) as En. pose proof (dlist_prev _ _ _ _ _ H) as Ep.
  unfold swdmx_list_remove. rewrite Ep, En. simpl.
  do_store; [apply (dlist_alive _ _ _ _ H); set_solver|].
  rewrite N, P, decide_False, En, Ep by done. simpl.
  do_store; [apply alive_prev; rewrite P; apply alive_prev, (dlist_alive _ _ _ _ H); set_solver|].
  eexists. split; [done|]. split; [|split].
  - eapply unsplice_dlist; [done|]. split; intros b Hb.
    + by rewrite N0, N.
    + by rewrite P0, P.
  - by rewrite N0, N, decide_False.
  - intros b Hb. rewrite F0, F by set_solver. done.
Qed.

#[export] Instance SwdmxListOps : DListOps := {|
  dl_init := swdmx_list_init;
  dl_append := swdmx_list_append;
  dl_remove := swdmx_list_remove
|}.

#[export] Instance SwdmxListLaws : DListLaws SwdmxListOps.
Proof.
  split; simpl; intros.
  - unfold swdmx_list_init. do_store; [done|]. do_store; [alive|].
    eexists. split; [done|]. split; [|eapply frame_trans; eauto].
    split; [by apply NoDup_singleton|]. apply linked_cons.
    rewrite N0, P0, P, !decide_True by done. done.
  - by apply swdmx_append_dlist.
  - destruct (swdmx_remove_dlist _ _ _ _ _ H) as (h' & ? & ? & _ & ?). eauto.
Qed.

(** A list of the source is elsewhere the list of the addresses of its elements;
    this is the removal of an address. *)
Definition without (x : loc) (l : list loc) : list loc := base.filter (fun y => y <> x) l.

Lemma elem_of_without x y l : y ∈ without x l <-> y <> x /\ y ∈ l.
Proof. unfold without. by rewrite list_elem_of_filter. Qed.

Lemma NoDup_without x l : NoDup l -> NoDup (without x l).
Proof. apply NoDup_filter. Qed.

(** * Callback lists *)

(** The callback entries in memory: their list nodes and their contents, a
    function and its argument. *)
Record cb_mem := mk_cbs { links : heap; ents : gmap loc (Z * Z) }.

(** The entries after [swdmx_cb_list_remove]: the first one with that function and
    argument is gone. *)
Definition cb_without (cb data : Z) (es : list (Z * Z)) : list (Z * Z) :=
  match list_find (fun e => e = (cb, data)) es with Some (i, _) => delete i es | None => es end.

Section CbList.
Context `{L : DListLaws}.

(** [a] is the address [kmalloc] gave and [junk] what the block held; on
    failure the source loops forever in its assertion. *)
Definition swdmx_cb_list_add (a : loc) (junk : node) (l : loc) (cb data : Z) (m : cb_mem) : option cb_mem :=
  h ← dl_append l a (<[a := junk]> (links m));
  Some (mk_cbs h (<[a := (cb, data)]> (ents m))).

(** [swdmx_free]: the node and the entry are gone. *)
Definition cb_free (ent : loc) (m : cb_mem) : cb_mem := mk_cbs (delete ent (links m)) (delete ent (ents m)).

(** The loops of [SWDMX_LIST_FOR_EACH_SAFE]: [nent] is read before the body
    runs. *)
Fixpoint cb_remove_loop (fuel : nat) (l ent nent : loc) (cb data : Z) (m : cb_mem) : option cb_mem :=
  if decide (ent = l) then Some m
  else match fuel with
  | O => None
  | S fuel =>
      e ← ents m !! ent;
      if decide (e = (cb, data)) then
        h ← dl_remove ent (links m); Some (cb_free ent (mk_cbs h (ents m)))
      else
        n ← load_next (links m) nent;
        cb_remove_loop fuel l nent n cb data m
  end.

Definition swdmx_cb_list_remove (fuel : nat) (l : loc) (cb data : Z) (m : cb_mem) : option cb_mem :=
  ent ← load_next (links m) l;
  nent ← load_next (links m) ent;
  cb_remove_loop fuel l ent nent cb data m.

Fixpoint cb_clear_loop (fuel : nat) (l ent nent : loc) (m : cb_mem) : option cb_mem :=
  if decide (ent = l) then Some m
  else match fuel with
  | O => None
  | S fuel =>
      h ← dl_remove ent (links m);
      let m := cb_free ent (mk_cbs h (ents m)) in
      n ← load_next (links m) nent;
      cb_clear_loop fuel l nent n m
  end.

Definition swdmx_cb_list_clear (fuel : nat) (l : loc) (m : cb_mem) : option cb_mem :=
  ent ← load_next (links m) l;
  nent ← load_next (links m) ent;
  m ← cb_clear_loop fuel l ent nent m;
  h ← dl_init l (links m);
  Some (mk_cbs h (ents m)).

(** The callbacks registered in the list at [l], in order. *)
Definition cb_rep (m : cb_mem) (l : loc) (addrs : list loc) (es : list (Z * Z)) : Prop :=
  dlist (links m) l addrs /\ Forall2 (fun a e => ents m !! a = Some e) addrs es.

Lemma frame_insert_fresh (a : loc) (j : node) (h : heap) : frame [a] h (<[a := j]> h).
Proof. intros b Hb. rewrite lookup_insert_ne; [done|set_solver]. Qed.

Lemma frame_delete_node (a : loc) (h : heap) : frame [a] h (delete a h).
Proof. intros b Hb. rewrite lookup_delete_ne; [done|set_solver]. Qed.

Lemma ents_other (m : gmap loc (Z * Z)) (f : gmap loc (Z * Z) -> gmap loc (Z * Z)) addrs es :
  (forall b, b ∈ addrs -> f m !! b = m !! b) ->
  Forall2 (fun a e => m !! a = Some e) addrs es -> Forall2 (fun a e => f m !! a = Some e) addrs es.
Proof.
  intros H F. induction F as [|a e addrs es E _ IH]; constructor.
  - rewrite H; [done|set_solver].
  - apply IH. intros b Hb. apply H. set_solver.
Qed.

Lemma cb_add_rep a junk l cb data m addrs es :
  cb_rep m l addrs es -> a ∉ l :: addrs ->
  exists m', swdmx_cb_list_add a junk l cb data m = Some m' /\ cb_rep m' l (addrs ++ [a]) (es ++ [(cb, data)]).
Proof.
  intros [D F] Ha. unfold swdmx_cb_list_add.
  assert (D1 : dlist (<[a := junk]> (links m)) l addrs).
  { eapply dlist_frame; [apply frame_insert_fresh| |done]. set_solver. }
  destruct (dl_append_ok _ l addrs a D1 Ha) as (h' & E & D2 & _); [rewrite lookup_insert_eq; eauto|].
  rewrite E. simpl. eexists. split; [done|]. split; [done|]. simpl. apply Forall2_app.
  - apply (ents_other (ents m) (<[a := (cb, data)]>)); [|done]. intros b Hb. rewrite lookup_insert_ne; set_solver.
  - constructor; [|done]. by rewrite lookup_insert_eq.
Qed.

(** Freeing an entry after it was unlinked. *)
Lemma cb_unlink l a1 x a2 es1 e es2 m :
  cb_rep m l (a1 ++ x :: a2) (es1 ++ e :: es2) -> length a1 = length es1 ->
  exists h, dl_remove x (links m) = Some h /\ cb_rep (cb_free x (mk_cbs h (ents m))) l (a1 ++ a2) (es1 ++ es2).
Proof.
  intros [D F] Hl. destruct (dl_remove_ok _ _ _ _ _ D) as (h & E & D1 & _). exists h. split; [done|].
  pose proof (proj1 D) as N. rewrite <- (Permutation_middle a1 a2 x), Permutation_swap in N.
  apply NoDup_cons in N as [N _].
  apply Forall2_app_inv in F as [F1 F2]; [|done].
  apply Forall2_cons in F2 as [_ F2].
  split.
  - eapply dlist_frame; [apply frame_delete_node| |done]. set_solver.
  - apply (ents_other (ents m) (delete x)); [|by apply Forall2_app].
    intros b Hb. rewrite lookup_delete_ne; set_solver.
Qed.

Lemma cb_next l a1 x a2 es m : cb_rep m l (a1 ++ x :: a2) es -> load_next (links m) x = Some (after l a2).
Proof. intros [D _]. by eapply dlist_next. Qed.

Lemma after_next l a1 a2 es m :
  cb_rep m l (a1 ++ a2) es -> exists n, load_next (links m) (after l a2) = Some n /\
    (forall x a3, a2 = x :: a3 -> n = after l a3).
Proof.
  intros [D F]. destruct a2 as [|x a3].
  - rewrite app_nil_r in D. unfold after at 1. simpl. rewrite (dlist_first _ _ _ D). by eexists.
  - eexists. split; [by eapply (dlist_next _ _ a1 x a3)|]. by intros y a4 [= -> ->].
Qed.

Lemma cb_remove_loop_rep cb data m l fuel a1 a2 es1 es2 n :
  cb_rep m l (a1 ++ a2) (es1 ++ es2) -> length a1 = length es1 -> (length a2 <= fuel)%nat ->
  (forall x a3, a2 = x :: a3 -> n = after l a3) ->
  exists m' addrs', cb_remove_loop fuel l (after l a2) n cb data m = Some m' /\
    cb_rep m' l addrs' (es1 ++ match list_find (fun e => e = (cb, data)) es2 with
                               | Some (i, _) => delete i es2 | None => es2 end).
Proof.
  revert a1 a2 es1 es2 n. induction fuel as [|fuel IH]; intros a1 a2 es1 es2 n R Hl Hf Hn.
  - destruct a2; [|simpl in Hf; lia]. destruct R as [D F].
    apply Forall2_length in F as Fl. rewrite !length_app in Fl. simpl in Fl.
    destruct es2; [|simpl in Fl; lia]. unfold after. simpl. rewrite decide_True by done.
    exists m, (a1 ++ []). done.
  - pose proof R as [D F]. apply Forall2_length in F as Fl. rewrite !length_app in Fl.
    destruct a2 as [|x a2]; destruct es2 as [|e es2]; simpl in Fl; try lia.
    { unfold after. simpl. rewrite decide_True by done. exists m, (a1 ++ []). done. }
    unfold after at 1. simpl. pose proof (proj1 D) as N. apply NoDup_cons in N as [N _].
    rewrite decide_False by set_solver.
    apply Forall2_app_inv in F as [_ F2]; [|done]. apply Forall2_cons in F2 as [Ex _].
    rewrite Ex. simpl. rewrite (Hn x a2 eq_refl). destruct (decide (e = (cb, data))) as [->|Ne].
    + destruct (cb_unlink _ _ _ _ _ _ _ _ R Hl) as (h & -> & R'). simpl. eauto.
    + destruct (after_next l (a1 ++ [x]) a2 (es1 ++ e :: es2) m) as (n' & -> & Hn');
        [by rewrite <- app_assoc|]. simpl.
      destruct (IH (a1 ++ [x]) a2 (es1 ++ [e]) es2 n') as (m' & ad' & -> & R');
        [by rewrite <- !app_assoc|rewrite !length_app; simpl; lia|simpl in Hf; lia|done|].
      exists m', ad'. split; [done|]. rewrite <- app_assoc in R'. simpl in R'.
      destruct (list_find _ es2) as [[i y]|]; done.
Qed.

Lemma cb_clear_loop_rep m l fuel a es n :
  cb_rep m l a es -> (length a <= fuel)%nat -> (forall x a3, a = x :: a3 -> n = after l a3) ->
  exists m', cb_clear_loop fuel l (after l a) n m = Some m' /\ cb_rep m' l [] [] /\
    (forall x, x ∈ a -> ents m' !! x = None) /\ (forall x, x ∉ a -> ents m' !! x = ents m !! x).
Proof.
  revert m a es n. induction fuel as [|fuel IH]; intros m a es n R Hf Hn.
  - destruct a; [|simpl in Hf; lia]. pose proof R as [D F]. inversion F; subst.
    unfold after. simpl. rewrite decide_True by done. exists m. split_and!; [done..|set_solver|done].
  - pose proof R as [D F]. destruct a as [|x a]; inversion F as [|? e ? es' Ex F2]; subst.
    { unfold after. simpl. rewrite decide_True by done. exists m. split_and!; [done..|set_solver|done]. }
    unfold after at 1. simpl. pose proof (proj1 D) as N. apply NoDup_cons in N as [N0 N].
    apply NoDup_cons in N as [N1 _]. rewrite decide_False by set_solver.
    destruct (cb_unlink l [] x a [] e es' m R eq_refl) as (h & E & R'). rewrite E. simpl in R' |- *.
    rewrite (Hn x a eq_refl). set (m1 := cb_free x (mk_cbs h (ents m))) in *.
    destruct (after_next l [] a es' m1 R') as (n' & Hl & Hn').
    change (links m1) with (delete x h) in Hl. rewrite Hl. simpl.
    destruct (IH m1 a es' n' R') as (m' & -> & R2 & G1 & G2); [simpl in Hf; lia|done|].
    exists m'. split; [done|]. split; [done|]. unfold m1, cb_free in G2; simpl in G2. split.
    + intros y Hy. apply elem_of_cons in Hy as [->|Hy]; [|auto]. rewrite G2, lookup_delete_eq by done. done.
    + intros y Hy. rewrite G2, lookup_delete_ne by set_solver. done.
Qed.

Lemma cb_remove_rep fuel l cb data m addrs es :
  cb_rep m l addrs es -> (length addrs <= fuel)%nat ->
  exists m' addrs', swdmx_cb_list_remove fuel l cb data m = Some m' /\
    cb_rep m' l addrs' (cb_without cb data es).
Proof.
  intros R Hf. unfold swdmx_cb_list_remove. rewrite (dlist_first _ _ _ (proj1 R)). simpl.
  destruct (after_next l [] addrs es m R) as (n & -> & Hn). simpl.
  apply (cb_remove_loop_rep cb data m l fuel [] addrs [] es n); done.
Qed.

Lemma cb_clear_rep fuel l m addrs es :
  cb_rep m l addrs es -> (length addrs <= fuel)%nat ->
  exists m', swdmx_cb_list_clear fuel l m = Some m' /\ cb_rep m' l [] [] /\
    (forall x, x ∈ addrs -> ents m' !! x = None).
Proof.
  intros R Hf. unfold swdmx_cb_list_clear. rewrite (dlist_first _ _ _ (proj1 R)). simpl.
  destruct (after_next l [] addrs es m R) as (n & -> & Hn). simpl.
  destruct (cb_clear_loop_rep m l fuel addrs es n R Hf Hn) as (m' & -> & [D2 _] & G & _). simpl.
  destruct (dl_init_ok (links m') l) as (h & -> & D3 & _).
  { apply (dlist_alive _ _ _ _ D2). set_solver. }
  simpl. eexists. split; [done|]. split; [by split; [|constructor]|done].
Qed.
End CbList.

(** On any list package with the promised laws, the callback lists behave as
    sequences of callbacks: [swdmx_cb_list_add] appends, [swdmx_cb_list_remove]
    takes out the first entry with that function and argument and leaves the
    list alone when there is none, and [swdmx_cb_list_clear] frees every entry
    and leaves an empty list; the traversals end although they free the nodes
    they stand on. *)
Theorem cb_list_ops `{L : DListLaws} fuel m l addrs es :
  cb_rep m l addrs es -> (length addrs <= fuel)%nat ->
  (forall a junk cb data, a ∉ l :: addrs ->
     exists m', swdmx_cb_list_add a junk l cb data m = Some m' /\
       cb_rep m' l (addrs ++ [a]) (es ++ [(cb, data)])) /\
  (forall cb data, exists m' addrs', swdmx_cb_list_remove fuel l cb data m = Some m' /\
     cb_rep m' l addrs' (cb_without cb data es)) /\
  (exists m', swdmx_cb_list_clear fuel l m = Some m' /\ cb_rep m' l [] [] /\
     (forall x, x ∈ addrs -> ents m' !! x = None)).
Proof.
  intros R Hf. split_and!.
  - intros. by apply cb_add_rep.
  - intros. by apply (cb_remove_rep fuel l cb data m addrs es).
  - by eapply cb_clear_rep.
Qed.

Definition cb_ex : cb_mem :=
  mk_cbs {[1%positive := mk_node 2 3; 2%positive := mk_node 3 1; 3%positive := mk_node 1 2]}
    {[2%positive := (10, 20); 3%positive := (11, 21)]}.

Lemma cb_ex_rep : cb_rep cb_ex 1 [2; 3]%positive [(10, 20); (11, 21)].
Proof. split; [split; [by apply (bool_decide_unpack _)|by repeat split]|by repeat constructor]. Qed.

Lemma cb_list_ops_witness :
  exists m' addrs', swdmx_cb_list_remove 2 1 11 21 cb_ex = Some m' /\ cb_rep m' 1 addrs' [(10, 20)].
Proof.
  destruct (cb_list_ops 2 cb_ex 1 [2; 3]%positive [(10, 20); (11, 21)] cb_ex_rep ltac:(simpl; lia))
    as (_ & H & _).
  exact (H 11 21).
Defined.
