(* ===== verification/SwdmxTs.v ===== *)
(** [swdmx_ts_parser.c] and [swdmx_crc32.c] of the software demultiplexer: the
    transport stream packet parser with its resynchronisation, and the section
    CRC.

    The parser hands each packet to the callbacks of its list, function pointers
    with an argument; a callback gets the packet by reference, so what it writes
    is seen by the next one.  The interface [TsCallbacks] says what the pointers
    do to the state of the consumers; the demux and the descrambler provide
    instances. *)

From S2P Require Import Prelude DList SwdmxList.

(** * Packets *)

(** The pointers into the packet are offsets from its first byte; [None] is the
    null pointer. *)
Record SWDMX_TsPacket := mk_pkt {
  pid : Z; payload_start : Z; priority : Z; error : Z; scramble : Z; cc : Z;
  packet : list Z; packet_len : Z;
  adp_field : option Z; adp_field_len : Z;
  payload : option Z; payload_len : Z
}.

(** The bytes the payload pointer gives access to. *)
Definition payload_bytes (pkt : SWDMX_TsPacket) : list Z :=
  match payload pkt with
  | None => []
  | Some o => window (Z.to_nat o) (Z.to_nat (payload_len pkt)) (packet pkt)
  end.

(** What calling the function [cb] with the argument [data] does to the packet and to
    the state [S] of the consumers. *)
Class TsCallbacks (S : Type) := call_cb : Z -> Z -> SWDMX_TsPacket -> S -> SWDMX_TsPacket * S.

(** * The parser *)

Record SWDMX_TsParser := mk_tsp { packet_size : Z; cb_list : list (Z * Z) }.

Definition swdmx_ts_parser_new : SWDMX_TsParser := mk_tsp 188 [].

(** The flag is [SWDMX_OK]. *)
Definition swdmx_ts_parser_set_packet_size (size : Z) (tsp : SWDMX_TsParser) : bool * SWDMX_TsParser :=
  if size <? 188 then (false, tsp) else (true, mk_tsp size (cb_list tsp)).

Definition swdmx_ts_parser_add_ts_packet_cb (cb data : Z) (tsp : SWDMX_TsParser) : SWDMX_TsParser :=
  mk_tsp (packet_size tsp) (cb_list tsp ++ [(cb, data)]).

Definition swdmx_ts_parser_remove_ts_packet_cb (cb data : Z) (tsp : SWDMX_TsParser) : SWDMX_TsParser :=
  mk_tsp (packet_size tsp) (cb_without cb data (cb_list tsp)).

(** The parser is [None] once it is freed; the entries of its list are freed before. *)
Definition swdmx_ts_parser_free (tsp : SWDMX_TsParser) : option SWDMX_TsParser := None.

Section Parser.
Context {S : Type} `{!TsCallbacks S}.

(** The packet at the start of [p], [None] when [ts_packet] returns without
    calling anyone. *)
Definition parse_packet (size : Z) (p : list Z) : option SWDMX_TsPacket :=
  let pid := ((tbl p 1 .& 31) .<< 8) .| tbl p 2 in
  if pid =? 8191 then None
  else
    let afc := (tbl p 3 .>> 4) .& 3 in
    let mk adp adp_len off len :=
      Some {| pid := pid; payload_start := (tbl p 1 .& 64) .>> 6; priority := (tbl p 1 .& 32) .>> 5;
              error := (tbl p 1 .& 128) .>> 7; scramble := tbl p 3 .>> 6; cc := tbl p 3 .& 15;
              packet := take (Z.to_nat size) p; packet_len := size;
              adp_field := adp; adp_field_len := adp_len;
              payload := if truthy (afc .& 1) then Some off else None;
              payload_len := if truthy (afc .& 1) then len else 0 |} in
    if truthy (afc .& 2) then
      let adp_len := tbl p 4 in
      let len := 184 - 1 - adp_len in
      if len <? 0 then None else mk (Some 5) adp_len (5 + adp_len) len
    else mk None 0 4 184.

(** The callbacks of the list, in order. *)
Definition run_cbs (cbs : list (Z * Z)) (pkt : SWDMX_TsPacket) (s : S) : SWDMX_TsPacket * S :=
  foldl (fun '(pkt, s) '(cb, data) => call_cb cb data pkt s) (pkt, s) cbs.

Definition ts_packet (tsp : SWDMX_TsParser) (p : list Z) (s : S) : S :=
  match parse_packet (packet_size tsp) p with
  | None => s
  | Some pkt => (run_cbs (cb_list tsp) pkt s).2
  end.

(** [p] is what is left of the data; the result is the length left. *)
Fixpoint ts_run_loop (fuel : nat) (tsp : SWDMX_TsParser) (p : list Z) (s : S) : list Z * S :=
  match fuel with
  | O => (p, s)
  | Datatypes.S fuel =>
      if Z.of_nat (length p) <? packet_size tsp then (p, s)
      else if tbl p 0 =? 71
      then ts_run_loop fuel tsp (drop (Z.to_nat (packet_size tsp)) p) (ts_packet tsp p s)
      else ts_run_loop fuel tsp (drop 1 p) s
  end.

(** The result is the number of bytes consumed. *)
Definition swdmx_ts_parser_run (tsp : SWDMX_TsParser) (data : list Z) (s : S) : Z * S :=
  let '(rest, s) := ts_run_loop (length data) tsp data s in
  (Z.of_nat (length data) - Z.of_nat (length rest), s).
End Parser.

(** * CRC *)

(** The inner loop of [crc32_table_init] for one entry: [j] is shifted until its
    marker bit reaches the top, 8 rounds. *)
Fixpoint crc32_entry (fuel : nat) (j k : Z) : Z :=
  match fuel with
  | O => k
  | S fuel =>
      if j =? 2147483648 then k
      else crc32_entry fuel (u32 (j .<< 1))
             (u32 (k .<< 1) .^ (if truthy ((k .^ j) .& 2147483648) then 79764919 else 0))
  end.

Definition crc32_table_init : list Z :=
  (fun i => crc32_entry 32 (u32 ((i .<< 24) .| 8388608)) 0) <$> seqZ 0 256.

Definition crc32_table : list Z := Eval vm_compute in crc32_table_init.

Definition crc32_step (i_crc b : Z) : Z :=
  u32 (i_crc .<< 8) .^ tbl crc32_table ((i_crc .>> 24) .^ b).

(** The table is filled again at every call, its first entry being zero. *)
Definition swdmx_crc32 (p : list Z) : Z := foldl crc32_step 4294967295 p.

(** * The parser: progress, chunks, alignment *)

Section ParserFacts.
Context {S : Type} `{!TsCallbacks S}.
Implicit Types tsp : SWDMX_TsParser.

Lemma tbl_app p q i : 0 <= i < Z.of_nat (length p) -> tbl (p ++ q) i = tbl p i.
Proof. intros. unfold tbl. rewrite lookup_app_l; [done|lia]. Qed.

Lemma parse_packet_app size p q :
  188 <= size -> size <= Z.of_nat (length p) -> parse_packet size (p ++ q) = parse_packet size p.
Proof.
  intros Hs Hl. unfold parse_packet. rewrite !tbl_app by lia.
  rewrite take_app_le by lia. done.
Qed.

Lemma ts_packet_app tsp p q s :
  188 <= packet_size tsp -> packet_size tsp <= Z.of_nat (length p) ->
  ts_packet tsp (p ++ q) s = ts_packet tsp p s.
Proof. intros. unfold ts_packet. by rewrite parse_packet_app. Qed.

Lemma ts_run_loop_rest fuel tsp p s :
  1 <= packet_size tsp -> (length p <= fuel)%nat ->
  Z.of_nat (length (ts_run_loop fuel tsp p s).1) < packet_size tsp /\
  exists q, p = q ++ (ts_run_loop fuel tsp p s).1.
Proof.
  intros Hs. revert p s. induction fuel as [|fuel IH]; intros p s Hf; simpl.
  - destruct p; [|simpl in Hf; lia]. simpl. split; [lia|by exists []].
  - destruct (Z.ltb_spec (Z.of_nat (length p)) (packet_size tsp)); [split; [done|by exists []]|].
    destruct (tbl p 0 =? 71).
    + edestruct (IH (drop (Z.to_nat (packet_size tsp)) p) (ts_packet tsp p s)) as [L [q Q]];
        [rewrite length_drop; lia|].
      split; [exact L|]. exists (take (Z.to_nat (packet_size tsp)) p ++ q).
      rewrite <- app_assoc, <- Q. by rewrite take_drop.
    + edestruct (IH (drop 1 p) s) as [L [q Q]]; [rewrite length_drop; lia|].
      split; [exact L|]. exists (take 1 p ++ q). rewrite <- app_assoc, <- Q. by rewrite take_drop.
Qed.

Lemma ts_run_loop_fuel f1 f2 tsp p s :
  1 <= packet_size tsp -> (length p <= f1)%nat -> (length p <= f2)%nat ->
  ts_run_loop f1 tsp p s = ts_run_loop f2 tsp p s.
Proof.
  intros Hs. revert f2 p s. induction f1 as [|f1 IH]; intros f2 p s H1 H2.
  - destruct p; [|simpl in H1; lia]. destruct f2; simpl; [done|].
    destruct (Z.ltb_spec (Z.of_nat 0) (packet_size tsp)); [done|lia].
  - destruct f2 as [|f2]; simpl.
    { destruct p; [|simpl in H2; lia]. simpl. destruct (Z.ltb_spec (Z.of_nat 0) (packet_size tsp)); [done|lia]. }
    destruct (Z.ltb_spec (Z.of_nat (length p)) (packet_size tsp)); [done|].
    destruct (tbl p 0 =? 71); apply IH; rewrite length_drop; lia.
Qed.

Lemma ts_run_loop_app f1 f2 f3 tsp a b s :
  188 <= packet_size tsp -> (length a <= f1)%nat -> (length (a ++ b) <= f2)%nat ->
  (length (a ++ b) <= f3)%nat ->
  ts_run_loop f2 tsp (a ++ b) s =
    ts_run_loop f3 tsp ((ts_run_loop f1 tsp a s).1 ++ b) (ts_run_loop f1 tsp a s).2.
Proof.
  intros Hs. revert f2 a s. induction f1 as [|f1 IH]; intros f2 a s H1 H2 H3.
  - destruct a; [|simpl in H1; lia]. simpl in *. apply ts_run_loop_fuel; lia.
  - cbn [ts_run_loop]. destruct (Z.ltb_spec (Z.of_nat (length a)) (packet_size tsp)).
    { simpl. apply ts_run_loop_fuel; lia. }
    destruct f2 as [|f2]; [rewrite length_app in H2; lia|]. cbn [ts_run_loop].
    rewrite length_app in *.
    destruct (Z.ltb_spec (Z.of_nat (length a + length b)) (packet_size tsp)); [lia|].
    rewrite tbl_app, ts_packet_app by lia. rewrite !drop_app_le by lia.
    destruct (tbl a 0 =? 71); apply IH; rewrite ?length_app, ?length_drop; lia.
Qed.

(** The transport stream parser always ends, leaves less than a packet, and
    is insensitive to how the stream is cut into calls: parsing a piece, keeping
    the bytes it did not consume and parsing them with the next piece makes the
    same callbacks with the same packets, in the same order, as parsing both
    pieces at once. *)
Theorem ts_run_chunks tsp a b s :
  188 <= packet_size tsp ->
  let '(n, s1) := swdmx_ts_parser_run tsp a s in
  let '(m, s2) := swdmx_ts_parser_run tsp (drop (Z.to_nat n) a ++ b) s1 in
  swdmx_ts_parser_run tsp (a ++ b) s = (n + m, s2) /\
  0 <= n /\ Z.of_nat (length a) - n < packet_size tsp.
Proof.
  intros Hs. unfold swdmx_ts_parser_run.
  pose proof (ts_run_loop_rest (length a) tsp a s ltac:(lia) ltac:(lia)) as [L [q Q]].
  pose proof (ts_run_loop_app (length a) (length (a ++ b)) (length (a ++ b)) tsp a b s Hs
    ltac:(lia) ltac:(lia) ltac:(lia)) as E.
  destruct (ts_run_loop (length a) tsp a s) as [r1 s1]. simpl in *. rewrite E.
  assert (D : drop (Z.to_nat (Z.of_nat (length a) - Z.of_nat (length r1))) a = r1).
  { rewrite Q at 2. rewrite Q at 1. rewrite length_app. apply drop_app_len. lia. }
  rewrite D. rewrite (ts_run_loop_fuel (length (a ++ b)) (length (r1 ++ b)) tsp (r1 ++ b) s1);
    [|lia|rewrite Q, !length_app; lia|lia].
  destruct (ts_run_loop (length (r1 ++ b)) tsp (r1 ++ b) s1) as [r2 s2].
  assert (length a = length q + length r1)%nat by (by rewrite Q, length_app).
  rewrite !length_app. split; [f_equal; lia|lia].
Qed.

(** A stream of whole packets. *)
Definition aligned (size : Z) (pkts : list (list Z)) : Prop :=
  Forall (fun p => Z.of_nat (length p) = size /\ tbl p 0 = 71) pkts.

Lemma ts_run_loop_aligned fuel tsp pkts s :
  188 <= packet_size tsp -> aligned (packet_size tsp) pkts -> (length (concat pkts) <= fuel)%nat ->
  ts_run_loop fuel tsp (concat pkts) s = ([], foldl (fun s p => ts_packet tsp p s) s pkts).
Proof.
  intros Hs A. revert fuel s. induction A as [|p pkts [Lp Sp] _ IH]; intros fuel s Hf; simpl.
  - destruct fuel; simpl; [done|]. destruct (Z.ltb_spec (Z.of_nat 0) (packet_size tsp)); [done|lia].
  - simpl in Hf. rewrite length_app in Hf. destruct fuel as [|fuel]; [lia|]. simpl. rewrite length_app.
    destruct (Z.ltb_spec (Z.of_nat (length p + length (concat pkts))) (packet_size tsp)); [lia|].
    rewrite tbl_app by lia. rewrite Sp. simpl. rewrite ts_packet_app by lia.
    rewrite drop_app_len by lia. apply IH. lia.
Qed.

Lemma ts_run_parts tsp pkts s :
  188 <= packet_size tsp -> aligned (packet_size tsp) pkts ->
  swdmx_ts_parser_run tsp (concat pkts) s =
    (Z.of_nat (length (concat pkts)), foldl (fun s p => ts_packet tsp p s) s pkts).
Proof.
  intros Hs A. unfold swdmx_ts_parser_run. rewrite ts_run_loop_aligned by (done || lia). simpl.
  f_equal. lia.
Qed.

(** On a stream of whole packets, each starting with the sync byte, the
    parser consumes everything and hands every packet over exactly once, in
    order. *)
Theorem ts_run_aligned tsp pkts s :
  188 <= packet_size tsp -> aligned (packet_size tsp) pkts ->
  swdmx_ts_parser_run tsp (concat pkts) s =
    (Z.of_nat (length (concat pkts)), foldl (fun s p => ts_packet tsp p s) s pkts).
Proof. apply ts_run_parts. Qed.
End ParserFacts.

Definition hdr_check (b1 b2 : Z) : bool :=
  (0 <=? ((b1 .& 31) .<< 8) .| b2) && (((b1 .& 31) .<< 8) .| b2 <? 8192).

Lemma ts_packet_facts size p pkt :
  bytes p -> 188 <= size <= Z.of_nat (length p) -> parse_packet size p = Some pkt ->
  0 <= pid pkt < 8191 /\
  Z.of_nat (length (packet pkt)) = size /\
  (forall o, adp_field pkt = Some o -> o = 5 /\ 0 <= adp_field_len pkt <= 183) /\
  (forall o, payload pkt = Some o ->
     o = match adp_field pkt with Some a => a + adp_field_len pkt | None => 4 end /\
     o + payload_len pkt = 188 /\ 0 <= payload_len pkt /\
     Z.of_nat (length (payload_bytes pkt)) = payload_len pkt).
Proof.
  intros B Hs. unfold parse_packet.
  assert (P : 0 <= ((tbl p 1 .& 31) .<< 8) .| tbl p 2 < 8192).
  { assert (C : hdr_check (tbl p 1) (tbl p 2) = true).
    { apply byte_cases2; [vm_compute; reflexivity|by apply tbl_byte..]. }
    unfold hdr_check in C. lia. }
  pose proof (tbl_byte p 4 B) as B4. unfold is_byte in B4.
  destruct (Z.eqb_spec (((tbl p 1 .& 31) .<< 8) .| tbl p 2) 8191); [done|].
  assert (Lp : length (take (Z.to_nat size) p) = Z.to_nat size) by (rewrite length_take; lia).
  assert (W : forall o n, 0 <= o -> 0 <= n -> o + n <= 188 ->
    length (window (Z.to_nat o) (Z.to_nat n) (take (Z.to_nat size) p)) = Z.to_nat n).
  { intros. apply length_window. rewrite Lp. lia. }
  destruct (truthy (_ .& 2)).
  - destruct (Z.ltb_spec (184 - 1 - tbl p 4) 0); [done|]. intros [= <-]. unfold payload_bytes; simpl.
    split; [lia|]. split; [lia|]. split; [intros o [= <-]; lia|].
    intros o E. destruct (truthy (_ .& 1)); [|done]. injection E as <-. rewrite W by lia. lia.
  - intros [= <-]. unfold payload_bytes; simpl. split; [lia|]. split; [lia|]. split; [done|].
    intros o E. destruct (truthy (_ .& 1)); [|done]. injection E as <-. rewrite W by lia. lia.
Qed.

(** Every packet [ts_packet] hands over has a 13-bit PID other than the null
    PID, and its adaptation field and payload lie inside the 188 bytes of the
    packet, one after the other: no consumer reads outside the packet. *)
Theorem ts_packet_bounds size p pkt :
  bytes p -> 188 <= size <= Z.of_nat (length p) -> parse_packet size p = Some pkt ->
  0 <= pid pkt < 8191 /\
  Z.of_nat (length (packet pkt)) = size /\
  (forall o, adp_field pkt = Some o -> o = 5 /\ 0 <= adp_field_len pkt <= 183) /\
  (forall o, payload pkt = Some o ->
     o = match adp_field pkt with Some a => a + adp_field_len pkt | None => 4 end /\
     o + payload_len pkt = 188 /\ 0 <= payload_len pkt /\
     Z.of_nat (length (payload_bytes pkt)) = payload_len pkt).
Proof. apply ts_packet_facts. Qed.

(** * The CRC: the table-driven loop is the bit-serial CRC-32/MPEG-2 *)

(** One step of the polynomial [0x04c11db7], most significant bit first. *)
Definition crc32_bit (r : Z) : Z := u32 (r .<< 1) .^ (if Z.testbit r 31 then 79764919 else 0).
Definition crc32_byte (crc b : Z) : Z := Nat.iter 8 crc32_bit (crc .^ (b .<< 24)).

Lemma u32_land x : u32 x = x .& Z.ones 32.
Proof. unfold u32. by rewrite Z.land_ones. Qed.

Lemma land_lxor_r a b c : (a .^ b) .& c = (a .& c) .^ (b .& c).
Proof.
  apply Z.bits_inj'. intros n Hn. rewrite !Z.land_spec, !Z.lxor_spec, !Z.land_spec.
  by destruct (Z.testbit a n), (Z.testbit b n), (Z.testbit c n).
Qed.

Lemma lxor_swap a b c d : (a .^ b) .^ (c .^ d) = (a .^ c) .^ (b .^ d).
Proof.
  rewrite !Z.lxor_assoc. f_equal. rewrite <- !Z.lxor_assoc. f_equal. apply Z.lxor_comm.
Qed.

Lemma crc32_bit_linear a b : crc32_bit (a .^ b) = crc32_bit a .^ crc32_bit b.
Proof.
  unfold crc32_bit. rewrite Z.shiftl_lxor, !u32_land, land_lxor_r, Z.lxor_spec, lxor_swap. f_equal.
  destruct (Z.testbit a 31), (Z.testbit b 31); simpl; by rewrite ?Z.lxor_0_r, ?Z.lxor_nilpotent.
Qed.

Lemma crc32_iter_linear n a b :
  Nat.iter n crc32_bit (a .^ b) = Nat.iter n crc32_bit a .^ Nat.iter n crc32_bit b.
Proof. induction n as [|n IH]; [done|]. simpl. rewrite IH. apply crc32_bit_linear. Qed.

(** With no bit at the top, a step is a shift. *)
Lemma crc32_iter_low n x :
  (n <= 8)%nat -> 0 <= x < 2 ^ 24 -> Nat.iter n crc32_bit x = x .<< Z.of_nat n.
Proof.
  intros Hn Hx. induction n as [|n IH]; [by rewrite Z.shiftl_0_r|].
  simpl Nat.iter. rewrite IH by lia. unfold crc32_bit.
  assert (R : 0 <= x .<< Z.of_nat n < 2 ^ 31).
  { rewrite Z.shiftl_mul_pow2 by lia. split; [apply Z.mul_nonneg_nonneg; lia|].
    apply Z.lt_le_trans with (2 ^ 24 * 2 ^ Z.of_nat n); [apply Z.mul_lt_mono_pos_r; lia|].
    rewrite <- Z.pow_add_r by lia. apply Z.pow_le_mono_r; lia. }
  replace (Z.testbit (x .<< Z.of_nat n) 31) with false.
  - rewrite Z.lxor_0_r, Z.shiftl_shiftl by lia. rewrite u32_small.
    + f_equal. lia.
    + rewrite <- Z.shiftl_shiftl, Z.shiftl_mul_pow2 by lia. lia.
  - symmetry. rewrite Z.testbit_false by lia. rewrite Z.div_small; [done|lia].
Qed.

Lemma crc32_table_bits i : is_byte i -> tbl crc32_table i = Nat.iter 8 crc32_bit (i .<< 24).
Proof.
  intros Hi. apply Z.eqb_eq. revert i Hi. apply byte_cases. vm_compute. reflexivity.
Qed.

(** A word is its top byte and its low 24 bits. *)
Lemma split_top x :
  0 <= x < 2 ^ 32 -> x = ((x .>> 24) .<< 24) .^ (x .& Z.ones 24) /\ is_byte (x .>> 24).
Proof.
  intros Hx. split.
  - apply Z.bits_inj'. intros n Hn. rewrite Z.lxor_spec, Z.land_spec, Z.shiftl_spec by lia.
    rewrite Z.testbit_ones_nonneg by lia. destruct (Z.ltb_spec n 24).
    + by rewrite (Z.testbit_neg_r _ (n - 24)), andb_true_r by lia.
    + rewrite Z.shiftr_spec, andb_false_r, xorb_false_r by lia. f_equal. lia.
  - rewrite Z.shiftr_div_pow2 by lia. unfold is_byte.
    split; [apply Z.div_pos; lia|apply Z.div_lt_upper_bound; lia].
Qed.

Lemma u32_shiftl_low x : u32 (x .<< 8) = (x .& Z.ones 24) .<< 8.
Proof.
  rewrite u32_land. apply Z.bits_inj'. intros n Hn.
  rewrite Z.land_spec, !Z.shiftl_spec, Z.land_spec, Z.testbit_ones_nonneg by lia.
  destruct (Z.ltb_spec n 8).
  - rewrite !(Z.testbit_neg_r _ (n - 8)) by lia. done.
  - rewrite Z.testbit_ones_nonneg by lia. destruct (Z.ltb_spec n 32), (Z.ltb_spec (n - 8) 24); try lia; done.
Qed.

Lemma crc32_step_byte c b : 0 <= c < 2 ^ 32 -> is_byte b -> crc32_step c b = crc32_byte c b.
Proof.
  intros Hc Hb. destruct (split_top c Hc) as [E T]. unfold crc32_step, crc32_byte.
  rewrite crc32_table_bits by (by apply lxor_byte).
  rewrite E at 3. rewrite Z.shiftl_lxor, (Z.lxor_comm (_ .<< 24) (c .& Z.ones 24)), Z.lxor_assoc.
  rewrite (crc32_iter_linear 8 (c .& Z.ones 24)). f_equal.
  rewrite u32_shiftl_low, crc32_iter_low; [done|lia|]. rewrite Z.land_ones by lia. apply Z.mod_pos_bound. lia.
Qed.

Lemma lxor_range32 a b : 0 <= a < 2 ^ 32 -> 0 <= b < 2 ^ 32 -> 0 <= a .^ b < 2 ^ 32.
Proof.
  intros Ha Hb.
  assert (N : 0 <= a .^ b) by (apply Z.lxor_nonneg; lia). split; [done|].
  apply Z.nle_gt. intros G. assert (H : a .^ b = (a .^ b) .& Z.ones 32).
  { rewrite land_lxor_r, !Z.land_ones, !Z.mod_small by lia. done. }
  rewrite Z.land_ones in H by lia. pose proof (Z.mod_pos_bound (a .^ b) (2 ^ 32)). lia.
Qed.

Lemma crc32_step_range c b : 0 <= c < 2 ^ 32 -> is_byte b -> 0 <= crc32_step c b < 2 ^ 32.
Proof.
  intros Hc Hb. apply lxor_range32; [apply u32_range|].
  destruct (split_top c Hc) as [_ T]. pose proof (lxor_byte _ _ T Hb) as I. revert I.
  generalize ((c .>> 24) .^ b). intros i Hi.
  cut ((0 <=? tbl crc32_table i) && (tbl crc32_table i <? 2 ^ 32) = true); [lia|].
  revert i Hi. apply byte_cases. vm_compute. reflexivity.
Qed.

Lemma crc32_fold_range p c :
  0 <= c < 2 ^ 32 -> bytes p -> 0 <= foldl crc32_step c p < 2 ^ 32.
Proof. intros Hc B. revert c Hc. induction B; simpl; intros; [done|]. by apply IHB, crc32_step_range. Qed.

(** The bytes of a word, most significant first, as a section carries its CRC. *)
Definition be32 (c : Z) : list Z := [c .>> 24; u8 (c .>> 16); u8 (c .>> 8); u8 c].

Lemma crc32_step_self c : 0 <= c < 2 ^ 32 -> crc32_step c (c .>> 24) = u32 (c .<< 8).
Proof. intros Hc. unfold crc32_step. rewrite Z.lxor_nilpotent. change (tbl crc32_table 0) with 0. apply Z.lxor_0_r. Qed.

(** The next top byte, after [k] shifts of 8. *)
Lemma top_byte c k : 0 <= k <= 24 -> u32 (c .<< k) .>> 24 = u8 (c .>> (24 - k)).
Proof.
  intros Hk. unfold u32, u8. apply Z.bits_inj'. intros n Hn. rewrite Z.shiftr_spec by lia.
  destruct (Z.lt_ge_cases n 8).
  - rewrite !Z.mod_pow2_bits_low, Z.shiftr_spec, Z.shiftl_spec by lia. f_equal. lia.
  - rewrite !Z.mod_pow2_bits_high by lia. done.
Qed.

Lemma u32_shift c j k : 0 <= j -> 0 <= k -> u32 (u32 (c .<< j) .<< k) = u32 (c .<< (j + k)).
Proof.
  intros Hj Hk. unfold u32. rewrite !Z.shiftl_mul_pow2 by lia. rewrite Z.mul_mod_idemp_l by lia.
  f_equal. rewrite Z.pow_add_r by lia. ring.
Qed.

(** The table-driven [swdmx_crc32] computes the bit-serial CRC-32/MPEG-2, and
    a section that ends with the CRC of what precedes it, most significant byte
    first, has CRC zero: the test [sec_data] makes accepts exactly such
    sections. *)
Theorem crc32_correct p :
  bytes p ->
  swdmx_crc32 p = foldl crc32_byte 4294967295 p /\
  swdmx_crc32 (p ++ be32 (swdmx_crc32 p)) = 0.
Proof.
  intros B. split.
  - unfold swdmx_crc32. assert (H : 0 <= 4294967295 < 2 ^ 32) by lia. revert H. generalize 4294967295.
    induction B as [|b p Hb _ IH]; intros c Hc; simpl; [done|].
    rewrite IH by (by apply crc32_step_range). by rewrite crc32_step_byte.
  - unfold swdmx_crc32. rewrite foldl_app. set (c := foldl crc32_step _ p).
    assert (Hc : 0 <= c < 2 ^ 32) by (apply crc32_fold_range; [lia|done]).
    unfold be32. simpl. rewrite crc32_step_self by done.
    replace (u8 (c .>> 16)) with (u32 (c .<< 8) .>> 24) by (by rewrite top_byte by lia).
    rewrite crc32_step_self by apply u32_range. rewrite u32_shift by lia. change (8 + 8) with 16.
    replace (u8 (c .>> 8)) with (u32 (c .<< 16) .>> 24) by (by rewrite top_byte by lia).
    rewrite crc32_step_self by apply u32_range. rewrite u32_shift by lia. change (16 + 8) with 24.
    replace (u8 c) with (u32 (c .<< 24) .>> 24) by (rewrite top_byte by lia; by rewrite Z.shiftr_0_r).
    rewrite crc32_step_self by apply u32_range. rewrite u32_shift by lia.
    unfold u32. rewrite Z.shiftl_mul_pow2 by lia. apply Z.mod_mul. lia.
Qed.

(** * Instances *)

#[local] Instance log_pids : TsCallbacks (list Z) := fun _ _ pkt s => (pkt, s ++ [pid pkt]).
Definition tsp_ex : SWDMX_TsParser := swdmx_ts_parser_add_ts_packet_cb 1 2 swdmx_ts_parser_new.
Definition ts_ex : list Z := 71 :: 0 :: 7 :: 16 :: replicate 184 0.

Lemma ts_run_chunks_witness :
  swdmx_ts_parser_run tsp_ex (ts_ex ++ ts_ex) [] =
    (188 + (swdmx_ts_parser_run tsp_ex ts_ex [7]).1, (swdmx_ts_parser_run tsp_ex ts_ex [7]).2).
Proof.
  pose proof (ts_run_chunks tsp_ex ts_ex ts_ex [] ltac:(simpl; lia)) as H.
  change (swdmx_ts_parser_run tsp_ex ts_ex []) with (188, [7]) in H. cbn [drop] in H.
  change (drop (Z.to_nat 188) ts_ex ++ ts_ex) with ts_ex in H.
  destruct (swdmx_ts_parser_run tsp_ex ts_ex [7]) as [m s2]. exact (proj1 H).
Defined.

Lemma ts_run_aligned_witness : swdmx_ts_parser_run tsp_ex (concat [ts_ex; ts_ex]) [] = (376, [7; 7]).
Proof.
  rewrite (ts_run_aligned tsp_ex [ts_ex; ts_ex] []); [reflexivity|simpl; lia|by repeat constructor].
Defined.

Lemma ts_packet_bounds_witness :
  exists pkt, parse_packet 188 ts_ex = Some pkt /\ pid pkt = 7 /\
    Z.of_nat (length (payload_bytes pkt)) = 184.
Proof.
  eexists. split; [reflexivity|]. split; [reflexivity|].
  refine (proj2 (proj2 (proj2 (proj2 (proj2 (proj2 (ts_packet_bounds 188 ts_ex _ _ _ eq_refl))) 4 eq_refl)))).
  - by repeat apply Forall_cons_2.
  - simpl. lia.
Defined.

Lemma crc32_correct_witness : swdmx_crc32 ([1; 2] ++ be32 (swdmx_crc32 [1; 2])) = 0.
Proof. apply (crc32_correct [1; 2]). by repeat apply Forall_cons_2. Defined.
