(* ===== verification/SwdmxCsa.v ===== *)
(** [dvbcsa2/dvbcsa_block.c], [dvbcsa_stream.c] and [dvbcsa_algo.c]: the DVB common
    scrambling algorithm the software descrambler calls, a block cipher chained
    from the end of the payload with a stream cipher over it.

    A block is the list of its 8 bytes; the schedule is the list of the 56 bytes of
    the key. *)

From S2P Require Import Prelude.

(** * Tables *)

Definition csa_block_perm : list Z := [
  0x00; 0x02; 0x80; 0x82; 0x20; 0x22; 0xa0; 0xa2; 0x10; 0x12; 0x90; 0x92; 0x30; 0x32; 0xb0; 0xb2;
  0x04; 0x06; 0x84; 0x86; 0x24; 0x26; 0xa4; 0xa6; 0x14; 0x16; 0x94; 0x96; 0x34; 0x36; 0xb4; 0xb6;
  0x40; 0x42; 0xc0; 0xc2; 0x60; 0x62; 0xe0; 0xe2; 0x50; 0x52; 0xd0; 0xd2; 0x70; 0x72; 0xf0; 0xf2;
  0x44; 0x46; 0xc4; 0xc6; 0x64; 0x66; 0xe4; 0xe6; 0x54; 0x56; 0xd4; 0xd6; 0x74; 0x76; 0xf4; 0xf6;
  0x01; 0x03; 0x81; 0x83; 0x21; 0x23; 0xa1; 0xa3; 0x11; 0x13; 0x91; 0x93; 0x31; 0x33; 0xb1; 0xb3;
  0x05; 0x07; 0x85; 0x87; 0x25; 0x27; 0xa5; 0xa7; 0x15; 0x17; 0x95; 0x97; 0x35; 0x37; 0xb5; 0xb7;
  0x41; 0x43; 0xc1; 0xc3; 0x61; 0x63; 0xe1; 0xe3; 0x51; 0x53; 0xd1; 0xd3; 0x71; 0x73; 0xf1; 0xf3;
  0x45; 0x47; 0xc5; 0xc7; 0x65; 0x67; 0xe5; 0xe7; 0x55; 0x57; 0xd5; 0xd7; 0x75; 0x77; 0xf5; 0xf7;
  0x08; 0x0a; 0x88; 0x8a; 0x28; 0x2a; 0xa8; 0xaa; 0x18; 0x1a; 0x98; 0x9a; 0x38; 0x3a; 0xb8; 0xba;
  0x0c; 0x0e; 0x8c; 0x8e; 0x2c; 0x2e; 0xac; 0xae; 0x1c; 0x1e; 0x9c; 0x9e; 0x3c; 0x3e; 0xbc; 0xbe;
  0x48; 0x4a; 0xc8; 0xca; 0x68; 0x6a; 0xe8; 0xea; 0x58; 0x5a; 0xd8; 0xda; 0x78; 0x7a; 0xf8; 0xfa;
  0x4c; 0x4e; 0xcc; 0xce; 0x6c; 0x6e; 0xec; 0xee; 0x5c; 0x5e; 0xdc; 0xde; 0x7c; 0x7e; 0xfc; 0xfe;
  0x09; 0x0b; 0x89; 0x8b; 0x29; 0x2b; 0xa9; 0xab; 0x19; 0x1b; 0x99; 0x9b; 0x39; 0x3b; 0xb9; 0xbb;
  0x0d; 0x0f; 0x8d; 0x8f; 0x2d; 0x2f; 0xad; 0xaf; 0x1d; 0x1f; 0x9d; 0x9f; 0x3d; 0x3f; 0xbd; 0xbf;
  0x49; 0x4b; 0xc9; 0xcb; 0x69; 0x6b; 0xe9; 0xeb; 0x59; 0x5b; 0xd9; 0xdb; 0x79; 0x7b; 0xf9; 0xfb;
  0x4d; 0x4f; 0xcd; 0xcf; 0x6d; 0x6f; 0xed; 0xef; 0x5d; 0x5f; 0xdd; 0xdf; 0x7d; 0x7f; 0xfd; 0xff].

Definition dvbcsa_block_sbox : list Z := [
  0x3a; 0xea; 0x68; 0xfe; 0x33; 0xe9; 0x88; 0x1a; 0x83; 0xcf; 0xe1; 0x7f; 0xba; 0xe2; 0x38; 0x12;
  0xe8; 0x27; 0x61; 0x95; 0x0c; 0x36; 0xe5; 0x70; 0xa2; 0x06; 0x82; 0x7c; 0x17; 0xa3; 0x26; 0x49;
  0xbe; 0x7a; 0x6d; 0x47; 0xc1; 0x51; 0x8f; 0xf3; 0xcc; 0x5b; 0x67; 0xbd; 0xcd; 0x18; 0x08; 0xc9;
  0xff; 0x69; 0xef; 0x03; 0x4e; 0x48; 0x4a; 0x84; 0x3f; 0xb4; 0x10; 0x04; 0xdc; 0xf5; 0x5c; 0xc6;
  0x16; 0xab; 0xac; 0x4c; 0xf1; 0x6a; 0x2f; 0x3c; 0x3b; 0xd4; 0xd5; 0x94; 0xd0; 0xc4; 0x63; 0x62;
  0x71; 0xa1; 0xf9; 0x4f; 0x2e; 0xaa; 0xc5; 0x56; 0xe3; 0x39; 0x93; 0xce; 0x65; 0x64; 0xe4; 0x58;
  0x6c; 0x19; 0x42; 0x79; 0xdd; 0xee; 0x96; 0xf6; 0x8a; 0xec; 0x1e; 0x85; 0x53; 0x45; 0xde; 0xbb;
  0x7e; 0x0a; 0x9a; 0x13; 0x2a; 0x9d; 0xc2; 0x5e; 0x5a; 0x1f; 0x32; 0x35; 0x9c; 0xa8; 0x73; 0x30;
  0x29; 0x3d; 0xe7; 0x92; 0x87; 0x1b; 0x2b; 0x4b; 0xa5; 0x57; 0x97; 0x40; 0x15; 0xe6; 0xbc; 0x0e;
  0xeb; 0xc3; 0x34; 0x2d; 0xb8; 0x44; 0x25; 0xa4; 0x1c; 0xc7; 0x23; 0xed; 0x90; 0x6e; 0x50; 0x00;
  0x99; 0x9e; 0x4d; 0xd9; 0xda; 0x8d; 0x6f; 0x5f; 0x3e; 0xd7; 0x21; 0x74; 0x86; 0xdf; 0x6b; 0x05;
  0x8e; 0x5d; 0x37; 0x11; 0xd2; 0x28; 0x75; 0xd6; 0xa7; 0x77; 0x24; 0xbf; 0xf0; 0xb0; 0x02; 0xb7;
  0xf8; 0xfc; 0x81; 0x09; 0xb1; 0x01; 0x76; 0x91; 0x7d; 0x0f; 0xc8; 0xa0; 0xf2; 0xcb; 0x78; 0x60;
  0xd1; 0xf7; 0xe0; 0xb5; 0x98; 0x22; 0xb3; 0x20; 0x1d; 0xa6; 0xdb; 0x7b; 0x59; 0x9f; 0xae; 0x31;
  0xfb; 0xd3; 0xb6; 0xca; 0x43; 0x72; 0x07; 0xf4; 0xd8; 0x41; 0x14; 0x55; 0x0d; 0x54; 0x8b; 0xb9;
  0xad; 0x46; 0x0b; 0xaf; 0x80; 0x52; 0x2c; 0xfa; 0x8c; 0x89; 0x66; 0xfd; 0xb2; 0xa9; 0x9b; 0xc0].

Definition csa_stream_sbox0 : list Z := [
  0x0001; 0x0000; 0x0400; 0x0400; 0x0001; 0x0401; 0x0401; 0x0000; 0x0401; 0x0001; 0x0001; 0x0000; 0x0400; 0x0400; 0x0000; 0x0401;
  0x0000; 0x0401; 0x0401; 0x0000; 0x0001; 0x0001; 0x0400; 0x0400; 0x0001; 0x0001; 0x0000; 0x0401; 0x0400; 0x0400; 0x0401; 0x0000].

Definition csa_stream_sbox1 : list Z := [
  0x0802; 0x0800; 0x0002; 0x0800; 0x0802; 0x0002; 0x0002; 0x0800; 0x0800; 0x0802; 0x0000; 0x0002; 0x0000; 0x0000; 0x0000; 0x0802;
  0x0802; 0x0800; 0x0800; 0x0002; 0x0002; 0x0802; 0x0800; 0x0802; 0x0000; 0x0000; 0x0000; 0x0802; 0x0800; 0x0002; 0x0002; 0x0000].

Definition csa_stream_sbox2 : list Z := [
  0x0010; 0x0000; 0x0010; 0x0010; 0x0010; 0x0014; 0x0000; 0x0004; 0x0004; 0x0014; 0x0014; 0x0014; 0x0014; 0x0000; 0x0004; 0x0000;
  0x0014; 0x0000; 0x0004; 0x0010; 0x0004; 0x0014; 0x0014; 0x0004; 0x0000; 0x0004; 0x0000; 0x0004; 0x0010; 0x0000; 0x0010; 0x0010].

Definition csa_stream_sbox3 : list Z := [
  0x0028; 0x0008; 0x0020; 0x0028; 0x0020; 0x0000; 0x0020; 0x0008; 0x0008; 0x0020; 0x0000; 0x0008; 0x0000; 0x0028; 0x0028; 0x0000;
  0x0008; 0x0000; 0x0028; 0x0008; 0x0028; 0x0020; 0x0028; 0x0000; 0x0000; 0x0028; 0x0020; 0x0000; 0x0020; 0x0008; 0x0008; 0x0020].

Definition csa_stream_sbox4 : list Z := [
  0x0100; 0x0000; 0x0000; 0x0040; 0x0140; 0x0100; 0x0140; 0x0100; 0x0140; 0x0140; 0x0000; 0x0040; 0x0100; 0x0040; 0x0040; 0x0000;
  0x0140; 0x0100; 0x0000; 0x0100; 0x0140; 0x0000; 0x0040; 0x0040; 0x0100; 0x0140; 0x0000; 0x0040; 0x0100; 0x0000; 0x0040; 0x0140].

Definition csa_stream_sbox5 : list Z := [
  0x0000; 0x0080; 0x0200; 0x0280; 0x0080; 0x0200; 0x0200; 0x0000; 0x0000; 0x0080; 0x0280; 0x0000; 0x0200; 0x0280; 0x0080; 0x0280;
  0x0200; 0x0280; 0x0000; 0x0200; 0x0280; 0x0000; 0x0080; 0x0080; 0x0200; 0x0080; 0x0080; 0x0200; 0x0000; 0x0280; 0x0280; 0x0000].

Definition csa_stream_sbox6 : list Z := [
  0x0000; 0x0000; 0x1000; 0x2000; 0x3000; 0x3000; 0x0000; 0x1000; 0x3000; 0x1000; 0x2000; 0x2000; 0x2000; 0x0000; 0x1000; 0x3000;
  0x3000; 0x1000; 0x2000; 0x2000; 0x2000; 0x3000; 0x0000; 0x0000; 0x2000; 0x1000; 0x1000; 0x3000; 0x0000; 0x0000; 0x1000; 0x3000].

Definition csa_stream_cdef : list Z := [
  0x0000; 0x0101; 0x0202; 0x0303; 0x0404; 0x0505; 0x0606; 0x0707; 0x0808; 0x0909; 0x0a0a; 0x0b0b; 0x0c0c; 0x0d0d; 0x0e0e; 0x0f0f;
  0x0001; 0x0100; 0x0203; 0x0302; 0x0405; 0x0504; 0x0607; 0x0706; 0x0809; 0x0908; 0x0a0b; 0x0b0a; 0x0c0d; 0x0d0c; 0x0e0f; 0x0f0e;
  0x0002; 0x0103; 0x0200; 0x0301; 0x0406; 0x0507; 0x0604; 0x0705; 0x080a; 0x090b; 0x0a08; 0x0b09; 0x0c0e; 0x0d0f; 0x0e0c; 0x0f0d;
  0x0003; 0x0102; 0x0201; 0x0300; 0x0407; 0x0506; 0x0605; 0x0704; 0x080b; 0x090a; 0x0a09; 0x0b08; 0x0c0f; 0x0d0e; 0x0e0d; 0x0f0c;
  0x0004; 0x0105; 0x0206; 0x0307; 0x0400; 0x0501; 0x0602; 0x0703; 0x080c; 0x090d; 0x0a0e; 0x0b0f; 0x0c08; 0x0d09; 0x0e0a; 0x0f0b;
  0x0005; 0x0104; 0x0207; 0x0306; 0x0401; 0x0500; 0x0603; 0x0702; 0x080d; 0x090c; 0x0a0f; 0x0b0e; 0x0c09; 0x0d08; 0x0e0b; 0x0f0a;
  0x0006; 0x0107; 0x0204; 0x0305; 0x0402; 0x0503; 0x0600; 0x0701; 0x080e; 0x090f; 0x0a0c; 0x0b0d; 0x0c0a; 0x0d0b; 0x0e08; 0x0f09;
  0x0007; 0x0106; 0x0205; 0x0304; 0x0403; 0x0502; 0x0601; 0x0700; 0x080f; 0x090e; 0x0a0d; 0x0b0c; 0x0c0b; 0x0d0a; 0x0e09; 0x0f08;
  0x0008; 0x0109; 0x020a; 0x030b; 0x040c; 0x050d; 0x060e; 0x070f; 0x0800; 0x0901; 0x0a02; 0x0b03; 0x0c04; 0x0d05; 0x0e06; 0x0f07;
  0x0009; 0x0108; 0x020b; 0x030a; 0x040d; 0x050c; 0x060f; 0x070e; 0x0801; 0x0900; 0x0a03; 0x0b02; 0x0c05; 0x0d04; 0x0e07; 0x0f06;
  0x000a; 0x010b; 0x0208; 0x0309; 0x040e; 0x050f; 0x060c; 0x070d; 0x0802; 0x0903; 0x0a00; 0x0b01; 0x0c06; 0x0d07; 0x0e04; 0x0f05;
  0x000b; 0x010a; 0x0209; 0x0308; 0x040f; 0x050e; 0x060d; 0x070c; 0x0803; 0x0902; 0x0a01; 0x0b00; 0x0c07; 0x0d06; 0x0e05; 0x0f04;
  0x000c; 0x010d; 0x020e; 0x030f; 0x0408; 0x0509; 0x060a; 0x070b; 0x0804; 0x0905; 0x0a06; 0x0b07; 0x0c00; 0x0d01; 0x0e02; 0x0f03;
  0x000d; 0x010c; 0x020f; 0x030e; 0x0409; 0x0508; 0x060b; 0x070a; 0x0805; 0x0904; 0x0a07; 0x0b06; 0x0c01; 0x0d00; 0x0e03; 0x0f02;
  0x000e; 0x010f; 0x020c; 0x030d; 0x040a; 0x050b; 0x0608; 0x0709; 0x0806; 0x0907; 0x0a04; 0x0b05; 0x0c02; 0x0d03; 0x0e00; 0x0f01;
  0x000f; 0x010e; 0x020d; 0x030c; 0x040b; 0x050a; 0x0609; 0x0708; 0x0807; 0x0906; 0x0a05; 0x0b04; 0x0c03; 0x0d02; 0x0e01; 0x0f00;
  0x1000; 0x1101; 0x1202; 0x1303; 0x1404; 0x1505; 0x1606; 0x1707; 0x1808; 0x1909; 0x1a0a; 0x1b0b; 0x1c0c; 0x1d0d; 0x1e0e; 0x1f0f;
  0x1001; 0x1100; 0x1203; 0x1302; 0x1405; 0x1504; 0x1607; 0x1706; 0x1809; 0x1908; 0x1a0b; 0x1b0a; 0x1c0d; 0x1d0c; 0x1e0f; 0x1f0e;
  0x1002; 0x1103; 0x1200; 0x1301; 0x1406; 0x1507; 0x1604; 0x1705; 0x180a; 0x190b; 0x1a08; 0x1b09; 0x1c0e; 0x1d0f; 0x1e0c; 0x1f0d;
  0x1003; 0x1102; 0x1201; 0x1300; 0x1407; 0x1506; 0x1605; 0x1704; 0x180b; 0x190a; 0x1a09; 0x1b08; 0x1c0f; 0x1d0e; 0x1e0d; 0x1f0c;
  0x1004; 0x1105; 0x1206; 0x1307; 0x1400; 0x1501; 0x1602; 0x1703; 0x180c; 0x190d; 0x1a0e; 0x1b0f; 0x1c08; 0x1d09; 0x1e0a; 0x1f0b;
  0x1005; 0x1104; 0x1207; 0x1306; 0x1401; 0x1500; 0x1603; 0x1702; 0x180d; 0x190c; 0x1a0f; 0x1b0e; 0x1c09; 0x1d08; 0x1e0b; 0x1f0a;
  0x1006; 0x1107; 0x1204; 0x1305; 0x1402; 0x1503; 0x1600; 0x1701; 0x180e; 0x190f; 0x1a0c; 0x1b0d; 0x1c0a; 0x1d0b; 0x1e08; 0x1f09;
  0x1007; 0x1106; 0x1205; 0x1304; 0x1403; 0x1502; 0x1601; 0x1700; 0x180f; 0x190e; 0x1a0d; 0x1b0c; 0x1c0b; 0x1d0a; 0x1e09; 0x1f08;
  0x1008; 0x1109; 0x120a; 0x130b; 0x140c; 0x150d; 0x160e; 0x170f; 0x1800; 0x1901; 0x1a02; 0x1b03; 0x1c04; 0x1d05; 0x1e06; 0x1f07;
  0x1009; 0x1108; 0x120b; 0x130a; 0x140d; 0x150c; 0x160f; 0x170e; 0x1801; 0x1900; 0x1a03; 0x1b02; 0x1c05; 0x1d04; 0x1e07; 0x1f06;
  0x100a; 0x110b; 0x1208; 0x1309; 0x140e; 0x150f; 0x160c; 0x170d; 0x1802; 0x1903; 0x1a00; 0x1b01; 0x1c06; 0x1d07; 0x1e04; 0x1f05;
  0x100b; 0x110a; 0x1209; 0x1308; 0x140f; 0x150e; 0x160d; 0x170c; 0x1803; 0x1902; 0x1a01; 0x1b00; 0x1c07; 0x1d06; 0x1e05; 0x1f04;
  0x100c; 0x110d; 0x120e; 0x130f; 0x1408; 0x1509; 0x160a; 0x170b; 0x1804; 0x1905; 0x1a06; 0x1b07; 0x1c00; 0x1d01; 0x1e02; 0x1f03;
  0x100d; 0x110c; 0x120f; 0x130e; 0x1409; 0x1508; 0x160b; 0x170a; 0x1805; 0x1904; 0x1a07; 0x1b06; 0x1c01; 0x1d00; 0x1e03; 0x1f02;
  0x100e; 0x110f; 0x120c; 0x130d; 0x140a; 0x150b; 0x1608; 0x1709; 0x1806; 0x1907; 0x1a04; 0x1b05; 0x1c02; 0x1d03; 0x1e00; 0x1f01;
  0x100f; 0x110e; 0x120d; 0x130c; 0x140b; 0x150a; 0x1609; 0x1708; 0x1807; 0x1906; 0x1a05; 0x1b04; 0x1c03; 0x1d02; 0x1e01; 0x1f00;
  0x0000; 0x0101; 0x0202; 0x0303; 0x0404; 0x0505; 0x0606; 0x0707; 0x0808; 0x0909; 0x0a0a; 0x0b0b; 0x0c0c; 0x0d0d; 0x0e0e; 0x0f0f;
  0x0101; 0x0200; 0x0303; 0x0402; 0x0505; 0x0604; 0x0707; 0x0806; 0x0909; 0x0a08; 0x0b0b; 0x0c0a; 0x0d0d; 0x0e0c; 0x0f0f; 0x100e;
  0x0202; 0x0303; 0x0400; 0x0501; 0x0606; 0x0707; 0x0804; 0x0905; 0x0a0a; 0x0b0b; 0x0c08; 0x0d09; 0x0e0e; 0x0f0f; 0x100c; 0x110d;
  0x0303; 0x0402; 0x0501; 0x0600; 0x0707; 0x0806; 0x0905; 0x0a04; 0x0b0b; 0x0c0a; 0x0d09; 0x0e08; 0x0f0f; 0x100e; 0x110d; 0x120c;
  0x0404; 0x0505; 0x0606; 0x0707; 0x0800; 0x0901; 0x0a02; 0x0b03; 0x0c0c; 0x0d0d; 0x0e0e; 0x0f0f; 0x1008; 0x1109; 0x120a; 0x130b;
  0x0505; 0x0604; 0x0707; 0x0806; 0x0901; 0x0a00; 0x0b03; 0x0c02; 0x0d0d; 0x0e0c; 0x0f0f; 0x100e; 0x1109; 0x1208; 0x130b; 0x140a;
  0x0606; 0x0707; 0x0804; 0x0905; 0x0a02; 0x0b03; 0x0c00; 0x0d01; 0x0e0e; 0x0f0f; 0x100c; 0x110d; 0x120a; 0x130b; 0x1408; 0x1509;
  0x0707; 0x0806; 0x0905; 0x0a04; 0x0b03; 0x0c02; 0x0d01; 0x0e00; 0x0f0f; 0x100e; 0x110d; 0x120c; 0x130b; 0x140a; 0x1509; 0x1608;
  0x0808; 0x0909; 0x0a0a; 0x0b0b; 0x0c0c; 0x0d0d; 0x0e0e; 0x0f0f; 0x1000; 0x1101; 0x1202; 0x1303; 0x1404; 0x1505; 0x1606; 0x1707;
  0x0909; 0x0a08; 0x0b0b; 0x0c0a; 0x0d0d; 0x0e0c; 0x0f0f; 0x100e; 0x1101; 0x1200; 0x1303; 0x1402; 0x1505; 0x1604; 0x1707; 0x1806;
  0x0a0a; 0x0b0b; 0x0c08; 0x0d09; 0x0e0e; 0x0f0f; 0x100c; 0x110d; 0x1202; 0x1303; 0x1400; 0x1501; 0x1606; 0x1707; 0x1804; 0x1905;
  0x0b0b; 0x0c0a; 0x0d09; 0x0e08; 0x0f0f; 0x100e; 0x110d; 0x120c; 0x1303; 0x1402; 0x1501; 0x1600; 0x1707; 0x1806; 0x1905; 0x1a04;
  0x0c0c; 0x0d0d; 0x0e0e; 0x0f0f; 0x1008; 0x1109; 0x120a; 0x130b; 0x1404; 0x1505; 0x1606; 0x1707; 0x1800; 0x1901; 0x1a02; 0x1b03;
  0x0d0d; 0x0e0c; 0x0f0f; 0x100e; 0x1109; 0x1208; 0x130b; 0x140a; 0x1505; 0x1604; 0x1707; 0x1806; 0x1901; 0x1a00; 0x1b03; 0x1c02;
  0x0e0e; 0x0f0f; 0x100c; 0x110d; 0x120a; 0x130b; 0x1408; 0x1509; 0x1606; 0x1707; 0x1804; 0x1905; 0x1a02; 0x1b03; 0x1c00; 0x1d01;
  0x0f0f; 0x100e; 0x110d; 0x120c; 0x130b; 0x140a; 0x1509; 0x1608; 0x1707; 0x1806; 0x1905; 0x1a04; 0x1b03; 0x1c02; 0x1d01; 0x1e00;
  0x0100; 0x0201; 0x0302; 0x0403; 0x0504; 0x0605; 0x0706; 0x0807; 0x0908; 0x0a09; 0x0b0a; 0x0c0b; 0x0d0c; 0x0e0d; 0x0f0e; 0x100f;
  0x0201; 0x0300; 0x0403; 0x0502; 0x0605; 0x0704; 0x0807; 0x0906; 0x0a09; 0x0b08; 0x0c0b; 0x0d0a; 0x0e0d; 0x0f0c; 0x100f; 0x110e;
  0x0302; 0x0403; 0x0500; 0x0601; 0x0706; 0x0807; 0x0904; 0x0a05; 0x0b0a; 0x0c0b; 0x0d08; 0x0e09; 0x0f0e; 0x100f; 0x110c; 0x120d;
  0x0403; 0x0502; 0x0601; 0x0700; 0x0807; 0x0906; 0x0a05; 0x0b04; 0x0c0b; 0x0d0a; 0x0e09; 0x0f08; 0x100f; 0x110e; 0x120d; 0x130c;
  0x0504; 0x0605; 0x0706; 0x0807; 0x0900; 0x0a01; 0x0b02; 0x0c03; 0x0d0c; 0x0e0d; 0x0f0e; 0x100f; 0x1108; 0x1209; 0x130a; 0x140b;
  0x0605; 0x0704; 0x0807; 0x0906; 0x0a01; 0x0b00; 0x0c03; 0x0d02; 0x0e0d; 0x0f0c; 0x100f; 0x110e; 0x1209; 0x1308; 0x140b; 0x150a;
  0x0706; 0x0807; 0x0904; 0x0a05; 0x0b02; 0x0c03; 0x0d00; 0x0e01; 0x0f0e; 0x100f; 0x110c; 0x120d; 0x130a; 0x140b; 0x1508; 0x1609;
  0x0807; 0x0906; 0x0a05; 0x0b04; 0x0c03; 0x0d02; 0x0e01; 0x0f00; 0x100f; 0x110e; 0x120d; 0x130c; 0x140b; 0x150a; 0x1609; 0x1708;
  0x0908; 0x0a09; 0x0b0a; 0x0c0b; 0x0d0c; 0x0e0d; 0x0f0e; 0x100f; 0x1100; 0x1201; 0x1302; 0x1403; 0x1504; 0x1605; 0x1706; 0x1807;
  0x0a09; 0x0b08; 0x0c0b; 0x0d0a; 0x0e0d; 0x0f0c; 0x100f; 0x110e; 0x1201; 0x1300; 0x1403; 0x1502; 0x1605; 0x1704; 0x1807; 0x1906;
  0x0b0a; 0x0c0b; 0x0d08; 0x0e09; 0x0f0e; 0x100f; 0x110c; 0x120d; 0x1302; 0x1403; 0x1500; 0x1601; 0x1706; 0x1807; 0x1904; 0x1a05;
  0x0c0b; 0x0d0a; 0x0e09; 0x0f08; 0x100f; 0x110e; 0x120d; 0x130c; 0x1403; 0x1502; 0x1601; 0x1700; 0x1807; 0x1906; 0x1a05; 0x1b04;
  0x0d0c; 0x0e0d; 0x0f0e; 0x100f; 0x1108; 0x1209; 0x130a; 0x140b; 0x1504; 0x1605; 0x1706; 0x1807; 0x1900; 0x1a01; 0x1b02; 0x1c03;
  0x0e0d; 0x0f0c; 0x100f; 0x110e; 0x1209; 0x1308; 0x140b; 0x150a; 0x1605; 0x1704; 0x1807; 0x1906; 0x1a01; 0x1b00; 0x1c03; 0x1d02;
  0x0f0e; 0x100f; 0x110c; 0x120d; 0x130a; 0x140b; 0x1508; 0x1609; 0x1706; 0x1807; 0x1904; 0x1a05; 0x1b02; 0x1c03; 0x1d00; 0x1e01;
  0x100f; 0x110e; 0x120d; 0x130c; 0x140b; 0x150a; 0x1609; 0x1708; 0x1807; 0x1906; 0x1a05; 0x1b04; 0x1c03; 0x1d02; 0x1e01; 0x1f00].

Definition csa_stream_out : list Z := [
  0x00; 0x55; 0x55; 0x00; 0xaa; 0xff; 0xff; 0xaa;
  0xaa; 0xff; 0xff; 0xaa; 0x00; 0x55; 0x55; 0x00].

Definition DVBCSA_DATA_SIZE : nat := 8.
Definition DVBCSA_KEYSBUFF_SIZE : nat := 56.

(** * The block cipher *)

(** One turn of the loops, with the key byte. *)
Definition csa_block_dec_round (k : Z) (W : list Z) : list Z :=
  match W with
  | [w0; w1; w2; w3; w4; w5; w6; w7] =>
      let S := tbl dvbcsa_block_sbox (k .^ w6) in
      let L := w7 .^ S in
      [L; w0; w1 .^ L; w2 .^ L; w3 .^ L; w4; w5 .^ tbl csa_block_perm S; w6]
  | _ => W
  end.

Definition csa_block_enc_round (k : Z) (W : list Z) : list Z :=
  match W with
  | [w0; w1; w2; w3; w4; w5; w6; w7] =>
      let S := tbl dvbcsa_block_sbox (k .^ w7) in
      [w1; w2 .^ w0; w3 .^ w0; w4 .^ w0; w5; w6 .^ tbl csa_block_perm S; w7; w0 .^ S]
  | _ => W
  end.

Definition dvbcsa_block_decrypt (key W : list Z) : list Z :=
  foldl (fun W i => csa_block_dec_round (tbl key (Z.of_nat i)) W) W (rev (seq 0 DVBCSA_KEYSBUFF_SIZE)).

Definition dvbcsa_block_encrypt (key W : list Z) : list Z :=
  foldl (fun W i => csa_block_enc_round (tbl key (Z.of_nat i)) W) W (seq 0 DVBCSA_KEYSBUFF_SIZE).

(** * The stream cipher *)

(** The registers: [A] and [B] are [uint64_t], [pqzyx] and [cfed] [uint32_t]. *)
Record csa_regs := mk_regs { csa_A : Z; csa_B : Z; pqzyx : Z; cfed : Z }.

Definition NBGET (r n : Z) : Z := r .>> (n * 4).
Definition GETX (x : Z) : Z := x.
Definition GETY (x : Z) : Z := x .>> 4.
Definition TSTP (x : Z) : bool := truthy (x .& 0x1000).
Definition GETD (x : Z) : Z := x.

Definition swap_nbl (byte : Z) : Z := u8 ((byte .>> 4) .| (byte .<< 4)).

Definition csa_stream_rotate (pqzyx x : Z) : Z :=
  if TSTP pqzyx then u8 (((x .<< 1) .| ((x .>> 3) .& 1)) .& 0xf) else u8 x.

Definition csa_stream_sboxes (A : Z) : Z :=
  let t := A .& 0x2018004200 in
  let res := tbl csa_stream_sbox1 (((t .>> 37) .^ (t .>> 27) .^ (t .>> 25) .^ (t .>> 11) .^ (t .>> 5)) .& 0x1f) in
  let t := A .& 0x4201480000 in
  let res := res .| tbl csa_stream_sbox4 (((t .>> 38) .^ (t .>> 32) .^ (t .>> 22) .^ (t .>> 16) .^ (t .>> 18)) .& 0x1f) in
  let t := A .& 0x8040122000 in
  let res := res .| tbl csa_stream_sbox5 (((t .>> 39) .^ (t .>> 29) .^ (t .>> 18) .^ (t .>> 14) .^ (t .>> 9)) .& 0x1f) in
  let t := A .& 0x1082010040 in
  let res := res .| tbl csa_stream_sbox0 (((t .>> 36) .^ (t .>> 30) .^ (t .>> 23) .^ (t .>> 3) .^ (t .>> 12)) .& 0x1f) in
  let t := A .& 0x0004a00180 in
  let res := res .| tbl csa_stream_sbox2 (((t .>> 26) .^ (t .>> 22) .^ (t .>> 19) .^ (t .>> 5) .^ (t .>> 3)) .& 0x1f) in
  let t := A .& 0x0100048820 in
  let res := res .| tbl csa_stream_sbox3 (((t .>> 32) .^ (t .>> 17) .^ (t .>> 9) .^ (t .>> 2) .^ (t .>> 11)) .& 0x1f) in
  let t := A .& 0x0c20001400 in
  res .| tbl csa_stream_sbox6 (((t .>> 35) .^ (t .>> 33) .^ (t .>> 27) .^ (t .>> 9) .^ (t .>> 6)) .& 0x1f).

Definition csa_stream_B_sel (B : Z) : Z :=
  let t := u32 (B .>> 9) in
  ((t .^ (t .>> 27)) .& 0x8) .^
  ((t .>> 18) .& 0x9) .^
  (((t .>> 22) .^ (t .>> 7)) .& 0x4) .^
  ((t .>> 4) .& 0x5) .^
  (((t .>> 24) .^ (t .>> 6) .^ (t .>> 11)) .& 0x2) .^
  (((t .>> 29) .^ (t .>> 23)) .& 0x1) .^
  ((t .>> 13) .& 0xe).

Definition csa_stream_cfed (pqzyx cfed : Z) : Z :=
  ((cfed .& 0x0f00) .>> 4) .| tbl csa_stream_cdef (((cfed .& 0x10ff) .| (pqzyx .& 0x2f00)) .>> 4).

Definition csa_stream_init_round (iv : Z) (r : csa_regs) : csa_regs :=
  let A := u64 (csa_A r .<< 4) in
  let A := A .| ((NBGET A 10 .^ GETX (pqzyx r) .^ GETD (cfed r) .^ (iv .>> 4)) .& 0x0f) in
  let tmp := (NBGET (csa_B r) 6 .^ NBGET (csa_B r) 9 .^ GETY (pqzyx r) .^ iv) .& 0x0f in
  let tmp := csa_stream_rotate (pqzyx r) tmp in
  let B := u64 (csa_B r .<< 4) .| tmp in
  mk_regs A B (csa_stream_sboxes A) (csa_stream_cfed (pqzyx r) (cfed r) .^ csa_stream_B_sel B).

Definition csa_stream_round (r : csa_regs) : csa_regs :=
  let A := u64 (csa_A r .<< 4) in
  let A := A .| ((NBGET A 10 .^ GETX (pqzyx r)) .& 0xf) in
  let tmp := (NBGET (csa_B r) 6 .^ NBGET (csa_B r) 9 .^ GETY (pqzyx r)) .& 0xf in
  let B := u64 (csa_B r .<< 4) .| csa_stream_rotate (pqzyx r) tmp in
  mk_regs A B (csa_stream_sboxes A) (csa_stream_cfed (pqzyx r) (cfed r) .^ csa_stream_B_sel B).

Definition dvbcsa_load_le32 (p : list Z) : Z :=
  (tbl p 3 .<< 24) .| (tbl p 2 .<< 16) .| (tbl p 1 .<< 8) .| tbl p 0.

(** The initialisation loop of [dvbcsa_stream_xor]. *)
Definition csa_stream_init (cw iv : list Z) : csa_regs :=
  foldl (fun r i =>
      let v := tbl iv (Z.of_nat i) in
      let r := csa_stream_init_round v r in
      let r := csa_stream_init_round (swap_nbl v) r in
      let r := csa_stream_init_round v r in
      csa_stream_init_round (swap_nbl v) r)
    (mk_regs (dvbcsa_load_le32 cw) (dvbcsa_load_le32 (drop 4 cw)) 0 0) (seq 0 8).

(** The body of the second loop, for the byte [b]. *)
Definition csa_stream_byte (r : csa_regs) (b : Z) : csa_regs * Z :=
  let out r m := tbl csa_stream_out (GETD (cfed r) .& 0xf) .& m in
  let r := csa_stream_round r in
  let b := b .^ out r 0xc0 in
  let r := csa_stream_round r in
  let b := b .^ out r 0x30 in
  let r := csa_stream_round r in
  let b := b .^ out r 0x0c in
  let r := csa_stream_round r in
  let b := b .^ out r 0x03 in
  (r, b).

Fixpoint csa_stream_bytes (r : csa_regs) (data : list Z) : list Z :=
  match data with
  | [] => []
  | b :: data => let '(r, b) := csa_stream_byte r b in b :: csa_stream_bytes r data
  end.

Definition dvbcsa_stream_xor (cw iv data : list Z) : list Z := csa_stream_bytes (csa_stream_init cw iv) data.

(** * The chaining *)

Record dvbcsa_key_s := mk_csa_key { cw : list Z; cws : list Z; sch : list Z }.

(** [b[i] ^= a[i]] for the first 8 bytes. *)
Definition dvbcsa_xor_64 (b a : list Z) : list Z := zip_with Z.lxor (take 8 b) (take 8 a) ++ drop 8 b.

(** The first block is the initialisation vector of the stream over the rest. *)
Definition csa_stream_rest (key : dvbcsa_key_s) (data : list Z) : list Z :=
  take 8 data ++ dvbcsa_stream_xor (cws key) data (drop 8 data).

(** [f] applied at position [i] of the data. *)
Definition at_pos (i : nat) (f : list Z -> list Z) (data : list Z) : list Z := take i data ++ f (drop i data).
Definition on_block (f : list Z -> list Z) (data : list Z) : list Z := f (take 8 data) ++ drop 8 data.

Definition csa_dec_step (key : dvbcsa_key_s) (data : list Z) (i : nat) : list Z :=
  let data := at_pos (i - 8) (fun d => dvbcsa_xor_64 d (drop i data)) data in
  at_pos i (on_block (dvbcsa_block_decrypt (sch key))) data.

Definition csa_enc_step (key : dvbcsa_key_s) (data : list Z) (i : nat) : list Z :=
  let data := at_pos i (fun d => dvbcsa_xor_64 d (drop (i + 8) data)) data in
  at_pos i (on_block (dvbcsa_block_encrypt (sch key))) data.

(** The offsets of the loops: [8, 16, ...] below [alen], and [alen - 16, ..., 8, 0]. *)
Definition dvbcsa_decrypt (key : dvbcsa_key_s) (data : list Z) : list Z :=
  let n := (length data / 8)%nat in
  if (length data <? 8)%nat then data
  else
    let data := csa_stream_rest key data in
    let data := on_block (dvbcsa_block_decrypt (sch key)) data in
    foldl (fun data i => csa_dec_step key data (8 * i)) data (seq 1 (n - 1)).

Definition dvbcsa_encrypt (key : dvbcsa_key_s) (data : list Z) : list Z :=
  let n := (length data / 8)%nat in
  if (length data <? 8)%nat then data
  else
    let data := at_pos (8 * n - 8) (on_block (dvbcsa_block_encrypt (sch key))) data in
    let data := foldl (fun data i => csa_enc_step key data (8 * i)) data (rev (seq 0 (n - 1))) in
    csa_stream_rest key data.

(** * The block cipher is invertible *)

Lemma csa_round_inverse k W : csa_block_dec_round k (csa_block_enc_round k W) = W.
Proof.
  destruct W as [|w0 [|w1 [|w2 [|w3 [|w4 [|w5 [|w6 [|w7 [|]]]]]]]]]; try done.
  simpl. rewrite (Z.lxor_comm w0), Z.lxor_assoc.
  set (S := tbl dvbcsa_block_sbox (k .^ w7)).
  assert (E : forall a b, (a .^ b) .^ b = a) by (intros; by rewrite Z.lxor_assoc, Z.lxor_nilpotent, Z.lxor_0_r).
  rewrite <- Z.lxor_assoc, (Z.lxor_comm S), !E. done.
Qed.

Lemma csa_enc_round_length k W : length (csa_block_enc_round k W) = length W.
Proof. by destruct W as [|w0 [|w1 [|w2 [|w3 [|w4 [|w5 [|w6 [|w7 [|]]]]]]]]]. Qed.
Lemma csa_dec_round_length k W : length (csa_block_dec_round k W) = length W.
Proof. by destruct W as [|w0 [|w1 [|w2 [|w3 [|w4 [|w5 [|w6 [|w7 [|]]]]]]]]]. Qed.

Lemma foldl_inverse {A I} (f g : A -> I -> A) (l : list I) a :
  (forall a i, g (f a i) i = a) -> foldl g (foldl f a l) (rev l) = a.
Proof.
  intros H. revert a. induction l as [|i l IH]; intros a; simpl; [done|].
  rewrite foldl_app, IH. simpl. apply H.
Qed.

Lemma foldl_length {A I} (f : list A -> I -> list A) l a :
  (forall a i, length (f a i) = length a) -> length (foldl f a l) = length a.
Proof. intros H. revert a. induction l as [|i l IH]; intros a; simpl; [done|]. by rewrite IH. Qed.

Lemma csa_block_inverse key W : dvbcsa_block_decrypt key (dvbcsa_block_encrypt key W) = W.
Proof. apply (foldl_inverse _ _ (seq 0 DVBCSA_KEYSBUFF_SIZE)). intros. apply csa_round_inverse. Qed.
Lemma csa_block_encrypt_length key W : length (dvbcsa_block_encrypt key W) = length W.
Proof. apply foldl_length. intros. apply csa_enc_round_length. Qed.
Lemma csa_block_decrypt_length key W : length (dvbcsa_block_decrypt key W) = length W.
Proof. apply foldl_length. intros. apply csa_dec_round_length. Qed.

(** * The stream cipher is an involution *)

Lemma csa_stream_byte_fst r b c : (csa_stream_byte r b).1 = (csa_stream_byte r c).1.
Proof. done. Qed.

Lemma lxor4_twice b p q s t : ((((((((b .^ p) .^ q) .^ s) .^ t) .^ p) .^ q) .^ s) .^ t) = b.
Proof.
  apply Z.bits_inj'. intros n _. rewrite !Z.lxor_spec.
  by destruct (Z.testbit b n), (Z.testbit p n), (Z.testbit q n), (Z.testbit s n), (Z.testbit t n).
Qed.

Lemma csa_stream_byte_twice r b : (csa_stream_byte r (csa_stream_byte r b).2).2 = b.
Proof. apply lxor4_twice. Qed.

Lemma csa_stream_bytes_twice r data : csa_stream_bytes r (csa_stream_bytes r data) = data.
Proof.
  revert r. induction data as [|b data IH]; intros r; [done|]. cbn [csa_stream_bytes].
  pose proof (csa_stream_byte_twice r b) as T. pose proof (csa_stream_byte_fst r b) as F.
  destruct (csa_stream_byte r b) as [r1 b1] eqn:E1. cbn [csa_stream_bytes]. specialize (F b1).
  cbn [snd fst] in T, F. destruct (csa_stream_byte r b1) as [r2 b2] eqn:E2. cbn [snd fst] in T, F.
  subst. by rewrite IH.
Qed.

Lemma csa_stream_bytes_length r data : length (csa_stream_bytes r data) = length data.
Proof.
  revert r. induction data as [|b data IH]; intros r; [done|]. cbn [csa_stream_bytes].
  destruct (csa_stream_byte r b). simpl. by rewrite IH.
Qed.

Lemma foldl_ext_in {A I} (f g : A -> I -> A) l a :
  (forall a i, i ∈ l -> f a i = g a i) -> foldl f a l = foldl g a l.
Proof.
  revert a. induction l as [|i l IH]; intros a H; simpl; [done|].
  rewrite H by set_solver. apply IH. intros. apply H. set_solver.
Qed.

(** Only the first 8 bytes of the initialisation vector are read. *)
Lemma csa_stream_init_prefix k iv iv' :
  take 8 iv = take 8 iv' -> csa_stream_init k iv = csa_stream_init k iv'.
Proof.
  intros E. unfold csa_stream_init. apply foldl_ext_in. intros r i Hi. apply elem_of_seq in Hi.
  assert (T : tbl iv (Z.of_nat i) = tbl iv' (Z.of_nat i)); [|by rewrite T].
  unfold tbl. rewrite Nat2Z.id. rewrite <- (lookup_take_lt iv 8), <- (lookup_take_lt iv' 8) by lia.
  by rewrite E.
Qed.

Lemma csa_stream_rest_length key data : length (csa_stream_rest key data) = length data.
Proof.
  unfold csa_stream_rest, dvbcsa_stream_xor.
  rewrite length_app, csa_stream_bytes_length, length_take, length_drop. lia.
Qed.

Lemma csa_stream_rest_twice key data :
  (8 <= length data)%nat -> csa_stream_rest key (csa_stream_rest key data) = data.
Proof.
  intros L. unfold csa_stream_rest at 1. set (d := csa_stream_rest key data).
  assert (T : take 8 d = take 8 data) by (apply take_app_len; rewrite length_take; lia).
  assert (D : drop 8 d = dvbcsa_stream_xor (cws key) data (drop 8 data))
    by (apply drop_app_len; rewrite length_take; lia).
  rewrite D, T. unfold dvbcsa_stream_xor. rewrite (csa_stream_init_prefix _ d data T).
  rewrite csa_stream_bytes_twice. apply take_drop.
Qed.

(** * The chaining *)

Section Chain.
Context (E D : list Z -> list Z).
Context (DE : forall W, D (E W) = W) (lenE : forall W, length (E W) = length W)
  (lenD : forall W, length (D W) = length W).

(** [n + 1] blocks at the start of [d], from the last one. *)
Fixpoint enc_chain (n : nat) (d : list Z) : list Z :=
  match n with
  | O => on_block E d
  | S n =>
      let d := take 8 d ++ enc_chain n (drop 8 d) in
      on_block E (dvbcsa_xor_64 d (drop 8 d))
  end.

Lemma enc_chain_0 d : enc_chain 0 d = on_block E d.
Proof. reflexivity. Qed.

Lemma enc_chain_S n d :
  enc_chain (S n) d =
    on_block E (dvbcsa_xor_64 (take 8 d ++ enc_chain n (drop 8 d)) (drop 8 (take 8 d ++ enc_chain n (drop 8 d)))).
Proof. reflexivity. Qed.

(** [n] blocks after the first one, which is decrypted and not yet unchained. *)
Fixpoint dec_chain (n : nat) (d : list Z) : list Z :=
  match n with
  | O => d
  | S n => take 8 (dvbcsa_xor_64 d (drop 8 d)) ++ dec_chain n (on_block D (drop 8 d))
  end.

Lemma on_block_app f b d : length b = 8%nat -> on_block f (b ++ d) = f b ++ d.
Proof. intros L. unfold on_block. by rewrite take_app_len, drop_app_len by done. Qed.

Lemma on_block_length f d : (forall W, length (f W) = length W) -> length (on_block f d) = length d.
Proof. intros H. unfold on_block. rewrite length_app, H, length_take, length_drop. lia. Qed.

Lemma xor_64_length b a : (8 <= length b)%nat -> (8 <= length a)%nat -> length (dvbcsa_xor_64 b a) = length b.
Proof.
  intros. unfold dvbcsa_xor_64. rewrite length_app, length_zip_with, !length_take, length_drop. lia.
Qed.

Lemma xor_64_app b d a :
  length b = 8%nat -> dvbcsa_xor_64 (b ++ d) a = zip_with Z.lxor b (take 8 a) ++ d.
Proof. intros L. unfold dvbcsa_xor_64. by rewrite take_app_len, drop_app_len by done. Qed.

Lemma zip_lxor_twice (b a : list Z) :
  length b = length a -> zip_with Z.lxor (zip_with Z.lxor b a) a = b.
Proof.
  revert a. induction b as [|x b IH]; intros [|y a] L; simpl in *; try done.
  rewrite IH by lia. by rewrite Z.lxor_assoc, Z.lxor_nilpotent, Z.lxor_0_r.
Qed.

Lemma enc_chain_length n d : (8 * n + 8 <= length d)%nat -> length (enc_chain n d) = length d.
Proof.
  revert d. induction n as [|n IH]; intros d L; simpl; [by apply on_block_length|].
  assert (Le : length (enc_chain n (drop 8 d)) = length (drop 8 d)) by (apply IH; rewrite length_drop; lia).
  rewrite length_drop in Le.
  rewrite on_block_length by done. rewrite xor_64_length.
  - rewrite length_app, length_take, Le. lia.
  - rewrite length_app, length_take, Le. lia.
  - rewrite drop_app_len by (rewrite length_take; lia). lia.
Qed.

Lemma dec_enc_chain n d : (8 * n + 8 <= length d)%nat -> dec_chain n (on_block D (enc_chain n d)) = d.
Proof.
  revert d. induction n as [|n IH]; intros d L; cbn [enc_chain dec_chain].
  - rewrite <- (take_drop 8 d) at 1.
    rewrite !on_block_app by (rewrite ?lenE, length_take; lia). by rewrite DE, take_drop.
  - assert (L8 : length (take 8 d) = 8%nat) by (rewrite length_take; lia).
    assert (Le : length (enc_chain n (drop 8 d)) = length (drop 8 d))
      by (apply enc_chain_length; rewrite length_drop; lia).
    rewrite length_drop in Le.
    specialize (IH (drop 8 d) ltac:(rewrite length_drop; lia)).
    set (e := enc_chain n (drop 8 d)) in *.
    rewrite drop_app_len by done. rewrite xor_64_app by done.
    set (x := zip_with Z.lxor (take 8 d) (take 8 e)).
    assert (Lx : length x = 8%nat) by (unfold x; rewrite length_zip_with, !length_take; lia).
    rewrite !on_block_app by (rewrite ?lenE; done). rewrite DE.
    rewrite drop_app_len by done. rewrite xor_64_app by done. unfold x.
    rewrite zip_lxor_twice by (rewrite !length_take; lia).
    rewrite take_app_len by done. rewrite IH. apply take_drop.
Qed.
End Chain.

(** * The loops run the chaining *)

Section Loops.
Context (key : dvbcsa_key_s).
#[local] Abbreviation E := (dvbcsa_block_encrypt (sch key)).
#[local] Abbreviation D := (dvbcsa_block_decrypt (sch key)).

Lemma at_pos_app p f d : at_pos (length p) f (p ++ d) = p ++ f d.
Proof. unfold at_pos. by rewrite take_app_length, drop_app_length. Qed.

Lemma enc_step_app p d :
  csa_enc_step key (p ++ d) (length p) = p ++ on_block E (dvbcsa_xor_64 d (drop 8 d)).
Proof.
  unfold csa_enc_step. rewrite at_pos_app.
  rewrite <- (drop_drop (p ++ d) 8 (length p)), drop_app_length. by rewrite at_pos_app.
Qed.

Lemma on_block_prefix (f : list Z -> list Z) b d : length b = 8%nat -> on_block f (b ++ d) = f b ++ d.
Proof. intros L. unfold on_block. by rewrite take_app_len, drop_app_len by done. Qed.

(** The encryption loop from block [n - 1] down to block [0]. *)
Lemma enc_loop n m d :
  (8 * (n + m) + 8 <= length d)%nat ->
  foldl (fun d i => csa_enc_step key d (8 * i))
    (take (8 * n) d ++ enc_chain E m (drop (8 * n) d)) (rev (seq 0 n)) = enc_chain E (n + m) d.
Proof.
  revert m. induction n as [|n IH]; intros m L.
  - simpl. by rewrite !drop_0.
  - rewrite seq_S, rev_app_distr. cbn [rev app foldl Nat.add].
    assert (L8 : length (take (8 * n) d) = (8 * n)%nat) by (rewrite length_take; lia).
    replace (take (8 * S n) d) with (take (8 * n) d ++ take 8 (drop (8 * n) d))
      by (rewrite take_take_drop; f_equal; lia).
    replace (drop (8 * S n) d) with (drop 8 (drop (8 * n) d)) by (rewrite drop_drop; f_equal; lia).
    rewrite <- app_assoc. rewrite <- L8 at 4. rewrite enc_step_app.
    rewrite <- enc_chain_S, IH by lia. f_equal. lia.
Qed.

Lemma dec_step_app p d b :
  (8 <= length d)%nat -> length b = 8%nat ->
  csa_dec_step key (p ++ b ++ d) (length p + 8) = p ++ zip_with Z.lxor b (take 8 d) ++ on_block D d.
Proof.
  intros Ld Lb. unfold csa_dec_step. rewrite Nat.add_sub, at_pos_app.
  rewrite <- (drop_drop (p ++ b ++ d) 8 (length p)), drop_app_length, drop_app_len by done.
  rewrite xor_64_app by done. rewrite app_assoc.
  replace (length p + 8)%nat with (length (p ++ zip_with Z.lxor b (take 8 d)))
    by (rewrite length_app, length_zip_with, length_take; lia).
  by rewrite at_pos_app, app_assoc.
Qed.

Lemma dec_loop n k d :
  (8 * (k + n) + 8 <= length d)%nat ->
  foldl (fun d i => csa_dec_step key d (8 * i)) d (seq (S k) n) =
    take (8 * k) d ++ dec_chain D n (drop (8 * k) d).
Proof.
  revert k d. induction n as [|n IH]; intros k d L; cbn [seq foldl dec_chain]; [by rewrite take_drop|].
  set (p := take (8 * k) d). set (r := drop (8 * k) d).
  assert (Lp : length p = (8 * k)%nat) by (unfold p; rewrite length_take; lia).
  assert (Lr : (8 * n + 16 <= length r)%nat) by (unfold r; rewrite length_drop; lia).
  assert (Lb : length (take 8 r) = 8%nat) by (rewrite length_take; lia).
  assert (Ed : d = p ++ take 8 r ++ drop 8 r) by (unfold p, r; by rewrite !take_drop).
  clearbody p r. subst d.
  replace (8 * S k)%nat with (length p + 8)%nat by lia.
  rewrite dec_step_app by (rewrite ?length_drop; lia).
  assert (Lz : length (zip_with Z.lxor (take 8 r) (take 8 (drop 8 r))) = 8%nat)
    by (rewrite length_zip_with, !length_take, length_drop; lia).
  rewrite IH.
  - rewrite app_assoc. rewrite take_app_len, drop_app_len by (rewrite length_app; lia).
    rewrite <- app_assoc. f_equal. f_equal. unfold dvbcsa_xor_64.
    by rewrite take_app_len by done.
  - rewrite !length_app, Lz, on_block_length by apply csa_block_decrypt_length.
    rewrite length_drop. lia.
Qed.
Lemma enc_all n d :
  (1 <= n)%nat -> (8 * n <= length d)%nat ->
  foldl (fun d i => csa_enc_step key d (8 * i)) (at_pos (8 * n - 8) (on_block E) d) (rev (seq 0 (n - 1)))
    = enc_chain E (n - 1) d.
Proof.
  intros H1 Hn. pose proof (enc_loop (n - 1) 0 d ltac:(lia)) as H.
  rewrite Nat.add_0_r, enc_chain_0 in H. unfold at_pos.
  replace (8 * n - 8)%nat with (8 * (n - 1))%nat by lia. exact H.
Qed.

Lemma dec_all n d :
  (8 * n + 8 <= length d)%nat ->
  foldl (fun d i => csa_dec_step key d (8 * i)) (on_block D (enc_chain E n d)) (seq 1 n) = d.
Proof.
  intros L. rewrite dec_loop.
  - rewrite Nat.mul_0_r, take_0, drop_0, app_nil_l.
    apply dec_enc_chain; [apply csa_block_inverse|apply csa_block_encrypt_length|done].
  - rewrite on_block_length by apply csa_block_decrypt_length.
    rewrite enc_chain_length; [done|apply csa_block_encrypt_length|done].
Qed.
End Loops.

Lemma csa_roundtrip key data :
  dvbcsa_decrypt key (dvbcsa_encrypt key data) = data /\
  length (dvbcsa_encrypt key data) = length data.
Proof.
  unfold dvbcsa_encrypt. destruct (Nat.ltb_spec (length data) 8) as [L|L].
  { unfold dvbcsa_decrypt. destruct (Nat.ltb_spec (length data) 8); [done|lia]. }
  set (n := (length data / 8)%nat).
  assert (Hn : (1 <= n /\ 8 * n <= length data)%nat).
  { unfold n. split; [by apply Nat.div_le_lower_bound; lia|apply Nat.Div0.mul_div_le; lia]. }
  rewrite enc_all by lia. set (e := enc_chain _ _ _).
  assert (Le : length e = length data)
    by (apply enc_chain_length; [apply csa_block_encrypt_length|lia]).
  split; [|by rewrite csa_stream_rest_length].
  unfold dvbcsa_decrypt. rewrite csa_stream_rest_length, Le. fold n.
  destruct (Nat.ltb_spec (length data) 8); [lia|].
  rewrite csa_stream_rest_twice by lia. unfold e. apply dec_all. lia.
Qed.

(** C19: The scrambling algorithm is invertible: for every key schedule, decrypting
    what was encrypted gives the data back, whatever their length, the bytes
    after the last whole block and payloads shorter than a block included. *)
Theorem dvbcsa_roundtrip key data :
  dvbcsa_decrypt key (dvbcsa_encrypt key data) = data /\
  length (dvbcsa_encrypt key data) = length data.
Proof. apply csa_roundtrip. Qed.

(** * The carry register *)

(** The round of the registers [C], [D], [E], [F] as the algorithm defines it: [F] moves
    to [E]; with [Q] set, [F] and [C] become the sum of [Z], [E] and the carry, else
    [E] and the carry; and [D] becomes [E] xor [Z]. *)
Definition cfed_next (e z : Z) (c q : bool) (f : Z) : Z :=
  let s := if q then z + e + b2z c else e + 16 * b2z c in
  ((f .<< 4) .| (s .<< 8)) .| (e .^ z).

Definition cfed_index (e z : Z) (c q : bool) : Z :=
  ((e .| (z .<< 4)) .| (b2z c .<< 8)) .| (b2z q .<< 9).

Lemma cfed_table :
  forallb (fun c => forallb (fun q => forallb (fun e => forallb (fun z =>
    tbl csa_stream_cdef (cfed_index e z c q) =? cfed_next e z c q 0)
    (seqZ 0 16)) (seqZ 0 16)) [false; true]) [false; true] = true.
Proof. vm_compute. reflexivity. Qed.

Lemma cfed_lookup e z c q :
  0 <= e < 16 -> 0 <= z < 16 -> tbl csa_stream_cdef (cfed_index e z c q) = cfed_next e z c q 0.
Proof.
  intros He Hz. pose proof cfed_table as T.
  assert (B : forall b P, forallb P [false; true] = true -> P b = true).
  { intros b P HP. simpl in HP. destruct b, (P false), (P true); done. }
  apply B with (b := c), B with (b := q) in T.
  apply (range_cases 16 _ T e) in He as T2. by apply Z.eqb_eq, (range_cases 16 _ T2 z).
Qed.

Lemma land_15_range x : 0 <= x .& 15 < 16.
Proof. rewrite land_15_mod. by apply Z.mod_pos_bound. Qed.

Lemma testbit_b2z (b : bool) n : 0 <= n -> Z.testbit (b2z b) n = b && (n =? 0).
Proof.
  intros H. destruct b; simpl; [|apply Z.bits_0].
  destruct (Z.eqb_spec n 0) as [->|N]; [done|]. apply (Z.bits_above_log2 1); simpl; lia.
Qed.

(** The index the source builds is the fields of the registers side by side. *)
Lemma cfed_index_ok p c :
  ((c .& 0x10ff) .| (p .& 0x2f00)) .>> 4 =
    cfed_index ((c .>> 4) .& 15) ((p .>> 8) .& 15) (Z.testbit c 12) (Z.testbit p 13).
Proof.
  unfold cfed_index. apply Z.bits_inj'. intros n Hn.
  rewrite Z.shiftr_spec, !Z.lor_spec, !Z.land_spec, !Z.shiftl_spec, !Z.shiftr_spec by lia.
  destruct (Z.lt_ge_cases n 10) as [L|L].
  - assert (C : n ∈ [0; 1; 2; 3; 4; 5; 6; 7; 8; 9]) by (apply (elem_of_seqZ 0 10); lia). rewrite !elem_of_cons, elem_of_nil in C.
    repeat destruct C as [->|C]; try done; rewrite ?Z.land_spec, ?Z.shiftr_spec by lia;
      change (8 + 4) with 12; change (9 + 4) with 13;
      destruct (Z.testbit c 12), (Z.testbit p 13); simpl;
      rewrite ?andb_true_r, ?andb_false_r, ?orb_false_r; try reflexivity.
  - assert (Z4 : forall k m, 0 <= k -> k < 2 ^ m -> 0 <= m -> forall i, m <= i -> Z.testbit k i = false).
    { intros k m H0 H1 Hm i Hi. destruct (Z.eq_dec k 0) as [->|]; [apply Z.bits_0|].
      apply Z.bits_above_log2; [lia|]. apply Z.log2_lt_pow2 in H1; lia. }
    rewrite (Z4 0x10ff 13), (Z4 0x2f00 14), (Z4 15 4 ltac:(lia) ltac:(lia) ltac:(lia) n) by lia.
    rewrite !testbit_b2z by lia.
    rewrite (Z4 ((p .>> 8) .& 15) 4) by (pose proof (land_15_range (p .>> 8)); lia).
    destruct (Z.eqb_spec (n - 8) 0); [lia|]. destruct (Z.eqb_spec (n - 9) 0); [lia|].
    by rewrite !andb_false_r.
Qed.

(** The precomputed table of the stream cipher is the round of the registers as
    defined: for every value of the packed words, [csa_stream_cfed] moves [F] to
    [E], adds [Z], [E] and the carry when [Q] is set, and puts [E] xor [Z] in
    [D]. *)
Theorem csa_stream_cfed_correct p c :
  csa_stream_cfed p c =
    cfed_next ((c .>> 4) .& 15) ((p .>> 8) .& 15) (Z.testbit c 12) (Z.testbit p 13) ((c .>> 8) .& 15).
Proof.
  unfold csa_stream_cfed. rewrite cfed_index_ok, cfed_lookup by apply land_15_range.
  unfold cfed_next. rewrite Z.lor_assoc, Z.lor_assoc. f_equal. f_equal. rewrite Z.shiftl_0_l, Z.lor_0_r.
  apply Z.bits_inj'. intros n Hn. rewrite Z.shiftr_spec, Z.land_spec, Z.shiftl_spec by lia.
  destruct (Z.lt_ge_cases n 4) as [L|L].
  - rewrite (Z.testbit_neg_r _ (n - 4)) by lia.
    assert (C : n = 0 \/ n = 1 \/ n = 2 \/ n = 3) by lia.
    repeat destruct C as [->|C]; try subst n; apply andb_false_r.
  - rewrite Z.land_spec, Z.shiftr_spec by lia. replace (n - 4 + 8) with (n + 4) by lia. f_equal.
    replace 0x0f00 with (15 .<< 8) by reflexivity. rewrite Z.shiftl_spec by lia. f_equal. lia.
Qed.

(** * Instances *)

Definition csa_key_ex : dvbcsa_key_s := mk_csa_key (seqZ 1 8) (seqZ 16 8) (seqZ 100 56).
Lemma csa_ex : dvbcsa_encrypt csa_key_ex (seqZ 0 19) <> seqZ 0 19.
Proof. by vm_compute. Qed.
