(* ===== verification/SwdmxDesc.v ===== *)
(** [swdmx_descrambler.c] and its algorithms ([swdmx_dvbcsa2.c], [swdmx_aes_ecb.c],
    [swdmx_aes_cbc.c]): the channels of the software descrambler and what it does to a
    scrambled packet.

    The block cipher of the kernel ([crypto_cipher_decrypt_one],
    [crypto_blkcipher_decrypt]) is a parameter.  An operation is [None] when the source
    would use a freed or null algorithm. *)

From S2P Require Import Prelude DList SwdmxList SwdmxTs SwdmxCsa SwdmxCsaKey.

(** * The algorithms *)

Definition SWDMX_OK := 1.
Definition SWDMX_ERR := -1.

Definition SWDMX_DVBCSA2_PARAM_ODD_KEY := 0.
Definition SWDMX_DVBCSA2_PARAM_EVEN_KEY := 1.
Definition SWDMX_DESC_ALIGN_HEAD := 0.
Definition SWDMX_DESC_ALIGN_TAIL := 1.
Definition SWDMX_AES_ECB_PARAM_ODD_KEY := 0.
Definition SWDMX_AES_ECB_PARAM_EVEN_KEY := 1.
Definition SWDMX_AES_ECB_PARAM_ALIGN := 2.
Definition SWDMX_AES_CBC_PARAM_ODD_KEY := 0.
Definition SWDMX_AES_CBC_PARAM_EVEN_KEY := 1.
Definition SWDMX_AES_CBC_PARAM_ALIGN := 2.
Definition SWDMX_AES_CBC_PARAM_ODD_IV := 3.
Definition SWDMX_AES_CBC_PARAM_EVEN_IV := 4.

(** A parameter: the pointer as a number and the bytes it points to. *)
Record desc_param := mk_param { par_size : Z; par_bytes : list Z }.

Record SWDMX_DvbCsa2Algo := mk_csa2 { csa2_odd : dvbcsa_key_s; csa2_even : dvbcsa_key_s }.
Record SWDMX_AesEcbAlgo := mk_ecb { ecb_align : Z; ecb_odd : list Z; ecb_even : list Z }.
Record SWDMX_AesCbcAlgo := mk_cbc {
  cbc_align : Z; cbc_odd : list Z; cbc_even : list Z; cbc_odd_iv : list Z; cbc_even_iv : list Z
}.

(** The three implementations of the structure of function pointers. *)
Inductive SWDMX_DescAlgo :=
| DvbCsa2 (a : SWDMX_DvbCsa2Algo) | AesEcb (a : SWDMX_AesEcbAlgo) | AesCbc (a : SWDMX_AesCbcAlgo).

Definition dvbcsa2_set (a : SWDMX_DvbCsa2Algo) (type : Z) (p : desc_param) : Z * SWDMX_DvbCsa2Algo :=
  if type =? SWDMX_DVBCSA2_PARAM_ODD_KEY then (SWDMX_OK, mk_csa2 (dvbcsa_key_set (par_bytes p)) (csa2_even a))
  else if type =? SWDMX_DVBCSA2_PARAM_EVEN_KEY then (SWDMX_OK, mk_csa2 (csa2_odd a) (dvbcsa_key_set (par_bytes p)))
  else (SWDMX_ERR, a).

Definition aes_ecb_set (a : SWDMX_AesEcbAlgo) (type : Z) (p : desc_param) : Z * SWDMX_AesEcbAlgo :=
  if type =? SWDMX_AES_ECB_PARAM_ODD_KEY then (SWDMX_OK, mk_ecb (ecb_align a) (take 16 (par_bytes p)) (ecb_even a))
  else if type =? SWDMX_AES_ECB_PARAM_EVEN_KEY then (SWDMX_OK, mk_ecb (ecb_align a) (ecb_odd a) (take 16 (par_bytes p)))
  else if type =? SWDMX_AES_ECB_PARAM_ALIGN then (SWDMX_OK, mk_ecb (s32 (par_size p)) (ecb_odd a) (ecb_even a))
  else (SWDMX_ERR, a).

Definition aes_cbc_set (a : SWDMX_AesCbcAlgo) (type : Z) (p : desc_param) : Z * SWDMX_AesCbcAlgo :=
  let bs := take 16 (par_bytes p) in
  if type =? SWDMX_AES_CBC_PARAM_ODD_KEY
  then (SWDMX_OK, mk_cbc (cbc_align a) bs (cbc_even a) (cbc_odd_iv a) (cbc_even_iv a))
  else if type =? SWDMX_AES_CBC_PARAM_EVEN_KEY
  then (SWDMX_OK, mk_cbc (cbc_align a) (cbc_odd a) bs (cbc_odd_iv a) (cbc_even_iv a))
  else if type =? SWDMX_AES_CBC_PARAM_ALIGN
  then (SWDMX_OK, mk_cbc (s32 (par_size p)) (cbc_odd a) (cbc_even a) (cbc_odd_iv a) (cbc_even_iv a))
  else if type =? SWDMX_AES_CBC_PARAM_ODD_IV
  then (SWDMX_OK, mk_cbc (cbc_align a) (cbc_odd a) (cbc_even a) bs (cbc_even_iv a))
  else if type =? SWDMX_AES_CBC_PARAM_EVEN_IV
  then (SWDMX_OK, mk_cbc (cbc_align a) (cbc_odd a) (cbc_even a) (cbc_odd_iv a) bs)
  else (SWDMX_ERR, a).

Definition swdmx_dvbcsa2_algo_new : SWDMX_DescAlgo :=
  DvbCsa2 (mk_csa2 (dvbcsa_key_set (replicate 8 0)) (dvbcsa_key_set (replicate 8 0))).

(** In the kernel the keys of the structure are not set: [odd] and [even] are what the
    block held. *)
Definition swdmx_aes_ecb_algo_new (odd even : list Z) : SWDMX_DescAlgo :=
  AesEcb (mk_ecb SWDMX_DESC_ALIGN_HEAD odd even).
Definition swdmx_aes_cbc_algo_new (odd even : list Z) : SWDMX_DescAlgo :=
  AesCbc (mk_cbc SWDMX_DESC_ALIGN_HEAD odd even (replicate 16 0) (replicate 16 0)).

(** [bs] written at the offset [o] of the packet. *)
Definition write_packet (o : nat) (bs : list Z) (pkt : SWDMX_TsPacket) : SWDMX_TsPacket :=
  mk_pkt (pid pkt) (payload_start pkt) (priority pkt) (error pkt) (scramble pkt) (cc pkt)
    (blit o bs (packet pkt)) (packet_len pkt) (adp_field pkt) (adp_field_len pkt) (payload pkt) (payload_len pkt).

(** The part of the payload, offset in the packet and length, that is a whole number of
    blocks of 16 bytes. *)
Definition aes_region (align : Z) (pkt : SWDMX_TsPacket) : option (Z * Z) :=
  p ← payload pkt;
  let left := payload_len pkt in
  if align =? SWDMX_DESC_ALIGN_TAIL then let head := left .& 15 in Some (p + head, left - head)
  else let tail := left .& 15 in Some (p, left - tail).

Definition region_bytes (o len : Z) (pkt : SWDMX_TsPacket) : list Z :=
  window (Z.to_nat o) (Z.to_nat len) (packet pkt).

Section Algorithms.
(** The block decryption with a key; the chained decryption with a key and an
    initialisation vector. *)
Context (crypto_cipher_decrypt_one : list Z -> list Z -> list Z)
  (crypto_blkcipher_decrypt : list Z -> list Z -> list Z -> list Z).

Definition dvbcsa2_desc (a : SWDMX_DvbCsa2Algo) (pkt : SWDMX_TsPacket) : Z * SWDMX_TsPacket :=
  let decrypt key :=
    match payload pkt with
    | Some o => write_packet (Z.to_nat o) (dvbcsa_decrypt key (payload_bytes pkt)) pkt
    | None => pkt
    end in
  if scramble pkt =? 2 then (SWDMX_OK, decrypt (csa2_even a))
  else if scramble pkt =? 3 then (SWDMX_OK, decrypt (csa2_odd a))
  else (SWDMX_ERR, pkt).

(** The loop: what is written to [obuf], 16 bytes a turn. *)
Fixpoint ecb_loop (fuel : nat) (key p : list Z) (left : Z) : list Z :=
  match fuel with
  | O => []
  | S fuel =>
      if 16 <=? left then crypto_cipher_decrypt_one key (take 16 p) ++ ecb_loop fuel key (drop 16 p) (left - 16)
      else []
  end.

(** The loop leaves [out] at the end of what it wrote, and [memcpy] reads from there:
    [stack] is what the memory after it holds. *)
Definition aes_ecb_desc_pkt (stack : list Z) (a : SWDMX_AesEcbAlgo) (key_type : Z) (pkt : SWDMX_TsPacket)
    (align : Z) : option SWDMX_TsPacket :=
  '(p, n) ← aes_region align pkt;
  let key := if key_type =? 0 then ecb_even a else ecb_odd a in
  let written := ecb_loop (Z.to_nat n) key (region_bytes p n pkt) n in
  Some (write_packet (Z.to_nat p) (window (length written) (Z.to_nat n) (written ++ stack)) pkt).

Definition aes_ecb_desc (stack : list Z) (a : SWDMX_AesEcbAlgo) (pkt : SWDMX_TsPacket)
    : option (Z * SWDMX_TsPacket) :=
  if scramble pkt =? 2 then pair SWDMX_OK <$> aes_ecb_desc_pkt stack a 0 pkt (ecb_align a)
  else if scramble pkt =? 3 then pair SWDMX_OK <$> aes_ecb_desc_pkt stack a 1 pkt (ecb_align a)
  else Some (SWDMX_ERR, pkt).

Definition aes_cbc_desc_pkt (a : SWDMX_AesCbcAlgo) (key_type : Z) (iv : list Z) (pkt : SWDMX_TsPacket)
    (align : Z) : option SWDMX_TsPacket :=
  '(p, n) ← aes_region align pkt;
  let key := if key_type =? 0 then cbc_even a else cbc_odd a in
  let out := crypto_blkcipher_decrypt key iv (region_bytes p n pkt) in
  Some (write_packet (Z.to_nat p) (take (Z.to_nat n) out) pkt).

Definition aes_cbc_desc (a : SWDMX_AesCbcAlgo) (pkt : SWDMX_TsPacket) : option (Z * SWDMX_TsPacket) :=
  if scramble pkt =? 2 then pair SWDMX_OK <$> aes_cbc_desc_pkt a 0 (cbc_even_iv a) pkt (cbc_align a)
  else if scramble pkt =? 3 then pair SWDMX_OK <$> aes_cbc_desc_pkt a 1 (cbc_odd_iv a) pkt (cbc_align a)
  else Some (SWDMX_ERR, pkt).

(** The calls through [set_fn] and [desc_fn]. *)
Definition set_fn (a : SWDMX_DescAlgo) (type : Z) (p : desc_param) : Z * SWDMX_DescAlgo :=
  match a with
  | DvbCsa2 a => let '(r, a) := dvbcsa2_set a type p in (r, DvbCsa2 a)
  | AesEcb a => let '(r, a) := aes_ecb_set a type p in (r, AesEcb a)
  | AesCbc a => let '(r, a) := aes_cbc_set a type p in (r, AesCbc a)
  end.

Definition desc_fn (stack : list Z) (a : SWDMX_DescAlgo) (pkt : SWDMX_TsPacket) : option (Z * SWDMX_TsPacket) :=
  match a with
  | DvbCsa2 a => Some (dvbcsa2_desc a pkt)
  | AesEcb a => aes_ecb_desc stack a pkt
  | AesCbc a => aes_cbc_desc a pkt
  end.

(** * The descrambler *)

(** A channel with its flag, PID and algorithm. *)
Record SWDMX_DescChannel := mk_chan { ch_enable : bool; ch_pid : Z; ch_algo : option loc }.

(** The descrambler with the memory of its channels and of the algorithms. *)
Record SWDMX_Descrambler := mk_desc {
  chans : gmap loc SWDMX_DescChannel; chan_list : list loc;
  algos : gmap loc SWDMX_DescAlgo; desc_cbs : list (Z * Z)
}.

Definition set_chan (l : loc) (c : SWDMX_DescChannel) (d : SWDMX_Descrambler) : SWDMX_Descrambler :=
  mk_desc (<[l := c]> (chans d)) (chan_list d) (algos d) (desc_cbs d).
Definition set_algos (m : gmap loc SWDMX_DescAlgo) (d : SWDMX_Descrambler) : SWDMX_Descrambler :=
  mk_desc (chans d) (chan_list d) m (desc_cbs d).
Definition set_desc_cbs (es : list (Z * Z)) (d : SWDMX_Descrambler) : SWDMX_Descrambler :=
  mk_desc (chans d) (chan_list d) (algos d) es.

Definition swdmx_descrambler_new : SWDMX_Descrambler := mk_desc ∅ [] ∅ [].

Definition swdmx_descrambler_alloc_channel (l : loc) (d : SWDMX_Descrambler) : SWDMX_Descrambler :=
  mk_desc (<[l := mk_chan false 65535 None]> (chans d)) (chan_list d ++ [l]) (algos d) (desc_cbs d).

(** [free_fn], which all the algorithms have. *)
Definition free_algo (a : option loc) (d : SWDMX_Descrambler) : option SWDMX_Descrambler :=
  match a with
  | None => Some d
  | Some a => _ ← algos d !! a; Some (set_algos (delete a (algos d)) d)
  end.

Definition swdmx_desc_channel_set_algo (l a : loc) (d : SWDMX_Descrambler) : option SWDMX_Descrambler :=
  c ← chans d !! l;
  d ← free_algo (ch_algo c) d;
  Some (set_chan l (mk_chan (ch_enable c) (ch_pid c) (Some a)) d).

Definition swdmx_desc_channel_set_pid (l : loc) (pid : Z) (d : SWDMX_Descrambler) : option (Z * SWDMX_Descrambler) :=
  c ← chans d !! l;
  if negb (swdmx_is_valid_pid pid) || (pid =? 8191) then Some (SWDMX_ERR, d)
  else Some (SWDMX_OK, set_chan l (mk_chan (ch_enable c) pid (ch_algo c)) d).

Definition swdmx_desc_channel_set_param (l : loc) (type : Z) (p : desc_param) (d : SWDMX_Descrambler)
    : option (Z * SWDMX_Descrambler) :=
  c ← chans d !! l;
  a ← ch_algo c;
  alg ← algos d !! a;
  let '(r, alg) := set_fn alg type p in
  Some (r, set_algos (<[a := alg]> (algos d)) d).

Definition swdmx_desc_channel_enable (l : loc) (d : SWDMX_Descrambler) : option (Z * SWDMX_Descrambler) :=
  c ← chans d !! l;
  if negb (swdmx_is_valid_pid (ch_pid c)) then Some (SWDMX_ERR, d)
  else
    match ch_algo c with
    | None => Some (SWDMX_ERR, d)
    | Some _ => Some (SWDMX_OK, set_chan l (mk_chan true (ch_pid c) (ch_algo c)) d)
    end.

Definition swdmx_desc_channel_disable (l : loc) (d : SWDMX_Descrambler) : option SWDMX_Descrambler :=
  c ← chans d !! l;
  Some (set_chan l (mk_chan false (ch_pid c) (ch_algo c)) d).

Definition swdmx_desc_channel_free (l : loc) (d : SWDMX_Descrambler) : option SWDMX_Descrambler :=
  c ← chans d !! l;
  d ← free_algo (ch_algo c) d;
  Some (mk_desc (delete l (chans d)) (without l (chan_list d)) (algos d) (desc_cbs d)).

Definition swdmx_descrambler_add_ts_packet_cb (cb data : Z) (d : SWDMX_Descrambler) : SWDMX_Descrambler :=
  set_desc_cbs (desc_cbs d ++ [(cb, data)]) d.
Definition swdmx_descrambler_remove_ts_packet_cb (cb data : Z) (d : SWDMX_Descrambler) : SWDMX_Descrambler :=
  set_desc_cbs (cb_without cb data (desc_cbs d)) d.

(** The loop over the channels, then the list of callbacks is cleared. *)
Fixpoint free_channels (fuel : nat) (d : SWDMX_Descrambler) : option SWDMX_Descrambler :=
  match chan_list d, fuel with
  | [], _ => Some d
  | _, O => None
  | l :: _, S fuel => d ← swdmx_desc_channel_free l d; free_channels fuel d
  end.

Definition swdmx_descrambler_free (d : SWDMX_Descrambler) : option SWDMX_Descrambler :=
  d ← free_channels (length (chan_list d)) d;
  Some (set_desc_cbs [] d).

(** [pkt->scramble = 0; pkt->packet[3] &= 0x3f]. *)
Definition clear_scramble (pkt : SWDMX_TsPacket) : SWDMX_TsPacket :=
  mk_pkt (pid pkt) (payload_start pkt) (priority pkt) (error pkt) 0 (cc pkt)
    (blit 3 [tbl (packet pkt) 3 .& 0x3f] (packet pkt)) (packet_len pkt)
    (adp_field pkt) (adp_field_len pkt) (payload pkt) (payload_len pkt).

(** The loop over the channels. *)
Fixpoint desc_loop (stack : list Z) (ls : list loc) (d : SWDMX_Descrambler) (pkt : SWDMX_TsPacket)
    : option SWDMX_TsPacket :=
  match ls with
  | [] => Some pkt
  | l :: ls =>
      c ← chans d !! l;
      if ch_enable c && (ch_pid c =? pid pkt) then
        a ← ch_algo c;
        alg ← algos d !! a;
        '(r, pkt) ← desc_fn stack alg pkt;
        Some (if r =? SWDMX_OK then clear_scramble pkt else pkt)
      else desc_loop stack ls d pkt
  end.

(** What the descrambler does to the packet before it passes it on. *)
Definition descramble (stack : list Z) (d : SWDMX_Descrambler) (pkt : SWDMX_TsPacket) : option SWDMX_TsPacket :=
  if truthy (scramble pkt) && bool_decide (payload pkt <> None) then desc_loop stack (chan_list d) d pkt
  else Some pkt.

Definition swdmx_descrambler_ts_packet_cb {S : Type} `{!TsCallbacks S} (stack : list Z) (d : SWDMX_Descrambler)
    (pkt : SWDMX_TsPacket) (s : S) : option (SWDMX_TsPacket * S) :=
  pkt ← descramble stack d pkt;
  Some (run_cbs (desc_cbs d) pkt s).
End Algorithms.

(** * The channels: safety *)

Record desc_inv (d : SWDMX_Descrambler) : Prop := mk_dinv {
  di_list : NoDup (chan_list d) /\ forall l, l ∈ chan_list d <-> is_Some (chans d !! l);
  di_pid : forall l c, chans d !! l = Some c -> ch_pid c < 8191 \/ ch_pid c = 65535;
  di_enable : forall l c, chans d !! l = Some c -> ch_enable c = true -> is_Some (ch_algo c) /\ ch_pid c < 8191;
  di_live : forall l c a, chans d !! l = Some c -> ch_algo c = Some a -> is_Some (algos d !! a);
  di_own : forall l l' c c' a, chans d !! l = Some c -> chans d !! l' = Some c' ->
    ch_algo c = Some a -> ch_algo c' = Some a -> l = l';
  di_leak : forall a, is_Some (algos d !! a) -> exists l c, chans d !! l = Some c /\ ch_algo c = Some a
}.

Lemma desc_new_inv : desc_inv swdmx_descrambler_new.
Proof.
  split; simpl; try (intros *; rewrite lookup_empty; naive_solver).
  split; [apply NoDup_nil_2|]. intros l. rewrite lookup_empty, elem_of_nil. split; [done|by intros [? ?]].
Qed.

Lemma desc_alloc_inv l d : chans d !! l = None -> desc_inv d -> desc_inv (swdmx_descrambler_alloc_channel l d).
Proof.
  intros El [[N L] P En Li Ow Lk]. split; simpl.
  - split.
    + apply NoDup_app. split; [done|]. split; [|apply NoDup_singleton].
      intros x Hx Hx'. apply list_elem_of_singleton in Hx' as ->. apply L in Hx. rewrite El in Hx. by destruct Hx.
    + intros x. rewrite elem_of_app, list_elem_of_singleton, L. destruct (decide (x = l)) as [->|Nx].
      * rewrite lookup_insert_eq. naive_solver.
      * rewrite lookup_insert_ne by done. naive_solver.
  - intros x c. rewrite lookup_insert_Some. intros [[<- <-]|[? H]]; [by right|eauto].
  - intros x c. rewrite lookup_insert_Some. intros [[<- <-]|[? H]]; [done|eauto].
  - intros x c a. rewrite lookup_insert_Some. intros [[<- <-]|[? H]]; [done|eauto].
  - intros x y c c' a. rewrite !lookup_insert_Some. intros [[<- <-]|[? H]] [[<- <-]|[? H']]; (done || eauto).
  - intros a Ha. destruct (Lk a Ha) as (x & c & Hx & Hc). exists x, c. split; [|done].
    rewrite lookup_insert_ne; [done|congruence].
Qed.

(** The state without the algorithm of channel [l]. *)
Lemma free_algo_ok l c d :
  desc_inv d -> chans d !! l = Some c ->
  exists d1, free_algo (ch_algo c) d = Some d1 /\ chans d1 = chans d /\ chan_list d1 = chan_list d /\
    desc_cbs d1 = desc_cbs d /\
    (forall a, is_Some (algos d1 !! a) <-> is_Some (algos d !! a) /\ ch_algo c <> Some a).
Proof.
  intros [_ _ _ Li _ _] El. destruct (ch_algo c) as [a|] eqn:Ea; simpl.
  - destruct (Li l c a El Ea) as [alg Ha]. rewrite Ha. simpl. eexists. split; [done|]. simpl.
    do 3 (split; [done|]). intros b. destruct (decide (a = b)) as [<-|N].
    + rewrite lookup_delete_eq. split; [by intros [? ?]|naive_solver].
    + rewrite lookup_delete_ne by done. naive_solver.
  - eexists. split; [done|]. do 3 (split; [done|]). naive_solver.
Qed.

(** Any change of one channel that keeps its algorithm. *)
Lemma set_chan_inv l c c' d :
  desc_inv d -> chans d !! l = Some c -> ch_algo c' = ch_algo c ->
  (ch_pid c' < 8191 \/ ch_pid c' = 65535) ->
  (ch_enable c' = true -> is_Some (ch_algo c') /\ ch_pid c' < 8191) ->
  desc_inv (set_chan l c' d).
Proof.
  intros [[N L] P En Li Ow Lk] El Ha Hp He. split; simpl.
  - split; [done|]. intros x. rewrite L. destruct (decide (x = l)) as [->|Nx];
      [rewrite lookup_insert_eq, El; split; by eauto|by rewrite lookup_insert_ne].
  - intros x k. rewrite lookup_insert_Some. intros [[<- <-]|[? H]]; eauto.
  - intros x k. rewrite lookup_insert_Some. intros [[<- <-]|[? H]]; eauto.
  - intros x k a. rewrite lookup_insert_Some. intros [[<- <-]|[? H]]; [rewrite Ha|]; eauto.
  - intros x y k k' a. rewrite !lookup_insert_Some. intros [[<- <-]|[? H]] [[<- <-]|[? H']];
      rewrite ?Ha; (done || eauto).
  - intros a H. destruct (Lk a H) as (x & k & Hx & Hk). destruct (decide (x = l)) as [->|Nx].
    + exists l, c'. rewrite lookup_insert_eq. split; [done|]. congruence.
    + exists x, k. by rewrite lookup_insert_ne.
Qed.

(** Setting a new algorithm. *)
Lemma set_algo_inv l a alg c d :
  desc_inv d -> chans d !! l = Some c -> algos d !! a = None ->
  exists d', swdmx_desc_channel_set_algo l a (set_algos (<[a := alg]> (algos d)) d) = Some d' /\ desc_inv d'.
Proof.
  intros I El Ea. pose proof I as [[N L] P En Li Ow Lk].
  unfold swdmx_desc_channel_set_algo. simpl. rewrite El. simpl.
  assert (F : exists m, free_algo (ch_algo c) (set_algos (<[a := alg]> (algos d)) d) = Some (set_algos m d) /\
      is_Some (m !! a) /\ forall b, b <> a -> is_Some (m !! b) <-> is_Some (algos d !! b) /\ ch_algo c <> Some b).
  { destruct (ch_algo c) as [b|] eqn:Eb; simpl.
    - destruct (Li l c b El Eb) as [x Hx].
      assert (Nb : b <> a) by (intros ->; congruence).
      rewrite lookup_insert_ne, Hx by done. simpl. eexists. split; [reflexivity|].
      split; [rewrite lookup_delete_ne, lookup_insert_eq by done; eauto|]. intros b' Nb'.
      destruct (decide (b' = b)) as [->|N'].
      + rewrite lookup_delete_eq. split; [by intros [? ?]|naive_solver].
      + rewrite lookup_delete_ne, lookup_insert_ne by done. naive_solver.
    - eexists. split; [reflexivity|]. split; [rewrite lookup_insert_eq; eauto|].
      intros b' Nb'. rewrite lookup_insert_ne by done. naive_solver. }
  destruct F as (m & -> & Ma & Mb). simpl. eexists. split; [done|]. split; simpl.
  - split; [done|]. intros x. rewrite L. destruct (decide (x = l)) as [->|Nx];
      [rewrite lookup_insert_eq, El; split; by eauto|by rewrite lookup_insert_ne].
  - intros x k. rewrite lookup_insert_Some. intros [[<- <-]|[? H]]; simpl; eauto.
  - intros x k. rewrite lookup_insert_Some. intros [[<- <-]|[? H]]; simpl; [|eauto].
    intros He. split; [eauto|]. by apply (En l c).
  - intros x k b. rewrite lookup_insert_Some. intros [[<- <-]|[Nx H]]; simpl; [by intros [= <-]|].
    intros Hb. assert (b <> a) by (intros ->; destruct (Li x k a H Hb); congruence).
    apply Mb; [done|]. split; [eauto|]. intros Hc. apply Nx. eauto.
  - intros x y k k' b. rewrite !lookup_insert_Some. intros [[<- <-]|[? H]] [[<- <-]|[? H']]; simpl; try done.
    + intros [= <-] Hb. destruct (Li y k' a H' Hb). congruence.
    + intros Hb [= <-]. destruct (Li x k a H Hb). congruence.
    + eauto.
  - intros b Hb. destruct (decide (b = a)) as [->|Nb].
    + exists l. rewrite lookup_insert_eq. eauto.
    + apply (Mb b Nb) in Hb as [Hb Hc]. destruct (Lk b Hb) as (x & k & Hx & Hk).
      exists x, k. split; [|done]. rewrite lookup_insert_ne; [done|congruence].
Qed.

Lemma set_param_inv l type p c a d :
  desc_inv d -> chans d !! l = Some c -> ch_algo c = Some a ->
  exists r d', swdmx_desc_channel_set_param l type p d = Some (r, d') /\ desc_inv d'.
Proof.
  intros [[N L] P En Li Ow Lk] El Ea. destruct (Li l c a El Ea) as [alg Ha].
  unfold swdmx_desc_channel_set_param. rewrite El. simpl. rewrite Ea. simpl. rewrite Ha. simpl.
  destruct (set_fn alg type p) as [r alg']. eexists _, _. split; [done|].
  assert (A : forall b, is_Some (<[a := alg']> (algos d) !! b) <-> is_Some (algos d !! b)).
  { intros b. destruct (decide (b = a)) as [->|Nb];
      [rewrite lookup_insert_eq, Ha; split; by eauto|by rewrite lookup_insert_ne]. }
  split; simpl; eauto.
  - intros x k b Hx Hk. apply A. eauto.
  - intros b Hb. apply A in Hb. eauto.
Qed.

Lemma channel_free_inv l c d :
  desc_inv d -> chans d !! l = Some c ->
  exists d', swdmx_desc_channel_free l d = Some d' /\ desc_inv d' /\
    chan_list d' = without l (chan_list d) /\ desc_cbs d' = desc_cbs d.
Proof.
  intros I El. destruct (free_algo_ok l c d I El) as (d1 & F & C1 & C2 & C3 & C4).
  destruct I as [[N L] P En Li Ow Lk]. unfold swdmx_desc_channel_free. rewrite El. simpl. rewrite F. simpl.
  eexists. split; [done|]. rewrite C1, C2, C3. split; [|done]. split; simpl.
  - split; [by apply NoDup_without|]. intros x. rewrite elem_of_without, L. destruct (decide (x = l)) as [->|Nx].
    + rewrite lookup_delete_eq. split; [naive_solver|by intros [? ?]].
    + rewrite lookup_delete_ne by done. naive_solver.
  - intros x k. rewrite lookup_delete_Some. intros [? H]; eauto.
  - intros x k. rewrite lookup_delete_Some. intros [? H]; eauto.
  - intros x k a. rewrite lookup_delete_Some. intros [Nx H] Hk. apply C4. split; [eauto|].
    intros Hc. apply Nx. eauto.
  - intros x y k k' a. rewrite !lookup_delete_Some. intros [? H] [? H']. eauto.
  - intros a Ha. apply C4 in Ha as [Ha Hc]. destruct (Lk a Ha) as (x & k & Hx & Hk). exists x, k.
    split; [|done]. rewrite lookup_delete_ne; [done|congruence].
Qed.

(** The channel that descrambles packets of a PID: the first enabled one. *)
Definition serves (d : SWDMX_Descrambler) (p : Z) (l : loc) : bool :=
  match chans d !! l with Some c => ch_enable c && (ch_pid c =? p) | None => false end.
Definition desc_channel (d : SWDMX_Descrambler) (p : Z) : option loc :=
  snd <$> list_find (fun l => serves d p l = true) (chan_list d).

Section Safety.
Context (crypto_cipher_decrypt_one : list Z -> list Z -> list Z)
  (crypto_blkcipher_decrypt : list Z -> list Z -> list Z -> list Z).
#[local] Abbreviation desc_fn := (desc_fn crypto_cipher_decrypt_one crypto_blkcipher_decrypt).
#[local] Abbreviation desc_loop := (desc_loop crypto_cipher_decrypt_one crypto_blkcipher_decrypt).
#[local] Abbreviation descramble := (descramble crypto_cipher_decrypt_one crypto_blkcipher_decrypt).

Lemma desc_fn_some stack alg pkt : payload pkt <> None -> exists r pkt', desc_fn stack alg pkt = Some (r, pkt').
Proof.
  intros Hp. destruct (payload pkt) as [o|] eqn:E; [|done].
  destruct alg as [a|a|a]; simpl;
    unfold dvbcsa2_desc, aes_ecb_desc, aes_cbc_desc, aes_ecb_desc_pkt, aes_cbc_desc_pkt, aes_region;
    rewrite ?E; simpl;
    repeat match goal with |- context [if ?b then _ else _] => destruct b; simpl end; eauto.
Qed.

Lemma desc_loop_ok stack ls d pkt :
  desc_inv d -> (forall l, l ∈ ls -> is_Some (chans d !! l)) -> payload pkt <> None ->
  exists pkt', desc_loop stack ls d pkt = Some pkt'.
Proof.
  intros I. induction ls as [|l ls IH]; intros Hl Hp; simpl; [eauto|].
  destruct (Hl l) as [c El]; [by left|]. rewrite El. simpl.
  destruct (ch_enable c && (ch_pid c =? pid pkt)) eqn:Ec.
  - apply andb_true_iff in Ec as [Ee _]. destruct (di_enable _ I l c El Ee) as [[a Ha] _]. rewrite Ha. simpl.
    destruct (di_live _ I l c a El Ha) as [alg ->]. simpl.
    destruct (desc_fn_some stack alg pkt Hp) as (r & pkt' & ->). simpl. eauto.
  - apply IH; [|done]. intros. apply Hl. by right.
Qed.

Lemma descramble_ok stack d pkt : desc_inv d -> exists pkt', descramble stack d pkt = Some pkt'.
Proof.
  intros I. unfold SwdmxDesc.descramble. destruct (truthy (scramble pkt)); simpl; [|eauto].
  destruct (bool_decide_reflect (payload pkt <> None)) as [Hp|]; [|eauto].
  apply desc_loop_ok; [done| |done]. intros l. apply (di_list _ I).
Qed.

(** Everything a client can do; a new algorithm is given to its channel as it is
    made. *)
Inductive desc_op :=
| DoAllocChannel (l : loc)
| DoSetAlgo (l a : loc) (alg : SWDMX_DescAlgo)
| DoSetPid (l : loc) (pid : Z)
| DoSetParam (l : loc) (type : Z) (p : desc_param)
| DoEnable (l : loc)
| DoDisable (l : loc)
| DoFreeChannel (l : loc)
| DoAddCb (cb data : Z)
| DoRemoveCb (cb data : Z)
| DoPacket (stack : list Z) (pkt : SWDMX_TsPacket).

Definition desc_do (o : desc_op) (d : SWDMX_Descrambler) : option SWDMX_Descrambler :=
  match o with
  | DoAllocChannel l => Some (swdmx_descrambler_alloc_channel l d)
  | DoSetAlgo l a alg => swdmx_desc_channel_set_algo l a (set_algos (<[a := alg]> (algos d)) d)
  | DoSetPid l pid => snd <$> swdmx_desc_channel_set_pid l pid d
  | DoSetParam l type p => snd <$> swdmx_desc_channel_set_param l type p d
  | DoEnable l => snd <$> swdmx_desc_channel_enable l d
  | DoDisable l => swdmx_desc_channel_disable l d
  | DoFreeChannel l => swdmx_desc_channel_free l d
  | DoAddCb cb data => Some (swdmx_descrambler_add_ts_packet_cb cb data d)
  | DoRemoveCb cb data => Some (swdmx_descrambler_remove_ts_packet_cb cb data d)
  | DoPacket stack pkt => _ ← descramble stack d pkt; Some d
  end.

(** A client uses channels it has allocated and not freed, sets parameters of algorithms
    it has set, and the allocator gives unused blocks. *)
Definition desc_allowed (o : desc_op) (d : SWDMX_Descrambler) : Prop :=
  match o with
  | DoAllocChannel l => chans d !! l = None
  | DoSetAlgo l a _ => is_Some (chans d !! l) /\ algos d !! a = None
  | DoSetParam l _ _ => exists c, chans d !! l = Some c /\ is_Some (ch_algo c)
  | DoSetPid l _ | DoEnable l | DoDisable l | DoFreeChannel l => is_Some (chans d !! l)
  | _ => True
  end.

Definition desc_step (d d' : SWDMX_Descrambler) : Prop := exists o, desc_allowed o d /\ desc_do o d = Some d'.

Lemma set_desc_cbs_inv es d : desc_inv d -> desc_inv (set_desc_cbs es d).
Proof. by intros []; split. Qed.

Lemma desc_do_ok o d : desc_inv d -> desc_allowed o d -> exists d', desc_do o d = Some d' /\ desc_inv d'.
Proof.
  intros I. destruct o as [l|l a alg|l p|l type p|l|l|l|cb data|cb data|stack pkt]; simpl.
  - intros El. eexists. split; [done|]. by apply desc_alloc_inv.
  - intros [[c El] Ea]. by apply (set_algo_inv l a alg c).
  - intros [c El]. unfold swdmx_desc_channel_set_pid. rewrite El. simpl. unfold swdmx_is_valid_pid.
    destruct (Z.leb_spec p 8191), (Z.eqb_spec p 8191); simpl; try by eauto.
    eexists. split; [done|]. apply (set_chan_inv l c); simpl; [done..|lia|].
    intros He. split; [by apply (di_enable _ I l c)|lia].
  - intros (c & El & a & Ea). destruct (set_param_inv l type p c a d I El Ea) as (r & d' & -> & ?). simpl. eauto.
  - intros [c El]. unfold swdmx_desc_channel_enable. rewrite El. simpl. unfold swdmx_is_valid_pid.
    destruct (Z.leb_spec (ch_pid c) 8191); simpl; [|by eauto].
    destruct (ch_algo c) as [a|] eqn:Ea; simpl; [|by eauto].
    eexists. split; [done|]. apply (set_chan_inv l c); simpl; [done..| |].
    + by apply (di_pid _ I l c).
    + intros _. split; [eauto|]. destruct (di_pid _ I l c El); lia.
  - intros [c El]. unfold swdmx_desc_channel_disable. rewrite El. simpl. eexists. split; [done|].
    apply (set_chan_inv l c); simpl; [done..| |done]. by apply (di_pid _ I l c).
  - intros [c El]. destruct (channel_free_inv l c d I El) as (d' & ? & ? & _). eauto.
  - intros _. eexists. split; [done|]. by apply set_desc_cbs_inv.
  - intros _. eexists. split; [done|]. by apply set_desc_cbs_inv.
  - intros _. destruct (descramble_ok stack d pkt I) as [pkt' ->]. simpl. eauto.
Qed.

Lemma free_channels_ok fuel d :
  desc_inv d -> (length (chan_list d) <= fuel)%nat ->
  exists d', free_channels fuel d = Some d' /\ desc_inv d' /\ chan_list d' = [].
Proof.
  revert d. induction fuel as [|fuel IH]; intros d I Hf.
  - simpl. destruct (chan_list d) eqn:E; [eauto|simpl in Hf; lia].
  - simpl. destruct (chan_list d) as [|l ls] eqn:E; [eauto|].
    pose proof (di_list _ I) as [N L]. rewrite E in N, L.
    destruct (proj1 (L l)) as [c El]; [by left|].
    destruct (channel_free_inv l c d I El) as (d1 & -> & I1 & E1 & _). simpl. apply IH; [done|].
    rewrite E1, E. unfold without. rewrite filter_cons_False by tauto.
    pose proof (length_filter (fun y => y <> l) ls). simpl in Hf. lia.
Qed.

End Safety.

(** * The block ciphers *)

Section Blocks.
Context (cipher : list Z -> list Z -> list Z) (cbc : list Z -> list Z -> list Z -> list Z).

(** A packet whose payload is inside its bytes. *)
Definition payload_ok (pkt : SWDMX_TsPacket) : Prop :=
  exists o, payload pkt = Some o /\ 0 <= o /\ 0 <= payload_len pkt /\
    o + payload_len pkt <= Z.of_nat (length (packet pkt)).

Lemma aes_region_ok align pkt :
  payload_ok pkt ->
  exists o n, aes_region align pkt = Some (o, n) /\ 0 <= o /\ 0 <= n /\ n mod 16 = 0 /\
    payload_len pkt - n < 16 /\ n <= payload_len pkt /\
    o + n <= Z.of_nat (length (packet pkt)) /\
    forall pkt', payload pkt' = payload pkt -> payload_len pkt' = payload_len pkt ->
      aes_region align pkt' = Some (o, n).
Proof.
  intros (o & Ho & H0 & Hl & Hb). unfold aes_region. rewrite Ho. cbn [mbind option_bind].
  rewrite !land_15_mod. pose proof (Z.mod_pos_bound (payload_len pkt) 16 ltac:(lia)) as B.
  assert (M : (payload_len pkt - payload_len pkt mod 16) mod 16 = 0)
    by (rewrite Zminus_mod_idemp_r, Z.sub_diag; done).
  pose proof (Z.mod_le (payload_len pkt) 16 Hl ltac:(lia)).
  destruct (align =? SWDMX_DESC_ALIGN_TAIL); eexists _, _; (split; [reflexivity|]);
    (split; [lia|]); (split; [lia|]); (split; [done|]); (split; [lia|]); (split; [lia|]); (split; [lia|]);
    intros pkt' E1 E2; rewrite E1, E2; cbn [mbind option_bind]; by rewrite land_15_mod.
Qed.

Lemma ecb_loop_length fuel key p n :
  (forall k b, length (cipher k b) = 16%nat) -> 0 <= n -> n mod 16 = 0 -> n <= 16 * Z.of_nat fuel ->
  Z.of_nat (length (ecb_loop cipher fuel key p n)) = n.
Proof.
  intros H16. revert p n. induction fuel as [|fuel IH]; intros p n H0 Hm Hf; simpl; [lia|].
  destruct (Z.leb_spec 16 n).
  - rewrite length_app, H16, Nat2Z.inj_add, IH; [lia|lia| |lia].
    replace (n - 16) with (n + (-1) * 16) by lia. by rewrite Z.mod_add.
  - simpl. rewrite Z.mod_small in Hm by lia. lia.
Qed.

(** AES-ECB descrambling loses the payload: whatever the keys, the cipher and the
    scrambled bytes, [aes_ecb_desc] reports success and overwrites every whole block of
    the payload with what the stack holds after the blocks it decrypted, because the
    pointer it copies from has moved past them. *)
Theorem aes_ecb_desc_garbage stack a pkt :
  (forall k b, length (cipher k b) = 16%nat) -> payload_ok pkt -> scramble pkt = 2 \/ scramble pkt = 3 ->
  exists o n, aes_region (ecb_align a) pkt = Some (o, n) /\ payload_len pkt - n < 16 /\
    aes_ecb_desc cipher stack a pkt =
      Some (SWDMX_OK, write_packet (Z.to_nat o) (take (Z.to_nat n) stack) pkt).
Proof.
  intros H16 Hp Hs. destruct (aes_region_ok (ecb_align a) pkt Hp) as (o & n & E & Ho & Hn & Hm & Hl & _).
  exists o, n. split; [done|]. split; [done|]. unfold aes_ecb_desc, aes_ecb_desc_pkt. rewrite E.
  cbn [mbind option_bind fmap option_fmap option_map].
  assert (W : forall key, window (length (ecb_loop cipher (Z.to_nat n) key (region_bytes o n pkt) n)) (Z.to_nat n)
      (ecb_loop cipher (Z.to_nat n) key (region_bytes o n pkt) n ++ stack) = take (Z.to_nat n) stack).
  { intros key. unfold window. by rewrite drop_app_length. }
  destruct Hs as [-> | ->]; simpl; by rewrite W.
Qed.

(** AES-CBC descrambling restores the payload: with a decryption that inverts the
    encryption of the sender for the key and initialisation vector of the parity, a
    packet whose whole blocks were encrypted, aligned to the head or to the tail of the
    payload, gets its bytes back; other control values are refused and leave the packet
    alone. *)
Theorem aes_cbc_desc_restores enc a pkt :
  (forall key iv bs, length bs mod 16 = 0 -> cbc key iv (enc key iv bs) = bs /\ length (enc key iv bs) = length bs)%nat ->
  payload_ok pkt -> 0 <= scramble pkt < 4 ->
  exists o n, aes_region (cbc_align a) pkt = Some (o, n) /\
    let scrambled key iv := write_packet (Z.to_nat o) (enc key iv (region_bytes o n pkt)) pkt in
    (scramble pkt = 2 -> aes_cbc_desc cbc a (scrambled (cbc_even a) (cbc_even_iv a)) = Some (SWDMX_OK, pkt)) /\
    (scramble pkt = 3 -> aes_cbc_desc cbc a (scrambled (cbc_odd a) (cbc_odd_iv a)) = Some (SWDMX_OK, pkt)) /\
    (scramble pkt < 2 -> aes_cbc_desc cbc a pkt = Some (SWDMX_ERR, pkt)).
Proof.
  intros Hinv Hp Hs. destruct (aes_region_ok (cbc_align a) pkt Hp) as (o & n & E & Ho & Hn & Hm & _ & _ & Hb & Er).
  exists o, n. split; [done|]. cbv zeta.
  assert (L : length (region_bytes o n pkt) = Z.to_nat n) by (apply length_window; lia).
  assert (M : (length (region_bytes o n pkt) mod 16 = 0)%nat).
  { rewrite L. apply Nat2Z.inj. rewrite Nat2Z.inj_mod, Z2Nat.id by lia. exact Hm. }
  assert (P : forall key iv,
    let pkt' := write_packet (Z.to_nat o) (enc key iv (region_bytes o n pkt)) pkt in
    write_packet (Z.to_nat o) (take (Z.to_nat n) (cbc key iv (region_bytes o n pkt'))) pkt' = pkt).
  { intros key iv. cbv zeta. destruct (Hinv key iv _ M) as [D Le].
    unfold region_bytes at 1. unfold write_packet at 2. cbn [packet].
    rewrite <- L, <- Le, window_blit by lia. rewrite D, take_ge by lia.
    unfold write_packet. simpl. rewrite blit_blit by lia.
    unfold region_bytes. rewrite blit_window by lia. by destruct pkt. }
  unfold aes_cbc_desc, aes_cbc_desc_pkt. split; [|split].
  - intros S. cbn [scramble write_packet]. rewrite S. cbn [Z.eqb].
    rewrite Er by done. cbn. by rewrite P.
  - intros S. cbn [scramble write_packet]. rewrite S. cbn [Z.eqb].
    rewrite Er by done. cbn. by rewrite P.
  - intros S. destruct (Z.eqb_spec (scramble pkt) 2); [lia|]. by destruct (Z.eqb_spec (scramble pkt) 3); [lia|].
Qed.
End Blocks.

(** * Instances *)

Definition desc_ex (pid : Z) : SWDMX_Descrambler :=
  mk_desc {[1%positive := mk_chan true pid (Some 2%positive)]} [1%positive]
    {[2%positive := swdmx_dvbcsa2_algo_new]} [(5, 6)].

Definition id_cipher (key bs : list Z) : list Z := resize 16 0 bs.
Definition xor_cbc (key iv bs : list Z) : list Z := imap (fun i b => b .^ tbl key (Z.of_nat i mod 16)) bs.

Lemma desc_ex_inv pid : pid < 8191 -> desc_inv (desc_ex pid).
Proof.
  intros Hp. split; simpl.
  - split; [apply NoDup_singleton|]. intros l. rewrite list_elem_of_singleton.
    destruct (decide (l = 1%positive)) as [->|N]; [rewrite lookup_singleton_eq; split; by eauto|].
    rewrite lookup_singleton_ne by done. split; [done|by intros [? ?]].
  - intros l c [<- <-]%lookup_singleton_Some. by left.
  - intros l c [<- <-]%lookup_singleton_Some _. simpl. eauto.
  - intros l c a [<- <-]%lookup_singleton_Some [= <-]. rewrite lookup_singleton_eq. eauto.
  - intros l l' c c' a [<- <-]%lookup_singleton_Some [<- <-]%lookup_singleton_Some. done.
  - intros a [x [<- _]%lookup_singleton_Some]. exists 1%positive. eexists. rewrite lookup_singleton_eq. done.
Qed.


Definition aes_pkt_ex : SWDMX_TsPacket :=
  mk_pkt 7 0 0 0 2 0 (71 :: 0 :: 7 :: 144 :: seqZ 0 184) 188 None 0 (Some 4) 184.

Lemma aes_pkt_ex_ok : payload_ok aes_pkt_ex.
Proof. exists 4. vm_compute. repeat split; discriminate. Qed.

Lemma aes_ecb_desc_garbage_witness :
  exists o n, aes_ecb_desc id_cipher (replicate 500 90) (mk_ecb 0 (seqZ 0 16) (seqZ 0 16)) aes_pkt_ex =
    Some (SWDMX_OK, write_packet o (replicate n 90) aes_pkt_ex).
Proof.
  destruct (aes_ecb_desc_garbage id_cipher (replicate 500 90) (mk_ecb 0 (seqZ 0 16) (seqZ 0 16)) aes_pkt_ex)
    as (o & n & E & _ & H).
  - intros. apply length_resize.
  - apply aes_pkt_ex_ok.
  - by left.
  - rewrite H. exists 4%nat, 176%nat. injection E as <- <-. reflexivity.
Defined.

Lemma xor_cbc_inverse key iv bs : xor_cbc key iv (xor_cbc key iv bs) = bs /\ length (xor_cbc key iv bs) = length bs.
Proof.
  unfold xor_cbc. rewrite length_imap. split; [|done]. apply list_eq. intros i.
  rewrite !list_lookup_imap. destruct (bs !! i); simpl; [|done].
  by rewrite Z.lxor_assoc, Z.lxor_nilpotent, Z.lxor_0_r.
Qed.

Lemma aes_cbc_desc_restores_witness :
  exists o n, aes_cbc_desc xor_cbc (mk_cbc 1 (seqZ 3 16) (seqZ 5 16) [] [])
    (write_packet (Z.to_nat o) (xor_cbc (seqZ 5 16) [] (region_bytes o n aes_pkt_ex)) aes_pkt_ex) =
    Some (SWDMX_OK, aes_pkt_ex).
Proof.
  destruct (aes_cbc_desc_restores xor_cbc xor_cbc (mk_cbc 1 (seqZ 3 16) (seqZ 5 16) [] []) aes_pkt_ex)
    as (o & n & _ & H & _).
  - intros. apply xor_cbc_inverse.
  - apply aes_pkt_ex_ok.
  - simpl. lia.
  - exists o, n. apply H. reflexivity.
Defined.
