(* ===== verification/SwdmxSec.v ===== *)
(** [swdmx_demux.c], the section part: reassembly of sections from the payloads
    of packets ([sec_data], the loop of [pid_filter_data]) and the section filters
    ([sec_filter_match]). *)

From S2P Require Import Prelude SwdmxTs.

(** * Section filters *)

Definition SWDMX_SEC_FILTER_LEN : nat := 16.

(** [SWDMX_SecFilterParams]. *)
Record sec_params := mk_sec_params {
  sp_pid : Z; sp_crc32 : Z; sp_value : list Z; sp_mask : list Z; sp_mode : list Z
}.

(** The three arrays of a section filter, of [SWDMX_SEC_FILTER_LEN + 2] bytes. *)
Record sec_arrays := mk_arrays { value : list Z; mam : list Z; manm : list Z }.

(** The loop of [swdmx_sec_filter_set_params]: the filter bytes skip the two
    length bytes of a section. *)
Definition set_arrays (p : sec_params) (a : sec_arrays) : sec_arrays :=
  let a := foldl (fun a i =>
      let j := if (i =? 0)%nat then i else (i + 2)%nat in
      let v := tbl (sp_value p) (Z.of_nat i) in
      let mask := tbl (sp_mask p) (Z.of_nat i) in
      let mode := not8 (tbl (sp_mode p) (Z.of_nat i)) in
      mk_arrays (<[j := v]> (value a)) (<[j := mask .& mode]> (mam a))
        (<[j := mask .& not8 mode]> (manm a)))
    a (seq 0 SWDMX_SEC_FILTER_LEN) in
  mk_arrays (<[2%nat := 0]> (<[1%nat := 0]> (value a))) (<[2%nat := 0]> (<[1%nat := 0]> (mam a)))
    (<[2%nat := 0]> (<[1%nat := 0]> (manm a))).

(** The accumulators [m], [n] and [has_n] after the loop. *)
Definition match_loop (data : list Z) (f : sec_arrays) : Z * Z * Z :=
  foldl (fun '(m, n, has_n) i =>
      let i := Z.of_nat i in
      let d := tbl data i .& tbl (mam f) i in
      let v := tbl (value f) i .& tbl (mam f) i in
      let m := m .| (d .^ v) in
      let d := tbl data i .& tbl (manm f) i in
      let v := tbl (value f) i .& tbl (manm f) i in
      let n := n .| (d .^ v) in
      (m, n, has_n .| tbl (manm f) i))
    (0, 0, 0) (seq 0 SWDMX_SEC_FILTER_LEN).

Definition sec_filter_match (data : list Z) (f : sec_arrays) : bool :=
  let '(m, n, has_n) := match_loop data f in
  if truthy m then false
  else if truthy has_n && negb (truthy n) then false
  else true.

(** * Delivery of a section *)

(** What a section filter needs to get a section: its parameters and its
    callbacks, each a function and its argument. *)
Record sec_filter := mk_sf { sf_crc32 : Z; sf_arrays : sec_arrays; sf_cbs : list (Z * Z) }.

(** A call [cb(section, length, data)]. *)
Record sec_call := mk_call { call_cb : Z; call_data : Z; call_sec : list Z }.

(** The loop over the section filters; [crc] says the CRC was checked. *)
Fixpoint deliver_section (fs : list sec_filter) (crc : bool) (sec : list Z) (recv : Z) : list sec_call :=
  match fs with
  | [] => []
  | f :: fs =>
      if truthy (sf_crc32 f) && negb crc && truthy (swdmx_crc32 (take (Z.to_nat recv) sec)) then []
      else
        let crc := crc || truthy (sf_crc32 f) in
        if sec_filter_match sec (sf_arrays f) then
          ((fun '(cb, data) => mk_call cb data (take (Z.to_nat recv) sec)) <$> sf_cbs f)
          ++ deliver_section fs crc sec recv
        else deliver_section fs crc sec recv
  end.

(** * Reassembly *)

(** [pid_filter->sec_data] and [pid_filter->sec_recv]. *)
Record sec_state := mk_sec { sec_buf : list Z; sec_recv : Z }.

(** [memcpy(sec + sec_recv, p, n)] when [n] is not zero; the rest of [p]. *)
Definition sec_copy (n : Z) (p : list Z) (st : sec_state) : list Z * sec_state :=
  if truthy n then
    (drop (Z.to_nat n) p,
     mk_sec (blit (Z.to_nat (sec_recv st)) (take (Z.to_nat n) p) (sec_buf st)) (sec_recv st + n))
  else (p, st).

Definition sec_length (sec : list Z) : Z := (((tbl sec 1 .& 15) .<< 8) .| tbl sec 2) + 3.

(** [sec_data] without the calls: the bytes consumed, the state, and whether the
    section in the buffer is complete ([sec_recv] is then still its length). *)
Definition sec_collect (st : sec_state) (p : list Z) : Z * sec_state * bool :=
  let len := Z.of_nat (length p) in
  let '(p, st) :=
    if sec_recv st <? 3 then sec_copy (Z.min len (3 - sec_recv st)) p st else (p, st) in
  if sec_recv st <? 3 then (len, st, false)
  else if tbl (sec_buf st) 0 =? 255 then (len, st, false)
  else
    let sec_len := sec_length (sec_buf st) in
    let '(p, st) := sec_copy (Z.min (sec_len - sec_recv st) (Z.of_nat (length p))) p st in
    (len - Z.of_nat (length p), st, sec_recv st =? sec_len).

Definition sec_data (fs : list sec_filter) (st : sec_state) (p : list Z) : Z * sec_state * list sec_call :=
  let '(n, st, complete) := sec_collect st p in
  if complete then (n, mk_sec (sec_buf st) 0, deliver_section fs false (sec_buf st) (sec_recv st))
  else (n, st, []).

(** [while (left > 0)]: every round consumes something. *)
Fixpoint sec_loop (fuel : nat) (fs : list sec_filter) (st : sec_state) (p : list Z)
    : sec_state * list sec_call :=
  match p, fuel with
  | [], _ | _, O => (st, [])
  | _, S fuel =>
      let '(n, st, calls) := sec_data fs st p in
      let '(st, calls') := sec_loop fuel fs st (drop (Z.to_nat n) p) in
      (st, calls ++ calls')
  end.

(** The section part of [pid_filter_data] for a packet with a clear payload. *)
Definition sec_payload (fs : list sec_filter) (payload_start : Z) (p : list Z) (st : sec_state)
    : sec_state * list sec_call :=
  if truthy payload_start then
    match p with
    | [] => (mk_sec (sec_buf st) 0, [])
    | ptr :: p =>
        if truthy ptr then
          if Z.of_nat (length p) <? ptr then (st, [])
          else
            let '(st, calls) :=
              if truthy (sec_recv st)
              then let '(_, st, calls) := sec_data fs st (take (Z.to_nat ptr) p) in (st, calls)
              else (st, []) in
            let p := drop (Z.to_nat ptr) p in
            let '(st, calls') := sec_loop (length p) fs (mk_sec (sec_buf st) 0) p in
            (st, calls ++ calls')
        else sec_loop (length p) fs (mk_sec (sec_buf st) 0) p
    end
  else sec_loop (length p) fs st p.

(** * The specification: one byte at a time *)

(** [acc] is the part received of the current section.  A first byte of [255] is
    stuffing, recognised once the section header is there: what follows is
    skipped. *)
Definition spec_byte (acc : list Z) (b : Z) : list Z * option (list Z) :=
  if (3 <=? length acc)%nat && (tbl acc 0 =? 255) then (acc, None)
  else
    let acc := acc ++ [b] in
    if (length acc <? 3)%nat || (tbl acc 0 =? 255) then (acc, None)
    else if Z.of_nat (length acc) =? sec_length acc then ([], Some acc)
    else (acc, None).

Fixpoint spec_bytes (acc : list Z) (bs : list Z) : list Z * list (list Z) :=
  match bs with
  | [] => (acc, [])
  | b :: bs =>
      let '(acc, s) := spec_byte acc b in
      let '(acc, ss) := spec_bytes acc bs in
      (acc, match s with Some s => s :: ss | None => ss end)
  end.

(** * Reassembly refines the specification *)

Lemma spec_bytes_app acc xs ys :
  spec_bytes acc (xs ++ ys) =
  let '(acc1, s1) := spec_bytes acc xs in
  let '(acc2, s2) := spec_bytes acc1 ys in (acc2, s1 ++ s2).
Proof.
  revert acc. induction xs as [|x xs IH]; intros acc; simpl.
  - by destruct (spec_bytes acc ys).
  - destruct (spec_byte acc x) as [acc0 s]. rewrite IH.
    destruct (spec_bytes acc0 xs) as [acc1 s1]. destruct (spec_bytes acc1 ys) as [acc2 s2].
    by destruct s.
Qed.

Lemma sec_length_app acc k : (3 <= length acc)%nat -> sec_length (acc ++ k) = sec_length acc.
Proof. intros. unfold sec_length. rewrite !tbl_app by lia. done. Qed.

Lemma sec_length_take n buf : (3 <= n)%nat -> sec_length (take n buf) = sec_length buf.
Proof. intros. unfold sec_length. rewrite !tbl_take by lia. done. Qed.

Lemma sec_length_bounds acc : bytes acc -> 3 <= sec_length acc <= 4098.
Proof.
  intros Hb. unfold sec_length.
  assert (H1 : is_byte (tbl acc 1)) by (by apply tbl_byte).
  assert (H2 : is_byte (tbl acc 2)) by (by apply tbl_byte).
  pose proof (byte_cases2 (fun a b => (((a .& 15) .<< 8) .| b) <=? 4095) eq_refl _ _ H1 H2).
  pose proof (byte_cases2 (fun a b => 0 <=? (((a .& 15) .<< 8) .| b)) eq_refl _ _ H1 H2).
  simpl in *. lia.
Qed.

(** What a pending section may look like. *)
Definition pending (acc : list Z) : Prop :=
  bytes acc /\
  ((length acc < 3)%nat
   \/ (length acc = 3%nat /\ tbl acc 0 = 255)
   \/ ((3 <= length acc)%nat /\ tbl acc 0 <> 255 /\ Z.of_nat (length acc) < sec_length acc)).

(** Fewer bytes than the header needs, or than the section still lacks. *)
Lemma spec_short acc bs :
  (length acc + length bs < 3)%nat -> spec_bytes acc bs = (acc ++ bs, []).
Proof.
  revert acc. induction bs as [|b bs IH]; intros acc H; simpl in *; [by rewrite app_nil_r|].
  unfold spec_byte. rewrite (proj2 (Nat.leb_gt _ _)) by lia. simpl.
  rewrite (proj2 (Nat.ltb_lt _ _)) by (rewrite length_app; simpl; lia). simpl.
  rewrite IH by (rewrite length_app; simpl; lia). by rewrite <- app_assoc.
Qed.

Lemma spec_header acc bs :
  (length acc + length bs = 3)%nat -> (length acc < 3)%nat ->
  spec_bytes acc bs =
  if (tbl (acc ++ bs) 0 =? 255) || negb (sec_length (acc ++ bs) =? 3)
  then (acc ++ bs, []) else ([], [acc ++ bs]).
Proof.
  intros H Hlt. destruct bs as [|b bs' _] using rev_ind.
  { simpl in H. lia. }
  rewrite length_app in H. simpl in H.
  rewrite spec_bytes_app, spec_short by lia. simpl. unfold spec_byte.
  rewrite (proj2 (Nat.leb_gt _ _)) by (rewrite length_app; lia). simpl.
  rewrite <- app_assoc, (proj2 (Nat.ltb_ge _ _)) by (rewrite !length_app; simpl; lia). simpl.
  replace (Z.of_nat (length (acc ++ bs' ++ [b]))) with 3 by (rewrite !length_app; simpl; lia).
  rewrite (Z.eqb_sym 3). destruct (_ =? 255); [done|]. by destruct (_ =? 3).
Qed.

Lemma spec_grow acc bs :
  (3 <= length acc)%nat -> tbl acc 0 <> 255 ->
  Z.of_nat (length acc + length bs) < sec_length acc ->
  spec_bytes acc bs = (acc ++ bs, []).
Proof.
  revert acc. induction bs as [|b bs IH]; intros acc H3 H0 H; simpl in *; [by rewrite app_nil_r|].
  unfold spec_byte. rewrite (proj2 (Z.eqb_neq (tbl acc 0) 255)), andb_false_r by done.
  rewrite length_app. simpl. rewrite (proj2 (Nat.ltb_ge _ _)) by lia.
  rewrite tbl_app, (proj2 (Z.eqb_neq (tbl acc 0) 255)) by (done || lia). simpl.
  rewrite sec_length_app, (proj2 (Z.eqb_neq _ (sec_length acc))) by lia.
  rewrite IH.
  - by rewrite <- app_assoc.
  - rewrite length_app. lia.
  - rewrite tbl_app by lia. done.
  - rewrite sec_length_app, length_app by lia. simpl. lia.
Qed.

Lemma spec_finish acc bs :
  (3 <= length acc)%nat -> tbl acc 0 <> 255 -> bs <> [] ->
  Z.of_nat (length acc + length bs) = sec_length acc ->
  spec_bytes acc bs = ([], [acc ++ bs]).
Proof.
  intros H3 H0 Hne H. destruct bs as [|b bs _] using rev_ind; [done|]. clear Hne.
  rewrite length_app in H. simpl in H.
  rewrite spec_bytes_app, spec_grow by (done || lia). simpl. unfold spec_byte.
  rewrite tbl_app by lia. rewrite (proj2 (Z.eqb_neq (tbl acc 0) 255)), andb_false_r by done.
  rewrite <- app_assoc, tbl_app, (proj2 (Z.eqb_neq (tbl acc 0) 255)) by (done || lia).
  rewrite (proj2 (Nat.ltb_ge _ _)) by (rewrite !length_app; simpl; lia). simpl.
  rewrite sec_length_app, (proj2 (Z.eqb_eq _ (sec_length acc))) by (rewrite ?length_app; simpl; lia).
  done.
Qed.

Lemma spec_stuffing acc bs :
  (3 <= length acc)%nat -> tbl acc 0 = 255 -> spec_bytes acc bs = (acc, []).
Proof.
  intros H3 H0. induction bs as [|b bs IH]; [done|]. simpl. unfold spec_byte.
  rewrite H0, (proj2 (Nat.leb_le _ _)) by lia. simpl. by rewrite IH.
Qed.

(** The buffer holds the bytes received. *)
Definition holds (st : sec_state) (acc : list Z) : Prop :=
  length (sec_buf st) = 4099%nat /\ sec_recv st = Z.of_nat (length acc)
  /\ take (length acc) (sec_buf st) = acc.

Lemma holds_tbl st acc i : holds st acc -> 0 <= i < Z.of_nat (length acc) ->
  tbl (sec_buf st) i = tbl acc i.
Proof. intros (_ & _ & <-) Hi. rewrite tbl_take; [done|]. rewrite length_take in Hi. lia. Qed.

Lemma holds_length st acc : holds st acc -> (3 <= length acc)%nat ->
  sec_length (sec_buf st) = sec_length acc.
Proof. intros H H3. unfold sec_length. by rewrite !(holds_tbl st acc) by (done || lia). Qed.

Lemma holds_le st acc : holds st acc -> (length acc <= 4099)%nat.
Proof. intros (H & _ & <-). rewrite length_take. lia. Qed.

Lemma sec_copy_holds st acc p n :
  holds st acc -> 0 <= n <= Z.of_nat (length p) -> Z.of_nat (length acc) + n <= 4099 ->
  sec_copy n p st = (drop (Z.to_nat n) p, (sec_copy n p st).2)
  /\ holds (sec_copy n p st).2 (acc ++ take (Z.to_nat n) p).
Proof.
  intros H Hn Hfit. unfold sec_copy, truthy. destruct (Z.eqb_spec n 0) as [->|Hn0]; simpl.
  - split; [done|]. by rewrite app_nil_r.
  - split; [done|]. destruct H as (Hl & Hr & Ht). unfold holds. simpl. rewrite Hr, Nat2Z.id.
    pose proof (length_take p (Z.to_nat n)) as Htk.
    rewrite length_blit, length_app by lia. split; [done|]. split; [lia|].
    pose proof (window_blit_end 0 (length acc) (take (Z.to_nat n) p) (sec_buf st)) as W.
    unfold window in W. simpl in W. rewrite !drop_0 in W. rewrite W by lia. by rewrite Ht.
Qed.

(** The second half of [sec_data]: the header is there. *)
Lemma collect_tail st acc p n :
  holds st acc -> bytes acc -> bytes p -> (3 <= length acc)%nat -> tbl acc 0 <> 255 ->
  Z.of_nat (length acc) <= sec_length acc ->
  n = Z.min (sec_length acc - sec_recv st) (Z.of_nat (length p)) ->
  exists st', sec_copy n p st = (drop (Z.to_nat n) p, st')
  /\ holds st' (acc ++ take (Z.to_nat n) p) /\ 0 <= n <= Z.of_nat (length p)
  /\ (if sec_recv st' =? sec_length acc
      then n = sec_length acc - Z.of_nat (length acc)
      else n = Z.of_nat (length p) /\ pending (acc ++ p)
           /\ Z.of_nat (length acc + length p) < sec_length acc).
Proof.
  intros H Ha Hp H3 H0 Hle Hn. pose proof (sec_length_bounds acc Ha) as Hb.
  pose proof H as (_ & Hr & _). rewrite Hr in Hn.
  destruct (sec_copy_holds st acc p n H ltac:(lia) ltac:(lia)) as [E H'].
  eexists. split; [exact E|]. split; [exact H'|]. split; [lia|].
  destruct H' as (_ & Hr' & _). rewrite Hr', length_app, length_take.
  bdestruct; [lia|]. split; [lia|]. split; [|lia].
  split; [by apply Forall_app|]. right; right. rewrite length_app, tbl_app, sec_length_app by lia.
  split; [lia|]. split; [done|lia].
Qed.

Definition collect_ok (acc p : list Z) (r : Z * sec_state * bool) : Prop :=
  let '(n, st', c) := r in
  0 < n <= Z.of_nat (length p) /\
  if c then exists sec, spec_bytes acc (take (Z.to_nat n) p) = ([], [sec]) /\ holds st' sec /\ bytes sec
  else n = Z.of_nat (length p) /\
       exists acc', spec_bytes acc p = (acc', []) /\ holds st' acc' /\ pending acc'.

Lemma sec_collect_old st acc p :
  holds st acc -> pending acc -> (3 <= length acc)%nat -> bytes p -> p <> [] ->
  collect_ok acc p (sec_collect st p).
Proof.
  intros H [Ha Hpe] H3 Hp Hne. assert (Hlp : (0 < length p)%nat) by (destruct p; simpl; [done|lia]).
  unfold sec_collect. pose proof H as (_ & Hr & _).
  assert (Hge : (sec_recv st <? 3) = false) by lia. rewrite Hge. cbv beta iota zeta. rewrite Hge.
  rewrite (holds_tbl st acc) by (done || lia).
  destruct (Z.eqb_spec (tbl acc 0) 255) as [E|E].
  { unfold collect_ok. split; [lia|]. split; [done|]. exists acc. rewrite spec_stuffing by done.
    split; [done|]. split; [done|]. split; [done|]. lia. }
  destruct Hpe as [?|[[_ ?]|(_ & _ & Hlt)]]; [lia|done|].
  rewrite (holds_length st acc) by (done || lia).
  destruct (collect_tail st acc p _ H Ha Hp H3 E ltac:(lia) eq_refl) as (st' & Ec & H' & Hn & Hc).
  rewrite Ec. unfold collect_ok. rewrite length_drop.
  assert (Hn0 : 0 < Z.min (sec_length acc - sec_recv st) (Z.of_nat (length p))) by lia.
  revert Hn0 H' Hn Hc. generalize (Z.min (sec_length acc - sec_recv st) (Z.of_nat (length p))).
  intros n Hn0 H' Hn Hc.
  replace (Z.of_nat (length p) - Z.of_nat (length p - Z.to_nat n)) with n by lia.
  split; [lia|]. destruct (sec_recv st' =? sec_length acc).
  - exists (acc ++ take (Z.to_nat n) p). rewrite spec_finish.
    + split; [done|]. split; [done|]. apply Forall_app; split; [done|by apply Forall_take].
    + done.
    + done.
    + intros Et. apply (f_equal length) in Et. rewrite length_take in Et. simpl in Et. lia.
    + rewrite length_take. lia.
  - destruct Hc as (-> & Hpe & Hlt'). split; [done|]. exists (acc ++ p).
    rewrite spec_grow by done. rewrite take_ge in H' by lia. done.
Qed.

Lemma sec_collect_new st acc p :
  holds st acc -> bytes acc -> (length acc < 3)%nat -> bytes p -> p <> [] ->
  collect_ok acc p (sec_collect st p).
Proof.
  intros H Ha H3 Hp Hne. assert (Hlp : (0 < length p)%nat) by (destruct p; simpl; [done|lia]).
  unfold sec_collect. pose proof H as (_ & Hr & _).
  rewrite (proj2 (Z.ltb_lt (sec_recv st) 3)), Hr by lia.
  set (k := Z.min (Z.of_nat (length p)) (3 - Z.of_nat (length acc))).
  destruct (sec_copy_holds st acc p k H ltac:(lia) ltac:(lia)) as [E H1]. rewrite E. clear E.
  revert H1. generalize ((sec_copy k p st).2) as st1. intros st1 H1.
  assert (Ha1 : bytes (acc ++ take (Z.to_nat k) p))
    by (apply Forall_app; split; [done|by apply Forall_take]).
  pose proof H1 as (_ & Hr1 & _). rewrite length_app, length_take in Hr1.
  destruct (Z.ltb_spec (sec_recv st1) 3) as [Hs|Hs].
  { unfold collect_ok. split; [lia|]. split; [done|]. exists (acc ++ p).
    rewrite take_ge in H1, Ha1 by lia. rewrite spec_short by lia.
    split; [done|]. split; [done|]. split; [done|]. left. rewrite length_app. lia. }
  pose proof (spec_header acc (take (Z.to_nat k) p) ltac:(rewrite length_take; lia) H3) as Hh.
  assert (Hp1 : bytes (drop (Z.to_nat k) p)) by (by apply Forall_drop).
  assert (Hl1 : length (acc ++ take (Z.to_nat k) p) = 3%nat) by (rewrite length_app, length_take; lia).
  rewrite <- (take_drop (Z.to_nat k) p) in |- * at 1.
  revert H1 Ha1 Hh Hl1. generalize (acc ++ take (Z.to_nat k) p) as acc1. intros acc1 H1 Ha1 Hh Hl1.
  rewrite (holds_tbl st1 acc1) by (done || lia).
  destruct (Z.eqb_spec (tbl acc1 0) 255) as [E|E].
  { unfold collect_ok. rewrite take_drop. split; [lia|]. split; [done|]. exists acc1.
    rewrite <- (take_drop (Z.to_nat k) p), spec_bytes_app, Hh. simpl.
    rewrite spec_stuffing by (done || lia). split; [done|]. split; [done|]. split; [done|]. lia. }
  rewrite (holds_length st1 acc1) by (done || lia). simpl in Hh.
  pose proof (sec_length_bounds acc1 Ha1) as Hb.
  destruct (collect_tail st1 acc1 (drop (Z.to_nat k) p) _ H1 Ha1 Hp1 ltac:(lia) E ltac:(lia) eq_refl)
    as (st' & Ec & H' & Hn & Hc).
  rewrite Ec, take_drop. unfold collect_ok. rewrite drop_drop, length_drop.
  revert Ec H' Hn Hc. rewrite length_drop.
  generalize (Z.min (sec_length acc1 - sec_recv st1) (Z.of_nat (length p - Z.to_nat k))) as n.
  intros n Ec H' Hn Hc.
  replace (Z.of_nat (length p) - Z.of_nat (length p - (Z.to_nat k + Z.to_nat n))) with (k + n) by lia.
  split; [lia|].
  destruct (sec_recv st' =? sec_length acc1) eqn:Er.
  - exists (acc1 ++ take (Z.to_nat n) (drop (Z.to_nat k) p)).
    rewrite Z2Nat.inj_add, <- take_take_drop, spec_bytes_app, Hh by lia.
    split; [|split; [done|apply Forall_app; split; [done|by apply Forall_take]]].
    destruct (Z.eqb_spec (sec_length acc1) 3) as [E3|E3]; simpl.
    + replace n with 0 by lia. simpl. by rewrite app_nil_r.
    + rewrite spec_finish; [done|lia|done| |].
      * intros Et. apply (f_equal length) in Et. rewrite length_take, length_drop in Et. simpl in Et. lia.
      * rewrite length_take, length_drop. lia.
  - destruct Hc as (-> & Hpe & Hlt). split; [lia|].
    exists (acc1 ++ drop (Z.to_nat k) p).
    rewrite <- (take_drop (Z.to_nat k) p) at 1. rewrite spec_bytes_app, Hh.
    rewrite (proj2 (Z.eqb_neq (sec_length acc1) 3)) by lia. simpl.
    rewrite spec_grow; [|lia|done|rewrite length_drop; lia].
    rewrite (take_ge (drop (Z.to_nat k) p)) in H' by (rewrite length_drop; lia). done.
Qed.

Lemma sec_collect_ok st acc p :
  holds st acc -> pending acc -> bytes p -> p <> [] -> collect_ok acc p (sec_collect st p).
Proof.
  intros H Hpe Hp Hne. destruct (decide (length acc < 3)%nat).
  - apply sec_collect_new; [done|by destruct Hpe|done..].
  - apply sec_collect_old; [done|done|lia|done|done].
Qed.

(** A completed section is a prefix of the buffer at that moment, and fits the
    allocation of [4096 + 3] bytes. *)
Definition completes (buf sec : list Z) : Prop :=
  length buf = 4099%nat /\ take (length sec) buf = sec.

Definition deliver_all (fs : list sec_filter) (bufs secs : list (list Z)) : list sec_call :=
  concat (zip_with (fun buf sec => deliver_section fs false buf (Z.of_nat (length sec))) bufs secs).

Lemma pending_nil : pending [].
Proof. split; [done|]. left. simpl. lia. Qed.

Lemma holds_nil st acc : holds st acc -> holds (mk_sec (sec_buf st) 0) [].
Proof. intros (H & _ & _). split; [done|]. by split. Qed.

Lemma sec_loop_ok fuel fs st acc p acc' secs :
  (length p <= fuel)%nat -> holds st acc -> pending acc -> bytes p ->
  spec_bytes acc p = (acc', secs) ->
  exists bufs st', sec_loop fuel fs st p = (st', deliver_all fs bufs secs)
    /\ holds st' acc' /\ pending acc' /\ Forall2 completes bufs secs.
Proof.
  revert st acc p secs. induction fuel as [|fuel IH]; intros st acc p secs Hf H Hpe Hp Hs;
    (destruct p as [|x p]; [injection Hs as <- <-; by exists [], st|]); [simpl in Hf; lia|].
  pose proof (sec_collect_ok st acc (x :: p) H Hpe Hp ltac:(done)) as Hc.
  simpl sec_loop. unfold sec_data.
  destruct (sec_collect st (x :: p)) as [[n st1] c]. revert Hf Hp Hs Hc. generalize (x :: p) as q.
  intros q Hf Hp Hs [Hn Hc]. destruct c.
  - destruct Hc as (sec & Hsp & H1 & _). rewrite <- (take_drop (Z.to_nat n) q) in Hs.
    rewrite spec_bytes_app, Hsp in Hs. destruct (spec_bytes [] _) as [acc2 s2] eqn:E2.
    injection Hs as -> <-.
    destruct (IH (mk_sec (sec_buf st1) 0) [] (drop (Z.to_nat n) q) s2) as (bufs & st' & E & ?).
    { rewrite length_drop. lia. }
    { by apply (holds_nil st1 sec). }
    { apply pending_nil. }
    { by apply Forall_drop. }
    { done. }
    exists (sec_buf st1 :: bufs), st'. rewrite E. destruct H1 as (Hl & Hr & Ht). rewrite Hr.
    split; [done|]. destruct_and!. split; [done|]. split; [done|]. constructor; [by split|done].
  - destruct Hc as (-> & acc1 & Hsp & H1 & Hpe1). rewrite Hs in Hsp. injection Hsp as <- ->.
    rewrite drop_ge by lia. exists [], st1.
    assert (sec_loop fuel fs st1 [] = (st1, [])) as -> by (by destruct fuel). by split.
Qed.

(** C11: reassembly refines the byte-at-a-time reading of the section syntax: from a
    buffer that holds the part received so far, the loop of [pid_filter_data] consumes
    the whole payload, delivers the sections the specification completes, in order,
    each from a buffer of 4099 bytes of which it is a prefix, and leaves the buffer
    holding the specification's remainder; the loop needs no more rounds than there
    are bytes. *)
Theorem sec_loop_refines fs st acc p :
  holds st acc -> pending acc -> bytes p ->
  exists bufs st',
    sec_loop (length p) fs st p = (st', deliver_all fs bufs (spec_bytes acc p).2)
    /\ holds st' (spec_bytes acc p).1 /\ pending (spec_bytes acc p).1
    /\ Forall2 completes bufs (spec_bytes acc p).2.
Proof.
  intros. apply (sec_loop_ok _ _ _ acc); [done..|]. by destruct (spec_bytes acc p).
Qed.

Definition sample_section : list Z := [66; 240; 14; 1; 2; 3; 4; 5; 6; 7; 8; 9; 10; 11; 12; 13; 14].
Definition sample_state : sec_state := mk_sec ([66; 240] ++ repeat 0 4097) 2.
Definition sample_filter : sec_filter :=
  mk_sf 0 (mk_arrays (66 :: repeat 0 17) (255 :: repeat 0 17) (repeat 0 18)) [(7, 9)].

Lemma sec_loop_refines_witness :
  (sec_loop 15 [sample_filter] sample_state (drop 2 sample_section)).2
  = [mk_call 7 9 sample_section].
Proof.
  assert (holds sample_state [66; 240]) as H by (split; [done|by split]).
  assert (pending [66; 240]) as Hp.
  { split; [by repeat apply Forall_cons_2|]. left. simpl. lia. }
  assert (bytes (drop 2 sample_section)) as Hb by (by repeat apply Forall_cons_2).
  destruct (sec_loop_refines [sample_filter] sample_state [66; 240] (drop 2 sample_section) H Hp Hb)
    as (bufs & st' & E & _ & _ & F).
  change (length (drop 2 sample_section)) with 15%nat in E. rewrite E. clear E.
  change (spec_bytes [66; 240] (drop 2 sample_section)).2 with [sample_section] in *.
  destruct bufs as [|buf bufs]; [inversion F|].
  destruct bufs as [|? ?]; [|apply Forall2_cons_1 in F as [_ F]; inversion F].
  apply Forall2_cons_1 in F as [[_ Ht] _]. change (length sample_section) with 17%nat in Ht.
  rewrite <- (take_drop 17 buf), Ht. done.
Defined.

(** * What a filter accepts *)

(** The section byte that parameter byte [i] is compared with. *)
Definition sec_pos (i : nat) : Z := if (i =? 0)%nat then 0 else Z.of_nat i + 2.

(** The bits of section byte [sec_pos i] that differ from the value, among those
    compared positively (mode bit 0) and negatively (mode bit 1). *)
Definition pos_diff (p : sec_params) (data : list Z) (i : nat) : Z :=
  (tbl data (sec_pos i) .^ tbl (sp_value p) (Z.of_nat i))
  .& (tbl (sp_mask p) (Z.of_nat i) .& not8 (tbl (sp_mode p) (Z.of_nat i))).
Definition neg_mask (p : sec_params) (i : nat) : Z :=
  tbl (sp_mask p) (Z.of_nat i) .& tbl (sp_mode p) (Z.of_nat i).
Definition neg_diff (p : sec_params) (data : list Z) (i : nat) : Z :=
  (tbl data (sec_pos i) .^ tbl (sp_value p) (Z.of_nat i)) .& neg_mask p i.

(** Positive bits all agree; if there are negative bits, one of them differs. *)
Definition spec_match (p : sec_params) (data : list Z) : bool :=
  forallb (fun i => pos_diff p data i =? 0) (seq 0 14)
  && (forallb (fun i => neg_mask p i =? 0) (seq 0 14)
      || negb (forallb (fun i => neg_diff p data i =? 0) (seq 0 14))).

Lemma lor_eqb a b : (a .| b =? 0) = (a =? 0) && (b =? 0).
Proof.
  apply eq_true_iff_eq. rewrite andb_true_iff, !Z.eqb_eq. apply Z.lor_eq_0_iff.
Qed.

Lemma not8_not8 x : is_byte x -> not8 (not8 x) = x.
Proof. intros H. apply Z.eqb_eq. by apply (byte_cases (fun x => not8 (not8 x) =? x)). Qed.

Lemma lxor_land a b m : (a .& m) .^ (b .& m) = (a .^ b) .& m.
Proof.
  apply Z.bits_inj'. intros n Hn. rewrite Z.lxor_spec, !Z.land_spec, Z.lxor_spec.
  by destruct (Z.testbit a n), (Z.testbit b n), (Z.testbit m n).
Qed.

(** The filter bytes [f], with the two length bytes of a section skipped. *)
Definition skip_list (f : nat -> Z) : list Z := f 0%nat :: 0 :: 0 :: (f <$> seq 1 15).

(** The arrays the parameters are turned into. *)
Lemma set_arrays_eq p a :
  length (value a) = 18%nat -> length (mam a) = 18%nat -> length (manm a) = 18%nat ->
  set_arrays p a = mk_arrays
    (skip_list (fun i => tbl (sp_value p) (Z.of_nat i)))
    (skip_list (fun i => tbl (sp_mask p) (Z.of_nat i) .& not8 (tbl (sp_mode p) (Z.of_nat i))))
    (skip_list (fun i => tbl (sp_mask p) (Z.of_nat i) .& not8 (not8 (tbl (sp_mode p) (Z.of_nat i))))).
Proof.
  destruct a as [v m n]. simpl. intros Hv Hm Hn.
  do 18 (destruct v as [|? v]; [done|]). destruct v; [|done].
  do 18 (destruct m as [|? m]; [done|]). destruct m; [|done].
  do 18 (destruct n as [|? n]; [done|]). destruct n; [|done].
  reflexivity.
Qed.

Definition match_pos (data : list Z) (f : sec_arrays) (i : nat) : Z :=
  (tbl data (Z.of_nat i) .^ tbl (value f) (Z.of_nat i)) .& tbl (mam f) (Z.of_nat i).
Definition match_neg (data : list Z) (f : sec_arrays) (i : nat) : Z :=
  (tbl data (Z.of_nat i) .^ tbl (value f) (Z.of_nat i)) .& tbl (manm f) (Z.of_nat i).

Lemma match_loop_zero data f l m n h :
  let '(m', n', h') := foldl (fun '(m, n, has_n) i =>
      let i := Z.of_nat i in
      let d := tbl data i .& tbl (mam f) i in
      let v := tbl (value f) i .& tbl (mam f) i in
      let m := m .| (d .^ v) in
      let d := tbl data i .& tbl (manm f) i in
      let v := tbl (value f) i .& tbl (manm f) i in
      let n := n .| (d .^ v) in
      (m, n, has_n .| tbl (manm f) i)) (m, n, h) l in
  (m' =? 0) = (m =? 0) && forallb (fun i => match_pos data f i =? 0) l
  /\ (n' =? 0) = (n =? 0) && forallb (fun i => match_neg data f i =? 0) l
  /\ (h' =? 0) = (h =? 0) && forallb (fun i => tbl (manm f) (Z.of_nat i) =? 0) l.
Proof.
  revert m n h. induction l as [|i l IH]; intros m n h; simpl.
  - by rewrite !andb_true_r.
  - match goal with |- context [foldl _ (?a, ?b, ?c) l] => specialize (IH a b c) end.
    destruct (foldl _ _ l) as [[m' n'] h']. destruct IH as (-> & -> & ->).
    rewrite !lor_eqb, !lxor_land, !andb_assoc. done.
Qed.

Lemma sec_filter_match_bool data f :
  sec_filter_match data f =
  forallb (fun i => match_pos data f i =? 0) (seq 0 16)
  && (forallb (fun i => tbl (manm f) (Z.of_nat i) =? 0) (seq 0 16)
      || negb (forallb (fun i => match_neg data f i =? 0) (seq 0 16))).
Proof.
  unfold sec_filter_match. pose proof (match_loop_zero data f (seq 0 16) 0 0 0) as H.
  unfold match_loop. change SWDMX_SEC_FILTER_LEN with 16%nat.
  destruct (foldl _ _ (seq 0 16)) as [[m n] h]. destruct H as (H1 & H2 & H3).
  unfold truthy. rewrite H1, H2, H3. change (0 =? 0) with true. rewrite !andb_true_l.
  do 3 destruct (forallb _ (seq 0 16)); done.
Qed.

Definition skip2 (i : nat) : nat := if (i =? 0)%nat then i else (i + 2)%nat.

Lemma forallb_skip (g : nat -> bool) :
  g 1%nat = true -> g 2%nat = true ->
  forallb g (seq 0 16) = forallb (fun i => g (skip2 i)) (seq 0 14).
Proof. intros H1 H2. simpl. rewrite H1, H2. done. Qed.

Lemma forallb_upto (g h : nat -> bool) n :
  (forall i, (i < n)%nat -> g i = h i) -> forallb g (seq 0 n) = forallb h (seq 0 n).
Proof.
  intros H. apply eq_true_iff_eq. rewrite !forallb_forall.
  split; intros Hf i Hi; specialize (Hf i Hi); apply in_seq in Hi; [rewrite <- H|rewrite H];
    (done || lia).
Qed.

Lemma tbl_skip (f : nat -> Z) i :
  (i < 14)%nat -> tbl (skip_list f) (Z.of_nat (skip2 i)) = f i.
Proof.
  intros Hi. unfold skip2, tbl. rewrite Nat2Z.id. destruct i as [|i]; [done|].
  replace (if (Datatypes.S i =? 0)%nat then Datatypes.S i else (Datatypes.S i + 2)%nat)
    with (3 + i)%nat by (simpl; lia).
  change (default 0 ((f <$> seq 1 15) !! i) = f (Datatypes.S i)). rewrite list_lookup_fmap, lookup_seq_lt by lia. done.
Qed.

Lemma sec_pos_skip i : Z.of_nat (skip2 i) = sec_pos i.
Proof. unfold skip2, sec_pos. destruct i; simpl; lia. Qed.

Lemma sec_filter_match_spec p a data :
  length (value a) = 18%nat -> length (mam a) = 18%nat -> length (manm a) = 18%nat ->
  sec_filter_match data (set_arrays p a) = 
  forallb (fun i => pos_diff p data i =? 0) (seq 0 14)
  && (forallb (fun i => (tbl (sp_mask p) (Z.of_nat i)
                         .& not8 (not8 (tbl (sp_mode p) (Z.of_nat i)))) =? 0) (seq 0 14)
      || negb (forallb (fun i => ((tbl data (sec_pos i) .^ tbl (sp_value p) (Z.of_nat i))
           .& (tbl (sp_mask p) (Z.of_nat i) .& not8 (not8 (tbl (sp_mode p) (Z.of_nat i))))) =? 0)
         (seq 0 14))).
Proof.
  intros Hv Hm Hn. rewrite sec_filter_match_bool, set_arrays_eq by done.
  rewrite !forallb_skip by (unfold match_pos, match_neg; by rewrite ?Z.land_0_r).
  apply (f_equal2 andb); [|apply (f_equal2 orb); [|apply (f_equal negb)]];
    apply forallb_upto; intros i Hi;
    unfold match_pos, match_neg, pos_diff, neg_diff, neg_mask; simpl value; simpl mam; simpl manm;
    rewrite !tbl_skip, ?sec_pos_skip by done; done.
Qed.

(** What a section filter accepts, whatever the arrays held before: with the
    parameters set, [sec_filter_match] accepts a section exactly when every masked bit
    with mode 0 equals the value and, if there are masked bits with mode 1, at least one
    of them differs; parameter byte 0 is compared with the table id and parameter byte
    [i] from 1 to 13 with section byte [i + 2]. *)
Theorem sec_filter_match_correct p a data :
  length (value a) = 18%nat -> length (mam a) = 18%nat -> length (manm a) = 18%nat ->
  bytes (sp_mode p) ->
  sec_filter_match data (set_arrays p a) = spec_match p data.
Proof.
  intros Hv Hm Hn Hb. rewrite sec_filter_match_spec by done.
  unfold spec_match, neg_diff, neg_mask.
  apply (f_equal2 andb); [done|apply (f_equal2 orb); [|apply (f_equal negb)]];
    apply forallb_upto; intros i Hi; rewrite not8_not8 by (by apply tbl_byte); done.
Qed.

Definition sample_params : sec_params :=
  mk_sec_params 17 0 (66 :: 1 :: repeat 0 14) (255 :: 255 :: repeat 0 14) (0 :: 255 :: repeat 0 14).
Definition blank_arrays : sec_arrays := mk_arrays (repeat 0 18) (repeat 0 18) (repeat 0 18).

(** Table id 66 accepted, with the version byte (1) excluded. *)
Lemma sec_filter_match_correct_witness :
  sec_filter_match sample_section (set_arrays sample_params blank_arrays) = false
  /\ sec_filter_match (<[3%nat := 2]> sample_section) (set_arrays sample_params blank_arrays) = true.
Proof.
  assert (Hb : bytes (sp_mode sample_params)) by (by repeat apply Forall_cons_2).
  split.
  - rewrite (sec_filter_match_correct sample_params blank_arrays sample_section eq_refl eq_refl eq_refl Hb).
    reflexivity.
  - rewrite (sec_filter_match_correct sample_params blank_arrays (<[3%nat := 2]> sample_section)
               eq_refl eq_refl eq_refl Hb).
    reflexivity.
Defined.

(** The last two of the sixteen filter bytes have no effect: parameters that agree
    on their first fourteen bytes accept the same sections ([sec_filter_match] compares
    sixteen bytes of arrays that hold eighteen). *)
Theorem sec_filter_tail_ignored p q a data :
  length (value a) = 18%nat -> length (mam a) = 18%nat -> length (manm a) = 18%nat ->
  take 14 (sp_value p) = take 14 (sp_value q) -> take 14 (sp_mask p) = take 14 (sp_mask q) ->
  take 14 (sp_mode p) = take 14 (sp_mode q) ->
  sec_filter_match data (set_arrays p a) = sec_filter_match data (set_arrays q a).
Proof.
  intros Hv Hm Hn Ev Em Ed. rewrite !sec_filter_match_spec by done.
  assert (E : forall l k i, take 14 l = take 14 k -> (i < 14)%nat -> tbl l (Z.of_nat i) = tbl k (Z.of_nat i)).
  { intros l k i Hlk Hi. rewrite <- (tbl_take l 14), <- (tbl_take k 14), Hlk by lia. done. }
  apply (f_equal2 andb); [|apply (f_equal2 orb); [|apply (f_equal negb)]];
    apply forallb_upto; intros i Hi; unfold pos_diff;
    rewrite ?(E _ _ i Ev Hi), (E _ _ i Em Hi), (E _ _ i Ed Hi); done.
Qed.

(** A filter on byte 15 accepts a section whose byte 17 differs. *)
Lemma sec_filter_tail_ignored_witness :
  let p := mk_sec_params 17 0 (repeat 0 15 ++ [9]) (repeat 0 15 ++ [255]) (repeat 0 16) in
  sec_filter_match (sample_section ++ [1]) (set_arrays p blank_arrays) = true.
Proof.
  intros p.
  rewrite (sec_filter_tail_ignored p (mk_sec_params 17 0 (repeat 0 16) (repeat 0 16) (repeat 0 16))
             blank_arrays (sample_section ++ [1]) eq_refl eq_refl eq_refl eq_refl eq_refl eq_refl).
  reflexivity.
Defined.

(** * Sections through packets *)

(** A section as a sender makes it. *)
Definition wf_section (sec : list Z) : Prop :=
  bytes sec /\ (3 <= length sec)%nat /\ tbl sec 0 <> 255 /\ Z.of_nat (length sec) = sec_length sec.

Lemma spec_section sec : wf_section sec -> spec_bytes [] sec = ([], [sec]).
Proof.
  intros (Hb & H3 & H0 & Hl). rewrite <- (take_drop 3 sec). rewrite spec_bytes_app.
  assert (Ht : length (take 3 sec) = 3%nat) by (rewrite length_take; lia).
  rewrite spec_header by (rewrite ?Ht; simpl; lia). simpl app.
  rewrite tbl_take, (proj2 (Z.eqb_neq (tbl sec 0) 255)) by (done || lia). simpl orb.
  rewrite sec_length_take by lia.
  destruct (Z.eqb_spec (sec_length sec) 3) as [E|E]; simpl negb; cbv iota.
  - rewrite (drop_ge sec) by lia. by rewrite app_nil_r.
  - rewrite spec_finish; [by rewrite take_drop|lia|rewrite tbl_take by lia; done| |].
    + intros Ed. apply (f_equal length) in Ed. rewrite length_drop in Ed. simpl in Ed. lia.
    + rewrite sec_length_take, Ht, length_drop by lia. lia.
Qed.

Lemma spec_sections secs : Forall wf_section secs -> spec_bytes [] (concat secs) = ([], secs).
Proof.
  induction 1 as [|sec secs Hs _ IH]; simpl; [done|].
  by rewrite spec_bytes_app, spec_section, IH.
Qed.

(** The receiver of the payloads of the packets of one PID, none of which starts a
    section at a pointer field. *)
Fixpoint payloads (fs : list sec_filter) (ps : list (list Z)) (st : sec_state) : sec_state * list sec_call :=
  match ps with
  | [] => (st, [])
  | p :: ps =>
      let '(st, calls) := sec_payload fs 0 p st in
      let '(st, calls') := payloads fs ps st in (st, calls ++ calls')
  end.

Lemma deliver_all_app fs b1 s1 b2 s2 :
  length b1 = length s1 -> deliver_all fs (b1 ++ b2) (s1 ++ s2) = deliver_all fs b1 s1 ++ deliver_all fs b2 s2.
Proof. intros H. unfold deliver_all. by rewrite zip_with_app, concat_app. Qed.

Lemma payloads_ok fs ps st acc acc' secs :
  holds st acc -> pending acc -> Forall bytes ps -> spec_bytes acc (concat ps) = (acc', secs) ->
  exists bufs st', payloads fs ps st = (st', deliver_all fs bufs secs)
    /\ holds st' acc' /\ pending acc' /\ Forall2 completes bufs secs.
Proof.
  revert st acc secs. induction ps as [|p ps IH]; intros st acc secs H Hpe Hb Hs.
  { injection Hs as <- <-. by exists [], st. }
  apply Forall_cons in Hb as [Hp Hb]. simpl in Hs. rewrite spec_bytes_app in Hs.
  destruct (spec_bytes acc p) as [acc1 s1] eqn:E1. destruct (spec_bytes acc1 _) as [acc2 s2] eqn:E2.
  injection Hs as -> <-.
  destruct (sec_loop_ok (length p) fs st acc p acc1 s1 ltac:(done) H Hpe Hp E1)
    as (b1 & st1 & El & H1 & Hpe1 & F1).
  destruct (IH st1 acc1 s2 H1 Hpe1 Hb E2) as (b2 & st2 & Er & H2 & Hpe2 & F2).
  exists (b1 ++ b2), st2. cbn [payloads]. unfold sec_payload.
  change (truthy 0) with false. cbv iota. rewrite El, Er.
  rewrite deliver_all_app by (by eapply Forall2_length).
  split; [done|]. split; [done|]. split; [done|]. by apply Forall2_app.
Qed.

Lemma sec_filter_match_prefix buf sec f :
  (16 <= length sec)%nat -> take (length sec) buf = sec ->
  sec_filter_match buf f = sec_filter_match sec f.
Proof.
  intros H16 Ht. rewrite !sec_filter_match_bool.
  assert (E : forall i, (i < 16)%nat -> tbl buf (Z.of_nat i) = tbl sec (Z.of_nat i)).
  { intros i Hi. rewrite <- (tbl_take buf (length sec)), Ht by lia. done. }
  apply (f_equal2 andb); [|apply (f_equal2 orb); [done|apply (f_equal negb)]];
    apply forallb_upto; intros i Hi; unfold match_pos, match_neg; by rewrite E by lia.
Qed.

Lemma deliver_prefix fs crc buf sec :
  (16 <= length sec)%nat -> take (length sec) buf = sec ->
  deliver_section fs crc buf (Z.of_nat (length sec)) = deliver_section fs crc sec (Z.of_nat (length sec)).
Proof.
  intros H16 Ht. revert crc. induction fs as [|f fs IH]; intros crc; simpl; [done|].
  rewrite (sec_filter_match_prefix buf sec) by done. rewrite Nat2Z.id, Ht, !IH.
  rewrite firstn_all. done.
Qed.



(** A packet that starts a section: with a pointer field of [length t], the bytes
    [t] complete at most the pending section, anything left of it is dropped, and the
    bytes after them are read as new sections from an empty buffer. *)
Theorem sec_payload_start fs st acc t r :
  holds st acc -> pending acc -> bytes t -> bytes r -> (0 < length t < 256)%nat ->
  exists bufs st',
    sec_payload fs 1 (Z.of_nat (length t) :: t ++ r) st
    = (st', deliver_all fs bufs ((if truthy (sec_recv st) then take 1 (spec_bytes acc t).2 else [])
                                 ++ (spec_bytes [] r).2))
    /\ holds st' (spec_bytes [] r).1.
Proof.
  intros H Hpe Ht Hr [Ht0 Ht1].
  assert (Htn : t <> []) by (intros ->; simpl in Ht0; lia).
  unfold sec_payload. change (truthy 1) with true. cbv iota.
  assert (truthy (Z.of_nat (length t)) = true) as -> by (unfold truthy; lia). cbv iota.
  rewrite (proj2 (Z.ltb_ge _ _)) by (rewrite length_app; lia).
  rewrite Nat2Z.id, drop_app_length, take_app_length.
  assert (Hrest : forall st1 acc1, holds st1 acc1 -> exists b2 st',
    sec_loop (length r) fs (mk_sec (sec_buf st1) 0) r = (st', deliver_all fs b2 (spec_bytes [] r).2)
    /\ holds st' (spec_bytes [] r).1).
  { intros st1 acc1 H1. destruct (spec_bytes [] r) as [acc2 s2] eqn:E.
    destruct (sec_loop_ok (length r) fs (mk_sec (sec_buf st1) 0) [] r acc2 s2) as (b2 & st2 & E2 & H2 & _);
      [done|by apply (holds_nil st1 acc1)|apply pending_nil|done|done|]. by exists b2, st2. }
  destruct (truthy (sec_recv st)).
  2: { destruct (Hrest st acc H) as (b2 & st' & -> & H'). by exists b2, st'. }
  pose proof (sec_collect_ok st acc t H Hpe Ht Htn) as Hc.
  unfold sec_data. destruct (sec_collect st t) as [[n st1] c]. destruct Hc as [Hn Hc]. destruct c.
  - destruct Hc as (sec & Hs & H1 & _).
    assert (E1 : take 1 (spec_bytes acc t).2 = [sec]).
    { rewrite <- (take_drop (Z.to_nat n) t), spec_bytes_app, Hs.
      by destruct (spec_bytes [] (drop (Z.to_nat n) t)). }
    rewrite E1. destruct (Hrest (mk_sec (sec_buf st1) 0) []) as (b2 & st' & E2 & H'); [by eapply holds_nil|].
    simpl sec_buf in *. rewrite E2. exists (sec_buf st1 :: b2), st'. split; [|done].
    destruct H1 as (_ & -> & _). done.
  - destruct Hc as (_ & acc1 & Hs & H1 & _). rewrite Hs. simpl.
    destruct (Hrest st1 acc1 H1) as (b2 & st' & -> & H'). by exists b2, st'.
Qed.

Lemma sec_payload_start_witness :
  exists bufs st',
    sec_payload [sample_filter] 1 (17 :: (drop 2 sample_section ++ [255; 255]) ++ [1; 2]) sample_state
    = (st', deliver_all [sample_filter] bufs [sample_section]) /\ holds st' [1; 2].
Proof.
  assert (holds sample_state [66; 240]) as H by (split; [done|by split]).
  assert (pending [66; 240]) as Hp.
  { split; [by repeat apply Forall_cons_2|]. left. simpl. lia. }
  apply (sec_payload_start [sample_filter] sample_state [66; 240] (drop 2 sample_section ++ [255; 255]) [1; 2]
           H Hp); [by repeat apply Forall_cons_2..|simpl; lia].
Defined.
