(* ===== verification/SwdmxDemux.v ===== *)
(** [swdmx_demux.c], the filters of the software demultiplexer: their state
    machine ([INIT], [SET], [RUN]), the PID filters shared by the running filters
    of one PID, and the dispatch of packets.

    A list of the source is here the list of the addresses of its elements:
    [SwdmxList] proves that the intrusive list implements that.  An operation
    is [None] when the source would read freed or unset memory, or loop forever
    in an assertion.  The source has the code of TS filters and of section filters
    twice, word for word but for the list used: one definition is the text of
    both, with the kind as argument. *)

From S2P Require Import Prelude DList SwdmxList SwdmxTs SwdmxSec.

(** * State *)

Inductive kind := KTs | KSec.
Inductive SWDMX_FilterState :=
| SWDMX_FILTER_STATE_INIT | SWDMX_FILTER_STATE_SET | SWDMX_FILTER_STATE_RUN.

#[export] Instance kind_eq_dec : EqDecision kind.
Proof. solve_decision. Defined.
#[export] Instance filter_state_eq_dec : EqDecision SWDMX_FilterState.
Proof. solve_decision. Defined.

(** [SWDMX_TsFilter] and [SWDMX_SecFilter]; of [f_params] a TS filter has the PID
    only, and [f_arrays] belongs to section filters. *)
Record filt := mk_filt {
  f_kind : kind; f_state : SWDMX_FilterState; f_pid_filter : option loc;
  f_params : sec_params; f_arrays : sec_arrays; f_cbs : list (Z * Z)
}.
Definition f_pid (f : filt) : Z := sp_pid (f_params f).

(** [SWDMX_PidFilter]. *)
Record pid_filter := mk_pf {
  pf_pid : Z; pf_ts_list : list loc; pf_sec_list : list loc;
  pf_sec_data : option (list Z); pf_sec_recv : Z
}.

(** [SWDMX_Demux] with the memory of its filters. *)
Record demux := mk_dmx {
  pid_filters : gmap loc pid_filter; pid_filter_list : list loc;
  filters : gmap loc filt; ts_filter_list : list loc; sec_filter_list : list loc
}.

Definition members (k : kind) (pf : pid_filter) : list loc :=
  match k with KTs => pf_ts_list pf | KSec => pf_sec_list pf end.
Definition upd_members (k : kind) (g : list loc -> list loc) (pf : pid_filter) : pid_filter :=
  match k with
  | KTs => mk_pf (pf_pid pf) (g (pf_ts_list pf)) (pf_sec_list pf) (pf_sec_data pf) (pf_sec_recv pf)
  | KSec => mk_pf (pf_pid pf) (pf_ts_list pf) (g (pf_sec_list pf)) (pf_sec_data pf) (pf_sec_recv pf)
  end.

Definition filter_list (k : kind) (d : demux) : list loc :=
  match k with KTs => ts_filter_list d | KSec => sec_filter_list d end.
Definition upd_filter_list (k : kind) (g : list loc -> list loc) (d : demux) : demux :=
  match k with
  | KTs => mk_dmx (pid_filters d) (pid_filter_list d) (filters d) (g (ts_filter_list d)) (sec_filter_list d)
  | KSec => mk_dmx (pid_filters d) (pid_filter_list d) (filters d) (ts_filter_list d) (g (sec_filter_list d))
  end.

Definition set_filters (m : gmap loc filt) (d : demux) : demux :=
  mk_dmx (pid_filters d) (pid_filter_list d) m (ts_filter_list d) (sec_filter_list d).
Definition set_pids (m : gmap loc pid_filter) (l : list loc) (d : demux) : demux :=
  mk_dmx m l (filters d) (ts_filter_list d) (sec_filter_list d).

(** * Operations *)

(** The first PID filter with the PID; [a] is the address of a new one. *)
Definition find_pid (pid : Z) (d : demux) : option loc :=
  snd <$> list_find (fun b => pf_pid <$> pid_filters d !! b = Some pid) (pid_filter_list d).

Definition pid_filter_get (a : loc) (pid : Z) (d : demux) : loc * demux :=
  match find_pid pid d with
  | Some b => (b, d)
  | None => (a, set_pids (<[a := mk_pf pid [] [] None 0]> (pid_filters d)) (pid_filter_list d ++ [a]) d)
  end.

Definition pid_filter_remove (b : loc) (d : demux) : option demux :=
  pf ← pid_filters d !! b;
  if decide (pf_ts_list pf = [] /\ pf_sec_list pf = [])
  then Some (set_pids (delete b (pid_filters d)) (without b (pid_filter_list d)) d)
  else Some d.

Definition swdmx_demux_new : demux := mk_dmx ∅ [] ∅ [] [].

(** [junk_p], [junk_a] are what the block held. *)
Definition swdmx_demux_alloc_filter (k : kind) (l : loc) (junk_p : sec_params) (junk_a : sec_arrays)
    (d : demux) : demux :=
  upd_filter_list k (fun ls => ls ++ [l])
    (set_filters (<[l := mk_filt k SWDMX_FILTER_STATE_INIT None junk_p junk_a []]> (filters d)) d).

(** [swdmx_list_append(&pid_filter->..., &filter->pid_ln)], and its inverse,
    which finds the list by the node. *)
Definition attach (k : kind) (l b : loc) (d : demux) : demux :=
  set_pids (alter (upd_members k (fun ls => ls ++ [l])) b (pid_filters d)) (pid_filter_list d) d.
Definition detach (k : kind) (l : loc) (d : demux) : demux :=
  set_pids (upd_members k (without l) <$> pid_filters d) (pid_filter_list d) d.

Definition upd_run (st : SWDMX_FilterState) (pf : option loc) (f : filt) : filt :=
  mk_filt (f_kind f) st pf (f_params f) (f_arrays f) (f_cbs f).
Definition upd_cbs (g : list (Z * Z) -> list (Z * Z)) (f : filt) : filt :=
  mk_filt (f_kind f) (f_state f) (f_pid_filter f) (f_params f) (f_arrays f) (g (f_cbs f)).

(** The parameters, for a section filter with its arrays. *)
Definition upd_params (p : sec_params) (f : filt) : filt :=
  mk_filt (f_kind f) (f_state f) (f_pid_filter f) p
    (match f_kind f with KTs => f_arrays f | KSec => set_arrays p (f_arrays f) end) (f_cbs f).

(** The middle of [..._set_params]: the parameters, and the state [SET] in place of
    [INIT]. *)
Definition with_params (p : sec_params) (f : filt) : filt :=
  let f := upd_params p f in
  if decide (f_state f = SWDMX_FILTER_STATE_INIT)
  then upd_run SWDMX_FILTER_STATE_SET (f_pid_filter f) f else f.

(** The part both [..._set_params] and [..._disable] start with for a running filter. *)
Definition release (l : loc) (f : filt) (d : demux) : option demux :=
  b ← f_pid_filter f;
  pid_filter_remove b (detach (f_kind f) l d).

(** [a] is the address of a PID filter, should one be needed; the flag is
    [SWDMX_OK]. *)
Definition swdmx_filter_set_params (a l : loc) (p : sec_params) (d : demux) : option (bool * demux) :=
  f ← filters d !! l;
  if negb (swdmx_is_valid_pid (sp_pid p)) || (sp_pid p =? 8191) then Some (false, d)
  else
    r ← (if decide (f_state f = SWDMX_FILTER_STATE_RUN) then
           if decide (f_pid_filter f <> None) then
             if f_pid f =? sp_pid p then Some (d, f_pid_filter f)
             else d ← release l f d; Some (d, None)
           else None
         else Some (d, f_pid_filter f));
    let '(d, pf) := r in
    let f := with_params p (upd_run (f_state f) pf f) in
    if decide (f_state f = SWDMX_FILTER_STATE_RUN /\ f_pid_filter f = None) then
      let '(b, d) := pid_filter_get a (sp_pid p) d in
      Some (true, attach (f_kind f) l b (set_filters (<[l := upd_run (f_state f) (Some b) f]> (filters d)) d))
    else Some (true, set_filters (<[l := f]> (filters d)) d).

Definition swdmx_filter_enable (a l : loc) (d : demux) : option (bool * demux) :=
  f ← filters d !! l;
  match f_state f with
  | SWDMX_FILTER_STATE_INIT => Some (false, d)
  | SWDMX_FILTER_STATE_SET =>
      let '(b, d) := pid_filter_get a (f_pid f) d in
      Some (true, attach (f_kind f) l b
        (set_filters (<[l := upd_run SWDMX_FILTER_STATE_RUN (Some b) f]> (filters d)) d))
  | SWDMX_FILTER_STATE_RUN => Some (true, d)
  end.

Definition swdmx_filter_disable (l : loc) (d : demux) : option demux :=
  f ← filters d !! l;
  match f_state f with
  | SWDMX_FILTER_STATE_RUN =>
      d ← release l f d;
      Some (set_filters (<[l := upd_run SWDMX_FILTER_STATE_SET None f]> (filters d)) d)
  | _ => Some d
  end.

Definition swdmx_filter_free (l : loc) (d : demux) : option demux :=
  f ← filters d !! l;
  d ← swdmx_filter_disable l d;
  Some (set_filters (delete l (filters d)) (upd_filter_list (f_kind f) (without l) d)).

(** [swdmx_cb_list_add] and [swdmx_cb_list_remove] as [SwdmxList] proves them. *)
Definition swdmx_filter_add_cb (l : loc) (cb data : Z) (d : demux) : option demux :=
  f ← filters d !! l;
  Some (set_filters (<[l := upd_cbs (fun es => es ++ [(cb, data)]) f]> (filters d)) d).

Definition swdmx_filter_remove_cb (l : loc) (cb data : Z) (d : demux) : option demux :=
  f ← filters d !! l;
  Some (set_filters (<[l := upd_cbs (cb_without cb data) f]> (filters d)) d).

(** The two kinds of call a packet can cause. *)
Inductive dmx_call :=
| TsCall (cb data : Z) (pkt : SWDMX_TsPacket)
| SecCall (c : sec_call).

Definition sec_of (f : filt) : sec_filter := mk_sf (sp_crc32 (f_params f)) (f_arrays f) (f_cbs f).

(** [pid_filter_data]; [junk] is what the new section buffer held. *)
Definition pid_filter_data (junk : list Z) (b : loc) (pkt : SWDMX_TsPacket) (d : demux)
    : option (demux * list dmx_call) :=
  pf ← pid_filters d !! b;
  ts ← mapM (fun l => filters d !! l) (pf_ts_list pf);
  sec ← mapM (fun l => filters d !! l) (pf_sec_list pf);
  let calls := concat ((fun f => (fun '(cb, data) => TsCall cb data pkt) <$> f_cbs f) <$> ts) in
  if decide (pf_sec_list pf = []) then Some (d, calls)
  else if bool_decide (payload pkt = None) || truthy (scramble pkt) then Some (d, calls)
  else
    let st := mk_sec (default junk (pf_sec_data pf)) (pf_sec_recv pf) in
    let '(st, scalls) := sec_payload (sec_of <$> sec) (payload_start pkt) (payload_bytes pkt) st in
    let pf := mk_pf (pf_pid pf) (pf_ts_list pf) (pf_sec_list pf) (Some (sec_buf st)) (sec_recv st) in
    Some (set_pids (<[b := pf]> (pid_filters d)) (pid_filter_list d) d, calls ++ (SecCall <$> scalls)).

Definition swdmx_demux_ts_packet_cb (junk : list Z) (pkt : SWDMX_TsPacket) (d : demux)
    : option (demux * list dmx_call) :=
  match find_pid (pid pkt) d with
  | Some b => pid_filter_data junk b pkt d
  | None => Some (d, [])
  end.

(** The three loops of [swdmx_demux_free]. *)
Fixpoint free_filters (fuel : nat) (k : kind) (d : demux) : option demux :=
  match filter_list k d, fuel with
  | [], _ => Some d
  | _, O => None
  | l :: _, S fuel => d ← swdmx_filter_free l d; free_filters fuel k d
  end.

Fixpoint free_pid_filters (fuel : nat) (d : demux) : option demux :=
  match pid_filter_list d, fuel with
  | [], _ => Some d
  | _, O => None
  | b :: _, S fuel => d ← pid_filter_remove b d; free_pid_filters fuel d
  end.

Definition swdmx_demux_free (d : demux) : option demux :=
  d ← free_filters (length (ts_filter_list d)) KTs d;
  d ← free_filters (length (sec_filter_list d)) KSec d;
  free_pid_filters (length (pid_filter_list d)) d.

(** The functions by the names of the source; the parameters of a TS filter are its
    PID. *)
Definition swdmx_demux_alloc_ts_filter := swdmx_demux_alloc_filter KTs.
Definition swdmx_demux_alloc_sec_filter := swdmx_demux_alloc_filter KSec.
Definition swdmx_ts_filter_set_params (a l : loc) (pid : Z) :=
  swdmx_filter_set_params a l (mk_sec_params pid 0 [] [] []).
Definition swdmx_sec_filter_set_params := swdmx_filter_set_params.
Definition swdmx_ts_filter_enable := swdmx_filter_enable.
Definition swdmx_sec_filter_enable := swdmx_filter_enable.
Definition swdmx_ts_filter_disable := swdmx_filter_disable.
Definition swdmx_sec_filter_disable := swdmx_filter_disable.
Definition swdmx_ts_filter_free := swdmx_filter_free.
Definition swdmx_sec_filter_free := swdmx_filter_free.
Definition swdmx_ts_filter_add_ts_packet_cb := swdmx_filter_add_cb.
Definition swdmx_sec_filter_add_section_cb := swdmx_filter_add_cb.
Definition swdmx_ts_filter_remove_ts_packet_cb := swdmx_filter_remove_cb.
Definition swdmx_sec_filter_remove_section_cb := swdmx_filter_remove_cb.

(** * The invariant *)

Definition arrays_ok (a : sec_arrays) : Prop :=
  length (value a) = 18%nat /\ length (mam a) = 18%nat /\ length (manm a) = 18%nat.

(** A filter runs exactly when it is in the PID filter of its PID. *)
Definition filt_ok (pids : gmap loc pid_filter) (f : filt) : Prop :=
  (f_state f = SWDMX_FILTER_STATE_RUN <-> f_pid_filter f <> None)
  /\ (forall b, f_pid_filter f = Some b -> exists pf, pids !! b = Some pf /\ pf_pid pf = f_pid f)
  /\ (f_state f <> SWDMX_FILTER_STATE_INIT -> f_pid f < 8191)
  /\ arrays_ok (f_arrays f)
  /\ (f_kind f = KSec -> f_state f <> SWDMX_FILTER_STATE_INIT ->
      exists a, arrays_ok a /\ f_arrays f = set_arrays (f_params f) a).

(** The section buffer of a PID filter. *)
Definition buf_ok (pf : pid_filter) : Prop :=
  match pf_sec_data pf with
  | None => pf_sec_recv pf = 0
  | Some buf => exists acc, holds (mk_sec buf (pf_sec_recv pf)) acc /\ pending acc
  end.

(** The lists of a PID filter hold its running filters. *)
Definition pf_ok (fs : gmap loc filt) (b : loc) (pf : pid_filter) : Prop :=
  (forall k, NoDup (members k pf)
     /\ forall l, l ∈ members k pf <-> exists f, fs !! l = Some f /\ f_kind f = k /\ f_pid_filter f = Some b)
  /\ ~ (pf_ts_list pf = [] /\ pf_sec_list pf = [])
  /\ buf_ok pf.

Definition pids_ok (pids : gmap loc pid_filter) (ls : list loc) : Prop :=
  NoDup ls /\ (forall b, b ∈ ls <-> is_Some (pids !! b))
  /\ (forall b c p q, pids !! b = Some p -> pids !! c = Some q -> pf_pid p = pf_pid q -> b = c).

Record dmx_inv (d : demux) : Prop := mk_inv {
  inv_pids : pids_ok (pid_filters d) (pid_filter_list d);
  inv_pf : forall b pf, pid_filters d !! b = Some pf -> pf_ok (filters d) b pf;
  inv_filt : forall l f, filters d !! l = Some f -> filt_ok (pid_filters d) f;
  inv_lists : forall k, NoDup (filter_list k d)
    /\ forall l, l ∈ filter_list k d <-> exists f, filters d !! l = Some f /\ f_kind f = k
}.

Lemma members_upd k k' g pf :
  members k' (upd_members k g pf) = if decide (k' = k) then g (members k pf) else members k' pf.
Proof. by destruct k, k'. Qed.

Lemma upd_members_pid k g pf : pf_pid (upd_members k g pf) = pf_pid pf.
Proof. by destruct k. Qed.
Lemma upd_members_buf k g pf : buf_ok (upd_members k g pf) <-> buf_ok pf.
Proof. by destruct k. Qed.

Lemma find_pid_some pid d b :
  dmx_inv d -> find_pid pid d = Some b <-> exists pf, pid_filters d !! b = Some pf /\ pf_pid pf = pid.
Proof.
  intros I. destruct (inv_pids _ I) as (_ & Hin & Hu). unfold find_pid.
  destruct (list_find _ _) as [[i c]|] eqn:E; simpl.
  - apply list_find_Some in E as (Hi & E & _).
    destruct (pid_filters d !! c) as [pf|] eqn:Ec; [|done]. simpl in E. injection E as E.
    split; [intros [= ->]; eauto|]. intros (q & Eb & Hq). f_equal. eapply Hu; eauto. congruence.
  - apply list_find_None in E. split; [done|]. intros (pf & Eb & Hp).
    rewrite Forall_forall in E. exfalso. apply (E b).
    + apply Hin. eauto.
    + rewrite Eb. simpl. by f_equal.
Qed.

Lemma find_pid_none pid d b pf :
  dmx_inv d -> find_pid pid d = None -> pid_filters d !! b = Some pf -> pf_pid pf <> pid.
Proof.
  intros I E Hb Hp. assert (find_pid pid d = Some b) by (apply find_pid_some; eauto). congruence.
Qed.

(** * Disabling a filter *)

(** The PID filters after filter [l] of kind [k] left the PID filter [b]. *)
Definition dropped (k : kind) (l b : loc) (pids pids' : gmap loc pid_filter) : Prop :=
  (forall c, c <> b -> pids' !! c = upd_members k (without l) <$> pids !! c)
  /\ forall pf, pids !! b = Some pf ->
     let pf' := upd_members k (without l) pf in
     pids' !! b = if decide (pf_ts_list pf' = [] /\ pf_sec_list pf' = []) then None else Some pf'.

Lemma release_eq l f d b pf :
  f_pid_filter f = Some b -> pid_filters d !! b = Some pf ->
  exists pids' ls', release l f d = Some (set_pids pids' ls' d)
    /\ dropped (f_kind f) l b (pid_filters d) pids'
    /\ ls' = if decide (is_Some (pids' !! b)) then pid_filter_list d else without b (pid_filter_list d).
Proof.
  intros Ef Eb. unfold release. rewrite Ef. simpl. unfold pid_filter_remove. simpl.
  rewrite lookup_fmap, Eb. simpl. case_decide as Hd.
  - eexists _, _. split; [done|]. split; [split|].
    + intros c Hc. by rewrite lookup_delete_ne, lookup_fmap by done.
    + intros q Hq. simplify_eq. cbv zeta. rewrite lookup_delete_eq, decide_True by done. done.
    + rewrite lookup_delete_eq, decide_False; [done|]. by intros [? ?].
  - eexists _, _. split; [done|]. split; [split|].
    + intros c Hc. by rewrite lookup_fmap.
    + intros q Hq. simplify_eq. cbv zeta. rewrite lookup_fmap, Eb. simpl. by rewrite decide_False.
    + rewrite lookup_fmap, Eb. done.
Qed.

Lemma without_notin x l : x ∉ l -> without x l = l.
Proof.
  intros H. unfold without. induction l as [|y l IH]; [done|].
  rewrite filter_cons_True by set_solver. f_equal. apply IH. set_solver.
Qed.

Lemma upd_members_notin k l pf : l ∉ members k pf -> upd_members k (without l) pf = pf.
Proof. intros H. destruct k, pf; simpl in *; by rewrite without_notin. Qed.

(** Only the PID filter that has the filter changes. *)
Lemma dropped_other k l b d f pids' c :
  dmx_inv d -> filters d !! l = Some f -> f_pid_filter f = Some b ->
  dropped k l b (pid_filters d) pids' -> c <> b -> pids' !! c = pid_filters d !! c.
Proof.
  intros I El Ef [H _] Hc. rewrite H by done.
  destruct (pid_filters d !! c) as [pf|] eqn:E; [|done]. simpl. f_equal. apply upd_members_notin.
  intros Hin. destruct (inv_pf _ I _ _ E) as (Hm & _). apply Hm in Hin as (g & Eg & _ & Eb). congruence.
Qed.

Section Disable.
Context (d : demux) (l b : loc) (f : filt) (pf : pid_filter) (pids' : gmap loc pid_filter).
Hypothesis I : dmx_inv d.
Hypothesis El : filters d !! l = Some f.
Hypothesis Ef : f_pid_filter f = Some b.
Hypothesis Eb : pid_filters d !! b = Some pf.
Hypothesis D : dropped (f_kind f) l b (pid_filters d) pids'.

Lemma drop_keep c g l' :
  filters d !! l' = Some g -> l' <> l -> f_pid_filter g = Some c ->
  exists p q, pid_filters d !! c = Some p /\ pids' !! c = Some q /\ pf_pid q = pf_pid p.
Proof.
  intros Eg Hl Ec. destruct (inv_filt _ I _ _ Eg) as (_ & Hp & _).
  destruct (Hp _ Ec) as (p & Ep & _). exists p. destruct (decide (c = b)) as [->|Hc].
  - assert (p = pf) as -> by congruence. destruct D as [_ H]. specialize (H _ Ep). simpl in H.
    rewrite decide_False in H.
    + exists (upd_members (f_kind f) (without l) pf). split; [done|]. split; [done|]. apply upd_members_pid.
    + intros [H1 H2]. destruct (inv_pf _ I _ _ Ep) as (Hm & _).
      destruct (Hm (f_kind g)) as [_ Hin]. assert (l' ∈ members (f_kind g) pf) as Hg by (apply Hin; eauto).
      assert (l' ∈ members (f_kind g) (upd_members (f_kind f) (without l) pf)) as Hn.
      { rewrite members_upd. destruct (decide (f_kind g = f_kind f)) as [Hk|].
        - apply elem_of_without. rewrite <- Hk. by split.
        - exact Hg. }
      destruct (f_kind g); simpl in Hn; [rewrite H1 in Hn|rewrite H2 in Hn]; by apply elem_of_nil in Hn.
  - exists p. rewrite (dropped_other _ _ _ _ _ _ _ I El Ef D Hc). done.
Qed.

Lemma drop_from c q :
  pids' !! c = Some q ->
  exists p, pid_filters d !! c = Some p /\ pf_pid q = pf_pid p
    /\ q = (if decide (c = b) then upd_members (f_kind f) (without l) p else p)
    /\ (c = b -> ~ (pf_ts_list q = [] /\ pf_sec_list q = [])).
Proof.
  intros Eq. destruct (decide (c = b)) as [->|Hc].
  - destruct D as [_ H]. specialize (H _ Eb). simpl in H. rewrite Eq in H. case_decide; [done|].
    simplify_eq. exists pf. split; [done|]. split; [apply upd_members_pid|]. done.
  - exists q. rewrite <- (dropped_other _ _ _ _ _ _ _ I El Ef D Hc). done.
Qed.

Lemma drop_pids :
  pids_ok pids' (if decide (is_Some (pids' !! b)) then pid_filter_list d else without b (pid_filter_list d)).
Proof.
  destruct (inv_pids _ I) as (Hn & Hin & Hu). split; [|split].
  - case_decide; [done|]. by apply NoDup_without.
  - intros c. destruct (decide (c = b)) as [->|Hc].
    + case_decide as Hs.
      * split; [done|]. intros _. apply Hin. eauto.
      * rewrite elem_of_without. naive_solver.
    + rewrite (dropped_other _ _ _ _ _ _ _ I El Ef D Hc), <- Hin.
      case_decide; [done|]. rewrite elem_of_without. naive_solver.
  - intros c c' p q Ep Eq E. destruct (drop_from _ _ Ep) as (p0 & Ep0 & E0 & _).
    destruct (drop_from _ _ Eq) as (q0 & Eq0 & E1 & _). eapply Hu; eauto. congruence.
Qed.

Lemma drop_pf f' c q :
  f_kind f' = f_kind f -> f_pid_filter f' = None -> pids' !! c = Some q ->
  pf_ok (<[l := f']> (filters d)) c q.
Proof.
  intros Hk Hn Eq. destruct (drop_from _ _ Eq) as (p & Ep & _ & Hq & Hne).
  destruct (inv_pf _ I _ _ Ep) as (Hm & Hne' & Hb). split; [|split].
  - intros k. destruct (Hm k) as [Hnd Hin]. split.
    + rewrite Hq. case_decide; [|done]. rewrite members_upd. case_decide; [subst k; by apply NoDup_without|done].
    + intros l'. destruct (decide (l' = l)) as [->|Hl].
      * rewrite lookup_insert_eq. split; [|naive_solver]. intros Hx. exfalso. rewrite Hq in Hx.
        case_decide as Hc.
        -- rewrite members_upd in Hx. case_decide; [apply elem_of_without in Hx; naive_solver|].
           apply Hin in Hx. naive_solver.
        -- apply Hin in Hx. naive_solver.
      * rewrite lookup_insert_ne, <- Hin by done. rewrite Hq. case_decide; [|done].
        rewrite members_upd. case_decide; [subst k; rewrite elem_of_without; naive_solver|done].
  - destruct (decide (c = b)); [by apply Hne|]. by subst q.
  - rewrite Hq. case_decide; [by apply upd_members_buf|done].
Qed.
End Disable.

(** The subscribers of a PID, in the order they were enabled. *)
Definition subs (k : kind) (p : Z) (d : demux) : list loc :=
  match find_pid p d with
  | Some b => match pid_filters d !! b with Some pf => members k pf | None => [] end
  | None => []
  end.

Lemma subs_lookup k d b pf :
  dmx_inv d -> pid_filters d !! b = Some pf -> subs k (pf_pid pf) d = members k pf.
Proof.
  intros I Eb. unfold subs. assert (find_pid (pf_pid pf) d = Some b) as -> by (apply find_pid_some; eauto).
  by rewrite Eb.
Qed.

Lemma subs_none k d p :
  (forall b pf, pid_filters d !! b = Some pf -> pf_pid pf <> p) -> subs k p d = [].
Proof.
  intros H. unfold subs. destruct (find_pid p d) as [b|] eqn:E; [|done].
  destruct (pid_filters d !! b) as [pf|] eqn:Eb; [|done]. exfalso.
  unfold find_pid in E. destruct (list_find _ _) as [[i c]|] eqn:El; [|done]. simpl in E.
  injection E as ->. apply list_find_Some in El as (_ & El & _). rewrite Eb in El. simpl in El.
  injection El. eapply H. done.
Qed.

Lemma subs_spec k p d l :
  dmx_inv d -> l ∈ subs k p d <->
  exists f, filters d !! l = Some f /\ f_kind f = k /\ f_state f = SWDMX_FILTER_STATE_RUN /\ f_pid f = p.
Proof.
  intros I. split.
  - unfold subs. destruct (find_pid p d) as [b|] eqn:E; [|by intros ?%elem_of_nil].
    apply (find_pid_some _ _ _ I) in E as (pf & Eb & Hp). rewrite Eb. intros Hin.
    destruct (inv_pf _ I _ _ Eb) as (Hm & _). apply Hm in Hin as (f & El & Hk & Hpf).
    destruct (inv_filt _ I _ _ El) as (Hr & Hb & _). exists f. split; [done|]. split; [done|].
    split; [apply Hr; congruence|]. destruct (Hb _ Hpf) as (pf' & Eb' & Hp'). congruence.
  - intros (f & El & Hk & Hr & Hp). destruct (inv_filt _ I _ _ El) as (Hr' & Hb & _).
    destruct (f_pid_filter f) as [b|] eqn:Eb; [|exfalso; by apply Hr'].
    destruct (Hb _ eq_refl) as (pf & Ep & Hpp). rewrite <- Hp, <- Hpp, (subs_lookup k d b pf) by done.
    destruct (inv_pf _ I _ _ Ep) as (Hm & _). apply Hm. eauto.
Qed.

Lemma filt_ok_frame pids pids' g :
  filt_ok pids g ->
  (forall c, f_pid_filter g = Some c -> exists p q, pids !! c = Some p /\ pids' !! c = Some q /\ pf_pid q = pf_pid p) ->
  filt_ok pids' g.
Proof.
  intros (H1 & H2 & H3) H. split; [done|]. split; [|done]. intros c Hc.
  destruct (H2 _ Hc) as (p & Ep & Hp). destruct (H _ Hc) as (p' & q & Ep' & Eq & E).
  exists q. split; [done|]. congruence.
Qed.

Lemma lists_insert d m l f f' :
  filters d !! l = Some f -> f_kind f' = f_kind f -> dmx_inv d -> m = <[l := f']> (filters d) ->
  forall k, NoDup (filter_list k d)
    /\ forall l', l' ∈ filter_list k d <-> exists g, m !! l' = Some g /\ f_kind g = k.
Proof.
  intros El Hk I -> k. destruct (inv_lists _ I k) as [Hn Hin]. split; [done|].
  intros l'. rewrite Hin. destruct (decide (l' = l)) as [->|Hl].
  - rewrite lookup_insert_eq, El. naive_solver.
  - by rewrite lookup_insert_ne.
Qed.

Lemma filter_list_set k m pids ls d : filter_list k (set_filters m (set_pids pids ls d)) = filter_list k d.
Proof. by destruct k. Qed.

Lemma drop_subs d l b f pf pids' d' k p :
  dmx_inv d -> filters d !! l = Some f -> f_pid_filter f = Some b -> pid_filters d !! b = Some pf ->
  dropped (f_kind f) l b (pid_filters d) pids' -> dmx_inv d' -> pid_filters d' = pids' ->
  subs k p d' = if decide (k = f_kind f /\ p = pf_pid pf) then without l (subs k p d) else subs k p d.
Proof.
  intros I El Ef Eb D I' Ed'. pose proof (drop_from d l b f pf pids' I El Ef Eb D) as Hfrom.
  destruct (inv_pids _ I) as (_ & _ & Hu).
  destruct (find_pid p d) as [c|] eqn:E.
  2: { assert (subs k p d = []) as -> by (unfold subs; by rewrite E). rewrite subs_none; [by case_decide|].
       intros c q Eq. rewrite Ed' in Eq. destruct (Hfrom _ _ Eq) as (r & Er & -> & _). eapply find_pid_none; [exact I|done|done]. }
  apply (find_pid_some _ _ _ I) in E as (q & Ec & <-). rewrite (subs_lookup k d c q) by done.
  destruct (decide (c = b)) as [->|Hc].
  2: { rewrite decide_False by (intros [_ Hpp]; apply Hc; eapply Hu; [exact Ec|exact Eb|done]).
       apply (subs_lookup k d' c q); [done|]. rewrite Ed'. by rewrite (dropped_other _ _ _ _ _ _ _ I El Ef D Hc). }
  assert (q = pf) as -> by congruence. pose proof (proj2 D _ Eb) as H. simpl in H.
  assert (Hm : (if decide (k = f_kind f /\ pf_pid pf = pf_pid pf) then without l (members k pf) else members k pf)
               = members k (upd_members (f_kind f) (without l) pf)).
  { rewrite members_upd. destruct (decide (k = f_kind f)) as [->|Hk]; [by rewrite decide_True|].
    by rewrite decide_False by tauto. }
  rewrite Hm. revert H. generalize (upd_members_pid (f_kind f) (without l) pf).
  generalize (upd_members (f_kind f) (without l) pf) as pf'. intros pf' Epf H.
  destruct (decide (pf_ts_list pf' = [] /\ pf_sec_list pf' = [])) as [[H1 H2]|Hne].
  - rewrite subs_none; [by destruct k|]. intros c r Er. rewrite Ed' in Er.
    destruct (Hfrom _ _ Er) as (r0 & Er0 & -> & _). intros Hpp. rewrite (Hu _ _ _ _ Er0 Eb Hpp) in Er. congruence.
  - rewrite <- Epf. apply (subs_lookup k d' b); [done|by rewrite Ed'].
Qed.

(** The effect of [disable]. *)
Definition stopped (f : filt) : filt :=
  if decide (f_state f = SWDMX_FILTER_STATE_RUN) then upd_run SWDMX_FILTER_STATE_SET None f else f.

Lemma stopped_ok pids pids' f : filt_ok pids f -> filt_ok pids' (stopped f).
Proof.
  intros (H1 & H2 & H3 & H4). unfold stopped. case_decide as Hr.
  - split; [done|]. split; [done|]. simpl. split; [intros _; apply H3; by rewrite Hr|].
    split; [apply H4|]. intros Hk _. apply H4; [done|by rewrite Hr].
  - split; [done|]. split; [|done]. intros b Hb. exfalso. apply Hr, H1. congruence.
Qed.

Definition dmx_same_lists (d d' : demux) : Prop := forall k, filter_list k d' = filter_list k d.

Lemma disable_ok l f d :
  dmx_inv d -> filters d !! l = Some f ->
  exists d', swdmx_filter_disable l d = Some d' /\ dmx_inv d'
    /\ filters d' = <[l := stopped f]> (filters d) /\ dmx_same_lists d d'
    /\ forall k p, subs k p d' = if decide (k = f_kind f /\ p = f_pid f) then without l (subs k p d) else subs k p d.
Proof.
  intros I El. pose proof (inv_filt _ I _ _ El) as Hok. pose proof Hok as (Hrun & Hpid & _).
  unfold swdmx_filter_disable. rewrite El. simpl.
  destruct (f_state f) eqn:Es;
    [exists d; unfold stopped; rewrite decide_False, insert_id by congruence; split_and!; try done;
     intros k p; case_decide as Hc; [|done]; rewrite without_notin; [done|];
     rewrite subs_spec by done; intros (g & Eg & _ & Hg & _); congruence..|].
  destruct (f_pid_filter f) as [b|] eqn:Ef; [|exfalso; by apply (proj1 Hrun)].
  destruct (Hpid _ eq_refl) as (pf & Eb & Hp).
  destruct (release_eq l f d b pf Ef Eb) as (pids' & ls' & -> & D & ->). simpl.
  eexists. split; [done|].
  assert (stopped f = upd_run SWDMX_FILTER_STATE_SET None f) as Est.
  { unfold stopped. by rewrite decide_True. }
  assert (I' : dmx_inv (set_filters (<[l := upd_run SWDMX_FILTER_STATE_SET None f]> (filters d))
    (set_pids pids' (if decide (is_Some (pids' !! b)) then pid_filter_list d else without b (pid_filter_list d)) d))).
  { split.
    - by apply (drop_pids d l b f pf pids').
    - intros c q Eq. by apply (drop_pf d l b f pf pids').
    - intros l' g Eg. simpl in Eg. rewrite lookup_insert in Eg. case_decide as Hl.
      + simplify_eq. rewrite <- Est. by eapply stopped_ok.
      + apply (filt_ok_frame (pid_filters d)); [by eapply inv_filt|]. intros c Hc.
        apply (drop_keep d l b f pf pids' I El Ef Eb D c g l'); done.
    - intros k. rewrite filter_list_set. by apply (lists_insert d _ l f (upd_run SWDMX_FILTER_STATE_SET None f)). }
  split; [done|]. split; [by rewrite Est|]. split; [intros k; apply filter_list_set|].
  intros k p. rewrite <- Hp. by apply (drop_subs d l b f pf pids').
Qed.

(** * Enabling a filter *)

(** [pid_filter_get] gives the PID filter of the PID, the others as before. *)
Record got (a b : loc) (pid : Z) (pids pids' : gmap loc pid_filter) : Prop := mk_got {
  got_at : exists pf, pids' !! b = Some pf /\ pf_pid pf = pid
    /\ (pids !! b = Some pf \/ (b = a /\ pf = mk_pf pid [] [] None 0 /\ pids !! a = None
                               /\ forall c q, pids !! c = Some q -> pf_pid q <> pid));
  got_other : forall c, c <> b -> pids' !! c = pids !! c
}.

Lemma set_pids_id d : set_pids (pid_filters d) (pid_filter_list d) d = d.
Proof. by destruct d. Qed.

Lemma get_eq a pid d :
  dmx_inv d -> pid_filters d !! a = None ->
  exists b pids' ls', pid_filter_get a pid d = (b, set_pids pids' ls' d)
    /\ got a b pid (pid_filters d) pids' /\ pids_ok pids' ls'.
Proof.
  intros I Ha. unfold pid_filter_get. pose proof (inv_pids _ I) as Ip.
  destruct (find_pid pid d) as [b|] eqn:E.
  - exists b, (pid_filters d), (pid_filter_list d). rewrite set_pids_id. split; [done|]. split; [|done].
    apply (find_pid_some _ _ _ I) in E as (pf & Eb & Hp). split; [|done]. exists pf. eauto.
  - exists a. eexists _, _. split; [done|].
    assert (Hno : forall c q, pid_filters d !! c = Some q -> pf_pid q <> pid)
      by (intros c q Hc; eapply find_pid_none; [exact I|done|done]).
    split.
    + split.
      * eexists. rewrite lookup_insert_eq. split; [done|]. split; [done|]. by right.
      * intros c Hc. by rewrite lookup_insert_ne.
    + destruct Ip as (Hn & Hin & Hu). split; [|split].
      * apply NoDup_app. split; [done|]. split; [|apply NoDup_singleton].
        intros c Hc ->%list_elem_of_singleton. apply Hin in Hc. rewrite Ha in Hc. by destruct Hc.
      * intros c. rewrite elem_of_app, list_elem_of_singleton. destruct (decide (c = a)) as [->|Hc].
        -- rewrite lookup_insert_eq. naive_solver.
        -- rewrite lookup_insert_ne, <- Hin by done. naive_solver.
      * intros c c' p q. rewrite !lookup_insert. repeat case_decide; intros; simplify_eq; simpl in *.
        -- done.
        -- exfalso. by eapply Hno.
        -- exfalso. by eapply Hno.
        -- by eapply Hu.
Qed.

Section Enable.
Context (d : demux) (a l b : loc) (f : filt) (pids' : gmap loc pid_filter) (ls' : list loc).
Hypothesis I : dmx_inv d.
Hypothesis El : filters d !! l = Some f.
Hypothesis Es : f_state f = SWDMX_FILTER_STATE_SET.
Hypothesis G : got a b (f_pid f) (pid_filters d) pids'.
Hypothesis P : pids_ok pids' ls'.

Definition add_member (pids : gmap loc pid_filter) : gmap loc pid_filter :=
  alter (upd_members (f_kind f) (fun ls => ls ++ [l])) b pids.
Definition running : filt := upd_run SWDMX_FILTER_STATE_RUN (Some b) f.
Definition enabled : demux :=
  attach (f_kind f) l b (set_filters (<[l := running]> (filters d)) (set_pids pids' ls' d)).

Lemma set_no_pf : f_pid_filter f = None.
Proof.
  destruct (inv_filt _ I _ _ El) as (H & _). destruct (f_pid_filter f); [|done].
  exfalso. assert (f_state f = SWDMX_FILTER_STATE_RUN) by (by apply H). congruence.
Qed.

Lemma not_member c q k : pid_filters d !! c = Some q -> l ∉ members k q.
Proof.
  intros Ec Hin. destruct (inv_pf _ I _ _ Ec) as (Hm & _). apply Hm in Hin as (g & Eg & _ & Hg).
  pose proof set_no_pf. congruence.
Qed.

Lemma add_lookup c q :
  add_member pids' !! c = Some q ->
  exists p, pids' !! c = Some p /\ pf_pid q = pf_pid p
    /\ q = if decide (c = b) then upd_members (f_kind f) (fun ls => ls ++ [l]) p else p.
Proof.
  unfold add_member. intros Ec. destruct (decide (c = b)) as [->|Hc].
  - rewrite lookup_alter_eq in Ec. destruct (pids' !! b) as [p|]; [|done]. simplify_eq/=.
    exists p. by rewrite upd_members_pid.
  - rewrite lookup_alter_ne in Ec by done. eauto.
Qed.

Lemma add_is_some c : is_Some (add_member pids' !! c) <-> is_Some (pids' !! c).
Proof.
  unfold add_member. destruct (decide (c = b)) as [->|Hc].
  - rewrite lookup_alter_eq. by rewrite fmap_is_Some.
  - by rewrite lookup_alter_ne.
Qed.

Lemma enabled_pids : pids_ok (add_member pids') ls'.
Proof.
  destruct P as (Hn & Hin & Hu). split; [done|]. split.
  - intros c. by rewrite add_is_some.
  - intros c c' p q Ep Eq E. apply add_lookup in Ep as (p0 & Ep & E0 & _).
    apply add_lookup in Eq as (q0 & Eq & E1 & _). eapply Hu; eauto. congruence.
Qed.

(** The members of a PID filter before the filter joined. *)
Lemma got_members c p k l' :
  pids' !! c = Some p ->
  (l' ∈ members k p <-> exists g, filters d !! l' = Some g /\ f_kind g = k /\ f_pid_filter g = Some c)
  /\ NoDup (members k p) /\ buf_ok p /\ (c <> b -> pid_filters d !! c = Some p) /\ l ∉ members k p.
Proof.
  intros Ep. assert (Hold : pid_filters d !! c = Some p ->
    (l' ∈ members k p <-> exists g, filters d !! l' = Some g /\ f_kind g = k /\ f_pid_filter g = Some c)
    /\ NoDup (members k p) /\ buf_ok p /\ (c <> b -> pid_filters d !! c = Some p) /\ l ∉ members k p).
  { intros E. destruct (inv_pf _ I _ _ E) as (Hm & _ & Hb). destruct (Hm k) as [Hn Hin].
    split; [done|]. split; [done|]. split; [done|]. split; [done|]. by eapply not_member. }
  destruct (decide (c = b)) as [->|Hc].
  - destruct G as [(pf & Eb & Hp & [E|(-> & -> & Ha & _)]) _].
    + apply Hold. congruence.
    + assert (p = mk_pf (f_pid f) [] [] None 0) as -> by congruence.
      assert (members k (mk_pf (f_pid f) [] [] None 0) = []) as -> by (by destruct k).
      split; [|split; [by apply NoDup_nil|split; [done|split; [done|by apply not_elem_of_nil]]]].
      split; [by intros ?%elem_of_nil|]. intros (g & Eg & _ & Hg). exfalso.
      destruct (inv_filt _ I _ _ Eg) as (_ & H & _). destruct (H _ Hg) as (q & Eq & _). congruence.
  - apply Hold. rewrite <- (got_other _ _ _ _ _ G c Hc). done.
Qed.

Lemma enabled_pf c q :
  add_member pids' !! c = Some q -> pf_ok (<[l := running]> (filters d)) c q.
Proof.
  intros Eq. apply add_lookup in Eq as (p & Ep & _ & Hq). split; [|split].
  - intros k. split.
    + destruct (got_members c p k l Ep) as (_ & Hn & _ & _ & Hl). rewrite Hq. case_decide; [|done].
      rewrite members_upd. case_decide; [|done]. subst k. apply NoDup_app. split; [done|].
      split; [|apply NoDup_singleton]. intros x Hx ->%list_elem_of_singleton. done.
    + intros l'. destruct (got_members c p k l' Ep) as (Hin & _ & _ & _ & Hl).
      destruct (decide (l' = l)) as [->|Hl'].
      * rewrite lookup_insert_eq. rewrite Hq. case_decide as Hc.
        -- subst c. rewrite members_upd. case_decide as Hk.
           ++ subst k. split; [|intros _; apply elem_of_app; right; by apply list_elem_of_singleton].
              intros _. by exists running.
           ++ split; [done|]. intros (g & [= <-] & Hk' & _). exfalso. by apply Hk.
        -- split; [done|]. intros (g & [= <-] & _ & Hg). simpl in Hg. congruence.
      * rewrite lookup_insert_ne, <- Hin by done. rewrite Hq. case_decide; [|done].
        rewrite members_upd. case_decide; [|done]. subst k. rewrite elem_of_app, list_elem_of_singleton. naive_solver.
  - rewrite Hq. case_decide as Hc.
    + intros [H1 H2]. destruct (f_kind f), p; simpl in *; [by destruct pf_ts_list0|by destruct pf_sec_list0].
    + destruct (got_members c p KTs l Ep) as (_ & _ & _ & Ho & _). by apply (inv_pf _ I _ _ (Ho Hc)).
  - destruct (got_members c p KTs l Ep) as (_ & _ & Hb & _). rewrite Hq.
    case_decide; [by apply upd_members_buf|done].
Qed.

Lemma enabled_filt l' g : <[l := running]> (filters d) !! l' = Some g -> filt_ok (add_member pids') g.
Proof.
  assert (Hadd : forall c p, pids' !! c = Some p -> exists q, add_member pids' !! c = Some q /\ pf_pid q = pf_pid p).
  { intros c p Ep. destruct (proj2 (add_is_some c)) as [q Eq]; [eauto|]. exists q. split; [done|].
    apply add_lookup in Eq as (p' & Ep' & E & _). congruence. }
  rewrite lookup_insert. case_decide as Hl; intros Eg.
  - simplify_eq. destruct (inv_filt _ I _ _ El) as (_ & _ & H3 & H4). split; [done|]. split; [|].
    + intros c [= <-]. destruct (got_at _ _ _ _ _ G) as (pf & Eb & Hp & _).
      destruct (Hadd _ _ Eb) as (q & Eq & E). exists q. split; [done|]. change (f_pid running) with (f_pid f). congruence.
    + split; [intros _; apply H3; by rewrite Es|]. split; [apply H4|]. intros Hk _. apply H4; [done|by rewrite Es].
  - apply (filt_ok_frame (pid_filters d)); [by eapply inv_filt|]. intros c Hc.
    destruct (inv_filt _ I _ _ Eg) as (_ & H2 & _). destruct (H2 _ Hc) as (p & Ep & _).
    assert (Ep' : pids' !! c = Some p).
    { destruct (decide (c = b)) as [->|Hn]; [|by rewrite (got_other _ _ _ _ _ G)].
      destruct (got_at _ _ _ _ _ G) as (pf & Eb & _ & [E|(-> & _ & Ha & _)]); congruence. }
    destruct (Hadd _ _ Ep') as (q & Eq & E). eauto.
Qed.

Lemma enabled_inv : dmx_inv enabled.
Proof.
  split.
  - apply enabled_pids.
  - intros c q Eq. by apply enabled_pf.
  - intros l' g Eg. by eapply enabled_filt.
  - intros k. assert (filter_list k enabled = filter_list k d) as -> by (by destruct k).
    by apply (lists_insert d _ l f running).
Qed.

Lemma enabled_subs k p :
  subs k p enabled = if decide (k = f_kind f /\ p = f_pid f) then subs k p d ++ [l] else subs k p d.
Proof.
  pose proof enabled_inv as I'. destruct (got_at _ _ _ _ _ G) as (pf & Eb & Hp & Hnew).
  assert (Eb' : pid_filters enabled !! b = Some (upd_members (f_kind f) (fun ls => ls ++ [l]) pf)).
  { simpl. rewrite lookup_alter_eq, Eb. done. }
  destruct (decide (p = f_pid f)) as [->|Hne].
  - pose proof (subs_lookup k enabled b _ I' Eb') as Hs. rewrite upd_members_pid, Hp, members_upd in Hs.
    rewrite Hs. assert (Hd : subs k (f_pid f) d = members k pf).
    { destruct Hnew as [E|(_ & -> & _ & Hno)].
      - rewrite <- Hp. by apply (subs_lookup k d b pf).
      - rewrite subs_none by done. by destruct k. }
    rewrite Hd. destruct (decide (k = f_kind f)) as [->|Hk]; [by rewrite decide_True|].
    by rewrite decide_False by tauto.
  - rewrite decide_False by tauto. destruct (find_pid p d) as [c|] eqn:E.
    + apply (find_pid_some _ _ _ I) in E as (q & Ec & <-). rewrite (subs_lookup k d c q) by done.
      assert (Hc : c <> b).
      { intros Hc. rewrite Hc in Ec. destruct Hnew as [E|(Hba & _ & Ha & _)]; [congruence|].
        rewrite Hba in Ec. congruence. }
      apply (subs_lookup k enabled c q); [done|]. simpl. rewrite lookup_alter_ne by done.
      by rewrite (got_other _ _ _ _ _ G).
    + assert (subs k p d = []) as -> by (unfold subs; by rewrite E).
      apply subs_none. intros c q Eq. simpl in Eq. apply add_lookup in Eq as (p' & Ep & -> & _).
      destruct (decide (c = b)) as [->|Hc]; [congruence|]. rewrite (got_other _ _ _ _ _ G c Hc) in Ep.
      eapply find_pid_none; [exact I|done|done].
Qed.
End Enable.

Lemma enable_ok a l f d :
  dmx_inv d -> pid_filters d !! a = None -> filters d !! l = Some f -> f_state f = SWDMX_FILTER_STATE_SET ->
  exists b d', swdmx_filter_enable a l d = Some (true, d') /\ dmx_inv d'
    /\ filters d' = <[l := upd_run SWDMX_FILTER_STATE_RUN (Some b) f]> (filters d) /\ dmx_same_lists d d'
    /\ forall k p, subs k p d' = if decide (k = f_kind f /\ p = f_pid f) then subs k p d ++ [l] else subs k p d.
Proof.
  intros I Ha El Es. unfold swdmx_filter_enable. rewrite El. simpl. rewrite Es.
  destruct (get_eq a (f_pid f) d I Ha) as (b & pids' & ls' & -> & G & P).
  exists b. eexists. split; [done|]. split; [by apply (enabled_inv d a l b f pids' ls')|]. split; [done|].
  split; [by intros []|]. intros k p. by apply (enabled_subs d a l b f pids' ls').
Qed.

(** * Parameters, callbacks, allocation, release *)

Definition put_filter (l : loc) (f : filt) (d : demux) : demux := set_filters (<[l := f]> (filters d)) d.

Lemma put_inv l f f' d :
  dmx_inv d -> filters d !! l = Some f -> f_kind f' = f_kind f -> f_pid_filter f' = f_pid_filter f ->
  filt_ok (pid_filters d) f' -> dmx_inv (put_filter l f' d).
Proof.
  intros I El Hk Hp Hok. split.
  - apply I.
  - intros c q Eq. destruct (inv_pf _ I _ _ Eq) as (Hm & Hr). split; [|done]. intros k.
    destruct (Hm k) as [Hn Hin]. split; [done|]. intros l'. rewrite Hin. simpl.
    destruct (decide (l' = l)) as [->|Hl]; [|by rewrite lookup_insert_ne].
    rewrite lookup_insert_eq, El. split.
    + intros (g & [= <-] & Hg). exists f'. by rewrite Hk, Hp.
    + intros (g & [= <-] & Hg). exists f. by rewrite <- Hk, <- Hp.
  - intros l' g. simpl. rewrite lookup_insert. case_decide; intros; simplify_eq; [done|by eapply inv_filt].
  - intros k. assert (filter_list k (put_filter l f' d) = filter_list k d) as -> by (by destruct k).
    by apply (lists_insert d _ l f f').
Qed.

Lemma upd_cbs_ok pids g f : filt_ok pids f -> filt_ok pids (upd_cbs g f).
Proof. done. Qed.

Lemma set_arrays_ok p a : arrays_ok a -> arrays_ok (set_arrays p a).
Proof. intros (H1 & H2 & H3). rewrite set_arrays_eq by done. done. Qed.

Lemma with_params_ok pids p f :
  filt_ok pids f -> sp_pid p < 8191 -> (f_pid_filter f <> None -> f_pid f = sp_pid p) ->
  filt_ok pids (with_params p f).
Proof.
  intros (H1 & H2 & H3 & H4 & H5) Hp Heq.
  assert (Ha : arrays_ok (f_arrays (upd_params p f))).
  { simpl. destruct (f_kind f); [done|by apply set_arrays_ok]. }
  assert (Hs : f_kind f = KSec -> exists a, arrays_ok a /\ f_arrays (upd_params p f) = set_arrays p a).
  { intros Hk. exists (f_arrays f). simpl. by rewrite Hk. }
  assert (Hpf : forall b, f_pid_filter f = Some b -> exists pf, pids !! b = Some pf /\ pf_pid pf = sp_pid p).
  { intros b Hb. rewrite <- Heq by congruence. by apply H2. }
  unfold with_params. cbv zeta. case_decide as Hi; simpl in Hi.
  - split; [simpl; split; [done|]|split; [done|split; [done|split; [done|by auto]]]].
    intros Hn. apply H1 in Hn. congruence.
  - split; [done|]. split; [done|]. split; [done|]. split; [done|]. by auto.
Qed.

Lemma get_set_filters a pid m d :
  pid_filter_get a pid (set_filters m d)
  = ((pid_filter_get a pid d).1, set_filters m (pid_filter_get a pid d).2).
Proof. unfold pid_filter_get. change (find_pid pid (set_filters m d)) with (find_pid pid d). by destruct (find_pid pid d). Qed.

Lemma get_filters a pid d : filters (pid_filter_get a pid d).2 = filters d.
Proof. unfold pid_filter_get. by destruct (find_pid pid d). Qed.

Lemma valid_pid_true p :
  sp_pid p < 8191 -> negb (swdmx_is_valid_pid (sp_pid p)) || (sp_pid p =? 8191) = false.
Proof. unfold swdmx_is_valid_pid. bdestruct; simpl; (done || lia). Qed.

Lemma valid_pid_false p :
  8191 <= sp_pid p -> negb (swdmx_is_valid_pid (sp_pid p)) || (sp_pid p =? 8191) = true.
Proof. unfold swdmx_is_valid_pid. bdestruct; simpl; (done || lia). Qed.

Lemma with_params_pf p f : f_pid_filter (with_params p f) = f_pid_filter f.
Proof. unfold with_params. cbv zeta. by case_decide. Qed.
Lemma with_params_kind p f : f_kind (with_params p f) = f_kind f.
Proof. unfold with_params. cbv zeta. by case_decide. Qed.
Lemma with_params_pid p f : f_pid (with_params p f) = sp_pid p.
Proof. unfold with_params. cbv zeta. by case_decide. Qed.
Lemma with_params_state p f :
  f_state (with_params p f)
  = if decide (f_state f = SWDMX_FILTER_STATE_INIT) then SWDMX_FILTER_STATE_SET else f_state f.
Proof. unfold with_params. cbv zeta. simpl f_state. by case_decide. Qed.

(** The filter stays where it is. *)
Lemma set_params_stay a l p f d :
  filters d !! l = Some f -> sp_pid p < 8191 ->
  (f_state f = SWDMX_FILTER_STATE_RUN -> f_pid_filter f <> None /\ f_pid f = sp_pid p) ->
  swdmx_filter_set_params a l p d = Some (true, put_filter l (with_params p f) d).
Proof.
  intros El Hv Hr. unfold swdmx_filter_set_params. rewrite El. simpl. rewrite valid_pid_true by done.
  assert (E : upd_run (f_state f) (f_pid_filter f) f = f) by (by destruct f).
  destruct (decide (f_state f = SWDMX_FILTER_STATE_RUN)) as [Hs|Hs].
  - destruct (Hr Hs) as [Hp Hq]. rewrite decide_True by done. rewrite (proj2 (Z.eqb_eq _ _) Hq).
    cbn [mbind option_bind]. rewrite E, decide_False; [done|]. rewrite with_params_pf. by intros [_ ?].
  - cbn [mbind option_bind]. rewrite E, decide_False; [done|]. rewrite with_params_state. intros [Hx _].
    by case_decide.
Qed.

(** The filter moves: it is disabled, gets its parameters, and is enabled. *)
Lemma set_params_move a l p f d d1 :
  filters d !! l = Some f -> sp_pid p < 8191 -> f_state f = SWDMX_FILTER_STATE_RUN ->
  f_pid_filter f <> None -> f_pid f <> sp_pid p -> swdmx_filter_disable l d = Some d1 ->
  swdmx_filter_set_params a l p d
  = swdmx_filter_enable a l (put_filter l (with_params p (stopped f)) d1).
Proof.
  intros El Hv Hs Hp Hq Hd. unfold swdmx_filter_disable in Hd. rewrite El in Hd. simpl in Hd.
  rewrite Hs in Hd. unfold swdmx_filter_set_params. rewrite El. simpl. rewrite valid_pid_true by done.
  rewrite !decide_True by done. rewrite (proj2 (Z.eqb_neq _ _) Hq).
  destruct (release l f d) as [dr|]; [|done]. injection Hd as <-. cbn [mbind option_bind].
  rewrite decide_True by (by rewrite with_params_state, with_params_pf; simpl; rewrite Hs).
  unfold swdmx_filter_enable, put_filter. cbn [filters set_filters]. rewrite lookup_insert_eq.
  cbn [mbind option_bind]. unfold stopped. rewrite decide_True by done.
  rewrite !with_params_state, with_params_pid, with_params_kind. cbn [f_state upd_run]. rewrite Hs.
  rewrite !get_set_filters. pose proof (get_filters a (sp_pid p) dr) as Ef.
  destruct (pid_filter_get a (sp_pid p) dr) as [b d2]. simpl in Ef |- *. rewrite Ef.
  rewrite !insert_insert_eq. unfold with_params. done.
Qed.

Lemma del_inv l f d :
  dmx_inv d -> filters d !! l = Some f -> f_pid_filter f = None ->
  dmx_inv (set_filters (delete l (filters d)) (upd_filter_list (f_kind f) (without l) d)).
Proof.
  intros I El Hp. assert (Epids : forall m, pid_filters (set_filters m (upd_filter_list (f_kind f) (without l) d))
    = pid_filters d) by (intros; by destruct (f_kind f)).
  split.
  - rewrite Epids. replace (pid_filter_list _) with (pid_filter_list d) by (by destruct (f_kind f)). apply I.
  - rewrite Epids. intros c q Eq. destruct (inv_pf _ I _ _ Eq) as (Hm & Hr). split; [|done].
    intros k. destruct (Hm k) as [Hn Hin]. split; [done|]. intros l'. rewrite Hin. simpl.
    destruct (decide (l' = l)) as [->|Hl]; [|by rewrite lookup_delete_ne].
    rewrite lookup_delete_eq. split; [|by intros (? & ? & _)]. intros (g & Eg & _ & Hg). congruence.
  - rewrite Epids. intros l' g. simpl. rewrite lookup_delete. case_decide; [done|]. by apply inv_filt.
  - intros k. destruct (inv_lists _ I k) as [Hn Hin].
    assert (E : filter_list k (set_filters (delete l (filters d)) (upd_filter_list (f_kind f) (without l) d))
      = if decide (k = f_kind f) then without l (filter_list k d) else filter_list k d)
      by (by destruct k, (f_kind f)).
    rewrite E. split; [case_decide; [by apply NoDup_without|done]|].
    intros l'. simpl. destruct (decide (l' = l)) as [->|Hl].
    + rewrite lookup_delete_eq. split; [|by intros (? & ? & _)]. case_decide as Hk; intros Hx.
      * apply elem_of_without in Hx. naive_solver.
      * apply Hin in Hx as (g & Eg & Hg). congruence.
    + rewrite lookup_delete_ne, <- Hin by done. case_decide; [|done]. rewrite elem_of_without. naive_solver.
Qed.

Lemma stopped_pf pids f : filt_ok pids f -> f_pid_filter (stopped f) = None.
Proof.
  intros (H & _). unfold stopped. case_decide as Hs; [done|].
  destruct (f_pid_filter f); [|done]. exfalso. by apply Hs, H.
Qed.
Lemma stopped_kind f : f_kind (stopped f) = f_kind f.
Proof. unfold stopped. by case_decide. Qed.

Lemma upd_filter_list_subs k' g m k p d : subs k p (set_filters m (upd_filter_list k' g d)) = subs k p d.
Proof. by destruct k'. Qed.

Lemma free_ok l f d :
  dmx_inv d -> filters d !! l = Some f ->
  exists d', swdmx_filter_free l d = Some d' /\ dmx_inv d' /\ filters d' = delete l (filters d)
    /\ (forall k, filter_list k d' = if decide (k = f_kind f) then without l (filter_list k d) else filter_list k d)
    /\ forall k p, subs k p d' = if decide (k = f_kind f /\ p = f_pid f) then without l (subs k p d) else subs k p d.
Proof.
  intros I El. destruct (disable_ok l f d I El) as (d1 & E1 & I1 & Ef & Hl & Hs).
  unfold swdmx_filter_free. rewrite El. simpl. rewrite E1. simpl. eexists. split; [done|].
  assert (El1 : filters d1 !! l = Some (stopped f)) by (by rewrite Ef, lookup_insert_eq).
  split; [|split; [|split]].
  - rewrite <- stopped_kind. apply del_inv; [done..|]. apply (stopped_pf (pid_filters d)). by apply (inv_filt _ I l).
  - simpl. by rewrite Ef, delete_insert_eq.
  - intros k. rewrite <- (Hl k). by destruct k, (f_kind f).
  - intros k p. by rewrite upd_filter_list_subs.
Qed.

Lemma alloc_filters k l jp ja d :
  filters (swdmx_demux_alloc_filter k l jp ja d)
  = <[l := mk_filt k SWDMX_FILTER_STATE_INIT None jp ja []]> (filters d).
Proof. by destruct k. Qed.
Lemma alloc_pids k l jp ja d : pid_filters (swdmx_demux_alloc_filter k l jp ja d) = pid_filters d.
Proof. by destruct k. Qed.

Lemma alloc_inv k l jp ja d :
  dmx_inv d -> filters d !! l = None -> arrays_ok ja -> dmx_inv (swdmx_demux_alloc_filter k l jp ja d).
Proof.
  intros I El Ha.
  set (f := mk_filt k SWDMX_FILTER_STATE_INIT None jp ja []).
  split.
  - assert (pids_ok (pid_filters d) (pid_filter_list d)) by apply I. by destruct k.
  - intros c q Eq. rewrite alloc_pids in Eq. rename Eq into Eq'.
    destruct (inv_pf _ I _ _ Eq') as (Hm & Hr). split; [|done]. intros k'. destruct (Hm k') as [Hn Hin].
    split; [done|]. intros l'. rewrite Hin.
    rewrite alloc_filters.
    destruct (decide (l' = l)) as [->|Hl]; [|by rewrite lookup_insert_ne].
    rewrite lookup_insert_eq, El. split; [by intros (? & ? & _)|]. intros (g & [= <-] & _ & Hg). done.
  - intros l' g. rewrite alloc_filters, alloc_pids, lookup_insert. case_decide; [intros [= <-]|by apply inv_filt].
    split; [done|]. split; [done|]. split; [done|]. split; done.
  - intros k'. destruct (inv_lists _ I k') as [Hn Hin].
    rewrite alloc_filters.
    assert (E : filter_list k' (swdmx_demux_alloc_filter k l jp ja d)
      = if decide (k' = k) then filter_list k' d ++ [l] else filter_list k' d) by (by destruct k, k').
    rewrite E. assert (Hnl : l ∉ filter_list k' d) by (intros Hx; apply Hin in Hx; naive_solver).
    split.
    + case_decide; [|done]. apply NoDup_app. split; [done|]. split; [|apply NoDup_singleton].
      intros x Hx ->%list_elem_of_singleton. done.
    + intros l'. destruct (decide (l' = l)) as [->|Hl].
      * rewrite lookup_insert_eq. case_decide as Hk.
        -- split; [intros _; by exists f|]. intros _. apply elem_of_app. right. by apply list_elem_of_singleton.
        -- split; [done|]. intros (g & [= <-] & Hg). exfalso. by apply Hk.
      * rewrite lookup_insert_ne, <- Hin by done. case_decide; [|done].
        rewrite elem_of_app, list_elem_of_singleton. naive_solver.
Qed.

(** There is no PID filter without a running filter. *)
Lemma unused_pf d a :
  dmx_inv d -> (forall l g, filters d !! l = Some g -> f_pid_filter g = Some a -> False) ->
  pid_filters d !! a = None.
Proof.
  intros I H. destruct (pid_filters d !! a) as [q|] eqn:Eq; [|done]. exfalso.
  destruct (inv_pf _ I _ _ Eq) as (Hm & Hne & _).
  assert (exists k x, x ∈ members k q) as (k & x & Hx).
  { destruct (pf_ts_list q) as [|x tl] eqn:Et.
    - destruct (pf_sec_list q) as [|x tl] eqn:Et'; [exfalso; by apply Hne|].
      exists KSec, x. simpl. rewrite Et'. by left.
    - exists KTs, x. simpl. rewrite Et. by left. }
  apply Hm in Hx as (g & Eg & _ & Hg). by eapply H.
Qed.

(** Where [set_params] moves the filter. *)
Definition moves (f : filt) (p : sec_params) : Prop :=
  f_state f = SWDMX_FILTER_STATE_RUN /\ sp_pid p < 8191 /\ f_pid f <> sp_pid p.
#[export] Instance moves_dec f p : Decision (moves f p).
Proof. unfold moves. apply _. Defined.

Lemma put_subs k p l f d : subs k p (put_filter l f d) = subs k p d.
Proof. done. Qed.

Lemma set_params_ok a l p f d :
  dmx_inv d -> pid_filters d !! a = None -> filters d !! l = Some f ->
  exists d', swdmx_filter_set_params a l p d = Some (bool_decide (sp_pid p < 8191), d') /\ dmx_inv d'
    /\ dmx_same_lists d d' /\ dom (filters d') = dom (filters d)
    /\ forall k q, subs k q d' =
         if decide (moves f p /\ k = f_kind f) then
           if decide (q = sp_pid p) then subs k q d ++ [l]
           else if decide (q = f_pid f) then without l (subs k q d) else subs k q d
         else subs k q d.
Proof.
  intros I Ha El. pose proof (inv_filt _ I _ _ El) as Hok. pose proof Hok as (Hrun & _).
  assert (Hdom : l ∈ dom (filters d)) by (by apply elem_of_dom_2 in El).
  destruct (decide (sp_pid p < 8191)) as [Hv|Hv].
  2: { exists d. rewrite bool_decide_eq_false_2 by done. unfold swdmx_filter_set_params. rewrite El. simpl.
       rewrite valid_pid_false by lia. split; [done|]. split; [done|]. split; [done|]. split; [done|].
       intros k q. by rewrite decide_False by (unfold moves; tauto). }
  rewrite bool_decide_eq_true_2 by done.
  destruct (decide (moves f p)) as [Hm|Hm].
  - pose proof Hm as (Hs & _ & Hne).
    destruct (disable_ok l f d I El) as (d1 & E1 & I1 & Ef1 & Hl1 & Hs1).
    rewrite (set_params_move a l p f d d1) by (done || by apply Hrun).
    assert (El1 : filters d1 !! l = Some (stopped f)) by (by rewrite Ef1, lookup_insert_eq).
    assert (Hst : f_pid_filter (stopped f) = None) by (by apply (stopped_pf (pid_filters d))).
    assert (I2 : dmx_inv (put_filter l (with_params p (stopped f)) d1)).
    { apply (put_inv l (stopped f)); [done|done|apply with_params_kind|apply with_params_pf|].
      apply with_params_ok; [by eapply (inv_filt _ I1)|done|]. by rewrite Hst. }
    assert (Ha1 : pid_filters d1 !! a = None).
    { apply unused_pf; [done|]. intros l' g Eg Hg. rewrite Ef1, lookup_insert in Eg.
      case_decide; [congruence|]. destruct (inv_filt _ I _ _ Eg) as (_ & H2 & _).
      destruct (H2 _ Hg) as (r & Er & _). congruence. }
    destruct (enable_ok a l (with_params p (stopped f)) (put_filter l (with_params p (stopped f)) d1))
      as (b & d' & -> & I' & Ef' & Hl' & Hs'); [done|done|apply lookup_insert_eq| |].
    { rewrite with_params_state. unfold stopped.
      by destruct (decide (f_state f = SWDMX_FILTER_STATE_RUN)). }
    exists d'. split; [done|]. split; [done|]. split.
    { intros k. rewrite Hl'. apply Hl1. }
    split.
    { rewrite Ef'. simpl. rewrite Ef1, !dom_insert_L. set_solver. }
    intros k q. rewrite Hs', with_params_kind, with_params_pid, stopped_kind, put_subs, Hs1.
    destruct (decide (k = f_kind f)) as [->|Hk].
    + rewrite (decide_True _ _ (conj Hm eq_refl)). destruct (decide (q = sp_pid p)) as [->|Hq].
      * rewrite decide_True by done. rewrite decide_False by (intros [_ ?]; congruence). done.
      * rewrite decide_False by tauto. destruct (decide (q = f_pid f)) as [->|Hq']; [by rewrite decide_True|].
        by rewrite decide_False by tauto.
    + rewrite !decide_False by tauto. done.
  - exists (put_filter l (with_params p f) d).
    assert (Hst : f_state f = SWDMX_FILTER_STATE_RUN -> f_pid_filter f <> None /\ f_pid f = sp_pid p).
    { intros Hs. split; [by apply Hrun|]. destruct (decide (f_pid f = sp_pid p)); [done|]. exfalso. by apply Hm. }
    rewrite (set_params_stay a l p f d) by done. split; [done|]. split.
    + apply (put_inv l f); [done|done|apply with_params_kind|apply with_params_pf|].
      apply with_params_ok; [done|done|]. intros Hp. by apply Hst, Hrun.
    + split; [by intros []|]. split; [simpl; rewrite dom_insert_L; set_solver|].
      intros k q. by rewrite decide_False by tauto.
Qed.

(** * Packets *)

Definition keeps (r : sec_state) : Prop := exists acc, holds r acc /\ pending acc.

Lemma keeps_reset r : keeps r -> keeps (mk_sec (sec_buf r) 0).
Proof. intros (acc & H & _). exists []. split; [by eapply holds_nil|apply pending_nil]. Qed.

Lemma sec_loop_keeps fs r p : keeps r -> bytes p -> keeps (sec_loop (length p) fs r p).1.
Proof.
  intros (acc & H & Hp) Hb. destruct (spec_bytes acc p) as [acc' s] eqn:E.
  destruct (sec_loop_ok (length p) fs r acc p acc' s) as (b & st & -> & H' & Hp' & _); [done..|].
  by exists acc'.
Qed.

Lemma sec_data_keeps fs r p : keeps r -> bytes p -> p <> [] -> keeps (sec_data fs r p).1.2.
Proof.
  intros (acc & H & Hp) Hb Hne. pose proof (sec_collect_ok r acc p H Hp Hb Hne) as Hc.
  unfold sec_data. destruct (sec_collect r p) as [[n st] c]. destruct Hc as [_ Hc]. destruct c.
  - destruct Hc as (sec & _ & H' & _). exists []. split; [by eapply holds_nil|apply pending_nil].
  - destruct Hc as (_ & acc' & _ & H' & Hp'). by exists acc'.
Qed.

Lemma sec_payload_keeps fs ps p r : keeps r -> bytes p -> keeps (sec_payload fs ps p r).1.
Proof.
  intros K Hb. unfold sec_payload. destruct (truthy ps); [|by apply sec_loop_keeps].
  destruct p as [|ptr p]; [by apply keeps_reset|]. apply Forall_cons in Hb as [Hptr Hb].
  destruct (truthy ptr) eqn:Ep; [|by apply sec_loop_keeps; [apply keeps_reset|]].
  bdestruct; [done|].
  assert (Hrest : forall r', keeps r' ->
    keeps (sec_loop (length (drop (Z.to_nat ptr) p)) fs (mk_sec (sec_buf r') 0) (drop (Z.to_nat ptr) p)).1).
  { intros r' K'. apply sec_loop_keeps; [by apply keeps_reset|by apply Forall_drop]. }
  destruct (truthy (sec_recv r)).
  - destruct (decide (take (Z.to_nat ptr) p = [])) as [E|E].
    + exfalso. apply (f_equal length) in E. rewrite length_take in E. simpl in E.
      unfold truthy in Ep. unfold is_byte in Hptr. lia.
    + pose proof (sec_data_keeps fs r (take (Z.to_nat ptr) p) K ltac:(by apply Forall_take) E) as K'.
      destruct (sec_data fs r _) as [[n st] calls]. specialize (Hrest st K').
      destruct (sec_loop _ _ _ _) as [st' calls']. done.
  - specialize (Hrest r K). by destruct (sec_loop _ _ _ _) as [st' calls'].
Qed.

(** What a packet does to the filters: the TS filters subscribed to its PID, and the
    section filters with the section received so far. *)
Definition running_filters (k : kind) (p : Z) (d : demux) : list filt :=
  omap (fun l => filters d !! l) (subs k p d).

Definition section_state (junk : list Z) (p : Z) (d : demux) : sec_state :=
  match find_pid p d with
  | Some b => match pid_filters d !! b with
              | Some pf => mk_sec (default junk (pf_sec_data pf)) (pf_sec_recv pf)
              | None => mk_sec junk 0
              end
  | None => mk_sec junk 0
  end.

Definition ts_calls (pkt : SWDMX_TsPacket) (d : demux) : list dmx_call :=
  concat ((fun f => (fun '(cb, data) => TsCall cb data pkt) <$> f_cbs f) <$> running_filters KTs (pid pkt) d).

(** A packet without sections for anyone. *)
Definition no_sections (pkt : SWDMX_TsPacket) (d : demux) : Prop :=
  subs KSec (pid pkt) d = [] \/ payload pkt = None \/ truthy (scramble pkt) = true.

Lemma mapM_omap {A B} (g : A -> option B) l :
  Forall (fun x => is_Some (g x)) l -> mapM g l = Some (omap g l).
Proof.
  induction 1 as [|x l [y Hy] _ IH]; simpl; [done|]. rewrite Hy. simpl. by rewrite IH.
Qed.

Lemma members_mapM d b pf k :
  dmx_inv d -> pid_filters d !! b = Some pf ->
  mapM (fun l => filters d !! l) (members k pf) = Some (running_filters k (pf_pid pf) d).
Proof.
  intros I Eb. unfold running_filters. rewrite (subs_lookup k d b pf I Eb). apply mapM_omap.
  rewrite Forall_forall. intros l Hin. destruct (inv_pf _ I _ _ Eb) as (Hm & _).
  apply Hm in Hin as (f & El & _). eauto.
Qed.

(** New contents of the section buffer of one PID filter. *)
Definition with_section (st : sec_state) (pf : pid_filter) : pid_filter :=
  mk_pf (pf_pid pf) (pf_ts_list pf) (pf_sec_list pf) (Some (sec_buf st)) (sec_recv st).

Lemma with_section_inv d b pf st :
  dmx_inv d -> pid_filters d !! b = Some pf -> keeps st ->
  dmx_inv (set_pids (<[b := with_section st pf]> (pid_filters d)) (pid_filter_list d) d).
Proof.
  intros I Eb K. destruct (inv_pids _ I) as (Hn & Hin & Hu).
  assert (Hlk : forall c q, <[b := with_section st pf]> (pid_filters d) !! c = Some q ->
    exists p, pid_filters d !! c = Some p /\ pf_pid p = pf_pid q /\ (forall k, members k p = members k q)
      /\ (buf_ok p -> buf_ok q)).
  { intros c q. rewrite lookup_insert. case_decide as Hc; intros; simplify_eq.
    - exists pf. split; [done|]. split; [done|]. split; [by intros []|]. intros _. by destruct st.
    - exists q. done. }
  split.
  - split; [done|]. split.
    + intros c. rewrite Hin. cbn [pid_filters set_pids]. rewrite lookup_insert. case_decide; [|done]. subst. by rewrite Eb.
    + intros c c' p q Ep Eq E. apply Hlk in Ep as (p0 & Ep & Ep' & _). apply Hlk in Eq as (q0 & Eq & Eq' & _).
      eapply Hu; eauto. congruence.
  - intros c q Eq. apply Hlk in Eq as (p & Ep & _ & Hmem & Hb). destruct (inv_pf _ I _ _ Ep) as (Hm & Hne & Hbo).
    split; [|split; [|by auto]].
    + intros k. rewrite <- (Hmem k). apply Hm.
    + pose proof (Hmem KTs) as H1. pose proof (Hmem KSec) as H2. simpl in H1, H2. by rewrite <- H1, <- H2.
  - intros l g Eg. apply (filt_ok_frame (pid_filters d)); [by eapply (inv_filt _ I)|]. intros c Hc.
    destruct (inv_filt _ I _ _ Eg) as (_ & H2 & _). destruct (H2 _ Hc) as (p & Ep & _).
    exists p. cbn [pid_filters set_pids]. rewrite lookup_insert. case_decide as Hbc; [|eauto]. subst.
    exists (with_section st pf). split; [done|]. split; [done|]. simplify_eq. done.
  - apply I.
Qed.

Lemma section_state_keeps junk p d :
  dmx_inv d -> length junk = 4099%nat -> keeps (section_state junk p d).
Proof.
  intros I Hj. assert (Hnil : forall buf, length buf = 4099%nat -> keeps (mk_sec buf 0)).
  { intros buf Hb. exists []. split; [by split|apply pending_nil]. }
  unfold section_state. destruct (find_pid p d) as [b|]; [|by apply Hnil].
  destruct (pid_filters d !! b) as [pf|] eqn:Eb; [|by apply Hnil].
  destruct (inv_pf _ I _ _ Eb) as (_ & _ & Hbuf). unfold buf_ok in Hbuf.
  destruct (pf_sec_data pf); [done|]. rewrite Hbuf. by apply Hnil.
Qed.

Lemma packet_some junk pkt d b pf :
  dmx_inv d -> find_pid (pid pkt) d = Some b -> pid_filters d !! b = Some pf -> pf_pid pf = pid pkt ->
  let r := sec_payload (sec_of <$> running_filters KSec (pid pkt) d) (payload_start pkt) (payload_bytes pkt)
             (section_state junk (pid pkt) d) in
  (no_sections pkt d -> swdmx_demux_ts_packet_cb junk pkt d = Some (d, ts_calls pkt d))
  /\ (~ no_sections pkt d -> swdmx_demux_ts_packet_cb junk pkt d =
       Some (set_pids (<[b := with_section r.1 pf]> (pid_filters d)) (pid_filter_list d) d,
             ts_calls pkt d ++ (SecCall <$> r.2))).
Proof.
  intros I Ef Eb Hp r.
  pose proof (members_mapM d b pf KTs I Eb) as Hts. pose proof (members_mapM d b pf KSec I Eb) as Hsec.
  pose proof (subs_lookup KSec d b pf I Eb) as Hsub. rewrite Hp in Hts, Hsec, Hsub. simpl in Hts, Hsec, Hsub.
  assert (Est : section_state junk (pid pkt) d = mk_sec (default junk (pf_sec_data pf)) (pf_sec_recv pf))
    by (unfold section_state; by rewrite Ef, Eb).
  unfold swdmx_demux_ts_packet_cb, pid_filter_data. rewrite Ef, Eb. cbn [mbind option_bind].
  rewrite Hts. cbn [mbind option_bind]. rewrite Hsec. cbn [mbind option_bind].
  unfold no_sections. rewrite Hsub. split.
  - intros Hno. case_decide as Hd; [done|].
    rewrite (proj2 (orb_true_iff _ _)); [done|]. rewrite bool_decide_eq_true. tauto.
  - intros Hno. rewrite decide_False by tauto.
    rewrite (proj2 (orb_false_iff _ _)) by (rewrite bool_decide_eq_false, <- not_true_iff_false; tauto).
    unfold r. rewrite Est. generalize (mk_sec (default junk (pf_sec_data pf)) (pf_sec_recv pf)). intros st0.
    by destruct (sec_payload (sec_of <$> running_filters KSec (pid pkt) d) (payload_start pkt) (payload_bytes pkt) st0).
Qed.

Lemma find_pid_same pids' d p :
  (forall b, pf_pid <$> pids' !! b = pf_pid <$> pid_filters d !! b) ->
  find_pid p (set_pids pids' (pid_filter_list d) d) = find_pid p d.
Proof.
  intros H. unfold find_pid. simpl. f_equal. induction (pid_filter_list d) as [|b l IH]; [done|]. simpl.
  rewrite IH. rewrite (H b). done.
Qed.

Lemma with_section_find d b pf st p :
  pid_filters d !! b = Some pf ->
  find_pid p (set_pids (<[b := with_section st pf]> (pid_filters d)) (pid_filter_list d) d) = find_pid p d.
Proof.
  intros Eb. apply find_pid_same. intros c. rewrite lookup_insert. case_decide; [|done]. subst. by rewrite Eb.
Qed.

(** C28: dispatch: a packet reaches exactly the callbacks of the TS filters subscribed
    to its PID, in the order the filters were enabled; if it has a clear payload and
    there are section filters on the PID, they get the sections it completes; filters,
    subscriptions and the sections pending on other PIDs do not change. *)
Theorem demux_dispatch junk pkt d :
  dmx_inv d -> length junk = 4099%nat -> bytes (payload_bytes pkt) ->
  exists d' scalls,
    swdmx_demux_ts_packet_cb junk pkt d = Some (d', ts_calls pkt d ++ (SecCall <$> scalls))
    /\ dmx_inv d' /\ filters d' = filters d /\ (forall k p, subs k p d' = subs k p d)
    /\ (forall p, p <> pid pkt -> section_state junk p d' = section_state junk p d)
    /\ (no_sections pkt d -> d' = d /\ scalls = [])
    /\ (~ no_sections pkt d ->
        (section_state junk (pid pkt) d', scalls)
        = sec_payload (sec_of <$> running_filters KSec (pid pkt) d) (payload_start pkt) (payload_bytes pkt)
            (section_state junk (pid pkt) d)).
Proof.
  intros I Hj Hb. destruct (find_pid (pid pkt) d) as [b|] eqn:Ef.
  2: { assert (Hn : forall k, subs k (pid pkt) d = []) by (intros; unfold subs; by rewrite Ef).
       exists d, []. unfold swdmx_demux_ts_packet_cb, ts_calls, running_filters. rewrite Ef, Hn.
       split; [done|]. split; [done|]. split; [done|]. split; [done|]. split; [done|]. split; [done|].
       intros Hno. exfalso. apply Hno. left. apply Hn. }
  pose proof (proj1 (find_pid_some _ _ _ I) Ef) as (pf & Eb & Hp).
  destruct (packet_some junk pkt d b pf I Ef Eb Hp) as [H1 H2].
  destruct (decide (subs KSec (pid pkt) d = [] \/ payload pkt = None \/ truthy (scramble pkt) = true)) as [Hno|Hno].
  { exists d, []. rewrite H1 by done. rewrite app_nil_r. split_and!; (done || by intros). }
  rewrite H2 by done. revert H1 H2.
  pose proof (sec_payload_keeps (sec_of <$> running_filters KSec (pid pkt) d) (payload_start pkt)
    (payload_bytes pkt) _ (section_state_keeps junk (pid pkt) d I Hj) Hb) as K.
  revert K. generalize (sec_payload (sec_of <$> running_filters KSec (pid pkt) d) (payload_start pkt)
    (payload_bytes pkt) (section_state junk (pid pkt) d)) as r. intros r K _ _.
  eexists _, r.2. split; [done|]. split; [by apply with_section_inv|]. split; [done|].
  assert (Hsec : forall p, section_state junk p
     (set_pids (<[b:=with_section r.1 pf]> (pid_filters d)) (pid_filter_list d) d)
     = if decide (p = pid pkt) then r.1 else section_state junk p d).
  { intros p. unfold section_state. rewrite (with_section_find d b pf) by done. cbn [pid_filters set_pids].
    destruct (decide (p = pid pkt)) as [->|Hne].
    - rewrite Ef, lookup_insert_eq. by destruct (r.1).
    - destruct (find_pid p d) as [c|] eqn:Ec; [|done].
      apply (find_pid_some _ _ _ I) in Ec as (q & Ec & Hq). rewrite lookup_insert_ne; [done|]. congruence. }
  split; [|split; [|split]].
  - intros k p. unfold subs. rewrite (with_section_find d b pf) by done. cbn [pid_filters set_pids].
    destruct (find_pid p d) as [c|]; [|done]. rewrite lookup_insert. case_decide; [|done].
    subst. rewrite Eb. by destruct k.
  - intros p Hne. rewrite Hsec. by rewrite decide_False.
  - done.
  - intros _. rewrite Hsec, decide_True by done. by destruct r.
Qed.

(** Subscriptions: the filters that get the packets of a PID are exactly the running
    filters whose parameters name it; enabling puts a filter last, disabling and freeing
    take it out, new parameters move a running filter to the end of its new PID, and
    nothing else changes who is subscribed where. *)
Theorem demux_subscriptions a l f d :
  dmx_inv d -> filters d !! l = Some f -> pid_filters d !! a = None ->
  (forall k p x, x ∈ subs k p d <-> exists g, filters d !! x = Some g /\ f_kind g = k
     /\ f_state g = SWDMX_FILTER_STATE_RUN /\ f_pid g = p)
  /\ (exists r d', swdmx_filter_enable a l d = Some (r, d')
       /\ (r = true <-> f_state f <> SWDMX_FILTER_STATE_INIT)
       /\ forall k p, subs k p d' =
          if decide (f_state f = SWDMX_FILTER_STATE_SET /\ k = f_kind f /\ p = f_pid f)
          then subs k p d ++ [l] else subs k p d)
  /\ (exists d', swdmx_filter_disable l d = Some d'
       /\ forall k p, subs k p d' =
          if decide (k = f_kind f /\ p = f_pid f) then without l (subs k p d) else subs k p d)
  /\ (exists d', swdmx_filter_free l d = Some d'
       /\ forall k p, subs k p d' =
          if decide (k = f_kind f /\ p = f_pid f) then without l (subs k p d) else subs k p d)
  /\ forall prm, exists d', swdmx_filter_set_params a l prm d = Some (bool_decide (sp_pid prm < 8191), d')
       /\ forall k q, subs k q d' =
          if decide (moves f prm /\ k = f_kind f) then
            if decide (q = sp_pid prm) then subs k q d ++ [l]
            else if decide (q = f_pid f) then without l (subs k q d) else subs k q d
          else subs k q d.
Proof.
  intros I El Ha. split; [intros k p x; by apply subs_spec|]. split; [|split; [|split]].
  - destruct (f_state f) eqn:Es.
    + exists false, d. unfold swdmx_filter_enable. rewrite El. cbn [mbind option_bind]. rewrite Es. split; [done|].
      split; [naive_solver|]. intros k p. destruct (decide _) as [[Hc _]|_]; done.
    + destruct (enable_ok a l f d I Ha El Es) as (b & d' & -> & _ & _ & _ & Hs). exists true, d'.
      split; [done|]. split; [naive_solver|]. intros k p. rewrite Hs.
      repeat case_decide; (done || tauto).
    + exists true, d. unfold swdmx_filter_enable. rewrite El. cbn [mbind option_bind]. rewrite Es. split; [done|].
      split; [naive_solver|]. intros k p. destruct (decide _) as [[Hc _]|_]; done.
  - destruct (disable_ok l f d I El) as (d' & ? & _ & _ & _ & Hs). eauto.
  - destruct (free_ok l f d I El) as (d' & ? & _ & _ & _ & Hs). eauto.
  - intros prm. destruct (set_params_ok a l prm f d I Ha El) as (d' & ? & _ & _ & _ & Hs). eauto.
Qed.

(** * The demux as a transition system *)

(** Everything a client can do; the addresses are those [kmalloc] gives. *)
Inductive dmx_op :=
| OpAlloc (k : kind) (l : loc) (junk_p : sec_params) (junk_a : sec_arrays)
| OpSetParams (a l : loc) (p : sec_params)
| OpEnable (a l : loc)
| OpDisable (l : loc)
| OpFree (l : loc)
| OpAddCb (l : loc) (cb data : Z)
| OpRemoveCb (l : loc) (cb data : Z)
| OpPacket (junk : list Z) (pkt : SWDMX_TsPacket).

Definition dmx_do (o : dmx_op) (d : demux) : option demux :=
  match o with
  | OpAlloc k l jp ja => Some (swdmx_demux_alloc_filter k l jp ja d)
  | OpSetParams a l p => snd <$> swdmx_filter_set_params a l p d
  | OpEnable a l => snd <$> swdmx_filter_enable a l d
  | OpDisable l => swdmx_filter_disable l d
  | OpFree l => swdmx_filter_free l d
  | OpAddCb l cb data => swdmx_filter_add_cb l cb data d
  | OpRemoveCb l cb data => swdmx_filter_remove_cb l cb data d
  | OpPacket junk pkt => fst <$> swdmx_demux_ts_packet_cb junk pkt d
  end.

(** A client uses filters it has allocated and not freed, and the allocator gives
    unused blocks of the size asked for. *)
Definition op_allowed (o : dmx_op) (d : demux) : Prop :=
  match o with
  | OpAlloc _ l _ ja => filters d !! l = None /\ arrays_ok ja
  | OpSetParams a l _ | OpEnable a l => is_Some (filters d !! l) /\ pid_filters d !! a = None
  | OpDisable l | OpFree l | OpAddCb l _ _ | OpRemoveCb l _ _ => is_Some (filters d !! l)
  | OpPacket junk pkt => length junk = 4099%nat /\ bytes (payload_bytes pkt)
  end.

Definition dmx_step (d d' : demux) : Prop := exists o, op_allowed o d /\ dmx_do o d = Some d'.

Lemma dmx_do_ok o d : dmx_inv d -> op_allowed o d -> exists d', dmx_do o d = Some d' /\ dmx_inv d'.
Proof.
  intros I. assert (Hcb : forall l g, is_Some (filters d !! l) ->
    exists d', (f ← filters d !! l; Some (set_filters (<[l := upd_cbs g f]> (filters d)) d)) = Some d' /\ dmx_inv d').
  { intros l g [f El]. rewrite El. eexists. split; [done|]. apply (put_inv l f); try done. apply upd_cbs_ok. by apply (inv_filt _ I l). }
  destruct o; simpl.
  - intros [El Ha]. eexists. split; [done|]. by apply alloc_inv.
  - intros [[f El] Ha]. destruct (set_params_ok a l p f d I Ha El) as (d' & -> & ? & _). eauto.
  - intros [[f El] Ha]. destruct (f_state f) eqn:Es.
    + unfold swdmx_filter_enable. rewrite El. simpl. rewrite Es. eauto.
    + destruct (enable_ok a l f d I Ha El Es) as (b & d' & -> & ? & _). eauto.
    + unfold swdmx_filter_enable. rewrite El. simpl. rewrite Es. eauto.
  - intros [f El]. destruct (disable_ok l f d I El) as (d' & ? & ? & _). eauto.
  - intros [f El]. destruct (free_ok l f d I El) as (d' & ? & ? & _). eauto.
  - apply Hcb.
  - apply Hcb.
  - intros [Hj Hb]. destruct (find_pid (pid pkt) d) as [b|] eqn:Ef.
    2: { unfold swdmx_demux_ts_packet_cb. rewrite Ef. eauto. }
    pose proof (proj1 (find_pid_some _ _ _ I) Ef) as (pf & Eb & Hp).
    destruct (packet_some junk pkt d b pf I Ef Eb Hp) as [H1 H2].
    destruct (decide (subs KSec (pid pkt) d = [] \/ payload pkt = None \/ truthy (scramble pkt) = true)) as [Hno|Hno].
    + rewrite H1 by done. simpl. eauto.
    + rewrite H2 by done. simpl. eexists. split; [done|]. apply with_section_inv; [done|done|].
      apply sec_payload_keeps; [by apply section_state_keeps|done].
Qed.

Lemma dmx_new_inv : dmx_inv swdmx_demux_new.
Proof.
  split.
  - split; [by apply NoDup_nil|]. split; [|done]. intros b. simpl. rewrite lookup_empty.
    split; [by intros ?%elem_of_nil|by intros [? ?]].
  - intros b pf. simpl. by rewrite lookup_empty.
  - intros l f. simpl. by rewrite lookup_empty.
  - intros []; (split; [by apply NoDup_nil|]); intros l; simpl; rewrite lookup_empty;
      (split; [by intros ?%elem_of_nil|by intros (? & ? & _)]).
Qed.

(** C9: memory safety and the filter state machine: from a new demux, whatever a client
    does with filters it owns, every operation is defined (no freed filter or PID filter
    is read, no assertion loops), and the invariant holds: a filter runs exactly when it
    is in the PID filter of its own PID, once, PID filters are never empty and never two
    of one PID, section arrays are those of the parameters, and a section buffer holds a
    pending section within its 4099 bytes. *)
Theorem demux_safe d :
  reachable (eq swdmx_demux_new) dmx_step d ->
  dmx_inv d /\ forall o, op_allowed o d -> dmx_do o d <> None.
Proof.
  intros H. assert (I : dmx_inv d).
  { revert d H. apply reachable_inv; [intros d <-; apply dmx_new_inv|].
    intros d d' I (o & Ho & E). destruct (dmx_do_ok o d I Ho) as (d2 & E2 & ?). congruence. }
  split; [done|]. intros o Ho. destruct (dmx_do_ok o d I Ho) as (d2 & -> & _). done.
Qed.

(** * Freeing the demux *)

Lemma free_filters_ok k fuel d :
  dmx_inv d -> (length (filter_list k d) <= fuel)%nat ->
  exists d', free_filters fuel k d = Some d' /\ dmx_inv d' /\ filter_list k d' = []
    /\ forall k', k' <> k -> filter_list k' d' = filter_list k' d.
Proof.
  revert d. induction fuel as [|fuel IH]; intros d I Hf.
  - destruct (filter_list k d) eqn:E; [|simpl in Hf; lia]. exists d. simpl. by rewrite E.
  - simpl. destruct (filter_list k d) as [|l ls] eqn:E; [by exists d|].
    destruct (inv_lists _ I k) as [Hn Hin]. rewrite E in Hn, Hin.
    destruct (proj1 (Hin l)) as (f & El & Hk); [by left|].
    destruct (free_ok l f d I El) as (d1 & -> & I1 & _ & Hl & _). simpl.
    destruct (IH d1 I1) as (d' & E' & I' & Hk' & Ho).
    { rewrite Hl, decide_True, E by done. apply NoDup_cons in Hn as [Hnl _].
      unfold without. rewrite filter_cons_False by tauto. fold (without l ls). rewrite without_notin by done.
      simpl in Hf. lia. }
    exists d'. split; [done|]. split; [done|]. split; [done|]. intros k' Hne. rewrite Ho, Hl by done.
    by rewrite decide_False by congruence.
Qed.

(** [swdmx_demux_free] terminates without touching freed memory, and nothing is
    left allocated: no filter and no PID filter. *)
Theorem demux_free_empties d :
  dmx_inv d -> exists d', swdmx_demux_free d = Some d' /\ filters d' = ∅ /\ pid_filters d' = ∅.
Proof.
  intros I. unfold swdmx_demux_free.
  destruct (free_filters_ok KTs (length (ts_filter_list d)) d I ltac:(done)) as (d1 & -> & I1 & E1 & _).
  cbn [mbind option_bind].
  destruct (free_filters_ok KSec (length (sec_filter_list d1)) d1 I1 ltac:(done)) as (d2 & -> & I2 & E2 & O2).
  cbn [mbind option_bind].
  assert (Ef : filters d2 = ∅).
  { apply map_empty. intros l. destruct (filters d2 !! l) as [f|] eqn:E; [|done]. exfalso.
    destruct (inv_lists _ I2 (f_kind f)) as [_ Hin].
    assert (l ∈ filter_list (f_kind f) d2) as Hx by (apply Hin; eauto).
    destruct (f_kind f); [rewrite O2, E1 in Hx by done|rewrite E2 in Hx]; by apply elem_of_nil in Hx. }
  assert (Ep : pid_filters d2 = ∅).
  { apply map_empty. intros b. apply unused_pf; [done|]. intros l g Eg. by rewrite Ef, lookup_empty in Eg. }
  assert (El : pid_filter_list d2 = []).
  { destruct (inv_pids _ I2) as (_ & Hin & _). destruct (pid_filter_list d2) as [|b bs]; [done|].
    destruct (proj1 (Hin b)) as [q Hq]; [by left|]. by rewrite Ep, lookup_empty in Hq. }
  exists d2. rewrite El. simpl. by rewrite El.
Qed.

(** * Examples *)

Definition sample_ops : list dmx_op :=
  let prm := mk_sec_params 17 0 (66 :: repeat 0 15) (255 :: repeat 0 15) (repeat 0 16) in
  [OpAlloc KTs 1 prm blank_arrays; OpSetParams 9 1 prm; OpAddCb 1 5 50; OpEnable 9 1;
   OpAlloc KSec 2 prm blank_arrays; OpSetParams 8 2 prm; OpAddCb 2 6 60; OpEnable 8 2;
   OpAlloc KTs 3 prm blank_arrays].

Fixpoint do_all (os : list dmx_op) (d : demux) : option demux :=
  match os with [] => Some d | o :: os => d ← dmx_do o d; do_all os d end.

Fixpoint all_allowed (os : list dmx_op) (d : demux) : Prop :=
  match os with
  | [] => True
  | o :: os => op_allowed o d /\ match dmx_do o d with Some d => all_allowed os d | None => False end
  end.

Lemma do_all_reachable os d :
  reachable (eq swdmx_demux_new) dmx_step d -> all_allowed os d ->
  exists d', do_all os d = Some d' /\ reachable (eq swdmx_demux_new) dmx_step d'.
Proof.
  revert d. induction os as [|o os IH]; intros d R H; simpl in *; [by exists d|].
  destruct H as [Ho H]. destruct (dmx_do o d) as [d1|] eqn:E; [|done]. simpl. apply IH; [|done].
  eapply reach_step; [done|]. by exists o.
Qed.

Lemma do_all_inv os d d' : dmx_inv d -> all_allowed os d -> do_all os d = Some d' -> dmx_inv d'.
Proof.
  revert d. induction os as [|o os IH]; intros d I H E; simpl in *; [by simplify_eq|].
  destruct H as [Ho H]. destruct (dmx_do_ok o d I Ho) as (d1 & E1 & I1). rewrite E1 in H, E. by eapply IH.
Qed.

Definition sample_demux : demux := Eval vm_compute in default swdmx_demux_new (do_all sample_ops swdmx_demux_new).

Lemma sample_allowed : all_allowed sample_ops swdmx_demux_new.
Proof. vm_compute. split_and!; (done || by eexists). Qed.

Lemma sample_inv : dmx_inv sample_demux.
Proof. apply (do_all_inv sample_ops swdmx_demux_new); [apply dmx_new_inv|apply sample_allowed|by vm_compute]. Qed.

Definition sample_pkt : SWDMX_TsPacket :=
  mk_pkt 17 1 0 0 0 0 ([71; 64; 17; 16; 0] ++ sample_section ++ repeat 255 166) 188 None 0 (Some 4) 184.

Lemma demux_dispatch_witness :
  exists d', swdmx_demux_ts_packet_cb (repeat 0 4099) sample_pkt sample_demux
    = Some (d', [TsCall 5 50 sample_pkt; SecCall (mk_call 6 60 sample_section)]).
Proof.
  assert (Hb : bytes (payload_bytes sample_pkt)) by (by apply (bool_decide_unpack _); vm_compute).
  destruct (demux_dispatch (repeat 0 4099) sample_pkt sample_demux sample_inv eq_refl Hb)
    as (d' & sc & E & _ & _ & _ & _ & _ & H).
  exists d'. rewrite E. clear E.
  assert (Hn : ~ no_sections sample_pkt sample_demux).
  { intros [H1|[H1|H1]]; vm_compute in H1; done. }
  specialize (H Hn). apply (f_equal snd) in H. cbn [snd] in H. rewrite H.
  clear H Hn Hb. f_equal.
Defined.

Lemma demux_subscriptions_witness :
  exists d', swdmx_filter_disable 2 sample_demux = Some d' /\ subs KSec 17 d' = [] /\ subs KTs 17 d' = [1%positive].
Proof.
  assert (E : exists f, filters sample_demux !! 2%positive = Some f /\ f_kind f = KSec /\ f_pid f = 17).
  { eexists. split; [by vm_compute|done]. }
  destruct E as (f & El & Hk & Hp).
  destruct (demux_subscriptions 7%positive 2%positive f sample_demux sample_inv El)
    as (_ & _ & (d' & E & H) & _); [by vm_compute|].
  exists d'. split; [done|]. rewrite !H, Hk, Hp. split; vm_compute; done.
Defined.

Lemma demux_safe_witness : dmx_do (OpFree 1) sample_demux <> None.
Proof.
  destruct (do_all_reachable sample_ops swdmx_demux_new) as (d & E & R);
    [by apply reach_init|apply sample_allowed|].
  assert (d = sample_demux) as -> by (vm_compute in E; by injection E as <-).
  apply (demux_safe sample_demux R). simpl. eexists. by vm_compute.
Defined.

Lemma demux_free_empties_witness : exists d', swdmx_demux_free sample_demux = Some d' /\ filters d' = ∅.
Proof. destruct (demux_free_empties sample_demux sample_inv) as (d' & ? & ? & _). eauto. Defined.

(** * The demux as a consumer of packets *)

(** The demux as what a callback leads to, whatever the pointers: the state is the
    demux and the calls made so far; the packet is not changed. *)
#[export] Instance demux_callbacks : TsCallbacks (option (demux * list dmx_call)) := fun _ _ pkt s =>
  (pkt, '(d, calls) ← s; '(d, more) ← swdmx_demux_ts_packet_cb (repeat 0 4099) pkt d; Some (d, calls ++ more)).
