(* ===== verification/SwdmxPipe.v ===== *)
(** The pipeline the software demultiplexer is used as: a parser whose callback is the
    descrambler ([swdmx_descrambler_ts_packet_cb]), whose callbacks are those of the
    demux.  A stream scrambled with the keys of the channels gives its consumers what
    the clear stream would have given them. *)

From S2P Require Import Prelude DList SwdmxList SwdmxTs SwdmxCsa SwdmxCsaKey SwdmxDesc SwdmxSec SwdmxDemux.

(** * Packets that differ in their scrambling only *)

(** The packet with other scrambling bits and bytes. *)
Definition with_bytes (sc : Z) (bs : list Z) (pkt : SWDMX_TsPacket) : SWDMX_TsPacket :=
  mk_pkt (pid pkt) (payload_start pkt) (priority pkt) (error pkt) sc (cc pkt) bs (packet_len pkt)
    (adp_field pkt) (adp_field_len pkt) (payload pkt) (payload_len pkt).

Lemma with_bytes_id pkt : with_bytes (scramble pkt) (packet pkt) pkt = pkt.
Proof. by destruct pkt. Qed.

Lemma land_63_afc x : (x .>> 4) .& 3 = ((x .& 0x3f) .>> 4) .& 3.
Proof. rewrite Z.shiftr_land. change (0x3f .>> 4) with 3. by rewrite <- Z.land_assoc. Qed.
Lemma land_63_cc x : x .& 15 = (x .& 0x3f) .& 15.
Proof. by rewrite <- Z.land_assoc. Qed.

(** Bytes 1, 2, the low 6 bits of byte 3 and, with an adaptation field, byte 4 decide
    where everything is. *)
Lemma parse_packet_frame size p q :
  tbl q 1 = tbl p 1 -> tbl q 2 = tbl p 2 -> tbl q 3 .& 0x3f = tbl p 3 .& 0x3f ->
  (truthy (((tbl p 3 .>> 4) .& 3) .& 2) = true -> tbl q 4 = tbl p 4) ->
  parse_packet size q = with_bytes (tbl q 3 .>> 6) (take (Z.to_nat size) q) <$> parse_packet size p.
Proof.
  intros E1 E2 E3 E4. unfold parse_packet. rewrite E1, E2.
  rewrite (land_63_afc (tbl q 3)), (land_63_cc (tbl q 3)), E3, <- land_63_afc, <- land_63_cc.
  destruct (_ =? 8191); [done|].
  destruct (truthy (((tbl p 3 .>> 4) .& 3) .& 2)) eqn:T; [|done].
  rewrite E4 by done. by destruct (184 - 1 - tbl p 4 <? 0).
Qed.

(** * The scrambler of the sender *)

Definition ts_scramble (key : dvbcsa_key_s) (sc : Z) (size : Z) (p : list Z) : list Z :=
  match parse_packet size p with
  | Some pkt =>
      match payload pkt with
      | Some o =>
          blit 3 [(tbl p 3 .& 0x3f) .| (sc .<< 6)] (blit (Z.to_nat o) (dvbcsa_encrypt key (payload_bytes pkt)) p)
      | None => p
      end
  | None => p
  end.

(** The control bits of a packet on the air. *)
Lemma scramble_bits x sc :
  is_byte x -> sc = 2 \/ sc = 3 ->
  ((x .& 0x3f) .| (sc .<< 6)) .& 0x3f = x .& 0x3f /\ ((x .& 0x3f) .| (sc .<< 6)) .>> 6 = sc.
Proof.
  intros Hx Hsc.
  assert (C : forallb (fun sc => (((x .& 0x3f) .| (sc .<< 6)) .& 0x3f =? x .& 0x3f)
    && (((x .& 0x3f) .| (sc .<< 6)) .>> 6 =? sc)) [2; 3] = true).
  { apply (byte_cases (fun x => forallb (fun sc => (((x .& 0x3f) .| (sc .<< 6)) .& 0x3f =? x .& 0x3f)
    && (((x .& 0x3f) .| (sc .<< 6)) .>> 6 =? sc)) [2; 3])); [vm_compute; reflexivity|done]. }
  simpl in C. destruct Hsc as [-> | ->]; lia.
Qed.

Lemma land_63_small x : 0 <= x < 64 -> x .& 0x3f = x.
Proof. intros. change 0x3f with (Z.ones 6). rewrite Z.land_ones by lia. apply Z.mod_small. lia. Qed.

Section Packet.
Context (size : Z) (p : list Z) (pkt : SWDMX_TsPacket).
Context (Bp : bytes p) (Hs : 188 <= size) (Lp : Z.of_nat (length p) = size)
  (Ep : parse_packet size p = Some pkt).

Lemma parse_packet_bytes : packet pkt = p /\ scramble pkt = tbl p 3 .>> 6.
Proof.
  revert Ep. unfold parse_packet. rewrite take_ge by lia.
  destruct (_ =? 8191); [done|]. destruct (truthy (_ .& 2)); [|by intros [= <-]].
  destruct (_ <? 0); [done|]. by intros [= <-].
Qed.

(** The offset of a payload, and byte 4 when there is an adaptation field. *)
Lemma parse_packet_payload o :
  payload pkt = Some o ->
  4 <= o /\ 0 <= payload_len pkt /\ o + payload_len pkt = 188 /\
  length (payload_bytes pkt) = Z.to_nat (payload_len pkt) /\
  (truthy (((tbl p 3 .>> 4) .& 3) .& 2) = true -> 5 <= o).
Proof.
  intros Ho. destruct (ts_packet_facts size p pkt Bp ltac:(lia) Ep) as (_ & _ & Ha & Hp).
  destruct (Hp o Ho) as (E & S & L & W). destruct (adp_field pkt) as [a|] eqn:Ea.
  - destruct (Ha a eq_refl). split; [lia|]. split; [lia|]. split; [lia|]. split; [lia|]. lia.
  - split; [lia|]. split; [lia|]. split; [lia|]. split; [lia|]. intros T. revert Ep Ea.
    unfold parse_packet. destruct (_ =? 8191); [done|]. rewrite T. destruct (_ <? 0); [done|].
    by intros [= <-].
Qed.

Context (o : Z) (Ho : payload pkt = Some o).

Lemma payload_window : payload_bytes pkt = window (Z.to_nat o) (Z.to_nat (payload_len pkt)) p.
Proof. unfold payload_bytes. rewrite Ho. by rewrite (proj1 parse_packet_bytes). Qed.

Lemma ts_scramble_eq key sc :
  ts_scramble key sc size p =
    blit 3 [(tbl p 3 .& 0x3f) .| (sc .<< 6)] (blit (Z.to_nat o) (dvbcsa_encrypt key (payload_bytes pkt)) p).
Proof. unfold ts_scramble. by rewrite Ep, Ho. Qed.

Lemma payload_fits key :
  length (dvbcsa_encrypt key (payload_bytes pkt)) = Z.to_nat (payload_len pkt) /\
  (4 <= Z.to_nat o)%nat /\ (Z.to_nat o + Z.to_nat (payload_len pkt) <= length p)%nat.
Proof.
  destruct (parse_packet_payload o Ho) as (H4 & Hl & H188 & Hw & _).
  rewrite (proj2 (csa_roundtrip key (payload_bytes pkt))). lia.
Qed.

Lemma scrambled_length key sc : length (ts_scramble key sc size p) = length p.
Proof. destruct (payload_fits key). rewrite ts_scramble_eq, !length_blit; rewrite ?length_blit; lia. Qed.

(** Parsing the scrambled packet. *)
Lemma parse_scrambled key sc :
  sc = 2 \/ sc = 3 ->
  tbl (ts_scramble key sc size p) 0 = tbl p 0 /\
  parse_packet size (ts_scramble key sc size p) = Some (with_bytes sc (ts_scramble key sc size p) pkt).
Proof.
  intros Hsc. destruct (parse_packet_payload o Ho) as (H4 & Hl & H188 & Hw & H5).
  pose proof (scramble_bits (tbl p 3) sc (tbl_byte _ _ Bp) Hsc) as [S1 S2].
  assert (Le : length (dvbcsa_encrypt key (payload_bytes pkt)) = Z.to_nat (payload_len pkt))
    by (by rewrite (proj2 (csa_roundtrip key (payload_bytes pkt)))).
  set (q := ts_scramble key sc size p).
  assert (Lq : length q = length p) by apply scrambled_length.
  assert (T : forall k, 0 <= k < o -> k <> 3 -> tbl q k = tbl p k).
  { intros k Hk N. unfold q. rewrite ts_scramble_eq, !tbl_blit; rewrite ?length_blit; simpl; lia. }
  assert (T3 : tbl q 3 = (tbl p 3 .& 0x3f) .| (sc .<< 6)).
  { unfold q. rewrite ts_scramble_eq. unfold tbl at 1. rewrite lookup_blit by (rewrite length_blit; simpl; lia).
    done. }
  split; [apply T; lia|].
  rewrite (parse_packet_frame size p q), Ep; try (apply T; lia).
  - simpl. rewrite T3, S2, take_ge by lia. done.
  - by rewrite T3, S1.
  - intros Ht. apply T; [|lia]. specialize (H5 Ht). lia.
Qed.

(** Descrambling it gives the clear packet back. *)
Lemma descramble_scrambled a sc :
  sc = 2 \/ sc = 3 -> tbl p 3 < 64 ->
  let key := if sc =? 2 then csa2_even a else csa2_odd a in
  exists pkt', dvbcsa2_desc a (with_bytes sc (ts_scramble key sc size p) pkt) = (SWDMX_OK, pkt') /\
    clear_scramble pkt' = pkt.
Proof.
  intros Hsc Hclear key. destruct (parse_packet_payload o Ho) as (H4 & Hl & H188 & Hw & H5).
  pose proof (tbl_byte p 3 Bp) as B3. unfold is_byte in B3.
  pose proof (scramble_bits (tbl p 3) sc (tbl_byte _ _ Bp) Hsc) as [S1 _].
  set (c := dvbcsa_encrypt key (payload_bytes pkt)).
  assert (Lc : length c = Z.to_nat (payload_len pkt))
    by (unfold c; by rewrite (proj2 (csa_roundtrip key (payload_bytes pkt)))).
  set (q := ts_scramble key sc size p).
  assert (Eq : q = blit 3 [(tbl p 3 .& 0x3f) .| (sc .<< 6)] (blit (Z.to_nat o) c p)) by apply ts_scramble_eq.
  assert (Lq : length q = length p) by apply scrambled_length.
  assert (Pq : payload_bytes (with_bytes sc q pkt) = c).
  { unfold payload_bytes. simpl. rewrite Ho, Eq. rewrite window_blit_other by (rewrite ?length_blit; simpl; lia).
    rewrite <- Lc. apply window_blit. lia. }
  assert (W : write_packet (Z.to_nat o) (dvbcsa_decrypt key c) (with_bytes sc q pkt) =
              with_bytes sc (blit 3 [(tbl p 3 .& 0x3f) .| (sc .<< 6)] p) pkt).
  { unfold write_packet, with_bytes. simpl. f_equal.
    unfold c. rewrite (proj1 (csa_roundtrip key (payload_bytes pkt))). fold c. rewrite Eq.
    rewrite <- blit_comm by (rewrite ?length_blit; simpl; lia). rewrite blit_blit by lia.
    rewrite payload_window, blit_window by lia. done. }
  assert (C : clear_scramble (with_bytes sc (blit 3 [(tbl p 3 .& 0x3f) .| (sc .<< 6)] p) pkt) = pkt).
  { unfold clear_scramble, with_bytes. simpl.
    assert (E3 : tbl (blit 3 [(tbl p 3 .& 0x3f) .| (sc .<< 6)] p) 3 .& 0x3f = tbl p 3).
    { unfold tbl at 1. rewrite lookup_blit by (simpl; lia). simpl. rewrite S1. apply land_63_small. lia. }
    rewrite E3, blit_blit by (simpl; lia).
    assert (E : blit 3 [tbl p 3] p = p).
    { rewrite <- (blit_window 3 1 p) at 3 by lia. f_equal. unfold window, tbl.
      destruct (lookup_lt_is_Some_2 p 3) as [x Hx]; [lia|]. change (Z.to_nat 3) with 3%nat. rewrite Hx. simpl.
      by rewrite (drop_S p x 3 Hx). }
    rewrite E. destruct parse_packet_bytes as [E1 E2].
    assert (Z0 : tbl p 3 .>> 6 = 0) by (rewrite Z.shiftr_div_pow2 by lia; apply Z.div_small; lia).
    transitivity (with_bytes (scramble pkt) (packet pkt) pkt); [|apply with_bytes_id].
    unfold with_bytes. by rewrite E1, E2, Z0. }
  eexists. split; [|exact C]. unfold dvbcsa2_desc. cbn [scramble with_bytes payload]. rewrite Ho, Pq.
  destruct Hsc as [-> | ->]; exact (f_equal (pair SWDMX_OK) W).
Qed.
End Packet.

(** * The stream *)

(** The descrambler as a callback of the parser: [None] once it has failed. *)
#[export] Instance desc_callbacks (cipher : list Z -> list Z -> list Z) (cbc : list Z -> list Z -> list Z -> list Z)
    (stack : list Z) (d : SWDMX_Descrambler) {S : Type} `{!TsCallbacks S} : TsCallbacks (option S) := fun _ _ pkt s =>
  match s with
  | None => (pkt, None)
  | Some s =>
      match swdmx_descrambler_ts_packet_cb cipher cbc stack d pkt s with
      | Some (pkt, s) => (pkt, Some s)
      | None => (pkt, None)
      end
  end.

(** The algorithm of the first enabled channel of a PID. *)
Definition channel_algo (d : SWDMX_Descrambler) (p : Z) : option SWDMX_DescAlgo :=
  l ← desc_channel d p; c ← chans d !! l; a ← ch_algo c; algos d !! a.

(** What is sent for the packet [p]: the packet as it is, or scrambled with a key of the
    channel of its PID. *)
Inductive ts_sent (d : SWDMX_Descrambler) (size : Z) (p : list Z) : list Z -> Prop :=
| SentClear : ts_sent d size p p
| SentScrambled sc a pkt :
    parse_packet size p = Some pkt -> sc = 2 \/ sc = 3 ->
    channel_algo d (pid pkt) = Some (DvbCsa2 a) ->
    ts_sent d size p (ts_scramble (if sc =? 2 then csa2_even a else csa2_odd a) sc size p).

(** A clear packet of the stream. *)
Definition clear_packet (size : Z) (p : list Z) : Prop :=
  Z.of_nat (length p) = size /\ tbl p 0 = 71 /\ bytes p /\ tbl p 3 < 64.

Section Stream.
Context (cipher : list Z -> list Z -> list Z) (cbc : list Z -> list Z -> list Z -> list Z)
  (stack : list Z) (d : SWDMX_Descrambler) (size : Z).
Context (I : desc_inv d) (Hs : 188 <= size).

Lemma desc_loop_find ls pkt :
  (forall l, l ∈ ls -> is_Some (chans d !! l)) ->
  desc_loop cipher cbc stack ls d pkt =
    match list_find (fun l => serves d (pid pkt) l = true) ls with
    | None => Some pkt
    | Some (_, l) =>
        c ← chans d !! l; a ← ch_algo c; alg ← algos d !! a;
        '(r, pkt) ← desc_fn cipher cbc stack alg pkt;
        Some (if r =? SWDMX_OK then clear_scramble pkt else pkt)
    end.
Proof.
  intros Hl. induction ls as [|l ls IH]; [done|]. cbn [desc_loop list_find].
  destruct (Hl l) as [c El]; [by left|].
  assert (Es : serves d (pid pkt) l = ch_enable c && (ch_pid c =? pid pkt)) by (unfold serves; by rewrite El).
  rewrite El. cbn [mbind option_bind]. destruct (decide (serves d (pid pkt) l = true)) as [Y|N].
  - rewrite Es in Y. rewrite Y. by rewrite El.
  - destruct (ch_enable c && (ch_pid c =? pid pkt)); [by rewrite Es in N|].
    rewrite IH by (intros; apply Hl; by right). by destruct (list_find _ ls) as [[? ?]|].
Qed.

Lemma desc_loop_channel pkt :
  desc_loop cipher cbc stack (chan_list d) d pkt =
    match desc_channel d (pid pkt) with
    | None => Some pkt
    | Some l =>
        c ← chans d !! l; a ← ch_algo c; alg ← algos d !! a;
        '(r, pkt) ← desc_fn cipher cbc stack alg pkt;
        Some (if r =? SWDMX_OK then clear_scramble pkt else pkt)
    end.
Proof.
  rewrite desc_loop_find by (intros l; apply (di_list _ I)). unfold desc_channel.
  by destruct (list_find _ (chan_list d)) as [[? ?]|].
Qed.

Lemma descramble_clear pkt : scramble pkt = 0 -> descramble cipher cbc stack d pkt = Some pkt.
Proof. intros E. unfold descramble. by rewrite E. Qed.

Lemma clear_parse p pkt : clear_packet size p -> parse_packet size p = Some pkt -> scramble pkt = 0.
Proof.
  intros (L & _ & B & C) E. rewrite (proj2 (parse_packet_bytes size p pkt Hs L E)).
  pose proof (tbl_byte p 3 B) as B3. unfold is_byte in B3.
  rewrite Z.shiftr_div_pow2 by lia. apply Z.div_small. lia.
Qed.

(** What is sent is seen as the clear packet once descrambled. *)
Lemma sent_descrambled p q pkt :
  clear_packet size p -> ts_sent d size p q -> parse_packet size p = Some pkt ->
  exists pkt', parse_packet size q = Some pkt' /\ descramble cipher cbc stack d pkt' = Some pkt.
Proof.
  intros C S E. pose proof (clear_parse p pkt C E) as Z0. destruct C as (L & Sy & B & C3).
  destruct S as [|sc a pkt0 E0 Hsc Ha]; [exists pkt; by rewrite descramble_clear|].
  assert (E1 : pkt0 = pkt) by congruence. subst pkt0.
  destruct (payload pkt) as [o|] eqn:Ho.
  - destruct (parse_scrambled size p pkt B Hs L E o Ho (if sc =? 2 then csa2_even a else csa2_odd a) sc Hsc) as [_ P].
    rewrite P. eexists. split; [done|].
    destruct (descramble_scrambled size p pkt B Hs L E o Ho a sc Hsc C3) as (pkt' & D & Ec).
    unfold descramble. cbn [scramble with_bytes payload].
    assert (T : truthy sc = true) by (destruct Hsc as [-> | ->]; done). rewrite T, Ho. simpl.
    rewrite desc_loop_channel. cbn [pid with_bytes]. revert Ha. unfold channel_algo.
    destruct (desc_channel d (pid pkt)) as [l|]; [|done]. cbn [mbind option_bind].
    destruct (chans d !! l) as [c|]; [|done]. cbn [mbind option_bind].
    destruct (ch_algo c) as [al|]; [|done]. cbn [mbind option_bind]. intros ->. cbn [mbind option_bind].
    unfold desc_fn. rewrite D. cbn. by rewrite Ec.
  - unfold ts_scramble. rewrite E, Ho. exists pkt. by rewrite descramble_clear.
Qed.

Lemma sent_frame p q : clear_packet size p -> ts_sent d size p q ->
  length q = length p /\ tbl q 0 = tbl p 0 /\ (parse_packet size p = None -> q = p).
Proof.
  intros (L & _ & B & _) [|sc a pkt E Hsc Ha]; [done|].
  destruct (payload pkt) as [o|] eqn:Ho.
  - split; [by apply (scrambled_length size p pkt B Hs L E o)|].
    split; [by apply (parse_scrambled size p pkt B Hs L E o)|by rewrite E].
  - unfold ts_scramble. by rewrite E, Ho.
Qed.

Context {S : Type} `{!TsCallbacks S}.
#[local] Instance stage : TsCallbacks (option S) := desc_callbacks cipher cbc stack d.

Lemma sent_packet cb data p q s :
  clear_packet size p -> ts_sent d size p q ->
  ts_packet (mk_tsp size [(cb, data)]) q (Some s) = Some (ts_packet (mk_tsp size (desc_cbs d)) p s).
Proof.
  intros C T. unfold ts_packet. cbn [packet_size SwdmxTs.cb_list].
  destruct (parse_packet size p) as [pkt|] eqn:E.
  - destruct (sent_descrambled p q pkt C T E) as (pkt' & -> & D). unfold run_cbs at 1. cbn [foldl].
    unfold SwdmxTs.call_cb, stage, desc_callbacks, swdmx_descrambler_ts_packet_cb. rewrite D. cbn [mbind option_bind].
    by destruct (run_cbs (desc_cbs d) pkt s).
  - destruct (sent_frame p q C T) as (_ & _ & F). by rewrite (F E), E.
Qed.

(** C6: The descrambling pipeline is transparent: when packets of a transport stream are
    sent scrambled with the even or odd key of the enabled channel of their PID, the
    parser with the descrambler as its callback consumes the same bytes and leaves the
    consumers of the descrambler, the demux and its section filters among them, in the
    same state, after the same calls with the same packets, as the parser calling them
    directly on the clear stream. *)
Theorem descrambled_stream cb data ps qs s :
  Forall (clear_packet size) ps -> Forall2 (ts_sent d size) ps qs ->
  swdmx_ts_parser_run (mk_tsp size [(cb, data)]) (concat qs) (Some s) =
    (let '(n, s) := swdmx_ts_parser_run (mk_tsp size (desc_cbs d)) (concat ps) s in (n, Some s)).
Proof.
  intros C T.
  assert (Ap : aligned size ps) by (eapply Forall_impl; [exact C|]; intros p (? & ? & _); done).
  assert (Aq : aligned size qs /\ length (concat qs) = length (concat ps)).
  { clear Ap. induction T as [|p q ps qs H T IH]; [by split; [constructor|]|].
    apply Forall_cons in C as [Cp C].
    destruct IH as [A L]; [done|]. destruct (sent_frame p q Cp H) as (Lq & Sq & _).
    split; [|simpl; rewrite !length_app; lia]. constructor; [|done].
    destruct Cp as (? & ? & _). split; congruence. }
  destruct Aq as [Aq L]. rewrite !ts_run_parts by done. rewrite L. f_equal.
  clear Ap Aq L. revert s. induction T as [|p q ps qs H T IH]; intros s; [done|].
  apply Forall_cons in C as [Cp C]. cbn [foldl]. rewrite sent_packet with (p := p) by done. by apply IH.
Qed.
End Stream.

(** * An instance: a scrambled packet with a section, through the demux *)

Definition clear_ex : list Z := packet sample_pkt.

Lemma clear_ex_ok : clear_packet 188 clear_ex.
Proof. split; [reflexivity|]. split; [reflexivity|]. split; [|reflexivity]. by apply (bool_decide_unpack _); vm_compute. Qed.

Lemma descrambled_stream_witness :
  let air := [ts_scramble (dvbcsa_key_set (replicate 8 0)) 3 188 clear_ex; clear_ex] in
  exists d', swdmx_ts_parser_run (TsCallbacks0 := desc_callbacks id_cipher xor_cbc [] (desc_ex 17)) (mk_tsp 188 [(1, 2)]) (concat air) (Some (Some (sample_demux, [])))
    = (376, Some (Some (d', [TsCall 5 50 sample_pkt; SecCall (mk_call 6 60 sample_section);
                             TsCall 5 50 sample_pkt; SecCall (mk_call 6 60 sample_section)]))).
Proof.
  intros air. eexists.
  refine (eq_trans (descrambled_stream id_cipher xor_cbc [] (desc_ex 17) 188 _ _ 1 2 [clear_ex; clear_ex] air
    (Some (sample_demux, [])) _ _) _).
  - apply desc_ex_inv. lia.
  - lia.
  - apply Forall_cons_2; [apply clear_ex_ok|]. apply Forall_cons_2; [apply clear_ex_ok|constructor].
  - constructor; [|constructor; [constructor|constructor]].
    apply (SentScrambled (desc_ex 17) 188 clear_ex 3 (mk_csa2 (dvbcsa_key_set (replicate 8 0))
      (dvbcsa_key_set (replicate 8 0))) sample_pkt); [reflexivity|by right|reflexivity].
  - vm_compute. reflexivity.
Defined.
