(* ===== verification/RingBuffer.v ===== *)
(** [dvb_ringbuffer.c] of the CI driver: the ring buffer, as a byte queue and as a
    queue of packets.

    One reader and one writer each run the operations; an operation is a function
    on the whole state here.  [size_t] arithmetic wraps at [2^64]. *)

From S2P Require Import Prelude.

Record dvb_ringbuffer := mk_rb {
  rb_data : list Z; rb_size : Z; pread : Z; pwrite : Z; rb_error : Z
}.

Definition set_pread (p : Z) (rb : dvb_ringbuffer) : dvb_ringbuffer :=
  mk_rb (rb_data rb) (rb_size rb) p (pwrite rb) (rb_error rb).
Definition set_write (d : list Z) (p : Z) (rb : dvb_ringbuffer) : dvb_ringbuffer :=
  mk_rb d (rb_size rb) (pread rb) p (rb_error rb).

(** * The byte queue *)

Definition dvb_ringbuffer_init (data : list Z) (len : Z) : dvb_ringbuffer := mk_rb data len 0 0 0.

Definition dvb_ringbuffer_empty (rb : dvb_ringbuffer) : bool := pread rb =? pwrite rb.

Definition dvb_ringbuffer_free (rb : dvb_ringbuffer) : Z :=
  let free := pread rb - pwrite rb in
  let free := if free <=? 0 then free + rb_size rb else free in
  free - 1.

Definition dvb_ringbuffer_avail (rb : dvb_ringbuffer) : Z :=
  let avail := pwrite rb - pread rb in
  if avail <? 0 then avail + rb_size rb else avail.

Definition dvb_ringbuffer_flush (rb : dvb_ringbuffer) : dvb_ringbuffer :=
  mk_rb (rb_data rb) (rb_size rb) (pwrite rb) (pwrite rb) 0.

Definition dvb_ringbuffer_reset (rb : dvb_ringbuffer) : dvb_ringbuffer :=
  mk_rb (rb_data rb) (rb_size rb) 0 0 0.

(** The flush, under the lock; waking the readers changes nothing here. *)
Definition dvb_ringbuffer_flush_spinlock_wakeup (rb : dvb_ringbuffer) : dvb_ringbuffer :=
  dvb_ringbuffer_flush rb.

(** How much fits before the end of the area, 0 when all of it does. *)
Definition split_at (rb : dvb_ringbuffer) (p len : Z) : Z :=
  if rb_size rb <? u64 (p + len) then rb_size rb - p else 0.

(** [memcpy] out of the area. *)
Definition area (rb : dvb_ringbuffer) (p n : Z) : list Z := window (Z.to_nat p) (Z.to_nat n) (rb_data rb).

Definition EFAULT : Z := 14.
Definition EINVAL : Z := 22.

(** [fault1] and [fault2] are the outcomes of the two calls of [copy_to_user]; the
    list is what was copied out. *)
Definition dvb_ringbuffer_read_user (fault1 fault2 : bool) (len : Z) (rb : dvb_ringbuffer)
    : Z * list Z * dvb_ringbuffer :=
  let split := split_at rb (pread rb) len in
  if (0 <? split) && fault1 then (- EFAULT, [], rb)
  else
    let '(out, todo, rb) :=
      if 0 <? split then (area rb (pread rb) split, u64 (len - split), set_pread 0 rb) else ([], len, rb) in
    if fault2 then (- EFAULT, out, rb)
    else (len, out ++ area rb (pread rb) todo, set_pread (u64 (pread rb + todo) mod rb_size rb) rb).

Definition dvb_ringbuffer_read (len : Z) (rb : dvb_ringbuffer) : list Z * dvb_ringbuffer :=
  let split := split_at rb (pread rb) len in
  let '(out, todo, rb) :=
    if 0 <? split then (area rb (pread rb) split, u64 (len - split), set_pread 0 rb) else ([], len, rb) in
  (out ++ area rb (pread rb) todo, set_pread (u64 (pread rb + todo) mod rb_size rb) rb).

(** [memcpy] into the area. *)
Definition put_area (rb : dvb_ringbuffer) (bs : list Z) : list Z := blit (Z.to_nat (pwrite rb)) bs (rb_data rb).

Definition dvb_ringbuffer_write (buf : list Z) (rb : dvb_ringbuffer) : Z * dvb_ringbuffer :=
  let len := Z.of_nat (length buf) in
  let split := split_at rb (pwrite rb) len in
  let '(buf, todo, rb) :=
    if 0 <? split
    then (drop (Z.to_nat split) buf, u64 (len - split), set_write (put_area rb (take (Z.to_nat split) buf)) 0 rb)
    else (buf, len, rb) in
  (len, set_write (put_area rb buf) (u64 (pwrite rb + todo) mod rb_size rb) rb).

(** With [copy_from_user]; what a failing call stored is not counted and not
    modelled. *)
Definition dvb_ringbuffer_write_user (fault1 fault2 : bool) (buf : list Z) (rb : dvb_ringbuffer)
    : Z * dvb_ringbuffer :=
  let len := Z.of_nat (length buf) in
  let split := split_at rb (pwrite rb) len in
  if (0 <? split) && fault1 then (0, rb)
  else
    let '(buf, todo, rb) :=
      if 0 <? split
      then (drop (Z.to_nat split) buf, u64 (len - split), set_write (put_area rb (take (Z.to_nat split) buf)) 0 rb)
      else (buf, len, rb) in
    if fault2 then (u64 (len - todo), rb)
    else (len, set_write (put_area rb buf) (u64 (pwrite rb + todo) mod rb_size rb) rb).

(** * Packets *)

Definition PKT_READY : Z := 0.
Definition PKT_DISPOSED : Z := 1.
Definition DVB_RINGBUFFER_PKTHDRSIZE : Z := 3.

Definition DVB_RINGBUFFER_PEEK (rb : dvb_ringbuffer) (offs : Z) : Z :=
  tbl (rb_data rb) ((pread rb + offs) mod rb_size rb).
Definition DVB_RINGBUFFER_SKIP (rb : dvb_ringbuffer) (num : Z) : dvb_ringbuffer :=
  set_pread (u64 (pread rb + num) mod rb_size rb) rb.
Definition DVB_RINGBUFFER_WRITE_BYTE (rb : dvb_ringbuffer) (byte : Z) : dvb_ringbuffer :=
  set_write (<[Z.to_nat (pwrite rb) := u8 byte]> (rb_data rb)) ((pwrite rb + 1) mod rb_size rb) rb.

Definition dvb_ringbuffer_pkt_write (buf : list Z) (rb : dvb_ringbuffer) : Z * dvb_ringbuffer :=
  let len := Z.of_nat (length buf) in
  let oldpwrite := pwrite rb in
  let rb := DVB_RINGBUFFER_WRITE_BYTE rb (len .>> 8) in
  let rb := DVB_RINGBUFFER_WRITE_BYTE rb (len .& 255) in
  let rb := DVB_RINGBUFFER_WRITE_BYTE rb PKT_READY in
  let '(n, rb) := dvb_ringbuffer_write buf rb in
  let status := s32 n in
  (status, if status <? 0 then set_write (rb_data rb) oldpwrite rb else rb).

Definition pkt_len (rb : dvb_ringbuffer) (idx : Z) : Z :=
  (tbl (rb_data rb) idx .<< 8) .| tbl (rb_data rb) (u64 (idx + 1) mod rb_size rb).

(** The result and the bytes copied. *)
Definition dvb_ringbuffer_pkt_read_user (fault1 fault2 : bool) (rb : dvb_ringbuffer) (idx offset len : Z)
    : Z * list Z :=
  let pktlen := pkt_len rb idx in
  if pktlen <? u64 offset then (- EINVAL, [])
  else
    let len := if pktlen <? u64 (offset + len) then u64 (pktlen - offset) else len in
    let idx := u64 (idx + DVB_RINGBUFFER_PKTHDRSIZE + offset) mod rb_size rb in
    let split := split_at rb idx len in
    if (0 <? split) && fault1 then (- EFAULT, [])
    else
      let '(out, todo, idx) :=
        if 0 <? split then (area rb idx split, u64 (len - split), 0) else ([], len, idx) in
      if fault2 then (- EFAULT, out) else (len, out ++ area rb idx todo).

Definition dvb_ringbuffer_pkt_read (rb : dvb_ringbuffer) (idx offset len : Z) : Z * list Z :=
  let pktlen := pkt_len rb idx in
  if pktlen <? u64 offset then (- EINVAL, [])
  else
    let len := if pktlen <? u64 (offset + len) then u64 (pktlen - offset) else len in
    let idx := u64 (idx + DVB_RINGBUFFER_PKTHDRSIZE + offset) mod rb_size rb in
    let split := split_at rb idx len in
    let '(out, todo, idx) :=
      if 0 <? split then (area rb idx split, u64 (len - split), 0) else ([], len, idx) in
    (len, out ++ area rb idx todo).

(** The cleaning loop of [dvb_ringbuffer_pkt_dispose]; [None] when the fuel runs
    out. *)
Fixpoint dispose_loop (fuel : nat) (rb : dvb_ringbuffer) : option dvb_ringbuffer :=
  if dvb_ringbuffer_avail rb <=? DVB_RINGBUFFER_PKTHDRSIZE then Some rb
  else if DVB_RINGBUFFER_PEEK rb 2 =? PKT_DISPOSED then
    match fuel with
    | O => None
    | S fuel =>
        let pktlen := (DVB_RINGBUFFER_PEEK rb 0 .<< 8) .| DVB_RINGBUFFER_PEEK rb 1 in
        dispose_loop fuel (DVB_RINGBUFFER_SKIP rb (pktlen + DVB_RINGBUFFER_PKTHDRSIZE))
    end
  else Some rb.

Definition dvb_ringbuffer_pkt_dispose (fuel : nat) (idx : Z) (rb : dvb_ringbuffer) : option dvb_ringbuffer :=
  dispose_loop fuel
    (mk_rb (<[Z.to_nat (u64 (idx + 2) mod rb_size rb) := PKT_DISPOSED]> (rb_data rb))
       (rb_size rb) (pread rb) (pwrite rb) (rb_error rb)).

(** The search loop of [dvb_ringbuffer_pkt_next]; the result is the index and the
    length stored through [pktlen]. *)
Fixpoint next_loop (fuel : nat) (rb : dvb_ringbuffer) (idx consumed : Z) : option (Z * option Z) :=
  if dvb_ringbuffer_avail rb - consumed <=? DVB_RINGBUFFER_PKTHDRSIZE then Some (-1, None)
  else
    let curpktlen := pkt_len rb idx in
    let curpktstatus := tbl (rb_data rb) (u64 (idx + 2) mod rb_size rb) in
    if curpktstatus =? PKT_READY then Some (idx, Some curpktlen)
    else match fuel with
    | O => None
    | S fuel =>
        next_loop fuel rb (u64 (idx + curpktlen + DVB_RINGBUFFER_PKTHDRSIZE) mod rb_size rb)
          (s32 (consumed + curpktlen + DVB_RINGBUFFER_PKTHDRSIZE))
    end.

(** [idx] is the [size_t] argument, [2^64 - 1] for the first packet. *)
Definition dvb_ringbuffer_pkt_next (fuel : nat) (rb : dvb_ringbuffer) (idx : Z) : option (Z * option Z) :=
  let idx :=
    if idx =? u64 (-1) then pread rb
    else u64 (idx + pkt_len rb idx + DVB_RINGBUFFER_PKTHDRSIZE) mod rb_size rb in
  let consumed := s32 (u64 (idx - pread rb) mod rb_size rb) in
  next_loop fuel rb idx consumed.

(** * The area as a ring *)

(** The [n] bytes from position [p], wrapping at [sz]. *)
Definition ring (d : list Z) (sz p n : Z) : list Z := (fun k => tbl d ((p + k) mod sz)) <$> seqZ 0 n.

Lemma mod_wrap sz x : 0 < sz -> 0 <= x < 2 * sz -> x mod sz = if x <? sz then x else x - sz.
Proof.
  intros Hs Hx. bdestruct; [apply Z.mod_small; lia|].
  symmetry. apply (Z.mod_unique_pos _ _ 1); lia.
Qed.

Lemma length_ring d sz p n : 0 <= n -> Z.of_nat (length (ring d sz p n)) = n.
Proof. intros. unfold ring. rewrite length_fmap, length_seqZ. lia. Qed.

Lemma ring_lookup d sz p n i :
  0 <= Z.of_nat i < n -> ring d sz p n !! i = Some (tbl d ((p + Z.of_nat i) mod sz)).
Proof.
  intros H. unfold ring. rewrite list_lookup_fmap, lookup_seqZ_lt by lia. done.
Qed.

Lemma ring_tbl d sz p n k : 0 <= k < n -> tbl (ring d sz p n) k = tbl d ((p + k) mod sz).
Proof.
  intros H. unfold tbl at 1. rewrite ring_lookup by lia. by rewrite Z2Nat.id by lia.
Qed.

Lemma ring_ext d d' sz p p' n :
  (forall k, 0 <= k < n -> tbl d ((p + k) mod sz) = tbl d' ((p' + k) mod sz)) ->
  ring d sz p n = ring d' sz p' n.
Proof.
  intros H. unfold ring. apply list_fmap_ext. intros i k Hk.
  apply lookup_seqZ in Hk as [-> Hk]. apply H. lia.
Qed.

Lemma ring_app d sz p n m :
  0 < sz -> 0 <= n -> 0 <= m -> ring d sz p (n + m) = ring d sz p n ++ ring d sz ((p + n) mod sz) m.
Proof.
  intros Hs Hn Hm. unfold ring. rewrite seqZ_app by lia. rewrite fmap_app. f_equal.
  replace (0 + n) with (n + 0) by lia. rewrite <- (fmap_add_seqZ n 0 m), <- list_fmap_compose.
  apply list_fmap_ext. intros i k _. simpl. f_equal. rewrite Zplus_mod_idemp_l. f_equal. lia.
Qed.

Lemma ring_0 d sz p : ring d sz p 0 = [].
Proof. done. Qed.

Lemma list_eq_tbl (l k : list Z) :
  length l = length k -> (forall i, 0 <= i < Z.of_nat (length l) -> tbl l i = tbl k i) -> l = k.
Proof.
  intros Hl H. apply list_eq_same_length with (n := length l); [done|done|].
  intros i x y Hi Hx Hy. specialize (H (Z.of_nat i) ltac:(lia)). unfold tbl in H.
  rewrite Nat2Z.id, Hx, Hy in H. done.
Qed.

Lemma tbl_window d p n i :
  0 <= p -> 0 <= i < n -> tbl (window (Z.to_nat p) (Z.to_nat n) d) i = tbl d (p + i).
Proof.
  intros Hp Hi. unfold window, tbl. rewrite lookup_take_lt by lia. rewrite lookup_drop. do 2 f_equal. lia.
Qed.

(** A piece that does not wrap. *)
Lemma window_ring d sz p n :
  Z.of_nat (length d) = sz -> 0 <= p -> 0 <= n -> p + n <= sz ->
  window (Z.to_nat p) (Z.to_nat n) d = ring d sz p n.
Proof.
  intros Hd Hp Hn Hle. apply list_eq_tbl.
  - rewrite length_window by lia. pose proof (length_ring d sz p n Hn). lia.
  - rewrite length_window by lia. intros i Hi. rewrite tbl_window, ring_tbl by lia.
    rewrite Z.mod_small by lia. done.
Qed.

Lemma tbl_blit_at i bs d j :
  0 <= i -> i + Z.of_nat (length bs) <= Z.of_nat (length d) -> 0 <= j ->
  tbl (blit (Z.to_nat i) bs d) j
  = if (i <=? j) && (j <? i + Z.of_nat (length bs)) then tbl bs (j - i) else tbl d j.
Proof.
  intros Hi Hf Hj. unfold tbl. rewrite lookup_blit by lia.
  destruct (Z.leb_spec i j), (Z.ltb_spec j (i + Z.of_nat (length bs))); simpl; case_decide; try lia; [|done..].
  do 2 f_equal. lia.
Qed.

(** * The invariant and the contents *)

Record rb_ok (rb : dvb_ringbuffer) : Prop := mk_ok {
  ok_size : 0 < rb_size rb < 2 ^ 31;
  ok_data : Z.of_nat (length (rb_data rb)) = rb_size rb;
  ok_read : 0 <= pread rb < rb_size rb;
  ok_write : 0 <= pwrite rb < rb_size rb
}.

Definition contents (rb : dvb_ringbuffer) : list Z :=
  ring (rb_data rb) (rb_size rb) (pread rb) (dvb_ringbuffer_avail rb).

Lemma avail_range rb : rb_ok rb -> 0 <= dvb_ringbuffer_avail rb < rb_size rb.
Proof. intros [? ? ? ?]. unfold dvb_ringbuffer_avail. bdestruct; lia. Qed.

Lemma length_contents rb : rb_ok rb -> Z.of_nat (length (contents rb)) = dvb_ringbuffer_avail rb.
Proof. intros H. apply length_ring. apply (avail_range rb H). Qed.

Lemma free_avail rb : rb_ok rb -> dvb_ringbuffer_free rb = rb_size rb - 1 - dvb_ringbuffer_avail rb.
Proof.
  intros [? ? ? ?]. unfold dvb_ringbuffer_free, dvb_ringbuffer_avail. bdestruct; lia.
Qed.

Lemma pwrite_mod rb : rb_ok rb -> (pread rb + dvb_ringbuffer_avail rb) mod rb_size rb = pwrite rb.
Proof.
  intros [? ? ? ?]. unfold dvb_ringbuffer_avail. rewrite mod_wrap by (bdestruct; lia). bdestruct; lia.
Qed.

(** The distance from [p] to [q] round the ring. *)
Lemma avail_mod rb p : rb_ok rb -> 0 <= p < rb_size rb ->
  (pwrite rb - p) mod rb_size rb = if pwrite rb - p <? 0 then pwrite rb - p + rb_size rb else pwrite rb - p.
Proof.
  intros [? ? ? ?] Hp. bdestruct; [|apply Z.mod_small; lia].
  symmetry. apply (Z.mod_unique_pos _ _ (-1)); lia.
Qed.

Lemma avail_eq rb p n :
  rb_ok rb -> 0 <= p < rb_size rb -> 0 <= n < rb_size rb -> pwrite rb = (p + n) mod rb_size rb ->
  dvb_ringbuffer_avail (set_pread p rb) = n.
Proof.
  intros [? ? ? ?] Hp Hn E. unfold dvb_ringbuffer_avail. simpl. rewrite mod_wrap in E by lia.
  bdestruct; lia.
Qed.

(** What both reads copy: the two pieces make the ring's bytes. *)
Lemma read_pieces rb p len :
  rb_ok rb -> 0 <= p < rb_size rb -> 0 <= len <= rb_size rb ->
  let split := split_at rb p len in
  (if 0 <? split then area rb p split ++ area rb 0 (len - split) else area rb p len)
  = ring (rb_data rb) (rb_size rb) p len
  /\ 0 <= split /\ (0 < split -> split = rb_size rb - p /\ split <= len).
Proof.
  intros [Hs Hd Hr Hw] Hp Hl split. unfold split, split_at, area.
  rewrite u64_small by lia. destruct (Z.ltb_spec (rb_size rb) (p + len)).
  - rewrite (proj2 (Z.ltb_lt 0 _)) by lia. split; [|lia].
    rewrite !(window_ring _ (rb_size rb)) by lia.
    replace len with ((rb_size rb - p) + (len - (rb_size rb - p))) at 2 by lia.
    rewrite ring_app by lia. f_equal. f_equal.
    replace (p + (rb_size rb - p)) with (rb_size rb) by lia. by rewrite Z.mod_same by lia.
  - simpl. split; [|lia]. by rewrite (window_ring _ (rb_size rb)) by lia.
Qed.

Lemma skip_mod sz p a b : 0 < sz -> ((p + a) mod sz + b) mod sz = (p + (a + b)) mod sz.
Proof. intros. rewrite Zplus_mod_idemp_l. f_equal. lia. Qed.

(** Taking [n] bytes off the front. *)
Lemma consume_ok rb n :
  rb_ok rb -> 0 <= n <= dvb_ringbuffer_avail rb ->
  let rb' := set_pread ((pread rb + n) mod rb_size rb) rb in
  rb_ok rb' /\ contents rb' = drop (Z.to_nat n) (contents rb)
  /\ ring (rb_data rb) (rb_size rb) (pread rb) n = take (Z.to_nat n) (contents rb).
Proof.
  intros H Hn rb'. pose proof (avail_range rb H) as Ha. pose proof H as [Hs Hd Hr Hw].
  assert (Hp : 0 <= (pread rb + n) mod rb_size rb < rb_size rb) by (apply Z.mod_pos_bound; lia).
  assert (H' : rb_ok rb') by (by split).
  assert (Hav : dvb_ringbuffer_avail rb' = dvb_ringbuffer_avail rb - n).
  { apply avail_eq; [done|done|lia|]. rewrite skip_mod by lia.
    replace (n + (dvb_ringbuffer_avail rb - n)) with (dvb_ringbuffer_avail rb) by lia. by rewrite pwrite_mod. }
  assert (E : contents rb = ring (rb_data rb) (rb_size rb) (pread rb) n ++ contents rb').
  { unfold contents. rewrite Hav. simpl. rewrite <- ring_app by lia. f_equal. lia. }
  split; [done|]. pose proof (length_ring (rb_data rb) (rb_size rb) (pread rb) n) as Hl.
  rewrite E, take_app_len, drop_app_len by lia. done.
Qed.

(** Both reads, without faults. *)
Lemma read_ok len rb :
  rb_ok rb -> 0 <= len <= dvb_ringbuffer_avail rb ->
  dvb_ringbuffer_read len rb
  = (take (Z.to_nat len) (contents rb), set_pread ((pread rb + len) mod rb_size rb) rb).
Proof.
  intros H Hl. pose proof (avail_range rb H) as Ha. pose proof H as [Hs Hd Hr Hw].
  destruct (read_pieces rb (pread rb) len H Hr ltac:(lia)) as (E & Hsp & Hsp').
  destruct (consume_ok rb len H Hl) as (_ & _ & Et). unfold dvb_ringbuffer_read.
  rewrite <- Et, <- E. clear E Et. destruct (Z.ltb_spec 0 (split_at rb (pread rb) len)) as [Hp|Hp].
  - destruct (Hsp' Hp) as [Es Hle]. rewrite Es in *. cbv beta iota zeta. rewrite !u64_small by (simpl; lia).
    assert (Em : (0 + (len - (rb_size rb - pread rb))) mod rb_size rb = (pread rb + len) mod rb_size rb).
    { rewrite !mod_wrap by lia. bdestruct; lia. }
    change (pread (set_pread 0 rb)) with 0. change (rb_size (set_pread 0 rb)) with (rb_size rb).
    by rewrite Em.
  - cbv beta iota zeta. rewrite u64_small by lia. done.
Qed.

Lemma read_user_ok len rb :
  rb_ok rb -> 0 <= len <= dvb_ringbuffer_avail rb ->
  dvb_ringbuffer_read_user false false len rb = (len, (dvb_ringbuffer_read len rb).1, (dvb_ringbuffer_read len rb).2).
Proof.
  intros H Hl. unfold dvb_ringbuffer_read_user, dvb_ringbuffer_read. rewrite andb_false_r.
  by destruct (0 <? _).
Qed.

(** The area after writing [bs] at the write position. *)
Definition wrote (d : list Z) (sz p : Z) (bs : list Z) (d' : list Z) : Prop :=
  length d' = length d /\ forall j, 0 <= j < sz ->
  tbl d' j = if (j - p) mod sz <? Z.of_nat (length bs) then tbl bs ((j - p) mod sz) else tbl d j.

Lemma wrote_ring d sz p bs d' :
  Z.of_nat (length d) = sz -> 0 <= p < sz -> Z.of_nat (length bs) <= sz -> wrote d sz p bs d' ->
  ring d' sz p (Z.of_nat (length bs)) = bs
  /\ forall q n, 0 <= q < sz -> p = (q + n) mod sz -> 0 <= n -> n + Z.of_nat (length bs) <= sz ->
     ring d' sz q n = ring d sz q n.
Proof.
  intros Hd Hp Hl [Hld H]. split.
  - apply list_eq_tbl.
    + pose proof (length_ring d' sz p (Z.of_nat (length bs))). lia.
    + rewrite length_ring by lia. intros i Hi. rewrite ring_tbl, H by (try apply Z.mod_pos_bound; lia).
      assert (((p + i) mod sz - p) mod sz = i) as ->.
      { rewrite Zminus_mod_idemp_l. replace (p + i - p) with i by lia. apply Z.mod_small. lia. }
      by rewrite (proj2 (Z.ltb_lt _ _)) by lia.
  - intros q n Hq Ep Hn Hf. apply ring_ext. intros k Hk.
    rewrite H by (apply Z.mod_pos_bound; lia).
    assert (((q + k) mod sz - p) mod sz = k - n + sz) as ->.
    { rewrite Ep, Zminus_mod_idemp_l, Zminus_mod_idemp_r. symmetry. apply (Z.mod_unique_pos _ _ (-1)); lia. }
    by rewrite (proj2 (Z.ltb_ge _ _)) by lia.
Qed.

(** Adding bytes at the back. *)
Lemma produce_ok rb bs d' :
  rb_ok rb -> Z.of_nat (length bs) <= dvb_ringbuffer_free rb ->
  wrote (rb_data rb) (rb_size rb) (pwrite rb) bs d' ->
  let rb' := set_write d' ((pwrite rb + Z.of_nat (length bs)) mod rb_size rb) rb in
  rb_ok rb' /\ contents rb' = contents rb ++ bs.
Proof.
  intros H Hf Hw rb'. rewrite free_avail in Hf by done. pose proof (avail_range rb H) as Ha.
  pose proof H as [Hs Hd Hr Hwr]. pose proof (pwrite_mod rb H) as Hpw.
  assert (H' : rb_ok rb').
  { split; simpl; [done|by rewrite (proj1 Hw)|done|]. apply Z.mod_pos_bound. lia. }
  split; [done|].
  assert (Hav : dvb_ringbuffer_avail rb' = dvb_ringbuffer_avail rb + Z.of_nat (length bs)).
  { replace rb' with (set_pread (pread rb) rb') by done. apply avail_eq; [done|done|simpl; lia|]. simpl.
    rewrite <- Hpw at 1. rewrite skip_mod by lia. f_equal. }
  assert (Hle : Z.of_nat (length bs) <= rb_size rb) by lia.
  destruct (wrote_ring _ _ _ _ _ Hd Hwr Hle Hw) as [E1 E2].
  unfold contents. rewrite Hav. simpl. rewrite ring_app, Hpw, E1 by lia. f_equal.
  apply E2; (done || lia).
Qed.

(** What both writes leave in the area. *)
Lemma write_pieces rb buf :
  rb_ok rb -> Z.of_nat (length buf) < rb_size rb ->
  exists d', dvb_ringbuffer_write buf rb
    = (Z.of_nat (length buf), set_write d' ((pwrite rb + Z.of_nat (length buf)) mod rb_size rb) rb)
  /\ wrote (rb_data rb) (rb_size rb) (pwrite rb) buf d'.
Proof.
  intros [Hs Hd Hr Hw] Hl. unfold dvb_ringbuffer_write, split_at, put_area.
  rewrite (u64_small (pwrite rb + _)) by lia.
  destruct (Z.ltb_spec (rb_size rb) (pwrite rb + Z.of_nat (length buf))) as [Hc|Hc].
  - rewrite (proj2 (Z.ltb_lt 0 _)) by lia.
    rewrite (u64_small (Z.of_nat (length buf) - _)) by lia.
    cbn [pwrite rb_data rb_size set_write]. rewrite u64_small by lia.
    eexists. split.
    + assert (Em : (0 + (Z.of_nat (length buf) - (rb_size rb - pwrite rb))) mod rb_size rb
                   = (pwrite rb + Z.of_nat (length buf)) mod rb_size rb).
      { rewrite !mod_wrap by lia. bdestruct; lia. }
      unfold set_write. simpl. simpl in Em. by rewrite Em.
    + assert (Ht : Z.of_nat (length (take (Z.to_nat (rb_size rb - pwrite rb)) buf)) = rb_size rb - pwrite rb)
        by (rewrite length_take; lia).
      assert (Hdr : Z.of_nat (length (drop (Z.to_nat (rb_size rb - pwrite rb)) buf))
                    = Z.of_nat (length buf) - (rb_size rb - pwrite rb)) by (rewrite length_drop; lia).
      simpl. split; [by rewrite !length_blit by (rewrite ?length_blit by lia; lia)|].
      intros j Hj. change 0%nat with (Z.to_nat 0).
      rewrite tbl_blit_at by (rewrite ?length_blit by lia; lia). rewrite Hdr.
      rewrite tbl_blit_at by lia. rewrite Ht.
      assert (Em : (j - pwrite rb) mod rb_size rb = if j - pwrite rb <? 0 then j - pwrite rb + rb_size rb else j - pwrite rb).
      { bdestruct; [|apply Z.mod_small; lia]. symmetry. apply (Z.mod_unique_pos _ _ (-1)); lia. }
      rewrite Em. unfold tbl.
      bdestruct; simpl; first [done | lia | by rewrite lookup_take_lt by lia | rewrite lookup_drop; do 2 f_equal; lia].
  - simpl. rewrite u64_small by lia. eexists. split; [done|]. split; [by rewrite length_blit by lia|].
    intros j Hj. rewrite tbl_blit_at by lia.
    assert (Em : (j - pwrite rb) mod rb_size rb = if j - pwrite rb <? 0 then j - pwrite rb + rb_size rb else j - pwrite rb).
    { bdestruct; [|apply Z.mod_small; lia]. symmetry. apply (Z.mod_unique_pos _ _ (-1)); lia. }
    rewrite Em. bdestruct; simpl; (done || lia).
Qed.

Lemma write_ok buf rb :
  rb_ok rb -> Z.of_nat (length buf) <= dvb_ringbuffer_free rb ->
  exists rb', dvb_ringbuffer_write buf rb = (Z.of_nat (length buf), rb') /\ rb_ok rb'
    /\ contents rb' = contents rb ++ buf /\ rb_size rb' = rb_size rb /\ pread rb' = pread rb.
Proof.
  intros H Hf. pose proof (free_avail rb H) as Hfa. pose proof (avail_range rb H) as Ha.
  destruct (write_pieces rb buf H) as (d' & E & Hw); [lia|].
  destruct (produce_ok rb buf d' H Hf Hw) as [H' Hc]. eauto 10.
Qed.

Lemma contents_nil rb : rb_ok rb -> contents rb = [] <-> pread rb = pwrite rb.
Proof.
  intros H. pose proof (length_contents rb H) as Hl. pose proof H as [? ? ? ?].
  unfold dvb_ringbuffer_avail in Hl. split.
  - intros E. rewrite E in Hl. simpl in Hl. bdestruct; lia.
  - intros E. destruct (contents rb); [done|]. simpl in Hl. bdestruct; lia.
Qed.

(** C34: the ring is a queue of bytes of capacity [size - 1]: writing no more than is
    free appends, reading no more than is there removes from the front exactly what it
    returns, also where the transfer wraps at the end of the area; [empty], [free] and
    [avail] tell what the queue holds, [flush] and [reset] empty it. *)
Theorem ringbuffer_fifo rb :
  rb_ok rb ->
  (forall buf, Z.of_nat (length buf) <= dvb_ringbuffer_free rb ->
     exists rb', dvb_ringbuffer_write buf rb = (Z.of_nat (length buf), rb') /\ rb_ok rb'
       /\ contents rb' = contents rb ++ buf)
  /\ (forall len, 0 <= len <= dvb_ringbuffer_avail rb ->
     exists rb', dvb_ringbuffer_read len rb = (take (Z.to_nat len) (contents rb), rb') /\ rb_ok rb'
       /\ contents rb' = drop (Z.to_nat len) (contents rb))
  /\ (dvb_ringbuffer_empty rb = true <-> contents rb = [])
  /\ dvb_ringbuffer_avail rb = Z.of_nat (length (contents rb))
  /\ dvb_ringbuffer_free rb = rb_size rb - 1 - Z.of_nat (length (contents rb))
  /\ rb_ok (dvb_ringbuffer_flush rb) /\ contents (dvb_ringbuffer_flush rb) = []
  /\ rb_ok (dvb_ringbuffer_reset rb) /\ contents (dvb_ringbuffer_reset rb) = [].
Proof.
  intros H. pose proof H as [? ? ? ?]. split; [|split; [|split; [|split; [|split]]]].
  - intros buf Hf. destruct (write_ok buf rb H Hf) as (rb' & ? & ? & ? & _). eauto.
  - intros len Hl. destruct (consume_ok rb len H Hl) as (? & ? & _). rewrite read_ok by done. eauto.
  - rewrite contents_nil by done. unfold dvb_ringbuffer_empty. apply Z.eqb_eq.
  - by rewrite length_contents.
  - rewrite free_avail, length_contents by done. done.
  - assert (H1 : rb_ok (dvb_ringbuffer_flush rb)) by (by split).
    assert (H2 : rb_ok (dvb_ringbuffer_reset rb)) by (split; simpl; (done || lia)).
    rewrite !contents_nil by done. done.
Qed.

Definition sample_rb : dvb_ringbuffer := mk_rb [5; 6; 7; 1; 2; 3; 4; 9] 8 6 2 0.

Lemma sample_rb_ok : rb_ok sample_rb.
Proof. split; simpl; lia. Qed.

Lemma ringbuffer_fifo_witness :
  exists rb', dvb_ringbuffer_write [10; 11] sample_rb = (2, rb') /\ contents rb' = [4; 9; 5; 6; 10; 11].
Proof.
  destruct (ringbuffer_fifo sample_rb sample_rb_ok) as (H & _).
  destruct (H [10; 11]) as (rb' & E & _ & Hc); [by vm_compute|]. exists rb'. split; [exact E|]. rewrite Hc. reflexivity.
Defined.

Lemma write_user_ok f1 f2 buf rb :
  rb_ok rb -> Z.of_nat (length buf) <= dvb_ringbuffer_free rb ->
  exists n rb', dvb_ringbuffer_write_user f1 f2 buf rb = (n, rb') /\ rb_ok rb'
    /\ contents rb' = contents rb ++ take (Z.to_nat n) buf
    /\ (f1 = false -> f2 = false -> n = Z.of_nat (length buf)).
Proof.
  intros H Hf. pose proof (free_avail rb H) as Hfa. pose proof (avail_range rb H) as Ha.
  pose proof H as [Hs Hd Hr Hw].
  unfold dvb_ringbuffer_write_user, split_at. rewrite u64_small by lia.
  destruct (Z.ltb_spec (rb_size rb) (pwrite rb + Z.of_nat (length buf))) as [Hc|Hc].
  2: { simpl. destruct f2.
       - rewrite u64_small by lia. exists 0, rb. rewrite Z.sub_diag, app_nil_r. done.
       - destruct (write_ok buf rb H Hf) as (rb' & E & H' & Hc' & _). unfold dvb_ringbuffer_write, split_at in E.
         rewrite (u64_small (pwrite rb + _)), (proj2 (Z.ltb_ge _ _) Hc) in E by lia. simpl in E.
         eexists _, _. split; [exact E|]. split; [done|]. rewrite Nat2Z.id, take_ge by lia. done. }
  rewrite (proj2 (Z.ltb_lt 0 _)) by lia. destruct f1; simpl.
  { exists 0, rb. rewrite app_nil_r. done. }
  set (k := rb_size rb - pwrite rb). destruct f2.
  + rewrite (u64_small (_ - k)), u64_small by lia.
    replace (Z.of_nat (length buf) - (Z.of_nat (length buf) - k)) with k by lia.
    assert (Hk : Z.of_nat (length (take (Z.to_nat k) buf)) = k) by (rewrite length_take; lia).
    destruct (write_pieces rb (take (Z.to_nat k) buf) H) as (d' & E & Hwr); [lia|].
    assert (Hf' : Z.of_nat (length (take (Z.to_nat k) buf)) <= dvb_ringbuffer_free rb) by lia.
    destruct (produce_ok rb _ d' H Hf' Hwr) as [H' Hc'].
    assert (Ed : put_area rb (take (Z.to_nat k) buf) = d').
    { unfold dvb_ringbuffer_write, split_at in E. rewrite (u64_small (pwrite rb + _)), (proj2 (Z.ltb_ge (rb_size rb) _)) in E by lia.
      simpl in E. by injection E. }
    exists k. eexists. split; [done|]. rewrite Ed. rewrite Hk in H', Hc'.
    replace (pwrite rb + k) with (rb_size rb) in H', Hc' by lia. rewrite Z.mod_same in H', Hc' by lia.
    done.
  + destruct (write_ok buf rb H Hf) as (rb' & E & H' & Hc' & _). unfold dvb_ringbuffer_write, split_at in E.
    rewrite (u64_small (pwrite rb + _)), (proj2 (Z.ltb_lt _ _) Hc), (proj2 (Z.ltb_lt 0 _)) in E by lia.
    eexists _, _. split; [exact E|]. split; [done|]. rewrite Nat2Z.id, take_ge by lia. done.
Qed.

(** Transfers from and to user space: without a fault they are the kernel ones; a
    failing write reports how many bytes it stored and has stored exactly those; a read
    that fails on its second part has already given up the bytes before the end of the
    area: they are gone from the queue although the result is [-EFAULT]. *)
Theorem ringbuffer_user rb :
  rb_ok rb ->
  (forall f1 f2 buf, Z.of_nat (length buf) <= dvb_ringbuffer_free rb ->
     exists n rb', dvb_ringbuffer_write_user f1 f2 buf rb = (n, rb') /\ rb_ok rb'
       /\ contents rb' = contents rb ++ take (Z.to_nat n) buf
       /\ (f1 = false -> f2 = false -> n = Z.of_nat (length buf)))
  /\ (forall len, 0 <= len <= dvb_ringbuffer_avail rb ->
     dvb_ringbuffer_read_user false false len rb
     = (len, (dvb_ringbuffer_read len rb).1, (dvb_ringbuffer_read len rb).2))
  /\ (forall f2 len, 0 <= len <= dvb_ringbuffer_avail rb -> rb_size rb < pread rb + len ->
     exists rb1 rb2 out1 out2,
       dvb_ringbuffer_read_user true f2 len rb = (- EFAULT, out1, rb1) /\ contents rb1 = contents rb
       /\ dvb_ringbuffer_read_user false true len rb = (- EFAULT, out2, rb2)
       /\ contents rb2 = drop (Z.to_nat (rb_size rb - pread rb)) (contents rb)).
Proof.
  intros H. pose proof (free_avail rb H) as Hfa. pose proof (avail_range rb H) as Ha.
  pose proof H as [Hs Hd Hr Hw]. split; [|split].
  - intros f1 f2 buf Hf. by apply write_user_ok.
  - intros len Hl. by apply read_user_ok.
  - intros f2 len Hl Hc. unfold dvb_ringbuffer_read_user, split_at. rewrite u64_small by lia.
    rewrite (proj2 (Z.ltb_lt _ _) Hc), (proj2 (Z.ltb_lt 0 _)) by lia. simpl.
    eexists _, _, _, _. split; [done|]. split; [done|]. split; [done|].
    destruct (consume_ok rb (rb_size rb - pread rb) H) as (_ & E & _); [lia|]. rewrite <- E.
    replace (pread rb + (rb_size rb - pread rb)) with (rb_size rb) by lia. by rewrite Z.mod_same by lia.
Qed.

Lemma ringbuffer_user_witness :
  exists out rb', dvb_ringbuffer_read_user false true 3 sample_rb = (-14, out, rb') /\ contents rb' = [5; 6].
Proof.
  destruct (ringbuffer_user sample_rb sample_rb_ok) as (_ & _ & H).
  destruct (H false 3 ltac:(vm_compute; split; congruence) ltac:(vm_compute; congruence))
    as (rb1 & rb2 & o1 & o2 & _ & _ & E & Hc).
  exists o2, rb2. split; [exact E|]. rewrite Hc. reflexivity.
Defined.

(** * The queue of packets *)

(** A packet: its status and its payload; three bytes of header come first. *)
Definition enc_pkt (q : Z * list Z) : list Z :=
  let len := Z.of_nat (length q.2) in [len .>> 8; len .& 255; q.1] ++ q.2.
Definition enc_all (qs : list (Z * list Z)) : list Z := concat (enc_pkt <$> qs).
Definition off (qs : list (Z * list Z)) : Z := Z.of_nat (length (enc_all qs)).

(** The length field has two bytes, and the search takes no notice of an empty packet
    at the end. *)
Definition pkt_wf (q : Z * list Z) : Prop := 0 < Z.of_nat (length q.2) < 65536.

Definition packets (rb : dvb_ringbuffer) (qs : list (Z * list Z)) : Prop :=
  rb_ok rb /\ contents rb = enc_all qs /\ Forall pkt_wf qs.

#[export] Instance pkt_wf_dec q : Decision (pkt_wf q).
Proof. unfold pkt_wf. apply _. Defined.

(** Where the byte [o] of the contents is. *)
Definition idx_at (rb : dvb_ringbuffer) (o : Z) : Z := (pread rb + o) mod rb_size rb.

Lemma enc_all_app qs rs : enc_all (qs ++ rs) = enc_all qs ++ enc_all rs.
Proof. unfold enc_all. by rewrite fmap_app, concat_app. Qed.
Lemma enc_all_cons q qs : enc_all (q :: qs) = enc_pkt q ++ enc_all qs.
Proof. done. Qed.
Lemma off_app qs rs : off (qs ++ rs) = off qs + off rs.
Proof. unfold off. rewrite enc_all_app, length_app. lia. Qed.
Lemma off_cons q qs : off (q :: qs) = 3 + Z.of_nat (length q.2) + off qs.
Proof. unfold off. rewrite enc_all_cons, length_app. unfold enc_pkt. simpl. lia. Qed.
Lemma off_nonneg qs : 0 <= off qs.
Proof. unfold off. lia. Qed.

Lemma len_bytes n : 0 <= n < 65536 ->
  is_byte (n .>> 8) /\ is_byte (n .& 255) /\ ((n .>> 8) .<< 8) .| (n .& 255) = n.
Proof.
  intros Hn. rewrite land_255_u8. split; [|split; [apply u8_range|]].
  - unfold is_byte. rewrite Z.shiftr_div_pow2 by lia. split; [apply Z.div_pos; lia|].
    apply Z.div_lt_upper_bound; lia.
  - rewrite <- land_255_u8. apply Z.bits_inj'. intros i Hi. rewrite Z.lor_spec, Z.land_spec.
    change 255 with (Z.ones 8). destruct (Z.ltb_spec i 8).
    + rewrite Z.shiftl_spec_low, Z.ones_spec_low, andb_true_r by lia. done.
    + rewrite Z.shiftl_spec, Z.shiftr_spec, Z.ones_spec_high, andb_false_r, orb_false_r by lia. f_equal. lia.
Qed.

Lemma cell_contents rb k :
  0 <= k < dvb_ringbuffer_avail rb -> tbl (rb_data rb) (idx_at rb k) = tbl (contents rb) k.
Proof. intros. unfold contents. by rewrite ring_tbl. Qed.

Lemma idx_at_range rb o : rb_ok rb -> 0 <= idx_at rb o < rb_size rb.
Proof. intros [? ? ? ?]. apply Z.mod_pos_bound. lia. Qed.

(** The index arithmetic of the packet functions. *)
Lemma idx_at_add rb o k :
  rb_ok rb -> 0 <= k < 2 ^ 32 -> u64 (idx_at rb o + k) mod rb_size rb = idx_at rb (o + k).
Proof.
  intros H Hk. pose proof (idx_at_range rb o H). pose proof H as [? ? ? ?].
  rewrite u64_small by lia. unfold idx_at. apply skip_mod. lia.
Qed.

Lemma tbl_app_r (l k : list Z) i :
  Z.of_nat (length l) <= i -> tbl (l ++ k) i = tbl k (i - Z.of_nat (length l)).
Proof. intros. unfold tbl. rewrite lookup_app_r by lia. do 2 f_equal. lia. Qed.

(** The header of the packet behind [qs]. *)
Lemma header_at rb qs q rs :
  packets rb (qs ++ q :: rs) ->
  pkt_len rb (idx_at rb (off qs)) = Z.of_nat (length q.2)
  /\ tbl (rb_data rb) (u64 (idx_at rb (off qs) + 2) mod rb_size rb) = q.1
  /\ off qs + 3 + Z.of_nat (length q.2) + off rs = dvb_ringbuffer_avail rb.
Proof.
  intros (H & Hc & Hwf). pose proof (length_contents rb H) as Hl. rewrite Hc in Hl.
  fold (off (qs ++ q :: rs)) in Hl. rewrite off_app, off_cons in Hl.
  apply Forall_app in Hwf as [_ Hwf]. apply Forall_cons in Hwf as [Hq _]. unfold pkt_wf in Hq.
  pose proof (off_nonneg qs). pose proof (off_nonneg rs).
  assert (Hcell : forall k, 0 <= k < 3 ->
    tbl (rb_data rb) (idx_at rb (off qs + k)) = tbl (enc_pkt q) k).
  { intros k Hk. rewrite cell_contents, Hc, enc_all_app by lia. fold (off qs).
    rewrite tbl_app_r by (fold (off qs); lia). fold (off qs). replace (off qs + k - off qs) with k by lia.
    unfold tbl. rewrite enc_all_cons, lookup_app_l; [done|]. unfold enc_pkt. simpl. lia. }
  split; [|split; [|lia]].
  - unfold pkt_len. rewrite idx_at_add by (done || lia).
    pose proof (Hcell 0 ltac:(lia)) as E0. rewrite Z.add_0_r in E0. rewrite E0, (Hcell 1) by lia.
    apply len_bytes. lia.
  - rewrite idx_at_add by (done || lia). by rewrite Hcell by lia.
Qed.

Lemma write_byte_ok rb b :
  rb_ok rb -> 1 <= dvb_ringbuffer_free rb ->
  let rb' := DVB_RINGBUFFER_WRITE_BYTE rb b in
  rb_ok rb' /\ contents rb' = contents rb ++ [u8 b] /\ rb_size rb' = rb_size rb
  /\ dvb_ringbuffer_free rb' = dvb_ringbuffer_free rb - 1.
Proof.
  intros H Hf rb'. pose proof H as [Hs Hd Hr Hw].
  destruct (produce_ok rb [u8 b] (<[Z.to_nat (pwrite rb) := u8 b]> (rb_data rb)) H ltac:(simpl; lia)) as [H' Hc].
  { split; [by rewrite length_insert|]. intros j Hj. simpl. unfold tbl.
    destruct (decide (j = pwrite rb)) as [->|Hne].
    - rewrite Z.sub_diag, Z.mod_0_l by lia. simpl. rewrite list_lookup_insert_eq by lia. done.
    - rewrite list_lookup_insert_ne by lia.
      assert (Em : (j - pwrite rb) mod rb_size rb = if j - pwrite rb <? 0 then j - pwrite rb + rb_size rb else j - pwrite rb).
      { bdestruct; [|apply Z.mod_small; lia]. symmetry. apply (Z.mod_unique_pos _ _ (-1)); lia. }
      rewrite Em. bdestruct; (done || lia). }
  split; [done|]. split; [done|]. split; [done|].
  rewrite !free_avail by done. rewrite <- !length_contents by done. assert (Hc2 : contents rb' = contents rb ++ [u8 b]) by exact Hc. rewrite Hc2, length_app. simpl. lia.
Qed.

(** Writing a packet: when its header and payload fit, [dvb_ringbuffer_pkt_write]
    returns the length and adds the packet, marked ready, behind the others. *)
Theorem pkt_write_adds rb qs buf :
  packets rb qs -> pkt_wf (PKT_READY, buf) -> 3 + Z.of_nat (length buf) <= dvb_ringbuffer_free rb ->
  exists rb', dvb_ringbuffer_pkt_write buf rb = (Z.of_nat (length buf), rb')
    /\ packets rb' (qs ++ [(PKT_READY, buf)]).
Proof.
  intros (H & Hc & Hwf) Hq Hf. unfold pkt_wf in Hq. simpl in Hq.
  destruct (len_bytes (Z.of_nat (length buf)) ltac:(lia)) as (B1 & B2 & _).
  unfold dvb_ringbuffer_pkt_write.
  destruct (write_byte_ok rb (Z.of_nat (length buf) .>> 8) H ltac:(lia)) as (H1 & C1 & S1 & F1).
  revert H1 C1 S1 F1. generalize (DVB_RINGBUFFER_WRITE_BYTE rb (Z.of_nat (length buf) .>> 8)). intros r1 H1 C1 S1 F1.
  destruct (write_byte_ok r1 (Z.of_nat (length buf) .& 255) H1 ltac:(lia)) as (H2 & C2 & S2 & F2).
  revert H2 C2 S2 F2. generalize (DVB_RINGBUFFER_WRITE_BYTE r1 (Z.of_nat (length buf) .& 255)). intros r2 H2 C2 S2 F2.
  destruct (write_byte_ok r2 PKT_READY H2 ltac:(lia)) as (H3 & C3 & S3 & F3).
  revert H3 C3 S3 F3. generalize (DVB_RINGBUFFER_WRITE_BYTE r2 PKT_READY). intros r3 H3 C3 S3 F3.
  destruct (write_ok buf r3 H3 ltac:(lia)) as (r4 & E & H4 & C4 & _). rewrite E.
  pose proof (ok_size rb H). rewrite s32_small by lia. rewrite (proj2 (Z.ltb_ge _ 0)) by lia.
  exists r4. split; [done|]. split; [done|]. split; [|apply Forall_app; split; [done|by apply Forall_singleton]].
  rewrite C4, C3, C2, C1, Hc, enc_all_app, !u8_small by (done || by vm_compute).
  assert (enc_all [(PKT_READY, buf)] = enc_pkt (PKT_READY, buf)) as -> by apply app_nil_r.
  by rewrite <- !app_assoc.
Qed.

Definition sample_ring : dvb_ringbuffer :=
  mk_rb [0; 2; 0; 8; 9; 0; 0; 0; 0; 0; 0; 0; 0; 1; 1; 7] 16 12 5 0.

Lemma sample_ring_packets : packets sample_ring [(PKT_DISPOSED, [7]); (PKT_READY, [8; 9])].
Proof. split; [split; simpl; lia|]. split; [reflexivity|]. by apply (bool_decide_unpack _); vm_compute. Qed.

Lemma pkt_write_adds_witness :
  exists rb', dvb_ringbuffer_pkt_write [6] sample_ring = (1, rb')
    /\ packets rb' [(PKT_DISPOSED, [7]); (PKT_READY, [8; 9]); (PKT_READY, [6])].
Proof.
  assert (Hw : pkt_wf (PKT_READY, [6])) by (by apply (bool_decide_unpack _); vm_compute).
  exact (pkt_write_adds _ _ [6] (sample_ring_packets) Hw ltac:(by vm_compute)).
Defined.

(** Bytes [o] to [o + n] of the contents. *)
Lemma ring_contents rb o n :
  rb_ok rb -> 0 <= o -> 0 <= n -> o + n <= dvb_ringbuffer_avail rb ->
  ring (rb_data rb) (rb_size rb) (idx_at rb o) n = window (Z.to_nat o) (Z.to_nat n) (contents rb).
Proof.
  intros H Ho Hn Hle. pose proof (length_contents rb H) as Hl. pose proof H as [? ? ? ?].
  apply list_eq_tbl.
  - rewrite length_window by lia. pose proof (length_ring (rb_data rb) (rb_size rb) (idx_at rb o) n Hn). lia.
  - rewrite length_ring by lia. intros i Hi. rewrite ring_tbl by lia. unfold idx_at at 1.
    rewrite skip_mod by lia. fold (idx_at rb (o + i)). rewrite cell_contents by lia. by rewrite tbl_window by lia.
Qed.

(** Reading a packet: given the index of a packet, [dvb_ringbuffer_pkt_read] copies
    the bytes of its payload from the offset on, no more than asked for and than there
    are, and refuses an offset behind the payload; nothing is consumed; the user variant
    does the same when it does not fault. *)
Theorem pkt_read_payload rb qs q rs offset len :
  packets rb (qs ++ q :: rs) -> 0 <= offset < 2 ^ 31 -> 0 <= len < 2 ^ 31 ->
  let n := Z.min len (Z.of_nat (length q.2) - offset) in
  dvb_ringbuffer_pkt_read rb (idx_at rb (off qs)) offset len
  = (if Z.of_nat (length q.2) <? offset then (- EINVAL, [])
     else (n, take (Z.to_nat n) (drop (Z.to_nat offset) q.2)))
  /\ dvb_ringbuffer_pkt_read_user false false rb (idx_at rb (off qs)) offset len
     = dvb_ringbuffer_pkt_read rb (idx_at rb (off qs)) offset len.
Proof.
  intros P Ho Hlen n. destruct (header_at rb qs q rs P) as (Hp & _ & Hav). destruct P as (H & Hc & _).
  assert (Hu : dvb_ringbuffer_pkt_read_user false false rb (idx_at rb (off qs)) offset len
    = dvb_ringbuffer_pkt_read rb (idx_at rb (off qs)) offset len).
  { unfold dvb_ringbuffer_pkt_read_user, dvb_ringbuffer_pkt_read. destruct (_ <? u64 offset); [done|].
    rewrite andb_false_r. by destruct (0 <? _). }
  split; [|done]. clear Hu. pose proof (avail_range rb H) as Ha. pose proof H as [Hs Hd _ _].
  pose proof (off_nonneg qs). pose proof (off_nonneg rs).
  unfold dvb_ringbuffer_pkt_read. rewrite Hp. rewrite (u64_small offset) by lia.
  destruct (Z.ltb_spec (Z.of_nat (length q.2)) offset) as [Hlt|Hge]; [done|].
  rewrite (u64_small (offset + len)), (u64_small (Z.of_nat (length q.2) - offset)) by lia.
  assert (Hn : (if Z.of_nat (length q.2) <? offset + len then Z.of_nat (length q.2) - offset else len) = n)
    by (unfold n; bdestruct; lia).
  rewrite Hn. clear Hn. rewrite <- Z.add_assoc. rewrite idx_at_add by (done || (unfold DVB_RINGBUFFER_PKTHDRSIZE; lia)).
  set (o := off qs + (DVB_RINGBUFFER_PKTHDRSIZE + offset)). unfold DVB_RINGBUFFER_PKTHDRSIZE in o.
  assert (Hn : 0 <= n) by (unfold n; lia). assert (Hon : o + n <= dvb_ringbuffer_avail rb) by (unfold o, n; lia).
  destruct (read_pieces rb (idx_at rb o) n H (idx_at_range rb o H) ltac:(lia)) as (E & _ & Hsp).
  assert (Eout : window (Z.to_nat o) (Z.to_nat n) (contents rb) = take (Z.to_nat n) (drop (Z.to_nat offset) q.2)).
  { rewrite Hc, enc_all_app, enc_all_cons. unfold window.
    replace (Z.to_nat o) with (length (enc_all qs) + (3 + Z.to_nat offset))%nat by (unfold o, off; lia).
    rewrite <- drop_drop, drop_app_length, <- drop_drop. change (drop 3 (enc_pkt q ++ enc_all rs)) with (drop 0 (q.2 ++ enc_all rs)). rewrite drop_0. rewrite drop_app_le by lia.
    rewrite take_app_le by (rewrite length_drop; unfold n; lia). done. }
  rewrite ring_contents in E by (done || (subst o; lia)). rewrite Eout in E. rewrite <- E.
  destruct (Z.ltb_spec 0 (split_at rb (idx_at rb o) n)) as [Hpos|Hpos]; [|done].
  destruct (Hsp Hpos) as [Es Hle]. rewrite u64_small by lia. done.
Qed.

Lemma pkt_read_payload_witness :
  dvb_ringbuffer_pkt_read sample_ring 0 1 100 = (1, [9]).
Proof.
  pose proof (pkt_read_payload sample_ring [(PKT_DISPOSED, [7])] (PKT_READY, [8; 9]) [] 1 100
    sample_ring_packets ltac:(lia) ltac:(lia)) as [H _].
  exact H.
Defined.

(** The first ready packet, with its offset in the contents. *)
Fixpoint first_ready (o : Z) (qs : list (Z * list Z)) : option (Z * Z) :=
  match qs with
  | [] => None
  | q :: qs =>
      if q.1 =? PKT_READY then Some (o, Z.of_nat (length q.2))
      else first_ready (o + (3 + Z.of_nat (length q.2))) qs
  end.

Definition next_result (rb : dvb_ringbuffer) (r : option (Z * Z)) : Z * option Z :=
  match r with Some (o, len) => (idx_at rb o, Some len) | None => (-1, None) end.

Lemma next_loop_ok rb ps qs fuel :
  packets rb (ps ++ qs) -> (length qs <= fuel)%nat ->
  next_loop fuel rb (idx_at rb (off ps)) (off ps) = Some (next_result rb (first_ready (off ps) qs)).
Proof.
  revert ps fuel. induction qs as [|q qs IH]; intros ps fuel P Hf.
  - rewrite app_nil_r in P. destruct P as (H & Hc & _). pose proof (length_contents rb H) as Hl.
    rewrite Hc in Hl. fold (off ps) in Hl. simpl first_ready.
    destruct fuel; simpl; unfold DVB_RINGBUFFER_PKTHDRSIZE; by rewrite (proj2 (Z.leb_le _ 3)) by lia.
  - destruct (header_at rb ps q qs P) as (Hp & Hst & Hav). pose proof P as (H & Hc & Hwf).
    pose proof (avail_range rb H). pose proof H as [? ? ? ?]. pose proof (off_nonneg ps). pose proof (off_nonneg qs).
    apply Forall_app in Hwf as [_ Hwf]. apply Forall_cons in Hwf as [Hq _]. unfold pkt_wf in Hq.
    destruct fuel as [|fuel]; [simpl in Hf; lia|]. simpl in Hf.
    unfold next_loop; fold next_loop. unfold DVB_RINGBUFFER_PKTHDRSIZE. rewrite (proj2 (Z.leb_gt _ 3)) by lia.
    rewrite Hst, Hp. simpl first_ready. destruct (q.1 =? PKT_READY); [done|].
    rewrite <- Z.add_assoc, idx_at_add by (done || lia). rewrite s32_small by lia.
    assert (Eo : off ps + (Z.of_nat (length q.2) + 3) = off (ps ++ [q])).
    { rewrite off_app, off_cons. unfold off at 3. simpl. lia. }
    replace (off ps + Z.of_nat (length q.2) + 3) with (off (ps ++ [q])) by lia. rewrite Eo.
    rewrite IH; [|by rewrite <- app_assoc|lia]. do 3 f_equal. lia.
Qed.

(** Where the search starts: the subtraction of [size_t] values is taken modulo the
    size of the ring after it wrapped at [2^64]. *)
Definition no_wrap (rb : dvb_ringbuffer) (o : Z) : Prop :=
  2 ^ 64 mod rb_size rb = 0 \/ pread rb <= idx_at rb o.

Lemma consumed_ok rb o :
  rb_ok rb -> 0 <= o < rb_size rb -> no_wrap rb o -> s32 (u64 (idx_at rb o - pread rb) mod rb_size rb) = o.
Proof.
  intros H Ho Hw. pose proof (idx_at_range rb o H) as Hi. pose proof H as [Hs ? Hr ?].
  assert (E : u64 (idx_at rb o - pread rb) mod rb_size rb = (idx_at rb o - pread rb) mod rb_size rb).
  { destruct Hw as [Hw|Hw]; [|by rewrite u64_small by lia]. unfold u64.
    apply Z.mod_mod_divide. by apply Z.mod_divide; [lia|]. }
  rewrite E. unfold idx_at. rewrite Zminus_mod_idemp_l. replace (pread rb + o - pread rb) with o by lia.
  rewrite Z.mod_small by lia. apply s32_small. lia.
Qed.

(** Finding packets: from the start [dvb_ringbuffer_pkt_next] gives the index and
    length of the first ready packet, from a packet those of the first ready one after
    it, and [-1] when there is none; from a packet only as long as the distance to the
    read position does not wrap, or the size of the ring divides [2^64]. *)
Theorem pkt_next_finds rb ps q qs fuel :
  packets rb (ps ++ q :: qs) -> (length (ps ++ q :: qs) <= fuel)%nat ->
  dvb_ringbuffer_pkt_next fuel rb (u64 (-1)) = Some (next_result rb (first_ready 0 (ps ++ q :: qs)))
  /\ (no_wrap rb (off (ps ++ [q])) ->
      dvb_ringbuffer_pkt_next fuel rb (idx_at rb (off ps))
      = Some (next_result rb (first_ready (off (ps ++ [q])) qs))).
Proof.
  intros P Hf. pose proof P as (H & _). pose proof H as [? ? ? ?]. pose proof (avail_range rb H).
  assert (E0 : idx_at rb 0 = pread rb) by (unfold idx_at; rewrite Z.add_0_r; apply Z.mod_small; lia).
  split.
  - unfold dvb_ringbuffer_pkt_next. rewrite Z.eqb_refl.
    rewrite <- E0 at 1 2. rewrite consumed_ok; [|done|lia|right; by rewrite E0].
    by apply (next_loop_ok rb [] (ps ++ q :: qs)).
  - intros Hw. destruct (header_at rb ps q qs P) as (Hp & _ & Hav). pose proof (off_nonneg qs). pose proof (off_nonneg ps).
    pose proof (idx_at_range rb (off ps) H).
    unfold dvb_ringbuffer_pkt_next. rewrite (proj2 (Z.eqb_neq _ _)) by (change (u64 (-1)) with 18446744073709551615; lia). rewrite Hp.
    assert (Hlen : Z.of_nat (length q.2) < 65536).
    { destruct P as (_ & _ & Hwf). apply Forall_app in Hwf as [_ Hwf]. apply Forall_cons in Hwf as [Hq _]. apply Hq. }
    unfold DVB_RINGBUFFER_PKTHDRSIZE. rewrite <- Z.add_assoc, idx_at_add by (done || lia).
    assert (Eo : off ps + (Z.of_nat (length q.2) + 3) = off (ps ++ [q])).
    { rewrite off_app, off_cons. unfold off at 3. simpl. lia. }
    rewrite Eo, consumed_ok by (done || lia). apply next_loop_ok; [by rewrite <- app_assoc|].
    rewrite length_app in Hf. simpl in Hf. lia.
Qed.

Lemma pkt_next_finds_witness :
  dvb_ringbuffer_pkt_next 2 sample_ring (u64 (-1)) = Some (0, Some 2)
  /\ dvb_ringbuffer_pkt_next 2 sample_ring 12 = Some (0, Some 2).
Proof.
  destruct (pkt_next_finds sample_ring [] (PKT_DISPOSED, [7]) [(PKT_READY, [8; 9])] 2
    sample_ring_packets (le_n 2)) as [H1 H2].
  split; [exact H1|]. apply H2. left. by vm_compute.
Defined.

(** The ring of the CI driver has 65535 bytes, which does not divide [2^64].  Here three
    packets of one byte lie round the end of the area. *)
Definition ci_ring : dvb_ringbuffer :=
  mk_rb ([1; 0; 22; 0; 1; 0; 33] ++ repeat 0 (Z.to_nat 65523) ++ [0; 1; 1; 11; 0]) 65535 65530 7 0.

(** The search loses a packet in the ring of the CI driver: behind the second of
    three packets a ready one of one byte remains, but, the read position being near
    the end of the area, [dvb_ringbuffer_pkt_next] answers that there is none, although
    from the start it finds its way. *)
Theorem pkt_next_misses :
  contents ci_ring = enc_all [(PKT_DISPOSED, [11]); (PKT_READY, [22]); (PKT_READY, [33])]
  /\ dvb_ringbuffer_pkt_next 3 ci_ring (u64 (-1)) = Some (65534, Some 1)
  /\ first_ready (off [(PKT_DISPOSED, [11]); (PKT_READY, [22])]) [(PKT_READY, [33])] = Some (8, 1)
  /\ idx_at ci_ring 8 = 3
  /\ dvb_ringbuffer_pkt_next 3 ci_ring 65534 = Some (-1, None).
Proof. vm_compute. done. Qed.

(** * Disposing of packets *)

Lemma idx_at_inj rb o1 o2 :
  rb_ok rb -> 0 <= o1 < rb_size rb -> 0 <= o2 < rb_size rb -> idx_at rb o1 = idx_at rb o2 -> o1 = o2.
Proof.
  intros [? ? ? ?] H1 H2 E. unfold idx_at in E. rewrite !mod_wrap in E by lia. bdestruct; lia.
Qed.

(** Overwriting one byte of the contents. *)
Lemma contents_set rb o x :
  rb_ok rb -> 0 <= o < dvb_ringbuffer_avail rb ->
  let rb' := mk_rb (<[Z.to_nat (idx_at rb o) := x]> (rb_data rb)) (rb_size rb) (pread rb) (pwrite rb) (rb_error rb) in
  rb_ok rb' /\ contents rb' = <[Z.to_nat o := x]> (contents rb).
Proof.
  intros H Ho rb'. pose proof (avail_range rb H) as Ha. pose proof H as [Hs Hd Hr Hw].
  assert (H' : rb_ok rb') by (split; simpl; [done|by rewrite length_insert|done|done]). split; [done|].
  pose proof (length_contents rb H) as Hl. pose proof (length_contents rb' H') as Hl'.
  change (dvb_ringbuffer_avail rb') with (dvb_ringbuffer_avail rb) in Hl'.
  apply list_eq_tbl; [rewrite length_insert; lia|]. intros i Hi. rewrite Hl' in Hi.
  rewrite <- (cell_contents rb' i) by done. change (idx_at rb' i) with (idx_at rb i). simpl.
  pose proof (idx_at_range rb o H). pose proof (idx_at_range rb i H). unfold tbl.
  destruct (decide (i = o)) as [->|Hne].
  - rewrite !list_lookup_insert_eq by lia. done.
  - rewrite !list_lookup_insert_ne.
    + fold (tbl (rb_data rb) (idx_at rb i)). fold (tbl (contents rb) i). by apply cell_contents.
    + lia.
    + intros E. apply Hne. apply (idx_at_inj rb); [done|lia|lia|]. lia.
Qed.

(** The packets from the first one that is not disposed of. *)
Fixpoint drop_disposed (qs : list (Z * list Z)) : list (Z * list Z) :=
  match qs with
  | [] => []
  | q :: qs' => if q.1 =? PKT_DISPOSED then drop_disposed qs' else qs
  end.

Lemma peek_idx rb k : DVB_RINGBUFFER_PEEK rb k = tbl (rb_data rb) (idx_at rb k).
Proof. done. Qed.

Lemma skip_ok rb q qs :
  packets rb (q :: qs) ->
  packets (DVB_RINGBUFFER_SKIP rb (Z.of_nat (length q.2) + 3)) qs.
Proof.
  intros P. destruct (header_at rb [] q qs P) as (_ & _ & Hav). change (off []) with 0 in Hav.
  destruct P as (H & Hc & Hwf). apply Forall_cons in Hwf as [_ Hwf]. pose proof (avail_range rb H). pose proof H as [? ? ? ?].
  pose proof (off_nonneg qs). unfold DVB_RINGBUFFER_SKIP. rewrite u64_small by lia.
  destruct (consume_ok rb (Z.of_nat (length q.2) + 3) H ltac:(lia)) as (H' & Hc' & _).
  split; [done|]. split; [|done]. rewrite Hc', Hc, enc_all_cons. apply drop_app_len. unfold enc_pkt. simpl. lia.
Qed.

Lemma dispose_loop_ok rb qs fuel :
  packets rb qs -> (length qs <= fuel)%nat ->
  exists rb', dispose_loop fuel rb = Some rb' /\ packets rb' (drop_disposed qs).
Proof.
  revert rb fuel. induction qs as [|q qs IH]; intros rb fuel P Hf.
  - destruct P as (H & Hc & Hw). pose proof (length_contents rb H) as Hl. rewrite Hc in Hl. simpl in Hl.
    exists rb. destruct fuel; simpl; unfold DVB_RINGBUFFER_PKTHDRSIZE; by rewrite (proj2 (Z.leb_le _ 3)) by lia.
  - destruct (header_at rb [] q qs P) as (Hp & Hst & Hav). change (off []) with 0 in *.
    pose proof P as (H & Hc & Hwf). pose proof (off_nonneg qs). pose proof H as [? ? ? ?].
    apply Forall_cons in Hwf as [Hq _]. unfold pkt_wf in Hq.
    destruct fuel as [|fuel]; [simpl in Hf; lia|]. simpl in Hf.
    unfold dispose_loop; fold dispose_loop. unfold DVB_RINGBUFFER_PKTHDRSIZE.
    rewrite (proj2 (Z.leb_gt _ 3)) by lia. rewrite !peek_idx.
    rewrite idx_at_add in Hst by (done || lia). change (0 + 2) with 2 in Hst. rewrite Hst.
    unfold pkt_len in Hp. rewrite idx_at_add in Hp by (done || lia). change (0 + 1) with 1 in Hp. rewrite Hp.
    simpl drop_disposed. destruct (q.1 =? PKT_DISPOSED); [|by exists rb].
    apply IH; [by apply skip_ok|lia].
Qed.

(** Disposing of a packet marks it, and frees the disposed packets in front of the
    first one still in use: the others keep their bytes; the cleaning loop ends after at
    most as many rounds as there are packets. *)
Theorem pkt_dispose_frees rb qs q rs fuel :
  packets rb (qs ++ q :: rs) -> (length (qs ++ q :: rs) <= fuel)%nat ->
  exists rb', dvb_ringbuffer_pkt_dispose fuel (idx_at rb (off qs)) rb = Some rb'
    /\ packets rb' (drop_disposed (qs ++ (PKT_DISPOSED, q.2) :: rs)).
Proof.
  intros P Hf. destruct (header_at rb qs q rs P) as (_ & _ & Hav). destruct P as (H & Hc & Hwf).
  pose proof (off_nonneg qs). pose proof (off_nonneg rs).
  unfold dvb_ringbuffer_pkt_dispose. rewrite idx_at_add by (done || lia).
  destruct (contents_set rb (off qs + 2) PKT_DISPOSED H ltac:(lia)) as [H' Hc'].
  apply dispose_loop_ok; [|rewrite length_app in *; simpl in *; lia].
  split; [done|]. split.
  - rewrite Hc', Hc, !enc_all_app, !enc_all_cons. replace (Z.to_nat (off qs + 2)) with (length (enc_all qs) + 2)%nat
      by (unfold off; lia). by rewrite insert_app_r.
  - apply Forall_app in Hwf as [W1 W2]. apply Forall_cons in W2 as [W2 W3].
    apply Forall_app. split; [done|]. apply Forall_cons. by split.
Qed.

Lemma pkt_dispose_frees_witness :
  exists rb', dvb_ringbuffer_pkt_dispose 2 0 sample_ring = Some rb' /\ packets rb' [].
Proof.
  exact (pkt_dispose_frees sample_ring [(PKT_DISPOSED, [7])] (PKT_READY, [8; 9]) [] 2
    sample_ring_packets (le_n 2)).
Defined.
