(* ===== verification/PhydmMath.v ===== *)
(** [phydm_math_lib.c] of the Wi-Fi driver: conversions between decibels and linear
    values, sign extension, bitmaps, intervals and the ranking sort. *)

From Stdlib Require Import Sorted.
From S2P Require Import Prelude.

Definition BIT (x : Z) : Z := 1 .<< x.
Definition FRAC_BITS : Z := 3.

(** * Decibels *)

Definition db_invert_table : list (list Z) := [
  [10; 13; 16; 20; 25; 32; 40; 50];
  [64; 80; 101; 128; 160; 201; 256; 318];
  [401; 505; 635; 800; 1007; 1268; 1596; 2010];
  [316; 398; 501; 631; 794; 1000; 1259; 1585];
  [1995; 2512; 3162; 3981; 5012; 6310; 7943; 10000];
  [12589; 15849; 19953; 25119; 31623; 39811; 50119; 63098];
  [79433; 100000; 125893; 158489; 199526; 251189; 316228; 398107];
  [501187; 630957; 794328; 1000000; 1258925; 1584893; 1995262; 2511886];
  [3162278; 3981072; 5011872; 6309573; 7943282; 1000000; 12589254; 15848932];
  [19952623; 25118864; 31622777; 39810717; 50118723; 63095734; 79432823; 100000000];
  [125892541; 158489319; 199526232; 251188643; 316227766; 398107171; 501187234; 630957345];
  [794328235; 1000000000; 1258925412; 1584893192; 1995262315; 2511886432; 3162277660; 3981071706]].

Definition db_at (i j : Z) : Z := tbl (default [] (db_invert_table !! Z.to_nat i)) j.

(** The loop of [odm_pwdb_conversion] over [i]: the position of the highest bit set and
    the correction for the bit below. *)
Fixpoint pwdb_loop (X : Z) (i : nat) : Z * Z :=
  match i with
  | O => (0, 0)
  | S k =>
      if truthy (X .& BIT (Z.of_nat i))
      then (Z.of_nat i, if truthy (X .& BIT (Z.of_nat i - 1)) then 2 else 0)
      else pwdb_loop X k
  end.

(** [total_bit] from 1 to 32. *)
Definition odm_pwdb_conversion (X total_bit decimal_bit : Z) : Z :=
  let X := if X =? 0 then 1 else X in
  let '(integer, decimal) := pwdb_loop X (Z.to_nat (total_bit - 1)) in
  s32 (3 * (integer - decimal_bit) + decimal).

(** The first index below [n] at which [test] holds, [n] when there is none. *)
Definition first_index (n : nat) (test : Z -> bool) : Z :=
  match list_find (fun k => test (Z.of_nat k) = true) (seq 0 n) with
  | Some (k, _) => Z.of_nat k
  | None => Z.of_nat n
  end.

Definition odm_convert_to_db (value : Z) : Z :=
  if db_at 11 7 <=? value then 96
  else
    let scaled := u64 (value .<< FRAC_BITS) in
    let i := first_index 12 (fun i => if i <=? 2 then scaled <=? db_at i 7 else value <=? db_at i 7) in
    let j := first_index 8 (fun j => if i <=? 2 then scaled <=? db_at i j else (i <? 12) && (value <=? db_at i j)) in
    let '(i, j) :=
      if (j =? 0) && (i =? 0) then (i, j)
      else if (i =? 3) && (j =? 0) then
        if u64 (value - (db_at 2 7 .>> FRAC_BITS)) <? u64 (db_at 3 0 - value) then (2, 7) else (i, j)
      else
        let value := if i <? 3 then scaled else value in
        if j =? 0 then
          if u64 (value - db_at (i - 1) 7) <? u64 (db_at i j - value) then (i - 1, 7) else (i, j)
        else
          if u64 (value - db_at i (j - 1)) <? u64 (db_at i j - value) then (i, j - 1) else (i, j) in
    (i .<< 3) + j + 1.

Definition phydm_db_2_linear (value : Z) : Z :=
  let value := value .& 255 in
  if value <? 1 then 1
  else
    let value := if 96 <? value then 96 else value in
    let i := (value - 1) .>> 3 in
    let j := u8 (value - 1) - (i .<< 3) in
    let linear := db_at i j in
    if 2 <? i then u64 (linear .<< FRAC_BITS) else linear.

(** * Signs and bitmaps *)

Definition odm_sign_conversion (value total_bit : Z) : Z :=
  if truthy (value .& BIT (total_bit - 1)) then s32 (value - BIT total_bit) else value.

Definition phydm_cnvrt_2_sign (val bit_num : Z) : Z :=
  if 32 <=? bit_num then s32 val
  else s32 (if truthy (val .& BIT (bit_num - 1)) then u32 (val - BIT bit_num) else val).

Definition phydm_cnvrt_2_sign_64 (val bit_num : Z) : Z :=
  if 64 <=? bit_num then s64 val
  else if truthy (val .& u64 (1 .<< (bit_num - 1))) then s64 (u64 (val - u64 (1 .<< bit_num)))
  else s64 val.

(** [base >> (bit_num - i)] for the bits that are set, from the top. *)
Definition phydm_show_fraction_num (frac_val bit_num : Z) : Z :=
  foldl (fun val i => if truthy (frac_val .& BIT (i - 1)) then u16 (val + (5000 .>> (bit_num - i))) else val)
    0 (reverse (seqZ 1 bit_num)).

Definition ones_step (st : Z * Z) : Z * Z :=
  let '(val, ones_num) := st in (val .>> 1, if truthy (val .& BIT 0) then u8 (ones_num + 1) else ones_num).
Definition phydm_ones_num_in_bitmap (val : Z) (size : nat) : Z := (Nat.iter size ones_step (val, 0)).2.

Definition phydm_gen_bitmask (mask_num : nat) : Z :=
  if (64 <? mask_num)%nat then 1
  else Nat.iter mask_num (fun bitmask => u64 (bitmask .<< 1) .| BIT 0) 0.

(** * Intervals *)

Fixpoint intrvl_loop (val max_th : Z) (i : Z) (threshold : list Z) (th_len : Z) : Z :=
  match threshold with
  | [] => 0
  | t :: ts =>
      if val <? t then i
      else if max_th <=? val then th_len
      else intrvl_loop val max_th (i + 1) ts th_len
  end.

(** [threshold] has [th_len > 0] elements. *)
Definition phydm_find_intrvl (val : Z) (threshold : list Z) : Z :=
  let th_len := Z.of_nat (length threshold) in
  intrvl_loop val (tbl threshold (th_len - 1)) 0 threshold th_len.

(** * Ranking *)

(** The body of the inner loop: the two arrays are [value] and [rank_idx]. *)
Definition sort_step (st : list Z * list Z) (j : nat) : list Z * list Z :=
  let '(value, rank_idx) := st in
  let tmp_a := tbl value (Z.of_nat j) in
  let tmp_b := tbl value (Z.of_nat j + 1) in
  let tmp_idx_a := tbl rank_idx (Z.of_nat j) in
  let tmp_idx_b := tbl rank_idx (Z.of_nat j + 1) in
  if tmp_a <? tmp_b
  then (<[(j + 1)%nat := tmp_a]> (<[j := tmp_b]> value),
        <[(j + 1)%nat := tmp_idx_a]> (<[j := tmp_idx_b]> rank_idx))
  else st.

Definition sort_pass (st : list Z * list Z) (m : nat) : list Z * list Z := foldl sort_step st (seq 0 m).

(** The arrays hold [seq_length] elements; the result is [value], [rank_idx] and
    [idx_out] afterwards. *)
Definition phydm_seq_sorting (value idx_out : list Z) : list Z * list Z * list Z :=
  let seq_length := length value in
  let rank_idx := seqZ 0 (Z.of_nat seq_length) in
  let '(value, rank_idx) :=
    foldl (fun st i => sort_pass st (seq_length - 1 - i)) (value, rank_idx) (seq 0 (seq_length - 1)) in
  let idx_out := foldl (fun out i => <[Z.to_nat (tbl rank_idx (Z.of_nat i)) := Z.of_nat i + 1]> out)
                   idx_out (seq 0 seq_length) in
  (value, rank_idx, idx_out).

(** * Bits *)

Lemma BIT_pow k : 0 <= k -> BIT k = 2 ^ k.
Proof. intros. unfold BIT. rewrite Z.shiftl_mul_pow2 by lia. lia. Qed.

(** The value of [b] bits as a two's complement number. *)
Definition twos (b v : Z) : Z := if v <? 2 ^ (b - 1) then v else v - 2 ^ b.

Lemma sign_bit b v : 1 <= b -> 0 <= v < 2 ^ b -> Z.testbit v (b - 1) = negb (v <? 2 ^ (b - 1)).
Proof.
  intros Hb Hv. assert (Hp : 2 ^ b = 2 * 2 ^ (b - 1)).
  { rewrite <- Z.pow_succ_r by lia. f_equal. lia. }
  assert (H0 : 0 < 2 ^ (b - 1)) by (apply Z.pow_pos_nonneg; lia).
  rewrite Z.testbit_odd, Z.shiftr_div_pow2 by lia. destruct (Z.ltb_spec v (2 ^ (b - 1))) as [H|H].
  - by rewrite Z.div_small by lia.
  - replace (v / 2 ^ (b - 1)) with 1; [done|].
    apply (Z.div_unique_pos _ _ _ (v - 2 ^ (b - 1))); lia.
Qed.

Lemma twos_range b v : 1 <= b -> 0 <= v < 2 ^ b -> - 2 ^ (b - 1) <= twos b v < 2 ^ (b - 1).
Proof.
  intros Hb Hv. assert (Hp : 2 ^ b = 2 * 2 ^ (b - 1)).
  { rewrite <- Z.pow_succ_r by lia. f_equal. lia. }
  unfold twos. bdestruct; lia.
Qed.

Lemma s32_mod x : s32 (x mod 2 ^ 32) = s32 x.
Proof. unfold s32. by rewrite Zplus_mod_idemp_l. Qed.
Lemma s64_mod x : s64 (x mod 2 ^ 64) = s64 x.
Proof. unfold s64. by rewrite Zplus_mod_idemp_l. Qed.
Lemma s32_twos v : 0 <= v < 2 ^ 32 -> s32 v = twos 32 v.
Proof.
  intros Hv. unfold s32, twos. change (32 - 1) with 31. bdestruct; [rewrite Z.mod_small; lia|].
  rewrite <- (Z.mod_unique_pos (v + 2 ^ 31) (2 ^ 32) 1 (v - 2 ^ 31)); lia.
Qed.
Lemma s64_twos v : 0 <= v < 2 ^ 64 -> s64 v = twos 64 v.
Proof.
  intros Hv. unfold s64, twos. change (64 - 1) with 63. bdestruct; [rewrite Z.mod_small; lia|].
  rewrite <- (Z.mod_unique_pos (v + 2 ^ 63) (2 ^ 64) 1 (v - 2 ^ 63)); lia.
Qed.

Lemma pow_split b c : 0 <= b <= c -> 2 ^ b <= 2 ^ c.
Proof. intros. apply Z.pow_le_mono_r; lia. Qed.

(** The three sign conversions give the two's complement value of the low [b] bits,
    for every width of their types; from the full width on the two [phydm] ones
    reinterpret the whole word. *)
Theorem sign_conversions b v :
  1 <= b ->
  (b <= 31 -> 0 <= v < 2 ^ b ->
     odm_sign_conversion v b = twos b v /\ phydm_cnvrt_2_sign v b = twos b v)
  /\ (b <= 63 -> 0 <= v < 2 ^ b -> phydm_cnvrt_2_sign_64 v b = twos b v)
  /\ (32 <= b -> 0 <= v < 2 ^ 32 -> phydm_cnvrt_2_sign v b = twos 32 v)
  /\ (64 <= b -> 0 <= v < 2 ^ 64 -> phydm_cnvrt_2_sign_64 v b = twos 64 v).
Proof.
  intros Hb. split; [|split; [|split]].
  - intros Hb' Hv. pose proof (twos_range b v Hb Hv) as Hr. pose proof (pow_split b 31 ltac:(lia)).
    pose proof (pow_split (b - 1) 31 ltac:(lia)). unfold twos in Hr.
    unfold odm_sign_conversion, phydm_cnvrt_2_sign. rewrite (proj2 (Z.leb_gt 32 b)) by lia.
    rewrite !BIT_pow, land_bit, sign_bit by lia. unfold twos, u32.
    bdestruct; simpl; rewrite ?s32_mod, !s32_small; lia.
  - intros Hb' Hv. pose proof (twos_range b v Hb Hv) as Hr. pose proof (pow_split b 63 ltac:(lia)).
    pose proof (pow_split (b - 1) 63 ltac:(lia)). unfold twos in Hr.
    unfold phydm_cnvrt_2_sign_64. rewrite (proj2 (Z.leb_gt 64 b)) by lia.
    fold (BIT (b - 1)). fold (BIT b). rewrite !BIT_pow by lia.
    assert (Hpos : 0 < 2 ^ (b - 1)) by (apply Z.pow_pos_nonneg; lia).
    rewrite (u64_small (2 ^ (b - 1))), (u64_small (2 ^ b)), land_bit, sign_bit by lia. unfold twos, u64.
    bdestruct; simpl; rewrite ?s64_mod, s64_small; lia.
  - intros Hb' Hv. unfold phydm_cnvrt_2_sign. rewrite (proj2 (Z.leb_le 32 b)) by lia. by apply s32_twos.
  - intros Hb' Hv. unfold phydm_cnvrt_2_sign_64. rewrite (proj2 (Z.leb_le 64 b)) by lia. by apply s64_twos.
Qed.

Lemma sign_conversions_witness : phydm_cnvrt_2_sign 2047 11 = -1 /\ odm_sign_conversion 1023 11 = 1023.
Proof.
  destruct (sign_conversions 11 2047 ltac:(lia)) as [H1 _].
  destruct (sign_conversions 11 1023 ltac:(lia)) as [H2 _].
  split; [apply (H1 ltac:(lia) ltac:(lia))|apply (H2 ltac:(lia) ltac:(lia))].
Defined.

(** * The ranking sort *)

(** One pass on a list of pairs, seen from the front. *)
Fixpoint bubble (m : nat) (l : list (Z * Z)) : list (Z * Z) :=
  match m, l with
  | S m, p :: q :: l => if p.1 <? q.1 then q :: bubble m (p :: l) else p :: bubble m (q :: l)
  | _, _ => l
  end.

Definition pair_step (l : list (Z * Z)) (j : nat) : list (Z * Z) :=
  match l !! j, l !! (j + 1)%nat with
  | Some p, Some q => if p.1 <? q.1 then <[(j + 1)%nat := p]> (<[j := q]> l) else l
  | _, _ => l
  end.

Lemma pair_step_cons p l j : pair_step (p :: l) (S j) = p :: pair_step l j.
Proof.
  unfold pair_step. simpl. destruct (l !! j) as [a|]; [|done].
  destruct (l !! (j + 1)%nat) as [b|]; [|done]. by destruct (a.1 <? b.1).
Qed.

Lemma pair_fold_cons p l js : foldl pair_step (p :: l) (S <$> js) = p :: foldl pair_step l js.
Proof. revert l. induction js as [|j js IH]; intros l; simpl; [done|]. rewrite pair_step_cons. apply IH. Qed.

Lemma bubble_fold m l : (m < length l)%nat -> foldl pair_step l (seq 0 m) = bubble m l.
Proof.
  revert l. induction m as [|m IH]; intros l Hm; [done|].
  destruct l as [|p [|q l]]; simpl in Hm; [lia|lia|].
  rewrite <- cons_seq, <- fmap_S_seq. simpl foldl.
  assert (E : pair_step (p :: q :: l) 0 = if p.1 <? q.1 then q :: p :: l else p :: q :: l).
  { unfold pair_step. simpl. by destruct (p.1 <? q.1). }
  rewrite E. simpl bubble. destruct (p.1 <? q.1); rewrite pair_fold_cons, IH by (simpl; lia); done.
Qed.

Lemma bubble_perm m l : bubble m l ≡ₚ l.
Proof.
  revert l. induction m as [|m IH]; intros l; [done|]. destruct l as [|p [|q l]]; [done|done|].
  simpl. destruct (p.1 <? q.1); rewrite IH; [apply perm_swap|done].
Qed.

Lemma length_bubble m l : length (bubble m l) = length l.
Proof. apply Permutation_length, bubble_perm. Qed.

(** A pass over a prefix brings its smallest value to the end and leaves the rest. *)
Lemma bubble_split m p s :
  length p = S m ->
  exists p' x, bubble m (p ++ s) = p' ++ x :: s /\ length p' = m /\ p' ++ [x] ≡ₚ p
    /\ Forall (fun y => x.1 <= y.1) p'.
Proof.
  revert p. induction m as [|m IH]; intros p Hp.
  - destruct p as [|x [|y p]]; try done. exists [], x. done.
  - destruct p as [|x [|y p]]; try done. simpl in Hp. simpl.
    destruct (Z.ltb_spec x.1 y.1) as [Hlt|Hge].
    + destruct (IH (x :: p)) as (p' & z & E & Hl & Hperm & Hmin); [simpl; lia|].
      exists (y :: p'), z. simpl in E. rewrite E. split; [done|]. split; [simpl; lia|]. split.
      * simpl. rewrite Hperm. apply perm_swap.
      * constructor; [|done]. assert (In x (p' ++ [z])) as Hin.
        { apply (Permutation_in x (Permutation_sym Hperm)). by left. }
        rewrite Forall_forall in Hmin. apply in_app_or in Hin as [Hin|[->|[]]]; [|lia].
        apply list_elem_of_In in Hin. specialize (Hmin x Hin). simpl in Hmin. lia.
    + destruct (IH (y :: p)) as (p' & z & E & Hl & Hperm & Hmin); [simpl; lia|].
      exists (x :: p'), z. simpl in E. rewrite E. split; [done|]. split; [simpl; lia|]. split.
      * simpl. by rewrite Hperm.
      * constructor; [|done]. assert (In y (p' ++ [z])) as Hin.
        { apply (Permutation_in y (Permutation_sym Hperm)). by left. }
        rewrite Forall_forall in Hmin. apply in_app_or in Hin as [Hin|[->|[]]]; [|lia].
        apply list_elem_of_In in Hin. specialize (Hmin y Hin). simpl in Hmin. lia.
Qed.

Definition desc (l : list (Z * Z)) : Prop := StronglySorted (fun x y => y.1 <= x.1) l.

(** The outer loop: after [i] rounds the last [i] pairs are in place. *)
Lemma outer_sorted l i :
  (i <= length l - 1)%nat ->
  exists p s, foldl (fun l i => bubble (length l - 1 - i) l) l (seq 0 i) = p ++ s
    /\ length s = i /\ p ++ s ≡ₚ l /\ desc s /\ Forall (fun y => Forall (fun x => x.1 <= y.1) s) p.
Proof.
  induction i as [|i IH]; intros Hi.
  - exists l, []. rewrite app_nil_r. split; [done|]. split; [done|]. split; [done|].
    split; [constructor|]. by apply Forall_true.
  - destruct IH as (p & s & E & Hs & Hperm & Hd & Hle); [lia|].
    rewrite seq_S, foldl_app, E. simpl. pose proof (Permutation_length Hperm) as Hl. rewrite length_app in Hl.
    replace (length (p ++ s) - 1 - i)%nat with (length p - 1)%nat by (rewrite length_app; lia).
    destruct (bubble_split (length p - 1) p s) as (p' & x & -> & Hl' & Hp' & Hmin); [lia|].
    assert (Hle' : Forall (fun y => Forall (fun x => x.1 <= y.1) s) (p' ++ [x])) by (by rewrite Hp').
    apply Forall_app in Hle' as [Hle1 Hx]. apply Forall_inv in Hx.
    exists p', (x :: s). split; [done|]. split; [simpl; lia|]. split.
    + rewrite <- Hperm, <- Hp'. by rewrite <- app_assoc.
    + split; [unfold desc; constructor; [exact Hd|exact Hx]|]. rewrite Forall_forall in Hle1, Hmin |- *. intros y Hy.
      constructor; [by apply Hmin|by apply Hle1].
Qed.

Lemma sort_step_pairs l j :
  (j + 1 < length l)%nat -> sort_step (l.*1, l.*2) j = ((pair_step l j).*1, (pair_step l j).*2).
Proof.
  intros Hj. destruct (lookup_lt_is_Some_2 l j) as [p Ep]; [lia|].
  destruct (lookup_lt_is_Some_2 l (j + 1)) as [q Eq]; [lia|].
  assert (Ht : forall (f : Z * Z -> Z) k x, l !! k = Some x -> tbl (f <$> l) (Z.of_nat k) = f x).
  { intros f k x Ek. unfold tbl. by rewrite Nat2Z.id, list_lookup_fmap, Ek. }
  unfold sort_step. replace (Z.of_nat j + 1) with (Z.of_nat (j + 1)) by lia.
  rewrite !(Ht fst j p), !(Ht snd j p), !(Ht fst _ q), !(Ht snd _ q) by done.
  unfold pair_step. rewrite Ep, Eq. destruct (p.1 <? q.1); [|done].
  by rewrite !list_fmap_insert.
Qed.

Lemma length_pair_step l j : length (pair_step l j) = length l.
Proof.
  unfold pair_step. destruct (l !! j) as [p|]; [|done]. destruct (l !! (j + 1)%nat) as [q|]; [|done].
  destruct (p.1 <? q.1); [|done]. by rewrite !length_insert.
Qed.

Lemma sort_pass_pairs l m :
  (m < length l)%nat -> sort_pass (l.*1, l.*2) m = ((bubble m l).*1, (bubble m l).*2).
Proof.
  intros Hm. rewrite <- bubble_fold by done. unfold sort_pass.
  assert (H : Forall (fun j => (j + 1 < length l)%nat) (seq 0 m)).
  { apply Forall_seq. intros. lia. }
  revert l Hm H. induction (seq 0 m) as [|j js IH]; intros l Hm H; [done|]. cbn [foldl].
  apply Forall_cons in H as [Hj H]. rewrite sort_step_pairs by done.
  apply IH; by rewrite length_pair_step.
Qed.

(** The inverse of the ranking. *)
Lemma ranks_ok r out n :
  NoDup r -> (n <= length r)%nat -> Forall (fun k => 0 <= k < Z.of_nat (length out)) r ->
  let out' := foldl (fun out i => <[Z.to_nat (tbl r (Z.of_nat i)) := Z.of_nat i + 1]> out) out (seq 0 n) in
  length out' = length out
  /\ forall i k, (i < n)%nat -> r !! i = Some k -> out' !! Z.to_nat k = Some (Z.of_nat i + 1).
Proof.
  intros Hn Hl Hr out'. subst out'. induction n as [|n IH]; [split; [done|lia]|].
  destruct IH as [IHl IH]; [lia|]. rewrite seq_S, foldl_app. simpl.
  split; [by rewrite length_insert|]. intros i k Hi Ek.
  destruct (lookup_lt_is_Some_2 r n) as [m Em]; [lia|].
  assert (tbl r (Z.of_nat n) = m) as -> by (unfold tbl; by rewrite Nat2Z.id, Em).
  pose proof (Forall_lookup_1 _ _ _ _ Hr Ek) as Hk. pose proof (Forall_lookup_1 _ _ _ _ Hr Em) as Hm.
  simpl in Hk, Hm. destruct (decide (i = n)) as [->|Hne].
  - assert (k = m) as -> by congruence. rewrite list_lookup_insert_eq; [done|]. rewrite IHl. lia.
  - rewrite list_lookup_insert_ne; [apply IH; [lia|done]|]. intros E. apply Hne.
    eapply NoDup_lookup; [done|exact Ek|]. replace k with m by lia. done.
Qed.

(** The ranking sort: [value] ends in descending order, [rank_idx] says from where
    each element came, and [idx_out] gives every original position its rank, counted
    from 1. *)
Theorem seq_sorting_ranks value idx_out :
  length idx_out = length value ->
  let '(v, r, out) := phydm_seq_sorting value idx_out in
  v ≡ₚ value /\ StronglySorted (fun x y => y <= x) v /\ r ≡ₚ seqZ 0 (Z.of_nat (length value))
  /\ forall i k, r !! i = Some k ->
       v !! i = value !! Z.to_nat k /\ out !! Z.to_nat k = Some (Z.of_nat i + 1).
Proof.
  intros Hl. set (n := length value). unfold phydm_seq_sorting. fold n.
  set (l0 := zip value (seqZ 0 (Z.of_nat n))).
  assert (Hz : length (seqZ 0 (Z.of_nat n)) = n) by (rewrite length_seqZ; lia).
  assert (E1 : l0.*1 = value) by (apply fst_zip; fold n; lia).
  assert (E2 : l0.*2 = seqZ 0 (Z.of_nat n)) by (apply snd_zip; fold n; lia).
  assert (Hl0 : length l0 = n) by (rewrite <- (length_fmap fst l0), E1; done).
  assert (Ef : forall m, (m <= n - 1)%nat ->
    foldl (fun st i => sort_pass st (n - 1 - i)) (value, seqZ 0 (Z.of_nat n)) (seq 0 m)
    = let l := foldl (fun l i => bubble (length l - 1 - i) l) l0 (seq 0 m) in (l.*1, l.*2)).
  { induction m as [|m IH]; intros Hm; [cbn; by rewrite E1, E2|]. rewrite seq_S, !foldl_app, IH by lia. simpl.
    destruct (outer_sorted l0 m) as (p & s & -> & _ & Hp & _); [lia|].
    pose proof (Permutation_length Hp) as Hlp. rewrite sort_pass_pairs by lia. by rewrite Hlp, Hl0. }
  rewrite Ef by lia. destruct (outer_sorted l0 (n - 1)) as (p & s & E & Hs & Hp & Hd & Hle); [lia|].
  rewrite E. cbv zeta. clear E Ef.
  assert (Hr : (p ++ s).*2 ≡ₚ seqZ 0 (Z.of_nat n)) by (by rewrite Hp, E2).
  assert (Hlen : length (p ++ s).*2 = n) by (by rewrite (Permutation_length Hr)).
  destruct (ranks_ok (p ++ s).*2 idx_out n) as [_ Hout].
  { rewrite Hr. apply NoDup_seqZ. }
  { lia. }
  { rewrite Hr, Hl. fold n. apply Forall_seqZ. intros. lia. }
  split; [by rewrite Hp, E1|]. split; [|split; [done|]].
  - assert (Hpl : (length p <= 1)%nat).
    { pose proof (Permutation_length Hp) as H. rewrite length_app in H. lia. }
    assert (Hsd : desc (p ++ s)).
    { destruct p as [|x [|y p]]; [done| |simpl in Hpl; lia]. simpl. apply Forall_inv in Hle. by constructor. }
    clear -Hsd. induction Hsd as [|x l _ IH Hx]; simpl; constructor; [done|]. by apply Forall_fmap.
  - intros i k Hk. pose proof (lookup_lt_Some _ _ _ Hk) as Hi. split; [|apply Hout; [lia|done]].
    rewrite list_lookup_fmap in Hk |- *. destruct ((p ++ s) !! i) as [[a b]|] eqn:Ei; [|done].
    simpl in Hk |- *. injection Hk as ->. symmetry.
    assert (Hin : (a, k) ∈ l0) by (rewrite <- Hp; by eapply list_elem_of_lookup_2).
    apply list_elem_of_lookup in Hin as [j Hj].
    assert (Ea : value !! j = Some a) by (rewrite <- E1, list_lookup_fmap, Hj; done).
    assert (Ek : seqZ 0 (Z.of_nat n) !! j = Some k) by (rewrite <- E2, list_lookup_fmap, Hj; done).
    apply lookup_seqZ in Ek as [-> _]. rewrite <- Ea. f_equal. lia.
Qed.

Lemma seq_sorting_ranks_witness :
  (phydm_seq_sorting [30; 50; 10; 50] [0; 0; 0; 0]).2 = [3; 1; 4; 2]
  /\ (phydm_seq_sorting [30; 50; 10; 50] [0; 0; 0; 0]).1.1 ≡ₚ [30; 50; 10; 50].
Proof.
  pose proof (seq_sorting_ranks [30; 50; 10; 50] [0; 0; 0; 0] eq_refl) as H.
  split; [by vm_compute|]. destruct (phydm_seq_sorting _ _) as [[v r] out]. apply H.
Defined.

(** * Decibels: where the table is right, and where it is not *)

Lemma db_2_linear_clamp v : phydm_db_2_linear v = phydm_db_2_linear (Z.min (v mod 256) 96).
Proof.
  assert (E : phydm_db_2_linear v = phydm_db_2_linear (v mod 256)).
  { unfold phydm_db_2_linear. rewrite !land_255_u8. unfold u8. change (2 ^ 8) with 256.
    by rewrite Zmod_mod. }
  rewrite E. apply Z.eqb_eq.
  apply (range_cases 256 (fun x => phydm_db_2_linear x =? phydm_db_2_linear (Z.min x 96))); [by vm_compute|].
  apply Z.mod_pos_bound. lia.
Qed.

Definition db_monotone_check : bool :=
  forallb (fun v => forallb (fun w =>
    (w <=? v) || (v =? 70) || (w =? 70) || (phydm_db_2_linear v <? phydm_db_2_linear w)) (seqZ 0 97)) (seqZ 0 97).

Definition db_roundtrip_check : bool :=
  forallb (fun v => (v <? 25) || (v =? 70) || (odm_convert_to_db (phydm_db_2_linear v .>> FRAC_BITS) =? v)) (seqZ 0 97).

(** Decibels: [phydm_db_2_linear] takes its argument modulo 256 and no higher than 96,
    grows strictly from 0 to 96 dB, and
    [odm_convert_to_db] inverts it from 25 dB on, with one exception: the entry for 70 dB
    lacks a zero, so that 70 dB is less than 60 dB is, and reads back as 60. *)
Theorem db_conversions :
  (forall v, phydm_db_2_linear v = phydm_db_2_linear (Z.min (v mod 256) 96))
  /\ (forall v w, 0 <= v < w -> w <= 96 -> v <> 70 -> w <> 70 -> phydm_db_2_linear v < phydm_db_2_linear w)
  /\ (forall v, 25 <= v <= 96 -> v <> 70 -> odm_convert_to_db (phydm_db_2_linear v .>> FRAC_BITS) = v)
  /\ phydm_db_2_linear 70 = phydm_db_2_linear 60
  /\ odm_convert_to_db (phydm_db_2_linear 70 .>> FRAC_BITS) = 60.
Proof.
  split; [exact db_2_linear_clamp|]. split; [|split; [|by vm_compute]].
  - intros v w Hv Hw N1 N2. assert (H : db_monotone_check = true) by (by vm_compute).
    pose proof (range_cases 97 _ H v ltac:(lia)) as H1. pose proof (range_cases 97 _ H1 w ltac:(lia)) as H2.
    cbv beta in H2. clear H H1. lia.
  - intros v Hv N. assert (H : db_roundtrip_check = true) by (by vm_compute).
    pose proof (range_cases 97 _ H v ltac:(lia)) as H1. cbv beta in H1. clear H. lia.
Qed.

Lemma db_conversions_witness : phydm_db_2_linear 10 < phydm_db_2_linear 20 /\ odm_convert_to_db 316 = 25.
Proof.
  destruct db_conversions as (_ & H1 & H2 & _). split; [apply H1; lia|]. exact (H2 25 ltac:(lia) ltac:(lia)).
Defined.

(** * Bitmaps and intervals *)

Lemma gen_bitmask_ones n : (n <= 64)%nat -> phydm_gen_bitmask n = 2 ^ Z.of_nat n - 1.
Proof.
  intros Hn. assert (H : forallb (fun z => phydm_gen_bitmask (Z.to_nat z) =? 2 ^ z - 1) (seqZ 0 65) = true)
    by (by vm_compute).
  pose proof (range_cases 65 _ H (Z.of_nat n) ltac:(lia)) as E. cbv beta in E. rewrite Nat2Z.id in E. lia.
Qed.

(** How many of the low [n] bits are set. *)
Fixpoint popcount (n : nat) (v : Z) : Z :=
  match n with O => 0 | S n => (if Z.testbit v (Z.of_nat n) then 1 else 0) + popcount n v end.

Lemma popcount_range n v : 0 <= popcount n v <= Z.of_nat n.
Proof. induction n as [|n IH]; simpl popcount; [lia|]. destruct (Z.testbit v _); lia. Qed.

Lemma ones_num_popcount v n : (n <= 255)%nat -> phydm_ones_num_in_bitmap v n = popcount n v.
Proof.
  intros Hn. unfold phydm_ones_num_in_bitmap.
  assert (H : Nat.iter n ones_step (v, 0) = (v .>> Z.of_nat n, popcount n v)); [|by rewrite H].
  induction n as [|n IH]; [by rewrite Z.shiftr_0_r|]. simpl Nat.iter. rewrite IH by lia. unfold ones_step.
  rewrite Z.shiftr_shiftr by lia. pose proof (popcount_range n v).
  change (BIT 0) with (2 ^ 0). rewrite land_bit, Z.shiftr_spec by lia. simpl popcount.
  replace (0 + Z.of_nat n) with (Z.of_nat n) by lia. f_equal; [f_equal; lia|].
  destruct (Z.testbit v (Z.of_nat n)); [|lia]. rewrite u8_small by (unfold is_byte; lia). lia.
Qed.

(** Bitmaps: the population count counts the bits set among the low [n], and the
    mask of [n] ones is [2^n - 1], up to the width of the word. *)
Theorem bitmaps n v :
  ((n <= 255)%nat -> phydm_ones_num_in_bitmap v n = popcount n v)
  /\ ((n <= 64)%nat -> phydm_gen_bitmask n = 2 ^ Z.of_nat n - 1
      /\ phydm_ones_num_in_bitmap (phydm_gen_bitmask n) n = Z.of_nat n).
Proof.
  split; [apply ones_num_popcount|]. intros Hn. split; [by apply gen_bitmask_ones|].
  rewrite ones_num_popcount, gen_bitmask_ones by lia.
  assert (H : forall k, (k <= n)%nat -> popcount k (2 ^ Z.of_nat n - 1) = Z.of_nat k).
  { induction k as [|k IH]; intros Hk; [done|]. simpl popcount. rewrite IH by lia.
    replace (2 ^ Z.of_nat n - 1) with (Z.ones (Z.of_nat n)) by (rewrite Z.ones_equiv; lia).
    rewrite Z.ones_spec_low by lia. lia. }
  by apply H.
Qed.

Lemma bitmaps_witness : phydm_ones_num_in_bitmap (phydm_gen_bitmask 20) 20 = 20.
Proof. destruct (bitmaps 20 0) as [_ H]. destruct H as [_ H]; [lia|]. exact H. Defined.

Lemma intrvl_loop_below val m i ts n :
  val < m -> Forall (fun t => t <= m) ts -> last ts = Some m -> StronglySorted Z.le ts ->
  intrvl_loop val m i ts n = i + Z.of_nat (length (base.filter (fun t => t <= val) ts)).
Proof.
  intros Hv. revert i. induction ts as [|t ts IH]; intros i Hm Hl Hs; [done|].
  apply Forall_cons in Hm as [Ht Hm]. apply StronglySorted_inv in Hs as [Hs Hts]. simpl intrvl_loop.
  destruct (Z.ltb_spec val t) as [H|H].
  - rewrite filter_cons_False by lia.
    assert (base.filter (fun t => t <= val) ts = []) as ->; [|simpl; lia].
    clear -H Hts. induction Hts as [|x ts Hx _ IH]; [done|]. rewrite filter_cons_False by lia. done.
  - rewrite (proj2 (Z.leb_gt m val)) by lia. rewrite filter_cons_True by lia. simpl length.
    destruct ts as [|t' ts]; [simpl in Hl; injection Hl; lia|]. rewrite IH; [lia|done|done|done].
Qed.

(** Intervals: for thresholds in ascending order [phydm_find_intrvl] is the number of
    thresholds the value has reached. *)
Theorem find_intrvl_counts val threshold :
  threshold <> [] -> StronglySorted Z.le threshold ->
  phydm_find_intrvl val threshold = Z.of_nat (length (base.filter (fun t => t <= val) threshold)).
Proof.
  intros Hne Hs. unfold phydm_find_intrvl.
  destruct threshold as [|m ts _] using rev_ind; [done|]. clear Hne.
  assert (Hall : Forall (fun t => t <= m) (ts ++ [m])).
  { clear -Hs. induction ts as [|t ts IH]; simpl in *; [by repeat constructor|].
    apply StronglySorted_inv in Hs as [Hs Ht]. constructor; [|by apply IH].
    rewrite Forall_forall in Ht. apply Ht. apply elem_of_app. right. by apply list_elem_of_singleton. }
  assert (Hmax : tbl (ts ++ [m]) (Z.of_nat (length (ts ++ [m])) - 1) = m).
  { unfold tbl. rewrite length_app. simpl. rewrite lookup_app_r by lia.
    replace (_ - length ts)%nat with 0%nat by lia. done. }
  rewrite Hmax. destruct (Z.leb_spec m val) as [H|H].
  - assert (base.filter (fun t => t <= val) (ts ++ [m]) = ts ++ [m]) as ->.
    { clear -H Hall. induction Hall as [|x l Hx _ IH]; [done|]. rewrite filter_cons_True by lia. by rewrite IH. }
    pose proof (Forall_forall (fun t => t <= m) (ts ++ [m])). destruct (ts ++ [m]) as [|t l] eqn:E; [by destruct ts|].
    apply Forall_cons in Hall as [Ht _]. simpl intrvl_loop. rewrite (proj2 (Z.ltb_ge _ _)), (proj2 (Z.leb_le _ _)) by lia.
    done.
  - rewrite (intrvl_loop_below _ _ _ (ts ++ [m])); [lia|done|done|by rewrite last_snoc|done].
Qed.

Lemma find_intrvl_counts_witness : phydm_find_intrvl 25 [10; 20; 30] = 2.
Proof.
  rewrite (find_intrvl_counts 25 [10; 20; 30]); [reflexivity|done|]. repeat constructor; lia.
Defined.
