(* ===== verification/IspMath.v ===== *)
(** [acamera_math.c] of the image signal processor driver: integer square roots,
    fixed-point logarithms and powers of two, and the interpolation of modulation
    tables.

    A read of a table outside of it is [None]; the wraps of the C types are written
    out. *)

From S2P Require Import Prelude.

(** * Definitions *)

Definition leading_one_position (val : Z) : Z :=
  let '(val, pos) := (val, 0) in
  let '(val, pos) := if 1 .<< 16 <=? val then (val .>> 16, pos + 16) else (val, pos) in
  let '(val, pos) := if 1 .<< 8 <=? val then (val .>> 8, pos + 8) else (val, pos) in
  let '(val, pos) := if 1 .<< 4 <=? val then (val .>> 4, pos + 4) else (val, pos) in
  let '(val, pos) := if 1 .<< 2 <=? val then (val .>> 2, pos + 2) else (val, pos) in
  if 1 .<< 1 <=? val then pos + 1 else pos.

Definition leading_one_position_64 (val : Z) : Z :=
  let '(val, pos) := (val, 0) in
  let '(val, pos) := if 1 .<< 32 <=? val then (val .>> 32, pos + 32) else (val, pos) in
  let '(val, pos) := if 1 .<< 16 <=? val then (val .>> 16, pos + 16) else (val, pos) in
  let '(val, pos) := if 1 .<< 8 <=? val then (val .>> 8, pos + 8) else (val, pos) in
  let '(val, pos) := if 1 .<< 4 <=? val then (val .>> 4, pos + 4) else (val, pos) in
  let '(val, pos) := if 1 .<< 2 <=? val then (val .>> 2, pos + 2) else (val, pos) in
  if 1 .<< 1 <=? val then pos + 1 else pos.

(** The loop of the fractional part on [a] and [result]; [wrap] is the type of [a], [b]
    and [result]. *)
Definition log2_round (wrap : Z -> Z) (st : Z * Z) : Z * Z :=
  let '(a, result) := st in
  let b := wrap (a * a) in
  if truthy (b .& (1 .<< 31)) then (b .>> 16, wrap (wrap (result .<< 1) + 1))
  else (b .>> 15, wrap (result .<< 1)).

Definition log2_to_fixed (wrap : Z -> Z) (pos val out_precision shift_out : Z) : Z :=
  let a := if pos <=? 15 then wrap (val .<< (15 - pos)) else val .>> (pos - 15) in
  let '(a, result) := Nat.iter (Z.to_nat out_precision) (log2_round wrap) (a, 0) in
  wrap (wrap ((pos .<< out_precision) + result) .<< shift_out) .| ((a .& 0x7fff) .>> (15 - shift_out)).

Definition acamera_log2_int_to_fixed (val out_precision shift_out : Z) : Z :=
  if val =? 0 then 0 else log2_to_fixed u32 (leading_one_position val) val out_precision shift_out.

(** The same text again. *)
Definition acamera_math_log2 : Z -> Z -> Z -> Z := acamera_log2_int_to_fixed.

Definition log2_int_to_fixed_64 (val out_precision shift_out : Z) : Z :=
  if val =? 0 then 0 else u32 (log2_to_fixed u64 (leading_one_position_64 val) val out_precision shift_out).

Definition acamera_log2_fixed_to_fixed (val in_fix_point out_fix_point : Z) : Z :=
  u32 (acamera_log2_int_to_fixed val out_fix_point 0 - (in_fix_point .<< out_fix_point)).

Definition acamera_log2_fixed_to_fixed_64 (val in_fix_point out_fix_point : Z) : Z :=
  s32 (log2_int_to_fixed_64 val out_fix_point 0 - (in_fix_point .<< out_fix_point)).

Definition _pow2_lut : list Z := [
  1073741824; 1097253708; 1121280436; 1145833280; 1170923762; 1196563654; 1222764986; 1249540052;
  1276901417; 1304861917; 1333434672; 1362633090; 1392470869; 1422962010; 1454120821; 1485961921;
  1518500250; 1551751076; 1585730000; 1620452965; 1655936265; 1692196547; 1729250827; 1767116489;
  1805811301; 1845353420; 1885761398; 1927054196; 1969251188; 2012372174; 2056437387; 2101467502;
  2147483648].

Definition acamera_math_exp2 (val shift_in shift_out : Z) : option Z :=
  let fract_part := val .& ((1 .<< shift_in) - 1) in
  let int_part := val .>> shift_in in
  if shift_in <=? 5 then
    let lut_index := fract_part .<< (5 - shift_in) in
    l ← _pow2_lut !! Z.to_nat lut_index;
    Some (l .>> u32 (30 - shift_out - int_part))
  else
    let lut_index := fract_part .>> (shift_in - 5) in
    let lut_fract := fract_part .& ((1 .<< (shift_in - 5)) - 1) in
    a ← _pow2_lut !! Z.to_nat lut_index;
    b ← _pow2_lut !! Z.to_nat (lut_index + 1);
    let res := u32 (u64 (u32 (b - a) * lut_fract) .>> (shift_in - 5)) in
    Some (u32 (res + a) .>> u32 (30 - shift_out - int_part)).

Definition acamera_sqrt64 (arg : Z) : Z :=
  foldl (fun res (i : nat) =>
      let t := u64 (res + ((1 .<< 31) .>> Z.of_nat i)) in
      if u64 (t * t) <=? arg then u32 t else res) 0 (seq 0 32).

Definition acamera_sqrt32 (arg : Z) : Z :=
  foldl (fun res (i : nat) =>
      let t := u32 (res + ((1 .<< 15) .>> Z.of_nat i)) in
      if u32 (t * t) <=? arg then u16 t else res) 0 (seq 0 16).

Definition acamera_sqrt16 (arg : Z) : Z :=
  foldl (fun res (i : nat) =>
      let t := res + (128 .>> Z.of_nat i) in
      if t * t <=? arg then u8 t else res) 0 (seq 0 8).

Definition log16_step (arg res : Z) (k : nat) : Z :=
  let k := Z.of_nat k in
  if 1 .<< k <? arg then u8 ((k .<< 4) + (arg .<< 4) / (1 .<< k) - 16) else res.

Definition acamera_log16 (arg : Z) : Z := foldl (log16_step arg) 0 (seq 0 16).

Definition acamera_multiplication_fixed_to_fixed (a b x1 x2 : Z) : Z := u32 (u64 (a * b) .>> x2).

Definition acamera_solving_lin_equation_a (y1 y2 x1 x2 a_fraction_size : Z) : Z :=
  if x1 =? x2 then x1 else s32 (Z.quot (s32 (s32 (y1 - y2) * (1 .<< a_fraction_size))) (s32 (x1 - x2))).

Definition acamera_solving_lin_equation_b (y1 a x1 a_fraction_size : Z) : Z :=
  s32 (s32 (y1 * (1 .<< a_fraction_size)) - s32 (a * x1)).

Definition acamera_div_fixed (a b fraction_size : Z) : Z :=
  if b =? 0 then u32 (a .<< fraction_size) else u32 (u64 (a .<< fraction_size) / b).

Definition acamera_solving_nth_root_045 (x fraction_size : Z) : Z :=
  s32 (s32 ((1 .<< fraction_size) + (s32 (x .<< fraction_size) .>> 2)) - (s32 (x .<< fraction_size) .>> 4)).

Definition acamera_line_offset (line_len bytes_per_pixel : Z) : Z :=
  u16 (u32 (bytes_per_pixel * line_len + 128 - 1) .& u32 (Z.lnot (128 - 1))).

(** ** Modulation tables: entries [x], [y] *)

(** The search loops: the first index from [i] on whose entry is beyond [x], [len] when
    there is none; [wrap] is the type of the index. A loop whose index wraps before it
    reaches [len] does not end ([None]). *)
Fixpoint mod_index (wrap : Z -> Z) (fuel : nat) (t : list (Z * Z)) (len i x : Z) : option Z :=
  match fuel with
  | O => None
  | S fuel =>
      if i <? len then
        '(xi, _) ← t !! Z.to_nat i;
        if x <? xi then Some i else mod_index wrap fuel t len (wrap (i + 1)) x
      else Some i
  end.

Definition acamera_calc_modulation_u16 (x : Z) (t : list (Z * Z)) (len : Z) : option Z :=
  '(x0, y0) ← t !! 0%nat;
  if x <=? x0 then Some y0
  else
    '(xl, yl) ← t !! Z.to_nat (len - 1);
    if xl <=? x then Some yl
    else
      i ← mod_index id (Z.to_nat len) t len 1 x;
      '(xi, yi) ← t !! Z.to_nat i;
      '(xp, yp) ← t !! Z.to_nat (i - 1);
      if truthy (xi - xp) then
        let alpha := Z.quot ((x - xp) * 256) (xi - xp) in
        Some (u16 ((yi * alpha + yp * (256 - alpha)) .>> 8))
      else Some yi.

Definition acamera_calc_modulation_u32 (x : Z) (t : list (Z * Z)) (len : Z) : option Z :=
  '(x0, y0) ← t !! 0%nat;
  if x <=? x0 then Some y0
  else
    '(xl, yl) ← t !! Z.to_nat (len - 1);
    if xl <=? x then Some yl
    else
      i ← mod_index u16 (Z.to_nat len) t len 1 x;
      '(xi, yi) ← t !! Z.to_nat i;
      '(xp, yp) ← t !! Z.to_nat (i - 1);
      if truthy (u32 (xi - xp)) then
        let alpha := u32 (u32 (x - xp) * 256) / u32 (xi - xp) in
        Some (u32 (u32 (yi * alpha) + u32 (yp * u32 (256 - alpha))) .>> 8)
      else Some yi.

Definition acamera_calc_scaled_modulation_u16 (x target_min_y target_max_y : Z) (t : list (Z * Z)) (len : Z)
    : option Z :=
  '(x0, y0) ← t !! 0%nat;
  if x <=? x0 then Some target_min_y
  else
    '(xl, yl) ← t !! Z.to_nat (len - 1);
    if xl <=? x then Some target_max_y
    else if (y0 =? 0) || (yl =? 0) || (xl - x0 =? 0) then Some 0
    else
      let scale_min_y := target_min_y * 256 / y0 in
      let scale_max_y := target_max_y * 256 / yl in
      let alpha := Z.quot ((x - x0) * 256) (xl - x0) in
      let scale_factor := u32 (u32 (scale_max_y * alpha) + u32 (scale_min_y * u32 (256 - alpha))) .>> 8 in
      i ← mod_index id (Z.to_nat len) t len 1 x;
      '(xi, yi) ← t !! Z.to_nat i;
      '(xp, yp) ← t !! Z.to_nat (i - 1);
      if truthy (xi - xp) then
        let alpha := Z.quot ((x - xp) * 256) (xi - xp) in
        Some (u16 (u32 (scale_factor * u32 (yi * alpha + yp * (256 - alpha))) .>> 16))
      else Some yi.

Definition acamera_calc_equidistant_modulation_u16 (x : Z) (t : list Z) (len : Z) : option Z :=
  if x =? 0 then t !! 0%nat
  else if x =? (1 .<< 16) - 1 then t !! Z.to_nat (len - 1)
  else if len =? 1 then t !! 0%nat
  else
    let d := u16 (Z.quot (1 .<< 16) (len - 1)) in
    if d =? 0 then t !! 0%nat
    else
      let bn := u16 (x / d) in
      let alpha := u16 (Z.quot ((x - bn * d) * 256) d) in
      a ← t !! Z.to_nat bn;
      b ← t !! Z.to_nat (bn + 1);
      Some (u16 (Z.quot (a * (256 - alpha) + b * alpha) 256)).

Definition acamera_calc_equidistant_modulation_u32 (x : Z) (t : list Z) (len : Z) : option Z :=
  if x =? 0 then t !! 0%nat
  else if x =? (1 .<< 16) - 1 then t !! Z.to_nat (u32 (len - 1))
  else if len =? 1 then t !! 0%nat
  else
    let d := (1 .<< 16) / u32 (len - 1) in
    if d =? 0 then t !! 0%nat
    else
      let bn := x / d in
      let alpha := u32 (u32 (x - u32 (bn * d)) * 256) / d in
      a ← t !! Z.to_nat bn;
      b ← t !! Z.to_nat (u32 (bn + 1));
      Some (u32 (u32 (a * u32 (256 - alpha)) + u32 (b * alpha)) / 256).

(** The search loop over a table of values. *)
Fixpoint inv_index (fuel : nat) (t : list Z) (len i x : Z) : option Z :=
  match fuel with
  | O => None
  | S fuel =>
      if i <? len then
        ti ← t !! Z.to_nat i;
        if x <? ti then Some i else inv_index fuel t len (i + 1) x
      else Some i
  end.

Definition acamera_calc_inv_equidistant_modulation_u16 (x : Z) (t : list Z) (len : Z) : option Z :=
  t0 ← t !! 0%nat;
  if x <=? t0 then Some 0
  else
    tl ← t !! Z.to_nat (len - 1);
    if tl <=? x then Some ((1 .<< 16) - 1)
    else if len =? 1 then Some 0
    else
      i ← inv_index (Z.to_nat len) t len 1 x;
      let d := u16 (Z.quot (1 .<< 16) (len - 1)) in
      ti ← t !! Z.to_nat i;
      tp ← t !! Z.to_nat (i - 1);
      if ti =? tp then Some (u16 (d * i))
      else
        let alpha := u16 (Z.quot ((x - tp) * 256) (ti - tp)) in
        Some (u16 (Z.quot (d * i * alpha + d * (i - 1) * (256 - alpha)) 256)).

Definition acamera_calc_inv_equidistant_modulation_u32 (x : Z) (t : list Z) (len : Z) : option Z :=
  t0 ← t !! 0%nat;
  if x <=? t0 then Some 0
  else
    tl ← t !! Z.to_nat (u32 (len - 1));
    if tl <=? x then Some ((1 .<< 16) - 1)
    else if len =? 1 then Some 0
    else
      i ← inv_index (Z.to_nat len) t len 1 x;
      let d := (1 .<< 16) / u32 (len - 1) in
      ti ← t !! Z.to_nat i;
      tp ← t !! Z.to_nat (i - 1);
      if ti =? tp then Some (u32 (d * i))
      else
        let alpha := u32 (u32 (x - tp) * 256) / u32 (ti - tp) in
        Some (u32 (u32 (u32 (d * i) * alpha) + u32 (u32 (d * (i - 1)) * u32 (256 - alpha))) / 256).

(** * Square roots *)

(** What the loops do: the bit [2 ^ k], and those below, are kept when the square stays
    within [arg]. *)
Lemma sqrt_loop (f : Z -> nat -> Z) (arg n : Z) i m res :
  (forall r j, 0 <= r -> r + 2 ^ (n - 1 - Z.of_nat j) < 2 ^ n ->
     (j < i + m)%nat -> f r j = if (r + 2 ^ (n - 1 - Z.of_nat j)) ^ 2 <=? arg
                               then r + 2 ^ (n - 1 - Z.of_nat j) else r) ->
  Z.of_nat i + Z.of_nat m = n -> 0 <= res -> res + 2 ^ (n - Z.of_nat i) <= 2 ^ n ->
  res ^ 2 <= arg < (res + 2 ^ (n - Z.of_nat i)) ^ 2 ->
  foldl f res (seq i m) = Z.sqrt arg.
Proof.
  intros Hf. revert i res Hf. induction m as [|m IH]; intros i res Hf Hn Hr Hb Hs.
  - simpl. replace (n - Z.of_nat i) with 0 in Hs by lia. symmetry. apply Z.sqrt_unique. lia.
  - cbn [seq foldl]. set (k := 2 ^ (n - 1 - Z.of_nat i)).
    assert (K : 2 ^ (n - Z.of_nat i) = 2 * k).
    { unfold k. rewrite <- Z.pow_succ_r by lia. f_equal. lia. }
    assert (0 < k) by (apply Z.pow_pos_nonneg; lia).
    assert (Ki : 2 ^ (n - Z.of_nat (S i)) = k) by (unfold k; f_equal; lia).
    rewrite K in *. rewrite Hf by (fold k; lia). fold k.
    destruct (Z.leb_spec ((res + k) ^ 2) arg); apply IH; rewrite ?Ki; try lia;
      try (intros; apply Hf; lia).
Qed.

Lemma shr_one n k : 0 <= k -> k <= n -> (1 .<< n) .>> k = 2 ^ (n - k).
Proof. intros. rewrite Z.shiftr_div_pow2, Z.shiftl_1_l, Z.pow_sub_r by lia. done. Qed.

(** The three square roots are the integer square root, on their whole input type:
    no intermediate square wraps. *)
Theorem acamera_sqrt_correct arg :
  (0 <= arg < 2 ^ 64 -> acamera_sqrt64 arg = Z.sqrt arg) /\
  (0 <= arg < 2 ^ 32 -> acamera_sqrt32 arg = Z.sqrt arg) /\
  (0 <= arg < 2 ^ 16 -> acamera_sqrt16 arg = Z.sqrt arg).
Proof.
  split; [|split]; intros Ha.
  - apply (sqrt_loop _ arg 32); [|done|done|done|simpl; lia].
    intros r j Hr Hb Hj. cbv beta zeta. pose proof (Z.pow_nonneg 2 (32 - 1 - Z.of_nat j)).
    rewrite shr_one by lia. replace (31 - Z.of_nat j) with (32 - 1 - Z.of_nat j) by lia.
    rewrite (u64_small (r + _)), u64_small, u32_small, Z.pow_2_r by nia. done.
  - apply (sqrt_loop _ arg 16); [|done|done|done|simpl; lia].
    intros r j Hr Hb Hj. cbv beta zeta. pose proof (Z.pow_nonneg 2 (16 - 1 - Z.of_nat j)).
    rewrite shr_one by lia. replace (15 - Z.of_nat j) with (16 - 1 - Z.of_nat j) by lia.
    rewrite (u32_small (r + _)), u32_small, u16_small, Z.pow_2_r by nia. done.
  - apply (sqrt_loop _ arg 8); [|done|done|done|simpl; lia].
    intros r j Hr Hb Hj. cbv beta zeta. pose proof (Z.pow_nonneg 2 (8 - 1 - Z.of_nat j)).
    change 128 with (1 .<< 7). rewrite shr_one by lia.
    replace (7 - Z.of_nat j) with (8 - 1 - Z.of_nat j) by lia.
    rewrite u8_small, Z.pow_2_r by (unfold is_byte; lia). done.
Qed.

Lemma acamera_sqrt_correct_witness :
  acamera_sqrt64 (2 ^ 64 - 1) = 2 ^ 32 - 1 /\ acamera_sqrt32 99 = 9 /\ acamera_sqrt16 65535 = 255.
Proof.
  split; [|split].
  - rewrite (proj1 (acamera_sqrt_correct (2 ^ 64 - 1)) ltac:(lia)). reflexivity.
  - rewrite (proj1 (proj2 (acamera_sqrt_correct 99)) ltac:(lia)). reflexivity.
  - rewrite (proj2 (proj2 (acamera_sqrt_correct 65535)) ltac:(lia)). reflexivity.
Defined.

(** * Leading ones *)

(** One step of the search: the position grows by what the value is shifted. *)
Lemma log2_shift v n : 0 <= n -> 2 ^ n <= v -> Z.log2 v = Z.log2 (v .>> n) + n.
Proof. intros Hn Hv. rewrite Z.log2_shiftr by (pose proof (Z.pow_pos_nonneg 2 n); lia).
  rewrite Z.max_r by (pose proof (Z.log2_le_mono _ _ Hv); rewrite Z.log2_pow2 in *; lia). lia. Qed.

Lemma shr_lt v n m : 0 <= n -> 0 <= m -> 0 <= v < 2 ^ (n + m) -> 0 <= v .>> n < 2 ^ m.
Proof.
  intros Hn Hm Hv. rewrite Z.shiftr_div_pow2 by lia. rewrite Z.pow_add_r in Hv by lia.
  split; [apply Z.div_pos; lia|]. apply Z.div_lt_upper_bound; lia.
Qed.

Lemma shr_pos v n : 0 <= n -> 2 ^ n <= v -> 0 < v .>> n.
Proof.
  intros Hn Hv. rewrite Z.shiftr_div_pow2 by lia. pose proof (Z.pow_pos_nonneg 2 n ltac:(lia) Hn).
  apply Z.div_str_pos. lia.
Qed.

Lemma log2_step v pos n m :
  0 < n -> 0 <= m -> 0 < v < 2 ^ (n + m) ->
  let '(v', pos') := if 1 .<< n <=? v then (v .>> n, pos + n) else (v, pos) in
  (0 < v' /\ (v' < 2 ^ n \/ v' < 2 ^ m)) /\ pos' + Z.log2 v' = pos + Z.log2 v.
Proof.
  intros Hn Hm Hv. rewrite Z.shiftl_1_l. destruct (Z.leb_spec (2 ^ n) v) as [H|H].
  - split; [split; [apply shr_pos; lia|right; apply shr_lt; lia]|].
    rewrite (log2_shift v n) by lia. lia.
  - split; [lia|]. lia.
Qed.

Lemma leading_32 val : 0 < val < 2 ^ 32 -> leading_one_position val = Z.log2 val.
Proof.
  intros Hv. unfold leading_one_position.
  pose proof (log2_step val 0 16 16 ltac:(lia) ltac:(lia) ltac:(lia)) as H. destruct (if 1 .<< 16 <=? val then _ else _) as [v1 p1].
  pose proof (log2_step v1 p1 8 8 ltac:(lia) ltac:(lia) ltac:(simpl; lia)) as H1. destruct (if 1 .<< 8 <=? v1 then _ else _) as [v2 p2].
  pose proof (log2_step v2 p2 4 4 ltac:(lia) ltac:(lia) ltac:(simpl; lia)) as H2. destruct (if 1 .<< 4 <=? v2 then _ else _) as [v3 p3].
  pose proof (log2_step v3 p3 2 2 ltac:(lia) ltac:(lia) ltac:(simpl; lia)) as H3. destruct (if 1 .<< 2 <=? v3 then _ else _) as [v4 p4].
  assert (L : Z.log2 v4 = if 2 <=? v4 then 1 else 0).
  { destruct (Z.leb_spec 2 v4); [apply Z.log2_unique; simpl; lia|]. by replace v4 with 1 by lia. }
  rewrite Z.shiftl_1_l. change (2 ^ 1) with 2. destruct (2 <=? v4); lia.
Qed.

Lemma leading_64 val : 0 < val < 2 ^ 64 -> leading_one_position_64 val = Z.log2 val.
Proof.
  intros Hv. unfold leading_one_position_64.
  pose proof (log2_step val 0 32 32 ltac:(lia) ltac:(lia) ltac:(lia)) as H. destruct (if 1 .<< 32 <=? val then _ else _) as [v0 p0].
  pose proof (log2_step v0 p0 16 16 ltac:(lia) ltac:(lia) ltac:(simpl; lia)) as H0. destruct (if 1 .<< 16 <=? v0 then _ else _) as [v1 p1].
  pose proof (log2_step v1 p1 8 8 ltac:(lia) ltac:(lia) ltac:(simpl; lia)) as H1. destruct (if 1 .<< 8 <=? v1 then _ else _) as [v2 p2].
  pose proof (log2_step v2 p2 4 4 ltac:(lia) ltac:(lia) ltac:(simpl; lia)) as H2. destruct (if 1 .<< 4 <=? v2 then _ else _) as [v3 p3].
  pose proof (log2_step v3 p3 2 2 ltac:(lia) ltac:(lia) ltac:(simpl; lia)) as H3. destruct (if 1 .<< 2 <=? v3 then _ else _) as [v4 p4].
  assert (L : Z.log2 v4 = if 2 <=? v4 then 1 else 0).
  { destruct (Z.leb_spec 2 v4); [apply Z.log2_unique; simpl; lia|]. by replace v4 with 1 by lia. }
  rewrite Z.shiftl_1_l. change (2 ^ 1) with 2. destruct (2 <=? v4); lia.
Qed.

(** * Logarithms *)

(** One round on a mantissa in [2^15, 2^16): the next bit of the result, and the mantissa
    of the square, truncated. *)
Lemma log2_round_ok wrap a r i :
  (forall x, 0 <= x < 2 ^ 32 -> wrap x = x) -> 0 <= i <= 30 -> 2 ^ 15 <= a < 2 ^ 16 -> 0 <= r < 2 ^ i ->
  exists a' bit, log2_round wrap (a, r) = (a', 2 * r + bit) /\ (bit = 0 \/ bit = 1) /\
    2 ^ 15 <= a' < 2 ^ 16 /\
    a' * 2 ^ bit * 2 ^ 15 <= a * a /\ a * a <= a' * 2 ^ bit * (2 ^ 15 + 1).
Proof.
  intros Hw Hi Ha Hr. unfold log2_round.
  assert (Hi2 : 2 ^ i <= 2 ^ 30) by (apply Z.pow_le_mono_r; lia).
  rewrite (Hw (a * a)) by nia.
  rewrite (Z.shiftl_mul_pow2 r 1), (Hw (r * 2 ^ 1)) by lia. change (2 ^ 1) with 2.
  assert (T : truthy ((a * a) .& (1 .<< 31)) = (2 ^ 31 <=? a * a)).
  { rewrite Z.shiftl_1_l. unfold truthy.
    assert (E : (a * a) .& 2 ^ 31 = if 2 ^ 31 <=? a * a then 2 ^ 31 else 0).
    { apply Z.bits_inj'. intros n Hn. rewrite Z.land_spec, Z.pow2_bits_eqb by lia.
      destruct (Z.eqb_spec 31 n) as [<-|N].
      - rewrite andb_true_r, Z.testbit_eqb by lia.
        destruct (Z.leb_spec (2 ^ 31) (a * a)).
        + rewrite Z.pow2_bits_true by lia.
          replace (a * a / 2 ^ 31) with 1; [done|]. apply Z.div_unique with (a * a - 2 ^ 31); nia.
        + rewrite Z.bits_0, Z.div_small by nia. done.
      - rewrite andb_false_r. destruct (2 ^ 31 <=? a * a); [by rewrite Z.pow2_bits_false by lia|by rewrite Z.bits_0]. }
    rewrite E. by destruct (2 ^ 31 <=? a * a). }
  rewrite T, !Z.shiftr_div_pow2 by lia.
  assert (D : forall k, 0 < k -> a * a / k * k <= a * a < (a * a / k + 1) * k).
  { intros k Hk. pose proof (Z.div_mod (a * a) k). pose proof (Z.mod_pos_bound (a * a) k Hk). nia. }
  destruct (Z.leb_spec (2 ^ 31) (a * a)) as [H|H].
  - rewrite Hw by lia. exists (a * a / 2 ^ 16), 1. split; [f_equal; lia|]. split; [by right|].
    specialize (D (2 ^ 16) ltac:(lia)). change (2 ^ 1) with 2. split; [nia|]. split; [lia|]. nia.
  - exists (a * a / 2 ^ 15), 0. split; [f_equal; lia|]. split; [by left|].
    specialize (D (2 ^ 15) ltac:(lia)). change (2 ^ 0) with 1. split; [nia|]. split; [lia|]. nia.
Qed.

Lemma pow_succ_sq x i : 0 <= i -> x ^ (2 ^ Z.succ i) = x ^ 2 ^ i * x ^ 2 ^ i.
Proof.
  intros Hi. rewrite Z.pow_succ_r, <- Z.pow_add_r by (try apply Z.pow_nonneg; lia). f_equal. lia.
Qed.

Lemma pow_pred_sq x i : 0 < x -> 0 <= i -> x ^ (2 ^ Z.succ i - 1) = x * (x ^ (2 ^ i - 1) * x ^ (2 ^ i - 1)).
Proof.
  intros Hx Hi. pose proof (Z.pow_pos_nonneg 2 i ltac:(lia) Hi).
  rewrite Z.pow_succ_r by lia. rewrite <- Z.pow_add_r, <- (Z.pow_succ_r x) by lia. f_equal. lia.
Qed.

(** After [n] rounds: the power of the first mantissa, between two multiples of the last. *)
Lemma log2_rounds wrap A n :
  (forall x, 0 <= x < 2 ^ 32 -> wrap x = x) -> (n <= 31)%nat -> 2 ^ 15 <= A < 2 ^ 16 ->
  let '(a, r) := Nat.iter n (log2_round wrap) (A, 0) in
  2 ^ 15 <= a < 2 ^ 16 /\ 0 <= r < 2 ^ Z.of_nat n /\
  2 ^ r * a * (2 ^ 15) ^ (2 ^ Z.of_nat n - 1) <= A ^ 2 ^ Z.of_nat n /\
  A ^ 2 ^ Z.of_nat n <= 2 ^ r * a * (2 ^ 15 + 1) ^ (2 ^ Z.of_nat n - 1).
Proof.
  intros Hw Hn HA. induction n as [|n IH].
  - simpl Nat.iter. change (2 ^ Z.of_nat 0) with 1. rewrite !Z.pow_1_r. change (1 - 1) with 0.
    rewrite !Z.pow_0_r. lia.
  - cbn [Nat.iter]. specialize (IH ltac:(lia)).
    change (Nat.iter (S n) (log2_round wrap) (A, 0)) with (log2_round wrap (Nat.iter n (log2_round wrap) (A, 0))).
    destruct (Nat.iter n (log2_round wrap) (A, 0)) as [a r]. destruct IH as (Ha & Hr & L & U).
    destruct (log2_round_ok wrap a r (Z.of_nat n) Hw ltac:(lia) Ha Hr) as (a' & bit & -> & Hb & Ha' & B1 & B2).
    rewrite Nat2Z.inj_succ. set (i := Z.of_nat n) in *.
    assert (0 <= i) by (unfold i; lia).
    split; [done|]. split; [rewrite Z.pow_succ_r by done; lia|].
    assert (P : 2 ^ (2 * r + bit) = 2 ^ r * 2 ^ r * 2 ^ bit).
    { rewrite Z.pow_add_r by lia. f_equal. rewrite <- Z.pow_add_r by lia. f_equal. lia. }
    rewrite pow_succ_sq, !pow_pred_sq, P by lia.
    assert (P1 : 0 < 2 ^ r) by (apply Z.pow_pos_nonneg; lia).
    pose proof (Z.pow_pos_nonneg 2 i ltac:(lia) ltac:(lia)).
    set (X := (2 ^ 15) ^ (2 ^ i - 1)) in *. set (Y := (2 ^ 15 + 1) ^ (2 ^ i - 1)) in *.
    assert (0 < X) by (apply Z.pow_pos_nonneg; lia). assert (0 < Y) by (apply Z.pow_pos_nonneg; lia).
    set (Q := A ^ 2 ^ i) in *. set (R := 2 ^ r) in *. clearbody X Y Q R.
    split.
    + transitivity ((R * a * X) * (R * a * X)); [|apply Z.mul_le_mono_nonneg; nia].
      replace (R * a * X * (R * a * X)) with (a * a * (R * R * (X * X))) by ring.
      replace (R * R * 2 ^ bit * a' * (2 ^ 15 * (X * X))) with (a' * 2 ^ bit * 2 ^ 15 * (R * R * (X * X))) by ring.
      apply Z.mul_le_mono_nonneg_r; nia.
    + transitivity ((R * a * Y) * (R * a * Y)); [apply Z.mul_le_mono_nonneg; nia|].
      replace (R * a * Y * (R * a * Y)) with (a * a * (R * R * (Y * Y))) by ring.
      replace (R * R * 2 ^ bit * a' * ((2 ^ 15 + 1) * (Y * Y))) with (a' * 2 ^ bit * (2 ^ 15 + 1) * (R * R * (Y * Y))) by ring.
      apply Z.mul_le_mono_nonneg_r; nia.
Qed.

Lemma shr_lor x y s : 0 <= s -> 0 <= y < 2 ^ s -> ((x .<< s) .| y) .>> s = x.
Proof.
  intros Hs Hy. rewrite Z.shiftr_lor, Z.shiftr_shiftl_l, Z.sub_diag, Z.shiftl_0_r by lia.
  rewrite (Z.shiftr_div_pow2 y), Z.div_small by lia. apply Z.lor_0_r.
Qed.

(** The mantissa the fractional part starts from. *)
Definition mantissa (wrap : Z -> Z) (pos val : Z) : Z :=
  if pos <=? 15 then wrap (val .<< (15 - pos)) else val .>> (pos - 15).

Lemma mantissa_ok wrap val pos :
  (forall x, 0 <= x < 2 ^ 32 -> wrap x = x) -> 0 <= pos -> 2 ^ pos <= val < 2 ^ Z.succ pos ->
  2 ^ 15 <= mantissa wrap pos val < 2 ^ 16 /\
  mantissa wrap pos val * 2 ^ pos <= val * 2 ^ 15 < (mantissa wrap pos val + 1) * 2 ^ pos.
Proof.
  intros Hw Hpos Lg. unfold mantissa. rewrite Z.pow_succ_r in Lg by lia. destruct (Z.leb_spec pos 15).
  - assert (E : 2 ^ 15 = 2 ^ pos * 2 ^ (15 - pos)) by (rewrite <- Z.pow_add_r by lia; f_equal; lia).
    pose proof (Z.pow_pos_nonneg 2 (15 - pos) ltac:(lia) ltac:(lia)) as P1.
    pose proof (Z.pow_pos_nonneg 2 pos ltac:(lia) ltac:(lia)) as P2.
    rewrite Z.shiftl_mul_pow2 by lia. set (k := 2 ^ (15 - pos)) in *. set (q := 2 ^ pos) in *. clearbody k q.
    assert (2 ^ 15 <= val * k < 2 ^ 16) by nia.
    rewrite Hw by lia. split; [lia|]. rewrite E. nia.
  - assert (E : 2 ^ pos = 2 ^ 15 * 2 ^ (pos - 15)) by (rewrite <- Z.pow_add_r by lia; f_equal; lia).
    pose proof (Z.pow_pos_nonneg 2 (pos - 15) ltac:(lia) ltac:(lia)) as P1.
    rewrite Z.shiftr_div_pow2 by lia. rewrite E in *.
    set (k := 2 ^ (pos - 15)) in *. pose proof (Z.div_mod val k ltac:(lia)) as Dm.
    pose proof (Z.mod_pos_bound val k ltac:(lia)). clearbody k. split; nia.
Qed.

(** The result in terms of what the loop computes: the integral and fractional parts, and
    below them the residue. *)
Lemma log2_out wrap val pos p s a r :
  (forall x, 0 <= x < 2 ^ 32 -> wrap x = x) -> 0 <= pos -> 0 <= p -> 0 <= s <= 15 ->
  Nat.iter (Z.to_nat p) (log2_round wrap) (mantissa wrap pos val, 0) = (a, r) ->
  0 <= r < 2 ^ p -> (pos + 1) * 2 ^ (p + s) <= 2 ^ 31 ->
  0 <= log2_to_fixed wrap pos val p s < 2 ^ 32 /\ log2_to_fixed wrap pos val p s .>> s = pos * 2 ^ p + r.
Proof.
  intros Hw Hpos Hp Hs E Hr Hf. unfold log2_to_fixed. fold (mantissa wrap pos val). rewrite E.
  pose proof (Z.pow_pos_nonneg 2 p ltac:(lia) Hp). pose proof (Z.pow_pos_nonneg 2 s ltac:(lia) ltac:(lia)).
  rewrite Z.pow_add_r in Hf by lia.
  assert (Hy : 0 <= (a .& 0x7fff) .>> (15 - s) < 2 ^ s).
  { apply shr_lt; [lia..|]. change 0x7fff with (Z.ones 15). rewrite Z.land_ones by lia.
    replace (15 - s + s) with 15 by lia. apply Z.mod_pos_bound. lia. }
  rewrite !(Z.shiftl_mul_pow2 _ p) by lia. set (R := pos * 2 ^ p + r).
  assert (HR : 0 <= R < (pos + 1) * 2 ^ p) by (unfold R; nia). clearbody R.
  assert (HRs : 0 <= R * 2 ^ s < 2 ^ 31) by nia.
  assert (HR2 : 0 <= R < 2 ^ 32) by nia.
  rewrite (Hw R) by lia. rewrite (Z.shiftl_mul_pow2 _ s), Hw by lia.
  rewrite <- (Z.shiftl_mul_pow2 R s) by lia. rewrite shr_lor by lia. split; [|done].
  assert (O0 : 0 <= (R .<< s) .| ((a .& 0x7fff) .>> (15 - s)))
    by (apply Z.lor_nonneg; split; [apply Z.shiftl_nonneg; lia|lia]).
  split; [done|]. pose proof (shr_lor R _ s ltac:(lia) Hy) as Sh. revert O0 Sh.
  set (o := _ .| _). clearbody o. intros O0 Sh.
  rewrite Z.shiftr_div_pow2 in Sh by lia. pose proof (Z.div_mod o (2 ^ s) ltac:(lia)).
  pose proof (Z.mod_pos_bound o (2 ^ s) ltac:(lia)). nia.
Qed.

(** From bounds on the power of the mantissa to bounds on the power of the value. *)
Lemma log2_bounds val A a pos N r :
  0 < val -> 0 <= pos -> 0 < N -> 0 <= r -> 2 ^ 15 <= A -> 2 ^ 15 <= a < 2 ^ 16 ->
  A * 2 ^ pos <= val * 2 ^ 15 < (A + 1) * 2 ^ pos ->
  2 ^ r * a * (2 ^ 15) ^ (N - 1) <= A ^ N ->
  A ^ N <= 2 ^ r * a * (2 ^ 15 + 1) ^ (N - 1) ->
  2 ^ (pos * N + r) <= val ^ N /\
  val ^ N * (2 ^ 15) ^ (2 * N - 1) < 2 ^ (pos * N + r + 1) * (2 ^ 15 + 1) ^ (2 * N - 1).
Proof.
  intros Hv Hpos HN Hr HA Ha HAv L U.
  assert (EP : 2 ^ (pos * N + r) = 2 ^ (pos * N) * 2 ^ r) by (apply Z.pow_add_r; nia).
  assert (EN : (2 ^ pos) ^ N = 2 ^ (pos * N)) by (symmetry; apply Z.pow_mul_r; lia).
  assert (B1 : A ^ N * 2 ^ (pos * N) <= val ^ N * (2 ^ 15) ^ N)
    by (rewrite <- EN, <- !Z.pow_mul_l; apply Z.pow_le_mono_l; nia).
  assert (B2 : val ^ N * (2 ^ 15) ^ N < (A + 1) ^ N * 2 ^ (pos * N))
    by (rewrite <- EN, <- !Z.pow_mul_l; apply Z.pow_lt_mono_l; nia).
  assert (B3 : (A + 1) ^ N * (2 ^ 15) ^ N <= A ^ N * (2 ^ 15 + 1) ^ N)
    by (rewrite <- !Z.pow_mul_l; apply Z.pow_le_mono_l; nia).
  assert (S : forall x, 0 < x -> x ^ N = x * x ^ (N - 1) /\ 0 < x ^ (N - 1) /\ x ^ (2 * N - 1) = x ^ N * x ^ (N - 1)).
  { intros x Hx. split; [rewrite <- Z.pow_succ_r by lia; f_equal; lia|].
    split; [apply Z.pow_pos_nonneg; lia|]. rewrite <- Z.pow_add_r by lia. f_equal. lia. }
  destruct (S (2 ^ 15) ltac:(lia)) as (C1 & C2 & C3). destruct (S (2 ^ 15 + 1) ltac:(lia)) as (D1 & D2 & D3).
  rewrite C3, D3. rewrite (Z.pow_add_r 2 _ 1) by nia. rewrite EP. change (2 ^ 1) with 2. clear S EN EP C3 D3.
  assert (HX : 0 < 2 ^ (pos * N)) by (apply Z.pow_pos_nonneg; nia).
  assert (HY : 0 < 2 ^ r) by (apply Z.pow_pos_nonneg; lia).
  assert (HV : 0 < val ^ N) by (apply Z.pow_pos_nonneg; lia).
  set (X := 2 ^ (pos * N)) in *. set (Y := 2 ^ r) in *. set (V := val ^ N) in *. set (AN := A ^ N) in *.
  set (A1 := (A + 1) ^ N) in *. set (Q := (2 ^ 15) ^ (N - 1)) in *. set (QN := (2 ^ 15) ^ N) in *.
  set (F := (2 ^ 15 + 1) ^ (N - 1)) in *. set (FN := (2 ^ 15 + 1) ^ N) in *.
  clearbody X Y V AN A1 Q QN F FN. clear HAv. rewrite C1 in *. clear QN C1. split.
  - apply (Z.mul_le_mono_pos_r _ _ (2 ^ 15 * Q)); [lia|]. transitivity (AN * X); [|exact B1].
    transitivity (Y * a * Q * X); [|apply Z.mul_le_mono_nonneg_r; lia].
    replace (X * Y * (2 ^ 15 * Q)) with (2 ^ 15 * (X * Y * Q)) by ring.
    replace (Y * a * Q * X) with (a * (X * Y * Q)) by ring.
    apply Z.mul_le_mono_nonneg_r; [|lia]. repeat apply Z.mul_nonneg_nonneg; lia.
  - apply (Z.mul_lt_mono_pos_r (2 ^ 15)); [lia|].
    apply (Z.lt_le_trans _ (A1 * X * (2 ^ 15 * Q))).
    { replace (V * (2 ^ 15 * Q * Q) * 2 ^ 15) with (V * (2 ^ 15 * Q) * (2 ^ 15 * Q)) by ring.
      apply Z.mul_lt_mono_pos_r; [lia|exact B2]. }
    transitivity (AN * FN * X).
    { replace (A1 * X * (2 ^ 15 * Q)) with (A1 * (2 ^ 15 * Q) * X) by ring. apply Z.mul_le_mono_nonneg_r; lia. }
    transitivity (Y * a * F * FN * X).
    { apply Z.mul_le_mono_nonneg_r; [lia|]. apply Z.mul_le_mono_nonneg_r; [nia|exact U]. }
    replace (Y * a * F * FN * X) with (a * (X * Y * F * FN)) by ring.
    replace (X * Y * 2 * (FN * F) * 2 ^ 15) with (2 ^ 16 * (X * Y * F * FN)) by ring.
    apply Z.mul_le_mono_nonneg_r; [|lia]. repeat apply Z.mul_nonneg_nonneg; nia.
Qed.

Lemma log2_to_fixed_ok wrap val w p s :
  (forall x, 0 <= x < 2 ^ 32 -> wrap x = x) -> 0 < val < 2 ^ w -> 0 < w ->
  0 <= p -> 0 <= s <= 15 -> w * 2 ^ (p + s) <= 2 ^ 31 ->
  let out := log2_to_fixed wrap (Z.log2 val) val p s in
  0 <= out < 2 ^ 32 /\
  2 ^ (out .>> s) <= val ^ 2 ^ p /\
  val ^ 2 ^ p * (2 ^ 15) ^ (2 * 2 ^ p - 1) < 2 ^ ((out .>> s) + 1) * (2 ^ 15 + 1) ^ (2 * 2 ^ p - 1).
Proof.
  intros Hw Hv Hw0 Hp Hs Hf out.
  assert (Hpos : 0 <= Z.log2 val < w)
    by (split; [apply Z.log2_nonneg|apply Z.log2_lt_pow2; lia]).
  pose proof (Z.pow_pos_nonneg 2 p ltac:(lia) Hp). pose proof (Z.pow_pos_nonneg 2 s ltac:(lia) ltac:(lia)).
  assert (Hp31 : p <= 31).
  { apply (Z.pow_le_mono_r_iff 2); [lia..|]. rewrite Z.pow_add_r in Hf by lia. nia. }
  destruct (mantissa_ok wrap val (Z.log2 val) Hw ltac:(lia)) as [HA HAv]; [apply Z.log2_spec; lia|].
  pose proof (log2_rounds wrap _ (Z.to_nat p) Hw ltac:(lia) HA) as L.
  destruct (Nat.iter (Z.to_nat p) (log2_round wrap) _) as [a r] eqn:E.
  rewrite Z2Nat.id in L by lia. destruct L as (Ha & Hr & L & U).
  destruct (log2_out wrap val (Z.log2 val) p s a r Hw ltac:(lia) Hp Hs E Hr) as [O R].
  { transitivity (w * 2 ^ (p + s)); [|done]. apply Z.mul_le_mono_nonneg_r; [apply Z.pow_nonneg|]; lia. }
  split; [done|]. unfold out. rewrite R.
  apply (log2_bounds val (mantissa wrap (Z.log2 val) val) a); (done || lia).
Qed.

(** [R] approximates [2 ^ p * log2 val] from below: [R] is never above it, and [R + 1] is
    below it by at most [2 * 2 ^ p - 1] relative errors of [2 ^ -15] on the value. *)
Definition log2_approx (val p R : Z) : Prop :=
  2 ^ R <= val ^ 2 ^ p /\
  val ^ 2 ^ p * (2 ^ 15) ^ (2 * 2 ^ p - 1) < 2 ^ (R + 1) * (2 ^ 15 + 1) ^ (2 * 2 ^ p - 1).

(** C40: The fixed-point logarithms: while the result fits (26 fractional bits for 32-bit
    values, 25 for 64-bit ones, residue bits included), no intermediate value wraps and
    the result is the base-2 logarithm with [p] fractional bits, never above the exact
    one and, up to the truncation of the 15-bit mantissa, less than a unit below; the
    logarithm of 0 is 0. *)
Theorem acamera_log2_correct val p s :
  0 <= p -> 0 <= s <= 15 ->
  (0 < val < 2 ^ 32 -> p + s <= 26 ->
    0 <= acamera_log2_int_to_fixed val p s < 2 ^ 32 /\
    log2_approx val p (acamera_log2_int_to_fixed val p s .>> s)) /\
  (0 < val < 2 ^ 64 -> p + s <= 25 ->
    0 <= log2_int_to_fixed_64 val p s < 2 ^ 32 /\
    log2_approx val p (log2_int_to_fixed_64 val p s .>> s)) /\
  acamera_log2_int_to_fixed 0 p s = 0 /\ log2_int_to_fixed_64 0 p s = 0.
Proof.
  intros Hp Hs. split; [|split; [|done]]; intros Hv Hf.
  - unfold acamera_log2_int_to_fixed. destruct (Z.eqb_spec val 0); [lia|]. rewrite leading_32 by done.
    apply (log2_to_fixed_ok u32 val 32); try lia; [apply u32_small|].
    change 32 with (2 ^ 5) at 1. rewrite <- Z.pow_add_r by lia. apply Z.pow_le_mono_r; lia.
  - unfold log2_int_to_fixed_64. destruct (Z.eqb_spec val 0); [lia|]. rewrite leading_64 by done.
    destruct (log2_to_fixed_ok u64 val 64 p s) as [B A]; try lia.
    + intros x Hx. apply u64_small. lia.
    + change 64 with (2 ^ 6) at 1. rewrite <- Z.pow_add_r by lia. apply Z.pow_le_mono_r; lia.
    + by rewrite u32_small by lia.
Qed.

Lemma acamera_log2_correct_witness :
  acamera_log2_int_to_fixed 1000 8 0 = 2551 /\ log2_approx 1000 8 (2551 .>> 0).
Proof.
  split; [reflexivity|].
  exact (proj2 (proj1 (acamera_log2_correct 1000 8 0 ltac:(lia) ltac:(lia)) ltac:(lia) ltac:(lia))).
Defined.

(** * Powers of two *)

#[local] Abbreviation lut i := (tbl _pow2_lut i).

Definition within (a b c : Z) : bool := (a <=? b) && (b <=? c).

Lemma within_true a b c : within a b c = true -> a <= b <= c.
Proof. unfold within. lia. Qed.

Lemma lut_lookup i : 0 <= i <= 32 -> _pow2_lut !! Z.to_nat i = Some (lut i).
Proof.
  intros Hi. unfold tbl.
  destruct (lookup_lt_is_Some_2 _pow2_lut (Z.to_nat i)) as [x E]; [simpl; lia|]. by rewrite E.
Qed.

Lemma lut_step i : 0 <= i < 32 -> 2 ^ 30 <= lut i < lut (i + 1) /\ lut (i + 1) <= 2 ^ 31.
Proof.
  intros Hi. assert (C : (2 ^ 30 <=? lut i) && (lut i <? lut (i + 1)) && (lut (i + 1) <=? 2 ^ 31) = true).
  { apply (range_cases 32 (fun i => (2 ^ 30 <=? lut i) && (lut i <? lut (i + 1)) && (lut (i + 1) <=? 2 ^ 31)));
      [vm_compute; reflexivity|done]. }
  lia.
Qed.

Lemma lut_mono i j : 0 <= i -> i <= j -> j <= 32 -> lut i <= lut j.
Proof.
  intros Hi Hij Hj. replace j with (i + Z.of_nat (Z.to_nat (j - i))) in * by lia.
  induction (Z.to_nat (j - i)) as [|n IH]; [by replace (i + Z.of_nat 0) with i by lia|].
  pose proof (lut_step (i + Z.of_nat n) ltac:(lia)). specialize (IH ltac:(lia) ltac:(lia)).
  replace (i + Z.of_nat (S n)) with (i + Z.of_nat n + 1) by lia. lia.
Qed.

(** The entries are the powers [2 ^ (30 + i / 32)], rounded to the nearest integer. *)
Lemma lut_nearest i :
  0 <= i < 33 -> (2 * lut i - 1) ^ 32 <= 2 ^ (32 * 31 + i) <= (2 * lut i + 1) ^ 32.
Proof.
  intros Hi. apply within_true.
  apply (range_cases 33 (fun i => within ((2 * lut i - 1) ^ 32) (2 ^ (32 * 31 + i)) ((2 * lut i + 1) ^ 32)));
    [vm_compute; reflexivity|exact Hi].
Qed.

(** The value between the powers before the final shift, for the fraction [f] of [n]
    bits. *)
Definition exp2_frac (n f : Z) : Z :=
  if n <=? 5 then lut (f .<< (5 - n))
  else
    let i := f .>> (n - 5) in
    lut i + (((lut (i + 1) - lut i) * (f .& Z.ones (n - 5))) .>> (n - 5)).

Lemma exp2_frac_large n f :
  5 < n -> 0 <= f < 2 ^ n ->
  let i := f / 2 ^ (n - 5) in
  let g := f mod 2 ^ (n - 5) in
  0 <= i < 32 /\ 0 <= g < 2 ^ (n - 5) /\
  exp2_frac n f = lut i + (lut (i + 1) - lut i) * g / 2 ^ (n - 5) /\
  0 <= (lut (i + 1) - lut i) * g / 2 ^ (n - 5) <= lut (i + 1) - lut i.
Proof.
  intros Hn Hf i g. pose proof (Z.pow_pos_nonneg 2 (n - 5) ltac:(lia) ltac:(lia)) as P.
  assert (E : 2 ^ n = 2 ^ (n - 5) * 32) by (change 32 with (2 ^ 5); rewrite <- Z.pow_add_r by lia; f_equal; lia).
  assert (Hi : 0 <= i < 32) by (split; [apply Z.div_pos; lia|apply Z.div_lt_upper_bound; lia]).
  assert (Hg : 0 <= g < 2 ^ (n - 5)) by (apply Z.mod_pos_bound; lia).
  split; [done|]. split; [done|]. split.
  - unfold exp2_frac. destruct (Z.leb_spec n 5); [lia|].
    by rewrite !Z.shiftr_div_pow2, Z.land_ones by lia.
  - pose proof (lut_step i Hi). split; [apply Z.div_pos; nia|]. apply Z.div_le_upper_bound; nia.
Qed.

Lemma exp2_frac_range n f : 0 <= n -> 0 <= f < 2 ^ n -> 2 ^ 30 <= exp2_frac n f <= 2 ^ 31.
Proof.
  intros Hn Hf. destruct (Z.leb_spec n 5).
  - unfold exp2_frac. destruct (Z.leb_spec n 5); [|lia]. rewrite Z.shiftl_mul_pow2 by lia.
    assert (E : 32 = 2 ^ n * 2 ^ (5 - n)) by (rewrite <- Z.pow_add_r by lia; by replace (n + (5 - n)) with 5 by lia).
    pose proof (Z.pow_pos_nonneg 2 (5 - n)). assert (0 <= f * 2 ^ (5 - n) < 32) by nia.
    split.
    + change (2 ^ 30) with (lut 0). apply lut_mono; lia.
    + change (2 ^ 31) with (lut 32). apply lut_mono; lia.
  - destruct (exp2_frac_large n f) as (Hi & Hg & -> & B); [lia..|].
    pose proof (lut_step (f / 2 ^ (n - 5)) Hi). lia.
Qed.

Lemma exp2_frac_mono n f f' : 0 <= n -> 0 <= f -> f <= f' -> f' < 2 ^ n -> exp2_frac n f <= exp2_frac n f'.
Proof.
  intros Hn H0 Hf Hb. destruct (Z.leb_spec n 5).
  - unfold exp2_frac. destruct (Z.leb_spec n 5); [|lia]. rewrite !Z.shiftl_mul_pow2 by lia.
    assert (E : 32 = 2 ^ n * 2 ^ (5 - n)) by (rewrite <- Z.pow_add_r by lia; by replace (n + (5 - n)) with 5 by lia).
    pose proof (Z.pow_pos_nonneg 2 (5 - n)). apply lut_mono; nia.
  - destruct (exp2_frac_large n f) as (Hi & Hg & -> & B); [lia..|].
    destruct (exp2_frac_large n f') as (Hi' & Hg' & -> & B'); [lia..|].
    pose proof (Z.pow_pos_nonneg 2 (n - 5) ltac:(lia) ltac:(lia)) as P.
    pose proof (Z.div_le_mono f f' (2 ^ (n - 5)) P Hf) as M.
    destruct (Z.eq_dec (f / 2 ^ (n - 5)) (f' / 2 ^ (n - 5))) as [E|N].
    + rewrite <- E in *. apply Z.add_le_mono_l. apply Z.div_le_mono; [done|].
      pose proof (lut_step _ Hi). apply Z.mul_le_mono_nonneg_l; [lia|].
      pose proof (Z.div_mod f (2 ^ (n - 5))). pose proof (Z.div_mod f' (2 ^ (n - 5))). lia.
    + pose proof (lut_mono (f / 2 ^ (n - 5) + 1) (f' / 2 ^ (n - 5)) ltac:(lia) ltac:(lia) ltac:(lia)). lia.
Qed.

Lemma exp2_eq val n so :
  0 <= n <= 30 -> 0 <= so -> 0 <= val -> val / 2 ^ n + so <= 30 ->
  acamera_math_exp2 val n so = Some (exp2_frac n (val mod 2 ^ n) .>> (30 - so - val / 2 ^ n)).
Proof.
  intros Hn Hso Hv Hi. unfold acamera_math_exp2.
  pose proof (Z.pow_pos_nonneg 2 n ltac:(lia) ltac:(lia)) as P.
  assert (Hint : 0 <= val / 2 ^ n) by (by apply Z.div_pos).
  replace ((1 .<< n) - 1) with (Z.ones n) by (rewrite Z.ones_equiv, Z.shiftl_1_l; lia).
  rewrite Z.land_ones, (Z.shiftr_div_pow2 val) by lia. set (f := val mod 2 ^ n).
  assert (Hf : 0 <= f < 2 ^ n) by (apply Z.mod_pos_bound; lia).
  rewrite u32_small by lia. pose proof (exp2_frac_range n f ltac:(lia) Hf) as R. destruct (Z.leb_spec n 5).
  - unfold exp2_frac in *. destruct (Z.leb_spec n 5); [|lia].
    rewrite lut_lookup; [done|]. rewrite Z.shiftl_mul_pow2 by lia.
    assert (E : 32 = 2 ^ n * 2 ^ (5 - n)) by (rewrite <- Z.pow_add_r by lia; by replace (n + (5 - n)) with 5 by lia).
    pose proof (Z.pow_pos_nonneg 2 (5 - n)). nia.
  - destruct (exp2_frac_large n f ltac:(lia) Hf) as (Hi2 & Hg & E & B).
    replace ((1 .<< (n - 5)) - 1) with (Z.ones (n - 5)) by (rewrite Z.ones_equiv, Z.shiftl_1_l; lia).
    rewrite Z.land_ones, (Z.shiftr_div_pow2 f) by lia. set (i := f / 2 ^ (n - 5)) in *. set (g := f mod 2 ^ (n - 5)) in *.
    rewrite !lut_lookup by lia. cbn [mbind option_bind]. pose proof (lut_step i Hi2) as S.
    assert (G : 2 ^ (n - 5) <= 2 ^ 25) by (apply Z.pow_le_mono_r; lia).
    rewrite (u32_small (lut (i + 1) - lut i)) by lia. rewrite u64_small by nia.
    rewrite (Z.shiftr_div_pow2 (_ * g)) by lia. rewrite (u32_small (_ / _)) by lia.
    rewrite Z.add_comm, <- E. by rewrite u32_small by lia.
Qed.

Lemma exp2_frac_zero n : 0 <= n -> exp2_frac n 0 = 2 ^ 30.
Proof.
  intros Hn. unfold exp2_frac. rewrite Z.shiftl_0_l, Z.shiftr_0_l, Z.land_0_l, Z.mul_0_r, Z.shiftr_0_l.
  by destruct (n <=? 5).
Qed.

(** At a fraction of 32nds there is nothing to interpolate. *)
Lemma exp2_frac_node n f i : 0 <= n -> 0 <= f < 2 ^ n -> f * 32 = i * 2 ^ n -> exp2_frac n f = lut i /\ 0 <= i < 33.
Proof.
  intros Hn Hf E. pose proof (Z.pow_pos_nonneg 2 n ltac:(lia) Hn) as Pn. split; [|nia].
  unfold exp2_frac. destruct (Z.leb_spec n 5).
  - rewrite Z.shiftl_mul_pow2 by lia. f_equal.
    assert (P : 32 = 2 ^ n * 2 ^ (5 - n)) by (rewrite <- Z.pow_add_r by lia; by replace (n + (5 - n)) with 5 by lia).
    apply (Z.mul_cancel_r _ _ (2 ^ n)); [lia|]. rewrite <- E. rewrite P at 1. ring.
  - assert (P : 2 ^ n = 2 ^ (n - 5) * 32) by (change 32 with (2 ^ 5); rewrite <- Z.pow_add_r by lia; f_equal; lia).
    assert (F : f = i * 2 ^ (n - 5)) by (rewrite P in E; nia).
    rewrite Z.land_ones, (Z.shiftr_div_pow2 f) by lia. rewrite F.
    rewrite Z.mod_mul, Z.div_mul by (apply Z.pow_nonzero; lia).
    by rewrite Z.mul_0_r, Z.shiftr_0_l, Z.add_0_r.
Qed.

(** The result in the integral part [q] and the fractional part [f] of the argument. *)
Lemma exp2_shift n f k :
  0 <= n -> 0 <= f < 2 ^ n -> 0 <= k <= 30 ->
  2 ^ (30 - k) <= exp2_frac n f .>> k <= 2 ^ (31 - k).
Proof.
  intros Hn Hf Hk. rewrite Z.shiftr_div_pow2, !Z.pow_sub_r by lia.
  pose proof (exp2_frac_range n f Hn Hf).
  split; apply Z.div_le_mono; try (apply Z.pow_pos_nonneg; lia); lia.
Qed.

(** The fixed-point power of two, for every argument whose result fits: the table is
    read in bounds and nothing wraps; the result lies between the powers of the integral
    part and of the next integer, is exact at the integers, is monotone in the argument,
    and at the multiples of a 32nd it is the rounded-down value of a table entry that is
    within half a unit of the exact power. *)
Theorem acamera_exp2_correct val n so :
  0 <= n <= 30 -> 0 <= so -> 0 <= val -> val / 2 ^ n + so <= 30 ->
  exists r, acamera_math_exp2 val n so = Some r /\
    2 ^ (val / 2 ^ n + so) <= r <= 2 ^ (val / 2 ^ n + so + 1) /\
    (val mod 2 ^ n = 0 -> r = 2 ^ (val / 2 ^ n + so)) /\
    (forall val' r', val <= val' -> val' / 2 ^ n + so <= 30 ->
       acamera_math_exp2 val' n so = Some r' -> r <= r') /\
    (forall i, val mod 2 ^ n * 32 = i * 2 ^ n ->
       (2 * (2 ^ (30 - so - val / 2 ^ n) * r) - 1) ^ 32 <= 2 ^ (32 * 31 + i) <=
       (2 * (2 ^ (30 - so - val / 2 ^ n) * (r + 1)) - 1) ^ 32).
Proof.
  intros Hn Hso Hv Hi. pose proof (Z.pow_pos_nonneg 2 n ltac:(lia) ltac:(lia)) as P.
  assert (B : forall v, 0 <= v -> 0 <= v / 2 ^ n /\ 0 <= v mod 2 ^ n < 2 ^ n)
    by (intros; split; [by apply Z.div_pos|by apply Z.mod_pos_bound]).
  destruct (B val Hv) as [Q F]. rewrite exp2_eq by lia. eexists. split; [done|].
  set (q := val / 2 ^ n) in *. set (f := val mod 2 ^ n) in *.
  pose proof (exp2_shift n f (30 - so - q) ltac:(lia) F ltac:(lia)) as R.
  replace (30 - (30 - so - q)) with (q + so) in R by lia.
  replace (31 - (30 - so - q)) with (q + so + 1) in R by lia.
  split; [exact R|]. split; [|split].
  - intros ->. rewrite exp2_frac_zero, Z.shiftr_div_pow2, <- Z.pow_sub_r by lia. f_equal. lia.
  - intros val' r' Hle Hi'. destruct (B val' ltac:(lia)) as [Q' F'].
    rewrite exp2_eq by lia. intros [= <-].
    pose proof (Z.div_le_mono val val' (2 ^ n) P Hle) as M. fold q in M.
    destruct (Z.eq_dec q (val' / 2 ^ n)) as [E|N].
    + rewrite <- E, !Z.shiftr_div_pow2 by lia. apply Z.div_le_mono; [apply Z.pow_pos_nonneg; lia|].
      apply exp2_frac_mono; try lia.
      pose proof (Z.div_mod val (2 ^ n) ltac:(lia)) as D1. pose proof (Z.div_mod val' (2 ^ n) ltac:(lia)). fold q f in D1. nia.
    + pose proof (exp2_shift n (val' mod 2 ^ n) (30 - so - val' / 2 ^ n) ltac:(lia) F' ltac:(lia)) as R'.
      transitivity (2 ^ (q + so + 1)); [lia|]. transitivity (2 ^ (30 - (30 - so - val' / 2 ^ n))); [|lia].
      apply Z.pow_le_mono_r; lia.
  - intros i Ei. destruct (exp2_frac_node n f i ltac:(lia) F Ei) as [E Ri]. rewrite E in *.
    assert (Pk : 0 < 2 ^ (30 - so - q)) by (apply Z.pow_pos_nonneg; lia).
    assert (D : 2 ^ (30 - so - q) * (lut i .>> (30 - so - q)) <= lut i /\
                lut i <= 2 ^ (30 - so - q) * ((lut i .>> (30 - so - q)) + 1) - 1).
    { rewrite Z.shiftr_div_pow2 by lia. pose proof (Z.mul_div_le (lut i) _ Pk).
      pose proof (Z.mul_succ_div_gt (lut i) _ Pk). lia. }
    assert (0 < 2 ^ (q + so)) by (apply Z.pow_pos_nonneg; lia).
    assert (0 < 2 ^ (30 - so - q) * (lut i .>> (30 - so - q))) by (apply Z.mul_pos_pos; lia).
    pose proof (lut_mono 0 i ltac:(lia) ltac:(lia) ltac:(lia)) as L0. change (lut 0) with (2 ^ 30) in L0.
    destruct (lut_nearest i Ri) as [N1 N2].
    split; (etransitivity; [|exact N1]) || (etransitivity; [exact N2|]); apply Z.pow_le_mono_l; clear N1 N2; lia.
Qed.

Lemma acamera_exp2_correct_witness :
  exists r, acamera_math_exp2 (5 * 256 + 128) 8 4 = Some r /\ 2 ^ 9 <= r <= 2 ^ 10.
Proof.
  destruct (acamera_exp2_correct (5 * 256 + 128) 8 4) as (r & E & B & _); [lia|lia|lia|vm_compute; discriminate|].
  exists r. split; [exact E|exact B].
Defined.

(** * The coarse logarithm *)

(** The loop keeps the value of the last power of two below the argument. *)
Lemma log16_loop arg k m :
  0 <= k -> k <= 15 -> 2 ^ k < arg <= 2 ^ (k + 1) -> (Z.to_nat k < m <= 16)%nat ->
  foldl (log16_step arg) 0 (seq 0 m) = u8 ((k .<< 4) + (arg .<< 4) / (1 .<< k) - 16).
Proof.
  intros Hk Hk15 Ha. induction m as [|m IH]; intros Hm; [lia|].
  rewrite seq_S, foldl_app, Nat.add_0_l. cbn [foldl]. unfold log16_step at 1. rewrite (Z.shiftl_1_l (Z.of_nat m)).
  destruct (decide (Z.to_nat k = m)) as [<-|N].
  - rewrite Z2Nat.id by lia. destruct (Z.ltb_spec (2 ^ k) arg); [|lia]. by rewrite Z.shiftl_1_l.
  - destruct (Z.ltb_spec (2 ^ Z.of_nat m) arg) as [L|L]; [|apply IH; lia].
    pose proof (Z.pow_le_mono_r 2 (k + 1) (Z.of_nat m) ltac:(lia) ltac:(lia)). lia.
Qed.

(** The chord of the logarithm on an octave, in sixteenths. *)
Lemma chord m : 16 <= m < 33 -> 2 ^ (m + 48) <= m ^ 16 /\ (m + 1) ^ 16 < 2 ^ (m + 51).
Proof.
  intros Hm.
  assert (C : (2 ^ (m - 16 + 64) <=? (m - 16 + 16) ^ 16) && ((m - 16 + 17) ^ 16 <? 2 ^ (m - 16 + 67)) = true).
  { apply (range_cases 17 (fun j => (2 ^ (j + 64) <=? (j + 16) ^ 16) && ((j + 17) ^ 16 <? 2 ^ (j + 67))));
      [vm_compute; reflexivity|lia]. }
  apply andb_prop in C as [C1 C2]. apply Z.leb_le in C1. apply Z.ltb_lt in C2.
  replace (m - 16 + 64) with (m + 48) in C1 by lia. replace (m - 16 + 16) with m in C1 by lia.
  replace (m - 16 + 67) with (m + 51) in C2 by lia. by replace (m - 16 + 17) with (m + 1) in C2 by lia.
Qed.

Lemma log16_eq arg :
  2 <= arg < 65536 ->
  exists k m, 0 <= k <= 15 /\ 16 <= m < 33 /\ 2 ^ k < arg <= 2 * 2 ^ k /\
    m * 2 ^ k <= arg * 16 < (m + 1) * 2 ^ k /\ acamera_log16 arg = 16 * k + m - 16.
Proof.
  intros Ha. set (k := Z.log2_up arg - 1).
  assert (Hk : 0 <= k <= 15).
  { pose proof (Z.log2_up_le_mono 2 arg ltac:(lia)). pose proof (Z.log2_up_le_mono arg (2 ^ 16) ltac:(lia)).
    rewrite Z.log2_up_pow2 in * by lia. change (Z.log2_up 2) with 1 in *. lia. }
  assert (B : 2 ^ k < arg <= 2 ^ (k + 1)).
  { pose proof (Z.log2_up_spec arg ltac:(lia)) as S. rewrite <- Z.sub_1_r in S. fold k in S.
    by replace (k + 1) with (Z.log2_up arg) by lia. }
  exists k, (arg * 16 / 2 ^ k). unfold acamera_log16. rewrite (log16_loop arg k 16) by lia.
  rewrite !Z.shiftl_mul_pow2, Z.mul_1_l by lia. change (2 ^ 4) with 16.
  pose proof (Z.pow_pos_nonneg 2 k ltac:(lia) ltac:(lia)) as P.
  rewrite Z.pow_add_r, (Z.mul_comm (2 ^ k)) in B by lia. change (2 ^ 1) with 2 in B.
  pose proof (Z.mul_div_le (arg * 16) _ P) as D1. pose proof (Z.mul_succ_div_gt (arg * 16) _ P) as D2.
  assert (U : k <= 14 \/ arg * 16 / 2 ^ k < 32).
  { destruct (Z.eq_dec k 15) as [->|]; [right|lia]. apply Z.div_lt_upper_bound; lia. }
  set (m := arg * 16 / 2 ^ k) in *. set (K := 2 ^ k) in *. clearbody m K.
  assert (16 <= m < 33) by nia.
  repeat split; try lia. rewrite u8_small by (unfold is_byte; lia). lia.
Qed.

(** The coarse logarithm, in sixteenths: never above the logarithm, less than 3/16
    below it, exact at the powers of two; 0 and 1 give 0. No intermediate value leaves
    its byte. *)
Theorem acamera_log16_correct arg :
  2 <= arg < 65536 ->
  2 ^ acamera_log16 arg <= arg ^ 16 < 2 ^ (acamera_log16 arg + 3) /\
  (forall n, arg = 2 ^ n -> acamera_log16 arg = 16 * n) /\
  acamera_log16 0 = 0 /\ acamera_log16 1 = 0.
Proof.
  intros Ha. destruct (log16_eq arg Ha) as (k & m & Hk & Hm & B & D & ->).
  split; [|split; [|done]].
  - assert (0 < 2 ^ k) by (apply Z.pow_pos_nonneg; lia).
    assert (L : (m * 2 ^ k) ^ 16 <= (arg * 16) ^ 16) by (apply Z.pow_le_mono_l; nia).
    assert (U : (arg * 16) ^ 16 < ((m + 1) * 2 ^ k) ^ 16) by (apply Z.pow_lt_mono_l; nia).
    assert (P : (2 ^ k) ^ 16 = 2 ^ (16 * k)) by (rewrite <- Z.pow_mul_r by lia; f_equal; lia).
    assert (E : (arg * 16) ^ 16 = arg ^ 16 * 2 ^ 64).
    { etransitivity; [apply Z.pow_mul_l|]. apply (f_equal (Z.mul (arg ^ 16))). vm_compute. reflexivity. }
    rewrite E, Z.pow_mul_l, P in L. rewrite E, Z.pow_mul_l, P in U. clear P E.
    destruct (chord m Hm) as [C1 C2].
    split; [apply (Z.mul_le_mono_pos_r _ _ (2 ^ 64)); [done|]|apply (Z.mul_lt_mono_pos_r (2 ^ 64)); [done|]].
    + etransitivity; [|exact L]. replace (2 ^ (16 * k + m - 16) * 2 ^ 64) with (2 ^ (m + 48) * 2 ^ (16 * k)).
      * apply Z.mul_le_mono_nonneg_r; [by apply Z.pow_nonneg|exact C1].
      * clear C1 C2 L U. rewrite <- !Z.pow_add_r by lia. f_equal. lia.
    + apply (Z.lt_le_trans _ _ _ U).
      replace (2 ^ (16 * k + m - 16 + 3) * 2 ^ 64) with (2 ^ (m + 51) * 2 ^ (16 * k)).
      * apply Z.mul_le_mono_nonneg_r; [by apply Z.pow_nonneg|]. by apply Z.lt_le_incl.
      * clear C1 C2 L U. rewrite <- !Z.pow_add_r by lia. f_equal. lia.
  - intros n ->. assert (N : n = k + 1).
    { assert (0 <= n) by (destruct (Z.neg_nonneg_cases n); [rewrite Z.pow_neg_r in Ha by done; lia|done]).
      assert (k < n) by (apply (Z.pow_lt_mono_r_iff 2); lia).
      rewrite <- Z.pow_succ_r in B by lia. assert (n <= Z.succ k) by (apply (Z.pow_le_mono_r_iff 2); lia). lia. }
    subst n. rewrite Z.pow_add_r in * by lia. change (2 ^ 1) with 2 in *.
    pose proof (Z.pow_pos_nonneg 2 k). nia.
Qed.

Lemma acamera_log16_correct_witness : acamera_log16 1000 = 159 /\ 2 ^ 159 <= 1000 ^ 16 < 2 ^ 162.
Proof.
  split; [reflexivity|]. exact (proj1 (acamera_log16_correct 1000 ltac:(lia))).
Defined.

(** * Modulation tables *)

(** What a look-up in a table of points promises, whatever the order of the points:
    below the first point its value, from the last point on its value, and in between the
    value between two neighbouring points around [x], at a distance quantised to 256
    steps. *)
Inductive modulated (t : list (Z * Z)) (x : Z) : Z -> Prop :=
  | modulated_below x0 y0 : t !! 0%nat = Some (x0, y0) -> x <= x0 -> modulated t x y0
  | modulated_above xl yl : t !! pred (length t) = Some (xl, yl) -> xl <= x -> modulated t x yl
  | modulated_between i xp yp xi yi alpha y :
      t !! i = Some (xp, yp) -> t !! S i = Some (xi, yi) -> xp <= x < xi ->
      alpha = (x - xp) * 256 / (xi - xp) -> y = (yi * alpha + yp * (256 - alpha)) / 256 ->
      Z.min yp yi <= y <= Z.max yp yi -> (x = xp -> y = yp) -> modulated t x y.

(** All coordinates of the table are below [n]. *)
Definition points_below (n : Z) (t : list (Z * Z)) : Prop :=
  Forall (fun p => 0 <= p.1 < n /\ 0 <= p.2 < n) t.

Lemma points_lookup n t i x y : points_below n t -> t !! i = Some (x, y) -> 0 <= x < n /\ 0 <= y < n.
Proof. intros H E. apply (Forall_lookup_1 _ _ _ _ H E). Qed.

(** The distance in 256 steps, and the mean it weighs. *)
Lemma alpha_bounds x xp xi : xp <= x < xi -> 0 <= (x - xp) * 256 / (xi - xp) < 256.
Proof.
  intros H. split; [apply Z.div_pos; lia|apply Z.div_lt_upper_bound; lia].
Qed.

Lemma mean_bounds a b alpha :
  0 <= alpha < 256 -> Z.min a b <= (b * alpha + a * (256 - alpha)) / 256 <= Z.max a b.
Proof.
  intros H. split; [apply Z.div_le_lower_bound; nia|]. apply Z.div_le_upper_bound; nia.
Qed.

Lemma modulated_mean t x i xp yp xi yi :
  t !! i = Some (xp, yp) -> t !! S i = Some (xi, yi) -> xp <= x < xi ->
  modulated t x ((yi * ((x - xp) * 256 / (xi - xp)) + yp * (256 - (x - xp) * 256 / (xi - xp))) / 256).
Proof.
  intros Ep Ei Hx. eapply modulated_between; [exact Ep|exact Ei|exact Hx|done|done| |].
  - apply mean_bounds, alpha_bounds. done.
  - intros ->. rewrite Z.sub_diag, Z.mul_0_l, Z.div_0_l by lia.
    rewrite Z.mul_0_r, Z.sub_0_r. apply Z.div_mul. lia.
Qed.

(** The search finds the first interval that ends beyond [x]. *)
Lemma mod_index_finds wrap t len fuel i x :
  (forall n, 0 <= n <= len -> wrap n = n) -> len = Z.of_nat (length t) -> 1 <= i -> i <= len - 1 ->
  len - i < Z.of_nat fuel ->
  (exists xp yp, t !! Z.to_nat (i - 1) = Some (xp, yp) /\ xp <= x) ->
  (exists xl yl, t !! pred (length t) = Some (xl, yl) /\ x < xl) ->
  exists n xp yp xi yi, mod_index wrap fuel t len i x = Some (Z.of_nat (S n)) /\
    t !! n = Some (xp, yp) /\ t !! S n = Some (xi, yi) /\ xp <= x < xi.
Proof.
  intros Hw Hl. revert i. induction fuel as [|fuel IH]; intros i H1 Hi Hf (xp & yp & Ep & Hp) Hlast; [lia|].
  destruct (lookup_lt_is_Some_2 t (Z.to_nat i)) as [[xi yi] Ei]; [lia|].
  cbn [mod_index]. destruct (Z.ltb_spec i len); [|lia]. rewrite Ei. cbn [mbind option_bind].
  destruct (Z.ltb_spec x xi).
  - exists (Z.to_nat (i - 1)), xp, yp, xi, yi.
    replace (S (Z.to_nat (i - 1))) with (Z.to_nat i) by lia.
    split; [f_equal; lia|]. split; [done|]. split; [done|]. lia.
  - assert (i <> len - 1).
    { intros ->. destruct Hlast as (xl & yl & El & Hx). replace (Z.to_nat (len - 1)) with (pred (length t)) in Ei by lia.
      simplify_eq. lia. }
    rewrite Hw by lia. apply IH; try lia; [|done].
    exists xi, yi. replace (i + 1 - 1) with i by lia. done.
Qed.

(** What precedes the interpolation is the same in both look-ups. *)
Lemma modulation_ind wrap t x len (k : Z -> option Z) :
  (forall n, 0 <= n <= len -> wrap n = n) -> len = Z.of_nat (length t) -> 0 < len ->
  (forall n xp yp xi yi, t !! n = Some (xp, yp) -> t !! S n = Some (xi, yi) -> xp <= x < xi ->
     k (Z.of_nat (S n)) = Some ((yi * ((x - xp) * 256 / (xi - xp)) + yp * (256 - (x - xp) * 256 / (xi - xp))) / 256)) ->
  exists y,
    ('(x0, y0) ← t !! 0%nat;
     if x <=? x0 then Some y0
     else '(xl, yl) ← t !! Z.to_nat (len - 1);
          if xl <=? x then Some yl
          else mod_index wrap (Z.to_nat len) t len 1 x ≫= k) = Some y /\ modulated t x y.
Proof.
  intros Hw Hl H0 Hk. destruct (lookup_lt_is_Some_2 t 0) as [[x0 y0] E0]; [lia|].
  destruct (lookup_lt_is_Some_2 t (pred (length t))) as [[xl yl] El]; [lia|].
  rewrite E0. cbn [mbind option_bind]. destruct (Z.leb_spec x x0).
  { exists y0. split; [done|]. by eapply modulated_below. }
  replace (Z.to_nat (len - 1)) with (pred (length t)) by lia. rewrite El. cbn [mbind option_bind].
  destruct (Z.leb_spec xl x). { exists yl. split; [done|]. by eapply modulated_above. }
  assert (len <> 1). { intros ->. replace (pred (length t)) with 0%nat in El by lia. simplify_eq. lia. }
  destruct (mod_index_finds wrap t len (Z.to_nat len) 1 x) as (n & xp & yp & xi & yi & -> & Ep & Ei & Hx);
    [done|done|lia|lia|lia| | |].
  - exists x0, y0. split; [done|lia].
  - by exists xl, yl.
  - eexists. split; [by eapply Hk|]. by eapply modulated_mean.
Qed.

(** The look-ups in tables of points read the table in bounds, never reach the guard
    against a division by zero, and return the value of the table at [x]: in 16 bits for
    every table and [x], in 32 bits for coordinates of at most 24 bits and tables the
    16-bit index can count. *)
Theorem calc_modulation_correct t x :
  t <> [] -> 0 <= x ->
  (points_below (2 ^ 16) t -> x < 2 ^ 16 -> Z.of_nat (length t) < 2 ^ 31 ->
   exists y, acamera_calc_modulation_u16 x t (Z.of_nat (length t)) = Some y /\ modulated t x y) /\
  (points_below (2 ^ 24) t -> x < 2 ^ 24 -> Z.of_nat (length t) < 2 ^ 16 ->
   exists y, acamera_calc_modulation_u32 x t (Z.of_nat (length t)) = Some y /\ modulated t x y).
Proof.
  intros Ht Hx0. assert (L : 0 < Z.of_nat (length t)) by (destruct t; [done|simpl; lia]).
  split; intros Hp Hx Hl.
  - apply (modulation_ind id); try done.
    intros n xp yp xi yi Ep Ei Hxx. rewrite Nat2Z.id, Ei. cbn [mbind option_bind].
    replace (Z.to_nat (Z.of_nat (S n) - 1)) with n by lia. rewrite Ep. cbn [mbind option_bind].
    pose proof (points_lookup _ _ _ _ _ Hp Ep). pose proof (points_lookup _ _ _ _ _ Hp Ei).
    unfold truthy. destruct (Z.eqb_spec (xi - xp) 0); [lia|]. cbn [negb].
    rewrite Z.quot_div_nonneg by lia. pose proof (alpha_bounds x xp xi Hxx) as A.
    pose proof (mean_bounds yp yi _ A) as M. rewrite Z.shiftr_div_pow2 by lia. change (2 ^ 8) with 256.
    by rewrite u16_small by lia.
  - apply (modulation_ind u16); try done; [intros; apply u16_small; lia|].
    intros n xp yp xi yi Ep Ei Hxx. rewrite Nat2Z.id, Ei. cbn [mbind option_bind].
    replace (Z.to_nat (Z.of_nat (S n) - 1)) with n by lia. rewrite Ep. cbn [mbind option_bind].
    pose proof (points_lookup _ _ _ _ _ Hp Ep). pose proof (points_lookup _ _ _ _ _ Hp Ei).
    rewrite (u32_small (xi - xp)) by lia. unfold truthy. destruct (Z.eqb_spec (xi - xp) 0); [lia|]. cbn [negb].
    rewrite (u32_small (x - xp)), (u32_small ((x - xp) * 256)) by lia.
    pose proof (alpha_bounds x xp xi Hxx) as A. revert A. set (alpha := (x - xp) * 256 / (xi - xp)). intros A.
    rewrite (u32_small (256 - alpha)) by lia.
    rewrite (u32_small (yi * alpha)), (u32_small (yp * (256 - alpha))) by nia.
    rewrite u32_small by nia. rewrite Z.shiftr_div_pow2 by lia. done.
Qed.

Lemma calc_modulation_correct_witness :
  exists y, acamera_calc_modulation_u16 150 [(100, 10); (200, 30); (300, 0)] 3 = Some y /\
    modulated [(100, 10); (200, 30); (300, 0)] 150 y.
Proof.
  apply (proj1 (calc_modulation_correct [(100, 10); (200, 30); (300, 0)] 150 ltac:(discriminate) ltac:(lia)));
    [repeat constructor; simpl; lia|lia|simpl; lia].
Defined.

(** Above that range the 32-bit look-up overflows: half way between the values 0 and 256
    it returns 0, and between two points of the same value a result that is not that
    value. *)
Lemma modulation_u32_overflows :
  acamera_calc_modulation_u32 (2 ^ 24) [(0, 0); (2 ^ 25, 256)] 2 = Some 0 /\
  acamera_calc_modulation_u32 5 [(0, 2 ^ 25); (10, 2 ^ 25)] 2 = Some 0.
Proof. split; vm_compute; reflexivity. Qed.

(** * Equidistant tables *)

(** Between the first and the last value of a table of [len] values at the distance
    [65536 / (len - 1)], the value at [x] and the index of the entry before it. *)
Lemma equidistant_u16_between t x :
  Forall (fun y => 0 <= y < 2 ^ 16) t -> 3 <= Z.of_nat (length t) <= 65535 -> 0 < x < 65535 ->
  let len := Z.of_nat (length t) in
  let d := 65536 / (len - 1) in
  if x <? d * (len - 1) then
    exists n a b y, n = Z.to_nat (x / d) /\ t !! n = Some a /\ t !! S n = Some b /\
      acamera_calc_equidistant_modulation_u16 x t len = Some y /\
      y = (b * (x mod d * 256 / d) + a * (256 - x mod d * 256 / d)) / 256
  else acamera_calc_equidistant_modulation_u16 x t len = None.
Proof.
  intros Ht Hl Hx len d. fold len in Hl. unfold acamera_calc_equidistant_modulation_u16.
  change (1 .<< 16) with 65536. change (65536 - 1) with 65535.
  destruct (Z.eqb_spec x 0); [lia|]. destruct (Z.eqb_spec x 65535); [lia|]. destruct (Z.eqb_spec len 1); [lia|].
  rewrite Z.quot_div_nonneg by lia. fold d.
  pose proof (Z.mul_div_le 65536 (len - 1) ltac:(lia)) as D1. fold d in D1.
  pose proof (Z.mul_succ_div_gt 65536 (len - 1) ltac:(lia)) as D2. fold d in D2.
  assert (Hd : 1 <= d <= 32768) by nia. clear D2.
  rewrite (u16_small d) by lia. destruct (Z.eqb_spec d 0); [lia|].
  pose proof (Z.div_mod x d ltac:(lia)) as Dx. pose proof (Z.mod_pos_bound x d ltac:(lia)) as Mx.
  set (bn := x / d) in *. set (r := x mod d) in *.
  assert (B : 0 <= bn <= x) by (split; [apply Z.div_pos; lia|apply Z.div_le_upper_bound; nia]).
  rewrite (u16_small bn) by lia. replace (x - bn * d) with r by lia.
  rewrite Z.quot_div_nonneg by lia.
  assert (A : 0 <= r * 256 / d < 256) by (split; [apply Z.div_pos; lia|apply Z.div_lt_upper_bound; lia]).
  rewrite (u16_small (r * 256 / d)) by lia. set (alpha := r * 256 / d) in *. clearbody bn r alpha d.
  destruct (Z.ltb_spec x (d * (len - 1))) as [In|Out].
  - destruct (lookup_lt_is_Some_2 t (Z.to_nat bn)) as [a Ea]; [nia|].
    destruct (lookup_lt_is_Some_2 t (S (Z.to_nat bn))) as [b Eb]; [nia|].
    exists (Z.to_nat bn), a, b. eexists. split; [done|]. split; [done|]. split; [done|].
    rewrite Ea. cbn [mbind option_bind]. replace (Z.to_nat (bn + 1)) with (S (Z.to_nat bn)) by lia.
    rewrite Eb. cbn [mbind option_bind]. split; [|done].
    pose proof (Forall_lookup_1 _ _ _ _ Ht Ea). pose proof (Forall_lookup_1 _ _ _ _ Ht Eb). cbn beta in *.
    pose proof (mean_bounds a b alpha A). rewrite Z.quot_div_nonneg by nia.
    rewrite (Z.add_comm (a * _)). by rewrite u16_small by lia.
  - assert (E : t !! Z.to_nat (bn + 1) = None) by (apply lookup_ge_None; nia). rewrite E.
    by destruct (t !! Z.to_nat bn).
Qed.

(** The look-up in an equidistant table of 3 to 65535 values: the ends are the first
    and the last value; inside, the read is in bounds, and the result lies between the two
    neighbouring values, exactly when [x] is below [len - 1] steps of the rounded-down
    distance: a number of intervals that does not divide 65536 leaves arguments for which
    the code reads past the table. And a table of two values always gives the first one
    below 65535, since the distance does not fit its type. *)
Theorem calc_equidistant_bounds t x :
  Forall (fun y => 0 <= y < 2 ^ 16) t -> 3 <= Z.of_nat (length t) <= 65535 -> 0 <= x < 65536 ->
  let len := Z.of_nat (length t) in
  let d := 65536 / (len - 1) in
  let y := acamera_calc_equidistant_modulation_u16 x t len in
  (x = 0 -> y = t !! 0%nat) /\ (x = 65535 -> y = last t) /\
  (0 < x < 65535 -> (y = None <-> d * (len - 1) <= x)) /\
  (forall v, 0 < x < 65535 -> y = Some v -> exists a b,
     t !! Z.to_nat (x / d) = Some a /\ t !! S (Z.to_nat (x / d)) = Some b /\
     Z.min a b <= v <= Z.max a b /\ (x mod d = 0 -> v = a)) /\
  (forall a b, x < 65535 -> acamera_calc_equidistant_modulation_u16 x [a; b] 2 = Some a).
Proof.
  intros Ht Hl Hx len d y. split; [intros E; unfold y; by rewrite E|]. split; [|split; [|split]].
  - intros E. unfold y. rewrite E, last_lookup. unfold acamera_calc_equidistant_modulation_u16.
    change (65535 =? 0) with false. change (65535 =? (1 .<< 16) - 1) with true. cbn match.
    f_equal. unfold len. lia.
  - intros Hin. pose proof (equidistant_u16_between t x Ht Hl Hin) as B. cbv zeta in B. fold len d y in B.
    destruct (Z.ltb_spec x (d * (len - 1))) as [L|L]; [|by rewrite B].
    destruct B as (n & a & b & v & _ & _ & _ & -> & _). split; [done|lia].
  - intros v Hin Ev. pose proof (equidistant_u16_between t x Ht Hl Hin) as B. cbv zeta in B. fold len d y in B.
    destruct (x <? d * (len - 1)); [|congruence].
    destruct B as (n & a & b & v' & -> & Ea & Eb & E & Hv). rewrite E in Ev. injection Ev as <-.
    exists a, b. split; [done|]. split; [done|].
    assert (Hd : 1 <= d) by (apply Z.div_le_lower_bound; lia).
    pose proof (Z.mod_pos_bound x d ltac:(lia)). split.
    + rewrite Hv. apply mean_bounds. split; [apply Z.div_pos; lia|apply Z.div_lt_upper_bound; lia].
    + intros M. rewrite Hv, M, Z.mul_0_l, Z.div_0_l, Z.mul_0_r, Z.sub_0_r by lia. by apply Z.div_mul.
  - intros a b Hlt. unfold acamera_calc_equidistant_modulation_u16. destruct (x =? 0); [done|].
    change ((1 .<< 16) - 1) with 65535. by destruct (Z.eqb_spec x 65535); [lia|].
Qed.

Lemma calc_equidistant_bounds_witness :
  acamera_calc_equidistant_modulation_u16 65534 [0; 1; 2; 3; 4; 5; 6] 7 = None /\
  acamera_calc_equidistant_modulation_u16 40000 [7; 9] 2 = Some 7.
Proof.
  pose proof (calc_equidistant_bounds [0; 1; 2; 3; 4; 5; 6] 65534
    ltac:(repeat constructor; lia) ltac:(simpl; lia) ltac:(lia)) as H. cbv zeta in H.
  pose proof (calc_equidistant_bounds [0; 1; 2] 40000
    ltac:(repeat constructor; lia) ltac:(simpl; lia) ltac:(lia)) as H2. cbv zeta in H2.
  split.
  - apply H; [lia|]. vm_compute. discriminate.
  - apply H2. lia.
Defined.

(** The search in a table of values, as in a table of points. *)
Lemma inv_index_finds t len fuel i x :
  len = Z.of_nat (length t) -> 1 <= i -> i <= len - 1 -> len - i < Z.of_nat fuel ->
  (exists tp, t !! Z.to_nat (i - 1) = Some tp /\ tp <= x) ->
  (exists tl, t !! pred (length t) = Some tl /\ x < tl) ->
  exists n tp ti, inv_index fuel t len i x = Some (Z.of_nat (S n)) /\
    t !! n = Some tp /\ t !! S n = Some ti /\ tp <= x < ti.
Proof.
  intros Hl. revert i. induction fuel as [|fuel IH]; intros i H1 Hi Hf (tp & Ep & Hp) Hlast; [lia|].
  destruct (lookup_lt_is_Some_2 t (Z.to_nat i)) as [ti Ei]; [lia|].
  cbn [inv_index]. destruct (Z.ltb_spec i len); [|lia]. rewrite Ei. cbn [mbind option_bind].
  destruct (Z.ltb_spec x ti).
  - exists (Z.to_nat (i - 1)), tp, ti. replace (S (Z.to_nat (i - 1))) with (Z.to_nat i) by lia.
    split; [f_equal; lia|]. split; [done|]. split; [done|]. lia.
  - assert (i <> len - 1).
    { intros ->. destruct Hlast as (tl & El & Hx). replace (Z.to_nat (len - 1)) with (pred (length t)) in Ei by lia.
      simplify_eq. lia. }
    apply IH; try lia; [|done]. exists ti. by replace (i + 1 - 1) with i by lia.
Qed.

(** The inverse look-up of a table of 3 to 65535 values, whatever their order: the ends
    clamp, and inside, the result is a position in an interval of the table whose values
    are around [x]. *)
Theorem calc_inv_equidistant_correct t x :
  Forall (fun y => 0 <= y < 2 ^ 16) t -> 3 <= Z.of_nat (length t) <= 65535 -> 0 <= x < 65536 ->
  let len := Z.of_nat (length t) in
  let d := 65536 / (len - 1) in
  exists v, acamera_calc_inv_equidistant_modulation_u16 x t len = Some v /\
    ((v = 0 /\ exists t0, t !! 0%nat = Some t0 /\ x <= t0) \/
     (v = 65535 /\ exists tl, last t = Some tl /\ tl <= x) \/
     exists n tp ti, t !! n = Some tp /\ t !! S n = Some ti /\ tp <= x < ti /\
       d * Z.of_nat n <= v <= d * Z.of_nat (S n) /\ (x = tp -> v = d * Z.of_nat n)).
Proof.
  intros Ht Hl Hx len d. fold len in Hl. unfold acamera_calc_inv_equidistant_modulation_u16.
  destruct (lookup_lt_is_Some_2 t 0) as [t0 E0]; [lia|].
  destruct (lookup_lt_is_Some_2 t (pred (length t))) as [tl El]; [lia|].
  rewrite E0. cbn [mbind option_bind]. destruct (Z.leb_spec x t0); [exists 0; split; [done|]; left; eauto|].
  replace (Z.to_nat (len - 1)) with (pred (length t)) by lia. rewrite El. cbn [mbind option_bind].
  destruct (Z.leb_spec tl x).
  { exists 65535. split; [done|]. right. left. split; [done|]. exists tl. by rewrite last_lookup. }
  destruct (Z.eqb_spec len 1) as [|Nl]; [lia|].
  destruct (inv_index_finds t len (Z.to_nat len) 1 x) as (n & tp & ti & -> & Ep & Ei & Hxx); try done; try lia.
  { exists t0. split; [done|lia]. } { by exists tl. }
  cbn [mbind option_bind]. rewrite Nat2Z.id, Ei. cbn [mbind option_bind].
  replace (Z.to_nat (Z.of_nat (S n) - 1)) with n by lia. rewrite Ep. cbn [mbind option_bind].
  destruct (Z.eqb_spec ti tp); [lia|]. change (1 .<< 16) with 65536. rewrite (Z.quot_div_nonneg 65536), (Z.quot_div_nonneg ((x - tp) * 256)) by lia. fold d.
  pose proof (Z.mul_div_le 65536 (len - 1) ltac:(lia)) as D1. fold d in D1.
  assert (Hd : 1 <= d <= 32768) by (split; [apply Z.div_le_lower_bound; lia|apply Z.div_le_upper_bound; lia]).
  rewrite (u16_small d) by lia.
  assert (A : 0 <= (x - tp) * 256 / (ti - tp) < 256) by (apply alpha_bounds; lia).
  rewrite (u16_small (_ / _)) by lia.
  assert (A0 : x = tp -> (x - tp) * 256 / (ti - tp) = 0)
    by (intros ->; rewrite Z.sub_diag; apply Z.div_0_l; lia).
  revert A A0. generalize ((x - tp) * 256 / (ti - tp)). intros alpha A A0.
  pose proof (lookup_lt_Some _ _ _ Ei).
  replace (Z.of_nat (S n) - 1) with (Z.of_nat n) by lia.
  pose proof (mean_bounds (d * Z.of_nat n) (d * Z.of_nat (S n)) alpha A) as M.
  rewrite Z.quot_div_nonneg by nia.
  assert (Hn : d * Z.of_nat n + d = d * Z.of_nat (S n) /\ d * Z.of_nat (S n) <= 65536) by nia.
  assert (U : (d * Z.of_nat (S n) * alpha + d * Z.of_nat n * (256 - alpha)) / 256 < 65536)
    by (apply Z.div_lt_upper_bound; nia).
  rewrite u16_small by lia. eexists. split; [done|]. right. right.
  exists n, tp, ti. split; [done|]. split; [done|]. split; [done|]. split; [lia|].
  intros Hxt. rewrite (A0 Hxt), Z.mul_0_r, Z.sub_0_r. by apply Z.div_mul.
Qed.

(** The line offset is the line rounded up to 128 bytes, as long as it fits 16 bits. *)
Theorem line_offset_aligned line_len bpp :
  0 <= line_len -> is_byte bpp -> bpp * line_len <= 65536 - 128 ->
  let o := acamera_line_offset line_len bpp in
  o mod 128 = 0 /\ bpp * line_len <= o < bpp * line_len + 128.
Proof.
  intros Hl Hb Hf o. unfold is_byte in Hb. unfold o, acamera_line_offset. assert (0 <= bpp * line_len) by nia.
  revert H Hf. generalize (bpp * line_len). intros z H Hf. change (128 - 1) with 127. rewrite (u32_small (_ - 1)) by lia.
  replace (z + 128 - 1) with (z + 127) by lia. change (u32 (Z.lnot 127)) with (Z.ones 32 - 127).
  assert (E : (z + 127) .& (Z.ones 32 - 127) = (z + 127) / 128 * 128).
  { change (Z.ones 32 - 127) with (Z.ones 25 .<< 7). replace ((z + 127) / 128 * 128) with (((z + 127) .>> 7) .<< 7)
      by (rewrite Z.shiftr_div_pow2, Z.shiftl_mul_pow2 by lia; done).
    apply Z.bits_inj'. intros n Hn. rewrite Z.land_spec, !Z.shiftl_spec by lia.
    destruct (Z.ltb_spec n 7); [by rewrite !(Z.testbit_neg_r _ (n - 7)), andb_false_r by lia|].
    rewrite Z.shiftr_spec by lia. replace (n - 7 + 7) with n by lia.
    destruct (Z.ltb_spec (n - 7) 25).
    - by rewrite Z.ones_spec_low, andb_true_r by lia.
    - rewrite Z.ones_spec_high, andb_false_r by lia. symmetry. apply Z.bits_above_log2; [lia|].
      apply Z.log2_lt_pow2; [lia|]. apply (Z.lt_le_trans _ (2 ^ 17)); [lia|apply Z.pow_le_mono_r; lia]. }
  rewrite E. pose proof (Z.div_mod (z + 127) 128). pose proof (Z.mod_pos_bound (z + 127) 128).
  rewrite u16_small by lia. split; [by apply Z.mod_mul|lia].
Qed.
