(* ===== verification/WifiReorder.v ===== *)
(** The A-MPDU receive reordering of the Wi-Fi driver: [struct recv_reorder_ctrl]
    ([rtw_recv.h]) and the functions of [rtw_recv.c] that check, queue and indicate the
    frames of one traffic identifier, with the places of [rtw_mlme.c], [rtw_mlme_ext.c],
    [rtw_sta_mgt.c], [rtw_wlan_util.c] and [hal_com.c] that reset or move its window.

    A frame is what the reordering reads of it; the result of [recv_process_mpdu], which
    hands a frame to the network stack and is not modelled, comes with the frame. The
    timer is whether it is armed. Each operation runs under the lock of the queue, so it
    is one step; [rtw_process_bar_frame] writes one field without it. *)

From S2P Require Import Prelude.
From Stdlib Require Import Sorted.

(** * Definitions *)

Definition _FAIL := 0.
Definition _SUCCESS := 1.
Definition RTW_RX_HANDLED := 2.
Definition RX_AMPDU_SIZE_INVALID := 0xFF.

Definition SN_LESS (a b : Z) : bool := truthy ((a - b) .& 0x800).
Definition SN_EQUAL (a b : Z) : bool := a =? b.

Record recv_frame := mk_recv_frame {
  fid : nat;               (* which frame it is *)
  seq_num : Z;
  qos : bool;
  has_reorder : bool;      (* preorder_ctrl != NULL *)
  mpdu_ok : bool           (* recv_process_mpdu returns _SUCCESS *)
}.

Record recv_reorder_ctrl := mk_reorder {
  enable : bool;
  indicate_seq : Z;
  wsize_b : Z;
  ampdu_size : Z;
  pending_recvframe_queue : list recv_frame;
  reordering_ctrl_timer : bool;
  bReorderWaiting : bool;
  rec_ack_or_timeout : bool;   (* bit RTW_RECV_ACK_OR_TIMEOUT of rec_abba_rsp_ack *)
  rec_reorder_wow : bool       (* bit RTW_RECV_REORDER_WOW *)
}.

Definition set_enable (v : bool) (c : recv_reorder_ctrl) : recv_reorder_ctrl :=
  mk_reorder v (indicate_seq c) (wsize_b c) (ampdu_size c) (pending_recvframe_queue c)
    (reordering_ctrl_timer c) (bReorderWaiting c) (rec_ack_or_timeout c) (rec_reorder_wow c).
Definition set_indicate_seq (v : Z) (c : recv_reorder_ctrl) : recv_reorder_ctrl :=
  mk_reorder (enable c) v (wsize_b c) (ampdu_size c) (pending_recvframe_queue c)
    (reordering_ctrl_timer c) (bReorderWaiting c) (rec_ack_or_timeout c) (rec_reorder_wow c).
Definition set_ampdu_size (v : Z) (c : recv_reorder_ctrl) : recv_reorder_ctrl :=
  mk_reorder (enable c) (indicate_seq c) (wsize_b c) v (pending_recvframe_queue c)
    (reordering_ctrl_timer c) (bReorderWaiting c) (rec_ack_or_timeout c) (rec_reorder_wow c).
Definition set_pending (v : list recv_frame) (c : recv_reorder_ctrl) : recv_reorder_ctrl :=
  mk_reorder (enable c) (indicate_seq c) (wsize_b c) (ampdu_size c) v
    (reordering_ctrl_timer c) (bReorderWaiting c) (rec_ack_or_timeout c) (rec_reorder_wow c).
Definition set_timer (v : bool) (c : recv_reorder_ctrl) : recv_reorder_ctrl :=
  mk_reorder (enable c) (indicate_seq c) (wsize_b c) (ampdu_size c) (pending_recvframe_queue c)
    v (bReorderWaiting c) (rec_ack_or_timeout c) (rec_reorder_wow c).
Definition set_waiting (v : bool) (c : recv_reorder_ctrl) : recv_reorder_ctrl :=
  mk_reorder (enable c) (indicate_seq c) (wsize_b c) (ampdu_size c) (pending_recvframe_queue c)
    (reordering_ctrl_timer c) v (rec_ack_or_timeout c) (rec_reorder_wow c).
Definition set_ack_or_timeout (v : bool) (c : recv_reorder_ctrl) : recv_reorder_ctrl :=
  mk_reorder (enable c) (indicate_seq c) (wsize_b c) (ampdu_size c) (pending_recvframe_queue c)
    (reordering_ctrl_timer c) (bReorderWaiting c) v (rec_reorder_wow c).
Definition set_wow (v : bool) (c : recv_reorder_ctrl) : recv_reorder_ctrl :=
  mk_reorder (enable c) (indicate_seq c) (wsize_b c) (ampdu_size c) (pending_recvframe_queue c)
    (reordering_ctrl_timer c) (bReorderWaiting c) (rec_ack_or_timeout c) v.

(** The counters of [struct recv_priv] the reordering keeps, all of 64 bits. *)
Record recv_priv := mk_priv {
  dbg_rx_drop_count : Z;
  dbg_rx_ampdu_drop_count : Z;
  dbg_rx_ampdu_forced_indicate_count : Z;
  dbg_rx_ampdu_loss_count : Z;
  dbg_rx_ampdu_window_shift_cnt : Z;
  rx_drop : Z
}.

Definition count_drop (p : recv_priv) : recv_priv :=
  mk_priv (u64 (dbg_rx_drop_count p + 1)) (dbg_rx_ampdu_drop_count p) (dbg_rx_ampdu_forced_indicate_count p)
    (dbg_rx_ampdu_loss_count p) (dbg_rx_ampdu_window_shift_cnt p) (rx_drop p).
Definition count_ampdu_drop (p : recv_priv) : recv_priv :=
  mk_priv (dbg_rx_drop_count p) (u64 (dbg_rx_ampdu_drop_count p + 1)) (dbg_rx_ampdu_forced_indicate_count p)
    (dbg_rx_ampdu_loss_count p) (dbg_rx_ampdu_window_shift_cnt p) (rx_drop p).
Definition count_forced (p : recv_priv) : recv_priv :=
  mk_priv (dbg_rx_drop_count p) (dbg_rx_ampdu_drop_count p) (u64 (dbg_rx_ampdu_forced_indicate_count p + 1))
    (dbg_rx_ampdu_loss_count p) (dbg_rx_ampdu_window_shift_cnt p) (rx_drop p).
Definition count_shift (p : recv_priv) : recv_priv :=
  mk_priv (dbg_rx_drop_count p) (dbg_rx_ampdu_drop_count p) (dbg_rx_ampdu_forced_indicate_count p)
    (dbg_rx_ampdu_loss_count p) (u64 (dbg_rx_ampdu_window_shift_cnt p + 1)) (rx_drop p).

Definition recv_indicatepkts_pkt_loss_cnt (prev_seq current_seq : Z) (p : recv_priv) : recv_priv :=
  let n := if current_seq <? prev_seq then u64 (4096 + current_seq - prev_seq) else current_seq - prev_seq in
  mk_priv (dbg_rx_drop_count p) (dbg_rx_ampdu_drop_count p) (dbg_rx_ampdu_forced_indicate_count p)
    (u64 (dbg_rx_ampdu_loss_count p + n)) (dbg_rx_ampdu_window_shift_cnt p) (u64 (rx_drop p + n)).

(** The state of one traffic identifier, with the frames handed to [recv_process_mpdu] so
    far, in order. *)
Record reorder_st := mk_st {
  ctrl : recv_reorder_ctrl;
  priv : recv_priv;
  indicated : list recv_frame
}.

Definition on_ctrl (f : recv_reorder_ctrl -> recv_reorder_ctrl) (s : reorder_st) : reorder_st :=
  mk_st (f (ctrl s)) (priv s) (indicated s).
Definition on_priv (f : recv_priv -> recv_priv) (s : reorder_st) : reorder_st :=
  mk_st (ctrl s) (f (priv s)) (indicated s).

Definition check_indicate_seq (seq : Z) (s : reorder_st) : bool * reorder_st :=
  let s := if indicate_seq (ctrl s) =? 0xFFFF then on_ctrl (set_indicate_seq seq) s else s in
  let wsize := wsize_b (ctrl s) in
  let wend := (indicate_seq (ctrl s) + wsize - 1) .& 0xFFF in
  if SN_LESS seq (indicate_seq (ctrl s)) then (false, s)
  else if SN_EQUAL seq (indicate_seq (ctrl s)) then
    (true, on_ctrl (set_indicate_seq ((indicate_seq (ctrl s) + 1) .& 0xFFF)) s)
  else if SN_LESS wend seq then
    let start := if wsize - 1 <=? seq then u16 (seq + 1 - wsize) else u16 (0xFFF - (wsize - (seq + 1)) + 1) in
    (true, on_priv count_shift (on_ctrl (set_indicate_seq start) s))
  else (true, s).

(** The search for the position and the insertion before it; [None]: a duplicate. *)
Fixpoint enqueue_frame (f : recv_frame) (q : list recv_frame) : option (list recv_frame) :=
  match q with
  | [] => Some [f]
  | g :: q' =>
      if SN_LESS (seq_num g) (seq_num f) then q'' ← enqueue_frame f q'; Some (g :: q'')
      else if SN_EQUAL (seq_num g) (seq_num f) then None
      else Some (f :: q)
  end.

Definition enqueue_reorder_recvframe (f : recv_frame) (s : reorder_st) : bool * reorder_st :=
  match enqueue_frame f (pending_recvframe_queue (ctrl s)) with
  | Some q => (true, on_ctrl (set_pending q) s)
  | None => (false, s)
  end.

(** The loop over the queue: the frames up to the window start leave it. *)
Fixpoint indicate_loop (q : list recv_frame) (s : reorder_st) : bool * reorder_st :=
  match q with
  | [] => (false, on_ctrl (set_pending []) s)
  | f :: q' =>
      if negb (SN_LESS (indicate_seq (ctrl s)) (seq_num f)) then
        let s := if SN_EQUAL (indicate_seq (ctrl s)) (seq_num f)
                 then on_ctrl (set_indicate_seq ((indicate_seq (ctrl s) + 1) .& 0xFFF)) s else s in
        let s := mk_st (ctrl s) (priv s) (indicated s ++ [f]) in
        let s := if mpdu_ok f then s else on_priv count_drop s in
        indicate_loop q' s
      else (true, on_ctrl (set_pending q) s)
  end.

Definition recv_indicatepkts_in_order (bforced : bool) (s : reorder_st) : bool * reorder_st :=
  if bforced then
    let s := on_priv count_forced s in
    match pending_recvframe_queue (ctrl s) with
    | [] => (true, s)
    | f :: _ =>
        let s := on_priv (recv_indicatepkts_pkt_loss_cnt (indicate_seq (ctrl s)) (seq_num f)) s in
        let s := on_ctrl (set_indicate_seq (seq_num f)) s in
        indicate_loop (pending_recvframe_queue (ctrl s)) s
    end
  else indicate_loop (pending_recvframe_queue (ctrl s)) s.

Definition recv_indicatepkt_reorder (f : recv_frame) (s : reorder_st) : Z * reorder_st :=
  if negb (qos f) || negb (has_reorder f) || negb (enable (ctrl s)) then (_SUCCESS, s)
  else
    let s := if rec_ack_or_timeout (ctrl s)
             then on_ctrl (fun c => set_indicate_seq 0xFFFF (set_ack_or_timeout false c)) s else s in
    let s := if rec_reorder_wow (ctrl s)
             then on_ctrl (fun c => set_indicate_seq 0xFFFF (set_wow false c)) s else s in
    let '(ok, s) := check_indicate_seq (seq_num f) s in
    if negb ok then (_FAIL, on_priv count_ampdu_drop s)
    else
      let '(ok, s) := enqueue_reorder_recvframe f s in
      if negb ok then (_FAIL, s)
      else
        let '(in_buf, s) := recv_indicatepkts_in_order false s in
        if in_buf then
          (RTW_RX_HANDLED,
           if negb (bReorderWaiting (ctrl s)) then on_ctrl (fun c => set_timer true (set_waiting true c)) s else s)
        else (RTW_RX_HANDLED, on_ctrl (fun c => set_timer false (set_waiting false c)) s).

(** The timer expires; [cannot_run] is [RTW_CANNOT_RUN]. *)
Definition rtw_reordering_ctrl_timeout_handler (cannot_run : bool) (s : reorder_st) : reorder_st :=
  let s := on_ctrl (set_timer false) s in
  if cannot_run then s
  else
    let s := on_ctrl (set_waiting false) s in
    let '(again, s) := recv_indicatepkts_in_order true s in
    if again then on_ctrl (set_timer true) s else s.

Definition recv_set_iseq_before_mpdu_process (f : recv_frame) (s : reorder_st) : reorder_st :=
  if has_reorder f then on_ctrl (set_indicate_seq (seq_num f)) s else s.
Definition recv_set_iseq_after_mpdu_process (f : recv_frame) (s : reorder_st) : reorder_st :=
  if has_reorder f then on_ctrl (set_indicate_seq ((indicate_seq (ctrl s) + 1) mod 4096)) s else s.

(** The end of [recv_func_posthandle], from the reordering on. *)
Definition recv_func_posthandle (f : recv_frame) (s : reorder_st) : Z * reorder_st :=
  let '(ret, s) := recv_indicatepkt_reorder f s in
  if ret =? _FAIL then (ret, on_priv count_drop s)
  else if ret =? RTW_RX_HANDLED then (ret, s)
  else
    let s := recv_set_iseq_before_mpdu_process f s in
    let s := mk_st (ctrl s) (priv s) (indicated s ++ [f]) in
    let s := recv_set_iseq_after_mpdu_process f s in
    if mpdu_ok f then (_SUCCESS, s) else (_FAIL, on_priv count_drop s).

(** ** Sessions *)

(** A new station entry, zeroed and initialised ([rtw_alloc_stainfo]). *)
Definition rtw_alloc_stainfo (c : recv_reorder_ctrl) : recv_reorder_ctrl :=
  mk_reorder false 0xffff 64 RX_AMPDU_SIZE_INVALID [] false false false false.

(** Joining a network ([rtw_joinbss_update_stainfo]): the queue stays. *)
Definition rtw_joinbss_update_stainfo (s : reorder_st) : reorder_st :=
  on_ctrl (fun c => set_ampdu_size RX_AMPDU_SIZE_INVALID
    (mk_reorder false 0xffff 64 (ampdu_size c) (pending_recvframe_queue c) (reordering_ctrl_timer c)
       (bReorderWaiting c) false (rec_reorder_wow c))) s.

(** The station entry goes away ([rtw_free_stainfo]). *)
Definition rtw_free_stainfo (s : reorder_st) : reorder_st :=
  on_ctrl (fun c => set_pending [] (set_timer false (set_ack_or_timeout false c))) s.

(** The answer to an ADDBA request. *)
Definition add_ba_rsp_hdl (status size : Z) (s : reorder_st) : reorder_st :=
  let s := on_ctrl (set_ack_or_timeout true) s in
  if status =? 0 then on_ctrl (fun c => set_ampdu_size size (set_enable true c)) s
  else if status =? 37 then on_ctrl (set_enable false) s
  else s.

(** A DELBA of the originator ([OnAction_back]). *)
Definition delba_received (s : reorder_st) : reorder_st :=
  on_ctrl (fun c => set_ampdu_size RX_AMPDU_SIZE_INVALID (set_enable false c)) s.

(** A block acknowledgement request; [ctl] is the 16-bit sequence control. *)
Definition rtw_process_bar_frame (ctl : Z) (s : reorder_st) : reorder_st :=
  on_ctrl (set_indicate_seq (ctl .>> 4)) s.

(** Resuming from wake-on-WLAN ([rtw_hal_wow_disable]). *)
Definition wow_resumed (s : reorder_st) : reorder_st := on_ctrl (set_wow true) s.

Inductive reorder_event :=
  | RxFrame (f : recv_frame) | Timeout (cannot_run : bool) | Joined
  | Reassigned   (* the station entry is freed and allocated again *)
  | AddBaRsp (status size : Z) | DelBa | Bar (ctl : Z) | WowResumed.

Definition reorder_step (e : reorder_event) (s : reorder_st) : reorder_st :=
  match e with
  | RxFrame f => (recv_func_posthandle f s).2
  | Timeout cannot_run =>
      if reordering_ctrl_timer (ctrl s) then rtw_reordering_ctrl_timeout_handler cannot_run s else s
  | Joined => rtw_joinbss_update_stainfo s
  | Reassigned => on_ctrl rtw_alloc_stainfo (rtw_free_stainfo s)
  | AddBaRsp status size => add_ba_rsp_hdl status size s
  | DelBa => delba_received s
  | Bar ctl => rtw_process_bar_frame ctl s
  | WowResumed => wow_resumed s
  end.

Definition reorder_run (es : list reorder_event) (s : reorder_st) : reorder_st :=
  foldl (fun s e => reorder_step e s) s es.

(** * Sequence numbers *)

(** The signed distance from [a] to [b] on the circle of 4096 numbers. *)
Definition sdist (a b : Z) : Z := (b - a + 2048) mod 4096 - 2048.

Lemma sdist_range a b : -2048 <= sdist a b < 2048.
Proof. unfold sdist. pose proof (Z.mod_pos_bound (b - a + 2048) 4096). lia. Qed.

Lemma land_fff x : x .& 0xFFF = x mod 4096.
Proof. change 0xFFF with (Z.ones 12). by rewrite Z.land_ones. Qed.

Lemma truthy_bit x : truthy (x .& 0x800) = Z.testbit x 11.
Proof.
  unfold truthy. destruct (Z.testbit x 11) eqn:E.
  - destruct (Z.eqb_spec (x .& 0x800) 0) as [H|]; [|done].
    apply (f_equal (fun y => Z.testbit y 11)) in H. rewrite Z.land_spec, E in H. discriminate H.
  - assert (H : x .& 0x800 = 0).
    { apply Z.bits_inj'. intros n Hn. rewrite Z.land_spec, Z.bits_0. change 0x800 with (2 ^ 11).
      rewrite Z.pow2_bits_eqb by done. destruct (Z.eqb_spec 11 n) as [<-|]; [by rewrite E|apply andb_false_r]. }
    by rewrite H.
Qed.

(** [SN_LESS] is the sign of the distance, whatever multiples of 4096 are added. *)
Lemma SN_LESS_sdist a b : SN_LESS a b = (0 <? sdist a b) || (sdist a b =? -2048).
Proof.
  unfold SN_LESS, sdist. rewrite truthy_bit, Z.testbit_odd, Z.shiftr_div_pow2 by done. change (2 ^ 11) with 2048.
  set (x := a - b). replace (b - a + 2048) with (2048 - x) by (unfold x; lia). clearbody x.
  pose proof (Z.div_mod x 2048 ltac:(lia)) as D. pose proof (Z.mod_pos_bound x 2048 ltac:(lia)) as M.
  set (r := x mod 2048) in *. set (q := x / 2048) in *. clearbody q r.
  destruct (Z.odd q) eqn:O.
  - apply Z.odd_spec in O as [k ->]. replace (2048 - x) with (- r + (- k) * 4096) by lia.
    rewrite Z.mod_add by lia. destruct (Z.eq_dec r 0) as [->|].
    + done.
    + replace (- r) with (4096 - r + -1 * 4096) by lia. rewrite Z.mod_add, Z.mod_small by lia. lia.
  - assert (E : Z.even q = true) by (rewrite <- Z.negb_odd, O; done). apply Z.even_spec in E as [k ->].
    replace (2048 - x) with (2048 - r + (- k) * 4096) by lia. rewrite Z.mod_add by lia.
    rewrite Z.mod_small by lia. lia.
Qed.

(** On numbers at most half the circle apart it is [<], and equality is equality. *)
Lemma SN_LESS_near m n : -2048 < n - m <= 2048 -> SN_LESS (m mod 4096) (n mod 4096) = (m <? n).
Proof.
  intros H. rewrite SN_LESS_sdist.
  assert (E : sdist (m mod 4096) (n mod 4096) = if n - m =? 2048 then -2048 else n - m).
  { unfold sdist. replace (n mod 4096 - m mod 4096 + 2048) with (n - m + 2048 + (m / 4096 - n / 4096) * 4096)
      by (pose proof (Z.div_mod m 4096); pose proof (Z.div_mod n 4096); lia).
    rewrite Z.mod_add by lia. destruct (Z.eqb_spec (n - m) 2048) as [->|]; [done|].
    rewrite Z.mod_small by lia. lia. }
  rewrite E. destruct (Z.eqb_spec (n - m) 2048), (Z.ltb_spec m n); lia.
Qed.

Lemma SN_EQUAL_near m n : -4096 < n - m < 4096 -> SN_EQUAL (m mod 4096) (n mod 4096) = (m =? n).
Proof.
  intros H. unfold SN_EQUAL. pose proof (Z.div_mod m 4096). pose proof (Z.div_mod n 4096).
  destruct (Z.eqb_spec m n) as [->|N]; [apply Z.eqb_refl|]. apply Z.eqb_neq. lia.
Qed.

Lemma seq_succ W : (W mod 4096 + 1) .& 0xFFF = (W + 1) mod 4096.
Proof. by rewrite land_fff, Z.add_mod_idemp_l. Qed.

(** * The ideal receiver

    It numbers the frames without wrapping. Its state is the number [W] it waits for and
    the frames it holds, by increasing number. *)

Abbreviation numbered := (list (Z * recv_frame)).

(** The frames below the new start [W'] leave, in order; [W'] is the first number from
    [W] on that is not there. *)
Inductive release (W : Z) (buf : numbered) : Z -> numbered -> numbered -> Prop :=
  release_intro W' out rest :
    buf = out ++ rest -> W <= W' ->
    Forall (fun p => p.1 < W') out -> Forall (fun p => W' < p.1) rest ->
    (forall k, W <= k < W' -> k ∈ out.*1) -> release W buf W' out rest.

(** The frame numbered [N] arrives at a receiver with a window of [w] numbers: too old or
    held already, it is dropped; otherwise it is put in its place and the window moves so
    as to contain it. *)
Inductive ideal_rx (w : Z) (N : Z) (f : recv_frame) (W : Z) (buf : numbered) : Z -> Z -> numbered -> numbered -> Prop :=
  | ideal_drop : N < W \/ N ∈ buf.*1 -> ideal_rx w N f W buf _FAIL W [] buf
  | ideal_accept b1 b2 W' out rest :
      W <= N -> buf = b1 ++ b2 -> Forall (fun p => p.1 < N) b1 -> Forall (fun p => N < p.1) b2 ->
      release (Z.max W (N + 1 - w)) (b1 ++ (N, f) :: b2) W' out rest ->
      ideal_rx w N f W buf RTW_RX_HANDLED W' out rest.

(** The timer of a receiver that holds frames: it stops waiting for what precedes the
    first one. *)
Inductive ideal_timeout (buf : numbered) : Z -> numbered -> numbered -> Prop :=
  ideal_forced n f buf' W' out rest :
    buf = (n, f) :: buf' -> release n buf W' out rest -> ideal_timeout buf W' out rest.

(** The code in a session: the sequence numbers are the numbers modulo 4096. *)
Record tracks (w : Z) (s : reorder_st) (W : Z) (buf : numbered) : Prop := mk_tracks {
  tracks_enable : enable (ctrl s) = true;
  tracks_flags : rec_ack_or_timeout (ctrl s) = false /\ rec_reorder_wow (ctrl s) = false;
  tracks_wsize : wsize_b (ctrl s) = w /\ 1 <= w < 256;
  tracks_start : indicate_seq (ctrl s) = W mod 4096;
  tracks_queue : pending_recvframe_queue (ctrl s) = buf.*2;
  tracks_numbers : Forall (fun p => seq_num p.2 = p.1 mod 4096) buf;
  tracks_sorted : StronglySorted Z.lt buf.*1;
  tracks_window : Forall (fun p => W < p.1 < W + w) buf
}.

(** ** The loop over the queue *)

Definition count_failed (out : numbered) (p : recv_priv) : recv_priv :=
  foldl (fun p f => if mpdu_ok f then p else count_drop p) p out.*2.

Lemma indicate_loop_release buf s W :
  indicate_seq (ctrl s) = W mod 4096 ->
  Forall (fun p => seq_num p.2 = p.1 mod 4096) buf -> StronglySorted Z.lt buf.*1 ->
  Forall (fun p => W - 2048 < p.1 <= W + 2048) buf ->
  exists W' out rest,
    indicate_loop buf.*2 s = (match rest with [] => false | _ => true end,
      mk_st (set_pending rest.*2 (set_indicate_seq (W' mod 4096) (ctrl s)))
        (count_failed out (priv s)) (indicated s ++ out.*2)) /\
    release W buf W' out rest.
Proof.
  revert s W. induction buf as [|[n f] buf IH]; intros s W Hi Hn Hs Hw.
  - exists W, [], []. cbn. rewrite app_nil_r. split.
    + destruct s as [c p i]. unfold on_ctrl. cbn in *. by rewrite <- Hi; destruct c.
    + apply release_intro; [done|lia|done|done|lia].
  - apply Forall_cons in Hn as [Hf Hn]. apply Forall_cons in Hw as [Hwn Hw]. cbn in Hf, Hwn.
    cbn [fmap list_fmap] in Hs. apply StronglySorted_inv in Hs as [Hs Hlt]. rewrite Forall_fmap in Hlt.
    cbn [fmap list_fmap indicate_loop]. change ((n, f).2) with f.
    rewrite Hf, Hi, SN_LESS_near by lia. destruct (Z.ltb_spec W n) as [L|L]; cbn [negb].
    + exists W, [], ((n, f) :: buf). split.
      * cbn. rewrite app_nil_r. destruct s as [c p i]. unfold on_ctrl. cbn in *. by rewrite <- Hi; destruct c.
      * apply release_intro; [done|lia|done| |lia]. apply Forall_cons. split; [done|].
        eapply Forall_impl; [exact Hlt|]. intros p. cbn. lia.
    + rewrite SN_EQUAL_near by lia.
      set (W1 := if W =? n then W + 1 else W).
      assert (H1 : W <= W1 /\ n < W1 /\ (forall k, W <= k < W1 -> k = n))
        by (unfold W1; destruct (Z.eqb_spec W n); repeat split; intros; lia).
      edestruct (IH (mk_st (set_indicate_seq (W1 mod 4096) (ctrl s)) (if mpdu_ok f then priv s else count_drop (priv s))
        (indicated s ++ [f])) W1) as (W' & out & rest & E & R); [done|done|done| |].
      { rewrite Forall_forall in *. intros p Hp. specialize (Hw p Hp). specialize (Hlt p Hp). cbn in *.
        unfold W1. destruct (Z.eqb_spec W n); lia. }
      inversion R as [? ? ? Eb HW Ho Hr Hk]; subst.
      exists W', ((n, f) :: out), rest. split.
      * replace (indicate_loop _ _) with (indicate_loop (out ++ rest).*2
          (mk_st (set_indicate_seq (W1 mod 4096) (ctrl s)) (if mpdu_ok f then priv s else count_drop (priv s)) (indicated s ++ [f]))).
        { rewrite E. cbn. by rewrite <- app_assoc. }
        f_equal. unfold W1, on_ctrl, on_priv. rewrite seq_succ.
        destruct s as [c p i]. destruct (W =? n), (mpdu_ok f); cbn in *; rewrite <- ?Hi; by destruct c.
      * apply release_intro; [done|lia| |done|].
        -- apply Forall_cons. split; [cbn; lia|done].
        -- intros k Hkk. cbn. apply elem_of_cons. destruct (Z.le_gt_cases W1 k); [right; apply Hk; lia|].
           left. apply H1. lia.
Qed.

(** ** The insertion *)

Lemma enqueue_inserts f N buf :
  seq_num f = N mod 4096 -> Forall (fun p => seq_num p.2 = p.1 mod 4096) buf -> StronglySorted Z.lt buf.*1 ->
  Forall (fun p => -2048 <= p.1 - N < 2048) buf ->
  if decide (N ∈ buf.*1) then enqueue_frame f buf.*2 = None
  else exists b1 b2, buf = b1 ++ b2 /\ Forall (fun p => p.1 < N) b1 /\ Forall (fun p => N < p.1) b2 /\
    enqueue_frame f buf.*2 = Some (b1 ++ (N, f) :: b2).*2.
Proof.
  intros Hf. induction buf as [|[n g] buf IH]; intros Hn Hs Hw.
  { rewrite decide_False by (cbn; set_solver). by exists [], []. }
  apply Forall_cons in Hn as [Hg Hn]. apply Forall_cons in Hw as [Hwn Hw]. cbn in Hg, Hwn.
  cbn [fmap list_fmap] in Hs. apply StronglySorted_inv in Hs as [Hs Hlt].
  rewrite !fmap_cons. cbn [enqueue_frame]. change ((n, g).2) with g. change ((n, g).1) with n.
  rewrite Hf, Hg, SN_LESS_near, SN_EQUAL_near by lia. specialize (IH Hn Hs Hw).
  destruct (Z.ltb_spec n N).
  - destruct (decide (N ∈ buf.*1)) as [I|I].
    + rewrite decide_True by set_solver. by rewrite IH.
    + rewrite decide_False by (rewrite not_elem_of_cons; split; [lia|done]).
      destruct IH as (b1 & b2 & -> & H1 & H2 & E). exists ((n, g) :: b1), b2.
      split; [done|]. split; [by apply Forall_cons|]. split; [done|].
      by rewrite E, !fmap_app, !fmap_cons.
  - destruct (Z.eqb_spec n N) as [->|].
    + by rewrite decide_True by set_solver.
    + rewrite decide_False.
      * exists [], ((n, g) :: buf). split; [done|]. split; [done|]. split; [|done].
        apply Forall_cons. split; [cbn; lia|]. rewrite Forall_fmap in Hlt. eapply Forall_impl; [exact Hlt|].
        intros p. cbn. lia.
      * rewrite not_elem_of_cons. split; [done|]. intros I. rewrite Forall_forall in Hlt. specialize (Hlt _ I). cbn in Hlt. lia.
Qed.

(** ** The check of the window *)

Lemma check_window s W w N :
  indicate_seq (ctrl s) = W mod 4096 -> wsize_b (ctrl s) = w -> 1 <= w < 256 -> -2048 <= N - W < 2048 ->
  exists p', check_indicate_seq (N mod 4096) s =
    if N <? W then (false, s)
    else (true, mk_st (set_indicate_seq ((if N =? W then W + 1 else Z.max W (N + 1 - w)) mod 4096) (ctrl s)) p' (indicated s)).
Proof.
  intros Hi Hw Hw1 HN. unfold check_indicate_seq. rewrite Hi.
  pose proof (Z.mod_pos_bound W 4096 ltac:(lia)). pose proof (Z.mod_pos_bound N 4096 ltac:(lia)).
  destruct (Z.eqb_spec (W mod 4096) 0xFFFF); [lia|]. cbn zeta. rewrite Hi, Hw, SN_LESS_near by lia.
  destruct (Z.ltb_spec N W); [by exists (priv s)|]. rewrite SN_EQUAL_near by lia.
  destruct (Z.eqb_spec N W). { exists (priv s). unfold on_ctrl. by rewrite seq_succ. }
  replace ((W mod 4096 + w - 1) .& 0xFFF) with ((W + w - 1) mod 4096)
    by (rewrite land_fff; replace (W mod 4096 + w - 1) with (W mod 4096 + (w - 1)) by lia;
        rewrite Z.add_mod_idemp_l by lia; f_equal; lia).
  rewrite SN_LESS_near by lia. destruct (Z.ltb_spec (W + w - 1) N).
  - exists (count_shift (priv s)). rewrite Z.max_r by lia. unfold on_priv, on_ctrl. cbn [ctrl priv indicated].
    do 2 f_equal. f_equal.
    assert (E : (N + 1 - w) mod 4096 = if w - 1 <=? N mod 4096 then N mod 4096 + 1 - w else 4096 - w + (N mod 4096 + 1)).
    { pose proof (Z.div_mod N 4096 ltac:(lia)). destruct (Z.leb_spec (w - 1) (N mod 4096)).
      - symmetry. apply Z.mod_unique with (N / 4096); lia.
      - symmetry. apply Z.mod_unique with (N / 4096 - 1); lia. }
    rewrite E. destruct (Z.leb_spec (w - 1) (N mod 4096)); rewrite u16_small; lia.
  - exists (priv s). rewrite Z.max_l by lia. rewrite <- Hi. by destruct s as [[] ? ?].
Qed.

(** Waiting from the number of a frame that is there, or from the next. *)
Lemma release_from_next N f b2 W' out rest :
  release (N + 1) ((N, f) :: b2) W' out rest -> release N ((N, f) :: b2) W' out rest.
Proof.
  intros R. inversion R as [? ? ? E HW Ho Hr Hk]; subst. apply release_intro; [done|lia|done|done|].
  intros k Hkk. destruct (Z.eq_dec k N) as [->|]; [|apply Hk; lia].
  destruct out as [|[n g] out].
  - cbn in E. subst rest. apply Forall_cons in Hr as [Hr _]. cbn in Hr. lia.
  - injection E as -> -> _. set_solver.
Qed.

(** What the frames are after an insertion. *)
Lemma insert_props (b1 b2 : numbered) N f :
  Forall (fun p => p.1 < N) b1 -> Forall (fun p => N < p.1) b2 ->
  StronglySorted Z.lt (b1 ++ b2).*1 -> StronglySorted Z.lt (b1 ++ (N, f) :: b2).*1.
Proof.
  intros H1 H2. induction H1 as [|[n g] b1 Hn H1 IH]; intros Hs; cbn in *.
  - apply SSorted_cons; [done|]. by apply Forall_fmap.
  - apply StronglySorted_inv in Hs as [Hs Hlt]. apply SSorted_cons; [by apply IH|].
    rewrite fmap_app in *. apply Forall_app in Hlt as [A B]. apply Forall_app. split; [done|].
    cbn. apply Forall_cons. done.
Qed.

Lemma sorted_app_r (out rest : numbered) :
  StronglySorted Z.lt (out ++ rest).*1 -> StronglySorted Z.lt rest.*1.
Proof.
  induction out as [|p out IH]; [done|]. intros H. apply StronglySorted_inv in H as [H _]. by apply IH.
Qed.

(** After a release the code is in the session again. *)
Lemma release_tracks w s W0 buf W' out rest :
  enable (ctrl s) = true -> rec_ack_or_timeout (ctrl s) = false /\ rec_reorder_wow (ctrl s) = false ->
  wsize_b (ctrl s) = w /\ 1 <= w < 256 ->
  indicate_seq (ctrl s) = W' mod 4096 -> pending_recvframe_queue (ctrl s) = rest.*2 ->
  Forall (fun p => seq_num p.2 = p.1 mod 4096) buf -> StronglySorted Z.lt buf.*1 ->
  Forall (fun p => p.1 < W0 + w) buf ->
  release W0 buf W' out rest -> tracks w s W' rest.
Proof.
  intros He Hfl Hw Hi Hq Hn Hs Hb R. inversion R as [? ? ? -> HW Ho Hr Hk]; subst.
  apply Forall_app in Hn as [_ Hn], Hb as [_ Hb]. split; try done; [by apply sorted_app_r in Hs|].
  rewrite Forall_forall in *. intros p Hp. specialize (Hb p Hp). specialize (Hr p Hp). cbn in *. lia.
Qed.

Lemma reorder_accepts w s W buf f N :
  tracks w s W buf -> qos f = true -> has_reorder f = true -> seq_num f = N mod 4096 -> -2048 <= N - W < 2048 ->
  exists ret W' out buf',
    (recv_indicatepkt_reorder f s).1 = ret /\
    ideal_rx w N f W buf ret W' out buf' /\
    tracks w (recv_indicatepkt_reorder f s).2 W' buf' /\
    indicated (recv_indicatepkt_reorder f s).2 = indicated s ++ out.*2.
Proof.
  intros [He [F1 F2] [Ew Hw] Hi Hq Hn Hs Hwin] Hqos Hre Hf HN. unfold recv_indicatepkt_reorder.
  rewrite Hqos, Hre, He, F1, F2, Hf. cbn [negb orb].
  destruct (check_window s W w N Hi Ew Hw HN) as [p' ->].
  destruct (Z.ltb_spec N W) as [L|L].
  { exists _FAIL, W, [], buf. cbn. rewrite app_nil_r. split; [done|]. split; [apply ideal_drop; by left|]. by split. }
  cbn [negb].
  set (W0 := if N =? W then W + 1 else Z.max W (N + 1 - w)).
  assert (HW0 : W <= W0 <= W + 2048 /\ N + 1 - w <= W0 <= N + 1) by (unfold W0; destruct (Z.eqb_spec N W); lia).
  unfold enqueue_reorder_recvframe. cbn [ctrl set_indicate_seq pending_recvframe_queue]. rewrite Hq.
  pose proof (enqueue_inserts f N buf Hf Hn Hs) as I. destruct (decide (N ∈ buf.*1)) as [D|D].
  { rewrite I.
    - assert (N <> W). { apply list_elem_of_fmap in D as [p [-> D]]. rewrite Forall_forall in Hwin. specialize (Hwin p D). lia. }
      assert (EW : W0 = W).
      { unfold W0. destruct (Z.eqb_spec N W); [done|]. apply list_elem_of_fmap in D as [p [-> D]].
        rewrite Forall_forall in Hwin. specialize (Hwin p D). lia. }
      exists _FAIL, W, [], buf. cbn. rewrite app_nil_r. split; [done|]. split; [apply ideal_drop; by right|].
      split; [|done]. rewrite EW. by split.
    - eapply Forall_impl; [exact Hwin|]. intros p. cbn. lia. }
  destruct I as (b1 & b2 & Eb & H1 & H2 & ->).
  { eapply Forall_impl; [exact Hwin|]. intros p. cbn. lia. }
  cbn [negb]. unfold recv_indicatepkts_in_order, on_ctrl. cbn [ctrl set_pending pending_recvframe_queue].
  set (ins := b1 ++ (N, f) :: b2).
  assert (Hins : forall P : Z * recv_frame -> Prop, Forall P buf -> P (N, f) -> Forall P ins).
  { intros P HP HNf. rewrite Eb in HP. apply Forall_app in HP as [P1 P2]. unfold ins. apply Forall_app. split; [done|].
    by apply Forall_cons. }
  assert (Hsort : StronglySorted Z.lt ins.*1) by (apply insert_props; [done|done|by rewrite <- Eb]).
  assert (Hnum : Forall (fun p => seq_num p.2 = p.1 mod 4096) ins) by (by apply Hins).
  edestruct (indicate_loop_release ins) as (W' & out & rest & -> & R); [| | | |].
  { cbn. reflexivity. } { exact Hnum. } { exact Hsort. }
  { apply Hins; [|cbn; lia]. eapply Forall_impl; [exact Hwin|]. intros p. cbn. lia. }
  fold W0 in R.
  assert (Hb : Forall (fun p => p.1 < W0 + w) ins).
  { apply Hins; [|cbn; lia]. eapply Forall_impl; [exact Hwin|]. intros p. cbn. lia. }
  exists RTW_RX_HANDLED, W', out, rest. split; [by destruct rest|]. split; [|split].
  - apply (ideal_accept w N f W buf b1 b2); [done|done|done|done|]. fold ins. revert R. unfold W0.
    destruct (Z.eqb_spec N W) as [->|]; [|done]. rewrite Z.max_l by lia.
    assert (b1 = []) as ->.
    { destruct b1 as [|p b1]; [done|]. apply Forall_cons in H1 as [H1 _]. rewrite Eb in Hwin.
      apply Forall_cons in Hwin as [Hwin _]. cbn in *. lia. }
    apply release_from_next.
  - apply (release_tracks w _ W0 ins W' out); destruct rest as [|r rest]; cbn; try done;
      destruct (bReorderWaiting (ctrl s)); cbn; done.
  - destruct rest as [|r rest]; cbn; [done|]. by destruct (bReorderWaiting (ctrl s)).
Qed.

(** * Sessions *)

(** The frames and timer expiries of a session: data frames with a traffic identifier,
    numbered with 12 bits, and a running driver. *)
Definition session_event (e : reorder_event) : bool :=
  match e with
  | RxFrame f => qos f && has_reorder f && (0 <=? seq_num f) && (seq_num f <? 4096)
  | Timeout cannot_run => negb cannot_run
  | _ => false
  end.

(** The frame is kept: handed on or queued. *)
Definition taken (e : reorder_event) (s : reorder_st) : list recv_frame :=
  match e with
  | RxFrame f => if (recv_func_posthandle f s).1 =? RTW_RX_HANDLED then [f] else []
  | _ => []
  end.

Fixpoint taken_run (es : list reorder_event) (s : reorder_st) : list recv_frame :=
  match es with
  | [] => []
  | e :: es => taken e s ++ taken_run es (reorder_step e s)
  end.

(** A step of the ideal receiver, and of a session. *)
Inductive ideal_step (w W : Z) (buf : numbered) : reorder_event -> Z -> numbered -> numbered -> Prop :=
  | ideal_step_rx N f ret W' out buf' :
      seq_num f = N mod 4096 -> -2048 <= N - W < 2048 ->
      ideal_rx w N f W buf ret W' out buf' -> ideal_step w W buf (RxFrame f) W' out buf'
  | ideal_step_timeout W' out buf' :
      ideal_timeout buf W' out buf' -> ideal_step w W buf (Timeout false) W' out buf'
  | ideal_step_idle : ideal_step w W buf (Timeout false) W [] buf.

Inductive ideal_run (w : Z) : Z -> numbered -> list reorder_event -> Z -> numbered -> numbered -> Prop :=
  | ideal_run_nil W buf : ideal_run w W buf [] W [] buf
  | ideal_run_cons W buf e W1 out1 buf1 es W' out buf' :
      ideal_step w W buf e W1 out1 buf1 -> ideal_run w W1 buf1 es W' out buf' ->
      ideal_run w W buf (e :: es) W' (out1 ++ out) buf'.

Lemma posthandle_reorder f s ret :
  (recv_indicatepkt_reorder f s).1 = ret -> ret = _FAIL \/ ret = RTW_RX_HANDLED ->
  recv_func_posthandle f s =
    (ret, if ret =? _FAIL then on_priv count_drop (recv_indicatepkt_reorder f s).2 else (recv_indicatepkt_reorder f s).2).
Proof.
  intros E H. unfold recv_func_posthandle. destruct (recv_indicatepkt_reorder f s) as [r s1]. cbn in E. subst r.
  by destruct H as [-> | ->].
Qed.

Lemma ideal_rx_ret w N f W buf ret W' out buf' :
  ideal_rx w N f W buf ret W' out buf' -> ret = _FAIL \/ ret = RTW_RX_HANDLED.
Proof. intros []; [by left|by right]. Qed.

Lemma tracks_priv w s W buf p : tracks w s W buf -> tracks w (on_priv p s) W buf.
Proof. by intros []. Qed.

Lemma timeout_tracks w s W buf :
  tracks w s W buf ->
  exists W' out buf', ideal_step w W buf (Timeout false) W' out buf' /\
    tracks w (rtw_reordering_ctrl_timeout_handler false s) W' buf' /\
    indicated (rtw_reordering_ctrl_timeout_handler false s) = indicated s ++ out.*2.
Proof.
  intros [He Hfl Hw Hi Hq Hn Hs Hwin]. unfold rtw_reordering_ctrl_timeout_handler, recv_indicatepkts_in_order.
  cbn [on_ctrl on_priv ctrl priv set_timer set_waiting pending_recvframe_queue]. rewrite Hq.
  destruct buf as [|[n f] buf].
  { exists W, [], []. split; [apply ideal_step_idle|]. cbn. rewrite app_nil_r. split; [|done]. by split. }
  assert (Hf : seq_num f = n mod 4096) by (by apply Forall_cons in Hn as [Hn _]).
  assert (Hb : Forall (fun p => n - 2048 < p.1 < n + 2048 /\ p.1 < n + w) ((n, f) :: buf)).
  { pose proof Hwin as Hwin'. apply Forall_cons in Hwin' as [Hwn _]. cbn in Hwn.
    eapply Forall_impl; [exact Hwin|]. intros p. cbn. lia. }
  rewrite fmap_cons. cbn [snd on_ctrl on_priv ctrl priv set_indicate_seq set_waiting set_timer pending_recvframe_queue].
  rewrite Hq.
  edestruct (indicate_loop_release ((n, f) :: buf)) as (W' & out & rest & -> & R); [| | | |].
  { cbn. exact Hf. } { exact Hn. } { exact Hs. }
  { eapply Forall_impl; [exact Hb|]. intros p. cbn. lia. }
  exists W', out, rest. split; [by eapply ideal_step_timeout, ideal_forced|].
  split; [|by destruct rest].
  apply (release_tracks w _ n ((n, f) :: buf) W' out); destruct rest as [|r rest]; try done;
    (eapply Forall_impl; [exact Hb|]); intros q; cbn; lia.
Qed.

(** One step of a session is a step of the ideal receiver. *)
Lemma session_step w s W buf e :
  tracks w s W buf -> session_event e = true ->
  exists W' out buf', ideal_step w W buf e W' out buf' /\ tracks w (reorder_step e s) W' buf' /\
    indicated (reorder_step e s) = indicated s ++ out.*2 /\
    buf.*2 ++ taken e s ≡ₚ out.*2 ++ buf'.*2.
Proof.
  intros T He. destruct e as [f|[]| | | | | |]; try discriminate He.
  - cbn in He. apply andb_prop in He as [He H2], He as [He H1], He as [Hqos Hre].
    set (N := W + sdist W (seq_num f)). pose proof (sdist_range W (seq_num f)) as Rg.
    assert (Hf : seq_num f = N mod 4096).
    { unfold N, sdist. pose proof (Z.div_mod (seq_num f - W + 2048) 4096 ltac:(lia)) as D.
      apply Z.mod_unique with (- ((seq_num f - W + 2048) / 4096)); lia. }
    destruct (reorder_accepts w s W buf f N T Hqos Hre Hf ltac:(unfold N; lia)) as (ret & W' & out & buf' & E & I & T' & O).
    exists W', out, buf'. cbn [reorder_step taken].
    rewrite (posthandle_reorder f s ret E (ideal_rx_ret _ _ _ _ _ _ _ _ _ I)).
    split; [apply (ideal_step_rx w W buf N f ret); [done|unfold N; lia|done]|].
    split; [cbn; destruct (ret =? _FAIL); [by apply tracks_priv|done]|]. split; [cbn; by destruct (ret =? _FAIL)|].
    destruct I as [D|b1 b2 W' out rest H0 -> B1 B2 R]; cbn [fst].
    + cbn. by rewrite app_nil_r.
    + change (RTW_RX_HANDLED =? RTW_RX_HANDLED) with true. cbn match.
      inversion R as [? ? ? Eb _ _ _ _]; subst. rewrite <- fmap_app, <- Eb, !fmap_app, fmap_cons. cbn.
      rewrite <- app_assoc. apply Permutation_app_head. by rewrite Permutation_app_comm.
  - cbn [reorder_step taken]. destruct (reordering_ctrl_timer (ctrl s)).
    + destruct (timeout_tracks w s W buf T) as (W' & out & buf' & I & T' & O). exists W', out, buf'.
      split; [done|]. split; [done|]. split; [done|]. rewrite app_nil_r.
      inversion I as [|? ? ? Ti|]; subst; [|done]. inversion Ti as [? ? ? ? ? ? Eb R]; subst.
      inversion R as [? ? ? Eb _ _ _ _]; subst. rewrite Eb. by rewrite fmap_app.
    + exists W, [], buf. split; [apply ideal_step_idle|]. split; [done|]. cbn. by rewrite !app_nil_r.
Qed.

(** ** The start of a session *)

(** Reordering is on, nothing is queued, and the window is not set or about to be reset. *)
Record fresh (w : Z) (s : reorder_st) : Prop := mk_fresh {
  fresh_enable : enable (ctrl s) = true;
  fresh_wsize : wsize_b (ctrl s) = w /\ 1 <= w < 256;
  fresh_queue : pending_recvframe_queue (ctrl s) = [];
  fresh_reset : indicate_seq (ctrl s) = 0xFFFF \/ rec_ack_or_timeout (ctrl s) = true \/ rec_reorder_wow (ctrl s) = true
}.

(** The first frame sets the window. *)
Definition started (f : recv_frame) (s : reorder_st) : reorder_st :=
  on_ctrl (fun c => set_indicate_seq (seq_num f) (set_ack_or_timeout false (set_wow false c))) s.

Lemma fresh_first w f s :
  fresh w s -> session_event (RxFrame f) = true ->
  tracks w (started f s) (seq_num f) [] /\ indicated (started f s) = indicated s /\
  reorder_step (RxFrame f) s = reorder_step (RxFrame f) (started f s) /\
  taken (RxFrame f) s = taken (RxFrame f) (started f s).
Proof.
  intros [He Hw Hq Hr] Hf. cbn in Hf. apply andb_prop in Hf as [Hf H2], Hf as [Hf H1], Hf as [Hqos Hre].
  assert (E : recv_indicatepkt_reorder f s = recv_indicatepkt_reorder f (started f s)).
  { unfold recv_indicatepkt_reorder. rewrite Hqos, Hre. cbn [started on_ctrl ctrl enable set_indicate_seq
      set_ack_or_timeout set_wow rec_ack_or_timeout rec_reorder_wow]. rewrite He. cbn [negb orb].
    unfold check_indicate_seq. destruct s as [[en ind wsz amp pend tm wt fa fw] p i]. cbn in Hr |- *.
    destruct (Z.eqb_spec (seq_num f) 65535); [lia|].
    destruct fa, fw; cbn; [done..|]. destruct Hr as [->|[|]]; [done|discriminate|discriminate]. }
  split; [|split; [done|]].
  - split; cbn; try done; [symmetry; apply Z.mod_small; lia|apply SSorted_nil].
  - unfold reorder_step, taken, recv_func_posthandle. by rewrite E.
Qed.

(** C12: In a session, from the first frame on and for any order of frames and timer
    expiries, the code behaves as the ideal receiver that numbers the frames without
    wrapping, with the numbers nearest to its window: it drops exactly what is before the
    window or held already, hands on the frames the ideal one hands on, and holds the
    same frames. *)
Theorem reorder_refines w s f es :
  fresh w s -> Forall (fun e => session_event e = true) (RxFrame f :: es) ->
  exists W' out buf',
    ideal_run w (seq_num f) [] (RxFrame f :: es) W' out buf' /\
    tracks w (reorder_run (RxFrame f :: es) s) W' buf' /\
    indicated (reorder_run (RxFrame f :: es) s) = indicated s ++ out.*2.
Proof.
  intros Hs He. apply Forall_cons in He as [Hf He].
  destruct (fresh_first w f s Hs Hf) as (T & I & E & _). cbn [reorder_run foldl]. rewrite E, <- I.
  assert (G : forall es s W buf, tracks w s W buf -> Forall (fun e => session_event e = true) es ->
    exists W' out buf', ideal_run w W buf es W' out buf' /\ tracks w (reorder_run es s) W' buf' /\
      indicated (reorder_run es s) = indicated s ++ out.*2).
  { clear. induction es as [|e es IH]; intros s W buf T He.
    - exists W, [], buf. split; [apply ideal_run_nil|]. split; [done|]. cbn. by rewrite app_nil_r.
    - apply Forall_cons in He as [He Hes]. destruct (session_step w s W buf e T He) as (W1 & out1 & buf1 & S1 & T1 & I1 & _).
      destruct (IH _ _ _ T1 Hes) as (W' & out & buf' & R & T' & I'). exists W', (out1 ++ out), buf'.
      split; [by eapply ideal_run_cons|]. split; [done|].
      change (reorder_run (e :: es) s) with (reorder_run es (reorder_step e s)).
      by rewrite I', I1, fmap_app, app_assoc. }
  exact (G (RxFrame f :: es) (started f s) (seq_num f) [] T (proj2 (Forall_cons _ _ _) (conj Hf He))).
Qed.

(** ** Order *)

(** [l] starts after [d] and ends at [e]; each number is after the one before, at most
    half the circle away. *)
Inductive chain : Z -> list Z -> Z -> Prop :=
  | chain_nil d : chain d [] d
  | chain_cons d n l e : d < n <= d + 2048 -> chain n l e -> chain d (n :: l) e.

Lemma chain_app d l e k e' : chain d l e -> chain e k e' -> chain d (l ++ k) e'.
Proof. induction 1 as [|d n l e H C IH]; [done|]. intros. apply chain_cons; auto. Qed.

Lemma chain_sorted d l lo :
  StronglySorted Z.lt l -> Forall (fun n => lo <= n <= lo + 2048) l -> Forall (fun n => d < n) l ->
  (forall n, head l = Some n -> n <= d + 2048) ->
  exists e, chain d l e /\ ((l = [] /\ e = d) \/ (e ∈ l /\ Forall (fun n => n <= e) l)).
Proof.
  revert d. induction l as [|n l IH]; intros d Hs Hr Hd Hh.
  { exists d. split; [apply chain_nil|by left]. }
  apply StronglySorted_inv in Hs as [Hs Hlt]. apply Forall_cons in Hr as [Hn Hr], Hd as [Hdn Hd].
  destruct (IH n Hs Hr Hlt) as (e & C & [[-> ->]|[I M]]).
  { intros m Hm. destruct l as [|k l]; [done|]. cbn in Hm. injection Hm as <-. apply Forall_cons in Hr as [Hr _]. lia. }
  - exists n. split; [apply chain_cons; [specialize (Hh n eq_refl); lia|done]|]. right.
    split; [set_solver|]. apply Forall_cons. split; [lia|done].
  - exists e. split; [apply chain_cons; [specialize (Hh n eq_refl); lia|done]|]. right. split; [set_solver|].
    apply Forall_cons. split; [|done]. rewrite Forall_forall in Hlt. specialize (Hlt e I). lia.
Qed.

(** What has been handed on last, [d], and what comes next. *)
Definition next_after (d W : Z) (buf : numbered) : Prop :=
  d < W /\ match buf with [] => W = d + 1 | (h, _) :: _ => h <= d + 2048 end.

Lemma head_fmap (buf : numbered) n : head buf.*1 = Some n -> exists f buf', buf = (n, f) :: buf'.
Proof. destruct buf as [|[m f] buf]; [done|]. cbn. intros [= ->]. eauto. Qed.

Lemma release_order d W0 buf W' out rest lo :
  release W0 buf W' out rest -> StronglySorted Z.lt buf.*1 ->
  Forall (fun p => lo <= p.1 <= lo + 2048) buf -> Forall (fun p => d < p.1) buf -> d < W0 ->
  (exists h f buf', buf = (h, f) :: buf' /\ h <= d + 2048) -> (exists n, n ∈ buf.*1 /\ W0 <= n) ->
  exists d', chain d out.*1 d' /\ next_after d' W' rest.
Proof.
  intros R Hs Hr Hd HW (h & f & buf' & Eh & Hh) (N & HN & HN0).
  inversion R as [? ? ? Eb HW' Ho Hre Hk]; subst W'0 out0 rest0. rewrite Eb in *.
  pose proof Hr as [Hro Hrr]%Forall_app. pose proof Hd as [Hdo Hdr]%Forall_app.
  assert (So : StronglySorted Z.lt out.*1).
  { clear - Hs. rewrite fmap_app in Hs. revert Hs. generalize (out.*1) (rest.*1). intros l k.
    induction l as [|n l IH]; intros Hs; [apply SSorted_nil|]. apply StronglySorted_inv in Hs as [Hs Hlt].
    apply Forall_app in Hlt as [Hlt _]. apply SSorted_cons; [by apply IH|done]. }
  destruct (chain_sorted d out.*1 lo So) as (e & C & De).
  { by apply Forall_fmap. } { by apply Forall_fmap. }
  { intros n Hn. apply head_fmap in Hn as (g & out' & ->). cbn in Eh. injection Eh as -> _ _. done. }
  exists e. split; [done|]. destruct De as [[E ->]|[I M]].
  - apply fmap_nil_inv in E. subst out. cbn in *. split; [lia|].
    destruct rest as [|[r g] rest]; [discriminate Eh|]. by injection Eh as -> _ _.
  - assert (He : e < W').
    { apply list_elem_of_fmap in I as [p [-> I]]. rewrite Forall_forall in Ho. exact (Ho p I). }
    split; [done|]. destruct rest as [|[r g] rest].
    + rewrite app_nil_r in HN. rewrite Forall_forall in M. pose proof (M N HN).
      destruct (Z.eq_dec W' (e + 1)) as [|N1]; [done|].
      assert (I' : W' - 1 ∈ out.*1) by (apply Hk; lia). specialize (M _ I'). lia.
    + apply Forall_cons in Hrr as [Hrr _]. cbn in Hrr.
      apply list_elem_of_fmap in I as [p [-> I]]. rewrite Forall_forall in Hro. specialize (Hro p I). cbn in Hro. lia.
Qed.

Lemma ideal_order w W buf e W' out buf' d :
  1 <= w < 256 -> ideal_step w W buf e W' out buf' ->
  StronglySorted Z.lt buf.*1 -> Forall (fun p => W < p.1 < W + w) buf -> next_after d W buf ->
  exists d', chain d out.*1 d' /\ next_after d' W' buf'.
Proof.
  intros Hw St Hs Hb [Hd Hn]. destruct St as [N f ret W' out buf' Hf HN I|W' out buf' T|].
  - destruct I as [D|b1 b2 W' out rest H0 -> B1 B2 R]; [exists d; split; [apply chain_nil|done]|].
    assert (Hins : Forall (fun p => W <= p.1 <= W + 2048) (b1 ++ (N, f) :: b2)).
    { apply Forall_app in Hb as [P1 P2]. apply Forall_app. split; [|apply Forall_cons; split; [cbn; lia|]].
      - eapply Forall_impl; [exact P1|]. intros p. cbn. lia.
      - eapply Forall_impl; [exact P2|]. intros p. cbn. lia. }
    apply (release_order d _ _ _ _ _ W R).
    + by apply insert_props.
    + done.
    + eapply Forall_impl; [exact Hins|]. intros p. cbn. lia.
    + lia.
    + destruct b1 as [|[h g] b1]; cbn in *; [|by exists h, g, (b1 ++ (N, f) :: b2)].
      exists N, f, b2. split; [done|]. destruct b2 as [|[h g] b2]; [lia|].
      apply Forall_cons in B2 as [B2 _]. cbn in B2. lia.
    + exists N. split; [rewrite fmap_app; set_solver|lia].
  - destruct T as [n f b W' out rest -> R].
    assert (Hwn : W < n < W + w) by (by apply Forall_cons in Hb as [Hb _]).
    apply (release_order d _ _ _ _ _ W R).
    + done.
    + eapply Forall_impl; [exact Hb|]. intros p. cbn. lia.
    + eapply Forall_impl; [exact Hb|]. intros p. cbn. lia.
    + lia.
    + by exists n, f, b.
    + exists n. split; [set_solver|lia].
  - exists d. split; [apply chain_nil|done].
Qed.

(** Consecutive frames are in order for [SN_LESS]. *)
Fixpoint in_order (l : list recv_frame) : Prop :=
  match l with
  | f :: (g :: _) as l' => SN_LESS (seq_num f) (seq_num g) = true /\ in_order l'
  | _ => True
  end.

Lemma chain_in_order d (out : numbered) e :
  Forall (fun p => seq_num p.2 = p.1 mod 4096) out -> chain d out.*1 e -> in_order out.*2.
Proof.
  intros Hn. revert d. induction Hn as [|[n f] out Hf Hn IH]; intros d C; [done|].
  cbn [fmap list_fmap] in C. inversion C as [|? ? ? ? H C1]; subst. destruct out as [|[m g] out]; [done|].
  cbn in C1. inversion C1 as [|? ? ? ? H1 C2]; subst. cbn in Hf.
  apply Forall_cons in Hn as Hg. destruct Hg as [Hg _]. cbn in Hg. split.
  - cbn. rewrite Hf, Hg, SN_LESS_near by lia. lia.
  - exact (IH n C1).
Qed.

Lemma session_order w s W buf d es :
  tracks w s W buf -> next_after d W buf -> Forall (fun e => session_event e = true) es ->
  exists (out buf' : numbered) d', indicated (reorder_run es s) = indicated s ++ out.*2 /\
    pending_recvframe_queue (ctrl (reorder_run es s)) = buf'.*2 /\
    Forall (fun p => seq_num p.2 = p.1 mod 4096) out /\ chain d out.*1 d' /\
    buf.*2 ++ taken_run es s ≡ₚ out.*2 ++ buf'.*2.
Proof.
  revert s W buf d. induction es as [|e es IH]; intros s W buf d T Hd He.
  - exists [], buf, d. cbn. rewrite !app_nil_r. split; [done|]. split; [apply T|]. split; [done|].
    split; [apply chain_nil|done].
  - apply Forall_cons in He as [He Hes].
    destruct (session_step w s W buf e T He) as (W1 & out1 & buf1 & S1 & T1 & I1 & P1).
    destruct (ideal_order w W buf e W1 out1 buf1 d (proj2 (tracks_wsize _ _ _ _ T)) S1
      (tracks_sorted _ _ _ _ T) (tracks_window _ _ _ _ T) Hd) as (d1 & C1 & Hd1).
    destruct (IH _ _ _ _ T1 Hd1 Hes) as (out & buf' & d' & I & Q & Hn & C & P).
    exists (out1 ++ out), buf', d'. change (reorder_run (e :: es) s) with (reorder_run es (reorder_step e s)).
    split; [by rewrite I, I1, fmap_app, app_assoc|]. split; [done|]. split; [|split].
    + apply Forall_app. split; [|done]. pose proof (tracks_numbers _ _ _ _ T) as Hb.
      inversion S1 as [? ? ? ? ? ? Hf HN Ir| ? ? ? Ti|]; subst; [| |done].
      * inversion Ir as [|? ? ? ? ? H0 Eb B1 B2 R]; subst; [done|]. inversion R as [? ? ? Ei _ _ _ _]; subst.
        assert (X : Forall (fun p => seq_num p.2 = p.1 mod 4096) (b1 ++ (N, f) :: b2)).
        { apply Forall_app in Hb as [X1 X2]. apply Forall_app. split; [done|]. by apply Forall_cons. }
        rewrite Ei in X. by apply Forall_app in X as [X _].
      * inversion Ti as [? ? ? ? ? ? Eb R]; subst. inversion R as [? ? ? Ei _ _ _ _]; subst.
        rewrite Ei in Hb. by apply Forall_app in Hb as [Hb _].
    + rewrite fmap_app. by eapply chain_app.
    + cbn [taken_run]. rewrite app_assoc, P1, fmap_app, <- !app_assoc. apply Permutation_app_head. done.
Qed.

(** C15: What a session hands on is in order: every frame's sequence number is after the
    one of the frame before it. And nothing is lost, duplicated or invented: the frames
    handed on and those still queued are the frames that were not dropped on arrival. *)
Theorem reorder_in_order w s f es :
  fresh w s -> Forall (fun e => session_event e = true) (RxFrame f :: es) ->
  let s' := reorder_run (RxFrame f :: es) s in
  exists out, indicated s' = indicated s ++ out /\ in_order out /\
    out ++ pending_recvframe_queue (ctrl s') ≡ₚ taken_run (RxFrame f :: es) s.
Proof.
  intros Hs He s'. pose proof He as [Hf Hes]%Forall_cons.
  destruct (fresh_first w f s Hs Hf) as (T & I & E & Et).
  assert (Hd : next_after (seq_num f - 1) (seq_num f) []) by (split; [lia|cbn; lia]).
  destruct (session_order w (started f s) (seq_num f) [] _ _ T Hd He) as (out & buf' & d' & Io & Q & Hn & C & P).
  assert (R : s' = reorder_run (RxFrame f :: es) (started f s)) by (unfold s'; cbn [reorder_run foldl]; by rewrite E).
  exists out.*2. rewrite R, Io, I, Q. split; [done|]. split; [by eapply chain_in_order|].
  rewrite <- P. cbn [taken_run]. by rewrite Et, E.
Qed.

(** * Progress *)

(** The loop moves a prefix of the queue. *)
Lemma indicate_loop_split q s :
  exists out rest p' i',
    indicate_loop q s = (match rest with [] => false | _ => true end,
      mk_st (set_pending rest (set_indicate_seq i' (ctrl s))) p' (indicated s ++ out)) /\
    q = out ++ rest /\
    (forall f q', q = f :: q' -> SN_LESS (indicate_seq (ctrl s)) (seq_num f) = false -> out <> []).
Proof.
  revert s. induction q as [|f q IH]; intros s; cbn [indicate_loop].
  { exists [], [], (priv s), (indicate_seq (ctrl s)). split; [|done]. rewrite app_nil_r. by destruct s as [[] ? ?]. }
  destruct (SN_LESS (indicate_seq (ctrl s)) (seq_num f)) eqn:E; cbn [negb].
  { exists [], (f :: q), (priv s), (indicate_seq (ctrl s)). split; [rewrite app_nil_r; by destruct s as [[] ? ?]|].
    split; [done|]. intros ? ? [= <- <-]. congruence. }
  set (s1 := if mpdu_ok f then _ else _).
  destruct (IH s1) as (out & rest & p' & i' & Eq & -> & _). exists (f :: out), rest, p', i'. rewrite Eq.
  split; [|done]. unfold s1, on_ctrl, on_priv. change (f :: out) with ([f] ++ out). rewrite app_assoc.
  by destruct (SN_EQUAL (indicate_seq (ctrl s)) (seq_num f)), (mpdu_ok f).
Qed.

(** A queue that is not empty has its timer armed. *)
Definition armed (s : reorder_st) : Prop :=
  (pending_recvframe_queue (ctrl s) <> [] -> reordering_ctrl_timer (ctrl s) = true) /\
  (bReorderWaiting (ctrl s) = true -> reordering_ctrl_timer (ctrl s) = true).

(** Everything but a timer that expires while the driver stops. *)
Definition running (e : reorder_event) : bool :=
  match e with Timeout cannot_run => negb cannot_run | _ => true end.

(** What an operation leaves of the queue and its timer. *)
Definition same_queue (c c' : recv_reorder_ctrl) : Prop :=
  pending_recvframe_queue c' = pending_recvframe_queue c /\
  reordering_ctrl_timer c' = reordering_ctrl_timer c /\ bReorderWaiting c' = bReorderWaiting c.

Lemma armed_same s s' : same_queue (ctrl s) (ctrl s') -> armed s -> armed s'.
Proof. intros (Q & T & W) [H1 H2]. split; by rewrite ?Q, ?T, ?W. Qed.

Lemma check_same seq s : same_queue (ctrl s) (ctrl (check_indicate_seq seq s).2).
Proof.
  unfold check_indicate_seq.
  destruct (indicate_seq (ctrl s) =? 65535); (destruct (SN_LESS seq _); [done|]);
    (destruct (SN_EQUAL seq _); [done|]); by destruct (SN_LESS _ seq).
Qed.

Lemma armed_reorder f s : armed s -> armed (recv_indicatepkt_reorder f s).2.
Proof.
  intros A. unfold recv_indicatepkt_reorder. destruct (_ || _); [done|].
  set (s1 := if rec_ack_or_timeout (ctrl s) then _ else s).
  set (s2 := if rec_reorder_wow (ctrl s1) then _ else s1).
  assert (A2 : armed s2).
  { apply (armed_same s); [|done]. unfold s2, s1.
    destruct (rec_ack_or_timeout (ctrl s)); cbn [on_ctrl ctrl set_indicate_seq set_ack_or_timeout rec_reorder_wow];
      by destruct (rec_reorder_wow (ctrl s)). }
  clearbody s2. clear s1 A. pose proof (check_same (seq_num f) s2) as C.
  destruct (check_indicate_seq (seq_num f) s2) as [[] s3]; cbn in C |- *; [|by apply (armed_same s2)].
  apply (armed_same _ _ C) in A2. clear C s2. unfold enqueue_reorder_recvframe.
  destruct (enqueue_frame f _) as [q|]; [|done]. cbn [negb]. unfold recv_indicatepkts_in_order.
  destruct (indicate_loop_split (pending_recvframe_queue (ctrl (on_ctrl (set_pending q) s3))) (on_ctrl (set_pending q) s3))
    as (out & rest & p' & i' & -> & _ & _).
  destruct A2 as [_ Hw]. destruct rest as [|r rest]; cbn; [done|].
  destruct (bReorderWaiting (ctrl s3)) eqn:E; cbn; [|done].
  split; [intros _; cbn; by apply Hw|cbn; by rewrite E].
Qed.

Lemma armed_step e s : running e = true -> armed s -> armed (reorder_step e s).
Proof.
  intros He A. destruct e as [f|[]| | | status size| |ctl|]; try discriminate He; cbn [reorder_step];
    try by apply (armed_same s).
  - pose proof (armed_reorder f s A) as A1. unfold recv_func_posthandle.
    destruct (recv_indicatepkt_reorder f s) as [r s1]. cbn in A1. destruct (r =? _FAIL); [by apply (armed_same s1)|].
    destruct (r =? RTW_RX_HANDLED); [done|]. unfold recv_set_iseq_before_mpdu_process, recv_set_iseq_after_mpdu_process.
    destruct (has_reorder f), (mpdu_ok f); by apply (armed_same s1).
  - destruct (reordering_ctrl_timer (ctrl s)); [|done].
    unfold rtw_reordering_ctrl_timeout_handler, recv_indicatepkts_in_order. cbn [on_ctrl on_priv ctrl].
    destruct (pending_recvframe_queue _) as [|f q] eqn:Q; cbn zeta; [by split|].
    match goal with |- context [indicate_loop ?q ?s] => destruct (indicate_loop_split q s) as (out & rest & p' & i' & -> & _ & _) end.
    by destruct rest.
  - by split.
  - unfold add_ba_rsp_hdl. destruct (status =? 0); [by apply (armed_same s)|].
    destruct (status =? 37); by apply (armed_same s).
Qed.

(** An expiry hands on the first frames of the queue. *)
Lemma timeout_pops s f q :
  armed s -> pending_recvframe_queue (ctrl s) = f :: q ->
  exists out rest, f :: q = out ++ rest /\ out <> [] /\
    pending_recvframe_queue (ctrl (reorder_step (Timeout false) s)) = rest /\
    indicated (reorder_step (Timeout false) s) = indicated s ++ out.
Proof.
  intros [A _] Q. cbn [reorder_step]. rewrite A by (by rewrite Q).
  unfold rtw_reordering_ctrl_timeout_handler, recv_indicatepkts_in_order. cbn [on_ctrl on_priv ctrl].
  cbn [set_waiting set_timer pending_recvframe_queue]. rewrite Q. cbn [set_indicate_seq pending_recvframe_queue].
  match goal with |- context [indicate_loop ?q ?s] => destruct (indicate_loop_split q s) as (out & rest & p' & i' & -> & E & H) end.
  cbn in E. rewrite Q in E. exists out, rest. split; [done|]. split; [|by destruct rest].
  apply (H f q); cbn; [done|]. unfold SN_LESS. by rewrite Z.sub_diag.
Qed.

Lemma timeout_empty s :
  pending_recvframe_queue (ctrl s) = [] ->
  pending_recvframe_queue (ctrl (reorder_step (Timeout false) s)) = [] /\
  indicated (reorder_step (Timeout false) s) = indicated s.
Proof.
  intros Q. cbn [reorder_step]. destruct (reordering_ctrl_timer (ctrl s)); [|done].
  unfold rtw_reordering_ctrl_timeout_handler, recv_indicatepkts_in_order. cbn [on_ctrl on_priv ctrl].
  cbn [set_waiting set_timer pending_recvframe_queue]. by rewrite Q.
Qed.

(** C16: No frame waits for ever: whatever happened to a station entry since it was
    allocated (frames in any order, expiries, joins, requests and ends of block
    acknowledgement, wake-ups), a queue that is not empty has its timer armed, and as many
    expiries as there are frames in it hand on all of them, in the order of the queue. *)
Theorem reorder_drains s0 es n :
  Forall (fun e => running e = true) es ->
  let s := reorder_run es (on_ctrl rtw_alloc_stainfo s0) in
  let s' := reorder_run (repeat (Timeout false) n) s in
  (length (pending_recvframe_queue (ctrl s)) <= n)%nat ->
  (pending_recvframe_queue (ctrl s) <> [] -> reordering_ctrl_timer (ctrl s) = true) /\
  pending_recvframe_queue (ctrl s') = [] /\
  indicated s' = indicated s ++ pending_recvframe_queue (ctrl s).
Proof.
  intros He s s' Hn. assert (A : armed s).
  { unfold s. assert (A0 : armed (on_ctrl rtw_alloc_stainfo s0)) by done. revert A0.
    generalize (on_ctrl rtw_alloc_stainfo s0). clear -He. induction He as [|e es H _ IH]; intros s A; [done|].
    by apply IH, armed_step. }
  split; [apply A|]. unfold s'. clearbody s. clear s' He. revert s A Hn. induction n as [|n IH]; intros s A Hn.
  { destruct (pending_recvframe_queue (ctrl s)) eqn:Q; [|cbn in Hn; lia]. cbn. by rewrite app_nil_r. }
  cbn [repeat]. change (reorder_run (Timeout false :: ?l) s) with (reorder_run l (reorder_step (Timeout false) s)).
  pose proof (armed_step (Timeout false) s eq_refl A) as A1.
  destruct (pending_recvframe_queue (ctrl s)) as [|f q] eqn:Q.
  - destruct (timeout_empty s Q) as [Q1 I1]. destruct (IH _ A1) as [-> ->]; [rewrite Q1; cbn; lia|].
    by rewrite Q1, I1, app_nil_r.
  - destruct (timeout_pops s f q A Q) as (out & rest & E & Ho & Q1 & I1).
    destruct (IH _ A1) as [-> ->].
    + rewrite Q1. apply (f_equal length) in E. rewrite length_app in E. destruct out; [done|]. cbn in *. lia.
    + split; [done|]. by rewrite Q1, I1, E, app_assoc.
Qed.

(** * Examples *)

Definition example_frame (n seq : Z) : recv_frame := mk_recv_frame (Z.to_nat n) seq true true true.
Definition example_entry : reorder_st :=
  mk_st (rtw_alloc_stainfo (mk_reorder false 0 0 0 [] false false false false)) (mk_priv 0 0 0 0 0 0) [].
Definition example_session : reorder_st := add_ba_rsp_hdl 0 64 example_entry.

Lemma example_fresh : fresh 64 example_session.
Proof. split; [done|done|done|cbn; auto]. Qed.

Lemma reorder_refines_witness :
  exists W' out buf',
    ideal_run 64 4094 [] (map RxFrame [example_frame 0 4094; example_frame 1 1; example_frame 2 4095; example_frame 3 0]) W' out buf' /\
    out.*2 = [example_frame 0 4094; example_frame 2 4095; example_frame 3 0; example_frame 1 1].
Proof.
  destruct (reorder_refines 64 example_session (example_frame 0 4094)
    (map RxFrame [example_frame 1 1; example_frame 2 4095; example_frame 3 0]) example_fresh) as (W' & out & buf' & R & T & I);
    [repeat constructor|].
  exists W', out, buf'. split; [exact R|]. symmetry in I.
  etransitivity; [exact I|]. vm_compute. reflexivity.
Defined.

Lemma reorder_in_order_witness :
  exists out, in_order out /\
    out = indicated (reorder_run (RxFrame (example_frame 0 9) :: [RxFrame (example_frame 1 11); Timeout false]) example_session).
Proof.
  destruct (reorder_in_order 64 example_session (example_frame 0 9) [RxFrame (example_frame 1 11); Timeout false] example_fresh)
    as (out & I & O & P); [repeat constructor|].
  exists out. split; [exact O|]. symmetry. exact I.
Defined.

Lemma reorder_drains_witness :
  let s := reorder_run [AddBaRsp 0 64; RxFrame (example_frame 0 9); RxFrame (example_frame 1 13); RxFrame (example_frame 2 11)]
             (on_ctrl rtw_alloc_stainfo example_entry) in
  indicated (reorder_run (repeat (Timeout false) 2) s) = indicated s ++ [example_frame 2 11; example_frame 1 13].
Proof.
  apply (reorder_drains example_entry
    [AddBaRsp 0 64; RxFrame (example_frame 0 9); RxFrame (example_frame 1 13); RxFrame (example_frame 2 11)] 2);
    [repeat constructor|vm_compute; lia].
Defined.

(** A session that starts again while the queue is not empty: a frame of the old one moves
    the window back when the timer expires, and the frames of the new one are dropped. *)
Lemma restart_keeps_queue :
  let s := reorder_run [RxFrame (example_frame 0 5); RxFrame (example_frame 1 7); AddBaRsp 0 64;
                        RxFrame (example_frame 2 3000); Timeout false] example_session in
  map seq_num (indicated s) = [5; 3000; 7] /\ indicate_seq (ctrl s) = 8 /\
  (recv_func_posthandle (example_frame 3 3001) s).1 = _FAIL.
Proof. vm_compute. auto. Qed.

(** A request that moves the window past a queued frame is undone by the timer, and the
    frames in between count as 4001 lost ones. *)
Lemma bar_undone :
  let s := reorder_run [RxFrame (example_frame 0 100); RxFrame (example_frame 1 105); Bar (200 .<< 4)] example_session in
  let s' := reorder_step (Timeout false) s in
  indicate_seq (ctrl s) = 200 /\ map seq_num (pending_recvframe_queue (ctrl s)) = [105] /\
  indicate_seq (ctrl s') = 106 /\ rx_drop (priv s') = 4001.
Proof. vm_compute. auto. Qed.

(** Joining a network with a frame still queued: the timer counts [7 - 65535 + 4096]
    frames lost, modulo 2^64. *)
Lemma joined_loss_count :
  let s := reorder_run [RxFrame (example_frame 0 5); RxFrame (example_frame 1 7); Joined; Timeout false] example_session in
  rx_drop (priv s) = 2 ^ 64 - 61432.
Proof. vm_compute. reflexivity. Qed.
