(* ===== verification/WifiAes.v ===== *)
(** The AES block cipher of the Wi-Fi driver: [core/crypto/aes_i.h], [aes-internal.c]
    (small tables) and [aes-internal-enc.c].

    Words are [Z] of 32 bits, blocks lists of bytes. The second half is the cipher of the
    standard, from the arithmetic of its field, and the proof that the table-driven code
    computes it. *)

From S2P Require Import Prelude.

(** * Definitions *)

Definition AES_BLOCK_SIZE := 16.

Definition Te0 : list Z := [
  0xc66363a5; 0xf87c7c84; 0xee777799; 0xf67b7b8d; 0xfff2f20d; 0xd66b6bbd; 0xde6f6fb1; 0x91c5c554;
  0x60303050; 0x02010103; 0xce6767a9; 0x562b2b7d; 0xe7fefe19; 0xb5d7d762; 0x4dababe6; 0xec76769a;
  0x8fcaca45; 0x1f82829d; 0x89c9c940; 0xfa7d7d87; 0xeffafa15; 0xb25959eb; 0x8e4747c9; 0xfbf0f00b;
  0x41adadec; 0xb3d4d467; 0x5fa2a2fd; 0x45afafea; 0x239c9cbf; 0x53a4a4f7; 0xe4727296; 0x9bc0c05b;
  0x75b7b7c2; 0xe1fdfd1c; 0x3d9393ae; 0x4c26266a; 0x6c36365a; 0x7e3f3f41; 0xf5f7f702; 0x83cccc4f;
  0x6834345c; 0x51a5a5f4; 0xd1e5e534; 0xf9f1f108; 0xe2717193; 0xabd8d873; 0x62313153; 0x2a15153f;
  0x0804040c; 0x95c7c752; 0x46232365; 0x9dc3c35e; 0x30181828; 0x379696a1; 0x0a05050f; 0x2f9a9ab5;
  0x0e070709; 0x24121236; 0x1b80809b; 0xdfe2e23d; 0xcdebeb26; 0x4e272769; 0x7fb2b2cd; 0xea75759f;
  0x1209091b; 0x1d83839e; 0x582c2c74; 0x341a1a2e; 0x361b1b2d; 0xdc6e6eb2; 0xb45a5aee; 0x5ba0a0fb;
  0xa45252f6; 0x763b3b4d; 0xb7d6d661; 0x7db3b3ce; 0x5229297b; 0xdde3e33e; 0x5e2f2f71; 0x13848497;
  0xa65353f5; 0xb9d1d168; 0x00000000; 0xc1eded2c; 0x40202060; 0xe3fcfc1f; 0x79b1b1c8; 0xb65b5bed;
  0xd46a6abe; 0x8dcbcb46; 0x67bebed9; 0x7239394b; 0x944a4ade; 0x984c4cd4; 0xb05858e8; 0x85cfcf4a;
  0xbbd0d06b; 0xc5efef2a; 0x4faaaae5; 0xedfbfb16; 0x864343c5; 0x9a4d4dd7; 0x66333355; 0x11858594;
  0x8a4545cf; 0xe9f9f910; 0x04020206; 0xfe7f7f81; 0xa05050f0; 0x783c3c44; 0x259f9fba; 0x4ba8a8e3;
  0xa25151f3; 0x5da3a3fe; 0x804040c0; 0x058f8f8a; 0x3f9292ad; 0x219d9dbc; 0x70383848; 0xf1f5f504;
  0x63bcbcdf; 0x77b6b6c1; 0xafdada75; 0x42212163; 0x20101030; 0xe5ffff1a; 0xfdf3f30e; 0xbfd2d26d;
  0x81cdcd4c; 0x180c0c14; 0x26131335; 0xc3ecec2f; 0xbe5f5fe1; 0x359797a2; 0x884444cc; 0x2e171739;
  0x93c4c457; 0x55a7a7f2; 0xfc7e7e82; 0x7a3d3d47; 0xc86464ac; 0xba5d5de7; 0x3219192b; 0xe6737395;
  0xc06060a0; 0x19818198; 0x9e4f4fd1; 0xa3dcdc7f; 0x44222266; 0x542a2a7e; 0x3b9090ab; 0x0b888883;
  0x8c4646ca; 0xc7eeee29; 0x6bb8b8d3; 0x2814143c; 0xa7dede79; 0xbc5e5ee2; 0x160b0b1d; 0xaddbdb76;
  0xdbe0e03b; 0x64323256; 0x743a3a4e; 0x140a0a1e; 0x924949db; 0x0c06060a; 0x4824246c; 0xb85c5ce4;
  0x9fc2c25d; 0xbdd3d36e; 0x43acacef; 0xc46262a6; 0x399191a8; 0x319595a4; 0xd3e4e437; 0xf279798b;
  0xd5e7e732; 0x8bc8c843; 0x6e373759; 0xda6d6db7; 0x018d8d8c; 0xb1d5d564; 0x9c4e4ed2; 0x49a9a9e0;
  0xd86c6cb4; 0xac5656fa; 0xf3f4f407; 0xcfeaea25; 0xca6565af; 0xf47a7a8e; 0x47aeaee9; 0x10080818;
  0x6fbabad5; 0xf0787888; 0x4a25256f; 0x5c2e2e72; 0x381c1c24; 0x57a6a6f1; 0x73b4b4c7; 0x97c6c651;
  0xcbe8e823; 0xa1dddd7c; 0xe874749c; 0x3e1f1f21; 0x964b4bdd; 0x61bdbddc; 0x0d8b8b86; 0x0f8a8a85;
  0xe0707090; 0x7c3e3e42; 0x71b5b5c4; 0xcc6666aa; 0x904848d8; 0x06030305; 0xf7f6f601; 0x1c0e0e12;
  0xc26161a3; 0x6a35355f; 0xae5757f9; 0x69b9b9d0; 0x17868691; 0x99c1c158; 0x3a1d1d27; 0x279e9eb9;
  0xd9e1e138; 0xebf8f813; 0x2b9898b3; 0x22111133; 0xd26969bb; 0xa9d9d970; 0x078e8e89; 0x339494a7;
  0x2d9b9bb6; 0x3c1e1e22; 0x15878792; 0xc9e9e920; 0x87cece49; 0xaa5555ff; 0x50282878; 0xa5dfdf7a;
  0x038c8c8f; 0x59a1a1f8; 0x09898980; 0x1a0d0d17; 0x65bfbfda; 0xd7e6e631; 0x844242c6; 0xd06868b8;
  0x824141c3; 0x299999b0; 0x5a2d2d77; 0x1e0f0f11; 0x7bb0b0cb; 0xa85454fc; 0x6dbbbbd6; 0x2c16163a].

Definition rcons : list Z := [0x01; 0x02; 0x04; 0x08; 0x10; 0x20; 0x40; 0x80; 0x1B; 0x36].

Definition rotr (val bits : Z) : Z := (val .>> bits) .| u32 (val .<< (32 - bits)).

Definition RCON (i : Z) : Z := u32 (tbl rcons i .<< 24).

Definition TE0 (i : Z) : Z := tbl Te0 ((i .>> 24) .& 0xff).
Definition TE1 (i : Z) : Z := rotr (tbl Te0 ((i .>> 16) .& 0xff)) 8.
Definition TE2 (i : Z) : Z := rotr (tbl Te0 ((i .>> 8) .& 0xff)) 16.
Definition TE3 (i : Z) : Z := rotr (tbl Te0 (i .& 0xff)) 24.
Definition TE41 (i : Z) : Z := u32 (tbl Te0 ((i .>> 24) .& 0xff) .<< 8) .& 0xff000000.
Definition TE42 (i : Z) : Z := tbl Te0 ((i .>> 16) .& 0xff) .& 0x00ff0000.
Definition TE43 (i : Z) : Z := tbl Te0 ((i .>> 8) .& 0xff) .& 0x0000ff00.
Definition TE44 (i : Z) : Z := (tbl Te0 (i .& 0xff) .>> 8) .& 0x000000ff.
Definition TE421 (i : Z) : Z := u32 (tbl Te0 ((i .>> 16) .& 0xff) .<< 8) .& 0xff000000.
Definition TE432 (i : Z) : Z := tbl Te0 ((i .>> 8) .& 0xff) .& 0x00ff0000.
Definition TE443 (i : Z) : Z := tbl Te0 (i .& 0xff) .& 0x0000ff00.
Definition TE414 (i : Z) : Z := (tbl Te0 ((i .>> 24) .& 0xff) .>> 8) .& 0x000000ff.
Definition TE411 (i : Z) : Z := u32 (tbl Te0 ((i .>> 24) .& 0xff) .<< 8) .& 0xff000000.
Definition TE422 (i : Z) : Z := tbl Te0 ((i .>> 16) .& 0xff) .& 0x00ff0000.
Definition TE433 (i : Z) : Z := tbl Te0 ((i .>> 8) .& 0xff) .& 0x0000ff00.
Definition TE444 (i : Z) : Z := (tbl Te0 (i .& 0xff) .>> 8) .& 0x000000ff.

Definition GETU32 (p : list Z) (i : Z) : Z :=
  (tbl p i .<< 24) .^ (tbl p (i + 1) .<< 16) .^ (tbl p (i + 2) .<< 8) .^ tbl p (i + 3).

Definition PUTU32 (st : Z) : list Z := [u8 (st .>> 24); u8 (st .>> 16); u8 (st .>> 8); u8 st].

(** ** Key schedule: the array of round keys grows word by word *)

Definition expand_sub (temp i : Z) : Z :=
  TE421 temp .^ TE432 temp .^ TE443 temp .^ TE414 temp .^ RCON i.

Definition expand128 (rk : list Z) (i : nat) : list Z :=
  let b := 4 * Z.of_nat i in
  let temp := tbl rk (b + 3) in
  let rk4 := tbl rk b .^ expand_sub temp (Z.of_nat i) in
  let rk5 := tbl rk (b + 1) .^ rk4 in
  let rk6 := tbl rk (b + 2) .^ rk5 in
  let rk7 := tbl rk (b + 3) .^ rk6 in
  rk ++ [rk4; rk5; rk6; rk7].

Definition expand192 (rk : list Z) (i : nat) : list Z :=
  let b := 6 * Z.of_nat i in
  let temp := tbl rk (b + 5) in
  let rk6 := tbl rk b .^ expand_sub temp (Z.of_nat i) in
  let rk7 := tbl rk (b + 1) .^ rk6 in
  let rk8 := tbl rk (b + 2) .^ rk7 in
  let rk9 := tbl rk (b + 3) .^ rk8 in
  if Nat.eqb i 7 then rk ++ [rk6; rk7; rk8; rk9]
  else
    let rk10 := tbl rk (b + 4) .^ rk9 in
    let rk11 := tbl rk (b + 5) .^ rk10 in
    rk ++ [rk6; rk7; rk8; rk9; rk10; rk11].

Definition expand256 (rk : list Z) (i : nat) : list Z :=
  let b := 8 * Z.of_nat i in
  let temp := tbl rk (b + 7) in
  let rk8 := tbl rk b .^ expand_sub temp (Z.of_nat i) in
  let rk9 := tbl rk (b + 1) .^ rk8 in
  let rk10 := tbl rk (b + 2) .^ rk9 in
  let rk11 := tbl rk (b + 3) .^ rk10 in
  if Nat.eqb i 6 then rk ++ [rk8; rk9; rk10; rk11]
  else
    let temp := rk11 in
    let rk12 := tbl rk (b + 4) .^ (TE411 temp .^ TE422 temp .^ TE433 temp .^ TE444 temp) in
    let rk13 := tbl rk (b + 5) .^ rk12 in
    let rk14 := tbl rk (b + 6) .^ rk13 in
    let rk15 := tbl rk (b + 7) .^ rk14 in
    rk ++ [rk8; rk9; rk10; rk11; rk12; rk13; rk14; rk15].

(** The round keys and their number; [None] is the result -1. *)
Definition rijndaelKeySetupEnc (cipherKey : list Z) (keyBits : Z) : option (list Z * Z) :=
  let rk := [GETU32 cipherKey 0; GETU32 cipherKey 4; GETU32 cipherKey 8; GETU32 cipherKey 12] in
  if keyBits =? 128 then Some (foldl expand128 rk (seq 0 10), 10)
  else
    let rk := rk ++ [GETU32 cipherKey 16; GETU32 cipherKey 20] in
    if keyBits =? 192 then Some (foldl expand192 rk (seq 0 8), 12)
    else
      let rk := rk ++ [GETU32 cipherKey 24; GETU32 cipherKey 28] in
      if keyBits =? 256 then Some (foldl expand256 rk (seq 0 7), 14)
      else None.

(** ** Encryption *)

Definition aes_state : Type := Z * Z * Z * Z.

Definition ROUND (rk : list Z) (i : Z) (s : aes_state) : aes_state :=
  let '(s0, s1, s2, s3) := s in
  (TE0 s0 .^ TE1 s1 .^ TE2 s2 .^ TE3 s3 .^ tbl rk (4 * i),
   TE0 s1 .^ TE1 s2 .^ TE2 s3 .^ TE3 s0 .^ tbl rk (4 * i + 1),
   TE0 s2 .^ TE1 s3 .^ TE2 s0 .^ TE3 s1 .^ tbl rk (4 * i + 2),
   TE0 s3 .^ TE1 s0 .^ TE2 s1 .^ TE3 s2 .^ tbl rk (4 * i + 3)).

(** The loop of two rounds a turn; the round keys advance by eight words. *)
Fixpoint rijndael_rounds (r : nat) (rk : list Z) (s : aes_state) : aes_state * list Z :=
  match r with
  | O => (s, rk)
  | S r' =>
      let t := ROUND rk 1 s in
      let rk := drop 8 rk in
      match r' with
      | O => (t, rk)
      | S _ => rijndael_rounds r' rk (ROUND rk 0 t)
      end
  end.

Definition rijndaelEncrypt (rk : list Z) (Nr : Z) (pt : list Z) : list Z :=
  let s0 := GETU32 pt 0 .^ tbl rk 0 in
  let s1 := GETU32 pt 4 .^ tbl rk 1 in
  let s2 := GETU32 pt 8 .^ tbl rk 2 in
  let s3 := GETU32 pt 12 .^ tbl rk 3 in
  let '((t0, t1, t2, t3), rk) := rijndael_rounds (Z.to_nat (Nr .>> 1)) rk (s0, s1, s2, s3) in
  PUTU32 (TE41 t0 .^ TE42 t1 .^ TE43 t2 .^ TE44 t3 .^ tbl rk 0) ++
  PUTU32 (TE41 t1 .^ TE42 t2 .^ TE43 t3 .^ TE44 t0 .^ tbl rk 1) ++
  PUTU32 (TE41 t2 .^ TE42 t3 .^ TE43 t0 .^ TE44 t1 .^ tbl rk 2) ++
  PUTU32 (TE41 t3 .^ TE42 t0 .^ TE43 t1 .^ TE44 t2 .^ tbl rk 3).

(** The context: the round keys and, after them, their number. [alloc] is whether the
    memory for it is there. *)
Definition aes_encrypt2_init (alloc : bool) (key : list Z) (len : Z) : option (list Z * Z) :=
  if alloc then rijndaelKeySetupEnc key (len * 8) else None.

Definition aes_encrypt2 (ctx : list Z * Z) (plain : list Z) : list Z :=
  rijndaelEncrypt ctx.1 ctx.2 plain.

(** * The cipher of the standard *)

Module Fips.

(** Multiplication by [x], and the product, in the field of 256 elements. *)
Definition xtime (b : Z) : Z :=
  if Z.testbit b 7 then (u8 (b .<< 1)) .^ 0x1b else b .<< 1.

Fixpoint gmul_bits (n : nat) (a b : Z) : Z :=
  match n with
  | O => 0
  | S n => (if Z.odd b then a else 0) .^ gmul_bits n (xtime a) (b .>> 1)
  end.

Definition gmul (a b : Z) : Z := gmul_bits 8 a b.

(** The inverse, [a^254], with 0 for 0. *)
Definition ginv (a : Z) : Z :=
  let a2 := gmul a a in
  let a3 := gmul a2 a in
  let a12 := gmul (gmul a3 a3) (gmul a3 a3) in
  let a15 := gmul a12 a3 in
  let a60 := gmul (gmul a15 a15) (gmul a15 a15) in
  let a63 := gmul a60 a3 in
  let a126 := gmul a63 a63 in
  let a127 := gmul a126 a in
  gmul a127 a127.

Definition rotl8 (b n : Z) : Z := u8 (b .<< n) .| (b .>> (8 - n)).

Definition sbox (b : Z) : Z :=
  let i := ginv b in i .^ rotl8 i 1 .^ rotl8 i 2 .^ rotl8 i 3 .^ rotl8 i 4 .^ 0x63.

(** Columns of four bytes; the state is four of them. *)
Definition column : Type := Z * Z * Z * Z.
Definition state : Type := column * column * column * column.

Definition xor_col (a b : column) : column :=
  let '(a0, a1, a2, a3) := a in let '(b0, b1, b2, b3) := b in (a0 .^ b0, a1 .^ b1, a2 .^ b2, a3 .^ b3).

Definition sub_col (a : column) : column :=
  let '(a0, a1, a2, a3) := a in (sbox a0, sbox a1, sbox a2, sbox a3).

Definition rot_col (a : column) : column :=
  let '(a0, a1, a2, a3) := a in (a1, a2, a3, a0).

Definition mix_col (a : column) : column :=
  let '(a0, a1, a2, a3) := a in
  (gmul a0 2 .^ gmul a1 3 .^ a2 .^ a3, a0 .^ gmul a1 2 .^ gmul a2 3 .^ a3,
   a0 .^ a1 .^ gmul a2 2 .^ gmul a3 3, gmul a0 3 .^ a1 .^ a2 .^ gmul a3 2).

Definition on_cols (f : column -> column) (s : state) : state :=
  let '(c0, c1, c2, c3) := s in (f c0, f c1, f c2, f c3).

Definition add_round_key (s k : state) : state :=
  let '(c0, c1, c2, c3) := s in let '(k0, k1, k2, k3) := k in
  (xor_col c0 k0, xor_col c1 k1, xor_col c2 k2, xor_col c3 k3).

(** Row [r] moves [r] columns to the left. *)
Definition shift_rows (s : state) : state :=
  let '((a0, a1, a2, a3), (b0, b1, b2, b3), (c0, c1, c2, c3), (d0, d1, d2, d3)) := s in
  ((a0, b1, c2, d3), (b0, c1, d2, a3), (c0, d1, a2, b3), (d0, a1, b2, c3)).

Definition round (s k : state) : state :=
  add_round_key (on_cols mix_col (shift_rows (on_cols sub_col s))) k.
Definition final_round (s k : state) : state :=
  add_round_key (shift_rows (on_cols sub_col s)) k.

(** The round keys: [k0], those of the rounds, and the last one. *)
Definition cipher (k0 : state) (ks : list state) (klast : state) (s : state) : state :=
  final_round (foldl round (add_round_key s k0) ks) klast.

(** The expansion of a key of [nk] words: word [i] from the ones before it. *)
Definition zero_col : column := (0, 0, 0, 0).
Definition nth_col (w : list column) (i : Z) : column := default zero_col (w !! Z.to_nat i).

Definition next_word (nk : Z) (w : list column) (i : Z) : column :=
  let temp := nth_col w (i - 1) in
  let temp :=
    if i mod nk =? 0 then xor_col (sub_col (rot_col temp)) (tbl rcons (i / nk - 1), 0, 0, 0)
    else if (6 <? nk) && (i mod nk =? 4) then sub_col temp
    else temp in
  xor_col (nth_col w (i - nk)) temp.

Definition expand_word (nk : Z) (w : list column) (_ : nat) : list column :=
  w ++ [next_word nk w (Z.of_nat (length w))].

Definition key_expansion (nk nr : Z) (key : list column) : list column :=
  foldl (expand_word nk) key (seq 0 (Z.to_nat (4 * (nr + 1) - nk))).

(** Bytes as columns, columns as states. *)
Fixpoint cols (l : list Z) : list column :=
  match l with a :: b :: c :: d :: l => (a, b, c, d) :: cols l | _ => [] end.
Fixpoint states (w : list column) : list state :=
  match w with a :: b :: c :: d :: w => (a, b, c, d) :: states w | _ => [] end.

Definition out_col (a : column) : list Z := let '(a0, a1, a2, a3) := a in [a0; a1; a2; a3].
Definition out_state (s : state) : list Z :=
  let '(a, b, c, d) := s in out_col a ++ out_col b ++ out_col c ++ out_col d.

(** AES with a key of 16, 24 or 32 bytes. *)
Definition aes (key pt : list Z) : option (list Z) :=
  let nk := Z.of_nat (length key) / 4 in
  match states (key_expansion nk (nk + 6) (cols key)), states (cols pt) with
  | k0 :: ks, [s] =>
      kl ← last ks;
      Some (out_state (cipher k0 (removelast ks) kl s))
  | _, _ => None
  end.

End Fips.

(** * The code computes the cipher of the standard *)

Import Fips.

(** A column as a word of the code, most significant byte first. *)
Definition word (a : column) : Z := let '(a0, a1, a2, a3) := a in ((a0 * 256 + a1) * 256 + a2) * 256 + a3.

Definition bytes_col (a : column) : Prop :=
  let '(a0, a1, a2, a3) := a in is_byte a0 /\ is_byte a1 /\ is_byte a2 /\ is_byte a3.

Create HintDb aes.

Lemma bytes_xor_col a b : bytes_col a -> bytes_col b -> bytes_col (xor_col a b).
Proof.
  destruct a as [[[a0 a1] a2] a3], b as [[[b0 b1] b2] b3]. cbn. intros (? & ? & ? & ?) (? & ? & ? & ?).
  repeat split; apply lxor_byte; done.
Qed.

Lemma testbit_digit x b n :
  is_byte b -> 0 <= n -> Z.testbit (x * 256 + b) n = if n <? 8 then Z.testbit b n else Z.testbit x (n - 8).
Proof.
  unfold is_byte. intros Hb Hn. destruct (Z.ltb_spec n 8).
  - rewrite <- (Z.mod_pow2_bits_low (x * 256 + b) 8 n) by lia. f_equal.
    change (2 ^ 8) with 256. rewrite Z.add_comm, Z.mod_add by lia. apply Z.mod_small. lia.
  - replace n with (n - 8 + 8) at 1 by lia. rewrite <- Z.div_pow2_bits by lia. f_equal.
    change (2 ^ 8) with 256. rewrite Z.div_add_l, (Z.div_small b) by lia. lia.
Qed.

Lemma lxor_digit x y b c :
  is_byte b -> is_byte c -> (x * 256 + b) .^ (y * 256 + c) = (x .^ y) * 256 + (b .^ c).
Proof.
  intros Hb Hc. apply Z.bits_inj'. intros n Hn.
  rewrite Z.lxor_spec, !testbit_digit by (done || by apply lxor_byte).
  rewrite !Z.lxor_spec. by destruct (n <? 8).
Qed.

Lemma word_xor a b : bytes_col a -> bytes_col b -> word a .^ word b = word (xor_col a b).
Proof.
  destruct a as [[[a0 a1] a2] a3], b as [[[b0 b1] b2] b3]. cbn. intros (? & ? & ? & ?) (? & ? & ? & ?).
  by rewrite !lxor_digit.
Qed.

Lemma digit_div x b : is_byte b -> (x * 256 + b) / 256 = x.
Proof. unfold is_byte. intros. rewrite Z.div_add_l, Z.div_small by lia. lia. Qed.

Lemma digit_mod x b : is_byte b -> (x * 256 + b) mod 256 = b.
Proof. unfold is_byte. intros. rewrite Z.add_comm, Z.mod_add by lia. apply Z.mod_small. lia. Qed.

Lemma word_bytes a :
  bytes_col a -> let '(a0, a1, a2, a3) := a in
  (word a .>> 24) .& 0xff = a0 /\ (word a .>> 16) .& 0xff = a1 /\ (word a .>> 8) .& 0xff = a2 /\ word a .& 0xff = a3.
Proof.
  destruct a as [[[a0 a1] a2] a3]. cbn. unfold is_byte. intros (? & ? & ? & ?).
  rewrite !Z.shiftr_div_pow2, !land_255_u8 by lia. unfold u8.
  change (2 ^ 24) with (256 * 256 * 256). change (2 ^ 16) with (256 * 256). change (2 ^ 8) with 256.
  rewrite <- !Z.div_div, !digit_div, !digit_mod by (unfold is_byte; lia). rewrite Z.mod_small by lia. auto.
Qed.

(** ** The table *)

(** The columns of the four tables at a byte. *)
Definition te0_col (b : Z) : column := (gmul (sbox b) 2, sbox b, sbox b, gmul (sbox b) 3).
Definition te1_col (b : Z) : column := (gmul (sbox b) 3, gmul (sbox b) 2, sbox b, sbox b).
Definition te2_col (b : Z) : column := (sbox b, gmul (sbox b) 3, gmul (sbox b) 2, sbox b).
Definition te3_col (b : Z) : column := (sbox b, sbox b, gmul (sbox b) 3, gmul (sbox b) 2).

Definition byteb (x : Z) : bool := (0 <=? x) && (x <? 256).

(** A table entry [t] against the S-box value [s] and its multiples. *)
Definition entry_ok (t s s2 s3 : Z) : bool :=
  (t =? word (s2, s, s, s3)) && (rotr t 8 =? word (s3, s2, s, s)) && (rotr t 16 =? word (s, s3, s2, s)) &&
  (rotr t 24 =? word (s, s, s3, s2)) && (u32 (t .<< 8) .& 0xff000000 =? word (s, 0, 0, 0)) &&
  (t .& 0x00ff0000 =? word (0, s, 0, 0)) && (t .& 0x0000ff00 =? word (0, 0, s, 0)) &&
  ((t .>> 8) .& 0x000000ff =? word (0, 0, 0, s)) && (byteb s && byteb s2 && byteb s3).

Lemma entry_facts t s s2 s3 :
  entry_ok t s s2 s3 = true ->
  (t = word (s2, s, s, s3) /\ rotr t 8 = word (s3, s2, s, s) /\
   rotr t 16 = word (s, s3, s2, s) /\ rotr t 24 = word (s, s, s3, s2)) /\
  (u32 (t .<< 8) .& 0xff000000 = word (s, 0, 0, 0) /\
   t .& 0x00ff0000 = word (0, s, 0, 0) /\ t .& 0x0000ff00 = word (0, 0, s, 0) /\
   (t .>> 8) .& 0x000000ff = word (0, 0, 0, s)) /\
  is_byte s /\ is_byte s2 /\ is_byte s3.
Proof.
  unfold entry_ok, byteb, is_byte. rewrite !andb_true_iff, !Z.eqb_eq, !Z.leb_le, !Z.ltb_lt. tauto.
Qed.

Lemma table_facts b :
  is_byte b ->
  (tbl Te0 b = word (te0_col b) /\ rotr (tbl Te0 b) 8 = word (te1_col b) /\
   rotr (tbl Te0 b) 16 = word (te2_col b) /\ rotr (tbl Te0 b) 24 = word (te3_col b)) /\
  (u32 (tbl Te0 b .<< 8) .& 0xff000000 = word (sbox b, 0, 0, 0) /\
   tbl Te0 b .& 0x00ff0000 = word (0, sbox b, 0, 0) /\ tbl Te0 b .& 0x0000ff00 = word (0, 0, sbox b, 0) /\
   (tbl Te0 b .>> 8) .& 0x000000ff = word (0, 0, 0, sbox b)) /\
  is_byte (sbox b) /\ is_byte (gmul (sbox b) 2) /\ is_byte (gmul (sbox b) 3).
Proof.
  intros Hb. apply entry_facts.
  apply (byte_cases (fun b => entry_ok (tbl Te0 b) (sbox b) (gmul (sbox b) 2) (gmul (sbox b) 3))); [|exact Hb].
  vm_compute. reflexivity.
Qed.

(** What the macros give, by the byte of the word they read. *)
Lemma TE_byte0 i b :
  (i .>> 24) .& 0xff = b -> is_byte b ->
  TE0 i = word (te0_col b) /\ TE41 i = word (sbox b, 0, 0, 0) /\ TE414 i = word (0, 0, 0, sbox b) /\
  TE411 i = word (sbox b, 0, 0, 0).
Proof.
  intros E Hb. unfold TE0, TE41, TE414, TE411. rewrite E.
  destruct (table_facts b Hb) as ((T0 & _) & (T1 & _ & _ & T4) & _). exact (conj T0 (conj T1 (conj T4 T1))).
Qed.

Lemma TE_byte1 i b :
  (i .>> 16) .& 0xff = b -> is_byte b ->
  TE1 i = word (te1_col b) /\ TE42 i = word (0, sbox b, 0, 0) /\ TE421 i = word (sbox b, 0, 0, 0) /\
  TE422 i = word (0, sbox b, 0, 0).
Proof.
  intros E Hb. unfold TE1, TE42, TE421, TE422. rewrite E.
  destruct (table_facts b Hb) as ((_ & T0 & _) & (T1 & T2 & _) & _). exact (conj T0 (conj T2 (conj T1 T2))).
Qed.

Lemma TE_byte2 i b :
  (i .>> 8) .& 0xff = b -> is_byte b ->
  TE2 i = word (te2_col b) /\ TE43 i = word (0, 0, sbox b, 0) /\ TE432 i = word (0, sbox b, 0, 0) /\
  TE433 i = word (0, 0, sbox b, 0).
Proof.
  intros E Hb. unfold TE2, TE43, TE432, TE433. rewrite E.
  destruct (table_facts b Hb) as ((_ & _ & T0 & _) & (_ & T2 & T3 & _) & _). exact (conj T0 (conj T3 (conj T2 T3))).
Qed.

Lemma TE_byte3 i b :
  i .& 0xff = b -> is_byte b ->
  TE3 i = word (te3_col b) /\ TE44 i = word (0, 0, 0, sbox b) /\ TE443 i = word (0, 0, sbox b, 0) /\
  TE444 i = word (0, 0, 0, sbox b).
Proof.
  intros E Hb. unfold TE3, TE44, TE443, TE444. rewrite E.
  destruct (table_facts b Hb) as ((_ & _ & _ & T0) & (_ & _ & T3 & T4) & _). exact (conj T0 (conj T4 (conj T3 T4))).
Qed.

(** ** Bytes *)

Lemma sbox_byte b : is_byte b -> is_byte (sbox b).
Proof. intros Hb. apply (table_facts b Hb). Qed.
Lemma sbox2_byte b : is_byte b -> is_byte (gmul (sbox b) 2).
Proof. intros Hb. apply (table_facts b Hb). Qed.
Lemma sbox3_byte b : is_byte b -> is_byte (gmul (sbox b) 3).
Proof. intros Hb. apply (table_facts b Hb). Qed.
Lemma zero_byte : is_byte 0.
Proof. done. Qed.

#[local] Hint Resolve sbox_byte sbox2_byte sbox3_byte zero_byte lxor_byte bytes_xor_col : aes.

Ltac solve_bytes := repeat apply bytes_xor_col; try done; unfold bytes_col; split_and?; auto 10 with aes.

Lemma te_bytes b :
  is_byte b -> bytes_col (te0_col b) /\ bytes_col (te1_col b) /\ bytes_col (te2_col b) /\ bytes_col (te3_col b) /\
  (bytes_col (sbox b, 0, 0, 0) /\ bytes_col (0, sbox b, 0, 0) /\ bytes_col (0, 0, sbox b, 0) /\ bytes_col (0, 0, 0, sbox b)).
Proof. intros Hb. unfold te0_col, te1_col, te2_col, te3_col, bytes_col. split_and?; auto with aes. Qed.

Definition words (s : state) : aes_state := let '(c0, c1, c2, c3) := s in (word c0, word c1, word c2, word c3).

Definition bytes_state (s : state) : Prop :=
  let '(c0, c1, c2, c3) := s in bytes_col c0 /\ bytes_col c1 /\ bytes_col c2 /\ bytes_col c3.

(** Five words of a round. *)
Lemma round_word a b c d k :
  bytes_col a -> bytes_col b -> bytes_col c -> bytes_col d -> bytes_col k ->
  word a .^ word b .^ word c .^ word d .^ word k = word (xor_col (xor_col (xor_col (xor_col a b) c) d) k).
Proof. intros. by rewrite !word_xor by auto 10 with aes. Qed.

(** A column of a round from the columns its bytes come from. *)
Lemma round_col_word a b c d k :
  bytes_col a -> bytes_col b -> bytes_col c -> bytes_col d -> bytes_col k ->
  let '(a0, _, _, _) := a in let '(_, b1, _, _) := b in let '(_, _, c2, _) := c in let '(_, _, _, d3) := d in
  TE0 (word a) .^ TE1 (word b) .^ TE2 (word c) .^ TE3 (word d) .^ word k =
    word (xor_col (mix_col (sbox a0, sbox b1, sbox c2, sbox d3)) k) /\
  TE41 (word a) .^ TE42 (word b) .^ TE43 (word c) .^ TE44 (word d) .^ word k =
    word (xor_col (sbox a0, sbox b1, sbox c2, sbox d3) k).
Proof.
  intros Ha Hb Hc Hd Hk.
  pose proof (word_bytes a Ha) as Wa. pose proof (word_bytes b Hb) as Wb.
  pose proof (word_bytes c Hc) as Wc. pose proof (word_bytes d Hd) as Wd.
  destruct a as [[[a0 a1] a2] a3], b as [[[b0 b1] b2] b3], c as [[[c0 c1] c2] c3], d as [[[d0 d1] d2] d3].
  destruct (TE_byte0 _ a0 (proj1 Wa)) as (-> & -> & _); [apply Ha|].
  destruct (TE_byte1 _ b1 (proj1 (proj2 Wb))) as (-> & -> & _); [apply Hb|].
  destruct (TE_byte2 _ c2 (proj1 (proj2 (proj2 Wc)))) as (-> & -> & _); [apply Hc|].
  destruct (TE_byte3 _ d3 (proj2 (proj2 (proj2 Wd)))) as (-> & -> & _); [apply Hd|].
  destruct (te_bytes a0) as (? & _ & _ & _ & ? & _); [apply Ha|].
  destruct (te_bytes b1) as (_ & ? & _ & _ & _ & ? & _); [apply Hb|].
  destruct (te_bytes c2) as (_ & _ & ? & _ & _ & _ & ? & _); [apply Hc|].
  destruct (te_bytes d3) as (_ & _ & _ & ? & _ & _ & _ & ?); [apply Hd|].
  rewrite !round_word by done. destruct k as [[[k0 k1] k2] k3]. split; f_equal.
  cbn [xor_col te0_col te1_col te2_col te3_col mix_col]. by rewrite !Z.lxor_0_l, !Z.lxor_0_r.
Qed.

(** ** Encryption *)

(** Round keys as the array of the code. *)
Fixpoint flat (ks : list state) : list Z :=
  match ks with
  | [] => []
  | (a, b, c, d) :: ks => word a :: word b :: word c :: word d :: flat ks
  end.

#[local] Abbreviation block := out_state.

Lemma ROUND_word rk i s k0 k1 k2 k3 :
  bytes_state s -> bytes_state (k0, k1, k2, k3) ->
  tbl rk (4 * i) = word k0 -> tbl rk (4 * i + 1) = word k1 -> tbl rk (4 * i + 2) = word k2 -> tbl rk (4 * i + 3) = word k3 ->
  ROUND rk i (words s) = words (round s (k0, k1, k2, k3)).
Proof.
  destruct s as [[[a b] c] d]. intros (Ha & Hb & Hc & Hd) (K0 & K1 & K2 & K3) E0 E1 E2 E3.
  unfold ROUND, words. rewrite E0, E1, E2, E3.
  pose proof (round_col_word a b c d k0 Ha Hb Hc Hd K0) as R0. pose proof (round_col_word b c d a k1 Hb Hc Hd Ha K1) as R1.
  pose proof (round_col_word c d a b k2 Hc Hd Ha Hb K2) as R2. pose proof (round_col_word d a b c k3 Hd Ha Hb Hc K3) as R3.
  destruct a as [[[a0 a1] a2] a3], b as [[[b0 b1] b2] b3], c as [[[c0 c1] c2] c3], d as [[[d0 d1] d2] d3].
  by rewrite (proj1 R0), (proj1 R1), (proj1 R2), (proj1 R3).
Qed.

(** Bytes stay bytes. *)
Lemma mix_bytes a b c d :
  is_byte a -> is_byte b -> is_byte c -> is_byte d -> bytes_col (mix_col (sbox a, sbox b, sbox c, sbox d)).
Proof. intros. unfold mix_col, bytes_col. split_and?; auto 10 with aes. Qed.

Lemma round_bytes s k : bytes_state s -> bytes_state k -> bytes_state (round s k).
Proof.
  destruct s as [[[[[[a0 a1] a2] a3] [[[b0 b1] b2] b3]] [[[c0 c1] c2] c3]] [[[d0 d1] d2] d3]], k as [[[k0 k1] k2] k3].
  intros ((? & ? & ? & ?) & (? & ? & ? & ?) & (? & ? & ? & ?) & (? & ? & ? & ?)) (K0 & K1 & K2 & K3).
  unfold round, add_round_key, shift_rows, on_cols, sub_col, bytes_state.
  split_and?; (apply bytes_xor_col; [by apply mix_bytes|done]).
Qed.

Lemma add_round_key_bytes s k : bytes_state s -> bytes_state k -> bytes_state (add_round_key s k).
Proof.
  destruct s as [[[a b] c] d], k as [[[k0 k1] k2] k3]. intros (? & ? & ? & ?) (? & ? & ? & ?).
  cbn. auto with aes.
Qed.

Lemma rounds_word r k0 mid kl s :
  length mid = (2 * r + 1)%nat -> bytes_state s -> Forall bytes_state (k0 :: mid ++ [kl]) ->
  rijndael_rounds (S r) (flat (k0 :: mid ++ [kl])) (words s) = (words (foldl round s mid), flat [kl]) /\
  bytes_state (foldl round s mid).
Proof.
  revert k0 mid s. induction r as [|r IH]; intros k0 mid s Hl Hs Hk.
  - destruct mid as [|k1 [|]]; try discriminate Hl. apply Forall_cons in Hk as [_ [Hk1 _]%Forall_cons].
    destruct k0 as [[[? ?] ?] ?], k1 as [[[x y] z] w], kl as [[[? ?] ?] ?]. cbn [app].
    split; [|by apply round_bytes]. cbn [rijndael_rounds foldl].
    by rewrite (ROUND_word _ 1 s x y z w).
  - destruct mid as [|k1 [|k2 mid]]; try (cbn in Hl; lia). cbn [length] in Hl.
    apply Forall_cons in Hk as [_ [Hk1 Hk]%Forall_cons]. pose proof Hk as [Hk2 _]%Forall_cons.
    destruct (IH k2 mid (round (round s k1) k2)) as [E B]; [lia|by repeat apply round_bytes|done|].
    split; [|exact B]. cbn [foldl]. rewrite <- E. clear E B IH.
    change ((k1 :: k2 :: mid) ++ [kl]) with (k1 :: k2 :: mid ++ [kl]).
    pose proof (round_bytes s k1 Hs Hk1) as Hs1.
    destruct k0 as [[[? ?] ?] ?], k1 as [[[x y] z] w], k2 as [[[x2 y2] z2] w2].
    change (rijndael_rounds (S (S r)) ?rk ?s) with (rijndael_rounds (S r) (drop 8 rk) (ROUND (drop 8 rk) 0 (ROUND rk 1 s))).
    rewrite (ROUND_word _ 1 s x y z w) by done.
    change (drop 8 (flat ((_, _, _, _) :: (_, _, _, _) :: ?ks))) with (flat ks).
    by rewrite (ROUND_word _ 0 _ x2 y2 z2 w2).
Qed.

Lemma GETU32_word p i a0 a1 a2 a3 :
  bytes_col (a0, a1, a2, a3) -> tbl p i = a0 -> tbl p (i + 1) = a1 -> tbl p (i + 2) = a2 -> tbl p (i + 3) = a3 ->
  GETU32 p i = word (a0, a1, a2, a3).
Proof.
  intros (H0 & H1 & H2 & H3) E0 E1 E2 E3. unfold GETU32. rewrite E0, E1, E2, E3.
  replace (a0 .<< 24) with (word (a0, 0, 0, 0)) by (rewrite Z.shiftl_mul_pow2; cbn; lia).
  replace (a1 .<< 16) with (word (0, a1, 0, 0)) by (rewrite Z.shiftl_mul_pow2; cbn; lia).
  replace (a2 .<< 8) with (word (0, 0, a2, 0)) by (rewrite Z.shiftl_mul_pow2; cbn; lia).
  replace a3 with (word (0, 0, 0, a3)) at 1 by (cbn; lia).
  rewrite !word_xor by solve_bytes. unfold xor_col. by rewrite !Z.lxor_0_l, !Z.lxor_0_r.
Qed.

Lemma PUTU32_word a0 a1 a2 a3 : bytes_col (a0, a1, a2, a3) -> PUTU32 (word (a0, a1, a2, a3)) = [a0; a1; a2; a3].
Proof.
  intros H. destruct (word_bytes _ H) as (E0 & E1 & E2 & E3). unfold PUTU32. rewrite <- !land_255_u8. by rewrite E0, E1, E2, E3.
Qed.

Lemma final_word a b c d k :
  bytes_col a -> bytes_col b -> bytes_col c -> bytes_col d -> bytes_col k ->
  let '(a0, _, _, _) := a in let '(_, b1, _, _) := b in let '(_, _, c2, _) := c in let '(_, _, _, d3) := d in
  PUTU32 (TE41 (word a) .^ TE42 (word b) .^ TE43 (word c) .^ TE44 (word d) .^ word k) =
  let '(x0, x1, x2, x3) := xor_col (sbox a0, sbox b1, sbox c2, sbox d3) k in [x0; x1; x2; x3].
Proof.
  intros Ha Hb Hc Hd Hk. pose proof (round_col_word a b c d k Ha Hb Hc Hd Hk) as R.
  destruct a as [[[a0 a1] a2] a3], b as [[[b0 b1] b2] b3], c as [[[c0 c1] c2] c3], d as [[[d0 d1] d2] d3], k as [[[k0 k1] k2] k3].
  rewrite (proj2 R). apply PUTU32_word. change (_, _, _, _) with (xor_col (sbox a0, sbox b1, sbox c2, sbox d3) (k0, k1, k2, k3)).
  apply bytes_xor_col; [|done]. unfold bytes_col. split_and?; apply sbox_byte; [apply Ha|apply Hb|apply Hc|apply Hd].
Qed.

Lemma shr1_double n : (2 * n) .>> 1 = n.
Proof. rewrite Z.shiftr_div_pow2 by lia. rewrite Z.mul_comm. by apply Z.div_mul. Qed.

(** The encryption of the code is the cipher of the standard with the same round keys. *)
Lemma encrypt_cipher r k0 mid kl s :
  length mid = (2 * r + 1)%nat -> bytes_state s -> Forall bytes_state (k0 :: mid ++ [kl]) ->
  rijndaelEncrypt (flat (k0 :: mid ++ [kl])) (2 * Z.of_nat (S r)) (block s) = block (cipher k0 mid kl s).
Proof.
  intros Hl Hs Hk. pose proof Hk as [Hk0 _]%Forall_cons.
  destruct (rounds_word r k0 mid kl (add_round_key s k0) Hl (add_round_key_bytes _ _ Hs Hk0) Hk) as [E B].
  unfold rijndaelEncrypt. rewrite shr1_double, Nat2Z.id.
  assert (W : (GETU32 (block s) 0 .^ tbl (flat (k0 :: mid ++ [kl])) 0, GETU32 (block s) 4 .^ tbl (flat (k0 :: mid ++ [kl])) 1,
    GETU32 (block s) 8 .^ tbl (flat (k0 :: mid ++ [kl])) 2, GETU32 (block s) 12 .^ tbl (flat (k0 :: mid ++ [kl])) 3) =
    words (add_round_key s k0)).
  { destruct s as [[[[[[a0 a1] a2] a3] [[[b0 b1] b2] b3]] [[[c0 c1] c2] c3]] [[[d0 d1] d2] d3]], k0 as [[[x y] z] w].
    destruct Hs as (H0 & H1 & H2 & H3), Hk0 as (K0 & K1 & K2 & K3).
    rewrite (GETU32_word _ 0 a0 a1 a2 a3), (GETU32_word _ 4 b0 b1 b2 b3), (GETU32_word _ 8 c0 c1 c2 c3), (GETU32_word _ 12 d0 d1 d2 d3) by done.
    change (tbl (flat ((x, y, z, w) :: mid ++ [kl])) 0) with (word x). change (tbl (flat ((x, y, z, w) :: mid ++ [kl])) 1) with (word y).
    change (tbl (flat ((x, y, z, w) :: mid ++ [kl])) 2) with (word z). change (tbl (flat ((x, y, z, w) :: mid ++ [kl])) 3) with (word w).
    unfold words, add_round_key. by rewrite !word_xor. }
  rewrite W, E. unfold cipher. set (t := foldl round _ mid) in *. clearbody t. clear -B Hk.
  assert (Hkl : bytes_state kl) by (rewrite Forall_forall in Hk; apply Hk; set_solver).
  destruct t as [[[a b] c] d], kl as [[[x y] z] w]. destruct B as (Ha & Hb & Hc & Hd), Hkl as (K0 & K1 & K2 & K3).
  cbn [words flat]. change (tbl [word x; word y; word z; word w] 0) with (word x). change (tbl [word x; word y; word z; word w] 1) with (word y).
  change (tbl [word x; word y; word z; word w] 2) with (word z). change (tbl [word x; word y; word z; word w] 3) with (word w).
  pose proof (final_word a b c d x Ha Hb Hc Hd K0) as F0. pose proof (final_word b c d a y Hb Hc Hd Ha K1) as F1.
  pose proof (final_word c d a b z Hc Hd Ha Hb K2) as F2. pose proof (final_word d a b c w Hd Ha Hb Hc K3) as F3.
  destruct a as [[[a0 a1] a2] a3], b as [[[b0 b1] b2] b3], c as [[[c0 c1] c2] c3], d as [[[d0 d1] d2] d3].
  rewrite F0, F1, F2, F3. unfold final_round, add_round_key, shift_rows, on_cols, sub_col, out_state.
  destruct x as [[[x0 x1] x2] x3], y as [[[y0 y1] y2] y3], z as [[[z0 z1] z2] z3], w as [[[w0 w1] w2] w3]. done.
Qed.

(** ** Key schedule *)

Lemma nth_col_app_l w k i : 0 <= i -> i < Z.of_nat (length w) -> nth_col (w ++ k) i = nth_col w i.
Proof. intros. unfold nth_col. by rewrite lookup_app_l by lia. Qed.

Lemma nth_col_len w c i : i = Z.of_nat (length w) -> nth_col (w ++ [c]) i = c.
Proof. intros ->. unfold nth_col. by rewrite Nat2Z.id, list_lookup_middle. Qed.

Lemma tbl_word w i : tbl (map word w) i = word (nth_col w i).
Proof. unfold tbl, nth_col. rewrite list_lookup_fmap. by destruct (w !! Z.to_nat i). Qed.

Lemma nth_col_bytes w i : Forall bytes_col w -> bytes_col (nth_col w i).
Proof.
  intros H. unfold nth_col. destruct (w !! Z.to_nat i) eqn:E; [by apply (Forall_lookup_1 _ _ _ _ H E)|by cbn].
Qed.

Lemma rcons_byte i : is_byte (tbl rcons i).
Proof.
  unfold tbl. destruct (rcons !! Z.to_nat i) as [x|] eqn:E; [|done]. cbn.
  apply (Forall_lookup_1 is_byte rcons (Z.to_nat i)); [|done]. unfold rcons. repeat constructor; done.
Qed.

Lemma rcon_word i : RCON i = word (tbl rcons i, 0, 0, 0).
Proof.
  pose proof (rcons_byte i) as H. unfold RCON. revert H. generalize (tbl rcons i). unfold is_byte. intros x H.
  rewrite Z.shiftl_mul_pow2 by lia. rewrite u32_small; cbn; lia.
Qed.

#[local] Hint Resolve rcons_byte nth_col_bytes : aes.

Lemma sub_rot_word t i :
  bytes_col t -> expand_sub (word t) i = word (xor_col (sub_col (rot_col t)) (tbl rcons i, 0, 0, 0)).
Proof.
  intros H. pose proof (word_bytes t H) as W. destruct t as [[[t0 t1] t2] t3]. destruct W as (W0 & W1 & W2 & W3).
  destruct H as (H0 & H1 & H2 & H3). unfold expand_sub. rewrite rcon_word.
  destruct (TE_byte0 _ t0 W0 H0) as (_ & _ & -> & _). destruct (TE_byte1 _ t1 W1 H1) as (_ & _ & -> & _).
  destruct (TE_byte2 _ t2 W2 H2) as (_ & _ & -> & _). destruct (TE_byte3 _ t3 W3 H3) as (_ & _ & -> & _).
  rewrite !word_xor by solve_bytes. f_equal. unfold xor_col, sub_col, rot_col. by rewrite !Z.lxor_0_l, !Z.lxor_0_r.
Qed.

Lemma sub_word t :
  bytes_col t -> TE411 (word t) .^ TE422 (word t) .^ TE433 (word t) .^ TE444 (word t) = word (sub_col t).
Proof.
  intros H. pose proof (word_bytes t H) as W. destruct t as [[[t0 t1] t2] t3]. destruct W as (W0 & W1 & W2 & W3).
  destruct H as (H0 & H1 & H2 & H3).
  destruct (TE_byte0 _ t0 W0 H0) as (_ & _ & _ & ->). destruct (TE_byte1 _ t1 W1 H1) as (_ & _ & _ & ->).
  destruct (TE_byte2 _ t2 W2 H2) as (_ & _ & _ & ->). destruct (TE_byte3 _ t3 W3 H3) as (_ & _ & _ & ->).
  rewrite !word_xor by solve_bytes. f_equal. unfold xor_col, sub_col. by rewrite !Z.lxor_0_l, !Z.lxor_0_r.
Qed.

Lemma sub_bytes t : bytes_col t -> bytes_col (sub_col t).
Proof. destruct t as [[[t0 t1] t2] t3]. intros (? & ? & ? & ?). unfold sub_col. solve_bytes. Qed.

Lemma rot_bytes t : bytes_col t -> bytes_col (rot_col t).
Proof. destruct t as [[[t0 t1] t2] t3]. intros (? & ? & ? & ?). unfold rot_col. solve_bytes. Qed.

Lemma next_bytes nk w i : Forall bytes_col w -> bytes_col (next_word nk w i).
Proof.
  intros H. unfold next_word. apply bytes_xor_col; [auto with aes|].
  destruct (i mod nk =? 0); [apply bytes_xor_col; [by apply sub_bytes, rot_bytes, nth_col_bytes|solve_bytes]|].
  destruct (_ && _); [by apply sub_bytes, nth_col_bytes|auto with aes].
Qed.

(** One word of the expansion: what it is in each of the three cases. *)
Lemma expand_bytes nk w n : Forall bytes_col w -> Forall bytes_col (expand_word nk w n).
Proof. intros H. apply Forall_app. split; [done|]. apply Forall_singleton. by apply next_bytes. Qed.

Lemma next_rot nk w i :
  i mod nk = 0 -> Forall bytes_col w ->
  word (next_word nk w i) = tbl (map word w) (i - nk) .^ expand_sub (tbl (map word w) (i - 1)) (i / nk - 1).
Proof.
  intros M H. rewrite !tbl_word, sub_rot_word, word_xor by (auto with aes || (apply bytes_xor_col;
    [by apply sub_bytes, rot_bytes, nth_col_bytes|solve_bytes])).
  unfold next_word. by rewrite M.
Qed.

Lemma next_sub nk w i :
  i mod nk = 4 -> 6 < nk -> Forall bytes_col w ->
  let t := tbl (map word w) (i - 1) in
  word (next_word nk w i) = tbl (map word w) (i - nk) .^ (TE411 t .^ TE422 t .^ TE433 t .^ TE444 t).
Proof.
  intros M L H. cbv zeta. rewrite !tbl_word, sub_word, word_xor by (auto with aes || by apply sub_bytes, nth_col_bytes).
  unfold next_word. rewrite M. by replace (6 <? nk) with true by lia.
Qed.

Lemma next_plain nk w i :
  i mod nk <> 0 -> (nk <= 6 \/ i mod nk <> 4) -> Forall bytes_col w ->
  word (next_word nk w i) = tbl (map word w) (i - nk) .^ tbl (map word w) (i - 1).
Proof.
  intros M L H. rewrite !tbl_word, word_xor by auto with aes. unfold next_word.
  destruct (Z.eqb_spec (i mod nk) 0); [lia|]. destruct (Z.ltb_spec 6 nk); [|done].
  destruct (Z.eqb_spec (i mod nk) 4); [lia|done].
Qed.

(** The array and the words: appending the next word. *)
Lemma map_expand nk w n : map word (expand_word nk w n) = map word w ++ [word (next_word nk w (Z.of_nat (length w)))].
Proof. unfold expand_word. by rewrite map_app. Qed.

Lemma tbl_app_l rk k i : 0 <= i -> i < Z.of_nat (length rk) -> tbl (rk ++ k) i = tbl rk i.
Proof. intros. unfold tbl. by rewrite lookup_app_l by lia. Qed.
Lemma tbl_app_len rk x i : i = Z.of_nat (length rk) -> tbl (rk ++ [x]) i = x.
Proof. intros ->. unfold tbl. by rewrite Nat2Z.id, list_lookup_middle. Qed.

Section chunk.
Context (nk : Z) (R : list Z).

Lemma rot_step w n i j q :
  Forall bytes_col w -> map word w = R -> Z.of_nat (length w) = q * nk -> 0 < nk ->
  Z.of_nat (length w) - nk = i -> Z.of_nat (length w) - 1 = j ->
  map word (expand_word nk w n) = R ++ [tbl R i .^ expand_sub (tbl R j) (q - 1)].
Proof.
  intros H <- M Hnk <- <-. rewrite map_expand, next_rot, M by (done || rewrite M; apply Z.mod_mul; lia).
  by rewrite Z.div_mul by lia.
Qed.

Lemma plain_step w xs y n i :
  Forall bytes_col w -> map word w = R ++ xs ++ [y] ->
  Z.of_nat (length w) mod nk <> 0 -> (nk <= 6 \/ Z.of_nat (length w) mod nk <> 4) ->
  Z.of_nat (length w) - nk = i -> 0 <= i < Z.of_nat (length R) ->
  map word (expand_word nk w n) = R ++ (xs ++ [y]) ++ [tbl R i .^ y].
Proof.
  intros H E M M4 <- L. rewrite map_expand, next_plain, E by done. rewrite (tbl_app_l R) by lia.
  rewrite (app_assoc R xs [y]) at 2. rewrite tbl_app_len.
  - by rewrite <- app_assoc.
  - apply (f_equal length) in E. rewrite length_map, app_assoc, length_app in E. cbn in E. lia.
Qed.

Lemma sub_step w xs y n i :
  Forall bytes_col w -> map word w = R ++ xs ++ [y] -> 6 < nk -> Z.of_nat (length w) mod nk = 4 ->
  Z.of_nat (length w) - nk = i -> 0 <= i < Z.of_nat (length R) ->
  map word (expand_word nk w n) = R ++ (xs ++ [y]) ++ [tbl R i .^ (TE411 y .^ TE422 y .^ TE433 y .^ TE444 y)].
Proof.
  intros H E M M4 <- L. rewrite map_expand, next_sub, E by done. cbv zeta. rewrite (tbl_app_l R) by lia.
  rewrite !(app_assoc R xs [y]). rewrite tbl_app_len.
  - by rewrite <- !app_assoc.
  - apply (f_equal length) in E. rewrite length_map, app_assoc, length_app in E. cbn in E. lia.
Qed.

Lemma length_expand w n : length (expand_word nk w n) = S (length w).
Proof. unfold expand_word. rewrite length_app. cbn. lia. Qed.
End chunk.

(** The words of one turn of each loop: [E] says what the words are so far; a step adds
    the next one. *)
Ltac next_len := rewrite ?length_expand, ?length_map; Z.to_euclidean_division_equations; lia.

Ltac first_step nk i :=
  match goal with
  | H : Forall bytes_col ?w |- _ =>
      pose proof (rot_step nk (map word w) w 0 (nk * Z.of_nat i) (nk * Z.of_nat i + (nk - 1)) (Z.of_nat i + 1)
        H eq_refl ltac:(next_len) ltac:(lia) ltac:(next_len) ltac:(next_len));
      pose proof (expand_bytes nk w 0 H); clear H
  end.

Ltac further_step step nk i k :=
  match goal with
  | H : Forall bytes_col ?w, E : map word ?w = map word ?w0 ++ [?y] |- _ =>
      pose proof (step nk (map word w0) w [] y k (nk * Z.of_nat i + Z.of_nat k)
        H E ltac:(next_len) ltac:(next_len) ltac:(next_len) ltac:(next_len));
      pose proof (expand_bytes nk w k H); clear H E
  | H : Forall bytes_col ?w, E : map word ?w = map word ?w0 ++ ?xs ++ [?y] |- _ =>
      pose proof (step nk (map word w0) w xs y k (nk * Z.of_nat i + Z.of_nat k)
        H E ltac:(next_len) ltac:(next_len) ltac:(next_len) ltac:(next_len));
      pose proof (expand_bytes nk w k H); clear H E
  end.

Ltac turn_done i :=
  match goal with
  | E : map word ?w = _ |- _ = map word (foldl _ _ _) => cbn [seq foldl]; rewrite E
  end; replace (Z.of_nat i + 1 - 1) with (Z.of_nat i) by lia; reflexivity.

Lemma chunk128 w i :
  Forall bytes_col w -> length w = (4 * S i)%nat ->
  expand128 (map word w) i = map word (foldl (expand_word 4) w (seq 0 4)).
Proof.
  intros H L. unfold expand128. first_step 4 i.
  further_step plain_step 4 i 1%nat. further_step plain_step 4 i 2%nat.
  further_step plain_step 4 i 3%nat. turn_done i.
Qed.

Lemma chunk192 w i :
  Forall bytes_col w -> length w = (6 * S i)%nat ->
  expand192 (map word w) i = map word (foldl (expand_word 6) w (seq 0 (if Nat.eqb i 7 then 4 else 6))).
Proof.
  intros H L. unfold expand192. first_step 6 i. further_step plain_step 6 i 1%nat.
  further_step plain_step 6 i 2%nat. further_step plain_step 6 i 3%nat. destruct (Nat.eqb i 7); [turn_done i|].
  further_step plain_step 6 i 4%nat. further_step plain_step 6 i 5%nat. turn_done i.
Qed.

Lemma chunk256 w i :
  Forall bytes_col w -> length w = (8 * S i)%nat ->
  expand256 (map word w) i = map word (foldl (expand_word 8) w (seq 0 (if Nat.eqb i 6 then 4 else 8))).
Proof.
  intros H L. unfold expand256. first_step 8 i. further_step plain_step 8 i 1%nat.
  further_step plain_step 8 i 2%nat. further_step plain_step 8 i 3%nat. destruct (Nat.eqb i 6); [turn_done i|].
  further_step sub_step 8 i 4%nat. further_step plain_step 8 i 5%nat.
  further_step plain_step 8 i 6%nat. further_step plain_step 8 i 7%nat. turn_done i.
Qed.

(** The whole array. *)
Lemma expand_seq nk w n m : foldl (expand_word nk) w (seq n m) = foldl (expand_word nk) w (seq 0 m).
Proof.
  revert w n. assert (G : forall w n n', foldl (expand_word nk) w (seq n m) = foldl (expand_word nk) w (seq n' m));
    [|by intros; apply G].
  induction m as [|m IH]; intros w n n'; [done|]. cbn [seq foldl]. apply IH.
Qed.

Lemma expand_more nk w m k :
  foldl (expand_word nk) w (seq 0 (m + k)) = foldl (expand_word nk) (foldl (expand_word nk) w (seq 0 m)) (seq 0 k).
Proof. by rewrite seq_app, foldl_app, expand_seq. Qed.

Lemma expand_inv nk w m :
  Forall bytes_col w ->
  Forall bytes_col (foldl (expand_word nk) w (seq 0 m)) /\
  length (foldl (expand_word nk) w (seq 0 m)) = (length w + m)%nat.
Proof.
  intros H. induction m as [|m [IH L]]; [by rewrite Nat.add_0_r|].
  rewrite seq_S, foldl_app. cbn [foldl Nat.add]. split; [by apply expand_bytes|]. rewrite length_expand, L. lia.
Qed.

Lemma schedule (turn : list Z -> nat -> list Z) (nk : nat) (cnt : nat -> nat) key t :
  (forall w i, Forall bytes_col w -> length w = (nk * S i)%nat ->
     turn (map word w) i = map word (foldl (expand_word (Z.of_nat nk)) w (seq 0 (cnt i)))) ->
  Forall bytes_col key -> length key = nk -> (forall i, (i < t)%nat -> cnt i = nk) ->
  foldl turn (map word key) (seq 0 (S t)) = map word (foldl (expand_word (Z.of_nat nk)) key (seq 0 (nk * t + cnt t))).
Proof.
  intros Ht Hk Hl Hc.
  assert (G : forall n, (n <= t)%nat -> foldl turn (map word key) (seq 0 n) = map word (foldl (expand_word (Z.of_nat nk)) key (seq 0 (nk * n)))).
  { induction n as [|n IH]; intros Hn; [by rewrite Nat.mul_0_r|].
    rewrite seq_S, foldl_app, IH by lia. cbn [foldl Nat.add].
    destruct (expand_inv (Z.of_nat nk) key (nk * n) Hk) as [Hb Hlen].
    rewrite Ht by (done || lia). rewrite Hc, <- expand_more by lia. do 3 f_equal. lia. }
  rewrite seq_S, foldl_app, G by lia. cbn [foldl Nat.add].
  destruct (expand_inv (Z.of_nat nk) key (nk * t) Hk) as [Hb Hlen].
  rewrite Ht by (done || lia). by rewrite <- expand_more.
Qed.

(** Four words a round key. *)
Lemma flat_states n w : length w = (4 * n)%nat -> flat (states w) = map word w /\ length (states w) = n.
Proof.
  revert w. induction n as [|n IH]; intros w Hl; [by destruct w|].
  destruct w as [|a [|b [|c [|d w]]]]; cbn [length] in Hl; try lia. destruct (IH w) as [E L]; [lia|].
  cbn [states flat map length]. by rewrite E, L.
Qed.

Lemma states_bytes w : Forall bytes_col w -> Forall bytes_state (states w).
Proof.
  remember (length w) as n eqn:E. revert w E. induction n as [n IH] using lt_wf_ind. intros w E H.
  destruct w as [|a [|b [|c [|d w]]]]; cbn [states]; try done.
  apply Forall_cons in H as [Ha [Hb [Hc [Hd H]%Forall_cons]%Forall_cons]%Forall_cons].
  apply Forall_cons. split; [done|]. apply (IH (length w)); [cbn in E; lia|done|done].
Qed.

Lemma cols_bytes l : bytes l -> Forall bytes_col (cols l).
Proof.
  remember (length l) as n eqn:E. revert l E. induction n as [n IH] using lt_wf_ind. intros l E H.
  destruct l as [|a [|b [|c [|d l]]]]; cbn [cols]; try done.
  apply Forall_cons in H as [Ha [Hb [Hc [Hd H]%Forall_cons]%Forall_cons]%Forall_cons].
  apply Forall_cons. split; [done|]. apply (IH (length l)); [cbn in E; lia|done|done].
Qed.

Lemma length_cols n l : length l = (4 * n)%nat -> length (cols l) = n.
Proof.
  revert l. induction n as [|n IH]; intros l Hl; [by destruct l|].
  destruct l as [|a [|b [|c [|d l]]]]; cbn [length] in Hl; try lia. cbn [cols length]. rewrite IH; lia.
Qed.

Lemma cols_tbl n l :
  length l = (4 * n)%nat ->
  cols l = map (fun i => let i := 4 * Z.of_nat i in (tbl l i, tbl l (i + 1), tbl l (i + 2), tbl l (i + 3))) (seq 0 n).
Proof.
  revert l. induction n as [|n IH]; intros l Hl; [by destruct l|].
  destruct l as [|a [|b [|c [|d l]]]]; cbn [length] in Hl; try lia. cbn [cols]. rewrite (IH l) by lia.
  assert (T : forall j, 0 <= j -> tbl (a :: b :: c :: d :: l) (4 + j) = tbl l j).
  { intros j Hj. unfold tbl. replace (Z.to_nat (4 + j)) with (S (S (S (S (Z.to_nat j))))) by lia. done. }
  cbn [seq map]. f_equal. rewrite <- seq_shift, map_map. apply map_ext. intros i.
  cbv zeta. replace (4 * Z.of_nat (S i)) with (4 + 4 * Z.of_nat i) by lia.
  by rewrite <- !Z.add_assoc, !T by lia.
Qed.

(** The words the schedule starts from. *)
Lemma key_word key i :
  bytes key -> GETU32 key (4 * i) = word (tbl key (4 * i), tbl key (4 * i + 1), tbl key (4 * i + 2), tbl key (4 * i + 3)).
Proof.
  intros H. apply GETU32_word; try done.
  assert (B : forall j, is_byte (tbl key j)).
  { intros j. unfold tbl. destruct (key !! Z.to_nat j) eqn:E; [by apply (Forall_lookup_1 _ _ _ _ H E)|done]. }
  unfold bytes_col. auto.
Qed.

Lemma setup_fips key :
  bytes key -> length key = 16%nat \/ length key = 24%nat \/ length key = 32%nat ->
  let nk := Z.of_nat (length key) / 4 in
  rijndaelKeySetupEnc key (Z.of_nat (length key) * 8) = Some (map word (key_expansion nk (nk + 6) (cols key)), nk + 6).
Proof.
  intros Hb Hl nk. pose proof (cols_bytes key Hb) as Hc. unfold rijndaelKeySetupEnc.
  pose proof (key_word key 0 Hb) as W0. pose proof (key_word key 1 Hb) as W1. pose proof (key_word key 2 Hb) as W2.
  pose proof (key_word key 3 Hb) as W3. pose proof (key_word key 4 Hb) as W4. pose proof (key_word key 5 Hb) as W5.
  pose proof (key_word key 6 Hb) as W6. pose proof (key_word key 7 Hb) as W7.
  change (GETU32 key 0) with (GETU32 key (4 * 0)). change (GETU32 key 4) with (GETU32 key (4 * 1)).
  change (GETU32 key 8) with (GETU32 key (4 * 2)). change (GETU32 key 12) with (GETU32 key (4 * 3)).
  change (GETU32 key 16) with (GETU32 key (4 * 4)). change (GETU32 key 20) with (GETU32 key (4 * 5)).
  change (GETU32 key 24) with (GETU32 key (4 * 6)). change (GETU32 key 28) with (GETU32 key (4 * 7)).
  rewrite W0, W1, W2, W3, W4, W5, W6, W7. clear W0 W1 W2 W3 W4 W5 W6 W7.
  unfold nk, key_expansion. destruct Hl as [Hl|[Hl|Hl]]; rewrite Hl.
  - change (Z.of_nat 16 * 8 =? 128) with true. cbn match. change (Z.of_nat 16 / 4) with (Z.of_nat 4).
    change (Z.to_nat (4 * (Z.of_nat 4 + 6 + 1) - Z.of_nat 4)) with (4 * 9 + 4)%nat.
    rewrite <- (schedule expand128 4 (fun _ => 4%nat) (cols key) 9 chunk128 Hc (length_cols 4 key Hl) ltac:(done)).
    do 3 f_equal. by rewrite (cols_tbl 4 key Hl).
  - change (Z.of_nat 24 * 8 =? 128) with false. change (Z.of_nat 24 * 8 =? 192) with true. cbn match.
    change (Z.of_nat 24 / 4) with (Z.of_nat 6).
    change (Z.to_nat (4 * (Z.of_nat 6 + 6 + 1) - Z.of_nat 6)) with (6 * 7 + (if Nat.eqb 7 7 then 4 else 6))%nat.
    rewrite <- (schedule expand192 6 (fun i => if Nat.eqb i 7 then 4 else 6)%nat (cols key) 7 chunk192 Hc (length_cols 6 key Hl)).
    + do 3 f_equal. by rewrite (cols_tbl 6 key Hl).
    + intros i Hi. destruct (Nat.eqb_spec i 7); [lia|done].
  - change (Z.of_nat 32 * 8 =? 128) with false. change (Z.of_nat 32 * 8 =? 192) with false. change (Z.of_nat 32 * 8 =? 256) with true. cbn match.
    change (Z.of_nat 32 / 4) with (Z.of_nat 8).
    change (Z.to_nat (4 * (Z.of_nat 8 + 6 + 1) - Z.of_nat 8)) with (8 * 6 + (if Nat.eqb 6 6 then 4 else 8))%nat.
    rewrite <- (schedule expand256 8 (fun i => if Nat.eqb i 6 then 4 else 8)%nat (cols key) 6 chunk256 Hc (length_cols 8 key Hl)).
    + do 3 f_equal. by rewrite (cols_tbl 8 key Hl).
    + intros i Hi. destruct (Nat.eqb_spec i 6); [lia|done].
Qed.

Lemma block_of pt :
  bytes pt -> length pt = 16%nat -> exists s, states (cols pt) = [s] /\ out_state s = pt /\ bytes_state s.
Proof.
  intros Hb Hl. pose proof (states_bytes _ (cols_bytes pt Hb)) as B.
  do 16 (destruct pt as [|? pt]; [discriminate Hl|]). destruct pt; [|discriminate Hl].
  eexists. split; [reflexivity|]. split; [done|]. by apply Forall_cons in B as [B _].
Qed.

Lemma last_split (ks : list state) n :
  length ks = S n -> exists kl, last ks = Some kl /\ ks = removelast ks ++ [kl] /\ length (removelast ks) = n.
Proof.
  intros Hl. assert (N : ks <> []) by (by destruct ks).
  destruct (exists_last N) as (mid & kl & E). exists kl. rewrite E, last_snoc, removelast_last.
  split; [done|]. split; [done|]. rewrite E, length_app in Hl. cbn in Hl. lia.
Qed.

(** C20: For keys of 16, 24 and 32 bytes the table-driven code computes AES as the standard
    defines it: field inversion and the affine map, row shifts, column mixing and the key
    expansion; and the block it gives is 16 bytes. *)
Theorem aes_encrypt_fips key pt :
  bytes key -> length key = 16%nat \/ length key = 24%nat \/ length key = 32%nat ->
  bytes pt -> length pt = 16%nat ->
  exists ctx, aes_encrypt2_init true key (Z.of_nat (length key)) = Some ctx /\
    Fips.aes key pt = Some (aes_encrypt2 ctx pt).
Proof.
  intros Hk Hl Hp Hpl. unfold aes_encrypt2_init. rewrite (setup_fips key Hk Hl).
  set (nk := Z.of_nat (length key) / 4). set (w := key_expansion nk (nk + 6) (cols key)).
  eexists. split; [reflexivity|]. unfold Fips.aes, aes_encrypt2. fold nk. fold w. cbn [fst snd].
  destruct (block_of pt Hp Hpl) as (s & -> & <- & Hs).
  assert (R : exists r, nk + 6 = 2 * Z.of_nat (S r) /\ length w = (4 * (2 * r + 3))%nat /\ Forall bytes_col w).
  { pose proof (cols_bytes key Hk) as Hc. unfold w, key_expansion.
    destruct (expand_inv nk (cols key) (Z.to_nat (4 * (nk + 6 + 1) - nk)) Hc) as [B ->].
    unfold nk in *. destruct Hl as [Hl|[Hl|Hl]]; rewrite Hl in *.
    - exists 4%nat. by rewrite (length_cols 4 key Hl).
    - exists 5%nat. by rewrite (length_cols 6 key Hl).
    - exists 6%nat. by rewrite (length_cols 8 key Hl). }
  destruct R as (r & -> & Hw & Hb). clearbody w. clear nk Hk Hl Hp Hpl.
  destruct (flat_states _ w Hw) as [<- Hks]. pose proof (states_bytes w Hb) as Hsb.
  destruct (states w) as [|k0 ks]; [cbn in Hks; lia|]. cbn [length] in Hks.
  destruct (last_split ks (2 * r + 1)) as (kl & -> & E & L); [lia|]. cbn [mbind option_bind].
  rewrite E in Hsb. rewrite E at 2. rewrite (encrypt_cipher r) by done. reflexivity.
Qed.

(** The example of the standard. *)
Lemma aes_encrypt_fips_witness :
  let key := seqZ 0 16 in
  let pt := [0x00; 0x11; 0x22; 0x33; 0x44; 0x55; 0x66; 0x77; 0x88; 0x99; 0xaa; 0xbb; 0xcc; 0xdd; 0xee; 0xff] in
  let ct := [0x69; 0xc4; 0xe0; 0xd8; 0x6a; 0x7b; 0x04; 0x30; 0xd8; 0xcd; 0xb7; 0x80; 0x70; 0xb4; 0xc5; 0x5a] in
  Fips.aes key pt = Some ct.
Proof.
  intros key pt ct.
  destruct (aes_encrypt_fips key pt) as (ctx & E & F).
  - apply (bool_decide_eq_true_1 _). vm_compute. reflexivity.
  - left. reflexivity.
  - apply (bool_decide_eq_true_1 _). vm_compute. reflexivity.
  - reflexivity.
  - rewrite F. assert (C : option_map (fun c => aes_encrypt2 c pt) (aes_encrypt2_init true key (Z.of_nat (length key))) = Some ct)
      by (vm_compute; reflexivity).
    rewrite E in C. exact C.
Defined.

(** A block is 16 bytes. *)
Lemma aes_block ctx pt :
  length (aes_encrypt2 ctx pt) = 16%nat /\ bytes (aes_encrypt2 ctx pt).
Proof.
  unfold aes_encrypt2, rijndaelEncrypt. destruct (rijndael_rounds _ _ _) as [[[[t0 t1] t2] t3] rk].
  split; [done|]. unfold PUTU32. repeat (apply Forall_cons; split; [apply u8_range|]). constructor.
Qed.
