(* ===== verification/WifiAead.v ===== *)
(** The modes of the block cipher in the Wi-Fi driver: [core/crypto/aes-omac1.c],
    [aes-ctr.c], [aes-ccm.c], [aes-gcm.c] and [aes-siv.c].

    They are modelled and proved against an interface, a cipher with a key set-up that may
    fail and blocks of 16 bytes; the code's own AES is the instance. A buffer is a list of
    bytes; a function that writes through a pointer returns what it has written. A read
    past the end of a buffer is [None], as is the result -1. *)

From S2P Require Import Prelude WifiAes.

(** What the modes use of the cipher. *)
Class BlockCipher (C : Type) := {
  encrypt_init : list Z -> option C;          (* aes_encrypt2_init(key, key_len) *)
  encrypt_block : C -> list Z -> list Z       (* aes_encrypt2 *)
}.

Class BlockCipherOk (C : Type) `{BlockCipher C} := {
  block_length c x : length (encrypt_block c x) = 16%nat;
  block_bytes c x : bytes (encrypt_block c x)
}.

(** The AES of the driver; [alloc] is whether the memory for its context is there. *)
Definition aes_cipher (alloc : bool) : BlockCipher (list Z * Z) := {|
  encrypt_init key := aes_encrypt2_init alloc key (Z.of_nat (length key));
  encrypt_block := aes_encrypt2
|}.

Lemma aes_cipher_ok alloc : @BlockCipherOk _ (aes_cipher alloc).
Proof. split; intros c x; [exact (proj1 (aes_block c x))|exact (proj2 (aes_block c x))]. Qed.

(** * Definitions *)

(** The first bytes of [d] are XORed with those of [s]. *)
Fixpoint xor_into (d s : list Z) : list Z :=
  match d, s with
  | x :: d, y :: s => (x .^ y) :: xor_into d s
  | _, _ => d
  end.

Definition xor_block (dst src : list Z) : list Z := xor_into dst (take 16 src).

Definition zeros (n : nat) : list Z := replicate n 0.

Definition WPA_PUT_BE16 (val : Z) : list Z := [u16 val .>> 8; u16 val .& 0xff].
Definition WPA_PUT_BE32 (val : Z) : list Z :=
  [u8 ((u32 val .>> 24) .& 0xff); u8 ((u32 val .>> 16) .& 0xff); u8 ((u32 val .>> 8) .& 0xff); u8 (u32 val .& 0xff)].
Definition WPA_PUT_BE64 (val : Z) : list Z :=
  [u8 (u64 val .>> 56); u8 (u64 val .>> 48); u8 (u64 val .>> 40); u8 (u64 val .>> 32);
   u8 (u64 val .>> 24); u8 (u64 val .>> 16); u8 (u64 val .>> 8); u8 (u64 val .& 0xff)].
Definition WPA_GET_BE32 (p : list Z) (i : Z) : Z :=
  (tbl p i .<< 24) .| (tbl p (i + 1) .<< 16) .| (tbl p (i + 2) .<< 8) .| tbl p (i + 3).

(** The result 0 of the constant-time comparison of the first [n] bytes. *)
Definition os_memcmp_const (a b : list Z) (n : nat) : bool :=
  foldl (fun res (i : nat) => res .| (tbl a (Z.of_nat i) .^ tbl b (Z.of_nat i))) 0 (seq 0 n) =? 0.

Section modes.
Context {C : Type} `{BlockCipher C}.

(** ** OMAC1 *)

(** The same text is [dbl] of the SIV mode. *)
Definition gf_mulx (pad : list Z) : list Z :=
  let carry := tbl pad 0 .& 0x80 in
  let shifted := map (fun i => u8 (tbl pad (Z.of_nat i) .<< 1) .| (tbl pad (Z.of_nat i + 1) .>> 7)) (seq 0 15) ++
                 [u8 (tbl pad 15 .<< 1)] in
  if truthy carry then take 15 shifted ++ [tbl shifted 15 .^ 0x87] else shifted.

(** [n] bytes from the position [cur] in the element after which [rest] come. [stop]:
    there is nothing to read after them, and the position stays at the end. *)
Fixpoint omac_read (n : nat) (stop : bool) (cur : list Z) (rest : list (list Z))
    : option (list Z * list Z * list (list Z)) :=
  match n with
  | O => Some ([], cur, rest)
  | S n' =>
      match cur with
      | [] => None
      | b :: cur' =>
          match cur' with
          | [] =>
              if Nat.eqb n' 0 && stop then Some ([b], [], rest)
              else
                match rest with
                | [] => None
                | next :: rest' =>
                    r ← omac_read n' stop next rest';
                    let '(bs, cur, rest) := r in Some (b :: bs, cur, rest)
                end
          | _ :: _ =>
              r ← omac_read n' stop cur' rest;
              let '(bs, cur, rest) := r in Some (b :: bs, cur, rest)
          end
      end
  end.

(** The loop over full blocks; [n] bounds its turns. *)
Fixpoint omac_blocks (n : nat) (ctx : C) (remaining : nat) (cbc cur : list Z) (rest : list (list Z))
    : option (nat * list Z * list Z * list (list Z)) :=
  match n with
  | O => None
  | S n =>
      if (16 <=? remaining)%nat then
        r ← omac_read 16 (Nat.eqb remaining 16) cur rest;
        let '(bs, cur, rest) := r in
        let cbc := xor_into cbc bs in
        let cbc := if (16 <? remaining)%nat then encrypt_block ctx cbc else cbc in
        omac_blocks n ctx (remaining - 16) cbc cur rest
      else Some (remaining, cbc, cur, rest)
  end.

Definition omac1_aes_vector (key : list Z) (addr : list (list Z)) : option (list Z) :=
  ctx ← encrypt_init key;
  let total_len := foldl (fun n e => (n + length e)%nat) 0%nat addr in
  first ← head addr;
  r ← omac_blocks (S total_len) ctx total_len (zeros 16) first (tail addr);
  let '(remaining, cbc, cur, rest) := r in
  let pad := gf_mulx (encrypt_block ctx (zeros 16)) in
  if negb (Nat.eqb remaining 0) || Nat.eqb total_len 0 then
    r ← omac_read remaining true cur rest;
    let '(bs, _, _) := r in
    let cbc := xor_into cbc bs in
    let cbc := <[remaining := tbl cbc (Z.of_nat remaining) .^ 0x80]> cbc in
    Some (encrypt_block ctx (xor_block (gf_mulx pad) cbc))
  else Some (encrypt_block ctx (xor_block pad cbc)).

(** ** Counter mode *)

(** The loop from the last byte of the counter on: the first that does not wrap ends
    it. *)
Fixpoint counter_inc (rev_counter : list Z) : list Z :=
  match rev_counter with
  | [] => []
  | c :: cs => if truthy (u8 (c + 1)) then u8 (c + 1) :: cs else u8 (c + 1) :: counter_inc cs
  end.

Fixpoint ctr_loop (n : nat) (ctx : C) (counter data : list Z) : list Z :=
  match n with
  | O => []
  | S n =>
      match data with
      | [] => []
      | _ =>
          let buf := encrypt_block ctx counter in
          let len := if (length data <? 16)%nat then length data else 16%nat in
          xor_into (take len data) buf ++ ctr_loop n ctx (rev (counter_inc (rev counter))) (drop len data)
      end
  end.

Definition aes_ctr_encrypt (key nonce data : list Z) : option (list Z) :=
  ctx ← encrypt_init key; Some (ctr_loop (length data) ctx (take 16 nonce) data).

(** ** CCM *)

Definition aes_ccm_auth_start (aes : C) (M L : Z) (nonce aad : list Z) (plain_len : Z) : list Z :=
  let aad_len := Z.of_nat (length aad) in
  let flags := u8 ((if truthy aad_len then 0x40 else 0) .| (((M - 2) / 2) .<< 3) .| (L - 1)) in
  let b := blit (Z.to_nat (16 - L)) (WPA_PUT_BE16 plain_len) (flags :: take (Z.to_nat (15 - L)) nonce ++ zeros (Z.to_nat L)) in
  let x := encrypt_block aes b in
  if negb (truthy aad_len) then x
  else
    let aad_buf := WPA_PUT_BE16 aad_len ++ aad ++ zeros (32 - 2 - length aad) in
    let x := encrypt_block aes (xor_block (take 16 aad_buf) x) in
    if 16 - 2 <? aad_len then encrypt_block aes (xor_block (drop 16 aad_buf) x) else x.

Fixpoint ccm_auth_blocks (n : nat) (aes : C) (data x : list Z) : list Z * list Z :=
  match n with
  | O => (data, x)
  | S n => ccm_auth_blocks n aes (drop 16 data) (encrypt_block aes (xor_block x data))
  end.

Definition aes_ccm_auth (aes : C) (data x : list Z) : list Z :=
  let last := (length data mod 16)%nat in
  let '(data, x) := ccm_auth_blocks (length data / 16)%nat aes data x in
  if Nat.eqb last 0 then x else encrypt_block aes (xor_into x (take last data)).

(** The counter block without its last two bytes. *)
Definition aes_ccm_encr_start (L : Z) (nonce : list Z) : list Z := (L - 1) :: take (Z.to_nat (15 - L)) nonce.

Fixpoint ccm_encr_blocks (n : nat) (aes : C) (a : list Z) (i : Z) (inp : list Z) : list Z :=
  match n with
  | O => []
  | S n => xor_block (encrypt_block aes (a ++ WPA_PUT_BE16 i)) inp ++ ccm_encr_blocks n aes a (i + 1) (drop 16 inp)
  end.

(** All the bytes written from [out] on: the last, partial block writes sixteen. *)
Definition aes_ccm_encr (aes : C) (inp a : list Z) : list Z :=
  let n := (length inp / 16)%nat in
  let last := (length inp mod 16)%nat in
  ccm_encr_blocks n aes a 1 inp ++
  (if Nat.eqb last 0 then []
   else xor_into (encrypt_block aes (a ++ WPA_PUT_BE16 (Z.of_nat n + 1))) (take last (drop (16 * n) inp))).

Definition aes_ccm_encr_auth (aes : C) (M : nat) (x a : list Z) : list Z :=
  xor_into (take M x) (encrypt_block aes (a ++ WPA_PUT_BE16 0)).
Definition aes_ccm_decr_auth (aes : C) (M : nat) (a auth : list Z) : list Z :=
  xor_into (take M auth) (encrypt_block aes (a ++ WPA_PUT_BE16 0)).

(** What is written to [crypt] and to [auth]. *)
Definition aes_ccm_ae (key nonce : list Z) (M : nat) (plain aad : list Z) : option (list Z * list Z) :=
  if (30 <? length aad)%nat || (16 <? M)%nat then None
  else
    aes ← encrypt_init key;
    let x := aes_ccm_auth_start aes (Z.of_nat M) 2 nonce aad (Z.of_nat (length plain)) in
    let x := aes_ccm_auth aes plain x in
    let a := aes_ccm_encr_start 2 nonce in
    Some (aes_ccm_encr aes plain a, aes_ccm_encr_auth aes M x a).

Definition aes_ccm_ad (key nonce : list Z) (M : nat) (crypt aad auth : list Z) : option (list Z) :=
  if (30 <? length aad)%nat || (16 <? M)%nat then None
  else
    aes ← encrypt_init key;
    let a := aes_ccm_encr_start 2 nonce in
    let t := aes_ccm_decr_auth aes M a auth in
    let plain := aes_ccm_encr aes crypt a in
    let x := aes_ccm_auth_start aes (Z.of_nat M) 2 nonce aad (Z.of_nat (length crypt)) in
    let x := aes_ccm_auth aes (take (length crypt) plain) x in
    if os_memcmp_const x t M then Some plain else None.

(** ** GCM *)

Definition inc32 (block : list Z) : list Z :=
  take 12 block ++ WPA_PUT_BE32 (u32 (WPA_GET_BE32 block 12 + 1)).

(** One word of the block, with the bit that comes from the word before it. *)
Definition shift_word (v : list Z) (i : Z) : list Z :=
  let val := WPA_GET_BE32 v i .>> 1 in
  WPA_PUT_BE32 (if (0 <? i) && truthy (tbl v (i - 1) .& 0x01) then val .| 0x80000000 else val).

Definition shift_right_block (v : list Z) : list Z :=
  shift_word v 0 ++ shift_word v 4 ++ shift_word v 8 ++ shift_word v 12.

Definition gf_mult_bit (x : list Z) (zv : list Z * list Z) (k : nat) : list Z * list Z :=
  let '(z, v) := zv in
  let '(i, j) := (Z.of_nat (k / 8), Z.of_nat (k mod 8)) in
  let z := if truthy (tbl x i .& (1 .<< (7 - j))) then xor_block z v else z in
  let v := if truthy (tbl v 15 .& 0x01) then xor_into (shift_right_block v) [0xe1] else shift_right_block v in
  (z, v).

Definition gf_mult (x y : list Z) : list Z := (foldl (gf_mult_bit x) (zeros 16, y) (seq 0 128)).1.

Fixpoint ghash_blocks (m : nat) (h x y : list Z) : list Z * list Z :=
  match m with
  | O => (x, y)
  | S m => ghash_blocks m h (drop 16 x) (gf_mult (xor_block y x) h)
  end.

Definition ghash (h x y : list Z) : list Z :=
  let '(xpos, y) := ghash_blocks (length x / 16)%nat h x y in
  match xpos with
  | [] => y
  | _ => gf_mult (xor_block y (xpos ++ zeros (16 - length xpos))) h
  end.

Fixpoint gctr_blocks (n : nat) (aes : C) (cb x : list Z) : list Z * list Z * list Z :=
  match n with
  | O => ([], cb, x)
  | S n =>
      let '(y, cb', x') := gctr_blocks n aes (inc32 cb) (drop 16 x) in
      (xor_block (encrypt_block aes cb) x ++ y, cb', x')
  end.

Definition aes_gctr (aes : C) (icb x : list Z) : list Z :=
  match x with
  | [] => []
  | _ =>
      let '(y, cb, rest) := gctr_blocks (length x / 16)%nat aes (take 16 icb) x in
      match rest with
      | [] => y
      | _ => y ++ xor_into rest (encrypt_block aes cb)
      end
  end.

Definition aes_gcm_init_hash_subkey (key : list Z) : option (C * list Z) :=
  aes ← encrypt_init key; Some (aes, encrypt_block aes (zeros 16)).

Definition aes_gcm_prepare_j0 (iv H : list Z) : list Z :=
  if Nat.eqb (length iv) 12 then iv ++ zeros 3 ++ [0x01]
  else
    let J0 := ghash H iv (zeros 16) in
    ghash H (WPA_PUT_BE64 0 ++ WPA_PUT_BE64 (Z.of_nat (length iv) * 8)) J0.

Definition aes_gcm_gctr (aes : C) (J0 inp : list Z) : list Z :=
  match inp with [] => [] | _ => aes_gctr aes (inc32 (take 16 J0)) inp end.

Definition aes_gcm_ghash (H aad crypt : list Z) : list Z :=
  let S := ghash H aad (zeros 16) in
  let S := ghash H crypt S in
  ghash H (WPA_PUT_BE64 (Z.of_nat (length aad) * 8) ++ WPA_PUT_BE64 (Z.of_nat (length crypt) * 8)) S.

Definition aes_gcm_ae (key iv plain aad : list Z) : option (list Z * list Z) :=
  r ← aes_gcm_init_hash_subkey key;
  let '(aes, H) := r in
  let J0 := aes_gcm_prepare_j0 iv H in
  let crypt := aes_gcm_gctr aes J0 plain in
  let S := aes_gcm_ghash H aad crypt in
  Some (crypt, aes_gctr aes J0 S).

Definition aes_gcm_ad (key iv crypt aad tag : list Z) : option (list Z) :=
  r ← aes_gcm_init_hash_subkey key;
  let '(aes, H) := r in
  let J0 := aes_gcm_prepare_j0 iv H in
  let plain := aes_gcm_gctr aes J0 crypt in
  let S := aes_gcm_ghash H aad crypt in
  let T := aes_gctr aes J0 S in
  if os_memcmp_const tag T 16 then Some plain else None.

Definition aes_gmac (key iv aad : list Z) : option (list Z) :=
  option_map snd (aes_gcm_ae key iv [] aad).

(** ** SIV *)

Definition xorend (a b : list Z) : list Z :=
  if (length a <? length b)%nat then a
  else take (length a - length b) a ++ xor_into (drop (length a - length b) a) b.

Definition pad_block (addr : list Z) : list Z :=
  let pad := addr ++ zeros (16 - length addr) in
  if (length addr <? 16)%nat then <[length addr := 0x80]> pad else pad.

(** The loop over the elements before the last. *)
Fixpoint s2v_loop (key : list Z) (elems : list (list Z)) (tmp : list Z) : option (list Z) :=
  match elems with
  | [] => Some tmp
  | e :: elems => tmp2 ← omac1_aes_vector key [e]; s2v_loop key elems (xor_block (gf_mulx tmp) tmp2)
  end.

(** [dup]: whether the memory for the copy of the last element is there. *)
Definition aes_s2v (dup : bool) (key : list Z) (addr : list (list Z)) : option (list Z) :=
  match last addr with
  | None => omac1_aes_vector key [take 15 (zeros 16) ++ [1]]
  | Some e =>
      tmp ← omac1_aes_vector key [zeros 16];
      tmp ← s2v_loop key (removelast addr) tmp;
      if (16 <=? length e)%nat then
        if dup then omac1_aes_vector key [xorend e tmp] else None
      else omac1_aes_vector key [xor_block (gf_mulx tmp) (pad_block e)]
  end.

Definition siv_key_ok (key : list Z) : bool :=
  Nat.eqb (length key) 32 || Nat.eqb (length key) 48 || Nat.eqb (length key) 64.

(** The counter without its bits 31 and 63 from the right. *)
Definition siv_counter (v : list Z) : list Z :=
  let v := <[8%nat := tbl v 8 .& 0x7f]> v in <[12%nat := tbl v 12 .& 0x7f]> v.

Definition aes_siv_encrypt (dup : bool) (key pw : list Z) (addr : list (list Z)) : option (list Z) :=
  if (5 <? length addr)%nat || negb (siv_key_ok key) then None
  else
    let k := (length key / 2)%nat in
    v ← aes_s2v dup (take k key) (addr ++ [pw]);
    crypt_pw ← aes_ctr_encrypt (drop k key) (siv_counter v) pw;
    Some (take 16 v ++ crypt_pw).

Definition aes_siv_decrypt (dup : bool) (key iv_crypt : list Z) (addr : list (list Z)) : option (list Z) :=
  if (length iv_crypt <? 16)%nat || (5 <? length addr)%nat || negb (siv_key_ok key) then None
  else
    let k := (length key / 2)%nat in
    out ← aes_ctr_encrypt (drop k key) (siv_counter (take 16 iv_crypt)) (drop 16 iv_crypt);
    check ← aes_s2v dup (take k key) (addr ++ [out]);
    if decide (take 16 check = take 16 iv_crypt) then Some out else None.
End modes.

(** * XOR with a key stream *)

Lemma length_xor_into d s : length (xor_into d s) = length d.
Proof. revert s. induction d as [|x d IH]; intros [|y s]; cbn; auto. Qed.

Lemma xor_into_twice d s : xor_into (xor_into d s) s = d.
Proof.
  revert s. induction d as [|x d IH]; intros [|y s]; cbn; [done..|].
  by rewrite IH, Z.lxor_assoc, Z.lxor_nilpotent, Z.lxor_0_r.
Qed.

Lemma xor_into_app d1 d2 s1 s2 :
  length d1 = length s1 -> xor_into (d1 ++ d2) (s1 ++ s2) = xor_into d1 s1 ++ xor_into d2 s2.
Proof.
  revert s1. induction d1 as [|x d1 IH]; intros [|y s1] Hl; try discriminate Hl; [done|].
  cbn. by rewrite IH by (cbn in Hl; lia).
Qed.

Lemma xor_into_short d s1 s2 : (length d <= length s1)%nat -> xor_into d (s1 ++ s2) = xor_into d s1.
Proof.
  revert s1. induction d as [|x d IH]; intros [|y s1] Hl; cbn in *; [by destruct s2|done|lia|by rewrite IH by lia].
Qed.

Lemma xor_into_comm d s : length d = length s -> xor_into d s = xor_into s d.
Proof.
  revert s. induction d as [|x d IH]; intros [|y s] Hl; try discriminate Hl; [done|].
  cbn. by rewrite IH, Z.lxor_comm by (cbn in Hl; lia).
Qed.

Lemma xor_into_take n d s : xor_into (take n d) (take n s) = take n (xor_into d s).
Proof.
  revert d s. induction n as [|n IH]; intros [|x d] [|y s]; cbn; try done. by rewrite IH.
Qed.

Lemma xor_into_nil d : xor_into d [] = d.
Proof. by destruct d. Qed.

(** A block at a time. *)
Lemma xor_into_block data buf s :
  length buf = 16%nat -> xor_into data (buf ++ s) = xor_into (take 16 data) buf ++ xor_into (drop 16 data) s.
Proof.
  intros Hb. destruct (Nat.le_gt_cases 16 (length data)).
  - rewrite <- (take_drop 16 data) at 1. apply xor_into_app. rewrite length_take. lia.
  - rewrite take_ge, drop_ge, xor_into_short by lia. cbn. by rewrite app_nil_r.
Qed.

Lemma xor_block_comm d s :
  length d = 16%nat -> (16 <= length s)%nat -> xor_block d s = xor_into (take 16 s) d.
Proof. intros Hd Hs. unfold xor_block. apply xor_into_comm. rewrite length_take. lia. Qed.

Lemma length_xor_block d s : length (xor_block d s) = length d.
Proof. apply length_xor_into. Qed.

(** ** The comparison *)

Lemma memcmp_const_eq a b n : os_memcmp_const a b n = true <-> forall i, (i < n)%nat -> tbl a (Z.of_nat i) = tbl b (Z.of_nat i).
Proof.
  unfold os_memcmp_const.
  assert (G : forall acc, foldl (fun res (i : nat) => res .| (tbl a (Z.of_nat i) .^ tbl b (Z.of_nat i))) acc (seq 0 n) = 0 <->
    acc = 0 /\ forall i, (i < n)%nat -> tbl a (Z.of_nat i) = tbl b (Z.of_nat i)).
  { induction n as [|n IH]; intros acc; [cbn; split; [intros ->; split; [done|lia]|by intros [? _]]|].
    rewrite seq_S, foldl_app. cbn [foldl Nat.add]. rewrite Z.lor_eq_0_iff, IH, Z.lxor_eq_0_iff. split.
    - intros [[? Hi] ?]. split; [done|]. intros i Hlt. destruct (decide (i = n)) as [->|]; [done|]. apply Hi. lia.
    - intros [? Hi]. split; [split; [done|]|]; intros; apply Hi; lia. }
  rewrite Z.eqb_eq, G. tauto.
Qed.

Lemma memcmp_const_take a b n :
  length b = n -> (n <= length a)%nat -> os_memcmp_const a b n = bool_decide (take n a = b).
Proof.
  intros Hb Ha. apply eq_true_iff_eq. rewrite memcmp_const_eq, bool_decide_eq_true. split.
  - intros E. apply list_eq_same_length with n; [done|rewrite length_take; lia|].
    intros i x y Hi Hx Hy. specialize (E i Hi). rewrite lookup_take_lt in Hx by done.
    unfold tbl in E. rewrite Nat2Z.id, Hx, Hy in E. done.
  - intros <- i Hi. by rewrite tbl_take by lia.
Qed.

Section proofs.
Context {C : Type} `{BC : BlockCipherOk C}.

(** The blocks of a key stream: block [k] is the encryption of [blk] after [k] turns of
    [next]. *)
Fixpoint stream {S} (blk : S -> list Z) (next : S -> S) (c : C) (s : S) (n : nat) : list Z :=
  match n with
  | O => []
  | Datatypes.S n => encrypt_block c (blk s) ++ stream blk next c (next s) n
  end.

Lemma length_stream {S} (blk : S -> list Z) next c s n : length (stream blk next c s n) = (16 * n)%nat.
Proof.
  revert s. induction n as [|n IH]; intros s; [done|]. cbn [stream]. rewrite length_app, IH, block_length. lia.
Qed.

Definition ctr_next (counter : list Z) : list Z := rev (counter_inc (rev counter)).

Lemma ctr_loop_stream n c counter data m :
  (length data <= n)%nat -> (length data <= 16 * m)%nat ->
  ctr_loop n c counter data = xor_into data (stream id ctr_next c counter m).
Proof.
  revert counter data m. induction n as [|n IH]; intros counter data m Hn Hm.
  { by destruct data; [|cbn in Hn; lia]. }
  destruct m as [|m]; [by destruct data; [|cbn in Hm; lia]|]. cbn [stream].
  rewrite xor_into_block by apply block_length.
  destruct data as [|b data]; [done|]. set (d := b :: data) in *.
  change (ctr_loop (S n) c counter d) with
    (let len := if (length d <? 16)%nat then length d else 16%nat in
     xor_into (take len d) (encrypt_block c counter) ++ ctr_loop n c (ctr_next counter) (drop len d)).
  cbv zeta. assert (1 <= length d)%nat by (unfold d; cbn; lia).
  destruct (Nat.ltb_spec (length d) 16).
  - rewrite !take_ge, !drop_ge by lia. by destruct n.
  - rewrite (IH _ _ m) by (rewrite length_drop; lia). done.
Qed.

Lemma ccm_blocks_stream n c a i inp :
  length inp = (16 * n)%nat ->
  ccm_encr_blocks n c a i inp = xor_into inp (stream (fun i => a ++ WPA_PUT_BE16 i) (Z.add 1) c i n).
Proof.
  revert i inp. induction n as [|n IH]; intros i inp Hl; [by destruct inp|].
  cbn [ccm_encr_blocks stream]. rewrite xor_into_block by apply block_length.
  rewrite xor_block_comm by (rewrite ?block_length; lia). rewrite IH by (rewrite length_drop; lia).
  by rewrite (Z.add_comm i 1).
Qed.

(** A partial block is the start of a full one. *)
Lemma xor_prefix b inp : (length inp <= length b)%nat -> take (length inp) (xor_into b inp) = xor_into inp b.
Proof.
  revert b. induction inp as [|x inp IH]; intros [|y b] Hl; cbn in *; try done; [lia|].
  by rewrite IH, Z.lxor_comm by lia.
Qed.

Lemma ccm_encr_app n c a i inp1 inp2 :
  length inp1 = (16 * n)%nat -> ccm_encr_blocks n c a i (inp1 ++ inp2) = ccm_encr_blocks n c a i inp1.
Proof.
  revert i inp1. induction n as [|n IH]; intros i inp1 Hl; [done|].
  cbn [ccm_encr_blocks]. f_equal.
  - unfold xor_block. by rewrite take_app_le by lia.
  - rewrite drop_app_le by lia. apply IH. rewrite length_drop. lia.
Qed.

Lemma stream_snoc {S} (blk : S -> list Z) next c s n :
  stream blk next c s (Datatypes.S n) = stream blk next c s n ++ encrypt_block c (blk (Nat.iter n next s)).
Proof.
  revert s. induction n as [|n IH]; intros s; [cbn; by rewrite app_nil_r|].
  change (stream blk next c s (Datatypes.S (Datatypes.S n))) with
    (encrypt_block c (blk s) ++ stream blk next c (next s) (Datatypes.S n)).
  rewrite IH. cbn [stream]. rewrite <- app_assoc. do 3 f_equal. by rewrite Nat.iter_succ_r.
Qed.

Lemma iter_add_1 n i : Nat.iter n (Z.add 1) i = Z.of_nat n + i.
Proof. induction n as [|n IH]; [done|]. rewrite Nat.iter_succ, IH. lia. Qed.

(** What CCM writes, up to the length of its input, is the input with the key stream. *)
Lemma ccm_encr_stream c inp a :
  exists ks, (length inp <= length ks)%nat /\ take (length inp) (aes_ccm_encr c inp a) = xor_into inp ks /\
    (length inp <= length (aes_ccm_encr c inp a) <= 16 + length inp)%nat /\
    (forall inp', length inp' = length inp -> take (length inp) (aes_ccm_encr c inp' a) = xor_into inp' ks).
Proof.
  assert (G : forall inp', length inp' = length inp ->
    take (length inp) (aes_ccm_encr c inp' a) =
      xor_into inp' (stream (fun i => a ++ WPA_PUT_BE16 i) (Z.add 1) c 1 (length inp / 16 + 1)) /\
    (length inp <= length (aes_ccm_encr c inp' a) <= 16 + length inp)%nat).
  { intros inp' E. unfold aes_ccm_encr. rewrite E. set (n := (length inp / 16)%nat).
    pose proof (Nat.div_mod_eq (length inp) 16) as D. fold n in D.
    pose proof (Nat.mod_upper_bound (length inp) 16 ltac:(lia)).
    set (r := (length inp mod 16)%nat) in *. clearbody n r.
    pose proof (take_drop (16 * n) inp') as Td.
    set (i1 := take (16 * n) inp') in *. set (i2 := drop (16 * n) inp') in *.
    assert (L1 : length i1 = (16 * n)%nat) by (unfold i1; rewrite length_take; lia).
    assert (L2 : length i2 = r) by (unfold i2; rewrite length_drop; lia).
    rewrite <- Td. rewrite ccm_encr_app, ccm_blocks_stream by done.
    rewrite Nat.add_1_r, stream_snoc, xor_into_app by (rewrite length_stream; lia).
    rewrite iter_add_1. set (X := xor_into i1 _).
    assert (LX : length X = (16 * n)%nat) by (unfold X; by rewrite length_xor_into).
    destruct (Nat.eqb_spec r 0) as [->|N].
    - clearbody i2. apply nil_length_inv in L2 as ->. cbn [xor_into]. rewrite !app_nil_r, take_ge by lia.
      split; [done|]. lia.
    - rewrite (take_ge i2) by lia. rewrite take_app, LX. replace (length inp - 16 * n)%nat with (length i2) by lia.
      rewrite (take_ge X) by lia. rewrite xor_prefix by (rewrite block_length; lia).
      split; [done|]. rewrite length_app, LX, length_xor_into, block_length. lia. }
  eexists. split; [|split; [apply (G inp eq_refl)|split; [apply (G inp eq_refl)|intros inp' E; apply (G inp' E)]]].
  rewrite length_stream. pose proof (Nat.div_mod_eq (length inp) 16).
  pose proof (Nat.mod_upper_bound (length inp) 16 ltac:(lia)). lia.
Qed.

Lemma length_ccm_auth_start c M L nonce aad n : length (aes_ccm_auth_start c M L nonce aad n) = 16%nat.
Proof. unfold aes_ccm_auth_start. repeat case_match; apply block_length. Qed.

Lemma length_ccm_auth_blocks n c d y : length y = 16%nat -> length (ccm_auth_blocks n c d y).2 = 16%nat.
Proof. revert d y. induction n as [|n IH]; intros d y Hy; [done|]. apply IH, block_length. Qed.

Lemma length_ccm_auth c d x : length x = 16%nat -> length (aes_ccm_auth c d x) = 16%nat.
Proof.
  intros Hx. unfold aes_ccm_auth. pose proof (length_ccm_auth_blocks (length d / 16) c d x Hx) as L.
  destruct (ccm_auth_blocks _ _ _ _) as [d' y]. destruct (Nat.eqb _ 0); [done|apply block_length].
Qed.

(** CCM: what [aes_ccm_ae] encrypts and authenticates, [aes_ccm_ad] accepts and
    decrypts to the plain text; it refuses every other authentication tag of the same
    length. The output takes at most 16 bytes more than the plain text. *)
Theorem ccm_roundtrip key nonce M plain aad crypt auth :
  aes_ccm_ae key nonce M plain aad = Some (crypt, auth) ->
  length auth = M /\ (length plain <= length crypt <= 16 + length plain)%nat /\
  let sent := take (length plain) crypt in
  (exists p, aes_ccm_ad key nonce M sent aad auth = Some p /\ take (length plain) p = plain /\
    (length p <= 16 + length plain)%nat) /\
  (forall auth', length auth' = M -> auth' <> auth -> aes_ccm_ad key nonce M sent aad auth' = None).
Proof.
  unfold aes_ccm_ae, aes_ccm_ad.
  destruct (Nat.ltb_spec 30 (length aad)); [discriminate|]. destruct (Nat.ltb_spec 16 M) as [|HM]; [discriminate|].
  cbn [orb]. destruct (encrypt_init key) as [c|]; [|discriminate]. cbn [mbind option_bind].
  set (x := aes_ccm_auth c plain _). intros [= <- <-]. set (a := aes_ccm_encr_start 2 nonce).
  destruct (ccm_encr_stream c plain a) as (ks & Hks & E & L & E').
  assert (Lx : length x = 16%nat) by apply length_ccm_auth, length_ccm_auth_start.
  assert (La : length (aes_ccm_encr_auth c M x a) = M) by (unfold aes_ccm_encr_auth; rewrite length_xor_into, length_take; lia).
  split; [done|]. split; [done|]. cbv zeta. rewrite E.
  assert (Ls : length (xor_into plain ks) = length plain) by apply length_xor_into. rewrite Ls.
  assert (P : take (length plain) (aes_ccm_encr c (xor_into plain ks) a) = plain)
    by (rewrite E' by done; apply xor_into_twice).
  assert (X : aes_ccm_auth c (take (length plain) (aes_ccm_encr c (xor_into plain ks) a))
    (aes_ccm_auth_start c (Z.of_nat M) 2 nonce aad (Z.of_nat (length plain))) = x) by (by rewrite P).
  rewrite X.
  assert (T : forall auth', length auth' = M -> length (aes_ccm_decr_auth c M a auth') = M)
    by (intros; unfold aes_ccm_decr_auth; rewrite length_xor_into, length_take; lia).
  split.
  - eexists. split; [|split; [exact P|]].
    2:{ destruct (ccm_encr_stream c (xor_into plain ks) a) as (? & _ & _ & Lp & _). rewrite Ls in Lp. lia. }
    rewrite memcmp_const_take, bool_decide_eq_true_2; [done| |by apply T|lia].
    unfold aes_ccm_decr_auth. rewrite (take_ge (aes_ccm_encr_auth c M x a)) by lia.
    unfold aes_ccm_encr_auth. by rewrite xor_into_twice.
  - intros auth' La' N. rewrite memcmp_const_take, bool_decide_eq_false_2; [done| |by apply T|lia].
    intros Et. apply N. unfold aes_ccm_encr_auth. rewrite Et. unfold aes_ccm_decr_auth.
    by rewrite (take_ge auth'), xor_into_twice by lia.
Qed.

(** ** Counter mode and GCM *)

Lemma ctr_involution key nonce data out :
  aes_ctr_encrypt key nonce data = Some out ->
  length out = length data /\ aes_ctr_encrypt key nonce out = Some data.
Proof.
  unfold aes_ctr_encrypt. destruct (encrypt_init key) as [c|]; [|discriminate]. cbn. intros [= <-].
  rewrite (ctr_loop_stream _ _ _ _ (length data)), length_xor_into by lia. split; [done|].
  f_equal. rewrite (ctr_loop_stream _ _ _ _ (length data)) by (rewrite ?length_xor_into; lia).
  apply xor_into_twice.
Qed.

Lemma gctr_blocks_stream n c cb x :
  (16 * n <= length x)%nat ->
  gctr_blocks n c cb x = (xor_into (take (16 * n) x) (stream id inc32 c cb n), Nat.iter n inc32 cb, drop (16 * n) x).
Proof.
  revert cb x. induction n as [|n IH]; intros cb x Hl; [done|].
  cbn [gctr_blocks stream]. rewrite IH by (rewrite length_drop; lia).
  rewrite xor_into_block, xor_block_comm by (rewrite ?block_length; lia).
  rewrite Nat.iter_succ_r, drop_drop, take_take, skipn_firstn_comm. unfold id.
  replace (16 `min` (16 * S n))%nat with 16%nat by lia. replace (16 * S n - 16)%nat with (16 * n)%nat by lia.
  by replace (16 + 16 * n)%nat with (16 * S n)%nat by lia.
Qed.

Lemma gctr_stream c icb x n :
  (length x / 16)%nat = n -> aes_gctr c icb x = xor_into x (stream id inc32 c (take 16 icb) (S n)).
Proof.
  intros Hn. pose proof (Nat.div_mod_eq (length x) 16) as D. rewrite Hn in D.
  pose proof (Nat.mod_upper_bound (length x) 16 ltac:(lia)).
  assert (aes_gctr c icb x =
    let '(y, cb, rest) := gctr_blocks n c (take 16 icb) x in y ++ xor_into rest (encrypt_block c cb)) as ->.
  { unfold aes_gctr. destruct x as [|b x]; [by rewrite <- Hn|]. rewrite Hn.
    destruct (gctr_blocks _ _ _ _) as [[y cb] [|r rest]]; [by rewrite app_nil_r|done]. }
  rewrite gctr_blocks_stream, stream_snoc by lia. rewrite <- (take_drop (16 * n) x) at 3.
  rewrite xor_into_app by (rewrite length_take, length_stream; lia). done.
Qed.

Lemma gctr_involution c icb x : aes_gctr c icb (aes_gctr c icb x) = x.
Proof.
  rewrite (gctr_stream c icb x _ eq_refl). erewrite gctr_stream by (rewrite length_xor_into; reflexivity).
  apply xor_into_twice.
Qed.

Lemma length_gctr c icb x : length (aes_gctr c icb x) = length x.
Proof. rewrite (gctr_stream c icb x _ eq_refl). apply length_xor_into. Qed.

Lemma gcm_gctr_involution c J0 x : aes_gcm_gctr c J0 (aes_gcm_gctr c J0 x) = x.
Proof.
  unfold aes_gcm_gctr. destruct x as [|b x]; [done|].
  pose proof (length_gctr c (inc32 (take 16 J0)) (b :: x)) as L.
  destruct (aes_gctr _ _ (b :: x)) as [|y ys] eqn:E; [discriminate L|]. rewrite <- E. apply gctr_involution.
Qed.

Lemma length_gf_mult x y : length (gf_mult x y) = 16%nat.
Proof.
  unfold gf_mult. generalize (seq 0 128). intros ks.
  assert (G : forall z v, length z = 16%nat -> length (foldl (gf_mult_bit x) (z, v) ks).1 = 16%nat); [|by apply G].
  induction ks as [|k ks IH]; intros z v Hz; [done|]. apply IH. case_match; [|done].
  by rewrite length_xor_block.
Qed.

(** For any function in the place of [gf_mult], so that it is never evaluated. *)
Lemma blocks_length (f : list Z -> list Z -> list Z) :
  (forall x y, length (f x y) = 16%nat) ->
  forall m h x y, length y = 16%nat ->
  length ((fix go m h x y := match m with O => (x, y) | S m => go m h (drop 16 x) (f (xor_block y x) h) end) m h x y).2 = 16%nat.
Proof. intros Hf m. induction m as [|m IH]; intros h x y Hy; [exact Hy|apply IH, Hf]. Qed.

Lemma length_ghash_blocks m h x y : length y = 16%nat -> length (ghash_blocks m h x y).2 = 16%nat.
Proof. exact (blocks_length gf_mult length_gf_mult m h x y). Qed.

Lemma length_ghash h x y : length y = 16%nat -> length (ghash h x y) = 16%nat.
Proof.
  intros Hy. unfold ghash.
  pose proof (length_ghash_blocks (length x / 16) h x y Hy) as L.
  destruct (ghash_blocks _ _ _ _) as [[|b xpos] y']; cbn [snd] in L; [exact L|apply length_gf_mult].
Qed.

Lemma length_gcm_ghash h aad x : length (aes_gcm_ghash h aad x) = 16%nat.
Proof. unfold aes_gcm_ghash. by do 3 apply length_ghash. Qed.

(** GCM: [aes_gcm_ad] accepts a cipher text with a tag of 16 bytes, and gives a plain
    text, exactly when [aes_gcm_ae] makes this cipher text and this tag of that plain
    text. *)
Theorem gcm_roundtrip key iv aad plain crypt tag :
  length tag = 16%nat ->
  aes_gcm_ad key iv crypt aad tag = Some plain <-> aes_gcm_ae key iv plain aad = Some (crypt, tag).
Proof.
  intros Ht. unfold aes_gcm_ad, aes_gcm_ae. destruct (aes_gcm_init_hash_subkey key) as [[c h]|]; [|done].
  cbn [mbind option_bind]. set (J0 := aes_gcm_prepare_j0 iv h).
  assert (L : forall x, length (aes_gctr c J0 (aes_gcm_ghash h aad x)) = 16%nat)
    by (intros; rewrite length_gctr; apply length_gcm_ghash).
  clearbody J0. revert L. generalize (aes_gcm_ghash h aad). intros hash L.
  rewrite memcmp_const_take, take_ge by (rewrite ?L; lia). split.
  - case_bool_decide as E; [|discriminate]. intros [= <-]. by rewrite gcm_gctr_involution, E.
  - intros [= <- <-]. by rewrite bool_decide_eq_true_2, gcm_gctr_involution.
Qed.

Lemma length_gcm_gctr c J0 x : length (aes_gcm_gctr c J0 x) = length x.
Proof. unfold aes_gcm_gctr. destruct x; [done|apply length_gctr]. Qed.

Lemma gcm_seals c key iv plain aad :
  encrypt_init key = Some c ->
  exists crypt tag, aes_gcm_ae key iv plain aad = Some (crypt, tag) /\ length crypt = length plain /\ length tag = 16%nat.
Proof.
  intros Hc. unfold aes_gcm_ae, aes_gcm_init_hash_subkey. rewrite Hc. cbn [mbind option_bind].
  eexists _, _. split; [reflexivity|]. rewrite length_gcm_gctr, length_gctr. split; [done|]. apply length_gcm_ghash.
Qed.

(** The tag is a function of the cipher text. *)
Lemma gcm_tag key iv aad plain plain' crypt tag tag' :
  aes_gcm_ae key iv plain aad = Some (crypt, tag) -> aes_gcm_ae key iv plain' aad = Some (crypt, tag') -> tag = tag'.
Proof.
  unfold aes_gcm_ae. destruct (aes_gcm_init_hash_subkey key) as [[c h]|]; [|discriminate].
  cbn [mbind option_bind]. set (J0 := aes_gcm_prepare_j0 iv h). clearbody J0.
  generalize (aes_gcm_ghash h aad). intros hash E E'. injection E as <- <-. by injection E' as -> <-.
Qed.

(** ** SIV *)

Lemma length_omac key addr v : omac1_aes_vector key addr = Some v -> length v = 16%nat.
Proof.
  unfold omac1_aes_vector. intros E. apply bind_Some in E as (c & _ & E).
  apply bind_Some in E as (first & _ & E). apply bind_Some in E as ([[[remaining cbc] cur] rest] & _ & E).
  destruct (_ || _); [|injection E as <-; apply block_length].
  apply bind_Some in E as ([[bs ?] ?] & _ & [= <-]). apply block_length.
Qed.

Lemma length_s2v dup key addr v : aes_s2v dup key addr = Some v -> length v = 16%nat.
Proof.
  unfold aes_s2v. destruct (last addr); [|apply length_omac].
  intros E. apply bind_Some in E as (t1 & _ & E). apply bind_Some in E as (t2 & _ & E).
  repeat case_match; try discriminate E; by apply length_omac in E.
Qed.

(** SIV: decryption accepts a text and gives a plain text exactly when encryption of
    that plain text under the same key and associated data gives the text. *)
Theorem siv_roundtrip dup key pw addr out :
  aes_siv_decrypt dup key out addr = Some pw <-> aes_siv_encrypt dup key pw addr = Some out.
Proof.
  unfold aes_siv_decrypt, aes_siv_encrypt.
  rewrite <- orb_assoc. destruct ((5 <? length addr)%nat || negb (siv_key_ok key)) eqn:G.
  { by rewrite orb_true_r. }
  rewrite orb_false_r. set (k := (length key / 2)%nat). split.
  - destruct (Nat.ltb_spec (length out) 16); [discriminate|]. intros E.
    apply bind_Some in E as (o & Eo & E). apply bind_Some in E as (v & Ev & E).
    case_decide as D; [|discriminate]. injection E as ->. rewrite Ev. cbn [mbind option_bind].
    apply length_s2v in Ev as Lv. rewrite take_ge in D by lia. rewrite D.
    apply ctr_involution in Eo as [_ ->]. cbn [mbind option_bind].
    f_equal. rewrite take_take. apply take_drop.
  - intros E. apply bind_Some in E as (v & Ev & E). apply bind_Some in E as (o & Eo & [= <-]).
    apply length_s2v in Ev as Lv. rewrite (take_ge v) by lia.
    destruct (Nat.ltb_spec (length (v ++ o)) 16) as [Hl|_]; [rewrite length_app in Hl; lia|].
    rewrite take_app_len, drop_app_len by done. apply ctr_involution in Eo as [_ ->]. cbn [mbind option_bind].
    rewrite Ev. cbn [mbind option_bind]. rewrite (take_ge v) by lia. by rewrite decide_True.
Qed.
End proofs.

(** * OMAC1 is CMAC

    The reference: the doubling in the field of 2^128 elements on numbers, and the MAC on
    one message. *)
Module Cmac.
Section cmac.
Context {C : Type} `{BlockCipher C}.

Definition be_num (l : list Z) : Z := foldl (fun n b => 256 * n + b) 0 l.

(** Twice an element, modulo x^128 + x^7 + x^2 + x + 1. *)
Definition double (n : Z) : Z := if 2 ^ 127 <=? n then (2 * n mod 2 ^ 128) .^ 0x87 else 2 * n.

(** The chaining over [n] full blocks. *)
Fixpoint chain (n : nat) (c : C) (x m : list Z) : list Z :=
  match n with
  | O => x
  | S n => chain n c (encrypt_block c (xor_into x (take 16 m))) (drop 16 m)
  end.

(** All blocks but the last are chained; the last is masked with the first subkey when it
    is full, padded and masked with the second one otherwise. *)
Definition cmac (c : C) (m : list Z) : list Z :=
  let k1 := gf_mulx (encrypt_block c (zeros 16)) in
  let n := ((length m - 1) / 16)%nat in
  let x := chain n c (zeros 16) m in
  let last := drop (16 * n) m in
  let masked := if Nat.eqb (length last) 16 then xor_into last k1
                else xor_into (last ++ 0x80 :: zeros (15 - length last)) (gf_mulx k1) in
  encrypt_block c (xor_into masked x).
End cmac.
End Cmac.
Import Cmac.

Section omac.
Context {C : Type} `{BC : BlockCipherOk C}.

(** The position of the reading loop is never at an end with more to come. *)
Definition position (cur : list Z) (rest : list (list Z)) (data : list Z) : Prop :=
  data = cur ++ concat rest /\ Forall (.≠ []) rest /\ (cur = [] -> rest = []).

Lemma omac_read_spec n cur rest data :
  position cur rest data -> (n <= length data)%nat ->
  exists cur' rest', omac_read n (Nat.eqb n (length data)) cur rest = Some (take n data, cur', rest') /\
    position cur' rest' (drop n data).
Proof.
  revert cur rest data. induction n as [|n IH]; intros cur rest data P Hn; [eauto|].
  destruct P as (-> & F & Z). destruct cur as [|b cur]; [rewrite (Z eq_refl) in Hn; cbn in Hn; lia|].
  cbn [omac_read]. destruct cur as [|b' cur].
  - destruct rest as [|next rest].
    + destruct n; [|cbn in Hn; lia]. cbn. eexists _, _. split; [reflexivity|]. by split_and!.
    + apply Forall_cons in F as [N F].
      assert (Hl : length ([b] ++ concat (next :: rest)) = S (length (next ++ concat rest))) by done.
      rewrite Hl in *. cbn [Nat.eqb].
      assert (L : (n =? length (next ++ concat rest))%nat = false \/ n <> O).
      { destruct n; [left|by right]. destruct next; done. }
      assert ((n =? 0)%nat && (n =? length (next ++ concat rest))%nat = false) as ->
        by (destruct L as [->|?]; [apply andb_false_r|by destruct n]).
      destruct (IH next rest (next ++ concat rest)) as (cur' & rest' & -> & P'); [by split_and!|lia|].
      cbn. eauto.
  - set (d := (b' :: cur) ++ concat rest).
    assert (Hl : length ((b :: b' :: cur) ++ concat rest) = S (length d)) by done.
    rewrite Hl in *. cbn [Nat.eqb].
    destruct (IH (b' :: cur) rest d) as (cur' & rest' & -> & P'); [by split_and!|lia|].
    cbn. eauto.
Qed.

(** What the loop over full blocks leaves: the partial block still to read, or nothing,
    with the last block in the chaining value. *)
Lemma omac_blocks_spec f c x cur rest data :
  position cur rest data -> (length data <= f)%nat ->
  let n := ((length data - 1) / 16)%nat in
  let last := drop (16 * n) data in
  exists cur' rest', omac_blocks (S f) c (length data) x cur rest =
    Some (if Nat.eqb (length last) 16 then 0%nat else length last,
          if Nat.eqb (length last) 16 then xor_into (chain n c x data) last else chain n c x data, cur', rest') /\
    (length last <> 16%nat -> position cur' rest' last) /\ (length last <= 16)%nat /\ (data <> [] -> last <> []).
Proof.
  revert x cur rest data. induction f as [f IH] using lt_wf_ind. intros x cur rest data P Hf n last.
  change (omac_blocks (S f) c (length data) x cur rest) with
    (if (16 <=? length data)%nat then
       r ← omac_read 16 (Nat.eqb (length data) 16) cur rest;
       let '(bs, cur, rest) := r in
       let cbc := xor_into x bs in
       let cbc := if (16 <? length data)%nat then encrypt_block c cbc else cbc in
       omac_blocks f c (length data - 16) cbc cur rest
     else Some (length data, x, cur, rest)).
  destruct (Nat.leb_spec 16 (length data)) as [Hl|Hl].
  2:{ assert (n = 0%nat) as En by (apply Nat.div_small; lia). unfold last. rewrite En, Nat.mul_0_r, drop_0. cbn [chain].
      destruct (Nat.eqb_spec (length data) 16); [lia|]. eexists _, _. split; [reflexivity|]. by split_and!; try lia. }
  destruct (omac_read_spec 16 cur rest data P Hl) as (cur1 & rest1 & E & P1).
  rewrite Nat.eqb_sym, E. cbn [mbind option_bind].
  destruct (Nat.ltb_spec 16 (length data)) as [Hlt|Hge].
  - assert (Hn : n = S ((length (drop 16 data) - 1) / 16)).
    { unfold n. rewrite length_drop. replace (length data - 1)%nat with (length data - 16 - 1 + 1 * 16)%nat by lia.
      rewrite Nat.div_add by lia. lia. }
    destruct f as [|f]; [lia|].
    destruct (IH f ltac:(lia) (encrypt_block c (xor_into x (take 16 data))) cur1 rest1 (drop 16 data) P1)
      as (cur2 & rest2 & E2 & P2 & L2 & N2); [rewrite length_drop; lia|].
    rewrite <- length_drop, E2. unfold last. rewrite Hn.
    replace (16 * S _)%nat with (16 + 16 * ((length (drop 16 data) - 1) / 16))%nat by lia.
    rewrite <- drop_drop. cbn [chain]. eexists _, _. split; [reflexivity|]. split; [exact P2|]. split; [exact L2|].
    intros _. apply N2. intros E0. apply (f_equal length) in E0. rewrite length_drop in E0. cbn in E0. lia.
  - assert (L16 : length data = 16%nat) by lia. unfold last, n. rewrite L16. cbn [Nat.sub].
    change (15 / 16)%nat with 0%nat. rewrite Nat.mul_0_r, drop_0. cbn [chain]. rewrite L16. cbn [Nat.eqb].
    destruct f as [|f]; [lia|]. cbn [omac_blocks]. cbn [Nat.leb]. rewrite take_ge by lia.
    eexists _, _. split; [reflexivity|]. split_and!; [done|lia|done].
Qed.

Lemma xor_into_swap p k x :
  length k = length p -> length x = length p -> xor_into (xor_into p k) x = xor_into k (xor_into x p).
Proof.
  revert k x. induction p as [|a p IH]; intros [|b k] [|d x] Hk Hx; try discriminate; [done|]. cbn.
  rewrite IH by (cbn in *; lia). f_equal. by rewrite (Z.lxor_comm a b), Z.lxor_assoc, (Z.lxor_comm a d).
Qed.

Lemma xor_into_zeros d n : xor_into d (zeros n) = d.
Proof.
  revert n. induction d as [|x d IH]; intros [|n]; [done..|].
  change (xor_into (x :: d) (zeros (S n))) with ((x .^ 0) :: xor_into d (zeros n)). by rewrite Z.lxor_0_r, IH.
Qed.

Lemma xor_into_pad d s v n :
  (length s < length d)%nat ->
  <[length s := tbl (xor_into d s) (Z.of_nat (length s)) .^ v]> (xor_into d s) = xor_into d (s ++ v :: zeros n).
Proof.
  revert s. induction d as [|x d IH]; intros s Hl; [cbn in Hl; lia|]. destruct s as [|y s].
  { cbn [xor_into length app]. by rewrite xor_into_zeros. }
  cbn [xor_into length app]. rewrite <- IH by (cbn in Hl; lia). unfold tbl. rewrite !Nat2Z.id. done.
Qed.

Lemma length_chain n c x m : length x = 16%nat -> length (chain n c x m) = 16%nat.
Proof. revert x m. induction n as [|n IH]; intros x m Hx; [done|]. apply IH, block_length. Qed.

Lemma length_gf_mulx p : length (gf_mulx p) = 16%nat.
Proof. unfold gf_mulx. by case_match. Qed.

Lemma total_length (addr : list (list Z)) n :
  foldl (fun n e => (n + length e)%nat) n addr = (n + length (concat addr))%nat.
Proof. revert n. induction addr as [|e addr IH]; intros n; cbn; [lia|]. rewrite IH, length_app. lia. Qed.

(** The MAC over several pieces of a message, none of them empty, is CMAC of the
    message; the same for the empty message in one piece. An empty first piece of a
    longer message is refused: its end is passed before it is looked for. *)
Theorem omac1_is_cmac key c addr :
  encrypt_init key = Some c ->
  (Forall (.≠ []) addr -> addr <> [] -> omac1_aes_vector key addr = Some (cmac c (concat addr))) /\
  omac1_aes_vector key [[]] = Some (cmac c []) /\
  (forall rest, concat rest <> [] -> omac1_aes_vector key ([] :: rest) = None).
Proof.
  intros Hk.
  assert (G : forall first rest, position first rest (concat (first :: rest)) ->
    omac1_aes_vector key (first :: rest) = Some (cmac c (concat (first :: rest)))).
  { intros first rest P. unfold omac1_aes_vector, cmac. rewrite Hk, total_length. cbn [mbind option_bind head tail Nat.add].
    set (data := concat (first :: rest)) in *.
    destruct (omac_blocks_spec (length data) c (zeros 16) first rest data P) as (cur & rest' & -> & P' & L & N); [lia|].
    set (n := ((length data - 1) / 16)%nat) in *. set (lst := drop (16 * n) data) in *.
    pose proof (length_chain n c (zeros 16) data eq_refl) as Lc. set (x := chain n c (zeros 16) data) in *.
    set (k1 := gf_mulx (encrypt_block c (zeros 16))).
    pose proof (length_gf_mulx (encrypt_block c (zeros 16)) : length k1 = 16%nat) as Lk1.
    pose proof (length_gf_mulx k1) as Lk2. set (k2 := gf_mulx k1) in *. clearbody k1 k2 x.
    cbn [mbind option_bind]. destruct (Nat.eqb_spec (length lst) 16) as [L16|N16].
    - cbn [negb orb Nat.eqb]. destruct (Nat.eqb_spec (length data) 0) as [D|D].
      { assert (length lst <= length data)%nat by (unfold lst; rewrite length_drop; lia). lia. }
      unfold xor_block. rewrite take_ge by (rewrite length_xor_into; lia). by rewrite xor_into_swap by lia.
    - assert (negb (length lst =? 0)%nat || (length data =? 0)%nat = true) as ->.
      { destruct (Nat.eqb_spec (length lst) 0) as [Z|]; [|done]. apply nil_length_inv in Z.
        destruct data as [|b d]; [done|]. destruct (N ltac:(done) Z). }
      destruct (omac_read_spec (length lst) cur rest' lst (P' N16)) as (? & ? & E & _); [lia|].
      rewrite Nat.eqb_refl, take_ge in E by lia. rewrite E. cbn [mbind option_bind].
      rewrite (xor_into_pad x lst 0x80 (15 - length lst)) by lia. set (pad := lst ++ _).
      assert (length pad = 16%nat) by (unfold pad, zeros; rewrite length_app; cbn [length]; rewrite length_replicate; lia).
      unfold xor_block. rewrite take_ge by (rewrite length_xor_into; lia). by rewrite xor_into_swap by lia. }
  split_and!.
  - intros F N. destruct addr as [|first rest]; [done|]. apply Forall_cons in F as [? F]. apply G. by split_and!.
  - apply (G [] []). by split_and!.
  - intros rest N. unfold omac1_aes_vector. rewrite Hk, total_length. cbn [mbind option_bind head tail Nat.add length concat app].
    destruct (concat rest) as [|b d]; [done|]. set (n := length (b :: d)).
    change (omac_blocks (S n) c n (zeros 16) (@nil Z) rest) with
      (if (16 <=? n)%nat then None else Some (n, zeros 16, @nil Z, rest)).
    destruct (16 <=? n)%nat; [done|]. done.
Qed.
End omac.

Lemma be_num_app l1 l2 : be_num (l1 ++ l2) = be_num l1 * 256 ^ Z.of_nat (length l2) + be_num l2.
Proof.
  unfold be_num. rewrite foldl_app. generalize (foldl (fun n b => 256 * n + b) 0 l1). intros a.
  revert a. induction l2 as [|b l2 IH] using rev_ind; intros a; [cbn; lia|].
  rewrite !foldl_app, IH. cbn [foldl]. rewrite length_app. cbn [length].
  rewrite Nat2Z.inj_add, Z.pow_add_r by lia. change (256 ^ Z.of_nat 1) with 256. ring.
Qed.

Lemma be_num_snoc l b : be_num (l ++ [b]) = 256 * be_num l + b.
Proof. unfold be_num. by rewrite foldl_app. Qed.

Lemma be_num_cons b l : be_num (b :: l) = b * 256 ^ Z.of_nat (length l) + be_num l.
Proof. apply (be_num_app [b]). Qed.

Lemma be_num_range l : bytes l -> 0 <= be_num l < 256 ^ Z.of_nat (length l).
Proof.
  induction 1 as [|b l Hb Hl IH]; [cbn; lia|]. rewrite be_num_cons. cbn [length].
  rewrite Nat2Z.inj_succ, Z.pow_succ_r by lia. unfold is_byte in Hb. nia.
Qed.

(** The bytes of a number shifted left by one. *)
Fixpoint shl_bytes (l : list Z) : list Z :=
  match l with
  | [] => []
  | a :: l => (u8 (a .<< 1) .| (match l with [] => 0 | b :: _ => b end .>> 7)) :: shl_bytes l
  end.

Definition shl_byte_ok (a b : Z) : bool :=
  let v := u8 (a .<< 1) .| (b .>> 7) in
  (v =? 2 * a - 256 * (a / 128) + b / 128) && (0 <=? v) && (v <? 256).

Lemma shl_byte_check : forallb (fun a => forallb (shl_byte_ok a) byte_range) byte_range = true.
Proof. vm_compute. reflexivity. Qed.

Lemma shl_byte a b : is_byte a -> is_byte b ->
  u8 (a .<< 1) .| (b .>> 7) = 2 * a - 256 * (a / 128) + b / 128 /\ is_byte (u8 (a .<< 1) .| (b .>> 7)).
Proof.
  intros Ha Hb. pose proof (byte_cases2 shl_byte_ok shl_byte_check a b Ha Hb) as E.
  unfold shl_byte_ok in E. rewrite !andb_true_iff, Z.eqb_eq, Z.leb_le, Z.ltb_lt in E. unfold is_byte. lia.
Qed.

Lemma length_shl_bytes l : length (shl_bytes l) = length l.
Proof. induction l as [|a l IH]; [done|]. cbn. by rewrite IH. Qed.

Lemma shl_bytes_spec l :
  bytes l -> be_num (shl_bytes l) = 2 * be_num l - 256 ^ Z.of_nat (length l) * (default 0 (head l) / 128) /\ bytes (shl_bytes l).
Proof.
  induction 1 as [|a l Ha Hl [IH IB]]; [done|]. cbn [shl_bytes head default].
  assert (Hb : is_byte (match l with [] => 0 | b :: _ => b end)) by (destruct Hl; [unfold is_byte; lia|done]).
  destruct (shl_byte a _ Ha Hb) as [E B]. split; [|by constructor]. rewrite !be_num_cons, E, IH, length_shl_bytes.
  replace (match l with [] => 0 | b :: _ => b end) with (default 0 (head l)) by (by destruct l).
  cbn [length]. rewrite Nat2Z.inj_succ, Z.pow_succ_r by lia. unfold id. ring.
Qed.

Lemma add_low_lxor n b : is_byte b -> 256 * n + b = (256 * n) .^ b.
Proof.
  intros Hb. apply Z.add_nocarry_lxor. apply Z.bits_inj_iff. intros i. rewrite Z.land_spec, Z.bits_0.
  change 256 with (2 ^ 8). destruct (Z.neg_nonneg_cases i) as [Hi|Hi]; [by rewrite Z.testbit_neg_r|].
  destruct (Z.lt_ge_cases i 8).
  - rewrite Z.mul_comm, Z.mul_pow2_bits_low by done. done.
  - rewrite (Z.bits_above_log2 b i); [apply andb_false_r|unfold is_byte in Hb; lia|].
    unfold is_byte in Hb. destruct (Z.eq_dec b 0) as [->|]; [cbn; lia|].
    apply Z.log2_lt_pow2; [lia|]. apply Z.lt_le_trans with (2 ^ 8); [lia|]. by apply Z.pow_le_mono_r.
Qed.

(** The subkey derivation of OMAC1, which is also the doubling of SIV, doubles an
    element of the field of 2^128 elements. *)
Theorem gf_mulx_double pad :
  bytes pad -> length pad = 16%nat -> be_num (gf_mulx pad) = double (be_num pad) /\ bytes (gf_mulx pad).
Proof.
  intros B L. destruct (shl_bytes_spec pad B) as [E Bs]. pose proof (be_num_range pad B) as R.
  pose proof (be_num_range _ Bs) as Rs. rewrite length_shl_bytes in Rs. rewrite L in E, R, Rs.
  assert (H : exists h t, pad = h :: t /\ length t = 15%nat) by (destruct pad as [|h t]; [done|exists h, t; by injection L]).
  destruct H as (h & t & Ep & Lt). assert (Hh : is_byte h) by (rewrite Ep in B; by apply Forall_cons in B as [? _]).
  assert (Rt : 0 <= be_num t < 2 ^ 120).
  { rewrite Ep in B. apply Forall_cons in B as [_ B]. pose proof (be_num_range t B) as R'. rewrite Lt in R'. exact R'. }
  assert (En : be_num pad = h * 2 ^ 120 + be_num t) by (rewrite Ep, be_num_cons, Lt; reflexivity).
  assert (G : gf_mulx pad = if truthy (h .& 0x80) then take 15 (shl_bytes pad) ++ [tbl (shl_bytes pad) 15 .^ 0x87] else shl_bytes pad).
  { rewrite Ep. do 15 (destruct t as [|? t]; [discriminate Lt|]). destruct t; [|discriminate Lt].
    unfold gf_mulx. cbn -[u8 Z.land Z.lor Z.lxor Z.shiftl Z.shiftr truthy]. by rewrite Z.lor_0_r. }
  assert (T : truthy (h .& 0x80) = (128 <=? h)).
  { pose proof (byte_cases (fun h => Bool.eqb (truthy (h .& 0x80)) (128 <=? h)) ltac:(vm_compute; reflexivity) h Hh) as X.
    by apply eqb_prop. }
  rewrite G, T. unfold double. rewrite Ep in E at 3. cbn [head default from_option] in E. unfold id in E.
  assert (D : (2 ^ 127 <=? be_num pad) = (128 <=? h)).
  { apply eq_true_iff_eq. rewrite !Z.leb_le, En. change (2 ^ 127) with (128 * 2 ^ 120). 
    generalize dependent (2 ^ 120). intros p. unfold is_byte in Hh. nia. }
  rewrite D. unfold is_byte in Hh. destruct (Z.leb_spec 128 h).
  - assert (h / 128 = 1) as Hd by (symmetry; apply (Z.div_unique h 128 1 (h - 128)); lia). rewrite Hd in E.
    assert (M : 2 * be_num pad mod 2 ^ 128 = be_num (shl_bytes pad)).
    { symmetry. apply Z.mod_unique with 1; [left; exact Rs|]. rewrite E. change (256 ^ Z.of_nat 16) with (2 ^ 128). ring. }
    rewrite M. assert (Ls : exists l b, shl_bytes pad = l ++ [b] /\ length l = 15%nat).
    { destruct (exists_last (l := shl_bytes pad)) as (l & b & X); [intros X; apply (f_equal length) in X; rewrite length_shl_bytes, L in X; done|].
      exists l, b. split; [done|]. apply (f_equal length) in X. rewrite length_shl_bytes, L, length_app in X. cbn in X. lia. }
    destruct Ls as (l & b & X & Ll). rewrite X in *. rewrite take_app_len by done.
    apply Forall_app in Bs as [Bl Bb]. apply Forall_cons in Bb as [Bb _].
    assert (Hb : is_byte (b .^ 0x87)) by (apply lxor_byte; [done|unfold is_byte; lia]).
    unfold tbl. change (Z.to_nat 15) with 15%nat. rewrite <- Ll, list_lookup_middle by done. cbn [default from_option id].
    split; [|apply Forall_app; split; [done|by constructor]].
    rewrite !be_num_snoc, !add_low_lxor by done. by rewrite Z.lxor_assoc.
  - rewrite Z.div_small in E by lia. split; [|done]. rewrite E. lia.
Qed.

(** * At the driver's AES *)

#[local] Abbreviation AES := (aes_cipher true).

(** RFC 3610, packet vector 1, without the room past the cipher text. *)
Lemma ccm_roundtrip_witness :
  let key := seqZ 0xc0 16 in
  let nonce := [0x00; 0x00; 0x00; 0x03; 0x02; 0x01; 0x00; 0xa0; 0xa1; 0xa2; 0xa3; 0xa4; 0xa5] in
  let sent := [0x58; 0x8c; 0x97; 0x9a; 0x61; 0xc6; 0x63; 0xd2; 0xf0; 0x66; 0xd0; 0xc2; 0xc0; 0xf9; 0x89; 0x80; 0x6d; 0x5f; 0x6b; 0x61; 0xda; 0xc3; 0x84] in
  let auth := [0x17; 0xe8; 0xd1; 0x2c; 0xfd; 0xf9; 0x26; 0xe0] in
  (exists p, @aes_ccm_ad _ AES key nonce 8 sent (seqZ 0 8) auth = Some p /\ take 23 p = seqZ 8 23) /\
  @aes_ccm_ad _ AES key nonce 8 sent (seqZ 0 8) (zeros 8) = None.
Proof.
  intros key nonce sent auth.
  assert (E : exists tail, @aes_ccm_ae _ AES key nonce 8 (seqZ 8 23) (seqZ 0 8) = Some (sent ++ tail, auth))
    by (eexists (_ :: _ :: _ :: _ :: _ :: _ :: _ :: _ :: _ :: []); vm_compute; reflexivity).
  destruct E as [tail E].
  destruct (@ccm_roundtrip _ AES (aes_cipher_ok true) key nonce 8 (seqZ 8 23) (seqZ 0 8) (sent ++ tail) auth E)
    as (_ & _ & A & R).
  change (take (length (seqZ 8 23)) (sent ++ tail)) with sent in A, R.
  split; [destruct A as (p & A & P & _); eauto|]. apply R; [reflexivity|]. intros X. discriminate X.
Defined.

(** Test case 2 of the GCM proposal. *)
Lemma gcm_roundtrip_witness :
  @aes_gcm_ad _ AES (zeros 16) (zeros 12) [0x03; 0x88; 0xda; 0xce; 0x60; 0xb6; 0xa3; 0x92; 0xf3; 0x28; 0xc2; 0xb9; 0x71; 0xb2; 0xfe; 0x78] []
    [0xab; 0x6e; 0x47; 0xd4; 0x2c; 0xec; 0x13; 0xbd; 0xf5; 0x3a; 0x67; 0xb2; 0x12; 0x57; 0xbd; 0xdf] = Some (zeros 16).
Proof.
  refine (proj2 (@gcm_roundtrip _ AES (aes_cipher_ok true) _ _ _ _ _ _ _) _); [reflexivity|]. vm_compute. reflexivity.
Defined.

(** RFC 4493, example 2, in two pieces. *)
Lemma omac1_is_cmac_witness :
  let key := [0x2b; 0x7e; 0x15; 0x16; 0x28; 0xae; 0xd2; 0xa6; 0xab; 0xf7; 0x15; 0x88; 0x09; 0xcf; 0x4f; 0x3c] in
  let m := [0x6b; 0xc1; 0xbe; 0xe2; 0x2e; 0x40; 0x9f; 0x96; 0xe9; 0x3d; 0x7e; 0x11; 0x73; 0x93; 0x17; 0x2a] in
  @omac1_aes_vector _ AES key [take 5 m; drop 5 m] = Some [0x07; 0x0a; 0x16; 0xb4; 0x6b; 0x4d; 0x41; 0x44; 0xf7; 0x9b; 0xdd; 0x9d; 0xd0; 0x4a; 0x28; 0x7c].
Proof.
  intros key m.
  assert (E : exists c, @encrypt_init _ AES key = Some c /\ @cmac _ AES c m = [0x07; 0x0a; 0x16; 0xb4; 0x6b; 0x4d; 0x41; 0x44; 0xf7; 0x9b; 0xdd; 0x9d; 0xd0; 0x4a; 0x28; 0x7c])
    by (eexists; split; [vm_compute; reflexivity|vm_compute; reflexivity]).
  destruct E as (c & E & <-).
  apply (proj1 (@omac1_is_cmac _ AES (aes_cipher_ok true) key c [take 5 m; drop 5 m] E)).
  - apply (bool_decide_eq_true_1 _). vm_compute. reflexivity.
  - discriminate.
Defined.

Lemma gf_mulx_double_witness : be_num (gf_mulx (0x80 :: zeros 15)) = 0x87.
Proof.
  destruct (gf_mulx_double (0x80 :: zeros 15)) as [E _].
  - apply (bool_decide_eq_true_1 _). vm_compute. reflexivity.
  - reflexivity.
  - rewrite E. vm_compute. reflexivity.
Defined.

(** RFC 5297, the deterministic example. *)
Lemma siv_roundtrip_witness :
  @aes_siv_decrypt _ AES true (rev (seqZ 0xf0 16) ++ seqZ 0xf0 16)
    [0x85; 0x63; 0x2d; 0x07; 0xc6; 0xe8; 0xf3; 0x7f; 0x95; 0x0a; 0xcd; 0x32; 0x0a; 0x2e; 0xcc; 0x93; 0x40; 0xc0; 0x2b; 0x96; 0x90; 0xc4; 0xdc; 0x04; 0xda; 0xef; 0x7f; 0x6a; 0xfe; 0x5c] [seqZ 0x10 24] =
  Some (map (Z.mul 0x11) (seqZ 1 14)).
Proof.
  apply (proj2 (@siv_roundtrip _ AES (aes_cipher_ok true) true _ _ _ _)). vm_compute. reflexivity.
Defined.
