(* ===== verification/Mem.v ===== *)
(** Byte buffers with explicit bounds, for the parts of the Wi-Fi driver that walk through
    frames. A pointer into a buffer is its offset; an access outside of the buffer is
    [Fault]. *)

From S2P Require Import Prelude.

(** * Results *)

(** An access outside of a buffer, a loop that does not end, the null pointer or the result
    -1, and a result. A loop takes fuel; [Diverge] is what is left when it is used up. *)
Inductive res (A : Type) :=
| Fault
| Diverge
| Null
| Ok (a : A).
Arguments Fault {A}.
Arguments Diverge {A}.
Arguments Null {A}.
Arguments Ok {A} a.

#[export] Instance res_bind : MBind res := fun A B f r =>
  match r with Fault => Fault | Diverge => Diverge | Null => Null | Ok a => f a end.

Definition lift {A} (o : option A) : res A := match o with Some a => Ok a | None => Null end.

(** The [n] bytes from [i] on; [bs] written over [buf] from [i] on. *)
Definition load (i n : Z) (buf : list Z) : res (list Z) :=
  if (0 <=? i) && (0 <=? n) && (i + n <=? Z.of_nat (length buf))
  then Ok (window (Z.to_nat i) (Z.to_nat n) buf) else Fault.
Definition store (i : Z) (bs buf : list Z) : res (list Z) :=
  if (0 <=? i) && (i + Z.of_nat (length bs) <=? Z.of_nat (length buf))
  then Ok (blit (Z.to_nat i) bs buf) else Fault.

(** [memmove] inside a buffer: a load of everything before the store. *)
Definition move (dst src n : Z) (buf : list Z) : res (list Z) := bs ← load src n buf; store dst bs buf.

(** One byte; the comparison of [oui] with the bytes at [i]. *)
Definition byte_at (buf : list Z) (i : Z) : res Z := bs ← load i 1 buf; Ok (tbl bs 0).
Definition same_at (buf : list Z) (i : Z) (oui : list Z) : res bool :=
  bs ← load i (Z.of_nat (length oui)) buf; Ok (bool_decide (bs = oui)).

(** * Loads and stores inside a buffer *)

(** Two layouts of the same bytes. *)
Ltac flat_app := repeat (first [progress (rewrite <- !app_assoc) | progress (cbn [app])]).

Lemma load_app a x b : load (Z.of_nat (length a)) (Z.of_nat (length x)) (a ++ x ++ b) = Ok x.
Proof.
  unfold load. rewrite (proj2 (Z.leb_le 0 _)), (proj2 (Z.leb_le 0 _)), (proj2 (Z.leb_le _ _)) by (rewrite ?length_app; lia).
  cbn [andb]. unfold window. by rewrite !Nat2Z.id, drop_app_len, take_app_len.
Qed.

Lemma load_at i n a x b :
  i = Z.of_nat (length a) -> n = Z.of_nat (length x) -> load i n (a ++ x ++ b) = Ok x.
Proof. intros -> ->. apply load_app. Qed.

Lemma load_head n x b : n = Z.of_nat (length x) -> load 0 n (x ++ b) = Ok x.
Proof. intros ->. exact (load_app [] x b). Qed.

Lemma store_at i bs a x b :
  i = Z.of_nat (length a) -> length x = length bs -> store i bs (a ++ x ++ b) = Ok (a ++ bs ++ b).
Proof.
  intros -> E. unfold store.
  rewrite (proj2 (Z.leb_le 0 _)), (proj2 (Z.leb_le _ _)) by (rewrite ?length_app; lia). cbn [andb].
  rewrite Nat2Z.id, blit_fit by (rewrite ?length_app; lia). rewrite take_app_len by done. do 3 f_equal.
  rewrite app_assoc, drop_app_len; [done|]. rewrite length_app. lia.
Qed.

Lemma store_head bs x b : length x = length bs -> store 0 bs (x ++ b) = Ok (bs ++ b).
Proof. intros E. exact (store_at 0 bs [] x b eq_refl E). Qed.

(** A load from the first [k] bytes does not depend on the others. *)
Lemma load_take k i n b :
  0 <= i -> 0 <= n -> i + n <= Z.of_nat k -> (k <= length b)%nat ->
  load i n b = Ok (window (Z.to_nat i) (Z.to_nat n) (take k b)).
Proof.
  intros Hi Hn Hk Hb. unfold load. rewrite !(proj2 (Z.leb_le _ _)) by lia. cbn [andb]. f_equal.
  apply list_eq. intros j. rewrite !lookup_window. case_decide; [|done]. rewrite lookup_take_lt by lia. done.
Qed.

Lemma split_buffer n (b : list Z) : (n <= length b)%nat -> exists x y, b = x ++ y /\ length x = n.
Proof. intros. exists (take n b), (drop n b). rewrite take_drop, length_take. split; [done|lia]. Qed.

(** What a load has found is in the buffer. *)
Lemma load_inv i n buf bs : load i n buf = Ok bs -> exists a b, buf = a ++ bs ++ b /\ i = Z.of_nat (length a) /\ n = Z.of_nat (length bs).
Proof.
  unfold load. intros E. destruct (0 <=? i) eqn:Hi; [|done]. destruct (0 <=? n) eqn:Hn; [|done].
  destruct (i + n <=? Z.of_nat (length buf)) eqn:Hl; [|done]. cbn [andb] in E. injection E as <-.
  apply Z.leb_le in Hi, Hn, Hl. exists (take (Z.to_nat i) buf), (drop (Z.to_nat n) (drop (Z.to_nat i) buf)). unfold window.
  rewrite take_drop, take_drop, !length_take, length_drop. split_and!; [done|lia|lia].
Qed.

(** The same with an index at the start of what is read. *)
Lemma byte_at_app i a x b : i = Z.of_nat (length a) -> byte_at (a ++ x :: b) i = Ok x.
Proof. intros ->. unfold byte_at. by rewrite (load_at _ 1 a [x] b). Qed.

Lemma same_at_app i a x b oui :
  i = Z.of_nat (length a) -> length x = length oui -> same_at (a ++ x ++ b) i oui = Ok (bool_decide (x = oui)).
Proof. intros -> L. unfold same_at. by rewrite (load_at _ _ a x b) by lia. Qed.

Lemma move_at dst src n a x y b :
  dst = Z.of_nat (length a) -> src = Z.of_nat (length (a ++ x)) -> n = Z.of_nat (length y) ->
  exists junk, move dst src n (a ++ x ++ y ++ b) = Ok (a ++ y ++ junk ++ b) /\ length junk = length x.
Proof.
  intros -> -> ->. unfold move. rewrite (app_assoc a x), load_at by done. cbn [mbind res_bind].
  destruct (split_buffer (length y) (x ++ y)) as (u & v & E & Lu); [rewrite length_app; lia|].
  exists v. rewrite <- (app_assoc a), (app_assoc x), E, <- !app_assoc, store_at by done. split; [done|].
  apply (f_equal length) in E. rewrite !length_app in E. lia.
Qed.

(** ** Two bytes as a number *)

Lemma byte_pair_check : forallb (fun h => forallb (fun l => u16 ((h .<< 8) .| l) =? h * 256 + l) byte_range) byte_range = true.
Proof. vm_compute. reflexivity. Qed.

Lemma byte_pair h l : is_byte h -> is_byte l -> u16 ((h .<< 8) .| l) = h * 256 + l.
Proof. intros Hh Hl. exact (proj1 (Z.eqb_eq _ _) (byte_cases2 _ byte_pair_check h l Hh Hl)). Qed.

(** One byte, by index. *)
Lemma load1 buf i : 0 <= i < Z.of_nat (length buf) -> byte_at buf i = Ok (tbl buf i).
Proof.
  intros Hi. unfold byte_at, load. rewrite !(proj2 (Z.leb_le _ _)) by lia. cbn [andb mbind res_bind].
  f_equal. unfold tbl. rewrite lookup_window, decide_True by lia. do 2 f_equal. lia.
Qed.

Lemma store1 buf i x : 0 <= i < Z.of_nat (length buf) -> store i [x] buf = Ok (<[Z.to_nat i := x]> buf).
Proof.
  intros Hi. unfold store. rewrite !(proj2 (Z.leb_le _ _)) by (cbn; lia). cbn [andb]. f_equal.
  apply list_eq. intros j. rewrite lookup_blit by (cbn; lia). cbn [length]. case_decide as D.
  - replace j with (Z.to_nat i) by lia. rewrite Nat.sub_diag, list_lookup_insert_eq by lia. done.
  - by rewrite list_lookup_insert_ne by lia.
Qed.

Lemma tbl_insert buf i x j :
  0 <= i < Z.of_nat (length buf) -> 0 <= j -> tbl (<[Z.to_nat i := x]> buf) j = if i =? j then x else tbl buf j.
Proof.
  intros Hi Hj. unfold tbl. destruct (Z.eqb_spec i j) as [->|N].
  - by rewrite list_lookup_insert_eq by lia.
  - by rewrite list_lookup_insert_ne by lia.
Qed.

Lemma insert_bytes data i x : bytes data -> is_byte x -> bytes (<[i := x]> data).
Proof. intros. by apply Forall_insert. Qed.

(** * Well-typed memory *)

(** What holds of a result, if there is one. *)
Definition gives {A} (Q : A -> Prop) (r : res A) : Prop := match r with Ok a => Q a | _ => True end.

Lemma gives_bind {A B} (P : A -> Prop) (Q : B -> Prop) (r : res A) (f : A -> res B) :
  gives P r -> (forall a, P a -> gives Q (f a)) -> gives Q (r ≫= f).
Proof. destruct r as [| | |a]; cbn; auto. Qed.

Lemma gives_any {A} (r : res A) : gives (fun _ => True) r.
Proof. by destruct r. Qed.

(** A buffer of [n] bytes. *)
Definition memory (n : nat) (buf : list Z) : Prop := length buf = n /\ bytes buf.

Lemma load_bytes i n buf k : memory k buf -> gives bytes (load i n buf).
Proof. intros [_ B]. unfold load. case_match; [|done]. cbn. by apply Forall_take, Forall_drop. Qed.

Lemma byte_at_byte i buf k : memory k buf -> gives is_byte (byte_at buf i).
Proof.
  intros M. unfold byte_at. eapply gives_bind; [by apply load_bytes with (k := k)|]. intros bs B. cbn. by apply tbl_byte.
Qed.

Lemma store_memory i bs buf n : memory n buf -> bytes bs -> gives (memory n) (store i bs buf).
Proof.
  intros [L B] Bs. unfold store. destruct (0 <=? i) eqn:Hi; [|done].
  destruct (i + Z.of_nat (length bs) <=? Z.of_nat (length buf)) eqn:Hl; [|done]. apply Z.leb_le in Hi, Hl. cbn [andb gives].
  split; [rewrite length_blit; lia|]. rewrite blit_fit by lia. apply Forall_app; split; [by apply Forall_take|].
  apply Forall_app; split; [done|by apply Forall_drop].
Qed.

Lemma move_memory dst src k buf n : memory n buf -> gives (memory n) (move dst src k buf).
Proof. intros M. eapply gives_bind; [by apply load_bytes with (k := n)|]. intros bs B. by apply store_memory. Qed.

(** The steps of such a proof. *)
Ltac typed :=
  repeat first
    [ done
    | apply u8_range
    | apply store_memory; [done|]
    | apply move_memory
    | match goal with
      | |- gives _ (store _ _ _ ≫= _) => eapply gives_bind; [apply store_memory; [eassumption|]|]
      | |- gives _ (move _ _ _ _ ≫= _) => eapply gives_bind; [apply move_memory; eassumption|]
      | |- gives _ (load _ _ _ ≫= _) => eapply gives_bind; [eapply load_bytes; eassumption|]
      | |- gives _ (byte_at _ _ ≫= _) => eapply gives_bind; [eapply byte_at_byte; eassumption|]
      | |- gives _ (_ ≫= _) => eapply gives_bind; [apply gives_any|]
      | |- gives _ (let '_ := ?x in _) => destruct x
      | |- gives _ (match ?x with _ => _ end) => destruct x
      | |- gives _ (if ?b then _ else _) => destruct b
      | |- bytes [_] => apply Forall_cons; split; [|by constructor]
      | |- forall _, _ => intros
      end ].
