(* ===== verification/WifiCcmp.v ===== *)
(** Frame protection of the Wi-Fi driver: CCMP and GCMP ([core/crypto/ccmp.c], [gcmp.c])
    and the functions that apply them to a frame in place, with the two ways to protect
    a management frame ([core/rtw_swcrypto.c]).

    Memory is explicit ([Mem]), and [rtw_malloc] is a parameter that gives a buffer of the
    wanted size with any content, or nothing. *)

From S2P Require Import Prelude Mem WifiReorder WifiAes WifiAead.

(** * Constants *)

Definition ETH_ALEN : Z := 6.
Definition WLAN_FC_TODS : Z := 0x0100.
Definition WLAN_FC_FROMDS : Z := 0x0200.
Definition WLAN_FC_RETRY : Z := 0x0800.
Definition WLAN_FC_PWRMGT : Z := 0x1000.
Definition WLAN_FC_MOREDATA : Z := 0x2000.
Definition WLAN_FC_ISWEP : Z := 0x4000.
Definition WLAN_FC_ORDER : Z := 0x8000.
Definition WLAN_FC_TYPE_MGMT : Z := 0x0000.
Definition WLAN_FC_TYPE_DATA : Z := 0x0008.
Definition WLAN_FC_STYPE_QOS_DATA : Z := 0x0080.
Definition WLAN_FC_GET_TYPE (fc : Z) : Z := fc .& 0x000c.
Definition WLAN_FC_GET_STYPE (fc : Z) : Z := fc .& 0x00f0.
Definition RTW_AMSDU_MODE_SPP : Z := 1.

Definition BIT (n : Z) : Z := 1 .<< n.
(** [x &= ~m] *)
Definition clear (x m : Z) : Z := x .& Z.lnot m.

Definition WPA_GET_LE16 (a : list Z) (i : Z) : Z := u16 ((tbl a (i + 1) .<< 8) .| tbl a i).
Definition WPA_PUT_LE16 (val : Z) : list Z := [u16 val .& 0xff; u16 val .>> 8].

(** * Additional authenticated data and nonce

    Offsets in the header: address 1 at 4, address 2 at 10, the sequence control at 22,
    then address 4 and the QoS control if they are there. *)

Definition has_addr4 (fc : Z) : Z := b2z (fc .& (WLAN_FC_TODS .| WLAN_FC_FROMDS) =? WLAN_FC_TODS .| WLAN_FC_FROMDS).
Definition is_qos (fc : Z) : bool :=
  (WLAN_FC_GET_TYPE fc =? WLAN_FC_TYPE_DATA) && truthy (WLAN_FC_GET_STYPE fc .& WLAN_FC_STYPE_QOS_DATA).

(** The frame control with the bits that do not count masked, before the ones that every
    frame masks. *)
Definition data_fc (fc : Z) : Z :=
  if WLAN_FC_GET_TYPE fc =? WLAN_FC_TYPE_DATA then
    let m := clear fc 0x0070 in if is_qos fc then clear m WLAN_FC_ORDER else m
  else fc.

(** What follows the sequence control. *)
Definition aad_tail (amsdu_mode : Z) (fc : Z) (extra : list Z) : list Z :=
  let a := Z.to_nat (has_addr4 fc * ETH_ALEN) in
  if is_qos fc then
    let q := clear (tbl extra (Z.of_nat a)) 0x70 in
    take a extra ++ [if negb (amsdu_mode =? RTW_AMSDU_MODE_SPP) then clear q 0x80 else q; 0x00]
  else extra.

Definition packet_number (data : list Z) : list Z :=
  [tbl data 7; tbl data 6; tbl data 5; tbl data 4; tbl data 1; tbl data 0].

Definition ccmp_get_pn (data : list Z) : res (list Z) := d ← load 0 8 data; Ok (packet_number d).

Definition ccmp_aad_nonce (amsdu_mode : Z) (hdr data : list Z) : res (list Z * list Z) :=
  h ← load 0 24 hdr;
  let fc := WPA_GET_LE16 h 0 in
  let a4 := has_addr4 fc in
  qc ← (if is_qos fc then load (24 + a4 * ETH_ALEN) 1 hdr else Ok [0]);
  let nonce0 :=
    if WLAN_FC_GET_TYPE fc =? WLAN_FC_TYPE_DATA then tbl qc 0 .& 0x0f
    else if WLAN_FC_GET_TYPE fc =? WLAN_FC_TYPE_MGMT then 0x10 else 0 in
  let fc' := clear (data_fc fc) (WLAN_FC_RETRY .| WLAN_FC_PWRMGT .| WLAN_FC_MOREDATA) .| WLAN_FC_ISWEP in
  let seq := clear (WPA_GET_LE16 h 22) 0xfff0 in
  extra ← load 24 (a4 * ETH_ALEN + b2z (is_qos fc) * 2) hdr;
  d ← load 0 8 data;
  Ok (WPA_PUT_LE16 fc' ++ window 4 18 h ++ WPA_PUT_LE16 seq ++ aad_tail amsdu_mode fc extra,
      nonce0 :: window 10 6 h ++ packet_number d).

Definition gcmp_aad_nonce (amsdu_mode : Z) (hdr data : list Z) : res (list Z * list Z) :=
  h ← load 0 24 hdr;
  let fc := WPA_GET_LE16 h 0 in
  let fc' := clear (data_fc fc) (WLAN_FC_RETRY .| WLAN_FC_PWRMGT .| WLAN_FC_MOREDATA) in
  let seq := clear (WPA_GET_LE16 h 22) 0xfff0 in
  extra ← load 24 (has_addr4 fc * ETH_ALEN + b2z (is_qos fc) * 2) hdr;
  d ← load 0 8 data;
  Ok (WPA_PUT_LE16 fc' ++ window 4 18 h ++ WPA_PUT_LE16 seq ++ aad_tail amsdu_mode fc extra,
      window 10 6 h ++ packet_number d).

(** [a3] is [None] for the null pointer. *)
Definition ccmp_aad_nonce_pv1 (hdr a1 a2 : list Z) (a3 : option (list Z)) (pn : list Z) : res (list Z * list Z) :=
  h ← load 0 2 hdr;
  let fc := WPA_GET_LE16 h 0 in
  let type := (fc .& (BIT 2 .| BIT 3 .| BIT 4)) .>> 2 in
  let nonce0 := if type =? 1 then BIT 5 .| 0x10 else BIT 5 in
  let fc := clear fc (BIT 10 .| BIT 11 .| BIT 13 .| BIT 14 .| BIT 15) .| BIT 12 in
  rest ← (if (type =? 0) || (type =? 3) then
            a1 ← load 0 ETH_ALEN a1; a2 ← load 0 ETH_ALEN a2;
            sc ← load (if type =? 0 then 2 + 2 + ETH_ALEN else 2 + 2 * ETH_ALEN) 1 hdr;
            a3 ← match a3 with Some a3 => load 0 ETH_ALEN a3 | None => Ok [] end;
            Ok (a1 ++ a2 ++ [tbl sc 0 .& 0x0f; 0] ++ a3)
          else Ok []);
  a2 ← load 0 ETH_ALEN a2;
  pn ← load 0 6 pn;
  Ok (WPA_PUT_LE16 fc ++ rest, nonce0 :: a2 ++ rev pn).

(** * The packet in and out of its protection *)

(** What distinguishes CCMP, CCMP-256 and GCMP: the length of key and tag, the mode, the
    authenticated data, and the bits set in the frame control before, if any. *)
Record suite := {
  key_len : Z;
  mic_len : Z;
  ae : list Z -> list Z -> list Z -> list Z -> option (list Z * list Z);
  ad : list Z -> list Z -> list Z -> list Z -> list Z -> option (list Z);
  aad_nonce : list Z -> list Z -> res (list Z * list Z);
  set_fc : option Z
}.

Section protect.
Context {C : Type} `{BlockCipher C}.
Context (malloc : Z -> option (list Z)).

Definition ccmp (amsdu_mode klen mic : Z) : suite := {|
  key_len := klen; mic_len := mic;
  ae key nonce plain aad := aes_ccm_ae key nonce (Z.to_nat mic) plain aad;
  ad key nonce crypt aad auth := aes_ccm_ad key nonce (Z.to_nat mic) crypt aad auth;
  aad_nonce := ccmp_aad_nonce amsdu_mode; set_fc := Some WLAN_FC_ISWEP
|}.
Definition gcmp (amsdu_mode klen : Z) : suite := {|
  key_len := klen; mic_len := 16;
  ae key nonce plain aad := aes_gcm_ae key nonce plain aad;
  ad key nonce crypt aad auth := aes_gcm_ad key nonce crypt aad auth;
  aad_nonce := gcmp_aad_nonce amsdu_mode; set_fc := None
|}.

(** [hdr->frame_control |= host_to_le16(bits)] *)
Definition or_fc (bits : Z) (buf : list Z) : res (list Z) :=
  fc ← load 0 2 buf; store 0 (WPA_PUT_LE16 (WPA_GET_LE16 fc 0 .| bits)) buf.

Definition protect_fc (s : suite) (buf : list Z) : res (list Z) :=
  match set_fc s with Some bits => or_fc bits buf | None => Ok buf end.

Definition put_pn (pn : list Z) (keyid : Z) : list Z :=
  [tbl pn 5; tbl pn 4; 0x00; u8 (0x20 .| (keyid .<< 6)); tbl pn 3; tbl pn 2; tbl pn 1; tbl pn 0].

(** The new buffer and the length of the frame in it; [pn] is [None] for the null
    pointer. *)
Definition encrypt_frame (s : suite) (tk frame : list Z) (len hdrlen : Z) (pn : option (list Z)) (keyid : Z)
    : res (list Z * Z) :=
  if (len <? hdrlen) || (hdrlen <? 24) then Null
  else
    let plen := len - hdrlen in
    crypt ← lift (malloc (hdrlen + 8 + plen + mic_len s + AES_BLOCK_SIZE));
    start ← match pn with
            | None =>
                f ← load 0 (hdrlen + 8) frame; crypt ← store 0 f crypt; crypt ← protect_fc s crypt;
                Ok (crypt, hdrlen + 8)
            | Some pn =>
                f ← load 0 hdrlen frame; crypt ← store 0 f crypt; crypt ← protect_fc s crypt;
                pn ← load 0 6 pn; crypt ← store hdrlen (put_pn pn keyid) crypt;
                Ok (crypt, hdrlen)
            end;
    let '(crypt, pdata) := start in
    an ← aad_nonce s crypt (drop (Z.to_nat hdrlen) crypt);
    let '(aad, nonce) := an in
    key ← load 0 (key_len s) tk;
    plain ← load pdata plen frame;
    ct ← lift (ae s key nonce plain aad);
    let '(c, auth) := ct in
    crypt ← store (hdrlen + 8) c crypt;
    crypt ← store (hdrlen + 8 + plen) auth crypt;
    Ok (crypt, hdrlen + 8 + plen + mic_len s).

(** [hdr] is the frame, [data] what comes after its header. *)
Definition decrypt_frame (s : suite) (tk hdr data : list Z) (data_len : Z) : res (list Z * Z) :=
  if data_len <? 8 + mic_len s then Null
  else
    plain ← lift (malloc (data_len + AES_BLOCK_SIZE));
    let mlen := data_len - 8 - mic_len s in
    an ← aad_nonce s hdr data;
    let '(aad, nonce) := an in
    key ← load 0 (key_len s) tk;
    crypt ← load 8 mlen data;
    auth ← load (8 + mlen) (mic_len s) data;
    p ← lift (ad s key nonce crypt aad auth);
    plain ← store 0 p plain;
    Ok (plain, mlen).

Definition ccmp_encrypt (mode : Z) := encrypt_frame (ccmp mode 16 8).
Definition ccmp_256_encrypt (mode : Z) := encrypt_frame (ccmp mode 32 16).
Definition gcmp_encrypt (mode tk_len : Z) := encrypt_frame (gcmp mode tk_len).
Definition ccmp_decrypt (mode : Z) := decrypt_frame (ccmp mode 16 8).
Definition ccmp_256_decrypt (mode : Z) := decrypt_frame (ccmp mode 32 16).
Definition gcmp_decrypt (mode tk_len : Z) := decrypt_frame (gcmp mode tk_len).

Definition ccmp_encrypt_pv1 (tk a1 a2 : list Z) (a3 : option (list Z)) (frame : list Z) (len hdrlen : Z) (pn : list Z)
    : res (list Z * Z) :=
  if (len <? hdrlen) || (hdrlen <? 12) then Null
  else
    let plen := len - hdrlen in
    crypt ← lift (malloc (hdrlen + plen + 8 + AES_BLOCK_SIZE));
    f ← load 0 hdrlen frame; crypt ← store 0 f crypt; crypt ← or_fc (BIT 12) crypt;
    an ← ccmp_aad_nonce_pv1 crypt a1 a2 a3 pn;
    let '(aad, nonce) := an in
    key ← load 0 16 tk;
    plain ← load hdrlen plen frame;
    ct ← lift (aes_ccm_ae key nonce 8 plain aad);
    let '(c, auth) := ct in
    crypt ← store hdrlen c crypt;
    crypt ← store (hdrlen + plen) auth crypt;
    Ok (crypt, hdrlen + plen + 8).

(** ** In place *)

(** The result and the frame; [enc] and [plain] are what the functions above give. *)
Definition copy_back (frame : list Z) (at_ : Z) (r : res (list Z * Z)) : res (Z * list Z) :=
  match r with
  | Fault => Fault
  | Diverge => Diverge
  | Null => Ok (_FAIL, frame)
  | Ok (buf, n) => b ← load 0 n buf; frame ← store at_ b frame; Ok (_SUCCESS, frame)
  end.

Definition _rtw_ccmp_encrypt (mode : Z) (key : list Z) (klen hdrlen : Z) (frame : list Z) (plen : Z) : res (Z * list Z) :=
  copy_back frame 0
    (if klen =? 16 then ccmp_encrypt mode key frame (u32 (hdrlen + plen)) hdrlen None 0
     else if klen =? 32 then ccmp_256_encrypt mode key frame (u32 (hdrlen + plen)) hdrlen None 0
     else Null).

Definition _rtw_ccmp_decrypt (mode : Z) (key : list Z) (klen hdrlen : Z) (frame : list Z) (plen : Z) : res (Z * list Z) :=
  let data := drop (Z.to_nat hdrlen) frame in
  copy_back frame (hdrlen + 8)
    (if klen =? 16 then ccmp_decrypt mode key frame data (u32 (plen - hdrlen))
     else if klen =? 32 then ccmp_256_decrypt mode key frame data (u32 (plen - hdrlen))
     else Null).

Definition _rtw_gcmp_encrypt (mode : Z) (key : list Z) (klen hdrlen : Z) (frame : list Z) (plen : Z) : res (Z * list Z) :=
  copy_back frame 0 (gcmp_encrypt mode klen key frame (u32 (hdrlen + plen)) hdrlen None 0).

Definition _rtw_gcmp_decrypt (mode : Z) (key : list Z) (klen hdrlen : Z) (frame : list Z) (plen : Z) : res (Z * list Z) :=
  copy_back frame (hdrlen + 8)
    (gcmp_decrypt mode klen key frame (drop (Z.to_nat hdrlen) frame) (u32 (plen - hdrlen))).

(** ** Management frames *)

Definition omac1_aes_128 (key data : list Z) : option (list Z) := omac1_aes_vector (take 16 key) [data].
Definition omac1_aes_256 (key data : list Z) : option (list Z) := omac1_aes_vector (take 32 key) [data].

(** The result and what is written to [mic]. *)
Definition _bip_ccmp_protect (key : list Z) (klen : Z) (data : list Z) : Z * option (list Z) :=
  let mic := if klen =? 16 then omac1_aes_128 key data
             else if klen =? 32 then omac1_aes_256 key data else None in
  (match mic with Some _ => _SUCCESS | None => _FAIL end, mic).

Definition _bip_gcmp_protect (whdr : list Z) (len : Z) (key data : list Z) : res (Z * option (list Z)) :=
  ipn ← load (len - 16 - 6) 6 whdr;
  a2 ← load 10 ETH_ALEN whdr;
  let mic := aes_gmac key (a2 ++ rev ipn) data in
  Ok (match mic with Some _ => _SUCCESS | None => _FAIL end, mic).
End protect.

(** * What a suite promises *)

Section suites.
Context {C : Type} `{BC : BlockCipherOk C}.

Record suite_ok (s : suite) := {
  ok_lens : 0 <= key_len s /\ 0 <= mic_len s <= 16;
  (** Data and nonce come from the first 32 bytes of the header and the first 8 of the data. *)
  ok_nonce b b' d d' :
    take 32 b = take 32 b' -> take 8 d = take 8 d' ->
    (32 <= length b)%nat -> (32 <= length b')%nat -> (8 <= length d)%nat -> (8 <= length d')%nat ->
    exists aad nonce, aad_nonce s b d = Ok (aad, nonce) /\ aad_nonce s b' d' = Ok (aad, nonce) /\ (length aad <= 30)%nat;
  ok_seal c key nonce plain aad :
    encrypt_init key = Some c -> (length aad <= 30)%nat ->
    exists crypt auth, ae s key nonce plain aad = Some (crypt, auth) /\
      Z.of_nat (length auth) = mic_len s /\ (length plain <= length crypt <= 16 + length plain)%nat /\
      (exists p, ad s key nonce (take (length plain) crypt) aad auth = Some p /\ take (length plain) p = plain /\
        (length p <= 16 + length plain)%nat) /\
      (forall auth', length auth' = length auth -> auth' <> auth ->
        ad s key nonce (take (length plain) crypt) aad auth' = None)
}.

Lemma addr4_cases fc : has_addr4 fc = 0 \/ has_addr4 fc = 1.
Proof. unfold has_addr4, b2z. case_match; auto. Qed.

Lemma length_aad_tail mode fc extra :
  Z.of_nat (length extra) = has_addr4 fc * ETH_ALEN + b2z (is_qos fc) * 2 ->
  (length (aad_tail mode fc extra) <= 8)%nat.
Proof.
  intros E. unfold aad_tail. unfold ETH_ALEN in *.
  destruct (addr4_cases fc) as [A|A]; rewrite A in *; destruct (is_qos fc); cbn [b2z] in E; rewrite ?length_app, ?length_take; cbn [length]; lia.
Qed.

Lemma ccmp_nonce mode b b' d d' :
  take 32 b = take 32 b' -> take 8 d = take 8 d' ->
  (32 <= length b)%nat -> (32 <= length b')%nat -> (8 <= length d)%nat -> (8 <= length d')%nat ->
  exists aad nonce, ccmp_aad_nonce mode b d = Ok (aad, nonce) /\ ccmp_aad_nonce mode b' d' = Ok (aad, nonce) /\ (length aad <= 30)%nat.
Proof.
  intros Eb Ed Lb Lb' Ld Ld'. unfold ccmp_aad_nonce.
  rewrite !(load_take 32 0 24), Eb by lia. cbn [mbind res_bind]. set (h := window _ _ _).
  assert (Lh : length h = 24%nat) by (unfold h; apply length_window; rewrite length_take; lia).
  set (fc := WPA_GET_LE16 h 0). 
  assert (A : 0 <= has_addr4 fc * ETH_ALEN <= 6) by (unfold ETH_ALEN; destruct (addr4_cases fc) as [-> | ->]; lia).
  assert (Q : 0 <= b2z (is_qos fc) * 2 <= 2) by (destruct (is_qos fc); cbn; lia).
  rewrite !(load_take 32 24 (has_addr4 fc * ETH_ALEN + b2z (is_qos fc) * 2)), Eb by lia.
  rewrite !(load_take 8 0 8), Ed by lia. set (extra := window (Z.to_nat 24) _ _).
  assert (Le : Z.of_nat (length extra) = has_addr4 fc * ETH_ALEN + b2z (is_qos fc) * 2).
  { unfold extra. rewrite length_window; [|rewrite length_take]; lia. }
  pose proof (length_aad_tail mode fc extra Le) as Lt.
  assert (QC : exists qc, (if is_qos fc then load (24 + has_addr4 fc * ETH_ALEN) 1 b else Ok [0]) = Ok qc /\
    (if is_qos fc then load (24 + has_addr4 fc * ETH_ALEN) 1 b' else Ok [0]) = Ok qc).
  { destruct (is_qos fc); [|eauto]. rewrite !(load_take 32), Eb by lia. eauto. }
  destruct QC as (qc & -> & ->). cbn [mbind res_bind]. eexists _, _. split; [reflexivity|]. split; [reflexivity|].
  rewrite !length_app, length_window by lia. cbn [length WPA_PUT_LE16]. lia.
Qed.

Lemma gcmp_nonce mode b b' d d' :
  take 32 b = take 32 b' -> take 8 d = take 8 d' ->
  (32 <= length b)%nat -> (32 <= length b')%nat -> (8 <= length d)%nat -> (8 <= length d')%nat ->
  exists aad nonce, gcmp_aad_nonce mode b d = Ok (aad, nonce) /\ gcmp_aad_nonce mode b' d' = Ok (aad, nonce) /\ (length aad <= 30)%nat.
Proof.
  intros Eb Ed Lb Lb' Ld Ld'. unfold gcmp_aad_nonce.
  rewrite !(load_take 32 0 24), Eb by lia. cbn [mbind res_bind]. set (h := window _ _ _).
  assert (Lh : length h = 24%nat) by (unfold h; apply length_window; rewrite length_take; lia).
  set (fc := WPA_GET_LE16 h 0).
  assert (A : 0 <= has_addr4 fc * ETH_ALEN <= 6) by (unfold ETH_ALEN; destruct (addr4_cases fc) as [-> | ->]; lia).
  assert (Q : 0 <= b2z (is_qos fc) * 2 <= 2) by (destruct (is_qos fc); cbn; lia).
  rewrite !(load_take 32 24 (has_addr4 fc * ETH_ALEN + b2z (is_qos fc) * 2)), Eb by lia.
  rewrite !(load_take 8 0 8), Ed by lia. set (extra := window (Z.to_nat 24) _ _).
  assert (Le : Z.of_nat (length extra) = has_addr4 fc * ETH_ALEN + b2z (is_qos fc) * 2).
  { unfold extra. rewrite length_window; [|rewrite length_take]; lia. }
  pose proof (length_aad_tail mode fc extra Le) as Lt. cbn [mbind res_bind].
  eexists _, _. split; [reflexivity|]. split; [reflexivity|].
  rewrite !length_app, length_window by lia. cbn [length WPA_PUT_LE16]. lia.
Qed.

Lemma ccmp_ok mode klen mic : 0 <= klen -> 0 <= mic <= 16 -> suite_ok (ccmp mode klen mic).
Proof.
  intros Hk Hm. split; cbn [key_len mic_len ae ad aad_nonce ccmp]; [done|apply ccmp_nonce|].
  intros c key nonce plain aad Hc La.
  assert (exists crypt auth, aes_ccm_ae key nonce (Z.to_nat mic) plain aad = Some (crypt, auth)) as (crypt & auth & E).
  { unfold aes_ccm_ae. rewrite Hc. destruct (Nat.ltb_spec 30 (length aad)); [lia|].
    destruct (Nat.ltb_spec 16 (Z.to_nat mic)); [lia|]. cbn [orb mbind option_bind]. eauto. }
  destruct (ccm_roundtrip _ _ _ _ _ _ _ E) as (L1 & L2 & A & R). exists crypt, auth.
  split; [done|]. split; [lia|]. split; [done|]. split; [exact A|]. intros auth' La' N. apply R; [lia|done].
Qed.

Lemma gcmp_ok mode klen : 0 <= klen -> suite_ok (gcmp mode klen).
Proof.
  intros Hk. split; cbn [key_len mic_len ae ad aad_nonce gcmp]; [lia|apply gcmp_nonce|].
  intros c key nonce plain aad Hc La.
  assert (exists crypt auth, aes_gcm_ae key nonce plain aad = Some (crypt, auth) /\ length crypt = length plain /\
    length auth = 16%nat) as (crypt & auth & E & L1 & L2) by (by eapply gcm_seals).
  exists crypt, auth. split; [done|]. split; [lia|]. split; [lia|]. rewrite take_ge by lia. split.
  - exists plain. split; [by apply gcm_roundtrip|]. split; [|lia]. by rewrite take_ge by lia.
  - intros auth' La' N. destruct (aes_gcm_ad key nonce crypt aad auth') as [p|] eqn:D; [|done].
    apply gcm_roundtrip in D; [|lia]. exfalso. apply N. by apply (gcm_tag _ _ _ _ _ _ _ _ D E).
Qed.
End suites.

(** * Frames *)

Section frames.
Context {C : Type} `{BC : BlockCipherOk C}.
Context (malloc : Z -> option (list Z)).

(** What [rtw_malloc] gives is as long as it was asked to be. *)
Definition malloc_ok : Prop :=
  forall n, 0 <= n -> exists b, malloc n = Some b /\ Z.of_nat (length b) = n.

(** The header with the bits the suite sets. *)
Definition protected (s : suite) (hdr : list Z) : list Z :=
  match set_fc s with Some bits => WPA_PUT_LE16 (WPA_GET_LE16 (take 2 hdr) 0 .| bits) ++ drop 2 hdr | None => hdr end.

Lemma length_protected s hdr : (2 <= length hdr)%nat -> length (protected s hdr) = length hdr.
Proof. intros. unfold protected. case_match; [|done]. rewrite length_app, length_drop. cbn. lia. Qed.

Lemma protect_fc_app s hdr b : (2 <= length hdr)%nat -> protect_fc s (hdr ++ b) = Ok (protected s hdr ++ b).
Proof.
  intros Hl. unfold protect_fc, protected. destruct (set_fc s) as [bits|]; [|done].
  destruct (split_buffer 2 hdr Hl) as (x & y & -> & Lx). unfold or_fc.
  rewrite <- app_assoc, load_head by lia. cbn [mbind res_bind].
  rewrite store_head by (rewrite Lx; done). by rewrite take_app_len, drop_app_len, app_assoc by done.
Qed.

(** A protected frame: header, packet number, cipher text and tag. *)
Lemma encrypt_frame_ok s c key hdr iv plain rest :
  suite_ok s -> malloc_ok -> encrypt_init key = Some c -> Z.of_nat (length key) = key_len s ->
  (24 <= length hdr)%nat -> length iv = 8%nat ->
  exists aad nonce crypt auth junk,
    (forall b d, take 32 b = take 32 (protected s hdr ++ iv) -> take 8 d = iv ->
      (32 <= length b)%nat -> (8 <= length d)%nat -> aad_nonce s b d = Ok (aad, nonce)) /\
    (length aad <= 30)%nat /\ ae s key nonce plain aad = Some (crypt, auth) /\
    encrypt_frame malloc s key (hdr ++ iv ++ plain ++ rest) (Z.of_nat (length hdr) + Z.of_nat (length plain))
      (Z.of_nat (length hdr)) None 0 =
    Ok (protected s hdr ++ iv ++ take (length plain) crypt ++ auth ++ junk,
        Z.of_nat (length hdr) + 8 + Z.of_nat (length plain) + mic_len s).
Proof.
  intros SO M Hc Hk Hh Hi. destruct (ok_lens s SO) as [Hk0 Hm]. unfold encrypt_frame.
  set (hl := Z.of_nat (length hdr)). set (pl := Z.of_nat (length plain)).
  destruct (Z.ltb_spec (hl + pl) hl); [lia|]. destruct (Z.ltb_spec hl 24); [lia|]. cbn [orb].
  replace (hl + pl - hl) with pl by lia.
  destruct (M (hl + 8 + pl + mic_len s + AES_BLOCK_SIZE)) as (b & -> & Lb); [unfold AES_BLOCK_SIZE; lia|].
  unfold AES_BLOCK_SIZE in Lb. cbn [lift mbind res_bind].
  rewrite (app_assoc hdr iv), load_head by (rewrite length_app; lia). cbn [mbind res_bind].
  destruct (split_buffer (length (hdr ++ iv)) b) as (x & y & -> & Lx); [rewrite length_app; lia|].
  rewrite store_head by done. cbn [mbind res_bind]. rewrite <- (app_assoc hdr iv y), protect_fc_app by lia.
  cbn [mbind res_bind]. set (h := protected s hdr).
  assert (Lh : length h = length hdr) by (apply length_protected; lia).
  rewrite length_app, Lx, length_app in Lb.
  replace (Z.to_nat hl) with (length h) by lia. rewrite drop_app_length.
  assert (T : forall z, take 32 (h ++ iv ++ z) = take 32 (h ++ iv))
    by (intros; rewrite app_assoc, take_app_le; [done|rewrite length_app; lia]).
  destruct (ok_nonce s SO (h ++ iv ++ y) (h ++ iv) (iv ++ y) iv) as (aad & nonce & E & E' & La);
    [apply T|rewrite take_app_len, take_ge by lia; done|rewrite ?length_app; lia..|].
  rewrite E. cbn [mbind res_bind]. rewrite <- (app_nil_r key), load_head, app_nil_r by done. cbn [mbind res_bind].
  rewrite (load_at (hl + 8) pl (hdr ++ iv) plain rest) by (rewrite ?length_app; lia). cbn [mbind res_bind].
  destruct (ok_seal s SO c key nonce plain aad Hc La) as (crypt & auth & Es & Lau & Lc & _).
  exists aad, nonce, crypt, auth. rewrite Es. cbn [lift mbind res_bind].
  destruct (split_buffer (length crypt) y) as (y1 & y2 & -> & Ly1); [lia|]. rewrite length_app in Lb.
  rewrite (app_assoc h iv), (store_at (hl + 8) crypt (h ++ iv) y1 y2) by (rewrite ?length_app; lia).
  cbn [mbind res_bind]. pose proof (take_drop (length plain) crypt) as Ec.
  set (c1 := take (length plain) crypt) in *. set (c2 := drop (length plain) crypt) in *.
  assert (Lc1 : length c1 = length plain) by (unfold c1; rewrite length_take; lia).
  assert (Lc2 : (length c2 = length crypt - length plain)%nat) by (unfold c2; apply length_drop).
  destruct (split_buffer (length auth) (c2 ++ y2)) as (z1 & z2 & Ez & Lz1); [rewrite length_app; lia|].
  replace ((h ++ iv) ++ crypt ++ y2) with (((h ++ iv) ++ c1) ++ z1 ++ z2) by (rewrite <- Ez, <- Ec, <- !app_assoc; done).
  rewrite (store_at _ auth ((h ++ iv) ++ c1) z1 z2) by (rewrite ?length_app; lia). cbn [mbind res_bind].
  exists z2. split; [|split; [done|split; [done|by rewrite <- !app_assoc]]].
  intros b d Eb Ed Lb' Ld. destruct (ok_nonce s SO b (h ++ iv) d iv) as (a2 & n2 & X & X' & _);
    [done|rewrite (take_ge iv) by lia; done|done|rewrite length_app; lia|done|lia|]. congruence.
Qed.

Lemma decrypt_frame_ok s key hdr iv plain crypt auth rest aad nonce :
  suite_ok s -> malloc_ok -> Z.of_nat (length key) = key_len s ->
  (24 <= length hdr)%nat -> length iv = 8%nat -> length crypt = length plain -> Z.of_nat (length auth) = mic_len s ->
  aad_nonce s (hdr ++ iv ++ crypt ++ auth ++ rest) (iv ++ crypt ++ auth ++ rest) = Ok (aad, nonce) ->
  let r := decrypt_frame malloc s key (hdr ++ iv ++ crypt ++ auth ++ rest) (iv ++ crypt ++ auth ++ rest)
    (8 + Z.of_nat (length plain) + mic_len s) in
  (forall p, ad s key nonce crypt aad auth = Some p -> take (length plain) p = plain -> (length p <= 16 + length plain)%nat ->
    exists junk, r = Ok (plain ++ junk, Z.of_nat (length plain))) /\
  (ad s key nonce crypt aad auth = None -> r = Null).
Proof.
  intros SO M Hk Hh Hi Hc Ha E r. destruct (ok_lens s SO) as [_ Hm].
  assert (G : exists b, Z.of_nat (length b) = 8 + Z.of_nat (length plain) + mic_len s + 16 /\
    r = (p ← lift (ad s key nonce crypt aad auth); b ← store 0 p b; Ok (b, Z.of_nat (length plain)))).
  { unfold r, decrypt_frame. destruct (Z.ltb_spec (8 + Z.of_nat (length plain) + mic_len s) (8 + mic_len s)); [lia|].
    destruct (M (8 + Z.of_nat (length plain) + mic_len s + AES_BLOCK_SIZE)) as (b & -> & Lb); [unfold AES_BLOCK_SIZE; lia|].
    exists b. split; [done|]. cbn [lift mbind res_bind]. rewrite E. cbn [mbind res_bind].
    rewrite <- (app_nil_r key), load_head, app_nil_r by done. cbn [mbind res_bind].
    rewrite (load_at 8 _ iv crypt) by lia. cbn [mbind res_bind].
    rewrite (app_assoc iv), (load_at _ _ (iv ++ crypt) auth) by (rewrite ?length_app; lia). cbn [mbind res_bind].
    by replace (8 + Z.of_nat (length plain) + mic_len s - 8 - mic_len s) with (Z.of_nat (length plain)) by lia. }
  destruct G as (b & Lb & ->). split; [|by intros ->]. intros p -> T Lp. cbn [lift mbind res_bind].
  destruct (split_buffer (length p) b) as (x & y & -> & Lx); [lia|]. rewrite store_head by done. cbn [mbind res_bind].
  exists (drop (length plain) p ++ y). rewrite <- T at 2. by rewrite app_assoc, take_drop.
Qed.

(** The two directions, in place. *)
Definition seal_frame (s : suite) (key : list Z) (hl : Z) (frame : list Z) (plen : Z) : res (Z * list Z) :=
  copy_back frame 0 (encrypt_frame malloc s key frame (u32 (hl + plen)) hl None 0).
Definition open_frame (s : suite) (key : list Z) (hl : Z) (frame : list Z) (plen : Z) : res (Z * list Z) :=
  copy_back frame (hl + 8) (decrypt_frame malloc s key frame (drop (Z.to_nat hl) frame) (u32 (plen - hl))).

(** What the receiver has behind the frame is no matter. *)
Definition seals_and_opens (s : suite) (seal open : Z -> list Z -> Z -> res (Z * list Z)) (hdr iv plain room : list Z) : Prop :=
  let hl := Z.of_nat (length hdr) in
  let total := hl + 8 + Z.of_nat (length plain) + mic_len s in
  let rest := drop (Z.to_nat (mic_len s)) room in
  exists crypt auth,
    seal hl (hdr ++ iv ++ plain ++ room) (Z.of_nat (length plain)) =
      Ok (_SUCCESS, protected s hdr ++ iv ++ crypt ++ auth ++ rest) /\
    length crypt = length plain /\ Z.of_nat (length auth) = mic_len s /\
    forall room',
      open hl (protected s hdr ++ iv ++ crypt ++ auth ++ room') total =
        Ok (_SUCCESS, protected s hdr ++ iv ++ plain ++ auth ++ room') /\
      forall auth', length auth' = length auth -> auth' <> auth ->
        open hl (protected s hdr ++ iv ++ crypt ++ auth' ++ room') total =
          Ok (_FAIL, protected s hdr ++ iv ++ crypt ++ auth' ++ room').

Lemma seal_open_frame s c key hdr iv plain room :
  suite_ok s -> malloc_ok -> encrypt_init key = Some c -> Z.of_nat (length key) = key_len s ->
  (24 <= length hdr)%nat -> length iv = 8%nat -> mic_len s <= Z.of_nat (length room) ->
  Z.of_nat (length (hdr ++ iv ++ plain ++ room)) < 2 ^ 32 ->
  seals_and_opens s (seal_frame s key) (open_frame s key) hdr iv plain room.
Proof.
  intros SO M Hc Hk Hh Hi Hr Hs. unfold seals_and_opens. set (hl := Z.of_nat (length hdr)). set (h := protected s hdr).
  assert (Lh : length h = length hdr) by (apply length_protected; lia). destruct (ok_lens s SO) as [_ Hm].
  rewrite !length_app in Hs. change (2 ^ 32) with 4294967296 in Hs.
  destruct (encrypt_frame_ok s c key hdr iv plain room SO M Hc Hk Hh Hi) as (aad & nonce & crypt & auth & junk & N & La & Es & E).
  destruct (ok_seal s SO c key nonce plain aad Hc La) as (crypt' & auth' & Es' & Lau & Lc & (p & P & Tp & Lp) & R).
  rewrite Es in Es'. injection Es' as <- <-. fold h in E, N. set (c1 := take (length plain) crypt) in *.
  assert (Lc1 : length c1 = length plain) by (unfold c1; rewrite length_take; lia). exists c1, auth.
  destruct (split_buffer (length auth) room) as (r1 & r2 & -> & Lr1); [lia|].
  rewrite (drop_app_len r1) by lia. unfold seal_frame, open_frame. rewrite !u32_small by lia.
  set (total := hl + 8 + Z.of_nat (length plain) + mic_len s).
  replace (total - hl) with (8 + Z.of_nat (length plain) + mic_len s) by lia.
  split; [|split; [done|split; [done|]]].
  - unfold hl. rewrite E. unfold copy_back.
    rewrite !app_assoc, load_head by (rewrite !length_app; lia). cbn [mbind res_bind].
    rewrite store_head by (rewrite !length_app; lia). done.
  - assert (D : forall a' rest, length a' = length auth ->
      let fr := h ++ iv ++ c1 ++ a' ++ rest in
      let r := decrypt_frame malloc s key fr (drop (Z.to_nat hl) fr) (8 + Z.of_nat (length plain) + mic_len s) in
      (forall p, ad s key nonce c1 aad a' = Some p -> take (length plain) p = plain -> (length p <= 16 + length plain)%nat ->
        exists junk, r = Ok (plain ++ junk, Z.of_nat (length plain))) /\ (ad s key nonce c1 aad a' = None -> r = Null)).
    { intros a' rest La' fr. unfold fr. rewrite (drop_app_len h) by lia.
      apply decrypt_frame_ok; try (done || lia). apply N; rewrite ?length_app; try lia.
      - rewrite app_assoc, take_app_le by (rewrite length_app; lia). done.
      - by rewrite take_app_len by done. }
    intros room'. split.
    + destruct (proj1 (D auth room' eq_refl) p P Tp Lp) as [j ->]. unfold copy_back.
      rewrite load_head by done. cbn [mbind res_bind].
      rewrite (app_assoc h), (store_at (hl + 8) plain (h ++ iv) c1) by (rewrite ?length_app; lia). cbn [mbind res_bind].
      by rewrite <- app_assoc.
    + intros a' La' Na. by rewrite (proj2 (D a' room' La') (R a' La' Na)).
Qed.
End frames.

(** ** The driver's functions *)

Section driver.
Context {C : Type} `{BC : BlockCipherOk C}.
Context (malloc : Z -> option (list Z)) (M : malloc_ok malloc).
Context (mode : Z) (key : list Z) (c : C) (Hc : encrypt_init key = Some c).
Context (hdr iv plain room : list Z).
Context (Hh : (24 <= length hdr)%nat) (Hi : length iv = 8%nat) (Hr : (16 <= length room)%nat).
Context (Hs : Z.of_nat (length (hdr ++ iv ++ plain ++ room)) < 2 ^ 32).

(** [_rtw_ccmp_decrypt] restores in place what [_rtw_ccmp_encrypt] has sealed in
    place, with CCMP and CCMP-256; a frame whose tag is another is refused and left as it
    is. Nothing outside of a buffer is touched: the frame has to have room for the tag,
    and the new buffers have room for the last block that is written in full. *)
Theorem ccmp_frame_roundtrip :
  length key = 16%nat \/ length key = 32%nat ->
  let klen := Z.of_nat (length key) in
  seals_and_opens (ccmp mode klen (klen / 2))
    (fun hl frame plen => _rtw_ccmp_encrypt malloc mode key klen hl frame plen)
    (fun hl frame plen => _rtw_ccmp_decrypt malloc mode key klen hl frame plen) hdr iv plain room.
Proof.
  intros [L|L]; rewrite L.
  - exact (seal_open_frame malloc (ccmp mode 16 8) c key hdr iv plain room (ccmp_ok mode 16 8 ltac:(lia) ltac:(lia)) M Hc
      ltac:(rewrite L; done) Hh Hi ltac:(cbn; lia) Hs).
  - exact (seal_open_frame malloc (ccmp mode 32 16) c key hdr iv plain room (ccmp_ok mode 32 16 ltac:(lia) ltac:(lia)) M Hc
      ltac:(rewrite L; done) Hh Hi ltac:(cbn; lia) Hs).
Qed.

(** The same for GCMP, with a key of any length the cipher takes. *)
Theorem gcmp_frame_roundtrip :
  let klen := Z.of_nat (length key) in
  seals_and_opens (gcmp mode klen)
    (fun hl frame plen => _rtw_gcmp_encrypt malloc mode key klen hl frame plen)
    (fun hl frame plen => _rtw_gcmp_decrypt malloc mode key klen hl frame plen) hdr iv plain room.
Proof.
  intros klen. exact (seal_open_frame malloc (gcmp mode klen) c key hdr iv plain room (gcmp_ok mode klen ltac:(lia)) M Hc
    ltac:(done) Hh Hi ltac:(cbn; lia) Hs).
Qed.
End driver.

(** * What a retransmission may change

    The retry, power management and more-data flags are bits 3 to 5 of byte 1; bytes 2 and
    3 are the duration; the sequence number is byte 23 and the upper half of byte 22. *)

Definition same_covered (hdr hdr' : list Z) : Prop :=
  length hdr = length hdr' /\
  (forall i : nat, i ∉ [1; 2; 3; 22; 23]%nat -> hdr !! i = hdr' !! i) /\
  clear (tbl hdr 1) 0x38 = clear (tbl hdr' 1) 0x38 /\ tbl hdr 22 .& 0x0f = tbl hdr' 22 .& 0x0f.

Definition fc_of (b0 b1 : Z) : Z := u16 ((b1 .<< 8) .| b0).

(** The uses of the frame control do not see bits 3 to 5 of its high byte. *)
Definition fc_use (f : Z -> Z) (b0 b1 : Z) : bool := f (fc_of b0 b1) =? f (fc_of b0 (clear b1 0x38)).

Definition fc_uses (b0 b1 : Z) : bool :=
  fc_use has_addr4 b0 b1 && fc_use (fun fc => b2z (is_qos fc)) b0 b1 && fc_use WLAN_FC_GET_TYPE b0 b1 &&
  fc_use (fun fc => clear (data_fc fc) (WLAN_FC_RETRY .| WLAN_FC_PWRMGT .| WLAN_FC_MOREDATA)) b0 b1 &&
  (clear (fc_of b0 b1) 0xfff0 =? b0 .& 0x0f).

Lemma fc_uses_check : forallb (fun b0 => forallb (fc_uses b0) byte_range) byte_range = true.
Proof. vm_compute. reflexivity. Qed.

Lemma b2z_inj a b : b2z a = b2z b -> a = b.
Proof. by destruct a, b. Qed.

Lemma fc_same b0 b1 b1' :
  is_byte b0 -> is_byte b1 -> is_byte b1' -> clear b1 0x38 = clear b1' 0x38 ->
  has_addr4 (fc_of b0 b1) = has_addr4 (fc_of b0 b1') /\ is_qos (fc_of b0 b1) = is_qos (fc_of b0 b1') /\
  WLAN_FC_GET_TYPE (fc_of b0 b1) = WLAN_FC_GET_TYPE (fc_of b0 b1') /\
  clear (data_fc (fc_of b0 b1)) (WLAN_FC_RETRY .| WLAN_FC_PWRMGT .| WLAN_FC_MOREDATA) =
  clear (data_fc (fc_of b0 b1')) (WLAN_FC_RETRY .| WLAN_FC_PWRMGT .| WLAN_FC_MOREDATA).
Proof.
  intros H0 H1 H1' E. pose proof (byte_cases2 fc_uses fc_uses_check b0 b1 H0 H1) as A.
  pose proof (byte_cases2 fc_uses fc_uses_check b0 b1' H0 H1') as B. unfold fc_uses, fc_use in A, B.
  rewrite !andb_true_iff, !Z.eqb_eq in A, B. rewrite E in A.
  destruct A as ((((A1 & A2) & A3) & A4) & _). destruct B as ((((B1 & B2) & B3) & B4) & _).
  rewrite A1, A3, A4, B1, B3, B4. split_and!; [done| |done..]. apply b2z_inj. by rewrite A2, B2.
Qed.

Lemma seq_fragment b0 b1 : is_byte b0 -> is_byte b1 -> clear (fc_of b0 b1) 0xfff0 = b0 .& 0x0f.
Proof.
  intros H0 H1. pose proof (byte_cases2 fc_uses fc_uses_check b0 b1 H0 H1) as A. unfold fc_uses in A.
  rewrite !andb_true_iff, !Z.eqb_eq in A. apply A.
Qed.

Lemma window_covered hdr hdr' i n :
  same_covered hdr hdr' -> (forall j, (i <= j < i + n)%nat -> j ∉ [1; 2; 3; 22; 23]%nat) -> window i n hdr = window i n hdr'.
Proof.
  intros (_ & E & _) D. apply list_eq. intros j. rewrite !lookup_window. case_decide; [|done]. apply E, D. lia.
Qed.

Lemma load_covered hdr hdr' i n :
  same_covered hdr hdr' -> 24 <= i -> load i n hdr = load i n hdr'.
Proof.
  intros S Hi. unfold load. rewrite <- (proj1 S). case_match; [|done]. f_equal. apply window_covered; [done|].
  intros j Hj. rewrite !not_elem_of_cons. split_and!; try lia. apply not_elem_of_nil.
Qed.

(** What is read of the first 24 bytes. *)
Lemma head_covered hdr hdr' h h' :
  same_covered hdr hdr' -> bytes hdr -> bytes hdr' -> load 0 24 hdr = Ok h -> load 0 24 hdr' = Ok h' ->
  clear (WPA_GET_LE16 h 22) 0xfff0 = clear (WPA_GET_LE16 h' 22) 0xfff0 /\
  window 4 18 h = window 4 18 h' /\ window 10 6 h = window 10 6 h' /\
  exists b0 b1 b1', WPA_GET_LE16 h 0 = fc_of b0 b1 /\ WPA_GET_LE16 h' 0 = fc_of b0 b1' /\
    is_byte b0 /\ is_byte b1 /\ is_byte b1' /\ clear b1 0x38 = clear b1' 0x38.
Proof.
  intros S B B' L L'. unfold load in L, L'. rewrite <- (proj1 S) in L'.
  destruct (_ && _) eqn:G; [|done]. injection L as <-. injection L' as <-. apply andb_true_iff in G as [_ G].
  apply Z.leb_le in G. change (Z.to_nat 0) with 0%nat. change (Z.to_nat 24) with 24%nat.
  assert (T : forall (l : list Z) (i : nat), (i < 24)%nat -> tbl (window 0 24 l) (Z.of_nat i) = tbl l (Z.of_nat i))
    by (intros; unfold tbl; rewrite Nat2Z.id, lookup_window, decide_True by lia; done).
  assert (W : forall (l : list Z) i n, (i + n <= 24)%nat -> window i n (window 0 24 l) = window i n l).
  { intros l i n Hin. apply list_eq. intros j. rewrite !lookup_window. case_decide; [|done]. by rewrite decide_True by lia. }
  unfold WPA_GET_LE16. change (22 + 1) with (Z.of_nat 23). change 22 with (Z.of_nat 22).
  change (0 + 1) with (Z.of_nat 1). change (tbl (window 0 24 ?l) 0) with (tbl (window 0 24 l) (Z.of_nat 0)).
  rewrite !T, !W by lia. fold (fc_of (tbl hdr (Z.of_nat 22)) (tbl hdr (Z.of_nat 23))).
  fold (fc_of (tbl hdr' (Z.of_nat 22)) (tbl hdr' (Z.of_nat 23))). destruct S as (Sl & Sc & S1 & S22).
  rewrite !seq_fragment by (by apply tbl_byte). split; [exact S22|].
  split; [|split]; [apply window_covered; [by split_and!|]..|].
  - intros j Hj. rewrite !not_elem_of_cons. split_and!; try lia. apply not_elem_of_nil.
  - intros j Hj. rewrite !not_elem_of_cons. split_and!; try lia. apply not_elem_of_nil.
  - exists (tbl hdr 0), (tbl hdr 1), (tbl hdr' 1). assert (E0 : tbl hdr 0 = tbl hdr' 0).
    { unfold tbl. rewrite (Sc (Z.to_nat 0)); [done|]. rewrite !not_elem_of_cons. split_and!; try done. apply not_elem_of_nil. }
    split; [done|]. split; [by rewrite E0|]. split_and!; try (by apply tbl_byte). exact S1.
Qed.

Section retry.
Context {C : Type} `{BlockCipher C}.

Lemma ccmp_nonce_covered mode hdr hdr' data :
  same_covered hdr hdr' -> bytes hdr -> bytes hdr' -> ccmp_aad_nonce mode hdr data = ccmp_aad_nonce mode hdr' data.
Proof.
  intros S B B'. unfold ccmp_aad_nonce.
  destruct (load 0 24 hdr) as [| | |h] eqn:L; destruct (load 0 24 hdr') as [| | |h'] eqn:L';
    try (unfold load in L, L'; rewrite <- (proj1 S) in L'; destruct (_ && _) in L, L'; discriminate); [done|].
  cbn [mbind res_bind].
  destruct (head_covered _ _ _ _ S B B' L L') as (-> & -> & -> & b0 & b1 & b1' & -> & -> & H0 & H1 & H1' & E).
  destruct (fc_same b0 b1 b1' H0 H1 H1' E) as (Ea & Eq & Et & Ec).
  unfold aad_tail. rewrite Ea, Eq, Et, Ec. rewrite !(load_covered hdr hdr' 24 _ S) by lia.
  rewrite (load_covered hdr hdr' _ 1 S); [done|]. unfold ETH_ALEN. destruct (addr4_cases (fc_of b0 b1')); lia.
Qed.

Lemma gcmp_nonce_covered mode hdr hdr' data :
  same_covered hdr hdr' -> bytes hdr -> bytes hdr' -> gcmp_aad_nonce mode hdr data = gcmp_aad_nonce mode hdr' data.
Proof.
  intros S B B'. unfold gcmp_aad_nonce.
  destruct (load 0 24 hdr) as [| | |h] eqn:L; destruct (load 0 24 hdr') as [| | |h'] eqn:L';
    try (unfold load in L, L'; rewrite <- (proj1 S) in L'; destruct (_ && _) in L, L'; discriminate); [done|].
  cbn [mbind res_bind].
  destruct (head_covered _ _ _ _ S B B' L L') as (-> & -> & -> & b0 & b1 & b1' & -> & -> & H0 & H1 & H1' & E).
  destruct (fc_same b0 b1 b1' H0 H1 H1' E) as (Ea & Eq & _ & Ec).
  unfold aad_tail. rewrite Ea, Eq, Ec. by rewrite !(load_covered hdr hdr' 24 _ S) by lia.
Qed.

(** A frame that is sent again decrypts alike: the retry, power management and
    more-data flags, the duration and the sequence number may differ from those that were
    authenticated. *)
Theorem retransmission_decrypts malloc mode klen tk hdr hdr' data n :
  same_covered hdr hdr' -> bytes hdr -> bytes hdr' ->
  ccmp_decrypt malloc mode tk hdr data n = ccmp_decrypt malloc mode tk hdr' data n /\
  ccmp_256_decrypt malloc mode tk hdr data n = ccmp_256_decrypt malloc mode tk hdr' data n /\
  gcmp_decrypt malloc mode klen tk hdr data n = gcmp_decrypt malloc mode klen tk hdr' data n.
Proof.
  intros S B B'. pose proof (ccmp_nonce_covered mode hdr hdr' data S B B') as Ec.
  pose proof (gcmp_nonce_covered mode hdr hdr' data S B B') as Eg.
  unfold ccmp_decrypt, ccmp_256_decrypt, gcmp_decrypt, decrypt_frame. cbn [aad_nonce ccmp gcmp]. by rewrite Ec, Eg.
Qed.
End retry.

(** * At the driver's AES *)

#[local] Abbreviation AES := (aes_cipher true).

Definition some_malloc (n : Z) : option (list Z) := Some (zeros (Z.to_nat n)).

Lemma some_malloc_ok : malloc_ok some_malloc.
Proof. intros n Hn. exists (zeros (Z.to_nat n)). split; [done|]. unfold zeros. rewrite length_replicate. lia. Qed.

(** The CCMP test vector of IEEE 802.11. *)
Definition vector_key : list Z := [0xc9; 0x7c; 0x1f; 0x67; 0xce; 0x37; 0x11; 0x85; 0x51; 0x4a; 0x8a; 0x19; 0xf2; 0xbd; 0xd5; 0x2f].
Definition vector_hdr : list Z := [0x08; 0x48; 0xc3; 0x2c; 0x0f; 0xd2; 0xe1; 0x28; 0xa5; 0x7c; 0x50; 0x30; 0xf1; 0x84; 0x44; 0x08; 0xab; 0xae; 0xa5; 0xb8; 0xfc; 0xba; 0x80; 0x33].
Definition vector_iv : list Z := [0x0c; 0xe7; 0x00; 0x20; 0x76; 0x97; 0x03; 0xb5].
Definition vector_plain : list Z := [0xf8; 0xba; 0x1a; 0x55; 0xd0; 0x2f; 0x85; 0xae; 0x96; 0x7b; 0xb6; 0x2f; 0xb6; 0xcd; 0xa8; 0xeb; 0x7e; 0x78; 0xa0; 0x50].

Lemma ccmp_vector :
  @_rtw_ccmp_encrypt _ AES some_malloc 0 vector_key 16 24 (vector_hdr ++ vector_iv ++ vector_plain ++ zeros 8) 20 =
  Ok (_SUCCESS, vector_hdr ++ vector_iv ++
    [0xf3; 0xd0; 0xa2; 0xfe; 0x9a; 0x3d; 0xbf; 0x23; 0x42; 0xa6; 0x43; 0xe4; 0x32; 0x46; 0xe8; 0x0c; 0x3c; 0x04; 0xd0; 0x19] ++
    [0x78; 0x45; 0xce; 0x0b; 0x16; 0xf9; 0x76; 0x23]).
Proof. vm_compute. reflexivity. Qed.

Lemma ccmp_frame_roundtrip_witness :
  @seals_and_opens (@ccmp _ AES 0 16 8)
    (fun hl frame plen => @_rtw_ccmp_encrypt _ AES some_malloc 0 vector_key 16 hl frame plen)
    (fun hl frame plen => @_rtw_ccmp_decrypt _ AES some_malloc 0 vector_key 16 hl frame plen)
    vector_hdr vector_iv vector_plain (zeros 16).
Proof.
  assert (E : exists c, @encrypt_init _ AES vector_key = Some c) by (eexists; vm_compute; reflexivity).
  destruct E as [c E].
  refine (@ccmp_frame_roundtrip _ AES (aes_cipher_ok true) some_malloc some_malloc_ok 0 vector_key c E
    vector_hdr vector_iv vector_plain (zeros 16) _ _ _ _ _); [|reflexivity| |reflexivity|left; reflexivity];
    vm_compute; repeat constructor.
Defined.

Lemma gcmp_frame_roundtrip_witness :
  @seals_and_opens (@gcmp _ AES 0 16)
    (fun hl frame plen => @_rtw_gcmp_encrypt _ AES some_malloc 0 vector_key 16 hl frame plen)
    (fun hl frame plen => @_rtw_gcmp_decrypt _ AES some_malloc 0 vector_key 16 hl frame plen)
    vector_hdr vector_iv vector_plain (zeros 16).
Proof.
  assert (E : exists c, @encrypt_init _ AES vector_key = Some c) by (eexists; vm_compute; reflexivity).
  destruct E as [c E].
  refine (@gcmp_frame_roundtrip _ AES (aes_cipher_ok true) some_malloc some_malloc_ok 0 vector_key c E
    vector_hdr vector_iv vector_plain (zeros 16) _ _ _ _); [|reflexivity| |reflexivity];
    vm_compute; repeat constructor.
Defined.

(** The same header sent again, with another duration and sequence number. *)
Lemma retransmission_decrypts_witness :
  let again := [0x08; 0x58; 0x00; 0x00; 0x0f; 0xd2; 0xe1; 0x28; 0xa5; 0x7c; 0x50; 0x30; 0xf1; 0x84; 0x44; 0x08; 0xab; 0xae; 0xa5; 0xb8; 0xfc; 0xba; 0x90; 0x33] in
  let data := vector_iv ++ zeros 24 in
  @ccmp_decrypt _ AES some_malloc 0 vector_key vector_hdr data 32 = @ccmp_decrypt _ AES some_malloc 0 vector_key again data 32.
Proof.
  intros again data.
  refine (proj1 (@retransmission_decrypts _ AES some_malloc 0 16 vector_key vector_hdr again data 32 _ _ _)).
  - split_and!; [reflexivity| |reflexivity|reflexivity]. intros i Hi.
    do 24 (destruct i as [|i]; [try reflexivity; exfalso; apply Hi, (bool_decide_eq_true_1 _); reflexivity|]). reflexivity.
  - apply (bool_decide_eq_true_1 _). vm_compute. reflexivity.
  - apply (bool_decide_eq_true_1 _). vm_compute. reflexivity.
Defined.
