(* ===== verification/WifiIe.v ===== *)
(** Information elements of the Wi-Fi driver ([core/rtw_ieee80211.c]): the functions that
    write, find, replace and remove the elements of a management frame.

    An element is its identifier, its length and its content, one after the other. The
    memory is one buffer and a pointer an offset in it ([Mem]). A function that returns a
    pointer and writes a length through another gives both; the null pointer is [None].
    Counters are not wrapped at 32 bits: they exceed the length of the buffer by less
    than 258. *)

From S2P Require Import Prelude Mem WifiReorder.

(** * Writing *)

(** The new end of the frame and its new length. *)
Definition rtw_set_fixed_ie (buf : list Z) (pbuf len : Z) (source : list Z) (frlen : Z) : res (list Z * Z * Z) :=
  src ← load 0 len source; buf ← store pbuf src buf; Ok (buf, pbuf + len, u32 (frlen + len)).

Definition rtw_set_ie (buf : list Z) (pbuf index len : Z) (source : list Z) (frlen : Z) : res (list Z * Z * Z) :=
  buf ← store pbuf [u8 index] buf;
  buf ← store (pbuf + 1) [u8 len] buf;
  buf ← (if 0 <? len then src ← load 0 len source; store (pbuf + 2) src buf else Ok buf);
  Ok (buf, pbuf + len + 2, u32 (frlen + (len + 2))).

(** * Finding *)

Fixpoint get_ie_loop (fuel : nat) (buf : list Z) (p i index limit : Z) : res (option (Z * Z)) :=
  match fuel with
  | O => Diverge
  | S fuel =>
      id ← byte_at buf p;
      if id =? index then len ← byte_at buf (p + 1); Ok (Some (p, len))
      else
        tmp ← byte_at buf (p + 1);
        if limit <=? i + (tmp + 2) then Ok None
        else get_ie_loop fuel buf (p + (tmp + 2)) (i + (tmp + 2)) index limit
  end.

(** The pointer and the length of the content. *)
Definition rtw_get_ie (buf : list Z) (pbuf index limit : Z) : res (option (Z * Z)) :=
  if limit <? 1 then Ok None else get_ie_loop (Z.to_nat limit) buf pbuf 0 index limit.

(** The search all the others have: [more] is the condition of the loop, [stop] the give-up
    test in it, [hit] the match. *)
Fixpoint ie_loop (fuel : nat) (buf : list Z) (more stop : Z -> bool) (hit : Z -> Z -> res bool) (in_ie cnt : Z)
    : res (option (Z * Z)) :=
  match fuel with
  | O => Diverge
  | S fuel =>
      if more cnt then
        id ← byte_at buf (in_ie + cnt);
        if stop cnt then Ok None
        else
          h ← hit id (in_ie + cnt);
          len ← byte_at buf (in_ie + cnt + 1);
          if h : bool then Ok (Some (in_ie + cnt, len + 2))
          else ie_loop fuel buf more stop hit in_ie (cnt + (len + 2))
      else Ok None
  end.

(** The identifier, and the first bytes of the content unless they do not matter. *)
Definition ie_match (buf : list Z) (eid : Z) (oui : option (list Z)) (id p : Z) : res bool :=
  if negb (eid =? id) then Ok false
  else match oui with None => Ok true | Some oui => same_at buf (p + 2) oui end.

(** The pointer and the length of the whole element. *)
Definition rtw_get_ie_ex (buf : list Z) (in_ie in_len eid : Z) (oui : option (list Z)) : res (option (Z * Z)) :=
  if in_len <=? 0 then Ok None
  else ie_loop (S (Z.to_nat in_len)) buf (fun cnt => cnt <? in_len) (fun _ => false) (ie_match buf eid oui) in_ie 0.

Definition MAX_IE_SZ : Z := 768.
Definition WLAN_EID_VENDOR_SPECIFIC : Z := 221.
Definition WLAN_EID_EXTENSION : Z := 255.
Definition WLAN_EID_EXT_OWE_DH_PARAM : Z := 32.

Definition vendor_loop (buf : list Z) (in_ie in_len eid : Z) (oui : list Z) : res (option (Z * Z)) :=
  if in_len <=? 0 then Ok None
  else ie_loop (S (Z.to_nat in_len)) buf (fun cnt => cnt + 1 + 4 <? in_len) (fun cnt => MAX_IE_SZ <=? cnt + 1 + 4)
         (ie_match buf eid (Some oui)) in_ie 0.

Definition wps_oui : list Z := [0x00; 0x50; 0xf2; 0x04].
Definition p2p_oui : list Z := [0x50; 0x6f; 0x9a; 0x09].
Definition wfd_oui : list Z := [0x50; 0x6f; 0x9a; 0x0a].

Definition rtw_get_wps_ie (buf : list Z) (in_ie in_len : Z) := vendor_loop buf in_ie in_len WLAN_EID_VENDOR_SPECIFIC wps_oui.
Definition rtw_get_p2p_ie (buf : list Z) (in_ie in_len : Z) := vendor_loop buf in_ie in_len WLAN_EID_VENDOR_SPECIFIC p2p_oui.
Definition rtw_get_wfd_ie (buf : list Z) (in_ie in_len : Z) := vendor_loop buf in_ie in_len WLAN_EID_VENDOR_SPECIFIC wfd_oui.
Definition rtw_get_owe_ie (buf : list Z) (in_ie in_len : Z) :=
  vendor_loop buf in_ie in_len WLAN_EID_EXTENSION [WLAN_EID_EXT_OWE_DH_PARAM].

Definition rtw_is_wps_ie (buf : list Z) (ie_ptr : Z) : res (option Z) :=
  id ← byte_at buf ie_ptr;
  m ← ie_match buf WLAN_EID_VENDOR_SPECIFIC (Some wps_oui) id ie_ptr;
  if m : bool then len ← byte_at buf (ie_ptr + 1); Ok (Some (len + 2)) else Ok None.

(** The elements of a scan result come after its fixed fields. *)
Inductive bss_type := BSS_TYPE_UNDEF | BSS_TYPE_BCN | BSS_TYPE_PROB_REQ | BSS_TYPE_PROB_RSP.
Definition rtw_get_wps_ie_from_scan_queue (buf : list Z) (in_ie in_len : Z) (frame_type : bss_type) : res (option (Z * Z)) :=
  match frame_type with
  | BSS_TYPE_BCN | BSS_TYPE_PROB_RSP => rtw_get_wps_ie buf (in_ie + 12) (u32 (in_len - 12))
  | BSS_TYPE_PROB_REQ => rtw_get_wps_ie buf (in_ie + 0) (u32 (in_len - 0))
  | BSS_TYPE_UNDEF => Ok None
  end.

Definition wpa_oui_type : list Z := [0x00; 0x50; 0xf2; 0x01].

(** [limit_new] and the position; an element with the right start and version ends it. *)
Fixpoint get_wpa_loop (fuel : nat) (buf : list Z) (pie pbuf limit limit_new : Z) : res (option (Z * Z)) :=
  match fuel with
  | O => Diverge
  | S fuel =>
      r ← rtw_get_ie buf pbuf WLAN_EID_VENDOR_SPECIFIC limit_new;
      match r with
      | None => Ok None
      | Some (p, len) =>
          m ← same_at buf (p + 2) wpa_oui_type;
          v ← (if m : bool then same_at buf (p + 6) [0x01; 0x00] else Ok false);
          if v : bool then Ok (Some (p, len))
          else
            let limit_new := limit - (p - pie) - 2 - len in
            if limit_new <=? 0 then Ok None else get_wpa_loop fuel buf pie (p + (2 + len)) limit limit_new
      end
  end.

Definition rtw_get_wpa_ie (buf : list Z) (pie limit : Z) : res (option (Z * Z)) :=
  get_wpa_loop (S (Z.to_nat limit)) buf pie pie limit limit.

Definition _WPA2_IE_ID_ : Z := 0x30.
Definition rtw_get_wpa2_ie (buf : list Z) (pie limit : Z) : res (option (Z * Z)) := rtw_get_ie buf pie _WPA2_IE_ID_ limit.

(** * Replacing and removing *)

(** The result, the buffer and the new length; [alloc]: whether the memory for the backup
    of the rest is there. *)
Definition rtw_ies_update_ie (alloc : bool) (buf : list Z) (ies ies_len ies_offset eid : Z) (content : list Z)
    : res (Z * list Z * Z) :=
  let content_len := Z.of_nat (length content) in
  if (ies_len =? 0) || (ies_len <=? ies_offset) then Ok (_FAIL, buf, ies_len)
  else
    let start := ies + ies_offset in
    let search_len := u32 (ies_len - ies_offset) in
    r ← rtw_get_ie buf start eid (s32 search_len);
    match r with
    | None => Ok (_FAIL, buf, ies_len)
    | Some (target_ie, target_ielen) =>
        if target_ielen =? 0 then Ok (_FAIL, buf, ies_len)
        else if target_ielen =? content_len then
          buf ← store (target_ie + 2) content buf;
          buf ← store (target_ie + 1) [u8 content_len] buf;
          Ok (_SUCCESS, buf, ies_len)
        else
          let remain_ies := target_ie + 2 + target_ielen in
          let remain_len := u32 (search_len - (remain_ies - start)) in
          if negb alloc then Ok (_FAIL, buf, ies_len)
          else
            backup ← load remain_ies remain_len buf;
            buf ← store (target_ie + 2) content buf;
            buf ← store (target_ie + 1) [u8 content_len] buf;
            buf ← store (target_ie + 2 + content_len) backup buf;
            Ok (_SUCCESS, buf, u32 (ies_len + (content_len - target_ielen)))
    end.

Fixpoint remove_ie_loop (fuel : nat) (buf : list Z) (ies_len start search_len eid : Z) (oui : option (list Z)) (ret : Z)
    : res (Z * list Z * Z) :=
  match fuel with
  | O => Diverge
  | S fuel =>
      r ← rtw_get_ie_ex buf start search_len eid oui;
      match r with
      | None => Ok (ret, buf, ies_len)
      | Some (target_ie, target_ielen) =>
          if target_ielen =? 0 then Ok (ret, buf, ies_len)
          else
            let remain_ies := target_ie + target_ielen in
            let remain_len := u32 (search_len - (remain_ies - start)) in
            buf ← move target_ie remain_ies remain_len buf;
            remove_ie_loop fuel buf (u32 (ies_len - target_ielen)) target_ie remain_len eid oui _SUCCESS
      end
  end.

Definition rtw_ies_remove_ie (buf : list Z) (ies ies_len offset eid : Z) (oui : option (list Z)) : res (Z * list Z * Z) :=
  if ies_len <=? offset then Ok (_FAIL, buf, ies_len)
  else
    let search_len := u32 (ies_len - offset) in
    remove_ie_loop (S (Z.to_nat search_len)) buf ies_len (ies + offset) search_len eid oui _FAIL.

(** The same loop clears what it has freed. *)
Fixpoint del_loop (fuel : nat) (find : list Z -> Z -> Z -> res (option (Z * Z))) (buf : list Z) (ies ies_len : Z)
    : res (list Z * Z) :=
  match fuel with
  | O => Diverge
  | S fuel =>
      r ← find buf ies ies_len;
      match r with
      | None => Ok (buf, ies_len)
      | Some (target_ie, target_ie_len) =>
          if target_ie_len =? 0 then Ok (buf, ies_len)
          else
            let next_ie := target_ie + target_ie_len in
            let remain_len := u32 (ies_len - (next_ie - ies)) in
            buf ← move target_ie next_ie remain_len buf;
            buf ← store (target_ie + remain_len) (replicate (Z.to_nat target_ie_len) 0) buf;
            del_loop fuel find buf ies (u32 (ies_len - target_ie_len))
      end
  end.

Definition rtw_del_p2p_ie (buf : list Z) (ies ies_len : Z) : res (list Z * Z) :=
  del_loop (S (Z.to_nat ies_len)) rtw_get_p2p_ie buf ies ies_len.
Definition rtw_del_wfd_ie (buf : list Z) (ies ies_len : Z) : res (list Z * Z) :=
  del_loop (S (Z.to_nat ies_len)) rtw_get_wfd_ie buf ies ies_len.

(** * Extended capabilities *)

Definition WLAN_EID_EXT_CAP : Z := 127.
Definition WLAN_EID_EXT_CAP_MAX_LEN : Z := 10.

(** Data and length; the array has [WLAN_EID_EXT_CAP_MAX_LEN] bytes. *)
Definition rtw_add_ext_cap_info (data : list Z) (len cap_info : Z) : res (list Z * Z) :=
  let byte_offset := cap_info .>> 3 in
  x ← byte_at data byte_offset;
  data ← store byte_offset [u8 (x .| (1 .<< (cap_info mod 8)))] data;
  Ok (data, if len <? byte_offset + 1 then byte_offset + 1 else len).

Definition used_len (data : list Z) (max_len : Z) (i : nat) : Z :=
  if negb (tbl data (Z.of_nat i) =? 0) then Z.of_nat i + 1 else max_len.

Definition rtw_remove_ext_cap_info (data : list Z) (cap_info : Z) : res (list Z * Z) :=
  let byte_offset := cap_info .>> 3 in
  x ← byte_at data byte_offset;
  data ← store byte_offset [u8 (x .& Z.lnot (1 .<< (cap_info mod 8)))] data;
  _ ← load 0 WLAN_EID_EXT_CAP_MAX_LEN data;
  Ok (data, foldl (used_len data) 0 (seq 0 (Z.to_nat WLAN_EID_EXT_CAP_MAX_LEN))).

(** The element follows the data of the driver: added, replaced or removed. *)
Definition rtw_update_ext_cap_ie (alloc : bool) (data : list Z) (data_len : Z) (buf : list Z) (ies ies_len ies_offset : Z)
    : res (list Z * Z) :=
  if negb (data_len =? 0) then
    r ← rtw_get_ie buf (ies + ies_offset) WLAN_EID_EXT_CAP (s32 (u32 (ies_len - ies_offset)));
    match r with
    | None =>
        r ← rtw_set_ie buf (ies + ies_len) WLAN_EID_EXT_CAP data_len data 0;
        let '(buf, _, ie_len) := r in Ok (buf, u32 (ies_len + ie_len))
    | Some _ =>
        content ← load 0 data_len data;
        r ← rtw_ies_update_ie alloc buf ies ies_len ies_offset WLAN_EID_EXT_CAP content;
        let '(_, buf, ies_len) := r in Ok (buf, ies_len)
    end
  else
    r ← rtw_ies_remove_ie buf ies ies_len ies_offset WLAN_EID_EXT_CAP None;
    let '(_, buf, ies_len) := r in Ok (buf, ies_len).

Definition rtw_parse_ext_cap_ie (data : list Z) (data_len : Z) (buf : list Z) (ies ies_len ies_offset : Z) : res (list Z * Z) :=
  r ← rtw_get_ie buf (ies + ies_offset) WLAN_EID_EXT_CAP (s32 (u32 (ies_len - ies_offset)));
  match r with
  | None => Ok (data, data_len)
  | Some (p, len) =>
      bs ← load (p + 2) len buf;
      if data_len =? 0 then data ← store 0 bs data; Ok (data, len)
      else
        old ← load 0 len data;
        data ← store 0 (zip_with Z.lor old bs) data; Ok (data, data_len)
  end.

(** * Elements and their encoding *)

Record elem := mk_elem { e_id : Z; e_data : list Z }.

Definition enc1 (e : elem) : list Z := e_id e :: Z.of_nat (length (e_data e)) :: e_data e.
Definition encode (es : list elem) : list Z := concat (map enc1 es).

Lemma encode_cons e es : encode (e :: es) = e_id e :: Z.of_nat (length (e_data e)) :: e_data e ++ encode es.
Proof. done. Qed.

Lemma encode_app es1 es2 : encode (es1 ++ es2) = encode es1 ++ encode es2.
Proof. unfold encode. by rewrite map_app, concat_app. Qed.

Lemma length_enc1 e : length (enc1 e) = (2 + length (e_data e))%nat.
Proof. done. Qed.

Lemma length_encode_cons e es : length (encode (e :: es)) = (2 + length (e_data e) + length (encode es))%nat.
Proof. rewrite encode_cons. cbn. rewrite length_app. lia. Qed.

(** An element that a search looks for. *)
Definition matches (eid : Z) (oui : option (list Z)) (e : elem) : bool :=
  (eid =? e_id e) && match oui with None => true | Some o => bool_decide (take (length o) (e_data e) = o) end.

(** The bytes compared belong to the element. *)
Definition oui_room (eid : Z) (oui : option (list Z)) (e : elem) : Prop :=
  e_id e = eid -> (length (default [] oui) <= length (e_data e))%nat.

(** The first two bytes of an element. *)
Lemma elem_bytes a e b :
  byte_at (a ++ enc1 e ++ b) (Z.of_nat (length a)) = Ok (e_id e) /\
  byte_at (a ++ enc1 e ++ b) (Z.of_nat (length a) + 1) = Ok (Z.of_nat (length (e_data e))).
Proof.
  split; [by apply (byte_at_app _ a (e_id e))|].
  replace (a ++ enc1 e ++ b) with ((a ++ [e_id e]) ++ Z.of_nat (length (e_data e)) :: e_data e ++ b) by (unfold enc1; by flat_app).
  apply byte_at_app. rewrite length_app. cbn. lia.
Qed.

Lemma ie_match_spec eid oui e a b p :
  oui_room eid oui e -> p = Z.of_nat (length a) ->
  ie_match (a ++ enc1 e ++ b) eid oui (e_id e) p = Ok (matches eid oui e).
Proof.
  intros R ->. unfold ie_match, matches. destruct (Z.eqb_spec eid (e_id e)) as [E|]; [|done]. cbn [negb andb].
  destruct oui as [o|]; [|done]. specialize (R (eq_sym E)). cbn in R.
  replace (a ++ enc1 e ++ b) with ((a ++ [e_id e; Z.of_nat (length (e_data e))]) ++ take (length o) (e_data e) ++ drop (length o) (e_data e) ++ b).
  2:{ unfold enc1. rewrite <- !app_assoc. cbn [app]. by rewrite app_assoc, take_drop. }
  rewrite same_at_app; [done|rewrite length_app; cbn; lia|rewrite length_take; lia].
Qed.

(** The same test where it is written out. *)
Lemma vendor_test oui e a b :
  oui_room WLAN_EID_VENDOR_SPECIFIC (Some oui) e ->
  (if e_id e =? WLAN_EID_VENDOR_SPECIFIC then same_at (a ++ enc1 e ++ b) (Z.of_nat (length a) + 2) oui else Ok false) =
  Ok (matches WLAN_EID_VENDOR_SPECIFIC (Some oui) e).
Proof.
  intros R. rewrite <- (ie_match_spec _ _ e a b _ R eq_refl). unfold ie_match. rewrite (Z.eqb_sym (e_id e)).
  by destruct (WLAN_EID_VENDOR_SPECIFIC =? e_id e).
Qed.

(** The loop of the searches, on elements. *)
Fixpoint ie_find (more stop : Z -> bool) (m : elem -> bool) (in_ie cnt : Z) (es : list elem) : option (Z * Z) :=
  match es with
  | [] => None
  | e :: es =>
      if more cnt then
        if stop cnt then None
        else if m e then Some (in_ie + cnt, Z.of_nat (length (enc1 e)))
        else ie_find more stop m in_ie (cnt + Z.of_nat (length (enc1 e))) es
      else None
  end.

Lemma ie_loop_spec fuel more stop eid oui in_ie cnt a es b :
  in_ie + cnt = Z.of_nat (length a) -> (length (encode es) < fuel)%nat ->
  more (cnt + Z.of_nat (length (encode es))) = false -> Forall (oui_room eid oui) es ->
  ie_loop fuel (a ++ encode es ++ b) more stop (ie_match (a ++ encode es ++ b) eid oui) in_ie cnt =
  Ok (ie_find more stop (matches eid oui) in_ie cnt es).
Proof.
  revert fuel cnt a. induction es as [|e es IH]; intros fuel cnt a P F M R.
  { destruct fuel as [|fuel]; [cbn in F; lia|]. cbn in M. rewrite Z.add_0_r in M. cbn [ie_loop ie_find]. by rewrite M. }
  apply Forall_cons in R as [Re R]. rewrite length_encode_cons in F, M.
  replace (a ++ encode (e :: es) ++ b) with (a ++ enc1 e ++ (encode es ++ b)) by (change (encode (e :: es)) with (enc1 e ++ encode es); by rewrite <- app_assoc).
  destruct fuel as [|fuel]; [lia|]. cbn [ie_loop ie_find]. destruct (more cnt); [|done].
  rewrite P. destruct (elem_bytes a e (encode es ++ b)) as [-> ->]. cbn [mbind res_bind]. destruct (stop cnt); [done|].
  rewrite ie_match_spec by done.
  cbn [mbind res_bind]. rewrite length_enc1.
  replace (Z.of_nat (2 + length (e_data e))) with (Z.of_nat (length (e_data e)) + 2) by lia.
  destruct (matches eid oui e); [done|].
  rewrite (app_assoc a). apply IH; [rewrite length_app, length_enc1; lia|lia| |done].
  rewrite <- M. f_equal. lia.
Qed.

(** The first element that matches: its position and length. *)
Fixpoint first_match (m : elem -> bool) (p : Z) (es : list elem) : option (Z * Z) :=
  match es with
  | [] => None
  | e :: es => if m e then Some (p, Z.of_nat (length (enc1 e))) else first_match m (p + Z.of_nat (length (enc1 e))) es
  end.

Lemma ie_find_all total m in_ie cnt es :
  cnt + Z.of_nat (length (encode es)) = total ->
  ie_find (fun cnt => cnt <? total) (fun _ => false) m in_ie cnt es = first_match m (in_ie + cnt) es.
Proof.
  revert cnt. induction es as [|e es IH]; intros cnt E; [done|]. rewrite length_encode_cons in E. cbn [ie_find first_match].
  destruct (Z.ltb_spec cnt total); [|lia]. destruct (m e); [done|].
  rewrite IH by (rewrite length_enc1; lia). f_equal. lia.
Qed.

Lemma get_ie_ex_spec eid oui a es b :
  Forall (oui_room eid oui) es ->
  rtw_get_ie_ex (a ++ encode es ++ b) (Z.of_nat (length a)) (Z.of_nat (length (encode es))) eid oui =
  Ok (first_match (matches eid oui) (Z.of_nat (length a)) es).
Proof.
  intros R. unfold rtw_get_ie_ex. destruct (Z.leb_spec (Z.of_nat (length (encode es))) 0) as [L|L].
  { destruct es as [|e es]; [done|]. rewrite length_encode_cons in L. lia. }
  rewrite (ie_loop_spec _ _ _ eid oui _ _ a es b) by (done || lia || (apply Z.ltb_ge; lia)).
  rewrite ie_find_all by done. by rewrite Z.add_0_r.
Qed.

(** What a match or its absence says. *)
Lemma first_match_some m p es q n :
  first_match m p es = Some (q, n) ->
  exists es1 e es2, es = es1 ++ e :: es2 /\ Forall (fun e => m e = false) es1 /\ m e = true /\
    q = p + Z.of_nat (length (encode es1)) /\ n = Z.of_nat (length (enc1 e)).
Proof.
  revert p. induction es as [|e es IH]; intros p E; [done|]. cbn [first_match] in E. destruct (m e) eqn:Me.
  - injection E as <- <-. exists [], e, es. split_and!; try done. cbn. lia.
  - destruct (IH _ E) as (es1 & e' & es2 & -> & F & M & -> & ->). exists (e :: es1), e', es2.
    split_and!; try done; [by constructor|]. rewrite length_encode_cons, length_enc1. lia.
Qed.

Lemma first_match_none m p es : first_match m p es = None -> Forall (fun e => m e = false) es.
Proof.
  revert p. induction es as [|e es IH]; intros p E; [constructor|]. cbn [first_match] in E.
  destruct (m e) eqn:Me; [done|]. constructor; eauto.
Qed.

Lemma first_match_at m p es1 e es2 :
  Forall (fun e => m e = false) es1 -> m e = true ->
  first_match m p (es1 ++ e :: es2) = Some (p + Z.of_nat (length (encode es1)), Z.of_nat (length (enc1 e))).
Proof.
  intros F M. revert p. induction F as [|x es1 Hx F IH]; intros p; cbn [first_match app].
  - rewrite M. cbn. do 2 f_equal. lia.
  - rewrite Hx, IH. rewrite length_encode_cons, length_enc1. do 2 f_equal. lia.
Qed.

(** ** [rtw_get_ie] *)

Definition content_of (r : option (Z * Z)) : option (Z * Z) := (fun '(p, n) => (p, n - 2)) <$> r.

Lemma get_ie_step fuel index i limit a e rest :
  get_ie_loop (S fuel) (a ++ enc1 e ++ rest) (Z.of_nat (length a)) i index limit =
  let len := Z.of_nat (length (e_data e)) in
  if e_id e =? index then Ok (Some (Z.of_nat (length a), len))
  else if limit <=? i + (len + 2) then Ok None
  else get_ie_loop fuel (a ++ enc1 e ++ rest) (Z.of_nat (length (a ++ enc1 e))) (i + (len + 2)) index limit.
Proof.
  cbn [get_ie_loop]. destruct (elem_bytes a e rest) as [-> ->].
  cbn [mbind res_bind]. replace (Z.of_nat (length (a ++ enc1 e))) with (Z.of_nat (length a) + (Z.of_nat (length (e_data e)) + 2))
    by (rewrite length_app, length_enc1; lia). done.
Qed.

Lemma get_ie_loop_spec fuel index i limit a es b :
  es <> [] -> (length (encode es) <= fuel)%nat -> limit = i + Z.of_nat (length (encode es)) ->
  get_ie_loop fuel (a ++ encode es ++ b) (Z.of_nat (length a)) i index limit =
  Ok (content_of (first_match (matches index None) (Z.of_nat (length a)) es)).
Proof.
  revert fuel i a. induction es as [|e es IH]; intros fuel i a N F ->; [done|]. rewrite length_encode_cons in *.
  destruct fuel as [|fuel]; [lia|].
  replace (a ++ encode (e :: es) ++ b) with (a ++ enc1 e ++ (encode es ++ b))
    by (change (encode (e :: es)) with (enc1 e ++ encode es); by rewrite <- app_assoc).
  rewrite get_ie_step. cbn [first_match]. cbv zeta. unfold matches at 1. rewrite andb_true_r, (Z.eqb_sym index).
  destruct (e_id e =? index). { unfold content_of. cbn [fmap option_fmap option_map]. rewrite length_enc1. do 3 f_equal. lia. }
  destruct es as [|e' es].
  { cbn [encode map concat length]. by rewrite (proj2 (Z.leb_le _ _)) by lia. }
  rewrite (proj2 (Z.leb_gt _ _)) by (rewrite length_encode_cons; lia).
  rewrite (app_assoc a (enc1 e)), IH by (done || lia). do 3 f_equal. rewrite length_app. lia.
Qed.

Lemma get_ie_spec index a es b :
  rtw_get_ie (a ++ encode es ++ b) (Z.of_nat (length a)) index (Z.of_nat (length (encode es))) =
  Ok (content_of (first_match (matches index None) (Z.of_nat (length a)) es)).
Proof.
  unfold rtw_get_ie. destruct es as [|e es]; [done|].
  destruct (Z.ltb_spec (Z.of_nat (length (encode (e :: es)))) 1) as [L|L]; [rewrite length_encode_cons in L; lia|].
  by apply get_ie_loop_spec; [|lia|].
Qed.

(** * Replacing *)

(** The stores of [rtw_ies_update_ie], with what is done after them: over a content of the
    same length, and over any, with the rest moved. *)
Lemma overwrite_content {B} (k : list Z -> res B) p A eid (old content rest : list Z) :
  p = Z.of_nat (length A) -> length old = length content -> (length content <= 255)%nat ->
  (buf ← store (p + 2) content (A ++ [eid; Z.of_nat (length old)] ++ old ++ rest);
   buf ← store (p + 1) [u8 (Z.of_nat (length content))] buf; k buf) =
  k (A ++ [eid; Z.of_nat (length content)] ++ content ++ rest).
Proof.
  intros -> E L. rewrite (app_assoc A), (store_at _ content) by (rewrite ?length_app; cbn; lia). cbn [mbind res_bind].
  change [eid; Z.of_nat (length old)] with ([eid] ++ [Z.of_nat (length old)]).
  rewrite (app_assoc A), <- (app_assoc (A ++ [eid])), (store_at _ [_]) by (rewrite ?length_app; cbn; lia).
  cbn [mbind res_bind]. rewrite u8_small by (unfold is_byte; lia). by rewrite <- app_assoc.
Qed.

Lemma replace_content {B} (k : list Z -> res B) p A eid (old content e2 room : list Z) :
  p = Z.of_nat (length A) -> (length content <= 255)%nat -> (length content <= length room)%nat ->
  exists rest, (length content + length rest = length old + length room)%nat /\
    (backup ← load (p + 2 + Z.of_nat (length old)) (Z.of_nat (length e2)) (A ++ [eid; Z.of_nat (length old)] ++ old ++ e2 ++ room);
     buf ← store (p + 2) content (A ++ [eid; Z.of_nat (length old)] ++ old ++ e2 ++ room);
     buf ← store (p + 1) [u8 (Z.of_nat (length content))] buf;
     buf ← store (p + 2 + Z.of_nat (length content)) backup buf; k buf) =
    k (A ++ [eid; Z.of_nat (length content)] ++ content ++ e2 ++ rest).
Proof.
  intros -> L R. set (h := [eid; Z.of_nat (length old)]).
  replace (load _ _ _) with (Ok e2).
  2:{ symmetry. rewrite (app_assoc h), (app_assoc A). apply load_at; [|done]. rewrite !length_app. cbn. lia. }
  cbn [mbind res_bind]. destruct (split_buffer (length content) (old ++ e2 ++ room)) as (x & y & Exy & Lx);
    [rewrite !length_app; lia|]. rewrite Exy. apply (f_equal length) in Exy. rewrite !length_app in Exy.
  rewrite (app_assoc A), (store_at _ content) by (rewrite ?length_app; cbn; lia). cbn [mbind res_bind].
  change h with ([eid] ++ [Z.of_nat (length old)]).
  rewrite (app_assoc A), <- (app_assoc (A ++ [eid])), (store_at _ [_]) by (rewrite ?length_app; cbn; lia).
  cbn [mbind res_bind]. destruct (split_buffer (length e2) y) as (y1 & y2 & -> & Ly); [lia|]. rewrite length_app in Exy.
  rewrite (app_assoc [_] content), (app_assoc (A ++ [eid])), (store_at _ e2) by (rewrite ?length_app; cbn; lia).
  cbn [mbind res_bind]. exists y2. split; [lia|]. rewrite u8_small by (unfold is_byte; lia). f_equal. by rewrite <- !app_assoc.
Qed.

(** [rtw_ies_update_ie] replaces the content of the first element with the identifier
    by a content of any length, moves what follows, and changes nothing else; without such
    an element it fails and changes nothing. The buffer needs room for what the elements
    grow by. *)
Theorem update_ie_correct a hdr es eid content room :
  Forall (fun e => (length (e_data e) <= 255)%nat) es -> (length content <= 255)%nat ->
  Z.of_nat (length hdr + length (encode es)) + 255 < 2 ^ 31 -> (length content <= length room)%nat ->
  (Forall (fun e => e_id e <> eid) es ->
    rtw_ies_update_ie true (a ++ hdr ++ encode es ++ room) (Z.of_nat (length a)) (Z.of_nat (length hdr + length (encode es)))
      (Z.of_nat (length hdr)) eid content =
    Ok (_FAIL, a ++ hdr ++ encode es ++ room, Z.of_nat (length hdr + length (encode es)))) /\
  (forall es1 old es2, es = es1 ++ mk_elem eid old :: es2 -> Forall (fun e => e_id e <> eid) es1 -> old <> [] ->
    exists rest,
      let es' := es1 ++ mk_elem eid content :: es2 in
      rtw_ies_update_ie true (a ++ hdr ++ encode es ++ room) (Z.of_nat (length a)) (Z.of_nat (length hdr + length (encode es)))
        (Z.of_nat (length hdr)) eid content =
      Ok (_SUCCESS, a ++ hdr ++ encode es' ++ rest, Z.of_nat (length hdr + length (encode es'))) /\
      length (encode es' ++ rest) = length (encode es ++ room)).
Proof.
  intros W Wc Hs Hr. change (2 ^ 31) with 2147483648 in Hs.
  assert (N : forall es, Forall (fun e => e_id e <> eid) es -> Forall (fun e => matches eid None e = false) es).
  { intros l Hl. eapply Forall_impl; [exact Hl|]. intros e Ne. unfold matches. rewrite andb_true_r. apply Z.eqb_neq. congruence. }
  assert (G : rtw_get_ie (a ++ hdr ++ encode es ++ room) (Z.of_nat (length a) + Z.of_nat (length hdr)) eid
    (s32 (u32 (Z.of_nat (length hdr + length (encode es)) - Z.of_nat (length hdr)))) =
    Ok (content_of (first_match (matches eid None) (Z.of_nat (length (a ++ hdr))) es))).
  { rewrite u32_small, s32_small by lia.
    replace (Z.of_nat (length a) + Z.of_nat (length hdr)) with (Z.of_nat (length (a ++ hdr))) by (rewrite length_app; lia).
    replace (Z.of_nat (length hdr + length (encode es)) - Z.of_nat (length hdr)) with (Z.of_nat (length (encode es))) by lia.
    rewrite (app_assoc a). apply get_ie_spec. }
  split.
  - intros F. unfold rtw_ies_update_ie. cbv zeta. destruct (_ || _); [done|]. rewrite G. cbn [mbind res_bind].
    destruct (first_match _ _ es) as [[q n]|] eqn:E; [|done].
    apply first_match_some in E as (es1 & e & es2 & -> & _ & M & _). apply N in F.
    apply Forall_app in F as [_ F]. apply Forall_cons in F as [F _]. congruence.
  - intros es1 old es2 -> F O. cbv zeta. rewrite !encode_app in *.
    set (e1 := encode es1) in *. set (e2 := encode es2) in *. set (c := Z.of_nat (length content)).
    assert (Lo : (length old <= 255)%nat /\ (0 < length old)%nat).
    { apply Forall_app in W as [_ W]. apply Forall_cons in W as [W _]. cbn in W. destruct old; [done|cbn in *; lia]. }
    assert (Enc : forall d, encode (mk_elem eid d :: es2) = eid :: Z.of_nat (length d) :: d ++ e2) by (intros; apply encode_cons).
    unfold rtw_ies_update_ie. cbv zeta. fold c.
    destruct (Z.eqb_spec (Z.of_nat (length hdr + length (e1 ++ encode (mk_elem eid old :: es2)))) 0) as [Z0|_];
      [rewrite Enc, length_app in Z0; cbn in Z0; lia|].
    destruct (Z.leb_spec (Z.of_nat (length hdr + length (e1 ++ encode (mk_elem eid old :: es2)))) (Z.of_nat (length hdr))) as [Z1|_];
      [rewrite Enc, length_app in Z1; cbn in Z1; lia|]. cbn [orb].
    rewrite G, first_match_at by (try apply N; try done; unfold matches; cbn; by rewrite Z.eqb_refl).
    fold e1. unfold content_of. cbn [fmap option_fmap option_map mbind res_bind]. rewrite length_enc1. cbn [e_data].
    set (A := a ++ hdr ++ e1). set (t := Z.of_nat (length (a ++ hdr)) + Z.of_nat (length e1)).
    assert (Ht : t = Z.of_nat (length A)) by (unfold t, A; rewrite !length_app; lia).
    replace (Z.of_nat (2 + length old) - 2) with (Z.of_nat (length old)) by lia.
    assert (Buf : forall d r, a ++ hdr ++ (e1 ++ encode (mk_elem eid d :: es2)) ++ r =
      A ++ [eid; Z.of_nat (length d)] ++ d ++ e2 ++ r)
      by (intros; unfold A; rewrite Enc, <- !app_assoc; cbn [app]; by rewrite <- app_assoc).
    assert (Len : forall d, length (e1 ++ encode (mk_elem eid d :: es2)) = (length e1 + 2 + length d + length e2)%nat)
      by (intros; rewrite Enc, length_app; cbn; rewrite length_app; lia).
    rewrite (Len old) in *. destruct (Z.eqb_spec (Z.of_nat (length old)) 0); [lia|].
    rewrite Buf. destruct (Z.eqb_spec (Z.of_nat (length old)) c) as [E|E].
    + exists room. rewrite (overwrite_content _ t A eid old content) by (done || lia).
      rewrite Buf, Len. split; [do 3 f_equal; lia|]. rewrite (length_app (e1 ++ _)), (length_app (e1 ++ encode (_ :: es2))), !Len. lia.
    + cbn [negb].
      replace (u32 (u32 (Z.of_nat (length hdr + (length e1 + 2 + length old + length e2)) - Z.of_nat (length hdr)) -
        (t + 2 + Z.of_nat (length old) - (Z.of_nat (length a) + Z.of_nat (length hdr))))) with (Z.of_nat (length e2)).
      2:{ rewrite (u32_small (_ - Z.of_nat (length hdr))), u32_small; unfold t; rewrite ?length_app; lia. }
      subst c. destruct (replace_content (fun buf => Ok (_SUCCESS, buf,
        u32 (Z.of_nat (length hdr + (length e1 + 2 + length old + length e2)) + (Z.of_nat (length content) - Z.of_nat (length old)))))
        t A eid old content e2 room Ht Wc Hr) as (rest & Lr & X).
      exists rest. rewrite X, Buf, Len, u32_small by lia. split; [do 3 f_equal; lia|].
      rewrite (length_app (e1 ++ _)), (length_app (e1 ++ encode (_ :: es2))), !Len. lia.
Qed.

(** * Removing *)

(** Nothing is removed where nothing matches. *)
Lemma keep_all (m : elem -> bool) es : Forall (fun e => m e = false) es -> List.filter (fun e => negb (m e)) es = es.
Proof. induction 1 as [|x l Hx _ IH]; [done|]. cbn. by rewrite Hx, IH. Qed.

Lemma none_exists (m : elem -> bool) es : Forall (fun e => m e = false) es -> existsb m es = false.
Proof. induction 1 as [|x l Hx _ IH]; [done|]. cbn. by rewrite Hx, IH. Qed.

Lemma remove_loop_spec eid oui es fuel a room ies_len ret :
  Forall (oui_room eid oui) es -> (length (encode es) < fuel)%nat ->
  Z.of_nat (length (encode es)) <= ies_len < 2 ^ 32 ->
  let kept := List.filter (fun e => negb (matches eid oui e)) es in
  exists rest,
    remove_ie_loop fuel (a ++ encode es ++ room) ies_len (Z.of_nat (length a)) (Z.of_nat (length (encode es))) eid oui ret =
    Ok (if existsb (matches eid oui) es then _SUCCESS else ret, a ++ encode kept ++ rest,
        ies_len - Z.of_nat (length (encode es)) + Z.of_nat (length (encode kept))) /\
    length (encode kept ++ rest) = length (encode es ++ room).
Proof.
  intros R F L kept. change (2 ^ 32) with 4294967296 in L. revert es a room ies_len ret R F L kept.
  induction fuel as [|fuel IH]; intros es a room ies_len ret R F L kept; [lia|]. cbn [remove_ie_loop].
  rewrite get_ie_ex_spec by done. cbn [mbind res_bind].
  destruct (first_match (matches eid oui) (Z.of_nat (length a)) es) as [[t n]|] eqn:E.
  - apply first_match_some in E as (es1 & e & es2 & -> & F1 & M & -> & ->).
    apply Forall_app in R as [R1 R]. apply Forall_cons in R as [_ R2].
    rewrite encode_app in F, L |- *. rewrite length_app, length_encode_cons in F, L.
    destruct (Z.eqb_spec (Z.of_nat (length (enc1 e))) 0) as [Z0|_]; [rewrite length_enc1 in Z0; lia|].
    pose proof (keep_all _ _ F1) as K1.
    assert (kept = es1 ++ List.filter (fun e => negb (matches eid oui e)) es2) as ->.
    { unfold kept. rewrite List.filter_app, K1. cbn. by rewrite M. }
    assert (existsb (matches eid oui) (es1 ++ e :: es2) = true) as ->
      by (rewrite existsb_app; cbn; rewrite M; apply orb_true_r).
    set (e1 := encode es1) in *. set (e2 := encode es2) in *.
    replace (u32 (Z.of_nat (length (e1 ++ encode (e :: es2))) -
      (Z.of_nat (length a) + Z.of_nat (length e1) + Z.of_nat (length (enc1 e)) - Z.of_nat (length a)))) with (Z.of_nat (length e2)).
    2:{ rewrite length_app, length_encode_cons, length_enc1, u32_small; fold e2; lia. }
    assert (a ++ (e1 ++ encode (e :: es2)) ++ room = (a ++ e1) ++ enc1 e ++ e2 ++ room) as ->
      by (change (encode (e :: es2)) with (enc1 e ++ e2); by rewrite <- !app_assoc).
    destruct (move_at (Z.of_nat (length a) + Z.of_nat (length e1)) (Z.of_nat (length a) + Z.of_nat (length e1) + Z.of_nat (length (enc1 e)))
      (Z.of_nat (length e2)) (a ++ e1) (enc1 e) e2 room) as (junk & -> & Lj); [rewrite ?length_app; lia..|].
    cbn [mbind res_bind]. replace (Z.of_nat (length a) + Z.of_nat (length e1)) with (Z.of_nat (length (a ++ e1))) by (rewrite length_app; lia).
    rewrite length_enc1 in Lj |- *.
    destruct (IH es2 (a ++ e1) (junk ++ room) (u32 (ies_len - Z.of_nat (2 + length (e_data e)))) _SUCCESS R2) as (rest & X & Lr);
      [fold e2; lia|rewrite u32_small by lia; fold e2; change (2 ^ 32) with 4294967296; lia|].
    fold e2 in X, Lr. rewrite X, u32_small by lia. exists rest. rewrite encode_app. fold e1. split.
    + assert ((if existsb (matches eid oui) es2 then _SUCCESS else _SUCCESS) = _SUCCESS) as -> by (by case_match).
      rewrite (length_app e1 (encode (e :: es2))), length_encode_cons, (length_app e1). fold e2.
      do 2 f_equal; [f_equal; by rewrite <- !app_assoc|lia].
    + rewrite <- !app_assoc, (length_app e1), (length_app e1), Lr, !length_app, length_encode_cons. fold e2. lia.
  - apply first_match_none in E. rewrite (none_exists _ _ E).
    exists room. unfold kept. rewrite (keep_all _ _ E). split; [|done]. do 2 f_equal. lia.
Qed.

(** C33: [rtw_ies_remove_ie] removes every element with the identifier and the first bytes
    given, closes the gaps, keeps the others in order, and reports whether there was one.
    The elements it compares have to be as long as what they are compared with. *)
Theorem remove_ie_correct a hdr es eid oui room :
  Forall (oui_room eid oui) es -> Z.of_nat (length hdr + length (encode es)) < 2 ^ 32 ->
  let kept := List.filter (fun e => negb (matches eid oui e)) es in
  exists rest,
    rtw_ies_remove_ie (a ++ hdr ++ encode es ++ room) (Z.of_nat (length a)) (Z.of_nat (length hdr + length (encode es)))
      (Z.of_nat (length hdr)) eid oui =
    Ok (if existsb (matches eid oui) es then _SUCCESS else _FAIL, a ++ hdr ++ encode kept ++ rest,
        Z.of_nat (length hdr + length (encode kept))) /\
    length (encode kept ++ rest) = length (encode es ++ room).
Proof.
  intros R L kept. change (2 ^ 32) with 4294967296 in L. unfold rtw_ies_remove_ie.
  destruct (Z.leb_spec (Z.of_nat (length hdr + length (encode es))) (Z.of_nat (length hdr))).
  { destruct es as [|e es]; [by exists room|]. rewrite length_encode_cons in *. lia. }
  replace (u32 (Z.of_nat (length hdr + length (encode es)) - Z.of_nat (length hdr))) with (Z.of_nat (length (encode es)))
    by (rewrite u32_small; lia).
  replace (Z.of_nat (length a) + Z.of_nat (length hdr)) with (Z.of_nat (length (a ++ hdr))) by (rewrite length_app; lia).
  rewrite (app_assoc a).
  destruct (remove_loop_spec eid oui es (S (Z.to_nat (Z.of_nat (length (encode es))))) (a ++ hdr) room
    (Z.of_nat (length hdr + length (encode es))) _FAIL R) as (rest & -> & Lr); [lia|change (2 ^ 32) with 4294967296; lia|].
  exists rest. split; [|done]. do 2 f_equal; [f_equal; by rewrite <- app_assoc|]. fold kept. lia.
Qed.

(** * Vendor elements *)

Lemma matches_length eid oui e : matches eid (Some oui) e = true -> (length oui <= length (e_data e))%nat.
Proof.
  unfold matches. intros M. apply andb_true_iff in M as [_ M]. apply bool_decide_eq_true in M.
  apply (f_equal length) in M. rewrite length_take in M. lia.
Qed.

Lemma ie_find_vendor total m in_ie cnt es :
  (forall e, m e = true -> (4 <= length (e_data e))%nat) -> total <= MAX_IE_SZ ->
  cnt + Z.of_nat (length (encode es)) = total ->
  ie_find (fun cnt => cnt + 1 + 4 <? total) (fun cnt => MAX_IE_SZ <=? cnt + 1 + 4) m in_ie cnt es = first_match m (in_ie + cnt) es.
Proof.
  intros M4 T. revert cnt. induction es as [|e es IH]; intros cnt E; [done|]. cbn [ie_find].
  assert (Z0 : total <= cnt + 5 -> first_match m (in_ie + cnt) (e :: es) = None).
  { intros Lt. destruct (first_match _ _ _) as [[q n]|] eqn:X; [|done].
    apply first_match_some in X as (es1 & x & es2 & Ex & _ & Mx & _). apply M4 in Mx.
    rewrite Ex, encode_app, length_app, length_encode_cons in E. lia. }
  destruct (Z.ltb_spec (cnt + 1 + 4) total); [|symmetry; apply Z0; lia].
  rewrite (proj2 (Z.leb_gt MAX_IE_SZ _)) by lia. cbn [first_match]. destruct (m e); [done|].
  rewrite length_encode_cons in E. rewrite IH by (rewrite length_enc1; lia). f_equal. lia.
Qed.

Lemma vendor_loop_spec eid oui a es b :
  length oui = 4%nat -> Forall (oui_room eid (Some oui)) es -> Z.of_nat (length (encode es)) <= MAX_IE_SZ ->
  vendor_loop (a ++ encode es ++ b) (Z.of_nat (length a)) (Z.of_nat (length (encode es))) eid oui =
  Ok (first_match (matches eid (Some oui)) (Z.of_nat (length a)) es).
Proof.
  intros Lo R L. unfold vendor_loop. destruct (Z.leb_spec (Z.of_nat (length (encode es))) 0) as [L0|L0].
  { destruct es as [|e es]; [done|]. rewrite length_encode_cons in L0. lia. }
  rewrite (ie_loop_spec _ _ _ eid (Some oui) _ _ a es b) by (done || lia || (apply Z.ltb_ge; lia)).
  rewrite ie_find_vendor; [by rewrite Z.add_0_r| |done|done]. intros e M. apply matches_length in M. lia.
Qed.

Lemma del_loop_spec eid oui find es fuel a b :
  (forall buf ies n, find buf ies n = vendor_loop buf ies n eid oui) ->
  length oui = 4%nat -> Forall (oui_room eid (Some oui)) es -> Z.of_nat (length (encode es)) <= MAX_IE_SZ ->
  (length (encode es) < fuel)%nat ->
  let kept := List.filter (fun e => negb (matches eid (Some oui) e)) es in
  del_loop fuel find (a ++ encode es ++ b) (Z.of_nat (length a)) (Z.of_nat (length (encode es))) =
  Ok (a ++ encode kept ++ replicate (length (encode es) - length (encode kept)) 0 ++ b, Z.of_nat (length (encode kept))).
Proof.
  intros Hf Lo. revert es b. induction fuel as [|fuel IH]; intros es b R L F kept; [lia|]. cbn [del_loop].
  rewrite Hf, vendor_loop_spec by done. cbn [mbind res_bind].
  destruct (first_match (matches eid (Some oui)) (Z.of_nat (length a)) es) as [[t n]|] eqn:E.
  - apply first_match_some in E as (es1 & e & es2 & -> & F1 & M & -> & ->).
    rewrite encode_app in F, L |- *. rewrite length_app, length_encode_cons in F, L.
    destruct (Z.eqb_spec (Z.of_nat (length (enc1 e))) 0) as [Z0|_]; [rewrite length_enc1 in Z0; lia|].
    set (e1 := encode es1) in *. set (e2 := encode es2) in *. unfold MAX_IE_SZ in L.
    replace (u32 (Z.of_nat (length (e1 ++ encode (e :: es2))) -
      (Z.of_nat (length a) + Z.of_nat (length e1) + Z.of_nat (length (enc1 e)) - Z.of_nat (length a)))) with (Z.of_nat (length e2)).
    2:{ rewrite length_app, length_encode_cons, length_enc1, u32_small; fold e2; lia. }
    assert (a ++ (e1 ++ encode (e :: es2)) ++ b = (a ++ e1) ++ enc1 e ++ e2 ++ b) as ->
      by (change (encode (e :: es2)) with (enc1 e ++ e2); by rewrite <- !app_assoc).
    destruct (move_at (Z.of_nat (length a) + Z.of_nat (length e1)) (Z.of_nat (length a) + Z.of_nat (length e1) + Z.of_nat (length (enc1 e)))
      (Z.of_nat (length e2)) (a ++ e1) (enc1 e) e2 b) as (junk & -> & Lj); [rewrite ?length_app; lia..|].
    cbn [mbind res_bind]. rewrite Nat2Z.id, (app_assoc (a ++ e1)).
    rewrite (store_at _ (replicate (length (enc1 e)) 0) ((a ++ e1) ++ e2) junk b) by (rewrite ?length_app, ?length_replicate; lia).
    cbn [mbind res_bind]. rewrite <- (app_assoc a), <- (app_assoc a). unfold e1, e2. rewrite <- encode_app.
    set (n := length (enc1 e)). assert (Ln : n = (2 + length (e_data e))%nat) by done.
    replace (u32 (Z.of_nat (length (encode es1 ++ encode (e :: es2))) - Z.of_nat n)) with (Z.of_nat (length (encode (es1 ++ es2)))).
    2:{ rewrite encode_app, !length_app, length_encode_cons, u32_small; fold e1 e2; lia. }
    rewrite IH.
    + assert (kept = List.filter (fun e => negb (matches eid (Some oui) e)) (es1 ++ es2)) as <-.
      { unfold kept. rewrite !List.filter_app. cbn. by rewrite M. }
      assert (Kl : (length (encode kept) <= length (encode (es1 ++ es2)))%nat).
      { assert (G : forall l, (length (encode (List.filter (fun e => negb (matches eid (Some oui) e)) l)) <= length (encode l))%nat).
        { intros l. induction l as [|x l IHl]; [done|]. cbn [List.filter]. case_match; rewrite ?length_encode_cons; lia. }
        unfold kept. rewrite List.filter_app. cbn [List.filter]. rewrite M. cbn [negb]. rewrite <- List.filter_app. apply G. }
      rewrite (app_assoc (replicate _ 0)), <- replicate_add.
      replace (length (encode (es1 ++ es2)) - length (encode kept) + n)%nat with
        (length (encode es1 ++ encode (e :: es2)) - length (encode kept))%nat; [done|].
      rewrite encode_app, length_app in Kl |- *. rewrite length_app, length_encode_cons. lia.
    + apply Forall_app in R as [R1 R]. apply Forall_cons in R as [_ R2]. apply Forall_app. done.
    + rewrite encode_app, length_app. unfold MAX_IE_SZ. fold e1 e2. lia.
    + rewrite encode_app, length_app. fold e1 e2. lia.
  - apply first_match_none in E. unfold kept. by rewrite (keep_all _ _ E), Nat.sub_diag.
Qed.

(** [rtw_del_p2p_ie] and [rtw_del_wfd_ie] remove exactly the elements of their vendor
    type, close the gaps, and clear what they have freed. *)
Theorem del_vendor_correct a es b :
  Forall (oui_room WLAN_EID_VENDOR_SPECIFIC (Some p2p_oui)) es -> Z.of_nat (length (encode es)) <= MAX_IE_SZ ->
  let kept oui := List.filter (fun e => negb (matches WLAN_EID_VENDOR_SPECIFIC (Some oui) e)) es in
  let result oui := Ok (a ++ encode (kept oui) ++ replicate (length (encode es) - length (encode (kept oui))) 0 ++ b,
    Z.of_nat (length (encode (kept oui)))) in
  rtw_del_p2p_ie (a ++ encode es ++ b) (Z.of_nat (length a)) (Z.of_nat (length (encode es))) = result p2p_oui /\
  rtw_del_wfd_ie (a ++ encode es ++ b) (Z.of_nat (length a)) (Z.of_nat (length (encode es))) = result wfd_oui.
Proof. intros R L kept result. split; apply del_loop_spec; (done || lia). Qed.

(** * Extended capabilities *)

Definition has_cap (data : list Z) (c : Z) : bool := Z.testbit (tbl data (c .>> 3)) (c mod 8).

(** The length is up to the last byte that is not zero. *)
Definition ext_cap_ok (data : list Z) (len : Z) : Prop :=
  Z.of_nat (length data) = WLAN_EID_EXT_CAP_MAX_LEN /\ bytes data /\ 0 <= len <= WLAN_EID_EXT_CAP_MAX_LEN /\
  (forall i, len <= i -> tbl data i = 0) /\ (0 < len -> tbl data (len - 1) <> 0).

Lemma cap_index c : 0 <= c < 80 -> 0 <= c .>> 3 < 10 /\ 0 <= c mod 8 < 8 /\ c = 8 * (c .>> 3) + c mod 8.
Proof.
  intros Hc. rewrite Z.shiftr_div_pow2 by lia. change (2 ^ 3) with 8.
  pose proof (Z.div_mod c 8). pose proof (Z.mod_pos_bound c 8). lia.
Qed.

Lemma set_bit_byte x k : is_byte x -> 0 <= k < 8 ->
  u8 (x .| (1 .<< k)) = Z.setbit x k /\ u8 (x .& Z.lnot (1 .<< k)) = Z.clearbit x k /\ Z.setbit x k <> 0.
Proof.
  intros Hx Hk.
  assert (G : forallb (fun x => forallb (fun k => (u8 (x .| (1 .<< k)) =? Z.setbit x k) && (u8 (x .& Z.lnot (1 .<< k)) =? Z.clearbit x k) &&
    negb (Z.setbit x k =? 0)) (seqZ 0 8)) byte_range = true) by (vm_compute; reflexivity).
  pose proof (range_cases 8 _ (byte_cases _ G x Hx) k Hk) as E. cbn beta in E.
  rewrite !andb_true_iff, negb_true_iff, !Z.eqb_eq, Z.eqb_neq in E. tauto.
Qed.

Lemma used_len_spec data n m :
  let r := foldl (used_len data) m (seq 0 n) in
  (r = m /\ forall i, (i < n)%nat -> tbl data (Z.of_nat i) = 0) \/
  (0 < r <= Z.of_nat n /\ tbl data (r - 1) <> 0 /\ forall i, r <= Z.of_nat i < Z.of_nat n -> tbl data (Z.of_nat i) = 0).
Proof.
  induction n as [|n IH]; [left; split; [done|lia]|]. intros r. unfold r. rewrite seq_S, foldl_app. cbn [foldl Nat.add].
  set (r0 := foldl (used_len data) m (seq 0 n)) in *. unfold used_len. destruct (Z.eqb_spec (tbl data (Z.of_nat n)) 0) as [E|E]; cbn [negb].
  - destruct IH as [[-> Z0]|(R & N & Z0)]; [left|right]; split_and!; try done; try lia.
    + intros i Hi. destruct (decide (i = n)) as [->|]; [done|]. apply Z0. lia.
    + intros i Hi. destruct (decide (i = n)) as [->|]; [done|]. apply Z0. lia.
  - right. split_and!; [lia|lia| |lia]. by replace (Z.of_nat n + 1 - 1) with (Z.of_nat n) by lia.
Qed.

Lemma has_cap_insert data i x c' :
  0 <= i < Z.of_nat (length data) -> 0 <= c' < 80 ->
  has_cap (<[Z.to_nat i := x]> data) c' = if i =? c' .>> 3 then Z.testbit x (c' mod 8) else has_cap data c'.
Proof.
  intros Hi Hc'. destruct (cap_index c' Hc') as (Hi' & _). unfold has_cap. rewrite tbl_insert by lia. by case_match.
Qed.

Lemma add_cap_ok data len c :
  ext_cap_ok data len -> 0 <= c < 80 ->
  exists data' len', rtw_add_ext_cap_info data len c = Ok (data', len') /\ ext_cap_ok data' len' /\
    forall c', 0 <= c' < 80 -> has_cap data' c' = (c' =? c) || has_cap data c'.
Proof.
  intros (L & B & Ll & Zs & Nz) Hc. unfold WLAN_EID_EXT_CAP_MAX_LEN in *.
  destruct (cap_index c Hc) as (Hi & Hk & Ec). unfold rtw_add_ext_cap_info. set (i := c .>> 3) in *. set (k := c mod 8) in *.
  destruct (set_bit_byte (tbl data i) k (tbl_byte _ _ B) Hk) as (S1 & _ & S3).
  rewrite load1 by lia. cbn [mbind res_bind]. rewrite store1 by lia. cbn [mbind res_bind].
  eexists _, _. split; [reflexivity|]. split; [split_and!|].
  - by rewrite length_insert.
  - apply insert_bytes; [done|apply u8_range].
  - case_match; lia.
  - unfold WLAN_EID_EXT_CAP_MAX_LEN. case_match; lia.
  - intros j Hj. assert (i < j /\ len <= j) as [? ?] by (destruct (Z.ltb_spec len (i + 1)); lia).
    rewrite tbl_insert by lia. rewrite (proj2 (Z.eqb_neq i j)) by lia. by apply Zs.
  - intros Hp. destruct (Z.ltb_spec len (i + 1)).
    + rewrite tbl_insert by lia. rewrite (proj2 (Z.eqb_eq i _)) by lia. by rewrite S1.
    + rewrite tbl_insert by lia. case_match; [by rewrite S1|]. apply Nz. lia.
  - intros c' Hc'. rewrite has_cap_insert, S1 by lia.
    destruct (cap_index c' Hc') as (Hi' & Hk' & Ec'). destruct (Z.eqb_spec i (c' .>> 3)) as [Ei|Ni].
    + rewrite Z.setbit_eqb by lia. unfold has_cap. rewrite <- Ei. f_equal. apply eq_true_iff_eq. rewrite !Z.eqb_eq. lia.
    + rewrite (proj2 (Z.eqb_neq c' c)) by lia. done.
Qed.

Lemma remove_cap_ok data len c :
  ext_cap_ok data len -> 0 <= c < 80 ->
  exists data' len', rtw_remove_ext_cap_info data c = Ok (data', len') /\ ext_cap_ok data' len' /\
    forall c', 0 <= c' < 80 -> has_cap data' c' = negb (c' =? c) && has_cap data c'.
Proof.
  intros (L & B & Ll & Zs & Nz) Hc. unfold WLAN_EID_EXT_CAP_MAX_LEN in *.
  destruct (cap_index c Hc) as (Hi & Hk & Ec). unfold rtw_remove_ext_cap_info. set (i := c .>> 3) in *. set (k := c mod 8) in *.
  destruct (set_bit_byte (tbl data i) k (tbl_byte _ _ B) Hk) as (_ & S2 & _).
  rewrite load1 by lia. cbn [mbind res_bind]. rewrite store1 by lia. cbn [mbind res_bind].
  set (data' := <[Z.to_nat i := _]> data). assert (L' : length data' = length data) by apply length_insert.
  assert (load 0 WLAN_EID_EXT_CAP_MAX_LEN data' = Ok (window 0 10 data')) as ->.
  { unfold load, WLAN_EID_EXT_CAP_MAX_LEN. by rewrite L', !(proj2 (Z.leb_le _ _)) by lia. }
  cbn [mbind res_bind]. eexists _, _. split; [reflexivity|].
  assert (Beyond : forall j, 10 <= j -> tbl data' j = 0).
  { intros j Hj. unfold tbl. rewrite (proj2 (lookup_ge_None _ _)); [done|]. rewrite L'. lia. }
  pose proof (used_len_spec data' 10 0) as U. cbv zeta in U. change (Z.to_nat WLAN_EID_EXT_CAP_MAX_LEN) with 10%nat.
  set (r := foldl (used_len data') 0 (seq 0 10)) in *.
  assert (R : 0 <= r <= 10) by (destruct U as [[-> _]|(? & _)]; lia). split.
  - split_and!; [by rewrite L'|apply insert_bytes; [done|apply u8_range]|lia|unfold WLAN_EID_EXT_CAP_MAX_LEN; lia| |].
    + intros j Hj. destruct (Z.lt_ge_cases j 10); [|by apply Beyond]. rewrite <- (Z2Nat.id j) by lia.
      destruct U as [[Er Z0]|(Er & _ & Z0)]; apply Z0; lia.
    + intros Hp. destruct U as [[-> _]|(_ & N & _)]; [lia|done].
  - intros c' Hc'. unfold data'. rewrite has_cap_insert, S2 by lia.
    destruct (cap_index c' Hc') as (Hi' & Hk' & Ec'). destruct (Z.eqb_spec i (c' .>> 3)) as [Ei|Ni].
    + rewrite Z.clearbit_eqb by lia. unfold has_cap. rewrite <- Ei, andb_comm. do 2 f_equal. apply eq_true_iff_eq. rewrite !Z.eqb_eq. lia.
    + rewrite (proj2 (Z.eqb_neq c' c)) by lia. done.
Qed.

(** The extended capabilities: the recorded length is always up to the last byte that
    is not zero; adding and removing change the one capability and no other; a number
    beyond the array is an access outside of it. *)
Theorem ext_cap_invariant data len c :
  ext_cap_ok data len -> 0 <= c < 256 ->
  (80 <= c -> rtw_add_ext_cap_info data len c = Fault /\ rtw_remove_ext_cap_info data c = Fault) /\
  (c < 80 ->
    (exists data' len', rtw_add_ext_cap_info data len c = Ok (data', len') /\ ext_cap_ok data' len' /\
      forall c', 0 <= c' < 80 -> has_cap data' c' = (c' =? c) || has_cap data c') /\
    (exists data' len', rtw_remove_ext_cap_info data c = Ok (data', len') /\ ext_cap_ok data' len' /\
      forall c', 0 <= c' < 80 -> has_cap data' c' = negb (c' =? c) && has_cap data c')).
Proof.
  intros Hok Hc. split; [|intros Hlt; split; [apply add_cap_ok|apply (remove_cap_ok _ len)]; (done || lia)].
  intros Hge. destruct Hok as (L & _). unfold WLAN_EID_EXT_CAP_MAX_LEN in L.
  assert (F : byte_at data (c .>> 3) = Fault).
  { unfold byte_at, load. rewrite Z.shiftr_div_pow2 by lia. change (2 ^ 3) with 8.
    pose proof (Z.div_mod c 8). pose proof (Z.mod_pos_bound c 8).
    rewrite (proj2 (Z.leb_gt (c / 8 + 1) _)), andb_false_r by lia. done. }
  unfold rtw_add_ext_cap_info, rtw_remove_ext_cap_info. by rewrite F.
Qed.

(** [rtw_set_ie] writes one element. *)
Lemma set_ie_writes a x b eid content frlen :
  length x = (2 + length content)%nat -> is_byte eid -> (length content <= 255)%nat ->
  rtw_set_ie (a ++ x ++ b) (Z.of_nat (length a)) eid (Z.of_nat (length content)) content frlen =
  Ok (a ++ enc1 (mk_elem eid content) ++ b, Z.of_nat (length a) + Z.of_nat (length content) + 2,
    u32 (frlen + (Z.of_nat (length content) + 2))).
Proof.
  intros Lx He Lc. destruct x as [|x0 [|x1 x]]; [cbn in Lx; lia..|]. injection Lx as Lx. unfold rtw_set_ie.
  change (a ++ (x0 :: x1 :: x) ++ b) with (a ++ [x0] ++ (x1 :: x) ++ b). rewrite store_at by done. cbn [mbind res_bind].
  rewrite (app_assoc a). change ((x1 :: x) ++ b) with ([x1] ++ x ++ b).
  rewrite (store_at _ [u8 (Z.of_nat (length content))]) by (rewrite ?length_app; cbn; lia). cbn [mbind res_bind].
  rewrite !u8_small by (unfold is_byte in *; lia). rewrite (app_assoc (a ++ [eid])).
  destruct (Z.ltb_spec 0 (Z.of_nat (length content))) as [P|P].
  - rewrite <- (app_nil_r content) at 2. rewrite load_head by done. cbn [mbind res_bind].
    rewrite (store_at _ content) by (rewrite ?length_app; cbn; lia). cbn [mbind res_bind]. by rewrite <- !app_assoc.
  - destruct content as [|? ?]; [|cbn in P; lia]. destruct x; [|done]. cbn [mbind res_bind]. by rewrite <- !app_assoc.
Qed.

(** ** What malformed elements do

    The searches take the length of an element on trust. *)

(** A last element without its length is read past the end. *)
Lemma get_ie_reads_past : rtw_get_ie [0x05] 0 0x07 1 = Fault.
Proof. reflexivity. Qed.

(** An element that does not fit is found with the length it claims. *)
Lemma get_ie_overlong : rtw_get_ie [0x07; 200] 0 0x07 2 = Ok (Some (0, 200)).
Proof. reflexivity. Qed.

(** Removing it moves a remainder whose length has wrapped below zero. *)
Lemma remove_overlong : rtw_ies_remove_ie [0x07; 200; 1] 0 3 0 0x07 None = Fault.
Proof. reflexivity. Qed.

(** Extended capabilities of more than ten bytes are written past the array. *)
Lemma parse_ext_cap_overflows :
  rtw_parse_ext_cap_ie (replicate 10 0) 0 (127 :: 11 :: replicate 11 1) 0 13 0 = Fault.
Proof. reflexivity. Qed.

(** Merged capabilities beyond the recorded length do not extend it: a length of 1 with a
    second byte that is not zero. *)
Lemma parse_ext_cap_keeps_length :
  rtw_parse_ext_cap_ie (1 :: replicate 9 0) 1 [127; 2; 0; 4] 0 4 0 = Ok (1 :: 4 :: replicate 8 0, 1).
Proof. reflexivity. Qed.

(** ** At concrete frames *)

Definition sample : list elem :=
  [mk_elem 0 [97; 98]; mk_elem 127 [1]; mk_elem 221 [0x50; 0x6f; 0x9a; 0x09; 7]; mk_elem 1 [2; 4]; mk_elem 221 [0; 0x50; 0xf2; 1]].

Lemma sample_room oui : length oui = 4%nat -> Forall (oui_room WLAN_EID_VENDOR_SPECIFIC (Some oui)) sample.
Proof.
  intros L. unfold sample. rewrite !Forall_cons. unfold oui_room, WLAN_EID_VENDOR_SPECIFIC. cbn. rewrite L.
  split_and!; try lia. constructor.
Qed.

(** The element 127 grows by two bytes. *)
Lemma update_ie_correct_witness :
  exists rest, rtw_ies_update_ie true (replicate 12 0 ++ encode sample ++ replicate 3 9) 0 36 12 127 [4; 5; 6] =
  Ok (_SUCCESS, replicate 12 0 ++ encode (mk_elem 0 [97; 98] :: mk_elem 127 [4; 5; 6] :: drop 2 sample) ++ rest, 38).
Proof.
  destruct (proj2 (update_ie_correct [] (replicate 12 0) sample 127 [4; 5; 6] (replicate 3 9)
    ltac:(repeat constructor) ltac:(cbn; lia) ltac:(cbn; lia) ltac:(cbn; lia))
    [mk_elem 0 [97; 98]] [1] (drop 2 sample)) as (rest & E & _); [reflexivity|repeat constructor; discriminate|discriminate|].
  exists rest. exact E.
Defined.

Lemma remove_ie_correct_witness :
  exists rest, rtw_ies_remove_ie (replicate 12 0 ++ encode sample ++ []) 0 36 12 221 (Some p2p_oui) =
  Ok (_SUCCESS, replicate 12 0 ++ encode [mk_elem 0 [97; 98]; mk_elem 127 [1]; mk_elem 1 [2; 4]; mk_elem 221 [0; 0x50; 0xf2; 1]] ++ rest, 29).
Proof.
  destruct (remove_ie_correct [] (replicate 12 0) sample 221 (Some p2p_oui) [] (sample_room p2p_oui eq_refl) ltac:(cbn; lia))
    as (rest & E & _). exists rest. exact E.
Defined.

Lemma del_vendor_correct_witness :
  rtw_del_p2p_ie (encode sample ++ [8]) 0 24 =
  Ok (encode [mk_elem 0 [97; 98]; mk_elem 127 [1]; mk_elem 1 [2; 4]; mk_elem 221 [0; 0x50; 0xf2; 1]] ++ replicate 7 0 ++ [8], 17).
Proof. exact (proj1 (del_vendor_correct [] sample [8] (sample_room p2p_oui eq_refl) ltac:(cbn; unfold MAX_IE_SZ; lia))). Defined.

Lemma ext_cap_invariant_witness :
  exists data' len', rtw_add_ext_cap_info (replicate 10 0) 0 19 = Ok (data', len') /\ ext_cap_ok data' len' /\ has_cap data' 19 = true.
Proof.
  destruct (ext_cap_invariant (replicate 10 0) 0 19) as [_ R].
  - split_and!; [reflexivity|apply (bool_decide_eq_true_1 _); reflexivity|lia|unfold WLAN_EID_EXT_CAP_MAX_LEN; lia| |lia].
    intros i _. unfold tbl. destruct (Nat.ltb_spec (Z.to_nat i) 10).
    + by rewrite (lookup_replicate_2 10 0) by lia.
    + by rewrite (proj2 (lookup_ge_None _ _)) by (rewrite length_replicate; lia).
  - lia.
  - destruct (proj1 (R ltac:(lia))) as (d & l & E & Ok' & H). exists d, l. split; [exact E|]. split; [exact Ok'|].
    rewrite H by lia. reflexivity.
Defined.
