(* ===== verification/WifiAttr.v ===== *)
(** The attributes inside of WPS, P2P and WFD elements of the Wi-Fi driver
    ([core/rtw_ieee80211.c]).

    An attribute is an identifier, a length in two bytes and its data. The three kinds
    differ in the size of the identifier, the byte order of the length, and in what the
    search checks. *)

From S2P Require Import Prelude Mem WifiIe.

(** * Searching *)

Definition RTW_GET_BE16 (buf : list Z) (p : Z) : res Z := h ← byte_at buf p; l ← byte_at buf (p + 1); Ok (u16 ((h .<< 8) .| l)).
Definition RTW_GET_LE16 (buf : list Z) (p : Z) : res Z := h ← byte_at buf (p + 1); l ← byte_at buf p; Ok (u16 ((h .<< 8) .| l)).

(** [hdr] bytes of identifier and length, read by [get]; [more] is the condition of the loop
    on the offset, [fits] the check of the length. [attr_len] is a [u16]. *)
Fixpoint attr_loop (fuel : nat) (hdr : Z) (get : Z -> res (Z * Z)) (more : Z -> bool) (fits : Z -> bool) (target ie off : Z)
    : res (option (Z * Z)) :=
  match fuel with
  | O => Diverge
  | S fuel =>
      if more off then
        r ← get (ie + off);
        let '(attr_id, attr_data_len) := r in
        let attr_len := u16 (attr_data_len + hdr) in
        if negb (fits (off + attr_len)) then Ok None
        else if attr_id =? target then Ok (Some (ie + off, attr_len))
        else attr_loop fuel hdr get more fits target ie (off + attr_len)
      else Ok None
  end.

(** The element has to be of the vendor [oui]. *)
Definition vendor_ie (buf : list Z) (ie : Z) (oui : list Z) : res bool :=
  id ← byte_at buf ie; if id =? WLAN_EID_VENDOR_SPECIFIC then same_at buf (ie + 2) oui else Ok false.

Definition wps_get (buf : list Z) (p : Z) : res (Z * Z) := id ← RTW_GET_BE16 buf p; n ← RTW_GET_BE16 buf (p + 2); Ok (id, n).
Definition p2p_get (buf : list Z) (p : Z) : res (Z * Z) := id ← byte_at buf p; n ← RTW_GET_LE16 buf (p + 1); Ok (id, n).
Definition wfd_get (buf : list Z) (p : Z) : res (Z * Z) := id ← byte_at buf p; n ← RTW_GET_BE16 buf (p + 1); Ok (id, n).

(** The pointer and the length of the attribute. [fuel] bounds the turns of the loop. *)
Definition rtw_get_wps_attr (fuel : nat) (buf : list Z) (wps_ie wps_ielen target_attr_id : Z) : res (option (Z * Z)) :=
  v ← vendor_ie buf wps_ie wps_oui;
  if v : bool then
    attr_loop fuel 4 (wps_get buf) (fun off => off <? wps_ielen) (fun _ => true) target_attr_id wps_ie 6
  else Ok None.

Definition checked_attr (get : list Z -> Z -> res (Z * Z)) (oui : list Z) (fuel : nat) (buf : list Z) (ie ielen target_attr_id : Z)
    : res (option (Z * Z)) :=
  if ielen <=? 6 then Ok None
  else
    v ← vendor_ie buf ie oui;
    if v : bool then
      attr_loop fuel 3 (get buf) (fun off => off + 3 <=? ielen) (fun next => next <=? ielen) target_attr_id ie 6
    else Ok None.

Definition rtw_get_p2p_attr := checked_attr p2p_get p2p_oui.
Definition rtw_get_wfd_attr := checked_attr wfd_get wfd_oui.

(** * Contents

    [buf_content] is whether there is a buffer for the content, [len_content] the value
    behind the pointer to its length, if there is one. Pointer, copied bytes and length are
    the result; without the attribute the length is 0. *)

Definition attr_content (hdr : Z) (found : option (Z * Z)) (buf : list Z) (buf_content : bool) (len_content : option Z)
    : res (option (Z * list Z) * option Z) :=
  match found with
  | Some (attr_ptr, attr_len) =>
      if attr_len =? 0 then Ok (None, (fun _ => 0) <$> len_content)
      else
        let len_content :=
          (fun n => if (buf_content && (u32 (attr_len - hdr) <? n)) || negb buf_content then u32 (attr_len - hdr) else n) <$> len_content in
        bytes ← (if buf_content then load (attr_ptr + hdr) (default 1 len_content) buf else Ok []);
        Ok (Some (attr_ptr + hdr, bytes), len_content)
  | None => Ok (None, (fun _ => 0) <$> len_content)
  end.

Definition rtw_get_wps_attr_content (fuel : nat) (buf : list Z) (ie ielen id : Z) (buf_content : bool) (len_content : option Z) :=
  r ← rtw_get_wps_attr fuel buf ie ielen id; attr_content 4 r buf buf_content len_content.
Definition rtw_get_p2p_attr_content (fuel : nat) (buf : list Z) (ie ielen id : Z) (buf_content : bool) (len_content : option Z) :=
  r ← rtw_get_p2p_attr fuel buf ie ielen id; attr_content 3 r buf buf_content len_content.

(** The buffer takes the whole content here, whatever the length was before. *)
Definition rtw_get_wfd_attr_content (fuel : nat) (buf : list Z) (ie ielen id : Z) (buf_content : bool)
    : res (option (Z * list Z * Z)) :=
  r ← rtw_get_wfd_attr fuel buf ie ielen id;
  match r with
  | Some (attr_ptr, attr_len) =>
      if attr_len =? 0 then Ok None
      else
        bytes ← (if buf_content then load (attr_ptr + 3) (u32 (attr_len - 3)) buf else Ok []);
        Ok (Some (attr_ptr + 3, bytes, u32 (attr_len - 3)))
  | None => Ok None
  end.

(** The buffer and the length written; [pdata_attr] is [None] for the null pointer. *)
Definition rtw_set_p2p_attr_content (buf : list Z) (pbuf attr_id attr_len : Z) (pdata_attr : option (list Z)) : res (list Z * Z) :=
  buf ← store pbuf [u8 attr_id] buf;
  buf ← store (pbuf + 1) [u16 attr_len .& 0xff; u16 attr_len .>> 8] buf;
  buf ← (match pdata_attr with Some d => d ← load 0 attr_len d; store (pbuf + 3) d buf | None => Ok buf end);
  Ok (buf, attr_len + 3).

(** * Deleting *)

Fixpoint del_attr_loop (fuel : nat) (find : list Z -> Z -> Z -> res (option (Z * Z))) (buf : list Z) (ie ielen : Z)
    : res (list Z * Z) :=
  match fuel with
  | O => Diverge
  | S fuel =>
      r ← find buf ie ielen;
      match r with
      | None => Ok (buf, ielen)
      | Some (target_attr, target_attr_len) =>
          if target_attr_len =? 0 then Ok (buf, ielen)
          else
            let next_attr := target_attr + target_attr_len in
            let remain_len := u32 (ielen - (next_attr - ie)) in
            buf ← move target_attr next_attr remain_len buf;
            buf ← store (target_attr + remain_len) (replicate (Z.to_nat target_attr_len) 0) buf;
            l ← byte_at buf (ie + 1);
            buf ← store (ie + 1) [u8 (l - target_attr_len)] buf;
            del_attr_loop fuel find buf ie (u32 (ielen - target_attr_len))
      end
  end.

Definition rtw_del_p2p_attr (fuel : nat) (buf : list Z) (ie ielen attr_id : Z) : res (list Z * Z) :=
  del_attr_loop fuel (fun buf ie ielen => rtw_get_p2p_attr fuel buf ie ielen attr_id) buf ie ielen.
Definition rtw_del_wfd_attr (fuel : nat) (buf : list Z) (ie ielen attr_id : Z) : res (list Z * Z) :=
  del_attr_loop fuel (fun buf ie ielen => rtw_get_wfd_attr fuel buf ie ielen attr_id) buf ie ielen.

(** * Merging P2P elements *)

Fixpoint merged_len_loop (fuel : nat) (buf : list Z) (in_ie in_len i len : Z) : res Z :=
  match fuel with
  | O => Diverge
  | S fuel =>
      if i <? in_len then
        id ← byte_at buf (in_ie + i);
        m ← (if id =? WLAN_EID_VENDOR_SPECIFIC then same_at buf (in_ie + i + 2) p2p_oui else Ok false);
        n ← byte_at buf (in_ie + i + 1);
        merged_len_loop fuel buf in_ie in_len (i + (n + 2)) (if m : bool then len + (n - 4) else len)
      else Ok len
  end.

Definition rtw_get_p2p_merged_ies_len (buf : list Z) (in_ie in_len : Z) : res Z :=
  len ← merged_len_loop (S (Z.to_nat in_len)) buf in_ie in_len 0 0; Ok (u32 (len + 4)).

(** [out] is what has been written from [merge_ie] on; [len] is a [u8]. A content of less
    than four bytes gives [memcpy] a negative length. *)
Fixpoint merge_loop (fuel : nat) (buf : list Z) (in_ie in_len i len : Z) (out : list Z) : res (list Z * Z) :=
  match fuel with
  | O => Diverge
  | S fuel =>
      if i <? in_len then
        id ← byte_at buf (in_ie + i);
        m ← (if id =? WLAN_EID_VENDOR_SPECIFIC then same_at buf (in_ie + i + 2) p2p_oui else Ok false);
        n ← byte_at buf (in_ie + i + 1);
        if m : bool then
          bs ← load (in_ie + i + 6) (n - 4) buf;
          merge_loop fuel buf in_ie in_len (i + (n + 2)) (u8 (len + (n - 4))) (out ++ bs)
        else merge_loop fuel buf in_ie in_len (i + (n + 2)) len out
      else Ok (out, len)
  end.

Definition rtw_p2p_merge_ies (buf : list Z) (in_ie in_len : Z) : res (list Z * Z) :=
  r ← merge_loop (S (Z.to_nat in_len)) buf in_ie in_len 0 0 ([0xdd; 0x00] ++ p2p_oui);
  let '(out, len) := r in Ok (out, len + 4).

(** * What the searches promise for any bytes *)

Section safety.
Context (get : list Z -> Z -> res (Z * Z)) (buf : list Z) (ie ielen : Z).
Context (Hie : 0 <= ie) (Hlen : ie + ielen <= Z.of_nat (length buf)).
Context (Hget : forall p, 0 <= p -> p + 3 <= Z.of_nat (length buf) -> exists id n, get buf p = Ok (id, n) /\ 0 <= n < 65536).

Let search (fuel : nat) (target off : Z) : res (option (Z * Z)) :=
  attr_loop fuel 3 (get buf) (fun off => off + 3 <=? ielen) (fun next => next <=? ielen) target ie off.

Lemma checked_loop_safe fuel target off :
  0 <= off ->
  search fuel target off = Ok None \/ search fuel target off = Diverge \/
  exists p n, search fuel target off = Ok (Some (p, n)) /\ ie + off <= p /\ 0 <= n /\ p + n <= ie + ielen /\
    exists m, get buf p = Ok (target, m) /\ n = u16 (m + 3).
Proof.
  unfold search. revert off. induction fuel as [|fuel IH]; intros off Ho; [auto|]. cbn [attr_loop].
  destruct (Z.leb_spec (off + 3) ielen) as [L|L]; [|auto].
  destruct (Hget (ie + off)) as (id & n & E & Hn); [lia|lia|]. rewrite E. cbn [mbind res_bind].
  pose proof (u16_range (n + 3)) as R. set (l := u16 (n + 3)) in *.
  destruct (Z.leb_spec (off + l) ielen) as [Lf|Lf]; [|auto]. cbn [negb]. destruct (Z.eqb_spec id target) as [->|_].
  - right. right. exists (ie + off), l. split; [done|]. do 3 (split; [lia|]). by exists n.
  - destruct (IH (off + l)) as [->|[->|(p & m & -> & Hp & X)]]; [lia|auto|auto|].
    right. right. exists p, m. split; [done|]. split; [lia|done].
Qed.

(** The loop ends unless the length of an attribute wraps to nothing. *)
Lemma checked_loop_ends fuel target off :
  (forall p id, get buf p <> Ok (id, 65533)) -> 0 <= off -> (Z.to_nat (ielen - off) < fuel)%nat ->
  search fuel target off <> Diverge.
Proof.
  unfold search. intros S. revert off. induction fuel as [|fuel IH]; intros off Ho F; [lia|]. cbn [attr_loop].
  destruct (Z.leb_spec (off + 3) ielen) as [L|L]; [|done].
  destruct (Hget (ie + off)) as (id & n & E & Hn); [lia|lia|]. rewrite E. cbn [mbind res_bind].
  assert (P : 0 < u16 (n + 3)).
  { assert (n <> 65533) by (intros ->; by apply (S _ _ E)). unfold u16. change (2 ^ 16) with 65536.
    destruct (Z.lt_ge_cases (n + 3) 65536); [rewrite Z.mod_small; lia|].
    rewrite <- (Z.mod_unique (n + 3) 65536 1 (n + 3 - 65536)); lia. }
  destruct (negb _); [done|]. destruct (id =? target); [done|]. apply IH; lia.
Qed.
End safety.

Lemma get16_ok buf p : bytes buf -> 0 <= p -> p + 2 <= Z.of_nat (length buf) ->
  RTW_GET_LE16 buf p = Ok (tbl buf (p + 1) * 256 + tbl buf p) /\ RTW_GET_BE16 buf p = Ok (tbl buf p * 256 + tbl buf (p + 1)) /\
  0 <= tbl buf (p + 1) * 256 + tbl buf p < 65536 /\ 0 <= tbl buf p * 256 + tbl buf (p + 1) < 65536.
Proof.
  intros B Hp Hl. unfold RTW_GET_LE16, RTW_GET_BE16. rewrite !load1 by lia. cbn [mbind res_bind].
  pose proof (tbl_byte buf p B) as B0. pose proof (tbl_byte buf (p + 1) B) as B1.
  rewrite !(byte_pair _ _) by done. unfold is_byte in *. split_and!; (done || lia).
Qed.

Lemma p2p_get_ok buf p : bytes buf -> 0 <= p -> p + 3 <= Z.of_nat (length buf) ->
  p2p_get buf p = Ok (tbl buf p, tbl buf (p + 2) * 256 + tbl buf (p + 1)) /\ 0 <= tbl buf (p + 2) * 256 + tbl buf (p + 1) < 65536.
Proof.
  intros B Hp Hl. destruct (get16_ok buf (p + 1) B) as (E & _ & R & _); [lia|lia|].
  replace (p + 1 + 1) with (p + 2) in * by lia. unfold p2p_get. rewrite load1 by lia. cbn [mbind res_bind]. by rewrite E.
Qed.

Lemma wfd_get_ok buf p : bytes buf -> 0 <= p -> p + 3 <= Z.of_nat (length buf) ->
  wfd_get buf p = Ok (tbl buf p, tbl buf (p + 1) * 256 + tbl buf (p + 2)) /\ 0 <= tbl buf (p + 1) * 256 + tbl buf (p + 2) < 65536.
Proof.
  intros B Hp Hl. destruct (get16_ok buf (p + 1) B) as (_ & E & _ & R); [lia|lia|].
  replace (p + 1 + 1) with (p + 2) in * by lia. unfold wfd_get. rewrite load1 by lia. cbn [mbind res_bind]. by rewrite E.
Qed.

Lemma vendor_ie_ok buf ie oui : length oui = 4%nat -> 0 <= ie -> ie + 6 <= Z.of_nat (length buf) ->
  exists v, vendor_ie buf ie oui = Ok v.
Proof.
  intros L Hie Hl. unfold vendor_ie. rewrite load1 by lia. cbn [mbind res_bind]. case_match; [|eauto].
  unfold same_at, load. rewrite !(proj2 (Z.leb_le _ _)) by lia. cbn. eauto.
Qed.

Lemma checked_attr_safe get oui fuel buf ie ielen target :
  length oui = 4%nat -> 0 <= ie -> ie + ielen <= Z.of_nat (length buf) ->
  (forall p, 0 <= p -> p + 3 <= Z.of_nat (length buf) -> exists id n, get buf p = Ok (id, n) /\ 0 <= n < 65536) ->
  let r := checked_attr get oui fuel buf ie ielen target in
  (r = Ok None \/ r = Diverge \/ exists p n, r = Ok (Some (p, n)) /\ ie + 6 <= p /\ 0 <= n /\ p + n <= ie + ielen /\
    exists m, get buf p = Ok (target, m) /\ n = u16 (m + 3)) /\
  ((forall p id, get buf p <> Ok (id, 65533)) -> ielen < Z.of_nat fuel -> r <> Diverge).
Proof.
  intros L Hie Hl Hget r. unfold r, checked_attr. destruct (Z.leb_spec ielen 6) as [|H6]; [by split; [left|]|].
  destruct (vendor_ie_ok buf ie oui L Hie) as [v ->]; [lia|]. cbn [mbind res_bind]. destruct v; [|by split; [left|]].
  split.
  - apply (checked_loop_safe get buf ie ielen Hie Hl Hget fuel target 6). lia.
  - intros S F. apply (checked_loop_ends get buf ie ielen Hie Hl Hget fuel target 6 S); lia.
Qed.

(** C32: Whatever the bytes of a P2P or WFD element are, the search for an attribute stays
    inside the element, what it finds lies inside and has the identifier, and it ends
    unless some length is 65533, which plus the 3 bytes of the header wraps to nothing. *)
Theorem attr_search_safe fuel buf ie ielen id :
  bytes buf -> 0 <= ie -> ie + ielen <= Z.of_nat (length buf) ->
  (forall r, r = rtw_get_p2p_attr fuel buf ie ielen id \/ r = rtw_get_wfd_attr fuel buf ie ielen id ->
    r = Ok None \/ r = Diverge \/
    exists p n, r = Ok (Some (p, n)) /\ ie + 6 <= p /\ 0 <= n /\ p + n <= ie + ielen /\ tbl buf p = id) /\
  (ielen < Z.of_nat fuel ->
    ((forall p, tbl buf (p + 2) * 256 + tbl buf (p + 1) <> 65533) -> rtw_get_p2p_attr fuel buf ie ielen id <> Diverge) /\
    ((forall p, tbl buf (p + 1) * 256 + tbl buf (p + 2) <> 65533) -> rtw_get_wfd_attr fuel buf ie ielen id <> Diverge)).
Proof.
  intros B Hie Hl.
  assert (In : forall get p id m, get = p2p_get \/ get = wfd_get -> get buf p = Ok (id, m) -> 0 <= p /\ p + 3 <= Z.of_nat (length buf)).
  { intros get p id' m G E. destruct (Z.lt_ge_cases p 0) as [N|N].
    { exfalso. destruct G as [-> | ->]; unfold p2p_get, wfd_get, byte_at at 1, load at 1 in E;
        rewrite (proj2 (Z.leb_gt 0 p)) in E by lia; discriminate E. }
    split; [done|]. destruct (Z.le_gt_cases (p + 3) (Z.of_nat (length buf))) as [|N']; [done|]. exfalso.
    assert (F : byte_at buf (p + 2) = Fault) by (unfold byte_at, load; by rewrite (proj2 (Z.leb_gt (p + 2 + 1) _)), andb_false_r by lia).
    destruct G as [-> | ->]; unfold p2p_get, wfd_get, RTW_GET_LE16, RTW_GET_BE16 in E; replace (p + 1 + 1) with (p + 2) in E by lia;
      rewrite F in E; destruct (byte_at buf p); try discriminate E; destruct (byte_at buf (p + 1)); discriminate E. }
  assert (Hp : forall p, 0 <= p -> p + 3 <= Z.of_nat (length buf) -> exists id n, p2p_get buf p = Ok (id, n) /\ 0 <= n < 65536).
  { intros p Ha Hb. destruct (p2p_get_ok buf p B Ha Hb). eauto. }
  assert (Hw : forall p, 0 <= p -> p + 3 <= Z.of_nat (length buf) -> exists id n, wfd_get buf p = Ok (id, n) /\ 0 <= n < 65536).
  { intros p Ha Hb. destruct (wfd_get_ok buf p B Ha Hb). eauto. }
  destruct (checked_attr_safe p2p_get p2p_oui fuel buf ie ielen id eq_refl Hie Hl Hp) as [P1 P2].
  destruct (checked_attr_safe wfd_get wfd_oui fuel buf ie ielen id eq_refl Hie Hl Hw) as [W1 W2]. split.
  - intros r [-> | ->].
    + destruct P1 as [Q1|[Q1|(p & n & Q1 & ? & ? & ? & m & E & _)]]; [auto|auto|]. right. right. exists p, n. split_and!; try done.
      destruct (In _ _ _ _ (or_introl eq_refl) E) as [Ha Hb]. rewrite (proj1 (p2p_get_ok buf p B Ha Hb)) in E. by injection E.
    + destruct W1 as [Q1|[Q1|(p & n & Q1 & ? & ? & ? & m & E & _)]]; [auto|auto|]. right. right. exists p, n. split_and!; try done.
      destruct (In _ _ _ _ (or_intror eq_refl) E) as [Ha Hb]. rewrite (proj1 (wfd_get_ok buf p B Ha Hb)) in E. by injection E.
  - intros F. split; intros S.
    + apply P2; [|done]. intros p i E. destruct (In _ _ _ _ (or_introl eq_refl) E) as [Ha Hb].
      rewrite (proj1 (p2p_get_ok buf p B Ha Hb)) in E. injection E as _ E. by apply (S p).
    + apply W2; [|done]. intros p i E. destruct (In _ _ _ _ (or_intror eq_refl) E) as [Ha Hb].
      rewrite (proj1 (wfd_get_ok buf p B Ha Hb)) in E. injection E as _ E. by apply (S p).
Qed.

(** * Well-formed elements *)

(** An attribute is an identifier and data, like an element; [enc_le] and [enc_be] write
    the length in the two orders, and an element is its header and its attributes. *)
Definition enc_le (x : elem) : list Z := let n := Z.of_nat (length (e_data x)) in [e_id x; n mod 256; n / 256] ++ e_data x.
Definition enc_be (x : elem) : list Z := let n := Z.of_nat (length (e_data x)) in [e_id x; n / 256; n mod 256] ++ e_data x.
Definition attrs_bytes (enc : elem -> list Z) (xs : list elem) : list Z := concat (map enc xs).
Definition attr_elem (enc : elem -> list Z) (oui : list Z) (xs : list elem) : list Z :=
  enc1 (mk_elem WLAN_EID_VENDOR_SPECIFIC (oui ++ attrs_bytes enc xs)).

(** Where the first attribute with the identifier is. *)
Fixpoint first_attr (enc : elem -> list Z) (id p : Z) (xs : list elem) : option (Z * Z) :=
  match xs with
  | [] => None
  | x :: xs => if e_id x =? id then Some (p, Z.of_nat (length (enc x))) else first_attr enc id (p + Z.of_nat (length (enc x))) xs
  end.

Definition without (id : Z) (xs : list elem) : list elem := List.filter (fun x => negb (e_id x =? id)) xs.

Section attributes.
Context (get : list Z -> Z -> res (Z * Z)) (enc : elem -> list Z) (oui : list Z) (Houi : length oui = 4%nat).
Context (Henc : forall x, length (enc x) = (3 + length (e_data x))%nat).
Context (Hget : forall a x b, Z.of_nat (length (e_data x)) < 65536 ->
  get (a ++ enc x ++ b) (Z.of_nat (length a)) = Ok (e_id x, Z.of_nat (length (e_data x)))).

Lemma attrs_bytes_app xs ys : attrs_bytes enc (xs ++ ys) = attrs_bytes enc xs ++ attrs_bytes enc ys.
Proof. unfold attrs_bytes. by rewrite map_app, concat_app. Qed.

Lemma attrs_bytes_cons x xs : attrs_bytes enc (x :: xs) = enc x ++ attrs_bytes enc xs.
Proof. done. Qed.

Lemma attr_loop_spec fuel id ie off a xs b :
  Z.of_nat (length a) = ie + off -> off + Z.of_nat (length (attrs_bytes enc xs)) < 65536 -> 0 <= off ->
  (length (attrs_bytes enc xs) < fuel)%nat ->
  let ielen := off + Z.of_nat (length (attrs_bytes enc xs)) in
  attr_loop fuel 3 (get (a ++ attrs_bytes enc xs ++ b)) (fun off => off + 3 <=? ielen) (fun next => next <=? ielen) id ie off =
  Ok (first_attr enc id (ie + off) xs).
Proof.
  revert fuel off a. induction xs as [|x xs IH]; intros fuel off a P L Ho F ielen.
  { destruct fuel as [|fuel]; [lia|]. cbn [attr_loop first_attr]. unfold ielen. cbn. by rewrite (proj2 (Z.leb_gt _ _)) by lia. }
  destruct fuel as [|fuel]; [lia|]. unfold ielen. clear ielen. rewrite attrs_bytes_cons, length_app, Henc in L, F |- *.
  cbn [attr_loop first_attr]. rewrite (proj2 (Z.leb_le _ _)) by lia.
  rewrite <- app_assoc, <- P, Hget by lia. cbn [mbind res_bind]. rewrite u16_small by lia.
  rewrite (proj2 (Z.leb_le _ _)) by lia. cbn [negb]. rewrite Henc.
  destruct (e_id x =? id). { do 3 f_equal. lia. }
  rewrite (app_assoc a). pose proof (IH fuel (off + (Z.of_nat (length (e_data x)) + 3)) (a ++ enc x)) as G. cbv zeta in G.
  replace (off + (Z.of_nat (length (e_data x)) + 3) + Z.of_nat (length (attrs_bytes enc xs))) with
    (off + Z.of_nat (3 + length (e_data x) + length (attrs_bytes enc xs))) in G by lia.
  rewrite G; [|rewrite length_app, Henc; lia|lia|lia|lia]. do 2 f_equal. lia.
Qed.

Lemma checked_attr_spec fuel id a xs b :
  Z.of_nat (length (attrs_bytes enc xs)) < 65530 -> (length (attrs_bytes enc xs) < fuel)%nat ->
  checked_attr get oui fuel (a ++ attr_elem enc oui xs ++ b) (Z.of_nat (length a)) (Z.of_nat (length (attr_elem enc oui xs))) id =
  Ok (first_attr enc id (Z.of_nat (length a) + 6) xs).
Proof.
  intros L F. assert (EL : Z.of_nat (length (attr_elem enc oui xs)) = 6 + Z.of_nat (length (attrs_bytes enc xs)))
    by (unfold attr_elem; rewrite length_enc1; cbn [e_data]; rewrite length_app, Houi; lia).
  unfold checked_attr. rewrite EL. destruct (Z.leb_spec (6 + Z.of_nat (length (attrs_bytes enc xs))) 6) as [Z0|P].
  { destruct xs as [|x xs]; [done|]. rewrite attrs_bytes_cons, length_app, Henc in Z0. lia. }
  set (n := Z.of_nat (length (oui ++ attrs_bytes enc xs))).
  assert (Ebuf : a ++ attr_elem enc oui xs ++ b = (a ++ [WLAN_EID_VENDOR_SPECIFIC; n]) ++ oui ++ attrs_bytes enc xs ++ b).
  { unfold attr_elem, enc1. cbn [e_id e_data]. rewrite <- !app_assoc. cbn [app]. by rewrite <- !app_assoc. }
  assert (vendor_ie (a ++ attr_elem enc oui xs ++ b) (Z.of_nat (length a)) oui = Ok true) as ->.
  { unfold vendor_ie. rewrite Ebuf, <- app_assoc at 1. cbn [app]. rewrite (byte_at_app _ a WLAN_EID_VENDOR_SPECIFIC) by done. cbn [mbind res_bind].
    rewrite Z.eqb_refl, Ebuf, same_at_app by (rewrite ?length_app; cbn; lia). by rewrite bool_decide_true. }
  cbn [mbind res_bind]. rewrite Ebuf, (app_assoc _ oui). apply attr_loop_spec; rewrite ?length_app, ?Houi; cbn; lia.
Qed.

Lemma first_attr_some id p xs q n :
  first_attr enc id p xs = Some (q, n) ->
  exists xs1 x xs2, xs = xs1 ++ x :: xs2 /\ without id xs1 = xs1 /\ e_id x = id /\
    q = p + Z.of_nat (length (attrs_bytes enc xs1)) /\ n = Z.of_nat (length (enc x)).
Proof.
  revert p. induction xs as [|x xs IH]; intros p E; [done|]. cbn [first_attr] in E. destruct (Z.eqb_spec (e_id x) id) as [Ex|Nx].
  - injection E as <- <-. exists [], x, xs. split_and!; try done. cbn. lia.
  - destruct (IH _ E) as (xs1 & y & xs2 & -> & W & Ey & -> & ->). exists (x :: xs1), y, xs2. split_and!; try done.
    + cbn. rewrite (proj2 (Z.eqb_neq _ _) Nx). cbn. by f_equal.
    + rewrite attrs_bytes_cons, length_app. lia.
Qed.

Lemma first_attr_none id p xs : first_attr enc id p xs = None -> without id xs = xs.
Proof.
  revert p. induction xs as [|x xs IH]; intros p E; [done|]. cbn [first_attr] in E. cbn.
  destruct (e_id x =? id); [done|]. cbn. f_equal. eauto.
Qed.

Lemma without_shorter id xs : (length (attrs_bytes enc (without id xs)) <= length (attrs_bytes enc xs))%nat.
Proof.
  induction xs as [|x xs IH]; [done|]. cbn [without List.filter]. destruct (negb _); rewrite ?attrs_bytes_cons, ?length_app;
    fold (without id xs); lia.
Qed.

Lemma without_app id xs ys : without id (xs ++ ys) = without id xs ++ without id ys.
Proof. apply List.filter_app. Qed.

(** One deletion: the gap is closed, what is freed cleared, and the length byte reduced. *)
Lemma del_attr_step {B} (k : list Z -> res B) a xs1 x xs2 b n :
  n = Z.of_nat (length (oui ++ attrs_bytes enc (xs1 ++ x :: xs2))) -> n <= 255 ->
  let p := Z.of_nat (length a) + 6 + Z.of_nat (length (attrs_bytes enc xs1)) in
  let rest := Z.of_nat (length (attrs_bytes enc xs2)) in
  (buf ← move p (p + Z.of_nat (length (enc x))) rest (a ++ attr_elem enc oui (xs1 ++ x :: xs2) ++ b);
   buf ← store (p + rest) (replicate (length (enc x)) 0) buf;
   l ← byte_at buf (Z.of_nat (length a) + 1);
   buf ← store (Z.of_nat (length a) + 1) [u8 (l - Z.of_nat (length (enc x)))] buf; k buf) =
  k (a ++ attr_elem enc oui (xs1 ++ xs2) ++ replicate (length (enc x)) 0 ++ b).
Proof.
  intros En Ln p rest. set (V := WLAN_EID_VENDOR_SPECIFIC). set (e1 := attrs_bytes enc xs1). set (e2 := attrs_bytes enc xs2).
  assert (Es : a ++ attr_elem enc oui (xs1 ++ x :: xs2) ++ b = (a ++ [V; n] ++ oui ++ e1) ++ enc x ++ e2 ++ b).
  { unfold attr_elem, enc1. cbn [e_id e_data]. rewrite <- En, attrs_bytes_app, attrs_bytes_cons. fold e1 e2 V. by flat_app. }
  rewrite attrs_bytes_app, attrs_bytes_cons, !length_app, Houi in En. fold e1 e2 in En.
  assert (LA : Z.of_nat (length (a ++ [V; n] ++ oui ++ e1)) = p) by (unfold p; rewrite !length_app, Houi; fold e1; cbn [length]; lia).
  rewrite Es. destruct (move_at p (p + Z.of_nat (length (enc x))) rest (a ++ [V; n] ++ oui ++ e1) (enc x) e2 b) as (junk & -> & Lj);
    [done|rewrite length_app; lia|done|].
  cbn [mbind res_bind]. rewrite (app_assoc _ e2), (store_at _ (replicate (length (enc x)) 0) _ junk b);
    [|rewrite length_app; unfold rest; fold e2; lia|by rewrite length_replicate].
  cbn [mbind res_bind]. set (zs := replicate (length (enc x)) 0).
  replace (((a ++ [V; n] ++ oui ++ e1) ++ e2) ++ zs ++ b) with ((a ++ [V]) ++ [n] ++ (oui ++ e1 ++ e2) ++ zs ++ b) by (by flat_app).
  rewrite (byte_at_app _ (a ++ [V]) n ((oui ++ e1 ++ e2) ++ zs ++ b)) by (rewrite length_app; cbn; lia). cbn [mbind res_bind].
  rewrite (store_at _ [_] (a ++ [V]) [n]) by (rewrite ?length_app; cbn; lia). cbn [mbind res_bind].
  rewrite u8_small by (unfold is_byte; lia). f_equal. unfold attr_elem, enc1. cbn [e_id e_data].
  rewrite attrs_bytes_app. fold e1 e2 V. replace (Z.of_nat (length (oui ++ e1 ++ e2))) with (n - Z.of_nat (length (enc x)))
    by (rewrite !length_app, Houi; lia).
  by flat_app.
Qed.

Lemma del_attr_loop_spec fuel find id a xs b :
  (forall buf ie n, find buf ie n = checked_attr get oui fuel buf ie n id) ->
  Z.of_nat (length (attrs_bytes enc xs)) <= 251 -> forall turns, (length (attrs_bytes enc xs) < Nat.min turns fuel)%nat ->
  let kept := without id xs in
  del_attr_loop turns find (a ++ attr_elem enc oui xs ++ b) (Z.of_nat (length a)) (Z.of_nat (length (attr_elem enc oui xs))) =
  Ok (a ++ attr_elem enc oui kept ++ replicate (length (attrs_bytes enc xs) - length (attrs_bytes enc kept)) 0 ++ b,
    Z.of_nat (length (attr_elem enc oui kept))).
Proof.
  intros Hf L turns. assert (EL : forall ys, Z.of_nat (length (attr_elem enc oui ys)) = 6 + Z.of_nat (length (attrs_bytes enc ys)))
    by (intros ys; unfold attr_elem; rewrite length_enc1; cbn [e_data]; rewrite length_app, Houi; lia).
  revert xs b L. induction turns as [|turns IH]; intros xs b L F kept; [lia|]. cbn [del_attr_loop].
  rewrite Hf, checked_attr_spec by lia. cbn [mbind res_bind].
  destruct (first_attr enc id (Z.of_nat (length a) + 6) xs) as [[t n]|] eqn:E.
  2:{ apply first_attr_none in E. unfold kept. by rewrite E, Nat.sub_diag. }
  apply first_attr_some in E as (xs1 & x & xs2 & -> & W & Ex & -> & ->).
  assert (Kept : kept = without id (xs1 ++ xs2)).
  { unfold kept. rewrite !without_app. cbn [without List.filter]. by rewrite Ex, Z.eqb_refl. }
  pose proof (without_shorter id (xs1 ++ xs2)) as Sh. rewrite <- Kept in Sh. pose proof (Henc x) as Lx.
  assert (Ln : length (attrs_bytes enc (xs1 ++ x :: xs2)) = (length (attrs_bytes enc (xs1 ++ xs2)) + length (enc x))%nat)
    by (rewrite !attrs_bytes_app, attrs_bytes_cons, !length_app; lia).
  assert (Ln' : length (attrs_bytes enc (xs1 ++ xs2)) = (length (attrs_bytes enc xs1) + length (attrs_bytes enc xs2))%nat)
    by (rewrite attrs_bytes_app, length_app; lia).
  rewrite (proj2 (Z.eqb_neq _ 0)) by lia. rewrite EL, Nat2Z.id.
  replace (u32 (6 + Z.of_nat (length (attrs_bytes enc (xs1 ++ x :: xs2))) -
    (Z.of_nat (length a) + 6 + Z.of_nat (length (attrs_bytes enc xs1)) + Z.of_nat (length (enc x)) - Z.of_nat (length a))))
    with (Z.of_nat (length (attrs_bytes enc xs2))) by (rewrite u32_small; lia).
  pose proof (fun k => del_attr_step (B := list Z * Z) k a xs1 x xs2 b _ eq_refl) as Step. cbv zeta in Step.
  rewrite Step by (rewrite length_app, Houi; lia).
  replace (u32 (6 + Z.of_nat (length (attrs_bytes enc (xs1 ++ x :: xs2))) - Z.of_nat (length (enc x))))
    with (Z.of_nat (length (attr_elem enc oui (xs1 ++ xs2)))) by (rewrite EL, u32_small; lia).
  rewrite IH by lia. rewrite <- Kept, (app_assoc (replicate _ 0)), <- replicate_add.
  replace (length (attrs_bytes enc (xs1 ++ xs2)) - length (attrs_bytes enc kept) + length (enc x))%nat
    with (length (attrs_bytes enc (xs1 ++ x :: xs2)) - length (attrs_bytes enc kept))%nat by lia. done.
Qed.
End attributes.

Lemma get16_enc a h l b :
  is_byte h -> is_byte l ->
  RTW_GET_BE16 (a ++ [h; l] ++ b) (Z.of_nat (length a)) = Ok (h * 256 + l) /\
  RTW_GET_LE16 (a ++ [l; h] ++ b) (Z.of_nat (length a)) = Ok (h * 256 + l).
Proof.
  intros Hh Hl. unfold RTW_GET_BE16, RTW_GET_LE16.
  assert (forall x y, byte_at (a ++ [x; y] ++ b) (Z.of_nat (length a)) = Ok x /\ byte_at (a ++ [x; y] ++ b) (Z.of_nat (length a) + 1) = Ok y) as G.
  { intros x y. split; [by apply (byte_at_app _ a x (y :: b))|].
    replace (a ++ [x; y] ++ b) with ((a ++ [x]) ++ y :: b) by (by flat_app). apply byte_at_app. rewrite length_app. cbn. lia. }
  destruct (G h l) as [-> ->]. destruct (G l h) as [-> ->]. cbn [mbind res_bind]. by rewrite (byte_pair h l).
Qed.

Lemma attr_get_enc a x b :
  Z.of_nat (length (e_data x)) < 65536 ->
  p2p_get (a ++ enc_le x ++ b) (Z.of_nat (length a)) = Ok (e_id x, Z.of_nat (length (e_data x))) /\
  wfd_get (a ++ enc_be x ++ b) (Z.of_nat (length a)) = Ok (e_id x, Z.of_nat (length (e_data x))).
Proof.
  intros L. set (n := Z.of_nat (length (e_data x))). pose proof (Z.div_mod n 256 ltac:(lia)). pose proof (Z.mod_pos_bound n 256 ltac:(lia)).
  destruct (get16_enc (a ++ [e_id x]) (n / 256) (n mod 256) (e_data x ++ b)) as [Eb El]; [unfold is_byte; lia..|].
  rewrite length_app, Nat2Z.inj_add in Eb, El. change (Z.of_nat (length [e_id x])) with 1 in Eb, El. unfold p2p_get, wfd_get.
  unfold enc_le, enc_be. fold n. flat_app. split.
  - rewrite (byte_at_app _ a (e_id x)) by done. cbn [mbind res_bind]. revert El. flat_app. intros ->. cbn [mbind res_bind]. do 2 f_equal. lia.
  - rewrite (byte_at_app _ a (e_id x)) by done. cbn [mbind res_bind]. revert Eb. flat_app. intros ->. cbn [mbind res_bind]. do 2 f_equal. lia.
Qed.

Lemma length_enc_le x : length (enc_le x) = (3 + length (e_data x))%nat.
Proof. done. Qed.
Lemma length_enc_be x : length (enc_be x) = (3 + length (e_data x))%nat.
Proof. done. Qed.

Lemma length_attrs_bytes enc xs :
  (forall x, length (enc x) = (3 + length (e_data x))%nat) -> length (attrs_bytes enc xs) = length (attrs_bytes enc_le xs).
Proof. intros H. induction xs as [|x xs IH]; [done|]. by rewrite !attrs_bytes_cons, !length_app, H, IH. Qed.

(** On an element with well-formed attributes the searches give the first attribute
    with the identifier, and the deletions leave exactly the attributes with another
    identifier: the element shrinks with its length byte, and what it frees is cleared. *)
Theorem del_attr_correct fuel a xs b id :
  Z.of_nat (length (attrs_bytes enc_le xs)) <= 251 -> 251 < Z.of_nat fuel ->
  let p := Z.of_nat (length a) in
  let len bs := Z.of_nat (length bs) in
  let kept := without id xs in
  let cleared := replicate (length (attrs_bytes enc_le xs) - length (attrs_bytes enc_le kept)) 0 in
  (let e := attr_elem enc_le p2p_oui in
   rtw_get_p2p_attr fuel (a ++ e xs ++ b) p (len (e xs)) id = Ok (first_attr enc_le id (p + 6) xs) /\
   rtw_del_p2p_attr fuel (a ++ e xs ++ b) p (len (e xs)) id = Ok (a ++ e kept ++ cleared ++ b, len (e kept))) /\
  (let e := attr_elem enc_be wfd_oui in
   rtw_get_wfd_attr fuel (a ++ e xs ++ b) p (len (e xs)) id = Ok (first_attr enc_be id (p + 6) xs) /\
   rtw_del_wfd_attr fuel (a ++ e xs ++ b) p (len (e xs)) id = Ok (a ++ e kept ++ cleared ++ b, len (e kept))).
Proof.
  intros L F p len kept cleared. assert (Lb := length_attrs_bytes enc_be xs length_enc_be).
  assert (Gp : forall a x b, Z.of_nat (length (e_data x)) < 65536 -> p2p_get (a ++ enc_le x ++ b) (Z.of_nat (length a)) = Ok (e_id x, Z.of_nat (length (e_data x))))
    by (intros; by apply attr_get_enc).
  assert (Gw : forall a x b, Z.of_nat (length (e_data x)) < 65536 -> wfd_get (a ++ enc_be x ++ b) (Z.of_nat (length a)) = Ok (e_id x, Z.of_nat (length (e_data x))))
    by (intros; by apply attr_get_enc).
  split; (split; [apply checked_attr_spec|]); try (done || lia).
  - apply (del_attr_loop_spec p2p_get enc_le p2p_oui eq_refl length_enc_le Gp fuel); (done || lia).
  - unfold cleared, kept. rewrite <- Lb, <- (length_attrs_bytes enc_be (without id xs) length_enc_be).
    apply (del_attr_loop_spec wfd_get enc_be wfd_oui eq_refl length_enc_be Gw fuel); (done || lia).
Qed.

(** * Merging *)

Definition p2p_content (es : list elem) : list Z :=
  concat (map (fun e => drop 4 (e_data e)) (List.filter (matches WLAN_EID_VENDOR_SPECIFIC (Some p2p_oui)) es)).

(** What both loops read of an element. *)
Lemma merge_reads {B} (k : bool -> Z -> res B) a e b p :
  oui_room WLAN_EID_VENDOR_SPECIFIC (Some p2p_oui) e -> p = Z.of_nat (length a) ->
  let buf := a ++ enc1 e ++ b in
  (id ← byte_at buf p;
   m ← (if id =? WLAN_EID_VENDOR_SPECIFIC then same_at buf (p + 2) p2p_oui else Ok false);
   n ← byte_at buf (p + 1); k m n) =
  k (matches WLAN_EID_VENDOR_SPECIFIC (Some p2p_oui) e) (Z.of_nat (length (e_data e))).
Proof.
  intros R -> buf. unfold buf. destruct (elem_bytes a e b) as [-> ->].
  cbn [mbind res_bind]. by rewrite vendor_test.
Qed.

Lemma p2p_content_cons e es :
  p2p_content (e :: es) = (if matches WLAN_EID_VENDOR_SPECIFIC (Some p2p_oui) e then drop 4 (e_data e) else []) ++ p2p_content es.
Proof. unfold p2p_content. cbn [List.filter]. by destruct (matches _ _ e). Qed.

Lemma merge_loops fuel a es b in_ie i len out :
  in_ie + i = Z.of_nat (length a) -> Forall (oui_room WLAN_EID_VENDOR_SPECIFIC (Some p2p_oui)) es -> (length (encode es) < fuel)%nat ->
  let buf := a ++ encode es ++ b in
  let in_len := i + Z.of_nat (length (encode es)) in
  merged_len_loop fuel buf in_ie in_len i len = Ok (len + Z.of_nat (length (p2p_content es))) /\
  exists len', merge_loop fuel buf in_ie in_len i len out = Ok (out ++ p2p_content es, len') /\
    (is_byte len -> len' = u8 (len + Z.of_nat (length (p2p_content es)))).
Proof.
  revert fuel a i len out. induction es as [|e es IH]; intros fuel a i len out P R F buf in_len.
  { destruct fuel as [|fuel]; [cbn in F; lia|]. unfold in_len. cbn [encode map concat length merged_len_loop merge_loop].
    rewrite (proj2 (Z.ltb_ge _ _)) by lia. cbn. rewrite app_nil_r, Z.add_0_r. split; [done|]. exists len. split; [done|].
    intros. by rewrite u8_small. }
  destruct fuel as [|fuel]; [lia|]. apply Forall_cons in R as [Re R]. unfold buf, in_len. clear buf in_len. rewrite length_encode_cons in F |- *.
  replace (a ++ encode (e :: es) ++ b) with (a ++ enc1 e ++ (encode es ++ b))
    by (change (encode (e :: es)) with (enc1 e ++ encode es); by rewrite <- app_assoc).
  cbn [merged_len_loop merge_loop]. rewrite (proj2 (Z.ltb_lt _ _)) by lia. rewrite !(merge_reads _ a e) by done.
  set (n := Z.of_nat (length (e_data e))). rewrite p2p_content_cons.
  replace (i + Z.of_nat (2 + length (e_data e) + length (encode es))) with ((i + (n + 2)) + Z.of_nat (length (encode es))) by lia.
  destruct (matches _ _ e) eqn:M.
  - apply matches_length in M as M4. cbn [length p2p_oui] in M4.
    assert (Ld : Z.of_nat (length (drop 4 (e_data e))) = n - 4) by (rewrite length_drop; lia).
    replace (load (in_ie + i + 6) (n - 4) (a ++ enc1 e ++ encode es ++ b)) with (Ok (drop 4 (e_data e))).
    2:{ replace (a ++ enc1 e ++ encode es ++ b) with ((a ++ [e_id e; n] ++ take 4 (e_data e)) ++ drop 4 (e_data e) ++ encode es ++ b).
        - symmetry. apply load_at; [|lia]. rewrite !length_app, length_take. cbn [length]. lia.
        - unfold enc1. fold n. flat_app. by rewrite (app_assoc (take 4 _)), take_drop. }
    cbn [mbind res_bind]. rewrite (app_assoc a).
    destruct (IH fuel (a ++ enc1 e) (i + (n + 2)) (len + (n - 4)) out) as [-> _]; [rewrite length_app, length_enc1; lia|done|lia|].
    destruct (IH fuel (a ++ enc1 e) (i + (n + 2)) (u8 (len + (n - 4))) (out ++ drop 4 (e_data e))) as (_ & l & -> & El);
      [rewrite length_app, length_enc1; lia|done|lia|].
    rewrite length_app. split; [f_equal; lia|]. exists l. split; [by rewrite <- app_assoc|]. intros _. rewrite El by apply u8_range.
    unfold u8. rewrite Zplus_mod_idemp_l. f_equal. lia.
  - cbn [app]. rewrite (app_assoc a). apply IH; [rewrite length_app, length_enc1; lia|done|lia].
Qed.

(** Merging P2P elements puts the contents of all of them behind one header, and the
    length computed beforehand is that of vendor type and contents. The length that
    merging itself returns is kept in a byte, hence the same up to 255 bytes of content. *)
Theorem merge_correct a es b :
  Forall (oui_room WLAN_EID_VENDOR_SPECIFIC (Some p2p_oui)) es -> Z.of_nat (length (encode es)) < 2 ^ 31 ->
  let p := Z.of_nat (length a) in
  let n := Z.of_nat (length (encode es)) in
  let content := p2p_content es in
  rtw_p2p_merge_ies (a ++ encode es ++ b) p n =
    Ok ([WLAN_EID_VENDOR_SPECIFIC; 0] ++ p2p_oui ++ content, Z.of_nat (length content) mod 256 + 4) /\
  rtw_get_p2p_merged_ies_len (a ++ encode es ++ b) p n = Ok (Z.of_nat (length content) + 4).
Proof.
  intros R L p n content. destruct (merge_loops (S (Z.to_nat n)) a es b p 0 0 ([0xdd; 0x00] ++ p2p_oui)) as (E & l & Em & El);
    [lia|done|lia|]. cbv zeta in E, Em. fold n content in E, Em, El. rewrite Z.add_0_l in E, Em.
  unfold rtw_p2p_merge_ies, rtw_get_p2p_merged_ies_len. rewrite E, Em. cbn [mbind res_bind].
  rewrite El by (unfold is_byte; lia). split; [done|]. rewrite u32_small; [done|].
  assert (forall l, (length (p2p_content l) <= length (encode l))%nat) as G.
  { intros l'. induction l' as [|e l' IH]; [done|]. rewrite p2p_content_cons, length_app, length_encode_cons.
    destruct (matches _ _ e); rewrite ?length_drop; cbn [length]; lia. }
  specialize (G es). fold content in G. lia.
Qed.

(** * Well-typed memory *)

Lemma zeros_bytes n : bytes (replicate n 0).
Proof. apply Forall_replicate. unfold is_byte. lia. Qed.

Lemma remove_loop_memory fuel buf ies_len start search_len eid oui ret n :
  memory n buf -> gives (fun r => memory n r.1.2) (remove_ie_loop fuel buf ies_len start search_len eid oui ret).
Proof.
  revert buf ies_len start search_len ret. induction fuel as [|fuel IH]; intros buf ies_len start search_len ret M; [done|].
  cbn [remove_ie_loop]. typed. by apply IH.
Qed.

Lemma del_loop_memory fuel find buf ies ies_len n : memory n buf -> gives (fun r => memory n r.1) (del_loop fuel find buf ies ies_len).
Proof.
  revert buf ies_len. induction fuel as [|fuel IH]; intros buf ies_len M; [done|]. cbn [del_loop]. typed; [apply zeros_bytes|by apply IH].
Qed.

Lemma del_attr_loop_memory fuel find buf ie ielen n : memory n buf -> gives (fun r => memory n r.1) (del_attr_loop fuel find buf ie ielen).
Proof.
  revert buf ielen. induction fuel as [|fuel IH]; intros buf ielen M; [done|]. cbn [del_attr_loop]. typed; [apply zeros_bytes|by apply IH].
Qed.

Lemma update_ie_memory alloc buf ies ies_len ies_offset eid content n :
  memory n buf -> bytes content -> gives (fun r => memory n r.1.2) (rtw_ies_update_ie alloc buf ies ies_len ies_offset eid content).
Proof. intros M B. unfold rtw_ies_update_ie. typed. Qed.

Lemma set_ie_memory buf pbuf index len source frlen n :
  memory n buf -> bytes source -> gives (fun r => memory n r.1.1) (rtw_set_ie buf pbuf index len source frlen).
Proof.
  intros M B. assert (Ms : memory (length source) source) by done. unfold rtw_set_ie.
  eapply gives_bind; [apply store_memory; [exact M|typed]|]. intros b1 M1.
  eapply gives_bind; [apply store_memory; [exact M1|typed]|]. intros b2 M2.
  eapply (gives_bind (memory n)); [typed|]. typed.
Qed.

Lemma set_p2p_attr_memory buf pbuf id len pdata n :
  memory n buf -> default True (bytes <$> pdata) -> gives (fun r => memory n r.1) (rtw_set_p2p_attr_content buf pbuf id len pdata).
Proof.
  intros M B. unfold rtw_set_p2p_attr_content. eapply gives_bind; [apply store_memory; [exact M|typed]|]. intros b1 M1.
  assert (bytes [u16 len .& 0xff; u16 len .>> 8]) as Bl.
  { pose proof (u16_range len) as R. apply Forall_cons; split; [change 0xff with (Z.ones 8); rewrite Z.land_ones by lia;
      unfold is_byte; pose proof (Z.mod_pos_bound (u16 len) (2 ^ 8)); lia|]. apply Forall_cons; split; [|constructor].
    unfold is_byte. rewrite Z.shiftr_div_pow2 by lia. change (2 ^ 8) with 256. split; [apply Z.div_pos; lia|]. apply Z.div_lt_upper_bound; lia. }
  eapply gives_bind; [by apply store_memory|]. intros b2 M2. eapply (gives_bind (memory n)).
  - destruct pdata as [d|]; [|done]. assert (memory (length d) d) by done. typed.
  - typed.
Qed.

Lemma ext_cap_memory data len c n :
  memory n data -> gives (fun r => memory n r.1) (rtw_add_ext_cap_info data len c) /\ gives (fun r => memory n r.1) (rtw_remove_ext_cap_info data c).
Proof. intros M. unfold rtw_add_ext_cap_info, rtw_remove_ext_cap_info. split; typed. Qed.

Lemma update_ext_cap_memory alloc data data_len buf ies ies_len ies_offset n :
  memory n buf -> bytes data -> gives (fun r => memory n r.1) (rtw_update_ext_cap_ie alloc data data_len buf ies ies_len ies_offset).
Proof.
  intros M B. assert (Md : memory (length data) data) by done. unfold rtw_update_ext_cap_ie. destruct (negb _).
  - eapply gives_bind; [apply gives_any|]. intros [r|] _.
    + eapply gives_bind; [by eapply load_bytes|]. intros content Bc.
      eapply gives_bind; [by apply update_ie_memory with (n := n)|]. by intros [[? ?] ?].
    + eapply gives_bind; [by apply set_ie_memory with (n := n)|]. by intros [[? ?] ?].
  - eapply (gives_bind (fun r => memory n r.1.2)); [unfold rtw_ies_remove_ie; typed; by apply remove_loop_memory|]. by intros [[? ?] ?].
Qed.

Lemma lor_byte_check : forallb (fun x => forallb (fun y => bool_decide (is_byte (Z.lor x y))) byte_range) byte_range = true.
Proof. vm_compute. reflexivity. Qed.

Lemma zip_lor_bytes xs ys : bytes xs -> bytes ys -> bytes (zip_with Z.lor xs ys).
Proof.
  intros Bx. revert ys. induction Bx as [|x xs Hx Bx IH]; intros ys By; [constructor|]. destruct By as [|y ys Hy By]; [constructor|].
  constructor; [|by apply IH]. exact (bool_decide_eq_true_1 _ (byte_cases2 _ lor_byte_check x y Hx Hy)).
Qed.

Lemma parse_ext_cap_memory data data_len buf ies ies_len ies_offset n :
  memory n data -> bytes buf -> gives (fun r => memory n r.1) (rtw_parse_ext_cap_ie data data_len buf ies ies_len ies_offset).
Proof.
  intros M B. assert (Mb : memory (length buf) buf) by done. unfold rtw_parse_ext_cap_ie. typed. by apply zip_lor_bytes.
Qed.


(** * Malformed attributes *)

(** A length of 65533, plus the header in 16 bits, is nothing: the search stays where it is. *)
Lemma p2p_attr_hangs fuel : rtw_get_p2p_attr fuel [0xdd; 7; 0x50; 0x6f; 0x9a; 9; 1; 0xfd; 0xff] 0 9 2 = Diverge.
Proof. unfold rtw_get_p2p_attr, checked_attr. cbn -[attr_loop]. induction fuel as [|fuel IH]; [done|exact IH]. Qed.

Lemma wps_attr_hangs fuel : rtw_get_wps_attr fuel [0xdd; 8; 0; 0x50; 0xf2; 4; 0x10; 1; 0xff; 0xfc] 0 10 0x1002 = Diverge.
Proof. unfold rtw_get_wps_attr. cbn -[attr_loop]. induction fuel as [|fuel IH]; [done|exact IH]. Qed.

(** The search in a WPS element reads the header of an attribute past its end. *)
Lemma wps_attr_reads_past fuel : rtw_get_wps_attr (S fuel) [0xdd; 5; 0; 0x50; 0xf2; 4; 0x10] 0 7 0x1002 = Fault.
Proof. reflexivity. Qed.

(** A length of 65534 leaves one byte of attribute; its content gets a length of -2. *)
Lemma p2p_content_negative fuel :
  rtw_get_p2p_attr_content (S fuel) [0xdd; 7; 0x50; 0x6f; 0x9a; 9; 1; 0xfe; 0xff] 0 9 1 false (Some 0) =
  Ok (Some (9, []), Some 4294967294).
Proof. reflexivity. Qed.

(** Merging copies a negative number of bytes from an element shorter than the vendor type
    that the bytes behind it complete. *)
Lemma merge_negative : rtw_p2p_merge_ies [0xdd; 2; 0x50; 0x6f; 0x9a; 9] 0 4 = Fault.
Proof. reflexivity. Qed.

(** * Examples *)

Definition sample_attrs : list elem := [mk_elem 2 [0x25; 0]; mk_elem 13 [1; 2; 3]; mk_elem 2 []].


Lemma attr_search_safe_witness :
  rtw_get_p2p_attr 20 [0xdd; 9; 0x50; 0x6f; 0x9a; 9; 2; 2; 0; 0x25; 0] 0 11 13 <> Diverge.
Proof.
  refine (proj1 (proj2 (attr_search_safe 20 [0xdd; 9; 0x50; 0x6f; 0x9a; 9; 2; 2; 0; 0x25; 0] 0 11 13 _ _ _) _) _).
  - apply (bool_decide_eq_true_1 _); reflexivity.
  - lia.
  - cbn. lia.
  - lia.
  - intros p. assert (G : forall q, 0 <= tbl [0xdd; 9; 0x50; 0x6f; 0x9a; 9; 2; 2; 0; 0x25; 0] q <= 221).
    { intros q. unfold tbl. destruct (lookup _ _) as [x|] eqn:E; cbn; [|lia].
      refine (Forall_lookup_1 (fun x => 0 <= x <= 221) _ _ _ _ E). apply (bool_decide_eq_true_1 _); reflexivity. }
    pose proof (G (p + 2)). pose proof (G (p + 1)). lia.
Defined.

Lemma del_attr_correct_witness :
  rtw_del_p2p_attr 252 (attr_elem enc_le p2p_oui sample_attrs ++ [7]) 0 20 2 =
  Ok (attr_elem enc_le p2p_oui [mk_elem 13 [1; 2; 3]] ++ replicate 8 0 ++ [7], 12).
Proof. exact (proj2 (proj1 (del_attr_correct 252 [] sample_attrs [7] 2 ltac:(vm_compute; discriminate) ltac:(lia)))). Defined.

Lemma merge_correct_witness :
  rtw_p2p_merge_ies (encode sample ++ []) 0 24 = Ok ([0xdd; 0; 0x50; 0x6f; 0x9a; 9] ++ p2p_content sample, Z.of_nat (length (p2p_content sample)) mod 256 + 4).
Proof. exact (proj1 (merge_correct [] sample [] (sample_room p2p_oui eq_refl) ltac:(cbn; lia))). Defined.
