(* ===== verification/WifiElems.v ===== *)
(** The parser of all elements of a management frame, [rtw_ieee802_11_parse_elems] of the
    Wi-Fi driver ([core/rtw_ieee80211.c]), and the collection of the security elements. *)

From S2P Require Import Prelude Mem WifiIe.

(** * The table of elements *)

(** The pointers of [struct rtw_ieee802_11_elems]. *)
Inductive field :=
| ssid | supp_rates | fh_params | ds_params | cf_params | tim | ibss_params | challenge | erp_info | ext_supp_rates
| wpa_ie | rsn_ie | wme | wme_tspec | wps_ie | power_cap | supp_channels | mdie | ftie | timeout_int
| ht_capabilities | ht_operation | vendor_ht_cap | vht_capabilities | vht_operation | vht_op_mode_notify | rm_en_cap.
#[export] Instance field_eq_dec : EqDecision field.
Proof. solve_decision. Defined.

(** Pointer and length; [None] is the null pointer of the cleared structure. *)
Definition rtw_ieee802_11_elems := field -> option (Z * Z).
Definition set_elem (f : field) (pos elen : Z) (elems : rtw_ieee802_11_elems) : rtw_ieee802_11_elems :=
  fun g => if decide (g = f) then Some (pos, elen) else elems g.
Definition no_elems : rtw_ieee802_11_elems := fun _ => None.

Inductive ParseRes := ParseOK | ParseUnknown | ParseFailed.

Definition WLAN_EID_RSN : Z := 48.

(** The cases of the [switch], without that of the vendor specific element. *)
Definition field_of_id (id : Z) : option field :=
  match id with
  | 0 => Some ssid
  | 1 => Some supp_rates
  | 2 => Some fh_params
  | 3 => Some ds_params
  | 4 => Some cf_params
  | 5 => Some tim
  | 6 => Some ibss_params
  | 16 => Some challenge
  | 42 => Some erp_info
  | 50 => Some ext_supp_rates
  | 48 => Some rsn_ie
  | 33 => Some power_cap
  | 36 => Some supp_channels
  | 54 => Some mdie
  | 55 => Some ftie
  | 56 => Some timeout_int
  | 45 => Some ht_capabilities
  | 61 => Some ht_operation
  | 191 => Some vht_capabilities
  | 192 => Some vht_operation
  | 199 => Some vht_op_mode_notify
  | 70 => Some rm_en_cap
  | _ => None
  end.

Definition OUI_MICROSOFT : Z := 0x0050f2.
Definition OUI_BROADCOM : Z := 0x00904c.
Definition WME_OUI_TYPE : Z := 2.
Definition VENDOR_HT_CAPAB_OUI_TYPE : Z := 0x33.

Definition RTW_GET_BE24 (buf : list Z) (p : Z) : res Z :=
  a ← byte_at buf p; b ← byte_at buf (p + 1); c ← byte_at buf (p + 2); Ok (((a .<< 16) .| (b .<< 8)) .| c).

(** Which pointer the element sets; [None] is the result -1. *)
Definition rtw_ieee802_11_parse_vendor_specific (buf : list Z) (pos elen : Z) : res (option field) :=
  if elen <? 4 then Ok None
  else
    oui ← RTW_GET_BE24 buf pos;
    t ← byte_at buf (pos + 3);
    if oui =? OUI_MICROSOFT then
      if t =? 1 then Ok (Some wpa_ie)
      else if t =? WME_OUI_TYPE then
        if elen <? 5 then Ok None
        else
          s ← byte_at buf (pos + 4);
          Ok (match s with 0 => Some wme | 1 => Some wme | 2 => Some wme_tspec | _ => None end)
      else if t =? 4 then Ok (Some wps_ie)
      else Ok None
    else if oui =? OUI_BROADCOM then Ok (if t =? VENDOR_HT_CAPAB_OUI_TYPE then Some vendor_ht_cap else None)
    else Ok None.

Fixpoint parse_loop (fuel : nat) (buf : list Z) (left_ pos unknown : Z) (elems : rtw_ieee802_11_elems)
    : res (ParseRes * rtw_ieee802_11_elems) :=
  match fuel with
  | O => Diverge
  | S fuel =>
      if 2 <=? left_ then
        id ← byte_at buf pos;
        elen ← byte_at buf (pos + 1);
        let pos := pos + 2 in
        let left_ := u32 (left_ - 2) in
        if left_ <? elen then Ok (ParseFailed, elems)
        else
          f ← (if id =? WLAN_EID_VENDOR_SPECIFIC then rtw_ieee802_11_parse_vendor_specific buf pos elen else Ok (field_of_id id));
          match f with
          | Some f => parse_loop fuel buf (u32 (left_ - elen)) (pos + elen) unknown (set_elem f pos elen elems)
          | None => parse_loop fuel buf (u32 (left_ - elen)) (pos + elen) (unknown + 1) elems
          end
      else Ok (if negb (left_ =? 0) then ParseFailed else if unknown =? 0 then ParseOK else ParseUnknown, elems)
  end.

Definition rtw_ieee802_11_parse_elems (buf : list Z) (start len : Z) : res (ParseRes * rtw_ieee802_11_elems) :=
  parse_loop (S (Z.to_nat len)) buf len start 0 no_elems.

(** * The security elements of a frame *)

Definition _WAPI_IE_ : Z := 68.
Definition wapi_oui1 : list Z := [0x00; 0x14; 0x72; 0x01].
Definition wapi_oui2 : list Z := [0x00; 0x14; 0x72; 0x02].

(** A copy of the element at [p] to an output buffer, if there is one. *)
Definition copy_ie (buf : list Z) (p n : Z) (out : option (list Z)) : res (option (list Z)) :=
  match out with
  | Some o => bs ← load p (n + 2) buf; o ← store 0 bs o; Ok (Some o)
  | None => Ok None
  end.

(** The output buffer and [*wapi_len]. The first 12 bytes of the frame are its fixed part. *)
Fixpoint wapi_loop (fuel : nat) (buf : list Z) (in_ie in_len cnt : Z) (wapi : option (list Z) * Z) : res (option (list Z) * Z) :=
  match fuel with
  | O => Diverge
  | S fuel =>
      if cnt <? in_len then
        authmode ← byte_at buf (in_ie + cnt);
        m ← (if authmode =? _WAPI_IE_ then
               m1 ← same_at buf (in_ie + cnt + 6) wapi_oui1;
               if m1 : bool then Ok true else same_at buf (in_ie + cnt + 6) wapi_oui2
             else Ok false);
        n ← byte_at buf (in_ie + cnt + 1);
        if m : bool then
          out ← copy_ie buf (in_ie + cnt) n wapi.1;
          wapi_loop fuel buf in_ie in_len (u32 (cnt + (n + 2))) (out, u16 (n + 2))
        else wapi_loop fuel buf in_ie in_len (u32 (cnt + (n + 2))) wapi
      else Ok wapi
  end.

(** The two, with 0 for [*wapi_len] before; it is also what is returned. *)
Definition rtw_get_wapi_ie (buf : list Z) (in_ie in_len : Z) (wapi_ie : option (list Z)) : res (option (list Z) * Z) :=
  if in_len <=? 0 then Ok (wapi_ie, 0) else wapi_loop (S (Z.to_nat in_len)) buf in_ie in_len 12 (wapi_ie, 0).

Fixpoint sec_ie_loop (fuel : nat) (buf : list Z) (in_ie in_len cnt : Z) (rsn wpa : option (list Z) * Z)
    : res ((option (list Z) * Z) * (option (list Z) * Z)) :=
  match fuel with
  | O => Diverge
  | S fuel =>
      if cnt <? in_len then
        authmode ← byte_at buf (in_ie + cnt);
        m ← (if authmode =? WLAN_EID_VENDOR_SPECIFIC then same_at buf (in_ie + cnt + 2) wpa_oui_type else Ok false);
        n ← byte_at buf (in_ie + cnt + 1);
        if m : bool then
          out ← copy_ie buf (in_ie + cnt) n wpa.1;
          sec_ie_loop fuel buf in_ie in_len (u32 (cnt + (n + 2))) rsn (out, u16 (n + 2))
        else if authmode =? _WPA2_IE_ID_ then
          out ← copy_ie buf (in_ie + cnt) n rsn.1;
          sec_ie_loop fuel buf in_ie in_len (u32 (cnt + (n + 2))) (out, u16 (n + 2)) wpa
        else sec_ie_loop fuel buf in_ie in_len (u32 (cnt + (n + 2))) rsn wpa
      else Ok (rsn, wpa)
  end.

(** The output buffers and lengths, and the sum that is returned. *)
Definition rtw_get_sec_ie (buf : list Z) (in_ie in_len : Z) (rsn wpa : option (list Z) * Z)
    : res (((option (list Z) * Z) * (option (list Z) * Z)) * Z) :=
  r ← sec_ie_loop (S (Z.to_nat in_len)) buf in_ie in_len 12 rsn wpa; Ok (r, r.1.2 + r.2.2).

(** * Specification *)

(** The pointer an element is for. *)
Definition kind_of (e : elem) : option field :=
  if e_id e =? WLAN_EID_VENDOR_SPECIFIC then
    match e_data e with
    | a :: b :: c :: t :: rest =>
        if decide ([a; b; c] = [0x00; 0x50; 0xf2]) then
          if t =? 1 then Some wpa_ie
          else if t =? 2 then match rest with 0 :: _ => Some wme | 1 :: _ => Some wme | 2 :: _ => Some wme_tspec | _ => None end
          else if t =? 4 then Some wps_ie
          else None
        else if decide ([a; b; c] = [0x00; 0x90; 0x4c]) then if t =? 0x33 then Some vendor_ht_cap else None
        else None
    | _ => None
    end
  else field_of_id (e_id e).

(** The last element for a pointer, as position and length of its content. *)
Fixpoint last_of (f : field) (p : Z) (es : list elem) : option (Z * Z) :=
  match es with
  | [] => None
  | e :: es =>
      match last_of f (p + Z.of_nat (length (enc1 e))) es with
      | Some r => Some r
      | None => if decide (kind_of e = Some f) then Some (p + 2, Z.of_nat (length (e_data e))) else None
      end
  end.

(** Bytes that do not begin with a whole element. *)
Definition stump (rest : list Z) : Prop :=
  match rest with id :: n :: data => Z.of_nat (length data) < n | _ => True end.

(** The encoding is unambiguous. *)
Lemma stump_encode es rest es' : stump rest -> encode es ++ rest = encode es' -> rest = [] /\ es = es'.
Proof.
  intros St. revert es'. induction es as [|e es IH]; intros es' E.
  - cbn in E. destruct es' as [|e' es']; [done|]. rewrite encode_cons in E. subst rest. cbn in St. rewrite length_app in St. lia.
  - destruct es' as [|e' es']; [done|]. rewrite !encode_cons in E. cbn [app] in E. injection E as Ei En E.
    apply Nat2Z.inj in En. rewrite <- app_assoc in E. apply app_inj_1 in E as [Ed E]; [|done].
    destruct (IH es' E) as [-> ->]. split; [done|]. destruct e, e'. cbn in Ei, Ed. by subst.
Qed.

(** Any bytes are elements and a stump. *)
Lemma split_elements x : bytes x -> exists es rest, x = encode es ++ rest /\ stump rest.
Proof.
  remember (length x) as k eqn:Hk. revert x Hk. induction k as [k IH] using lt_wf_ind. intros x Hk B.
  destruct x as [|id [|n x]]; [by exists [], []|by exists [], [id]|].
  apply Forall_cons in B as [_ B]. apply Forall_cons in B as [Bn B]. unfold is_byte in Bn.
  destruct (Z.lt_ge_cases (Z.of_nat (length x)) n) as [L|L]; [by exists [], (id :: n :: x)|].
  destruct (IH (length (drop (Z.to_nat n) x))) with (x := drop (Z.to_nat n) x) as (es & rest & E & St);
    [subst k; cbn; rewrite length_drop; lia|done|by apply Forall_drop|].
  exists (mk_elem id (take (Z.to_nat n) x) :: es), rest. split; [|done]. rewrite encode_cons. cbn [e_id e_data app].
  rewrite length_take, Nat.min_l, Z2Nat.id by lia. by rewrite <- app_assoc, <- E, take_drop.
Qed.

(** * The parser on elements and a stump *)

Lemma lor_shift8 h l : is_byte l -> (h .<< 8) .| l = h * 256 + l.
Proof.
  intros Hl. unfold is_byte in Hl. assert (Z.land (h .<< 8) l = 0) as D.
  { apply Z.bits_inj'. intros i Hi. rewrite Z.land_spec, Z.bits_0. destruct (Z.lt_ge_cases i 8).
    - by rewrite Z.shiftl_spec_low by done.
    - replace l with (l mod 2 ^ 8) by (apply Z.mod_small; lia). by rewrite Z.mod_pow2_bits_high, andb_false_r by lia. }
  rewrite <- Z.lxor_lor, <- Z.add_nocarry_lxor by done. by rewrite Z.shiftl_mul_pow2 by lia.
Qed.

Lemma be24_spec a b c pos pre rest :
  is_byte b -> is_byte c -> pos = Z.of_nat (length pre) ->
  RTW_GET_BE24 (pre ++ a :: b :: c :: rest) pos = Ok (a * 65536 + b * 256 + c).
Proof.
  intros Hb Hc ->. unfold RTW_GET_BE24.
  assert (G : forall k x z l, l = Z.of_nat (length k) -> byte_at (pre ++ k ++ x :: z) (Z.of_nat (length pre) + l) = Ok x).
  { intros k x z l ->. rewrite app_assoc. apply byte_at_app. rewrite length_app. lia. }
  rewrite (byte_at_app (Z.of_nat (length pre)) pre a) by done.
  rewrite (G [a] b (c :: rest) 1 eq_refl : byte_at (pre ++ a :: b :: c :: rest) (Z.of_nat (length pre) + 1) = Ok b).
  rewrite (G [a; b] c rest 2 eq_refl : byte_at (pre ++ a :: b :: c :: rest) (Z.of_nat (length pre) + 2) = Ok c).
  cbn [mbind res_bind]. f_equal.
  replace (a .<< 16) with ((a .<< 8) .<< 8) by (by rewrite Z.shiftl_shiftl). rewrite <- Z.shiftl_lor, !lor_shift8 by done. lia.
Qed.

Lemma oui_eqb a b c x y z :
  is_byte a -> is_byte b -> is_byte c -> is_byte x -> is_byte y -> is_byte z ->
  (a * 65536 + b * 256 + c =? x * 65536 + y * 256 + z) = bool_decide ([a; b; c] = [x; y; z]).
Proof.
  unfold is_byte. intros. case_bool_decide as D; [injection D as -> -> ->; apply Z.eqb_refl|].
  apply Z.eqb_neq. intros E. apply D. repeat f_equal; lia.
Qed.

(** The element at [pos] is given its kind. *)
Lemma classify_spec pre e rest :
  bytes (e_data e) ->
  let buf := pre ++ e_data e ++ rest in
  (if e_id e =? WLAN_EID_VENDOR_SPECIFIC
   then rtw_ieee802_11_parse_vendor_specific buf (Z.of_nat (length pre)) (Z.of_nat (length (e_data e)))
   else Ok (field_of_id (e_id e))) = Ok (kind_of e).
Proof.
  intros B buf. unfold kind_of. destruct (e_id e =? WLAN_EID_VENDOR_SPECIFIC); [|done].
  unfold rtw_ieee802_11_parse_vendor_specific, buf. clear buf.
  destruct (e_data e) as [|a [|b [|c [|t d]]]]; [done..|]. rewrite (proj2 (Z.ltb_ge _ 4)) by (cbn; lia).
  assert (Ba := B). repeat (apply Forall_cons in Ba as [? Ba]). cbn [app].
  rewrite be24_spec by done. cbn [mbind res_bind].
  assert (byte_at (pre ++ a :: b :: c :: t :: d ++ rest) (Z.of_nat (length pre) + 3) = Ok t) as ->.
  { replace (pre ++ _) with ((pre ++ [a; b; c]) ++ t :: d ++ rest) by (by flat_app). apply byte_at_app. rewrite length_app. cbn. lia. }
  cbn [mbind res_bind]. unfold OUI_MICROSOFT, OUI_BROADCOM, WME_OUI_TYPE, VENDOR_HT_CAPAB_OUI_TYPE.
  change 0x0050f2 with (0x00 * 65536 + 0x50 * 256 + 0xf2). change 0x00904c with (0x00 * 65536 + 0x90 * 256 + 0x4c).
  rewrite !oui_eqb by (done || (unfold is_byte; lia)).
  case_bool_decide as Em; case_decide; try done.
  - destruct (t =? 1); [done|]. destruct (t =? 2); [|by destruct (t =? 4)]. destruct d as [|s d]; [done|].
    rewrite (proj2 (Z.ltb_ge _ 5)) by (cbn; lia).
    replace (pre ++ _) with ((pre ++ [a; b; c; t]) ++ s :: d ++ rest) by (by flat_app).
    rewrite byte_at_app by (rewrite length_app; cbn; lia). done.
  - case_bool_decide; case_decide; done.
Qed.

(** What the loop has recorded and counted after the elements. *)
Definition unknown_of (es : list elem) : Z := Z.of_nat (length (List.filter (fun e => bool_decide (kind_of e = None)) es)).
Definition status (unknown : Z) (es : list elem) (rest : list Z) : ParseRes :=
  if negb (bool_decide (rest = [])) then ParseFailed else if unknown + unknown_of es =? 0 then ParseOK else ParseUnknown.

(** One turn on a whole element. *)
Lemma parse_step fuel a e b left_ unknown elems :
  bytes (e_data e) -> Z.of_nat (length (enc1 e)) <= left_ < 2 ^ 32 ->
  let buf := a ++ enc1 e ++ b in
  let next := parse_loop fuel buf (left_ - Z.of_nat (length (enc1 e))) (Z.of_nat (length (a ++ enc1 e))) in
  parse_loop (S fuel) buf left_ (Z.of_nat (length a)) unknown elems =
  match kind_of e with
  | Some f => next unknown (set_elem f (Z.of_nat (length a) + 2) (Z.of_nat (length (e_data e))) elems)
  | None => next (unknown + 1) elems
  end.
Proof.
  intros Be L buf next. rewrite length_enc1 in L. set (n := length (e_data e)) in *. cbn [parse_loop].
  rewrite (proj2 (Z.leb_le _ _)), (u32_small (_ - 2)) by lia.
  destruct (elem_bytes a e b) as [E1 E2]. fold buf in E1, E2. rewrite E1, E2.
  cbn [mbind res_bind]. rewrite (proj2 (Z.ltb_ge _ _)) by lia.
  assert (Ebuf : buf = (a ++ [e_id e; Z.of_nat n]) ++ e_data e ++ b) by (unfold buf, enc1; fold n; by flat_app).
  assert (Pos : Z.of_nat (length a) + 2 = Z.of_nat (length (a ++ [e_id e; Z.of_nat n]))) by (rewrite length_app; cbn; lia).
  rewrite Ebuf at 1. rewrite Pos, classify_spec by done. cbn [mbind res_bind]. rewrite <- Pos, (u32_small (_ - Z.of_nat n)) by lia.
  unfold next. rewrite length_app, length_enc1. fold n.
  replace (left_ - Z.of_nat (2 + n)) with (left_ - 2 - Z.of_nat n) by lia.
  by replace (Z.of_nat (length a + (2 + n))) with (Z.of_nat (length a) + 2 + Z.of_nat n) by lia.
Qed.

Lemma parse_stump fuel a rest b unknown elems :
  stump rest -> Z.of_nat (length rest) < 2 ^ 32 ->
  parse_loop (S fuel) (a ++ rest ++ b) (Z.of_nat (length rest)) (Z.of_nat (length a)) unknown elems = Ok (status unknown [] rest, elems).
Proof.
  intros St L. unfold status, unknown_of. cbn. rewrite Z.add_0_r. destruct rest as [|id [|n rest]]; [done..|]. cbn in St.
  rewrite (proj2 (Z.leb_le _ _)) by (cbn; lia). cbn [app]. rewrite (byte_at_app (Z.of_nat (length a)) a id) by done.
  replace (a ++ id :: n :: rest ++ b) with ((a ++ [id]) ++ n :: rest ++ b) by (by flat_app).
  rewrite byte_at_app by (rewrite length_app; cbn; lia). cbn [mbind res_bind].
  rewrite (proj2 (Z.ltb_lt _ _)); [done|]. cbn [length] in L |- *. rewrite u32_small; lia.
Qed.

Lemma parse_loop_spec fuel a es rest b unknown elems :
  Forall (fun e => bytes (e_data e)) es -> stump rest -> (length (encode es ++ rest) < fuel)%nat ->
  Z.of_nat (length (encode es ++ rest)) < 2 ^ 32 ->
  exists elems', parse_loop fuel (a ++ (encode es ++ rest) ++ b) (Z.of_nat (length (encode es ++ rest))) (Z.of_nat (length a)) unknown elems =
    Ok (status unknown es rest, elems') /\
    forall f, elems' f = match last_of f (Z.of_nat (length a)) es with Some r => Some r | None => elems f end.
Proof.
  intros Hes St. revert fuel a unknown elems. induction Hes as [|e es Be Hes IH]; intros fuel a unknown elems F L.
  { destruct fuel as [|fuel]; [lia|]. exists elems. split; [by apply parse_stump|done]. }
  assert (encode (e :: es) ++ rest = enc1 e ++ encode es ++ rest) as Ex
    by (change (encode (e :: es)) with (enc1 e ++ encode es); by rewrite <- app_assoc).
  rewrite Ex, length_app in F, L |- *. clear Ex.
  pose proof (length_enc1 e) as Le. destruct fuel as [|fuel]; [lia|]. rewrite <- (app_assoc (enc1 e)), parse_step by (done || lia).
  replace (Z.of_nat (length (enc1 e) + length (encode es ++ rest)) - Z.of_nat (length (enc1 e))) with (Z.of_nat (length (encode es ++ rest))) by lia.
  assert (Count : forall u, (if bool_decide (kind_of e = None) then u + 1 else u) + unknown_of es = u + unknown_of (e :: es)).
  { intros u. unfold unknown_of. cbn [List.filter]. case_bool_decide; cbn [length]; lia. }
  rewrite (app_assoc a). unfold status. destruct (kind_of e) as [f|] eqn:K.
  - destruct (IH fuel (a ++ enc1 e) unknown (set_elem f (Z.of_nat (length a) + 2) (Z.of_nat (length (e_data e))) elems))
      as (elems' & -> & R); [lia|lia|].
    exists elems'. split; [by rewrite <- Count, (bool_decide_false (Some f = None))|].
    intros g. rewrite R, length_app, Nat2Z.inj_add. cbn [last_of]. destruct (last_of g _ es); [done|]. rewrite K. unfold set_elem.
    repeat case_decide; (done || congruence).
  - destruct (IH fuel (a ++ enc1 e) (unknown + 1) elems) as (elems' & -> & R); [lia|lia|].
    exists elems'. split; [by rewrite <- Count, (bool_decide_true (@None field = None))|].
    intros g. rewrite R, length_app, Nat2Z.inj_add. cbn [last_of]. destruct (last_of g _ es); [done|]. by rewrite K, decide_False.
Qed.

(** Where [last_of] points. *)
Lemma last_of_inside f p es q n :
  last_of f p es = Some (q, n) -> p + 2 <= q /\ 0 <= n /\ q + n <= p + Z.of_nat (length (encode es)).
Proof.
  revert p. induction es as [|e es IH]; intros p E; [done|]. cbn [last_of] in E. pose proof (length_enc1 e) as Le.
  rewrite length_encode_cons. destruct (last_of f (p + Z.of_nat (length (enc1 e))) es) as [[q' n']|] eqn:X.
  - injection E as -> ->. apply IH in X. lia.
  - case_decide; [|done]. injection E as <- <-. lia.
Qed.

Lemma encode_bytes es rest : bytes (encode es ++ rest) -> Forall (fun e => bytes (e_data e)) es.
Proof.
  induction es as [|e es IH]; [constructor|]. rewrite encode_cons. cbn [app]. intros B.
  do 2 (apply Forall_cons in B as [_ B]). rewrite <- app_assoc in B. apply Forall_app in B as [B1 B2]. constructor; auto.
Qed.

(** C23: The parser of all elements ends on any bytes without reading outside of them. It
    fails exactly when the bytes are not a sequence of whole elements. On a sequence it
    reports whether an element is unknown, and points every field to the content of the
    last element of its kind. Even after a failure all pointers are into the bytes. *)
Theorem parse_elems_correct a x b :
  bytes x -> Z.of_nat (length x) < 2 ^ 32 ->
  let start := Z.of_nat (length a) in
  let len := Z.of_nat (length x) in
  exists r elems, rtw_ieee802_11_parse_elems (a ++ x ++ b) start len = Ok (r, elems) /\
    (r = ParseFailed <-> ~ exists es, x = encode es) /\
    (forall es, x = encode es ->
      r = (if forallb (fun e => bool_decide (kind_of e <> None)) es then ParseOK else ParseUnknown) /\
      forall f, elems f = last_of f start es) /\
    (forall f p n, elems f = Some (p, n) -> start + 2 <= p /\ 0 <= n /\ p + n <= start + len).
Proof.
  intros B L start len. destruct (split_elements x B) as (es & rest & -> & St). pose proof (encode_bytes _ _ B) as Hes.
  unfold rtw_ieee802_11_parse_elems.
  destruct (parse_loop_spec (Datatypes.S (Z.to_nat len)) a es rest b 0 no_elems Hes St ltac:(lia) L) as (elems & E & R).
  exists (status 0 es rest), elems. split; [exact E|]. assert (R' : forall f, elems f = last_of f start es)
    by (intros f; rewrite R; by destruct (last_of _ _ _)).
  assert (Whole : (exists es', encode es ++ rest = encode es') <-> rest = []).
  { split; [intros [es' E']; by apply (stump_encode es rest es' St)|]. intros ->. exists es. by rewrite app_nil_r. }
  split; [|split].
  - rewrite Whole. unfold status. case_bool_decide; cbn [negb]; [|done]. destruct (_ =? 0); naive_solver.
  - intros es' E'. assert (rest = []) as -> by (apply Whole; eauto). rewrite app_nil_r in E'.
    destruct (stump_encode es [] es' I ltac:(by rewrite app_nil_r)) as [_ <-]. split; [|exact R'].
    unfold status, unknown_of. rewrite bool_decide_true by done. cbn [negb]. rewrite Z.add_0_l.
    clear. induction es as [|e es IH]; [done|]. cbn [List.filter forallb]. repeat case_bool_decide; try (done || congruence).
  - intros f p n Ef. rewrite R' in Ef. apply last_of_inside in Ef. unfold len. rewrite length_app. fold start in Ef. lia.
Qed.

(** * The security elements *)

Definition is_rsn (e : elem) : bool := e_id e =? _WPA2_IE_ID_.
Definition is_wpa : elem -> bool := matches WLAN_EID_VENDOR_SPECIFIC (Some wpa_oui_type).
Definition is_wapi (e : elem) : bool :=
  (e_id e =? _WAPI_IE_) && bool_decide (take 4 (drop 4 (e_data e)) = wapi_oui1 \/ take 4 (drop 4 (e_data e)) = wapi_oui2).

Definition put (o : option (list Z)) (e : elem) : option (list Z) := (fun o => enc1 e ++ drop (length (enc1 e)) o) <$> o.
Definition keep_last (m : elem -> bool) (st : option (list Z) * Z) (es : list elem) : option (list Z) * Z :=
  foldl (fun st e => if m e then (put st.1 e, Z.of_nat (length (enc1 e))) else st) st es.

(** An output buffer takes any element. *)
Definition roomy (st : option (list Z) * Z) : Prop := match st.1 with Some o => (257 <= length o)%nat | None => True end.

Lemma put_roomy st e n : roomy st -> roomy (put st.1 e, n).
Proof. unfold roomy. destruct st as [[o|] ?]; [|done]. cbn [put fst fmap option_fmap option_map]. rewrite length_app, length_drop. lia. Qed.

Lemma copy_put st a e b :
  roomy st -> (length (e_data e) <= 255)%nat ->
  copy_ie (a ++ enc1 e ++ b) (Z.of_nat (length a)) (Z.of_nat (length (e_data e))) st.1 = Ok (put st.1 e).
Proof.
  intros R L. pose proof (length_enc1 e) as Le. destruct st as [[o|] ?]; [|done]. unfold roomy in R. cbn [fst copy_ie] in *.
  replace (Z.of_nat (length (e_data e)) + 2) with (Z.of_nat (length (enc1 e))) by lia. rewrite load_app. cbn [mbind res_bind].
  rewrite <- (take_drop (length (enc1 e)) o) at 1. rewrite store_head; [done|]. rewrite length_take. lia.
Qed.

(** What the loops compare is within the frame: an element of the two kinds has the bytes,
    or what follows it does. *)
Definition sec_room (e : elem) : Prop :=
  (length (e_data e) <= 255)%nat /\ (e_id e = WLAN_EID_VENDOR_SPECIFIC -> (4 <= length (e_data e))%nat) /\
  (e_id e = _WAPI_IE_ -> (8 <= length (e_data e))%nat).

Lemma sec_ie_loop_spec fuel a es b in_ie cnt rsn wpa :
  in_ie + cnt = Z.of_nat (length a) -> 0 <= cnt -> Forall sec_room es -> roomy rsn -> roomy wpa -> (length (encode es) < fuel)%nat ->
  cnt + Z.of_nat (length (encode es)) < 2 ^ 32 ->
  sec_ie_loop fuel (a ++ encode es ++ b) in_ie (cnt + Z.of_nat (length (encode es))) cnt rsn wpa =
  Ok (keep_last is_rsn rsn es, keep_last is_wpa wpa es).
Proof.
  revert fuel a cnt rsn wpa. induction es as [|e es IH]; intros fuel a cnt rsn wpa P C R Rr Rw F L.
  { destruct fuel as [|fuel]; [lia|]. cbn [sec_ie_loop encode map concat length]. by rewrite (proj2 (Z.ltb_ge _ _)) by lia. }
  destruct fuel as [|fuel]; [lia|]. apply Forall_cons in R as [(Le & Rv & _) R]. rewrite length_encode_cons in F, L |- *.
  change (encode (e :: es)) with (enc1 e ++ encode es). rewrite <- (app_assoc (enc1 e)). cbn [sec_ie_loop].
  rewrite (proj2 (Z.ltb_lt _ _)), P by lia. destruct (elem_bytes a e (encode es ++ b)) as [-> ->]. cbn [mbind res_bind].
  rewrite vendor_test by done. fold (is_wpa e).
  cbn [mbind res_bind]. rewrite !copy_put by done. cbn [mbind res_bind]. fold (is_rsn e).
  rewrite u16_small, u32_small by lia. pose proof (length_enc1 e) as Ln.
  replace (Z.of_nat (length (e_data e)) + 2) with (Z.of_nat (length (enc1 e))) by lia.
  replace (cnt + Z.of_nat (2 + length (e_data e) + length (encode es))) with
    ((cnt + Z.of_nat (length (enc1 e))) + Z.of_nat (length (encode es))) by lia.
  assert (G : forall rsn wpa, roomy rsn -> roomy wpa ->
    sec_ie_loop fuel (a ++ enc1 e ++ encode es ++ b) in_ie (cnt + Z.of_nat (length (enc1 e)) + Z.of_nat (length (encode es)))
      (cnt + Z.of_nat (length (enc1 e))) rsn wpa = Ok (keep_last is_rsn rsn es, keep_last is_wpa wpa es)).
  { intros. rewrite (app_assoc a). apply IH; rewrite ?length_app; (done || lia). }
  unfold keep_last. cbn [foldl]. fold (keep_last is_rsn) (keep_last is_wpa). destruct (is_wpa e) eqn:W.
  - assert (is_rsn e = false) as ->.
    { unfold is_wpa, matches in W. apply andb_true_iff in W as [W _]. apply Z.eqb_eq in W. unfold is_rsn. by rewrite <- W. }
    by apply G; [|apply put_roomy].
  - destruct (is_rsn e); apply G; try done. by apply put_roomy.
Qed.

Lemma wapi_test e a b :
  sec_room e ->
  let buf := a ++ enc1 e ++ b in
  (if e_id e =? _WAPI_IE_ then
     m1 ← same_at buf (Z.of_nat (length a) + 6) wapi_oui1;
     if m1 : bool then Ok true else same_at buf (Z.of_nat (length a) + 6) wapi_oui2
   else Ok false) = Ok (is_wapi e).
Proof.
  intros (_ & _ & R) buf. unfold is_wapi. destruct (Z.eqb_spec (e_id e) _WAPI_IE_) as [E|]; [|done]. specialize (R E). cbn [andb].
  assert (G : forall oui, length oui = 4%nat -> same_at buf (Z.of_nat (length a) + 6) oui = Ok (bool_decide (take 4 (drop 4 (e_data e)) = oui))).
  { intros oui L. set (d := e_data e) in *.
    replace buf with ((a ++ [e_id e; Z.of_nat (length d)] ++ take 4 d) ++ take 4 (drop 4 d) ++ drop 4 (drop 4 d) ++ b).
    - apply same_at_app; [rewrite !length_app, length_take; cbn [length]; lia|rewrite length_take, length_drop; lia].
    - unfold buf, enc1. fold d. flat_app. do 3 f_equal. rewrite (app_assoc (take 4 (drop 4 d))), take_drop.
      by rewrite (app_assoc (take 4 d)), take_drop. }
  rewrite !G by done. cbn [mbind res_bind]. repeat case_bool_decide; tauto.
Qed.

Lemma wapi_loop_spec fuel a es b in_ie cnt wapi :
  in_ie + cnt = Z.of_nat (length a) -> 0 <= cnt -> Forall sec_room es -> roomy wapi -> (length (encode es) < fuel)%nat ->
  cnt + Z.of_nat (length (encode es)) < 2 ^ 32 ->
  wapi_loop fuel (a ++ encode es ++ b) in_ie (cnt + Z.of_nat (length (encode es))) cnt wapi = Ok (keep_last is_wapi wapi es).
Proof.
  revert fuel a cnt wapi. induction es as [|e es IH]; intros fuel a cnt wapi P C R Rw F L.
  { destruct fuel as [|fuel]; [lia|]. cbn [wapi_loop encode map concat length]. by rewrite (proj2 (Z.ltb_ge _ _)) by lia. }
  destruct fuel as [|fuel]; [lia|]. apply Forall_cons in R as [Re R]. pose proof (proj1 Re) as Le. rewrite length_encode_cons in F, L |- *.
  change (encode (e :: es)) with (enc1 e ++ encode es). rewrite <- (app_assoc (enc1 e)). cbn [wapi_loop].
  rewrite (proj2 (Z.ltb_lt _ _)), P by lia. destruct (elem_bytes a e (encode es ++ b)) as [-> ->]. cbn [mbind res_bind].
  rewrite wapi_test by done. cbn [mbind res_bind]. rewrite copy_put by done. cbn [mbind res_bind].
  rewrite u16_small, u32_small by lia. pose proof (length_enc1 e) as Ln.
  replace (Z.of_nat (length (e_data e)) + 2) with (Z.of_nat (length (enc1 e))) by lia.
  replace (cnt + Z.of_nat (2 + length (e_data e) + length (encode es))) with
    ((cnt + Z.of_nat (length (enc1 e))) + Z.of_nat (length (encode es))) by lia.
  assert (G : forall wapi, roomy wapi ->
    wapi_loop fuel (a ++ enc1 e ++ encode es ++ b) in_ie (cnt + Z.of_nat (length (enc1 e)) + Z.of_nat (length (encode es)))
      (cnt + Z.of_nat (length (enc1 e))) wapi = Ok (keep_last is_wapi wapi es)).
  { intros. rewrite (app_assoc a). apply IH; rewrite ?length_app; (done || lia). }
  unfold keep_last. cbn [foldl]. fold (keep_last is_wapi). destruct (is_wapi e); apply G; [by apply put_roomy|done].
Qed.

Lemma keep_last_snoc m st es e :
  keep_last m st (es ++ [e]) = if m e then (put (keep_last m st es).1 e, Z.of_nat (length (enc1 e))) else keep_last m st es.
Proof. unfold keep_last. by rewrite foldl_app. Qed.

(** What is kept is the last element of the kind. *)
Lemma keep_last_spec m st es :
  roomy st -> Forall (fun e => (length (e_data e) <= 255)%nat) es ->
  (Forall (fun e => m e = false) es /\ keep_last m st es = st) \/
  exists es1 e es2, es = es1 ++ e :: es2 /\ m e = true /\ Forall (fun e => m e = false) es2 /\
    (keep_last m st es).2 = Z.of_nat (length (enc1 e)) /\
    match (keep_last m st es).1 with Some o => take (length (enc1 e)) o = enc1 e | None => st.1 = None end.
Proof.
  intros R Les. induction es as [|e es IH] using rev_ind; [by left|]. apply Forall_app in Les as [Les _].
  rewrite keep_last_snoc. destruct (m e) eqn:M.
  - right. exists es, e, []. split_and!; try done. cbn [fst]. destruct (keep_last m st es) as [[o|] n] eqn:K; cbn [put fst fmap option_fmap option_map].
    + by rewrite take_app_len.
    + destruct (IH Les) as [[_ E]|(es1 & e' & es2 & _ & _ & _ & _ & E)]; [by rewrite <- E|done].
  - destruct (IH Les) as [[F E]|(es1 & e' & es2 & -> & Me & F & E)].
    + left. split; [|done]. by apply Forall_app; split; [|constructor].
    + right. exists es1, e', (es2 ++ [e]). rewrite <- app_assoc. split_and!; try done; [|by destruct E..].
      by apply Forall_app; split; [|constructor].
Qed.

(** The collection of the security elements behind the 12 fixed bytes of a beacon: the
    copies and lengths are those of the last RSN and WPA element, and of the last WAPI
    element; without one, the output is what it was before. *)
Theorem sec_ie_correct a hdr es b rsn wpa wapi_ie :
  length hdr = 12%nat -> Forall sec_room es -> roomy rsn -> roomy wpa -> roomy (wapi_ie, 0) ->
  12 + Z.of_nat (length (encode es)) < 2 ^ 32 ->
  let buf := a ++ hdr ++ encode es ++ b in
  let n := 12 + Z.of_nat (length (encode es)) in
  exists rsn' wpa' wapi',
    rtw_get_sec_ie buf (Z.of_nat (length a)) n rsn wpa = Ok ((rsn', wpa'), rsn'.2 + wpa'.2) /\
    rtw_get_wapi_ie buf (Z.of_nat (length a)) n wapi_ie = Ok wapi' /\
    forall m st st', (m, st, st') ∈ [(is_rsn, rsn, rsn'); (is_wpa, wpa, wpa'); (is_wapi, (wapi_ie, 0), wapi')] ->
      (Forall (fun e => m e = false) es /\ st' = st) \/
      exists es1 e es2, es = es1 ++ e :: es2 /\ m e = true /\ Forall (fun e => m e = false) es2 /\
        st'.2 = Z.of_nat (length (enc1 e)) /\
        match st'.1 with Some o => take (length (enc1 e)) o = enc1 e | None => st.1 = None end.
Proof.
  intros Lh R Rr Rw Ra L buf n. exists (keep_last is_rsn rsn es), (keep_last is_wpa wpa es), (keep_last is_wapi (wapi_ie, 0) es).
  assert (Ebuf : buf = (a ++ hdr) ++ encode es ++ b) by (unfold buf; by rewrite <- app_assoc).
  assert (La : Z.of_nat (length a) + 12 = Z.of_nat (length (a ++ hdr))) by (rewrite length_app; lia).
  unfold rtw_get_sec_ie, rtw_get_wapi_ie. rewrite (proj2 (Z.leb_gt _ _)) by lia. rewrite Ebuf. unfold n.
  rewrite sec_ie_loop_spec, wapi_loop_spec by (done || lia). split; [done|]. split; [done|].
  assert (Le : Forall (fun e => (length (e_data e) <= 255)%nat) es) by (eapply Forall_impl; [exact R|]; by intros e [? _]).
  intros m st st' I. rewrite !elem_of_cons in I.
  destruct I as [I|[I|[I|I]]]; [injection I as -> -> ->; by apply keep_last_spec..|]. by apply not_elem_of_nil in I.
Qed.

(** * Examples *)

Lemma parse_elems_correct_witness :
  exists r elems, rtw_ieee802_11_parse_elems ([7; 7] ++ encode sample ++ []) 2 24 = Ok (r, elems) /\ r = ParseUnknown /\
    elems wpa_ie = Some (22, 4) /\ elems ssid = Some (4, 2).
Proof.
  destruct (parse_elems_correct [7; 7] (encode sample) [] ltac:(apply (bool_decide_eq_true_1 _); vm_compute; reflexivity) ltac:(cbn; lia))
    as (r & elems & E & _ & S & _).
  exists r, elems. destruct (S sample eq_refl) as [Hr He]. split; [exact E|]. split; [rewrite Hr; reflexivity|]. split; rewrite He; reflexivity.
Defined.

(** A beacon with the last of two RSN elements kept. *)
Definition beacon_elems : list elem := [mk_elem 0 [97]; mk_elem 48 [1; 0]; mk_elem 221 [0; 0x50; 0xf2; 1; 1; 0]; mk_elem 48 [2]].

Lemma sec_ie_correct_witness :
  exists rsn' wpa', rtw_get_sec_ie (replicate 12 9 ++ encode beacon_elems ++ []) 0 30 (Some (replicate 257 0), 0) (None, 0) =
    Ok ((rsn', wpa'), rsn'.2 + wpa'.2) /\
    exists es1 e es2, beacon_elems = es1 ++ e :: es2 /\ is_rsn e = true /\ Forall (fun e => is_rsn e = false) es2 /\
      rsn'.2 = Z.of_nat (length (enc1 e)) /\ match rsn'.1 with Some o => take (length (enc1 e)) o = enc1 e | None => False end.
Proof.
  destruct (sec_ie_correct [] (replicate 12 9) beacon_elems [] (Some (replicate 257 0), 0) (None, 0) None) as (rsn' & wpa' & wapi' & E & _ & G);
    [reflexivity| |unfold roomy; cbn; lia|exact I|exact I|cbn; lia|].
  - unfold sec_room, _WAPI_IE_, WLAN_EID_VENDOR_SPECIFIC. repeat (apply Forall_cons; split; [cbn; lia|]). by apply Forall_nil.
  - exists rsn', wpa'. split; [exact E|]. destruct (G is_rsn (Some (replicate 257 0), 0) rsn') as [[F _]|(es1 & e & es2 & Ees & M & F & L & K)].
    + apply elem_of_cons. by left.
    + apply Forall_cons in F as [_ F]. by apply Forall_cons in F as [F _].
    + exists es1, e, es2. split_and!; try done. by destruct (rsn'.1).
Defined.
