(* ===== verification/WifiRsn.v ===== *)
(** The security elements of the Wi-Fi driver: the RSN element and the older WPA element
    ([core/rtw_ieee80211.c]).

    The RSN element is a list of fields that may end after any of them. The parser records
    where the fields are; a second function reads the cipher and key management suites from
    there. *)

From S2P Require Import Prelude WifiReorder Mem WifiIe WifiAttr WifiElems.

(** * Suites *)

Definition rsn_oui (t : Z) : list Z := [0x00; 0x0f; 0xac; t].
Definition ms_oui (t : Z) : list Z := [0x00; 0x50; 0xf2; t].

(** Selectors and values in the order of the comparisons; without a match the value is 0. *)
Definition wpa_suites : list (list Z * Z) :=
  [(ms_oui 0, 2 ^ 0); (ms_oui 1, 2 ^ 1); (ms_oui 2, 2 ^ 3); (ms_oui 4, 2 ^ 4); (ms_oui 5, 2 ^ 2)].
Definition rsn_suites : list (list Z * Z) :=
  [(rsn_oui 0, 2 ^ 0); (rsn_oui 1, 2 ^ 1); (rsn_oui 2, 2 ^ 3); (rsn_oui 4, 2 ^ 4); (rsn_oui 8, 2 ^ 5); (rsn_oui 9, 2 ^ 6);
   (rsn_oui 10, 2 ^ 7); (rsn_oui 5, 2 ^ 2); (rsn_oui 6, 2 ^ 8); (rsn_oui 11, 2 ^ 9); (rsn_oui 12, 2 ^ 10); (rsn_oui 13, 2 ^ 11)].
Definition akm_suites : list (list Z * Z) :=
  [(rsn_oui 1, 2 ^ 0); (rsn_oui 2, 2 ^ 1); (rsn_oui 3, 2 ^ 2); (rsn_oui 4, 2 ^ 3); (rsn_oui 5, 2 ^ 4); (rsn_oui 6, 2 ^ 5);
   (rsn_oui 7, 2 ^ 6); (rsn_oui 8, 2 ^ 7); (rsn_oui 9, 2 ^ 8); (rsn_oui 11, 2 ^ 9); (rsn_oui 12, 2 ^ 10);
   (rsn_oui 14, 2 ^ 11); (rsn_oui 15, 2 ^ 12); (rsn_oui 16, 2 ^ 13); (rsn_oui 17, 2 ^ 14)].
Definition suite_value (table : list (list Z * Z)) (s : list Z) : Z :=
  match List.find (fun e => bool_decide (s = e.1)) table with Some e => e.2 | None => 0 end.

Definition rtw_get_wpa_cipher_suite (buf : list Z) (s : Z) : res Z := x ← load s 4 buf; Ok (suite_value wpa_suites x).
Definition rtw_get_rsn_cipher_suite (buf : list Z) (s : Z) : res Z := x ← load s 4 buf; Ok (suite_value rsn_suites x).
Definition rtw_get_akm_suite_bitmap (buf : list Z) (s : Z) : res Z := x ← load s 4 buf; Ok (suite_value akm_suites x).

(** The second operand of [||] is only evaluated when the first is false. *)
Definition or_else (b : bool) (r : res bool) : res bool := if b then Ok true else r.

(** The loops over [count] suites. *)
Fixpoint suites_loop (get : list Z -> Z -> res Z) (buf : list Z) (pos : Z) (count : nat) (acc : Z) : res Z :=
  match count with
  | O => Ok acc
  | S count => v ← get buf pos; suites_loop get buf (pos + 4) count (acc .| v)
  end.

(** * The WPA element *)

(** The suites found; [None] where the function does not assign. *)
Record wpa_suites_out := mk_wpa { w_group : option Z; w_pairwise : Z; w_akm : option Z }.

(** The result, [_SUCCESS] or [_FAIL], and what has been assigned so far. [pairwise] is
    [*pairwise_cipher] before; the key management is only looked at when it is asked for. *)
Definition rtw_parse_wpa_ie (buf : list Z) (wpa_ie wpa_ie_len pairwise : Z) (akm : bool) : res (Z * wpa_suites_out) :=
  let out := mk_wpa None pairwise None in
  if wpa_ie_len <=? 0 then Ok (_FAIL, out)
  else
    id ← byte_at buf wpa_ie;
    bad ← or_else (negb (id =? WLAN_EID_VENDOR_SPECIFIC))
      (l ← byte_at buf (wpa_ie + 1);
       or_else (negb (l =? u8 (wpa_ie_len - 2))) (m ← same_at buf (wpa_ie + 2) wpa_oui_type; Ok (negb m)));
    if bad : bool then Ok (_FAIL, out)
    else
      let pos := wpa_ie + 8 in
      let left_ := wpa_ie_len - 8 in
      if (left_ <? 4) && (0 <? left_) then Ok (_FAIL, out)
      else
        g ← (if 4 <=? left_ then v ← rtw_get_wpa_cipher_suite buf pos; Ok (Some v) else Ok None);
        let pos := if 4 <=? left_ then pos + 4 else pos in
        let left_ := if 4 <=? left_ then left_ - 4 else left_ in
        let out := mk_wpa g pairwise None in
        if left_ =? 1 then Ok (_FAIL, out)
        else
          r ← (if 2 <=? left_ then
                 count ← RTW_GET_LE16 buf pos;
                 if (count =? 0) || (left_ - 2 <? count * 4) then Ok None
                 else v ← suites_loop rtw_get_wpa_cipher_suite buf (pos + 2) (Z.to_nat count) pairwise;
                      Ok (Some (v, pos + 2 + 4 * count, left_ - 2 - 4 * count))
               else Ok (Some (pairwise, pos, left_)));
          match r with
          | None => Ok (_FAIL, out)
          | Some (v, pos, left_) =>
              k ← (if akm && (6 <=? left_) then
                     m ← same_at buf (pos + 2) [0x00; 0x50; 0xf2; 1]; Ok (if m : bool then Some (2 ^ 0) else None)
                   else Ok None);
              Ok (_SUCCESS, mk_wpa g v k)
          end.

(** * The RSN element *)

(** Pointers into the element; [None] is the null pointer. *)
Record rsne_info := mk_rsne_info {
  gcs : option Z;
  pcs_cnt : Z; pcs_list : option Z;
  akm_cnt : Z; akm_list : option Z;
  cap : option Z;
  pmkid_cnt : Z; pmkid_list : option Z;
  gmcs : option Z;
  err : bool }.
Definition rsne_zero : rsne_info := mk_rsne_info None 0 None 0 None None 0 None None false.

Definition set_gcs (p : Z) (i : rsne_info) := mk_rsne_info (Some p) (pcs_cnt i) (pcs_list i) (akm_cnt i) (akm_list i) (cap i) (pmkid_cnt i) (pmkid_list i) (gmcs i) (err i).
Definition set_pcs (cnt p : Z) (i : rsne_info) := mk_rsne_info (gcs i) cnt (Some p) (akm_cnt i) (akm_list i) (cap i) (pmkid_cnt i) (pmkid_list i) (gmcs i) (err i).
Definition set_akm (cnt p : Z) (i : rsne_info) := mk_rsne_info (gcs i) (pcs_cnt i) (pcs_list i) cnt (Some p) (cap i) (pmkid_cnt i) (pmkid_list i) (gmcs i) (err i).
Definition set_cap (p : Z) (i : rsne_info) := mk_rsne_info (gcs i) (pcs_cnt i) (pcs_list i) (akm_cnt i) (akm_list i) (Some p) (pmkid_cnt i) (pmkid_list i) (gmcs i) (err i).
Definition set_pmkid (cnt p : Z) (i : rsne_info) := mk_rsne_info (gcs i) (pcs_cnt i) (pcs_list i) (akm_cnt i) (akm_list i) (cap i) cnt (Some p) (gmcs i) (err i).
Definition set_gmcs (p : Z) (i : rsne_info) := mk_rsne_info (gcs i) (pcs_cnt i) (pcs_list i) (akm_cnt i) (akm_list i) (cap i) (pmkid_cnt i) (pmkid_list i) (Some p) (err i).
Definition set_err (i : rsne_info) := mk_rsne_info (gcs i) (pcs_cnt i) (pcs_list i) (akm_cnt i) (akm_list i) (cap i) (pmkid_cnt i) (pmkid_list i) (gmcs i) true.

(** The labels [exit] and [err]. *)
Definition exit_rsne (i : rsne_info) : res (Z * rsne_info) := Ok (_SUCCESS, i).
Definition err_rsne (i : rsne_info) : res (Z * rsne_info) := Ok (_FAIL, set_err i).

(** The element may end before a field, but not within it. *)
Definition ended (end_ pos : Z) (i : rsne_info) : res (Z * rsne_info) := if negb (end_ =? pos) then err_rsne i else exit_rsne i.

(** The sections of the function, the last first. *)
Definition parse_gmcs (end_ pos : Z) (i : rsne_info) : res (Z * rsne_info) :=
  if end_ <? pos + 4 then ended end_ pos i else exit_rsne (set_gmcs pos i).

Definition parse_pmkid (buf : list Z) (end_ pos : Z) (i : rsne_info) : res (Z * rsne_info) :=
  if end_ <? pos + 2 then ended end_ pos i
  else
    cnt ← RTW_GET_LE16 buf pos;
    let pos := pos + 2 in
    if end_ <? pos + 16 * cnt then err_rsne i else parse_gmcs end_ (pos + 16 * cnt) (set_pmkid cnt pos i).

Definition parse_cap (buf : list Z) (end_ pos : Z) (i : rsne_info) : res (Z * rsne_info) :=
  if end_ <? pos + 2 then ended end_ pos i else parse_pmkid buf end_ (pos + 2) (set_cap pos i).

(** The sections of the pairwise and the key management suites are alike. *)
Definition parse_suites (buf : list Z) (end_ pos : Z) (set : Z -> Z -> rsne_info -> rsne_info)
    (next : Z -> rsne_info -> res (Z * rsne_info)) (i : rsne_info) : res (Z * rsne_info) :=
  if end_ <? pos + 2 then ended end_ pos i
  else
    cnt ← RTW_GET_LE16 buf pos;
    let pos := pos + 2 in
    if end_ <? pos + 4 * cnt then ended end_ pos i else next (pos + 4 * cnt) (set cnt pos i).

Definition parse_akm (buf : list Z) (end_ pos : Z) : rsne_info -> res (Z * rsne_info) :=
  parse_suites buf end_ pos set_akm (parse_cap buf end_).
Definition parse_pcs (buf : list Z) (end_ pos : Z) : rsne_info -> res (Z * rsne_info) :=
  parse_suites buf end_ pos set_pcs (parse_akm buf end_).

Definition parse_gcs (buf : list Z) (end_ pos : Z) (i : rsne_info) : res (Z * rsne_info) :=
  if end_ <? pos + 4 then ended end_ pos i else parse_pcs buf end_ (pos + 4) (set_gcs pos i).

Definition rtw_rsne_info_parse (buf : list Z) (ie ie_len : Z) : res (Z * rsne_info) :=
  let end_ := ie + ie_len in
  let i := rsne_zero in
  if end_ <? ie + 4 then err_rsne i
  else
    id ← byte_at buf ie;
    bad ← or_else (negb (id =? WLAN_EID_RSN)) (l ← byte_at buf (ie + 1); Ok (negb (l =? u32 (ie_len - 2))));
    if bad : bool then err_rsne i
    else
      ver ← RTW_GET_LE16 buf (ie + 2);
      if negb (1 =? ver) then err_rsne i else parse_gcs buf end_ (ie + 4) i.

(** What the second function assigns. *)
Record wpa2_out := mk_wpa2 { r_group : Z; r_pairwise : Z; r_gmcs : Z; r_akm : Z; r_mfp : Z; r_spp : Z }.

Definition WPA_CIPHER_BIP_CMAC_128 : Z := 2 ^ 8.
Definition GET_RSN_CAP_MFP_OPTION (c : Z) : Z := (c .>> 6) .& 3.
Definition GET_RSN_CAP_SPP_OPT (c : Z) : Z := (c .>> 10) .& 3.

(** All six outputs are asked for; [None] is the result [_FAIL], which assigns nothing. *)
Definition rtw_parse_wpa2_ie (buf : list Z) (rsn_ie rsn_ie_len : Z) : res (option wpa2_out) :=
  r ← rtw_rsne_info_parse buf rsn_ie (u32 rsn_ie_len);
  let '(ret, info) := r in
  if negb (ret =? _SUCCESS) then Ok None
  else
    group ← match gcs info with Some p => rtw_get_rsn_cipher_suite buf p | None => Ok 0 end;
    pairwise ← match pcs_list info with
      | Some p => suites_loop rtw_get_rsn_cipher_suite buf p (Z.to_nat (pcs_cnt info)) 0
      | None => Ok 0 end;
    gm ← match gmcs info with Some p => rtw_get_rsn_cipher_suite buf p | None => Ok WPA_CIPHER_BIP_CMAC_128 end;
    akm ← match akm_list info with
      | Some p => suites_loop rtw_get_akm_suite_bitmap buf p (Z.to_nat (akm_cnt info)) 0
      | None => Ok 0 end;
    c ← match cap info with Some p => RTW_GET_LE16 buf p | None => Ok 0 end;
    Ok (Some (mk_wpa2 group pairwise gm akm (GET_RSN_CAP_MFP_OPTION c) (GET_RSN_CAP_SPP_OPT c))).

(** * The parser stays inside of the element *)

Definition within (end_ n : Z) (p : option Z) : Prop := match p with Some p => 0 <= p /\ p + n <= end_ | None => True end.

(** Every pointer recorded, with the bytes it stands for. *)
Definition inside (end_ : Z) (i : rsne_info) : Prop :=
  within end_ 4 (gcs i) /\ within end_ (4 * pcs_cnt i) (pcs_list i) /\ within end_ (4 * akm_cnt i) (akm_list i) /\
  within end_ 2 (cap i) /\ within end_ (16 * pmkid_cnt i) (pmkid_list i) /\ within end_ 4 (gmcs i) /\
  0 <= pcs_cnt i < 65536 /\ 0 <= akm_cnt i < 65536 /\ 0 <= pmkid_cnt i < 65536.

Section inside.
Context (buf : list Z) (Hbuf : bytes buf) (end_ : Z) (Hend : end_ <= Z.of_nat (length buf)).

(** What a section promises: a result, with the pointers inside, and the flag for failure. *)
Definition good (r : res (Z * rsne_info)) : Prop :=
  exists ret i, r = Ok (ret, i) /\ inside end_ i /\ ((ret = _SUCCESS /\ err i = false) \/ (ret = _FAIL /\ err i = true)).

Lemma err_good i : inside end_ i -> good (err_rsne i).
Proof. intros H. exists _FAIL, (set_err i). split_and!; [done|exact H|by right]. Qed.

Lemma exit_good i : inside end_ i -> err i = false -> good (exit_rsne i).
Proof. intros H E. exists _SUCCESS, i. split_and!; [done|done|by left]. Qed.

Lemma ended_good pos i : inside end_ i -> err i = false -> good (ended end_ pos i).
Proof. intros. unfold ended. case_match; [by apply err_good|by apply exit_good]. Qed.

Lemma le16_good pos : 0 <= pos -> pos + 2 <= end_ -> exists n, RTW_GET_LE16 buf pos = Ok n /\ 0 <= n < 65536.
Proof. intros Hp L. destruct (get16_ok buf pos Hbuf Hp) as (E & _ & R & _); [lia|]. eauto. Qed.

Lemma parse_gmcs_good pos i : 0 <= pos -> inside end_ i -> err i = false -> good (parse_gmcs end_ pos i).
Proof.
  intros Hp I E. unfold parse_gmcs. destruct (Z.ltb_spec end_ (pos + 4)); [by apply ended_good|].
  apply exit_good; [|done]. unfold inside in *. cbn. tauto.
Qed.

Lemma parse_pmkid_good pos i : 0 <= pos -> inside end_ i -> err i = false -> good (parse_pmkid buf end_ pos i).
Proof.
  intros Hp I E. unfold parse_pmkid. destruct (Z.ltb_spec end_ (pos + 2)); [by apply ended_good|].
  destruct (le16_good pos) as (n & -> & Hn); [done|lia|]. cbn [mbind res_bind].
  destruct (Z.ltb_spec end_ (pos + 2 + 16 * n)); [by apply err_good|]. apply parse_gmcs_good; [lia| |done].
  unfold inside, within in *. cbn. split_and!; (tauto || lia).
Qed.

Lemma parse_cap_good pos i : 0 <= pos -> inside end_ i -> err i = false -> good (parse_cap buf end_ pos i).
Proof.
  intros Hp I E. unfold parse_cap. destruct (Z.ltb_spec end_ (pos + 2)); [by apply ended_good|].
  apply parse_pmkid_good; [lia| |done]. unfold inside, within in *. cbn. split_and!; (tauto || lia).
Qed.

Lemma parse_suites_good set next pos i :
  (forall pos i, 0 <= pos -> inside end_ i -> err i = false -> good (next pos i)) ->
  (forall cnt p i, err (set cnt p i) = err i) ->
  (forall cnt p i, 0 <= cnt < 65536 -> within end_ (4 * cnt) (Some p) -> inside end_ i -> inside end_ (set cnt p i)) ->
  0 <= pos -> inside end_ i -> err i = false -> good (parse_suites buf end_ pos set next i).
Proof.
  intros N Se Si Hp I E. unfold parse_suites. destruct (Z.ltb_spec end_ (pos + 2)); [by apply ended_good|].
  destruct (le16_good pos) as (n & -> & Hn); [done|lia|]. cbn [mbind res_bind].
  destruct (Z.ltb_spec end_ (pos + 2 + 4 * n)); [by apply ended_good|].
  apply N; [lia|apply Si; [done|unfold within; lia|done]|by rewrite Se].
Qed.

Lemma parse_gcs_good pos i : 0 <= pos -> inside end_ i -> err i = false -> good (parse_gcs buf end_ pos i).
Proof.
  intros Hp I E. unfold parse_gcs. destruct (Z.ltb_spec end_ (pos + 4)); [by apply ended_good|].
  apply parse_suites_good; try done; [|by intros; unfold inside, within in *; cbn; tauto|lia|unfold inside, within in *; cbn; split_and!; (tauto || lia)].
  intros pos' i' Hp' I' E'. apply parse_suites_good; try done; [|by intros; unfold inside, within in *; cbn; tauto].
  apply parse_cap_good.
Qed.
End inside.

(** Parsing any bytes as an RSN element gives a result without reading outside of the
    element, whatever the counts in it say; every pointer recorded, also by a parse that
    fails, has its bytes inside; and the error flag tells the two results apart. *)
Theorem rsne_parse_safe buf ie ie_len :
  bytes buf -> 0 <= ie -> 0 <= ie_len < 2 ^ 32 -> ie + ie_len <= Z.of_nat (length buf) ->
  exists ret i, rtw_rsne_info_parse buf ie ie_len = Ok (ret, i) /\ inside (ie + ie_len) i /\
    ((ret = _SUCCESS /\ err i = false) \/ (ret = _FAIL /\ err i = true)).
Proof.
  intros B Hi Hl L. assert (I0 : inside (ie + ie_len) rsne_zero) by (unfold inside; cbn; lia).
  change (good (ie + ie_len) (rtw_rsne_info_parse buf ie ie_len)). unfold rtw_rsne_info_parse.
  destruct (Z.ltb_spec (ie + ie_len) (ie + 4)); [by apply err_good|]. rewrite !load1 by lia. cbn [mbind res_bind].
  assert (exists bad, or_else (negb (tbl buf ie =? WLAN_EID_RSN)) (Ok (negb (tbl buf (ie + 1) =? u32 (ie_len - 2)))) = Ok bad)
    as [bad ->] by (unfold or_else; case_match; eauto).
  cbn [mbind res_bind]. destruct bad; [by apply err_good|].
  destruct (le16_good buf B _ L (ie + 2)) as (n & -> & _); [lia|lia|]. cbn [mbind res_bind].
  destruct (negb (1 =? n)); [by apply err_good|]. apply parse_gcs_good; (done || lia).
Qed.

(** * Well-formed elements *)

(** The fields from the PMKIDs, the capabilities, the key management and the pairwise suites
    on; every tail may be missing. *)
Definition rsn_pmkids : Type := list (list Z) * option (list Z).
Definition rsn_caps : Type := list Z * option rsn_pmkids.
Definition rsn_akms : Type := list (list Z) * option rsn_caps.
Definition rsn_pairs : Type := list (list Z) * option rsn_akms.
Definition rsn_fields : Type := list Z * option rsn_pairs.

Definition le16 (n : Z) : list Z := [n mod 256; n / 256].
Definition counted (xs : list (list Z)) : list Z := le16 (Z.of_nat (length xs)) ++ concat xs.
Definition tail_bytes {A} (f : A -> list Z) (o : option A) : list Z := match o with Some x => f x | None => [] end.
Definition pmkids_bytes : rsn_pmkids -> list Z := fun '(xs, o) => counted xs ++ tail_bytes (fun x => x) o.
Definition caps_bytes : rsn_caps -> list Z := fun '(c, o) => c ++ tail_bytes pmkids_bytes o.
Definition akms_bytes : rsn_akms -> list Z := fun '(xs, o) => counted xs ++ tail_bytes caps_bytes o.
Definition pairs_bytes : rsn_pairs -> list Z := fun '(xs, o) => counted xs ++ tail_bytes akms_bytes o.
Definition fields_bytes : rsn_fields -> list Z := fun '(g, o) => g ++ tail_bytes pairs_bytes o.
Definition rsn_elem (r : option rsn_fields) : elem := mk_elem WLAN_EID_RSN ([1; 0] ++ tail_bytes fields_bytes r).

(** The fields themselves, and their sizes. *)
Definition r_pairs (r : option rsn_fields) : option rsn_pairs := r ≫= snd.
Definition r_akms (r : option rsn_fields) : option rsn_akms := r_pairs r ≫= snd.
Definition r_caps (r : option rsn_fields) : option rsn_caps := r_akms r ≫= snd.
Definition r_pmkids (r : option rsn_fields) : option rsn_pmkids := r_caps r ≫= snd.
Definition r_gm (r : option rsn_fields) : option (list Z) := r_pmkids r ≫= snd.

Definition sized {A} (size : nat) (f : A -> list (list Z)) (o : option A) : Prop :=
  match o with Some x => Forall (fun s => length s = size) (f x) /\ Z.of_nat (length (f x)) < 65536 | None => True end.
Definition rsn_sized (r : option rsn_fields) : Prop :=
  sized 4 (fun x => [x.1]) r /\ sized 4 fst (r_pairs r) /\ sized 4 fst (r_akms r) /\ sized 2 (fun x => [x.1]) (r_caps r) /\
  sized 16 fst (r_pmkids r) /\ sized 4 (fun x => [x]) (r_gm r).

(** What the parser has to record for the fields that start at [p]. *)
Definition fill_gm (p : Z) (o : option (list Z)) (i : rsne_info) := match o with Some _ => set_gmcs p i | None => i end.
Definition fill_pmkids (p : Z) (o : option rsn_pmkids) (i : rsne_info) :=
  match o with
  | Some (xs, o) => let n := Z.of_nat (length xs) in fill_gm (p + 2 + 16 * n) o (set_pmkid n (p + 2) i)
  | None => i
  end.
Definition fill_caps (p : Z) (o : option rsn_caps) (i : rsne_info) :=
  match o with Some (_, o) => fill_pmkids (p + 2) o (set_cap p i) | None => i end.
Definition fill_akms (p : Z) (o : option rsn_akms) (i : rsne_info) :=
  match o with
  | Some (xs, o) => let n := Z.of_nat (length xs) in fill_caps (p + 2 + 4 * n) o (set_akm n (p + 2) i)
  | None => i
  end.
Definition fill_pairs (p : Z) (o : option rsn_pairs) (i : rsne_info) :=
  match o with
  | Some (xs, o) => let n := Z.of_nat (length xs) in fill_akms (p + 2 + 4 * n) o (set_pcs n (p + 2) i)
  | None => i
  end.
Definition fill_fields (p : Z) (o : option rsn_fields) (i : rsne_info) :=
  match o with Some (_, o) => fill_pairs (p + 4) o (set_gcs p i) | None => i end.

Lemma length_concat_sized size (xs : list (list Z)) :
  Forall (fun s => length s = size) xs -> length (concat xs) = (size * length xs)%nat.
Proof. induction 1 as [|x xs Hx _ IH]; [cbn; lia|]. cbn [concat length]. rewrite length_app, Hx, IH. lia. Qed.

Lemma length_counted size xs : Forall (fun s => length s = size) xs -> length (counted xs) = (2 + size * length xs)%nat.
Proof. intros F. unfold counted. rewrite length_app, (length_concat_sized size) by done. done. Qed.

Lemma le16_at a n b : 0 <= n < 65536 -> RTW_GET_LE16 (a ++ le16 n ++ b) (Z.of_nat (length a)) = Ok n.
Proof.
  intros Hn. pose proof (Z.div_mod n 256 ltac:(lia)). pose proof (Z.mod_pos_bound n 256 ltac:(lia)).
  destruct (get16_enc a (n / 256) (n mod 256) b) as [_ E]; [unfold is_byte; lia..|]. unfold le16. rewrite E. f_equal. lia.
Qed.

Lemma ended_here pos i : ended pos pos i = exit_rsne i.
Proof. unfold ended. by rewrite Z.eqb_refl. Qed.

Lemma parse_gmcs_spec p o i end_ :
  end_ = p + Z.of_nat (length (tail_bytes (fun x => x) o)) -> sized 4 (fun x => [x]) o ->
  parse_gmcs end_ p i = Ok (_SUCCESS, fill_gm p o i).
Proof.
  intros -> Sz. unfold parse_gmcs. destruct o as [g|]; cbn [tail_bytes].
  - destruct Sz as [F _]. apply Forall_cons in F as [-> _]. by rewrite (proj2 (Z.ltb_ge _ _)) by lia.
  - cbn. rewrite Z.add_0_r, (proj2 (Z.ltb_lt _ _)) by lia. by rewrite ended_here.
Qed.

Lemma parse_pmkid_spec a o b i end_ :
  end_ = Z.of_nat (length a) + Z.of_nat (length (tail_bytes pmkids_bytes o)) ->
  sized 16 fst o -> sized 4 (fun x => [x]) (o ≫= snd) ->
  parse_pmkid (a ++ tail_bytes pmkids_bytes o ++ b) end_ (Z.of_nat (length a)) i = Ok (_SUCCESS, fill_pmkids (Z.of_nat (length a)) o i).
Proof.
  intros -> Sz Zg. unfold parse_pmkid. destruct o as [[xs o]|]; cbn [tail_bytes pmkids_bytes].
  - destruct Sz as [F L]. cbn [fst] in F, L. rewrite length_app, (length_counted 16) by done.
    rewrite (proj2 (Z.ltb_ge _ _)) by lia. unfold counted. rewrite <- !app_assoc, le16_at by lia. cbn [mbind res_bind].
    rewrite (proj2 (Z.ltb_ge _ _)) by lia. apply parse_gmcs_spec; [lia|exact Zg].
  - cbn [length]. rewrite Z.add_0_r, (proj2 (Z.ltb_lt _ _)) by lia. by rewrite ended_here.
Qed.

Lemma parse_cap_spec a o b i end_ :
  end_ = Z.of_nat (length a) + Z.of_nat (length (tail_bytes caps_bytes o)) ->
  sized 2 (fun x => [x.1]) o -> sized 16 fst (o ≫= snd) -> sized 4 (fun x => [x]) ((o ≫= snd) ≫= snd) ->
  parse_cap (a ++ tail_bytes caps_bytes o ++ b) end_ (Z.of_nat (length a)) i = Ok (_SUCCESS, fill_caps (Z.of_nat (length a)) o i).
Proof.
  intros -> Sz Zp Zg. unfold parse_cap. destruct o as [[c o]|]; cbn [tail_bytes caps_bytes].
  - destruct Sz as [F _]. apply Forall_cons in F as [Lc _]. cbn [fst] in Lc. rewrite length_app, Lc, (proj2 (Z.ltb_ge _ _)) by lia.
    rewrite <- app_assoc, (app_assoc a). cbn [fill_caps].
    replace (Z.of_nat (length a) + 2) with (Z.of_nat (length (a ++ c))) by (rewrite length_app; lia).
    apply parse_pmkid_spec; [rewrite length_app; lia|exact Zp|exact Zg].
  - cbn [length]. rewrite Z.add_0_r, (proj2 (Z.ltb_lt _ _)) by lia. by rewrite ended_here.
Qed.

Lemma parse_suites_spec {A} a (xs : list (list Z)) (f : A -> list Z) o b set next i end_ r :
  end_ = Z.of_nat (length a) + Z.of_nat (length (counted xs ++ tail_bytes f o)) ->
  Forall (fun s => length s = 4%nat) xs -> Z.of_nat (length xs) < 65536 ->
  let n := Z.of_nat (length xs) in
  let a' := a ++ counted xs in
  next (Z.of_nat (length a')) (set n (Z.of_nat (length a) + 2) i) = r ->
  parse_suites (a ++ (counted xs ++ tail_bytes f o) ++ b) end_ (Z.of_nat (length a)) set next i = r.
Proof.
  intros -> F L n a' N. unfold parse_suites. rewrite length_app, (length_counted 4) by done. rewrite (proj2 (Z.ltb_ge _ _)) by lia.
  unfold counted. rewrite <- !app_assoc, le16_at by lia. cbn [mbind res_bind]. rewrite (proj2 (Z.ltb_ge _ _)) by lia. fold n.
  rewrite <- N. f_equal. unfold a'. rewrite length_app, (length_counted 4) by done. lia.
Qed.

Lemma parse_suites_none a b set next i :
  parse_suites (a ++ [] ++ b) (Z.of_nat (length a) + 0) (Z.of_nat (length a)) set next i = Ok (_SUCCESS, i).
Proof. unfold parse_suites. rewrite Z.add_0_r, (proj2 (Z.ltb_lt _ _)) by lia. by rewrite ended_here. Qed.

Lemma parse_akm_spec a o b i end_ :
  end_ = Z.of_nat (length a) + Z.of_nat (length (tail_bytes akms_bytes o)) ->
  sized 4 fst o -> sized 2 (fun x => [x.1]) (o ≫= snd) -> sized 16 fst ((o ≫= snd) ≫= snd) ->
  sized 4 (fun x => [x]) (((o ≫= snd) ≫= snd) ≫= snd) ->
  parse_akm (a ++ tail_bytes akms_bytes o ++ b) end_ (Z.of_nat (length a)) i = Ok (_SUCCESS, fill_akms (Z.of_nat (length a)) o i).
Proof.
  intros -> Sz Zc Zp Zg. unfold parse_akm. destruct o as [[xs o]|]; [|apply parse_suites_none].
  cbn [tail_bytes akms_bytes]. destruct Sz as [F L]. apply parse_suites_spec; [done..|].
  replace (a ++ (counted xs ++ tail_bytes caps_bytes o) ++ b) with ((a ++ counted xs) ++ tail_bytes caps_bytes o ++ b) by (by rewrite <- !app_assoc).
  rewrite parse_cap_spec; [|rewrite !length_app; lia|exact Zc|exact Zp|exact Zg].
  cbn [fill_akms]. do 3 f_equal. rewrite length_app, (length_counted 4) by done. lia.
Qed.

Lemma parse_pcs_spec a o b i end_ :
  end_ = Z.of_nat (length a) + Z.of_nat (length (tail_bytes pairs_bytes o)) ->
  sized 4 fst o -> sized 4 fst (o ≫= snd) -> sized 2 (fun x => [x.1]) ((o ≫= snd) ≫= snd) -> sized 16 fst (((o ≫= snd) ≫= snd) ≫= snd) ->
  sized 4 (fun x => [x]) ((((o ≫= snd) ≫= snd) ≫= snd) ≫= snd) ->
  parse_pcs (a ++ tail_bytes pairs_bytes o ++ b) end_ (Z.of_nat (length a)) i = Ok (_SUCCESS, fill_pairs (Z.of_nat (length a)) o i).
Proof.
  intros -> Sz Za Zc Zp Zg. unfold parse_pcs. destruct o as [[xs o]|]; [|apply parse_suites_none].
  cbn [tail_bytes pairs_bytes]. destruct Sz as [F L]. apply parse_suites_spec; [done..|].
  replace (a ++ (counted xs ++ tail_bytes akms_bytes o) ++ b) with ((a ++ counted xs) ++ tail_bytes akms_bytes o ++ b) by (by rewrite <- !app_assoc).
  rewrite parse_akm_spec; [|rewrite !length_app; lia|exact Za|exact Zc|exact Zp|exact Zg].
  cbn [fill_pairs]. do 3 f_equal. rewrite length_app, (length_counted 4) by done. lia.
Qed.

Lemma parse_gcs_spec a r b i end_ :
  end_ = Z.of_nat (length a) + Z.of_nat (length (tail_bytes fields_bytes r)) -> rsn_sized r ->
  parse_gcs (a ++ tail_bytes fields_bytes r ++ b) end_ (Z.of_nat (length a)) i = Ok (_SUCCESS, fill_fields (Z.of_nat (length a)) r i).
Proof.
  intros -> (Sz & Zs & Za & Zc & Zp & Zg). unfold parse_gcs. destruct r as [[g o]|]; cbn [tail_bytes fields_bytes].
  - destruct Sz as [F _]. apply Forall_cons in F as [Lg _]. cbn [fst] in Lg. rewrite length_app, Lg, (proj2 (Z.ltb_ge _ _)) by lia.
    rewrite <- app_assoc, (app_assoc a). cbn [fill_fields].
    replace (Z.of_nat (length a) + 4) with (Z.of_nat (length (a ++ g))) by (rewrite length_app; lia).
    apply parse_pcs_spec; [rewrite length_app; lia|exact Zs|exact Za|exact Zc|exact Zp|exact Zg].
  - cbn [length]. rewrite Z.add_0_r, (proj2 (Z.ltb_lt _ _)) by lia. by rewrite ended_here.
Qed.

Lemma rsne_parse_spec a r b :
  rsn_sized r -> (length (tail_bytes fields_bytes r) <= 253)%nat ->
  rtw_rsne_info_parse (a ++ enc1 (rsn_elem r) ++ b) (Z.of_nat (length a)) (Z.of_nat (length (enc1 (rsn_elem r)))) =
  Ok (_SUCCESS, fill_fields (Z.of_nat (length a) + 4) r rsne_zero).
Proof.
  intros Sz L. set (buf := a ++ enc1 (rsn_elem r) ++ b). unfold rtw_rsne_info_parse. rewrite length_enc1. cbn [rsn_elem e_data].
  set (n := Z.of_nat (length ([1; 0] ++ tail_bytes fields_bytes r))). assert (En : n = 2 + Z.of_nat (length (tail_bytes fields_bytes r)))
    by (unfold n; rewrite length_app; cbn [length]; lia).
  rewrite Nat2Z.inj_add. fold n. rewrite (proj2 (Z.ltb_ge _ _)) by lia.
  destruct (elem_bytes a (rsn_elem r) b) as [E1 E2]. fold buf in E1, E2. rewrite E1, E2. cbn [mbind res_bind rsn_elem e_id e_data].
  fold n. rewrite Z.eqb_refl. cbn [negb or_else mbind res_bind]. rewrite u32_small by lia.
  rewrite (proj2 (Z.eqb_eq n _)) by lia. cbn [negb].
  assert (E : buf = (a ++ [WLAN_EID_RSN; n; 1; 0]) ++ tail_bytes fields_bytes r ++ b)
    by (unfold buf, enc1, rsn_elem; cbn [e_id e_data]; fold n; by flat_app).
  assert (RTW_GET_LE16 buf (Z.of_nat (length a) + 2) = Ok 1) as ->.
  { rewrite E. replace ((a ++ [WLAN_EID_RSN; n; 1; 0]) ++ tail_bytes fields_bytes r ++ b)
      with ((a ++ [WLAN_EID_RSN; n]) ++ le16 1 ++ tail_bytes fields_bytes r ++ b) by (by flat_app).
    replace (Z.of_nat (length a) + 2) with (Z.of_nat (length (a ++ [WLAN_EID_RSN; n]))) by (rewrite length_app; cbn; lia). by apply le16_at. }
  cbn [mbind res_bind]. assert (Z.of_nat (length a) + 4 = Z.of_nat (length (a ++ [WLAN_EID_RSN; n; 1; 0]))) as Ep by (rewrite length_app; cbn; lia).
  rewrite E, Ep. cbn [negb Z.eqb]. apply parse_gcs_spec; [rewrite <- Ep; lia|done].
Qed.

(** ** What the recorded pointers show *)

Definition holds (buf : list Z) (p : option Z) (bs : option (list Z)) : Prop :=
  match bs with Some bs => exists q, p = Some q /\ load q (Z.of_nat (length bs)) buf = Ok bs | None => p = None end.
Definition holds_list (buf : list Z) (p : option Z) (n : Z) (xs : option (list (list Z))) : Prop :=
  n = Z.of_nat (length (default [] xs)) /\ holds buf p ((fun l => concat l) <$> xs).

Lemma holds_at a bs b p : p = Z.of_nat (length a) -> holds (a ++ bs ++ b) (Some p) (Some bs).
Proof. intros ->. eexists. split; [done|]. apply load_app. Qed.

Lemma holds_counted a xs b p :
  p = Z.of_nat (length a) + 2 -> holds_list (a ++ counted xs ++ b) (Some p) (Z.of_nat (length xs)) (Some xs).
Proof.
  intros ->. split; [done|]. unfold counted. rewrite <- app_assoc, (app_assoc a). apply holds_at. rewrite length_app. cbn. lia.
Qed.

Lemma fill_gm_shows a o b i :
  gmcs i = None -> holds (a ++ tail_bytes (fun x => x) o ++ b) (gmcs (fill_gm (Z.of_nat (length a)) o i)) o.
Proof. intros G. destruct o as [g|]; [by apply holds_at|done]. Qed.

(** The pointers of the fields before stay as they are. *)
Lemma fill_frame p i :
  (forall o, pmkid_list (fill_gm p o i) = pmkid_list i /\ pmkid_cnt (fill_gm p o i) = pmkid_cnt i) /\
  (forall o, cap (fill_pmkids p o i) = cap i) /\
  (forall o, akm_list (fill_caps p o i) = akm_list i /\ akm_cnt (fill_caps p o i) = akm_cnt i) /\
  (forall o, pcs_list (fill_akms p o i) = pcs_list i /\ pcs_cnt (fill_akms p o i) = pcs_cnt i) /\
  (forall o, gcs (fill_pairs p o i) = gcs i).
Proof. split_and!; intros o; repeat (destruct o as [[? o]|]; [|done]); by destruct o. Qed.

Lemma fill_pmkids_shows a o b i :
  gmcs i = None -> pmkid_list i = None -> pmkid_cnt i = 0 -> sized 16 fst o ->
  let buf := a ++ tail_bytes pmkids_bytes o ++ b in
  let i' := fill_pmkids (Z.of_nat (length a)) o i in
  holds_list buf (pmkid_list i') (pmkid_cnt i') (fst <$> o) /\ holds buf (gmcs i') (o ≫= snd).
Proof.
  intros G P C Sz buf i'. destruct o as [[xs o]|]; [|done]. destruct Sz as [F _]. unfold buf, i'. cbn [tail_bytes pmkids_bytes fill_pmkids].
  set (p := _ + 16 * _). assert (Ep : p = Z.of_nat (length (a ++ counted xs))) by (unfold p; rewrite length_app, (length_counted 16) by done; lia).
  set (i1 := set_pmkid _ _ i). destruct (proj1 (fill_frame p i1) o) as [-> ->]. rewrite <- app_assoc.
  split; [by apply holds_counted|]. rewrite app_assoc, Ep. by apply fill_gm_shows.
Qed.

Lemma fill_caps_shows a o b i :
  gmcs i = None -> pmkid_list i = None -> pmkid_cnt i = 0 -> cap i = None -> sized 2 (fun x => [x.1]) o -> sized 16 fst (o ≫= snd) ->
  let buf := a ++ tail_bytes caps_bytes o ++ b in
  let i' := fill_caps (Z.of_nat (length a)) o i in
  holds buf (cap i') (fst <$> o) /\
  holds_list buf (pmkid_list i') (pmkid_cnt i') (fst <$> (o ≫= snd)) /\ holds buf (gmcs i') ((o ≫= snd) ≫= snd).
Proof.
  intros G P C K Sz Zp buf i'. destruct o as [[c o]|]; [|done]. destruct Sz as [F _]. apply Forall_cons in F as [Lc _]. cbn [fst] in Lc.
  unfold buf, i'. cbn [tail_bytes caps_bytes fill_caps]. set (p := _ + 2).
  assert (Ep : p = Z.of_nat (length (a ++ c))) by (unfold p; rewrite length_app; lia).
  set (i1 := set_cap _ i). destruct (fill_frame p i1) as (_ & -> & _). rewrite <- app_assoc.
  split; [by apply holds_at|]. rewrite app_assoc, Ep. by apply fill_pmkids_shows.
Qed.

Lemma fill_akms_shows a o b i :
  gmcs i = None -> pmkid_list i = None -> pmkid_cnt i = 0 -> cap i = None -> akm_list i = None -> akm_cnt i = 0 ->
  sized 4 fst o -> sized 2 (fun x => [x.1]) (o ≫= snd) -> sized 16 fst ((o ≫= snd) ≫= snd) ->
  let buf := a ++ tail_bytes akms_bytes o ++ b in
  let i' := fill_akms (Z.of_nat (length a)) o i in
  holds_list buf (akm_list i') (akm_cnt i') (fst <$> o) /\ holds buf (cap i') (fst <$> (o ≫= snd)) /\
  holds_list buf (pmkid_list i') (pmkid_cnt i') (fst <$> ((o ≫= snd) ≫= snd)) /\ holds buf (gmcs i') (((o ≫= snd) ≫= snd) ≫= snd).
Proof.
  intros G P C K A N Sz Zc Zp buf i'. destruct o as [[xs o]|]; [|done]. destruct Sz as [F _]. unfold buf, i'.
  cbn [tail_bytes akms_bytes fill_akms]. set (p := _ + 4 * _).
  assert (Ep : p = Z.of_nat (length (a ++ counted xs))) by (unfold p; rewrite length_app, (length_counted 4) by done; lia).
  set (i1 := set_akm _ _ i). destruct (fill_frame p i1) as (_ & _ & Fr & _). destruct (Fr o) as [-> ->]. rewrite <- app_assoc.
  split; [by apply holds_counted|]. rewrite app_assoc, Ep. by apply fill_caps_shows.
Qed.

Lemma fill_fields_shows a r b :
  rsn_sized r ->
  let buf := a ++ tail_bytes fields_bytes r ++ b in
  let i := fill_fields (Z.of_nat (length a)) r rsne_zero in
  holds buf (gcs i) (fst <$> r) /\ holds_list buf (pcs_list i) (pcs_cnt i) (fst <$> r_pairs r) /\
  holds_list buf (akm_list i) (akm_cnt i) (fst <$> r_akms r) /\ holds buf (cap i) (fst <$> r_caps r) /\
  holds_list buf (pmkid_list i) (pmkid_cnt i) (fst <$> r_pmkids r) /\ holds buf (gmcs i) (r_gm r).
Proof.
  intros (Sz & Zs & Za & Zc & Zp & _) buf i. destruct r as [[g o]|]; [|done]. destruct Sz as [F _]. apply Forall_cons in F as [Lg _].
  cbn [fst] in Lg. unfold buf, i. cbn [tail_bytes fields_bytes fill_fields]. set (p := _ + 4). set (i1 := set_gcs _ _).
  destruct (fill_frame p i1) as (_ & _ & _ & _ & ->). rewrite <- app_assoc. split; [by apply holds_at|]. rewrite app_assoc.
  assert (Ep : p = Z.of_nat (length (a ++ g))) by (unfold p; rewrite length_app; lia). rewrite Ep.
  destruct o as [[xs o]|]; [|done]. destruct Zs as [F _]. cbn [fst] in F. cbn [tail_bytes pairs_bytes fill_pairs]. set (a' := a ++ g).
  set (p2 := _ + 4 * _). set (i2 := set_pcs _ _ _). destruct (fill_frame p2 i2) as (_ & _ & _ & Fr & _). destruct (Fr o) as [-> ->].
  rewrite <- app_assoc. split; [by apply holds_counted|]. rewrite app_assoc.
  assert (p2 = Z.of_nat (length (a' ++ counted xs))) as -> by (unfold p2; rewrite length_app, (length_counted 4) by done; lia).
  by apply fill_akms_shows.
Qed.

(** * The suites and capabilities of an element *)

Definition all_suites (table : list (list Z * Z)) (xs : list (list Z)) : Z := foldl (fun acc x => acc .| suite_value table x) 0 xs.

Definition rsn_out (r : option rsn_fields) : wpa2_out :=
  let c := match r_caps r with Some (c, _) => tbl c 1 * 256 + tbl c 0 | None => 0 end in
  mk_wpa2 (match r with Some (g, _) => suite_value rsn_suites g | None => 0 end)
    (all_suites rsn_suites (default [] (fst <$> r_pairs r)))
    (match r_gm r with Some g => suite_value rsn_suites g | None => WPA_CIPHER_BIP_CMAC_128 end)
    (all_suites akm_suites (default [] (fst <$> r_akms r)))
    (c / 64 mod 4) (c / 1024 mod 4).

Lemma suites_loop_spec table a xs b acc :
  Forall (fun s => length s = 4%nat) xs ->
  suites_loop (fun buf s => x ← load s 4 buf; Ok (suite_value table x)) (a ++ concat xs ++ b) (Z.of_nat (length a)) (length xs) acc =
  Ok (foldl (fun acc x => acc .| suite_value table x) acc xs).
Proof.
  intros F. revert a acc. induction F as [|x xs Hx F IH]; intros a acc; [done|]. cbn [suites_loop length concat foldl].
  rewrite <- app_assoc. replace (load (Z.of_nat (length a)) 4 (a ++ x ++ concat xs ++ b)) with (Ok x)
    by (symmetry; apply load_at; [done|by rewrite Hx]).
  cbn [mbind res_bind]. rewrite app_assoc. replace (Z.of_nat (length a) + 4) with (Z.of_nat (length (a ++ x))) by (rewrite length_app, Hx; lia).
  apply IH.
Qed.

(** A suite and a list of suites, read where the parser points to. *)
Lemma suite_read table buf p o d :
  holds buf p o -> (forall s, o = Some s -> length s = 4%nat) ->
  match p with Some p => (x ← load p 4 buf; Ok (suite_value table x)) | None => Ok d end =
  Ok (match o with Some s => suite_value table s | None => d end).
Proof.
  intros H L. destruct o as [s|]; [|by rewrite H]. destruct H as (q & -> & E). rewrite (L s eq_refl) in E.
  change (Z.of_nat 4) with 4 in E. by rewrite E.
Qed.

Lemma suites_read table buf p n o :
  holds_list buf p n o -> (forall xs, o = Some xs -> Forall (fun s => length s = 4%nat) xs) ->
  match p with
  | Some p => suites_loop (fun buf s => x ← load s 4 buf; Ok (suite_value table x)) buf p (Z.to_nat n) 0
  | None => Ok 0
  end = Ok (all_suites table (default [] o)).
Proof.
  intros [-> H] F. destruct o as [xs|]; [|by cbn in H; rewrite H]. cbn [fmap option_fmap option_map holds] in H.
  destruct H as (q & -> & E). apply load_inv in E as (a & b & -> & -> & _). rewrite Nat2Z.id. by apply suites_loop_spec, F.
Qed.

Lemma cap_bits n : 0 <= n -> GET_RSN_CAP_MFP_OPTION n = n / 64 mod 4 /\ GET_RSN_CAP_SPP_OPT n = n / 1024 mod 4.
Proof.
  intros Hn. unfold GET_RSN_CAP_MFP_OPTION, GET_RSN_CAP_SPP_OPT. change 3 with (Z.ones 2).
  by rewrite !Z.land_ones, !Z.shiftr_div_pow2 by lia.
Qed.

Lemma cap_read buf p o :
  holds buf p o -> (forall c, o = Some c -> length c = 2%nat /\ bytes c) ->
  match p with Some p => RTW_GET_LE16 buf p | None => Ok 0 end =
  Ok (match o with Some c => tbl c 1 * 256 + tbl c 0 | None => 0 end).
Proof.
  intros H L. destruct o as [c|]; [|by rewrite H]. destruct (L c eq_refl) as [Lc B]. destruct H as (q & -> & E).
  apply load_inv in E as (a & b & -> & -> & _). destruct c as [|l [|h [|? ?]]]; try done.
  apply Forall_cons in B as [Bl B]. apply Forall_cons in B as [Bh _]. by destruct (get16_enc a h l b).
Qed.

(** C24: On an RSN element that ends after any of its fields, [rtw_parse_wpa2_ie] gives
    exactly the suites and options the element lists: the union of the pairwise and of the
    key management suites, whatever their number, the group suites, BIP with CMAC when
    there is none for management frames, and the two options of the capabilities. *)
Theorem parse_wpa2_correct a r b :
  rsn_sized r -> (forall c o, r_caps r = Some (c, o) -> bytes c) -> (length (tail_bytes fields_bytes r) <= 253)%nat ->
  rtw_parse_wpa2_ie (a ++ enc1 (rsn_elem r) ++ b) (Z.of_nat (length a)) (Z.of_nat (length (enc1 (rsn_elem r)))) = Ok (Some (rsn_out r)).
Proof.
  intros Sz Bc L. assert (Le : (length (enc1 (rsn_elem r)) = 4 + length (tail_bytes fields_bytes r))%nat) by done.
  unfold rtw_parse_wpa2_ie. rewrite u32_small by lia. rewrite rsne_parse_spec by done. cbn [mbind res_bind]. cbn [negb Z.eqb _SUCCESS].
  assert (E : a ++ enc1 (rsn_elem r) ++ b =
    (a ++ [WLAN_EID_RSN; Z.of_nat (length (e_data (rsn_elem r))); 1; 0]) ++ tail_bytes fields_bytes r ++ b)
    by (unfold enc1, rsn_elem; cbn [e_id e_data]; by flat_app).
  rewrite E. set (a' := a ++ [WLAN_EID_RSN; Z.of_nat (length (e_data (rsn_elem r))); 1; 0]). replace (Z.of_nat (length a) + 4) with (Z.of_nat (length a')) by (unfold a'; rewrite length_app; cbn; lia).
  destruct (fill_fields_shows a' r b Sz) as (Hg & Hs & Ha & Hc & _ & Hgm). destruct Sz as (Zg & Zs & Za & Zc & _ & Zgm).
  unfold rtw_get_rsn_cipher_suite, rtw_get_akm_suite_bitmap.
  rewrite (suite_read rsn_suites _ _ _ 0 Hg). 2:{ destruct r as [[g o]|]; [|done]. destruct Zg as [F _]. apply Forall_cons in F as [F _]. intros ? [= <-]. exact F. }
  cbn [mbind res_bind]. rewrite (suites_read rsn_suites _ _ _ _ Hs). 2:{ destruct (r_pairs r); [|done]. intros ? [= <-]. apply Zs. }
  cbn [mbind res_bind]. rewrite (suite_read rsn_suites _ _ _ WPA_CIPHER_BIP_CMAC_128 Hgm).
  2:{ destruct (r_gm r); [|done]. destruct Zgm as [F _]. apply Forall_cons in F as [F _]. intros ? [= <-]. exact F. }
  cbn [mbind res_bind]. rewrite (suites_read akm_suites _ _ _ _ Ha). 2:{ destruct (r_akms r); [|done]. intros ? [= <-]. apply Za. }
  cbn [mbind res_bind]. rewrite (cap_read _ _ _ Hc).
  2:{ destruct (r_caps r) as [[c o]|]; [|done]. destruct Zc as [F _]. apply Forall_cons in F as [F _]. intros ? [= <-]. split; [exact F|by apply (Bc c o)]. }
  cbn [mbind res_bind]. unfold rsn_out. do 2 f_equal.
  destruct (r_caps r) as [[c o]|] eqn:Ec; cbn [fmap option_fmap option_map fst].
  - pose proof (Bc c o eq_refl) as B. pose proof (tbl_byte c 0 B) as B0. pose proof (tbl_byte c 1 B) as B1. unfold is_byte in B0, B1.
    destruct (cap_bits (tbl c 1 * 256 + tbl c 0)) as [-> ->]; [lia|]. by destruct r as [[g o']|].
  - by destruct r as [[g o']|].
Qed.

(** The checks of the header of a WPA element. *)
Lemma wpa_header_ok a rest b :
  let e := mk_elem WLAN_EID_VENDOR_SPECIFIC (wpa_oui_type ++ rest) in
  let buf := a ++ enc1 e ++ b in
  let p := Z.of_nat (length a) in
  (length (e_data e) <= 255)%nat ->
  (id ← byte_at buf p;
   or_else (negb (id =? WLAN_EID_VENDOR_SPECIFIC))
     (l ← byte_at buf (p + 1);
      or_else (negb (l =? u8 (Z.of_nat (length (enc1 e)) - 2))) (m ← same_at buf (p + 2) wpa_oui_type; Ok (negb m)))) = Ok false.
Proof.
  intros e buf p L. destruct (elem_bytes a e b) as [E1 E2]. fold buf p in E1, E2. rewrite E1, E2. cbn [mbind res_bind].
  cbn [e e_id]. rewrite Z.eqb_refl, length_enc1. cbn [negb or_else]. set (n := Z.of_nat (length (e_data e))) in *.
  replace (Z.of_nat (2 + length (e_data e)) - 2) with n by lia. rewrite u8_small by (unfold is_byte; lia). rewrite Z.eqb_refl. cbn [negb or_else].
  replace buf with ((a ++ [WLAN_EID_VENDOR_SPECIFIC; n]) ++ wpa_oui_type ++ rest ++ b) by (unfold buf, enc1; fold n; cbn [e e_id e_data]; by flat_app).
  rewrite same_at_app by (rewrite ?length_app; cbn; lia). by rewrite bool_decide_true.
Qed.

(** On a WPA element with a group suite, at least one pairwise suite and the key
    management suites, [rtw_parse_wpa_ie] gives the group suite, adds the pairwise suites to
    what it was given, and reports 802.1X exactly when that is the first key management
    suite. *)
Theorem parse_wpa_correct a g ps ks b pairwise akm :
  length g = 4%nat -> Forall (fun s => length s = 4%nat) ps -> Forall (fun s => length s = 4%nat) ks -> ps <> [] -> ks <> [] ->
  let e := mk_elem WLAN_EID_VENDOR_SPECIFIC (wpa_oui_type ++ [1; 0] ++ g ++ counted ps ++ counted ks) in
  (length (e_data e) <= 255)%nat ->
  rtw_parse_wpa_ie (a ++ enc1 e ++ b) (Z.of_nat (length a)) (Z.of_nat (length (enc1 e))) pairwise akm =
  Ok (_SUCCESS, mk_wpa (Some (suite_value wpa_suites g)) (foldl (fun acc x => acc .| suite_value wpa_suites x) pairwise ps)
    (if akm && bool_decide (head ks = Some (ms_oui 1)) then Some (2 ^ 0) else None)).
Proof.
  intros Lg Fp Fk Np Nk e Le. set (n := Z.of_nat (length (e_data e))). set (buf := a ++ enc1 e ++ b).
  assert (En : n = 10 + Z.of_nat (length (counted ps)) + Z.of_nat (length (counted ks))) by (unfold n, e; cbn [e_data]; rewrite !length_app, Lg; cbn [length wpa_oui_type]; lia).
  pose proof (length_counted 4 ps Fp) as Lp. pose proof (length_counted 4 ks Fk) as Lk.
  assert (Hp : (0 < length ps)%nat) by (destruct ps; [done|cbn; lia]). assert (Hk : (0 < length ks)%nat) by (destruct ks; [done|cbn; lia]).
  set (h := [WLAN_EID_VENDOR_SPECIFIC; n] ++ wpa_oui_type ++ [1; 0]). assert (Lh : length h = 8%nat) by done.
  assert (E : buf = (a ++ h) ++ g ++ counted ps ++ counted ks ++ b) by (unfold buf, h, enc1; fold n; cbn [e e_id e_data]; by flat_app).
  unfold rtw_parse_wpa_ie. rewrite length_enc1. fold buf n. rewrite Nat2Z.inj_add. fold n. rewrite (proj2 (Z.leb_gt _ 0)) by lia.
  pose proof (wpa_header_ok a _ b Le) as Hd. cbv zeta in Hd. fold e buf in Hd. rewrite length_enc1, Nat2Z.inj_add in Hd. fold n in Hd.
  destruct (byte_at buf (Z.of_nat (length a))) as [| | |id]; try discriminate Hd. cbn [mbind res_bind] in Hd |- *. rewrite Hd.
  cbn [mbind res_bind negb]. set (l := Z.of_nat 2 + n - 8). assert (El : l = 4 + Z.of_nat (length (counted ps)) + Z.of_nat (length (counted ks))) by lia.
  rewrite (proj2 (Z.ltb_ge l 4)), (proj2 (Z.leb_le 4 l)) by lia. cbn [andb].
  assert (Pg : Z.of_nat (length a) + 8 = Z.of_nat (length (a ++ h))) by (rewrite length_app, Lh; lia).
  rewrite Pg. unfold rtw_get_wpa_cipher_suite. rewrite E, load_at by (rewrite ?Lg; done). cbn [mbind res_bind].
  rewrite (proj2 (Z.eqb_neq (l - 4) 1)), (proj2 (Z.leb_le 2 (l - 4))) by lia.
  assert (Pp : Z.of_nat (length (a ++ h)) + 4 = Z.of_nat (length ((a ++ h) ++ g))) by (rewrite (length_app _ g), Lg; lia).
  rewrite Pp. replace ((a ++ h) ++ g ++ counted ps ++ counted ks ++ b) with
    (((a ++ h) ++ g) ++ le16 (Z.of_nat (length ps)) ++ concat ps ++ counted ks ++ b) by (unfold counted; by flat_app).
  rewrite le16_at by lia. cbn [mbind res_bind].
  set (c := Z.of_nat (length ps)). rewrite (proj2 (Z.eqb_neq c 0)), (proj2 (Z.ltb_ge (l - 4 - 2) _)) by lia. cbn [orb].
  replace (suites_loop _ _ _ _ _) with (Ok (foldl (fun acc x => acc .| suite_value wpa_suites x) pairwise ps)).
  2:{ symmetry. unfold c. rewrite Nat2Z.id, (app_assoc _ (le16 _)).
      replace (_ + 2) with (Z.of_nat (length (((a ++ h) ++ g) ++ le16 (Z.of_nat (length ps))))) by (rewrite (length_app _ (le16 _)); cbn; lia).
      by apply suites_loop_spec. }
  cbn [mbind res_bind]. rewrite (proj2 (Z.leb_le 6 _)) by lia. rewrite andb_true_r. destruct akm; [|done]. cbn [andb].
  destruct ks as [|k ks]; [done|]. apply Forall_cons in Fk as [Lk1 _]. cbn [head hd_error].
  set (pre := (a ++ h) ++ g). replace (same_at _ _ _) with (Ok (bool_decide (k = ms_oui 1))).
  2:{ symmetry. replace (pre ++ le16 c ++ concat ps ++ counted (k :: ks) ++ b) with
        ((pre ++ counted ps ++ le16 (Z.of_nat (length (k :: ks)))) ++ k ++ concat ks ++ b) by (unfold counted; cbn [concat]; by flat_app).
      apply same_at_app; [|by rewrite Lk1]. rewrite !length_app, Lp. fold pre. cbn [le16 length]. lia. }
  cbn [mbind res_bind]. repeat case_bool_decide; (done || congruence).
Qed.

(** ** Fields that the parser accepts although they are cut *)

(** A count without its suites at the end of the element is not an error. *)
Lemma rsne_count_without_suites :
  rtw_parse_wpa2_ie [48; 8; 1; 0; 0x00; 0x0f; 0xac; 4; 2; 0] 0 10 = Ok (Some (mk_wpa2 16 0 256 0 0 0)).
Proof. reflexivity. Qed.

(** The WPA parser accepts an element of eight bytes, without any suite, and assigns none;
    its first comparison reads past an element of one byte. *)
Lemma wpa_without_suites : rtw_parse_wpa_ie [0xdd; 6; 0x00; 0x50; 0xf2; 1; 1; 0] 0 8 0 true = Ok (_SUCCESS, mk_wpa None 0 None).
Proof. reflexivity. Qed.
Lemma wpa_reads_past : rtw_parse_wpa_ie [0xdd] 0 1 0 true = Fault.
Proof. reflexivity. Qed.

(** * Examples *)

(** WPA2 and WPA3 with CCMP, management frame protection capable. *)
Definition sample_rsn : option rsn_fields :=
  Some (rsn_oui 4, Some ([rsn_oui 4; rsn_oui 9], Some ([rsn_oui 2; rsn_oui 8], Some ([0x80; 0], Some ([], Some (rsn_oui 6)))))).

Lemma sample_rsn_sized : rsn_sized sample_rsn.
Proof. unfold rsn_sized, sized; cbn. split_and!; try lia; repeat constructor. Qed.

Lemma rsne_parse_safe_witness :
  exists i, rtw_rsne_info_parse [48; 6; 1; 0; 1; 2; 3; 4] 0 8 = Ok (_SUCCESS, i) /\ inside 8 i.
Proof.
  destruct (rsne_parse_safe [48; 6; 1; 0; 1; 2; 3; 4] 0 8 ltac:(apply (bool_decide_eq_true_1 _); vm_compute; reflexivity) ltac:(lia) ltac:(lia) ltac:(cbn; lia))
    as (ret & i & E & I & _).
  exists i. split; [|exact I]. rewrite E. vm_compute in E. injection E as <- <-. reflexivity.
Defined.

Lemma parse_wpa2_correct_witness :
  rtw_parse_wpa2_ie ([7] ++ enc1 (rsn_elem sample_rsn) ++ [8]) 1 36 = Ok (Some (mk_wpa2 16 80 256 130 2 0)).
Proof.
  refine (parse_wpa2_correct [7] sample_rsn [8] sample_rsn_sized _ _).
  - intros c o [= <- _]. apply (bool_decide_eq_true_1 _); reflexivity.
  - cbn. lia.
Defined.

Lemma parse_wpa_correct_witness :
  rtw_parse_wpa_ie ([7] ++ enc1 (mk_elem 221 (wpa_oui_type ++ [1; 0] ++ ms_oui 2 ++ counted [ms_oui 2; ms_oui 4] ++ counted [ms_oui 1])) ++ []) 1 28 0 true =
  Ok (_SUCCESS, mk_wpa (Some 8) 24 (Some 1)).
Proof.
  refine (parse_wpa_correct [7] (ms_oui 2) [ms_oui 2; ms_oui 4] [ms_oui 1] [] 0 true eq_refl _ _ _ _ _); [repeat constructor..|done|done|cbn; lia].
Defined.
