(* ===== verification/WifiWep.v ===== *)
(** The cipher of WEP and TKIP in the Wi-Fi driver ([core/rtw_security.c]): RC4, the CRC-32
    of the integrity check value, and the encryption of the fragments of a frame with a
    key for each fragment; WEP itself. *)

From S2P Require Import Prelude WifiReorder Mem.

(** * RC4 *)

Record arc4context := mk_arc4 { x : Z; y : Z; state : list Z }.

(** One turn of the key schedule: [keyindex], [stateindex] and the state. *)
Definition arcfour_swap (key : list Z) (st : Z * Z * list Z) (counter : Z) : Z * Z * list Z :=
  let '(keyindex, stateindex, state) := st in
  let t := tbl state counter in
  let stateindex := (stateindex + tbl key keyindex + t) .& 0xff in
  let u := tbl state stateindex in
  let state := <[Z.to_nat counter := u]> (<[Z.to_nat stateindex := t]> state) in
  let keyindex := keyindex + 1 in
  (if Z.of_nat (length key) <=? keyindex then 0 else keyindex, stateindex, state).

(** [key_len] is the length of [key]. *)
Definition arcfour_init (key : list Z) : arc4context :=
  mk_arc4 0 0 (foldl (arcfour_swap key) (0, 0, seqZ 0 256) (seqZ 0 256)).2.

Definition arcfour_byte (c : arc4context) : Z * arc4context :=
  let x := (x c + 1) .& 0xff in
  let sx := tbl (state c) x in
  let y := (sx + y c) .& 0xff in
  let sy := tbl (state c) y in
  let state := <[Z.to_nat x := sy]> (<[Z.to_nat y := sx]> (state c)) in
  (tbl state ((sx + sy) .& 0xff), mk_arc4 x y state).

Fixpoint arcfour_encrypt (c : arc4context) (src : list Z) : list Z * arc4context :=
  match src with
  | [] => ([], c)
  | b :: src =>
      let '(k, c) := arcfour_byte c in
      let '(dest, c) := arcfour_encrypt c src in
      (b .^ k :: dest, c)
  end.

(** * CRC-32 *)

Definition CRC32_POLY : Z := 0x04c11db7.

Definition crc32_reverseBit (data : Z) : Z :=
  u8 ((((((((data .<< 7) .& 0x80) .| ((data .<< 5) .& 0x40)) .| ((data .<< 3) .& 0x20)) .| ((data .<< 1) .& 0x10)) .|
    ((data .>> 1) .& 0x08)) .| ((data .>> 3) .& 0x04)) .| ((data .>> 5) .& 0x02) .| ((data .>> 7) .& 0x01)).

(** The inner loop, and the entry with its bytes and their bits turned around. *)
Definition crc32_shift (c : Z) : Z := if truthy (c .& 0x80000000) then u32 (c .<< 1) .^ CRC32_POLY else u32 (c .<< 1).
Definition crc32_table_entry (i : Z) : Z :=
  let c := Nat.iter 8 crc32_shift (crc32_reverseBit i .<< 24) in
  let p k := (c .>> (8 * k)) .& 0xff in
  ((crc32_reverseBit (p 3) .| (crc32_reverseBit (p 2) .<< 8)) .| (crc32_reverseBit (p 1) .<< 16)) .| (crc32_reverseBit (p 0) .<< 24).

(** The table that [crc32_init] fills. *)
Definition crc32_init : list Z := crc32_table_entry <$> seqZ 0 256.
Definition crc32_tab : list Z := Eval vm_compute in crc32_init.

Definition crc32_update (crc b : Z) : Z := tbl crc32_tab ((crc .^ b) .& 0xff) .^ (crc .>> 8).
Definition getcrc32 (buf : list Z) : Z := u32 (Z.lnot (foldl crc32_update 0xffffffff buf)).

(** [cpu_to_le32] of the check value, as bytes. *)
Definition icv (buf : list Z) : list Z :=
  let c := getcrc32 buf in [c .& 0xff; (c .>> 8) .& 0xff; (c .>> 16) .& 0xff; (c .>> 24) .& 0xff].

(** * Encryption of fragments *)

(** Payload of [length] bytes at [payload], with its check value behind it. *)
Definition rc4_seal (key : list Z) (payload length : Z) (buf : list Z) : res (list Z) :=
  data ← load payload length buf;
  let '(d, c) := arcfour_encrypt (arcfour_init key) data in
  buf ← store payload d buf;
  store (payload + length) (arcfour_encrypt c (icv data)).1 buf.

(** Payload and check value of [length] bytes together; the second result is the check value
    computed from what precedes the last four, which is nothing if there are less. The cipher
    takes the length as unsigned: a negative one is a run of 2^32 bytes, which is [Fault]. *)
Definition rc4_open (key : list Z) (payload length : Z) (buf : list Z) : res (list Z * list Z) :=
  data ← load payload length buf;
  let d := (arcfour_encrypt (arcfour_init key) data).1 in
  buf ← store payload d buf;
  Ok (buf, icv (take (Z.to_nat (length - 4)) d)).

Definition RND4 (x : Z) : Z := ((x .>> 2) + (if x .& 3 =? 0 then 0 else 1)) .<< 2.

(** The attributes of a frame to send. *)
Record pkt_attrib := mk_pkt_attrib { hdrlen : Z; iv_len : Z; icv_len : Z; nr_frags : Z; last_txcmdsz : Z; frag_len : Z }.

(** The fragments from [curfragnum] on, which starts at [pframe]; [key_of] gives the key from
    the initialisation vector, and [base] is the address of the buffer. *)
Fixpoint seal_frags (fuel : nat) (key_of : list Z -> Z -> res (list Z)) (a : pkt_attrib) (base curfragnum pframe : Z) (buf : list Z)
    : res (list Z) :=
  match fuel with
  | O => Diverge
  | S fuel =>
      if curfragnum <? nr_frags a then
        key ← key_of buf (pframe + hdrlen a);
        let payload := pframe + iv_len a + hdrlen a in
        if curfragnum + 1 =? nr_frags a then
          buf ← rc4_seal key payload (last_txcmdsz a - hdrlen a - iv_len a - icv_len a) buf;
          seal_frags fuel key_of a base (curfragnum + 1) pframe buf
        else
          buf ← rc4_seal key payload (frag_len a - hdrlen a - iv_len a - icv_len a) buf;
          seal_frags fuel key_of a base (curfragnum + 1) (RND4 (base + (pframe + frag_len a)) - base) buf
      else Ok buf
  end.

Definition TXDESC_OFFSET : Z := 48.

(** ** WEP *)

(** Three bytes of the vector and the key of [keylength] bytes, in an array of 16. *)
Definition wepkey (skey : list Z) (keylength : Z) (buf : list Z) (iv : Z) : res (list Z) :=
  v ← load iv 3 buf;
  k ← store 0 v (replicate 16 0);
  s ← load 0 keylength skey;
  k ← store 3 s k;
  load 0 (3 + keylength) k.

(** The frame in its buffer. [wep] is whether the frame is to be encrypted so, [skey] and
    [keylength] are those of the current key. *)
Definition rtw_wep_encrypt (wep : bool) (skey : list Z) (keylength : Z) (a : pkt_attrib) (base : Z) (buf : list Z) : res (list Z) :=
  if wep then seal_frags (S (Z.to_nat (nr_frags a))) (wepkey skey keylength) a base 0 TXDESC_OFFSET buf else Ok buf.

(** A received frame of [len] bytes at [pframe]. The check value is computed and dropped. *)
Definition rtw_wep_decrypt (wep : bool) (skey : list Z) (keylength hdrlen iv_len len pframe : Z) (buf : list Z) : res (list Z) :=
  if wep then
    key ← wepkey skey keylength buf (pframe + hdrlen);
    r ← rc4_open key (pframe + iv_len + hdrlen) (len - hdrlen - iv_len) buf;
    let '(buf, _) := r in Ok buf
  else Ok buf.

(** * RC4 is a stream cipher *)

(** The state is always a permutation of the bytes. *)
Definition arc4_ok (c : arc4context) : Prop := state c ≡ₚ seqZ 0 256 /\ is_byte (x c) /\ is_byte (y c).

Lemma low_byte v : is_byte (v .& 0xff).
Proof. change 0xff with (Z.ones 8). rewrite Z.land_ones by lia. unfold is_byte. pose proof (Z.mod_pos_bound v (2 ^ 8)). lia. Qed.

Lemma perm_length (st : list Z) : st ≡ₚ seqZ 0 256 -> length st = 256%nat.
Proof. intros P. rewrite P. by rewrite length_seqZ. Qed.

Lemma perm_lookup (st : list Z) i : st ≡ₚ seqZ 0 256 -> is_byte i -> st !! Z.to_nat i = Some (tbl st i).
Proof.
  intros P Hi. unfold is_byte in Hi. pose proof (perm_length st P). unfold tbl.
  destruct (st !! Z.to_nat i) eqn:E; [done|]. apply lookup_ge_None in E. lia.
Qed.

Lemma perm_tbl (st : list Z) i : st ≡ₚ seqZ 0 256 -> is_byte i -> is_byte (tbl st i).
Proof.
  intros P Hi. pose proof (perm_lookup st i P Hi) as E. apply list_elem_of_lookup_2 in E. revert E.
  generalize (tbl st i). intros v E. rewrite P in E. apply elem_of_seqZ in E. unfold is_byte. lia.
Qed.

Lemma perm_swap (st : list Z) i j :
  st ≡ₚ seqZ 0 256 -> is_byte i -> is_byte j -> <[Z.to_nat i := tbl st j]> (<[Z.to_nat j := tbl st i]> st) ≡ₚ seqZ 0 256.
Proof. intros P Hi Hj. rewrite Permutation_insert_swap; [done|by apply perm_lookup..]. Qed.

Lemma arcfour_init_ok key : arc4_ok (arcfour_init key).
Proof.
  unfold arcfour_init. assert (G : forall cs st, (forall c, c ∈ cs -> is_byte c) -> st.2 ≡ₚ seqZ 0 256 ->
    (foldl (arcfour_swap key) st cs).2 ≡ₚ seqZ 0 256).
  { induction cs as [|c cs IH]; intros [[k s] st] Hc P; [done|]. cbn [foldl]. apply IH; [intros; apply Hc; by right|].
    cbn [arcfour_swap snd] in *. apply perm_swap; [done|apply Hc; by left|apply low_byte]. }
  split; [|unfold is_byte; cbn; lia]. apply G; [|done]. intros c H. apply elem_of_seqZ in H. unfold is_byte. lia.
Qed.

Lemma arcfour_byte_ok c : arc4_ok c -> is_byte (arcfour_byte c).1 /\ arc4_ok (arcfour_byte c).2.
Proof.
  intros (P & _ & _). unfold arcfour_byte. set (i := (x c + 1) .& 0xff). set (j := (tbl (state c) i + y c) .& 0xff).
  assert (P' := perm_swap (state c) i j P (low_byte _) (low_byte _)). cbn [fst snd].
  split; [by apply perm_tbl, low_byte|]. split; [done|]. split; apply low_byte.
Qed.

Lemma arcfour_encrypt_ok c src :
  arc4_ok c -> bytes src -> bytes (arcfour_encrypt c src).1 /\ length (arcfour_encrypt c src).1 = length src /\ arc4_ok (arcfour_encrypt c src).2.
Proof.
  intros Ok B. revert c Ok. induction B as [|b src Hb B IH]; intros c Ok; [done|]. cbn [arcfour_encrypt].
  destruct (arcfour_byte_ok c Ok) as [Hk Ok']. destruct (arcfour_byte c) as [k c']. cbn [fst snd] in Hk, Ok'.
  destruct (IH c' Ok') as (Bd & Ld & Ok2). destruct (arcfour_encrypt c' src) as [d c2]. cbn [fst snd] in *.
  split_and!; [constructor; [by apply lxor_byte|done]|cbn; by f_equal|done..].
Qed.

(** The same key stream on what has been encrypted gives it back, and leaves the same state. *)
Lemma arcfour_involutive c src : arcfour_encrypt c (arcfour_encrypt c src).1 = (src, (arcfour_encrypt c src).2).
Proof.
  revert c. induction src as [|b src IH]; intros c; [done|]. cbn [arcfour_encrypt]. destruct (arcfour_byte c) as [k c'] eqn:E.
  specialize (IH c'). destruct (arcfour_encrypt c' src) as [d c2]. cbn [fst arcfour_encrypt snd] in *. rewrite E, IH.
  by rewrite Z.lxor_assoc, Z.lxor_nilpotent, Z.lxor_0_r.
Qed.

(** Two pieces are encrypted as one. *)
Lemma arcfour_app c a b :
  arcfour_encrypt c (a ++ b) =
  let '(d1, c) := arcfour_encrypt c a in let '(d2, c) := arcfour_encrypt c b in (d1 ++ d2, c).
Proof.
  revert c. induction a as [|v a IH]; intros c; cbn [arcfour_encrypt app].
  - by destruct (arcfour_encrypt c b).
  - destruct (arcfour_byte c) as [k c']. rewrite IH. destruct (arcfour_encrypt c' a) as [d1 c1]. by destruct (arcfour_encrypt c1 b).
Qed.

(** * The check value is CRC-32 *)

(** The polynomial with its bits turned around, least significant bit first. *)
Definition crc32_bit (r : Z) : Z := (r .>> 1) .^ (if Z.testbit r 0 then 0xedb88320 else 0).
Definition crc32_byte (crc b : Z) : Z := Nat.iter 8 crc32_bit (crc .^ b).

Lemma crc32_bit_xor_linear a b : crc32_bit (a .^ b) = crc32_bit a .^ crc32_bit b.
Proof.
  unfold crc32_bit. rewrite Z.shiftr_lxor, Z.lxor_spec. set (p := 0xedb88320).
  apply Z.bits_inj'. intros n Hn. rewrite !Z.lxor_spec.
  destruct (Z.testbit a 0), (Z.testbit b 0), (Z.testbit (a .>> 1) n), (Z.testbit (b .>> 1) n), (Z.testbit p n) eqn:E;
    cbn [xorb]; rewrite ?Z.bits_0, ?E; done.
Qed.

Lemma crc_iter_linear n a b : Nat.iter n crc32_bit (a .^ b) = Nat.iter n crc32_bit a .^ Nat.iter n crc32_bit b.
Proof. induction n as [|n IH]; [done|]. rewrite !Nat.iter_succ, IH. apply crc32_bit_xor_linear. Qed.

(** Without low bits a step is a shift. *)
Lemma crc_iter_high n v : Nat.iter n crc32_bit (v .<< Z.of_nat n) = v.
Proof.
  revert v. induction n as [|n IH]; intros v; [by rewrite Z.shiftl_0_r|]. rewrite Nat.iter_succ_r. unfold crc32_bit at 2.
  rewrite Z.shiftl_spec by lia. rewrite (Z.testbit_neg_r v) by lia. rewrite Z.lxor_0_r.
  replace ((v .<< Z.of_nat (S n)) .>> 1) with (v .<< Z.of_nat n); [apply IH|].
  rewrite Z.shiftr_shiftl_l by lia. f_equal. lia.
Qed.

Lemma crc32_tab_bits i : is_byte i -> tbl crc32_tab i = Nat.iter 8 crc32_bit i.
Proof. intros Hi. apply Z.eqb_eq. revert i Hi. apply byte_cases. vm_compute. reflexivity. Qed.

Lemma crc32_update_byte crc b : is_byte b -> crc32_update crc b = crc32_byte crc b.
Proof.
  intros Hb. unfold crc32_update, crc32_byte. rewrite crc32_tab_bits by apply low_byte.
  assert (Hs : b .>> 8 = 0) by (unfold is_byte in Hb; rewrite Z.shiftr_div_pow2, Z.div_small; lia).
  replace (crc .>> 8) with ((crc .^ b) .>> 8) by (by rewrite Z.shiftr_lxor, Hs, Z.lxor_0_r).
  set (v := crc .^ b). rewrite <- (crc_iter_high 8 (v .>> 8)). rewrite <- crc_iter_linear. f_equal.
  change (Z.of_nat 8) with 8. apply Z.bits_inj'. intros n Hn. rewrite Z.lxor_spec, Z.land_spec, Z.shiftl_spec by lia.
  change 0xff with (Z.ones 8). rewrite Z.testbit_ones_nonneg by lia. destruct (Z.ltb_spec n 8).
  - by rewrite (Z.testbit_neg_r _ (n - 8)), andb_true_r, xorb_false_r by lia.
  - rewrite Z.shiftr_spec by lia. rewrite andb_false_r. replace (n - 8 + 8) with n by lia. by destruct (Z.testbit v n).
Qed.

(** The check value of WEP and TKIP, computed from the table that the driver builds by
    turning bits around, is the CRC-32 of the standard: the polynomial taken bit by bit from
    the least significant one, started with ones and complemented. *)
Theorem getcrc32_correct buf : bytes buf -> getcrc32 buf = u32 (Z.lnot (foldl crc32_byte 0xffffffff buf)).
Proof.
  intros B. unfold getcrc32. do 2 f_equal. generalize 0xffffffff. induction B as [|b buf Hb B IH]; intros c; [done|].
  cbn [foldl]. by rewrite crc32_update_byte.
Qed.

(** * Sealing and opening *)

Definition rc4 (key data : list Z) : list Z := (arcfour_encrypt (arcfour_init key) data).1.

Lemma arcfour_length c src : length (arcfour_encrypt c src).1 = length src.
Proof.
  revert c. induction src as [|b src IH]; intros c; [done|]. cbn [arcfour_encrypt]. destruct (arcfour_byte c) as [k c'].
  specialize (IH c'). destruct (arcfour_encrypt c' src) as [d c2]. cbn [fst length] in *. by f_equal.
Qed.

Lemma rc4_length key data : length (rc4 key data) = length data.
Proof. apply arcfour_length. Qed.

Lemma rc4_rc4 key data : rc4 key (rc4 key data) = data.
Proof. unfold rc4. by rewrite arcfour_involutive. Qed.

Lemma rc4_seal_spec key a body gap b payload n :
  length gap = 4%nat -> payload = Z.of_nat (length a) -> n = Z.of_nat (length body) ->
  rc4_seal key payload n (a ++ body ++ gap ++ b) = Ok (a ++ rc4 key (body ++ icv body) ++ b).
Proof.
  intros Lg -> ->. unfold rc4_seal. rewrite load_app. cbn [mbind res_bind].
  unfold rc4. rewrite arcfour_app. pose proof (arcfour_length (arcfour_init key) body) as Ld.
  destruct (arcfour_encrypt (arcfour_init key) body) as [d c]. cbn [fst] in Ld. rewrite store_at by done. cbn [mbind res_bind].
  pose proof (arcfour_length c (icv body)) as Li. destruct (arcfour_encrypt c (icv body)) as [e c']. cbn [fst] in Li |- *.
  rewrite (app_assoc a), (store_at _ e) by (rewrite ?length_app; (lia || (rewrite Li; exact Lg))). by flat_app.
Qed.

Lemma rc4_open_any key a data b payload n :
  payload = Z.of_nat (length a) -> n = Z.of_nat (length data) ->
  let plain := rc4 key data in
  rc4_open key payload n (a ++ data ++ b) = Ok (a ++ plain ++ b, icv (take (length data - 4) plain)).
Proof.
  intros -> -> plain. unfold rc4_open. rewrite load_app. cbn [mbind res_bind]. fold (rc4 key data) plain.
  rewrite store_at by (unfold plain; rewrite ?rc4_length; done). cbn [mbind res_bind].
  by replace (Z.to_nat (Z.of_nat (length data) - 4)) with (length data - 4)%nat by lia.
Qed.

Lemma rc4_open_spec key a body b payload n :
  payload = Z.of_nat (length a) -> n = Z.of_nat (length body) + 4 ->
  rc4_open key payload n (a ++ rc4 key (body ++ icv body) ++ b) = Ok (a ++ body ++ icv body ++ b, icv body).
Proof.
  intros -> ->. assert (L : length (rc4 key (body ++ icv body)) = (length body + 4)%nat) by (rewrite rc4_length, length_app; done).
  rewrite rc4_open_any by (rewrite ?L; lia). rewrite rc4_rc4, L, take_app_len by lia. by rewrite <- app_assoc.
Qed.

(** ** The fragments in their buffer *)

(** Header, vector, body, the place for the check value, and what follows up to the next
    fragment. *)
Record frag := mk_frag { f_hdr : list Z; f_iv : list Z; f_body : list Z; f_gap : list Z; f_pad : list Z }.
Definition frag_bytes (f : frag) : list Z := f_hdr f ++ f_iv f ++ f_body f ++ f_gap f.
Definition frags_bytes (fs : list frag) : list Z := concat (map (fun f => frag_bytes f ++ f_pad f) fs).

(** The fragments fit the attributes: each but the last has [frag_len] bytes, and the next
    one starts at the next address that is a multiple of four. *)
Fixpoint frags_ok (a : pkt_attrib) (base pframe : Z) (fs : list frag) : Prop :=
  match fs with
  | [] => True
  | f :: rest =>
      Z.of_nat (length (f_hdr f)) = hdrlen a /\ Z.of_nat (length (f_iv f)) = iv_len a /\ length (f_gap f) = 4%nat /\ icv_len a = 4 /\
      match rest with
      | [] => Z.of_nat (length (frag_bytes f)) = last_txcmdsz a
      | _ =>
          Z.of_nat (length (frag_bytes f)) = frag_len a /\
          pframe + frag_len a + Z.of_nat (length (f_pad f)) = RND4 (base + (pframe + frag_len a)) - base /\
          frags_ok a base (pframe + frag_len a + Z.of_nat (length (f_pad f))) rest
      end
  end.

(** A fragment as it is sent, with the key [k] of its vector. *)
Definition sealed (k : list Z -> list Z) (f : frag) : list Z :=
  f_hdr f ++ f_iv f ++ rc4 (k (f_iv f)) (f_body f ++ icv (f_body f)).

Lemma length_sealed k f : length (f_gap f) = 4%nat -> length (sealed k f) = length (frag_bytes f).
Proof. intros L. unfold sealed, frag_bytes. rewrite !length_app, rc4_length, length_app, L. cbn. lia. Qed.

Section fragments.
Context (key_of : list Z -> Z -> res (list Z)) (k : list Z -> list Z) (a : pkt_attrib) (base : Z).
Context (Hkey : forall pre iv post, Z.of_nat (length iv) = iv_len a -> key_of (pre ++ iv ++ post) (Z.of_nat (length pre)) = Ok (k iv)).

Lemma seal_one pre f post payload n :
  Z.of_nat (length (f_hdr f)) = hdrlen a -> Z.of_nat (length (f_iv f)) = iv_len a -> length (f_gap f) = 4%nat ->
  payload = Z.of_nat (length pre) + iv_len a + hdrlen a -> n = Z.of_nat (length (f_body f)) ->
  let buf := pre ++ frag_bytes f ++ post in
  (key ← key_of buf (Z.of_nat (length pre) + hdrlen a); rc4_seal key payload n buf) = Ok (pre ++ sealed k f ++ post).
Proof.
  intros Lh Li Lg -> -> buf. unfold buf, frag_bytes, sealed.
  replace (pre ++ (f_hdr f ++ f_iv f ++ f_body f ++ f_gap f) ++ post) with ((pre ++ f_hdr f) ++ f_iv f ++ (f_body f ++ f_gap f ++ post)) by (by flat_app).
  replace (Z.of_nat (length pre) + hdrlen a) with (Z.of_nat (length (pre ++ f_hdr f))) by (rewrite length_app; lia).
  rewrite Hkey by done. cbn [mbind res_bind]. rewrite (app_assoc _ (f_iv f)).
  rewrite rc4_seal_spec; [by flat_app|done|rewrite !length_app; lia|done].
Qed.

Lemma seal_frags_spec fuel cur pre fs post :
  fs <> [] -> nr_frags a = cur + Z.of_nat (length fs) -> frags_ok a base (Z.of_nat (length pre)) fs -> (length fs < fuel)%nat ->
  seal_frags fuel key_of a base cur (Z.of_nat (length pre)) (pre ++ frags_bytes fs ++ post) =
  Ok (pre ++ concat (map (fun f => sealed k f ++ f_pad f) fs) ++ post).
Proof.
  revert fuel cur pre. induction fs as [|f fs IH]; intros fuel cur pre N Nr Hok F; [done|]. destruct fuel as [|fuel]; [lia|].
  destruct Hok as (Lh & Li & Lg & Lc & Hok). cbn [length] in Nr, F.
  assert (LF : Z.of_nat (length (frag_bytes f)) = hdrlen a + iv_len a + Z.of_nat (length (f_body f)) + 4)
    by (unfold frag_bytes; rewrite !length_app; lia).
  assert (Eb : pre ++ frags_bytes (f :: fs) ++ post = pre ++ frag_bytes f ++ (f_pad f ++ frags_bytes fs ++ post))
    by (unfold frags_bytes; cbn [map concat]; by flat_app).
  rewrite Eb. cbn [seal_frags]. rewrite (proj2 (Z.ltb_lt cur _)) by lia.
  pose proof (seal_one pre f (f_pad f ++ frags_bytes fs ++ post)) as One. cbv zeta in One.
  set (buf := pre ++ frag_bytes f ++ _) in *. destruct fs as [|g fs].
  - rewrite (proj2 (Z.eqb_eq _ _)) by (cbn in Nr; lia).
    specialize (One _ (last_txcmdsz a - hdrlen a - iv_len a - icv_len a) Lh Li Lg eq_refl ltac:(lia)).
    destruct (key_of buf _) as [| | |key]; try discriminate One. cbn [mbind res_bind] in One |- *. rewrite One. cbn [mbind res_bind].
    destruct fuel as [|fuel]; [lia|]. cbn [seal_frags]. rewrite (proj2 (Z.ltb_ge _ _)) by (cbn in Nr; lia).
    cbn [map concat frags_bytes]. by flat_app.
  - destruct Hok as (Lf & Lp & Hok). rewrite (proj2 (Z.eqb_neq _ _)) by (cbn in Nr; lia).
    specialize (One _ (frag_len a - hdrlen a - iv_len a - icv_len a) Lh Li Lg eq_refl ltac:(lia)).
    destruct (key_of buf _) as [| | |key]; try discriminate One. cbn [mbind res_bind] in One |- *. rewrite One. cbn [mbind res_bind].
    rewrite <- Lp. assert (Lpre : Z.of_nat (length pre) + frag_len a + Z.of_nat (length (f_pad f)) = Z.of_nat (length ((pre ++ sealed k f) ++ f_pad f)))
      by (rewrite !length_app, length_sealed by done; lia).
    rewrite Lpre in Hok |- *. rewrite !app_assoc, <- (app_assoc _ (frags_bytes (g :: fs))).
    rewrite (IH fuel (cur + 1) ((pre ++ sealed k f) ++ f_pad f)); [|done|lia|exact Hok|lia].
    cbn [map concat]. by flat_app.
Qed.
End fragments.

(** * WEP *)

Definition wep_key (skey : list Z) (keylength : Z) (iv : list Z) : list Z := take 3 iv ++ take (Z.to_nat keylength) skey.

Lemma wepkey_spec skey keylength pre iv post :
  length iv = 4%nat -> 0 <= keylength <= 13 -> keylength <= Z.of_nat (length skey) ->
  wepkey skey keylength (pre ++ iv ++ post) (Z.of_nat (length pre)) = Ok (wep_key skey keylength iv).
Proof.
  intros Li Hk Ls. unfold wepkey, wep_key. destruct iv as [|a [|b [|c [|d [|? ?]]]]]; try done.
  rewrite (load_at _ _ pre [a; b; c] (d :: post)) by done. cbn [mbind res_bind].
  change (replicate 16 0) with (replicate 3 0 ++ replicate 13 0). rewrite (store_head [a; b; c]) by done. cbn [mbind res_bind].
  destruct (split_buffer (Z.to_nat keylength) skey) as (s & s' & -> & Lks); [lia|]. rewrite (load_head keylength s) by lia. cbn [mbind res_bind].
  replace (replicate 13 0) with (replicate (length s) 0 ++ replicate (13 - length s) 0) by (rewrite <- replicate_add; f_equal; lia).
  rewrite (store_at 3 s [a; b; c]) by (rewrite ?length_replicate; done). cbn [mbind res_bind].
  rewrite take_app_len by lia. rewrite app_assoc. apply load_head. rewrite length_app. cbn. lia.
Qed.

(** WEP encrypts every fragment of a frame in place, for any layout of the fragments
    that the attributes describe, and nothing between them; and the receiver's decryption of
    each fragment gives back its body and the check value of it. *)
Theorem wep_roundtrip skey keylength a base pre fs post :
  0 <= keylength <= 13 -> keylength <= Z.of_nat (length skey) -> iv_len a = 4 ->
  fs <> [] -> nr_frags a = Z.of_nat (length fs) -> length pre = 48%nat -> frags_ok a base TXDESC_OFFSET fs ->
  let k := wep_key skey keylength in
  rtw_wep_encrypt true skey keylength a base (pre ++ frags_bytes fs ++ post) =
    Ok (pre ++ concat (map (fun f => sealed k f ++ f_pad f) fs) ++ post) /\
  forall f A B, length (f_iv f) = 4%nat ->
    rtw_wep_decrypt true skey keylength (Z.of_nat (length (f_hdr f))) 4 (Z.of_nat (length (sealed k f))) (Z.of_nat (length A)) (A ++ sealed k f ++ B) =
    Ok (A ++ f_hdr f ++ f_iv f ++ f_body f ++ icv (f_body f) ++ B).
Proof.
  intros Hk Ls Li N Nr Lp Hok k. split.
  - unfold rtw_wep_encrypt. replace TXDESC_OFFSET with (Z.of_nat (length pre)) in * by (rewrite Lp; done).
    apply seal_frags_spec; [|done|lia|done|lia]. intros p iv q L. apply wepkey_spec; (done || lia).
  - intros f A B Lv. unfold rtw_wep_decrypt, sealed, k. clear k.
    replace (A ++ (f_hdr f ++ f_iv f ++ rc4 (wep_key skey keylength (f_iv f)) (f_body f ++ icv (f_body f))) ++ B) with
      ((A ++ f_hdr f) ++ f_iv f ++ rc4 (wep_key skey keylength (f_iv f)) (f_body f ++ icv (f_body f)) ++ B) by (by flat_app).
    replace (Z.of_nat (length A) + Z.of_nat (length (f_hdr f))) with (Z.of_nat (length (A ++ f_hdr f))) by (rewrite length_app; lia).
    rewrite wepkey_spec by done. cbn [mbind res_bind]. rewrite (app_assoc (A ++ f_hdr f) (f_iv f)), rc4_open_spec.
    + cbn [mbind res_bind]. by flat_app.
    + rewrite !length_app, Lv. lia.
    + rewrite !length_app, rc4_length, length_app, Lv. cbn [length icv]. lia.
Qed.

(** Whatever the bytes, the decryption gives a frame: nothing compares the check value. *)
Lemma wep_accepts_any skey keylength hdr iv data :
  length iv = 4%nat -> 0 <= keylength <= 13 -> keylength <= Z.of_nat (length skey) ->
  let h := Z.of_nat (length hdr) in
  rtw_wep_decrypt true skey keylength h 4 (h + 4 + Z.of_nat (length data)) 0 (hdr ++ iv ++ data) =
  Ok (hdr ++ iv ++ rc4 (wep_key skey keylength iv) data).
Proof.
  intros Li Hk Ls h. unfold rtw_wep_decrypt. rewrite Z.add_0_l. unfold h. rewrite wepkey_spec by done. cbn [mbind res_bind].
  replace (hdr ++ iv ++ data) with ((hdr ++ iv) ++ data ++ []) by (rewrite app_nil_r; by flat_app).
  rewrite rc4_open_any by (rewrite ?length_app; lia). cbn [mbind res_bind]. rewrite app_nil_r. by flat_app.
Qed.

(** A frame that is shorter than its header and vector is encrypted data of a length that
    wraps: the cipher runs out of the buffer. *)
Lemma wep_short_faults skey keylength h len buf :
  len < h + 4 -> forall k, wepkey skey keylength buf (0 + h) = Ok k -> rtw_wep_decrypt true skey keylength h 4 len 0 buf = Fault.
Proof.
  intros Hl k E. unfold rtw_wep_decrypt. rewrite E. cbn [mbind res_bind]. unfold rc4_open, load.
  rewrite (proj2 (Z.leb_gt 0 (len - h - 4))) by lia. by rewrite andb_false_r.
Qed.

(** * Examples *)

(** RC4 of "Plaintext" with the key "Key", and the CRC-32 of "123456789". *)
Example rc4_vector :
  rc4 [0x4b; 0x65; 0x79] [0x50; 0x6c; 0x61; 0x69; 0x6e; 0x74; 0x65; 0x78; 0x74] =
  [0xbb; 0xf3; 0x16; 0xe8; 0xd9; 0x40; 0xaf; 0x0a; 0xd3].
Proof. vm_compute. reflexivity. Qed.

Lemma getcrc32_correct_witness : getcrc32 [0x31; 0x32; 0x33; 0x34; 0x35; 0x36; 0x37; 0x38; 0x39] = 0xcbf43926.
Proof.
  rewrite (getcrc32_correct [0x31; 0x32; 0x33; 0x34; 0x35; 0x36; 0x37; 0x38; 0x39]);
    [vm_compute; reflexivity|apply (bool_decide_eq_true_1 _); reflexivity].
Defined.

(** Two fragments of 13 bytes; the second starts at the next multiple of four. *)
Definition sample_frags : list frag :=
  [mk_frag [1; 2] [7; 8; 9; 0] [10; 11; 12] [0; 0; 0; 0] [99; 99; 99]; mk_frag [3; 4] [7; 8; 10; 0] [13] [0; 0; 0; 0] []].

Lemma wep_roundtrip_witness :
  exists buf, rtw_wep_encrypt true [1; 2; 3; 4; 5] 5 (mk_pkt_attrib 2 4 4 2 11 13) 0 (replicate 48 0 ++ frags_bytes sample_frags ++ []) = Ok buf /\
  length buf = 75%nat.
Proof.
  destruct (wep_roundtrip [1; 2; 3; 4; 5] 5 (mk_pkt_attrib 2 4 4 2 11 13) 0 (replicate 48 0) sample_frags [])
    as [E _]; [lia|cbn; lia|done..| |].
  - cbn -[RND4]. split_and!; done.
  - eexists. split; [exact E|]. vm_compute. reflexivity.
Defined.
