(* ===== verification/WifiTkip.v ===== *)
(** TKIP in the Wi-Fi driver ([core/rtw_security.c], [include/rtw_xmit.h]): Michael, the
    message integrity code; the mixing of the temporal key, the transmitter's address and the
    packet number into a key for each frame; and the encryption of frames with it. *)

From S2P Require Import Prelude WifiReorder WifiAes Mem WifiWep.

(** * Michael *)

(** [((1UL << n) - 1)] is [Z.ones n]. *)
Definition ROL32 (a n : Z) : Z := u32 (a .<< n) .| ((a .>> (32 - n)) .& Z.ones n).
Definition ROR32 (a n : Z) : Z := ROL32 a (32 - n).

Record mic_data := mk_mic { K0 : Z; K1 : Z; mic_L : Z; mic_R : Z; mic_M : Z; nBytesInM : Z }.

Definition secmicgetuint32 (p : list Z) : Z := foldl (fun res i => res .| u32 (tbl p i .<< (8 * i))) 0 [0; 1; 2; 3].
Definition secmicputuint32 (val : Z) : list Z := (fun i => (val .>> (8 * i)) .& 0xff) <$> [0; 1; 2; 3].

Definition secmicclear (d : mic_data) : mic_data := mk_mic (K0 d) (K1 d) (K0 d) (K1 d) 0 0.

Definition rtw_secmicsetkey (key : list Z) : mic_data :=
  secmicclear (mk_mic (secmicgetuint32 key) (secmicgetuint32 (drop 4 key)) 0 0 0 0).

(** A full word. *)
Definition michael_block (L R M : Z) : Z * Z :=
  let L := L .^ M in
  let R := R .^ ROL32 L 17 in
  let L := u32 (L + R) in
  let R := R .^ (((L .& 0xff00ff00) .>> 8) .| u32 ((L .& 0x00ff00ff) .<< 8)) in
  let L := u32 (L + R) in
  let R := R .^ ROL32 L 3 in
  let L := u32 (L + R) in
  let R := R .^ ROR32 L 2 in
  (u32 (L + R), R).

Definition rtw_secmicappendbyte (d : mic_data) (b : Z) : mic_data :=
  let M := u32 (mic_M d .| (b .<< (8 * nBytesInM d))) in
  let n := nBytesInM d + 1 in
  if 4 <=? n then let '(L, R) := michael_block (mic_L d) (mic_R d) M in mk_mic (K0 d) (K1 d) L R 0 0
  else mk_mic (K0 d) (K1 d) (mic_L d) (mic_R d) M n.

Definition rtw_secmicappend (d : mic_data) (src : list Z) : mic_data := foldl rtw_secmicappendbyte d src.

(** Zeroes until the word is full. *)
Fixpoint pad_loop (fuel : nat) (d : mic_data) : res mic_data :=
  match fuel with
  | O => Diverge
  | S fuel => if nBytesInM d =? 0 then Ok d else pad_loop fuel (rtw_secmicappendbyte d 0)
  end.

(** The code and the state for the next message. *)
Definition rtw_secgetmic (d : mic_data) : res (list Z * mic_data) :=
  d ← pad_loop 5 (foldl rtw_secmicappendbyte d [0x5a; 0; 0; 0; 0]);
  Ok (secmicputuint32 (mic_L d) ++ secmicputuint32 (mic_R d), secmicclear d).

(** The pseudo header: the addresses of destination and source, which are at places that
    depend on the direction, then the priority and three zeroes. *)
Definition append_header (d : mic_data) (header : list Z) (at_ pri : Z) : res mic_data :=
  fc1 ← byte_at header (at_ + 1);
  da ← load (at_ + (if truthy (fc1 .& 1) then 16 else 4)) 6 header;
  sa ← load (at_ + (if truthy (fc1 .& 1) then if truthy (fc1 .& 2) then 24 else 10 else if truthy (fc1 .& 2) then 16 else 10)) 6 header;
  Ok (rtw_secmicappend (rtw_secmicappend (rtw_secmicappend d da) sa) [pri; 0; 0; 0]).

(** The code of [data] in a frame that starts at [at_] of [buf]. *)
Definition rtw_seccalctkipmic (key buf : list Z) (at_ : Z) (data : list Z) (pri : Z) : res (list Z) :=
  d ← append_header (rtw_secmicsetkey key) buf at_ pri;
  r ← rtw_secgetmic (rtw_secmicappend d data);
  Ok r.1.

(** * Key mixing *)

Definition RotR1 (v16 : Z) : Z := ((v16 .>> 1) .& 0x7FFF) .^ ((v16 .& 1) .<< 15).
Definition Lo8 (v16 : Z) : Z := u8 (v16 .& 0x00FF).
Definition Hi8 (v16 : Z) : Z := u8 ((v16 .>> 8) .& 0x00FF).
Definition Lo16 (v32 : Z) : Z := u16 (v32 .& 0xFFFF).
Definition Hi16 (v32 : Z) : Z := u16 ((v32 .>> 16) .& 0xFFFF).
Definition Mk16 (hi lo : Z) : Z := lo .^ (u16 hi .<< 8).
Definition TK16 (tk : list Z) (n : Z) : Z := Mk16 (tbl tk (2 * n + 1)) (tbl tk (2 * n)).

(** The two halves of [Sbox1]. *)
Definition Sbox1_0 : list Z := [
  0xC6A5; 0xF884; 0xEE99; 0xF68D; 0xFF0D; 0xD6BD; 0xDEB1; 0x9154; 0x6050; 0x0203; 0xCEA9; 0x567D; 0xE719; 0xB562; 0x4DE6; 0xEC9A;
  0x8F45; 0x1F9D; 0x8940; 0xFA87; 0xEF15; 0xB2EB; 0x8EC9; 0xFB0B; 0x41EC; 0xB367; 0x5FFD; 0x45EA; 0x23BF; 0x53F7; 0xE496; 0x9B5B;
  0x75C2; 0xE11C; 0x3DAE; 0x4C6A; 0x6C5A; 0x7E41; 0xF502; 0x834F; 0x685C; 0x51F4; 0xD134; 0xF908; 0xE293; 0xAB73; 0x6253; 0x2A3F;
  0x080C; 0x9552; 0x4665; 0x9D5E; 0x3028; 0x37A1; 0x0A0F; 0x2FB5; 0x0E09; 0x2436; 0x1B9B; 0xDF3D; 0xCD26; 0x4E69; 0x7FCD; 0xEA9F;
  0x121B; 0x1D9E; 0x5874; 0x342E; 0x362D; 0xDCB2; 0xB4EE; 0x5BFB; 0xA4F6; 0x764D; 0xB761; 0x7DCE; 0x527B; 0xDD3E; 0x5E71; 0x1397;
  0xA6F5; 0xB968; 0x0000; 0xC12C; 0x4060; 0xE31F; 0x79C8; 0xB6ED; 0xD4BE; 0x8D46; 0x67D9; 0x724B; 0x94DE; 0x98D4; 0xB0E8; 0x854A;
  0xBB6B; 0xC52A; 0x4FE5; 0xED16; 0x86C5; 0x9AD7; 0x6655; 0x1194; 0x8ACF; 0xE910; 0x0406; 0xFE81; 0xA0F0; 0x7844; 0x25BA; 0x4BE3;
  0xA2F3; 0x5DFE; 0x80C0; 0x058A; 0x3FAD; 0x21BC; 0x7048; 0xF104; 0x63DF; 0x77C1; 0xAF75; 0x4263; 0x2030; 0xE51A; 0xFD0E; 0xBF6D;
  0x814C; 0x1814; 0x2635; 0xC32F; 0xBEE1; 0x35A2; 0x88CC; 0x2E39; 0x9357; 0x55F2; 0xFC82; 0x7A47; 0xC8AC; 0xBAE7; 0x322B; 0xE695;
  0xC0A0; 0x1998; 0x9ED1; 0xA37F; 0x4466; 0x547E; 0x3BAB; 0x0B83; 0x8CCA; 0xC729; 0x6BD3; 0x283C; 0xA779; 0xBCE2; 0x161D; 0xAD76;
  0xDB3B; 0x6456; 0x744E; 0x141E; 0x92DB; 0x0C0A; 0x486C; 0xB8E4; 0x9F5D; 0xBD6E; 0x43EF; 0xC4A6; 0x39A8; 0x31A4; 0xD337; 0xF28B;
  0xD532; 0x8B43; 0x6E59; 0xDAB7; 0x018C; 0xB164; 0x9CD2; 0x49E0; 0xD8B4; 0xACFA; 0xF307; 0xCF25; 0xCAAF; 0xF48E; 0x47E9; 0x1018;
  0x6FD5; 0xF088; 0x4A6F; 0x5C72; 0x3824; 0x57F1; 0x73C7; 0x9751; 0xCB23; 0xA17C; 0xE89C; 0x3E21; 0x96DD; 0x61DC; 0x0D86; 0x0F85;
  0xE090; 0x7C42; 0x71C4; 0xCCAA; 0x90D8; 0x0605; 0xF701; 0x1C12; 0xC2A3; 0x6A5F; 0xAEF9; 0x69D0; 0x1791; 0x9958; 0x3A27; 0x27B9;
  0xD938; 0xEB13; 0x2BB3; 0x2233; 0xD2BB; 0xA970; 0x0789; 0x33A7; 0x2DB6; 0x3C22; 0x1592; 0xC920; 0x8749; 0xAAFF; 0x5078; 0xA57A;
  0x038F; 0x59F8; 0x0980; 0x1A17; 0x65DA; 0xD731; 0x84C6; 0xD0B8; 0x82C3; 0x29B0; 0x5A77; 0x1E11; 0x7BCB; 0xA8FC; 0x6DD6; 0x2C3A].
Definition Sbox1_1 : list Z := [
  0xA5C6; 0x84F8; 0x99EE; 0x8DF6; 0x0DFF; 0xBDD6; 0xB1DE; 0x5491; 0x5060; 0x0302; 0xA9CE; 0x7D56; 0x19E7; 0x62B5; 0xE64D; 0x9AEC;
  0x458F; 0x9D1F; 0x4089; 0x87FA; 0x15EF; 0xEBB2; 0xC98E; 0x0BFB; 0xEC41; 0x67B3; 0xFD5F; 0xEA45; 0xBF23; 0xF753; 0x96E4; 0x5B9B;
  0xC275; 0x1CE1; 0xAE3D; 0x6A4C; 0x5A6C; 0x417E; 0x02F5; 0x4F83; 0x5C68; 0xF451; 0x34D1; 0x08F9; 0x93E2; 0x73AB; 0x5362; 0x3F2A;
  0x0C08; 0x5295; 0x6546; 0x5E9D; 0x2830; 0xA137; 0x0F0A; 0xB52F; 0x090E; 0x3624; 0x9B1B; 0x3DDF; 0x26CD; 0x694E; 0xCD7F; 0x9FEA;
  0x1B12; 0x9E1D; 0x7458; 0x2E34; 0x2D36; 0xB2DC; 0xEEB4; 0xFB5B; 0xF6A4; 0x4D76; 0x61B7; 0xCE7D; 0x7B52; 0x3EDD; 0x715E; 0x9713;
  0xF5A6; 0x68B9; 0x0000; 0x2CC1; 0x6040; 0x1FE3; 0xC879; 0xEDB6; 0xBED4; 0x468D; 0xD967; 0x4B72; 0xDE94; 0xD498; 0xE8B0; 0x4A85;
  0x6BBB; 0x2AC5; 0xE54F; 0x16ED; 0xC586; 0xD79A; 0x5566; 0x9411; 0xCF8A; 0x10E9; 0x0604; 0x81FE; 0xF0A0; 0x4478; 0xBA25; 0xE34B;
  0xF3A2; 0xFE5D; 0xC080; 0x8A05; 0xAD3F; 0xBC21; 0x4870; 0x04F1; 0xDF63; 0xC177; 0x75AF; 0x6342; 0x3020; 0x1AE5; 0x0EFD; 0x6DBF;
  0x4C81; 0x1418; 0x3526; 0x2FC3; 0xE1BE; 0xA235; 0xCC88; 0x392E; 0x5793; 0xF255; 0x82FC; 0x477A; 0xACC8; 0xE7BA; 0x2B32; 0x95E6;
  0xA0C0; 0x9819; 0xD19E; 0x7FA3; 0x6644; 0x7E54; 0xAB3B; 0x830B; 0xCA8C; 0x29C7; 0xD36B; 0x3C28; 0x79A7; 0xE2BC; 0x1D16; 0x76AD;
  0x3BDB; 0x5664; 0x4E74; 0x1E14; 0xDB92; 0x0A0C; 0x6C48; 0xE4B8; 0x5D9F; 0x6EBD; 0xEF43; 0xA6C4; 0xA839; 0xA431; 0x37D3; 0x8BF2;
  0x32D5; 0x438B; 0x596E; 0xB7DA; 0x8C01; 0x64B1; 0xD29C; 0xE049; 0xB4D8; 0xFAAC; 0x07F3; 0x25CF; 0xAFCA; 0x8EF4; 0xE947; 0x1810;
  0xD56F; 0x88F0; 0x6F4A; 0x725C; 0x2438; 0xF157; 0xC773; 0x5197; 0x23CB; 0x7CA1; 0x9CE8; 0x213E; 0xDD96; 0xDC61; 0x860D; 0x850F;
  0x90E0; 0x427C; 0xC471; 0xAACC; 0xD890; 0x0506; 0x01F7; 0x121C; 0xA3C2; 0x5F6A; 0xF9AE; 0xD069; 0x9117; 0x5899; 0x273A; 0xB927;
  0x38D9; 0x13EB; 0xB32B; 0x3322; 0xBBD2; 0x70A9; 0x8907; 0xA733; 0xB62D; 0x223C; 0x9215; 0x20C9; 0x4987; 0xFFAA; 0x7850; 0x7AA5;
  0x8F03; 0xF859; 0x8009; 0x171A; 0xDA65; 0x31D7; 0xC684; 0xB8D0; 0xC382; 0xB029; 0x775A; 0x111E; 0xCB7B; 0xFCA8; 0xD66D; 0x3A2C].

Definition _S_ (v16 : Z) : Z := tbl Sbox1_0 (Lo8 v16) .^ tbl Sbox1_1 (Hi8 v16).

Definition PHASE1_LOOP_CNT : Z := 8.

(** The 80 bits of the first phase, five words. *)
Definition p1k_t : Type := Z * Z * Z * Z * Z.

Definition phase1_round (tk : list Z) (p1k : p1k_t) (i : Z) : p1k_t :=
  let '(p0, p1, p2, p3, p4) := p1k in
  let p0 := u16 (p0 + _S_ (p4 .^ TK16 tk ((i .& 1) + 0))) in
  let p1 := u16 (p1 + _S_ (p0 .^ TK16 tk ((i .& 1) + 2))) in
  let p2 := u16 (p2 + _S_ (p1 .^ TK16 tk ((i .& 1) + 4))) in
  let p3 := u16 (p3 + _S_ (p2 .^ TK16 tk ((i .& 1) + 6))) in
  let p4 := u16 (p4 + _S_ (p3 .^ TK16 tk ((i .& 1) + 0))) in
  let p4 := u16 (p4 + i) in
  (p0, p1, p2, p3, p4).

Definition phase1 (tk ta : list Z) (iv32 : Z) : p1k_t :=
  foldl (phase1_round tk)
    (Lo16 iv32, Hi16 iv32, Mk16 (tbl ta 1) (tbl ta 0), Mk16 (tbl ta 3) (tbl ta 2), Mk16 (tbl ta 5) (tbl ta 4))
    (seqZ 0 PHASE1_LOOP_CNT).

(** The 96 bits of [PPK] after the rounds and the final sweep. *)
Definition ppk_mix (tk : list Z) (p1k : p1k_t) (iv16 : Z) : Z * Z * Z * Z * Z * Z :=
  let '(p0, p1, p2, p3, p4) := p1k in
  let p5 := u16 (p4 + iv16) in
  let p0 := u16 (p0 + _S_ (p5 .^ TK16 tk 0)) in
  let p1 := u16 (p1 + _S_ (p0 .^ TK16 tk 1)) in
  let p2 := u16 (p2 + _S_ (p1 .^ TK16 tk 2)) in
  let p3 := u16 (p3 + _S_ (p2 .^ TK16 tk 3)) in
  let p4 := u16 (p4 + _S_ (p3 .^ TK16 tk 4)) in
  let p5 := u16 (p5 + _S_ (p4 .^ TK16 tk 5)) in
  let p0 := u16 (p0 + RotR1 (p5 .^ TK16 tk 6)) in
  let p1 := u16 (p1 + RotR1 (p0 .^ TK16 tk 7)) in
  let p2 := u16 (p2 + RotR1 p1) in
  let p3 := u16 (p3 + RotR1 p2) in
  let p4 := u16 (p4 + RotR1 p3) in
  let p5 := u16 (p5 + RotR1 p4) in
  (p0, p1, p2, p3, p4, p5).

Definition phase2 (tk : list Z) (p1k : p1k_t) (iv16 : Z) : list Z :=
  let '(p0, p1, p2, p3, p4, p5) := ppk_mix tk p1k iv16 in
  [Hi8 iv16; (Hi8 iv16 .| 0x20) .& 0x7F; Lo8 iv16; Lo8 ((p5 .^ TK16 tk 0) .>> 1);
   Lo8 p0; Hi8 p0; Lo8 p1; Hi8 p1; Lo8 p2; Hi8 p2; Lo8 p3; Hi8 p3; Lo8 p4; Hi8 p4; Lo8 p5; Hi8 p5].

(** * Packet numbers *)

(** The byte [TSC]k of the union [pn48]. *)
Definition TSC (val k : Z) : Z := (val .>> (8 * k)) .& 0xff.

(** The next packet number, and the vector of eight bytes with it. *)
Definition TKIP_IV (val keyidx : Z) : list Z * Z :=
  let val := if val =? 0xffffffffffff then 0 else u64 (val + 1) in
  ([TSC val 1; (TSC val 1 .| 0x20) .& 0x7f; TSC val 0; 0x20 .| ((keyidx .& 3) .<< 6); TSC val 2; TSC val 3; TSC val 4; TSC val 5], val).

(** The two bytes above these are not initialised; the casts of what is done with the number
    drop them. *)
Definition GET_TKIP_PN (iv : list Z) : Z :=
  tbl iv 2 .| (tbl iv 0 .<< 8) .| (tbl iv 4 .<< 16) .| (tbl iv 5 .<< 24) .| (tbl iv 6 .<< 32) .| (tbl iv 7 .<< 40).

(** * Frames *)

(** The key for the vector [iv], the temporal key [tk] and the transmitter [ta]. *)
Definition tkip_key (tk ta iv : list Z) : list Z :=
  let val := GET_TKIP_PN iv in
  let pnl := u16 val in
  let pnh := u32 (val .>> 16) in
  phase2 tk (phase1 tk ta pnh) pnl.

(** The same for the vector at [iv] of a buffer. *)
Definition tkip_rc4key (tk ta : list Z) (buf : list Z) (iv : Z) : res (list Z) :=
  v ← load iv 8 buf; Ok (tkip_key tk ta v).

Definition IS_MCAST (da : list Z) : bool := truthy (tbl da 0 .& 0x01).

(** The keys: those of the group with the index to send with, and whether they are there. *)
Record security_priv := mk_security { dot118021XGrpKey : list (list Z); dot118021XGrpKeyid : Z; binstallGrpkey : bool }.
Definition group_key (s : security_priv) (id : Z) : list Z := default [] (dot118021XGrpKey s !! Z.to_nat id).

(** The frame in its buffer; [tkip] is whether the frame is to be encrypted so. *)
Definition rtw_tkip_encrypt (tkip : bool) (s : security_priv) (ra ta uncst : list Z) (a : pkt_attrib) (base : Z) (buf : list Z) : res (list Z) :=
  if tkip then
    let prwskey := if IS_MCAST ra then group_key s (dot118021XGrpKeyid s) else uncst in
    seal_frags (S (Z.to_nat (nr_frags a))) (tkip_rc4key prwskey ta) a base 0 TXDESC_OFFSET buf
  else Ok buf.

(** A received frame of [len] bytes at [pframe]; [stainfo] is the key of the sender, if there
    is a sender. The second result is [_SUCCESS]. *)
Definition rtw_tkip_decrypt (tkip : bool) (s : security_priv) (stainfo : option (list Z)) (ra ta : list Z)
    (key_index hdrlen iv_len len pframe : Z) (buf : list Z) : res (list Z * bool) :=
  if tkip then
    match stainfo with
    | None => Ok (buf, false)
    | Some uncst =>
        if IS_MCAST ra && negb (binstallGrpkey s) then Ok (buf, false)
        else
          let prwskey := if IS_MCAST ra then group_key s key_index else uncst in
          let payload := pframe + iv_len + hdrlen in
          let length := len - hdrlen - iv_len in
          key ← tkip_rc4key prwskey ta buf (pframe + hdrlen);
          r ← rc4_open key payload length buf;
          let '(buf, crc) := r in
          b ← same_at buf (payload + length - 4) crc;
          Ok (buf, b)
    end
  else Ok (buf, true).

(** * Michael is the code of the standard *)

(** A word of four bytes, the rotation, and the exchange of the bytes of each half. *)
Definition le32 (a b c d : Z) : Z := word (d, c, b, a).
Definition rotl (n x : Z) : Z := (x * 2 ^ n) mod 2 ^ 32 + x / 2 ^ (32 - n).
Definition le32_bytes (v : Z) : list Z := [v mod 2 ^ 8; v / 2 ^ 8 mod 2 ^ 8; v / 2 ^ 16 mod 2 ^ 8; v / 2 ^ 24 mod 2 ^ 8].
Definition xswap (x : Z) : Z := match le32_bytes x with [a; b; c; d] => le32 b a d c | _ => 0 end.

(** The block function of Michael: a Feistel construction of additions, rotations and the
    exchange. *)
Definition feistel (f : Z -> Z) (s : Z * Z) : Z * Z :=
  let '(l, r) := s in let r := r .^ f l in ((l + r) mod 2 ^ 32, r).
Definition michael_b (s : Z * Z) : Z * Z := feistel (rotl 30) (feistel (rotl 3) (feistel xswap (feistel (rotl 17) s))).

Fixpoint michael_words (s : Z * Z) (m : list Z) : Z * Z :=
  match m with
  | a :: b :: c :: d :: m => michael_words (michael_b (s.1 .^ le32 a b c d, s.2)) m
  | _ => s
  end.

(** Conversion unfolds a round, which uses its argument more than once, last. *)
#[global] Strategy 1000 [feistel michael_b michael_block michael_words rtw_secmicappendbyte rtw_secmicappend rtw_secmicsetkey].

(** The message with the byte 0x5a and at least four zeroes behind it fills words. *)
Definition michael_pad (n : nat) : list Z := 0x5a :: replicate (4 + (3 - n mod 4)) 0.

Definition le32_list (l : list Z) : Z := le32 (tbl l 0) (tbl l 1) (tbl l 2) (tbl l 3).

Definition michael (key m : list Z) : list Z :=
  let '(l, r) := michael_words (le32_list key, le32_list (drop 4 key)) (m ++ michael_pad (length m)) in
  le32_bytes l ++ le32_bytes r.

(** ** Words *)

Definition word32 (x : Z) : Prop := 0 <= x < 4294967296.

Lemma lor_disjoint a b n : 0 <= n -> 0 <= b < 2 ^ n -> (a * 2 ^ n) .| b = a * 2 ^ n + b.
Proof.
  intros Hn Hb. rewrite <- Z.lxor_lor, <- Z.add_nocarry_lxor; [done|..]; apply Z.bits_inj'; intros k Hk;
    rewrite Z.land_spec, Z.bits_0, <- Z.shiftl_mul_pow2, Z.shiftl_spec by lia; destruct (Z.ltb_spec k n);
    try (rewrite (Z.testbit_neg_r a) by lia; done);
    rewrite <- (Z.mod_small b (2 ^ n)) by done; rewrite Z.mod_pow2_bits_high by lia; apply andb_false_r.
Qed.

Lemma word32_bits x : 0 <= x -> (forall k, 32 <= k -> Z.testbit x k = false) -> word32 x.
Proof.
  intros Hx Hb. unfold word32. change 4294967296 with (2 ^ 32). split; [done|]. replace x with (x mod 2 ^ 32); [apply Z.mod_pos_bound; lia|].
  apply Z.bits_inj'. intros k Hk. destruct (Z.ltb_spec k 32); [by rewrite Z.mod_pow2_bits_low|].
  by rewrite Z.mod_pow2_bits_high, Hb by lia.
Qed.

Lemma word32_high x k : word32 x -> 32 <= k -> Z.testbit x k = false.
Proof. unfold word32. intros Hx Hk. rewrite <- (Z.mod_small x (2 ^ 32)) by lia. by apply Z.mod_pow2_bits_high. Qed.

Lemma lxor_word32 a b : word32 a -> word32 b -> word32 (a .^ b).
Proof.
  intros Ha Hb. apply word32_bits; [apply Z.lxor_nonneg; unfold word32 in *; lia|]. intros k Hk.
  by rewrite Z.lxor_spec, !word32_high.
Qed.

Lemma lor_word32 a b : word32 a -> word32 b -> word32 (a .| b).
Proof.
  intros Ha Hb. apply word32_bits; [apply Z.lor_nonneg; unfold word32 in *; lia|]. intros k Hk.
  by rewrite Z.lor_spec, !word32_high.
Qed.

Lemma ROL32_rotl x n : word32 x -> 0 < n < 32 -> ROL32 x n = rotl n x.
Proof.
  unfold word32. intros Hx Hn. unfold ROL32, rotl, u32. rewrite Z.shiftl_mul_pow2, Z.shiftr_div_pow2, Z.land_ones by lia.
  assert (Hp := Z.pow_pos_nonneg 2 n ltac:(lia) ltac:(lia)). assert (Hq := Z.pow_pos_nonneg 2 (32 - n) ltac:(lia) ltac:(lia)).
  assert (E32 : 2 ^ 32 = 2 ^ (32 - n) * 2 ^ n) by (rewrite <- Z.pow_add_r by lia; f_equal; lia).
  assert (Hd : 0 <= x / 2 ^ (32 - n) < 2 ^ n) by (split; [apply Z.div_pos; lia|apply Z.div_lt_upper_bound; lia]).
  rewrite (Z.mod_small (x / _)) by done. rewrite E32, Z.mul_mod_distr_r by lia. apply lor_disjoint; [lia|done].
Qed.

Lemma rotl_word32 x n : word32 x -> 0 < n < 32 -> word32 (rotl n x).
Proof.
  intros Hx Hn. rewrite <- ROL32_rotl by done. apply lor_word32; [apply u32_range|]. rewrite Z.land_ones by lia.
  assert (Hm := Z.mod_pos_bound (x .>> (32 - n)) (2 ^ n) ltac:(lia)). assert (2 ^ n <= 2 ^ 32) by (apply Z.pow_le_mono_r; lia).
  unfold word32. lia.
Qed.

Lemma byte_word32 b : is_byte b -> word32 b.
Proof. unfold is_byte, word32. lia. Qed.

(** The bytes of a word. *)
Lemma le32_bytes_le32 a b c d : bytes [a; b; c; d] -> le32_bytes (le32 a b c d) = [a; b; c; d].
Proof.
  intros B. rewrite !Forall_cons in B. destruct B as (Ha & Hb & Hc & Hd & _). unfold le32_bytes, le32, word.
  change (2 ^ 24) with (256 * 256 * 256). change (2 ^ 16) with (256 * 256). change (2 ^ 8) with 256.
  rewrite <- !Z.div_div, !digit_div, !digit_mod by (done || lia). unfold is_byte in Hd. by rewrite Z.mod_small.
Qed.

Lemma word32_le32 x : word32 x -> exists a b c d, x = le32 a b c d /\ bytes [a; b; c; d].
Proof.
  unfold word32. intros Hx. exists (x mod 256), (x / 256 mod 256), (x / 256 / 256 mod 256), (x / 256 / 256 / 256). unfold le32, word. split.
  - rewrite (Z.mul_comm (_ / 256 / 256 / 256)), <- Z.div_mod, (Z.mul_comm (_ / 256 / 256)), <- Z.div_mod, (Z.mul_comm (_ / 256)), <- Z.div_mod; lia.
  - rewrite !Z.div_div by lia. repeat constructor; try (apply Z.mod_pos_bound; lia).
    + apply Z.div_pos; lia.
    + apply Z.div_lt_upper_bound; lia.
Qed.

Lemma le32_word32 a b c d : bytes [a; b; c; d] -> word32 (le32 a b c d).
Proof.
  intros B. rewrite !Forall_cons in B. destruct B as (Ha & Hb & Hc & Hd & _). unfold word32, le32, word, is_byte in *. lia.
Qed.

Lemma byte_op_check : forallb (fun a => forallb (fun b => bool_decide (is_byte (a .& b)) && bool_decide (is_byte (a .| b))) byte_range) byte_range = true.
Proof. vm_compute. reflexivity. Qed.

Lemma byte_op a b : is_byte a -> is_byte b -> is_byte (a .& b) /\ is_byte (a .| b).
Proof.
  intros Ha Hb. pose proof (byte_cases2 _ byte_op_check a b Ha Hb) as E. apply andb_true_iff in E as [E1 E2].
  by apply bool_decide_eq_true in E1, E2.
Qed.

Lemma land_digit x y b c : is_byte b -> is_byte c -> (x * 256 + b) .& (y * 256 + c) = (x .& y) * 256 + (b .& c).
Proof.
  intros Hb Hc. apply Z.bits_inj'. intros n Hn. rewrite Z.land_spec, !testbit_digit by (done || by apply byte_op).
  rewrite !Z.land_spec. by destruct (n <? 8).
Qed.

Lemma lor_digit x y b c : is_byte b -> is_byte c -> (x * 256 + b) .| (y * 256 + c) = (x .| y) * 256 + (b .| c).
Proof.
  intros Hb Hc. apply Z.bits_inj'. intros n Hn. rewrite Z.lor_spec, !testbit_digit by (done || by apply byte_op).
  rewrite !Z.lor_spec. by destruct (n <? 8).
Qed.

Lemma land_ff b : is_byte b -> b .& 255 = b.
Proof. intros. rewrite land_255_u8. by apply u8_small. Qed.

Lemma xswap_code x : word32 x -> ((x .& 0xff00ff00) .>> 8) .| u32 ((x .& 0x00ff00ff) .<< 8) = xswap x.
Proof.
  intros Hx. destruct (word32_le32 x Hx) as (a & b & c & d & -> & B). unfold xswap. rewrite le32_bytes_le32 by done.
  rewrite !Forall_cons in B. destruct B as (Ha & Hb & Hc & Hd & _). unfold le32, word.
  change 0xff00ff00 with (((255 * 256 + 0) * 256 + 255) * 256 + 0). change 0x00ff00ff with (((0 * 256 + 255) * 256 + 0) * 256 + 255).
  rewrite !land_digit, !land_ff, !Z.land_0_r by (done || (unfold is_byte; lia)).
  rewrite Z.shiftr_div_pow2, Z.shiftl_mul_pow2 by lia. change (2 ^ 8) with 256. rewrite digit_div by (unfold is_byte; lia).
  rewrite u32_small by (unfold is_byte in *; lia). unfold is_byte in *.
  replace (((0 * 256 + c) * 256 + 0) * 256 + a) with ((c * 256 + 0) * 256 + a) by lia.
  replace (((c * 256 + 0) * 256 + a) * 256) with ((((c * 256 + 0) * 256 + a) * 256) + 0) by lia.
  replace ((d * 256 + 0) * 256 + b) with (((0 * 256 + d) * 256 + 0) * 256 + b) by lia.
  rewrite !lor_digit by (unfold is_byte; lia). by rewrite !Z.lor_0_l, !Z.lor_0_r.
Qed.

Lemma word32_0 : word32 0.
Proof. by unfold word32. Qed.

Lemma feistel_word32 f s :
  (forall x, word32 x -> word32 (f x)) -> word32 s.1 -> word32 s.2 -> word32 (feistel f s).1 /\ word32 (feistel f s).2.
Proof.
  destruct s as [l r]. cbn [fst snd feistel]. intros Hf Hl Hr. split; [apply (u32_range (l + r .^ f l))|]. apply lxor_word32; auto.
Qed.

Lemma xswap_word32 x : word32 x -> word32 (xswap x).
Proof.
  intros Hx. destruct (word32_le32 x Hx) as (a & b & c & d & -> & B). unfold xswap. rewrite le32_bytes_le32 by done.
  apply le32_word32. rewrite !Forall_cons in *. tauto.
Qed.

Lemma michael_block_spec l r m :
  word32 l -> word32 r -> word32 m ->
  let s := michael_b (l .^ m, r) in michael_block l r m = s /\ word32 s.1 /\ word32 s.2.
Proof.
  intros Hl Hr Hm. cbv zeta.
  pose proof (lxor_word32 l m Hl Hm) as H0.
  destruct (feistel_word32 (rotl 17) (l .^ m, r)) as [A1 B1]; [intros; by apply rotl_word32|done..|].
  destruct (feistel_word32 xswap _ xswap_word32 A1 B1) as [A2 B2].
  destruct (feistel_word32 (rotl 3) _ (fun x Hx => rotl_word32 x 3 Hx ltac:(lia)) A2 B2) as [A3 B3].
  destruct (feistel_word32 (rotl 30) _ (fun x Hx => rotl_word32 x 30 Hx ltac:(lia)) A3 B3) as [A4 B4].
  split; [|done]. unfold michael_b, michael_block, ROR32. change (32 - 2) with 30.
  rewrite (ROL32_rotl (l .^ m)) by (done || lia). cbn [feistel fst snd] in *.
  rewrite xswap_code by exact A1. rewrite (ROL32_rotl _ 3) by (exact A2 || lia).
  rewrite (ROL32_rotl _ 30) by (exact A3 || lia). reflexivity.
Qed.

(** ** Messages *)

(** Between two words, with the key. *)
Definition aligned (d : mic_data) : Prop := mic_M d = 0 /\ nBytesInM d = 0 /\ word32 (mic_L d) /\ word32 (mic_R d).
Definition with_lr (d : mic_data) (s : Z * Z) : mic_data := mk_mic (K0 d) (K1 d) s.1 s.2 0 0.

Lemma append_word d a b c e :
  aligned d -> bytes [a; b; c; e] ->
  let s := michael_b (mic_L d .^ le32 a b c e, mic_R d) in
  rtw_secmicappend d [a; b; c; e] = with_lr d s /\ aligned (with_lr d s).
Proof.
  intros (EM & En & HL & HR) B. cbv zeta. destruct d as [k0 k1 L R M n]. cbn in EM, En, HL, HR. subst M n.
  pose proof (le32_word32 a b c e B) as Hw. rewrite !Forall_cons in B. destruct B as (Ha & Hb & Hc & He & _).
  destruct (michael_block_spec L R (le32 a b c e) HL HR Hw) as (E & A1 & A2). cbn [mic_L mic_R].
  assert (EW : u32 (u32 (u32 (u32 (0 .| (a .<< (8 * 0))) .| (b .<< (8 * (0 + 1)))) .| (c .<< (8 * (0 + 1 + 1)))) .| (e .<< (8 * (0 + 1 + 1 + 1)))) = le32 a b c e).
  { change (8 * 0) with 0. change (8 * (0 + 1)) with 8. change (8 * (0 + 1 + 1)) with 16. change (8 * (0 + 1 + 1 + 1)) with 24.
    rewrite Z.lor_0_l, !Z.shiftl_mul_pow2, Z.mul_1_r by lia. unfold is_byte in *.
    rewrite (u32_small a), (Z.lor_comm a), lor_disjoint by lia.
    rewrite (u32_small (b * 2 ^ 8 + a)), (Z.lor_comm _ (c * _)), lor_disjoint by lia.
    rewrite (u32_small (c * 2 ^ 16 + _)), (Z.lor_comm _ (e * _)), lor_disjoint by lia.
    unfold le32, word in *. rewrite u32_small by lia. lia. }
  split.
  - rewrite <- EW in E. transitivity (let '(L', R') := michael_block L R
      (u32 (u32 (u32 (u32 (0 .| (a .<< (8 * 0))) .| (b .<< (8 * (0 + 1)))) .| (c .<< (8 * (0 + 1 + 1)))) .| (e .<< (8 * (0 + 1 + 1 + 1)))))
      in mk_mic k0 k1 L' R' 0 0); [reflexivity|]. rewrite E, EW. unfold with_lr. cbn [K0 K1]. set (s := michael_b _). clearbody s. by destruct s.
  - split_and!; [done..|exact A1|exact A2].
Qed.

Lemma append_words d m :
  aligned d -> bytes m -> (length m mod 4 = 0)%nat ->
  let s := michael_words (mic_L d, mic_R d) m in rtw_secmicappend d m = with_lr d s /\ aligned (with_lr d s).
Proof.
  revert d. induction m as [m IH] using (induction_ltof1 _ (@length Z)). unfold ltof in IH. intros d A B E.
  destruct m as [|a [|b [|c [|e m]]]]; try discriminate E.
  - destruct d as [k0 k1 L R M n], A as (EM & En & HL & HR). cbn in *. by subst.
  - change (a :: b :: c :: e :: m) with ([a; b; c; e] ++ m) in *. apply Forall_app in B as [Bw Bm].
    destruct (append_word d a b c e A Bw) as [E1 A1]. cbn [app michael_words] in *. change (fst (mic_L d, mic_R d)) with (mic_L d).
    change (snd (mic_L d, mic_R d)) with (mic_R d). set (s := michael_b _) in *.
    assert (L4 : (length m mod 4 = 0)%nat).
    { cbn [length] in E. replace (S (S (S (S (length m))))) with (length m + 1 * 4)%nat in E by lia. by rewrite Nat.Div0.mod_add in E. }
    destruct (IH m ltac:(cbn; lia) (with_lr d s) A1 Bm L4) as [E2 A2]. cbn [with_lr mic_L mic_R] in E2, A2.
    rewrite <- surjective_pairing in E2, A2. unfold with_lr in *. cbn [K0 K1] in E2, A2.
    change (a :: b :: c :: e :: m) with ([a; b; c; e] ++ m). unfold rtw_secmicappend in *. rewrite foldl_app, E1, E2. split; [done|exact A2].
Qed.

Lemma append_count d b : 0 <= nBytesInM d < 4 -> nBytesInM (rtw_secmicappendbyte d b) = (nBytesInM d + 1) mod 4.
Proof.
  intros Hn. unfold rtw_secmicappendbyte. destruct (Z.leb_spec 4 (nBytesInM d + 1)).
  - replace (nBytesInM d + 1) with 4 by lia. by destruct (michael_block _ _ _).
  - cbn [nBytesInM]. by rewrite Z.mod_small by lia.
Qed.

Lemma append_counts d m :
  0 <= nBytesInM d < 4 -> nBytesInM (rtw_secmicappend d m) = (nBytesInM d + Z.of_nat (length m)) mod 4.
Proof.
  revert d. induction m as [|b m IH]; intros d Hn; unfold rtw_secmicappend in *; cbn [foldl length].
  - by rewrite Z.add_0_r, Z.mod_small.
  - rewrite IH; rewrite append_count by done; [|apply Z.mod_pos_bound; lia]. rewrite Zplus_mod_idemp_l. f_equal. lia.
Qed.

Lemma pad_loop_spec k fuel d :
  (k < fuel)%nat -> (k < 4)%nat -> nBytesInM d = (4 - Z.of_nat k) mod 4 -> pad_loop fuel d = Ok (rtw_secmicappend d (replicate k 0)).
Proof.
  revert fuel d. induction k as [|k IH]; intros fuel d F K E; (destruct fuel as [|fuel]; [lia|]); cbn [pad_loop].
  - by rewrite E.
  - rewrite Z.mod_small in E by lia. rewrite (proj2 (Z.eqb_neq _ _)) by lia. rewrite IH; [done|lia..|].
    rewrite append_count, E by lia. f_equal. lia.
Qed.

Lemma put_bytes v : secmicputuint32 v = le32_bytes v.
Proof.
  unfold secmicputuint32, le32_bytes. cbn [fmap list_fmap]. rewrite !land_255_u8, !Z.shiftr_div_pow2 by lia. unfold u8.
  change (8 * 0) with 0. change (8 * 1) with 8. change (8 * 2) with 16. change (8 * 3) with 24. by rewrite Z.div_1_r.
Qed.

Lemma get_word p : bytes p -> secmicgetuint32 p = le32_list p /\ word32 (le32_list p).
Proof.
  intros B. unfold secmicgetuint32, le32_list. cbn [foldl].
  assert (Hb := fun i => tbl_byte p i B). generalize (Hb 0), (Hb 1), (Hb 2), (Hb 3). generalize (tbl p 0), (tbl p 1), (tbl p 2), (tbl p 3).
  intros a b c d Ha Hb' Hc Hd. split; [|by apply le32_word32; repeat (apply Forall_cons; split; [done|]); constructor].
  change (8 * 0) with 0. change (8 * 1) with 8. change (8 * 2) with 16. change (8 * 3) with 24. clear Hb. unfold is_byte in *.
  rewrite Z.lor_0_l, !Z.shiftl_mul_pow2, Z.mul_1_r by lia.
  rewrite (u32_small a), (u32_small (b * _)), (Z.lor_comm a), lor_disjoint by lia.
  rewrite (u32_small (c * _)), (Z.lor_comm _ (c * _)), lor_disjoint by lia.
  rewrite (u32_small (d * _)), (Z.lor_comm _ (d * _)), lor_disjoint by lia. unfold le32, word. lia.
Qed.

Lemma pad_count n : (0 + Z.of_nat (n + 5)) mod 4 = (4 - Z.of_nat (3 - n mod 4)) mod 4.
Proof.
  assert (Hm := Nat.mod_upper_bound n 4 ltac:(lia)). assert (E := Nat2Z.inj_mod n 4). change (Z.of_nat 4) with 4 in E.
  rewrite Nat2Z.inj_sub, E, Nat2Z.inj_add by lia. change (Z.of_nat 3) with 3. change (Z.of_nat 5) with 5.
  generalize (Z.of_nat n). intros z. rewrite Z.add_0_l. Z.to_euclidean_division_equations. lia.
Qed.

Lemma pad_fills m : (length (m ++ michael_pad (length m)) mod 4 = 0)%nat.
Proof.
  rewrite length_app. unfold michael_pad. cbn [length]. rewrite length_replicate. assert (Hm := Nat.mod_upper_bound (length m) 4 ltac:(lia)).
  assert (E := Nat.div_mod_eq (length m) 4). set (q := (length m / 4)%nat) in *. set (r := (length m mod 4)%nat) in *.
  replace (length m + S (4 + (3 - r)))%nat with ((2 + q) * 4)%nat by lia. apply Nat.Div0.mod_mul.
Qed.

Lemma pad_bytes n : bytes (michael_pad n).
Proof. constructor; [by unfold is_byte|]. by apply Forall_replicate. Qed.

Lemma append_app d a b : rtw_secmicappend (rtw_secmicappend d a) b = rtw_secmicappend d (a ++ b).
Proof. unfold rtw_secmicappend. by rewrite foldl_app. Qed.

Lemma secgetmic_spec d m :
  aligned d -> bytes m ->
  let s := michael_words (mic_L d, mic_R d) (m ++ michael_pad (length m)) in
  rtw_secgetmic (rtw_secmicappend d m) = Ok (le32_bytes s.1 ++ le32_bytes s.2, secmicclear d).
Proof.
  intros A B s. unfold rtw_secgetmic. fold (rtw_secmicappend (rtw_secmicappend d m) [0x5a; 0; 0; 0; 0]). rewrite append_app.
  assert (En : nBytesInM d = 0) by apply A. rewrite (pad_loop_spec (3 - length m mod 4)); [|lia..|].
  2: { rewrite append_counts, En, length_app by lia. apply pad_count. }
  rewrite append_app, <- app_assoc. change ([0x5a; 0; 0; 0; 0] ++ replicate (3 - length m mod 4) 0) with (michael_pad (length m)).
  cbn [mbind res_bind]. destruct (append_words d (m ++ michael_pad (length m)) A) as [E _]; [apply Forall_app; split; [done|apply pad_bytes]|apply pad_fills|].
  rewrite E. fold s. by rewrite !put_bytes.
Qed.

(** ** Frames *)

Lemma setkey_spec key :
  bytes key -> let d := rtw_secmicsetkey key in aligned d /\ mic_L d = le32_list key /\ mic_R d = le32_list (drop 4 key).
Proof.
  intros B. destruct (get_word key B) as [E1 W1]. destruct (get_word (drop 4 key)) as [E2 W2]; [by apply Forall_drop|].
  unfold rtw_secmicsetkey, secmicclear, aligned. cbn [K0 K1 mic_L mic_R mic_M nBytesInM]. rewrite E1, E2. auto.
Qed.

(** The destination and the source of a frame with these addresses, by the two bits of the
    direction. *)
Definition mic_header (fc1 : Z) (a1 a2 a3 a4 : list Z) (pri : Z) : list Z :=
  let to_ds := Z.testbit fc1 0 in let from_ds := Z.testbit fc1 1 in
  (if to_ds then a3 else a1) ++ (if from_ds then if to_ds then a4 else a3 else a2) ++ [pri; 0; 0; 0].

(** The header of a frame; the fourth address is in it or is what follows. *)
Definition wlan_hdr (fc0 fc1 : Z) (dur a1 a2 a3 seq a4 : list Z) : list Z := fc0 :: fc1 :: dur ++ a1 ++ a2 ++ a3 ++ seq ++ a4.

Lemma append_header_spec d at_ pre post fc0 fc1 dur a1 a2 a3 seq a4 pri :
  at_ = Z.of_nat (length pre) -> length dur = 2%nat -> length seq = 2%nat -> Forall (fun a => length a = 6%nat) [a1; a2; a3; a4] ->
  append_header d (pre ++ wlan_hdr fc0 fc1 dur a1 a2 a3 seq a4 ++ post) at_ pri = Ok (rtw_secmicappend d (mic_header fc1 a1 a2 a3 a4 pri)).
Proof.
  intros -> Ld Ls La. rewrite !Forall_cons in La. destruct La as (L1 & L2 & L3 & L4 & _).
  unfold append_header, mic_header, wlan_hdr. set (buf := pre ++ _).
  assert (A1 : load (Z.of_nat (length pre) + 4) 6 buf = Ok a1).
  { replace buf with ((pre ++ fc0 :: fc1 :: dur) ++ a1 ++ (a2 ++ a3 ++ seq ++ a4 ++ post)) by (unfold buf; by flat_app).
    apply load_at; rewrite ?length_app; cbn [length]; lia. }
  assert (A2 : load (Z.of_nat (length pre) + 10) 6 buf = Ok a2).
  { replace buf with ((pre ++ fc0 :: fc1 :: dur ++ a1) ++ a2 ++ (a3 ++ seq ++ a4 ++ post)) by (unfold buf; by flat_app).
    apply load_at; repeat (rewrite ?length_app; cbn [length]); lia. }
  assert (A3 : load (Z.of_nat (length pre) + 16) 6 buf = Ok a3).
  { replace buf with ((pre ++ fc0 :: fc1 :: dur ++ a1 ++ a2) ++ a3 ++ (seq ++ a4 ++ post)) by (unfold buf; by flat_app).
    apply load_at; repeat (rewrite ?length_app; cbn [length]); lia. }
  assert (A4 : load (Z.of_nat (length pre) + 24) 6 buf = Ok a4).
  { replace buf with ((pre ++ fc0 :: fc1 :: dur ++ a1 ++ a2 ++ a3 ++ seq) ++ a4 ++ post) by (unfold buf; by flat_app).
    apply load_at; repeat (rewrite ?length_app; cbn [length]); lia. }
  replace (byte_at buf (Z.of_nat (length pre) + 1)) with (Ok fc1).
  2: { symmetry. replace buf with ((pre ++ [fc0]) ++ fc1 :: (dur ++ a1 ++ a2 ++ a3 ++ seq ++ a4 ++ post)) by (unfold buf; by flat_app).
    apply byte_at_app. rewrite length_app. cbn [length]. lia. }
  cbn [mbind res_bind]. change (fc1 .& 1) with (fc1 .& 2 ^ 0). change (fc1 .& 2) with (fc1 .& 2 ^ 1). rewrite !land_bit by lia.
  destruct (Z.testbit fc1 0), (Z.testbit fc1 1); rewrite ?A1, ?A3; cbn [mbind res_bind]; rewrite ?A2, ?A3, ?A4; cbn [mbind res_bind];
    by rewrite !append_app.
Qed.

Lemma mic_header_bytes fc1 a1 a2 a3 a4 pri : is_byte pri -> Forall bytes [a1; a2; a3; a4] -> bytes (mic_header fc1 a1 a2 a3 a4 pri).
Proof.
  intros Hp B. rewrite !Forall_cons in B. destruct B as (B1 & B2 & B3 & B4 & _). unfold mic_header.
  repeat (apply Forall_app; split); [by destruct (Z.testbit fc1 0)|by destruct (Z.testbit fc1 1), (Z.testbit fc1 0)|].
  repeat (apply Forall_cons; split; [done|]). constructor.
Qed.

Lemma seccalctkipmic_spec key pre post fc0 fc1 dur a1 a2 a3 seq a4 pri data :
  bytes key -> bytes data -> is_byte pri -> length dur = 2%nat -> length seq = 2%nat ->
  Forall (fun a => length a = 6%nat) [a1; a2; a3; a4] -> Forall bytes [a1; a2; a3; a4] ->
  rtw_seccalctkipmic key (pre ++ wlan_hdr fc0 fc1 dur a1 a2 a3 seq a4 ++ post) (Z.of_nat (length pre)) data pri =
  Ok (michael key (mic_header fc1 a1 a2 a3 a4 pri ++ data)).
Proof.
  intros Bk Bd Hp Ld Ls La Ba. unfold rtw_seccalctkipmic. rewrite append_header_spec by done. cbn [mbind res_bind].
  destruct (setkey_spec key Bk) as (A & EL & ER). rewrite append_app, secgetmic_spec; [|done|].
  - cbn [mbind res_bind fst]. unfold michael. rewrite EL, ER. set (s := michael_words _ _). clearbody s. by destruct s.
  - apply Forall_app; split; [by apply mic_header_bytes|done].
Qed.

Lemma michael_length key m : length (michael key m) = 8%nat.
Proof. unfold michael. by destruct (michael_words _ _). Qed.

(** C21: The integrity code that the driver computes for a frame, byte by byte and with its
    padding loop, is Michael of the standard on the addresses of destination and source, the
    priority and the data; for every direction of the frame, and with the rotations and the
    exchange of bytes as they are written there. *)
Theorem michael_correct key pre post fc0 fc1 dur a1 a2 a3 seq a4 pri data :
  bytes key -> bytes data -> is_byte pri -> length dur = 2%nat -> length seq = 2%nat ->
  Forall (fun a => length a = 6%nat) [a1; a2; a3; a4] -> Forall bytes [a1; a2; a3; a4] ->
  rtw_seccalctkipmic key (pre ++ wlan_hdr fc0 fc1 dur a1 a2 a3 seq a4 ++ post) (Z.of_nat (length pre)) data pri =
  Ok (michael key (mic_header fc1 a1 a2 a3 a4 pri ++ data)).
Proof. apply seccalctkipmic_spec. Qed.

(** * The key mixing is injective *)

Definition word16 (x : Z) : Prop := 0 <= x < 65536.

Lemma u16_add_inj x y f : word16 x -> word16 y -> u16 (x + f) = u16 (y + f) -> x = y.
Proof.
  unfold word16, u16. intros Hx Hy E. rewrite <- (Z.mod_small x (2 ^ 16)), <- (Z.mod_small y (2 ^ 16)) by lia.
  replace x with ((x + f) - f) by lia. replace y with ((y + f) - f) by lia. by rewrite Zminus_mod, E, <- Zminus_mod.
Qed.

(** From an equation between sums with the same second part, the first parts. *)
Ltac cancel E := apply u16_add_inj in E; [|solve [assumption | apply u16_range]..].

Definition words5 (p : p1k_t) : Prop :=
  let '(p0, p1, p2, p3, p4) := p in word16 p0 /\ word16 p1 /\ word16 p2 /\ word16 p3 /\ word16 p4.

Lemma phase1_round_inj tk i p q : words5 p -> words5 q -> phase1_round tk p i = phase1_round tk q i -> p = q.
Proof.
  destruct p as [[[[p0 p1] p2] p3] p4], q as [[[[q0 q1] q2] q3] q4]. cbn [words5].
  intros (? & ? & ? & ? & ?) (? & ? & ? & ? & ?) E. unfold phase1_round in E. injection E as E0 E1 E2 E3 E4.
  rewrite E3 in E4. cancel E4. cancel E4. subst q4. rewrite E2 in E3. cancel E3. rewrite E1 in E2. cancel E2.
  rewrite E0 in E1. cancel E1. cancel E0. by subst.
Qed.

Lemma phase1_round_words tk i p : words5 (phase1_round tk p i).
Proof. destruct p as [[[[p0 p1] p2] p3] p4]. cbn [words5 phase1_round]. split_and!; apply u16_range. Qed.

Lemma phase1_rounds_inj tk rs p q :
  words5 p -> words5 q -> foldl (phase1_round tk) p rs = foldl (phase1_round tk) q rs -> p = q.
Proof.
  revert p q. induction rs as [|i rs IH]; intros p q Hp Hq E; [done|]. cbn [foldl] in E.
  apply (phase1_round_inj tk i); [done..|]. apply IH; [apply phase1_round_words..|exact E].
Qed.

Lemma phase1_rounds_words tk rs p : words5 p -> words5 (foldl (phase1_round tk) p rs).
Proof. revert p. induction rs as [|i rs IH]; intros p Hp; [done|]. cbn [foldl]. apply IH, phase1_round_words. Qed.

Lemma ppk_mix_inj tk p q iv iv' :
  words5 p -> words5 q -> word16 iv -> word16 iv' -> ppk_mix tk p iv = ppk_mix tk q iv' -> p = q /\ iv = iv'.
Proof.
  destruct p as [[[[p0 p1] p2] p3] p4], q as [[[[q0 q1] q2] q3] q4]. cbn [words5].
  intros (? & ? & ? & ? & ?) (? & ? & ? & ? & ?) Hv Hv' E. unfold ppk_mix in E. injection E as E0 E1 E2 E3 E4 E5.
  rewrite E4 in E5. cancel E5. rewrite E3 in E4. cancel E4. rewrite E2 in E3. cancel E3. rewrite E1 in E2. cancel E2.
  rewrite E0 in E1. cancel E1. rewrite E5 in E0. cancel E0.
  rewrite E4 in E5. cancel E5. rewrite E3 in E4. cancel E4. rewrite E2 in E3. cancel E3. rewrite E1 in E2. cancel E2.
  rewrite E0 in E1. cancel E1. rewrite E5 in E0. cancel E0. subst.
  rewrite !(Z.add_comm q4) in E5. cancel E5. by subst.
Qed.

Lemma Lo_Hi_inj x y : word16 x -> word16 y -> Lo8 x = Lo8 y -> Hi8 x = Hi8 y -> x = y.
Proof.
  unfold Lo8, Hi8, word16. rewrite !land_255_u8, !Z.shiftr_div_pow2 by lia. rewrite !(u8_small (u8 _)) by apply u8_range. unfold u8.
  change (2 ^ 8) with 256. intros Hx Hy E1 E2. Z.to_euclidean_division_equations. lia.
Qed.

Lemma Mk16_pair h l : is_byte h -> is_byte l -> Mk16 h l = h * 256 + l.
Proof. intros Hh Hl. apply Z.eqb_eq. revert h l Hh Hl. apply (byte_cases2 (fun h l => Mk16 h l =? h * 256 + l)). vm_compute. reflexivity. Qed.

Lemma Mk16_inj h l h' l' : is_byte h -> is_byte l -> is_byte h' -> is_byte l' -> Mk16 h l = Mk16 h' l' -> h = h' /\ l = l'.
Proof. intros Hh Hl Hh' Hl'. rewrite !Mk16_pair by done. unfold is_byte in *. lia. Qed.

Lemma words_inj iv iv' : word32 iv -> word32 iv' -> Lo16 iv = Lo16 iv' -> Hi16 iv = Hi16 iv' -> iv = iv'.
Proof.
  unfold Lo16, Hi16, word32. change 0xFFFF with (Z.ones 16). rewrite !Z.land_ones, !Z.shiftr_div_pow2 by lia. unfold u16.
  rewrite !Z.mod_mod by lia. change (2 ^ 16) with 65536. intros Hx Hy E1 E2. Z.to_euclidean_division_equations. lia.
Qed.

Lemma phase2_inj tk p q iv iv' :
  words5 p -> words5 q -> word16 iv -> word16 iv' ->
  drop 4 (phase2 tk p iv) = drop 4 (phase2 tk q iv') -> p = q /\ iv = iv'.
Proof.
  intros Hp Hq Hv Hv' E. apply (ppk_mix_inj tk); [done..|]. revert E. unfold phase2.
  destruct (ppk_mix tk p iv) as [[[[[a0 a1] a2] a3] a4] a5] eqn:Ep, (ppk_mix tk q iv') as [[[[[b0 b1] b2] b3] b4] b5] eqn:Eq.
  destruct p as [[[[p0 p1] p2] p3] p4], q as [[[[q0 q1] q2] q3] q4]. unfold ppk_mix in Ep, Eq.
  injection Ep as <- <- <- <- <- <-. injection Eq as <- <- <- <- <- <-. cbn [drop]. intros E. injection E as L0 H0 L1 H1 L2 H2 L3 H3 L4 H4 L5 H5.
  f_equal; [f_equal; [f_equal; [f_equal; [f_equal|]|]|]|]; apply Lo_Hi_inj; (assumption || apply u16_range).
Qed.

Lemma phase1_inj tk ta ta' iv iv' :
  length ta = 6%nat -> length ta' = 6%nat -> bytes ta -> bytes ta' -> word32 iv -> word32 iv' ->
  phase1 tk ta iv = phase1 tk ta' iv' -> ta = ta' /\ iv = iv'.
Proof.
  intros L L' B B' Hv Hv' E. destruct ta as [|a0 [|a1 [|a2 [|a3 [|a4 [|a5 [|? ?]]]]]]]; try discriminate L.
  destruct ta' as [|b0 [|b1 [|b2 [|b3 [|b4 [|b5 [|? ?]]]]]]]; try discriminate L'. clear L L'. rewrite !Forall_cons in B, B'. dand.
  assert (Hw : forall a b, is_byte a -> is_byte b -> word16 (Mk16 a b)) by (intros; rewrite Mk16_pair by done; unfold word16, is_byte in *; lia).
  unfold phase1 in E. apply phase1_rounds_inj in E; [|cbn [words5]; split_and!; (apply u16_range || by apply Hw)..].
  unfold tbl in E. cbn [Z.to_nat Pos.to_nat Pos.iter_op Nat.add lookup list_lookup default id] in E.
  injection E as E1 E2 E3 E4 E5. apply Mk16_inj in E3 as [-> ->], E4 as [-> ->], E5 as [-> ->]; try done.
  split; [done|]. by apply words_inj.
Qed.

Lemma phase1_words tk ta iv : length ta = 6%nat -> bytes ta -> words5 (phase1 tk ta iv).
Proof.
  intros L B. apply phase1_rounds_words. cbn [words5]. assert (Hb := fun i => tbl_byte ta i B).
  assert (Hw : forall i j, word16 (Mk16 (tbl ta i) (tbl ta j))) by (intros; rewrite Mk16_pair by done; pose proof (Hb i); pose proof (Hb j); unfold word16, is_byte in *; lia).
  split_and!; (apply u16_range || apply Hw).
Qed.

(** The claim of the comment above the second phase: for a given temporal key, the key
    of a frame, and of it the twelve bytes after the first four, determines the
    transmitter's address and the packet number. No two frames of transmitters that share a
    temporal key are encrypted with the same RC4 key until the packet number wraps. *)
Theorem tkip_keys_unique tk ta ta' iv32 iv32' iv16 iv16' :
  length ta = 6%nat -> length ta' = 6%nat -> bytes ta -> bytes ta' -> word32 iv32 -> word32 iv32' -> word16 iv16 -> word16 iv16' ->
  drop 4 (phase2 tk (phase1 tk ta iv32) iv16) = drop 4 (phase2 tk (phase1 tk ta' iv32') iv16') ->
  ta = ta' /\ iv32 = iv32' /\ iv16 = iv16'.
Proof.
  intros L L' B B' Hv Hv' Hi Hi' E. apply phase2_inj in E as [E ->]; [|by apply phase1_words..|done|done].
  apply phase1_inj in E as [-> ->]; done.
Qed.

(** * Packet numbers *)

Lemma TSC_byte v k : is_byte (TSC v k).
Proof. apply low_byte. Qed.

Lemma TSC_bit v k n : 0 <= k -> 0 <= n -> Z.testbit (TSC v k) n = (n <? 8) && Z.testbit v (n + 8 * k).
Proof.
  intros Hk Hn. unfold TSC. change 0xff with (Z.ones 8). rewrite Z.land_spec, Z.shiftr_spec, Z.testbit_ones_nonneg by lia. apply andb_comm.
Qed.

Lemma GET_TKIP_IV val keyidx : GET_TKIP_PN (TKIP_IV val keyidx).1 = (TKIP_IV val keyidx).2 mod 2 ^ 48.
Proof.
  unfold TKIP_IV. set (v := if _ =? _ then _ else _). cbn [fst snd].
  change (GET_TKIP_PN _) with (TSC v 0 .| (TSC v 1 .<< 8) .| (TSC v 2 .<< 16) .| (TSC v 3 .<< 24) .| (TSC v 4 .<< 32) .| (TSC v 5 .<< 40)).
  apply Z.bits_inj'. intros n Hn. rewrite !Z.lor_spec, !Z.shiftl_spec by lia.
  assert (G : forall k, 0 <= k -> Z.testbit (TSC v k) (n - 8 * k) = bool_decide (8 * k <= n < 8 * k + 8) && Z.testbit v n).
  { intros k Hk. destruct (Z.ltb_spec (n - 8 * k) 0).
    - rewrite Z.testbit_neg_r by lia. by rewrite bool_decide_false by lia.
    - rewrite TSC_bit by lia. replace (n - 8 * k + 8 * k) with n by lia. f_equal. apply eq_true_iff_eq. rewrite Z.ltb_lt, bool_decide_eq_true. lia. }
  pose proof (G 0 ltac:(lia)) as G0. replace (n - 8 * 0) with n in G0 by lia. rewrite G0.
  pose proof (G 1 ltac:(lia)) as G1. pose proof (G 2 ltac:(lia)) as G2. pose proof (G 3 ltac:(lia)) as G3.
  pose proof (G 4 ltac:(lia)) as G4. pose proof (G 5 ltac:(lia)) as G5.
  change (8 * 1) with 8 in G1. change (8 * 2) with 16 in G2. change (8 * 3) with 24 in G3. change (8 * 4) with 32 in G4. change (8 * 5) with 40 in G5.
  rewrite G1, G2, G3, G4, G5.
  rewrite <- !andb_orb_distrib_l. destruct (Z.ltb_spec n 48).
  - rewrite Z.mod_pow2_bits_low by lia. replace (_ || _ || _ || _ || _ || _) with true; [done|].
    symmetry. rewrite !orb_true_iff, !bool_decide_eq_true. lia.
  - rewrite Z.mod_pow2_bits_high by lia. rewrite !bool_decide_false by lia. done.
Qed.

(** * Frames *)

Lemma tkip_rc4key_spec tk ta pre iv post :
  length iv = 8%nat -> tkip_rc4key tk ta (pre ++ iv ++ post) (Z.of_nat (length pre)) = Ok (tkip_key tk ta iv).
Proof. intros L. unfold tkip_rc4key. rewrite load_at by lia. reflexivity. Qed.

(** What decides the key of a received frame. *)
Definition rx_key (s : security_priv) (uncst ra : list Z) (key_index : Z) : list Z := if IS_MCAST ra then group_key s key_index else uncst.

(** The decryption of any frame: the data under the key stream of its vector, accepted
    exactly if it ends in its own check value. *)
Lemma tkip_decrypt_any s uncst ra ta key_index A hdr iv data B :
  IS_MCAST ra && negb (binstallGrpkey s) = false -> length iv = 8%nat -> (4 <= length data)%nat ->
  let plain := rc4 (tkip_key (rx_key s uncst ra key_index) ta iv) data in
  rtw_tkip_decrypt true s (Some uncst) ra ta key_index (Z.of_nat (length hdr)) 8 (Z.of_nat (length (hdr ++ iv ++ data)))
    (Z.of_nat (length A)) (A ++ (hdr ++ iv ++ data) ++ B) =
  Ok (A ++ (hdr ++ iv ++ plain) ++ B, bool_decide (drop (length data - 4) plain = icv (take (length data - 4) plain))).
Proof.
  intros Hg Li Ld plain. unfold rtw_tkip_decrypt. rewrite Hg. fold (rx_key s uncst ra key_index).
  replace (A ++ (hdr ++ iv ++ data) ++ B) with ((A ++ hdr) ++ iv ++ (data ++ B)) by (by flat_app).
  replace (Z.of_nat (length A) + Z.of_nat (length hdr)) with (Z.of_nat (length (A ++ hdr))) by (rewrite length_app; lia).
  rewrite tkip_rc4key_spec by done. cbn [mbind res_bind]. rewrite (app_assoc (A ++ hdr) iv), rc4_open_any by (rewrite !length_app; lia).
  cbn [mbind res_bind]. fold plain.
  assert (Lp : length plain = length data) by apply rc4_length.
  set (p := take (length data - 4) plain). set (t := drop (length data - 4) plain).
  assert (Et : plain = p ++ t) by (symmetry; apply take_drop).
  assert (Lt : length t = 4%nat) by (unfold t; rewrite length_drop; lia).
  assert (Lq : length p = (length data - 4)%nat) by (unfold p; rewrite length_take; lia).
  rewrite Et at 1. replace (((A ++ hdr) ++ iv) ++ (p ++ t) ++ B) with ((((A ++ hdr) ++ iv) ++ p) ++ t ++ B) by (by flat_app).
  rewrite same_at_app; [|rewrite !length_app, Lq; lia|done]. cbn [mbind res_bind]. rewrite Et. by flat_app.
Qed.

Lemma tkip_encrypt_spec s ra ta uncst a base pre fs post :
  iv_len a = 8 -> fs <> [] -> nr_frags a = Z.of_nat (length fs) -> length pre = 48%nat -> frags_ok a base TXDESC_OFFSET fs ->
  let tk := if IS_MCAST ra then group_key s (dot118021XGrpKeyid s) else uncst in
  rtw_tkip_encrypt true s ra ta uncst a base (pre ++ frags_bytes fs ++ post) =
    Ok (pre ++ concat (map (fun f => sealed (tkip_key tk ta) f ++ f_pad f) fs) ++ post).
Proof.
  intros Li N Nr Lp Hok tk. unfold rtw_tkip_encrypt. fold tk. replace TXDESC_OFFSET with (Z.of_nat (length pre)) in * by (rewrite Lp; done).
  apply seal_frags_spec; [|done|lia|done|lia]. intros p iv q L. apply tkip_rc4key_spec. lia.
Qed.

Lemma tkip_decrypt_sealed s uncst ra ta key_index tk f A B :
  rx_key s uncst ra key_index = tk -> IS_MCAST ra && negb (binstallGrpkey s) = false -> length (f_iv f) = 8%nat ->
  rtw_tkip_decrypt true s (Some uncst) ra ta key_index (Z.of_nat (length (f_hdr f))) 8
    (Z.of_nat (length (sealed (tkip_key tk ta) f))) (Z.of_nat (length A)) (A ++ sealed (tkip_key tk ta) f ++ B) =
  Ok (A ++ (f_hdr f ++ f_iv f ++ f_body f ++ icv (f_body f)) ++ B, true).
Proof.
  intros Ek Hg Lv. unfold sealed. set (m := f_body f ++ icv (f_body f)).
  assert (Lm : length m = (length (f_body f) + 4)%nat) by (unfold m; by rewrite length_app).
  rewrite tkip_decrypt_any by (done || (rewrite rc4_length, Lm; lia)). rewrite Ek, rc4_rc4, rc4_length, Lm, Nat.add_sub.
  rewrite bool_decide_true; [done|]. unfold m. by rewrite drop_app_len, take_app_len.
Qed.

(** TKIP encrypts every fragment of a frame in place, with the key of the vector in it;
    and a receiver with the same temporal key gets the body of each fragment back, followed
    by its check value, and accepts it. *)
Theorem tkip_roundtrip s ra ta uncst a base pre fs post :
  iv_len a = 8 -> fs <> [] -> nr_frags a = Z.of_nat (length fs) -> length pre = 48%nat -> frags_ok a base TXDESC_OFFSET fs ->
  let tk := if IS_MCAST ra then group_key s (dot118021XGrpKeyid s) else uncst in
  rtw_tkip_encrypt true s ra ta uncst a base (pre ++ frags_bytes fs ++ post) =
    Ok (pre ++ concat (map (fun f => sealed (tkip_key tk ta) f ++ f_pad f) fs) ++ post) /\
  forall s' ra' uncst' key_index f A B,
    rx_key s' uncst' ra' key_index = tk -> IS_MCAST ra' && negb (binstallGrpkey s') = false -> length (f_iv f) = 8%nat ->
    rtw_tkip_decrypt true s' (Some uncst') ra' ta key_index (Z.of_nat (length (f_hdr f))) 8
      (Z.of_nat (length (sealed (tkip_key tk ta) f))) (Z.of_nat (length A)) (A ++ sealed (tkip_key tk ta) f ++ B) =
    Ok (A ++ (f_hdr f ++ f_iv f ++ f_body f ++ icv (f_body f)) ++ B, true).
Proof. intros. split; [by apply tkip_encrypt_spec|]. intros. by apply tkip_decrypt_sealed. Qed.

(** C30: A frame is only accepted with the check value of its content: whatever the data, the
    receiver reports success exactly if the data, decrypted, ends in the CRC-32 of what
    precedes it, and it fails without the sender's station or the group key. *)
Theorem tkip_accepts s uncst ra ta key_index hdr iv data A B :
  length iv = 8%nat -> (4 <= length data)%nat ->
  let dec sta := rtw_tkip_decrypt true s sta ra ta key_index (Z.of_nat (length hdr)) 8 (Z.of_nat (length (hdr ++ iv ++ data)))
    (Z.of_nat (length A)) (A ++ (hdr ++ iv ++ data) ++ B) in
  (exists buf, dec (Some uncst) = Ok (buf, true)) <->
  (IS_MCAST ra = true -> binstallGrpkey s = true) /\
  exists body, rc4 (tkip_key (rx_key s uncst ra key_index) ta iv) data = body ++ icv body.
Proof.
  intros Li Ld dec. unfold dec. destruct (IS_MCAST ra && negb (binstallGrpkey s)) eqn:Hg.
  - unfold rtw_tkip_decrypt at 1. rewrite Hg. apply andb_true_iff in Hg as [-> Hg]. apply negb_true_iff in Hg. rewrite Hg.
    split; [by intros (? & ?)|]. intros [H _]. by specialize (H eq_refl).
  - rewrite tkip_decrypt_any by done. set (plain := rc4 _ data). assert (Lp : length plain = length data) by apply rc4_length.
    assert (Hg' : IS_MCAST ra = true -> binstallGrpkey s = true) by (intros E; rewrite E in Hg; by destruct (binstallGrpkey s)).
    split.
    + intros (buf & E). split; [done|]. injection E as _ E. apply bool_decide_eq_true in E. exists (take (length data - 4) plain).
      rewrite <- E. symmetry. apply take_drop.
    + intros (_ & body & E). eexists. do 2 f_equal. apply bool_decide_eq_true.
      assert (Lb : length body = (length data - 4)%nat) by (rewrite <- Lp, E, length_app; cbn; lia).
      by rewrite E, <- Lb, take_app_len, drop_app_len.
Qed.

(** * Examples *)

(** The vectors of the standard: both phases, and Michael of nothing and of "M". *)
Example phase1_vector : phase1 (seqZ 0 16) [0x10; 0x22; 0x33; 0x44; 0x55; 0x66] 0 = (0x3DD2, 0x016E, 0x76F4, 0x8697, 0xB2E8).
Proof. vm_compute. reflexivity. Qed.

Example phase2_vector :
  phase2 (seqZ 0 16) (0x3DD2, 0x016E, 0x76F4, 0x8697, 0xB2E8) 0 =
  [0x00; 0x20; 0x00; 0x33; 0xEA; 0x8D; 0x2F; 0x60; 0xCA; 0x6D; 0x13; 0x74; 0x23; 0x4A; 0x66; 0x0B].
Proof. vm_compute. reflexivity. Qed.

Example michael_vectors :
  michael (replicate 8 0) [] = [0x82; 0x92; 0x5c; 0x1c; 0xa1; 0xd1; 0x30; 0xb8] /\
  michael [0x82; 0x92; 0x5c; 0x1c; 0xa1; 0xd1; 0x30; 0xb8] [0x4d] = [0x43; 0x47; 0x21; 0xca; 0x40; 0x63; 0x9b; 0x3f].
Proof. split; vm_compute; reflexivity. Qed.

Lemma michael_correct_witness :
  rtw_seccalctkipmic (replicate 8 0) ([9] ++ wlan_hdr 8 1 [0; 0] (replicate 6 1) (replicate 6 2) (replicate 6 3) [0; 0] (replicate 6 4) ++ []) 1 [1; 2; 3] 5 =
  Ok (michael (replicate 8 0) (replicate 6 3 ++ replicate 6 2 ++ [5; 0; 0; 0] ++ [1; 2; 3])).
Proof.
  exact (michael_correct (replicate 8 0) [9] [] 8 1 [0; 0] (replicate 6 1) (replicate 6 2) (replicate 6 3) [0; 0] (replicate 6 4) 5 [1; 2; 3]
    ltac:(apply (bool_decide_eq_true_1 _); reflexivity) ltac:(apply (bool_decide_eq_true_1 _); reflexivity) ltac:(by unfold is_byte)
    eq_refl eq_refl ltac:(repeat constructor) ltac:(apply (bool_decide_eq_true_1 _); reflexivity)).
Defined.

Lemma tkip_keys_unique_witness : [1; 2; 3; 4; 5; 6] = [1; 2; 3; 4; 5; 6] /\ 7 = 7 /\ 9 = 9.
Proof.
  apply (tkip_keys_unique (seqZ 0 16) [1; 2; 3; 4; 5; 6] [1; 2; 3; 4; 5; 6] 7 7 9 9);
    try done; apply (bool_decide_eq_true_1 _); reflexivity.
Defined.

Definition sample_tkip : list frag := [mk_frag [1; 2] [0; 32; 7; 32; 0; 0; 0; 0] [10; 11; 12] [0; 0; 0; 0] []].
Definition sample_sec : security_priv := mk_security [] 0 false.

Lemma tkip_roundtrip_witness :
  exists buf, rtw_tkip_encrypt true sample_sec [2; 0; 0; 0; 0; 0] [2; 0; 0; 0; 0; 1] (seqZ 0 16) (mk_pkt_attrib 2 8 4 1 17 0) 0
    (replicate 48 0 ++ frags_bytes sample_tkip ++ []) = Ok buf /\ length buf = 65%nat.
Proof.
  destruct (tkip_roundtrip sample_sec [2; 0; 0; 0; 0; 0] [2; 0; 0; 0; 0; 1] (seqZ 0 16) (mk_pkt_attrib 2 8 4 1 17 0) 0 (replicate 48 0) sample_tkip [])
    as [E _]; [done..| |].
  - cbn. split_and!; done.
  - eexists. split; [exact E|]. vm_compute. reflexivity.
Defined.

Lemma tkip_accepts_witness :
  (exists buf, rtw_tkip_decrypt true sample_sec (Some (seqZ 0 16)) [2; 0; 0; 0; 0; 0] [2; 0; 0; 0; 0; 1] 0 2 8 14 0
     ([] ++ ([1; 2] ++ [0; 32; 7; 32; 0; 0; 0; 0] ++ [1; 2; 3; 4]) ++ []) = Ok (buf, true)) <->
  (false = true -> false = true) /\
  exists body, rc4 (tkip_key (seqZ 0 16) [2; 0; 0; 0; 0; 1] [0; 32; 7; 32; 0; 0; 0; 0]) [1; 2; 3; 4] = body ++ icv body.
Proof.
  exact (tkip_accepts sample_sec (seqZ 0 16) [2; 0; 0; 0; 0; 0] [2; 0; 0; 0; 0; 1] 0 [1; 2] [0; 32; 7; 32; 0; 0; 0; 0] [1; 2; 3; 4] [] []
    eq_refl (le_n 4)).
Defined.
