(* ===== verification/WifiFrag.v ===== *)
(** Fragments in the receive path of the Wi-Fi driver ([core/rtw_recv.c]): the packet number
    and duplicate checks, the queues of fragments of the stations, their reassembly, and the
    check of the integrity code of TKIP after it. *)

From Stdlib Require Import Sorted.
From stdpp Require Import fin_maps gmap.
From S2P Require Import Prelude Mem WifiTkip.

(** * Frames *)

(** The kinds of encryption that have packet numbers, and TKIP. *)
Definition _TKIP_ : Z := 2.
Definition _AES_ : Z := 4.
Definition _GCMP_ : Z := 7.
Definition _CCMP_256_ : Z := _AES_ .| 0x10.
Definition _GCMP_256_ : Z := _GCMP_ .| 0x10.

Record rx_attrib := mk_rx_attrib {
  rx_hdrlen : Z; rx_iv_len : Z; rx_icv_len : Z; rx_encrypt : Z; rx_privacy : bool; rx_bdecrypted : bool;
  rx_seq_num : Z; rx_frag_num : Z; rx_mfrag : bool; rx_qos : bool; rx_priority : Z; rx_key_index : Z; rx_ra : list Z; rx_ta : list Z }.

(** A frame with its buffer: the pointers are offsets from [rx_head], and [rx_end] is the
    length of the buffer. [rx_id] tells frames apart. *)
Record rx_frame := mk_rx_frame {
  rx_id : nat; keytrack : Z; attrib : rx_attrib; rx_len : Z; rx_data : Z; rx_tail : Z; rx_buf : list Z }.

Definition rx_end (f : rx_frame) : Z := Z.of_nat (length (rx_buf f)).

Definition with_keytrack (k : Z) (f : rx_frame) : rx_frame :=
  mk_rx_frame (rx_id f) k (attrib f) (rx_len f) (rx_data f) (rx_tail f) (rx_buf f).
Definition with_buf (b : list Z) (f : rx_frame) : rx_frame :=
  mk_rx_frame (rx_id f) (keytrack f) (attrib f) (rx_len f) (rx_data f) (rx_tail f) b.
Definition with_icv_len (n : Z) (f : rx_frame) : rx_frame :=
  let a := attrib f in
  mk_rx_frame (rx_id f) (keytrack f)
    (mk_rx_attrib (rx_hdrlen a) (rx_iv_len a) n (rx_encrypt a) (rx_privacy a) (rx_bdecrypted a) (rx_seq_num a) (rx_frag_num a) (rx_mfrag a)
      (rx_qos a) (rx_priority a) (rx_key_index a) (rx_ra a) (rx_ta a))
    (rx_len f) (rx_data f) (rx_tail f) (rx_buf f).

(** The pointers are moved back if they leave their bounds; the null result of that is not
    looked at by any caller here. *)
Definition recvframe_pull (sz : Z) (f : rx_frame) : rx_frame :=
  if rx_tail f <? rx_data f + sz then f
  else mk_rx_frame (rx_id f) (keytrack f) (attrib f) (u32 (rx_len f - sz)) (rx_data f + sz) (rx_tail f) (rx_buf f).
Definition recvframe_put (sz : Z) (f : rx_frame) : rx_frame :=
  if rx_end f <? rx_tail f + sz then f
  else mk_rx_frame (rx_id f) (keytrack f) (attrib f) (u32 (rx_len f + sz)) (rx_data f) (rx_tail f + sz) (rx_buf f).
Definition recvframe_pull_tail (sz : Z) (f : rx_frame) : rx_frame :=
  if rx_tail f - sz <? rx_data f then f
  else mk_rx_frame (rx_id f) (keytrack f) (attrib f) (u32 (rx_len f - sz)) (rx_data f) (rx_tail f - sz) (rx_buf f).

(** * Packet numbers and duplicates *)

Definition le64 (p : list Z) : Z := foldr (fun b v => b .| (v .<< 8)) 0 (take 8 p).
Definition CCMPH_2_PN (ch : Z) : Z := (ch .& 0x000000000000ffff) .| ((ch .& 0xffffffff00000000) .>> 16).
Definition CCMPH_2_KEYID (ch : Z) : Z := (ch .& 0x00000000c0000000) .>> 30.
Definition PN_LESS_CHK (a b : Z) : bool := truthy (u64 (a - b) .& 0x800000000000).
Definition VALID_PN_CHK (new old : Z) : bool := (old =? 0) || PN_LESS_CHK old new.

(** The caches: the vectors of the last frames of each traffic class, and the sequence
    controls of the last frames to one station and to many, with and without class. *)
Record sta_recv_priv := mk_recv_priv {
  rxcache_iv : list (list Z); last_tid : Z; tid_rxseq : list Z; bmc_tid_rxseq : list Z; nonqos_rxseq : Z; nonqos_bmc_rxseq : Z }.

Definition recv_ucast_pn_decache (f : rx_frame) (c : sta_recv_priv) : res (bool * sta_recv_priv) :=
  let tid := rx_priority (attrib f) in
  if 15 <? tid then Ok (false, c)
  else if rx_encrypt (attrib f) =? _AES_ then
    iv ← load (rx_data f + rx_hdrlen (attrib f)) 8 (rx_buf f);
    let pkt_pn := CCMPH_2_PN (le64 iv) in
    let curr_pn := CCMPH_2_PN (le64 (default [] (rxcache_iv c !! Z.to_nat tid))) in
    if negb (VALID_PN_CHK pkt_pn curr_pn) then Ok (true, c)
    else Ok (true, mk_recv_priv (<[Z.to_nat tid := iv]> (rxcache_iv c)) tid (tid_rxseq c) (bmc_tid_rxseq c) (nonqos_rxseq c) (nonqos_bmc_rxseq c))
  else Ok (true, c).

(** [iv_seq] has a packet number for each of the four keys. *)
Definition recv_bcast_pn_decache (station : bool) (f : rx_frame) (iv_seq : list Z) : res (bool * list Z) :=
  if (rx_encrypt (attrib f) =? _AES_) && station then
    iv ← load (rx_data f + rx_hdrlen (attrib f)) 8 (rx_buf f);
    let key_id := CCMPH_2_KEYID (le64 iv) in
    let pkt_pn := CCMPH_2_PN (le64 iv) in
    let curr_pn := tbl iv_seq key_id .& 0x0000ffffffffffff in
    if negb (VALID_PN_CHK pkt_pn curr_pn) then Ok (false, iv_seq) else Ok (true, <[Z.to_nat key_id := pkt_pn]> iv_seq)
  else Ok (true, iv_seq).

Definition recv_decache (f : rx_frame) (c : sta_recv_priv) : bool * sta_recv_priv :=
  let a := attrib f in
  let tid := rx_priority a in
  let seq_ctrl := u16 (((rx_seq_num a .& 0xffff) .<< 4) .| (rx_frag_num a .& 0xf)) in
  if 15 <? tid then (false, c)
  else
    let '(rxseq, set) :=
      if rx_qos a then
        if IS_MCAST (rx_ra a)
        then (tbl (bmc_tid_rxseq c) tid, fun v => mk_recv_priv (rxcache_iv c) (last_tid c) (tid_rxseq c) (<[Z.to_nat tid := v]> (bmc_tid_rxseq c)) (nonqos_rxseq c) (nonqos_bmc_rxseq c))
        else (tbl (tid_rxseq c) tid, fun v => mk_recv_priv (rxcache_iv c) (last_tid c) (<[Z.to_nat tid := v]> (tid_rxseq c)) (bmc_tid_rxseq c) (nonqos_rxseq c) (nonqos_bmc_rxseq c))
      else if IS_MCAST (rx_ra a)
        then (nonqos_bmc_rxseq c, fun v => mk_recv_priv (rxcache_iv c) (last_tid c) (tid_rxseq c) (bmc_tid_rxseq c) (nonqos_rxseq c) v)
        else (nonqos_rxseq c, fun v => mk_recv_priv (rxcache_iv c) (last_tid c) (tid_rxseq c) (bmc_tid_rxseq c) v (nonqos_bmc_rxseq c)) in
    if seq_ctrl =? rxseq then (false, c) else (true, set seq_ctrl).

(** * Reassembly *)

Definition has_pn (a : rx_attrib) : bool :=
  (rx_encrypt a =? _AES_) || (rx_encrypt a =? _CCMP_256_) || (rx_encrypt a =? _GCMP_) || (rx_encrypt a =? _GCMP_256_).

Definition frame_pn (f : rx_frame) : res Z :=
  iv ← load (rx_data f + rx_hdrlen (attrib f)) 8 (rx_buf f); Ok (CCMPH_2_PN (le64 iv)).

(** The packet number that a fragment after [cur_pn] leaves, if it may follow. *)
Definition next_pn (f : rx_frame) (cur_pn : Z) : res (option Z) :=
  if has_pn (attrib f) then
    pkt_pn ← frame_pn f;
    if negb (pkt_pn =? u64 (cur_pn + 1)) then Ok None else Ok (Some pkt_pn)
  else Ok (Some cur_pn).

(** The frames after [prframe], which is no longer in the queue of the fragments [q]. The
    result is the frame, if it is complete, and what has been freed, in order. *)
Fixpoint defrag_loop (q : list nat) (prframe : rx_frame) (cur_pn curfragnum : Z) (rest : list rx_frame) : res (option rx_frame * list nat) :=
  match rest with
  | [] => Ok (Some prframe, q)
  | pnf :: rest =>
      let drop_all := Ok (None, rx_id prframe :: q) in
      pn ← next_pn pnf cur_pn;
      match pn with
      | None => drop_all
      | Some cur_pn =>
          if negb (keytrack prframe =? keytrack pnf) then drop_all
          else if negb (curfragnum =? rx_frag_num (attrib pnf)) then drop_all
          else
            let wlanhdr_offset := u8 (rx_hdrlen (attrib pnf) + rx_iv_len (attrib pnf)) in
            let pnf := recvframe_pull wlanhdr_offset pnf in
            if rx_end prframe - rx_tail prframe <? rx_len pnf then drop_all
            else
              let prframe := recvframe_pull_tail (rx_icv_len (attrib prframe)) prframe in
              bs ← load (rx_data pnf) (rx_len pnf) (rx_buf pnf);
              buf ← store (rx_tail prframe) bs (rx_buf prframe);
              let prframe := recvframe_put (rx_len pnf) (with_buf buf prframe) in
              defrag_loop q (with_icv_len (rx_icv_len (attrib pnf)) prframe) cur_pn (u8 (curfragnum + 1)) rest
      end
  end.

(** An empty queue is read as if its head were a frame. *)
Definition recvframe_defrag (defrag_q : list rx_frame) : res (option rx_frame * list nat) :=
  match defrag_q with
  | [] => Fault
  | prframe :: rest =>
      cur_pn ← if has_pn (attrib prframe) then frame_pn prframe else Ok 0;
      if negb (0 =? rx_frag_num (attrib prframe)) then Ok (None, rx_id prframe :: map rx_id rest)
      else defrag_loop (map rx_id rest) prframe cur_pn 1 rest
  end.

(** * Stations and the integrity code *)

Record sta_info := mk_sta { sta_keytrack : Z; defrag_q : list rx_frame; dot11tkiprxmickey : list Z }.

(** The table of stations by address; the keys; the queue of free frames, of which only the
    order in which frames come back is kept; and how often a wrong code has been reported. *)
Record rx_state := mk_rx_state {
  stas : gmap (list Z) sta_info; rx_grpkey : bool; bcheck_grpkey : bool; dot118021XGrprxmickey : list (list Z); mlme_key_index : Z;
  free_recv : list nat; mic_errors : list (list Z * bool) }.

Definition with_stas (m : gmap (list Z) sta_info) (s : rx_state) : rx_state :=
  mk_rx_state m (rx_grpkey s) (bcheck_grpkey s) (dot118021XGrprxmickey s) (mlme_key_index s) (free_recv s) (mic_errors s).
Definition rtw_free_recvframe (ids : list nat) (s : rx_state) : rx_state :=
  mk_rx_state (stas s) (rx_grpkey s) (bcheck_grpkey s) (dot118021XGrprxmickey s) (mlme_key_index s) (free_recv s ++ ids) (mic_errors s).
Definition set_bcheck (s : rx_state) : rx_state :=
  mk_rx_state (stas s) (rx_grpkey s) true (dot118021XGrprxmickey s) (mlme_key_index s) (free_recv s) (mic_errors s).
Definition report_mic (ta : list Z) (bgroup : bool) (s : rx_state) : rx_state :=
  mk_rx_state (stas s) (rx_grpkey s) (bcheck_grpkey s) (dot118021XGrprxmickey s) (mlme_key_index s) (free_recv s) (mic_errors s ++ [(ta, bgroup)]).

Definition bc_addr : list Z := replicate 6 0xff.

(** The address whose entry of the table [rtw_get_stainfo] returns. *)
Definition sta_addr (hwaddr : list Z) : list Z := if IS_MCAST hwaddr then bc_addr else hwaddr.
Definition rtw_get_stainfo (s : rx_state) (hwaddr : list Z) : option sta_info := stas s !! sta_addr hwaddr.

(** The comparison of the code of the frame with the eight bytes behind its data. *)
Definition chkmic_compare (s : rx_state) (mickey : list Z) (f : rx_frame) : res (rx_state * bool) :=
  let a := attrib f in
  let payload := rx_data f + rx_hdrlen a + rx_iv_len a in
  let datalen := u32 (rx_len f - rx_hdrlen a - rx_iv_len a - rx_icv_len a - 8) in
  data ← load payload datalen (rx_buf f);
  miccode ← rtw_seccalctkipmic mickey (rx_buf f) (rx_data f) data (rx_priority a);
  same ← same_at (rx_buf f) (payload + datalen) miccode;
  if negb same then
    let brpt_micerror := negb (IS_MCAST (rx_ra a) && negb (rx_key_index a =? mlme_key_index s)) in
    Ok (if rx_bdecrypted a && brpt_micerror then report_mic (rx_ta a) (IS_MCAST (rx_ra a)) s else s, false)
  else Ok (if negb (bcheck_grpkey s) && IS_MCAST (rx_ra a) then set_bcheck s else s, true).

(** The third result is the frame without the code. *)
Definition recvframe_chkmic (s : rx_state) (f : rx_frame) : res (rx_state * bool * rx_frame) :=
  let a := attrib f in
  if rx_encrypt a =? _TKIP_ then
    match rtw_get_stainfo s (rx_ta a) with
    | None => Ok (s, true, recvframe_pull_tail 8 f)
    | Some sta =>
        if IS_MCAST (rx_ra a) && negb (rx_grpkey s) then Ok (s, false, f)
        else
          let mickey := if IS_MCAST (rx_ra a) then default [] (dot118021XGrprxmickey s !! Z.to_nat (rx_key_index a)) else dot11tkiprxmickey sta in
          r ← chkmic_compare s mickey f;
          Ok (r.1, r.2, recvframe_pull_tail 8 f)
    end
  else Ok (s, true, f).

(** Type bits of the frame control. *)
Definition WIFI_DATA_TYPE : Z := 8.
Definition GetFrameType (f : rx_frame) : res Z := b ← byte_at (rx_buf f) (rx_data f); Ok (b .& 0x0c).

(** The station whose queue takes the fragments of a frame: the sender, or for frames that
    are not data the station of all others. *)
Definition defrag_sta (s : rx_state) (f : rx_frame) : res (option (list Z * sta_info)) :=
  let ta := rx_ta (attrib f) in
  match rtw_get_stainfo s ta with
  | Some sta => Ok (Some (sta_addr ta, sta))
  | None =>
      type ← GetFrameType f;
      if negb (type =? WIFI_DATA_TYPE) then Ok (match rtw_get_stainfo s bc_addr with Some sta => Some (bc_addr, sta) | None => None end) else Ok None
  end.

Definition set_defrag_q (addr : list Z) (sta : sta_info) (q : list rx_frame) (s : rx_state) : rx_state :=
  with_stas (<[addr := mk_sta (sta_keytrack sta) q (dot11tkiprxmickey sta)]> (stas s)) s.

(** A fragment that is put into its queue, and what the last one completes. *)
Definition queue_fragment (s : rx_state) (f : rx_frame) (target : option (list Z * sta_info)) : res (rx_state * option rx_frame) :=
  match target with
  | None => Ok (rtw_free_recvframe [rx_id f] s, None)
  | Some (addr, sta) =>
      if rx_mfrag (attrib f) then
        if rx_frag_num (attrib f) =? 0
        then Ok (set_defrag_q addr sta [f] (rtw_free_recvframe (map rx_id (defrag_q sta)) s), None)
        else Ok (set_defrag_q addr sta (defrag_q sta ++ [f]) s, None)
      else
        r ← recvframe_defrag (defrag_q sta ++ [f]);
        let '(prtnframe, freed) := r in
        Ok (rtw_free_recvframe freed (set_defrag_q addr sta [] s), prtnframe)
  end.

Definition finish_frame (s : rx_state) (prtnframe : option rx_frame) : res (rx_state * option rx_frame) :=
  match prtnframe with
  | None => Ok (s, None)
  | Some f =>
      if rx_privacy (attrib f) then
        r ← recvframe_chkmic s f;
        let '(s, ok, f) := r in
        if negb ok then Ok (rtw_free_recvframe [rx_id f] s, None) else Ok (s, Some f)
      else Ok (s, Some f)
  end.

Definition recvframe_chk_defrag (s : rx_state) (f : rx_frame) : res (rx_state * option rx_frame) :=
  target ← defrag_sta s f;
  if negb (rx_mfrag (attrib f)) && (rx_frag_num (attrib f) =? 0) then finish_frame s (Some f)
  else if IS_MCAST (rx_ra (attrib f)) then Ok (rtw_free_recvframe [rx_id f] s, None)
  else
    let f := match target with Some (_, sta) => with_keytrack (sta_keytrack sta) f | None => f end in
    r ← queue_fragment s f target;
    let '(s, prtnframe) := r in finish_frame s prtnframe.

(** * No frame is lost *)

Definition option_ids (o : option rx_frame) : list nat := match o with Some f => [rx_id f] | None => [] end.

(** The frames that the stations hold. *)
Definition queued (s : rx_state) : list nat := concat (map (fun p => map rx_id (defrag_q p.2)) (map_to_list (stas s))).

Lemma pull_id sz f : rx_id (recvframe_pull sz f) = rx_id f.
Proof. unfold recvframe_pull. by case_match. Qed.
Lemma pull_attrib sz f : attrib (recvframe_pull sz f) = attrib f.
Proof. unfold recvframe_pull. by case_match. Qed.
Lemma put_kt sz f : keytrack (recvframe_put sz f) = keytrack f.
Proof. unfold recvframe_put. by case_match. Qed.
Lemma pull_tail_kt sz f : keytrack (recvframe_pull_tail sz f) = keytrack f.
Proof. unfold recvframe_pull_tail. by case_match. Qed.
Lemma put_id sz f : rx_id (recvframe_put sz f) = rx_id f.
Proof. unfold recvframe_put. by case_match. Qed.
Lemma pull_tail_id sz f : rx_id (recvframe_pull_tail sz f) = rx_id f.
Proof. unfold recvframe_pull_tail. by case_match. Qed.

Create Rewrite HintDb rx_id.
#[export] Hint Rewrite pull_id put_id pull_tail_id : rx_id.

Lemma bind_Ok {A B} (r : res A) (f : A -> res B) b : (r ≫= f) = Ok b -> exists a, r = Ok a /\ f a = Ok b.
Proof. destruct r as [| | |a]; try discriminate. eauto. Qed.

Lemma defrag_loop_ids q pr pn n rest out freed :
  defrag_loop q pr pn n rest = Ok (out, freed) -> option_ids out ++ freed = rx_id pr :: q.
Proof.
  revert pr pn n. induction rest as [|f rest IH]; intros pr pn n E; cbn [defrag_loop] in E; [by injection E as <- <-|].
  apply bind_Ok in E as (k & _ & E). destruct k as [pn'|]; [|by injection E as <- <-].
  destruct (negb (keytrack pr =? keytrack f)); [by injection E as <- <-|].
  destruct (negb (n =? rx_frag_num (attrib f))); [by injection E as <- <-|].
  destruct (_ <? _); [by injection E as <- <-|].
  apply bind_Ok in E as (bs & _ & E). apply bind_Ok in E as (buf & _ & E). apply IH in E. rewrite E.
  cbn [with_icv_len rx_id]. autorewrite with rx_id. cbn [with_buf rx_id]. by autorewrite with rx_id.
Qed.

Lemma defrag_ids q out freed : recvframe_defrag q = Ok (out, freed) -> option_ids out ++ freed = map rx_id q.
Proof.
  destruct q as [|pr rest]; [done|]. cbn [recvframe_defrag]. intros E. apply bind_Ok in E as (pn & _ & E).
  destruct (negb _); [by injection E as <- <-|]. by apply defrag_loop_ids in E.
Qed.

Lemma queued_set addr sta q s :
  stas s !! addr = Some sta ->
  exists R, queued s ≡ₚ map rx_id (defrag_q sta) ++ R /\ queued (set_defrag_q addr sta q s) ≡ₚ map rx_id q ++ R.
Proof.
  intros E. exists (concat (map (fun p => map rx_id (defrag_q p.2)) (map_to_list (delete addr (stas s))))). unfold queued. split.
  - rewrite <- (map_to_list_delete (stas s) addr sta E). done.
  - unfold set_defrag_q, with_stas. cbn [stas]. rewrite <- insert_delete_eq, map_to_list_insert by apply lookup_delete_eq. done.
Qed.

Lemma defrag_sta_in s f addr sta : defrag_sta s f = Ok (Some (addr, sta)) -> stas s !! addr = Some sta.
Proof.
  unfold defrag_sta, rtw_get_stainfo. destruct (stas s !! sta_addr (rx_ta (attrib f))) eqn:E.
  - intros H. injection H as <- <-. done.
  - intros H. apply bind_Ok in H as (t & _ & H). destruct (negb _); [|done].
    destruct (stas s !! sta_addr bc_addr) eqn:E2; [|done]. injection H as <- <-. exact E2.
Qed.

(** What a step keeps: every frame is in a queue, free, or handed on. *)
Definition ledger (s : rx_state) (extra : list nat) : list nat := queued s ++ free_recv s ++ extra.

Lemma chkmic_ledger s f s' ok f' extra : recvframe_chkmic s f = Ok (s', ok, f') -> ledger s' extra = ledger s extra /\ rx_id f' = rx_id f.
Proof.
  unfold recvframe_chkmic. intros E. destruct (_ =? _); [|by injection E as <- <- <-].
  destruct (rtw_get_stainfo s _) as [sta|]; [|injection E as <- <- <-; by autorewrite with rx_id].
  destruct (_ && _); [by injection E as <- <- <-|]. apply bind_Ok in E as ([s1 b] & E1 & E). cbn [fst snd] in E. injection E as <- <- <-.
  autorewrite with rx_id. split; [|done]. unfold chkmic_compare in E1. apply bind_Ok in E1 as (d & _ & E1). apply bind_Ok in E1 as (m & _ & E1).
  apply bind_Ok in E1 as (b' & _ & E1). destruct (negb b'); injection E1 as <- _; by case_match.
Qed.

Lemma finish_ledger s o s' out : finish_frame s o = Ok (s', out) -> ledger s' (option_ids out) ≡ₚ ledger s (option_ids o).
Proof.
  destruct o as [f|]; cbn [finish_frame]; [|by intros [= <- <-]]. destruct (rx_privacy _); [|by intros [= <- <-]].
  intros E. apply bind_Ok in E as ([[s1 ok] f1] & E1 & E). destruct ok; cbn [negb] in E; injection E as <- <-.
  - destruct (chkmic_ledger _ _ _ _ _ (option_ids (Some f1)) E1) as [-> Ei]. cbn [option_ids]. by rewrite Ei.
  - destruct (chkmic_ledger _ _ _ _ _ [] E1) as [El Ei]. cbn [option_ids]. rewrite <- Ei. unfold ledger in *. cbn [rtw_free_recvframe queued free_recv stas] in *.
    change (queued (rtw_free_recvframe [rx_id f1] s1)) with (queued s1). rewrite !app_nil_r in *. rewrite !app_assoc. by rewrite El.
Qed.

Lemma fragment_ledger s f target s' out :
  (forall addr sta, target = Some (addr, sta) -> stas s !! addr = Some sta) ->
  queue_fragment s f target = Ok (s', out) -> ledger s' (option_ids out) ≡ₚ ledger s [rx_id f].
Proof.
  intros Ht E. destruct target as [[addr sta]|]; cbn [queue_fragment] in E.
  2: { injection E as <- <-. unfold ledger. cbn. by rewrite app_nil_r. }
  specialize (Ht addr sta eq_refl). unfold ledger. destruct (rx_mfrag _).
  - destruct (_ =? _); injection E as <- <-; cbn [option_ids].
    + destruct (queued_set addr sta [f] (rtw_free_recvframe (map rx_id (defrag_q sta)) s) Ht) as (R & Q1 & Q2). rewrite Q2.
      change (queued (rtw_free_recvframe _ s)) with (queued s) in Q1. rewrite Q1. cbn. solve_Permutation.
    + destruct (queued_set addr sta (defrag_q sta ++ [f]) s Ht) as (R & Q1 & Q2). rewrite Q1, Q2, map_app. cbn. solve_Permutation.
  - apply bind_Ok in E as ([o freed] & Ed & E). injection E as <- <-. apply defrag_ids in Ed. rewrite map_app in Ed.
    destruct (queued_set addr sta [] s Ht) as (R & Q1 & Q2).
    change (queued (rtw_free_recvframe freed ?x)) with (queued x). rewrite Q2. cbn [rtw_free_recvframe set_defrag_q with_stas free_recv map app].
    rewrite Q1. transitivity (R ++ free_recv s ++ option_ids o ++ freed); [solve_Permutation|]. rewrite Ed. cbn. solve_Permutation.
Qed.

(** The frames of a session in the order of their arrival, and what is handed on. *)
Fixpoint rx_run (s : rx_state) (fs : list rx_frame) : res (rx_state * list rx_frame) :=
  match fs with
  | [] => Ok (s, [])
  | f :: fs =>
      r ← recvframe_chk_defrag s f;
      r' ← rx_run r.1 fs;
      Ok (r'.1, match r.2 with Some g => g :: r'.2 | None => r'.2 end)
  end.

Lemma step_ledger s f s' out : recvframe_chk_defrag s f = Ok (s', out) -> ledger s' (option_ids out) ≡ₚ ledger s [rx_id f].
Proof.
  unfold recvframe_chk_defrag. intros E. apply bind_Ok in E as (target & Et & E).
  destruct (_ && _); [by apply finish_ledger in E|]. destruct (IS_MCAST _).
  - injection E as <- <-. unfold ledger. cbn. by rewrite app_nil_r.
  - apply bind_Ok in E as ([s1 o] & E1 & E). apply finish_ledger in E. rewrite E.
    apply fragment_ledger in E1; [rewrite E1; by destruct target as [[? ?]|]|]. intros addr sta ->. by apply defrag_sta_in in Et.
Qed.

(** C13: Frames are conserved. After any sequence of frames, with any fragments, every frame
    is once in the queue of a station, among the free frames, or handed on: none is lost,
    freed twice, or kept after it has been freed, on any of the ways by which fragments are
    dropped. *)
Theorem frames_conserved s fs s' out :
  rx_run s fs = Ok (s', out) -> NoDup (queued s ++ free_recv s ++ map rx_id fs) ->
  NoDup (queued s' ++ free_recv s' ++ map rx_id out) /\
  queued s' ++ free_recv s' ++ map rx_id out ≡ₚ queued s ++ free_recv s ++ map rx_id fs.
Proof.
  intros E N. cut (queued s' ++ free_recv s' ++ map rx_id out ≡ₚ queued s ++ free_recv s ++ map rx_id fs); [intros P; split; [by rewrite P|done]|].
  clear N. revert s s' out E. induction fs as [|f fs IH]; intros s s' out E; cbn [rx_run] in E; [by injection E as <- <-|].
  apply bind_Ok in E as ([s1 o] & E1 & E). apply bind_Ok in E as ([s2 os] & E2 & E). cbn [fst snd] in E, E2. injection E as <- <-.
  apply step_ledger in E1. apply IH in E2. unfold ledger in E1. cbn [map].
  transitivity (option_ids o ++ queued s2 ++ free_recv s2 ++ map rx_id os); [destruct o; cbn; solve_Permutation|].
  rewrite E2. transitivity ((queued s1 ++ free_recv s1 ++ option_ids o) ++ map rx_id fs); [solve_Permutation|]. rewrite E1. solve_Permutation.
Qed.

(** * Memory safety of the reassembly *)

(** The pointers are in order and the length is the distance between them. *)
Definition ptrs_ok (f : rx_frame) : Prop :=
  0 <= rx_data f <= rx_tail f /\ rx_tail f <= rx_end f < 4294967296 /\ rx_len f = rx_tail f - rx_data f.

(** A frame with a packet number holds its vector. Nothing else is said about what a frame
    contains. *)
Record frame_wf (f : rx_frame) : Prop := mk_frame_wf {
  wf_ptrs : ptrs_ok f;
  wf_lens : 0 <= rx_hdrlen (attrib f) /\ 0 <= rx_icv_len (attrib f);
  wf_iv : has_pn (attrib f) = true -> rx_hdrlen (attrib f) + 8 <= rx_len f }.

Lemma load_inside i n b : 0 <= i -> 0 <= n -> i + n <= Z.of_nat (length b) -> exists bs, load i n b = Ok bs /\ Z.of_nat (length bs) = n.
Proof.
  intros Hi Hn H. unfold load. rewrite !(proj2 (Z.leb_le _ _)) by lia. cbn [andb]. eexists. split; [done|].
  rewrite length_window by lia. lia.
Qed.

Lemma store_inside i bs b :
  0 <= i -> i + Z.of_nat (length bs) <= Z.of_nat (length b) -> exists b', store i bs b = Ok b' /\ length b' = length b.
Proof.
  intros Hi H. unfold store. rewrite !(proj2 (Z.leb_le _ _)) by lia. cbn [andb]. eexists. split; [done|]. apply length_blit. lia.
Qed.

Lemma frame_pn_safe f : frame_wf f -> has_pn (attrib f) = true -> exists v, frame_pn f = Ok v.
Proof.
  intros W E. destruct W as [(P1 & P2 & P3) Ls Iv]. specialize (Iv E). unfold frame_pn, rx_end in *.
  destruct (load_inside (rx_data f + rx_hdrlen (attrib f)) 8 (rx_buf f)) as (bs & -> & _); [lia..|]. cbn. eauto.
Qed.

Lemma next_pn_safe f pn : frame_wf f -> exists k, next_pn f pn = Ok k.
Proof.
  intros W. unfold next_pn. destruct (has_pn (attrib f)) eqn:E; [|eauto].
  destruct (frame_pn_safe f W E) as [v ->]. cbn. destruct (negb _); eauto.
Qed.

Lemma pull_ptrs sz f : ptrs_ok f -> 0 <= sz -> ptrs_ok (recvframe_pull sz f) /\ rx_end (recvframe_pull sz f) = rx_end f.
Proof.
  intros (P1 & P2 & P3) Hs. unfold recvframe_pull, ptrs_ok. destruct (Z.ltb_spec (rx_tail f) (rx_data f + sz)); [done|].
  unfold rx_end in *. cbn. rewrite u32_small by lia. lia.
Qed.

Lemma pull_tail_ptrs sz f :
  ptrs_ok f -> 0 <= sz -> let g := recvframe_pull_tail sz f in ptrs_ok g /\ rx_buf g = rx_buf f /\ rx_tail g <= rx_tail f.
Proof.
  intros (P1 & P2 & P3) Hs. unfold recvframe_pull_tail, ptrs_ok. destruct (Z.ltb_spec (rx_tail f - sz) (rx_data f)); [split_and!; (done || lia)|].
  unfold rx_end in *. cbn. rewrite u32_small by lia. split_and!; (done || lia).
Qed.

Lemma pull_len sz f : ptrs_ok f -> 0 <= sz -> rx_len (recvframe_pull sz f) <= rx_len f.
Proof.
  intros (P1 & P2 & P3) Hs. unfold recvframe_pull. destruct (Z.ltb_spec (rx_tail f) (rx_data f + sz)); [done|].
  cbn. rewrite u32_small by lia. lia.
Qed.

Lemma pull_tail_len sz f : ptrs_ok f -> 0 <= sz -> rx_len (recvframe_pull_tail sz f) <= rx_len f.
Proof.
  intros (P1 & P2 & P3) Hs. unfold recvframe_pull_tail. destruct (Z.ltb_spec (rx_tail f - sz) (rx_data f)); [done|].
  cbn. rewrite u32_small by lia. lia.
Qed.

Lemma put_ptrs sz f : ptrs_ok f -> 0 <= sz -> rx_tail f + sz <= rx_end f -> ptrs_ok (recvframe_put sz f).
Proof.
  intros (P1 & P2 & P3) Hs H. unfold recvframe_put, ptrs_ok. rewrite (proj2 (Z.ltb_ge _ _)) by lia.
  unfold rx_end in *. cbn. rewrite u32_small by lia. lia.
Qed.

Lemma defrag_loop_safe q pr pn n rest :
  ptrs_ok pr -> 0 <= rx_icv_len (attrib pr) -> Forall frame_wf rest ->
  exists out freed, defrag_loop q pr pn n rest = Ok (out, freed) /\ match out with Some g => ptrs_ok g | None => True end.
Proof.
  intros P Hi W. revert pr pn n P Hi. induction W as [|f rest Wf W IH]; intros pr pn n P Hi; cbn [defrag_loop]; [by do 2 eexists|].
  destruct (next_pn_safe f pn Wf) as [[pn'|] ->]; cbn [mbind res_bind]; [|by do 2 eexists].
  destruct (negb (keytrack pr =? keytrack f)); [by do 2 eexists|]. destruct (negb (n =? _)); [by do 2 eexists|].
  destruct (pull_ptrs (u8 (rx_hdrlen (attrib f) + rx_iv_len (attrib f))) f (wf_ptrs f Wf)) as [Pg _]; [pose proof (u8_range (rx_hdrlen (attrib f) + rx_iv_len (attrib f))); unfold is_byte in *; lia|].
  set (g := recvframe_pull _ f) in *. destruct (Z.ltb_spec (rx_end pr - rx_tail pr) (rx_len g)); [by do 2 eexists|].
  destruct (pull_tail_ptrs (rx_icv_len (attrib pr)) pr P Hi) as (Pp & Eb & Lt). set (p := recvframe_pull_tail _ pr) in *.
  destruct Pg as (G1 & G2 & G3). destruct P as (Q1 & Q2 & Q3). destruct Pp as (R1 & R2 & R3). unfold rx_end in *. rewrite Eb in *.
  destruct (load_inside (rx_data g) (rx_len g) (rx_buf g)) as (bs & -> & Lb); [lia..|]. cbn [mbind res_bind].
  destruct (store_inside (rx_tail p) bs (rx_buf pr)) as (buf & -> & Lbuf); [lia..|]. cbn [mbind res_bind].
  apply IH; [|cbn [with_icv_len attrib rx_icv_len]; unfold g; rewrite pull_attrib; apply (wf_lens f Wf)].
  apply (put_ptrs (rx_len g) (with_buf buf p)); unfold ptrs_ok, rx_end; cbn; lia.
Qed.

(** C35: The reassembly stays inside of its buffers. For frames with any contents and any
    lengths that the attributes claim, if only a protected frame holds its vector, nothing
    is read or written outside of a frame, the queue is emptied, and the frame that may
    result has its pointers in order. *)
Theorem defrag_safe q :
  q <> [] -> Forall frame_wf q ->
  exists out freed, recvframe_defrag q = Ok (out, freed) /\ option_ids out ++ freed = map rx_id q /\
    match out with Some g => ptrs_ok g | None => True end.
Proof.
  intros N W. destruct q as [|pr rest]; [done|]. apply Forall_cons in W as [Wp W].
  assert (exists out freed, recvframe_defrag (pr :: rest) = Ok (out, freed) /\ match out with Some g => ptrs_ok g | None => True end) as (out & freed & E & H).
  { cbn [recvframe_defrag]. assert (exists v, (if has_pn (attrib pr) then frame_pn pr else Ok 0) = Ok v) as [v ->].
    { destruct (has_pn (attrib pr)) eqn:Hp; [by apply frame_pn_safe|eauto]. }
    cbn [mbind res_bind]. destruct (negb _); [by do 2 eexists|]. by apply defrag_loop_safe; [apply wf_ptrs|apply wf_lens|]. }
  exists out, freed. split; [done|]. split; [by apply defrag_ids in E|done].
Qed.

(** * The reassembly joins the bodies *)

(** A fragment: its number, the key it was received under, its packet number if it has one;
    header with vector, body and check value. *)
Record fragment := mk_fragment { fr_num : Z; fr_kt : Z; fr_pn : option Z; fr_hdr : list Z; fr_body : list Z; fr_icv : list Z }.

Definition zlen (l : list Z) : Z := Z.of_nat (length l).

(** Where the parts of a frame are in its buffer. *)
Record layout (f : rx_frame) (pre hdr body icv room : list Z) : Prop := mk_layout {
  lay_buf : rx_buf f = pre ++ hdr ++ body ++ icv ++ room;
  lay_data : rx_data f = zlen pre;
  lay_tail : rx_tail f = zlen pre + zlen hdr + zlen body + zlen icv;
  lay_len : rx_len f = zlen hdr + zlen body + zlen icv;
  lay_icv : rx_icv_len (attrib f) = zlen icv;
  lay_size : rx_end f < 4294967296 }.

Record holds (f : rx_frame) (pre room : list Z) (g : fragment) : Prop := mk_holds {
  hold_layout : layout f pre (fr_hdr g) (fr_body g) (fr_icv g) room;
  hold_hdr : rx_hdrlen (attrib f) + rx_iv_len (attrib f) = zlen (fr_hdr g) /\ zlen (fr_hdr g) < 256;
  hold_num : rx_frag_num (attrib f) = fr_num g /\ 0 <= fr_num g < 16;
  hold_kt : keytrack f = fr_kt g;
  hold_pn : match fr_pn g with
            | Some p => has_pn (attrib f) = true /\ frame_pn f = Ok p /\ 0 <= p < 2 ^ 48
            | None => has_pn (attrib f) = false
            end }.

(** The fragments after one with packet number [pn] are numbered from [n] on, were received
    under the same key, and their packet numbers are consecutive. *)
Fixpoint follows (kt pn n : Z) (gs : list fragment) : bool :=
  match gs with
  | [] => true
  | g :: gs =>
      match fr_pn g with Some p => p =? pn + 1 | None => true end && (kt =? fr_kt g) && (n =? fr_num g) &&
      follows kt (default pn (fr_pn g)) (n + 1) gs
  end.

(** They fit into the room behind the first one, of which the last check value is overwritten
    by the next body; the code asks for room for the next one before it does that. *)
Fixpoint fits (room icv : Z) (gs : list fragment) : bool :=
  match gs with
  | [] => true
  | g :: gs =>
      let n := zlen (fr_body g) + zlen (fr_icv g) in
      (n <=? room) && fits (room + icv - n) (zlen (fr_icv g)) gs
  end.

Definition reassembles (room : list Z) (g : fragment) (gs : list fragment) : bool :=
  (0 =? fr_num g) && follows (fr_kt g) (default 0 (fr_pn g)) 1 gs && fits (zlen room) (zlen (fr_icv g)) gs.

Definition last_icv (icv : list Z) (gs : list fragment) : list Z := foldl (fun _ g => fr_icv g) icv gs.

(** The result of a whole frame, or of the part of it that is done. *)
Lemma pull_layout f pre hdr body icv room :
  layout f pre hdr body icv room -> let g := recvframe_pull (zlen hdr) f in
  rx_data g = zlen (pre ++ hdr) /\ rx_len g = zlen (body ++ icv) /\ load (rx_data g) (rx_len g) (rx_buf g) = Ok (body ++ icv).
Proof.
  intros [B D T Ln _ Sz]. unfold recvframe_pull. unfold rx_end in Sz. rewrite B in Sz. unfold zlen in *. rewrite !length_app in Sz.
  rewrite (proj2 (Z.ltb_ge _ _)) by lia. cbn. assert (E1 : rx_data f + Z.of_nat (length hdr) = Z.of_nat (length (pre ++ hdr))) by (rewrite length_app; lia).
  assert (E2 : u32 (rx_len f - Z.of_nat (length hdr)) = Z.of_nat (length (body ++ icv))) by (rewrite u32_small; rewrite ?length_app; lia).
  rewrite E1, E2, B. split_and!; [done..|].
  replace (pre ++ hdr ++ body ++ icv ++ room) with ((pre ++ hdr) ++ (body ++ icv) ++ room) by (by flat_app). apply load_app.
Qed.

Lemma append_layout f pre hdr body icv room body' icv' :
  layout f pre hdr body icv room -> zlen body' + zlen icv' <= zlen room ->
  let p := recvframe_pull_tail (rx_icv_len (attrib f)) f in
  exists buf room', store (rx_tail p) (body' ++ icv') (rx_buf p) = Ok buf /\
    layout (with_icv_len (zlen icv') (recvframe_put (zlen (body' ++ icv')) (with_buf buf p))) pre hdr (body ++ body') icv' room' /\
    zlen room' = zlen room + zlen icv - zlen body' - zlen icv'.
Proof.
  intros [B D T Ln I Sz] Hr. unfold rx_end in Sz. rewrite B in Sz. unfold zlen in *. rewrite !length_app in Sz.
  unfold recvframe_pull_tail. rewrite I, (proj2 (Z.ltb_ge _ _)) by lia. cbn [rx_tail rx_buf]. rewrite B.
  destruct (split_buffer (length (body' ++ icv')) (icv ++ room)) as (x & room' & Ex & Lx); [rewrite !length_app; lia|].
  assert (Lr := f_equal length Ex). rewrite !length_app in Lx. rewrite (length_app icv), (length_app x) in Lr.
  exists (pre ++ hdr ++ (body ++ body') ++ icv' ++ room'), room'. split_and!.
  - replace (pre ++ hdr ++ body ++ icv ++ room) with ((pre ++ hdr ++ body) ++ x ++ room') by (rewrite Ex; by flat_app).
    rewrite (store_at _ (body' ++ icv') (pre ++ hdr ++ body)) by (rewrite ?length_app; lia). by flat_app.
  - unfold recvframe_put, with_buf, rx_end. cbn [rx_tail rx_buf]. rewrite !length_app, (proj2 (Z.ltb_ge _ _)) by lia.
    split; cbn; unfold zlen, rx_end; cbn; rewrite ?length_app; try done; try lia.
    rewrite (u32_small (rx_len f - _)), u32_small by lia. lia.
  - lia.
Qed.

Lemma loop_refines q f pre hdr body icv room kt pn n rest gs :
  layout f pre hdr body icv room -> keytrack f = kt -> 0 <= pn < 2 ^ 48 -> 0 <= n <= 16 ->
  Forall2 (fun h g => exists pre room, holds h pre room g) rest gs ->
  if follows kt pn n gs && fits (zlen room) (zlen icv) gs
  then exists f' room', defrag_loop q f pn n rest = Ok (Some f', q) /\
         layout f' pre hdr (body ++ concat (map fr_body gs)) (last_icv icv gs) room' /\ rx_id f' = rx_id f
  else defrag_loop q f pn n rest = Ok (None, rx_id f :: q).
Proof.
  intros L K Hpn Hn F. revert f body icv room pn n L K Hpn Hn. induction F as [|h g rest gs (pre' & room' & Hh) F IH]; intros f body icv room pn n L K Hpn Hn.
  { cbn. exists f, room. rewrite app_nil_r. auto. }
  destruct Hh as [HL [Eh Lh] [En Rn] Ek Ep]. cbn [follows fits defrag_loop].
  assert (Epn : next_pn h pn = Ok (if match fr_pn g with Some p => p =? pn + 1 | None => true end then Some (default pn (fr_pn g)) else None)).
  { unfold next_pn. destruct (fr_pn g) as [p|]; [|by rewrite Ep]. destruct Ep as (-> & -> & Hp). cbn [mbind res_bind].
    rewrite u64_small by lia. by destruct (Z.eqb_spec p (pn + 1)). }
  rewrite Epn. cbn [mbind res_bind]. destruct (match fr_pn g with Some p => p =? pn + 1 | None => true end); cbn [andb]; [|done].
  rewrite K, Ek. destruct (kt =? fr_kt g) eqn:E2; cbn [andb negb]; [|done]. rewrite En. destruct (n =? fr_num g) eqn:E3; cbn [andb negb]; [|done].
  apply Z.eqb_eq in E2, E3. rewrite Eh, u8_small by (unfold is_byte; unfold zlen in *; lia).
  destruct (pull_layout _ _ _ _ _ _ HL) as (P1 & P2 & P3). set (h' := recvframe_pull _ h) in *.
  assert (Er : rx_end f - rx_tail f = zlen room).
  { destruct L as [B D T _ _ _]. unfold rx_end. rewrite T, B. unfold zlen. rewrite !length_app. lia. }
  rewrite Er, P2. assert (Eb : zlen (fr_body g ++ fr_icv g) = zlen (fr_body g) + zlen (fr_icv g)) by (unfold zlen; rewrite length_app; lia).
  destruct (Z.ltb_spec (zlen room) (zlen (fr_body g ++ fr_icv g))) as [Hr|Hr]; rewrite Eb in Hr.
  { rewrite (proj2 (Z.leb_gt _ _)) by lia. cbn [andb]. by rewrite andb_false_r. }
  rewrite (proj2 (Z.leb_le _ _)) by lia. cbn [andb]. rewrite P2 in P3. rewrite P3. cbn [mbind res_bind].
  destruct (append_layout f pre hdr body icv room (fr_body g) (fr_icv g) L Hr) as (buf & room2 & -> & L2 & Lr2). cbn [mbind res_bind].
  replace (rx_icv_len (attrib h')) with (zlen (fr_icv g)) by (unfold h'; rewrite pull_attrib; symmetry; apply (lay_icv _ _ _ _ _ _ HL)).
  rewrite (u8_small (n + 1)) by (unfold is_byte; lia).
  set (f2 := with_icv_len _ _) in *.
  assert (Hd : 0 <= default pn (fr_pn g) < 2 ^ 48) by (destruct (fr_pn g); [apply Ep|done]).
  assert (K2 : keytrack f2 = kt /\ rx_id f2 = rx_id f).
  { unfold f2. cbn [with_icv_len keytrack rx_id]. rewrite put_kt, put_id. cbn [with_buf keytrack rx_id]. by rewrite pull_tail_kt, pull_tail_id. }
  destruct K2 as [K2 I2].
  specialize (IH f2 (body ++ fr_body g) (fr_icv g) room2 (default pn (fr_pn g)) (n + 1) L2 K2 Hd ltac:(lia)).
  replace (zlen room2) with (zlen room + zlen icv - (zlen (fr_body g) + zlen (fr_icv g))) in IH by lia.
  rewrite I2 in IH. destruct (_ && _); [|exact IH]. destruct IH as (f' & room3 & E & L3 & I3). exists f', room3. split; [exact E|].
  split; [|done]. cbn [map concat]. by rewrite app_assoc.
Qed.

(** C8: The reassembly of a queue of fragments gives the header of the first one, the bodies
    of all in their order, and the check value of the last, exactly if the fragments are
    numbered from zero, were all received under one key, have consecutive packet numbers
    where they have any, and fit behind the first; otherwise every fragment is freed and
    there is no frame. *)
Theorem defrag_joins f pre room g rest gs :
  holds f pre room g -> Forall2 (fun h g => exists pre room, holds h pre room g) rest gs ->
  if reassembles room g gs
  then exists f' room', recvframe_defrag (f :: rest) = Ok (Some f', map rx_id rest) /\ rx_id f' = rx_id f /\
         layout f' pre (fr_hdr g) (fr_body g ++ concat (map fr_body gs)) (last_icv (fr_icv g) gs) room'
  else recvframe_defrag (f :: rest) = Ok (None, map rx_id (f :: rest)).
Proof.
  intros [L [Eh Lh] [En Rn] Ek Ep] F. unfold reassembles. cbn [recvframe_defrag].
  assert (Epn : (if has_pn (attrib f) then frame_pn f else Ok 0) = Ok (default 0 (fr_pn g)) /\ 0 <= default 0 (fr_pn g) < 2 ^ 48).
  { destruct (fr_pn g) as [p|]; [destruct Ep as (-> & -> & Hp); done|]. by rewrite Ep. }
  destruct Epn as [-> Hp]. cbn [mbind res_bind]. rewrite En. destruct (0 =? fr_num g); cbn [andb negb]; [|done].
  pose proof (loop_refines (map rx_id rest) f pre _ _ _ room _ _ 1 rest gs L Ek Hp ltac:(lia) F) as E.
  destruct (_ && _); [|exact E]. destruct E as (f' & room' & E & L' & I). eauto.
Qed.

(** * The integrity code of the whole frame *)

(** The key for the code of a frame from a known station, if it may be checked. *)
Definition mic_key (s : rx_state) (sta : sta_info) (a : rx_attrib) : list Z :=
  if IS_MCAST (rx_ra a) then default [] (dot118021XGrprxmickey s !! Z.to_nat (rx_key_index a)) else dot11tkiprxmickey sta.

(** What is recorded of the result: a first good frame of the group, or a wrong code, unless
    the frame was not decrypted or the key of the group has just changed. *)
Definition mic_result (s : rx_state) (a : rx_attrib) (good : bool) : rx_state :=
  if good then if negb (bcheck_grpkey s) && IS_MCAST (rx_ra a) then set_bcheck s else s
  else if rx_bdecrypted a && negb (IS_MCAST (rx_ra a) && negb (rx_key_index a =? mlme_key_index s))
       then report_mic (rx_ta a) (IS_MCAST (rx_ra a)) s else s.

Lemma chkmic_tkip s f sta :
  rx_encrypt (attrib f) = _TKIP_ -> rtw_get_stainfo s (rx_ta (attrib f)) = Some sta -> IS_MCAST (rx_ra (attrib f)) && negb (rx_grpkey s) = false ->
  recvframe_chkmic s f = (r ← chkmic_compare s (mic_key s sta (attrib f)) f; Ok (r.1, r.2, recvframe_pull_tail 8 f)).
Proof. intros Ee Es Hg. unfold recvframe_chkmic. rewrite Ee, Es, Hg. done. Qed.

Lemma chkmic_spec s f sta pre hdr data mic icv room fc0 fc1 dur a1 a2 a3 seq a4 more :
  layout f pre hdr (data ++ mic) icv room -> rx_hdrlen (attrib f) + rx_iv_len (attrib f) = zlen hdr ->
  hdr = wlan_hdr fc0 fc1 dur a1 a2 a3 seq a4 ++ more -> length mic = 8%nat ->
  length dur = 2%nat -> length seq = 2%nat -> Forall (fun a => length a = 6%nat) [a1; a2; a3; a4] -> Forall bytes [a1; a2; a3; a4] ->
  bytes data -> is_byte (rx_priority (attrib f)) ->
  rx_encrypt (attrib f) = _TKIP_ -> rtw_get_stainfo s (rx_ta (attrib f)) = Some sta -> IS_MCAST (rx_ra (attrib f)) && negb (rx_grpkey s) = false ->
  bytes (mic_key s sta (attrib f)) ->
  let good := bool_decide (mic = michael (mic_key s sta (attrib f)) (mic_header fc1 a1 a2 a3 a4 (rx_priority (attrib f)) ++ data)) in
  recvframe_chkmic s f = Ok (mic_result s (attrib f) good, good, recvframe_pull_tail 8 f).
Proof.
  intros [B D T Ln I Sz] Eh Ehdr Lm Ld Ls La Ba Bd Hp Ee Es Hg Bk good. rewrite (chkmic_tkip s f sta) by done.
  unfold chkmic_compare. cbv zeta. set (a := attrib f) in *.
  replace (rx_data f + rx_hdrlen a + rx_iv_len a) with (rx_data f + zlen hdr) by lia.
  assert (Lb : zlen (data ++ mic) = zlen data + 8) by (unfold zlen; rewrite length_app; lia).
  assert (Edl : u32 (rx_len f - rx_hdrlen a - rx_iv_len a - rx_icv_len a - 8) = zlen data).
  { unfold rx_end in Sz. rewrite B in Sz. unfold zlen in *. rewrite !length_app in Sz. rewrite u32_small; lia. }
  rewrite Edl, D, B.
  assert (E1 : load (zlen pre + zlen hdr) (zlen data) (pre ++ hdr ++ (data ++ mic) ++ icv ++ room) = Ok data).
  { replace (pre ++ hdr ++ (data ++ mic) ++ icv ++ room) with ((pre ++ hdr) ++ data ++ (mic ++ icv ++ room)) by (by flat_app).
    apply load_at; [unfold zlen; rewrite length_app; lia|done]. }
  rewrite E1. cbn [mbind res_bind].
  assert (E2 : rtw_seccalctkipmic (mic_key s sta a) (pre ++ hdr ++ (data ++ mic) ++ icv ++ room) (zlen pre) data (rx_priority a) =
    Ok (michael (mic_key s sta a) (mic_header fc1 a1 a2 a3 a4 (rx_priority a) ++ data))).
  { rewrite Ehdr. replace (pre ++ (wlan_hdr fc0 fc1 dur a1 a2 a3 seq a4 ++ more) ++ (data ++ mic) ++ icv ++ room) with
      (pre ++ wlan_hdr fc0 fc1 dur a1 a2 a3 seq a4 ++ (more ++ (data ++ mic) ++ icv ++ room)) by (by rewrite <- (app_assoc (wlan_hdr _ _ _ _ _ _ _ _))).
    by apply seccalctkipmic_spec. }
  rewrite E2. cbn [mbind res_bind]. fold a in good. set (m := michael _ _) in *.
  assert (E3 : same_at (pre ++ hdr ++ (data ++ mic) ++ icv ++ room) (zlen pre + zlen hdr + zlen data) m = Ok good).
  { replace (pre ++ hdr ++ (data ++ mic) ++ icv ++ room) with ((pre ++ hdr ++ data) ++ mic ++ (icv ++ room)) by (by flat_app).
    apply same_at_app; [unfold zlen; rewrite !length_app; lia|]. unfold m. by rewrite michael_length. }
  rewrite E3. cbn [mbind res_bind]. unfold mic_result. by destruct good.
Qed.

(** C31: A frame under TKIP passes exactly if the eight bytes behind its data are Michael of its
    addresses, its priority and its data, with the key of the sender or of the group; a
    wrong code is reported for the countermeasures. *)
Theorem chkmic_correct s f sta pre hdr data mic icv room fc0 fc1 dur a1 a2 a3 seq a4 more :
  layout f pre hdr (data ++ mic) icv room -> rx_hdrlen (attrib f) + rx_iv_len (attrib f) = zlen hdr ->
  hdr = wlan_hdr fc0 fc1 dur a1 a2 a3 seq a4 ++ more -> length mic = 8%nat ->
  length dur = 2%nat -> length seq = 2%nat -> Forall (fun a => length a = 6%nat) [a1; a2; a3; a4] -> Forall bytes [a1; a2; a3; a4] ->
  bytes data -> is_byte (rx_priority (attrib f)) ->
  rx_encrypt (attrib f) = _TKIP_ -> rtw_get_stainfo s (rx_ta (attrib f)) = Some sta -> IS_MCAST (rx_ra (attrib f)) && negb (rx_grpkey s) = false ->
  bytes (mic_key s sta (attrib f)) ->
  let good := bool_decide (mic = michael (mic_key s sta (attrib f)) (mic_header fc1 a1 a2 a3 a4 (rx_priority (attrib f)) ++ data)) in
  recvframe_chkmic s f = Ok (mic_result s (attrib f) good, good, recvframe_pull_tail 8 f).
Proof. apply chkmic_spec. Qed.

(** A frame under TKIP that is shorter than its header, vector, check value and code makes
    the length of its data wrap: the code is computed over bytes far behind the buffer. *)
Lemma chkmic_short_faults s f sta :
  rx_encrypt (attrib f) = _TKIP_ -> rtw_get_stainfo s (rx_ta (attrib f)) = Some sta -> IS_MCAST (rx_ra (attrib f)) && negb (rx_grpkey s) = false ->
  let short := rx_len f - rx_hdrlen (attrib f) - rx_iv_len (attrib f) - rx_icv_len (attrib f) - 8 in
  -1000 <= short < 0 -> 0 <= rx_data f + rx_hdrlen (attrib f) + rx_iv_len (attrib f) -> rx_end f < 4294960000 ->
  recvframe_chkmic s f = Fault.
Proof.
  intros Ee Es Hg short Hs Hp Hb. rewrite (chkmic_tkip s f sta) by done. unfold chkmic_compare. cbv zeta. fold short.
  replace (u32 short) with (short + 4294967296) by (unfold u32; change (2 ^ 32) with 4294967296; rewrite <- (Z.mod_add short 1), Z.mod_small by lia; lia).
  unfold load, rx_end in *. rewrite (proj2 (Z.leb_gt (_ + (short + 4294967296)) _)) by lia. by rewrite !andb_false_r.
Qed.

(** * Replay *)

Lemma PN_LESS a b : 0 <= a < 2 ^ 47 -> 0 <= b < 2 ^ 47 -> PN_LESS_CHK a b = (a <? b).
Proof.
  intros Ha Hb. unfold PN_LESS_CHK. change 0x800000000000 with (2 ^ 47). rewrite land_bit, Z.testbit_odd, Z.shiftr_div_pow2 by lia.
  destruct (Z.ltb_spec a b).
  - replace (u64 (a - b)) with (a - b + 2 ^ 64) by (unfold u64; rewrite <- (Z.mod_add (a - b) 1), Z.mod_small by lia; lia).
    replace (a - b + 2 ^ 64) with ((a - b + 2 ^ 47) + (2 ^ 17 - 1) * 2 ^ 47) by lia. rewrite Z.div_add, Z.div_small by lia. done.
  - rewrite u64_small, Z.div_small by lia. done.
Qed.

(** The number of a frame is below that of the last one only if the last one is zero or the
    two are half of the range apart. *)
Lemma VALID_PN new old : 0 <= new < 2 ^ 47 -> 0 <= old < 2 ^ 47 -> VALID_PN_CHK new old = (old =? 0) || (old <? new).
Proof. intros. unfold VALID_PN_CHK. by rewrite PN_LESS. Qed.

Lemma KEYID_range v : 0 <= CCMPH_2_KEYID v < 4.
Proof.
  unfold CCMPH_2_KEYID. replace ((v .& 0xc0000000) .>> 30) with ((v .>> 30) .& 3) by (rewrite Z.shiftr_land; done).
  change 3 with (Z.ones 2). rewrite Z.land_ones by lia. apply Z.mod_pos_bound. lia.
Qed.

(** The frames to many stations that are taken, with the key and the number of each. *)
Fixpoint bcast_run (fs : list rx_frame) (iv_seq : list Z) : res (list (Z * Z)) :=
  match fs with
  | [] => Ok []
  | f :: fs =>
      iv ← load (rx_data f + rx_hdrlen (attrib f)) 8 (rx_buf f);
      r ← recv_bcast_pn_decache true f iv_seq;
      out ← bcast_run fs (snd r);
      Ok (if (fst r : bool) then (CCMPH_2_KEYID (le64 iv), CCMPH_2_PN (le64 iv)) :: out else out)
  end.

Definition of_key (k : Z) (out : list (Z * Z)) : list Z := snd <$> filter (fun p : Z * Z => p.1 = k) out.

Lemma bcast_sorted fs iv_seq out k :
  bcast_run fs iv_seq = Ok out -> Forall (fun f => rx_encrypt (attrib f) = _AES_) fs -> length iv_seq = 4%nat ->
  Forall (fun v => 0 <= v < 2 ^ 47) iv_seq -> Forall (fun p : Z * Z => 0 < p.2 < 2 ^ 47) out -> 0 <= k < 4 ->
  Sorted Z.lt (tbl iv_seq k :: of_key k out).
Proof.
  intros E A. revert iv_seq out E. induction A as [|f fs Ef A IH]; intros iv_seq out E L V O Hk; cbn [bcast_run] in E.
  { injection E as <-. repeat constructor. }
  apply bind_Ok in E as (iv & El & E). apply bind_Ok in E as ([b iv'] & E1 & E). apply bind_Ok in E as (out' & E2 & E).
  unfold recv_bcast_pn_decache in E1. rewrite Ef, El in E1. cbn [mbind res_bind andb Z.eqb _AES_ Pos.eqb] in E1.
  set (kid := CCMPH_2_KEYID (le64 iv)) in *. set (pn := CCMPH_2_PN (le64 iv)) in *. assert (Hkid := KEYID_range (le64 iv)). fold kid in Hkid. clearbody kid pn.
  cbn [fst snd] in E, E2.
  assert (Hcur : forall i, 0 <= i < 4 -> 0 <= tbl iv_seq i < 2 ^ 47).
  { intros i Hi. unfold tbl. destruct (iv_seq !! Z.to_nat i) eqn:Ei; [|apply lookup_ge_None in Ei; lia]. rewrite Forall_lookup in V. by eapply V. }
  replace (tbl iv_seq kid .& 0x0000ffffffffffff) with (tbl iv_seq kid) in E1.
  2: { change 0x0000ffffffffffff with (Z.ones 48). rewrite Z.land_ones, Z.mod_small by (pose proof (Hcur kid Hkid); lia). done. }
  destruct (VALID_PN_CHK pn (tbl iv_seq kid)) eqn:Ev; cbn [negb] in E1; injection E1 as <- <-; injection E as <-; [|exact (IH _ _ E2 L V O Hk)].
  apply Forall_cons in O as [Hpn O]. cbn [snd] in Hpn. rewrite VALID_PN in Ev by (pose proof (Hcur kid Hkid); lia).
  assert (Lt : tbl iv_seq kid < pn) by (destruct (Z.eqb_spec (tbl iv_seq kid) 0); [lia|]; apply Z.ltb_lt; exact Ev).
  specialize (IH _ _ E2 ltac:(by rewrite length_insert) ltac:(apply Forall_insert; [done|lia]) O Hk).
  rewrite tbl_insert in IH by lia. unfold of_key in *. rewrite filter_cons. cbn [fst]. destruct (Z.eqb_spec kid k) as [->|N].
  - rewrite decide_True by done. cbn [fmap list_fmap snd]. constructor; [exact IH|]. constructor. exact Lt.
  - by rewrite decide_False by done.
Qed.


(** In the upper half a lower number is taken for a higher one, and the other way round. *)
Lemma pn_check_wraps : VALID_PN_CHK 1 (2 ^ 47 + 1) = true /\ VALID_PN_CHK (2 ^ 47 + 2) 1 = false /\ VALID_PN_CHK 5 0 = true.
Proof. vm_compute. done. Qed.

(** A frame to one station is taken with any number: the check only decides whether the
    vector is kept. *)
Lemma ucast_takes_any f c r c' : rx_priority (attrib f) <= 15 -> recv_ucast_pn_decache f c = Ok (r, c') -> r = true.
Proof.
  intros Ht E. unfold recv_ucast_pn_decache in E. rewrite (proj2 (Z.ltb_ge _ _)) in E by lia.
  destruct (_ =? _); [|by injection E]. apply bind_Ok in E as (iv & _ & E). destruct (negb _); by injection E.
Qed.

(** A repeated frame is dropped, and leaves the caches as they are. *)
Lemma decache_drops_repeated f c c' :
  length (bmc_tid_rxseq c) = 16%nat -> length (tid_rxseq c) = 16%nat -> 0 <= rx_priority (attrib f) ->
  recv_decache f c = (true, c') -> recv_decache f c' = (false, c').
Proof.
  intros L1 L2 Hp. unfold recv_decache. set (v := u16 _). destruct (Z.ltb_spec 15 (rx_priority (attrib f))); [done|].
  destruct (rx_qos _), (IS_MCAST _); (destruct (v =? _) eqn:E0; [done|]); intros E; injection E as <-; cbn;
    rewrite ?tbl_insert, ?Z.eqb_refl by lia; by rewrite ?Z.eqb_refl.
Qed.

(** * Examples *)

Definition sample_hdr : list Z := wlan_hdr 8 1 [0; 0] (replicate 6 2) (replicate 6 4) (replicate 6 6) [0; 0] [].
Definition sample_attrib (n : Z) (mfrag : bool) : rx_attrib :=
  mk_rx_attrib 24 0 0 0 false false 7 n mfrag false 0 0 (replicate 6 2) (replicate 6 4).
Definition sample_rx (id : nat) (n : Z) (mfrag : bool) (body : list Z) : rx_frame :=
  let len := 24 + zlen body in mk_rx_frame id 0 (sample_attrib n mfrag) len 0 len (sample_hdr ++ body ++ replicate 20 0).
Definition sample_frames : list rx_frame := [sample_rx 1 0 true [10; 11]; sample_rx 2 1 true [12]; sample_rx 3 2 false [13; 14]].
Definition sample_rx_state : rx_state := mk_rx_state {[replicate 6 4 := mk_sta 0 [] []]} false false [] 0 [9%nat] [].

Lemma frames_conserved_witness :
  exists s' out, rx_run sample_rx_state sample_frames = Ok (s', out) /\ NoDup (queued s' ++ free_recv s' ++ map rx_id out) /\
  map rx_id out = [1%nat] /\ map (fun f => load 24 5 (rx_buf f)) out = [Ok [10; 11; 12; 13; 14]].
Proof.
  destruct (rx_run sample_rx_state sample_frames) as [| | |[s' out]] eqn:E; [by vm_compute in E..|]. exists s', out.
  destruct (frames_conserved sample_rx_state sample_frames s' out E) as [N _]; [apply (bool_decide_eq_true_1 _); vm_compute; reflexivity|].
  split; [done|]. split; [exact N|]. vm_compute in E. injection E as <- <-. split; vm_compute; reflexivity.
Defined.

Lemma defrag_safe_witness :
  exists out freed, recvframe_defrag sample_frames = Ok (out, freed) /\ option_ids out ++ freed = [1; 2; 3]%nat.
Proof.
  destruct (defrag_safe sample_frames) as (out & freed & E & I & _); [done| |eauto].
  repeat (apply Forall_cons; split); try apply Forall_nil_2; (split; [unfold ptrs_ok; split_and!; vm_compute; done|split; vm_compute; done|done]).
Defined.

Definition sample_fragment (n : Z) (body : list Z) : fragment := mk_fragment n 0 None sample_hdr body [].

Lemma sample_holds id n mfrag body : 0 <= n < 16 -> zlen body < 100 -> holds (sample_rx id n mfrag body) [] (replicate 20 0) (sample_fragment n body).
Proof.
  intros Hn Hb. split; [|done..]. split; cbn; try done; unfold zlen, rx_end in *; cbn; rewrite ?length_app; cbn; lia.
Qed.

Lemma defrag_joins_witness :
  exists f' room', recvframe_defrag sample_frames = Ok (Some f', [2; 3]%nat) /\ rx_id f' = 1%nat /\
    layout f' [] sample_hdr [10; 11; 12; 13; 14] [] room'.
Proof.
  apply (defrag_joins (sample_rx 1 0 true [10; 11]) [] (replicate 20 0) (sample_fragment 0 [10; 11])
    [sample_rx 2 1 true [12]; sample_rx 3 2 false [13; 14]] [sample_fragment 1 [12]; sample_fragment 2 [13; 14]]).
  - by apply sample_holds.
  - repeat constructor; exists [], (replicate 20 0); by apply sample_holds.
Defined.

(** A frame under TKIP with the code [mic]. *)
Definition tkip_iv : list Z := [0; 32; 7; 32; 0; 0; 0; 0].
Definition tkip_rx (mic : list Z) : rx_frame :=
  mk_rx_frame 5 0 (mk_rx_attrib 24 8 4 _TKIP_ true true 7 0 false false 0 0 (replicate 6 2) (replicate 6 4)) 47 0 47
    (sample_hdr ++ tkip_iv ++ [10; 11; 12] ++ mic ++ [1; 2; 3; 4] ++ []).
Definition tkip_mic : list Z := michael (seqZ 0 8) (replicate 6 6 ++ replicate 6 4 ++ [0; 0; 0; 0] ++ [10; 11; 12]).
Definition tkip_state : rx_state := mk_rx_state {[replicate 6 4 := mk_sta 0 [] (seqZ 0 8)]} false false [] 0 [] [].

Lemma tkip_layout mic : length mic = 8%nat -> layout (tkip_rx mic) [] (sample_hdr ++ tkip_iv) ([10; 11; 12] ++ mic) [1; 2; 3; 4] [].
Proof. destruct mic as [|b0 [|b1 [|b2 [|b3 [|b4 [|b5 [|b6 [|b7 [|? ?]]]]]]]]]; done. Qed.

Lemma chkmic_correct_witness :
  recvframe_chkmic tkip_state (tkip_rx (replicate 8 0)) =
    Ok (report_mic (replicate 6 4) false tkip_state, false, recvframe_pull_tail 8 (tkip_rx (replicate 8 0))).
Proof.
  pose proof (chkmic_correct tkip_state (tkip_rx (replicate 8 0)) (mk_sta 0 [] (seqZ 0 8)) [] (sample_hdr ++ tkip_iv) [10; 11; 12] (replicate 8 0) [1; 2; 3; 4] []
    8 1 [0; 0] (replicate 6 2) (replicate 6 4) (replicate 6 6) [0; 0] [0; 32; 7; 32; 0; 0] [0; 0]
    (tkip_layout (replicate 8 0) eq_refl) eq_refl eq_refl eq_refl eq_refl eq_refl
    ltac:(repeat constructor) ltac:(apply (bool_decide_eq_true_1 _); reflexivity) ltac:(apply (bool_decide_eq_true_1 _); reflexivity)
    ltac:(by unfold is_byte; cbn) eq_refl eq_refl eq_refl ltac:(apply (bool_decide_eq_true_1 _); reflexivity)) as H. cbv zeta in H.
  rewrite bool_decide_false in H by (vm_compute; discriminate). exact H.
Defined.

(** A frame to all stations under the group key 1 with packet number [n]. *)
Definition bcast_rx (n : Z) : rx_frame :=
  mk_rx_frame 1 0 (mk_rx_attrib 0 8 8 _AES_ true true 7 0 false false 0 0 (replicate 6 255) (replicate 6 4)) 20 0 20
    ([n; 0; 0; 0x60; 0; 0; 0; 0] ++ replicate 12 0).


(** The right code passes. *)
Example chkmic_good :
  recvframe_chkmic tkip_state (tkip_rx tkip_mic) = Ok (tkip_state, true, recvframe_pull_tail 8 (tkip_rx tkip_mic)).
Proof. vm_compute. reflexivity. Qed.
