(* ===== verification/WifiXmit.v ===== *)
(** From a packet to frames in the transmit path of the Wi-Fi driver ([core/rtw_xmit.c]): the
    LLC header, the fragments of a packet, the integrity code of TKIP over them, and two
    packets in one A-MSDU. *)

From S2P Require Import Prelude Mem WifiWep WifiTkip WifiFrag.

(** * Headers *)

Definition SNAP_SIZE : Z := 6.
Definition P802_1H_OUI : list Z := [0x00; 0x00; 0xf8].
Definition RFC1042_OUI : list Z := [0x00; 0x00; 0x00].

(** [htons], as bytes. *)
Definition be16 (v : Z) : list Z := [u8 (v .>> 8); u8 v].

(** The eight bytes that [rtw_put_snap] writes, and its result. *)
Definition snap_hdr (h_proto : Z) : list Z :=
  [0xaa; 0xaa; 0x03] ++ (if (h_proto =? 0x8137) || (h_proto =? 0x80f3) then P802_1H_OUI else RFC1042_OUI) ++ be16 h_proto.
Definition rtw_put_snap (data h_proto : Z) (buf : list Z) : res (list Z * Z) :=
  buf ← store data (snap_hdr h_proto) buf; Ok (buf, SNAP_SIZE + 2).

(** The bit [_MORE_FRAG_] of the frame control is in its second byte. *)
Definition SetMFrag (pbuf : Z) (buf : list Z) : res (list Z) := b ← byte_at buf (pbuf + 1); store (pbuf + 1) [b .| 0x04] buf.
Definition ClearMFrag (pbuf : Z) (buf : list Z) : res (list Z) := b ← byte_at buf (pbuf + 1); store (pbuf + 1) [b .& 0xfb] buf.

(** * Fragments of a packet *)

(** The attributes of a packet that are not in [pkt_attrib]. *)
Record pkt_info := mk_pkt_info { p_iv : list Z; p_icv : list Z; ether_type : Z; bswenc : bool; bmcst : bool; pktlen : Z }.

Definition set_frags (n sz : Z) (a : pkt_attrib) : pkt_attrib := mk_pkt_attrib (hdrlen a) (iv_len a) (icv_len a) n sz (frag_len a).

(** The bytes of the packet that [_rtw_pktfile_read] copies, the length being unsigned. *)
Definition rtw_pktfile_read (rlen : Z) (file : list Z) : list Z * list Z :=
  let n := Z.to_nat (Z.min (u32 rlen) (Z.of_nat (length file))) in (take n file, drop n file).

(** One fragment at [mem_start]: its header is there; the result is where it ends, how much
    of the packet is in it, and the rest of the packet. *)
Definition put_fragment (t : pkt_info) (a : pkt_attrib) (frg_inx mem_start : Z) (file buf : list Z) : res (Z * Z * list Z * list Z) :=
  buf ← SetMFrag mem_start buf;
  let pframe := mem_start + hdrlen a in
  let mpdu_len := frag_len a - 4 - hdrlen a in
  buf ← (if truthy (iv_len a) then store pframe (take (Z.to_nat (iv_len a)) (p_iv t)) buf else Ok buf);
  let pframe := pframe + iv_len a in
  let mpdu_len := mpdu_len - iv_len a in
  r ← (if frg_inx =? 0 then rtw_put_snap pframe (ether_type t) buf else Ok (buf, 0));
  let '(buf, llc_sz) := r in
  let pframe := pframe + llc_sz in
  let mpdu_len := mpdu_len - llc_sz in
  let icv := (0 <? icv_len a) && bswenc t in
  let mpdu_len := if icv then mpdu_len - icv_len a else mpdu_len in
  let '(mem, file) := rtw_pktfile_read (if bmcst t then pktlen t else mpdu_len) file in
  buf ← store pframe mem buf;
  let mem_sz := Z.of_nat (length mem) in
  let pframe := pframe + mem_sz in
  if icv then buf ← store pframe (take (Z.to_nat (icv_len a)) (p_icv t)) buf; Ok (pframe + icv_len a, mem_sz, file, buf)
  else Ok (pframe, mem_sz, file, buf).

Fixpoint coalesce_loop (fuel : nat) (t : pkt_info) (a : pkt_attrib) (base frg_inx mem_start : Z) (file buf : list Z) : res (pkt_attrib * list Z) :=
  match fuel with
  | O => Diverge
  | S fuel =>
      r ← put_fragment t a frg_inx mem_start file buf;
      let '(pframe, mem_sz, file, buf) := r in
      let frg_inx := frg_inx + 1 in
      if bmcst t || bool_decide (file = []) then
        let sz := hdrlen a + iv_len a + (if frg_inx =? 1 then SNAP_SIZE + 2 else 0) + (if bswenc t then icv_len a else 0) + mem_sz in
        buf ← ClearMFrag mem_start buf; Ok (set_frags (u8 frg_inx) sz a, buf)
      else
        let mem_start := RND4 (base + pframe) - base + TXDESC_OFFSET in
        buf ← move mem_start TXDESC_OFFSET (hdrlen a) buf;
        coalesce_loop fuel t a base frg_inx mem_start file buf
  end.

(** The loop of [rtw_xmitframe_coalesce], with the header of the frame in the buffer already;
    [file] is the packet behind its own header. *)
Definition coalesce_frags (t : pkt_info) (a : pkt_attrib) (base : Z) (file buf : list Z) : res (pkt_attrib * list Z) :=
  coalesce_loop (S (length file)) t a base 0 TXDESC_OFFSET file buf.

(** * The integrity code *)

Fixpoint addmic_loop (fuel : nat) (sw : bool) (a : pkt_attrib) (base curfragnum payload : Z) (d : mic_data) (buf : list Z) : res (mic_data * Z) :=
  match fuel with
  | O => Diverge
  | S fuel =>
      if curfragnum <? nr_frags a then
        let payload := RND4 (base + payload) - base + hdrlen a + iv_len a in
        if curfragnum + 1 =? nr_frags a then
          let length := last_txcmdsz a - hdrlen a - iv_len a - (if sw then icv_len a else 0) in
          bs ← load payload length buf;
          addmic_loop fuel sw a base (curfragnum + 1) (payload + length) (rtw_secmicappend d bs) buf
        else
          let length := frag_len a - hdrlen a - iv_len a - (if sw then icv_len a else 0) in
          bs ← load payload length buf;
          addmic_loop fuel sw a base (curfragnum + 1) (payload + length + icv_len a) (rtw_secmicappend d bs) buf
      else Ok (d, payload)
  end.

(** [mickey] is the key of the group or of the pair, by [pattrib->ra]; a key of zeroes is no
    key. [pri] is zero without QoS. The second result is [_SUCCESS]. *)
Definition xmitframe_addmic (tkip sw : bool) (mickey : list Z) (pri : Z) (a : pkt_attrib) (base : Z) (buf : list Z) : res (pkt_attrib * list Z * bool) :=
  if tkip then
    if bool_decide (take 16 mickey = replicate 16 0) then Ok (a, buf, false)
    else
      d ← append_header (rtw_secmicsetkey mickey) buf TXDESC_OFFSET pri;
      r ← addmic_loop (S (Z.to_nat (nr_frags a))) sw a base 0 TXDESC_OFFSET d buf;
      let '(d, payload) := r in
      m ← rtw_secgetmic d;
      buf ← store payload m.1 buf;
      Ok (set_frags (nr_frags a) (last_txcmdsz a + 8) a, buf, true)
  else Ok (a, buf, true).

(** * Two packets in an A-MSDU *)

Definition ETH_HLEN : Z := 14.

(** A packet to send: the addresses, the type, and the bytes behind its header. *)
Record xmit_pkt := mk_xmit_pkt { dst : list Z; src : list Z; h_proto : Z; x_pktlen : Z; file : list Z }.

(** A subframe at [pframe]; the result is where it ends, its length as a number of bytes
    behind the addresses and the length. *)
Definition put_subframe (p : xmit_pkt) (pframe : Z) (buf : list Z) : res (Z * Z * list Z) :=
  buf ← store pframe (dst p) buf;
  buf ← store (pframe + 6) (src p) buf;
  let len := pframe + 12 in
  r ← rtw_put_snap (pframe + 14) (h_proto p) buf;
  let '(buf, llc_sz) := r in
  let mem := (rtw_pktfile_read (x_pktlen p) (file p)).1 in
  let pframe := pframe + 14 + llc_sz in
  buf ← store pframe mem buf;
  let mem_sz := Z.of_nat (length mem) in
  buf ← store len (be16 (llc_sz + mem_sz)) buf;
  Ok (pframe + mem_sz, llc_sz + mem_sz, buf).

(** What follows [rtw_make_wlanhdr] in [rtw_xmitframe_coalesce_amsdu], up to the integrity
    code; [queued] is the packet that goes first. *)
Definition coalesce_amsdu (t : pkt_info) (a : pkt_attrib) (queued : option xmit_pkt) (p : xmit_pkt) (buf : list Z) : res (pkt_attrib * list Z) :=
  let mem_start := TXDESC_OFFSET in
  buf ← ClearMFrag mem_start buf;
  let pframe := mem_start + hdrlen a in
  buf ← (if truthy (iv_len a) then store pframe (take (Z.to_nat (iv_len a)) (p_iv t)) buf else Ok buf);
  let pframe := pframe + iv_len a in
  let last_txcmdsz := hdrlen a + iv_len a in
  r ← match queued with
      | None => Ok (pframe, last_txcmdsz, buf)
      | Some q =>
          r ← put_subframe q pframe buf;
          let '(pframe, len, buf) := r in
          let padding := 4 - ((ETH_HLEN + len) .& 3) in
          let padding := if padding =? 4 then 0 else padding in
          Ok (pframe + padding, last_txcmdsz + ETH_HLEN + len + padding, buf)
      end;
  let '(pframe, last_txcmdsz, buf) := r in
  r ← put_subframe p pframe buf;
  let '(pframe, len, buf) := r in
  let last_txcmdsz := last_txcmdsz + ETH_HLEN + len + (if bswenc t then icv_len a else 0) in
  buf ← (if (0 <? icv_len a) && bswenc t then store pframe (take (Z.to_nat (icv_len a)) (p_icv t)) buf else Ok buf);
  Ok (set_frags 1 last_txcmdsz a, buf).

(** * A packet in one frame *)

(** One frame is enough. *)
Definition one_fragment (t : pkt_info) (a : pkt_attrib) (file : list Z) : Prop :=
  if bmcst t then u32 (pktlen t) = zlen file
  else zlen file <= frag_len a - 4 - hdrlen a - iv_len a - 8 - icv_len a /\ frag_len a < 4294967296.

Lemma pktfile_read_all rlen file : zlen file <= u32 rlen -> rtw_pktfile_read rlen file = (file, []).
Proof.
  unfold rtw_pktfile_read, zlen. intros H. rewrite Z.min_r, Nat2Z.id, take_ge, drop_ge by lia. done.
Qed.

Lemma store_next i bs a x b j : i = Z.of_nat (length a) -> length x = length bs -> j = i -> store j bs (a ++ x ++ b) = Ok (a ++ bs ++ b).
Proof. intros H L ->. by apply store_at. Qed.

(** The bit of more fragments set and cleared. *)
Definition final_fc1 (fc1 : Z) : Z := (fc1 .| 0x04) .& 0xfb.

Lemma frag_bit pre fc0 fc1 l v : 
  byte_at (pre ++ fc0 :: fc1 :: l) (zlen pre + 1) = Ok fc1 /\
  store (zlen pre + 1) [v] (pre ++ fc0 :: fc1 :: l) = Ok (pre ++ fc0 :: v :: l).
Proof.
  replace (pre ++ fc0 :: fc1 :: l) with ((pre ++ [fc0]) ++ fc1 :: l) by (by flat_app). unfold zlen. split.
  - apply byte_at_app. rewrite length_app. cbn. lia.
  - change (fc1 :: l) with ([fc1] ++ l). rewrite store_at by (rewrite ?length_app; cbn; lia || done). by flat_app.
Qed.

Lemma SetMFrag_spec pre fc0 fc1 l : SetMFrag (zlen pre) (pre ++ fc0 :: fc1 :: l) = Ok (pre ++ fc0 :: (fc1 .| 0x04) :: l).
Proof. unfold SetMFrag. destruct (frag_bit pre fc0 fc1 l (fc1 .| 0x04)) as [-> E]. exact E. Qed.
Lemma ClearMFrag_spec pre fc0 fc1 l : ClearMFrag (zlen pre) (pre ++ fc0 :: fc1 :: l) = Ok (pre ++ fc0 :: (fc1 .& 0xfb) :: l).
Proof. unfold ClearMFrag. destruct (frag_bit pre fc0 fc1 l (fc1 .& 0xfb)) as [-> E]. exact E. Qed.

Lemma snap_length h : length (snap_hdr h) = 8%nat.
Proof. unfold snap_hdr. by case_match. Qed.

Section one_frame.
Context (t : pkt_info) (a : pkt_attrib) (fc0 fc1 : Z) (hr pre post : list Z).
Context (Lpre : length pre = 48%nat) (Lh : zlen (fc0 :: fc1 :: hr) = hdrlen a).
Context (Liv : zlen (p_iv t) = iv_len a) (Piv : 0 < iv_len a) (Licv : zlen (p_icv t) = icv_len a) (Sw : bswenc t = true) (Picv : 0 < icv_len a).

Lemma put_fragment_one file giv gsnap gdata gicv :
  one_fragment t a file -> length giv = length (p_iv t) -> length gsnap = 8%nat -> length gdata = length file -> length gicv = length (p_icv t) ->
  put_fragment t a 0 TXDESC_OFFSET file (pre ++ (fc0 :: fc1 :: hr) ++ giv ++ gsnap ++ gdata ++ gicv ++ post) =
  Ok (48 + hdrlen a + iv_len a + 8 + zlen file + icv_len a, zlen file, [],
      pre ++ (fc0 :: (fc1 .| 4) :: hr) ++ p_iv t ++ snap_hdr (ether_type t) ++ file ++ p_icv t ++ post).
Proof.
  intros One L1 L2 L3 L4. unfold put_fragment. replace TXDESC_OFFSET with (zlen pre) by (unfold zlen; rewrite Lpre; done).
  cbn [app]. rewrite SetMFrag_spec. cbn [mbind res_bind]. set (h := fc0 :: (fc1 .| 4) :: hr).
  assert (Lh' : zlen h = hdrlen a) by (rewrite <- Lh; done).
  assert (E0 : forall l, pre ++ fc0 :: (fc1 .| 4) :: hr ++ l = pre ++ h ++ l) by done. rewrite E0. clear E0.
  unfold truthy. rewrite (proj2 (Z.eqb_neq (iv_len a) 0)) by lia. cbn [negb].
  rewrite (take_ge (p_iv t)) by (unfold zlen in *; lia). rewrite (app_assoc pre h).
  rewrite (store_at _ (p_iv t)) by (unfold zlen in *; rewrite ?length_app; lia). cbn [mbind res_bind Z.eqb].
  unfold rtw_put_snap. rewrite (app_assoc (pre ++ h)), (store_at _ (snap_hdr _)) by (unfold zlen in *; rewrite ?length_app, ?snap_length; lia).
  cbn [mbind res_bind]. rewrite Sw, (proj2 (Z.ltb_lt 0 _)) by lia. cbn [andb]. rewrite pktfile_read_all.
  2: { unfold one_fragment in One. destruct (bmcst t); [lia|]. rewrite u32_small; unfold SNAP_SIZE, zlen in *; lia. }
  rewrite (app_assoc ((pre ++ h) ++ p_iv t)), (store_at _ file) by (unfold SNAP_SIZE, zlen in *; rewrite ?length_app, ?snap_length; lia).
  cbn [mbind res_bind]. rewrite (take_ge (p_icv t)) by (unfold zlen in *; lia).
  rewrite (app_assoc (((pre ++ h) ++ p_iv t) ++ snap_hdr _)), (store_at _ (p_icv t)) by (unfold SNAP_SIZE, zlen in *; rewrite ?length_app, ?snap_length; lia).
  cbn [mbind res_bind]. assert (Ep : zlen pre = 48) by (unfold zlen; lia). rewrite Ep. unfold SNAP_SIZE, zlen.
  rewrite <- !app_assoc. repeat (f_equal; try lia).
Qed.

Lemma coalesce_one base file space :
  one_fragment t a file -> zlen space = iv_len a + 8 + zlen file + icv_len a ->
  coalesce_frags t a base file (pre ++ (fc0 :: fc1 :: hr) ++ space ++ post) =
  Ok (set_frags 1 (hdrlen a + iv_len a + 8 + icv_len a + zlen file) a,
      pre ++ (fc0 :: final_fc1 fc1 :: hr) ++ p_iv t ++ snap_hdr (ether_type t) ++ file ++ p_icv t ++ post).
Proof.
  intros One Ls. destruct (split_buffer (length (p_iv t)) space) as (giv & s1 & -> & L1); [unfold zlen in *; lia|].
  destruct (split_buffer 8 s1) as (gsnap & s2 & -> & L2); [unfold zlen in *; rewrite length_app in Ls; lia|].
  destruct (split_buffer (length file) s2) as (gdata & gicv & -> & L3); [unfold zlen in *; rewrite !length_app in Ls; lia|].
  unfold coalesce_frags. cbn [coalesce_loop]. rewrite <- !app_assoc.
  rewrite put_fragment_one by (done || (unfold zlen in *; rewrite !length_app in Ls; lia)). cbn [mbind res_bind].
  rewrite bool_decide_true, orb_true_r by done. cbn [Z.add Z.eqb Pos.eqb Pos.add].
  replace TXDESC_OFFSET with (zlen pre) by (unfold zlen; rewrite Lpre; done). cbn [app]. rewrite ClearMFrag_spec. cbn [mbind res_bind].
  rewrite Sw. do 2 f_equal.
Qed.
End one_frame.

(** * TKIP from the sender to the receiver *)

Lemma RND4_mult x : x mod 4 = 0 -> RND4 x = x.
Proof.
  intros H. unfold RND4. change 3 with (Z.ones 2). rewrite Z.land_ones by lia. change (2 ^ 2) with 4. rewrite H. change (0 =? 0) with true. cbn iota.
  rewrite Z.shiftl_mul_pow2, Z.shiftr_div_pow2, Z.add_0_r by lia. change (2 ^ 2) with 4.
  pose proof (Z.div_mod x 4 ltac:(lia)). lia.
Qed.

Lemma addmic_one key pri a base pre hdr iv body gap post fc0 fc1 dur a1 a2 a3 seq a4 more :
  length pre = 48%nat -> base mod 4 = 0 -> zlen hdr = hdrlen a -> zlen iv = iv_len a -> nr_frags a = 1 ->
  last_txcmdsz a = hdrlen a + iv_len a + zlen body + icv_len a -> length gap = 8%nat ->
  take 16 key <> replicate 16 0 -> bytes key -> bytes body -> is_byte pri ->
  hdr ++ iv = wlan_hdr fc0 fc1 dur a1 a2 a3 seq a4 ++ more -> length dur = 2%nat -> length seq = 2%nat ->
  Forall (fun a => length a = 6%nat) [a1; a2; a3; a4] -> Forall bytes [a1; a2; a3; a4] ->
  xmitframe_addmic true true key pri a base (pre ++ (hdr ++ iv) ++ body ++ gap ++ post) =
  Ok (set_frags 1 (last_txcmdsz a + 8) a,
      pre ++ (hdr ++ iv) ++ body ++ michael key (mic_header fc1 a1 a2 a3 a4 pri ++ body) ++ post, true).
Proof.
  intros Lp Hb Lh Li Nr Lt Lg Hk Bk Bb Hp Eh Ld Ls La Ba. unfold xmitframe_addmic. rewrite bool_decide_false by done.
  replace TXDESC_OFFSET with (Z.of_nat (length pre)) by (rewrite Lp; done).
  assert (E1 : append_header (rtw_secmicsetkey key) (pre ++ (hdr ++ iv) ++ body ++ gap ++ post) (Z.of_nat (length pre)) pri =
    Ok (rtw_secmicappend (rtw_secmicsetkey key) (mic_header fc1 a1 a2 a3 a4 pri))).
  { rewrite Eh, <- (app_assoc (wlan_hdr _ _ _ _ _ _ _ _)). by apply append_header_spec. }
  rewrite E1. cbn [mbind res_bind]. rewrite Nr. change (S (Z.to_nat 1)) with 2%nat. cbn [addmic_loop]. rewrite Nr.
  change (0 <? 1) with true. change (0 + 1 =? 1) with true. change (0 + 1 <? 1) with false. cbn iota.
  rewrite RND4_mult by (rewrite Lp; change (Z.of_nat 48) with (12 * 4); by rewrite Z.mod_add by lia).
  assert (El : load (base + Z.of_nat (length pre) - base + hdrlen a + iv_len a) (last_txcmdsz a - hdrlen a - iv_len a - icv_len a)
    (pre ++ (hdr ++ iv) ++ body ++ gap ++ post) = Ok body).
  { rewrite (app_assoc pre). apply load_at; unfold zlen in *; rewrite ?length_app; lia. }
  rewrite El. cbn [mbind res_bind]. destruct (setkey_spec key Bk) as (A & EL & ER). rewrite append_app, secgetmic_spec; [|done|].
  2: { apply Forall_app; split; [by apply mic_header_bytes|done]. }
  cbn [mbind res_bind fst]. rewrite EL, ER. fold (michael key (mic_header fc1 a1 a2 a3 a4 pri ++ body)).
  set (s := michael_words _ _). assert (Em : le32_bytes s.1 ++ le32_bytes s.2 = michael key (mic_header fc1 a1 a2 a3 a4 pri ++ body))
    by (unfold michael; fold s; by destruct s).
  rewrite Em. set (mic := michael _ _) in *.
  rewrite (app_assoc pre), (app_assoc (pre ++ hdr ++ iv)), (store_at _ mic).
  - cbn [mbind res_bind]. by flat_app.
  - unfold zlen in *. rewrite !length_app. lia.
  - rewrite Lg. symmetry. apply michael_length.
Qed.

(** What the end of [rtw_xmitframe_coalesce] does with a frame under TKIP: the code, and the
    encryption by software, if it is by software. *)
Definition protect_tkip (mickey : list Z) (pri : Z) (s : security_priv) (ra ta uncst : list Z) (t : pkt_info) (a : pkt_attrib) (base : Z) (buf : list Z)
    : res (pkt_attrib * list Z) :=
  r ← xmitframe_addmic true (bswenc t) mickey pri a base buf;
  let '(a, buf, ok) := r in
  if negb ok then Null
  else if bswenc t then buf ← rtw_tkip_encrypt true s ra ta uncst a base buf; Ok (a, buf) else Ok (a, buf).

Definition coalesce_tkip (mickey : list Z) (pri : Z) (s : security_priv) (ra ta uncst : list Z) (t : pkt_info) (a : pkt_attrib) (base : Z)
    (file buf : list Z) : res (pkt_attrib * list Z) :=
  r ← coalesce_frags t a base file buf;
  let '(a, buf) := r in protect_tkip mickey pri s ra ta uncst t a base buf.

Lemma wlan_hdr_split fc0 fc1 dur a1 a2 a3 seq ext iv :
  (6 <= length (ext ++ iv))%nat ->
  (fc0 :: fc1 :: dur ++ a1 ++ a2 ++ a3 ++ seq ++ ext) ++ iv = wlan_hdr fc0 fc1 dur a1 a2 a3 seq (take 6 (ext ++ iv)) ++ drop 6 (ext ++ iv) /\
  length (take 6 (ext ++ iv)) = 6%nat.
Proof.
  intros L. split; [|rewrite length_take; lia]. unfold wlan_hdr. cbn [app]. do 2 f_equal. rewrite <- !app_assoc. do 5 f_equal.
  by rewrite take_drop.
Qed.

(** A frame in the air: protected by its sender, with the integrity code [mic]. *)
Definition tkip_mpdu (k : list Z -> list Z) (hdr iv body mic : list Z) : list Z := sealed k (mk_frag hdr iv (body ++ mic) [] []).

Lemma protect_one mickey pri s ra ta uncst t a base pre hdr iv body gap post fc0 fc1 dur a1 a2 a3 seq a4 more :
  length pre = 48%nat -> base mod 4 = 0 -> zlen hdr = hdrlen a -> zlen iv = iv_len a -> iv_len a = 8 -> icv_len a = 4 -> nr_frags a = 1 ->
  last_txcmdsz a = hdrlen a + iv_len a + zlen body + icv_len a -> length gap = 12%nat -> bswenc t = true ->
  take 16 mickey <> replicate 16 0 -> bytes mickey -> bytes body -> is_byte pri ->
  hdr ++ iv = wlan_hdr fc0 fc1 dur a1 a2 a3 seq a4 ++ more -> length dur = 2%nat -> length seq = 2%nat ->
  Forall (fun a => length a = 6%nat) [a1; a2; a3; a4] -> Forall bytes [a1; a2; a3; a4] ->
  let tk := if IS_MCAST ra then group_key s (dot118021XGrpKeyid s) else uncst in
  let mic := michael mickey (mic_header fc1 a1 a2 a3 a4 pri ++ body) in
  protect_tkip mickey pri s ra ta uncst t a base (pre ++ (hdr ++ iv) ++ body ++ gap ++ post) =
  Ok (set_frags 1 (last_txcmdsz a + 8) a, pre ++ tkip_mpdu (tkip_key tk ta) hdr iv body mic ++ post).
Proof.
  intros Lp Hb Lh Li L8 L4 Nr Lt Lg Sw Hk Bk Bb Hp Eh Ld Ls La Ba tk mic. unfold protect_tkip. rewrite Sw.
  destruct (split_buffer 8 gap) as (g1 & g2 & -> & Lg1); [lia|]. rewrite length_app in Lg. rewrite <- (app_assoc g1).
  rewrite (addmic_one mickey pri a base pre hdr iv body g1 (g2 ++ post) fc0 fc1 dur a1 a2 a3 seq a4 more) by done. fold mic.
  cbn [mbind res_bind negb].
  assert (Lm : length mic = 8%nat) by apply michael_length.
  set (f := mk_frag hdr iv (body ++ mic) g2 []). unfold zlen in *.
  replace (pre ++ (hdr ++ iv) ++ body ++ mic ++ g2 ++ post) with (pre ++ frags_bytes [f] ++ post).
  2: { unfold frags_bytes, frag_bytes, f. cbn [map concat f_hdr f_iv f_body f_gap f_pad]. by flat_app. }
  rewrite tkip_encrypt_spec; [|done..|].
  - fold tk. cbn [mbind res_bind map concat]. do 3 f_equal. unfold tkip_mpdu, sealed, f. cbn [f_hdr f_iv f_body f_pad]. by flat_app.
  - unfold frags_ok, frag_bytes, f, set_frags. cbn [f_hdr f_iv f_body f_gap hdrlen iv_len icv_len last_txcmdsz].
    rewrite !length_app. split_and!; lia.
Qed.

Lemma be16_bytes v : bytes (be16 v).
Proof. repeat constructor; apply u8_range. Qed.

Lemma snap_bytes h : bytes (snap_hdr h).
Proof.
  unfold snap_hdr. apply Forall_app; split; [by apply (bool_decide_eq_true_1 _)|]. apply Forall_app; split; [|apply be16_bytes].
  case_match; by apply (bool_decide_eq_true_1 _).
Qed.

Lemma send_one mickey pri s ra ta uncst t a base file pre space post fc0 fc1 dur a1 a2 a3 seq ext :
  let hr := dur ++ a1 ++ a2 ++ a3 ++ seq ++ ext in
  length pre = 48%nat -> base mod 4 = 0 -> zlen (fc0 :: fc1 :: hr) = hdrlen a -> zlen (p_iv t) = 8 -> iv_len a = 8 -> zlen (p_icv t) = 4 -> icv_len a = 4 ->
  one_fragment t a file -> zlen space = 8 + 8 + zlen file + 4 + 8 -> bswenc t = true ->
  take 16 mickey <> replicate 16 0 -> bytes mickey -> is_byte pri -> length dur = 2%nat -> length seq = 2%nat ->
  Forall (fun a => length a = 6%nat) [a1; a2; a3] -> Forall bytes [a1; a2; a3; ext; p_iv t; file] ->
  let tk := if IS_MCAST ra then group_key s (dot118021XGrpKeyid s) else uncst in
  let hdr := fc0 :: final_fc1 fc1 :: hr in
  let body := snap_hdr (ether_type t) ++ file in
  exists mic, mic = michael mickey (mic_header (final_fc1 fc1) a1 a2 a3 (take 6 (ext ++ p_iv t)) pri ++ body) /\ length mic = 8%nat /\
    coalesce_tkip mickey pri s ra ta uncst t a base file (pre ++ (fc0 :: fc1 :: hr) ++ space ++ post) =
    Ok (set_frags 1 (hdrlen a + 8 + zlen body + 4 + 8) a, pre ++ tkip_mpdu (tkip_key tk ta) hdr (p_iv t) body mic ++ post).
Proof.
  intros hr Lp Hb Lh Liv L8 Licv L4 One Lsp Sw Hk Bk Hp Ld Ls La Ba tk hdr body.
  set (mic := michael _ _). exists mic. split; [done|]. split; [apply michael_length|]. unfold coalesce_tkip.
  destruct (split_buffer (length space - 8) space) as (sp & extra & -> & Lsp'); [lia|]. unfold zlen in Lsp. rewrite length_app in *.
  rewrite <- (app_assoc sp). rewrite (coalesce_one t a fc0 fc1 hr pre (extra ++ post)) by (done || unfold zlen in *; lia). cbn [mbind res_bind].
  rewrite !Forall_cons in La. rewrite !Forall_cons in Ba. destruct La as (L1 & L2 & L3 & _), Ba as (B1 & B2 & B3 & Bext & Biv & Bf & _).
  destruct (wlan_hdr_split fc0 (final_fc1 fc1) dur a1 a2 a3 seq ext (p_iv t)) as [Eh La4]; [unfold zlen in *; rewrite length_app; lia|].
  fold hr hdr in Eh. fold hdr.
  replace (pre ++ hdr ++ p_iv t ++ snap_hdr (ether_type t) ++ file ++ p_icv t ++ extra ++ post) with
    (pre ++ (hdr ++ p_iv t) ++ body ++ (p_icv t ++ extra) ++ post) by (unfold body; by flat_app).
  rewrite (protect_one mickey pri s ra ta uncst t _ base pre hdr (p_iv t) body (p_icv t ++ extra) post fc0 (final_fc1 fc1) dur a1 a2 a3 seq
    (take 6 (ext ++ p_iv t)) (drop 6 (ext ++ p_iv t))); try done.
  - fold tk mic. do 2 f_equal. unfold set_frags. cbn [hdrlen iv_len icv_len frag_len last_txcmdsz nr_frags]. f_equal.
    unfold body, zlen. rewrite length_app, snap_length. lia.
  - cbn [set_frags iv_len]. by rewrite L8.
  - cbn [set_frags last_txcmdsz hdrlen iv_len icv_len]. unfold body, zlen. rewrite length_app, snap_length. lia.
  - unfold zlen in *. rewrite length_app. lia.
  - unfold body. apply Forall_app; split; [apply snap_bytes|done].
  - by repeat constructor.
  - repeat constructor; [done..|]. apply Forall_take, Forall_app; done.
Qed.

Lemma receive_one s r f sta uncst tk ta A B hdr iv body mic fc0 fc1 dur a1 a2 a3 seq a4 more :
  let mpdu := tkip_mpdu (tkip_key tk ta) hdr iv body mic in
  rx_buf f = A ++ mpdu ++ B -> rx_data f = zlen A -> rx_len f = zlen mpdu -> rx_tail f = zlen A + zlen mpdu -> rx_end f < 4294967296 ->
  rx_hdrlen (attrib f) = zlen hdr -> rx_iv_len (attrib f) = 8 -> rx_icv_len (attrib f) = 4 -> rx_encrypt (attrib f) = _TKIP_ ->
  rx_mfrag (attrib f) = false -> rx_frag_num (attrib f) = 0 -> rx_privacy (attrib f) = true -> rx_ta (attrib f) = ta ->
  IS_MCAST (rx_ra (attrib f)) && negb (binstallGrpkey s) = false -> rx_key s uncst (rx_ra (attrib f)) (rx_key_index (attrib f)) = tk ->
  IS_MCAST (rx_ra (attrib f)) && negb (rx_grpkey r) = false -> rtw_get_stainfo r (rx_ta (attrib f)) = Some sta ->
  length iv = 8%nat -> length mic = 8%nat -> hdr ++ iv = wlan_hdr fc0 fc1 dur a1 a2 a3 seq a4 ++ more -> length dur = 2%nat -> length seq = 2%nat ->
  Forall (fun a => length a = 6%nat) [a1; a2; a3; a4] -> Forall bytes [a1; a2; a3; a4] -> bytes body ->
  is_byte (rx_priority (attrib f)) -> bytes (mic_key r sta (attrib f)) ->
  mic = michael (mic_key r sta (attrib f)) (mic_header fc1 a1 a2 a3 a4 (rx_priority (attrib f)) ++ body) ->
  exists buf r' g,
    rtw_tkip_decrypt true s (Some uncst) (rx_ra (attrib f)) ta (rx_key_index (attrib f)) (zlen hdr) 8 (rx_len f) (rx_data f) (rx_buf f) = Ok (buf, true) /\
    recvframe_chk_defrag r (with_buf buf f) = Ok (r', Some g) /\ rx_id g = rx_id f /\ attrib g = attrib f /\ ptrs_ok g /\
    load (rx_data g + zlen hdr + 8) (rx_len g - zlen hdr - 8 - 4) (rx_buf g) = Ok body.
Proof.
  intros mpdu Eb Ed El Et Esz Eh Ei Ec Ee Em Ef Epr Eta Hg Ekey Hg' Esta Li Lm Ehdr Ld Ls La Ba Bb Hp Bk Emic.
  set (fr := mk_frag hdr iv (body ++ mic) [] []). rewrite El, Ed, Eb.
  pose proof (tkip_decrypt_sealed s uncst (rx_ra (attrib f)) ta (rx_key_index (attrib f)) tk fr A B Ekey Hg Li) as Dec.
  change (sealed (tkip_key tk ta) fr) with mpdu in Dec. cbn [fr f_hdr f_iv f_body] in Dec.
  set (c := icv (body ++ mic)) in *. assert (Lc : zlen c = 4) by done.
  set (buf := A ++ (hdr ++ iv ++ (body ++ mic) ++ c) ++ B) in Dec.
  assert (Lmp : zlen mpdu = zlen (hdr ++ iv) + zlen (body ++ mic) + zlen c).
  { unfold mpdu, tkip_mpdu, sealed. cbn [f_hdr f_iv f_body]. unfold zlen in *. rewrite !length_app, rc4_length, !length_app. cbn [length icv] in *. lia. }
  assert (Lay : layout (with_buf buf f) A (hdr ++ iv) (body ++ mic) c B).
  { split; cbn [with_buf rx_buf rx_data rx_tail rx_len attrib]; try lia.
    - unfold buf. by flat_app.
    - unfold rx_end in *. cbn [with_buf rx_buf]. rewrite Eb in Esz. unfold buf, zlen in *. rewrite !length_app in *. lia. }
  exists buf, (mic_result r (attrib f) true), (recvframe_pull_tail 8 (with_buf buf f)). split; [exact Dec|].
  pose proof (chkmic_spec r (with_buf buf f) sta A (hdr ++ iv) body mic c B fc0 fc1 dur a1 a2 a3 seq a4 more Lay) as Chk.
  cbn [with_buf attrib] in Chk. cbv zeta in Chk. rewrite bool_decide_true in Chk by done.
  split_and!.
  - unfold recvframe_chk_defrag, defrag_sta. cbn [with_buf attrib]. rewrite Esta. cbn [mbind res_bind]. rewrite Em, Ef. cbn [negb andb Z.eqb].
    cbn [finish_frame with_buf attrib]. rewrite Epr. fold (with_buf buf f). rewrite Chk; [done|..]; try done.
    rewrite Eh, Ei. unfold zlen. rewrite length_app. lia.
  - by autorewrite with rx_id.
  - unfold recvframe_pull_tail. by case_match.
  - apply pull_tail_ptrs; [|lia]. destruct Lay as [B1 D1 T1 L1 _ Sz]. unfold ptrs_ok, rx_end, zlen in *. rewrite B1, !length_app in *. lia.
  - destruct Lay as [B1 D1 T1 L1 _ _]. unfold recvframe_pull_tail. assert (Lb : zlen (body ++ mic) = zlen body + 8) by (unfold zlen; rewrite length_app; lia).
    rewrite (proj2 (Z.ltb_ge _ _)) by (unfold zlen in *; lia). cbn [rx_data rx_len rx_buf]. rewrite B1, D1, L1, Lb, Lc.
    assert (Lh : zlen (hdr ++ iv) = zlen hdr + 8) by (unfold zlen; rewrite length_app; lia).
    unfold rx_end in Esz. rewrite Eb in Esz. unfold zlen in *. rewrite !length_app in *.
    rewrite u32_small by lia. replace (A ++ (hdr ++ iv) ++ (body ++ mic) ++ c ++ B) with ((A ++ hdr ++ iv) ++ body ++ (mic ++ c ++ B)) by (by flat_app).
    apply load_at; rewrite ?length_app; lia.
Qed.

(** * More than one fragment *)

(** A fragment that is not the last ends at most four bytes before [frag_len], and the next
    one is put behind room for a descriptor; the loops of the code and of the encryption
    look for it at the next multiple of four behind [frag_len], which is always before it. *)
Lemma fragments_misplaced x n : RND4 (x + n) < RND4 (x + (n - 4)) + TXDESC_OFFSET.
Proof.
  unfold RND4, TXDESC_OFFSET. rewrite !Z.shiftl_mul_pow2, !Z.shiftr_div_pow2 by lia. change (2 ^ 2) with 4.
  repeat case_match; Z.to_euclidean_division_equations; lia.
Qed.

(** Two fragments under TKIP: the payload of the second one, which is at 188, is not
    encrypted. *)
Definition two_info : pkt_info := mk_pkt_info [0; 32; 7; 32; 0; 0; 0; 0] [0; 0; 0; 0] 0x0800 true false 30.
Definition two_attrib : pkt_attrib := mk_pkt_attrib 24 8 4 0 0 64.
Definition two_hdr : list Z := wlan_hdr 8 1 [0; 0] (replicate 6 2) (replicate 6 4) (replicate 6 6) [0; 0] [].

Example second_fragment_plain :
  match coalesce_tkip (replicate 16 1) 0 (mk_security [] 0 false) (replicate 6 2) (replicate 6 4) (seqZ 0 16) two_info two_attrib 0
    (seqZ 100 30) (replicate 48 0 ++ two_hdr ++ replicate 200 0) with
  | Ok (a, buf) => nr_frags a = 2 /\ window 188 14 buf = seqZ 116 14
  | _ => False
  end.
Proof. vm_compute. done. Qed.

(** * Examples *)

Example rnd4_values : map RND4 [0; 1; 4; 5; 8] = [0; 4; 4; 8; 8].
Proof. reflexivity. Qed.
