(* ===== verification/WifiMsdu.v ===== *)
(** From frames to packets in the receive path of the Wi-Fi driver ([core/rtw_recv.c],
    [os_dep/linux/recv_linux.c]): the LLC header, the Ethernet header in its place, and the
    packets of an A-MSDU. *)

From S2P Require Import Prelude Mem WifiWep WifiTkip WifiFrag WifiXmit.

(** * The LLC header *)

Definition rtw_rfc1042_header : list Z := [0xaa; 0xaa; 0x03; 0x00; 0x00; 0x00].
Definition rtw_bridge_tunnel_header : list Z := [0xaa; 0xaa; 0x03; 0x00; 0x00; 0xf8].
Definition ETH_P_AARP : Z := 0x80F3.
Definition ETH_P_IPX : Z := 0x8137.

Inductive rtw_rx_llc_hdl := RTW_RX_LLC_KEEP | RTW_RX_LLC_REMOVE.

(** A number of two bytes. *)
Definition get_be16 (buf : list Z) (i : Z) : res Z := bs ← load i 2 buf; Ok (u16 ((tbl bs 0 .<< 8) .| tbl bs 1)).

Definition rtw_recv_llc_parse (buf : list Z) (msdu msdu_len : Z) : res rtw_rx_llc_hdl :=
  if msdu_len <? 8 then Ok RTW_RX_LLC_KEEP
  else
    eth_type ← get_be16 buf (msdu + SNAP_SIZE);
    rfc ← same_at buf msdu rtw_rfc1042_header;
    if (rfc : bool) && negb (eth_type =? ETH_P_AARP) && negb (eth_type =? ETH_P_IPX) then Ok RTW_RX_LLC_REMOVE
    else
      tunnel ← same_at buf msdu rtw_bridge_tunnel_header;
      Ok (if (tunnel : bool) then RTW_RX_LLC_REMOVE else RTW_RX_LLC_KEEP).

(** * A frame with one packet *)

(** The addresses of the packet, which the parser of the header has found. [None] is
    [_FAIL]. *)
Definition wlanhdr_to_ethhdr (dst src : list Z) (f : rx_frame) (llc_hdl : rtw_rx_llc_hdl) : res rx_frame :=
  let a := attrib f in
  let f := if truthy (rx_encrypt a) then recvframe_pull_tail (rx_icv_len a) f else f in
  let remove := match llc_hdl with RTW_RX_LLC_REMOVE => true | RTW_RX_LLC_KEEP => false end in
  let rmv_len := rx_hdrlen a + rx_iv_len a + (if remove then SNAP_SIZE else 0) in
  let len := u16 (rx_len f - rmv_len) in
  let sz := s32 (rmv_len - 14 + (if remove then 2 else 0)) in
  if rx_tail f <? rx_data f + sz then Null
  else
    let f := recvframe_pull sz f in
    buf ← store (rx_data f) dst (rx_buf f);
    buf ← store (rx_data f + 6) src buf;
    buf ← (if remove then Ok buf else store (rx_data f + 12) (be16 len) buf);
    Ok (with_buf buf f).

(** The part of [recv_process_mpdu] for such a frame, of a station. *)
Definition process_msdu (dst src : list Z) (f : rx_frame) : res rx_frame :=
  let a := attrib f in
  let msdu := rx_data f + rx_hdrlen a + rx_iv_len a in
  let msdu_len := u16 (rx_len f - rx_hdrlen a - rx_iv_len a - (if truthy (rx_encrypt a) then rx_icv_len a else 0)) in
  llc_hdl ← rtw_recv_llc_parse (rx_buf f) msdu msdu_len;
  wlanhdr_to_ethhdr dst src f llc_hdl.

(** * A-MSDU *)

Definition MAX_SUBFRAME_COUNT : nat := 64.

(** What the check of subframes needs: the mode for subframes that are not protected
    separately, whether there is a cipher, and the direction with the addresses of the
    frame. *)
Record amsdu_env := mk_amsdu_env { non_spp : bool; privacy : bool; to_fr_ds : Z; e_ra : list Z; e_ta : list Z; skb_alloc : nat -> bool }.

Definition validate_amsdu_content (e : amsdu_env) (da sa : list Z) : bool :=
  if non_spp e && privacy e then
    negb ((to_fr_ds e =? 2) && negb (bool_decide (da = e_ra e))) &&
    negb ((to_fr_ds e =? 1) && negb (bool_decide (sa = e_ta e))) &&
    negb (bool_decide (da = rtw_rfc1042_header))
  else true.

(** The packet of a subframe. The memory is from the kernel; [skb_alloc] tells whether there
    is any for the packet of each number. *)
Definition rtw_os_alloc_msdu_pkt (da sa msdu : list Z) (llc_hdl : rtw_rx_llc_hdl) : list Z :=
  match llc_hdl with
  | RTW_RX_LLC_REMOVE => da ++ sa ++ drop 6 msdu
  | RTW_RX_LLC_KEEP => da ++ sa ++ be16 (Z.of_nat (length msdu)) ++ msdu
  end.

(** The subframes from [pdata] on, with [a_len] bytes left; [subframes] are the packets so
    far. *)
Fixpoint amsdu_loop (fuel : nat) (e : amsdu_env) (buf : list Z) (pdata a_len : Z) (subframes : list (list Z)) : res (list (list Z)) :=
  match fuel with
  | O => Diverge
  | S fuel =>
      if ETH_HLEN <? a_len then
        nSubframe_Length ← get_be16 buf (pdata + 12);
        if a_len <? ETH_HLEN + nSubframe_Length then Ok subframes
        else
          da ← load pdata 6 buf;
          sa ← load (pdata + 6) 6 buf;
          if negb (validate_amsdu_content e da sa) then Ok subframes
          else
            llc_hdl ← rtw_recv_llc_parse buf (pdata + ETH_HLEN) nSubframe_Length;
            if negb (skb_alloc e (length subframes)) then Ok subframes
            else
              msdu ← load (pdata + ETH_HLEN) nSubframe_Length buf;
              let subframes := subframes ++ [rtw_os_alloc_msdu_pkt da sa msdu llc_hdl] in
              let pdata := pdata + ETH_HLEN in
              let a_len := a_len - ETH_HLEN in
              if bool_decide (MAX_SUBFRAME_COUNT <= length subframes)%nat then Ok subframes
              else
                let pdata := pdata + nSubframe_Length in
                let a_len := a_len - nSubframe_Length in
                if truthy a_len then
                  let padding_len := 4 - ((nSubframe_Length + ETH_HLEN) .& 3) in
                  let padding_len := if padding_len =? 4 then 0 else padding_len in
                  if a_len <? padding_len then Ok subframes
                  else amsdu_loop fuel e buf (pdata + padding_len) (a_len - padding_len) subframes
                else amsdu_loop fuel e buf pdata a_len subframes
      else Ok subframes
  end.

(** The packets of a frame, in the order in which they are handed on; the frame is freed. *)
Definition amsdu_to_msdu (e : amsdu_env) (f : rx_frame) : res (list (list Z)) :=
  let a := attrib f in
  let f := recvframe_pull (rx_hdrlen a) f in
  let f := if 0 <? rx_iv_len a then recvframe_pull (rx_iv_len a) f else f in
  let f := if truthy (rx_encrypt a) then recvframe_pull_tail (rx_icv_len a) f else f in
  amsdu_loop (S (Z.to_nat (rx_len f))) e (rx_buf f) (rx_data f) (rx_len f) [].

(** * Safety *)

Lemma get_be16_safe buf i : 0 <= i -> i + 2 <= zlen buf -> exists v, get_be16 buf i = Ok v /\ 0 <= v < 65536.
Proof.
  intros Hi H. unfold get_be16. destruct (load_inside i 2 buf) as (bs & -> & _); [lia..|exact H|]. cbn [mbind res_bind].
  eexists. split; [done|]. apply u16_range.
Qed.

Lemma same_at_safe buf i oui : 0 <= i -> i + zlen oui <= zlen buf -> exists b, same_at buf i oui = Ok b.
Proof. intros Hi H. unfold same_at. destruct (load_inside i (zlen oui) buf) as (bs & E & _); [lia|unfold zlen; lia|exact H|]. unfold zlen in E. rewrite E. cbn. eauto. Qed.

Lemma llc_parse_safe buf msdu n : 0 <= msdu -> msdu + n <= zlen buf -> exists h, rtw_recv_llc_parse buf msdu n = Ok h.
Proof.
  intros Hm H. unfold rtw_recv_llc_parse. destruct (Z.ltb_spec n 8); [eauto|].
  destruct (get_be16_safe buf (msdu + SNAP_SIZE)) as (v & -> & _); [unfold SNAP_SIZE; lia..|].
  destruct (same_at_safe buf msdu rtw_rfc1042_header) as [b ->]; [lia|unfold zlen in *; cbn; lia|].
  destruct (same_at_safe buf msdu rtw_bridge_tunnel_header) as [b' ->]; [lia|unfold zlen in *; cbn; lia|].
  cbn [mbind res_bind]. case_match; eauto.
Qed.

Lemma padding_range n : 0 <= 4 - (n .& 3) <= 4.
Proof. change 3 with (Z.ones 2). rewrite Z.land_ones by lia. pose proof (Z.mod_pos_bound n (2 ^ 2)). lia. Qed.

(** The bytes of all packets together. *)
Definition total (l : list (list Z)) : Z := zlen (concat l).

Lemma total_app l x : total (l ++ [x]) = total l + zlen x.
Proof. unfold total, zlen. rewrite concat_app, length_app. cbn. rewrite app_nil_r. lia. Qed.

Lemma alloc_length da sa msdu h : length da = 6%nat -> length sa = 6%nat -> zlen (rtw_os_alloc_msdu_pkt da sa msdu h) <= 14 + zlen msdu.
Proof. intros Ld Ls. unfold rtw_os_alloc_msdu_pkt, zlen. destruct h; rewrite !length_app, ?length_drop, Ld, Ls; cbn [length be16]; lia. Qed.

Lemma amsdu_loop_safe fuel e buf pdata a_len subs :
  0 <= pdata -> pdata + a_len <= zlen buf -> (Z.to_nat a_len < fuel)%nat -> (length subs < MAX_SUBFRAME_COUNT)%nat ->
  exists out, amsdu_loop fuel e buf pdata a_len subs = Ok out /\ (length out <= MAX_SUBFRAME_COUNT)%nat /\ total out <= total subs + Z.max 0 a_len.
Proof.
  revert pdata a_len subs. induction fuel as [|fuel IH]; intros pdata a_len subs Hp Hb F Ls; [lia|]. cbn [amsdu_loop].
  assert (Stop : exists out, Ok subs = Ok out /\ (length out <= MAX_SUBFRAME_COUNT)%nat /\ total out <= total subs + Z.max 0 a_len) by (exists subs; split; [done|]; lia).
  unfold ETH_HLEN in *. destruct (Z.ltb_spec 14 a_len) as [Ha|Ha]; [|exact Stop].
  destruct (get_be16_safe buf (pdata + 12)) as (n & -> & Hn); [lia..|]. cbn [mbind res_bind].
  destruct (Z.ltb_spec a_len (14 + n)); [exact Stop|].
  destruct (load_inside pdata 6 buf) as (da & -> & Lda); [lia|lia|unfold zlen in *; lia|].
  destruct (load_inside (pdata + 6) 6 buf) as (sa & -> & Lsa); [lia|lia|unfold zlen in *; lia|]. cbn [mbind res_bind].
  destruct (negb (validate_amsdu_content e da sa)); [exact Stop|].
  destruct (llc_parse_safe buf (pdata + 14) n) as [h ->]; [lia|unfold zlen in *; lia|]. cbn [mbind res_bind].
  destruct (negb (skb_alloc e (length subs))); [exact Stop|].
  destruct (load_inside (pdata + 14) n buf) as (msdu & -> & Lm); [lia|lia|unfold zlen in *; lia|]. cbn [mbind res_bind].
  set (pkt := rtw_os_alloc_msdu_pkt da sa msdu h). assert (Lp : zlen pkt <= 14 + n) by (unfold zlen in *; rewrite <- Lm; apply alloc_length; lia).
  set (subs' := subs ++ [pkt]). assert (Lt : total subs' = total subs + zlen pkt) by apply total_app.
  assert (Ll : length subs' = S (length subs)) by (unfold subs'; rewrite length_app; cbn; lia).
  case_bool_decide as Hc; [exists subs'; split; [done|]; unfold MAX_SUBFRAME_COUNT in *; lia|].
  assert (Go : forall pad, 0 <= pad <= a_len - 14 - n -> exists out, amsdu_loop fuel e buf (pdata + 14 + n + pad) (a_len - 14 - n - pad) subs' = Ok out /\
    (length out <= MAX_SUBFRAME_COUNT)%nat /\ total out <= total subs + Z.max 0 a_len).
  { intros pad Hpad. destruct (IH (pdata + 14 + n + pad) (a_len - 14 - n - pad) subs') as (out & E & L & T); [lia..|]. exists out. split; [exact E|]. lia. }
  unfold truthy. destruct (Z.eqb_spec (a_len - 14 - n) 0) as [E0|N0]; cbn [negb].
  - specialize (Go 0 ltac:(lia)). by rewrite !Z.add_0_r, Z.sub_0_r in Go.
  - pose proof (padding_range (n + 14)) as Hpad. set (pad := 4 - ((n + 14) .& 3)) in *.
    assert (Hq : 0 <= (if pad =? 4 then 0 else pad)) by (destruct (pad =? 4); lia). set (q := if pad =? 4 then 0 else pad) in *.
    destruct (Z.ltb_spec (a_len - 14 - n) q); [exists subs'; split; [done|]; lia|]. apply Go. lia.
Qed.

(** C10: Taking an A-MSDU apart ends on any bytes. Whatever a frame contains and however its
    attributes are, the loop reads only inside of the frame, stops within a number of steps
    bounded by its length, gives at most 64 packets, and these have together no more bytes
    than the frame. *)
Theorem amsdu_terminates e f :
  ptrs_ok f -> 0 <= rx_hdrlen (attrib f) -> 0 <= rx_icv_len (attrib f) ->
  exists out, amsdu_to_msdu e f = Ok out /\ (length out <= MAX_SUBFRAME_COUNT)%nat /\ total out <= rx_len f.
Proof.
  intros P Hh Hi. unfold amsdu_to_msdu.
  destruct (pull_ptrs (rx_hdrlen (attrib f)) f P Hh) as [P1 _]. assert (L1 := pull_len (rx_hdrlen (attrib f)) f P Hh).
  set (f1 := recvframe_pull _ f) in *.
  set (f2 := if 0 <? rx_iv_len (attrib f) then _ else _). assert (P2 : ptrs_ok f2 /\ rx_len f2 <= rx_len f).
  { unfold f2. destruct (Z.ltb_spec 0 (rx_iv_len (attrib f))); [|done]. assert (Hv : 0 <= rx_iv_len (attrib f)) by lia.
    split; [apply pull_ptrs; done|]. pose proof (pull_len (rx_iv_len (attrib f)) f1 P1 Hv). lia. }
  destruct P2 as [P2 L2]. set (f3 := if truthy _ then _ else _). assert (P3 : ptrs_ok f3 /\ rx_len f3 <= rx_len f).
  { unfold f3. destruct (truthy _); [|done]. destruct (pull_tail_ptrs (rx_icv_len (attrib f)) f2 P2 Hi) as (P3 & _).
    split; [done|]. pose proof (pull_tail_len (rx_icv_len (attrib f)) f2 P2 Hi). lia. }
  destruct P3 as [(Q1 & Q2 & Q3) L3]. unfold rx_end in Q2.
  destruct (amsdu_loop_safe (S (Z.to_nat (rx_len f3))) e (rx_buf f3) (rx_data f3) (rx_len f3) []) as (out & E & L & T);
    [lia|unfold zlen; lia|lia|unfold MAX_SUBFRAME_COUNT; cbn; lia|]. exists out. split; [exact E|]. split; [done|]. change (total []) with 0 in T. lia.
Qed.

(** * Subframes and their packets *)

(** A subframe as it is in the air, and the packet of it. *)
Definition subframe (p : xmit_pkt) : list Z := dst p ++ src p ++ be16 (8 + zlen (file p)) ++ snap_hdr (h_proto p) ++ file p.
Definition eth_frame (p : xmit_pkt) : list Z := dst p ++ src p ++ be16 (h_proto p) ++ file p.

Record pkt_ok (p : xmit_pkt) : Prop := mk_pkt_ok {
  ok_dst : length (dst p) = 6%nat; ok_src : length (src p) = 6%nat; ok_proto : 0 <= h_proto p < 65536; ok_len : 8 + zlen (file p) < 65536 }.

Lemma be16_value v : 0 <= v < 65536 -> u16 ((tbl (be16 v) 0 .<< 8) .| tbl (be16 v) 1) = v.
Proof.
  intros Hv. change (tbl (be16 v) 0) with (u8 (v .>> 8)). change (tbl (be16 v) 1) with (u8 v).
  rewrite byte_pair by apply u8_range. unfold u8. rewrite Z.shiftr_div_pow2 by lia. change (2 ^ 8) with 256.
  rewrite (Z.mod_small (v / 256)) by (split; [apply Z.div_pos; lia|apply Z.div_lt_upper_bound; lia]).
  pose proof (Z.div_mod v 256 ltac:(lia)). lia.
Qed.

Lemma get_be16_at v a b i : 0 <= v < 65536 -> i = zlen a -> get_be16 (a ++ be16 v ++ b) i = Ok v.
Proof.
  intros Hv ->. unfold get_be16, zlen. rewrite (load_at _ 2 a (be16 v)) by done. cbn [mbind res_bind]. by rewrite be16_value.
Qed.

(** Both headers are recognised: the one of the bridge tunnel for the two types that have
    it, and the other one for the others. *)
Lemma llc_parse_snap h a b i n : 0 <= h < 65536 -> i = zlen a -> 8 <= n -> rtw_recv_llc_parse (a ++ snap_hdr h ++ b) i n = Ok RTW_RX_LLC_REMOVE.
Proof.
  intros Hh -> Hn. unfold rtw_recv_llc_parse. rewrite (proj2 (Z.ltb_ge _ _)) by lia. unfold snap_hdr.
  set (o := if _ || _ then P802_1H_OUI else RFC1042_OUI). assert (Lo : length o = 3%nat) by (unfold o; by case_match).
  assert (E1 : get_be16 (a ++ ([0xaa; 0xaa; 0x03] ++ o ++ be16 h) ++ b) (zlen a + SNAP_SIZE) = Ok h).
  { replace (a ++ ([0xaa; 0xaa; 0x03] ++ o ++ be16 h) ++ b) with ((a ++ [0xaa; 0xaa; 0x03] ++ o) ++ be16 h ++ b) by (by flat_app).
    apply get_be16_at; [done|]. unfold zlen, SNAP_SIZE. rewrite !length_app, Lo. cbn. lia. }
  assert (E2 : forall oui, length oui = 6%nat -> same_at (a ++ ([0xaa; 0xaa; 0x03] ++ o ++ be16 h) ++ b) (zlen a) oui = Ok (bool_decide ([0xaa; 0xaa; 0x03] ++ o = oui))).
  { intros oui L. replace (a ++ ([0xaa; 0xaa; 0x03] ++ o ++ be16 h) ++ b) with (a ++ ([0xaa; 0xaa; 0x03] ++ o) ++ (be16 h ++ b)) by (by flat_app).
    apply same_at_app; [done|]. rewrite length_app, Lo, L. done. }
  rewrite E1, !E2 by done. cbn [mbind res_bind]. unfold o, ETH_P_AARP, ETH_P_IPX. rewrite <- (orb_comm (h =? 0x80f3)).
  destruct (h =? 0x80f3), (h =? 0x8137); vm_compute; done.
Qed.

Lemma alloc_snap p :
  rtw_os_alloc_msdu_pkt (dst p) (src p) (snap_hdr (h_proto p) ++ file p) RTW_RX_LLC_REMOVE = eth_frame p.
Proof.
  unfold rtw_os_alloc_msdu_pkt, eth_frame. do 2 f_equal. unfold snap_hdr. set (o := if _ || _ then P802_1H_OUI else RFC1042_OUI).
  assert (Lo : length o = 3%nat) by (unfold o; by case_match). destruct o as [|? [|? [|? [|? ?]]]]; done.
Qed.

(** Subframes behind each other, each but the last with its padding to a multiple of four
    bytes; the padding may be anything. *)
Definition pad_len (n : Z) : Z := let p := 4 - (n .& 3) in if p =? 4 then 0 else p.

Inductive amsdu : list xmit_pkt -> list Z -> Prop :=
| amsdu_last p : pkt_ok p -> amsdu [p] (subframe p)
| amsdu_more p pad ps bs : pkt_ok p -> zlen pad = pad_len (zlen (subframe p)) -> amsdu ps bs -> amsdu (p :: ps) (subframe p ++ pad ++ bs).

Lemma subframe_length p : pkt_ok p -> zlen (subframe p) = 22 + zlen (file p).
Proof. intros [L1 L2 _ _]. unfold subframe, zlen. rewrite !length_app, L1, L2, snap_length. cbn [length be16]. lia. Qed.

Lemma amsdu_step fuel e a p b pdata a_len subs :
  pkt_ok p -> pdata = zlen a -> zlen (subframe p) <= a_len -> validate_amsdu_content e (dst p) (src p) = true -> skb_alloc e (length subs) = true ->
  amsdu_loop (S fuel) e (a ++ subframe p ++ b) pdata a_len subs =
  let subs := subs ++ [eth_frame p] in
  let pdata := pdata + zlen (subframe p) in let left := a_len - zlen (subframe p) in
  if bool_decide (MAX_SUBFRAME_COUNT <= length subs)%nat then Ok subs
  else if truthy left then
    let pad := pad_len (zlen (subframe p)) in
    if left <? pad then Ok subs else amsdu_loop fuel e (a ++ subframe p ++ b) (pdata + pad) (left - pad) subs
  else amsdu_loop fuel e (a ++ subframe p ++ b) pdata left subs.
Proof.
  intros Hp -> Ha Hv Hs. destruct Hp as [L1 L2 L3 L4]. pose proof (subframe_length p (mk_pkt_ok p L1 L2 L3 L4)) as Lsf. cbn [amsdu_loop].
  assert (Hf : 0 <= zlen (file p)) by (unfold zlen; lia). rewrite (proj2 (Z.ltb_lt ETH_HLEN _)) by (unfold ETH_HLEN; lia).
  set (buf := a ++ subframe p ++ b). set (n := 8 + zlen (file p)) in *.
  assert (E1 : get_be16 buf (zlen a + 12) = Ok n).
  { replace buf with ((a ++ dst p ++ src p) ++ be16 n ++ (snap_hdr (h_proto p) ++ file p ++ b)) by (unfold buf, subframe; by flat_app).
    apply get_be16_at; [lia|]. unfold zlen. rewrite !length_app. lia. }
  assert (E2 : load (zlen a) 6 buf = Ok (dst p)).
  { replace buf with (a ++ dst p ++ (src p ++ be16 n ++ snap_hdr (h_proto p) ++ file p ++ b)) by (unfold buf, subframe; by flat_app). apply load_at; [done|lia]. }
  assert (E3 : load (zlen a + 6) 6 buf = Ok (src p)).
  { replace buf with ((a ++ dst p) ++ src p ++ (be16 n ++ snap_hdr (h_proto p) ++ file p ++ b)) by (unfold buf, subframe; by flat_app).
    apply load_at; [unfold zlen; rewrite length_app; lia|lia]. }
  assert (E4 : rtw_recv_llc_parse buf (zlen a + ETH_HLEN) n = Ok RTW_RX_LLC_REMOVE).
  { replace buf with ((a ++ dst p ++ src p ++ be16 n) ++ snap_hdr (h_proto p) ++ (file p ++ b)) by (unfold buf, subframe; by flat_app).
    apply llc_parse_snap; [done| |lia]. unfold zlen, ETH_HLEN. rewrite !length_app. cbn [length be16]. lia. }
  assert (E5 : load (zlen a + ETH_HLEN) n buf = Ok (snap_hdr (h_proto p) ++ file p)).
  { replace buf with ((a ++ dst p ++ src p ++ be16 n) ++ (snap_hdr (h_proto p) ++ file p) ++ b) by (unfold buf, subframe; by flat_app).
    apply load_at; unfold n, zlen, ETH_HLEN; rewrite !length_app, ?snap_length; cbn [length be16]; lia. }
  rewrite E1. cbn [mbind res_bind]. rewrite (proj2 (Z.ltb_ge a_len _)) by (unfold ETH_HLEN; lia). rewrite E2, E3. cbn [mbind res_bind].
  rewrite Hv. cbn [negb]. rewrite E4. cbn [mbind res_bind]. rewrite Hs. cbn [negb]. rewrite E5. cbn [mbind res_bind]. rewrite alloc_snap.
  replace (zlen a + ETH_HLEN + n) with (zlen a + zlen (subframe p)) by (unfold ETH_HLEN; lia).
  replace (a_len - ETH_HLEN - n) with (a_len - zlen (subframe p)) by (unfold ETH_HLEN; lia).
  replace (n + ETH_HLEN) with (zlen (subframe p)) by (unfold ETH_HLEN; lia). reflexivity.
Qed.

(** * Parsing what was built *)

Lemma pad_range n : 0 <= pad_len n < 4.
Proof. unfold pad_len. change 3 with (Z.ones 2). rewrite Z.land_ones by lia. change (2 ^ 2) with 4. pose proof (Z.mod_pos_bound n 4). case_match eqn:E; rewrite ?Z.eqb_neq in E; lia. Qed.

Lemma amsdu_pos ps bs : amsdu ps bs -> 22 <= zlen bs.
Proof.
  induction 1 as [p Hp|p pad ps bs Hp Lp _ IH]; [rewrite subframe_length by done; unfold zlen; lia|].
  pose proof (subframe_length p Hp). unfold zlen in *. rewrite !length_app. lia.
Qed.

(** The subframes pass the check of the receiver and there is memory for their packets. *)
Definition accepted (e : amsdu_env) (ps : list xmit_pkt) : Prop :=
  Forall (fun p => validate_amsdu_content e (dst p) (src p) = true) ps /\ forall n, (n < MAX_SUBFRAME_COUNT)%nat -> skb_alloc e n = true.

Lemma amsdu_loop_parses ps bs : amsdu ps bs -> forall fuel e a b pdata subs,
  accepted e ps -> pdata = zlen a -> (length ps < fuel)%nat -> (length subs + length ps <= MAX_SUBFRAME_COUNT)%nat ->
  amsdu_loop fuel e (a ++ bs ++ b) pdata (zlen bs) subs = Ok (subs ++ map eth_frame ps).
Proof.
  induction 1 as [p Hp|p pad ps bs Hp Lp Hs IH]; intros fuel e a b pdata subs [V Al] -> F C; (destruct fuel as [|fuel]; [lia|]);
    apply Forall_cons in V as [V Vs]; cbn [length map] in *.
  - rewrite amsdu_step by (done || (apply Al; lia)). cbv zeta. rewrite Z.sub_diag. unfold truthy. cbn [negb Z.eqb].
    case_bool_decide; [done|]. destruct fuel; [lia|]. done.
  - pose proof (amsdu_pos _ _ Hs) as Pos. assert (1 <= length ps)%nat by (inversion Hs; cbn; lia).
    assert (L : zlen (subframe p ++ pad ++ bs) = zlen (subframe p) + pad_len (zlen (subframe p)) + zlen bs) by (unfold zlen in *; rewrite !length_app; lia).
    pose proof (pad_range (zlen (subframe p))). replace (a ++ (subframe p ++ pad ++ bs) ++ b) with (a ++ subframe p ++ (pad ++ bs ++ b)) by (by flat_app).
    rewrite amsdu_step by (done || lia || (apply Al; lia)). cbv zeta.
    rewrite bool_decide_false by (rewrite length_app; cbn; lia).
    unfold truthy. rewrite (proj2 (Z.eqb_neq _ 0)) by lia. cbn [negb]. rewrite (proj2 (Z.ltb_ge _ _)) by lia.
    replace (zlen (subframe p ++ pad ++ bs) - zlen (subframe p) - pad_len (zlen (subframe p))) with (zlen bs) by lia.
    replace (a ++ subframe p ++ pad ++ bs ++ b) with ((a ++ subframe p ++ pad) ++ bs ++ b) by (by flat_app).
    rewrite (IH fuel e (a ++ subframe p ++ pad) b).
    + by rewrite <- app_assoc.
    + done.
    + unfold zlen in *. rewrite !length_app. lia.
    + lia.
    + rewrite length_app. cbn. lia.
Qed.

(** Where the subframes are: behind the header and the vector, and, if the frame is
    encrypted, before the check value. *)
Record msdu_at (f : rx_frame) (A bs B : list Z) : Prop := mk_msdu_at {
  at_buf : rx_buf f = A ++ bs ++ B; at_ptrs : ptrs_ok f;
  at_hdr : 0 <= rx_hdrlen (attrib f) /\ 0 <= rx_iv_len (attrib f) /\ 0 <= rx_icv_len (attrib f);
  at_start : zlen A = rx_data f + rx_hdrlen (attrib f) + rx_iv_len (attrib f);
  at_len : rx_len f = rx_hdrlen (attrib f) + rx_iv_len (attrib f) + zlen bs + (if truthy (rx_encrypt (attrib f)) then rx_icv_len (attrib f) else 0) }.

Lemma pull_exact sz f : ptrs_ok f -> 0 <= sz <= rx_len f ->
  recvframe_pull sz f = mk_rx_frame (rx_id f) (keytrack f) (attrib f) (rx_len f - sz) (rx_data f + sz) (rx_tail f) (rx_buf f).
Proof. intros (P1 & P2 & P3) Hs. unfold recvframe_pull. rewrite (proj2 (Z.ltb_ge _ _)), u32_small by lia. done. Qed.

Lemma pull_tail_exact sz f : ptrs_ok f -> 0 <= sz <= rx_len f ->
  recvframe_pull_tail sz f = mk_rx_frame (rx_id f) (keytrack f) (attrib f) (rx_len f - sz) (rx_data f) (rx_tail f - sz) (rx_buf f).
Proof. intros (P1 & P2 & P3) Hs. unfold recvframe_pull_tail. rewrite (proj2 (Z.ltb_ge _ _)), u32_small by lia. done. Qed.

Lemma amsdu_to_msdu_at e f A bs B : msdu_at f A bs B -> amsdu_to_msdu e f = amsdu_loop (S (length bs)) e (A ++ bs ++ B) (zlen A) (zlen bs) [].
Proof.
  intros [Eb P (Hh & Hv & Hi) Hs Hl]. unfold amsdu_to_msdu. set (a := attrib f) in *. assert (Hb : 0 <= zlen bs) by (unfold zlen; lia).
  assert (Hc : 0 <= (if truthy (rx_encrypt a) then rx_icv_len a else 0)) by (case_match; lia).
  pose proof (proj1 (pull_ptrs (rx_hdrlen a) f P Hh)) as P1. rewrite (pull_exact (rx_hdrlen a) f P) in * by lia.
  set (f1 := mk_rx_frame _ _ _ _ _ _ _) in *.
  assert (E2 : (if 0 <? rx_iv_len a then recvframe_pull (rx_iv_len a) f1 else f1) = recvframe_pull (rx_iv_len a) f1).
  { destruct (Z.ltb_spec 0 (rx_iv_len a)); [done|]. rewrite pull_exact by (done || cbn; lia). unfold f1. cbn. f_equal; lia. }
  rewrite E2. pose proof (proj1 (pull_ptrs (rx_iv_len a) f1 P1 Hv)) as P2. rewrite (pull_exact (rx_iv_len a) f1 P1) in * by (cbn; lia).
  set (f2 := mk_rx_frame _ _ _ (rx_len f1 - _) _ _ _) in *.
  assert (L2 : rx_len f2 = zlen bs + (if truthy (rx_encrypt a) then rx_icv_len a else 0)) by (unfold f2, f1; cbn [rx_len]; lia).
  assert (D2 : rx_data f2 = zlen A) by (unfold f2, f1; cbn [rx_data]; lia). assert (B2 : rx_buf f2 = A ++ bs ++ B) by done. clearbody f2. clear E2.
  destruct (truthy (rx_encrypt a)).
  - rewrite pull_tail_exact by (done || lia). cbn [rx_len rx_buf rx_data]. rewrite L2, D2, B2, Z.add_simpl_r. do 2 f_equal. unfold zlen. lia.
  - rewrite L2, D2, B2, Z.add_0_r. do 2 f_equal. unfold zlen. lia.
Qed.

Lemma amsdu_length ps bs : amsdu ps bs -> (length ps <= length bs)%nat.
Proof.
  induction 1 as [p Hp|p pad ps bs Hp Lp _ IH]; [pose proof (subframe_length p Hp); unfold zlen in *; cbn; lia|].
  pose proof (subframe_length p Hp). unfold zlen in *. rewrite !length_app. cbn. lia.
Qed.

Lemma amsdu_parses_spec e f A bs B ps :
  msdu_at f A bs B -> amsdu ps bs -> (length ps <= MAX_SUBFRAME_COUNT)%nat -> accepted e ps -> amsdu_to_msdu e f = Ok (map eth_frame ps).
Proof.
  intros At H C V. rewrite (amsdu_to_msdu_at e f A bs B At). apply (amsdu_loop_parses ps bs H); [done|done| |cbn; lia].
  pose proof (amsdu_length ps bs H). lia.
Qed.

(** Every A-MSDU of up to 64 subframes is taken apart into its packets, in their order:
    each becomes an Ethernet frame with the addresses of its subframe, the type from its LLC
    header, and its bytes; padding between subframes may be anything, and what is behind the
    last one (the check value of the cipher) is no part of it. *)
Theorem amsdu_parses e f A bs B ps :
  msdu_at f A bs B -> amsdu ps bs -> (length ps <= MAX_SUBFRAME_COUNT)%nat -> accepted e ps -> amsdu_to_msdu e f = Ok (map eth_frame ps).
Proof. apply amsdu_parses_spec. Qed.

(** * Two packets from the sender to the receiver *)

Lemma put_subframe_spec p i a x b :
  pkt_ok p -> i = zlen a -> zlen x = zlen (subframe p) -> zlen (file p) <= u32 (x_pktlen p) ->
  put_subframe p i (a ++ x ++ b) = Ok (i + zlen (subframe p), 8 + zlen (file p), a ++ subframe p ++ b).
Proof.
  intros Hp -> Lx Hn. rewrite subframe_length in * by done. destruct Hp as [L1 L2 L3 L4]. unfold zlen in Lx.
  destruct (split_buffer 6 x) as (d & x1 & -> & Ld); [lia|]. rewrite length_app in Lx.
  destruct (split_buffer 6 x1) as (s & x2 & -> & Ls); [lia|]. rewrite length_app in Lx.
  destruct (split_buffer 2 x2) as (l & x3 & -> & Ll); [lia|]. rewrite length_app in Lx.
  destruct (split_buffer 8 x3) as (h & m & -> & Lh); [lia|]. rewrite length_app in Lx.
  unfold put_subframe. rewrite <- !app_assoc, (store_at _ (dst p)) by (unfold zlen; lia). cbn [mbind res_bind].
  rewrite (app_assoc a), (store_at _ (src p)) by (unfold zlen; rewrite ?length_app; lia). cbn [mbind res_bind]. unfold rtw_put_snap.
  replace ((a ++ dst p) ++ src p ++ l ++ h ++ m ++ b) with ((a ++ dst p ++ src p ++ l) ++ h ++ m ++ b) by (by flat_app).
  rewrite (store_at _ (snap_hdr _)) by (unfold zlen; rewrite ?length_app, ?snap_length; lia). cbn [mbind res_bind].
  rewrite pktfile_read_all by done. cbn [fst].
  replace ((a ++ dst p ++ src p ++ l) ++ snap_hdr (h_proto p) ++ m ++ b) with ((a ++ dst p ++ src p ++ l ++ snap_hdr (h_proto p)) ++ m ++ b) by (by flat_app).
  rewrite (store_at _ (file p)) by (unfold zlen, SNAP_SIZE in *; rewrite ?length_app, ?snap_length; lia). cbn [mbind res_bind].
  replace ((a ++ dst p ++ src p ++ l ++ snap_hdr (h_proto p)) ++ file p ++ b) with ((a ++ dst p ++ src p) ++ l ++ snap_hdr (h_proto p) ++ file p ++ b) by (by flat_app).
  rewrite (store_at _ (be16 _)) by (unfold zlen; rewrite ?length_app; cbn [length be16]; lia). cbn [mbind res_bind].
  unfold SNAP_SIZE, zlen, subframe. change (6 + 2) with 8. do 2 f_equal; [f_equal; lia|]. by flat_app.
Qed.

Section two_packets.
Context (t : pkt_info) (a : pkt_attrib) (fc0 fc1 : Z) (hr pre post : list Z).
Context (Lpre : length pre = 48%nat) (Lh : zlen (fc0 :: fc1 :: hr) = hdrlen a).
Context (Liv : zlen (p_iv t) = iv_len a) (Licv : zlen (p_icv t) = icv_len a) (Sw : bswenc t = true).

(** What is before the subframes. *)
Definition amsdu_head : list Z := pre ++ (fc0 :: (fc1 .& 0xfb) :: hr) ++ p_iv t.

Lemma head_built giv rest :
  length giv = length (p_iv t) ->
  (buf ← ClearMFrag TXDESC_OFFSET (pre ++ (fc0 :: fc1 :: hr) ++ giv ++ rest);
   if truthy (iv_len a) then store (TXDESC_OFFSET + hdrlen a) (take (Z.to_nat (iv_len a)) (p_iv t)) buf else Ok buf) =
  Ok (amsdu_head ++ rest).
Proof.
  intros Lg. assert (E : TXDESC_OFFSET = zlen pre) by (unfold zlen; rewrite Lpre; done). rewrite E.
  cbn [app]. rewrite ClearMFrag_spec. cbn [mbind res_bind]. unfold amsdu_head. set (h := fc0 :: (fc1 .& 0xfb) :: hr).
  assert (Lh' : zlen h = hdrlen a) by (rewrite <- Lh; done). replace (pre ++ fc0 :: (fc1 .& 0xfb) :: hr ++ giv ++ rest) with ((pre ++ h) ++ giv ++ rest) by (unfold h; by flat_app).
  rewrite (take_ge (p_iv t)) by (unfold zlen in *; lia). unfold truthy. destruct (Z.eqb_spec (iv_len a) 0) as [Z0|]; cbn [negb].
  - destruct (p_iv t); [|unfold zlen in *; cbn in *; lia]. destruct giv; [|done]. by flat_app.
  - rewrite (store_at _ (p_iv t)) by (unfold zlen in *; rewrite ?length_app; lia). by flat_app.
Qed.

Lemma amsdu_head_length : zlen amsdu_head = 48 + hdrlen a + iv_len a.
Proof. unfold amsdu_head. unfold zlen in *. cbn [length] in *. rewrite !length_app. cbn [length]. lia. Qed.

Lemma tail_built b gicv : length gicv = length (p_icv t) ->
  (if (0 <? icv_len a) && bswenc t then store (zlen b) (take (Z.to_nat (icv_len a)) (p_icv t)) (b ++ gicv ++ post) else Ok (b ++ gicv ++ post)) =
  Ok (b ++ p_icv t ++ post).
Proof.
  intros Lg. rewrite Sw, andb_true_r. destruct (Z.ltb_spec 0 (icv_len a)).
  - rewrite take_ge by (unfold zlen in *; lia). by apply store_at.
  - destruct (p_icv t); [|unfold zlen in *; cbn in *; lia]. by destruct gicv.
Qed.

Lemma coalesce_two q p space :
  pkt_ok q -> pkt_ok p -> zlen (file q) <= u32 (x_pktlen q) -> zlen (file p) <= u32 (x_pktlen p) ->
  zlen space = iv_len a + zlen (subframe q) + pad_len (zlen (subframe q)) + zlen (subframe p) + icv_len a ->
  exists pad, zlen pad = pad_len (zlen (subframe q)) /\
    coalesce_amsdu t a (Some q) p (pre ++ (fc0 :: fc1 :: hr) ++ space ++ post) =
    Ok (set_frags 1 (hdrlen a + iv_len a + zlen (subframe q ++ pad ++ subframe p) + icv_len a) a,
        amsdu_head ++ (subframe q ++ pad ++ subframe p) ++ p_icv t ++ post).
Proof.
  intros Hq Hp Nq Np Lsp. pose proof (pad_range (zlen (subframe q))) as Rp. set (pn := pad_len (zlen (subframe q))) in *. unfold zlen in Lsp, Liv, Licv.
  destruct (split_buffer (length (p_iv t)) space) as (giv & s1 & -> & L1); [lia|]. rewrite length_app in Lsp.
  destruct (split_buffer (length (subframe q)) s1) as (gq & s2 & -> & L2); [lia|]. rewrite length_app in Lsp.
  destruct (split_buffer (Z.to_nat pn) s2) as (pad & s3 & -> & L3); [unfold zlen in *; lia|]. rewrite length_app in Lsp.
  destruct (split_buffer (length (subframe p)) s3) as (gp & gicv & -> & L4); [unfold zlen in *; lia|]. rewrite length_app in Lsp.
  exists pad. split; [unfold zlen; lia|]. unfold coalesce_amsdu. pose proof (head_built giv (gq ++ pad ++ gp ++ gicv ++ post) L1) as Hd.
  rewrite <- !app_assoc. destruct (ClearMFrag _ _) as [| | |b0]; try done. cbn [mbind res_bind] in Hd |- *. rewrite Hd. clear Hd. cbn [mbind res_bind].
  pose proof amsdu_head_length as Lhd. set (A := amsdu_head) in *.
  rewrite (put_subframe_spec q _ A gq) by (done || unfold TXDESC_OFFSET, zlen in *; lia). cbn [mbind res_bind].
  pose proof (subframe_length q Hq) as Sq. pose proof (subframe_length p Hp) as Sp.
  replace (ETH_HLEN + (8 + zlen (file q))) with (zlen (subframe q)) by (unfold ETH_HLEN; lia). fold (pad_len (zlen (subframe q))). fold pn.
  replace (A ++ subframe q ++ pad ++ gp ++ gicv ++ post) with ((A ++ subframe q ++ pad) ++ gp ++ gicv ++ post) by (by flat_app).
  rewrite (put_subframe_spec p _ (A ++ subframe q ++ pad) gp) by (done || unfold TXDESC_OFFSET, zlen in *; rewrite ?length_app; lia).
  cbn [mbind res_bind]. rewrite app_assoc.
  match goal with |- context [store ?i _ _] => replace i with (zlen ((A ++ subframe q ++ pad) ++ subframe p)) by (unfold TXDESC_OFFSET, zlen in *; rewrite !length_app; lia) end.
  rewrite tail_built by (unfold zlen in *; lia). cbn [mbind res_bind]. rewrite Sw. do 2 f_equal.
  - f_equal. unfold ETH_HLEN, zlen in *. rewrite !length_app. lia.
  - by flat_app.
Qed.
End two_packets.

(** C25: Two packets in one A-MSDU. What the sender puts together for two packets (the two
    subframes with their lengths and LLC headers and the padding between them) is taken apart
    by any receiver that finds these bytes behind a header and a vector and whose checks pass,
    into exactly the two Ethernet frames, the one that was queued first. *)
Theorem amsdu_roundtrip t a q p fc0 fc1 hr pre space post :
  length pre = 48%nat -> zlen (fc0 :: fc1 :: hr) = hdrlen a -> zlen (p_iv t) = iv_len a -> zlen (p_icv t) = icv_len a -> bswenc t = true ->
  pkt_ok q -> pkt_ok p -> zlen (file q) <= u32 (x_pktlen q) -> zlen (file p) <= u32 (x_pktlen p) ->
  zlen space = iv_len a + zlen (subframe q) + pad_len (zlen (subframe q)) + zlen (subframe p) + icv_len a ->
  exists bs, coalesce_amsdu t a (Some q) p (pre ++ (fc0 :: fc1 :: hr) ++ space ++ post) =
      Ok (set_frags 1 (hdrlen a + iv_len a + zlen bs + icv_len a) a, pre ++ (fc0 :: (fc1 .& 0xfb) :: hr) ++ p_iv t ++ bs ++ p_icv t ++ post) /\
    forall e f A B, msdu_at f A bs B -> accepted e [q; p] -> amsdu_to_msdu e f = Ok [eth_frame q; eth_frame p].
Proof.
  intros Lp Lh Liv Licv Sw Hq Hp Nq Np Lsp.
  destruct (coalesce_two t a fc0 fc1 hr pre post Lp Lh Liv Licv Sw q p space Hq Hp Nq Np Lsp) as (pad & Lpad & E).
  exists (subframe q ++ pad ++ subframe p). split; [rewrite E; unfold amsdu_head; do 2 f_equal; by flat_app|].
  intros e f A B At Acc. apply (amsdu_parses_spec e f A (subframe q ++ pad ++ subframe p) B [q; p]); [done| |cbn; unfold MAX_SUBFRAME_COUNT; lia|done].
  apply amsdu_more; [done..|]. by apply amsdu_last.
Qed.

(** * A frame with one packet *)

(** What is between the vector and the check value of the cipher. *)
Definition msdu_of (f : rx_frame) : res (list Z) :=
  let a := attrib f in
  load (rx_data f + rx_hdrlen a + rx_iv_len a) (rx_len f - rx_hdrlen a - rx_iv_len a - (if truthy (rx_encrypt a) then rx_icv_len a else 0)) (rx_buf f).

(** What the parser of the LLC header says about these bytes. *)
Definition llc_of (m : list Z) : rtw_rx_llc_hdl :=
  if bool_decide (length m < 8)%nat then RTW_RX_LLC_KEEP
  else
    let eth_type := u16 ((tbl m 6 .<< 8) .| tbl m 7) in
    if bool_decide (take 6 m = rtw_rfc1042_header) && negb (eth_type =? ETH_P_AARP) && negb (eth_type =? ETH_P_IPX)
      || bool_decide (take 6 m = rtw_bridge_tunnel_header)
    then RTW_RX_LLC_REMOVE else RTW_RX_LLC_KEEP.

Lemma llc_of_long m : llc_of m = RTW_RX_LLC_REMOVE -> (8 <= length m)%nat.
Proof. unfold llc_of. case_bool_decide; [done|lia]. Qed.

Lemma llc_parse_load buf i n m : load i n buf = Ok m -> rtw_recv_llc_parse buf i n = Ok (llc_of m).
Proof.
  intros E. destruct (load_inv _ _ _ _ E) as (A & B & -> & -> & ->). unfold rtw_recv_llc_parse, llc_of.
  destruct (Z.ltb_spec (Z.of_nat (length m)) 8); [by rewrite bool_decide_true by lia|]. rewrite bool_decide_false by lia.
  destruct (split_buffer 6 m) as (o & m1 & -> & Lo); [lia|]. rewrite length_app in *.
  destruct m1 as [|x [|y m1]]; [cbn in *; lia..|]. rewrite take_app_len by done.
  assert (E6 : tbl (o ++ x :: y :: m1) 6 = x) by (unfold tbl; change (Z.to_nat 6) with 6%nat; rewrite lookup_app_r, Lo by lia; done).
  assert (E7 : tbl (o ++ x :: y :: m1) 7 = y) by (unfold tbl; change (Z.to_nat 7) with 7%nat; rewrite lookup_app_r, Lo by lia; done).
  rewrite E6, E7. unfold get_be16.
  replace (A ++ (o ++ x :: y :: m1) ++ B) with ((A ++ o) ++ [x; y] ++ m1 ++ B) by (by flat_app).
  rewrite (load_at _ 2 (A ++ o) [x; y]) by (rewrite ?length_app; unfold SNAP_SIZE; cbn; lia). cbn [mbind res_bind].
  replace ((A ++ o) ++ [x; y] ++ m1 ++ B) with (A ++ o ++ [x; y] ++ m1 ++ B) by (by flat_app).
  rewrite !same_at_app by (done || rewrite Lo; done). cbn [mbind res_bind].
  change (tbl [x; y] 0) with x. change (tbl [x; y] 1) with y. by destruct (_ && _ && _); [|destruct (bool_decide _)].
Qed.

Lemma split_last n (b : list Z) : (n <= length b)%nat -> exists x y, b = x ++ y /\ length y = n.
Proof. intros H. destruct (split_buffer (length b - n) b) as (x & y & -> & L); [lia|]. rewrite length_app in *. exists x, y. split; [done|lia]. Qed.

(** The header is written before what is kept: [n] bytes, of which the last two stay if
    there is no length to write. *)
Lemma header_written A B d s keep (l : option Z) i buf :
  (14 <= length A)%nat -> length d = 6%nat -> length s = 6%nat -> buf = A ++ keep ++ B ->
  i = Z.of_nat (length A) - (match l with Some _ => 14 | None => 12 end) ->
  exists A', (buf ← store i d buf; buf ← store (i + 6) s buf; match l with None => Ok buf | Some v => store (i + 12) (be16 v) buf end) =
    Ok (A' ++ (d ++ s ++ (match l with Some v => be16 v | None => [] end) ++ keep) ++ B) /\ i = Z.of_nat (length A').
Proof.
  intros LA Ld Ls -> Hi. destruct (split_last (match l with Some _ => 14 | None => 12 end) A) as (A' & gap & -> & Lg); [by destruct l; lia|].
  rewrite length_app, Lg in *. destruct (split_buffer 6 gap) as (g1 & g2 & -> & L1); [by destruct l; lia|]. rewrite length_app in Lg.
  destruct (split_buffer 6 g2) as (g3 & g4 & -> & L3); [by destruct l; lia|]. rewrite length_app in Lg.
  assert (Hi' : i = Z.of_nat (length A')) by (destruct l; lia). exists A'. split; [|done].
  replace ((A' ++ g1 ++ g3 ++ g4) ++ keep ++ B) with (A' ++ g1 ++ g3 ++ g4 ++ keep ++ B) by (by flat_app).
  rewrite (store_at _ d) by (done || lia). cbn [mbind res_bind].
  rewrite (app_assoc A' d), (store_at _ s) by (rewrite ?length_app; lia). cbn [mbind res_bind]. destruct l as [v|].
  - replace ((A' ++ d) ++ s ++ g4 ++ keep ++ B) with ((A' ++ d ++ s) ++ g4 ++ keep ++ B) by (by flat_app).
    rewrite (store_at _ (be16 v)) by (rewrite ?length_app; cbn [length be16]; lia). f_equal. by flat_app.
  - destruct g4; [|cbn in Lg; lia]. f_equal. by flat_app.
Qed.

Lemma process_msdu_spec d s f m :
  ptrs_ok f -> 14 <= rx_hdrlen (attrib f) + rx_iv_len (attrib f) < 65536 -> 0 <= rx_icv_len (attrib f) -> zlen m < 65536 ->
  length d = 6%nat -> length s = 6%nat -> msdu_of f = Ok m ->
  exists g, process_msdu d s f = Ok g /\ rx_id g = rx_id f /\ load (rx_data g) (rx_len g) (rx_buf g) = Ok (rtw_os_alloc_msdu_pkt d s m (llc_of m)).
Proof.
  intros P Hv Hi Hd Ld Ls. unfold msdu_of, process_msdu. set (a := attrib f) in *.
  set (ic := if truthy (rx_encrypt a) then rx_icv_len a else 0). assert (Hic : 0 <= ic) by (unfold ic; case_match; lia).
  set (hv := rx_hdrlen a + rx_iv_len a) in *. replace (rx_data f + rx_hdrlen a + rx_iv_len a) with (rx_data f + hv) by (unfold hv; lia).
  replace (rx_len f - rx_hdrlen a - rx_iv_len a) with (rx_len f - hv) by (unfold hv; lia). intros E.
  destruct (load_inv _ _ _ _ E) as (A & B & Eb & EA & EL). unfold zlen in Hd.
  rewrite u16_small by lia. rewrite (llc_parse_load _ _ _ _ E). cbn [mbind res_bind]. clear E. unfold wlanhdr_to_ethhdr. fold a hv.
  assert (Er : (if truthy (rx_encrypt a) then recvframe_pull_tail (rx_icv_len a) f else f) =
    mk_rx_frame (rx_id f) (keytrack f) (attrib f) (rx_len f - ic) (rx_data f) (rx_tail f - ic) (rx_buf f)).
  { unfold ic in *. destruct (truthy (rx_encrypt a)); [apply pull_tail_exact; [done|lia]|]. rewrite !Z.sub_0_r. by destruct f. }
  rewrite Er. clear Er. destruct P as (P1 & P2 & P3). unfold rx_end in P2. rewrite Eb, !length_app in P2. unfold SNAP_SIZE.
  cbn [rx_tail rx_data rx_len rx_buf]. assert (LA : (14 <= length A)%nat) by lia.
  destruct (llc_of m) eqn:Em; cbn [rtw_os_alloc_msdu_pkt].
  - rewrite s32_small by lia. unfold recvframe_pull. cbn [rx_tail rx_data rx_len rx_buf rx_id keytrack attrib]. rewrite (proj2 (Z.ltb_ge _ _)) by lia.
    cbn [rx_data rx_buf]. rewrite u32_small, (u16_small (_ - _)) by lia.
    destruct (header_written A B d s m (Some (rx_len f - ic - (hv + 0))) (rx_data f + (hv + 0 - 14 + 0)) (rx_buf f) LA Ld Ls Eb) as (A' & E & EA'); [lia|].
    destruct (store _ d _) as [| | |b1]; try done. cbn [mbind res_bind] in E |- *. destruct (store _ s _) as [| | |b2]; try done. cbn [mbind res_bind] in E |- *.
    rewrite E. cbn [mbind res_bind]. eexists. split; [done|]. split; [done|]. cbn [with_buf rx_data rx_len rx_buf].
    replace (rx_len f - ic - (hv + 0)) with (Z.of_nat (length m)) by lia. apply load_at; [done|]. rewrite !length_app. cbn [length be16]. lia.
  - pose proof (llc_of_long m Em) as L8. rewrite s32_small by lia. unfold recvframe_pull. cbn [rx_tail rx_data rx_len rx_buf rx_id keytrack attrib].
    rewrite (proj2 (Z.ltb_ge _ _)) by lia. cbn [rx_data rx_buf]. rewrite u32_small by lia.
    destruct (split_buffer 6 m) as (o & keep & -> & Lo); [lia|]. rewrite length_app in *. rewrite drop_app_len by done.
    destruct (header_written (A ++ o) B d s keep None (rx_data f + (hv + 6 - 14 + 2)) (rx_buf f)) as (A' & E & EA'); [rewrite length_app; lia|done|done|by rewrite Eb; flat_app|rewrite length_app; lia|].
    destruct (store _ d _) as [| | |b1]; try done. cbn [mbind res_bind] in E |- *. destruct (store _ s _) as [| | |b2]; try done. cbn [mbind res_bind] in E |- *.
    injection E as ->. eexists. split; [done|]. split; [done|]. cbn [with_buf rx_data rx_len rx_buf app]. apply load_at; [done|]. rewrite !length_app. lia.
Qed.

(** * TKIP from the sender to the receiver *)

Lemma alloc_snap_bytes d s h data : rtw_os_alloc_msdu_pkt d s (snap_hdr h ++ data) RTW_RX_LLC_REMOVE = d ++ s ++ be16 h ++ data.
Proof. exact (alloc_snap (mk_xmit_pkt d s h 0 data)). Qed.

Lemma llc_of_snap h data : 0 <= h < 65536 -> llc_of (snap_hdr h ++ data) = RTW_RX_LLC_REMOVE.
Proof.
  intros Hh. pose proof (llc_parse_snap h [] data 0 (zlen (snap_hdr h ++ data)) Hh eq_refl) as E. cbn [app] in E.
  rewrite (llc_parse_load _ _ _ (snap_hdr h ++ data)) in E.
  - injection E; [done|]. unfold zlen. rewrite length_app, snap_length. lia.
  - pose proof (load_app [] (snap_hdr h ++ data) []) as L. rewrite app_nil_r in L. exact L.
Qed.

Lemma tkip_mpdu_length k hdr iv body mic : length mic = 8%nat -> zlen (tkip_mpdu k hdr iv body mic) = zlen hdr + zlen iv + zlen body + 12.
Proof. intros L. unfold tkip_mpdu, sealed. cbn [f_hdr f_iv f_body]. unfold zlen. rewrite !length_app, rc4_length, !length_app, L. cbn [length icv]. lia. Qed.

(** C2: A packet under TKIP arrives. The sender puts the packet into a frame behind the LLC
    header, adds Michael and encrypts it; any receiver that has the same temporal key and
    the same key for the code decrypts it, finds both check values right, and makes of it
    the Ethernet frame with the addresses that it has found in the header, the type of the
    packet, and its bytes, unchanged. *)
Theorem tkip_delivery d sa mickey pri s ra ta uncst t a base file pre space post fc0 fc1 dur a1 a2 a3 seq ext :
  let hr := dur ++ a1 ++ a2 ++ a3 ++ seq ++ ext in
  length pre = 48%nat -> base mod 4 = 0 -> zlen (fc0 :: fc1 :: hr) = hdrlen a -> zlen (p_iv t) = 8 -> iv_len a = 8 -> zlen (p_icv t) = 4 -> icv_len a = 4 ->
  one_fragment t a file -> zlen space = 8 + 8 + zlen file + 4 + 8 -> bswenc t = true ->
  take 16 mickey <> replicate 16 0 -> bytes mickey -> is_byte pri -> length dur = 2%nat -> length seq = 2%nat ->
  Forall (fun a => length a = 6%nat) [a1; a2; a3] -> Forall bytes [a1; a2; a3; ext; p_iv t; file] ->
  0 <= ether_type t < 65536 -> hdrlen a < 65500 -> 8 + zlen file < 65536 -> length d = 6%nat -> length sa = 6%nat ->
  let tk := if IS_MCAST ra then group_key s (dot118021XGrpKeyid s) else uncst in
  exists a' mpdu, coalesce_tkip mickey pri s ra ta uncst t a base file (pre ++ (fc0 :: fc1 :: hr) ++ space ++ post) = Ok (a', pre ++ mpdu ++ post) /\
    nr_frags a' = 1 /\ last_txcmdsz a' = zlen mpdu /\
    forall s' r f sta uncst' A B,
      rx_buf f = A ++ mpdu ++ B -> rx_data f = zlen A -> rx_len f = zlen mpdu -> rx_tail f = zlen A + zlen mpdu -> rx_end f < 4294967296 ->
      rx_hdrlen (attrib f) = hdrlen a -> rx_iv_len (attrib f) = 8 -> rx_icv_len (attrib f) = 4 -> rx_encrypt (attrib f) = _TKIP_ ->
      rx_mfrag (attrib f) = false -> rx_frag_num (attrib f) = 0 -> rx_privacy (attrib f) = true -> rx_priority (attrib f) = pri -> rx_ta (attrib f) = ta ->
      IS_MCAST (rx_ra (attrib f)) && negb (binstallGrpkey s') = false -> rx_key s' uncst' (rx_ra (attrib f)) (rx_key_index (attrib f)) = tk ->
      IS_MCAST (rx_ra (attrib f)) && negb (rx_grpkey r) = false -> rtw_get_stainfo r ta = Some sta -> mic_key r sta (attrib f) = mickey ->
      exists buf r' g g',
        rtw_tkip_decrypt true s' (Some uncst') (rx_ra (attrib f)) ta (rx_key_index (attrib f)) (hdrlen a) 8 (rx_len f) (rx_data f) (rx_buf f) = Ok (buf, true) /\
        recvframe_chk_defrag r (with_buf buf f) = Ok (r', Some g) /\ rx_id g' = rx_id f /\
        process_msdu d sa g = Ok g' /\ load (rx_data g') (rx_len g') (rx_buf g') = Ok (d ++ sa ++ be16 (ether_type t) ++ file).
Proof.
  intros hr Lp Hb Lh Liv L8 Licv L4 One Lsp Sw Hk Bk Hp Ld Ls La Ba Ht Hl Hf L6 L6' tk.
  destruct (send_one mickey pri s ra ta uncst t a base file pre space post fc0 fc1 dur a1 a2 a3 seq ext
    Lp Hb Lh Liv L8 Licv L4 One Lsp Sw Hk Bk Hp Ld Ls La Ba) as (mic & Em & Lm & Esend).
  fold hr tk in Esend. set (mpdu := tkip_mpdu _ _ _ _ _) in Esend. eexists _, mpdu. split; [exact Esend|]. split; [done|]. split.
  { cbn [last_txcmdsz set_frags]. unfold mpdu. rewrite tkip_mpdu_length by done. unfold zlen in *. cbn [length] in *. rewrite !length_app, snap_length. lia. }
  intros s' r f sta uncst' A B Eb Ed El Et Esz Eh Ei Ec Ee Em0 Ef Epr Epri Eta Hg Ekey Hg' Esta Emk.
  rewrite <- Eta in Esta. subst pri mickey.
  assert (Ln : length (p_iv t) = 8%nat) by (unfold zlen in Liv; lia).
  assert (Lh' : zlen (fc0 :: final_fc1 fc1 :: hr) = hdrlen a) by (rewrite <- Lh; done).
  destruct (receive_one s' r f sta uncst' tk ta A B (fc0 :: final_fc1 fc1 :: hr) (p_iv t) (snap_hdr (ether_type t) ++ file) mic
    fc0 (final_fc1 fc1) dur a1 a2 a3 seq (take 6 (ext ++ p_iv t)) (drop 6 (ext ++ p_iv t))) as (buf & r' & g & Dec & Chk & Id & At & Pg & Ld');
    try done; try (by rewrite Lh').
  - apply wlan_hdr_split. rewrite length_app. lia.
  - rewrite !Forall_cons in La. destruct La as (L1 & L2 & L3 & _). repeat constructor; try done.
    rewrite length_take, length_app. lia.
  - rewrite !Forall_cons in Ba. destruct Ba as (B1 & B2 & B3 & Bext & Biv & _). repeat constructor; try done.
    apply Forall_take, Forall_app; done.
  - rewrite !Forall_cons in Ba. apply Forall_app; split; [apply snap_bytes|apply Ba].
  - rewrite Lh' in *. assert (Lr : 24 <= hdrlen a).
    { rewrite !Forall_cons in La. destruct La as (L1 & L2 & L3 & _). rewrite <- Lh. unfold hr, zlen. cbn [length]. rewrite !length_app. lia. }
    destruct (process_msdu_spec d sa g (snap_hdr (ether_type t) ++ file)) as (g' & Ep & Id' & Lg'); try done.
    + rewrite At, Eh, Ei. lia.
    + rewrite At, Ec. lia.
    + unfold zlen in *. rewrite length_app, snap_length. lia.
    + unfold msdu_of. rewrite At, Eh, Ei, Ec, Ee. exact Ld'.
    + exists buf, r', g, g'. rewrite Id', Lg', llc_of_snap, alloc_snap_bytes by done. done.
Qed.

(** * Examples *)

Definition any_env : amsdu_env := mk_amsdu_env false false 0 [] [] (fun _ => true).
(** A frame whose 24 bytes of header are followed by [bs], without a cipher. *)
Definition amsdu_rx (bs : list Z) : rx_frame :=
  mk_rx_frame 1 0 (mk_rx_attrib 24 0 0 0 false false 7 0 false true 0 0 (replicate 6 2) (replicate 6 4)) (24 + zlen bs) 0 (24 + zlen bs) (replicate 24 0 ++ bs).
Definition packet_1 : xmit_pkt := mk_xmit_pkt (replicate 6 1) (replicate 6 2) 0x0800 5 (seqZ 10 5).
Definition packet_2 : xmit_pkt := mk_xmit_pkt (replicate 6 3) (replicate 6 4) 0x86dd 3 (seqZ 20 3).

Lemma amsdu_rx_ptrs bs : zlen bs < 4000000000 -> ptrs_ok (amsdu_rx bs).
Proof.
  unfold ptrs_ok, rx_end, amsdu_rx, zlen. cbn [rx_data rx_tail rx_len rx_buf]. intros H. rewrite length_app, length_replicate. lia.
Qed.

Lemma amsdu_rx_at bs : zlen bs < 4000000000 -> msdu_at (amsdu_rx bs) (replicate 24 0) bs [].
Proof. intros H. split; [by rewrite app_nil_r|by apply amsdu_rx_ptrs|cbn; lia|done|cbn [amsdu_rx attrib rx_hdrlen rx_iv_len rx_encrypt rx_len truthy Z.eqb negb]; lia]. Qed.

Lemma any_accepts ps : accepted any_env ps.
Proof. split; [|done]. apply Forall_true. done. Qed.

(** Bytes that are no subframes. *)
Lemma amsdu_terminates_witness :
  exists out, amsdu_to_msdu any_env (amsdu_rx (replicate 100 0)) = Ok out /\ (length out <= MAX_SUBFRAME_COUNT)%nat /\ total out <= 124.
Proof. apply (amsdu_terminates any_env (amsdu_rx (replicate 100 0))); [by apply amsdu_rx_ptrs|done|done]. Defined.

Lemma amsdu_parses_witness :
  amsdu_to_msdu any_env (amsdu_rx (subframe packet_1 ++ [9] ++ subframe packet_2)) =
  Ok [replicate 6 1 ++ replicate 6 2 ++ [8; 0] ++ seqZ 10 5; replicate 6 3 ++ replicate 6 4 ++ [0x86; 0xdd] ++ seqZ 20 3].
Proof.
  apply (amsdu_parses any_env _ (replicate 24 0) (subframe packet_1 ++ [9] ++ subframe packet_2) [] [packet_1; packet_2]).
  - by apply amsdu_rx_at.
  - apply amsdu_more; [by split|reflexivity|]. apply amsdu_last. by split.
  - cbn. unfold MAX_SUBFRAME_COUNT. lia.
  - apply any_accepts.
Defined.

Definition amsdu_attrib : pkt_attrib := mk_pkt_attrib 24 0 0 0 0 500.
Definition amsdu_info : pkt_info := mk_pkt_info [] [] 0x0800 true false 0.

Lemma amsdu_roundtrip_witness :
  exists a bs, coalesce_amsdu amsdu_info amsdu_attrib (Some packet_1) packet_2 (replicate 48 0 ++ two_hdr ++ replicate 53 0 ++ []) =
    Ok (a, replicate 48 0 ++ two_hdr ++ [] ++ bs ++ [] ++ []) /\
    amsdu_to_msdu any_env (amsdu_rx bs) =
      Ok [replicate 6 1 ++ replicate 6 2 ++ [8; 0] ++ seqZ 10 5; replicate 6 3 ++ replicate 6 4 ++ [0x86; 0xdd] ++ seqZ 20 3].
Proof.
  destruct (amsdu_roundtrip amsdu_info amsdu_attrib packet_1 packet_2 8 1 (drop 2 two_hdr) (replicate 48 0) (replicate 53 0) []) as (bs & E & R);
    [reflexivity..|by split|by split|done|done|reflexivity|].
  exists (set_frags 1 (24 + 0 + zlen bs + 0) amsdu_attrib), bs. split; [exact E|]. apply (R any_env (amsdu_rx bs) (replicate 24 0) []); [|apply any_accepts].
  apply amsdu_rx_at. assert (B : match coalesce_amsdu amsdu_info amsdu_attrib (Some packet_1) packet_2 (replicate 48 0 ++ two_hdr ++ replicate 53 0 ++ []) with
    | Ok (_, b) => (length b <=? 200)%nat | _ => false end = true) by (vm_compute; reflexivity).
  change (8 :: 1 :: drop 2 two_hdr) with two_hdr in E. rewrite E in B. apply Nat.leb_le in B. rewrite !length_app in B. unfold zlen. lia.
Defined.

(** A receiver that gets [mpdu] from the sender of the example. *)
Definition delivery_rx (mpdu : list Z) : rx_frame :=
  mk_rx_frame 5 0 (mk_rx_attrib 24 8 4 _TKIP_ true true 0 0 false false 0 0 (replicate 6 2) (replicate 6 4)) (zlen mpdu) 0 (zlen mpdu) mpdu.
Definition delivery_state : rx_state := mk_rx_state {[replicate 6 4 := mk_sta 0 [] (replicate 16 1)]} false false [] 0 [] [].

Lemma tkip_delivery_witness :
  exists a' mpdu buf r' g g',
    coalesce_tkip (replicate 16 1) 0 sample_sec (replicate 6 2) (replicate 6 4) (seqZ 0 16) two_info (mk_pkt_attrib 24 8 4 0 0 500) 0
      (seqZ 100 30) (replicate 48 0 ++ two_hdr ++ replicate 58 0 ++ []) = Ok (a', replicate 48 0 ++ mpdu ++ []) /\
    rtw_tkip_decrypt true sample_sec (Some (seqZ 0 16)) (replicate 6 2) (replicate 6 4) 0 24 8 (zlen mpdu) 0 mpdu = Ok (buf, true) /\
    recvframe_chk_defrag delivery_state (with_buf buf (delivery_rx mpdu)) = Ok (r', Some g) /\
    process_msdu (replicate 6 7) (replicate 6 8) g = Ok g' /\
    load (rx_data g') (rx_len g') (rx_buf g') = Ok (replicate 6 7 ++ replicate 6 8 ++ [8; 0] ++ seqZ 100 30).
Proof.
  destruct (tkip_delivery (replicate 6 7) (replicate 6 8) (replicate 16 1) 0 sample_sec (replicate 6 2) (replicate 6 4) (seqZ 0 16) two_info (mk_pkt_attrib 24 8 4 0 0 500) 0
    (seqZ 100 30) (replicate 48 0) (replicate 58 0) [] 8 1 [0; 0] (replicate 6 2) (replicate 6 4) (replicate 6 6) [0; 0] []) as (a' & mpdu & E & N & Sz & R).
  1-22: first [reflexivity | split; vm_compute; done | by repeat constructor | apply (bool_decide_eq_true_1 _); vm_compute; reflexivity | vm_compute; discriminate ].
  assert (B : match coalesce_tkip (replicate 16 1) 0 sample_sec (replicate 6 2) (replicate 6 4) (seqZ 0 16) two_info (mk_pkt_attrib 24 8 4 0 0 500) 0
      (seqZ 100 30) (replicate 48 0 ++ two_hdr ++ replicate 58 0 ++ []) with Ok (_, b) => (length b <=? 200)%nat | _ => false end = true) by (vm_compute; reflexivity).
  change (8 :: 1 :: [0; 0] ++ replicate 6 2 ++ replicate 6 4 ++ replicate 6 6 ++ [0; 0] ++ []) with two_hdr in E.
  rewrite E in B. apply Nat.leb_le in B. rewrite !length_app in B.
  destruct (R sample_sec delivery_state (delivery_rx mpdu) (mk_sta 0 [] (replicate 16 1)) (seqZ 0 16) [] []) as (buf & r' & g & g' & D & C & _ & P & L).
  1: by rewrite app_nil_r.
  1-3: reflexivity.
  1: unfold rx_end, zlen; cbn; lia.
  1-14: reflexivity.
  exists a', mpdu, buf, r', g, g'. split; [exact E|]. split; [exact D|]. split; [exact C|]. split; [exact P|exact L].
Defined.

(** The check of the contents looks at every subframe, and the packets before a bad one are
    kept. *)
Example amsdu_keeps_before_bad :
  amsdu_to_msdu (mk_amsdu_env true true 0 [] [] (fun _ => true))
    (amsdu_rx (subframe packet_1 ++ [0] ++ subframe (mk_xmit_pkt rtw_rfc1042_header (replicate 6 4) 0x0800 3 (seqZ 20 3)))) =
  Ok [replicate 6 1 ++ replicate 6 2 ++ [8; 0] ++ seqZ 10 5].
Proof. vm_compute. reflexivity. Qed.
