(* ===== verification/WifiRx.v ===== *)
(** The path of a data frame in a station ([core/rtw_recv.c], [core/rtw_security.c],
    [include/rtw_security.h]): its header and the checks on it, the choice of the cipher and
    of the key, decryption, and the port of IEEE 802.1X. *)

From stdpp Require Import fin_maps gmap.
From S2P Require Import Prelude WifiReorder Mem WifiAes WifiAead WifiCcmp WifiWep WifiTkip WifiFrag WifiXmit WifiMsdu.

(** * Headers *)

(** What the header says besides the attributes in [rx_attrib]. *)
Record rx_hdr_info := mk_rx_hdr_info {
  h_to_fr_ds : Z; h_order : bool; h_amsdu : bool; h_ack_policy : Z; h_dst : list Z; h_src : list Z; h_bssid : list Z }.

Definition with_addrs (ra ta : list Z) (f : rx_frame) : rx_frame :=
  let a := attrib f in
  mk_rx_frame (rx_id f) (keytrack f)
    (mk_rx_attrib (rx_hdrlen a) (rx_iv_len a) (rx_icv_len a) (rx_encrypt a) (rx_privacy a) (rx_bdecrypted a) (rx_seq_num a) (rx_frag_num a)
      (rx_mfrag a) (rx_qos a) (rx_priority a) (rx_key_index a) ra ta) (rx_len f) (rx_data f) (rx_tail f) (rx_buf f).
Definition with_qos (priority hdrlen : Z) (f : rx_frame) : rx_frame :=
  let a := attrib f in
  mk_rx_frame (rx_id f) (keytrack f)
    (mk_rx_attrib hdrlen (rx_iv_len a) (rx_icv_len a) (rx_encrypt a) (rx_privacy a) (rx_bdecrypted a) (rx_seq_num a) (rx_frag_num a)
      (rx_mfrag a) (rx_qos a) priority (rx_key_index a) (rx_ra a) (rx_ta a)) (rx_len f) (rx_data f) (rx_tail f) (rx_buf f).
Definition with_cipher (encrypt iv_len icv_len : Z) (f : rx_frame) : rx_frame :=
  let a := attrib f in
  mk_rx_frame (rx_id f) (keytrack f)
    (mk_rx_attrib (rx_hdrlen a) iv_len icv_len encrypt (rx_privacy a) (rx_bdecrypted a) (rx_seq_num a) (rx_frag_num a)
      (rx_mfrag a) (rx_qos a) (rx_priority a) (rx_key_index a) (rx_ra a) (rx_ta a)) (rx_len f) (rx_data f) (rx_tail f) (rx_buf f).
Definition with_key_index (key_index : Z) (f : rx_frame) : rx_frame :=
  let a := attrib f in
  mk_rx_frame (rx_id f) (keytrack f)
    (mk_rx_attrib (rx_hdrlen a) (rx_iv_len a) (rx_icv_len a) (rx_encrypt a) (rx_privacy a) (rx_bdecrypted a) (rx_seq_num a) (rx_frag_num a)
      (rx_mfrag a) (rx_qos a) (rx_priority a) key_index (rx_ra a) (rx_ta a)) (rx_len f) (rx_data f) (rx_tail f) (rx_buf f).
Definition with_bdecrypted (f : rx_frame) : rx_frame :=
  let a := attrib f in
  mk_rx_frame (rx_id f) (keytrack f)
    (mk_rx_attrib (rx_hdrlen a) (rx_iv_len a) (rx_icv_len a) (rx_encrypt a) (rx_privacy a) true (rx_seq_num a) (rx_frag_num a)
      (rx_mfrag a) (rx_qos a) (rx_priority a) (rx_key_index a) (rx_ra a) (rx_ta a)) (rx_len f) (rx_data f) (rx_tail f) (rx_buf f).

Definition get_le16 (buf : list Z) (i : Z) : res Z := bs ← load i 2 buf; Ok (tbl bs 0 .| (tbl bs 1 .<< 8)).

Definition WLAN_HDR_A3_LEN : Z := 24.
Definition WLAN_HDR_A3_QOS_LEN : Z := 26.
Definition LLC_HEADER_SIZE : Z := 6.

Definition GetToDs (fc : Z) : bool := Z.testbit fc 8.
Definition GetFrDs (fc : Z) : bool := Z.testbit fc 9.
Definition GetMFrag (fc : Z) : bool := Z.testbit fc 10.
Definition GetPrivacy (fc : Z) : bool := Z.testbit fc 14.
Definition GetOrder (fc : Z) : bool := Z.testbit fc 15.
Definition get_tofr_ds (fc : Z) : Z := (b2z (GetFrDs fc) .<< 1) .| b2z (GetToDs fc).
Definition GetSequence (sc : Z) : Z := sc .>> 4.
Definition GetFragNum (sc : Z) : Z := sc .& 0x0f.
Definition GetPriority (qc : Z) : Z := qc .& 0x0f.
Definition GetAckpolicy (qc : Z) : Z := (qc .>> 5) .& 3.
Definition GetAMsdu (qc : Z) : bool := Z.testbit qc 7.

(** The part of [validate_recv_frame] before the kinds of frames part: the version, and the
    fields of the frame control and the sequence control; and for a data frame whether it
    has QoS. [None] is a frame that is not data or of another version. *)
Definition parse_frame (f : rx_frame) : res (option (rx_frame * rx_hdr_info)) :=
  fc ← get_le16 (rx_buf f) (rx_data f);
  if truthy (fc .& 3) then Ok None
  else
    sc ← get_le16 (rx_buf f) (rx_data f + 22);
    let a := attrib f in
    if negb (fc .& 0x0c =? WIFI_DATA_TYPE) then Ok None
    else
      Ok (Some (mk_rx_frame (rx_id f) (keytrack f)
          (mk_rx_attrib (rx_hdrlen a) (rx_iv_len a) (rx_icv_len a) (rx_encrypt a) (GetPrivacy fc) (rx_bdecrypted a) (GetSequence sc) (GetFragNum sc)
            (GetMFrag fc) (Z.testbit fc 7) (rx_priority a) (rx_key_index a) (rx_ra a) (rx_ta a)) (rx_len f) (rx_data f) (rx_tail f) (rx_buf f),
        mk_rx_hdr_info (get_tofr_ds fc) (GetOrder fc) false 0 [] [] [])).

(** * The station *)

(** What is known of another station: its key and cipher, whether its A-MSDUs are refused,
    whether its port is closed, and the caches against duplicates. *)
Record peer := mk_peer {
  dot118021x_UncstKey : list Z; dot118021XPrivacy : Z; amsdu_disable : bool; ieee8021x_blocked : bool; sta_recvpriv : sta_recv_priv }.

(** [concurrent] is CONFIG_CONCURRENT_MODE; [deauths] are the addresses to which frames of
    deauthentication have been issued. *)
Record rx_adapter := mk_rx_adapter {
  frags : rx_state; peers : gmap (list Z) peer;
  myhwaddr : list Z; linked : bool; dot11AuthAlgrthm : Z; dot11PrivacyAlgrthm : Z; dot118021XGrpPrivacy : Z; dot11PrivacyKeyIndex : Z;
  dot11DefKey : list (list Z * Z); securitypriv : security_priv; iv_seq : list Z; busetkipkey : bool; concurrent : bool;
  hw_decrypted : bool; is_any_non_be_pkts : bool; deauths : list (list Z) }.

Definition get_peer (s : rx_adapter) (hwaddr : list Z) : option peer := peers s !! sta_addr hwaddr.

Definition with_frags (r : rx_state) (s : rx_adapter) : rx_adapter :=
  mk_rx_adapter r (peers s) (myhwaddr s) (linked s) (dot11AuthAlgrthm s) (dot11PrivacyAlgrthm s) (dot118021XGrpPrivacy s) (dot11PrivacyKeyIndex s)
    (dot11DefKey s) (securitypriv s) (iv_seq s) (busetkipkey s) (concurrent s) (hw_decrypted s) (is_any_non_be_pkts s) (deauths s).
Definition set_cache (addr : list Z) (p : peer) (c : sta_recv_priv) (s : rx_adapter) : rx_adapter :=
  mk_rx_adapter (frags s)
    (<[sta_addr addr := mk_peer (dot118021x_UncstKey p) (dot118021XPrivacy p) (amsdu_disable p) (ieee8021x_blocked p) c]> (peers s))
    (myhwaddr s) (linked s) (dot11AuthAlgrthm s) (dot11PrivacyAlgrthm s) (dot118021XGrpPrivacy s) (dot11PrivacyKeyIndex s)
    (dot11DefKey s) (securitypriv s) (iv_seq s) (busetkipkey s) (concurrent s) (hw_decrypted s) (is_any_non_be_pkts s) (deauths s).
Definition set_iv_seq (v : list Z) (s : rx_adapter) : rx_adapter :=
  mk_rx_adapter (frags s) (peers s) (myhwaddr s) (linked s) (dot11AuthAlgrthm s) (dot11PrivacyAlgrthm s) (dot118021XGrpPrivacy s) (dot11PrivacyKeyIndex s)
    (dot11DefKey s) (securitypriv s) v (busetkipkey s) (concurrent s) (hw_decrypted s) (is_any_non_be_pkts s) (deauths s).
Definition set_hw_decrypted (b : bool) (s : rx_adapter) : rx_adapter :=
  mk_rx_adapter (frags s) (peers s) (myhwaddr s) (linked s) (dot11AuthAlgrthm s) (dot11PrivacyAlgrthm s) (dot118021XGrpPrivacy s) (dot11PrivacyKeyIndex s)
    (dot11DefKey s) (securitypriv s) (iv_seq s) (busetkipkey s) (concurrent s) b (is_any_non_be_pkts s) (deauths s).
Definition set_non_be (b : bool) (s : rx_adapter) : rx_adapter :=
  mk_rx_adapter (frags s) (peers s) (myhwaddr s) (linked s) (dot11AuthAlgrthm s) (dot11PrivacyAlgrthm s) (dot118021XGrpPrivacy s) (dot11PrivacyKeyIndex s)
    (dot11DefKey s) (securitypriv s) (iv_seq s) (busetkipkey s) (concurrent s) (hw_decrypted s) b (deauths s).
Definition issue_deauth (addr : list Z) (s : rx_adapter) : rx_adapter :=
  mk_rx_adapter (frags s) (peers s) (myhwaddr s) (linked s) (dot11AuthAlgrthm s) (dot11PrivacyAlgrthm s) (dot118021XGrpPrivacy s) (dot11PrivacyKeyIndex s)
    (dot11DefKey s) (securitypriv s) (iv_seq s) (busetkipkey s) (concurrent s) (hw_decrypted s) (is_any_non_be_pkts s) (deauths s ++ [addr]).

(** * The checks on the header *)

(** The addresses as they are in a header with these direction bits; [None] is a direction
    that no station receives. *)
Definition hdr_addrs (buf : list Z) (ptr to_fr_ds : Z) (a1 a2 : list Z) : res (option (list Z * list Z * list Z)) :=
  if to_fr_ds =? 2 then a3 ← load (ptr + 16) 6 buf; Ok (Some (a1, a3, a2))
  else if to_fr_ds =? 3 then a3 ← load (ptr + 16) 6 buf; a4 ← load (ptr + 24) 6 buf; Ok (Some (a3, a4, a2))
  else Ok None.

(** [due] tells whether a frame of deauthentication may be issued again, [radar] whether
    radar has been detected. The station is the one whose address is the last result. *)
Definition rtw_sta_rx_data_validate_hdr (due radar : bool) (s : rx_adapter) (f : rx_frame) (h : rx_hdr_info) :
    res (Z * rx_adapter * rx_frame * rx_hdr_info) :=
  let whdr := rx_data f in
  let set h dst src bssid := mk_rx_hdr_info (h_to_fr_ds h) (h_order h) (h_amsdu h) (h_ack_policy h) dst src bssid in
  a1 ← load (whdr + 4) 6 (rx_buf f);
  a2 ← load (whdr + 10) 6 (rx_buf f);
  let is_ra_bmc := IS_MCAST a1 in
  if h_to_fr_ds h =? 0 then
    bssid ← load (whdr + 16) 6 (rx_buf f);
    let f := with_addrs a1 a2 f in
    let h := set h a1 a2 bssid in
    if negb (bool_decide (bssid = a2)) then Ok (_FAIL, s, f, h)
    else Ok (match get_peer s a2 with Some _ => _SUCCESS | None => _FAIL end, s, f, h)
  else if negb (linked s) then Ok (_FAIL, if negb is_ra_bmc && due then issue_deauth a2 s else s, f, h)
  else
    let f := with_addrs a1 a2 f in
    addrs ← hdr_addrs (rx_buf f) whdr (h_to_fr_ds h) a1 a2;
    match addrs with
    | None => Ok (RTW_RX_HANDLED, s, f, h)
    | Some (dst, src, bssid) =>
        let h := set h dst src bssid in
        if negb (h_amsdu h) && bool_decide (myhwaddr s = src) then Ok (_FAIL, s, f, h)
        else
          match get_peer s a2 with
          | None => Ok (_FAIL, if negb is_ra_bmc && negb radar then issue_deauth a2 s else s, f, h)
          | Some _ =>
              fc ← get_le16 (rx_buf f) whdr;
              Ok (if Z.testbit fc 6 then RTW_RX_HANDLED else _SUCCESS, s, f, h)
          end
    end.

Definition _NO_PRIVACY_ : Z := 0.
Definition _WEP40_ : Z := 1.
Definition _WEP104_ : Z := 5.
Definition _SMS4_ : Z := 6.
Definition dot11AuthAlgrthm_8021X : Z := 2.

(** The algorithm of the frame; [old] is what it was. *)
Definition GET_ENCRY_ALGO (s : rx_adapter) (p : peer) (old : Z) (bmcst : bool) : Z :=
  let auth := dot11AuthAlgrthm s in
  if auth =? dot11AuthAlgrthm_8021X then if bmcst then u8 (dot118021XGrpPrivacy s) else u8 (dot118021XPrivacy p)
  else if (auth =? 0) || (auth =? 1) || (auth =? 3) || (auth =? 4) then u8 (dot11PrivacyAlgrthm s)
  else old.

(** The lengths of vector and check value. *)
Definition SET_ICE_IV_LEN (encrypt : Z) : Z * Z :=
  if (encrypt =? _WEP40_) || (encrypt =? _WEP104_) then (4, 4)
  else if encrypt =? _TKIP_ then (8, 4)
  else if encrypt =? _AES_ then (8, 8)
  else if (encrypt =? _GCMP_) || (encrypt =? _GCMP_256_) then (8, 16)
  else if encrypt =? _CCMP_256_ then (8, 16)
  else if encrypt =? _SMS4_ then (18, 16)
  else (0, 0).

(** Duplicates and old packet numbers: the result of the checks with the new caches. *)
Definition decache (s : rx_adapter) (p : peer) (f : rx_frame) : res (bool * rx_adapter) :=
  let '(new, c) := recv_decache f (sta_recvpriv p) in
  if negb new then Ok (false, s)
  else if negb (IS_MCAST (rx_ra (attrib f))) then
    r ← recv_ucast_pn_decache f c;
    let '(good, c) := r in Ok (good : bool, set_cache (rx_ta (attrib f)) p c s)
  else
    r ← recv_bcast_pn_decache true f (iv_seq s);
    let '(good, v) := r in Ok (good : bool, set_iv_seq v (set_cache (rx_ta (attrib f)) p c s)).

(** Frames without protection in a protected network. *)
Definition plaintext_ok (s : rx_adapter) (f : rx_frame) (h : rx_hdr_info) : res bool :=
  let a := attrib f in
  if dot11PrivacyAlgrthm s =? _NO_PRIVACY_ then Ok true
  else if IS_MCAST (rx_ra a) then Ok (rx_privacy a)
  else
    ether_type ← get_be16 (rx_buf f) (rx_data f + rx_hdrlen a + rx_iv_len a + LLC_HEADER_SIZE);
    if dot11AuthAlgrthm s =? dot11AuthAlgrthm_8021X
    then Ok (negb (negb (rx_privacy a) && negb (ether_type =? 0x888e)) && negb (negb (rx_privacy a) && h_amsdu h))
    else Ok (rx_privacy a).

(** What follows the checks of the addresses. *)
Definition validate_body (s : rx_adapter) (p : peer) (f : rx_frame) (h : rx_hdr_info) (qc a4_shift : Z) : res (Z * rx_adapter * rx_frame * rx_hdr_info) :=
  if amsdu_disable p && h_amsdu h then Ok (_FAIL, s, f, h)
  else
    let a := attrib f in
    let h := mk_rx_hdr_info (h_to_fr_ds h) (h_order h) (h_amsdu h) (if rx_qos a then GetAckpolicy qc else 0) (h_dst h) (h_src h) (h_bssid h) in
    let priority := if rx_qos a then GetPriority qc else 0 in
    let hdrlen := (if rx_qos a then WLAN_HDR_A3_QOS_LEN else WLAN_HDR_A3_LEN) + a4_shift + (if h_order h then 4 else 0) in
    let s := if rx_qos a then set_non_be (negb (priority =? 0) && negb (priority =? 3)) s else s in
    let f := with_qos priority hdrlen f in
    r ← decache s p f;
    let '(good, s) := r in
    if negb good then Ok (_FAIL, s, f, h)
    else
      let encrypt := if rx_privacy a then GET_ENCRY_ALGO s p (rx_encrypt a) (IS_MCAST (rx_ra a)) else 0 in
      let '(iv_len, icv_len) := if rx_privacy a then SET_ICE_IV_LEN encrypt else (0, 0) in
      let f := with_cipher encrypt iv_len icv_len f in
      b ← plaintext_ok s f h;
      Ok (if (b : bool) then _SUCCESS else _FAIL, s, f, h).

(** [validate_recv_data_frame] of a station. *)
Definition validate_recv_data_frame (due radar : bool) (s : rx_adapter) (f : rx_frame) (h : rx_hdr_info) : res (Z * rx_adapter * rx_frame * rx_hdr_info) :=
  let a4_shift := if h_to_fr_ds h =? 3 then 6 else 0 in
  qc ← if rx_qos (attrib f) then get_le16 (rx_buf f) (rx_data f + WLAN_HDR_A3_LEN + a4_shift) else Ok 0;
  let h := mk_rx_hdr_info (h_to_fr_ds h) (h_order h) (rx_qos (attrib f) && GetAMsdu qc) (h_ack_policy h) (h_dst h) (h_src h) (h_bssid h) in
  r ← rtw_sta_rx_data_validate_hdr due radar s f h;
  let '(ret, s, f, h) := r in
  if negb (ret =? _SUCCESS) then Ok (ret, s, f, h)
  else
    match get_peer s (rx_ta (attrib f)) with
    | None => Ok (_FAIL, s, f, h)
    | Some p => validate_body s p f h qc a4_shift
    end.

(** [recv_func_prehandle] for data: a frame that is not accepted is freed. *)
Definition recv_func_prehandle (due radar : bool) (s : rx_adapter) (f : rx_frame) : res (rx_adapter * option (rx_frame * rx_hdr_info)) :=
  p ← parse_frame f;
  match p with
  | None => Ok (with_frags (rtw_free_recvframe [rx_id f] (frags s)) s, None)
  | Some (f, h) =>
      r ← validate_recv_data_frame due radar s f h;
      let '(ret, s, f, h) := r in
      if ret =? _SUCCESS then Ok (s, Some (f, h)) else Ok (with_frags (rtw_free_recvframe [rx_id f] (frags s)) s, None)
  end.

(** * Decryption *)

Definition WEP_KEYS : Z := 4.

(** The key that the vector of a frame names. *)
Definition find_key_index (s : rx_adapter) (f : rx_frame) : res rx_frame :=
  let a := attrib f in
  if 0 <? rx_encrypt a then
    b ← byte_at (rx_buf f) (rx_data f + rx_hdrlen a + 3);
    let key_index := (b .>> 6) .& 0x3 in
    Ok (with_key_index
      (if WEP_KEYS <? key_index then
         if (rx_encrypt a =? _WEP40_) || (rx_encrypt a =? _WEP104_) then dot11PrivacyKeyIndex s else dot118021XGrpKeyid (securitypriv s)
       else key_index) f)
  else Ok f.

Section decrypt.
Context {C : Type} `{BlockCipher C}.
Context (malloc : Z -> option (list Z)) (amsdu_mode : Z).

(** The key of CCMP and GCMP, if there is one for the frame. *)
Definition sw_key (s : rx_adapter) (p : peer) (a : rx_attrib) : option (list Z) :=
  if IS_MCAST (rx_ra a) then
    if negb (binstallGrpkey (securitypriv s)) then None
    else if negb (dot118021XGrpKeyid (securitypriv s) =? rx_key_index a) then None
    else Some (group_key (securitypriv s) (rx_key_index a))
  else Some (dot118021x_UncstKey p).

(** The decryption of the bytes from the header on. *)
Definition sw_decrypt (dec : list Z -> Z -> Z -> list Z -> Z -> res (Z * list Z)) (wide : bool) (s : rx_adapter) (f : rx_frame) : res (rx_frame * bool) :=
  let a := attrib f in
  match get_peer s (rx_ta a) with
  | None => Ok (f, false)
  | Some p =>
      match sw_key s p a with
      | None => Ok (f, false)
      | Some prwskey =>
          let d := Z.to_nat (rx_data f) in
          r ← dec prwskey (if wide then 32 else 16) (rx_hdrlen a) (drop d (rx_buf f)) (rx_len f);
          Ok (with_buf (take d (rx_buf f) ++ r.2) f, r.1 =? _SUCCESS)
      end
  end.

Definition rtw_aes_decrypt (s : rx_adapter) (f : rx_frame) : res (rx_frame * bool) :=
  let e := rx_encrypt (attrib f) in
  if (e =? _AES_) || (e =? _CCMP_256_) then sw_decrypt (_rtw_ccmp_decrypt malloc amsdu_mode) (e =? _CCMP_256_) s f else Ok (f, true).

Definition rtw_gcmp_decrypt (s : rx_adapter) (f : rx_frame) : res (rx_frame * bool) :=
  let e := rx_encrypt (attrib f) in
  if (e =? _GCMP_) || (e =? _GCMP_256_) then sw_decrypt (_rtw_gcmp_decrypt malloc amsdu_mode) (e =? _GCMP_256_) s f else Ok (f, true).

(** The dispatch over the ciphers. *)
Definition decrypt_by_cipher (s : rx_adapter) (f : rx_frame) : res (rx_frame * bool) :=
  let a := attrib f in
  let e := rx_encrypt a in
  if (e =? _WEP40_) || (e =? _WEP104_) then
    let '(skey, keylength) := default ([], 0) (dot11DefKey s !! Z.to_nat (rx_key_index a)) in
    buf ← rtw_wep_decrypt true skey keylength (rx_hdrlen a) (rx_iv_len a) (rx_len f) (rx_data f) (rx_buf f);
    Ok (with_buf buf f, true)
  else if e =? _TKIP_ then
    r ← rtw_tkip_decrypt true (securitypriv s) (dot118021x_UncstKey <$> get_peer s (rx_ta a)) (rx_ra a) (rx_ta a) (rx_key_index a)
      (rx_hdrlen a) (rx_iv_len a) (rx_len f) (rx_data f) (rx_buf f);
    Ok (with_buf r.1 f, r.2)
  else if (e =? _AES_) || (e =? _CCMP_256_) then rtw_aes_decrypt s f
  else if (e =? _GCMP_) || (e =? _GCMP_256_) then rtw_gcmp_decrypt s f
  else Ok (f, true).

Definition WIFI_DATA : Z := WIFI_DATA_TYPE.

Definition decryptor (s : rx_adapter) (f : rx_frame) : res (rx_adapter * option rx_frame) :=
  f ← find_key_index s f;
  let a := attrib f in
  if truthy (rx_encrypt a) && negb (rx_bdecrypted a) then
    type ← GetFrameType f;
    let s := if (type =? WIFI_DATA) && negb (concurrent s && IS_MCAST (rx_ra a)) then set_hw_decrypted false s else s in
    r ← decrypt_by_cipher s f;
    let '(f, ok) := r in
    if (ok : bool) then Ok (s, Some (with_bdecrypted f)) else Ok (with_frags (rtw_free_recvframe [rx_id f] (frags s)) s, None)
  else
    let s := if rx_bdecrypted a && (0 <? rx_encrypt a) && (busetkipkey s || negb (rx_encrypt a =? _TKIP_)) then set_hw_decrypted true s else s in
    Ok (s, Some (with_bdecrypted f)).

(** * The port *)

Definition portctrl (s : rx_adapter) (f : rx_frame) : res (rx_adapter * option rx_frame) :=
  let a := attrib f in
  if dot11AuthAlgrthm s =? dot11AuthAlgrthm_8021X then
    match get_peer s (rx_ta a) with
    | Some p =>
        if ieee8021x_blocked p then
          ether_type ← get_be16 (rx_buf f) (rx_data f + rx_hdrlen a + rx_iv_len a + LLC_HEADER_SIZE);
          if ether_type =? 0x888e then Ok (s, Some f) else Ok (with_frags (rtw_free_recvframe [rx_id f] (frags s)) s, None)
        else Ok (s, Some f)
    | None => Ok (s, Some f)
    end
  else Ok (s, Some f).

(** [recv_func_posthandle] up to the statistics and the reordering. *)
Definition recv_func_to_port (s : rx_adapter) (f : rx_frame) : res (rx_adapter * option rx_frame) :=
  r ← decryptor s f;
  let '(s, o) := r in
  match o with
  | None => Ok (s, None)
  | Some f =>
      r ← recvframe_chk_defrag (frags s) f;
      let '(fr, o) := r in
      let s := with_frags fr s in
      match o with None => Ok (s, None) | Some f => portctrl s f end
  end.
End decrypt.

(** * What is accepted *)

Ltac bind_inv H := let x := fresh "x" in let E := fresh "E" in apply bind_Ok in H as (x & E & H).

Lemma hdr_accepted due radar s f h s' f' h' :
  rtw_sta_rx_data_validate_hdr due radar s f h = Ok (_SUCCESS, s', f', h') ->
  s' = s /\ exists a1 a2, load (rx_data f + 4) 6 (rx_buf f) = Ok a1 /\ load (rx_data f + 10) 6 (rx_buf f) = Ok a2 /\
    f' = with_addrs a1 a2 f /\ is_Some (get_peer s a2) /\
    h' = mk_rx_hdr_info (h_to_fr_ds h) (h_order h) (h_amsdu h) (h_ack_policy h) (h_dst h') (h_src h') (h_bssid h') /\
    ((h_to_fr_ds h = 0 /\ load (rx_data f + 16) 6 (rx_buf f) = Ok a2 /\ h_dst h' = a1 /\ h_src h' = a2 /\ h_bssid h' = a2) \/
     (linked s = true /\ hdr_addrs (rx_buf f) (rx_data f) (h_to_fr_ds h) a1 a2 = Ok (Some (h_dst h', h_src h', h_bssid h')) /\
      h_to_fr_ds h <> 0 /\ (h_amsdu h = true \/ h_src h' <> myhwaddr s) /\
      exists fc, get_le16 (rx_buf f) (rx_data f) = Ok fc /\ Z.testbit fc 6 = false)).
Proof.
  unfold rtw_sta_rx_data_validate_hdr. intros E. bind_inv E. bind_inv E. rename x into a1, x0 into a2.
  destruct (Z.eqb_spec (h_to_fr_ds h) 0) as [Z0|N0].
  - bind_inv E. destruct (bool_decide (x = a2)) eqn:Eb; cbn [negb] in E; [|discriminate E]. apply bool_decide_eq_true in Eb as ->.
    destruct (get_peer s a2) eqn:Ep; [|discriminate E]. injection E as <- <- <-. split; [done|]. exists a1, a2. split_and!; try done.
    left. done.
  - destruct (linked s) eqn:El; cbn [negb] in E; [|discriminate E]. bind_inv E. destruct x as [[[dst src] bssid]|]; [|discriminate E]. cbn [h_amsdu] in E.
    destruct (negb (h_amsdu h) && bool_decide (myhwaddr s = src)) eqn:Em; [discriminate E|]. destruct (get_peer s a2) eqn:Ep; [|discriminate E].
    bind_inv E. destruct (Z.testbit x 6) eqn:Et; [discriminate E|]. injection E as <- <- <-. split; [done|]. exists a1, a2. split_and!; try done.
    right. cbn [h_dst h_src h_bssid with_addrs rx_buf rx_data] in *. split_and!; try done; [|eauto].
    apply andb_false_iff in Em as [Em|Em]; [left; by destruct (h_amsdu h)|right]. apply bool_decide_eq_false in Em. congruence.
Qed.

(** The cipher of an accepted frame and its lengths. *)
Definition cipher_of (s : rx_adapter) (p : peer) (f : rx_frame) : Z :=
  let a := attrib f in if rx_privacy a then GET_ENCRY_ALGO s p (rx_encrypt a) (IS_MCAST (rx_ra a)) else 0.

Lemma decache_config s p f b s' : decache s p f = Ok (b, s') -> exists P v, s' = mk_rx_adapter (frags s) P
    (myhwaddr s) (linked s) (dot11AuthAlgrthm s) (dot11PrivacyAlgrthm s) (dot118021XGrpPrivacy s) (dot11PrivacyKeyIndex s)
    (dot11DefKey s) (securitypriv s) v (busetkipkey s) (concurrent s) (hw_decrypted s) (is_any_non_be_pkts s) (deauths s).
Proof.
  unfold decache. destruct (recv_decache f (sta_recvpriv p)) as [new c]. destruct new; cbn [negb]; [|intros E; injection E as <- <-; exists (peers s), (iv_seq s); by destruct s].
  destruct (negb _); intros E; bind_inv E; destruct x as [good c']; injection E as <- <-; by eexists _, _.
Qed.

(** What is true of a frame that [validate_body] lets pass. *)
Lemma body_accepted s p f h qc a4 s' f' h' :
  validate_body s p f h qc a4 = Ok (_SUCCESS, s', f', h') ->
  (amsdu_disable p && h_amsdu h = false) /\
  (exists ack, h' = mk_rx_hdr_info (h_to_fr_ds h) (h_order h) (h_amsdu h) ack (h_dst h) (h_src h) (h_bssid h)) /\
  (exists priority encrypt iv_len icv_len,
    let hdrlen := (if rx_qos (attrib f) then WLAN_HDR_A3_QOS_LEN else WLAN_HDR_A3_LEN) + a4 + (if h_order h then 4 else 0) in
    priority = (if rx_qos (attrib f) then GetPriority qc else 0) /\
    encrypt = cipher_of s p f /\ (iv_len, icv_len) = (if rx_privacy (attrib f) then SET_ICE_IV_LEN encrypt else (0, 0)) /\
    f' = with_cipher encrypt iv_len icv_len (with_qos priority hdrlen f) /\
    let s0 := if rx_qos (attrib f) then set_non_be (negb (priority =? 0) && negb (priority =? 3)) s else s in
    decache s0 p (with_qos priority hdrlen f) = Ok (true, s')) /\
  plaintext_ok s f' h' = Ok true.
Proof.
  unfold validate_body. destruct (amsdu_disable p && h_amsdu h) eqn:Ea; [discriminate|]. intros E. bind_inv E. destruct x as [good s1].
  destruct good; cbn [negb] in E; [|discriminate E]. destruct (decache_config _ _ _ _ _ E0) as (P & v & Es1).
  destruct (if rx_privacy (attrib f) then SET_ICE_IV_LEN _ else (0, 0)) as [iv_len icv_len] eqn:Ei. bind_inv E.
  destruct x; [|discriminate E]. injection E as <- <- <-. split; [done|]. split; [by eexists|]. split.
  - eexists _, _, iv_len, icv_len. split; [reflexivity|]. split; [|split; [|split; [reflexivity|exact E0]]].
    + unfold cipher_of, GET_ENCRY_ALGO. rewrite Es1. by destruct (rx_qos (attrib f)).
    + rewrite <- Ei. reflexivity.
  - rewrite <- E1. unfold plaintext_ok. rewrite Es1. by destruct (rx_qos (attrib f)).
Qed.

Lemma validate_accepted due radar s f h s' f' h' :
  validate_recv_data_frame due radar s f h = Ok (_SUCCESS, s', f', h') ->
  exists qc f1 h1 p, (if rx_qos (attrib f) then get_le16 (rx_buf f) (rx_data f + WLAN_HDR_A3_LEN + (if h_to_fr_ds h =? 3 then 6 else 0)) else Ok 0) = Ok qc /\
    rtw_sta_rx_data_validate_hdr due radar s f
      (mk_rx_hdr_info (h_to_fr_ds h) (h_order h) (rx_qos (attrib f) && GetAMsdu qc) (h_ack_policy h) (h_dst h) (h_src h) (h_bssid h)) = Ok (_SUCCESS, s, f1, h1) /\
    get_peer s (rx_ta (attrib f1)) = Some p /\ validate_body s p f1 h1 qc (if h_to_fr_ds h =? 3 then 6 else 0) = Ok (_SUCCESS, s', f', h').
Proof.
  unfold validate_recv_data_frame. intros E. bind_inv E. rename x into qc. bind_inv E. destruct x as [[[ret s1] f1] h1].
  destruct (Z.eqb_spec ret _SUCCESS) as [->|N]; cbn [negb] in E; [|injection E as E; congruence].
  destruct (hdr_accepted _ _ _ _ _ _ _ _ E1) as [-> _]. destruct (get_peer s (rx_ta (attrib f1))) as [p|] eqn:Ep; [|discriminate E]. eauto 10.
Qed.


(** Where the destination, the source and the BSSID stand, by the direction. *)
Definition addressed (buf : list Z) (ptr to_fr_ds : Z) (a1 a2 dst src bssid : list Z) : Prop :=
  (to_fr_ds = 0 -> dst = a1 /\ src = a2 /\ bssid = a2 /\ load (ptr + 16) 6 buf = Ok bssid) /\
  (to_fr_ds = 2 -> dst = a1 /\ bssid = a2 /\ load (ptr + 16) 6 buf = Ok src) /\
  (to_fr_ds = 3 -> bssid = a2 /\ load (ptr + 16) 6 buf = Ok dst /\ load (ptr + 24) 6 buf = Ok src).

Lemma hdr_addrs_addressed buf ptr d a1 a2 dst src bssid :
  hdr_addrs buf ptr d a1 a2 = Ok (Some (dst, src, bssid)) -> addressed buf ptr d a1 a2 dst src bssid.
Proof.
  unfold hdr_addrs. intros E. split_and!; intros ->; cbn [Z.eqb Pos.eqb] in E; [discriminate E| |].
  - bind_inv E. by injection E as -> -> ->.
  - bind_inv E. bind_inv E. by injection E as -> -> ->.
Qed.


(** * Duplicates *)

(** The same bytes and attributes in another frame. *)
Definition with_id (i : nat) (k : Z) (f : rx_frame) : rx_frame := mk_rx_frame i k (attrib f) (rx_len f) (rx_data f) (rx_tail f) (rx_buf f).

(** What the checks of the header look at is the same in both states. *)
Definition agree (s s2 : rx_adapter) : Prop :=
  linked s2 = linked s /\ myhwaddr s2 = myhwaddr s /\ forall a, is_Some (get_peer s a) -> is_Some (get_peer s2 a).

Lemma hdr_again due radar due2 radar2 s s2 f h i k s' f' h' :
  rtw_sta_rx_data_validate_hdr due radar s f h = Ok (_SUCCESS, s', f', h') -> agree s s2 ->
  rtw_sta_rx_data_validate_hdr due2 radar2 s2 (with_id i k f) h = Ok (_SUCCESS, s2, with_id i k f', h').
Proof.
  intros E (Al & Am & Ap). destruct (hdr_accepted _ _ _ _ _ _ _ _ E) as (_ & a1 & a2 & E1 & E2 & -> & P & Eh & C). apply Ap in P as [p P].
  unfold rtw_sta_rx_data_validate_hdr. cbn [with_id rx_data rx_buf]. rewrite E1, E2. cbn [mbind res_bind]. rewrite P.
  destruct C as [(Z0 & E3 & D1 & D2 & D3)|(El & Ea & N0 & Hm & fc & Ef & Et)].
  - rewrite Z0, E3. cbn [mbind res_bind Z.eqb]. rewrite bool_decide_true by done. cbn [negb]. rewrite Eh, D1, D2, D3, Z0. done.
  - rewrite (proj2 (Z.eqb_neq _ _)) by done. rewrite Al, El. cbn [negb with_addrs with_id rx_buf rx_data]. rewrite Ea. cbn [mbind res_bind h_amsdu].
    assert (Em : negb (h_amsdu h) && bool_decide (myhwaddr s2 = h_src h') = false).
    { destruct Hm as [->|Hm]; [done|]. rewrite Am, bool_decide_false by congruence. apply andb_false_r. }
    rewrite Em, Ef. cbn [mbind res_bind]. rewrite Et. rewrite Eh at 4. done.
Qed.

Definition caches_ok (p : peer) : Prop :=
  length (bmc_tid_rxseq (sta_recvpriv p)) = 16%nat /\ length (tid_rxseq (sta_recvpriv p)) = 16%nat.

Definition same_seqs (c c' : sta_recv_priv) : Prop :=
  tid_rxseq c' = tid_rxseq c /\ bmc_tid_rxseq c' = bmc_tid_rxseq c /\ nonqos_rxseq c' = nonqos_rxseq c /\ nonqos_bmc_rxseq c' = nonqos_bmc_rxseq c.

Lemma ucast_keeps_seqs f c b c' : recv_ucast_pn_decache f c = Ok (b, c') -> same_seqs c c'.
Proof.
  unfold recv_ucast_pn_decache, same_seqs. destruct (15 <? _); [intros E; by injection E as <- <-|]. destruct (_ =? _); [|intros E; by injection E as <- <-].
  intros E. bind_inv E. destruct (negb _); by injection E as <- <-.
Qed.

Lemma decache_by_seqs f c c' : same_seqs c c' -> (recv_decache f c').1 = (recv_decache f c).1.
Proof.
  intros (E1 & E2 & E3 & E4). unfold recv_decache. destruct (15 <? _); [done|]. rewrite E1, E2, E3, E4.
  by destruct (rx_qos _), (IS_MCAST _), (_ =? _).
Qed.

Lemma decache_again s p f s' :
  decache s p f = Ok (true, s') -> caches_ok p -> 0 <= rx_priority (attrib f) ->
  (exists p', get_peer s' (rx_ta (attrib f)) = Some p' /\ amsdu_disable p' = amsdu_disable p /\
    forall s2 i k, decache s2 p' (with_id i k f) = Ok (false, s2)) /\
  (forall a, is_Some (get_peer s a) -> is_Some (get_peer s' a)).
Proof.
  unfold decache. destruct (recv_decache f (sta_recvpriv p)) as [new c] eqn:Ec. destruct new; cbn [negb]; [|discriminate]. intros E (L1 & L2) Hp.
  pose proof (decache_drops_repeated f (sta_recvpriv p) c L1 L2 Hp Ec) as Again.
  assert (G : exists c' v, same_seqs c c' /\ s' = set_iv_seq v (set_cache (rx_ta (attrib f)) p c' s)).
  { destruct (negb (IS_MCAST _)); bind_inv E; destruct x as [good c']; injection E as -> <-.
    - exists c', (iv_seq s). split; [by eapply ucast_keeps_seqs|done].
    - by exists c, c'. }
  clear E. destruct G as (c' & v & Sq & ->). split.
  - eexists. unfold get_peer at 1. cbn [set_iv_seq set_cache peers]. rewrite lookup_insert_eq. split; [reflexivity|]. split; [reflexivity|]. intros s2 i k.
    cbn [sta_recvpriv]. pose proof (decache_by_seqs f c c' Sq) as Eq. rewrite Again in Eq. change (recv_decache (with_id i k f) c') with (recv_decache f c').
    destruct (recv_decache f c') as [n c2]. cbn [fst] in Eq. subst n. done.
  - intros a [q Hq]. unfold get_peer in *. cbn [set_iv_seq set_cache peers].
    destruct (decide (sta_addr (rx_ta (attrib f)) = sta_addr a)) as [->|N]; [rewrite lookup_insert_eq|rewrite lookup_insert_ne by done]; eauto.
Qed.

Lemma parse_again f i k : parse_frame (with_id i k f) = (r ← parse_frame f; Ok (match r with Some (f, h) => Some (with_id i k f, h) | None => None end)).
Proof.
  unfold parse_frame. cbn [with_id rx_buf rx_data]. destruct (get_le16 (rx_buf f) (rx_data f)) as [| | |fc]; try done. cbn [mbind res_bind].
  destruct (truthy _); [done|]. destruct (get_le16 (rx_buf f) (rx_data f + 22)) as [| | |sc]; try done. cbn [mbind res_bind]. by destruct (negb _).
Qed.

Lemma body_again s p f h qc a4 s1 f1 h1 :
  validate_body s p f h qc a4 = Ok (_SUCCESS, s1, f1, h1) -> caches_ok p ->
  agree s s1 /\ frags s1 = frags s /\ exists p', get_peer s1 (rx_ta (attrib f)) = Some p' /\
    forall i k, exists s2 f2 h2, validate_body s1 p' (with_id i k f) h qc a4 = Ok (_FAIL, s2, f2, h2) /\ frags s2 = frags s1 /\ rx_id f2 = i.
Proof.
  intros E L. destruct (body_accepted _ _ _ _ _ _ _ _ _ E) as (Ea & _ & (pr & en & il & cl & Epr & _ & _ & _ & Ed) & _). cbv zeta in Ed.
  set (s0 := if rx_qos (attrib f) then _ else s) in Ed. set (g := with_qos pr _ f) in Ed.
  assert (Same : frags s0 = frags s /\ linked s0 = linked s /\ myhwaddr s0 = myhwaddr s /\ peers s0 = peers s) by (unfold s0; by destruct (rx_qos (attrib f))).
  destruct Same as (Sf & Sl & Sm & Sp). destruct (decache_config _ _ _ _ _ Ed) as (P & v & Es1).
  destruct (decache_again s0 p g s1 Ed L) as ((p' & Ep' & Ead & Again) & Keep).
  { cbn. subst pr. destruct (rx_qos (attrib f)); [|done]. unfold GetPriority. apply Z.land_nonneg. lia. }
  split; [|split; [by rewrite Es1|]].
  - split; [by rewrite Es1|]. split; [by rewrite Es1|]. intros a Ha. apply Keep. unfold get_peer in *. by rewrite Sp.
  - exists p'. split; [exact Ep'|]. intros i k. unfold validate_body. rewrite Ead, Ea. cbv zeta. change (attrib (with_id i k f)) with (attrib f).
    set (s2 := if rx_qos (attrib f) then _ else s1). specialize (Again s2 i k).
    assert (Eg : with_id i k g = with_qos pr ((if rx_qos (attrib f) then WLAN_HDR_A3_QOS_LEN else WLAN_HDR_A3_LEN) + a4 + (if h_order h then 4 else 0)) (with_id i k f)) by done.
    rewrite Eg, Epr in Again. cbn [h_order]. rewrite Again. cbn [mbind res_bind negb]. eexists _, _, _. split; [reflexivity|]. split; [|reflexivity]. unfold s2. by destruct (rx_qos (attrib f)).
Qed.


(** * The closed port *)

Lemma decryptor_config {C} `{BlockCipher C} malloc mode s f s' o : decryptor malloc mode s f = Ok (s', o) ->
  peers s' = peers s /\ dot11AuthAlgrthm s' = dot11AuthAlgrthm s.
Proof.
  unfold decryptor. intros E. bind_inv E. destruct (truthy _ && _).
  - bind_inv E. bind_inv E. destruct x1 as [g ok]. set (b := (x0 =? WIFI_DATA) && _) in E. destruct ok; injection E as <- <-; by destruct b.
  - injection E as <- <-. by destruct (_ && _).
Qed.

(** C29: A closed port lets EAPOL pass and nothing else: under IEEE 802.1X, as long as a
    station has not been authenticated, every frame of it that comes out of decryption and
    reassembly holds EAPOL, whatever the state of keys and fragments. *)
Theorem port_closed {C} `{BlockCipher C} malloc mode s f s' g p :
  recv_func_to_port malloc mode s f = Ok (s', Some g) -> dot11AuthAlgrthm s = dot11AuthAlgrthm_8021X ->
  get_peer s (rx_ta (attrib g)) = Some p -> ieee8021x_blocked p = true ->
  get_be16 (rx_buf g) (rx_data g + rx_hdrlen (attrib g) + rx_iv_len (attrib g) + LLC_HEADER_SIZE) = Ok 0x888e.
Proof.
  unfold recv_func_to_port. intros E A P B. bind_inv E. destruct x as [s1 [f1|]]; [|discriminate E].
  destruct (decryptor_config _ _ _ _ _ _ E0) as [Ep Ea]. bind_inv E. destruct x as [fr [f2|]]; [|discriminate E].
  unfold portctrl in E. cbn [with_frags dot11AuthAlgrthm] in E. rewrite Ea, A in E. cbn [Z.eqb Pos.eqb dot11AuthAlgrthm_8021X] in E.
  destruct (get_peer (with_frags fr s1) (rx_ta (attrib f2))) as [q|] eqn:Eq.
  - destruct (ieee8021x_blocked q) eqn:Bq.
    + bind_inv E. destruct (Z.eqb_spec x 0x888e) as [->|]; [|discriminate E]. by injection E as <- <-.
    + injection E as <- <-. unfold get_peer in *. cbn [with_frags peers] in Eq. rewrite Ep in Eq. congruence.
  - injection E as <- <-. unfold get_peer in *. cbn [with_frags peers] in Eq. rewrite Ep in Eq. congruence.
Qed.

(** * From a sealed frame to a packet *)

Section ccmp_path.
Context {C : Type} `{BC : BlockCipherOk C}.
Context (malloc : Z -> option (list Z)) (M : malloc_ok malloc) (mode : Z).

(** The two variants: key length, algorithm, length of the tag. *)
Definition ccmp_variant (klen enc mic : Z) : Prop := (klen = 16 /\ enc = _AES_ /\ mic = 8) \/ (klen = 32 /\ enc = _CCMP_256_ /\ mic = 16).

Lemma ccmp_seals klen enc mic key c hdr iv plain room :
  ccmp_variant klen enc mic -> encrypt_init key = Some c -> Z.of_nat (length key) = klen ->
  (24 <= length hdr)%nat -> length iv = 8%nat -> (16 <= length room)%nat -> Z.of_nat (length (hdr ++ iv ++ plain ++ room)) < 2 ^ 32 ->
  seals_and_opens (ccmp mode klen mic)
    (fun hl frame plen => _rtw_ccmp_encrypt malloc mode key klen hl frame plen)
    (fun hl frame plen => _rtw_ccmp_decrypt malloc mode key klen hl frame plen) hdr iv plain room.
Proof.
  intros [(-> & -> & ->)|(-> & -> & ->)] Hc Lk Lh Li Lr Sz.
  - apply (seal_open_frame malloc (ccmp mode 16 8) c key hdr iv plain room (ccmp_ok mode 16 8 ltac:(lia) ltac:(lia)) M Hc); try done. cbn. lia.
  - apply (seal_open_frame malloc (ccmp mode 32 16) c key hdr iv plain room (ccmp_ok mode 32 16 ltac:(lia) ltac:(lia)) M Hc); try done. cbn. lia.
Qed.

(** A frame under CCMP for this station alone, as the checks of the header leave it. *)
Record ccmp_frame (s : rx_adapter) (p : peer) (sta : sta_info) (enc mic hl : Z) (f : rx_frame) : Prop := mk_ccmp_frame {
  cf_hdrlen : rx_hdrlen (attrib f) = hl; cf_iv : rx_iv_len (attrib f) = 8; cf_icv : rx_icv_len (attrib f) = mic; cf_enc : rx_encrypt (attrib f) = enc;
  cf_dec : rx_bdecrypted (attrib f) = false; cf_frag : rx_mfrag (attrib f) = false /\ rx_frag_num (attrib f) = 0; cf_ra : IS_MCAST (rx_ra (attrib f)) = false;
  cf_peer : get_peer s (rx_ta (attrib f)) = Some p; cf_sta : rtw_get_stainfo (frags s) (rx_ta (attrib f)) = Some sta }.

Lemma find_key_spec s f A hdr iv rest : rx_buf f = A ++ hdr ++ iv ++ rest -> rx_data f = zlen A -> rx_hdrlen (attrib f) = zlen hdr -> length iv = 8%nat ->
  exists k, find_key_index s f = Ok (with_key_index k f).
Proof.
  intros Eb Ed Eh Li. unfold find_key_index. destruct (0 <? _); [|exists (rx_key_index (attrib f)); by destruct f as [? ? [] ? ? ? ?]].
  destruct iv as [|v0 [|v1 [|v2 [|v3 iv]]]]; [discriminate Li..|].
  rewrite Eb. replace (A ++ hdr ++ (v0 :: v1 :: v2 :: v3 :: iv) ++ rest) with ((A ++ hdr ++ [v0; v1; v2]) ++ v3 :: iv ++ rest) by (by flat_app).
  rewrite byte_at_app.
  - cbn [mbind res_bind]. eexists. reflexivity.
  - rewrite Ed, Eh. unfold zlen. rewrite !length_app. cbn. lia.
Qed.

Lemma portctrl_open s f p : get_peer s (rx_ta (attrib f)) = Some p -> ieee8021x_blocked p = false -> portctrl s f = Ok (s, Some f).
Proof. unfold portctrl. intros -> ->. by destruct (_ =? _). Qed.

(** Decryption of any bytes of the shape of a frame under CCMP, whatever the function makes
    of them. *)
Lemma decryptor_ccmp s p sta klen enc mic f A B mpdu ret out hdr iv rest :
  ccmp_variant klen enc mic -> ccmp_frame s p sta enc mic (zlen hdr) f -> rx_buf f = A ++ mpdu ++ B -> rx_data f = zlen A -> rx_len f = zlen mpdu ->
  mpdu = hdr ++ iv ++ rest -> length iv = 8%nat -> (24 <= length hdr)%nat ->
  _rtw_ccmp_decrypt malloc mode (dot118021x_UncstKey p) klen (zlen hdr) (mpdu ++ B) (zlen mpdu) = Ok (ret, out) ->
  exists k h, let s1 := set_hw_decrypted h s in
    decryptor malloc mode s f =
      if ret =? _SUCCESS then Ok (s1, Some (with_bdecrypted (with_buf (A ++ out) (with_key_index k f))))
      else Ok (with_frags (rtw_free_recvframe [rx_id f] (frags s1)) s1, None).
Proof.
  intros V [Eh Ei Ec Ee Ed Ef Er Ep Es] Eb Edt El -> Li Lh Dec. unfold decryptor.
  destruct (find_key_spec s f A hdr iv (rest ++ B)) as [k ->]; [rewrite Eb; by flat_app|done|done|done|]. cbn [mbind res_bind with_key_index attrib rx_encrypt rx_bdecrypted].
  rewrite Ee, Ed. assert (Te : truthy enc = true) by (destruct V as [(_ & -> & _)|(_ & -> & _)]; done). rewrite Te. cbn [negb andb].
  assert (Ty : exists ty, GetFrameType (with_key_index k f) = Ok ty).
  { unfold GetFrameType. cbn [with_key_index rx_buf rx_data]. rewrite Eb, Edt. destruct hdr as [|b0 hdr]; [cbn in Lh; lia|].
    eexists. cbn [app]. rewrite byte_at_app by done. reflexivity. }
  destruct Ty as [ty Ty]. cbn [with_key_index] in Ty. rewrite Ty. cbn [mbind res_bind rx_ra]. rewrite Er, andb_false_r. cbn [negb]. rewrite andb_true_r.
  set (s1 := if ty =? WIFI_DATA then set_hw_decrypted false s else s). exists k, (if ty =? WIFI_DATA then false else hw_decrypted s). cbv zeta.
  assert (E1 : set_hw_decrypted (if ty =? WIFI_DATA then false else hw_decrypted s) s = s1) by (unfold s1; destruct (ty =? WIFI_DATA); [done|by destruct s]).
  rewrite E1. assert (P1 : get_peer s1 (rx_ta (attrib f)) = Some p) by (rewrite <- E1; exact Ep).
  assert (D : decrypt_by_cipher malloc mode s1 (with_key_index k f) = Ok (with_buf (A ++ out) (with_key_index k f), ret =? _SUCCESS)).
  { assert (Sw : sw_decrypt (_rtw_ccmp_decrypt malloc mode) (enc =? _CCMP_256_) s1 (with_key_index k f) = Ok (with_buf (A ++ out) (with_key_index k f), ret =? _SUCCESS)).
    { unfold sw_decrypt. cbn [with_key_index attrib rx_ta rx_ra rx_hdrlen rx_data rx_buf rx_len]. rewrite P1. unfold sw_key. cbn [rx_ra]. rewrite Er, Edt, Eb.
      replace (Z.to_nat (zlen A)) with (length A) by (unfold zlen; lia). rewrite drop_app_length, Eh, El.
      assert (Ek : (if enc =? _CCMP_256_ then 32 else 16) = klen) by (destruct V as [(-> & -> & _)|(-> & -> & _)]; done). rewrite Ek, Dec.
      cbn [mbind res_bind fst snd]. by rewrite take_app_length. }
    unfold decrypt_by_cipher, rtw_aes_decrypt. cbn [with_key_index attrib rx_encrypt]. rewrite Ee.
    destruct V as [(-> & -> & _)|(-> & -> & _)]; exact Sw. }
  cbn [with_key_index] in D. rewrite D. cbn [mbind res_bind]. by destruct (ret =? _SUCCESS).
Qed.

(** C4: A packet under CCMP arrives, and no other does. What the sender has sealed in place,
    with CCMP or CCMP-256, becomes at any receiver with the same pairwise key the Ethernet
    frame of the packet, through decryption, reassembly and the open port; with another tag
    the frame is dropped and goes back to the pool. *)
Theorem ccmp_delivery klen enc mic key c hdr iv h_proto data room d sa :
  ccmp_variant klen enc mic -> encrypt_init key = Some c -> Z.of_nat (length key) = klen -> (24 <= length hdr)%nat -> zlen hdr < 256 -> length iv = 8%nat ->
  (16 <= length room)%nat -> 0 <= h_proto < 65536 -> 8 + zlen data < 65536 -> length d = 6%nat -> length sa = 6%nat ->
  let plain := snap_hdr h_proto ++ data in
  Z.of_nat (length (hdr ++ iv ++ plain ++ room)) < 2 ^ 32 ->
  exists crypt auth, let sealed auth := protected (ccmp mode klen mic) hdr ++ iv ++ crypt ++ auth in
    zlen crypt = zlen plain /\ zlen auth = mic /\
    _rtw_ccmp_encrypt malloc mode key klen (zlen hdr) (hdr ++ iv ++ plain ++ room) (zlen plain) = Ok (_SUCCESS, sealed auth ++ drop (Z.to_nat mic) room) /\
    forall s p sta f A B tag, dot118021x_UncstKey p = key -> ieee8021x_blocked p = false -> ccmp_frame s p sta enc mic (zlen hdr) f ->
      length tag = length auth -> rx_buf f = A ++ sealed tag ++ B -> rx_data f = zlen A -> rx_len f = zlen (sealed tag) -> ptrs_ok f ->
      (tag = auth -> exists s' g g', recv_func_to_port malloc mode s f = Ok (s', Some g) /\ rx_id g = rx_id f /\
        process_msdu d sa g = Ok g' /\ load (rx_data g') (rx_len g') (rx_buf g') = Ok (d ++ sa ++ be16 h_proto ++ data)) /\
      (tag <> auth -> exists s', recv_func_to_port malloc mode s f = Ok (s', None) /\ frags s' = rtw_free_recvframe [rx_id f] (frags s)).
Proof.
  intros V Hc Lk Lh Hh Li Lr Hp Hd Ld Ls plain Sz. pose proof (ccmp_seals klen enc mic key c hdr iv plain room V Hc Lk Lh Li Lr Sz) as Seal.
  destruct Seal as (crypt & auth & Enc & Lc & La & Open). exists crypt, auth. set (P := protected (ccmp mode klen mic) hdr) in *.
  assert (LP : length P = length hdr) by (apply length_protected; lia). change (mic_len (ccmp mode klen mic)) with mic in *. intros sealed.
  split; [unfold zlen; lia|]. split; [exact La|]. split. { unfold zlen. rewrite Enc. unfold sealed. by rewrite <- !app_assoc. }
  intros s p sta f A B tag Ek Bl Cf Lt Eb Ed El Pt.
  assert (Lz : forall t, length t = length auth -> zlen (sealed t) = zlen hdr + 8 + zlen plain + mic) by (intros t Et; unfold sealed, zlen in *; rewrite !length_app, LP, Lc, Li, Et; lia).
  assert (Ez : zlen P = zlen hdr) by (unfold zlen; lia). destruct (Open B) as [Good Bad].
  assert (Dec : forall r out, _rtw_ccmp_decrypt malloc mode key klen (Z.of_nat (length hdr)) (P ++ iv ++ crypt ++ tag ++ B) (Z.of_nat (length hdr) + 8 + Z.of_nat (length plain) + mic) = Ok (r, out) ->
    exists k h, let s1 := set_hw_decrypted h s in decryptor malloc mode s f =
      if r =? _SUCCESS then Ok (s1, Some (with_bdecrypted (with_buf (A ++ out) (with_key_index k f))))
      else Ok (with_frags (rtw_free_recvframe [rx_id f] (frags s1)) s1, None)).
  { intros r out E. apply (decryptor_ccmp s p sta klen enc mic f A B (sealed tag) r out P iv (crypt ++ tag) V); try done; [by rewrite Ez|lia|].
    rewrite Ek, Ez, (Lz tag Lt). unfold sealed. rewrite <- !app_assoc. exact E. }
  split.
  - intros ->. destruct (Dec _ _ Good) as (k & h & D). cbn [Z.eqb Pos.eqb _SUCCESS] in D. unfold recv_func_to_port. rewrite D. cbn [mbind res_bind].
    set (g := with_bdecrypted _). destruct Cf as [Eh Ei Ec Ee Edc [Em Ef] Er Ep Es].
    assert (Ta : forall x, rx_icv_len (attrib f) = x -> attrib g = mk_rx_attrib (zlen hdr) 8 x enc (rx_privacy (attrib f)) true (rx_seq_num (attrib f)) 0 false (rx_qos (attrib f)) (rx_priority (attrib f)) k (rx_ra (attrib f)) (rx_ta (attrib f))).
    { intros x <-. unfold g. cbn. rewrite Eh, Ei, Ee, Em, Ef. done. }
    specialize (Ta mic Ec).
    assert (Def : recvframe_chk_defrag (frags (set_hw_decrypted h s)) g = Ok (frags s, Some g)).
    { unfold recvframe_chk_defrag, defrag_sta. rewrite Ta. cbn [rx_ta rx_mfrag rx_frag_num rx_ra]. change (frags (set_hw_decrypted h s)) with (frags s). rewrite Es.
      cbn [mbind res_bind negb andb Z.eqb]. unfold finish_frame. rewrite Ta. cbn [rx_privacy]. destruct (rx_privacy (attrib f)); [|done].
      unfold recvframe_chkmic. rewrite Ta. cbn [rx_encrypt]. assert (Ne : (enc =? _TKIP_) = false) by (destruct V as [(_ & -> & _)|(_ & -> & _)]; done). rewrite Ne. done. }
    rewrite Def. cbn [mbind res_bind]. rewrite (portctrl_open _ g p); [|rewrite Ta; exact Ep|done].
    assert (Bg : rx_buf g = A ++ (P ++ iv) ++ plain ++ auth ++ B) by (unfold g; cbn [with_bdecrypted with_buf rx_buf]; by flat_app).
    assert (Lg : zlen auth = mic) by exact La. assert (Le : rx_len g = zlen hdr + 8 + zlen plain + mic) by (unfold g; cbn [with_bdecrypted with_buf with_key_index rx_len]; rewrite El; auto).
    assert (Tr : truthy enc = true) by (destruct V as [(_ & -> & _)|(_ & -> & _)]; done).
    destruct (process_msdu_spec d sa g plain) as (g' & Epr & Id & Lg'); try done.
    + destruct Pt as (P1 & P2 & P3). unfold ptrs_ok, rx_end in *. rewrite Bg. change (rx_data g) with (rx_data f). change (rx_tail g) with (rx_tail f). change (rx_len g) with (rx_len f).
      rewrite Eb in P2. unfold sealed, zlen in *. rewrite !length_app in *. lia.
    + rewrite Ta. cbn [rx_hdrlen rx_iv_len]. unfold zlen in *. lia.
    + rewrite Ta. cbn [rx_icv_len]. unfold zlen in *. lia.
    + unfold plain, zlen in *. rewrite length_app, snap_length. lia.
    + unfold msdu_of. rewrite Ta, Le, Bg. cbn [rx_hdrlen rx_iv_len rx_encrypt rx_icv_len]. rewrite Tr.
      replace (A ++ (P ++ iv) ++ plain ++ auth ++ B) with ((A ++ P ++ iv) ++ plain ++ (auth ++ B)) by (by flat_app).
      apply load_at; [unfold g; cbn [with_bdecrypted with_buf with_key_index rx_data]; rewrite Ed; unfold zlen in *; rewrite !length_app; lia|unfold zlen in *; lia].
    + eexists _, g, g'. split; [reflexivity|]. split; [done|]. split; [exact Epr|]. rewrite Lg'. unfold plain.
      rewrite llc_of_snap, alloc_snap_bytes by done. done.
  - intros Nt. destruct (Dec _ _ (Bad tag Lt Nt)) as (k & h & D). cbn [Z.eqb _FAIL _SUCCESS] in D. unfold recv_func_to_port. rewrite D. cbn [mbind res_bind].
    eexists. split; [reflexivity|]. done.
Qed.
End ccmp_path.

(** * Examples *)

#[local] Abbreviation AES := (aes_cipher true).

Definition sample_caches : sta_recv_priv := mk_recv_priv (replicate 16 (replicate 8 0)) 0 (replicate 16 0xffff) (replicate 16 0xffff) 0xffff 0xffff.
Definition sample_peer (blocked : bool) : peer := mk_peer vector_key _AES_ false blocked sample_caches.
(** A station 02:02:... that is linked to 04:04:... under WPA2. *)
Definition sample_adapter (blocked : bool) : rx_adapter :=
  mk_rx_adapter sample_rx_state {[replicate 6 4 := sample_peer blocked]} (replicate 6 2) true dot11AuthAlgrthm_8021X _AES_ _AES_ 0 [] sample_sec
    [0; 0; 0; 0] true false false false [].
Definition data_hdr (fc1 : Z) (seq : Z) : list Z := [0x08; fc1; 0; 0] ++ replicate 6 2 ++ replicate 6 4 ++ replicate 6 6 ++ [u8 (seq .<< 4); u8 (seq .>> 4)].
Definition fresh_attrib : rx_attrib := mk_rx_attrib 0 0 0 0 false false 0 0 false false 0 0 [] [].
Definition raw_rx (bs : list Z) : rx_frame := mk_rx_frame 5 0 fresh_attrib (zlen bs) 0 (zlen bs) bs.
Definition eapol_rx : rx_frame := raw_rx (data_hdr 0x02 7 ++ snap_hdr 0x888e ++ [1; 2; 3]).

Example plain_ip_dropped :
  match recv_func_prehandle false false (sample_adapter false) (raw_rx (data_hdr 0x02 7 ++ snap_hdr 0x0800 ++ [1; 2; 3])) with
  | Ok (s, None) => free_recv (frags s) = [9; 5]%nat | _ => False end.
Proof. vm_compute. reflexivity. Qed.




(** What a closed port lets pass. *)
Definition eapol_accepted : rx_frame :=
  match recv_func_prehandle false false (sample_adapter true) eapol_rx with Ok (_, Some (f, _)) => f | _ => eapol_rx end.

Lemma port_closed_witness :
  exists s' g, @recv_func_to_port _ AES some_malloc 0 (sample_adapter true) eapol_accepted = Ok (s', Some g) /\
    get_be16 (rx_buf g) (rx_data g + rx_hdrlen (attrib g) + rx_iv_len (attrib g) + LLC_HEADER_SIZE) = Ok 0x888e.
Proof.
  destruct (@recv_func_to_port _ AES some_malloc 0 (sample_adapter true) eapol_accepted) as [| | |[s' [g|]]] eqn:E; try (vm_compute in E; discriminate E).
  exists s', g. split; [reflexivity|]. apply (@port_closed _ AES some_malloc 0 (sample_adapter true) eapol_accepted s' g (sample_peer true) E).
  - reflexivity.
  - assert (Et : rx_ta (attrib g) = replicate 6 4) by (vm_compute in E; by injection E as _ <-). rewrite Et. apply lookup_singleton_eq.
  - reflexivity.
Defined.

Definition ccmp_attrib : rx_attrib := mk_rx_attrib 24 8 8 _AES_ true false 7 0 false false 0 0 (replicate 6 2) (replicate 6 4).
Definition ccmp_rx (bs : list Z) : rx_frame := mk_rx_frame 5 0 ccmp_attrib (zlen bs) 0 (zlen bs) bs.

Lemma ccmp_delivery_witness :
  exists crypt auth s' g g', zlen auth = 8 /\
    let m := protected (@ccmp _ AES 0 16 8) (data_hdr 0x02 7) ++ vector_iv ++ crypt ++ auth in
    @_rtw_ccmp_encrypt _ AES some_malloc 0 vector_key 16 24 (data_hdr 0x02 7 ++ vector_iv ++ (snap_hdr 0x0800 ++ seqZ 0 20) ++ zeros 16) 28 = Ok (_SUCCESS, m ++ zeros 8) /\
    @recv_func_to_port _ AES some_malloc 0 (sample_adapter false) (ccmp_rx m) = Ok (s', Some g) /\
    process_msdu (replicate 6 2) (replicate 6 6) g = Ok g' /\
    load (rx_data g') (rx_len g') (rx_buf g') = Ok (replicate 6 2 ++ replicate 6 6 ++ [8; 0] ++ seqZ 0 20).
Proof.
  assert (X : exists c, @encrypt_init _ AES vector_key = Some c) by (eexists; vm_compute; reflexivity). destruct X as [c X].
  destruct (@ccmp_delivery _ AES (aes_cipher_ok true) some_malloc some_malloc_ok 0 16 _AES_ 8 vector_key c (data_hdr 0x02 7) vector_iv 0x0800 (seqZ 0 20) (zeros 16)
    (replicate 6 2) (replicate 6 6)) as (crypt & auth & Lc & La & Enc & Rx).
  1-12: first [by left | exact X | reflexivity | apply Nat.leb_le; reflexivity | split; vm_compute; done | vm_compute; done].
  set (m := protected (@ccmp _ AES 0 16 8) (data_hdr 0x02 7) ++ vector_iv ++ crypt ++ auth) in *.
  assert (Lm : 0 <= zlen m < 100).
  { unfold m, zlen in *. rewrite !length_app, length_protected by (apply Nat.leb_le; reflexivity). change (length (data_hdr 0x02 7)) with 24%nat. change (length vector_iv) with 8%nat.
    change (length (snap_hdr 0x0800 ++ seqZ 0 20)) with 28%nat in Lc. lia. }
  destruct (Rx (sample_adapter false) (sample_peer false) (mk_sta 0 [] []) (ccmp_rx m) [] [] auth) as [Good _].
  - reflexivity.
  - reflexivity.
  - split; first [reflexivity | split; reflexivity].
  - reflexivity.
  - by rewrite app_nil_r.
  - reflexivity.
  - reflexivity.
  - unfold ptrs_ok, rx_end, ccmp_rx. cbn [rx_data rx_tail rx_len rx_buf]. fold (zlen m). lia.
  - destruct (Good eq_refl) as (s' & g & g' & E & _ & P & L). exists crypt, auth, s', g, g'. split; [exact La|]. split; [exact Enc|]. split; [exact E|]. split; [exact P|exact L].
Defined.

(** The index in a vector has two bits and is never beyond the keys. *)
Lemma key_index_in_range b : (WEP_KEYS <? ((b .>> 6) .& 0x3)) = false.
Proof. apply Z.ltb_ge. change 3 with (Z.ones 2). rewrite Z.land_ones by lia. unfold WEP_KEYS. pose proof (Z.mod_pos_bound (b .>> 6) (2 ^ 2)). lia. Qed.

(** A frame outside of a distribution system is taken whatever its destination is. *)
Definition open_adapter : rx_adapter :=
  mk_rx_adapter sample_rx_state {[replicate 6 4 := sample_peer false]} (replicate 6 2) true 0 0 0 0 [] sample_sec [0; 0; 0; 0] true false false false [].
Example other_destination_accepted :
  match recv_func_prehandle false false open_adapter
    (raw_rx ([0x08; 0; 0; 0] ++ replicate 6 0x22 ++ replicate 6 4 ++ replicate 6 4 ++ [0x70; 0] ++ snap_hdr 0x0800 ++ [1; 2; 3])) with
  | Ok (_, Some (f, h)) => h_dst h = replicate 6 0x22 /\ h_dst h <> myhwaddr open_adapter | _ => False end.
Proof. vm_compute. split; [reflexivity|discriminate]. Qed.

(** The packet number of a group frame is remembered before the frame has been decrypted: a
    forged frame with a high number, which decryption refuses, makes the station drop the
    frames of the group that follow. *)
Definition group_adapter : rx_adapter :=
  mk_rx_adapter sample_rx_state {[replicate 6 4 := sample_peer false]} (replicate 6 2) true dot11AuthAlgrthm_8021X _AES_ _AES_ 0 []
    (mk_security [[]; vector_key] 1 true) [0; 0; 0; 0] true false false false [].
Definition group_rx (pn seq : Z) : rx_frame :=
  let bs := [0x08; 0x42; 0; 0] ++ replicate 6 0xff ++ replicate 6 4 ++ replicate 6 6 ++ [u8 (seq .<< 4); 0] ++
    [u8 pn; u8 (pn .>> 8); 0; 0x60; 0; 0; 0; 0] ++ replicate 28 0 in
  mk_rx_frame 5 0 (mk_rx_attrib 0 0 0 _AES_ false false 0 0 false false 0 0 [] []) (zlen bs) 0 (zlen bs) bs.

Example forged_number_blocks :
  (match recv_func_prehandle false false group_adapter (group_rx 5 2) with Ok (_, Some _) => True | _ => False end) /\
  match recv_func_prehandle false false group_adapter (group_rx 1000 1) with
  | Ok (s1, Some (f, _)) =>
      match @recv_func_to_port _ AES some_malloc 0 s1 f with
      | Ok (s2, None) => match recv_func_prehandle false false s2 (group_rx 5 2) with Ok (_, None) => True | _ => False end
      | _ => False
      end
  | _ => False
  end.
Proof. vm_compute. split; exact I. Qed.
